(* ===== verification/_CoqProject ===== *)
-Q . S2P
Prelude.v
LockTable.v
LockQueue.v
LockGraph.v
LockInv.v
LockRelease.v
LockSafety.v
LockDeadlock.v
LockClaims.v
Nid.v
NidOrder.v
NidTree.v
NidBulk.v
NidClaims.v
DateTime.v
DateTimeCal.v
DateTimeNorm.v
DateTimeText.v
DateTimeScan.v
DateTimeRound.v
DurationRound.v
DateTimeSafe.v
DateTimeLexical.v
DateClaims.v
WuBase.v
Snapshots.v
SnGc.v
SnApi.v
SnInv.v
SnPurify.v
SnOps.v
SnEvolve.v
SnExpand.v
SnSystem.v
SnReach.v
SnLive.v
SnNodes.v
SnCheckpoint.v
SnClaims.v
WuAux.v
StGuard.v
StateTable.v
StLayout.v
StRows.v
StOps.v
StBits.v
StFind.v
Clients.v
ClCells.v
ClSpec.v
ClRefine.v
ClOps.v
ClEnum.v
ClClaims.v
Buffers.v
Versions.v
BufInv.v
BufOps.v
BufSwap.v
FreeBlocks.v
FreeStack.v
IsoHeader.v
Iso.v
IsoList.v
IsoCommit.v
IsoUpdate.v
WuFree.v
WuGood.v
WuCalls.v
WuCkpt.v
WuApi.v
VeAlloc.v
VeCreate.v
VeCommit.v
VeRollback.v
WuSystem.v
WuTrans.v
WuReach.v
WuExample.v
WuClaims.v
