(* ===== verification/Prelude.v ===== *)
(** * Sedna: a verification library for the kernel of the Sedna XML database

    Sedna is a native XML database.  A governor process (src/kernel/gov) starts
    one storage manager per database (src/kernel/sm: buffers, versions, locks)
    and one transaction process per session (src/kernel/tr: query compiler and
    executor, node storage, indexes, logging).  A transaction process asks the
    storage manager for locks by messages, labels the nodes of documents so that
    their order and ancestry can be read off the labels, and computes with the
    values of XML Schema.  Readers see snapshots of the blocks, kept by the
    version manager of the storage manager over its buffers, which also keeps a
    state for every client.  These parts are modelled here; the properties of
    the version manager as a whole, over snapshots, versions, buffers and
    clients together, are in WuClaims.v.

    ** The lock manager

    src/kernel/sm/lm (lock_table.cpp, trans_table.cpp, TransCB.h),
    common/lm_base.h, commands 3, 4 and 5 of the message loop of sm/sm.cpp, and
    the client tr/locks/locks.cpp.

    - LockTable.v: the data ([lock_head], [lock_request], [TransCB], the two
      tables, the raised semaphores) as records and stdpp maps, every operation
      as a function on [lm_state]: [lock], [unlock], [release_tr_locks],
      [deadlock] with its recursive [visit], the messages [sm_lock],
      [sm_release] and [sm_unlock], and the client's [put_lock_on_*].  Requests
      are linked by pointers with identities, so that a use of a freed request
      is an error value.  The mutex around each operation makes it atomic.
    - LockQueue.v: one queue: modes, the wake-up loop as a specification.
    - LockGraph.v: depth-first search on an abstract graph; the fuel of [visit]
      is the number of transactions plus one and is shown to be enough.
    - LockInv.v, LockRelease.v: the invariant of the tables and its preservation
      by [lock] and by the release of all locks of a transaction; queues are
      compared up to the pointers of the second list ([same_queue], a setoid).
    - LockSafety.v: the transition system of the messages and the safety of its
      states; LockDeadlock.v: the conflicts between the requests of a queue,
      declaratively, their cycles, and the progress of a queue; LockClaims.v:
      the properties.

    A step of the transition system is one message: a lock message of a
    transaction that does not wait, with any reply, or the release of all locks
    of a transaction.  The victim of a deadlock keeps its locks until its own
    release message comes.  The explicit unlock of one resource (command 5,
    which no caller in the sources sends) is not a step.

    Properties: locks held by two transactions are compatible, unless one of
    them is a victim that has not released its locks; every cycle of conflicting
    requests goes through such a victim; replies are true (2 exactly on a cycle
    of conflicts), and messages never fail; a release grants a prefix of each
    queue and raises the semaphores of exactly the requests it granted; nobody
    waits in vain; the search is exact for the relation it walks; and the
    client's messages mean what the server understands.  The examples at the end
    of LockClaims.v show the limits: what a victim holds beside a new exclusive
    lock, a deadlock through the order of a queue, which the search does not
    see, and what command 5 would do.

    ** The snapshots of the version manager

    src/kernel/sm/wu/wusnapshots.cpp with the clock of wu.cpp.  A block has a
    few versions; a snapshot is a timestamp and the transactions active then; a
    version that was replaced is kept in chains of nodes as long as a snapshot
    needs it.

    - WuBase.v: timestamps, error codes and the monad of the functions that
      return 1 or 0 and keep their effects in both cases.
    - Snapshots.v: the list of snapshots with its chains, and every helper
      function; linked lists are lists, a pointer to a snapshot is its position.
    - SnApi.v: the public functions on the list, the clock and the state block
      of the current client.
    - SnGc.v: which snapshots own a version, read off its place in the chains,
      and what the rotations do to it; SnInv.v: the invariant of the list;
      SnPurify.v: the collection of snapshots; SnOps.v: creation, active
      timestamps, submitted versions; SnEvolve.v: what a call may change;
      SnExpand.v: the version a snapshot sees, declaratively, against the single
      pass of SnExpandDfvHeader.
    - SnSystem.v, SnReach.v: the system of clients and calls, its invariant;
      SnLive.v: when snapshots advance; SnNodes.v, SnCheckpoint.v: the counts of
      garbage and the enumeration for a checkpoint; SnClaims.v: the properties.

    Properties: discarding snapshots frees exactly the blocks nobody needs, the
    states of the system are well formed, no call loses a needed version or the
    persistent snapshot, versions are owned by exactly the snapshots that see
    them, snapshots advance whenever they can, a checkpoint records every
    version once, headers have room.  The callbacks freeBlock and enumProc are
    parameters; the theorems assume that they succeed ([free_total],
    [enum_total]), and versions are enabled.  All recursion is structural.

    ** The clients of the version manager

    src/kernel/sm/wu/wuclients.cpp over the table of wustatetable.cpp and the
    auxiliary functions of wuaux.h and wuaux.cpp.  A client is a row of a table
    in one block of memory; the components of the version manager reserve
    columns and find their state block of a client by a ticket.

    - WuAux.v: rounding, the lowest set bit of a word, guard memory; a block of
      memory is an address with bytes, and an access outside of it an error.
    - StateTable.v: the table with its bitmap of vacant rows, columns, tickets,
      cells and, in debug builds ([DEBUGI]), guards between them.  [DEBUGI] also
      decides assertions: in a release build a failed one is passed over, and
      the null pointer behind it is written through.
    - Clients.v: the static variables as a record, every function of
      wuclients.cpp.
    - StGuard.v: loads, stores and guards against their definition by bytes;
      StLayout.v: tickets, columns and guards of a row; StRows.v: the invariant
      of the table; StOps.v, StBits.v, StFind.v: its operations; ClCells.v:
      reading and writing cells.
    - ClSpec.v: the abstract registry of clients and its calls, beside the same
      calls to the code, and the start as [WuInit] of wu.cpp orders it;
      ClRefine.v, ClOps.v: the simulation; ClEnum.v: the enumeration
      of ready clients; ClClaims.v: the properties.

    Properties: the code replies as the registry, errors included; state blocks
    lie in the table and do not overlap; the enumeration ends and hands over the
    ready clients; guard memory is what its definition by bytes says; and where
    the code departs from its contract.  The allocator and the value of a shift
    by 32 or more bits are parameters ([malloc_ok]: blocks are aligned and fit
    the address space; [shift_mod_32]: the shift count is taken modulo 32, as on
    the supported processors), and so is the callback of the enumeration.  The
    loop over the bits of a word has fuel 32, shown to be enough for a word of
    32 bits; the other loops are structural.

    ** Versions of blocks and buffers

    src/kernel/sm/wu/wuversions.cpp with the calls of wu.cpp that combine
    clients, snapshots, versions and buffers, the buffers and the free blocks of
    the data file of src/kernel/sm/bufmgr (bm_core.cpp, parts of
    bm_functions.cpp and blk_mngmt.cpp), the checkpoint of sm/trmgr.cpp and the write of a page
    (tr/vmm/vmm.h).  An updater that changes a block gets a working copy of its
    page; the old page moves to a new block and is named in the header of the
    copy.  A query finds the page of its snapshot by that header.  A page of the
    persistent snapshot is saved to its new block before the old place is
    overwritten; the flushing dependencies see to it.

    - Buffers.v: pages, the table of buffers, replacement, flushes with the
      callback [OnFlushBuffer], the functions of wu.cpp on buffers; the physical
      log as a list of records of which a part is on the disk.  The requests to
      the system, writes of blocks and barriers (uFlushBuffers), are kept in
      their order ([io]); the file is the file as the system shows it.
    - Versions.v: restrictions, the version a transaction gets, allocation, new
      versions, deletion, commit and rollback.
    - WuApi.v: the calls of transactions and of the server as wu.cpp composes
      them, the phases of a checkpoint, writes to pages.
    - BufInv.v, BufOps.v, BufSwap.v: the buffers as a transparent cache of the
      file, with the class [AllocatorOk] of what the allocator of blocks
      promises to them.
    - FreeBlocks.v: the stack of free blocks, kept in the pages of free blocks
      themselves, and the extension of the data file; FreeStack.v: the stack
      against a list, and the instance of [AllocatorOk].
    - IsoHeader.v: headers as lists of versions; Iso.v: the invariant between
      pages, snapshots and pending functions; IsoList.v, IsoCommit.v,
      IsoUpdate.v: its preservation, on an abstract level.
    - WuFree.v, WuGood.v: the invariant over buffers and file; WuCalls.v,
      WuCkpt.v, VeAlloc.v, VeCreate.v, VeCommit.v, VeRollback.v: the functions
      of snapshots and versions keep it.
    - WuSystem.v, WuTrans.v, WuReach.v: the transition system of all clients and
      the server; WuExample.v: an instance that runs, over the stack of free
      blocks; WuClaims.v: the properties.

    Properties: snapshot isolation of queries over any run; the committed state
    changes by commits only, at once, and by exactly what the transaction did;
    a new snapshot reads the committed state; only the updater that made the
    working version writes to it; the persistent snapshot, damaged or not, is in
    the file between any two calls outside of a checkpoint; flushes end and
    issue their writes in the order of the dependencies, behind barriers;
    headers have room for what undamaged snapshots and the last committed state
    need; the free blocks are a list, and an extension of the file keeps its
    promises.  A snapshot is damaged when a version it needed was left out of a
    header for want of readers; the isolation of Iso.v is that of the undamaged
    ones, and the versions a damaged persistent snapshot keeps are those of the
    chains of Snapshots.v.

    A step is a call that succeeds: a failure inside a rollback, a collection or
    a checkpoint stops the storage manager, and a call that fails before it has
    changed anything is not a step.  What the callers see to is [wu_allowed]:
    the locks of documents keep two updaters from the same block, the semaphores
    of trmgr.cpp keep updaters out of a checkpoint, and a rollback undoes all
    ([rollback_clean]: the code reports success when an undo failed too).
    Parameters: [approve], the
    answer of other transactions to the request to unmap a block; the allocator
    of blocks, which FreeStack.v discharges; and for the free blocks the size of
    a layer, the number of pointers in a node, the largest file, the layout of a
    page ([LayoutOk]), and the timestamps and the test of versions that the
    version manager answers with.  A timestamp taken for a free block is a step
    of its own ([TakeTimestamp]).  The stack of free blocks does not fail when
    some buffer may be taken and no transaction refuses to unmap a free block
    ([ready]).  Versions are
    enabled and the debugging checks are off, as in release builds; with them on
    the functions of Versions.v keep the table of restrictions as the code does.
    The depth of a flush is bounded by the number of dependencies, of which it
    removes one per level (shown to be enough by [flush_ordered]); the search for
    a buffer to replace by the number of used ones, after which the code has the
    list it began with; the loops of an extension by the number of its blocks
    (shown to be enough by [push_blocks_total] and [push_rest_total]); the other
    loops are structural.

    ** Node labels

    src/kernel/tr/nid (numb_scheme.cpp, nid.h, nidalloc.cpp, the comparisons of
    lex.cpp), [createNID] of tr/mo/nodeinsert.cpp and the hints of
    tr/updates/bulkload.cpp.

    - Nid.v: labels as registers of bytes with a size, their operations.
    - NidOrder.v: document order and ancestry of labels, declaratively, and the
      specifications of the operations that make labels.
    - NidTree.v: the comparison functions; documents as trees whose nodes got
      their labels by [createNID] in any order of insertions and deletions.
    - NidBulk.v: the labels of bulk loads and of documents; the children of a
      node with the hint of their level, which the end of an element resets.
    - NidClaims.v: the properties: labels tell positions in every document,
      every insertion finds a label, comparisons are exact, the children of a
      bulk load get labels in their order (for the numbers of children for which
      the hint leaves room), document roots get different labels, registers are
      not shared.

    The loops run over the letters of a label, structurally.  Labels have at
    most [max_label] letters, a parameter of the documents (PSTRMAXSIZE, the
    limit of [nid_assign]); sizes are unsigned shorts that wrap.

    ** Dates, times and durations

    Class XMLDateTime, src/kernel/tr/executor/base/XMLDateTime.{h,cpp}.

    - DateTime.v: the fields, packed forms, conversion, normalization,
      validation and comparison, with [int]s that wrap at 32 bits.
    - DateTimeCal.v: the proleptic calendar as day numbers and the loop that
      brings a day into its month; its fuel is the size of the day plus two,
      and it is shown to end within it.
    - DateTimeNorm.v: normalization and comparison against instants.
    - DateTimeText.v: all parsers and printers, character by character.
    - DateTimeScan.v, DateTimeRound.v, DurationRound.v: what the scanners do on
      a text at a position, and the round trips.
    - DateTimeSafe.v: reads stay in the buffer, accepted values are valid.
    - DateTimeLexical.v: the interface [Lexical] of printers and parsers to
      their clients, with one instance per type.
    - DateClaims.v: the properties: normalization keeps instants and durations,
      comparison is the order of instants (and of fractions, when the first
      value has one), values print and parse back, parsers stay in the buffer.

    Functions on [double] (sums, products and quotients of durations, getSeconds,
    the shift to another zone) are not modelled; they are listed with the parts
    to come below.

    ** What is not modelled

    The storage of labels and strings in blocks (nid_assign, pstr), the B-tree
    and BST-trie indexes, temporary blocks and the reading and writing of the
    master block of the buffer manager, the lexicographic arithmetic of
    lex.cpp (used by tests only), arithmetic on durations, the query compiler and
    executor, the files of the logs and recovery, the governor, the drivers and
    the vendored libraries: they are pure input and output, generated, or over
    the storage of nodes in mapped memory.  Semaphores, mutexes and
    message transport are the operating system's; raising a semaphore is
    recorded in the state.

    ** This file

    Error results with their notation, machine integers, sequences of
    transitions, shared by all parts. *)

From Stdlib Require Import ZArith List Lia Bool.
Import ListNotations.
Local Open Scope Z_scope.

(** ** Notations of the development *)

Declare Scope sedna_scope.
Delimit Scope sedna_scope with sedna.

(** ** Error results

    Code that may throw returns [res E A]: [Ok a] for a normal return and
    [Throw e] for an exception that leaves the function. *)

Inductive res (E A : Type) : Type :=
| Ok (a : A)
| Throw (e : E).
Arguments Ok {E A} a.
Arguments Throw {E A} e.

Definition bind_res {E A B : Type} (c : res E A) (k : A -> res E B) : res E B :=
  match c with
  | Ok a => k a
  | Throw e => Throw e
  end.

Notation "'let*' p ':=' c 'in' k" :=
  (bind_res c (fun p => k))
  (at level 10, p pattern, c at level 100, k at level 200)
  : sedna_scope.

Definition of_option {E A : Type} (e : E) (o : option A) : res E A :=
  match o with
  | Some a => Ok a
  | None => Throw e
  end.

Lemma bind_res_Ok {E A B} (c : res E A) (k : A -> res E B) b :
  bind_res c k = Ok b <-> exists a, c = Ok a /\ k a = Ok b.
Proof.
  destruct c as [a|e]; cbn; split.
  - eauto.
  - intros (a' & [= <-] & H); exact H.
  - discriminate.
  - intros (a' & H & _); discriminate.
Qed.

Lemma of_option_Ok {E A} (e : E) (o : option A) a :
  of_option e o = Ok a <-> o = Some a.
Proof. destruct o; cbn; split; congruence. Qed.

(** [res_inv] opens every successful sequence of calls in the context. *)
Ltac res_inv :=
  repeat match goal with
  | H : bind_res ?c ?k = Ok _ |- _ =>
      apply bind_res_Ok in H;
      let a := fresh "a" in let H1 := fresh "Hb" in
      destruct H as (a & H1 & H)
  | H : of_option _ _ = Ok _ |- _ => apply of_option_Ok in H
  | H : Ok _ = Ok _ |- _ => injection H as H
  | H : Throw _ = Ok _ |- _ => discriminate H
  | H : Ok _ = Throw _ |- _ => discriminate H
  | p : (_ * _)%type |- _ => destruct p; cbn [fst snd] in *
  end; subst; cbn [fst snd] in *.

(** ** Machine integers

    A C++ integer of a fixed width is a [Z]; the operations that can leave
    the range of the type wrap explicitly. *)

Definition INT_MIN : Z := -2147483648.
Definition INT_MAX : Z := 2147483647.
Definition UINT32_MOD : Z := 4294967296.

Definition in_int (z : Z) : Prop := INT_MIN <= z <= INT_MAX.

(** Two's complement wrap-around of a 32-bit [int]. *)
Definition int32 (z : Z) : Z := (z - INT_MIN) mod UINT32_MOD + INT_MIN.

(** Conversion to [unsigned char], [unsigned short] and [unsigned int]. *)
Definition u8 (z : Z) : Z := z mod 256.
Definition u16 (z : Z) : Z := z mod 65536.
Definition u32 (z : Z) : Z := z mod UINT32_MOD.

Lemma int32_small z : in_int z -> int32 z = z.
Proof.
  unfold int32, in_int, INT_MIN, INT_MAX, UINT32_MOD; intros H.
  rewrite Z.mod_small by lia. lia.
Qed.

Lemma int32_range z : in_int (int32 z).
Proof.
  unfold int32, in_int, INT_MIN, INT_MAX, UINT32_MOD.
  pose proof (Z.mod_pos_bound (z - -2147483648) 4294967296). lia.
Qed.

Lemma u8_small z : 0 <= z < 256 -> u8 z = z.
Proof. intros; apply Z.mod_small; lia. Qed.

Lemma u8_range z : 0 <= u8 z < 256.
Proof. apply Z.mod_pos_bound; lia. Qed.

Lemma u16_small z : 0 <= z < 65536 -> u16 z = z.
Proof. intros; apply Z.mod_small; lia. Qed.

Lemma u32_small z : 0 <= z < UINT32_MOD -> u32 z = z.
Proof. intros; apply Z.mod_small; lia. Qed.

(** [int_lia] proves a range side condition of the wrap-around lemmas. *)
Ltac int_lia := unfold in_int, INT_MIN, INT_MAX, UINT32_MOD in *; lia.

(** ** Sequences of transitions *)

Section Star.
Context {A : Type} (R : A -> A -> Prop).

Inductive star : A -> A -> Prop :=
| star_refl a : star a a
| star_step a b c : star a b -> R b c -> star a c.

Lemma star_invariant (P : A -> Prop) :
  (forall a b, P a -> R a b -> P b) ->
  forall a b, star a b -> P a -> P b.
Proof. intros Hstep a b H; induction H; eauto. Qed.
End Star.

Create HintDb sedna.
#[export] Hint Constructors star : sedna.
