(* ===== verification/LockTable.v ===== *)
(** * The lock manager of the storage manager

    Models src/kernel/sm/lm/lock_table.cpp (class [lock_table] with its
    [lock_head] and [lock_request] objects), src/kernel/sm/lm/TransCB.h and
    trans_table.cpp (the per-transaction control blocks), the resource
    identifiers of src/kernel/common/lm_base.h, the lock messages of
    src/kernel/sm/sm.cpp and the client side of them in
    src/kernel/tr/locks/locks.cpp.

    A queue of requests (the chain of [lock_request::queue] pointers that
    starts at [lock_head::queue]) is the list of its requests, in order.  The
    requests of one transaction form a second, doubly linked list through
    [tran_prev] and [tran_next]; these pointers are kept as pointers, because
    the destructor of [lock_request] repairs only one direction of the list.
    A pointer to a request is the key of the table entry whose queue holds it
    and the identity the request got when it was allocated; identities are
    never used twice, so that a pointer to a freed request resolves to
    nothing, and a dereference of it is the error [DANGLING]. *)

From Stdlib Require Import ZArith List Lia Bool Ascii.
From stdpp Require Import base gmap strings list.
From S2P Require Import Prelude.
Local Open Scope Z_scope.
Local Open Scope sedna_scope.

(** ** Data *)

Definition transaction_id := Z.
Definition session_id := Z.

Inductive resource_kind :=
| LM_DOCUMENT | LM_COLLECTION | LM_INDEX | LM_TRIGGER | LM_DATABASE.

Inductive lock_mode := NULL_LOCK | lm_s | lm_x | lm_is | lm_ix | lm_six.

Inductive lock_reply := LOCK_OK | LOCK_TIMEOUT | LOCK_DEADLOCK | LOCK_NOT_LOCKED.

Inductive lock_status :=
| LOCK_GRANTED | LOCK_CONVERTING | LOCK_WAITING | LOCK_DENIED | NONE_STATUS.

Inductive lock_class :=
| LOCK_INSTANT | LOCK_SHORT | LOCK_MEDIUM | LOCK_LONG | LOCK_VERY_LONG.

Inductive tran_status := NORMAL_PROCESSING | ROLLING_BACK_AFTER_DEADLOCK.

#[global] Instance resource_kind_eq_dec : EqDecision resource_kind.
Proof. solve_decision. Defined.
#[global] Instance lock_mode_eq_dec : EqDecision lock_mode.
Proof. solve_decision. Defined.
#[global] Instance lock_status_eq_dec : EqDecision lock_status.
Proof. solve_decision. Defined.
#[global] Instance tran_status_eq_dec : EqDecision tran_status.
Proof. solve_decision. Defined.

Record resource_id := mk_resource { res_name : string; kind : resource_kind }.

Definition get_str_res_id (r : resource_id) : string :=
  match kind r with
  | LM_DOCUMENT => "_doc_" +:+ res_name r
  | LM_COLLECTION => "_col_" +:+ res_name r
  | LM_INDEX => "_ind_" +:+ res_name r
  | LM_TRIGGER => "_trg_" +:+ res_name r
  | LM_DATABASE => "_dtb_" +:+ res_name r
  end.

(** A pointer to a request: the key of its queue and its identity. *)
Definition rptr : Type := string * nat.

Record lock_request := mk_request {
  rid : nat;
  head : string;
  status : lock_status;
  mode : lock_mode;
  convert_mode : lock_mode;
  count : Z;
  class_ : lock_class;
  process_xsem : session_id;
  tran : transaction_id;
  tran_prev : option rptr;
  tran_next : option rptr }.

Record lock_head := mk_head {
  r_id : resource_id;
  queue : list lock_request;
  granted_mode : lock_mode;
  waiting : bool }.

Record TransCB := mk_TransCB {
  locks : option rptr;
  wait : option rptr;
  tr_status : tran_status }.

(** The two tables, the identity of the next request to be allocated and the
    sessions whose semaphore was raised, in order. *)
Record lm_state := mk_lm {
  l_table : gmap string lock_head;
  tr_table : gmap Z TransCB;
  next_rid : nat;
  sem_ups : list session_id }.

Inductive lm_exn := SE4701 | SE4705 | SYSTEM_EXCEPTION | DANGLING | NO_FUEL.

Definition init_lm : lm_state := mk_lm ∅ ∅ 0 [].

(** *** Field updates *)

Definition set_status s (r : lock_request) : lock_request :=
  mk_request (rid r) (head r) s (mode r) (convert_mode r) (count r) (class_ r)
    (process_xsem r) (tran r) (tran_prev r) (tran_next r).
Definition set_mode m (r : lock_request) : lock_request :=
  mk_request (rid r) (head r) (status r) m (convert_mode r) (count r) (class_ r)
    (process_xsem r) (tran r) (tran_prev r) (tran_next r).
Definition set_convert_mode m (r : lock_request) : lock_request :=
  mk_request (rid r) (head r) (status r) (mode r) m (count r) (class_ r)
    (process_xsem r) (tran r) (tran_prev r) (tran_next r).
Definition set_tran_prev p (r : lock_request) : lock_request :=
  mk_request (rid r) (head r) (status r) (mode r) (convert_mode r) (count r) (class_ r)
    (process_xsem r) (tran r) p (tran_next r).
Definition set_tran_next p (r : lock_request) : lock_request :=
  mk_request (rid r) (head r) (status r) (mode r) (convert_mode r) (count r) (class_ r)
    (process_xsem r) (tran r) (tran_prev r) p.

Definition set_queue q (h : lock_head) : lock_head :=
  mk_head (r_id h) q (granted_mode h) (waiting h).
Definition set_granted_mode m (h : lock_head) : lock_head :=
  mk_head (r_id h) (queue h) m (waiting h).
Definition set_waiting b (h : lock_head) : lock_head :=
  mk_head (r_id h) (queue h) (granted_mode h) b.

Definition set_locks p (t : TransCB) : TransCB := mk_TransCB p (wait t) (tr_status t).
Definition set_wait p (t : TransCB) : TransCB := mk_TransCB (locks t) p (tr_status t).
Definition set_tr_status s (t : TransCB) : TransCB := mk_TransCB (locks t) (wait t) s.

Definition set_l_table t (st : lm_state) : lm_state :=
  mk_lm t (tr_table st) (next_rid st) (sem_ups st).
Definition set_tr_table t (st : lm_state) : lm_state :=
  mk_lm (l_table st) t (next_rid st) (sem_ups st).
Definition add_sem_ups l (st : lm_state) : lm_state :=
  mk_lm (l_table st) (tr_table st) (next_rid st) (sem_ups st ++ l).

(** ** Modes *)

Definition lock_compat (m1 m2 : lock_mode) : bool :=
  match m1, m2 with
  | NULL_LOCK, _ | _, NULL_LOCK => true
  | lm_is, lm_is => true
  | lm_is, lm_ix => true
  | lm_is, lm_s => true
  | lm_is, lm_x => false
  | lm_is, lm_six => true
  | lm_ix, lm_is => true
  | lm_ix, lm_ix => true
  | lm_ix, lm_s => false
  | lm_ix, lm_x => false
  | lm_ix, lm_six => false
  | lm_s, lm_is => true
  | lm_s, lm_ix => false
  | lm_s, lm_s => true
  | lm_s, lm_x => false
  | lm_s, lm_six => false
  | lm_x, lm_is => false
  | lm_x, lm_ix => false
  | lm_x, lm_s => false
  | lm_x, lm_x => false
  | lm_x, lm_six => false
  | lm_six, lm_is => true
  | lm_six, lm_ix => false
  | lm_six, lm_s => false
  | lm_six, lm_x => false
  | lm_six, lm_six => false
  end.

Definition lock_max (m1 m2 : lock_mode) : lock_mode :=
  match m1, m2 with
  | NULL_LOCK, _ => m2
  | _, NULL_LOCK => m1
  | lm_x, _ | _, lm_x => lm_x
  | lm_six, _ | _, lm_six => lm_six
  | lm_is, lm_is => lm_is
  | lm_is, lm_ix => lm_ix
  | lm_ix, lm_is => lm_ix
  | lm_ix, lm_ix => lm_ix
  | lm_s, lm_is => lm_s
  | lm_is, lm_s => lm_s
  | lm_s, lm_ix => lm_six
  | lm_ix, lm_s => lm_six
  | lm_s, lm_s => lm_s
  end.

(** ** Pointers and the transaction table *)

Definition find_tr_lock_head (st : lm_state) (tr_id : transaction_id) : option TransCB :=
  tr_table st !! tr_id.

(** [std::map::insert] leaves an existing entry alone. *)
Definition insert_tr_lock_head (st : lm_state) (tr_id : transaction_id) (t : TransCB) : lm_state :=
  match tr_table st !! tr_id with
  | Some _ => st
  | None => set_tr_table (<[tr_id := t]> (tr_table st)) st
  end.

Definition remove_tr (st : lm_state) (tr_id : transaction_id) : lm_state :=
  set_tr_table (delete tr_id (tr_table st)) st.

(** A write through the [tran] pointer of a request. *)
Definition update_tran (st : lm_state) (tr_id : transaction_id) (f : TransCB -> TransCB)
  : res lm_exn lm_state :=
  let* t := of_option DANGLING (tr_table st !! tr_id) in
  Ok (set_tr_table (<[tr_id := f t]> (tr_table st)) st).

Definition has_rid (n : nat) (r : lock_request) : bool := Nat.eqb (rid r) n.

Definition find_request (st : lm_state) (p : rptr) : option lock_request :=
  h ← l_table st !! p.1; List.find (has_rid p.2) (queue h).

(** A write through a pointer to a request. *)
Definition update_request (st : lm_state) (p : rptr) (f : lock_request -> lock_request)
  : res lm_exn lm_state :=
  match l_table st !! p.1, find_request st p with
  | Some h, Some _ =>
      let q := map (fun r => if has_rid p.2 r then f r else r) (queue h) in
      Ok (set_l_table (<[p.1 := set_queue q h]> (l_table st)) st)
  | _, _ => Throw DANGLING
  end.

(** The walk [for (r = locks; r != NULL; r = r->tran_next) last = r;]. *)
Fixpoint last_of_tran (fuel : nat) (st : lm_state) (p last : option rptr)
  : res lm_exn (option rptr) :=
  match p with
  | None => Ok last
  | Some q =>
      match fuel with
      | O => Throw NO_FUEL
      | S fuel =>
          let* r := of_option DANGLING (find_request st q) in
          last_of_tran fuel st (tran_next r) (Some q)
      end
  end.

(** The constructor of [lock_request].  The new request is not yet in a
    queue; the caller links it. *)
Definition new_lock_request (st : lm_state) (tr_id : transaction_id) (s_id : session_id)
    (l_h : string) (m : lock_mode) (c : lock_class) : res lm_exn (lm_state * lock_request) :=
  let this := next_rid st in
  let st := mk_lm (l_table st) (tr_table st) (S this) (sem_ups st) in
  let request prev :=
    mk_request this l_h LOCK_GRANTED m NULL_LOCK 1 c s_id tr_id prev None in
  match find_tr_lock_head st tr_id with
  | None =>
      let trCB := mk_TransCB (Some (l_h, this)) None NORMAL_PROCESSING in
      Ok (insert_tr_lock_head st tr_id trCB, request None)
  | Some tr_l_h =>
      let* last := last_of_tran this st (locks tr_l_h) None in
      let* last := of_option DANGLING last in
      let* st := update_request st last (set_tran_next (Some (l_h, this))) in
      Ok (st, request (Some last))
  end.

(** The destructor of [lock_request], run when the request has left its
    queue.  The [tran_prev] pointer of the next request is reset only when
    the deleted request was the first of its transaction. *)
Definition delete_lock_request (st : lm_state) (r : lock_request) : res lm_exn lm_state :=
  match find_tr_lock_head st (tran r) with
  | None => Throw SE4701
  | Some _ =>
      match tran_prev r with
      | None =>
          match tran_next r with
          | None => Ok (remove_tr st (tran r))
          | Some n =>
              let* st := update_tran st (tran r) (set_locks (Some n)) in
              update_request st n (set_tran_prev None)
          end
      | Some p => update_request st p (set_tran_next (tran_next r))
      end
  end.

(** ** lock *)

Definition find_lock (st : lm_state) (r : resource_id) : option lock_head :=
  l_table st !! get_str_res_id r.

Definition owned_by (tr_id : transaction_id) (r : lock_request) : bool := Z.eqb (tran r) tr_id.

(** Requests that hold a lock: granted ones and converting ones. *)
Definition holds (r : lock_request) : bool :=
  bool_decide (status r = LOCK_GRANTED) || bool_decide (status r = LOCK_CONVERTING).

(** The test of the conversion loop of [lock]. *)
Definition blocks_conversion (me : transaction_id) (cm : lock_mode) (r : lock_request) : bool :=
  holds r && negb (owned_by me r) && negb (lock_compat (mode r) cm).

Definition lock (st : lm_state) (tr_id : transaction_id) (s_id : session_id)
    (res_id : resource_id) (m : lock_mode) (c : lock_class)
  : res lm_exn (lm_state * lock_reply) :=
  let key := get_str_res_id res_id in
  match find_lock st res_id with
  | None =>
      (* lock is free case *)
      let* (st, request) := new_lock_request st tr_id s_id key m c in
      let lock := mk_head res_id [request] m false in
      Ok (set_l_table (<[key := lock]> (l_table st)) st, LOCK_OK)
  | Some lock =>
      match List.find (owned_by tr_id) (queue lock) with
      | None =>
          (* a new request for this resource by this transaction *)
          let* (st, request) := new_lock_request st tr_id s_id key m c in
          let* lock := of_option DANGLING (l_table st !! key) in
          match queue lock with
          | [] => Throw DANGLING
          | _ :: _ =>
              if negb (waiting lock) && lock_compat m (granted_mode lock) then
                let lock := set_queue (queue lock ++ [request]) lock in
                let lock := set_granted_mode (lock_max m (granted_mode lock)) lock in
                Ok (set_l_table (<[key := lock]> (l_table st)) st, LOCK_OK)
              else
                let request := set_status LOCK_WAITING request in
                let lock := set_waiting true (set_queue (queue lock ++ [request]) lock) in
                let st := set_l_table (<[key := lock]> (l_table st)) st in
                let* st := update_tran st tr_id (set_wait (Some (key, rid request))) in
                Ok (st, LOCK_NOT_LOCKED)
          end
      | Some request =>
          (* re-request for this transaction (conversion case) *)
          let cm := lock_max (mode request) m in
          let this := (key, rid request) in
          if existsb (blocks_conversion (tran request) cm) (queue lock) then
            let* st := update_request st this
                         (fun r => set_status LOCK_CONVERTING (set_convert_mode cm r)) in
            let* st := update_tran st (tran request) (set_wait (Some this)) in
            let* lock := of_option DANGLING (l_table st !! key) in
            Ok (set_l_table (<[key := set_waiting true lock]> (l_table st)) st, LOCK_NOT_LOCKED)
          else
            let* st := update_request st this
                         (fun r => set_convert_mode NULL_LOCK
                                     (set_status LOCK_GRANTED (set_mode cm r))) in
            let* lock := of_option DANGLING (l_table st !! key) in
            let lock := set_granted_mode (lock_max (granted_mode lock) cm) lock in
            Ok (set_l_table (<[key := lock]> (l_table st)) st, LOCK_OK)
      end
  end.

(** ** unlock *)

(** The variables the wake-up loop of [unlock] changes, apart from the
    requests: the group mode and waiting flag of the head, the local flag
    [convert_request_waiting], the control blocks and the raised semaphores. *)
Record wake_state := mk_wake {
  w_granted_mode : lock_mode;
  w_waiting : bool;
  w_convert_waiting : bool;
  w_trans : gmap Z TransCB;
  w_ups : list session_id }.

Definition w_group (m : lock_mode) (w : wake_state) : wake_state :=
  mk_wake (lock_max m (w_granted_mode w)) (w_waiting w) (w_convert_waiting w)
    (w_trans w) (w_ups w).

(** [request->tran->wait = NULL], then the semaphore of the request is raised
    unless its transaction is being rolled back after a deadlock. *)
Definition w_wake (r : lock_request) (w : wake_state) : res lm_exn wake_state :=
  let* t := of_option DANGLING (w_trans w !! tran r) in
  let trans := <[tran r := set_wait None t]> (w_trans w) in
  let ups := if bool_decide (tr_status t = ROLLING_BACK_AFTER_DEADLOCK) then w_ups w
             else w_ups w ++ [process_xsem r] in
  Ok (mk_wake (w_granted_mode w) (w_waiting w) (w_convert_waiting w) trans ups).

(** The test of the nested loop over the whole queue. *)
Definition blocks_convert_wake (request r : lock_request) : bool :=
  bool_decide (status r = LOCK_GRANTED) && negb (owned_by (tran request) r)
  && negb (lock_compat (convert_mode request) (mode r)).

(** The loop over the queue: [pre] are the requests already passed (with their
    new contents), [todo] the rest. *)
Fixpoint wake_loop (pre todo : list lock_request) (w : wake_state)
  : res lm_exn (list lock_request * wake_state) :=
  match todo with
  | [] => Ok (pre, w)
  | request :: rest =>
      if w_convert_waiting w then
        match status request with
        | LOCK_GRANTED | LOCK_CONVERTING =>
            wake_loop (pre ++ [request]) rest (w_group (mode request) w)
        | LOCK_WAITING => Ok (pre ++ todo, w)
        | _ => Throw SE4701
        end
      else
        match status request with
        | LOCK_GRANTED =>
            wake_loop (pre ++ [request]) rest (w_group (mode request) w)
        | LOCK_WAITING =>
            if lock_compat (mode request) (w_granted_mode w) then
              let* w := w_wake request w in
              wake_loop (pre ++ [set_status LOCK_GRANTED request]) rest
                (w_group (mode request) w)
            else
              Ok (pre ++ todo,
                  mk_wake (w_granted_mode w) true (w_convert_waiting w) (w_trans w) (w_ups w))
        | LOCK_CONVERTING =>
            if existsb (blocks_convert_wake request) (pre ++ todo) then
              wake_loop (pre ++ [request]) rest
                (mk_wake (w_granted_mode w) true true (w_trans w) (w_ups w))
            else
              let* w := w_wake request w in
              let granted := set_mode (convert_mode request) (set_status LOCK_GRANTED request) in
              wake_loop (pre ++ [set_convert_mode NULL_LOCK granted]) rest
                (w_group (convert_mode request) w)
        | _ => Throw SE4701
        end
  end.

Definition unlock (st : lm_state) (tr_id : transaction_id) (res_id : resource_id)
  : res lm_exn (lm_state * lock_reply) :=
  match find_lock st res_id with
  | None => Ok (st, LOCK_OK)
  | Some lock =>
      let key := get_str_res_id res_id in
      match List.find (owned_by tr_id) (queue lock) with
      | None => Ok (st, LOCK_OK)
      | Some request =>
          (* remove the request of the transaction from the queue *)
          let q := List.filter (fun r => negb (has_rid (rid request) r)) (queue lock) in
          match q with
          | [] =>
              (* only one request in the queue *)
              let* st := delete_lock_request st request in
              Ok (set_l_table (delete (get_str_res_id (r_id lock)) (l_table st)) st, LOCK_OK)
          | _ :: _ =>
              let st := set_l_table (<[key := set_queue q lock]> (l_table st)) st in
              let* st := delete_lock_request st request in
              let* lock := of_option DANGLING (l_table st !! key) in
              let* (q, w) := wake_loop [] (queue lock)
                               (mk_wake NULL_LOCK false false (tr_table st) []) in
              let lock := mk_head (r_id lock) q (w_granted_mode w) (w_waiting w) in
              let st := mk_lm (<[key := lock]> (l_table st)) (w_trans w) (next_rid st)
                          (sem_ups st ++ w_ups w) in
              Ok (st, LOCK_OK)
          end
      end
  end.

(** ** release_tr_locks *)

Fixpoint release_loop (fuel : nat) (st : lm_state) (tr_id : transaction_id) (p : option rptr)
  : res lm_exn lm_state :=
  match p with
  | None => Ok st
  | Some q =>
      match fuel with
      | O => Throw NO_FUEL
      | S fuel =>
          let* request := of_option DANGLING (find_request st q) in
          let* h := of_option DANGLING (l_table st !! head request) in
          let next := tran_next request in
          let* (st, _) := unlock st tr_id (r_id h) in
          release_loop fuel st tr_id next
      end
  end.

Definition release_tr_locks (st : lm_state) (tr_id : transaction_id)
  : res lm_exn (lm_state * lock_reply) :=
  match find_tr_lock_head st tr_id with
  | None => Ok (st, LOCK_OK)
  | Some tr_head =>
      let* st := release_loop (next_rid st) st tr_id (locks tr_head) in
      Ok (st, LOCK_OK)
  end.

(** ** Deadlock detection *)

(** The requests ahead of a waiting request that are visited. *)
Fixpoint blockers_waiting (me : transaction_id) (m : lock_mode) (q : list lock_request)
  : list transaction_id :=
  match q with
  | [] => []
  | them :: q =>
      if owned_by me them then []
      else
        let rest := blockers_waiting me m q in
        if negb (lock_compat (mode them) m)
           || (bool_decide (status them = LOCK_CONVERTING)
               && negb (lock_compat (convert_mode them) m))
        then tran them :: rest else rest
  end.

(** The holders that are visited for a converting request. *)
Fixpoint blockers_converting (me : transaction_id) (cm : lock_mode) (ahead_me : bool)
    (q : list lock_request) : list transaction_id :=
  match q with
  | [] => []
  | them :: q =>
      if bool_decide (status them = LOCK_WAITING) then []
      else if owned_by me them then blockers_converting me cm false q
      else
        let rest := blockers_converting me cm ahead_me q in
        if (ahead_me && (negb (lock_compat (mode them) cm)
                         || (bool_decide (status them = LOCK_CONVERTING)
                             && negb (lock_compat (convert_mode them) cm))))
           || (negb ahead_me && negb (lock_compat (mode them) cm))
        then tran them :: rest else rest
  end.

(** The transactions [visit] goes to from [me], in order. *)
Definition successors (st : lm_state) (me : transaction_id) : res lm_exn (list transaction_id) :=
  let* t := of_option DANGLING (tr_table st !! me) in
  match wait t with
  | None => Ok []
  | Some p =>
      let* r := of_option DANGLING (find_request st p) in
      let* h := of_option DANGLING (l_table st !! head r) in
      Ok (if bool_decide (status r = LOCK_WAITING)
          then blockers_waiting me (mode r) (queue h)
          else blockers_converting me (convert_mode r) true (queue h))
  end.

(** The array [nodesVisited] up to [nVisited], in order. *)
Definition visited_list := list transaction_id.

Section VisitAll.
Variable visit : visited_list -> transaction_id -> res lm_exn visited_list.

Fixpoint visit_all (visited : visited_list) (l : list transaction_id)
  : res lm_exn visited_list :=
  match l with
  | [] => Ok visited
  | t :: l => let* visited := visit visited t in visit_all visited l
  end.
End VisitAll.

Fixpoint visit (fuel : nat) (st : lm_state) (visited : visited_list) (me : transaction_id)
  : res lm_exn visited_list :=
  match fuel with
  | O => Throw NO_FUEL
  | S fuel =>
      let* t := of_option DANGLING (tr_table st !! me) in
      match wait t with
      | None => Ok visited
      | Some _ =>
          if bool_decide (me ∈ visited) then
            if bool_decide (hd_error visited = Some me) then Throw SE4705
            else Ok visited
          else
            let* succ := successors st me in
            visit_all (visit fuel st) (visited ++ [me]) succ
      end
  end.

(** A nested call of [visit] has one more transaction among the visited ones,
    so that one more level than there are transactions is enough. *)
Definition visit_fuel (st : lm_state) : nat := S (size (tr_table st)).

Definition deadlock (st : lm_state) (trid : transaction_id) : res lm_exn bool :=
  match tr_table st !! trid with
  | None => Throw SYSTEM_EXCEPTION
  | Some _ =>
      match visit (visit_fuel st) st [] trid with
      | Ok _ => Ok false
      | Throw SE4705 => Ok true
      | Throw e => Throw e
      end
  end.

(** ** The lock messages of the storage manager

    Commands 3, 4 and 5 of the message loop of sm.cpp.  [d0] and [d1] are the
    first two bytes of the message, [name] the string after them. *)

Definition sm_lock_mode (d0 : ascii) : lock_mode :=
  if bool_decide (d0 = "s"%char) then lm_s
  else if bool_decide (d0 = "x"%char) then lm_x
  else if bool_decide (d0 = "r"%char) then lm_is
  else lm_ix.

Definition sm_resource_kind (d1 : ascii) : resource_kind :=
  if bool_decide (d1 = "d"%char) then LM_DOCUMENT
  else if bool_decide (d1 = "c"%char) then LM_COLLECTION
  else if bool_decide (d1 = "i"%char) then LM_INDEX
  else if bool_decide (d1 = "t"%char) then LM_TRIGGER
  else LM_DATABASE.

Definition sm_lock (st : lm_state) (trid : transaction_id) (sid : session_id)
    (d0 d1 : ascii) (name : string) : res lm_exn (lm_state * ascii) :=
  let* (st, r) := lock st trid sid (mk_resource name (sm_resource_kind d1))
                    (sm_lock_mode d0) LOCK_LONG in
  match r with
  | LOCK_OK => Ok (st, "1"%char)
  | _ =>
      let* dl := match r with
                 | LOCK_NOT_LOCKED => deadlock st trid
                 | _ => Ok true
                 end in
      if negb dl then Ok (st, "0"%char)
      else
        match find_tr_lock_head st trid with
        | None => Throw SYSTEM_EXCEPTION
        | Some t =>
            Ok (set_tr_table
                  (<[trid := set_tr_status ROLLING_BACK_AFTER_DEADLOCK t]> (tr_table st)) st,
                "2"%char)
        end
  end.

Definition sm_release (st : lm_state) (trid : transaction_id) : res lm_exn lm_state :=
  let* (st, _) := release_tr_locks st trid in Ok st.

Definition sm_unlock (st : lm_state) (trid : transaction_id) (d1 : ascii) (name : string)
  : res lm_exn lm_state :=
  let* (st, _) := unlock st trid (mk_resource name (sm_resource_kind d1)) in Ok st.

(** ** The client side: LocalLockMgr of the transaction process *)

Inductive client_exn := SE4702 | SE4703 | SE4704 | SE4706.

(** A lock message as the transaction process sends it. *)
Record lock_msg := mk_msg { msg_data0 : ascii; msg_data1 : ascii; msg_name : string }.

Definition getCharFromResource (k : resource_kind) : ascii :=
  match k with
  | LM_DOCUMENT => "d"%char
  | LM_COLLECTION => "c"%char
  | LM_INDEX => "i"%char
  | LM_TRIGGER => "t"%char
  | LM_DATABASE => "b"%char
  end.

Definition MAX_RESOURCE_NAME_LENGTH : nat := 100.

(** [obtain_lock] up to the point where the message is sent; [None] when the
    transaction is read-only and needs no lock. *)
Definition obtain_lock_msg (tr_ro_mode : bool) (m : lock_mode) (name : string)
    (k : resource_kind) (intention_mode : bool) : res client_exn (option lock_msg) :=
  if tr_ro_mode && bool_decide (m = lm_x) then Throw SE4706
  else if tr_ro_mode then Ok None
  else
    let d0 := if negb intention_mode
              then (if bool_decide (m = lm_s) then "s"%char else "x"%char)
              else (if bool_decide (m = lm_s) then "r"%char else "w"%char) in
    Ok (Some (mk_msg d0 (getCharFromResource k) name)).

(** What [obtain_lock] does with the reply: [true] when it blocks on its
    semaphore before it goes on. *)
Definition obtain_lock_reply (c : ascii) : res client_exn bool :=
  if bool_decide (c = "0"%char) then Ok true
  else if bool_decide (c = "1"%char) then Ok false
  else if bool_decide (c = "2"%char) then Throw SE4703
  else Throw SE4704.

(** [put_lock_on_document], [_collection], [_index] and [_trigger]: an
    intention lock on the database, then the lock on the entity. *)
Definition put_lock_on_entity (tr_ro_mode : bool) (m : lock_mode) (db_name name : string)
    (k : resource_kind) : res client_exn (list (option lock_msg)) :=
  if Nat.ltb (MAX_RESOURCE_NAME_LENGTH - 1) (String.length name) then Throw SE4702
  else
    let* m1 := obtain_lock_msg tr_ro_mode m db_name LM_DATABASE true in
    let* m2 := obtain_lock_msg tr_ro_mode m name k false in
    Ok [m1; m2].

Definition put_lock_on_db (tr_ro_mode : bool) (m : lock_mode) (db_name : string)
  : res client_exn (list (option lock_msg)) :=
  if Nat.ltb (MAX_RESOURCE_NAME_LENGTH - 1) (String.length db_name) then Throw SE4702
  else let* m1 := obtain_lock_msg tr_ro_mode m db_name LM_DATABASE false in Ok [m1].
