(* ===== verification/LockQueue.v ===== *)
(** * One lock queue: groups, compatibility and the wake-up loop

    Facts about the mode lattice and about the queue of a single resource:
    the group of the holders, the shape every queue keeps (holders first,
    waiters behind them) and what the wake-up loop of [unlock] does to it. *)

From Stdlib Require Import ZArith List Lia Bool.
From stdpp Require Import base gmap strings list.
From S2P Require Import Prelude LockTable.
Local Open Scope sedna_scope.

(** ** The mode lattice *)

Lemma lock_compat_sym a b : lock_compat a b = lock_compat b a.
Proof. by destruct a, b. Qed.

Lemma lock_max_comm a b : lock_max a b = lock_max b a.
Proof. by destruct a, b. Qed.

Lemma lock_max_assoc a b c : lock_max a (lock_max b c) = lock_max (lock_max a b) c.
Proof. by destruct a, b, c. Qed.

Lemma lock_max_null_r a : lock_max a NULL_LOCK = a.
Proof. by destruct a. Qed.

Lemma lock_compat_max a b c :
  lock_compat (lock_max a b) c = lock_compat a c && lock_compat b c.
Proof. by destruct a, b, c. Qed.

Lemma lock_compat_null_r a : lock_compat a NULL_LOCK = true.
Proof. by destruct a. Qed.

Lemma lock_compat_null_l a : lock_compat NULL_LOCK a = true.
Proof. by destruct a. Qed.


(** ** Requests and groups *)

Lemma holds_spec r : holds r = true <-> status r = LOCK_GRANTED \/ status r = LOCK_CONVERTING.
Proof. unfold holds. rewrite orb_true_iff, !bool_decide_eq_true. done. Qed.

Definition is_granted (r : lock_request) : Prop := status r = LOCK_GRANTED.
Definition is_holder (r : lock_request) : Prop := holds r = true.
Definition is_waiter (r : lock_request) : Prop := status r = LOCK_WAITING.
Definition is_converter (r : lock_request) : Prop := status r = LOCK_CONVERTING.

Lemma granted_holds r : is_granted r -> is_holder r.
Proof. unfold is_holder. rewrite holds_spec. by left. Qed.

Lemma converter_holds r : is_converter r -> is_holder r.
Proof. unfold is_holder. rewrite holds_spec. by right. Qed.

Lemma waiter_not_holds r : is_waiter r -> holds r = false.
Proof. unfold is_waiter, holds. intros ->. done. Qed.

#[export] Hint Resolve granted_holds converter_holds waiter_not_holds : sedna.

(** The join of the modes of the holders. *)
Definition group (q : list lock_request) : lock_mode :=
  foldr (fun r m => if holds r then lock_max (mode r) m else m) NULL_LOCK q.

Lemma group_app q1 q2 : group (q1 ++ q2) = lock_max (group q1) (group q2).
Proof.
  unfold group. induction q1 as [|r q1 IH]; cbn; [done|].
  destruct (holds r); rewrite IH; [by rewrite lock_max_assoc|done].
Qed.

Lemma group_snoc q r : is_holder r -> group (q ++ [r]) = lock_max (mode r) (group q).
Proof.
  intros Hr. rewrite group_app. cbn. rewrite Hr, lock_max_null_r.
  apply lock_max_comm.
Qed.

Lemma compat_group m q :
  lock_compat m (group q) = true <->
  Forall (fun r => is_holder r -> lock_compat m (mode r) = true) q.
Proof.
  induction q as [|r q IH]; cbn.
  - by rewrite lock_compat_null_r.
  - rewrite Forall_cons, <- IH. unfold is_holder. destruct (holds r).
    + rewrite lock_compat_sym, lock_compat_max, andb_true_iff, !(lock_compat_sym _ m). intuition congruence.
    + intuition congruence.
Qed.

(** Transactions that were chosen as the victim of a deadlock and have not
    released their locks yet. *)
Definition victim (X : gmap Z TransCB) (a : transaction_id) : bool :=
  match X !! a with
  | Some t => bool_decide (tr_status t = ROLLING_BACK_AFTER_DEADLOCK)
  | None => false
  end.

(** Neither of two requests is of a transaction of [V]. *)
Definition both_live (V : transaction_id -> bool) (a b : lock_request) : Prop :=
  V (tran a) = false /\ V (tran b) = false.

(** Two holders, neither of them of a transaction of [V], may stand together. *)
Definition compatible (V : transaction_id -> bool) (a b : lock_request) : Prop :=
  both_live V a b -> is_holder a -> is_holder b -> lock_compat (mode a) (mode b) = true.

Lemma both_live_sym V a b : both_live V a b -> both_live V b a.
Proof. unfold both_live. tauto. Qed.

Lemma compatible_sym V a b : compatible V a b -> compatible V b a.
Proof. unfold compatible. rewrite (lock_compat_sym (mode b)). auto using both_live_sym. Qed.

(** The safety condition of a queue: the holders are pairwise compatible. *)
Definition group_safe (V : transaction_id -> bool) (q : list lock_request) : Prop :=
  ForallOrdPairs (compatible V) q.

(** The shape of a queue: holders first, then waiters. *)
Definition queue_shape (q : list lock_request) : Prop :=
  exists q1 q2, q = q1 ++ q2 /\ Forall is_holder q1 /\ Forall is_waiter q2.

(** No pending conversion conflicts with what a converter behind it holds. *)
Definition conversion_order (V : transaction_id -> bool) (a b : lock_request) : Prop :=
  both_live V a b -> is_converter a -> is_converter b ->
  lock_compat (convert_mode a) (mode b) = true.

Definition no_conversion_conflict (V : transaction_id -> bool) (q : list lock_request) : Prop :=
  ForallOrdPairs (conversion_order V) q.

Definition all_granted (q : list lock_request) : Prop := Forall is_granted q.

Definition some_waiting (q : list lock_request) : bool :=
  existsb (fun r => negb (bool_decide (status r = LOCK_GRANTED))) q.

Lemma some_waiting_false q : some_waiting q = false <-> all_granted q.
Proof.
  unfold some_waiting, all_granted, is_granted. induction q as [|r q IH]; cbn; [done|].
  rewrite orb_false_iff, negb_false_iff, bool_decide_eq_true, IH, Forall_cons. done.
Qed.

Lemma some_waiting_true q r :
  In r q -> status r <> LOCK_GRANTED -> some_waiting q = true.
Proof.
  intros Hin Hr. unfold some_waiting. apply existsb_exists. exists r. split; [done|].
  by rewrite negb_true_iff, bool_decide_eq_false.
Qed.

(** ** Pairs of a list *)

Lemma FOP_app {A} (R : A -> A -> Prop) l1 l2 :
  ForallOrdPairs R (l1 ++ l2) <->
  ForallOrdPairs R l1 /\ ForallOrdPairs R l2 /\ (forall a b, In a l1 -> In b l2 -> R a b).
Proof.
  induction l1 as [|x l1 IH]; cbn.
  - split; [intros H; repeat split; [constructor|done|tauto]|tauto].
  - split.
    + inversion 1 as [|? ? Hx Hl]; subst. apply IH in Hl as (H1 & H2 & H3).
      rewrite List.Forall_forall in Hx. repeat split; [|done|].
      * constructor; [|done]. rewrite List.Forall_forall. intros y Hy. apply Hx, in_app_iff. auto.
      * intros a b [<-|Ha] Hb; [apply Hx, in_app_iff; auto|auto].
    + intros (H1 & H2 & H3). inversion H1 as [|? ? Hx Hl]; subst. constructor.
      * rewrite List.Forall_forall in *. intros y [Hy|Hy]%in_app_iff; auto.
      * apply IH. repeat split; auto.
Qed.

Lemma group_safe_snoc V q r :
  group_safe V q -> (is_holder r -> lock_compat (mode r) (group q) = true) -> group_safe V (q ++ [r]).
Proof.
  intros Hq Hr. unfold group_safe. rewrite FOP_app. split; [done|]. split.
  - constructor; constructor.
  - intros a b Ha [<-|[]] _ Hha Hhb. rewrite lock_compat_sym.
    apply compat_group in Hr; [|done]. rewrite List.Forall_forall in Hr. auto.
Qed.

(** The middle request of a safe queue may be replaced by one that is
    compatible with every other holder. *)
Lemma group_safe_replace V pre r r' rest :
  group_safe V (pre ++ r :: rest) ->
  (forall x, In x (pre ++ rest) -> compatible V r' x) ->
  group_safe V (pre ++ r' :: rest).
Proof.
  unfold group_safe. rewrite !FOP_app. intros (H1 & H2 & H3) Hr.
  inversion H2 as [|? ? Hx Hl]; subst. repeat split; [done| |].
  - constructor; [|done]. rewrite List.Forall_forall. intros y Hy.
    apply Hr, in_app_iff. by right.
  - intros a b Ha [<-|Hb].
    + apply compatible_sym, Hr, in_app_iff. by left.
    + apply H3; [done|by right].
Qed.

(** ** The wake-up loop *)

(** What the loop may do to a request: grant a waiter, or let a converter
    have the mode it asked for. *)
Inductive wakes : lock_request -> lock_request -> Prop :=
| wakes_waiter r : is_waiter r -> wakes r (set_status LOCK_GRANTED r)
| wakes_converter r : is_converter r ->
    wakes r (set_convert_mode NULL_LOCK
               (set_mode (convert_mode r) (set_status LOCK_GRANTED r))).

(** A request before and after the loop, with the control block of its
    transaction: unchanged, or woken and no longer waiting. *)
Definition wake_pair (ts ts' : gmap Z TransCB) (r r' : lock_request) : Prop :=
  (r' = r /\ ts' !! tran r = ts !! tran r) \/
  (wakes r r' /\ ts' !! tran r = set_wait None <$> ts !! tran r).

Lemma wakes_same_links r r' :
  wakes r r' ->
  rid r' = rid r /\ head r' = head r /\ tran r' = tran r /\ process_xsem r' = process_xsem r /\
  tran_prev r' = tran_prev r /\ tran_next r' = tran_next r.
Proof. by inversion 1. Qed.

Lemma wakes_granted r r' : wakes r r' -> is_granted r' /\ ~ is_granted r.
Proof. unfold is_granted. inversion 1 as [? Hr|? Hr]; red in Hr; cbn; rewrite Hr; done. Qed.

Definition known_status (r : lock_request) : Prop := is_holder r \/ is_waiter r.

Lemma w_wake_Ok r w w' :
  w_wake r w = Ok w' ->
  w_granted_mode w' = w_granted_mode w /\ w_waiting w' = w_waiting w /\
  w_convert_waiting w' = w_convert_waiting w /\
  exists t, w_trans w !! tran r = Some t /\ w_trans w' = <[tran r := set_wait None t]> (w_trans w).
Proof. unfold w_wake. intros H. res_inv. cbn. eauto 10. Qed.

Lemma w_wake_total r w : is_Some (w_trans w !! tran r) -> exists w', w_wake r w = Ok w'.
Proof. intros [t Ht]. unfold w_wake. rewrite Ht. cbn. eauto. Qed.

(** [wake_case H E] splits a run of the loop on a non-empty rest into the
    cases of the source. *)
Ltac wake_case request :=
  cbn [wake_loop];
  destruct (w_convert_waiting _) eqn:?; destruct (status request) eqn:?;
  try (intros ?; res_inv; congruence).

Lemma wake_loop_total todo : forall pre w,
  Forall known_status todo ->
  (forall r, In r todo -> is_Some (w_trans w !! tran r)) ->
  exists q' w', wake_loop pre todo w = Ok (q', w').
Proof.
  induction todo as [|r todo IH]; intros pre w Hst Hts; [cbn; eauto|].
  apply Forall_cons in Hst as [Hr Hst].
  assert (Hk : status r = LOCK_GRANTED \/ status r = LOCK_CONVERTING \/ status r = LOCK_WAITING).
  { destruct Hr as [Hr|Hr]; [apply holds_spec in Hr; tauto|auto]. }
  assert (Hstep : forall w2 m pre2, w_wake r w = Ok w2 ->
    exists q' w', wake_loop pre2 todo (w_group m w2) = Ok (q', w')).
  { intros w2 m pre2 (_ & _ & _ & t & Ht & Hw2)%w_wake_Ok. apply IH; [done|].
    intros x Hx. cbn. rewrite Hw2. destruct (decide (tran r = tran x)) as [<-|Hne].
    - rewrite lookup_insert_eq. eauto.
    - rewrite lookup_insert_ne by done. apply Hts. by right. }
  assert (Hrest : forall x, In x todo -> is_Some (w_trans w !! tran x)) by (intros; apply Hts; by right).
  destruct (w_wake_total r w) as [w2 Hw2]; [apply Hts; by left|].
  cbn [wake_loop]. destruct (w_convert_waiting w), Hk as [Hk|[Hk|Hk]]; rewrite Hk; eauto.
  - case_match; [apply IH; auto|]. rewrite Hw2. cbn. auto.
  - case_match; [|eauto]. rewrite Hw2. cbn. auto.
Qed.

Lemma wake_loop_pairs todo : forall pre w q' w',
  NoDup (map tran todo) ->
  wake_loop pre todo w = Ok (q', w') ->
  exists todo', q' = pre ++ todo' /\
    Forall2 (wake_pair (w_trans w) (w_trans w')) todo todo' /\
    (forall t, ~ In t (map tran todo) -> w_trans w' !! t = w_trans w !! t).
Proof.
  induction todo as [|r todo IH]; intros pre w q' w' Hnd; cbn [map] in *.
  - cbn. intros H. res_inv. exists []. rewrite app_nil_r. eauto.
  - apply NoDup_cons in Hnd as [Hr Hnd]. rewrite list_elem_of_In in Hr.
    assert (Hkeep : forall w2, w_trans w2 = w_trans w ->
      wake_loop (pre ++ [r]) todo w2 = Ok (q', w') ->
      exists todo', q' = pre ++ todo' /\
        Forall2 (wake_pair (w_trans w) (w_trans w')) (r :: todo) todo' /\
        (forall t, ~ In t (tran r :: map tran todo) -> w_trans w' !! t = w_trans w !! t)).
    { intros w2 Hw2 H. apply IH in H as (todo' & -> & H1 & H2); [|done]. rewrite Hw2 in *.
      exists (r :: todo'). rewrite <- app_assoc. cbn. repeat split.
      - constructor; [|done]. left. auto.
      - intros t Ht. apply H2. tauto. }
    assert (Hwake : forall w2 m r', w_wake r w = Ok w2 -> wakes r r' ->
      wake_loop (pre ++ [r']) todo (w_group m w2) = Ok (q', w') ->
      exists todo', q' = pre ++ todo' /\
        Forall2 (wake_pair (w_trans w) (w_trans w')) (r :: todo) todo' /\
        (forall t, ~ In t (tran r :: map tran todo) -> w_trans w' !! t = w_trans w !! t)).
    { intros w2 m r' (_ & _ & _ & t & Ht & Hw2)%w_wake_Ok Hwk H.
      apply IH in H as (todo' & -> & H1 & H2); [|done]. cbn in H1, H2. rewrite Hw2 in *.
      exists (r' :: todo'). rewrite <- app_assoc. cbn. repeat split.
      - constructor.
        + right. split; [done|]. rewrite H2 by done. rewrite lookup_insert_eq, Ht. done.
        + clear -H1 Hr. induction H1 as [|x y l l' Hxy Hl IHl]; constructor.
          * cbn in Hr. unfold wake_pair in *. rewrite !lookup_insert_ne in Hxy by (intros E; apply Hr; left; congruence). done.
          * apply IHl. cbn in Hr. tauto.
      - intros x Hx. rewrite H2 by tauto. apply lookup_insert_ne. intros E. apply Hx. by left. }
    assert (Hstop : forall w2, w_trans w2 = w_trans w -> Ok (pre ++ r :: todo, w2) = Ok (q', w') :> res lm_exn _ ->
      exists todo', q' = pre ++ todo' /\
        Forall2 (wake_pair (w_trans w) (w_trans w')) (r :: todo) todo' /\
        (forall t, ~ In t (tran r :: map tran todo) -> w_trans w' !! t = w_trans w !! t)).
    { intros w2 Hw2 [= <- <-]. exists (r :: todo). rewrite Hw2. repeat split; auto.
      apply Forall_Forall2_diag, Forall_true. intros x. left. auto. }
    wake_case r; [by apply Hkeep|by apply Hkeep|by apply Hstop|by apply Hkeep| |].
    + case_match; [by apply Hkeep|]. intros Hrun. res_inv. eapply Hwake; eauto. by apply wakes_converter.
    + case_match; [|by apply Hstop]. intros Hrun. res_inv. eapply Hwake; eauto. by apply wakes_waiter.
Qed.

(** *** The loop invariant

    While no conversion is found to be blocked, everything passed is granted
    and the group mode is the join of what was passed; afterwards the head is
    marked as waiting. *)
Definition wake_inv (pre : list lock_request) (w : wake_state) : Prop :=
  Forall is_holder pre /\
  if w_convert_waiting w
  then w_waiting w = true /\ exists c, In c pre /\ is_converter c
  else all_granted pre /\ w_granted_mode w = group pre /\ w_waiting w = false.

Lemma wake_inv_init ts : wake_inv [] (mk_wake NULL_LOCK false false ts []).
Proof. split; [done|]. cbn. repeat split. constructor. Qed.

(** Passing a request that is (now) granted keeps the invariant. *)
Lemma wake_inv_granted pre w r :
  wake_inv pre w -> is_granted r -> wake_inv (pre ++ [r]) (w_group (mode r) w).
Proof.
  intros [Hh Hw] Hr. split.
  - apply Forall_app. split; [done|]. repeat constructor. by apply granted_holds.
  - cbn. destruct (w_convert_waiting w).
    + destruct Hw as (Hw & c & Hc & Hcc). split; [done|]. exists c. rewrite in_app_iff. auto.
    + destruct Hw as (Hg & Hm & Hw). repeat split; [|by rewrite Hm, group_snoc by auto with sedna|done].
      apply Forall_app. split; [done|]. by repeat constructor.
Qed.

Lemma wake_inv_passed_converter pre w r :
  wake_inv pre w -> is_converter r -> w_convert_waiting w = true ->
  wake_inv (pre ++ [r]) (w_group (mode r) w).
Proof.
  intros [Hh Hw] Hr Hc. split.
  - apply Forall_app. split; [done|]. repeat constructor. by apply converter_holds.
  - cbn. rewrite Hc in *. destruct Hw as (Hw & c & Hin & Hcc). split; [done|].
    exists c. rewrite in_app_iff. auto.
Qed.

Lemma wake_inv_blocked_converter pre w r :
  wake_inv pre w -> is_converter r ->
  wake_inv (pre ++ [r]) (mk_wake (w_granted_mode w) true true (w_trans w) (w_ups w)).
Proof.
  intros [Hh _] Hr. split.
  - apply Forall_app. split; [done|]. repeat constructor. by apply converter_holds.
  - cbn. split; [done|]. exists r. rewrite in_app_iff. cbn. auto.
Qed.

Lemma wake_inv_wake pre w w2 r :
  wake_inv pre w -> w_wake r w = Ok w2 -> wake_inv pre w2.
Proof.
  intros Hi (H1 & H2 & H3 & _)%w_wake_Ok. unfold wake_inv in *. by rewrite H1, H2, H3.
Qed.

Lemma queue_shape_cons_holder r q : queue_shape (r :: q) -> queue_shape q.
Proof.
  intros (q1 & q2 & E & H1 & H2). destruct q1 as [|x q1]; cbn in E.
  - subst q2. apply Forall_cons in H2 as [_ H2]. by exists [], q.
  - injection E as <- ->. apply Forall_cons in H1 as [_ H1]. by exists q1, q2.
Qed.

Lemma queue_shape_waiter r q : queue_shape (r :: q) -> is_waiter r -> Forall is_waiter (r :: q).
Proof.
  intros (q1 & q2 & E & H1 & H2) Hr. destruct q1 as [|x q1]; cbn in E.
  - by subst q2.
  - injection E as <- ->. apply Forall_cons in H1 as [Hx _]. red in Hx.
    by rewrite waiter_not_holds in Hx.
Qed.

(** What the finished loop leaves: the shape, an exact waiting flag, and an
    exact group mode whenever nobody waits. *)
Lemma wake_loop_result todo : forall pre w q' w',
  wake_inv pre w -> queue_shape todo ->
  wake_loop pre todo w = Ok (q', w') ->
  queue_shape q' /\ w_waiting w' = some_waiting q' /\
  (w_waiting w' = false -> w_granted_mode w' = group q').
Proof.
  induction todo as [|r todo IH]; intros pre w q' w' Hi Hs.
  - cbn. intros H. res_inv. destruct Hi as [Hh Hi]. split; [by exists q', []; rewrite app_nil_r|].
    destruct (w_convert_waiting w').
    + destruct Hi as (Hw & c & Hin & Hc). rewrite Hw. split; [|done].
      symmetry. eapply some_waiting_true; eauto. red in Hc. by rewrite Hc.
    + destruct Hi as (Hg & Hm & Hw). rewrite Hw. split; [|done].
      symmetry. by apply some_waiting_false.
  - assert (Hstop : forall w2, is_waiter r -> w_waiting w2 = true ->
      Ok (pre ++ r :: todo, w2) = Ok (q', w') :> res lm_exn _ ->
      queue_shape q' /\ w_waiting w' = some_waiting q' /\
      (w_waiting w' = false -> w_granted_mode w' = group q')).
    { intros w2 Hr Hw [= <- <-]. rewrite Hw. destruct Hi as [Hh _]. repeat split; [|  |done].
      - exists pre, (r :: todo). repeat split; [done|]. by apply queue_shape_waiter.
      - symmetry. eapply some_waiting_true; [apply in_elt|]. red in Hr. by rewrite Hr. }
    assert (Hs' := queue_shape_cons_holder _ _ Hs).
    wake_case r.
    + apply IH; [by apply wake_inv_granted|done].
    + apply IH; [by apply wake_inv_passed_converter|done].
    + apply Hstop; [done|]. destruct Hi as [_ Hi]. rewrite Heqb in Hi. tauto.
    + apply IH; [by apply wake_inv_granted|done].
    + destruct (existsb _ _); [apply IH; [by apply wake_inv_blocked_converter|done]|].
      intros H. res_inv. eapply IH; [|done|exact H].
      pose proof (wake_inv_wake _ _ _ _ Hi Hb) as Hi2.
      by apply (wake_inv_granted _ _ (set_convert_mode NULL_LOCK
                  (set_mode (convert_mode r) (set_status LOCK_GRANTED r))) Hi2).
    + destruct (lock_compat _ _); [|by apply Hstop].
      intros H. res_inv. eapply IH; [|done|exact H].
      pose proof (wake_inv_wake _ _ _ _ Hi Hb) as Hi2.
      by apply (wake_inv_granted _ _ (set_status LOCK_GRANTED r) Hi2).
Qed.

(** *** Safety of the loop *)

Lemma no_conversion_conflict_replace V pre r r' rest :
  is_granted r' ->
  no_conversion_conflict V (pre ++ r :: rest) -> no_conversion_conflict V (pre ++ r' :: rest).
Proof.
  intros Hg. assert (Hc : ~ is_converter r') by (unfold is_granted, is_converter in *; congruence).
  unfold no_conversion_conflict. rewrite !FOP_app. intros (H1 & H2 & H3).
  inversion H2 as [|? ? Hx Hl]; subst. repeat split; [done| |].
  - constructor; [|done]. rewrite List.Forall_forall. intros y _ _ ?. done.
  - intros a b Ha [<-|Hb] ? ? ?; [done|]. apply H3; auto. by right.
Qed.

Lemma blocks_convert_wake_false r q :
  existsb (blocks_convert_wake r) q = false ->
  forall y, In y q -> is_granted y -> tran y <> tran r -> lock_compat (convert_mode r) (mode y) = true.
Proof.
  intros Hb y Hy Hg Hne. destruct (lock_compat _ _) eqn:Hm; [done|]. exfalso.
  rewrite <- not_true_iff_false in Hb. apply Hb, existsb_exists. exists y. split; [done|].
  unfold blocks_convert_wake, owned_by. rewrite Hm, (proj2 (Z.eqb_neq _ _) Hne).
  by rewrite bool_decide_eq_true_2.
Qed.

(** A converter with only granted requests ahead of it that no granted
    request of another transaction blocks, and that conflicts with no
    converter behind it, may have its new mode. *)
Lemma conversion_compatible V pre r rest :
  NoDup (map tran (pre ++ r :: rest)) ->
  is_converter r -> all_granted pre ->
  no_conversion_conflict V (pre ++ r :: rest) ->
  existsb (blocks_convert_wake r) (pre ++ r :: rest) = false ->
  forall x, In x (pre ++ rest) -> both_live V r x -> is_holder x ->
    lock_compat (convert_mode r) (mode x) = true.
Proof.
  intros Hnd Hr Hpre Hcc Hb x Hx Hlv Hh.
  assert (Hin : In x (pre ++ r :: rest)) by (rewrite in_app_iff in *; cbn; tauto).
  assert (Hne : tran x <> tran r).
  { intros E. rewrite map_app in Hnd. cbn in Hnd. apply NoDup_ListNoDup, NoDup_remove_2 in Hnd.
    apply Hnd. rewrite <- map_app, <- E. by apply in_map. }
  apply holds_spec in Hh as [Hg|Hc].
  - by eapply blocks_convert_wake_false.
  - apply in_app_iff in Hx as [Hx|Hx].
    + red in Hpre. rewrite List.Forall_forall in Hpre. specialize (Hpre x Hx). red in Hpre. congruence.
    + unfold no_conversion_conflict in Hcc. apply FOP_app in Hcc as (_ & Hcc & _).
      inversion Hcc as [|? ? Hf _]; subst. rewrite List.Forall_forall in Hf. by apply Hf.
Qed.

Lemma wake_loop_safe V todo : forall pre w q' w',
  wake_inv pre w -> queue_shape todo ->
  NoDup (map tran (pre ++ todo)) ->
  no_conversion_conflict V (pre ++ todo) ->
  group_safe V (pre ++ todo) ->
  wake_loop pre todo w = Ok (q', w') ->
  group_safe V q' /\ no_conversion_conflict V q'.
Proof.
  induction todo as [|r todo IH]; intros pre w q' w' Hi Hs Hnd Hcc Hsafe.
  - cbn. intros H. res_inv. by rewrite app_nil_r in *.
  - assert (Hs' := queue_shape_cons_holder _ _ Hs).
    assert (Hkeep : forall w2, wake_inv (pre ++ [r]) w2 ->
      wake_loop (pre ++ [r]) todo w2 = Ok (q', w') -> group_safe V q' /\ no_conversion_conflict V q').
    { intros w2 Hi2 H. rewrite cons_middle, app_assoc in Hnd, Hcc, Hsafe. eauto. }
    assert (Hgrant : forall r' w2, wake_inv (pre ++ [r']) w2 -> is_granted r' -> tran r' = tran r ->
      (forall x, In x (pre ++ todo) -> compatible V r' x) ->
      wake_loop (pre ++ [r']) todo w2 = Ok (q', w') -> group_safe V q' /\ no_conversion_conflict V q').
    { intros r' w2 Hi2 Hg Ht Hc H. eapply IH; [exact Hi2|done|..|exact H];
        rewrite <- app_assoc; cbn.
      - rewrite !map_app in *. cbn in *. by rewrite Ht.
      - by apply (no_conversion_conflict_replace _ _ r).
      - by apply (group_safe_replace _ _ r). }
    wake_case r.
    + apply Hkeep. by apply wake_inv_granted.
    + apply Hkeep. by apply wake_inv_passed_converter.
    + intros H. res_inv. done.
    + apply Hkeep. by apply wake_inv_granted.
    + destruct (existsb _ _) eqn:Hex; [apply Hkeep; by apply wake_inv_blocked_converter|].
      intros H. res_inv. pose proof (wake_inv_wake _ _ _ _ Hi Hb) as Hi2.
      eapply Hgrant; [|..|exact H]; [|done|done|].
      * by apply (wake_inv_granted _ _ (set_convert_mode NULL_LOCK
                  (set_mode (convert_mode r) (set_status LOCK_GRANTED r))) Hi2).
      * pose proof (proj2 Hi) as Hg. rewrite Heqb in Hg.
        intros x Hx Hlv _ Hh. cbn. eapply conversion_compatible; eauto. tauto.
    + destruct (lock_compat _ _) eqn:Hc; [|intros H; res_inv; done].
      intros H. res_inv. pose proof (wake_inv_wake _ _ _ _ Hi Hb) as Hi2.
      eapply Hgrant; [|..|exact H]; [|done|done|].
      * by apply (wake_inv_granted _ _ (set_status LOCK_GRANTED r) Hi2).
      * intros x [Hx|Hx]%in_app_iff _ _ Hh; cbn.
        -- destruct Hi as [_ Hi]. rewrite Heqb in Hi. destruct Hi as (_ & Hm & _).
           rewrite Hm in Hc. apply compat_group in Hc. rewrite List.Forall_forall in Hc. auto.
        -- apply queue_shape_waiter in Hs; [|done]. rewrite List.Forall_forall in Hs.
           red in Hh. rewrite waiter_not_holds in Hh; [done|]. apply Hs. by right.
Qed.

(** *** Who is woken

    The loop passes over the queue from the front.  It grants every pending
    request it comes to until it meets one that has to go on waiting; behind
    that one it changes nothing. *)

Definition pending (r : lock_request) : bool := negb (bool_decide (status r = LOCK_GRANTED)).

Lemma pending_false r : pending r = false <-> is_granted r.
Proof. unfold pending, is_granted. by rewrite negb_false_iff, bool_decide_eq_true. Qed.

Lemma pending_true r : pending r = true <-> ~ is_granted r.
Proof. unfold pending, is_granted. by rewrite negb_true_iff, bool_decide_eq_false. Qed.

(** Every granted request of another transaction allows the mode. *)
Definition allowed (q : list lock_request) (r : lock_request) : Prop :=
  forall y, In y q -> is_granted y -> tran y <> tran r -> lock_compat (mode r) (mode y) = true.

(** A request the loop has passed: it was granted, or it is now, rightly. *)
Definition passed (q' : list lock_request) (x x' : lock_request) : Prop :=
  (x' = x /\ is_granted x) \/ (wakes x x' /\ allowed q' x').

(** The loop stops granting at the end of the queue, at a waiter that
    conflicts with the group ahead of it, or at a converter that conflicts
    with a granted request of another transaction. *)
Definition wake_stops (q1 q2 : list lock_request) : Prop :=
  match q2 with
  | [] => True
  | r :: _ =>
      (is_waiter r /\ lock_compat (mode r) (group q1) = false) \/
      (is_converter r /\ existsb (blocks_convert_wake r) (q1 ++ q2) = true)
  end.

(** The semaphores that are raised when the pending ones of [l] are granted. *)
Definition raised (X : gmap Z TransCB) (l : list lock_request) : list session_id :=
  map process_xsem (List.filter (fun r => pending r && negb (victim X (tran r))) l).

Lemma raised_cons X r l :
  raised X (r :: l) =
  (if pending r && negb (victim X (tran r)) then [process_xsem r] else []) ++ raised X l.
Proof. unfold raised. cbn. by destruct (pending r && _). Qed.

Lemma raised_ext X X' l :
  (forall r, In r l -> victim X' (tran r) = victim X (tran r)) -> raised X' l = raised X l.
Proof.
  intros H. unfold raised. f_equal. apply filter_ext_in. intros r Hr. by rewrite H.
Qed.

Lemma w_wake_ups r w w' :
  pending r = true -> w_wake r w = Ok w' ->
  w_ups w' = w_ups w ++ raised (w_trans w) [r] /\
  forall b, victim (w_trans w') b = victim (w_trans w) b.
Proof.
  intros Hp H. unfold w_wake in H. res_inv. cbn. unfold raised, victim. cbn. rewrite Hp, Hb. cbn.
  split; [by case_bool_decide; cbn; rewrite ?app_nil_r|].
  intros b. rewrite lookup_insert. case_decide as E; [|done]. rewrite <- E, Hb. done.
Qed.

(** Once a conversion is blocked nothing changes any more. *)
Lemma wake_loop_blocked todo : forall pre w q' w',
  w_convert_waiting w = true -> wake_loop pre todo w = Ok (q', w') ->
  q' = pre ++ todo /\ w_ups w' = w_ups w.
Proof.
  induction todo as [|r todo IH]; intros pre w q' w' Hc; cbn [wake_loop].
  - intros H. res_inv. by rewrite app_nil_r.
  - rewrite Hc. destruct (status r); intros H; try (by res_inv);
      apply IH in H as [-> Hu]; try done; by rewrite <- app_assoc.
Qed.

Definition wake_exact (pre todo : list lock_request) (w w' : wake_state) (q' : list lock_request) : Prop :=
  exists t1 t1' t2, todo = t1 ++ t2 /\ q' = pre ++ t1' ++ t2 /\
    Forall2 (passed q') t1 t1' /\ wake_stops (pre ++ t1') t2 /\
    w_ups w' = w_ups w ++ raised (w_trans w) t1.

Lemma wake_exact_stop pre todo w w' :
  wake_stops pre todo -> w_ups w' = w_ups w -> wake_exact pre todo w w' (pre ++ todo).
Proof.
  intros Hs Hu. exists [], [], todo. rewrite !app_nil_r. repeat split; auto.
Qed.

Lemma wake_exact_keep pre r todo w w2 w' q' :
  is_granted r -> w_ups w2 = w_ups w -> w_trans w2 = w_trans w ->
  wake_exact (pre ++ [r]) todo w2 w' q' -> wake_exact pre (r :: todo) w w' q'.
Proof.
  intros Hr E1 E2 (t1 & t1' & t2 & -> & -> & H1 & H2 & H3).
  exists (r :: t1), (r :: t1'), t2. rewrite <- !app_assoc in *. cbn [app] in *. repeat split; auto.
  - constructor; [by left|done].
  - rewrite H3, raised_cons, E1, E2, (proj2 (pending_false r) Hr). done.
Qed.

(** What was granted behind a woken request is granted in the queue before
    the loop reached it, or was woken later. *)
Lemma passed_granted q' t1 t1' t2 y :
  Forall2 (passed q') t1 t1' -> In y (t1' ++ t2) -> is_granted y ->
  (In y (t1 ++ t2) /\ is_granted y) \/ allowed q' y.
Proof.
  intros HF [Hy|Hy]%in_app_iff Hg; [|left; rewrite in_app_iff; auto].
  apply list_elem_of_In, list_elem_of_lookup in Hy as [i Hi].
  destruct (Forall2_lookup_r _ _ _ _ _ HF Hi) as (x & Hx & [[-> Hxg]|[_ Ha]]); [|by right].
  left. split; [|done]. apply in_app_iff. left. apply list_elem_of_In, list_elem_of_lookup. eauto.
Qed.

Lemma wake_exact_wake pre r r' todo m w w2 w' q' :
  NoDup (map tran (pre ++ r :: todo)) ->
  wakes r r' -> w_wake r w = Ok w2 ->
  (forall y, In y (pre ++ todo) -> is_granted y -> lock_compat (mode r') (mode y) = true) ->
  wake_exact (pre ++ [r']) todo (w_group m w2) w' q' -> wake_exact pre (r :: todo) w w' q'.
Proof.
  intros Hnd Hwk Hww Hok (t1 & t1' & t2 & -> & Eq & H1 & H2 & H3).
  pose proof (wakes_granted _ _ Hwk) as [Hg Hp]. apply pending_true in Hp.
  destruct (w_wake_ups _ _ _ Hp Hww) as [Hu Hv].
  exists (r :: t1), (r' :: t1'), t2. rewrite <- !app_assoc in *. cbn [app] in *. repeat split; auto.
  - constructor; [|done]. right. split; [done|]. intros y Hy Hyg Hne. rewrite Eq in Hy.
    apply in_app_iff in Hy as [Hy|[<-|Hy]]; [apply Hok; [rewrite in_app_iff; auto|done]|done|].
    destruct (passed_granted _ _ _ _ _ H1 Hy Hyg) as [[Hy2 _]|Ha].
    + apply Hok; [rewrite in_app_iff; auto|done].
    + rewrite lock_compat_sym. apply Ha; [|done|congruence]. rewrite Eq, in_app_iff. cbn. auto.
  - rewrite H3, raised_cons. cbn [w_ups w_trans w_group]. rewrite Hu, raised_cons, <- !app_assoc.
    f_equal. f_equal. by apply raised_ext.
Qed.

Lemma wake_loop_exact todo : forall pre w q' w',
  wake_inv pre w -> w_convert_waiting w = false -> queue_shape todo ->
  NoDup (map tran (pre ++ todo)) ->
  wake_loop pre todo w = Ok (q', w') -> wake_exact pre todo w w' q'.
Proof.
  induction todo as [|r todo IH]; intros pre w q' w' Hi Hc Hs Hnd.
  - cbn. intros H. res_inv. rewrite <- (app_nil_r q') at 2. by apply wake_exact_stop.
  - assert (Hs' := queue_shape_cons_holder _ _ Hs).
    assert (Hne : forall y, In y (pre ++ todo) -> tran y <> tran r).
    { intros y Hy E. rewrite map_app in Hnd. cbn in Hnd. apply NoDup_ListNoDup, NoDup_remove_2 in Hnd.
      apply Hnd. rewrite <- map_app, <- E. by apply in_map. }
    assert (Hgrant : forall r' w2 m, wakes r r' -> w_wake r w = Ok w2 -> m = mode r' ->
      (forall y, In y (pre ++ todo) -> is_granted y -> lock_compat (mode r') (mode y) = true) ->
      wake_loop (pre ++ [r']) todo (w_group m w2) = Ok (q', w') -> wake_exact pre (r :: todo) w w' q').
    { intros r' w2 m Hwk Hww -> Hok H. eapply wake_exact_wake; [exact Hnd|exact Hwk|exact Hww|exact Hok|].
      pose proof (wakes_same_links _ _ Hwk) as (_ & _ & Ht & _).
      pose proof (w_wake_Ok _ _ _ Hww) as (_ & _ & Hcw & _).
      eapply IH; [|cbn; congruence|done| |exact H].
      - apply wake_inv_granted; [by eapply wake_inv_wake|by eapply wakes_granted].
      - rewrite <- app_assoc. rewrite !map_app in *. cbn in *. by rewrite Ht. }
    cbn [wake_loop]. rewrite Hc. destruct (status r) eqn:Hst; [| | |intros H; by res_inv..].
    + intros H. apply (wake_exact_keep _ _ _ _ (w_group (mode r) w)); [done|done|done|].
      eapply IH; [by apply wake_inv_granted|done|done| |exact H]. by rewrite <- app_assoc.
    + destruct (existsb _ _) eqn:Hex.
      * intros H. apply wake_loop_blocked in H as [-> Hu]; [|done]. rewrite <- app_assoc.
        apply wake_exact_stop; [|done]. right. auto.
      * intros H. res_inv. eapply Hgrant; [by apply wakes_converter|exact Hb|done| |exact H].
        intros y Hy Hg. cbn. eapply blocks_convert_wake_false; [exact Hex| |done|by apply Hne].
        rewrite in_app_iff in *. cbn. tauto.
    + pose proof (proj2 Hi) as Hi0. rewrite Hc in Hi0. destruct Hi0 as (_ & Hm & _).
      destruct (lock_compat _ _) eqn:Hcm.
      * intros H. res_inv. eapply Hgrant; [by apply wakes_waiter|exact Hb|done| |exact H].
        intros y [Hy|Hy]%in_app_iff Hg; cbn.
        -- rewrite Hm in Hcm. apply compat_group in Hcm. rewrite List.Forall_forall in Hcm.
           apply Hcm; [done|by apply granted_holds].
        -- apply queue_shape_waiter in Hs; [|done]. apply Forall_cons in Hs as [_ Hs].
           rewrite List.Forall_forall in Hs. specialize (Hs y Hy). unfold is_granted, is_waiter in *. congruence.
      * intros H. res_inv. apply wake_exact_stop; [|done]. left. split; [done|]. by rewrite <- Hm.
Qed.
