(* ===== verification/LockGraph.v ===== *)
(** * Deadlock detection

    The search of [lock_table::deadlock] decides whether a transaction lies on
    a cycle of the waits-for graph, within its fuel and without exception. *)

From Stdlib Require Import ZArith List Lia Bool.
From stdpp Require Import base gmap strings list relations sets.
From S2P Require Import Prelude LockTable LockQueue.
Local Open Scope sedna_scope.

Section Graph.
Context (st : lm_state).

Definition edge (a b : transaction_id) : Prop :=
  exists l, successors st a = Ok l /\ In b l.

Definition known (a : transaction_id) : Prop := is_Some (tr_table st !! a).

Definition idle (a : transaction_id) : Prop :=
  exists t, tr_table st !! a = Some t /\ wait t = None.

Definition blocked (a : transaction_id) : Prop :=
  exists t p, tr_table st !! a = Some t /\ wait t = Some p.

(** Every transaction of the table has a well-defined set of successors
    that are in the table. *)
Definition graph_ok : Prop :=
  forall a, known a -> exists l, successors st a = Ok l /\ Forall known l.

Lemma idle_no_edge a b : idle a -> ~ edge a b.
Proof.
  intros (t & Ht & Hw) (l & Hl & Hb). unfold successors in Hl. rewrite Ht in Hl.
  cbn in Hl. rewrite Hw in Hl. injection Hl as <-. done.
Qed.

Lemma blocked_not_idle a : blocked a -> ~ idle a.
Proof. intros (t & p & Ht & Hp) (t' & Ht' & Hp'). congruence. Qed.

Lemma blocked_list_bound V :
  NoDup V -> Forall blocked V -> (length V <= size (tr_table st))%nat.
Proof.
  intros Hnd Hb. rewrite <- size_dom.
  rewrite <- (size_list_to_set (C:=gset Z)) by done.
  apply subseteq_size. intros x Hx%elem_of_list_to_set. rewrite Forall_forall in Hb.
  destruct (Hb x Hx) as (t & p & Ht & _). apply elem_of_dom. eauto.
Qed.

Section From.
Context (s : transaction_id) (Hok : graph_ok).

(** The nodes added between [V] and [V ++ ext] are finished: their
    successors were all looked at, and none of them is the start. *)
Definition finished (ext V' : visited_list) : Prop :=
  forall u w, In u ext -> edge u w -> w <> s /\ (In w V' \/ idle w).

Definition good (V : visited_list) : Prop :=
  NoDup V /\ Forall blocked V /\ hd_error V = Some s.

Definition reached (V' : visited_list) (t : transaction_id) : Prop :=
  t <> s /\ (In t V' \/ idle t).

Lemma finished_mono ext V1 ext2 :
  finished ext V1 -> finished ext (V1 ++ ext2).
Proof. intros H u w Hu He. destruct (H u w Hu He) as [? [?|?]]; rewrite in_app_iff; auto. Qed.

Lemma reached_mono V1 ext2 t : reached V1 t -> reached (V1 ++ ext2) t.
Proof. intros [? [?|?]]; split; rewrite ?in_app_iff; auto. Qed.

Lemma good_app V ext : good (V ++ ext) -> V <> [] -> good V.
Proof.
  intros (H1 & H2 & H3) Hne. apply NoDup_app in H1 as (H1 & _). apply Forall_app in H2 as [H2 _].
  destruct V; [done|]. by repeat split.
Qed.

(** The outcome of a search below the visited nodes [V]. *)
Definition outcome (V : visited_list) (targets : list transaction_id)
    (r : res lm_exn visited_list) : Prop :=
  (exists ext, r = Ok (V ++ ext) /\ good (V ++ ext) /\ finished ext (V ++ ext) /\
     Forall (reached (V ++ ext)) targets) \/
  (r = Throw SE4705 /\ exists t, In t targets /\ rtc edge t s).

Definition visits_well (fuel : nat) : Prop :=
  forall V me, good V -> known me ->
    (size (tr_table st) < fuel + length V)%nat -> outcome V [me] (visit fuel st V me).

Lemma visit_all_outcome fuel l : visits_well fuel -> forall V,
  good V -> Forall known l -> (size (tr_table st) < fuel + length V)%nat ->
  outcome V l (visit_all (visit fuel st) V l).
Proof.
  intros IHf. induction l as [|t l IH]; intros V Hg Hk Hf; cbn.
  - left. exists []. rewrite app_nil_r. split; [done|]. split; [done|]. split; [|constructor].
    intros u w [].
  - apply Forall_cons in Hk as [Ht Hk].
    destruct (IHf V t Hg Ht Hf) as [(ext & -> & Hg1 & Hf1 & Hr1)|(-> & t' & [<-|[]] & Hp)]; cbn.
    + destruct (IH (V ++ ext) Hg1 Hk) as [(ext2 & -> & Hg2 & Hf2 & Hr2)|(-> & t' & Ht' & Hp)].
      { rewrite length_app. lia. }
      * left. exists (ext ++ ext2). rewrite app_assoc.
        split; [done|]. split; [done|]. split.
        -- intros u w [Hu|Hu]%in_app_iff; [by apply (finished_mono _ _ ext2 Hf1)|by apply Hf2].
        -- apply Forall_cons. split; [|done]. apply Forall_cons in Hr1 as [Hr1 _].
           by apply reached_mono.
      * right. split; [done|]. exists t'. cbn. auto.
    + right. split; [done|]. exists t. cbn. auto.
Qed.

Lemma visit_outcome fuel : visits_well fuel.
Proof.
  induction fuel as [|fuel IH]; intros V me Hg Hk Hf.
  - destruct Hg as (Hnd & Hb & _). pose proof (blocked_list_bound V Hnd Hb). cbn in Hf. lia.
  - cbn [visit]. destruct Hk as [t Ht]. rewrite Ht. cbn [of_option bind_res].
    destruct (wait t) as [p|] eqn:Hw; cycle 1.
    { left. exists []. rewrite app_nil_r. split; [done|]. split; [done|]. split; [by intros u w []|].
      apply Forall_singleton. split; [|right; by exists t]. intros ->.
      destruct Hg as (_ & Hb & Hs). destruct V as [|v V]; [done|]. injection Hs as ->.
      apply Forall_cons in Hb as [Hb _]. apply (blocked_not_idle s Hb). by exists t. }
    case_bool_decide as Hin.
    { case_bool_decide as Hhd.
      - right. split; [done|]. exists me. split; [by left|]. destruct Hg as (_ & _ & Hs).
        rewrite Hs in Hhd. injection Hhd as ->. apply rtc_refl.
      - left. exists []. rewrite app_nil_r. split; [done|]. split; [done|].
        split; [by intros u w []|]. apply Forall_singleton.
        split; [|left; by apply list_elem_of_In]. intros ->. apply Hhd, Hg. }
    destruct (Hok me) as (succ & Hs & Hks); [by exists t|]. rewrite Hs. cbn [bind_res].
    assert (Hg1 : good (V ++ [me])).
    { destruct Hg as (Hnd & Hb & Hhd). repeat split.
      - apply NoDup_app. repeat split; [done| |repeat constructor; set_solver].
        intros x Hx ->%list_elem_of_singleton. done.
      - apply Forall_app. split; [done|]. repeat constructor. by exists t, p.
      - destruct V; done. }
    destruct (visit_all_outcome fuel succ IH (V ++ [me]) Hg1 Hks)
      as [(ext & -> & Hg2 & Hf2 & Hr2)|(-> & x & Hx & Hp)].
    { rewrite length_app. cbn. lia. }
    + left. exists (me :: ext). rewrite <- app_assoc in *. cbn in *.
      split; [done|]. split; [done|]. split.
      * intros u w [<-|Hu] He; [|by apply (Hf2 u)].
        destruct He as (l & Hl & Hwl). rewrite Hs in Hl. injection Hl as <-.
        rewrite List.Forall_forall in Hr2. by apply Hr2.
      * apply Forall_singleton. split; [|left; apply in_elt]. intros ->. apply Hin.
        destruct Hg as (_ & _ & Hhd). destruct V; [done|]. injection Hhd as ->. by left.
    + right. split; [done|]. exists me. split; [by left|].
      eapply rtc_l; [|exact Hp]. by exists succ.
Qed.

(** Nodes that can be reached from a finished set stay in it. *)
Lemma finished_closed V a b :
  (forall u w, In u V -> edge u w -> w <> s /\ (In w V \/ idle w)) ->
  In a V -> tc edge a b -> b <> s.
Proof.
  intros Hc Ha Hp. revert Ha. induction Hp as [a b He|a x b He Hp IH]; intros Ha.
  - by apply (Hc a b).
  - destruct (Hc a x Ha He) as [_ [Hx|Hx]]; [auto|].
    exfalso. inversion Hp; subst; by eapply idle_no_edge.
Qed.
End From.

Lemma deadlock_decides tr :
  graph_ok -> known tr ->
  exists b, deadlock st tr = Ok b /\ (b = true <-> tc edge tr tr).
Proof.
  intros Hok Hk. unfold deadlock. destruct Hk as [t Ht]. rewrite Ht.
  unfold visit_fuel. cbn [visit]. rewrite Ht. cbn [of_option bind_res].
  destruct (wait t) as [p|] eqn:Hw; cycle 1.
  { exists false. split; [done|]. split; [done|]. intros Hp. exfalso.
    assert (Hi : idle tr) by (by exists t). inversion Hp; subst; by eapply idle_no_edge. }
  rewrite bool_decide_eq_false_2 by set_solver.
  destruct (Hok tr) as (succ & Hs & Hks); [by exists t|]. rewrite Hs. cbn [bind_res app].
  assert (Hg : good tr [tr]).
  { repeat split; repeat constructor; [set_solver|]. by exists t, p. }
  destruct (visit_all_outcome tr (size (tr_table st)) succ (visit_outcome tr Hok _) [tr] Hg Hks)
    as [(ext & -> & Hg2 & Hf2 & Hr2)|(-> & x & Hx & Hp)]; [cbn; lia| |].
  - exists false. split; [done|]. split; [done|]. intros Hp. exfalso.
    apply (finished_closed tr (tr :: ext) tr tr); [|by left|done|done].
    intros u w [<-|Hu] He; [|by apply (Hf2 u)].
    destruct He as (l & Hl & Hwl). rewrite Hs in Hl. injection Hl as <-.
    rewrite List.Forall_forall in Hr2. by apply Hr2.
  - exists true. split; [done|]. split; [|done]. intros _.
    assert (He : edge tr x) by (by exists succ).
    eapply tc_rtc_r; [by apply tc_once|done].
Qed.
End Graph.
