(* ===== verification/LockInv.v ===== *)
(** * The invariant of the lock tables

    What holds of both tables between two messages: the queues are
    well-formed, the requests of a transaction form its doubly linked list,
    and the [wait] pointers say exactly who is blocked on what.  Each
    operation is shown to go through without an exception and to keep the
    invariant. *)

From Stdlib Require Import ZArith List Lia Bool.
From stdpp Require Import base gmap strings list relations sets.
From S2P Require Import Prelude LockTable LockQueue LockGraph.
Local Open Scope sedna_scope.

Abbreviation table := (gmap string lock_head).
Abbreviation trans := (gmap Z TransCB).

(** ** Requests of a table *)

Definition req (T : table) (p : rptr) : option lock_request :=
  h ← T !! p.1; List.find (has_rid p.2) (queue h).

Lemma find_request_req st p : find_request st p = req (l_table st) p.
Proof. done. Qed.

Lemma find_has_rid q n r :
  NoDup (map rid q) -> List.find (has_rid n) q = Some r <-> In r q /\ rid r = n.
Proof.
  intros Hnd. split.
  - intros H. apply find_some in H as [Hin He]. split; [done|]. by apply Nat.eqb_eq.
  - intros [Hin <-]. induction q as [|x q IH]; [done|]. cbn in *.
    apply NoDup_cons in Hnd as [Hx Hnd]. unfold has_rid at 1.
    destruct (Nat.eqb_spec (rid x) (rid r)) as [E|E].
    + destruct Hin as [->|Hin]; [done|]. exfalso. apply Hx. rewrite E, list_elem_of_In. by apply in_map.
    + destruct Hin as [->|Hin]; [done|auto].
Qed.

Lemma req_Some T p r :
  req T p = Some r -> exists h, T !! p.1 = Some h /\ In r (queue h) /\ rid r = p.2.
Proof.
  unfold req. intros (h & Hh & Hf)%bind_Some. exists h. split; [done|].
  apply find_some in Hf as [Hin He]. split; [done|]. by apply Nat.eqb_eq.
Qed.

Lemma req_insert T k h p :
  req (<[k := h]> T) p = if decide (p.1 = k) then List.find (has_rid p.2) (queue h) else req T p.
Proof.
  unfold req. rewrite lookup_insert.
  destruct (decide (k = p.1)), (decide (p.1 = k)); try congruence; done.
Qed.

Lemma req_insert_ne T k h p : p.1 <> k -> req (<[k := h]> T) p = req T p.
Proof. intros. rewrite req_insert. by rewrite decide_False. Qed.

Lemma req_delete_ne T k p : p.1 <> k -> req (delete k T) p = req T p.
Proof. intros Hne. unfold req. by rewrite lookup_delete_ne by congruence. Qed.

(** ** Lists of the requests of a transaction *)

(** What a request says about the list it is in. *)
Definition lnk (T : table) (p : rptr) : option (transaction_id * option rptr * option rptr) :=
  (fun r => (tran r, tran_prev r, tran_next r)) <$> req T p.

Definition prev_of (ps : list rptr) (i : nat) : option rptr :=
  match i with O => None | S j => ps !! j end.

(** [ps] is the doubly linked list of the requests of [a]. *)
Definition dll (T : table) (a : transaction_id) (ps : list rptr) : Prop :=
  forall i p, ps !! i = Some p -> lnk T p = Some (a, prev_of ps i, ps !! S i).

Definition tran_list (T : table) (a : transaction_id) (l : option rptr) (ps : list rptr) : Prop :=
  ps <> [] /\ l = ps !! O /\ dll T a ps /\ NoDup (map snd ps) /\
  (forall p r, req T p = Some r -> tran r = a -> In p ps).

Lemma lnk_Some T p a pr nx :
  lnk T p = Some (a, pr, nx) <->
  exists r, req T p = Some r /\ tran r = a /\ tran_prev r = pr /\ tran_next r = nx.
Proof.
  unfold lnk. rewrite fmap_Some. split.
  - intros (r & Hr & [= -> -> ->]). eauto 10.
  - intros (r & Hr & <- & <- & <-). eauto.
Qed.

(** ** The invariant *)

Record head_ok (k : string) (h : lock_head) : Prop := {
  ho_key : get_str_res_id (r_id h) = k;
  ho_nonempty : queue h <> [];
  ho_shape : queue_shape (queue h);
  ho_waiting : waiting h = some_waiting (queue h);
  ho_group : waiting h = false -> granted_mode h = group (queue h);
  ho_trans : NoDup (map tran (queue h));
  ho_rids : NoDup (map rid (queue h));
  ho_convert : Forall (fun r => is_converter r ->
                         lock_max (mode r) (convert_mode r) = convert_mode r) (queue h) }.

(** The invariant; while the locks of transaction [ex] are being released
    its [wait] pointer is not looked at. *)
Record inv (ex : option transaction_id) (T : table) (X : trans) (n : nat) : Prop := {
  inv_heads : forall k h, T !! k = Some h -> head_ok k h;
  inv_req : forall p r, req T p = Some r ->
    head r = p.1 /\ (rid r < n)%nat /\
    exists t, X !! tran r = Some t /\
      (status r <> LOCK_GRANTED -> ex <> Some (tran r) -> wait t = Some p);
  inv_wait : forall a t p, ex <> Some a -> X !! a = Some t -> wait t = Some p ->
    exists r, req T p = Some r /\ tran r = a /\ status r <> LOCK_GRANTED;
  inv_list : forall a t, X !! a = Some t -> exists ps, tran_list T a (locks t) ps }.

Definition lm_inv (st : lm_state) : Prop :=
  inv None (l_table st) (tr_table st) (next_rid st).

Lemma inv_init : lm_inv init_lm.
Proof.
  split; cbn.
  - intros k h. by rewrite lookup_empty.
  - intros p r (h & Hh & _)%req_Some. by rewrite lookup_empty in Hh.
  - intros a t p _. by rewrite lookup_empty.
  - intros a t. by rewrite lookup_empty.
Qed.

Section Facts.
Context {ex : option transaction_id} {T : table} {X : trans} {n : nat} (HI : inv ex T X n).

Lemma req_in k h r : T !! k = Some h -> In r (queue h) -> req T (k, rid r) = Some r.
Proof.
  intros Hh Hin. unfold req. cbn. rewrite Hh. cbn.
  apply find_has_rid; [|done]. by eapply ho_rids, inv_heads.
Qed.

(** One transaction has at most one request in a queue. *)
Lemma req_unique p1 p2 r1 r2 :
  req T p1 = Some r1 -> req T p2 = Some r2 -> p1.1 = p2.1 -> tran r1 = tran r2 -> r1 = r2.
Proof.
  intros (h1 & Hh1 & Hin1 & _)%req_Some (h2 & Hh2 & Hin2 & _)%req_Some Hk Ht.
  rewrite Hk, Hh2 in Hh1. injection Hh1 as <-.
  assert (Hnd := ho_trans _ _ (inv_heads _ _ _ _ HI _ _ Hh2)).
  clear -Hin1 Hin2 Ht Hnd. induction (queue h2) as [|x q IH]; [done|].
  cbn in Hnd. apply NoDup_cons in Hnd as [Hx Hnd]. rewrite list_elem_of_In in Hx.
  destruct Hin1 as [->|Hin1], Hin2 as [->|Hin2]; auto; exfalso; apply Hx.
  - rewrite Ht. by apply in_map.
  - rewrite <- Ht. by apply in_map.
Qed.

Lemma find_owned k h a r :
  T !! k = Some h -> In r (queue h) -> tran r = a -> List.find (owned_by a) (queue h) = Some r.
Proof.
  intros Hh Hin Ha. destruct (List.find (owned_by a) (queue h)) as [r'|] eqn:E.
  - apply find_some in E as [Hin' He]. apply Z.eqb_eq in He. f_equal.
    apply (req_unique (k, rid r') (k, rid r)); [by eapply req_in|by eapply req_in|done|congruence].
  - exfalso. eapply find_none in E; [|exact Hin]. unfold owned_by in E.
    apply Z.eqb_neq in E. done.
Qed.

Lemma tran_list_rids a t ps :
  X !! a = Some t -> tran_list T a (locks t) ps -> (length ps <= n)%nat.
Proof.
  intros Ht (_ & _ & Hd & Hnd & _).
  assert (Hle : (length (map snd ps) <= n)%nat); [|by rewrite length_map in Hle].
  rewrite <- (length_seq n 0). apply NoDup_incl_length; [by apply NoDup_ListNoDup|].
  intros i Hi. apply in_map_iff in Hi as (p & <- & Hp).
  apply list_elem_of_In, list_elem_of_lookup in Hp as [j Hj].
  apply Hd, lnk_Some in Hj as (r & Hr & _).
  destruct (inv_req _ _ _ _ HI _ _ Hr) as (_ & Hlt & _).
  apply req_Some in Hr as (_ & _ & _ & <-). apply in_seq. lia.
Qed.
End Facts.

Lemma prev_of_length ps : prev_of ps (length ps) = last ps.
Proof. rewrite last_lookup. by destruct ps. Qed.

(** The walk to the last request of a transaction. *)
Lemma last_of_tran_spec st a ps fuel : forall i,
  dll (l_table st) a ps -> (i <= length ps)%nat -> (length ps - i <= fuel)%nat ->
  last_of_tran fuel st (ps !! i) (prev_of ps i) = Ok (last ps).
Proof.
  induction fuel as [|fuel IH]; intros i Hd Hi Hf.
  - assert (i = length ps) as -> by lia. rewrite lookup_ge_None_2 by lia. cbn.
    by rewrite prev_of_length.
  - destruct (ps !! i) as [p|] eqn:Hp.
    + cbn [last_of_tran]. pose proof (Hd _ _ Hp) as Hl. apply lnk_Some in Hl as (r & Hr & _ & _ & Hn).
      rewrite find_request_req, Hr. cbn [of_option bind_res]. rewrite Hn.
      assert (Hlt := lookup_lt_Some _ _ _ Hp). rewrite <- Hp.
      apply (IH (S i)); [done|lia|lia].
    + cbn. apply lookup_ge_None in Hp. assert (i = length ps) as -> by lia.
      by rewrite prev_of_length.
Qed.

(** ** Writes through a pointer to a request *)

Definition upd (T : table) (p : rptr) (f : lock_request -> lock_request) : table :=
  match T !! p.1 with
  | Some h => <[p.1 := set_queue (map (fun r => if has_rid p.2 r then f r else r) (queue h)) h]> T
  | None => T
  end.

Lemma update_request_upd st p r f :
  req (l_table st) p = Some r ->
  update_request st p f = Ok (set_l_table (upd (l_table st) p f) st).
Proof.
  intros Hr. unfold update_request, upd. rewrite find_request_req, Hr.
  apply req_Some in Hr as (h & -> & _). done.
Qed.

Lemma find_map_rid g q n :
  (forall r, rid (g r) = rid r) ->
  List.find (has_rid n) (map g q) = g <$> List.find (has_rid n) q.
Proof.
  intros Hg. induction q as [|x q IH]; [done|]. cbn. unfold has_rid at 1 3. rewrite Hg.
  by destruct (Nat.eqb (rid x) n).
Qed.

Lemma req_upd T p f p' :
  (forall r, rid (f r) = rid r) ->
  req (upd T p f) p' = if decide (p' = p) then f <$> req T p else req T p'.
Proof.
  intros Hf. unfold upd. destruct (T !! p.1) as [h|] eqn:Hh.
  - rewrite req_insert. destruct (decide (p'.1 = p.1)) as [E|E].
    + cbn [queue set_queue]. rewrite find_map_rid by (intros x; by destruct (has_rid p.2 x)).
      unfold req. rewrite E, Hh. cbn.
      destruct (List.find (has_rid p'.2) (queue h)) as [x|] eqn:Hx.
      * cbn. pose proof (find_some _ _ Hx) as [_ Hx2]. apply Nat.eqb_eq in Hx2.
        destruct (decide (p' = p)) as [->|Hne].
        -- rewrite Hx. cbn. unfold has_rid. by rewrite (proj2 (Nat.eqb_eq _ _) Hx2).
        -- unfold has_rid. rewrite (proj2 (Nat.eqb_neq _ _)); [done|].
           destruct p, p'; cbn in *; congruence.
      * destruct (decide (p' = p)) as [->|]; [by rewrite Hx|done].
    + rewrite decide_False by congruence. done.
  - destruct (decide (p' = p)) as [->|]; [|done]. unfold req. by rewrite Hh.
Qed.

Lemma upd_lookup T p f k h' :
  upd T p f !! k = Some h' ->
  exists h, T !! k = Some h /\ (h' = h \/
    (k = p.1 /\ h' = set_queue (map (fun r => if has_rid p.2 r then f r else r) (queue h)) h)).
Proof.
  unfold upd. destruct (T !! p.1) as [h|] eqn:Hh; [|eauto].
  rewrite lookup_insert. destruct (decide (p.1 = k)) as [<-|]; [|eauto].
  intros [= <-]. eauto.
Qed.

Lemma cons_inj {A} (x y : A) l l' : x :: l = y :: l' -> x = y /\ l = l'.
Proof. by intros [= -> ->]. Qed.

(** What a request says of itself, apart from the links of its lists. *)
Definition core (r : lock_request) :=
  (rid r, tran r, status r, mode r, convert_mode r, process_xsem r).

Lemma core_map_facts q q' :
  map core q' = map core q ->
  map rid q' = map rid q /\ map tran q' = map tran q /\ group q' = group q /\
  some_waiting q' = some_waiting q /\ (queue_shape q -> queue_shape q') /\
  (forall P : lock_request -> Prop, (forall x y, core x = core y -> P x -> P y) ->
     Forall P q -> Forall P q').
Proof.
  intros E. assert (HP : forall P : lock_request -> Prop,
    (forall x y, core x = core y -> P x -> P y) -> forall q q', map core q' = map core q ->
     Forall P q -> Forall P q').
  { clear. intros P HP q. induction q as [|x q IH]; intros [|y q'] E; try done.
    apply cons_inj in E as [Exy E]. rewrite !Forall_cons. intros [Hx Hq].
    split; [by apply (HP x y)|by apply IH]. }
  revert q' E. induction q as [|x q IH]; intros [|y q'] E; try done.
  pose proof E as Em0. apply cons_inj in E as [E Eq]. injection E as E1 E2 E3 E4 E5 E6. destruct (IH q' Eq) as (H1 & H2 & H3 & H4 & _ & _).
  repeat split; cbn [map]; try congruence.
  - unfold group in *. cbn [foldr]. rewrite H3, E4.
    replace (holds y) with (holds x) by (unfold holds; by rewrite E3). done.
  - unfold some_waiting in *. cbn [existsb]. by rewrite E3, H4.
  - intros (q1 & q2 & Eq1 & Hq1 & Hq2).
    pose proof Em0 as Em.
    rewrite Eq1, map_app in Em. exists (take (length q1) (y :: q')), (drop (length q1) (y :: q')).
    split; [by rewrite take_drop|]. split.
    + eapply HP; [| |exact Hq1].
      * intros u v Euv. unfold is_holder, holds. injection Euv as _ _ -> _ _ _. done.
      * rewrite <- firstn_map, Em, take_app_length'; [done|by rewrite length_map].
    + eapply HP; [| |exact Hq2].
      * intros u v Euv. unfold is_waiter. injection Euv as _ _ -> _ _ _. done.
      * rewrite <- skipn_map, Em, drop_app_length'; [done|by rewrite length_map].
  - intros P HP2. by apply HP.
Qed.

Lemma head_ok_core k h q' :
  map core q' = map core (queue h) -> head_ok k h -> head_ok k (set_queue q' h).
Proof.
  intros E [H1 H2 H3 H4 H5 H6 H7 H8].
  destruct (core_map_facts _ _ E) as (E1 & E2 & E3 & E4 & E5 & E6).
  split; cbn [queue set_queue r_id waiting granted_mode]; rewrite ?E1, ?E2, ?E3, ?E4; auto.
  - intros ->. symmetry in E. by apply map_eq_nil in E.
  - eapply E6; [|exact H8]. intros x y Exy. unfold is_converter.
    injection Exy as _ _ -> -> -> _. done.
Qed.

(** A write that leaves the core of the requests alone. *)
Lemma upd_heads T p f :
  (forall r, core (f r) = core r) ->
  (forall k h, T !! k = Some h -> head_ok k h) ->
  forall k h, upd T p f !! k = Some h -> head_ok k h.
Proof.
  intros Hf HT k h' Hh. apply upd_lookup in Hh as (h & Hh & [->|[_ ->]]); [auto|].
  apply head_ok_core; [|auto]. rewrite map_map. apply map_ext. intros x.
  destruct (has_rid p.2 x); [apply Hf|done].
Qed.

(** ** Adding a request *)

Lemma dll_ext T T' a ps :
  (forall p, In p ps -> lnk T' p = lnk T p) -> dll T a ps -> dll T' a ps.
Proof.
  intros He Hd i p Hp. rewrite He; [by apply Hd|].
  apply list_elem_of_In, list_elem_of_lookup. eauto.
Qed.

Lemma dll_tran T a ps p :
  dll T a ps -> In p ps -> exists r, req T p = Some r /\ tran r = a.
Proof.
  intros Hd Hp%list_elem_of_In. apply list_elem_of_lookup in Hp as [i Hi].
  apply Hd, lnk_Some in Hi as (r & Hr & Ht & _). eauto.
Qed.

(** The list of a transaction after a request was appended to it. *)
Lemma dll_snoc T T' a ps lst q r :
  dll T a (ps ++ [lst]) -> NoDup (ps ++ [lst]) ->
  (forall p, In p ps -> lnk T' p = lnk T p) ->
  req T' lst = set_tran_next (Some q) <$> req T lst ->
  req T' q = Some r -> tran r = a -> tran_prev r = Some lst -> tran_next r = None ->
  dll T' a (ps ++ [lst; q]).
Proof.
  intros Hd Hnd He Hl Hq Ha Hp Hn i p Hi.
  assert (Hlst : (ps ++ [lst]) !! length ps = Some lst) by (by rewrite list_lookup_middle).
  destruct (decide (i < length ps)%nat) as [Hlt|Hge].
  - rewrite lookup_app_l in Hi by done. rewrite He.
    2:{ apply list_elem_of_In, list_elem_of_lookup. eauto. }
    rewrite (Hd i p) by (by rewrite lookup_app_l). f_equal. f_equal; [f_equal|].
    + destruct i; cbn; [done|]. rewrite !lookup_app_l by lia. done.
    + destruct (decide (S i < length ps)%nat).
      * rewrite !lookup_app_l by lia. done.
      * assert (S i = length ps) as -> by lia. rewrite !list_lookup_middle; done.
  - rewrite lookup_app_r in Hi by lia. apply lnk_Some.
    destruct (decide (i = length ps)) as [->|Hne].
    + rewrite Nat.sub_diag in Hi. injection Hi as <-.
      apply Hd, lnk_Some in Hlst as (x & Hx & Hxa & Hxp & _). rewrite Hx in Hl.
      exists (set_tran_next (Some q) x). split; [done|]. cbn. split; [done|]. split.
      * rewrite Hxp. destruct (length ps) eqn:E; [done|]. cbn. rewrite !lookup_app_l by lia. done.
      * rewrite lookup_app_r by lia. replace (S (length ps) - length ps) with 1 by lia. done.
    + assert (i = S (length ps)) as ->.
      { apply lookup_lt_Some in Hi. cbn in Hi. lia. }
      replace (S (length ps) - length ps) with 1 in Hi by lia. injection Hi as <-.
      exists r. split; [done|]. split; [done|]. split.
      * cbn. by rewrite list_lookup_middle.
      * rewrite Hn. symmetry. apply lookup_ge_None. rewrite length_app. cbn. lia.
Qed.

Definition new_wait (r : lock_request) (q : rptr) : option rptr :=
  if bool_decide (status r = LOCK_GRANTED) then None else Some q.

(** The table entry of the transaction and the requests, before and after a
    request [r] was added to the list of its transaction. *)
Definition linked (T T' : table) (X : trans) (q : rptr) (r : lock_request) (t' : TransCB) : Prop :=
  req T' q = Some r /\ tran_next r = None /\ wait t' = new_wait r q /\
  ((X !! tran r = None /\ tran_prev r = None /\ locks t' = Some q /\
    (forall p, p <> q -> req T' p = req T p)) \/
   (exists t ps lst, X !! tran r = Some t /\ tran_list T (tran r) (locks t) (ps ++ [lst]) /\
      tran_prev r = Some lst /\ locks t' = locks t /\
      (forall p, p <> q -> req T' p = if decide (p = lst)
                                      then set_tran_next (Some q) <$> req T p else req T p))).

Lemma NoDup_map_snd (ps : list rptr) : NoDup (map snd ps) -> NoDup ps.
Proof. intros H. apply NoDup_ListNoDup in H. apply NoDup_ListNoDup. by apply NoDup_map_inv in H. Qed.

Section Add.
Context {T : table} {X : trans} {n : nat} {T' : table} {k : string} {r : lock_request}
  {t' : TransCB}.
Context (HI : inv None T X n) (Hn : rid r = n) (Hk : head r = k)
  (Hw : forall t, X !! tran r = Some t -> wait t = None)
  (HL : linked T T' X (k, n) r t').

Lemma add_fresh p x : req T p = Some x -> p <> (k, n).
Proof.
  intros Hx ->. pose proof (inv_req _ _ _ _ HI _ _ Hx) as (_ & Hlt & _).
  apply req_Some in Hx as (_ & _ & _ & E). cbn in E. lia.
Qed.

(** Every old request is still there, up to its next pointer. *)
Lemma add_old p x :
  req T p = Some x -> exists x', req T' p = Some x' /\ core x' = core x /\ head x' = head x.
Proof.
  intros Hx. pose proof (add_fresh p x Hx). destruct HL as (_ & _ & _ & Hl).
  destruct Hl as [(_ & _ & _ & He)|(t & ps & lst & _ & _ & _ & _ & He)]; rewrite He by done; [eauto|].
  destruct (decide (p = lst)); rewrite Hx; cbn; eauto.
Qed.

Lemma add_new p x' :
  req T' p = Some x' -> p = (k, n) /\ x' = r \/
    p <> (k, n) /\ exists x, req T p = Some x /\ core x' = core x /\ head x' = head x.
Proof.
  intros Hx'. destruct HL as (Hq & _ & _ & Hl).
  destruct (decide (p = (k, n))) as [->|Hne]; [left; split; congruence|right].
  split; [done|]. destruct Hl as [(_ & _ & _ & He)|(t & ps & lst & _ & _ & _ & _ & He)];
    rewrite He in Hx' by done; [eauto|].
  destruct (decide (p = lst)); [|eauto]. apply fmap_Some in Hx' as (x & Hx & ->). eauto.
Qed.

Lemma add_req p x' :
  req T' p = Some x' ->
  head x' = p.1 /\ (rid x' < S n)%nat /\
  exists t, <[tran r := t']> X !! tran x' = Some t /\
    (status x' <> LOCK_GRANTED -> None <> Some (tran x') -> wait t = Some p).
Proof.
  intros [[-> ->]|(Hne & x & Hx & Hc & Hhd)]%add_new.
  - split; [done|]. split; [lia|]. exists t'. rewrite lookup_insert_eq. split; [done|].
    intros Hst _. destruct HL as (_ & _ & Hwt & _).
    rewrite Hwt. unfold new_wait. by rewrite bool_decide_eq_false_2.
  - destruct (inv_req _ _ _ _ HI _ _ Hx) as (H1 & H2 & t & Ht & H3).
    injection Hc as -> Ht' Hs' _ _ _. rewrite Hhd, Hs', Ht'. split; [done|]. split; [lia|].
    destruct (decide (tran x = tran r)) as [E|E].
    + exists t'. rewrite E, lookup_insert_eq. split; [done|]. intros Hst Hex.
      rewrite E in *. specialize (H3 Hst Hex). rewrite (Hw t Ht) in H3. done.
    + exists t. rewrite lookup_insert_ne by done. auto.
Qed.

Lemma add_wait a t p :
  <[tran r := t']> X !! a = Some t -> wait t = Some p ->
  exists x, req T' p = Some x /\ tran x = a /\ status x <> LOCK_GRANTED.
Proof.
  intros Ht Hwp. destruct (decide (a = tran r)) as [->|Hne].
  - destruct HL as (Hq & _ & Hwt & _).
    rewrite lookup_insert_eq in Ht. injection Ht as ->. rewrite Hwt in Hwp. unfold new_wait in Hwp.
    case_bool_decide; [done|]. injection Hwp as <-. eauto.
  - rewrite lookup_insert_ne in Ht by done.
    destruct (inv_wait _ _ _ _ HI a t p) as (x & Hx & Hxt & Hxs); [done..|].
    destruct (add_old _ _ Hx) as (x' & Hx' & Hc & _). injection Hc as _ Ht' Hs' _ _ _.
    exists x'. rewrite Ht', Hs'. auto.
Qed.

(** The first request of a transaction. *)
Lemma add_list_first :
  X !! tran r = None -> tran_prev r = None -> locks t' = Some (k, n) ->
  tran_list T' (tran r) (locks t') [(k, n)].
Proof.
  intros HX Hp Hlk. destruct HL as (Hq & Hnx & _). split; [done|]. split; [done|]. split; [|split].
  - intros i p Hi. destruct i as [|i]; [|done]. injection Hi as <-. apply lnk_Some. eauto 10.
  - repeat constructor. set_solver.
  - intros p x' [[-> ->]|(_ & x & Hx & Hc & _)]%add_new Hxt; [by left|].
    injection Hc as _ Ht' _ _ _ _. destruct (inv_req _ _ _ _ HI _ _ Hx) as (_ & _ & t & Ht & _).
    rewrite <- Ht', Hxt, HX in Ht. done.
Qed.

(** A further request of a transaction. *)
Lemma add_list_next t ps lst :
  tran_list T (tran r) (locks t) (ps ++ [lst]) ->
  tran_prev r = Some lst -> locks t' = locks t ->
  (forall p, p <> (k, n) -> req T' p = if decide (p = lst)
                              then set_tran_next (Some (k, n)) <$> req T p else req T p) ->
  tran_list T' (tran r) (locks t') (ps ++ [lst; (k, n)]).
Proof.
  intros (_ & Hhd & Hd & Hnd & Hall) Hp Hlk He. destruct HL as (Hq & Hnx & _).
  split; [by destruct ps|]. split; [rewrite Hlk, Hhd; by destruct ps|]. split; [|split].
  - eapply (dll_snoc T T' _ ps lst (k, n) r); eauto.
    + by apply NoDup_map_snd.
    + intros p Hpin. unfold lnk. destruct (dll_tran _ _ _ p Hd) as (x & Hx & _).
      { rewrite in_app_iff. by left. }
      rewrite He by (by eapply add_fresh). rewrite decide_False; [done|]. intros ->.
      apply NoDup_map_snd, NoDup_app in Hnd as (_ & Hnd & _).
      apply (Hnd lst); [by apply list_elem_of_In|set_solver].
    + destruct (dll_tran _ _ _ lst Hd) as (x & Hx & _); [apply in_elt|].
      rewrite He by (by eapply add_fresh). by rewrite decide_True.
  - replace (ps ++ [lst; (k, n)]) with ((ps ++ [lst]) ++ [(k, n)]) by (by rewrite <- app_assoc).
    rewrite map_app. apply NoDup_app. split; [done|]. split; [|repeat constructor; set_solver].
    intros i Hi%list_elem_of_In ->%list_elem_of_singleton. apply in_map_iff in Hi as (p & Hp2 & Hpin).
    destruct (dll_tran _ _ _ p Hd Hpin) as (x & Hx & _).
    pose proof (inv_req _ _ _ _ HI _ _ Hx) as (_ & Hlt & _).
    apply req_Some in Hx as (_ & _ & _ & E). cbn in Hp2. lia.
  - intros p x' [[-> ->]|(_ & x & Hx & Hc & _)]%add_new Hxt; rewrite in_app_iff; cbn; [auto|].
    injection Hc as _ Ht' _ _ _ _.
    assert (Hin : In p (ps ++ [lst])) by (eapply Hall; eauto; congruence).
    rewrite in_app_iff in Hin. cbn in Hin. tauto.
Qed.

(** The lists of the other transactions. *)
Lemma add_list_other a l ps :
  a <> tran r -> tran_list T a l ps -> tran_list T' a l ps.
Proof.
  intros Hne (Hne2 & Hhd & Hd & Hnd & Hall).
  split; [done|]. split; [done|]. split; [|split; [done|]].
  - eapply dll_ext; [|exact Hd]. intros p Hpin.
    destruct (dll_tran _ _ _ p Hd Hpin) as (x & Hx & Hxt).
    pose proof (add_fresh _ _ Hx). unfold lnk. destruct HL as (_ & _ & _ & Hl).
    destruct Hl as [(_ & _ & _ & He)|(t2 & ps2 & lst & _ & (_ & _ & Hd2 & _) & _ & _ & He)];
      rewrite He by done; [done|].
    rewrite decide_False; [done|]. intros ->.
    destruct (dll_tran _ _ _ lst Hd2) as (y & Hy & Hyt); [apply in_elt|]. congruence.
  - intros p x' [[-> ->]|(_ & x & Hx & Hc & _)]%add_new Hxt; [congruence|].
    injection Hc as _ Ht' _ _ _ _. eapply Hall; eauto. congruence.
Qed.

Lemma inv_add :
  (forall k' h', T' !! k' = Some h' -> head_ok k' h') -> inv None T' (<[tran r := t']> X) (S n).
Proof.
  intros Hh. split; [done|by apply add_req|intros a t p _; by apply add_wait|].
  intros a t Ht. destruct (decide (a = tran r)) as [->|Hne].
  - rewrite lookup_insert_eq in Ht. injection Ht as <-. destruct HL as (_ & _ & _ & Hl).
    destruct Hl as [(HX & Hp & Hlk & He)|(t & ps & lst & HX & Ht & Hp & Hlk & He)].
    + exists [(k, n)]. by apply add_list_first.
    + exists (ps ++ [lst; (k, n)]). by eapply add_list_next.
  - rewrite lookup_insert_ne in Ht by done.
    destruct (inv_list _ _ _ _ HI a t Ht) as (ps & Hps). exists ps. by apply add_list_other.
Qed.
End Add.

(** A transaction that waits sends no further request. *)
Definition may_request (st : lm_state) (a : transaction_id) : Prop :=
  forall t, tr_table st !! a = Some t -> wait t = None.

Definition queue_of (T : table) (k : string) : list lock_request :=
  match T !! k with Some h => queue h | None => [] end.

Lemma find_app_rid q r n :
  List.find (has_rid n) (q ++ [r]) =
  match List.find (has_rid n) q with
  | Some x => Some x
  | None => if Nat.eqb (rid r) n then Some r else None
  end.
Proof. induction q as [|x q IH]; cbn; [done|]. by destruct (has_rid n x). Qed.

Lemma req_enqueue T k h' r p :
  queue h' = queue_of T k ++ [r] ->
  (forall x, In x (queue_of T k) -> rid x <> rid r) ->
  req (<[k := h']> T) p = if decide (p = (k, rid r)) then Some r else req T p.
Proof.
  intros Hq Hne. rewrite req_insert. destruct p as [k' i]. cbn.
  destruct (decide (k' = k)) as [->|Hk]; [|by rewrite decide_False by congruence].
  rewrite Hq, find_app_rid. assert (E : List.find (has_rid i) (queue_of T k) = req T (k, i)).
  { unfold queue_of, req. cbn. by destruct (T !! k). }
  rewrite E. case_decide as Hi.
  - injection Hi as ->. destruct (req T (k, rid r)) as [x|] eqn:Hx.
    + exfalso. apply find_some in E as [Hin He]. apply Nat.eqb_eq in He. by apply (Hne x).
    + by rewrite Nat.eqb_refl.
  - destruct (req T (k, i)) as [x|]; [done|]. destruct (Nat.eqb_spec (rid r) i) as [<-|]; done.
Qed.

Definition new_request (n : nat) k m c s a prev : lock_request :=
  mk_request n k LOCK_GRANTED m NULL_LOCK 1 c s a prev None.

(** Two tables that differ in the links between requests only. *)
Definition same_heads (T1 T : table) : Prop :=
  forall k h, T1 !! k = Some h -> exists h0, T !! k = Some h0 /\
    r_id h = r_id h0 /\ granted_mode h = granted_mode h0 /\ waiting h = waiting h0 /\
    map core (queue h) = map core (queue h0).

Lemma same_heads_refl T : same_heads T T.
Proof. intros k h Hh. eauto 10. Qed.

Lemma upd_same_heads T p f : (forall r, core (f r) = core r) -> same_heads (upd T p f) T.
Proof.
  intros Hf k h Hh. apply upd_lookup in Hh as (h0 & Hh0 & [->|[_ ->]]); [eauto 10|].
  exists h0. cbn. repeat split; auto. rewrite map_map. apply map_ext.
  intros x. destruct (has_rid p.2 x); auto.
Qed.

Lemma upd_None T p f k : T !! k = None <-> upd T p f !! k = None.
Proof.
  unfold upd. destruct (T !! p.1) as [h|] eqn:Hh; [|done].
  rewrite lookup_insert_None. split; [|tauto]. intros Hk. split; congruence.
Qed.

(** The result of the constructor: whatever status the caller gives the new
    request, adding it to its queue links it properly. *)
Definition request_made (st : lm_state) a s k m c (T1 : table) (t1 : TransCB) prev : Prop :=
  let n := next_rid st in
  let r := new_request n k m c s a prev in
  new_lock_request st a s k m c =
    Ok (mk_lm T1 (<[a := t1]> (tr_table st)) (S n) (sem_ups st), r) /\
  wait t1 = None /\
  tr_status t1 = from_option tr_status NORMAL_PROCESSING (tr_table st !! a) /\
  same_heads T1 (l_table st) /\
  (forall k, l_table st !! k = None <-> T1 !! k = None) /\
  (forall h' stt, queue h' = queue_of T1 k ++ [set_status stt r] ->
     linked (l_table st) (<[k := h']> T1) (tr_table st) (k, n) (set_status stt r)
       (set_wait (new_wait (set_status stt r) (k, n)) t1)).

Lemma same_heads_rid st T1 k x :
  lm_inv st -> same_heads T1 (l_table st) -> In x (queue_of T1 k) -> (rid x < next_rid st)%nat.
Proof.
  intros HI Hs Hx. unfold queue_of in Hx. destruct (T1 !! k) as [h|] eqn:Hh; [|done].
  destruct (Hs k h Hh) as (h0 & Hh0 & _ & _ & _ & Hc).
  apply (in_map core) in Hx. rewrite Hc in Hx. apply in_map_iff in Hx as (y & Hy & Hin).
  injection Hy as <- _ _ _ _ _. apply (inv_req _ _ _ _ HI (k, rid y)). by eapply (req_in HI).
Qed.

Lemma request_made_first st a s k m c :
  lm_inv st -> tr_table st !! a = None ->
  request_made st a s k m c (l_table st)
    (mk_TransCB (Some (k, next_rid st)) None NORMAL_PROCESSING) None.
Proof.
  intros HI Ht. split; [|split; [done|split; [by rewrite Ht|]]].
  - unfold new_lock_request, find_tr_lock_head, insert_tr_lock_head. cbn.
    by rewrite !Ht.
  - assert (Hs := same_heads_refl (l_table st)). split; [done|]. split; [done|].
    intros h' stt Hq. assert (Hreq := fun p => req_enqueue _ _ _ _ p Hq).
    cbn [rid set_status new_request] in Hreq. split; [|split; [done|split; [done|left]]].
    + rewrite Hreq; [by rewrite decide_True|]. intros x Hx%(same_heads_rid st) ?; [|done..]. cbn in *. lia.
    + split; [done|]. split; [done|]. split; [done|]. intros p Hp.
      rewrite Hreq; [by rewrite decide_False|]. intros x Hx%(same_heads_rid st) ?; [|done..]. cbn in *. lia.
Qed.

Lemma request_made_next st a s k m c t :
  lm_inv st -> tr_table st !! a = Some t -> wait t = None ->
  exists T1 prev, request_made st a s k m c T1 t prev.
Proof.
  intros HI Ht Hw. set (n := next_rid st).
  destruct (inv_list _ _ _ _ HI a t Ht) as (ps & Hps).
  pose proof Hps as (Hne & Hhd & Hd & Hnd & Hall).
  destruct (exists_last Hne) as (ps0 & lst & ->).
  assert (Hlen := tran_list_rids HI a t _ Ht Hps). fold n in Hlen.
  set (T1 := upd (l_table st) lst (set_tran_next (Some (k, n)))).
  destruct (dll_tran _ _ _ lst Hd) as (x & Hx & _); [apply in_elt|].
  assert (Hs : same_heads T1 (l_table st)) by (by apply upd_same_heads).
  exists T1, (Some lst).
  split; [|split; [done|split; [by rewrite Ht|split; [done|split; [intros; apply upd_None|]]]]].
  - unfold new_lock_request, find_tr_lock_head. cbn [tr_table]. rewrite Ht, Hhd. fold n.
    set (st1 := mk_lm (l_table st) (tr_table st) (S n) (sem_ups st)).
    pose proof (last_of_tran_spec st1 a (ps0 ++ [lst]) n 0 Hd ltac:(lia) ltac:(lia)) as Hlast.
    cbn [prev_of] in Hlast. rewrite Hlast, last_snoc. cbn [bind_res of_option].
    rewrite (update_request_upd st1 lst x) by done. cbn [bind_res].
    by rewrite insert_id.
  - intros h' stt Hq. assert (Hreq := fun p => req_enqueue _ _ _ _ p Hq).
    cbn [rid set_status new_request] in Hreq. fold n in Hreq.
    assert (Hfr : forall y, In y (queue_of T1 k) -> rid y <> n).
    { intros y Hy%(same_heads_rid st); [|done..]. unfold n. lia. }
    split; [|split; [done|split; [done|right]]].
    + rewrite Hreq by done. by rewrite decide_True.
    + exists t, ps0, lst. split; [done|]. split; [done|]. split; [done|]. split; [done|].
      intros p Hp. rewrite Hreq by done. rewrite decide_False by done.
      unfold T1. rewrite req_upd by done. destruct (decide (p = lst)) as [->|]; done.
Qed.

Lemma request_made_spec st a s k m c :
  lm_inv st -> may_request st a ->
  exists T1 t1 prev, request_made st a s k m c T1 t1 prev.
Proof.
  intros HI Hm. destruct (tr_table st !! a) as [t|] eqn:Ht.
  - destruct (request_made_next st a s k m c t HI Ht (Hm t Ht)) as (T1 & prev & H). eauto.
  - eauto using request_made_first.
Qed.

Lemma same_heads_ok T1 T :
  same_heads T1 T -> (forall k h, T !! k = Some h -> head_ok k h) ->
  forall k h, T1 !! k = Some h -> head_ok k h.
Proof.
  intros Hs HT k h Hh. destruct (Hs k h Hh) as (h0 & Hh0 & E1 & E2 & E3 & E4).
  pose proof (head_ok_core k h0 (queue h) E4 (HT k h0 Hh0)) as [H1 H2 H3 H4 H5 H6 H7 H8].
  cbn [queue set_queue r_id waiting granted_mode] in *. rewrite <- E1, <- E2, <- E3 in *.
  by split.
Qed.

(** ** The abstract specification of a lock request

    How one queue changes, on the contents of the requests and not on the
    links between them.  Requests of other transactions are never touched. *)

Definition conversion_granted (m : lock_mode) (r : lock_request) : lock_request :=
  set_convert_mode NULL_LOCK (set_status LOCK_GRANTED (set_mode (lock_max (mode r) m) r)).
Definition conversion_waits (m : lock_mode) (r : lock_request) : lock_request :=
  set_status LOCK_CONVERTING (set_convert_mode (lock_max (mode r) m) r).

Definition stranger (a : transaction_id) (q : list lock_request) : Prop :=
  forall x, In x q -> tran x <> a.

(** Every holder of another transaction is compatible with the mode. *)
Definition others_allow (a : transaction_id) (m : lock_mode) (q : list lock_request) : Prop :=
  forall x, In x q -> is_holder x -> tran x <> a -> lock_compat (mode x) m = true.

Inductive lock_queue_step (a : transaction_id) (m : lock_mode) :
  list lock_request -> list lock_request -> lock_reply -> Prop :=
| lq_grant q q' r :
    stranger a q -> all_granted q -> others_allow a m q ->
    map core q' = map core (q ++ [r]) -> tran r = a -> status r = LOCK_GRANTED -> mode r = m ->
    lock_queue_step a m q q' LOCK_OK
| lq_wait q q' r :
    stranger a q -> ~ (all_granted q /\ others_allow a m q) ->
    map core q' = map core (q ++ [r]) -> tran r = a -> status r = LOCK_WAITING -> mode r = m ->
    lock_queue_step a m q q' LOCK_NOT_LOCKED
| lq_convert q1 r q2 :
    tran r = a -> status r = LOCK_GRANTED ->
    others_allow a (lock_max (mode r) m) (q1 ++ r :: q2) ->
    lock_queue_step a m (q1 ++ r :: q2) (q1 ++ conversion_granted m r :: q2) LOCK_OK
| lq_convert_wait q1 r q2 :
    tran r = a -> status r = LOCK_GRANTED ->
    ~ others_allow a (lock_max (mode r) m) (q1 ++ r :: q2) ->
    lock_queue_step a m (q1 ++ r :: q2) (q1 ++ conversion_waits m r :: q2) LOCK_NOT_LOCKED.

Lemma compat_group_others a m q :
  stranger a q -> lock_compat m (group q) = true <-> others_allow a m q.
Proof.
  intros Hs. rewrite compat_group, List.Forall_forall. unfold others_allow.
  setoid_rewrite (lock_compat_sym _ m). split; intros H x Hx Hh; auto.
Qed.

Lemma blocks_conversion_others a cm q :
  existsb (blocks_conversion a cm) q = false <-> others_allow a cm q.
Proof.
  rewrite <- not_true_iff_false, existsb_exists. unfold blocks_conversion, others_allow, owned_by.
  split.
  - intros H x Hx Hh Ht. destruct (lock_compat (mode x) cm) eqn:Hc; [done|]. exfalso. apply H.
    exists x. split; [done|]. by rewrite Hh, Hc, (proj2 (Z.eqb_neq _ _) Ht).
  - intros H (x & Hx & Hb). rewrite !andb_true_iff, !negb_true_iff, Z.eqb_neq in Hb.
    destruct Hb as [[Hh Ht] Hc]. rewrite H in Hc; done.
Qed.

(** *** Well-formed heads after a request *)

Lemma head_ok_new res r :
  status r = LOCK_GRANTED ->
  head_ok (get_str_res_id res) (mk_head res [r] (mode r) false).
Proof.
  intros Hr. assert (Hh : is_holder r) by (by apply granted_holds).
  split; cbn [queue r_id waiting granted_mode]; try done.
  - exists [r], []. repeat constructor. done.
  - symmetry. apply some_waiting_false. by repeat constructor.
  - intros _. unfold group. cbn. rewrite Hh. by rewrite lock_max_null_r.
  - repeat constructor. set_solver.
  - repeat constructor. set_solver.
  - repeat constructor. intros Hc. red in Hc. congruence.
Qed.

Lemma NoDup_map_snoc {B} (f : lock_request -> B) (q : list lock_request) r :
  NoDup (map f q) -> (forall x, In x q -> f x <> f r) -> NoDup (map f (q ++ [r])).
Proof.
  intros Hnd Hf. rewrite map_app. apply NoDup_app. split; [done|]. split; [|repeat constructor; set_solver].
  intros y Hy%list_elem_of_In Hz. apply in_map_iff in Hy as (x & <- & Hx).
  apply list_elem_of_singleton in Hz. by apply (Hf x).
Qed.

Lemma head_ok_append_granted k h r :
  head_ok k h -> waiting h = false -> status r = LOCK_GRANTED ->
  (forall x, In x (queue h) -> tran x <> tran r /\ rid x <> rid r) ->
  head_ok k (set_granted_mode (lock_max (mode r) (granted_mode h)) (set_queue (queue h ++ [r]) h)).
Proof.
  intros [H1 H2 H3 H4 H5 H6 H7 H8] Hw Hr Hf.
  assert (Hh : is_holder r) by (by apply granted_holds).
  assert (Hg : all_granted (queue h ++ [r])).
  { apply Forall_app. split; [|by repeat constructor]. apply some_waiting_false. congruence. }
  split; cbn [queue set_queue set_granted_mode r_id waiting granted_mode]; try done.
  - by destruct (queue h).
  - exists (queue h ++ [r]), []. rewrite app_nil_r. split; [done|]. split; [|constructor].
    eapply Forall_impl; [exact Hg|]. apply granted_holds.
  - rewrite Hw. symmetry. by apply some_waiting_false.
  - intros _. rewrite group_snoc by done. by rewrite H5.
  - apply NoDup_map_snoc; [done|]. apply Hf.
  - apply NoDup_map_snoc; [done|]. apply Hf.
  - apply Forall_app. split; [done|]. repeat constructor. unfold is_converter. congruence.
Qed.

Lemma head_ok_append_waiter k h r :
  head_ok k h -> status r = LOCK_WAITING ->
  (forall x, In x (queue h) -> tran x <> tran r /\ rid x <> rid r) ->
  head_ok k (set_waiting true (set_queue (queue h ++ [r]) h)).
Proof.
  intros [H1 H2 H3 H4 H5 H6 H7 H8] Hr Hf.
  split; cbn [queue set_queue set_waiting r_id waiting granted_mode]; try done.
  - by destruct (queue h).
  - destruct H3 as (q1 & q2 & -> & Hq1 & Hq2). exists q1, (q2 ++ [r]). rewrite app_assoc.
    split; [done|]. split; [done|]. apply Forall_app. split; [done|]. by repeat constructor.
  - symmetry. apply (some_waiting_true _ r); [apply in_elt|congruence].
  - apply NoDup_map_snoc; [done|]. apply Hf.
  - apply NoDup_map_snoc; [done|]. apply Hf.
  - apply Forall_app. split; [done|]. repeat constructor. unfold is_converter. congruence.
Qed.

Lemma queue_shape_cons r q : is_holder r -> queue_shape q -> queue_shape (r :: q).
Proof. intros Hr (q1 & q2 & -> & H1 & H2). exists (r :: q1), q2. rewrite Forall_cons. auto. Qed.

Lemma queue_shape_known q : queue_shape q -> Forall known_status q.
Proof.
  intros (q1 & q2 & -> & H1 & H2). apply Forall_app. unfold known_status.
  split; eapply Forall_impl; eauto.
Qed.

Lemma queue_shape_replace q1 r r' q2 :
  is_holder r -> is_holder r' -> queue_shape (q1 ++ r :: q2) -> queue_shape (q1 ++ r' :: q2).
Proof.
  intros Hr Hr'. induction q1 as [|x q1 IH]; cbn; intros Hs.
  - apply queue_shape_cons; [done|]. by eapply queue_shape_cons_holder.
  - pose proof (queue_shape_known _ Hs) as Hk. apply Forall_cons in Hk as [[Hx|Hx] _].
    + apply queue_shape_cons; [done|]. by apply IH, (queue_shape_cons_holder x).
    + apply queue_shape_waiter in Hs; [|done]. rewrite List.Forall_forall in Hs.
      specialize (Hs r (or_intror (in_elt _ _ _))). red in Hr. rewrite waiter_not_holds in Hr; done.
Qed.

Lemma replace_maps {B} (f : lock_request -> B) q1 r r' q2 :
  f r' = f r -> map f (q1 ++ r' :: q2) = map f (q1 ++ r :: q2).
Proof. intros E. rewrite !map_app. cbn. by rewrite E. Qed.

Lemma Forall_replace (P : lock_request -> Prop) q1 r r' q2 :
  P r' -> Forall P (q1 ++ r :: q2) -> Forall P (q1 ++ r' :: q2).
Proof. rewrite !Forall_app, !Forall_cons. tauto. Qed.

Lemma group_convert q1 r q2 m :
  status r = LOCK_GRANTED ->
  lock_max (group (q1 ++ r :: q2)) (lock_max (mode r) m) =
  group (q1 ++ conversion_granted m r :: q2).
Proof.
  intros Hr. rewrite !group_app. unfold group at 2 4. cbn. fold (group q2).
  unfold holds. rewrite Hr. cbn.
  by destruct (group q1), (mode r), m, (group q2).
Qed.

Lemma head_ok_convert k h q1 r q2 m :
  head_ok k h -> queue h = q1 ++ r :: q2 -> status r = LOCK_GRANTED ->
  head_ok k (set_granted_mode (lock_max (granted_mode h) (lock_max (mode r) m))
               (set_queue (q1 ++ conversion_granted m r :: q2) h)).
Proof.
  intros [H1 H2 H3 H4 H5 H6 H7 H8] Eq Hr. rewrite Eq in *.
  assert (Hh : is_holder r) by (by apply granted_holds).
  split; cbn [queue set_queue set_granted_mode r_id waiting granted_mode];
    rewrite ?(replace_maps _ q1 r) by done; try done.
  - by destruct q1.
  - by apply (queue_shape_replace _ r).
  - rewrite H4. unfold some_waiting. rewrite !existsb_app. cbn. by rewrite Hr.
  - intros Hw. rewrite H5 by done. by apply group_convert.
  - by apply (Forall_replace _ q1 r).
Qed.

Lemma head_ok_convert_wait k h q1 r q2 m :
  head_ok k h -> queue h = q1 ++ r :: q2 -> status r = LOCK_GRANTED ->
  head_ok k (set_waiting true (set_queue (q1 ++ conversion_waits m r :: q2) h)).
Proof.
  intros [H1 H2 H3 H4 H5 H6 H7 H8] Eq Hr. rewrite Eq in *.
  assert (Hh : is_holder r) by (by apply granted_holds).
  split; cbn [queue set_queue set_waiting r_id waiting granted_mode];
    rewrite ?(replace_maps _ q1 r) by done; try done.
  - by destruct q1.
  - by apply (queue_shape_replace _ r).
  - symmetry. by apply (some_waiting_true _ (conversion_waits m r)); [apply in_elt|].
  - apply (Forall_replace _ q1 r); [|done]. intros _. cbn. by destruct (mode r), m.
Qed.

(** ** Changing a request in place *)

Definition same_place (r r' : lock_request) : Prop :=
  rid r' = rid r /\ head r' = head r /\ tran r' = tran r /\
  tran_prev r' = tran_prev r /\ tran_next r' = tran_next r.

Lemma inv_change T X n T' q r r' t :
  inv None T X n -> req T q = Some r -> X !! tran r = Some t -> wait t = None ->
  same_place r r' ->
  (forall p, req T' p = if decide (p = q) then Some r' else req T p) ->
  (forall k h, T' !! k = Some h -> head_ok k h) ->
  inv None T' (<[tran r := set_wait (new_wait r' q) t]> X) n.
Proof.
  intros HI Hr Ht Hw (E1 & E2 & E3 & E4 & E5) Hreq Hh.
  destruct (inv_req _ _ _ _ HI _ _ Hr) as (Hr1 & Hr2 & _).
  assert (Hlnk : forall p, lnk T' p = lnk T p).
  { intros p. unfold lnk. rewrite Hreq. destruct (decide (p = q)) as [->|]; [|done].
    rewrite Hr. cbn. by rewrite E3, E4, E5. }
  split; [done| | |].
  - intros p x Hx. rewrite Hreq in Hx. destruct (decide (p = q)) as [->|Hne].
    + injection Hx as <-. rewrite E1, E2, E3, lookup_insert_eq. split; [done|]. split; [done|].
      eexists. split; [done|]. intros Hst _. cbn. unfold new_wait. by rewrite bool_decide_eq_false_2.
    + destruct (inv_req _ _ _ _ HI _ _ Hx) as (H1 & H2 & t0 & Ht0 & H3).
      split; [done|]. split; [done|]. destruct (decide (tran x = tran r)) as [E|E].
      * rewrite E in *. rewrite lookup_insert_eq. eexists. split; [done|]. intros Hst _.
        specialize (H3 Hst ltac:(done)). congruence.
      * exists t0. rewrite lookup_insert_ne by done. auto.
  - intros a t0 p _ Ht0 Hwp. destruct (decide (a = tran r)) as [->|Hne].
    + rewrite lookup_insert_eq in Ht0. injection Ht0 as <-. cbn in Hwp. unfold new_wait in Hwp.
      case_bool_decide; [done|]. injection Hwp as <-. exists r'. rewrite Hreq, decide_True by done. auto.
    + rewrite lookup_insert_ne in Ht0 by done.
      destruct (inv_wait _ _ _ _ HI a t0 p) as (x & Hx & Hxt & Hxs); [done..|].
      exists x. rewrite Hreq, decide_False; [done|]. intros ->. congruence.
  - intros a t0 Ht0. assert (Hl : exists t1, X !! a = Some t1 /\ locks t0 = locks t1).
    { destruct (decide (a = tran r)) as [->|Hne].
      - rewrite lookup_insert_eq in Ht0. injection Ht0 as <-. eauto.
      - rewrite lookup_insert_ne in Ht0 by done. eauto. }
    destruct Hl as (t1 & Ht1 & ->). destruct (inv_list _ _ _ _ HI a t1 Ht1) as (ps & H1 & H2 & H3 & H4 & H5).
    exists ps. split; [done|]. split; [done|]. split; [eapply dll_ext; eauto|]. split; [done|].
    intros p x Hx Hxa. rewrite Hreq in Hx. destruct (decide (p = q)) as [->|]; [|eauto].
    injection Hx as <-. eapply H5; [done|]. congruence.
Qed.

(** ** lock *)

Lemma map_replace_rid q1 r q2 f :
  NoDup (map rid (q1 ++ r :: q2)) ->
  map (fun x => if has_rid (rid r) x then f x else x) (q1 ++ r :: q2) = q1 ++ f r :: q2.
Proof.
  rewrite map_app. cbn. intros Hnd. apply NoDup_ListNoDup in Hnd. pose proof (NoDup_remove_2 _ _ _ Hnd) as Hr.
  rewrite in_app_iff in Hr.
  assert (Hsame : forall q, ~ In (rid r) (map rid q) ->
            map (fun x => if has_rid (rid r) x then f x else x) q = q).
  { induction q as [|x q IH]; cbn; [done|]. intros Hn. unfold has_rid at 1.
    rewrite (proj2 (Nat.eqb_neq _ _)) by tauto. rewrite IH by tauto. done. }
  rewrite map_app. cbn. rewrite !Hsame by tauto. unfold has_rid. by rewrite Nat.eqb_refl.
Qed.

(** No transaction is marked as the victim of a deadlock, or unmarked. *)
Definition same_victims (X X' : trans) : Prop := forall b, victim X' b = victim X b.

Lemma same_victims_insert X (a : transaction_id) t' :
  tr_status t' = from_option tr_status NORMAL_PROCESSING (X !! a) -> same_victims X (<[a := t']> X).
Proof.
  intros E b. unfold victim. destruct (decide (a = b)) as [<-|Hne].
  - rewrite lookup_insert_eq. destruct (X !! a) as [t|]; cbn in E; rewrite E; [done|].
    by rewrite bool_decide_eq_false_2.
  - by rewrite lookup_insert_ne.
Qed.

(** The outcome of [lock]: the queue of the resource makes an abstract step,
    the other queues keep their contents, nobody is woken. *)
Definition lock_outcome (st st' : lm_state) (a : transaction_id) (res_id : resource_id)
    (m : lock_mode) (rep : lock_reply) : Prop :=
  let k := get_str_res_id res_id in
  lm_inv st' /\
  lock_queue_step a m (queue_of (l_table st) k) (queue_of (l_table st') k) rep /\
  (forall k', k' <> k ->
     map core (queue_of (l_table st') k') = map core (queue_of (l_table st) k')) /\
  is_Some (tr_table st' !! a) /\ same_victims (tr_table st) (tr_table st') /\
  sem_ups st' = sem_ups st.

Lemma same_heads_queue T1 T k h :
  same_heads T1 T -> T1 !! k = Some h -> map core (queue h) = map core (queue_of T k).
Proof.
  intros Hs Hh. destruct (Hs k h Hh) as (h0 & Hh0 & _ & _ & _ & Hc). unfold queue_of. by rewrite Hh0.
Qed.

Lemma lock_outcome_add st a s res_id m c T1 t1 prev h' stt rep :
  let k := get_str_res_id res_id in
  let r := set_status stt (new_request (next_rid st) k m c s a prev) in
  lm_inv st -> may_request st a ->
  request_made st a s k m c T1 t1 prev ->
  head_ok k h' -> queue h' = queue_of T1 k ++ [r] ->
  lock_queue_step a m (queue_of (l_table st) k) (queue h') rep ->
  lock_outcome st
    (mk_lm (<[k := h']> T1) (<[a := set_wait (new_wait r (k, next_rid st)) t1]> (tr_table st))
       (S (next_rid st)) (sem_ups st)) a res_id m rep.
Proof.
  intros k r HI Hm (_ & _ & Hst & Hs & Hnone & Hl) Hh' Hq Hstep.
  split; [|split; [|split; [|split; [|split]]]]; cbn [l_table tr_table].
  - unfold lm_inv. cbn [l_table tr_table next_rid].
    apply (inv_add (r := r) (k := k) HI); [done|done|exact Hm|by apply Hl|].
    intros k' h Hk'. rewrite lookup_insert in Hk'. case_decide as E.
    + injection Hk' as <-. by rewrite <- E.
    + by eapply (same_heads_ok T1); [|apply (inv_heads _ _ _ _ HI)|].
  - unfold queue_of at 2. by rewrite lookup_insert_eq.
  - intros k' Hne. unfold queue_of at 1. rewrite lookup_insert_ne by done.
    destruct (T1 !! k') as [h|] eqn:Hk'; [by eapply same_heads_queue|].
    apply Hnone in Hk'. unfold queue_of. by rewrite Hk'.
  - rewrite lookup_insert_eq. eauto.
  - by apply same_victims_insert.
  - done.
Qed.

Section Lock.
Context {st : lm_state} {a : transaction_id} {s : session_id} {res_id : resource_id}
  {m : lock_mode} {c : lock_class}.
Context (HI : lm_inv st) (Hm : may_request st a).
Let k := get_str_res_id res_id.

Lemma lock_free :
  l_table st !! k = None ->
  exists st' rep, lock st a s res_id m c = Ok (st', rep) /\ lock_outcome st st' a res_id m rep.
Proof.
  intros Hk. destruct (request_made_spec st a s k m c HI Hm) as (T1 & t1 & prev & HR).
  pose proof HR as (Hnew & Hw & _ & _ & Hnone & _).
  assert (Hq1 : queue_of T1 k = []).
  { unfold queue_of. apply Hnone in Hk as Hk1. by rewrite Hk1. }
  assert (Hq0 : queue_of (l_table st) k = []) by (unfold queue_of; by rewrite Hk).
  set (r := new_request (next_rid st) k m c s a prev) in *.
  exists (mk_lm (<[k := mk_head res_id [r] m false]> T1) (<[a := t1]> (tr_table st))
            (S (next_rid st)) (sem_ups st)), LOCK_OK.
  split.
  - unfold lock, find_lock. fold k. rewrite Hk, Hnew. done.
  - replace t1 with (set_wait (new_wait r (k, next_rid st)) t1)
      by (unfold new_wait, set_wait; cbn; rewrite <- Hw; by destruct t1).
    apply (lock_outcome_add st a s res_id m c T1 t1 prev _ LOCK_GRANTED); auto.
    + by apply head_ok_new.
    + fold k. by rewrite Hq1.
    + fold k. rewrite Hq0.
      apply (lq_grant _ _ [] _ r); [by intros ? []|constructor|by intros ? []|done..].
Qed.

(** The test [!waiting && lock_compat(mode, granted_mode)] decides whether
    everybody is granted and allows the mode. *)
Lemma grant_test h h1 :
  head_ok k h1 -> map core (queue h1) = map core (queue h) -> stranger a (queue h) ->
  negb (waiting h1) && lock_compat m (granted_mode h1) = true <->
  all_granted (queue h) /\ others_allow a m (queue h).
Proof.
  intros Hok1 E4 Hstr. destruct (core_map_facts _ _ E4) as (_ & _ & Eg & Es & _ & _).
  rewrite andb_true_iff, negb_true_iff, <- (compat_group_others a m), <- some_waiting_false, <- Es,
    <- (ho_waiting _ _ Hok1), <- Eg by done.
  split; intros [H1 H2]; (split; [done|]);
    [rewrite <- (ho_group _ _ Hok1)|rewrite (ho_group _ _ Hok1)]; done.
Qed.

Lemma lock_new_run h T1 t1 prev h1 :
  l_table st !! k = Some h -> List.find (owned_by a) (queue h) = None ->
  request_made st a s k m c T1 t1 prev -> T1 !! k = Some h1 -> queue h1 <> [] ->
  let r := new_request (next_rid st) k m c s a prev in
  lock st a s res_id m c =
    if negb (waiting h1) && lock_compat m (granted_mode h1) then
      Ok (mk_lm (<[k := set_granted_mode (lock_max m (granted_mode h1)) (set_queue (queue h1 ++ [r]) h1)]> T1)
            (<[a := t1]> (tr_table st)) (S (next_rid st)) (sem_ups st), LOCK_OK)
    else
      Ok (mk_lm (<[k := set_waiting true (set_queue (queue h1 ++ [set_status LOCK_WAITING r]) h1)]> T1)
            (<[a := set_wait (Some (k, next_rid st)) t1]> (tr_table st))
            (S (next_rid st)) (sem_ups st), LOCK_NOT_LOCKED).
Proof.
  intros Hk Hf (Hnew & _) Hk1 Hq r.
  unfold lock, find_lock. fold k. rewrite Hk, Hf, Hnew. cbn [bind_res of_option l_table].
  rewrite Hk1. cbn [bind_res of_option]. destruct (queue h1) as [|x0 q1]; [done|].
  destruct (negb _ && _); [done|]. unfold update_tran. cbn. rewrite lookup_insert_eq. cbn.
  by rewrite insert_insert_eq.
Qed.

Lemma lock_new h :
  l_table st !! k = Some h -> List.find (owned_by a) (queue h) = None ->
  exists st' rep, lock st a s res_id m c = Ok (st', rep) /\ lock_outcome st st' a res_id m rep.
Proof.
  intros Hk Hf. destruct (request_made_spec st a s k m c HI Hm) as (T1 & t1 & prev & HR).
  pose proof HR as (_ & Hw & _ & Hs & Hnone & _).
  set (r := new_request (next_rid st) k m c s a prev) in *.
  destruct (T1 !! k) as [h1|] eqn:Hk1; [|apply Hnone in Hk1; congruence].
  assert (Hq1 : queue_of T1 k = queue h1) by (unfold queue_of; by rewrite Hk1).
  assert (Hq0 : queue_of (l_table st) k = queue h) by (unfold queue_of; by rewrite Hk).
  assert (E4 := same_heads_queue _ _ _ _ Hs Hk1). rewrite Hq0 in E4.
  assert (Hok1 : head_ok k h1) by (by eapply same_heads_ok; [|apply (inv_heads _ _ _ _ HI)|]).
  assert (Hstr : stranger a (queue h)).
  { intros x Hx E. eapply find_none in Hf; [|exact Hx]. unfold owned_by in Hf. by apply Z.eqb_neq in Hf. }
  assert (Hfr : forall x, In x (queue h1) -> tran x <> a /\ rid x <> next_rid st).
  { intros x Hx. split.
    - apply (in_map core) in Hx. rewrite E4 in Hx. apply in_map_iff in Hx as (y & Hy & Hin).
      injection Hy as _ <- _ _ _ _. by apply Hstr.
    - rewrite <- Hq1 in Hx. apply (same_heads_rid st) in Hx; [lia|done..]. }
  pose proof (grant_test h h1 Hok1 E4 Hstr) as Hgm.
  rewrite (lock_new_run h T1 t1 prev h1 Hk Hf HR Hk1 (ho_nonempty _ _ Hok1)). fold r.
  destruct (negb _ && _) eqn:Hc; (eexists _, _; split; [done|]).
  - destruct (proj1 Hgm eq_refl) as [Hg Ha].
    replace t1 with (set_wait (new_wait r (k, next_rid st)) t1)
      by (unfold new_wait, set_wait; cbn; rewrite <- Hw; by destruct t1).
    apply (lock_outcome_add st a s res_id m c T1 t1 prev _ LOCK_GRANTED); auto; fold k.
    + apply (head_ok_append_granted k h1 r); try done. apply andb_true_iff in Hc as [Hc _].
      by apply negb_true_iff.
    + by rewrite Hq1.
    + rewrite Hq0. apply (lq_grant _ _ _ _ r); try done. cbn. by rewrite !map_app, E4.
  - apply (lock_outcome_add st a s res_id m c T1 t1 prev _ LOCK_WAITING); auto; fold k.
    + by apply (head_ok_append_waiter k h1 (set_status LOCK_WAITING r)).
    + by rewrite Hq1.
    + rewrite Hq0. apply (lq_wait _ _ _ _ (set_status LOCK_WAITING r)); try done.
      * by rewrite <- Hgm.
      * cbn. by rewrite !map_app, E4.
Qed.

(** A transaction that does not wait has no pending request. *)
Lemma own_request_granted h r :
  l_table st !! k = Some h -> In r (queue h) -> tran r = a ->
  status r = LOCK_GRANTED /\ req (l_table st) (k, rid r) = Some r /\
  exists t, tr_table st !! a = Some t /\ wait t = None.
Proof.
  intros Hk Hin Ha. assert (Hr : req (l_table st) (k, rid r) = Some r) by (by eapply (req_in HI)).
  destruct (inv_req _ _ _ _ HI _ _ Hr) as (_ & _ & t & Ht & Hw). rewrite Ha in *.
  assert (Hwt := Hm t Ht). split; [|eauto].
  destruct (decide (status r = LOCK_GRANTED)) as [|Hne]; [done|].
  rewrite Hw in Hwt; done.
Qed.

(** The table after a conversion: one request replaced, and the head
    changed by [g]. *)
Lemma convert_table h q1 r q2 f g r' h' :
  l_table st !! k = Some h -> queue h = q1 ++ r :: q2 -> f r = r' -> (forall x, rid (f x) = rid x) ->
  (forall h, queue (g h) = queue h) -> h' = g (set_queue (q1 ++ r' :: q2) h) ->
  (exists st1, update_request st (k, rid r) f = Ok st1 /\
     st1 = set_l_table (upd (l_table st) (k, rid r) f) st /\
     l_table st1 !! k = Some (set_queue (q1 ++ r' :: q2) h)) /\
  <[k := h']> (upd (l_table st) (k, rid r) f) = <[k := h']> (l_table st) /\
  (forall p, req (<[k := h']> (l_table st)) p =
     if decide (p = (k, rid r)) then Some r' else req (l_table st) p).
Proof.
  intros Hk Hq Hr' Hf Hg ->. assert (Hin : In r (queue h)) by (rewrite Hq; apply in_elt).
  assert (Hr : req (l_table st) (k, rid r) = Some r) by (by eapply (req_in HI)).
  assert (Hu : upd (l_table st) (k, rid r) f = <[k := set_queue (q1 ++ r' :: q2) h]> (l_table st)).
  { unfold upd. cbn. rewrite Hk, Hq, map_replace_rid, Hr'; [done|].
    rewrite <- Hq. by apply (ho_rids k), (inv_heads _ _ _ _ HI). }
  split; [|split].
  - eexists. split; [by eapply update_request_upd|]. split; [done|].
    cbn. by rewrite Hu, lookup_insert_eq.
  - by rewrite Hu, insert_insert_eq.
  - intros p. transitivity (req (upd (l_table st) (k, rid r) f) p).
    + rewrite Hu, !req_insert. cbn. by rewrite Hg.
    + rewrite req_upd by done. case_decide; [|done]. rewrite Hr. cbn. by rewrite Hr'.
Qed.

Lemma convert_outcome h q1 r q2 h' r' t rep :
  l_table st !! k = Some h -> queue h = q1 ++ r :: q2 -> tran r = a ->
  tr_table st !! a = Some t -> wait t = None ->
  head_ok k h' -> queue h' = q1 ++ r' :: q2 -> same_place r r' ->
  (forall p, req (<[k := h']> (l_table st)) p =
     if decide (p = (k, rid r)) then Some r' else req (l_table st) p) ->
  lock_queue_step a m (q1 ++ r :: q2) (q1 ++ r' :: q2) rep ->
  lock_outcome st (mk_lm (<[k := h']> (l_table st))
    (<[a := set_wait (new_wait r' (k, rid r)) t]> (tr_table st)) (next_rid st) (sem_ups st)) a res_id m rep.
Proof.
  intros Hk Hq Ha Ht Hwt Hok' Hq' Hsp Hreq Hstep.
  assert (Hin : In r (queue h)) by (rewrite Hq; apply in_elt).
  assert (Hr : req (l_table st) (k, rid r) = Some r) by (by eapply (req_in HI)).
  assert (Hq0 : queue_of (l_table st) k = q1 ++ r :: q2) by (unfold queue_of; by rewrite Hk).
  unfold lock_outcome. fold k. cbn [l_table tr_table]. split; [|split; [|split; [|split; [|split]]]].
  - unfold lm_inv. cbn. rewrite <- Ha.
    eapply (inv_change _ _ _ _ (k, rid r) r r'); eauto; [by rewrite Ha|].
    intros k' h0 Hk'. rewrite lookup_insert in Hk'. case_decide as E; [|by apply (inv_heads _ _ _ _ HI)].
    injection Hk' as <-. by rewrite <- E.
  - rewrite Hq0. unfold queue_of. by rewrite lookup_insert_eq, Hq'.
  - intros k' Hne. unfold queue_of. by rewrite lookup_insert_ne.
  - rewrite lookup_insert_eq. eauto.
  - apply same_victims_insert. by rewrite Ht.
  - done.
Qed.

Lemma lock_convert h r :
  l_table st !! k = Some h -> List.find (owned_by a) (queue h) = Some r ->
  exists st' rep, lock st a s res_id m c = Ok (st', rep) /\ lock_outcome st st' a res_id m rep.
Proof.
  intros Hk Hf. pose proof (find_some _ _ Hf) as [Hin Ha]. apply Z.eqb_eq in Ha.
  destruct (own_request_granted h r Hk Hin Ha) as (Hg & Hr & t & Ht & Hwt).
  destruct (in_split _ _ Hin) as (q1 & q2 & Hq).
  assert (Hok : head_ok k h) by (by apply (inv_heads _ _ _ _ HI)).
  unfold lock, find_lock. fold k. rewrite Hk, Hf, Ha.
  set (cm := lock_max (mode r) m).
  destruct (existsb _ _) eqn:Hb.
  - pose proof (convert_table h q1 r q2
                  (fun x => set_status LOCK_CONVERTING (set_convert_mode cm x)) (set_waiting true)
                  (conversion_waits m r) _ Hk Hq eq_refl ltac:(done) ltac:(done) eq_refl)
      as ((st1 & Hu & -> & Hk1) & Ht1 & Hreq).
    rewrite Hu. cbn [bind_res]. unfold update_tran. cbn [tr_table set_l_table].
    rewrite Ht. cbn [of_option bind_res l_table set_tr_table] in *. rewrite Hk1. cbn [of_option bind_res].
    eexists _, _. split; [done|]. unfold set_l_table. cbn [l_table tr_table next_rid sem_ups].
    rewrite Ht1. eapply (convert_outcome h q1 r q2 _ (conversion_waits m r)); eauto.
    + by apply head_ok_convert_wait.
    + done.
    + apply lq_convert_wait; [done|done|]. rewrite <- blocks_conversion_others, <- Hq. fold cm. by rewrite Hb.
  - pose proof (convert_table h q1 r q2
                  (fun x => set_convert_mode NULL_LOCK (set_status LOCK_GRANTED (set_mode cm x)))
                  (set_granted_mode (lock_max (granted_mode h) cm))
                  (conversion_granted m r) _ Hk Hq eq_refl ltac:(done) ltac:(done) eq_refl)
      as ((st1 & Hu & -> & Hk1) & Ht1 & Hreq).
    rewrite Hu. cbn [bind_res l_table set_l_table of_option] in *. rewrite Hk1. cbn [of_option bind_res].
    eexists _, _. split; [done|]. cbn [granted_mode set_queue]. unfold set_l_table. cbn [l_table tr_table next_rid sem_ups].
    rewrite Ht1.
    replace (tr_table st) with (<[a := set_wait (new_wait (conversion_granted m r) (k, rid r)) t]> (tr_table st))
      by (apply insert_id; unfold new_wait, set_wait; cbn; rewrite <- Hwt; by destruct t).
    eapply (convert_outcome h q1 r q2 _ (conversion_granted m r)); eauto.
    + by apply head_ok_convert.
    + done.
    + apply lq_convert; [done|done|]. by rewrite <- blocks_conversion_others, <- Hq.
Qed.

Lemma lock_spec :
  exists st' rep, lock st a s res_id m c = Ok (st', rep) /\ lock_outcome st st' a res_id m rep.
Proof.
  destruct (l_table st !! k) as [h|] eqn:Hk; [|by apply lock_free].
  destruct (List.find (owned_by a) (queue h)) as [r|] eqn:Hf;
    [by eapply lock_convert|by eapply lock_new].
Qed.
End Lock.
