(* ===== verification/LockRelease.v ===== *)
(** * Releasing the locks of a transaction

    [release_tr_locks] takes the requests of a transaction from the front of
    its list, one [unlock] at a time.  Each step keeps the invariant and wakes
    whoever can go on; at the end the transaction has left both tables. *)

From Stdlib Require Import ZArith List Lia Bool.
From stdpp Require Import base gmap strings list relations sets.
From S2P Require Import Prelude LockTable LockQueue LockGraph LockInv.
Local Open Scope sedna_scope.

(** ** Queues that differ only in their links

    Two queues are the same for the lock manager's decisions when their
    requests agree on everything but the links of their transactions. *)

Definition same_queue (q q' : list lock_request) : Prop := map core q = map core q'.

#[global] Instance same_queue_equiv : Equivalence same_queue.
Proof. split; red; unfold same_queue; [done|done|congruence]. Qed.

Lemma same_queue_Forall2 q q' : same_queue q q' <-> Forall2 (fun x y => core x = core y) q q'.
Proof.
  unfold same_queue. revert q'. induction q as [|x q IH]; intros [|y q']; cbn.
  - split; [constructor|done].
  - split; [done|inversion 1].
  - split; [done|inversion 1].
  - rewrite Forall2_cons, <- IH. split; [intros E; by apply cons_inj in E|intros [-> ->]; done].
Qed.

Lemma core_fields x y :
  core x = core y ->
  rid x = rid y /\ tran x = tran y /\ status x = status y /\ mode x = mode y /\ convert_mode x = convert_mode y.
Proof. by intros [= -> -> -> -> -> _]. Qed.

Lemma core_session x y : core x = core y -> process_xsem x = process_xsem y.
Proof. by intros [= _ _ _ _ _ ->]. Qed.

Lemma FOP_Forall2 {A} (R S : A -> A -> Prop) l l' :
  (forall x y x' y', S x x' -> S y y' -> R x y -> R x' y') ->
  Forall2 S l l' -> ForallOrdPairs R l -> ForallOrdPairs R l'.
Proof.
  intros HRS. induction 1 as [|x x' l l' Hx Hl IH]; [done|]. inversion 1 as [|? ? H1 H2]; subst.
  constructor; [|auto]. clear -HRS Hx Hl H1. induction Hl as [|y y' l l' Hy _ IH]; [done|].
  inversion H1; subst. constructor; [by eapply HRS|auto].
Qed.

#[global] Instance group_proper : Proper (same_queue ==> eq) group.
Proof. intros q q' E. symmetry in E. by apply core_map_facts in E as (_ & _ & -> & _). Qed.

#[global] Instance some_waiting_proper : Proper (same_queue ==> eq) some_waiting.
Proof. intros q q' E. symmetry in E. by apply core_map_facts in E as (_ & _ & _ & -> & _). Qed.

#[global] Instance all_granted_proper : Proper (same_queue ==> iff) all_granted.
Proof. intros q q' E. by rewrite <- !some_waiting_false, E. Qed.

(** The two conditions on the queues: holders are compatible, and no pending
    conversion conflicts with a converter behind it. *)
Definition queue_safe (V : transaction_id -> bool) (q : list lock_request) : Prop :=
  group_safe V q /\ no_conversion_conflict V q.

Lemma group_safe_same V q q' : same_queue q q' -> group_safe V q -> group_safe V q'.
Proof.
  intros E%same_queue_Forall2. eapply FOP_Forall2; [|exact E]. cbn.
  intros x y x' y' (_ & Tx & Ex & Mx & _)%core_fields (_ & Ty & Ey & My & _)%core_fields.
  unfold compatible, both_live, is_holder, holds. by rewrite Tx, Ty, Ex, Ey, Mx, My.
Qed.

Lemma no_conversion_conflict_same V q q' :
  same_queue q q' -> no_conversion_conflict V q -> no_conversion_conflict V q'.
Proof.
  intros E%same_queue_Forall2. eapply FOP_Forall2; [|exact E]. cbn.
  intros x y x' y' (_ & Tx & Ex & _ & Cx)%core_fields (_ & Ty & Ey & My & _)%core_fields.
  unfold conversion_order, both_live, is_converter. by rewrite Tx, Ty, Ex, Ey, Cx, My.
Qed.

Lemma queue_safe_same V q q' : same_queue q q' -> queue_safe V q -> queue_safe V q'.
Proof.
  intros E [H1 H2]. split; [by eapply group_safe_same|by eapply no_conversion_conflict_same].
Qed.

#[global] Instance queue_safe_proper V : Proper (same_queue ==> iff) (queue_safe V).
Proof. intros q q' E. split; by apply queue_safe_same. Qed.

Lemma blocks_convert_wake_same c c' q q' :
  core c = core c' -> same_queue q q' ->
  existsb (blocks_convert_wake c) q = existsb (blocks_convert_wake c') q'.
Proof.
  intros (_ & Ec & _ & _ & Em)%core_fields E%same_queue_Forall2.
  induction E as [|x y q q' Exy _ IH]; cbn; [done|]. rewrite IH. f_equal.
  apply core_fields in Exy as (_ & E1 & E2 & E3 & _).
  unfold blocks_convert_wake, owned_by. by rewrite Ec, Em, E1, E2, E3.
Qed.

(** What [unlock] does to the queue of the resource, up to the links between
    requests: the request of [a] leaves, and the wake-up loop grants a prefix
    of the others.  Of this prefix every pending request is granted, and none
    of these conflicts with a granted request of another transaction; the
    request behind it has to go on waiting, and nothing behind it changes. *)
Definition maybe_woken (x x' : lock_request) : Prop :=
  core x' = core x \/ exists y, wakes x y /\ core x' = core y.

Definition granted_prefix (q' : list lock_request) (x x' : lock_request) : Prop :=
  (core x' = core x /\ is_granted x) \/ (exists y, wakes x y /\ core x' = core y /\ allowed q' x').

Definition wake_step (q q' : list lock_request) : Prop :=
  exists q1 q2 q1' q2', q = q1 ++ q2 /\ q' = q1' ++ q2' /\
    Forall2 (granted_prefix q') q1 q1' /\ same_queue q2 q2' /\ wake_stops q1' q2'.

Definition unlock_queue_step (a : transaction_id) (q q' : list lock_request) : Prop :=
  exists q1 r q2, q = q1 ++ r :: q2 /\ tran r = a /\ wake_step (q1 ++ q2) q' /\
    (forall V, queue_safe V (q1 ++ q2) -> queue_safe V q').

Lemma wakes_core x y x0 : core x0 = core x -> wakes x y -> exists y0, wakes x0 y0 /\ core y0 = core y.
Proof.
  intros E0. pose proof (core_session _ _ E0) as E6. apply core_fields in E0 as (E1 & E2 & E3 & E4 & E5).
  inversion 1 as [? Hr|? Hr]; subst; red in Hr.
  - eexists. split; [apply wakes_waiter; red; congruence|]. unfold core. cbn. congruence.
  - eexists. split; [apply wakes_converter; red; congruence|]. unfold core. cbn. congruence.
Qed.

Lemma in_same_queue q q' y :
  same_queue q q' -> In y q' -> exists x, In x q /\ core x = core y.
Proof.
  intros E Hy. apply (in_map core) in Hy. rewrite <- E in Hy. apply in_map_iff in Hy as (x & ? & ?). eauto.
Qed.

Lemma allowed_same q q' x x' : same_queue q q' -> core x = core x' -> allowed q x -> allowed q' x'.
Proof.
  intros E (_ & Et & _ & Em & _)%core_fields Ha y' Hy' Hg Hne.
  destruct (in_same_queue _ _ _ E Hy') as (y & Hy & (_ & Ety & Esy & Emy & _)%core_fields).
  unfold is_granted in Hg. rewrite <- Em, <- Emy. apply Ha; [done|red|]; congruence.
Qed.

Lemma wake_stops_same q1 q2 p1 p2 :
  same_queue q1 p1 -> same_queue q2 p2 -> wake_stops q1 q2 -> wake_stops p1 p2.
Proof.
  intros E1 E2. destruct q2 as [|r q2], p2 as [|r' p2]; try done.
  assert (E : same_queue (q1 ++ r :: q2) (p1 ++ r' :: p2))
    by (unfold same_queue in *; rewrite !map_app; congruence).
  apply cons_inj in E2 as [Er _]. cbn [wake_stops].
  rewrite <- (blocks_convert_wake_same r r' _ _ Er E), <- E1.
  apply core_fields in Er as (_ & _ & Es & Em & _). unfold is_waiter, is_converter. by rewrite Es, Em.
Qed.

Lemma same_queue_app q1 q2 p :
  same_queue (q1 ++ q2) p -> exists p1 p2, p = p1 ++ p2 /\ same_queue q1 p1 /\ same_queue q2 p2.
Proof.
  intros E. apply same_queue_Forall2, Forall2_app_inv_l in E as (p1 & p2 & E1 & E2 & ->).
  exists p1, p2. by rewrite !same_queue_Forall2.
Qed.

Lemma granted_prefix_same q p q1 q1' p1 p1' :
  same_queue q p -> same_queue q1 p1 -> same_queue q1' p1' ->
  Forall2 (granted_prefix q) q1 q1' -> Forall2 (granted_prefix p) p1 p1'.
Proof.
  rewrite (same_queue_Forall2 q1), (same_queue_Forall2 q1'). intros Eq E1 E1' HF.
  revert q1' p1' HF E1'. induction E1 as [|x y q1 p1 Exy _ IH]; intros q1' p1' HF E1'.
  - apply Forall2_nil_inv_l in HF as ->. by apply Forall2_nil_inv_l in E1' as ->.
  - apply Forall2_cons_inv_l in HF as (x' & q1a & Hx & HF & ->).
    apply Forall2_cons_inv_l in E1' as (y' & p1b & Exy' & E1' & ->).
    constructor; [|by eapply IH].
    destruct Hx as [[Hc Hg]|(z & Hz & Hc & Ha)].
    + left. split; [congruence|]. apply core_fields in Exy as (_ & _ & Es & _). unfold is_granted in *. congruence.
    + right. destruct (wakes_core x z y) as (z0 & Hz0 & Ez); [done|done|]. exists z0.
      split; [done|]. split; [congruence|]. by eapply allowed_same.
Qed.

Lemma wake_step_same q q' p p' :
  same_queue q p -> same_queue q' p' -> wake_step q q' -> wake_step p p'.
Proof.
  intros E E' (q1 & q2 & q1' & q2' & -> & -> & HF & H2 & Hs). pose proof E' as Eq'.
  apply same_queue_app in E as (p1 & p2 & -> & E1 & E2).
  apply same_queue_app in E' as (p1' & p2' & -> & E1' & E2').
  exists p1, p2, p1', p2'. split; [done|]. split; [done|].
  split; [by eapply granted_prefix_same|]. split; [by rewrite <- E2, H2|by eapply wake_stops_same].
Qed.

Lemma wake_step_woken q q' : wake_step q q' -> Forall2 maybe_woken q q'.
Proof.
  intros (q1 & q2 & q1' & q2' & -> & -> & HF & H2 & _). apply Forall2_app.
  - eapply Forall2_impl; [exact HF|]. intros x x' [[? _]|(y & ? & ? & _)]; [by left|right; eauto].
  - apply same_queue_Forall2 in H2. eapply Forall2_impl; [exact H2|]. intros x y E. by left.
Qed.

Lemma unlock_queue_step_same a q q' p p' :
  same_queue q p -> same_queue q' p' -> unlock_queue_step a q q' -> unlock_queue_step a p p'.
Proof.
  intros E E' (q1 & r & q2 & -> & Ha & HF & Hs).
  apply same_queue_app in E as (p1 & q0 & -> & E1 & E2).
  destruct q0 as [|r' p2]; [done|]. apply cons_inj in E2 as [Er E2].
  assert (E12 : same_queue (q1 ++ q2) (p1 ++ p2)) by (unfold same_queue in *; rewrite !map_app, E1; f_equal; exact E2).
  exists p1, r', p2. split; [done|]. split; [by apply core_fields in Er as (_ & <- & _)|].
  split; [by eapply wake_step_same|]. intros V HV. rewrite <- E'. apply Hs. by rewrite E12.
Qed.

#[global] Instance unlock_queue_step_proper a :
  Proper (same_queue ==> same_queue ==> iff) (unlock_queue_step a).
Proof. intros q q' E p p' E'. split; by apply unlock_queue_step_same. Qed.

Lemma FOP_remove {A} (R : A -> A -> Prop) l1 x l2 :
  ForallOrdPairs R (l1 ++ x :: l2) -> ForallOrdPairs R (l1 ++ l2).
Proof.
  rewrite !FOP_app. intros (H1 & H2 & H3). inversion H2; subst. split; [done|]. split; [done|].
  intros a b Ha Hb. apply H3; [done|]. by right.
Qed.

Lemma queue_safe_remove V q1 r q2 : queue_safe V (q1 ++ r :: q2) -> queue_safe V (q1 ++ q2).
Proof. intros [H1 H2]. split; by eapply FOP_remove. Qed.

(** *** The semaphores *)

Lemma unique_owner q x y :
  NoDup (map tran q) -> In x q -> In y q -> tran x = tran y -> x = y.
Proof.
  induction q as [|z q IH]; [done|]. cbn. rewrite NoDup_cons, list_elem_of_In. intros [Hz Hnd] [<-|Hx] [<-|Hy] E.
  - done.
  - exfalso. apply Hz. rewrite E. by apply in_map.
  - exfalso. apply Hz. rewrite <- E. by apply in_map.
  - auto.
Qed.

(** The transaction of [r] has a granted request in the queue. *)
Definition now_granted (q' : list lock_request) (r : lock_request) : bool :=
  existsb (fun r' => owned_by (tran r) r' && negb (pending r')) q'.

(** The requests that were pending in [q] and are granted in [q']. *)
Definition woken (q q' : list lock_request) : list lock_request :=
  List.filter (fun r => pending r && now_granted q' r) q.

(** The sessions of the requests that were woken, without the victims of
    deadlock detection. *)
Definition wake_ups (X : trans) (q q' : list lock_request) : list session_id := raised X (woken q q').

Lemma now_granted_true q' r :
  now_granted q' r = true <-> exists r', In r' q' /\ tran r' = tran r /\ is_granted r'.
Proof.
  unfold now_granted. rewrite existsb_exists. split.
  - intros (r' & Hr' & [H1 H2]%andb_true_iff). exists r'. split; [done|].
    split; [by apply Z.eqb_eq|]. by apply pending_false, negb_true_iff.
  - intros (r' & Hr' & H1 & H2). exists r'. split; [done|]. apply andb_true_iff.
    split; [by apply Z.eqb_eq|]. by apply negb_true_iff, pending_false.
Qed.

Lemma pending_core x y : core x = core y -> pending x = pending y.
Proof. intros (_ & _ & E & _)%core_fields. unfold pending. by rewrite E. Qed.

Lemma now_granted_same q q' x y :
  same_queue q q' -> core x = core y -> now_granted q x = now_granted q' y.
Proof.
  intros E (_ & Et & _)%core_fields. unfold now_granted, owned_by. rewrite Et.
  apply same_queue_Forall2 in E. induction E as [|u v q q' Huv _ IH]; cbn; [done|].
  rewrite IH, (pending_core u v Huv). by apply core_fields in Huv as (_ & -> & _).
Qed.

(** A request of [a] cannot be among the woken ones once [a] has left. *)
Lemma wake_ups_same a X X' q q' p p' :
  same_queue q p -> same_queue q' p' -> stranger a p' ->
  (forall b, b <> a -> victim X' b = victim X b) -> wake_ups X q q' = wake_ups X' p p'.
Proof.
  intros E E' Hs Hv. unfold wake_ups, raised, woken. apply same_queue_Forall2 in E.
  induction E as [|x y q p Exy _ IH]; cbn [List.filter map]; [done|].
  rewrite (pending_core x y Exy), (now_granted_same q' p' x y E' Exy).
  destruct (pending y && now_granted p' y) eqn:Ew; [|exact IH]. cbn [List.filter].
  rewrite (pending_core x y Exy). pose proof (core_session _ _ Exy) as Exs.
  apply core_fields in Exy as (_ & Et & _). rewrite Et.
  apply andb_true_iff in Ew as [-> (r' & Hr' & Er & _)%now_granted_true].
  rewrite <- Hv by (rewrite <- Er; by apply Hs).
  destruct (negb _); cbn [map andb]; [by rewrite Exs, IH|exact IH].
Qed.

Lemma raised_app X l1 l2 : raised X (l1 ++ l2) = raised X l1 ++ raised X l2.
Proof. unfold raised. by rewrite List.filter_app, map_app. Qed.

Lemma raised_woken_all X q' l :
  (forall r, In r l -> now_granted q' r = true) -> raised X (woken l q') = raised X l.
Proof.
  induction l as [|r l IH]; intros H; [done|]. unfold woken. cbn [List.filter].
  rewrite H, andb_true_r by (by left). fold (woken l q').
  rewrite (raised_cons _ r l), <- IH by (intros x Hx; apply H; by right).
  destruct (pending r) eqn:Hp; [by rewrite raised_cons, Hp|done].
Qed.

Lemma woken_none q' l :
  (forall r, In r l -> pending r = true -> now_granted q' r = false) -> woken l q' = [].
Proof.
  induction l as [|r l IH]; intros H; [done|]. unfold woken. cbn [List.filter].
  fold (woken l q'). rewrite IH by (intros x Hx; apply H; by right).
  destruct (pending r) eqn:Hp; [|done]. by rewrite H by (by left + done).
Qed.

Lemma passed_tran q' x x' : passed q' x x' -> tran x' = tran x /\ is_granted x'.
Proof.
  intros [[-> ?]|[Hw _]]; [done|]. split; [|by eapply wakes_granted].
  by apply wakes_same_links in Hw as (_ & _ & ? & _).
Qed.

Lemma wake_ups_exact X q' t1 t1' t2 :
  NoDup (map tran (t1 ++ t2)) -> Forall2 (passed q') t1 t1' ->
  wake_ups X (t1 ++ t2) (t1' ++ t2) = raised X t1.
Proof.
  intros Hnd HF. unfold wake_ups, woken. rewrite List.filter_app. fold (woken t1 (t1' ++ t2)) (woken t2 (t1' ++ t2)).
  rewrite raised_app, raised_woken_all, woken_none; [by rewrite app_nil_r| |].
  - intros r Hr Hp. apply not_true_iff_false. intros (r' & Hr' & Et & Hg)%now_granted_true.
    rewrite map_app in Hnd. apply NoDup_app in Hnd as (_ & Hd & Hnd).
    apply in_app_iff in Hr' as [Hr'|Hr'].
    + apply list_elem_of_In, list_elem_of_lookup in Hr' as [i Hi].
      destruct (Forall2_lookup_r _ _ _ _ _ HF Hi) as (x & Hx & [Hxt _]%passed_tran).
      apply (Hd (tran r)); [|by apply list_elem_of_In, in_map]. rewrite <- Et, Hxt.
      apply list_elem_of_In, in_map, list_elem_of_In, list_elem_of_lookup. eauto.
    + assert (r' = r) as -> by (by apply (unique_owner t2)). apply pending_true in Hp. done.
  - intros r Hr. apply now_granted_true. apply list_elem_of_In, list_elem_of_lookup in Hr as [i Hi].
    destruct (Forall2_lookup_l _ _ _ _ _ HF Hi) as (x & Hx & [Hxt Hg]%passed_tran). exists x.
    split; [|done]. apply in_app_iff. left. apply list_elem_of_In, list_elem_of_lookup. eauto.
Qed.

Lemma wake_ups_remove a X q1 r q2 q' :
  tran r = a -> stranger a q' -> wake_ups X (q1 ++ r :: q2) q' = wake_ups X (q1 ++ q2) q'.
Proof.
  intros Ha Hs. unfold wake_ups, woken. rewrite !List.filter_app. cbn [List.filter].
  replace (now_granted q' r) with false; [by rewrite andb_false_r|].
  symmetry. apply not_true_iff_false. intros (r' & Hr' & Et & _)%now_granted_true.
  apply (Hs r' Hr'). congruence.
Qed.

(** ** The destructor on the first request of a list *)

Definition pop_table (T : table) (nx : option rptr) : table :=
  match nx with None => T | Some n => upd T n (set_tran_prev None) end.

Definition pop_trans (X : trans) (a : transaction_id) (t : TransCB) (nx : option rptr) : trans :=
  match nx with None => delete a X | Some n => <[a := set_locks (Some n) t]> X end.

Lemma delete_first T X n ups r t :
  X !! tran r = Some t -> tran_prev r = None ->
  (forall p, tran_next r = Some p -> exists y, req T p = Some y) ->
  delete_lock_request (mk_lm T X n ups) r =
    Ok (mk_lm (pop_table T (tran_next r)) (pop_trans X (tran r) t (tran_next r)) n ups).
Proof.
  intros Ht Hp Hn. unfold delete_lock_request, find_tr_lock_head. cbn [tr_table].
  rewrite Ht, Hp. destruct (tran_next r) as [p|]; [|done].
  unfold update_tran. cbn [tr_table]. rewrite Ht. cbn [of_option bind_res].
  destruct (Hn p eq_refl) as [y Hy]. by erewrite update_request_upd.
Qed.

Lemma req_pop_table T nx p :
  req (pop_table T nx) p = if decide (nx = Some p) then set_tran_prev None <$> req T p else req T p.
Proof.
  destruct nx as [q|]; cbn [pop_table].
  - rewrite req_upd by done. destruct (decide (p = q)) as [->|]; [by rewrite decide_True|].
    rewrite decide_False; [done|congruence].
  - by rewrite decide_False.
Qed.

Lemma pop_table_same_heads T nx : same_heads (pop_table T nx) T.
Proof. destruct nx; [by apply upd_same_heads|apply same_heads_refl]. Qed.

Lemma pop_table_lookup_other T nx k :
  (forall p, nx = Some p -> p.1 <> k) -> pop_table T nx !! k = T !! k.
Proof.
  intros Hk. destruct nx as [p|]; [|done]. cbn. unfold upd.
  destruct (T !! p.1); [|done]. apply lookup_insert_ne. by apply Hk.
Qed.

(** ** One step of the release *)

(** The fate of a request [x] at [p'] when the request at [p] leaves: its
    links change only if it was next in the list; it may be woken. *)
Definition evolves (a : transaction_id) (nx : option rptr) (X X' : trans) (p' : rptr)
    (x x' : lock_request) : Prop :=
  rid x' = rid x /\ head x' = head x /\ tran x' = tran x /\ tran_next x' = tran_next x /\
  tran_prev x' = (if decide (nx = Some p') then None else tran_prev x) /\
  ((core x' = core x /\
    (status x <> LOCK_GRANTED -> tran x <> a -> X' !! tran x = X !! tran x)) \/
   (status x <> LOCK_GRANTED /\ status x' = LOCK_GRANTED /\ tran x <> a)).

Record popped (a : transaction_id) (p : rptr) (nx : option rptr)
    (T : table) (X : trans) (T' : table) (X' : trans) : Prop := {
  pop_new : forall p' x', req T' p' = Some x' ->
    p' <> p /\ exists x, req T p' = Some x /\ evolves a nx X X' p' x x';
  pop_old : forall p' x, p' <> p -> req T p' = Some x ->
    exists x', req T' p' = Some x' /\ evolves a nx X X' p' x x';
  pop_others : forall b, b <> a -> X' !! b = X !! b \/
    (X' !! b = set_wait None <$> X !! b);
  pop_woken : forall p' x x', req T p' = Some x -> req T' p' = Some x' ->
    core x' <> core x -> X' !! tran x = set_wait None <$> X !! tran x;
  pop_self : match nx with
             | None => X' !! a = None
             | Some _ => exists t', X' !! a = Some t' /\ locks t' = nx
             end }.

Lemma popped_victims {a p nx T X T' X'} :
  popped a p nx T X T' X' -> forall b, b <> a -> victim X' b = victim X b.
Proof.
  intros HP b Hb. unfold victim. destruct (pop_others _ _ _ _ _ _ _ HP b Hb) as [-> | ->]; [done|].
  by destruct (X !! b).
Qed.

Section Pop.
Context {a : transaction_id} {p : rptr} {ps : list rptr} {T T' : table} {X X' : trans} {n : nat}
  {t : TransCB}.
Context (HI : inv (Some a) T X n) (Ht : X !! a = Some t) (Hl : tran_list T a (locks t) (p :: ps))
  (HP : popped a p (ps !! O) T X T' X').

Lemma popped_dll_self : dll T' a ps.
Proof.
  destruct Hl as (_ & _ & Hd & Hnd & _). intros i q Hi. pose proof (Hd (S i) q Hi) as Hq.
  apply lnk_Some in Hq as (x & Hx & Hxa & Hxp & Hxn).
  assert (Hne : q <> p).
  { intros ->. apply NoDup_map_snd, NoDup_cons in Hnd as [Hnd _]. apply Hnd.
    apply list_elem_of_lookup. eauto. }
  destruct (pop_old _ _ _ _ _ _ _ HP q x Hne Hx) as (x' & Hx' & _ & _ & E1 & E2 & E3 & _).
  apply lnk_Some. exists x'. split; [done|]. split; [congruence|]. split; [|by rewrite E2, Hxn].
  rewrite E3. destruct i as [|i]; [by rewrite decide_True|]. cbn.
  rewrite decide_False; [by rewrite Hxp|]. intros E.
  apply NoDup_map_snd, NoDup_cons in Hnd as [_ Hnd].
  pose proof (NoDup_lookup _ _ _ _ Hnd E Hi). lia.
Qed.

Lemma popped_list_self : ps <> [] -> tran_list T' a (ps !! O) ps.
Proof.
  intros Hne. pose proof Hl as (_ & _ & Hd & Hnd & Hall). split; [done|]. split; [done|].
  split; [by apply popped_dll_self|]. split; [by apply NoDup_cons in Hnd as [_ ?]|].
  intros q x' Hx' Hxa. destruct (pop_new _ _ _ _ _ _ _ HP q x' Hx') as (Hq & x & Hx & _ & _ & E & _).
  destruct (Hall q x Hx) as [<-|]; [congruence|done|done].
Qed.

Lemma popped_list_other b l qs : b <> a -> tran_list T b l qs -> tran_list T' b l qs.
Proof.
  intros Hb (H1 & H2 & Hd & H4 & H5). split; [done|]. split; [done|]. split; [|split; [done|]].
  - eapply dll_ext; [|exact Hd]. intros q Hq. destruct (dll_tran _ _ _ q Hd Hq) as (x & Hx & Hxb).
    assert (Hpn : forall i q2, (p :: ps) !! i = Some q2 -> q <> q2).
    { intros i q2 Hi <-. destruct Hl as (_ & _ & Hda & _). apply Hda, lnk_Some in Hi as (y & Hy & Hya & _).
      congruence. }
    destruct (pop_old _ _ _ _ _ _ _ HP q x) as (x' & Hx' & _ & _ & E1 & E2 & E3 & _); [by apply (Hpn 0)|done|].
    unfold lnk. rewrite Hx, Hx'. cbn. rewrite E1, E2, E3, decide_False; [done|].
    intros E. by apply (Hpn 1 q E).
  - intros q x' Hx' Hxb. destruct (pop_new _ _ _ _ _ _ _ HP q x' Hx') as (_ & x & Hx & _ & _ & E & _).
    eapply H5; [done|]. congruence.
Qed.

Lemma popped_known q x : q <> p -> req T q = Some x -> is_Some (X' !! tran x).
Proof.
  intros Hq Hx. destruct (inv_req _ _ _ _ HI _ _ Hx) as (_ & _ & t0 & Ht0 & _).
  destruct (decide (tran x = a)) as [Ea|Ea].
  - pose proof (pop_self _ _ _ _ _ _ _ HP) as Hs. rewrite Ea.
    destruct ps as [|q0 ps0]; cbn in Hs.
    + destruct Hl as (_ & _ & _ & _ & Hall). destruct (Hall q x Hx Ea) as [?|[]]. congruence.
    + destruct Hs as (t1 & Ht1 & _). eauto.
  - destruct (pop_others _ _ _ _ _ _ _ HP (tran x) Ea) as [E|E]; rewrite E, Ht0; cbn; eauto.
Qed.

Lemma popped_req q x' :
  req T' q = Some x' ->
  head x' = q.1 /\ (rid x' < n)%nat /\
  exists t1, X' !! tran x' = Some t1 /\
    (status x' <> LOCK_GRANTED -> Some a <> Some (tran x') -> wait t1 = Some q).
Proof.
  intros Hx'. destruct (pop_new _ _ _ _ _ _ _ HP q x' Hx') as (Hq & x & Hx & E1 & E2 & E3 & _ & _ & Hc).
  destruct (inv_req _ _ _ _ HI _ _ Hx) as (H1 & H2 & t0 & Ht0 & H3).
  rewrite E1, E2, E3. split; [done|]. split; [done|].
  destruct (popped_known q x Hq Hx) as [t1 Ht1]. exists t1. split; [done|]. intros Hst Hex.
  assert (Ea : tran x <> a) by congruence.
  destruct Hc as [[Hc Hx2]|(_ & Hg & _)]; [|done].
  injection Hc as _ _ Es _ _ _. rewrite Es in Hst. rewrite (Hx2 Hst Ea), Ht0 in Ht1.
  injection Ht1 as <-. auto.
Qed.

Lemma popped_wait b t0 q :
  b <> a -> X' !! b = Some t0 -> wait t0 = Some q ->
  exists x', req T' q = Some x' /\ tran x' = b /\ status x' <> LOCK_GRANTED.
Proof.
  intros Hb Ht0 Hw. destruct (pop_others _ _ _ _ _ _ _ HP b Hb) as [E|E]; rewrite E in Ht0.
  - destruct (inv_wait _ _ _ _ HI b t0 q) as (x & Hx & Hxb & Hxs); [congruence|done|done|].
    destruct (pop_old _ _ _ _ _ _ _ HP q x) as (x' & Hx' & Hev); [|done|].
    { intros ->. destruct Hl as (_ & _ & Hda & _). pose proof (Hda 0 p eq_refl) as Hp0.
      apply lnk_Some in Hp0 as (y & Hy & Hya & _). congruence. }
    destruct Hev as (_ & _ & E1 & _ & _ & [[Hc _]|(_ & Hg & _)]).
    + injection Hc as _ _ Es _ _ _. exists x'. rewrite Es, E1. auto.
    + exfalso. assert (Hcc : core x' <> core x) by (unfold core; congruence).
      pose proof (pop_woken _ _ _ _ _ _ _ HP q x x' Hx Hx' Hcc) as Hwk.
      rewrite Hxb, E, Ht0 in Hwk. injection Hwk as Hwk. rewrite Hwk in Hw. done.
  - apply fmap_Some in Ht0 as (t1 & _ & ->). done.
Qed.

Lemma popped_lists b t0 : X' !! b = Some t0 -> exists qs, tran_list T' b (locks t0) qs.
Proof.
  intros Ht0. destruct (decide (b = a)) as [->|Hb].
  - exists ps. pose proof (pop_self _ _ _ _ _ _ _ HP) as Hs. pose proof popped_list_self as Hself.
    destruct ps as [|q ps0]; cbn in Hs; [congruence|].
    destruct Hs as (t' & Ht' & Hlk). rewrite Ht' in Ht0. injection Ht0 as <-.
    rewrite Hlk. by apply Hself.
  - assert (Hx : exists t1, X !! b = Some t1 /\ locks t0 = locks t1).
    { destruct (pop_others _ _ _ _ _ _ _ HP b Hb) as [E|E]; rewrite E in Ht0; [eauto|].
      apply fmap_Some in Ht0 as (t1 & Ht1 & ->). eauto. }
    destruct Hx as (t1 & Ht1 & ->). destruct (inv_list _ _ _ _ HI b t1 Ht1) as (qs & Hqs).
    exists qs. by apply popped_list_other.
Qed.

Lemma popped_inv :
  (forall k h, T' !! k = Some h -> head_ok k h) -> inv (Some a) T' X' n.
Proof.
  intros Hh. split; [done|apply popped_req| |apply popped_lists].
  intros b t0 q Hex. apply popped_wait. congruence.
Qed.
End Pop.

(** ** unlock on the first request of a transaction *)

Lemma filter_remove_rid q1 r q2 :
  NoDup (map rid (q1 ++ r :: q2)) ->
  List.filter (fun x => negb (has_rid (rid r) x)) (q1 ++ r :: q2) = q1 ++ q2.
Proof.
  rewrite map_app. cbn. intros Hnd. apply NoDup_ListNoDup in Hnd.
  pose proof (NoDup_remove_2 _ _ _ Hnd) as Hr. rewrite in_app_iff in Hr.
  assert (Hsame : forall q, ~ In (rid r) (map rid q) ->
            List.filter (fun x => negb (has_rid (rid r) x)) q = q).
  { induction q as [|x q IH]; cbn; [done|]. intros Hn. unfold has_rid at 1.
    rewrite (proj2 (Nat.eqb_neq _ _)) by tauto. cbn. rewrite IH by tauto. done. }
  rewrite List.filter_app. cbn. unfold has_rid at 2. rewrite Nat.eqb_refl. cbn.
  rewrite !Hsame by tauto. done.
Qed.

Lemma Forall2_find_rid (R : lock_request -> lock_request -> Prop) q q' i :
  (forall x x', R x x' -> rid x' = rid x) -> Forall2 R q q' ->
  match List.find (has_rid i) q, List.find (has_rid i) q' with
  | Some x, Some x' => R x x' /\ In x q
  | None, None => True
  | _, _ => False
  end.
Proof.
  intros HR. induction 1 as [|x x' q q' Hx Hq IH]; cbn; [done|].
  replace (has_rid i x') with (has_rid i x) by (unfold has_rid; by rewrite (HR _ _ Hx)).
  destruct (has_rid i x); [auto|].
  destruct (List.find _ q), (List.find _ q'); [|done..]. destruct IH. auto.
Qed.

Lemma wake_pair_rid X X' x x' : wake_pair X X' x x' -> rid x' = rid x.
Proof. intros [[-> _]|[Hw _]]; [done|]. apply wakes_same_links in Hw. tauto. Qed.

Lemma queue_shape_remove q1 r q2 : queue_shape (q1 ++ r :: q2) -> queue_shape (q1 ++ q2).
Proof.
  induction q1 as [|x l IH]; intros Hs; [by eapply queue_shape_cons_holder|].
  pose proof (queue_shape_known _ Hs) as Hk. apply Forall_cons in Hk as [[Hx|Hx] _].
  - apply queue_shape_cons; [done|]. by apply IH, (queue_shape_cons_holder x).
  - pose proof (queue_shape_waiter x (l ++ r :: q2) Hs Hx) as Hw. exists [], (x :: l ++ q2).
    apply Forall_cons in Hw as [_ Hw]. apply Forall_app in Hw as [H1 H2].
    apply Forall_cons in H2 as [_ H2]. split; [done|]. split; [constructor|].
    constructor; [done|]. by apply Forall_app.
Qed.

Lemma pop_table_queue T nx k : same_queue (queue_of (pop_table T nx) k) (queue_of T k).
Proof.
  destruct nx as [p|]; [|done]. cbn. unfold queue_of, upd.
  destruct (T !! p.1) as [h|] eqn:Hh; [|done]. rewrite lookup_insert.
  case_decide as E; [|done]. rewrite <- E, Hh. unfold same_queue. cbn [queue set_queue].
  rewrite map_map. apply map_ext. intros x. by destruct (has_rid p.2 x).
Qed.

(** One [unlock] of the release. *)
Record unlocked (a : transaction_id) (p : rptr) (nx : option rptr) (st st' : lm_state) : Prop := {
  un_popped : popped a p nx (l_table st) (tr_table st) (l_table st') (tr_table st');
  un_inv : inv (Some a) (l_table st') (tr_table st') (next_rid st');
  un_next : next_rid st' = next_rid st;
  un_other : forall k, k <> p.1 -> same_queue (queue_of (l_table st') k) (queue_of (l_table st) k);
  un_queue : unlock_queue_step a (queue_of (l_table st) p.1) (queue_of (l_table st') p.1);
  un_victims : forall b, b <> a -> victim (tr_table st') b = victim (tr_table st) b;
  un_ups : sem_ups st' = sem_ups st ++
    wake_ups (tr_table st) (queue_of (l_table st) p.1) (queue_of (l_table st') p.1) }.

Section UnlockFirst.
Context {st : lm_state} {a : transaction_id} {p : rptr} {ps : list rptr} {t : TransCB}
  {h : lock_head} {r : lock_request} {q1 q2 : list lock_request}.
Let T := l_table st.
Let X := tr_table st.
Let n := next_rid st.
Let k := p.1.
Let nx := ps !! O.
Context (HI : inv (Some a) T X n) (Ht : X !! a = Some t) (Hl : tran_list T a (locks t) (p :: ps))
  (Hk : T !! k = Some h) (Hr : req T p = Some r) (Hq : queue h = q1 ++ r :: q2).

Lemma first_links : tran r = a /\ tran_prev r = None /\ tran_next r = nx /\ p = (k, rid r).
Proof.
  destruct Hl as (_ & _ & Hd & _). pose proof (Hd 0 p eq_refl) as H0.
  apply lnk_Some in H0 as (r0 & Hr0 & H1 & H2 & H3).
  assert (r0 = r) as -> by congruence. repeat split; try done.
  apply req_Some in Hr as (_ & _ & _ & E). unfold k. destruct p; cbn in *; congruence.
Qed.

Lemma next_elsewhere p2 : nx = Some p2 -> p2.1 <> k /\ p2 <> p /\ exists y, req T p2 = Some y.
Proof.
  intros E. destruct Hl as (_ & _ & Hd & Hnd & _).
  pose proof (Hd 1 p2 E) as H1. apply lnk_Some in H1 as (y & Hy & Hya & _).
  assert (Hne : p2 <> p).
  { intros ->. apply NoDup_map_snd, NoDup_cons in Hnd as [Hnd _]. apply Hnd.
    apply list_elem_of_lookup. exists 0. done. }
  split; [|eauto]. intros Ek. destruct first_links as (Ha & _ & _ & Ep).
  assert (y = r) as -> by (eapply (req_unique HI); eauto; congruence).
  apply req_Some in Hy as (_ & _ & _ & Er). apply Hne. rewrite Ep. destruct p2; cbn in *; congruence.
Qed.

Lemma in_rest x : In x (q1 ++ q2) -> In x (queue h) /\ tran x <> a /\ req T (k, rid x) = Some x.
Proof.
  intros Hx. assert (Hin : In x (queue h)) by (rewrite Hq; rewrite in_app_iff in *; cbn; tauto).
  split; [done|]. split; [|by eapply (req_in HI)]. intros E.
  assert (Hok : head_ok k h) by (by apply (inv_heads _ _ _ _ HI)).
  pose proof (ho_trans _ _ Hok) as Hnd. rewrite Hq, map_app in Hnd. cbn in Hnd.
  apply NoDup_ListNoDup, NoDup_remove_2 in Hnd. apply Hnd. destruct first_links as (-> & _).
  rewrite <- E, <- map_app. by apply in_map.
Qed.

Lemma req_rest h1 p' :
  queue h1 = q1 ++ q2 ->
  req (<[k := h1]> T) p' = if decide (p' = p) then None else req T p'.
Proof.
  intros Hq1. rewrite req_insert. destruct first_links as (_ & _ & _ & Ep).
  assert (Hok : head_ok k h) by (by apply (inv_heads _ _ _ _ HI)).
  assert (Hnd := ho_rids _ _ Hok). destruct (decide (p'.1 = k)) as [E|E].
  - rewrite Hq1. destruct p' as [k' i]. cbn in E. subst k'. cbn.
    assert (Hnd2 : NoDup (map rid (q1 ++ q2))).
    { rewrite Hq, map_app in Hnd. cbn in Hnd. apply NoDup_ListNoDup, NoDup_remove_1 in Hnd.
      rewrite map_app. by apply NoDup_ListNoDup. }
    destruct (List.find (has_rid i) (q1 ++ q2)) as [x|] eqn:Hf.
    + apply find_has_rid in Hf as [Hin <-]; [|done]. pose proof (in_rest x Hin) as (_ & Hxa & Hx).
      rewrite decide_False; [by rewrite Hx|]. intros E. rewrite E in Hx.
      destruct first_links as (Hra & _). congruence.
    + case_decide as E; [done|]. destruct (req T (k, i)) as [x|] eqn:Hx; [|done].
      apply req_Some in Hx as (h0 & Hh0 & Hin & Hi). cbn in *. rewrite Hk in Hh0. injection Hh0 as <-.
      exfalso. rewrite Hq in Hin. apply in_elt_inv in Hin as [<-|Hin].
      * apply E. rewrite Ep. congruence.
      * eapply find_none in Hf; [|exact Hin]. unfold has_rid in Hf. by apply Nat.eqb_neq in Hf.
  - rewrite decide_False; [done|]. intros ->. done.
Qed.

(** The control blocks after the destructor. *)
Lemma pop_trans_other b : b <> a -> pop_trans X a t nx !! b = X !! b.
Proof.
  intros Hb. unfold pop_trans. destruct nx; [by apply lookup_insert_ne|by apply lookup_delete_ne].
Qed.

Lemma pop_trans_self :
  match nx with
  | None => pop_trans X a t nx !! a = None
  | Some _ => exists t', pop_trans X a t nx !! a = Some t' /\ locks t' = nx
  end.
Proof.
  unfold pop_trans. destruct nx; [|by apply lookup_delete_eq].
  rewrite lookup_insert_eq. eauto.
Qed.

Lemma find_lock_first : find_lock st (r_id h) = Some h /\ get_str_res_id (r_id h) = k.
Proof.
  assert (Hok : head_ok k h) by (by apply (inv_heads _ _ _ _ HI)).
  unfold find_lock. rewrite (ho_key _ _ Hok). done.
Qed.

Lemma evolves_pop X' p' x :
  (status x <> LOCK_GRANTED -> tran x <> a -> X' !! tran x = X !! tran x) ->
  evolves a nx X X' p' x (if decide (nx = Some p') then set_tran_prev None x else x).
Proof. intros Hx. case_decide as E; unfold evolves; rewrite ?decide_True, ?decide_False by done; auto 10. Qed.

(** The requests of a table from which the request was taken. *)
Definition taken (T2 : table) : Prop :=
  forall p', req T2 p' = if decide (p' = p) then None
                         else if decide (nx = Some p') then set_tran_prev None <$> req T p'
                         else req T p'.

Lemma taken_Some T2 p' x' :
  taken T2 -> req T2 p' = Some x' ->
  p' <> p /\ exists x, req T p' = Some x /\
    x' = if decide (nx = Some p') then set_tran_prev None x else x.
Proof.
  intros Htk Hx'. rewrite Htk in Hx'. case_decide as E; [done|]. split; [done|].
  case_decide as E2; [apply fmap_Some in Hx' as (x & Hx & ->)|]; eauto.
Qed.

Lemma taken_old T2 p' x :
  taken T2 -> p' <> p -> req T p' = Some x ->
  req T2 p' = Some (if decide (nx = Some p') then set_tran_prev None x else x).
Proof. intros Htk Hne Hx. rewrite Htk, decide_False, Hx by done. by case_decide. Qed.

Lemma taken_popped T2 : taken T2 -> popped a p nx T X T2 (pop_trans X a t nx).
Proof.
  intros Htk. split.
  - intros p' x' Hx'. destruct (taken_Some _ _ _ Htk Hx') as (Hne & x & Hx & ->). split; [done|].
    exists x. split; [done|]. apply evolves_pop. intros _. apply pop_trans_other.
  - intros p' x Hne Hx. eexists. split; [by apply taken_old|]. apply evolves_pop.
    intros _. apply pop_trans_other.
  - intros b Hb. left. by apply pop_trans_other.
  - intros p' x x' Hx Hx'. destruct (taken_Some _ _ _ Htk Hx') as (_ & y & Hy & ->).
    assert (y = x) as -> by congruence. by case_decide.
  - apply pop_trans_self.
Qed.

Lemma delete_run T1 :
  (forall p', p'.1 <> k -> req T1 p' = req T p') ->
  delete_lock_request (mk_lm T1 X n (sem_ups st)) r =
    Ok (mk_lm (pop_table T1 nx) (pop_trans X a t nx) n (sem_ups st)).
Proof.
  intros HT1. destruct first_links as (Ha & Hp & Hn & _). rewrite <- Hn, <- Ha.
  apply delete_first; [by rewrite Ha|done|]. rewrite Hn. intros p2 E.
  destruct (next_elsewhere p2 E) as (Hk2 & _ & y & Hy). exists y. by rewrite HT1.
Qed.

(** The request was alone in its queue. *)
Lemma unlock_alone :
  q1 ++ q2 = [] ->
  let T' := delete k (pop_table T nx) in
  let X' := pop_trans X a t nx in
  unlock st a (r_id h) = Ok (mk_lm T' X' n (sem_ups st), LOCK_OK) /\
  taken T' /\ (forall k' h', T' !! k' = Some h' -> head_ok k' h').
Proof.
  intros He T' X'. destruct first_links as (Ha & _ & _ & Ep). destruct find_lock_first as [Hf Hkey].
  assert (Hin : In r (queue h)) by (rewrite Hq; apply in_elt).
  assert (Hok : head_ok k h) by (by apply (inv_heads _ _ _ _ HI)).
  split; [|split].
  - unfold unlock. rewrite Hf, (find_owned HI k h a r) by done.
    rewrite Hq, filter_remove_rid by (rewrite <- Hq; by apply (ho_rids k)). rewrite He.
    replace st with (mk_lm T X n (sem_ups st)) at 1 by (by destruct st).
    rewrite delete_run by done. cbn. by rewrite Hkey.
  - intros p'. destruct (decide (p'.1 = k)) as [E|E].
    + unfold req at 1. unfold T'. rewrite E, lookup_delete_eq. cbn.
      pose proof (req_rest (set_queue (q1 ++ q2) h) p' eq_refl) as Hrr. rewrite req_insert in Hrr.
      rewrite decide_True in Hrr by done. cbn in Hrr. rewrite He in Hrr. cbn in Hrr.
      rewrite Hrr. case_decide; [done|]. case_decide as E2; [|done].
      by destruct (next_elsewhere _ E2).
    + unfold T'. rewrite req_delete_ne, req_pop_table by done.
      rewrite (decide_False (P := p' = p)); [done|]. intros ->. done.
  - intros k' h' Hk'. unfold T' in Hk'. apply lookup_delete_Some in Hk' as [_ Hk'].
    eapply same_heads_ok; [apply pop_table_same_heads|apply (inv_heads _ _ _ _ HI)|done].
Qed.

(** *** Others are left in the queue *)

Let T2 := pop_table (<[k := set_queue (q1 ++ q2) h]> T) nx.
Let X2 := pop_trans X a t nx.

Lemma taken_T2 : taken T2.
Proof.
  intros p'. unfold T2. rewrite req_pop_table, req_rest by done.
  destruct (decide (p' = p)) as [->|Hne]; [|done].
  case_decide as E; [|done]. by destruct (next_elsewhere _ E) as (_ & ? & _).
Qed.

Lemma T2_head : T2 !! k = Some (set_queue (q1 ++ q2) h).
Proof.
  unfold T2. rewrite pop_table_lookup_other; [by rewrite lookup_insert_eq|].
  intros p2 E. by apply next_elsewhere.
Qed.

Lemma rest_shape : queue_shape (q1 ++ q2) /\ NoDup (map tran (q1 ++ q2)) /\ NoDup (map rid (q1 ++ q2)).
Proof.
  assert (Hok : head_ok k h) by (by apply (inv_heads _ _ _ _ HI)).
  pose proof (ho_shape _ _ Hok) as Hs. pose proof (ho_trans _ _ Hok) as H1. pose proof (ho_rids _ _ Hok) as H2.
  rewrite Hq in Hs, H1, H2. rewrite map_app in H1, H2. split; [|split].
  - by eapply queue_shape_remove.
  - rewrite map_app. by apply NoDup_ListNoDup, NoDup_remove_1, NoDup_ListNoDup in H1.
  - rewrite map_app. by apply NoDup_ListNoDup, NoDup_remove_1, NoDup_ListNoDup in H2.
Qed.

Lemma rest_wakes :
  exists q' w', wake_loop [] (q1 ++ q2) (mk_wake NULL_LOCK false false X2 []) = Ok (q', w').
Proof.
  apply wake_loop_total; [apply queue_shape_known, rest_shape|]. cbn. intros x Hx.
  destruct (in_rest x Hx) as (_ & Hxa & Hxr). unfold X2. rewrite pop_trans_other by done.
  destruct (inv_req _ _ _ _ HI _ _ Hxr) as (_ & _ & t0 & Ht0 & _). eauto.
Qed.

Section Woken.
Context {q' : list lock_request} {w' : wake_state}.
Context (Hw : wake_loop [] (q1 ++ q2) (mk_wake NULL_LOCK false false X2 []) = Ok (q', w'))
  (Hne : q1 ++ q2 <> []).
Let h' := mk_head (r_id h) q' (w_granted_mode w') (w_waiting w').
Let T' := <[k := h']> T2.
Let X' := w_trans w'.

Lemma woken_pairs :
  Forall2 (wake_pair X2 X') (q1 ++ q2) q' /\
  (forall b, ~ In b (map tran (q1 ++ q2)) -> X' !! b = X2 !! b).
Proof.
  destruct (wake_loop_pairs (q1 ++ q2) [] _ _ _ (proj1 (proj2 rest_shape)) Hw) as (l & -> & H1 & H2).
  done.
Qed.

(** Every request of the queue whose control block changed was woken. *)
Lemma woken_trans b :
  X' !! b = X2 !! b \/
  (b <> a /\ X' !! b = set_wait None <$> X2 !! b /\
   exists x, In x (q1 ++ q2) /\ tran x = b /\ ~ is_granted x).
Proof.
  destruct woken_pairs as [HF Ho].
  destruct (in_dec Z.eq_dec b (map tran (q1 ++ q2))) as [Hin|Hn]; [|left; auto].
  apply in_map_iff in Hin as (x & <- & Hx). destruct (in_rest x Hx) as (_ & Hxa & _).
  apply list_elem_of_In, list_elem_of_lookup in Hx as [i Hi].
  destruct (Forall2_lookup_l _ _ _ _ _ HF Hi) as (x' & _ & [[_ ?]|[Hwk ?]]); [by left|].
  right. split; [done|]. split; [done|]. exists x. split; [|split; [done|apply (wakes_granted _ _ Hwk)]].
  apply list_elem_of_In, list_elem_of_lookup. eauto.
Qed.

(** A pending request of another queue keeps its control block. *)
Lemma pending_elsewhere p' x :
  p'.1 <> k -> req T p' = Some x -> status x <> LOCK_GRANTED -> tran x <> a ->
  X' !! tran x = X2 !! tran x.
Proof.
  intros Hp' Hx Hst Hxa. destruct (woken_trans (tran x)) as [E|(_ & _ & y & Hy & Ey & Hg)]; [done|].
  exfalso. destruct (in_rest y Hy) as (_ & _ & Hry).
  destruct (inv_req _ _ _ _ HI _ _ Hx) as (_ & _ & t1 & Ht1 & H1).
  destruct (inv_req _ _ _ _ HI _ _ Hry) as (_ & _ & t2 & Ht2 & H2).
  rewrite Ey, Ht1 in Ht2. injection Ht2 as <-. rewrite Ey in H2.
  rewrite H1 in H2 by congruence. specialize (H2 Hg ltac:(congruence)).
  injection H2 as ->. by apply Hp'.
Qed.

Definition woken_request (y y' : lock_request) : Prop :=
  (y' = y /\ (status y <> LOCK_GRANTED -> tran y <> a -> X' !! tran y = X2 !! tran y)) \/
  (wakes y y' /\ tran y <> a /\ X' !! tran y = set_wait None <$> X2 !! tran y).

Lemma woken_req p' :
  match req T2 p', req T' p' with
  | Some y, Some y' => woken_request y y'
  | None, None => True
  | _, _ => False
  end.
Proof.
  unfold T'. rewrite req_insert. destruct (decide (p'.1 = k)) as [E|E].
  - assert (Ereq : req T2 p' = List.find (has_rid p'.2) (q1 ++ q2)).
    { unfold req. by rewrite E, T2_head. }
    rewrite Ereq. cbn [queue h']. unfold h'. cbn [queue].
    pose proof (Forall2_find_rid _ _ _ p'.2 (wake_pair_rid X2 X') (proj1 woken_pairs)) as HF.
    destruct (List.find _ (q1 ++ q2)) as [y|], (List.find _ q') as [y'|]; try done.
    destruct HF as [[[-> Hy]|[Hwk Hy]] Hin]; [by left|]. right. split; [done|].
    split; [|done]. by apply in_rest.
  - destruct (req T2 p') as [y|] eqn:Hy; [|done]. left. split; [done|]. intros Hst Hya.
    destruct (taken_Some _ _ _ taken_T2 Hy) as (_ & x & Hx & Ey).
    assert (Es : status y = status x /\ tran y = tran x) by (subst y; by case_decide).
    destruct Es as [Es Et]. rewrite Et. apply (pending_elsewhere p'); congruence.
Qed.

Lemma woken_evolves p' x y y' :
  y = (if decide (nx = Some p') then set_tran_prev None x else x) ->
  woken_request y y' -> evolves a nx X X' p' x y'.
Proof.
  intros Ey Hwk. pose proof (evolves_pop X' p' x) as Hev. rewrite <- Ey in Hev.
  assert (Es : status y = status x /\ tran y = tran x /\ rid y = rid x /\ head y = head x /\
               tran_next y = tran_next x /\
               tran_prev y = if decide (nx = Some p') then None else tran_prev x)
    by (subst y; by case_decide).
  destruct Es as (E1 & E2 & E3 & E4 & E5 & E6).
  destruct Hwk as [[-> Hu]|(Hwk & Hya & _)].
  - apply Hev. intros Hst Hxa. rewrite E1, E2 in Hu. rewrite Hu by done. by apply pop_trans_other.
  - destruct (wakes_same_links _ _ Hwk) as (L1 & L2 & L3 & _ & L5 & L6).
    destruct (wakes_granted _ _ Hwk) as [G1 G2]. unfold evolves, is_granted in *.
    rewrite L1, L2, L3, L5, L6. rewrite E1 in G2. rewrite E2 in Hya. auto 10.
Qed.

Lemma woken_popped : popped a p nx T X T' X'.
Proof.
  split.
  - intros p' x' Hx'. pose proof (woken_req p') as Hwr. rewrite Hx' in Hwr.
    destruct (req T2 p') as [y|] eqn:Hy; [|done].
    destruct (taken_Some _ _ _ taken_T2 Hy) as (Hne' & x & Hx & Ey). split; [done|].
    exists x. split; [done|]. by eapply woken_evolves.
  - intros p' x Hne' Hx. pose proof (taken_old _ _ _ taken_T2 Hne' Hx) as Hy.
    pose proof (woken_req p') as Hwr. rewrite Hy in Hwr. destruct (req T' p') as [x'|]; [|done].
    exists x'. split; [done|]. by eapply woken_evolves.
  - intros b Hb. destruct (woken_trans b) as [E|(_ & E & _)]; rewrite E; unfold X2;
      rewrite pop_trans_other by done; auto.
  - intros p' x x' Hx Hx' Hc. pose proof (woken_req p') as Hwr. rewrite Hx' in Hwr.
    destruct (req T2 p') as [y|] eqn:Hy; [|done].
    destruct (taken_Some _ _ _ taken_T2 Hy) as (Hne' & x0 & Hx0 & Ey).
    assert (x0 = x) as -> by congruence.
    assert (Es : core y = core x) by (subst y; by case_decide).
    destruct Hwr as [[-> _]|(_ & Hya & E)]; [done|]. injection Es as _ Et _ _ _ _.
    rewrite Et in *. rewrite E. unfold X2. by rewrite pop_trans_other.
  - destruct (woken_trans a) as [E|(? & _)]; [|done]. rewrite E. apply pop_trans_self.
Qed.

Lemma woken_head_ok : head_ok k h'.
Proof.
  assert (Hok : head_ok k h) by (by apply (inv_heads _ _ _ _ HI)).
  destruct rest_shape as (Hs & Ht1 & Hr1). destruct woken_pairs as [HF _].
  destruct (wake_loop_result _ _ _ _ _ (wake_inv_init X2) Hs Hw) as (R1 & R2 & R3).
  assert (Emap : forall B (f : lock_request -> B), (forall x x', wake_pair X2 X' x x' -> f x' = f x) ->
                 map f q' = map f (q1 ++ q2)).
  { intros B f Hf. clear -HF Hf. induction HF as [|x x' l l' Hx _ IH]; cbn; [done|].
    by rewrite (Hf _ _ Hx), IH. }
  split; unfold h'; cbn [r_id queue granted_mode waiting]; try done.
  - by apply (ho_key _ _ Hok).
  - intros ->. by apply Forall2_nil_inv_r in HF.
  - rewrite (Emap _ tran); [done|]. intros x x' [[-> _]|[Hx _]]; [done|].
    by apply wakes_same_links in Hx as (_ & _ & ? & _).
  - rewrite (Emap _ rid); [done|]. apply wake_pair_rid.
  - pose proof (ho_convert _ _ Hok) as Hc. rewrite Hq in Hc. apply Forall_app in Hc as [Hc1 Hc2].
    apply Forall_cons in Hc2 as [_ Hc2]. pose proof (Forall_app_2 _ _ _ Hc1 Hc2) as Hc.
    clear -HF Hc. induction HF as [|x x' l l' Hx _ IH]; [done|].
    apply Forall_cons in Hc as [Hxc Hc]. constructor; [|auto].
    destruct Hx as [[-> _]|[Hx _]]; [done|]. apply wakes_granted in Hx as [Hx _].
    unfold is_granted, is_converter in *. congruence.
Qed.

Lemma woken_heads_ok k' h0 : T' !! k' = Some h0 -> head_ok k' h0.
Proof.
  unfold T'. rewrite lookup_insert. case_decide as E; [intros [= <-]; rewrite <- E; apply woken_head_ok|].
  unfold T2. intros Hh0.
  destruct (pop_table_same_heads _ _ _ _ Hh0) as (h1 & Hh1 & E1 & E2 & E3 & E4).
  rewrite lookup_insert_ne in Hh1 by done.
  replace h0 with (set_queue (queue h0) h1) by (unfold set_queue; rewrite <- E1, <- E2, <- E3; by destruct h0).
  apply head_ok_core; [done|]. by apply (inv_heads _ _ _ _ HI).
Qed.

Lemma unlock_woken :
  unlock st a (r_id h) = Ok (mk_lm T' X' n (sem_ups st ++ w_ups w'), LOCK_OK).
Proof.
  assert (Hok : head_ok k h) by (by apply (inv_heads _ _ _ _ HI)).
  destruct first_links as (Ha & _). destruct find_lock_first as [Hf Hkey].
  assert (Hin : In r (queue h)) by (rewrite Hq; apply in_elt).
  unfold unlock. rewrite Hf, (find_owned HI k h a r) by done. rewrite Hkey.
  pose proof delete_run as Hdr. pose proof T2_head as HT2.
  rewrite Hq, filter_remove_rid by (rewrite <- Hq; by apply (ho_rids k)).
  destruct (q1 ++ q2) as [|x0 l0] eqn:Eq; [done|]. rewrite <- Eq.
  unfold set_l_table. cbn [l_table tr_table next_rid sem_ups].
  rewrite Hdr by (intros; by rewrite req_insert_ne). cbn [bind_res of_option l_table tr_table next_rid sem_ups].
  replace (pop_table _ nx) with T2 by (unfold T2; by rewrite Eq).
  rewrite HT2. cbn [bind_res of_option set_queue queue r_id]. fold X2. by rewrite Hw.
Qed.

Lemma rest_exact : wake_exact [] (q1 ++ q2) (mk_wake NULL_LOCK false false X2 []) w' q'.
Proof.
  destruct rest_shape as (Hs & Htr & _). by eapply wake_loop_exact; [apply wake_inv_init| | | |].
Qed.

Lemma woken_queue_step : unlock_queue_step a (queue h) q'.
Proof.
  destruct first_links as (Ha & _). destruct rest_shape as (Hs & Htr & _).
  exists q1, r, q2. split; [done|]. split; [done|]. split.
  - destruct rest_exact as (t1 & t1' & t2 & E & -> & HF & Hst & _).
    exists t1, t2, t1', t2. split; [done|]. split; [done|]. split; [|done].
    eapply Forall2_impl; [exact HF|]. intros x x' [[-> ?]|[? ?]]; [by left|right; eauto].
  - intros V [H1 H2].
    eapply wake_loop_safe; [apply wake_inv_init|exact Hs|done|exact H2|exact H1|exact Hw].
Qed.

Lemma woken_stranger : stranger a q'.
Proof.
  intros x' Hx'. destruct woken_pairs as [HF _]. apply list_elem_of_In, list_elem_of_lookup in Hx' as [i Hi].
  destruct (Forall2_lookup_r _ _ _ _ _ HF Hi) as (x & Hx & Hp).
  assert (Hin : In x (q1 ++ q2)) by (apply list_elem_of_In, list_elem_of_lookup; eauto).
  destruct (in_rest x Hin) as (_ & Hne1 & _).
  destruct Hp as [[-> _]|[Hwk _]]; [done|]. by apply wakes_same_links in Hwk as (_ & _ & -> & _).
Qed.

Lemma woken_ups : w_ups w' = wake_ups X (queue h) q'.
Proof.
  destruct first_links as (Ha & _). rewrite Hq, (wake_ups_remove a) by (done || apply woken_stranger).
  pose proof (proj1 (proj2 rest_shape)) as Hnd. pose proof in_rest as Hin.
  destruct rest_exact as (t1 & t1' & t2 & E & -> & HF & _ & Hu). cbn [w_ups w_trans app] in *.
  rewrite E in *. rewrite Hu, (wake_ups_exact _ _ _ _ _ Hnd HF). apply raised_ext.
  intros x Hx. unfold X2, victim. rewrite pop_trans_other; [done|].
  apply Hin, in_app_iff. by left.
Qed.
End Woken.

Lemma unlock_first :
  exists st', unlock st a (r_id h) = Ok (st', LOCK_OK) /\ unlocked a p nx st st'.
Proof.
  pose proof Hl as Hl0. fold nx in Hl0.
  destruct (decide (q1 ++ q2 = [])) as [He|Hne].
  - destruct (unlock_alone He) as (Hu & Htk & Hok). eexists. split; [exact Hu|].
    pose proof (taken_popped _ Htk) as HP. split; cbn [l_table tr_table next_rid sem_ups]; [done| |done| | | |].
    + by apply (popped_inv HI Hl HP).
    + intros k' Hk'. unfold queue_of. rewrite lookup_delete_ne by done.
      apply (pop_table_queue T nx).
    + exists q1, r, q2. unfold queue_of. rewrite lookup_delete_eq. fold T k. rewrite Hk, He.
      split; [done|]. split; [apply first_links|].
      split; [by exists [], [], [], []|]. intros V _. split; constructor.
    + intros b Hb. unfold victim. by rewrite pop_trans_other.
    + unfold queue_of. rewrite lookup_delete_eq. unfold wake_ups. by rewrite woken_none, app_nil_r.
  - destruct rest_wakes as (q' & w' & Hw). eexists. split; [exact (unlock_woken Hw Hne)|].
    split; cbn [l_table tr_table next_rid sem_ups]; [exact (woken_popped Hw)| |done| | | |].
    + apply (popped_inv HI Hl (woken_popped Hw)). exact (woken_heads_ok Hw Hne).
    + intros k' Hk'. unfold queue_of. rewrite lookup_insert_ne by done.
      unfold T2. pose proof (pop_table_queue (<[k:=set_queue (q1 ++ q2) h]> T) nx k') as E.
      unfold queue_of in E. by rewrite lookup_insert_ne in E.
    + unfold queue_of. rewrite lookup_insert_eq. fold T k. rewrite Hk. exact (woken_queue_step Hw).
    + exact (popped_victims (woken_popped Hw)).
    + unfold queue_of. rewrite lookup_insert_eq. fold T k. rewrite Hk. by rewrite (woken_ups Hw).
Qed.
End UnlockFirst.

(** ** release_tr_locks *)

Record released (a : transaction_id) (ps : list rptr) (st st' : lm_state) : Prop := {
  rel_inv : inv (Some a) (l_table st') (tr_table st') (next_rid st');
  rel_gone : tr_table st' !! a = None;
  rel_left : forall k, In k (map fst ps) ->
    unlock_queue_step a (queue_of (l_table st) k) (queue_of (l_table st') k);
  rel_other : forall k, ~ In k (map fst ps) ->
    same_queue (queue_of (l_table st') k) (queue_of (l_table st) k);
  rel_victims : forall b, b <> a -> victim (tr_table st') b = victim (tr_table st) b;
  rel_ups : sem_ups st' = sem_ups st ++
    concat (map (fun k => wake_ups (tr_table st) (queue_of (l_table st) k) (queue_of (l_table st') k))
              (map fst ps)) }.

(** The requests of one transaction are in different queues. *)
Lemma tran_list_keys ex T X n a l ps : inv ex T X n -> tran_list T a l ps -> NoDup (map fst ps).
Proof.
  intros HI (_ & _ & Hd & Hnd & _). apply NoDup_fmap_2_strong.
  - intros p1 p2 H1 H2 E. apply list_elem_of_In in H1, H2.
    destruct (dll_tran _ _ _ _ Hd H1) as (r1 & Hr1 & Ha1). destruct (dll_tran _ _ _ _ Hd H2) as (r2 & Hr2 & Ha2).
    assert (r1 = r2) as -> by (eapply (req_unique HI); eauto; congruence).
    apply req_Some in Hr1 as (_ & _ & _ & E1), Hr2 as (_ & _ & _ & E2). destruct p1, p2; cbn in *; congruence.
  - by apply NoDup_map_snd.
Qed.

Lemma in_queue_of T k r : In r (queue_of T k) -> exists h, T !! k = Some h /\ In r (queue h).
Proof. unfold queue_of. destruct (T !! k); [eauto|done]. Qed.

Lemma gone_stranger ex T X n a k r :
  inv ex T X n -> X !! a = None -> In r (queue_of T k) -> tran r <> a.
Proof.
  intros HI Ha (h & Hh & Hin)%in_queue_of E. pose proof (req_in HI _ _ _ Hh Hin) as Hr.
  destruct (inv_req _ _ _ _ HI _ _ Hr) as (_ & _ & t & Ht & _). congruence.
Qed.

Lemma release_loop_spec a ps : forall p t st fuel,
  inv (Some a) (l_table st) (tr_table st) (next_rid st) ->
  tr_table st !! a = Some t -> tran_list (l_table st) a (locks t) (p :: ps) ->
  (length (p :: ps) <= fuel)%nat ->
  exists st', release_loop fuel st a (Some p) = Ok st' /\ released a (p :: ps) st st'.
Proof.
  induction ps as [|p2 ps IH]; intros p t st [|fuel] HI Ht Hl Hf; cbn in Hf; try lia.
  all: pose proof Hl as (_ & _ & Hd & _); pose proof (Hd 0 p eq_refl) as H0;
    apply lnk_Some in H0 as (r & Hr & Ha & _ & Hn); cbn in Hn;
    pose proof Hr as (h & Hh & Hin & _)%req_Some; destruct (in_split _ _ Hin) as (q1 & q2 & Hq);
    destruct (unlock_first HI Ht Hl Hh Hr Hq) as (st1 & Hu & HU);
    destruct (inv_req _ _ _ _ HI _ _ Hr) as (Hhd & _);
    cbn [release_loop]; rewrite find_request_req, Hr; cbn [of_option bind_res];
    rewrite Hhd, Hh; cbn [of_option bind_res]; rewrite Hu, Hn; cbn [bind_res];
    destruct HU as [HP HI1 Hn1 Ho Hs Hv Hups]; cbn in HP.
  - exists st1. split; [by destruct fuel|]. split; [done|apply (pop_self _ _ _ _ _ _ _ HP)| | |done|].
    + intros k [<-|[]]. done.
    + intros k Hk. apply Ho. intros ->. apply Hk. by left.
    + cbn [map concat]. by rewrite app_nil_r.
  - destruct (pop_self _ _ _ _ _ _ _ HP) as (t1 & Ht1 & Hlk).
    assert (Hl1 : tran_list (l_table st1) a (locks t1) (p2 :: ps))
      by (rewrite Hlk; by eapply (popped_list_self Hl HP)).
    destruct (IH p2 t1 st1 fuel HI1 Ht1 Hl1) as (st' & Hrl & [R1 R2 R3 R4 R5 R6]); [cbn; lia|].
    exists st'. split; [done|]. pose proof (tran_list_keys _ _ _ _ _ _ _ HI Hl) as Hnd.
    apply NoDup_cons in Hnd as [Hpk _]. rewrite list_elem_of_In in Hpk.
    split; [done|done| | |intros b Hb; by rewrite R5, Hv|].
    + intros k [<-|Hk]; [by rewrite (R4 _ Hpk)|].
      rewrite <- (Ho k) by (intros ->; done). by apply R3.
    + intros k Hk. cbn in Hk. rewrite R4 by tauto. apply Ho. intros ->. tauto.
    + rewrite R6, Hups, <- app_assoc. f_equal. set (ks := map fst (p2 :: ps)) in *.
      change (map fst (p :: p2 :: ps)) with (p.1 :: ks). cbn [map concat]. f_equal.
      * apply (wake_ups_same a); [done|symmetry; by apply R4| |done]. intros x Hx. by eapply gone_stranger.
      * f_equal. apply map_ext_in. intros k Hk.
        apply (wake_ups_same a); [apply Ho; intros ->; by apply Hpk|done|intros x Hx; by eapply gone_stranger|].
        intros b Hb. by rewrite Hv.
Qed.

Lemma inv_weaken T X n a : inv None T X n -> inv (Some a) T X n.
Proof.
  intros [H1 H2 H3 H4]. split; [done| | |done].
  - intros p r Hr. destruct (H2 p r Hr) as (E1 & E2 & t & Ht & Hw). split; [done|]. split; [done|].
    exists t. split; [done|]. intros ? _. by apply Hw.
  - intros b t p _. by apply H3.
Qed.

Lemma inv_gone T X n a : inv (Some a) T X n -> X !! a = None -> inv None T X n.
Proof.
  intros [H1 H2 H3 H4] Ha. split; [done| | |done].
  - intros p r Hr. destruct (H2 p r Hr) as (E1 & E2 & t & Ht & Hw). split; [done|]. split; [done|].
    exists t. split; [done|]. intros ? _. apply Hw; [done|]. congruence.
  - intros b t p _ Ht. apply H3; [|done]. congruence.
Qed.

(** The outcome of [release_tr_locks] on the tables. *)
Definition release_outcome (a : transaction_id) (st st' : lm_state) : Prop :=
  lm_inv st' /\ tr_table st' !! a = None /\
  (forall k r, In r (queue_of (l_table st') k) -> tran r <> a) /\
  (forall k, (exists r, In r (queue_of (l_table st) k) /\ tran r = a) ->
     unlock_queue_step a (queue_of (l_table st) k) (queue_of (l_table st') k)) /\
  (forall k, (forall r, In r (queue_of (l_table st) k) -> tran r <> a) ->
     same_queue (queue_of (l_table st') k) (queue_of (l_table st) k)) /\
  (forall b, b <> a -> victim (tr_table st') b = victim (tr_table st) b) /\
  (exists ks, NoDup ks /\
     (forall k, In k ks <-> exists r, In r (queue_of (l_table st) k) /\ tran r = a) /\
     sem_ups st' = sem_ups st ++
       concat (map (fun k => wake_ups (tr_table st) (queue_of (l_table st) k) (queue_of (l_table st') k)) ks)).

Lemma release_spec st a :
  lm_inv st -> exists st', release_tr_locks st a = Ok (st', LOCK_OK) /\ release_outcome a st st'.
Proof.
  intros HI. unfold release_tr_locks, find_tr_lock_head.
  destruct (tr_table st !! a) as [t|] eqn:Ht.
  - destruct (inv_list _ _ _ _ HI a t Ht) as (ps & Hps). pose proof Hps as (Hne & Hlk & Hd & _ & Hall).
    destruct ps as [|p ps]; [done|].
    destruct (release_loop_spec a ps p t st (next_rid st)) as (st' & Hrl & [R1 R2 R3 R4 R5 R6]); [by apply inv_weaken|done..| |].
    { eapply (tran_list_rids HI); eauto. }
    rewrite Hlk. cbn [lookup list_lookup]. rewrite Hrl. exists st'. split; [done|].
    assert (Hks : forall k, In k (map fst (p :: ps)) <-> exists r, In r (queue_of (l_table st) k) /\ tran r = a).
    { intros k. split.
      - intros (q & <- & Hq)%in_map_iff. destruct (dll_tran _ _ _ _ Hd Hq) as (r & Hr & Ha).
        apply req_Some in Hr as (h & Hh & Hin & _). exists r. unfold queue_of. by rewrite Hh.
      - intros (r & (h & Hh & Hin)%in_queue_of & Ha).
        pose proof (req_in HI _ _ _ Hh Hin) as Hr. apply (in_map fst _ _ (Hall _ _ Hr Ha)). }
    split; [by eapply inv_gone|]. split; [done|]. split; [|split; [|split; [|split; [done|]]]].
    + intros k r Hr. by eapply gone_stranger.
    + intros k Hk. by apply R3, Hks.
    + intros k Hk. apply R4. intros (r & Hr & Ha)%Hks. by apply (Hk r).
    + exists (map fst (p :: ps)). split; [exact (tran_list_keys _ _ _ _ _ _ _ HI Hps)|done].
  - assert (Hno : forall k r, In r (queue_of (l_table st) k) -> tran r <> a)
      by (intros k r Hr; exact (gone_stranger _ _ _ _ _ _ _ HI Ht Hr)).
    exists st. split; [done|]. split; [done|]. split; [done|]. split; [done|].
    split; [intros k (r & Hin & Ha); by destruct (Hno k r Hin Ha)|]. split; [done|]. split; [done|].
    exists []. split; [constructor|]. cbn. split; [|by rewrite app_nil_r].
    intros k. split; [done|]. intros (r & Hin & Ha). by destruct (Hno k r Hin Ha).
Qed.
