(* ===== verification/LockSafety.v ===== *)
(** * Safety of the lock manager

    The message loop of the storage manager as a transition system over the
    lock tables, and the properties of the states it reaches: locks that are
    held at the same time by transactions that are not victims of deadlock
    detection are compatible, every message is answered without an exception,
    the reply tells the truth about what happened, and a released transaction
    leaves nothing behind. *)

From Stdlib Require Import ZArith List Lia Bool Ascii.
From stdpp Require Import base gmap strings list relations sets.
From S2P Require Import Prelude LockTable LockQueue LockGraph LockInv LockRelease.
Local Open Scope sedna_scope.

(** ** The waits-for graph of well-formed tables *)

Lemma blockers_waiting_in me m q b :
  In b (blockers_waiting me m q) -> exists x, In x q /\ tran x = b.
Proof.
  induction q as [|x q IH]; cbn; [done|]. destruct (owned_by me x); [done|].
  case_match; [intros [<-|Hb]|intros Hb]; [eauto| |]; destruct (IH Hb) as (y & ? & ?); eauto.
Qed.

Lemma blockers_converting_in me cm q b : forall ahead,
  In b (blockers_converting me cm ahead q) -> exists x, In x q /\ tran x = b.
Proof.
  induction q as [|x q IH]; intros ahead; cbn; [done|]. destruct (bool_decide _); [done|].
  destruct (owned_by me x); [intros H; destruct (IH _ H) as (y & ? & ?); eauto|].
  case_match; [intros [<-|Hb]|intros Hb]; [eauto| |]; destruct (IH _ Hb) as (y & ? & ?); eauto.
Qed.

Lemma lm_inv_graph_ok st : lm_inv st -> graph_ok st.
Proof.
  intros HI a [t Ht]. unfold successors. rewrite Ht. cbn [of_option bind_res].
  destruct (wait t) as [p|] eqn:Hw; [|eexists; split; [done|constructor]].
  destruct (inv_wait _ _ _ _ HI a t p) as (r & Hr & Ha & Hs); [done..|].
  rewrite find_request_req, Hr. cbn [of_option bind_res].
  destruct (inv_req _ _ _ _ HI _ _ Hr) as (-> & _). pose proof Hr as (h & Hh & _)%req_Some.
  rewrite Hh. cbn [of_option bind_res]. eexists. split; [done|]. apply Forall_forall.
  intros b Hb%list_elem_of_In. assert (Hx : exists x, In x (queue h) /\ tran x = b).
  { destruct (bool_decide _) in Hb; [by eapply blockers_waiting_in|by eapply blockers_converting_in]. }
  destruct Hx as (x & Hx & <-). pose proof (req_in HI _ _ _ Hh Hx) as Hrx.
  destruct (inv_req _ _ _ _ HI _ _ Hrx) as (_ & _ & t' & Ht' & _). by exists t'.
Qed.

(** A holder whose mode conflicts is visited, wherever it is. *)
Lemma blockers_mode me cm y q1 q2 : forall ahead,
  Forall is_holder q1 -> is_holder y -> tran y <> me -> lock_compat (mode y) cm = false ->
  In (tran y) (blockers_converting me cm ahead (q1 ++ y :: q2)).
Proof.
  assert (Hnw : forall x, is_holder x -> bool_decide (status x = LOCK_WAITING) = false).
  { intros x Hx. apply bool_decide_eq_false. intros E. red in Hx. by rewrite waiter_not_holds in Hx. }
  induction q1 as [|x q1 IH]; intros ahead Hq Hy Hne Hc; cbn.
  - rewrite (Hnw y Hy). unfold owned_by. rewrite (proj2 (Z.eqb_neq _ _) Hne), Hc. cbn.
    destruct ahead; cbn; by left.
  - apply Forall_cons in Hq as [Hx Hq]. rewrite (Hnw x Hx).
    destruct (owned_by me x); [by apply IH|]. case_match; [right|]; by apply IH.
Qed.

(** So is a converter ahead whose wish conflicts. *)
Lemma blockers_wish me cm x q1 q2 :
  Forall is_holder q1 -> stranger me q1 -> is_converter x -> tran x <> me ->
  lock_compat (convert_mode x) cm = false ->
  In (tran x) (blockers_converting me cm true (q1 ++ x :: q2)).
Proof.
  intros Hq Hs Hx Hne Hc. induction q1 as [|y q1 IH]; cbn.
  - red in Hx. rewrite Hx. unfold owned_by. rewrite (proj2 (Z.eqb_neq _ _) Hne). cbn.
    rewrite Hc, orb_true_r. by left.
  - apply Forall_cons in Hq as [Hy Hq].
    rewrite bool_decide_eq_false_2
      by (intros E; red in Hy; by rewrite waiter_not_holds in Hy).
    unfold owned_by at 1. rewrite (proj2 (Z.eqb_neq _ _)) by (apply Hs; by left).
    assert (Hs' : stranger me q1) by (intros z Hz; apply Hs; by right).
    case_match; [right|]; by apply IH.
Qed.

Section Cycle.
Context {st : lm_state} (HI : lm_inv st) {k : string} {h : lock_head} (Hk : l_table st !! k = Some h).

Lemma edge_converting x b :
  In x (queue h) -> is_converter x ->
  In b (blockers_converting (tran x) (convert_mode x) true (queue h)) -> edge st (tran x) b.
Proof.
  intros Hin Hx Hb. pose proof (req_in HI _ _ _ Hk Hin) as Hr. red in Hx.
  destruct (inv_req _ _ _ _ HI _ _ Hr) as (Hhd & _ & t & Ht & Hw).
  eexists. split; [|exact Hb]. unfold successors. rewrite Ht. cbn [of_option bind_res].
  rewrite Hw by congruence. rewrite find_request_req, Hr. cbn [of_option bind_res].
  rewrite Hhd. cbn [fst]. rewrite Hk. cbn [of_option bind_res]. by rewrite Hx.
Qed.

Lemma holder_prefix q1 x q2 : queue h = q1 ++ x :: q2 -> is_holder x -> Forall is_holder q1.
Proof.
  intros Hq Hx. assert (Hs := ho_shape _ _ (inv_heads _ _ _ _ HI _ _ Hk)). rewrite Hq in Hs.
  clear -Hs Hx. induction q1 as [|y q1 IH]; [done|].
  pose proof (queue_shape_known _ Hs) as Hkn. apply Forall_cons in Hkn as [[Hy|Hy] _].
  - constructor; [done|]. by apply IH, (queue_shape_cons_holder y).
  - pose proof (queue_shape_waiter y (q1 ++ x :: q2) Hs Hy) as Hw. apply Forall_cons in Hw as [_ Hw].
    apply Forall_app in Hw as [_ Hw]. apply Forall_cons in Hw as [Hw _]. red in Hx.
    by rewrite waiter_not_holds in Hx.
Qed.

(** Two conflicting conversions wait for each other. *)
Lemma conflict_edges q1 x q2 y q3 :
  queue h = q1 ++ x :: q2 ++ y :: q3 -> is_converter x -> is_converter y ->
  lock_compat (convert_mode x) (mode y) = false ->
  edge st (tran x) (tran y) /\ edge st (tran y) (tran x).
Proof.
  intros Hq Hx Hy Hc. pose proof (inv_heads _ _ _ _ HI _ _ Hk) as Hok.
  assert (Hinx : In x (queue h)) by (rewrite Hq; apply in_elt).
  assert (Hiny : In y (queue h)) by (rewrite Hq, app_comm_cons, app_assoc; apply in_elt).
  assert (Hq' : queue h = (q1 ++ x :: q2) ++ y :: q3) by (by rewrite <- app_assoc).
  assert (Hnd := ho_trans _ _ Hok). rewrite Hq', map_app in Hnd. cbn [map] in Hnd. apply NoDup_ListNoDup in Hnd.
  apply NoDup_remove_2 in Hnd. rewrite in_app_iff in Hnd.
  assert (Hstr : stranger (tran y) (q1 ++ x :: q2)).
  { intros z Hz E. apply Hnd. left. rewrite <- E. by apply in_map. }
  assert (Hxy : tran x <> tran y) by (apply Hstr, in_elt).
  split.
  - apply edge_converting; [done|done|]. rewrite Hq'.
    apply blockers_mode; [by eapply holder_prefix, converter_holds|by apply converter_holds|done|].
    by rewrite lock_compat_sym.
  - apply edge_converting; [done|done|]. rewrite Hq.
    apply blockers_wish; [by eapply holder_prefix, converter_holds| |done|done|].
    + intros z Hz. apply Hstr, in_app_iff. by left.
    + pose proof (ho_convert _ _ Hok) as Hcv. rewrite List.Forall_forall in Hcv.
      rewrite <- (Hcv y Hiny Hy), lock_compat_sym, lock_compat_max, lock_compat_sym, Hc. done.
Qed.
End Cycle.

(** ** Steps of lock *)

(** The queues are safe, apart from what the victims of deadlock detection
    hold that have not released it yet. *)
Definition lm_safe (st : lm_state) : Prop :=
  forall k, queue_safe (victim (tr_table st)) (queue_of (l_table st) k).

Lemma FOP_impl_in {A} (R S : A -> A -> Prop) l :
  (forall x y, In x l -> In y l -> R x y -> S x y) -> ForallOrdPairs R l -> ForallOrdPairs S l.
Proof.
  intros H. induction 1 as [|x l Hx _ IH]; constructor.
  - rewrite List.Forall_forall in *. intros y Hy. apply H; [by left|by right|auto].
  - apply IH. intros y z Hy Hz. apply H; by right.
Qed.

(** Only the marks of transactions that are in the queue matter, and more
    victims ask for less. *)
Lemma queue_safe_mono (V V' : transaction_id -> bool) q :
  (forall x, In x q -> V (tran x) = true -> V' (tran x) = true) -> queue_safe V q -> queue_safe V' q.
Proof.
  intros HV. assert (Hl : forall x y, In x q -> In y q -> both_live V' x y -> both_live V x y).
  { intros x y Hx Hy [H1 H2]. split; apply not_true_iff_false; intros E; (apply HV in E; [congruence|done]). }
  intros [H1 H2]. split; [eapply FOP_impl_in; [|exact H1]|eapply FOP_impl_in; [|exact H2]];
    intros x y Hx Hy HR Hb; exact (HR (Hl x y Hx Hy Hb)).
Qed.

Lemma stranger_granted_not_converter V q r :
  status r <> LOCK_CONVERTING -> no_conversion_conflict V q -> no_conversion_conflict V (q ++ [r]).
Proof.
  intros Hr Hq. unfold no_conversion_conflict. rewrite FOP_app. split; [done|].
  split; [constructor; constructor|]. intros x y _ [<-|[]] _ _ ?. done.
Qed.

(** The modes held stay compatible whatever the reply is. *)
Lemma lock_step_group V a m q q' rep :
  NoDup (map tran q) -> group_safe V q -> lock_queue_step a m q q' rep -> group_safe V q'.
Proof.
  intros Hnd Hs. destruct 1 as [q q' r Hst Hg Ho E Ha Es Em|q q' r Hst Hn E Ha Es Em|q1 r q2 Ha Es Ho|q1 r q2 Ha Es Ho].
  - assert (Hq : group_safe V (q ++ [r])).
    { apply group_safe_snoc; [done|]. intros _. rewrite Em. by apply (compat_group_others a). }
    by eapply group_safe_same.
  - assert (Hq : group_safe V (q ++ [r])).
    { apply group_safe_snoc; [done|]. intros Hh. red in Hh. by rewrite waiter_not_holds in Hh. }
    by eapply group_safe_same.
  - eapply group_safe_replace; [exact Hs|]. intros x Hx _ _ Hh. cbn. rewrite lock_compat_sym. apply Ho; [|done|].
    + rewrite in_app_iff in *. cbn. tauto.
    + rewrite map_app in Hnd. apply NoDup_ListNoDup, NoDup_remove_2 in Hnd. intros E. apply Hnd.
      rewrite <- map_app, Ha, <- E. by apply in_map.
  - eapply group_safe_replace; [exact Hs|]. intros x Hx Hlv Hh1 Hh2. cbn.
    unfold group_safe in Hs. rewrite FOP_app in Hs. destruct Hs as (_ & H2 & H3).
    inversion H2 as [|? ? Hf _]; subst. rewrite List.Forall_forall in Hf.
    apply in_app_iff in Hx as [Hx|Hx].
    + rewrite lock_compat_sym.
      apply (H3 x r Hx (in_eq _ _)); [by apply both_live_sym in Hlv|done|by apply granted_holds].
    + apply (Hf x Hx); [done|by apply granted_holds|done].
Qed.

Section LockStep.
Context {st st' : lm_state} {a : transaction_id} {res_id : resource_id} {m : lock_mode} {rep : lock_reply}.
Context (HI : lm_inv st) (Hout : lock_outcome st st' a res_id m rep).
Context {V : transaction_id -> bool} (Hsafe : forall k, queue_safe V (queue_of (l_table st) k)).
Let k := get_str_res_id res_id.

(** Conflicting conversions in the new state are a cycle through [a], or [a]
    is one of those who do not count. *)
Lemma waiting_conversion_safe q1 r q2 :
  V a = true \/ ~ tc (edge st') a a ->
  queue_of (l_table st) k = q1 ++ r :: q2 -> tran r = a ->
  queue_of (l_table st') k = q1 ++ conversion_waits m r :: q2 ->
  no_conversion_conflict V (q1 ++ conversion_waits m r :: q2).
Proof.
  intros Hno Hq Ha Hq'. destruct Hout as (HI' & _). destruct (Hsafe k) as [_ Hc]. rewrite Hq in Hc.
  unfold queue_of in Hq'. destruct (l_table st' !! k) as [h'|] eqn:Hk'; [|by destruct q1].
  unfold no_conversion_conflict in *. rewrite FOP_app in *. destruct Hc as (H1 & H2 & H3).
  inversion H2 as [|? ? _ Hl]; subst. split; [done|]. split; [constructor; [|done]|].
  - apply List.Forall_forall. intros y Hy [Hva _] Hcr Hcy. cbn in Hva.
    destruct Hno as [Hno|Hno]; [congruence|]. destruct (lock_compat _ (mode y)) eqn:E; [done|].
    destruct (in_split _ _ Hy) as (l1 & l2 & ->).
    destruct (conflict_edges HI' Hk' q1 _ l1 y l2 Hq' Hcr Hcy E) as [E1 E2].
    exfalso. apply Hno. eapply tc_l; [exact E1|]. by apply tc_once.
  - intros x y Hx [<-|Hy] Hlv Hcx Hcy; [|apply H3; [done|by right|done|done|done]].
    destruct Hlv as [_ Hva]. cbn in Hva. destruct Hno as [Hno|Hno]; [congruence|].
    destruct (lock_compat (convert_mode x) _) eqn:E; [done|].
    destruct (in_split _ _ Hx) as (l1 & l2 & ->). rewrite <- app_assoc in Hq'. cbn in Hq'.
    destruct (conflict_edges HI' Hk' l1 x l2 _ q2 Hq' Hcx Hcy E) as [E1 E2].
    exfalso. apply Hno. eapply tc_l; [exact E2|]. by apply tc_once.
Qed.

Lemma lock_step_safe :
  (rep = LOCK_NOT_LOCKED -> V a = true \/ ~ tc (edge st') a a) ->
  forall k', queue_safe V (queue_of (l_table st') k').
Proof.
  intros Hno k'. pose proof Hout as (HI' & Hstep & Hother & _).
  destruct (decide (k' = k)) as [->|Hne]; [|by eapply queue_safe_same; [symmetry; apply Hother|apply Hsafe]].
  destruct (Hsafe k) as [Hg Hc]. fold k in Hstep. split.
  - eapply lock_step_group; [|exact Hg|exact Hstep].
    unfold queue_of. destruct (l_table st !! k) as [h|] eqn:Hk; [|constructor].
    by apply (ho_trans k), (inv_heads _ _ _ _ HI).
  - pose proof waiting_conversion_safe as Hwc. remember (queue_of (l_table st) k) as q eqn:Eq.
    remember (queue_of (l_table st') k) as q' eqn:Eq'.
    destruct Hstep as [q q' r _ _ _ E _ Es _|q q' r _ _ E _ Es _|q1 r q2 Ha Es _|q1 r q2 Ha Es _].
    + eapply no_conversion_conflict_same; [symmetry; exact E|].
      apply stranger_granted_not_converter; congruence.
    + eapply no_conversion_conflict_same; [symmetry; exact E|].
      apply stranger_granted_not_converter; congruence.
    + by eapply no_conversion_conflict_replace.
    + by eapply Hwc; eauto.
Qed.
End LockStep.

(** The mark of a victim is not looked at by the invariant. *)
Lemma inv_tr_status st a t s :
  lm_inv st -> tr_table st !! a = Some t ->
  lm_inv (set_tr_table (<[a := set_tr_status s t]> (tr_table st)) st).
Proof.
  intros [H1 H2 H3 H4] Ht. split; cbn; [done| | |].
  - intros p r Hr. destruct (H2 p r Hr) as (E1 & E2 & t0 & Ht0 & Hw). split; [done|]. split; [done|].
    rewrite lookup_insert. case_decide as E; [|eauto]. rewrite <- E in Ht0. pose proof (eq_trans (eq_sym Ht0) Ht) as Et. injection Et as ->. eauto.
  - intros b t0 p He. rewrite lookup_insert. case_decide as E; [|eauto]. subst b. intros [= <-]. cbn. eauto.
  - intros b t0. rewrite lookup_insert. case_decide as E; [|eauto]. subst b. intros [= <-]. cbn. eauto.
Qed.

(** ** The lock message *)

Definition msg_resource (d1 : ascii) (name : string) : resource_id :=
  mk_resource name (sm_resource_kind d1).

Inductive sm_lock_result (st : lm_state) (a : transaction_id) (d0 d1 : ascii) (name : string) :
  lm_state -> ascii -> Prop :=
| smr_granted st' :
    lock_outcome st st' a (msg_resource d1 name) (sm_lock_mode d0) LOCK_OK ->
    sm_lock_result st a d0 d1 name st' "1"%char
| smr_wait st' :
    lock_outcome st st' a (msg_resource d1 name) (sm_lock_mode d0) LOCK_NOT_LOCKED ->
    ~ tc (edge st') a a ->
    sm_lock_result st a d0 d1 name st' "0"%char
| smr_deadlock st' t :
    lock_outcome st st' a (msg_resource d1 name) (sm_lock_mode d0) LOCK_NOT_LOCKED ->
    tc (edge st') a a -> tr_table st' !! a = Some t ->
    sm_lock_result st a d0 d1 name
      (set_tr_table (<[a := set_tr_status ROLLING_BACK_AFTER_DEADLOCK t]> (tr_table st')) st') "2"%char.

Lemma lock_queue_step_reply a m q q' rep :
  lock_queue_step a m q q' rep -> rep = LOCK_OK \/ rep = LOCK_NOT_LOCKED.
Proof. destruct 1; auto. Qed.

Lemma sm_lock_spec st a s d0 d1 name :
  lm_inv st -> may_request st a ->
  exists st' c, sm_lock st a s d0 d1 name = Ok (st', c) /\ sm_lock_result st a d0 d1 name st' c.
Proof.
  intros HI Hm. unfold sm_lock.
  destruct (lock_spec (s := s) (res_id := msg_resource d1 name) (m := sm_lock_mode d0) (c := LOCK_LONG) HI Hm)
    as (st1 & rep & Hl & Ho).
  fold (msg_resource d1 name). rewrite Hl. cbn [bind_res].
  pose proof Ho as (HI1 & Hstep & _ & Hkn & _).
  destruct (lock_queue_step_reply _ _ _ _ _ Hstep) as [->| ->].
  - eexists _, _. split; [done|]. by constructor.
  - destruct (deadlock_decides st1 a (lm_inv_graph_ok _ HI1) Hkn) as (b & Hd & Hb).
    rewrite Hd. cbn [bind_res]. destruct b; cbn [negb].
    + destruct Hkn as [t Ht]. unfold find_tr_lock_head. rewrite Ht.
      eexists _, _. split; [done|]. constructor; [done|by apply Hb|done].
    + eexists _, _. split; [done|]. constructor; [done|]. intros Hc. apply Hb in Hc. done.
Qed.

Lemma sm_lock_result_inv st a d0 d1 name st' c :
  sm_lock_result st a d0 d1 name st' c -> lm_inv st'.
Proof. destruct 1 as [? [? _]|? [? _]|? ? [? _]]; [done|done|by apply inv_tr_status]. Qed.

(** ** The transition system

    Lock and release messages, one at a time and in any order.  A transaction
    that waits sends no lock message.  The victim of a deadlock keeps its
    locks until its release message comes, with messages of others in
    between. *)

Inductive lm_step : lm_state -> lm_state -> Prop :=
| step_lock st st' a s d0 d1 name c :
    may_request st a -> sm_lock st a s d0 d1 name = Ok (st', c) -> lm_step st st'
| step_release st st' a :
    sm_release st a = Ok st' -> lm_step st st'.

Definition lm_reachable (st : lm_state) : Prop := star lm_step init_lm st.

Lemma sm_release_spec st a :
  lm_inv st -> exists st', sm_release st a = Ok st' /\ release_outcome a st st'.
Proof.
  intros HI. destruct (release_spec st a HI) as (st' & Hr & Ho). exists st'. split; [|done].
  unfold sm_release. by rewrite Hr.
Qed.

Lemma queue_trans_nodup st k : lm_inv st -> NoDup (map tran (queue_of (l_table st) k)).
Proof.
  intros HI. unfold queue_of. destruct (l_table st !! k) as [h|] eqn:Hk; [|constructor].
  by apply (ho_trans k), (inv_heads _ _ _ _ HI).
Qed.

(** The queue a release leaves, as far as its requests were in the old one. *)
Lemma release_queue st st' a k :
  lm_inv st -> release_outcome a st st' ->
  same_queue (queue_of (l_table st') k) (queue_of (l_table st) k) /\ stranger a (queue_of (l_table st) k) \/
  unlock_queue_step a (queue_of (l_table st) k) (queue_of (l_table st') k).
Proof.
  intros HI (_ & _ & _ & Hin & Hout & _).
  destruct (List.find (owned_by a) (queue_of (l_table st) k)) as [r|] eqn:Hf.
  - apply find_some in Hf as [Hr Ha]. apply Z.eqb_eq in Ha. right. apply Hin. eauto.
  - assert (Hst : stranger a (queue_of (l_table st) k)).
    { intros x Hx E. eapply find_none in Hf; [|exact Hx]. unfold owned_by in Hf. by apply Z.eqb_neq in Hf. }
    left. split; [by apply Hout|done].
Qed.

Lemma release_safe st st' a : lm_inv st -> lm_safe st -> release_outcome a st st' -> lm_safe st'.
Proof.
  intros HI Hs Ho k. pose proof (Hs k) as Hk. pose proof Ho as (_ & _ & Hgone & _ & _ & Hv & _).
  apply (queue_safe_mono (victim (tr_table st))).
  { intros x Hx. by rewrite Hv by (by eapply Hgone). }
  destruct (release_queue st st' a k HI Ho) as [[E _]|(q1 & r & q2 & Hq & _ & _ & Hsafe)].
  - by rewrite E.
  - apply Hsafe. rewrite Hq in Hk. by eapply queue_safe_remove.
Qed.

Definition lm_good (st : lm_state) : Prop := lm_inv st /\ lm_safe st.

Lemma lm_good_init : lm_good init_lm.
Proof. split; [apply inv_init|]. intros k. split; constructor. Qed.

Lemma lm_step_inv st st' : lm_inv st -> lm_step st st' -> lm_inv st'.
Proof.
  intros HI. destruct 1 as [st st' a s d0 d1 name c Hm Hl|st st' a Hr].
  - destruct (sm_lock_spec st a s d0 d1 name HI Hm) as (st2 & c2 & Hl2 & Hres).
    rewrite Hl in Hl2. injection Hl2 as <- <-. by eapply sm_lock_result_inv.
  - destruct (sm_release_spec st a HI) as (st2 & Hr2 & Hrel & _). congruence.
Qed.

(** The marks after a lock message: the old ones, and the sender's if the
    reply is a deadlock. *)
Lemma victim_mark X a t b :
  victim (<[a := set_tr_status ROLLING_BACK_AFTER_DEADLOCK t]> X) b = Z.eqb a b || victim X b.
Proof.
  unfold victim. destruct (Z.eqb_spec a b) as [<-|Hne]; [|by rewrite lookup_insert_ne].
  rewrite lookup_insert_eq. by rewrite bool_decide_eq_true_2.
Qed.

Lemma sm_lock_result_safe st a d0 d1 name st' c :
  lm_inv st -> lm_safe st -> sm_lock_result st a d0 d1 name st' c -> lm_safe st'.
Proof.
  intros HI Hs. destruct 1 as [st' Ho|st' Ho Hno|st' t Ho Hc Ht]; intros k; cbn [l_table tr_table set_tr_table].
  - apply (queue_safe_mono (victim (tr_table st))); [|by apply (lock_step_safe HI Ho Hs)].
    destruct Ho as (_ & _ & _ & _ & Hv & _). intros x _. by rewrite Hv.
  - apply (queue_safe_mono (victim (tr_table st))); [|apply (lock_step_safe HI Ho Hs); by right].
    destruct Ho as (_ & _ & _ & _ & Hv & _). intros x _. by rewrite Hv.
  - apply (lock_step_safe HI Ho); [|intros _; left; by rewrite victim_mark, Z.eqb_refl].
    intros k'. eapply queue_safe_mono; [|apply Hs]. intros x _ Hx. rewrite victim_mark.
    destruct Ho as (_ & _ & _ & _ & Hv & _). by rewrite Hv, Hx, orb_true_r.
Qed.

Lemma lm_step_good st st' : lm_good st -> lm_step st st' -> lm_good st'.
Proof.
  intros [HI Hs] Hst. split; [by eapply lm_step_inv|].
  destruct Hst as [st st' a s d0 d1 name c Hm Hl|st st' a Hr].
  - destruct (sm_lock_spec st a s d0 d1 name HI Hm) as (st2 & c2 & Hl2 & Hres).
    rewrite Hl in Hl2. injection Hl2 as <- <-. by eapply sm_lock_result_safe.
  - destruct (sm_release_spec st a HI) as (st2 & Hr2 & Hrel). rewrite Hr in Hr2. injection Hr2 as <-.
    by eapply release_safe.
Qed.

Lemma reachable_good st : lm_reachable st -> lm_good st.
Proof. intros H. eapply star_invariant; [apply lm_step_good|exact H|apply lm_good_init]. Qed.

Lemma reachable_inv st : lm_reachable st -> lm_inv st.
Proof. intros H. by apply reachable_good. Qed.

#[export] Hint Resolve reachable_inv : sedna.
