(* ===== verification/LockDeadlock.v ===== *)
(** * Freedom from deadlock

    The graph that [visit] walks, written out as a relation between the
    requests of a queue; the search decides its cycles, and the messages of
    the storage manager keep it free of them, apart from cycles through
    victims that have not released their locks yet.  The last part shows that
    nobody waits in vain: the request next in line is held up by a lock of
    another transaction. *)

From Stdlib Require Import ZArith List Lia Bool Ascii.
From stdpp Require Import base gmap strings list relations sets.
From S2P Require Import Prelude LockTable LockQueue LockGraph LockInv LockRelease LockSafety.
Local Open Scope sedna_scope.

(** ** Who waits for whom *)

Definition before {A} (q : list A) (x y : A) : Prop :=
  exists q1 q2 q3, q = q1 ++ x :: q2 ++ y :: q3.

Definition conflicts (y : lock_request) (m : lock_mode) : Prop :=
  lock_compat (mode y) m = false.

Definition wish_conflicts (y : lock_request) (m : lock_mode) : Prop :=
  is_converter y /\ lock_compat (convert_mode y) m = false.

(** A waiting request waits for the requests ahead of it that conflict; a
    converting one for the holders that conflict, and for the wishes of the
    converters ahead of it. *)
Definition waits_for (q : list lock_request) (x y : lock_request) : Prop :=
  (is_waiter x /\ before q y x /\ (conflicts y (mode x) \/ wish_conflicts y (mode x))) \/
  (is_converter x /\ is_holder y /\
   ((before q y x /\ (conflicts y (convert_mode x) \/ wish_conflicts y (convert_mode x))) \/
    (before q x y /\ conflicts y (convert_mode x)))).

Lemma before_cons {A} (z : A) q x y : before q x y -> before (z :: q) x y.
Proof. intros (q1 & q2 & q3 & ->). by exists (z :: q1), q2, q3. Qed.

Lemma before_head {A} (x : A) q y : In y q -> before (x :: q) x y.
Proof. intros (q2 & q3 & ->)%in_split. by exists [], q2, q3. Qed.

Lemma before_cons_inv {A} (z : A) q x y : before (z :: q) x y -> (z = x /\ In y q) \/ before q x y.
Proof.
  intros ([|z' q1] & q2 & q3 & E); injection E as -> ->; [left|right].
  - split; [done|]. apply in_elt.
  - by exists q1, q2, q3.
Qed.

Lemma before_in {A} (q : list A) x y : before q x y -> In x q /\ In y q.
Proof.
  intros (q1 & q2 & q3 & ->). split; [apply in_elt|]. rewrite app_comm_cons, app_assoc. apply in_elt.
Qed.

(** *** The two scans of [visit] *)

Lemma owned_by_false me r : owned_by me r = false <-> tran r <> me.
Proof. apply Z.eqb_neq. Qed.

Lemma owned_by_true me r : owned_by me r = true <-> tran r = me.
Proof. apply Z.eqb_eq. Qed.

Lemma wish_test y m :
  negb (lock_compat (mode y) m) || (bool_decide (status y = LOCK_CONVERTING) && negb (lock_compat (convert_mode y) m)) = true
  <-> conflicts y m \/ wish_conflicts y m.
Proof.
  unfold conflicts, wish_conflicts, is_converter.
  rewrite orb_true_iff, andb_true_iff, !negb_true_iff, bool_decide_eq_true. done.
Qed.

Lemma blockers_waiting_spec q x b m :
  NoDup (map tran q) -> In x q ->
  In b (blockers_waiting (tran x) m q) <->
  exists y, tran y = b /\ before q y x /\ (conflicts y m \/ wish_conflicts y m).
Proof.
  intros Hnd Hx. induction q as [|z q IH]; [done|].
  pose proof Hnd as Hnd0. cbn in Hnd. apply NoDup_cons in Hnd as [Hz Hnd]. rewrite list_elem_of_In in Hz.
  cbn [blockers_waiting]. destruct (owned_by (tran x) z) eqn:Eo.
  - apply owned_by_true in Eo. split; [done|]. intros (y & _ & Hb & _).
    assert (z = x) as -> by (apply (unique_owner (z :: q)); auto; by left).
    exfalso. apply Hz. apply in_map.
    apply before_cons_inv in Hb as [[_ Hb]|Hb]; [done|]. apply before_in in Hb. tauto.
  - apply owned_by_false in Eo. destruct Hx as [->|Hx]; [done|]. specialize (IH Hnd Hx).
    assert (Hrec : (exists y, tran y = b /\ before (z :: q) y x /\ (conflicts y m \/ wish_conflicts y m)) <->
      (tran z = b /\ (conflicts z m \/ wish_conflicts z m)) \/ In b (blockers_waiting (tran x) m q)).
    { rewrite IH. split.
      - intros (y & Hy & Hb & Hc). apply before_cons_inv in Hb as [[-> _]|Hb]; eauto 10.
      - intros [[Hb Hc]|(y & Hy & Hb & Hc)]; [exists z; auto using before_head|exists y; auto using before_cons]. }
    rewrite Hrec, <- wish_test. destruct (negb _ || _); cbn; intuition congruence.
Qed.

(** Behind the own request only the modes held count. *)
Lemma blockers_behind_spec q me b cm :
  stranger me q -> queue_shape q ->
  In b (blockers_converting me cm false q) <->
  exists y, tran y = b /\ In y q /\ is_holder y /\ conflicts y cm.
Proof.
  induction q as [|z q IH]; intros Hs Hq; [split; [done|by intros (? & _ & [] & _)]|].
  cbn [blockers_converting]. destruct (bool_decide _) eqn:Ew.
  - apply bool_decide_eq_true in Ew. pose proof (queue_shape_waiter z q Hq Ew) as Hw.
    split; [done|]. intros (y & _ & Hy & Hh & _). rewrite List.Forall_forall in Hw. apply Hw in Hy.
    red in Hh. by rewrite waiter_not_holds in Hh.
  - apply bool_decide_eq_false in Ew.
    rewrite (proj2 (owned_by_false me z)) by (apply Hs; by left).
    assert (Hz : is_holder z).
    { pose proof (queue_shape_known _ Hq) as Hk. apply Forall_cons in Hk as [[?|?] _]; [done|by destruct Ew]. }
    specialize (IH ltac:(intros w Hw; apply Hs; by right) (queue_shape_cons_holder _ _ Hq)).
    assert (Hrec : (exists y, tran y = b /\ In y (z :: q) /\ is_holder y /\ conflicts y cm) <->
      (tran z = b /\ conflicts z cm) \/ In b (blockers_converting me cm false q)).
    { rewrite IH. cbn. split.
      - intros (y & Hy & [<-|Hb] & Hh & Hc); eauto 10.
      - intros [[Hb Hc]|(y & Hy & Hb & Hh & Hc)]; eauto 10. }
    rewrite Hrec. unfold conflicts. cbn. destruct (lock_compat (mode z) cm); cbn; intuition congruence.
Qed.

Lemma blockers_converting_spec q x b cm :
  NoDup (map tran q) -> queue_shape q -> In x q -> is_holder x ->
  In b (blockers_converting (tran x) cm true q) <->
  exists y, tran y = b /\ is_holder y /\
    ((before q y x /\ (conflicts y cm \/ wish_conflicts y cm)) \/ (before q x y /\ conflicts y cm)).
Proof.
  intros Hnd Hq Hx Hh. induction q as [|z q IH]; [done|].
  pose proof Hnd as Hnd0. cbn in Hnd. apply NoDup_cons in Hnd as [Hz Hnd]. rewrite list_elem_of_In in Hz.
  cbn [blockers_converting]. rewrite bool_decide_eq_false_2.
  2: { intros Ew. pose proof (queue_shape_waiter z q Hq Ew) as Hw. rewrite List.Forall_forall in Hw.
       apply Hw in Hx. red in Hh. by rewrite waiter_not_holds in Hh. }
  destruct (owned_by (tran x) z) eqn:Eo.
  - apply owned_by_true in Eo. assert (z = x) as -> by (apply (unique_owner (z :: q)); auto; by left).
    assert (Hs : stranger (tran x) q) by (intros w Hw E; apply Hz; rewrite <- E; by apply in_map).
    rewrite blockers_behind_spec; [|done|by eapply queue_shape_cons_holder].
    split.
    + intros (y & Hy & Hin & Hhy & Hc). exists y. eauto 10 using before_head.
    + intros (y & Hy & Hhy & [[Hb _]|[Hb Hc]]).
      * exfalso. apply Hz, in_map. apply before_cons_inv in Hb as [[_ ?]|Hb]; [done|]. apply before_in in Hb. tauto.
      * exists y. split; [done|]. split; [|done]. apply before_cons_inv in Hb as [[_ ?]|Hb]; [done|].
        apply before_in in Hb. tauto.
  - apply owned_by_false in Eo. destruct Hx as [->|Hx]; [done|].
    specialize (IH Hnd (queue_shape_cons_holder _ _ Hq) Hx).
    assert (Hhz : is_holder z).
    { pose proof (queue_shape_known _ Hq) as Hk. apply Forall_cons in Hk as [[?|Hw] _]; [done|].
      pose proof (queue_shape_waiter z q Hq Hw) as Hw'. rewrite List.Forall_forall in Hw'.
      specialize (Hw' x (or_intror Hx)). red in Hh. by rewrite waiter_not_holds in Hh. }
    set (P y := is_holder y /\ ((before (z :: q) y x /\ (conflicts y cm \/ wish_conflicts y cm)) \/
                                (before (z :: q) x y /\ conflicts y cm))).
    assert (Hrec : (exists y, tran y = b /\ P y) <->
      (tran z = b /\ (conflicts z cm \/ wish_conflicts z cm)) \/ In b (blockers_converting (tran x) cm true q)).
    { rewrite IH. unfold P. split.
      - intros (y & Hy & Hhy & [[Hb Hc]|[Hb Hc]]); apply before_cons_inv in Hb as [[E _]|Hb]; subst; eauto 10. done.
      - intros [[Hb Hc]|(y & Hy & Hhy & [[Hb Hc]|[Hb Hc]])]; eauto 12 using before_head, before_cons. }
    unfold P in Hrec. rewrite Hrec, <- wish_test. cbn [negb andb orb].
    rewrite orb_false_r. destruct (negb _ || _); cbn; intuition congruence.
Qed.

(** The graph of the tables: an edge in some queue. *)
Definition waits (st : lm_state) (a b : transaction_id) : Prop :=
  exists k x y, In x (queue_of (l_table st) k) /\ tran x = a /\ tran y = b /\
    waits_for (queue_of (l_table st) k) x y.

Lemma waits_for_pending q x y : waits_for q x y -> status x <> LOCK_GRANTED.
Proof. unfold waits_for, is_waiter, is_converter. intros [(-> & _)|(-> & _)]; done. Qed.

Lemma known_pending x : known_status x -> status x <> LOCK_GRANTED -> is_waiter x \/ is_converter x.
Proof. intros [Hx|Hx] Hn; [|by left]. red in Hx. apply holds_spec in Hx as [?|?]; [done|by right]. Qed.

Lemma successors_in_queue q x b :
  NoDup (map tran q) -> queue_shape q -> In x q -> status x <> LOCK_GRANTED ->
  In b (if bool_decide (status x = LOCK_WAITING) then blockers_waiting (tran x) (mode x) q
        else blockers_converting (tran x) (convert_mode x) true q) <->
  exists y, tran y = b /\ waits_for q x y.
Proof.
  intros Hnd Hq Hx Hp. pose proof (queue_shape_known _ Hq) as Hk. rewrite List.Forall_forall in Hk.
  destruct (known_pending x (Hk x Hx) Hp) as [Hw|Hc].
  - rewrite bool_decide_eq_true_2, blockers_waiting_spec by done. unfold waits_for. split.
    + intros (y & Hy & Hb & Hcf). eauto 10.
    + intros (y & Hy & [(_ & Hb & Hcf)|(Hcv & _)]); [eauto|]. unfold is_waiter, is_converter in *. congruence.
  - pose proof (converter_holds _ Hc) as Hh. red in Hc.
    rewrite bool_decide_eq_false_2, blockers_converting_spec by (done || congruence). unfold waits_for. split.
    + intros (y & Hy & Hhy & Hcf). eauto 10.
    + intros (y & Hy & [(Hw & _)|(_ & Hcf)]); [|eauto]. unfold is_waiter in *. congruence.
Qed.

Lemma edge_waits st a b : lm_inv st -> edge st a b <-> waits st a b.
Proof.
  intros HI. split.
  - intros (l & Hl & Hb). unfold successors in Hl.
    destruct (tr_table st !! a) as [t|] eqn:Ht; [|done]. cbn [of_option bind_res] in Hl.
    destruct (wait t) as [p|] eqn:Hw; [|by injection Hl as <-].
    destruct (inv_wait _ _ _ _ HI a t p) as (r & Hr & Ha & Hs); [done..|].
    rewrite find_request_req, Hr in Hl. cbn [of_option bind_res] in Hl.
    destruct (inv_req _ _ _ _ HI _ _ Hr) as (Hhd & _). rewrite Hhd in Hl.
    pose proof Hr as (h & Hh & Hin & _)%req_Some. rewrite Hh in Hl. cbn [of_option bind_res] in Hl.
    injection Hl as <-. pose proof (inv_heads _ _ _ _ HI _ _ Hh) as Hok. rewrite <- Ha in Hb.
    apply successors_in_queue in Hb as (y & Hy & Hwf); [|apply Hok|apply Hok|done|done].
    exists p.1, r, y. unfold queue_of. by rewrite Hh.
  - intros (k & x & y & Hin & <- & <- & Hwf). unfold queue_of in *.
    destruct (l_table st !! k) as [h|] eqn:Hh; [|done]. pose proof (req_in HI _ _ _ Hh Hin) as Hr.
    destruct (inv_req _ _ _ _ HI _ _ Hr) as (Hhd & _ & t & Ht & Hw).
    pose proof (waits_for_pending _ _ _ Hwf) as Hp. pose proof (inv_heads _ _ _ _ HI _ _ Hh) as Hok.
    eexists. split.
    + unfold successors. rewrite Ht. cbn [of_option bind_res]. rewrite Hw by done.
      rewrite find_request_req, Hr. cbn [of_option bind_res]. rewrite Hhd. cbn [fst]. rewrite Hh. reflexivity.
    + apply successors_in_queue; [apply Hok|apply Hok|done|done|]. eauto.
Qed.

(** ** Cycles *)

Lemma tc_cycle_sub {A} (E E' : A -> A -> Prop) x :
  (forall u v, E' u v -> tc E' u u -> tc E' v v -> E u v) -> tc E' x x -> tc E x x.
Proof.
  intros HE Hx. assert (Hgen : forall u v, tc E' u v -> tc E' v u -> tc E u v); [|by apply Hgen].
  clear x Hx. intros u v. induction 1 as [u v Huv|u w v Huw Hwv IH]; intros Hvu.
  - apply tc_once, HE; [done| |]; eapply tc_transitive; eauto using tc_once.
  - assert (Hvw : tc E' v w) by (eapply tc_r; eauto).
    eapply tc_l; [apply HE|by apply IH]; [done| |].
    + eapply tc_l; [exact Huw|]. by eapply tc_transitive.
    + by eapply tc_transitive.
Qed.

Lemma tc_out {A} (E : A -> A -> Prop) x y : tc E x y -> exists z, E x z.
Proof. destruct 1; eauto. Qed.

(** Between transactions that are not victims of deadlock detection. *)
Definition live_waits (st : lm_state) (a b : transaction_id) : Prop :=
  waits st a b /\ victim (tr_table st) a = false /\ victim (tr_table st) b = false.

(** No such transaction waits for itself, even through others. *)
Definition lm_acyclic (st : lm_state) : Prop := forall a, ~ tc (live_waits st) a a.

Lemma tc_edge_waits st a : lm_inv st -> tc (edge st) a a <-> tc (waits st) a a.
Proof.
  intros HI. split; apply tc_cycle_sub; intros u v Huv _ _; by apply edge_waits.
Qed.

(** ** Messages keep the graph acyclic *)

Lemma before_replace {A} (q1 q2 : list A) r r' u v :
  before (q1 ++ r' :: q2) u v -> u <> r' -> v <> r' -> before (q1 ++ r :: q2) u v.
Proof.
  induction q1 as [|z q1 IH]; cbn; intros Hb Hu Hv;
    apply before_cons_inv in Hb as [[E Hin]|Hb]; subst.
  - done.
  - by apply before_cons.
  - apply before_head. apply in_app_iff in Hin as [?|[->|?]]; [|done|]; rewrite in_app_iff; cbn; auto.
  - apply before_cons. auto.
Qed.

Lemma before_snoc_inv {A} (q : list A) r u v :
  before (q ++ [r]) u v -> v <> r -> before q u v.
Proof.
  induction q as [|z q IH]; cbn; intros Hb Hv; apply before_cons_inv in Hb as [[E Hin]|Hb]; subst.
  - done.
  - by apply before_in in Hb as [[] _].
  - apply before_head. apply in_app_iff in Hin as [?|[->|[]]]; done.
  - apply before_cons. auto.
Qed.

Lemma before_same q q' u v :
  same_queue q q' -> before q' u v ->
  exists u0 v0, core u0 = core u /\ core v0 = core v /\ before q u0 v0.
Proof.
  intros E%same_queue_Forall2 (q1 & q2 & q3 & ->).
  apply Forall2_app_inv_r in E as (p1 & q0 & _ & E & ->).
  apply Forall2_cons_inv_r in E as (u0 & q4 & Eu & E & ->).
  apply Forall2_app_inv_r in E as (p2 & q5 & _ & E & ->).
  apply Forall2_cons_inv_r in E as (v0 & p3 & Ev & _ & ->).
  exists u0, v0. split; [done|]. split; [done|]. by exists p1, p2, p3.
Qed.

(** What [waits_for] says of two requests that are in the given order. *)
Definition pair_waits (x y : lock_request) (y_first : bool) : Prop :=
  (is_waiter x /\ y_first = true /\ (conflicts y (mode x) \/ wish_conflicts y (mode x))) \/
  (is_converter x /\ is_holder y /\
   (conflicts y (convert_mode x) \/ (y_first = true /\ wish_conflicts y (convert_mode x)))).

Lemma waits_for_pair q x y :
  waits_for q x y <->
  (before q y x /\ pair_waits x y true) \/ (before q x y /\ pair_waits x y false).
Proof. unfold waits_for, pair_waits. intuition congruence. Qed.

Lemma pair_waits_core x y x0 y0 b :
  core x0 = core x -> core y0 = core y -> pair_waits x y b -> pair_waits x0 y0 b.
Proof.
  intros (_ & _ & E1 & E2 & E3)%core_fields (_ & _ & E4 & E5 & E6)%core_fields.
  unfold pair_waits, conflicts, wish_conflicts, is_waiter, is_converter, is_holder, holds.
  by rewrite E1, E2, E3, E4, E5, E6.
Qed.

(** An edge of a queue, by transactions. *)
Definition queue_waits (q : list lock_request) (a b : transaction_id) : Prop :=
  exists x y, tran x = a /\ tran y = b /\
    ((before q y x /\ pair_waits x y true) \/ (before q x y /\ pair_waits x y false)).

Lemma waits_queue st a b : waits st a b <-> exists k, queue_waits (queue_of (l_table st) k) a b.
Proof.
  unfold waits, queue_waits. setoid_rewrite waits_for_pair. split.
  - intros (k & x & y & _ & H). eauto.
  - intros (k & x & y & Ha & Hb & H). exists k, x, y. split; [|done].
    destruct H as [[Hbf _]|[Hbf _]]; apply before_in in Hbf; tauto.
Qed.

Lemma queue_waits_same q q' a b : same_queue q q' -> queue_waits q' a b -> queue_waits q a b.
Proof.
  intros E (x & y & Ha & Hb & [[Hbf Hp]|[Hbf Hp]]);
    destruct (before_same _ _ _ _ E Hbf) as (u0 & v0 & E1 & E2 & Hb0).
  - pose proof (core_fields _ _ E1) as (_ & T1 & _). pose proof (core_fields _ _ E2) as (_ & T2 & _).
    exists v0, u0. split; [congruence|]. split; [congruence|]. left. split; [done|].
    by apply (pair_waits_core x y).
  - pose proof (core_fields _ _ E1) as (_ & T1 & _). pose proof (core_fields _ _ E2) as (_ & T2 & _).
    exists u0, v0. split; [congruence|]. split; [congruence|]. right. split; [done|].
    by apply (pair_waits_core x y).
Qed.

(** The graph without transaction [a]. *)
Definition waits_but (a : transaction_id) (st : lm_state) (u v : transaction_id) : Prop :=
  waits st u v /\ u <> a /\ v <> a.

Lemma lock_queue_waits a m q q' rep u v :
  lock_queue_step a m q q' rep -> u <> a -> v <> a -> queue_waits q' u v -> queue_waits q u v.
Proof.
  intros Hstep Hu Hv Hw.
  destruct Hstep as [q q' r _ _ _ E Ha _ _|q q' r _ _ E Ha _ _|q1 r q2 Ha _ _|q1 r q2 Ha _ _].
  1, 2: symmetry in E; apply (queue_waits_same (q ++ [r])) in Hw; [|done];
    destruct Hw as (x & y & Hx & Hy & [[Hb Hp]|[Hb Hp]]); exists x, y; (split; [done|]); (split; [done|]);
    [left|right]; (split; [|done]); eapply before_snoc_inv; [exact Hb| |exact Hb|]; congruence.
  all: destruct Hw as (x & y & Hx & Hy & [[Hb Hp]|[Hb Hp]]); exists x, y; (split; [done|]); (split; [done|]);
    [left|right]; (split; [|done]); (eapply before_replace; [exact Hb| |]); intros ->; cbn in *; congruence.
Qed.

Lemma lock_waits st st' a res_id m rep u v :
  lock_outcome st st' a res_id m rep -> u <> a -> v <> a -> waits st' u v -> waits st u v.
Proof.
  intros (_ & Hstep & Hother & _) Hu Hv. rewrite !waits_queue. intros (k & Hk). exists k.
  destruct (decide (k = get_str_res_id res_id)) as [->|Hne]; [by eapply lock_queue_waits|].
  eapply queue_waits_same; [symmetry; by apply Hother|done].
Qed.

(** *** Release *)

Lemma before_woken q1 r q2 q' u' v' :
  Forall2 maybe_woken (q1 ++ q2) q' -> before q' u' v' ->
  exists u v, maybe_woken u u' /\ maybe_woken v v' /\ before (q1 ++ r :: q2) u v.
Proof.
  intros HF (p1 & p2 & p3 & ->).
  apply Forall2_app_inv_r in HF as (o1 & o0 & _ & HF & Eo).
  apply Forall2_cons_inv_r in HF as (u & o4 & Hu & HF & ->).
  apply Forall2_app_inv_r in HF as (o2 & o5 & _ & HF & ->).
  apply Forall2_cons_inv_r in HF as (v & o3 & Hv & _ & ->).
  exists u, v. split; [done|]. split; [done|].
  assert (Hb : before (q1 ++ q2) u v) by (rewrite Eo; by exists o1, o2, o3).
  clear -Hb. induction q1 as [|z q1 IH]; cbn in *; [by apply before_cons|].
  apply before_cons_inv in Hb as [[-> Hin]|Hb]; [|by apply before_cons, IH].
  apply before_head. rewrite in_app_iff in *. cbn. tauto.
Qed.

Lemma maybe_woken_tran x x' : maybe_woken x x' -> tran x' = tran x.
Proof.
  intros [E|(y & Hy & E)]; apply core_fields in E as (_ & E & _); [done|].
  apply wakes_same_links in Hy as (_ & _ & Hy & _). congruence.
Qed.

Lemma maybe_woken_pending x x' : maybe_woken x x' -> status x' <> LOCK_GRANTED -> core x' = core x.
Proof.
  intros [E|(y & Hy & E)] Hp; [done|]. apply core_fields in E as (_ & _ & E & _).
  apply wakes_granted in Hy as [Hy _]. red in Hy. congruence.
Qed.

Section Release.
Context {st st' : lm_state} {a : transaction_id} (HI : lm_inv st) (Hrel : release_outcome a st st').

Lemma release_origin k z' :
  In z' (queue_of (l_table st') k) -> exists z, In z (queue_of (l_table st) k) /\ maybe_woken z z'.
Proof.
  intros Hz. destruct Hrel as (_ & _ & _ & Hin & Hout & _).
  assert (HF : exists q, (forall z, In z q -> In z (queue_of (l_table st) k)) /\
                 Forall2 maybe_woken q (queue_of (l_table st') k)).
  { destruct (List.find (owned_by a) (queue_of (l_table st) k)) as [r|] eqn:Hf.
    - apply find_some in Hf as [Hr Ha]. apply Z.eqb_eq in Ha.
      destruct (Hin k) as (q1 & r0 & q2 & Hq & _ & HF%wake_step_woken & _); [eauto|]. exists (q1 ++ q2). split; [|done].
      intros z Hz0. rewrite Hq. rewrite in_app_iff in *. cbn. tauto.
    - exists (queue_of (l_table st) k). split; [done|].
      assert (E : same_queue (queue_of (l_table st') k) (queue_of (l_table st) k)).
      { apply Hout. intros x Hx E. eapply find_none in Hf; [|exact Hx]. unfold owned_by in Hf. by apply Z.eqb_neq in Hf. }
      symmetry in E. apply same_queue_Forall2 in E. eapply Forall2_impl; [exact E|]. intros x y Exy. by left. }
  destruct HF as (q & Hq & HF). apply list_elem_of_In, list_elem_of_lookup in Hz as [i Hi].
  destruct (Forall2_lookup_r _ _ _ _ _ HF Hi) as (z & Hzi & Hmw). exists z. split; [|done].
  apply Hq, list_elem_of_In, list_elem_of_lookup. eauto.
Qed.

(** A transaction has at most one pending request. *)
Lemma one_pending k1 k2 x1 x2 :
  In x1 (queue_of (l_table st) k1) -> In x2 (queue_of (l_table st) k2) -> tran x1 = tran x2 ->
  status x1 <> LOCK_GRANTED -> status x2 <> LOCK_GRANTED -> k1 = k2.
Proof.
  intros (h1 & Hh1 & Hx1)%in_queue_of (h2 & Hh2 & Hx2)%in_queue_of Et Hs1 Hs2.
  pose proof (req_in HI _ _ _ Hh1 Hx1) as R1. pose proof (req_in HI _ _ _ Hh2 Hx2) as R2.
  destruct (inv_req _ _ _ _ HI _ _ R1) as (_ & _ & t1 & Ht1 & H1).
  destruct (inv_req _ _ _ _ HI _ _ R2) as (_ & _ & t2 & Ht2 & H2).
  rewrite Et, Ht2 in Ht1. injection Ht1 as ->. rewrite H1 in H2 by done. by injection (H2 Hs2 ltac:(done)).
Qed.

(** The requests of a transaction that still waits were not touched. *)
Lemma not_woken k x x' w :
  In x (queue_of (l_table st) k) -> In x' (queue_of (l_table st') k) -> maybe_woken x x' ->
  waits st' (tran x') w -> core x' = core x.
Proof.
  intros Hx Hx' Hmw (k2 & z' & y & Hz' & Et & _ & Hwf). pose proof Hmw as [?|(y0 & Hy0 & Ey)]; [done|].
  pose proof (waits_for_pending _ _ _ Hwf) as Hp.
  destruct (release_origin k2 z' Hz') as (z & Hz & Hmz).
  pose proof (core_fields _ _ (maybe_woken_pending _ _ Hmz Hp)) as (_ & Tz & Sz & _).
  pose proof (maybe_woken_tran _ _ Hmw) as Tx. apply wakes_granted in Hy0 as [G1 G2].
  apply core_fields in Ey as (_ & _ & Sy & _). unfold is_granted in *.
  assert (k = k2) as <- by (apply (one_pending k k2 x z); congruence).
  destruct Hrel as (HI' & _). exfalso.
  assert (z' = x') as -> by (eapply unique_owner; [by apply (queue_trans_nodup st' k)|done..]).
  congruence.
Qed.

Lemma release_waits u v :
  waits st' u v -> (exists w, waits st' v w) -> waits_but a st u v.
Proof.
  intros Huv [w Hvw]. pose proof Huv as Huv0. rewrite waits_queue in Huv. destruct Huv as (k & x' & y' & <- & <- & Hp).
  assert (Hin' : In x' (queue_of (l_table st') k) /\ In y' (queue_of (l_table st') k))
    by (destruct Hp as [[Hb _]|[Hb _]]; apply before_in in Hb; tauto).
  destruct Hin' as [Hx' Hy']. pose proof Hrel as (HI' & _ & Hgone & Hin & Hout & _).
  split; [|split; by eapply Hgone]. rewrite waits_queue. exists k.
  destruct (List.find (owned_by a) (queue_of (l_table st) k)) as [r|] eqn:Hf.
  - apply find_some in Hf as [Hr Ha]. apply Z.eqb_eq in Ha.
    destruct (Hin k) as (q1 & r0 & q2 & Hq & _ & HF%wake_step_woken & _); [eauto|].
    assert (Hsame : forall z z', In z (queue_of (l_table st) k) -> In z' (queue_of (l_table st') k) ->
                      maybe_woken z z' -> (exists w, waits st' (tran z') w) -> core z = core z')
      by (intros z z' Hz Hz' Hm [w0 Hw0]; symmetry; by eapply not_woken).
    destruct Hp as [[Hb Hp]|[Hb Hp]]; destruct (before_woken q1 r0 q2 _ _ _ HF Hb) as (b1 & b2 & M1 & M2 & Hb0);
      rewrite <- Hq in Hb0; destruct (before_in _ _ _ Hb0) as [I1 I2].
    + exists b2, b1. rewrite <- (maybe_woken_tran _ _ M1), <- (maybe_woken_tran _ _ M2).
      split; [done|]. split; [done|]. left. split; [done|]. eapply pair_waits_core; [| |exact Hp]; eauto.
    + exists b1, b2. rewrite <- (maybe_woken_tran _ _ M1), <- (maybe_woken_tran _ _ M2).
      split; [done|]. split; [done|]. right. split; [done|]. eapply pair_waits_core; [| |exact Hp]; eauto.
  - eapply queue_waits_same; [symmetry; apply Hout|by exists x', y'].
    intros z Hz E. eapply find_none in Hf; [|exact Hz]. unfold owned_by in Hf. by apply Z.eqb_neq in Hf.
Qed.

Lemma release_acyclic : lm_acyclic st -> lm_acyclic st'.
Proof.
  intros Hac b Hc. apply (Hac b). revert Hc. apply tc_cycle_sub.
  intros u v (Huv & Hu & Hv) _ Hcv. apply tc_out in Hcv as (w & Hvw & _).
  destruct (release_waits u v Huv (ex_intro _ w Hvw)) as (Hw & Hua & Hva).
  destruct Hrel as (_ & _ & _ & _ & _ & Hvic & _). split; [done|]. by rewrite <- !Hvic.
Qed.
End Release.

(** A request adds no cycle that does not go through its transaction. *)
Lemma lock_acyclic st st' a res_id m rep (V : transaction_id -> bool) b :
  lm_acyclic st -> lock_outcome st st' a res_id m rep ->
  (forall c, V c = false -> victim (tr_table st) c = false) ->
  V a = true \/ ~ tc (waits st') a a ->
  ~ tc (fun u v => waits st' u v /\ V u = false /\ V v = false) b b.
Proof.
  intros Hac Ho HV Hno Hc. apply (Hac b). revert Hc. apply tc_cycle_sub.
  intros u v (Huv & Hu & Hv) Hcu Hcv.
  assert (Hcyc : forall c, V c = false ->
    tc (fun u v => waits st' u v /\ V u = false /\ V v = false) c c -> c <> a).
  { intros c Hc Hcc ->. destruct Hno as [Hno|Hno]; [congruence|]. apply Hno. revert Hcc.
    apply tc_cycle_sub. by intros x y [? _]. }
  split; [|auto]. eapply lock_waits; [exact Ho|..|done]; by apply Hcyc.
Qed.

(** [a] has no pending request in the queue. *)
Definition own_granted (a : transaction_id) (q : list lock_request) : Prop :=
  forall z, In z q -> tran z = a -> status z = LOCK_GRANTED.

Lemma own_granted_same a q q' : map core q' = map core q -> own_granted a q -> own_granted a q'.
Proof.
  intros E Hq z Hz Ha. apply (in_map core) in Hz. rewrite E in Hz. apply in_map_iff in Hz as (y & Ey & Hy).
  apply core_fields in Ey as (_ & Ty & Sy & _). rewrite <- Sy. apply Hq; congruence.
Qed.

Lemma granted_step_own a m q q' rep :
  lock_queue_step a m q q' rep -> rep = LOCK_OK -> own_granted a q -> own_granted a q'.
Proof.
  destruct 1 as [q q' r _ _ _ E Har Hs _| |q1 r q2 Har Hs _|]; intros Er Hq; try done.
  - eapply own_granted_same; [exact E|]. intros z [Hz|[<-|[]]]%in_app_iff Hza; [by apply Hq|done].
  - intros z Hz Hza. apply in_elt_inv in Hz as [->|Hz]; [done|].
    apply Hq; [|done]. rewrite in_app_iff in *. cbn. tauto.
Qed.

Lemma may_request_own st a k : lm_inv st -> may_request st a -> own_granted a (queue_of (l_table st) k).
Proof.
  intros HI Hm z (h & Hh & Hz)%in_queue_of Hza. pose proof (req_in HI _ _ _ Hh Hz) as Hr.
  destruct (inv_req _ _ _ _ HI _ _ Hr) as (_ & _ & t & Ht & Hw). rewrite Hza in Ht.
  destruct (decide (status z = LOCK_GRANTED)) as [|Hn]; [done|].
  specialize (Hw Hn ltac:(done)). rewrite (Hm t Ht) in Hw. done.
Qed.

(** A transaction whose request was granted waits for nobody. *)
Lemma granted_not_waiting st st' a res_id m :
  lm_inv st -> may_request st a -> lock_outcome st st' a res_id m LOCK_OK -> ~ tc (waits st') a a.
Proof.
  intros HI Hm Ho [b Hb]%tc_out. destruct Hb as (k & x & y & Hin & Ha & _ & Hwf).
  apply (waits_for_pending _ _ _ Hwf).
  cut (own_granted a (queue_of (l_table st') k)); [intros Hog; by apply Hog|].
  destruct Ho as (HI' & Hstep & Hother & _). pose proof (may_request_own st a k HI Hm) as Hold.
  destruct (decide (k = get_str_res_id res_id)) as [->|Hne]; [by eapply granted_step_own|].
  eapply own_granted_same; [by apply Hother|done].
Qed.

Lemma sm_lock_result_acyclic st a d0 d1 name st' c :
  lm_inv st -> may_request st a -> lm_acyclic st ->
  sm_lock_result st a d0 d1 name st' c -> lm_acyclic st'.
Proof.
  intros HI Hm Hac. destruct 1 as [st' Ho|st' Ho Hno|st' t Ho Hc Ht]; intros b;
    pose proof Ho as (HI' & _ & _ & _ & Hv & _).
  - apply (lock_acyclic _ _ _ _ _ _ _ b Hac Ho); [intros x; by rewrite Hv|].
    right. exact (granted_not_waiting _ _ _ _ _ HI Hm Ho).
  - apply (lock_acyclic _ _ _ _ _ _ _ b Hac Ho); [intros x; by rewrite Hv|].
    right. by rewrite <- tc_edge_waits.
  - apply (lock_acyclic _ _ _ _ _ _ _ b Hac Ho); cbn [tr_table set_tr_table].
    + intros x. rewrite victim_mark, Hv. by intros [_ ?]%orb_false_iff.
    + left. by rewrite victim_mark, Z.eqb_refl.
Qed.

Lemma lm_step_acyclic st st' : lm_inv st -> lm_acyclic st -> lm_step st st' -> lm_acyclic st'.
Proof.
  intros HI Hac. destruct 1 as [st st' a s d0 d1 name c Hm Hl|st st' a Hr].
  - destruct (sm_lock_spec st a s d0 d1 name HI Hm) as (st2 & c2 & Hl2 & Hres).
    rewrite Hl in Hl2. injection Hl2 as <- <-. by eapply sm_lock_result_acyclic.
  - destruct (sm_release_spec st a HI) as (st2 & Hr2 & Hrel). rewrite Hr in Hr2. injection Hr2 as <-.
    by apply (release_acyclic HI Hrel).
Qed.

Lemma reachable_acyclic st : lm_reachable st -> lm_acyclic st.
Proof.
  intros H. assert (Hgood : lm_inv st /\ lm_acyclic st); [|tauto].
  apply (star_invariant lm_step (fun st => lm_inv st /\ lm_acyclic st)) with (a := init_lm); [|exact H|].
  - intros s1 s2 [H1 H2] Hs. split; [|by eapply lm_step_acyclic].
    by eapply lm_step_inv.
  - split; [apply inv_init|]. intros a (b & (k & x & y & Hin & _) & _)%tc_out. done.
Qed.

(** ** Nobody waits in vain

    In a queue with pending requests the next in line is the first pending
    conversion or, when there is none, the first waiter.  It conflicts with
    a lock that another transaction holds. *)

Definition converting (r : lock_request) : bool := bool_decide (status r = LOCK_CONVERTING).

Definition next_in_line (q : list lock_request) : option lock_request :=
  match List.find converting q with
  | Some c => Some c
  | None => List.find pending q
  end.

(** The mode a pending request asks for. *)
Definition wanted_mode (r : lock_request) : lock_mode :=
  if converting r then convert_mode r else mode r.

(** A lock held by another transaction conflicts with what [r] asks for. *)
Definition held_up (q : list lock_request) (r : lock_request) : Prop :=
  exists y, In y q /\ is_holder y /\ tran y <> tran r /\ lock_compat (mode y) (wanted_mode r) = false.

Definition justified (q : list lock_request) : Prop := forall r, next_in_line q = Some r -> held_up q r.

Lemma find_app_case {A} (f : A -> bool) q1 q2 :
  List.find f (q1 ++ q2) = match List.find f q1 with Some x => Some x | None => List.find f q2 end.
Proof. induction q1 as [|x q1 IH]; cbn; [done|]. by destruct (f x). Qed.

Lemma find_none_all {A} (f : A -> bool) q : (forall x, In x q -> f x = false) -> List.find f q = None.
Proof.
  induction q as [|x q IH]; intros H; cbn; [done|]. rewrite H by (by left). apply IH. intros y Hy. apply H. by right.
Qed.

Lemma converting_pending r : converting r = true -> pending r = true.
Proof. unfold converting, pending. rewrite bool_decide_eq_true. by intros ->. Qed.

Lemma granted_not_pending r : is_granted r -> pending r = false /\ converting r = false.
Proof. unfold is_granted, pending, converting. by intros ->. Qed.

Lemma granted_prefix_next q1 q2 : all_granted q1 -> next_in_line (q1 ++ q2) = next_in_line q2.
Proof.
  intros Hg. red in Hg. rewrite List.Forall_forall in Hg. unfold next_in_line. rewrite !find_app_case.
  rewrite !(find_none_all _ q1); [done| |]; intros x Hx; by apply granted_not_pending, Hg.
Qed.

Lemma all_granted_justified q : all_granted q -> justified q.
Proof. intros Hg r. by rewrite <- (app_nil_r q), granted_prefix_next. Qed.

Lemma next_in_line_in q r : next_in_line q = Some r -> In r q /\ pending r = true.
Proof.
  unfold next_in_line. destruct (List.find converting q) as [c|] eqn:E.
  - intros [= <-]. apply find_some in E as [? ?]. auto using converting_pending.
  - intros H. by apply find_some in H.
Qed.

Lemma next_in_line_none q : next_in_line q = None -> all_granted q.
Proof.
  unfold next_in_line. destruct (List.find converting q); [done|]. intros H. apply List.Forall_forall.
  intros x Hx. by apply pending_false, (find_none _ _ H).
Qed.

(** *** Requests *)

Lemma find_core (f : lock_request -> bool) q q' :
  (forall x y, core x = core y -> f x = f y) -> same_queue q q' ->
  option_map core (List.find f q) = option_map core (List.find f q').
Proof.
  intros Hf E. apply same_queue_Forall2 in E. induction E as [|x y q q' Hxy _ IH]; cbn; [done|].
  rewrite (Hf x y Hxy). destruct (f y); [|done]. cbn. by rewrite Hxy.
Qed.

Lemma converting_core x y : core x = core y -> converting x = converting y.
Proof. intros (_ & _ & E & _)%core_fields. unfold converting. by rewrite E. Qed.

Lemma next_core q q' :
  same_queue q q' -> option_map core (next_in_line q) = option_map core (next_in_line q').
Proof.
  intros E. pose proof (find_core converting q q' converting_core E) as H1.
  pose proof (find_core pending q q' pending_core E) as H2. unfold next_in_line.
  destruct (List.find converting q), (List.find converting q'); try done.
Qed.

Lemma held_up_core q q' r r' :
  same_queue q q' -> core r = core r' -> held_up q r -> held_up q' r'.
Proof.
  intros E Er (y & Hy & Hh & Hne & Hc). symmetry in E.
  destruct (in_same_queue _ _ _ E Hy) as (y' & Hy' & Ey). exists y'. split; [done|].
  pose proof (converting_core _ _ Er) as Ecv.
  apply core_fields in Ey as (_ & Ty & Sy & My & _), Er as (_ & Tr & _ & Mr & Cr).
  unfold is_holder, holds, wanted_mode in *. rewrite <- Ecv, <- Mr, <- Cr, Sy, My. split; [done|].
  split; [congruence|done].
Qed.

Lemma justified_same q q' : same_queue q q' -> justified q -> justified q'.
Proof.
  intros E Hq r' Hr'. pose proof (next_core _ _ E) as Hn. rewrite Hr' in Hn. cbn in Hn.
  destruct (next_in_line q) as [r|] eqn:Hr; [|done]. injection Hn as Hn.
  eapply held_up_core; [exact E| |by apply Hq]. unfold core. congruence.
Qed.

Lemma not_others_allow a m q :
  ~ others_allow a m q ->
  exists y, In y q /\ is_holder y /\ tran y <> a /\ lock_compat (mode y) m = false.
Proof.
  rewrite <- blocks_conversion_others. intros Hb. apply not_false_is_true, existsb_exists in Hb as (y & Hy & Hb).
  unfold blocks_conversion in Hb. rewrite !andb_true_iff, !negb_true_iff in Hb. destruct Hb as [[? Ho] ?].
  exists y. split; [done|]. split; [done|]. split; [by apply owned_by_false|done].
Qed.

Lemma held_up_mono q q' r :
  (forall y, In y q -> is_holder y -> exists y', In y' q' /\ is_holder y' /\ tran y' = tran y /\
     lock_max (mode y') (mode y) = mode y') ->
  held_up q r -> held_up q' r.
Proof.
  intros Hm (y & Hy & Hh & Hne & Hc). destruct (Hm y Hy Hh) as (y' & Hy' & Hh' & Et & Em).
  exists y'. split; [done|]. split; [done|]. split; [congruence|].
  by rewrite <- Em, lock_compat_max, Hc, andb_false_r.
Qed.

(** Replacing a request keeps every lock that was held. *)
Lemma held_up_replace q1 r r' q2 x :
  is_holder r' -> tran r' = tran r -> lock_max (mode r') (mode r) = mode r' ->
  held_up (q1 ++ r :: q2) x -> held_up (q1 ++ r' :: q2) x.
Proof.
  intros Hh Ht Hm. apply held_up_mono. intros y Hy Hyh. apply in_elt_inv in Hy as [<-|Hy].
  - exists r'. split; [apply in_elt|]. done.
  - exists y. split; [rewrite in_app_iff in *; cbn; tauto|]. split; [done|]. split; [done|]. by destruct (mode y).
Qed.

Lemma lock_max_idem m : lock_max m m = m.
Proof. by destruct m. Qed.

Lemma lock_max_absorb m1 m2 : lock_max (lock_max m1 m2) m1 = lock_max m1 m2.
Proof. by destruct m1, m2. Qed.

Lemma snoc_waiter_justified a m q r :
  justified q -> Forall known_status q -> is_waiter r -> tran r = a -> mode r = m ->
  ~ (all_granted q /\ others_allow a m q) -> justified (q ++ [r]).
Proof.
  intros Hq Hk Hr Ha Hm Hn x Hx.
  assert (Hcv : converting r = false) by (unfold converting; red in Hr; by rewrite Hr).
  assert (Hpd : pending r = true) by (unfold pending; red in Hr; by rewrite Hr).
  assert (Hadd : forall x, held_up q x -> held_up (q ++ [r]) x).
  { intros z. apply held_up_mono. intros y Hy Hh. exists y. rewrite in_app_iff.
    auto using lock_max_idem. }
  unfold next_in_line in Hx. rewrite !find_app_case in Hx. cbn in Hx. rewrite Hcv, Hpd in Hx.
  destruct (List.find converting q) as [c|] eqn:Ec; [|destruct (List.find pending q) as [w|] eqn:Ew].
  - apply Hadd, Hq. unfold next_in_line. by rewrite Ec.
  - apply Hadd, Hq. unfold next_in_line. by rewrite Ec, Ew.
  - injection Hx as <-. assert (Hg : all_granted q) by (apply next_in_line_none; unfold next_in_line; by rewrite Ec).
    destruct (not_others_allow a m q) as (y & Hy & Hh & Hne & Hc); [tauto|].
    exists y. split; [rewrite in_app_iff; auto|]. split; [done|]. split; [congruence|].
    unfold wanted_mode. by rewrite Hcv, Hm.
Qed.

Lemma convert_justified m q1 r q2 :
  is_granted r -> justified (q1 ++ r :: q2) -> justified (q1 ++ conversion_granted m r :: q2).
Proof.
  intros Hr Hq x Hx. apply (held_up_replace _ r); [done|done|by apply lock_max_absorb|]. apply Hq.
  unfold next_in_line in *. rewrite !find_app_case in *. cbn [List.find] in *.
  by destruct (granted_not_pending _ Hr) as [-> ->].
Qed.

Lemma convert_wait_justified a m q1 r q2 :
  tran r = a -> is_granted r -> justified (q1 ++ r :: q2) ->
  ~ others_allow a (lock_max (mode r) m) (q1 ++ r :: q2) ->
  justified (q1 ++ conversion_waits m r :: q2).
Proof.
  intros Ha Hr Hq Hn x Hx.
  apply (held_up_replace _ r); [done|done|by apply lock_max_idem|].
  unfold next_in_line in Hx. rewrite !find_app_case in Hx. cbn in Hx.
  destruct (List.find converting q1) as [c|] eqn:Ec.
  - apply Hq. unfold next_in_line. by rewrite find_app_case, Ec.
  - injection Hx as <-. destruct (not_others_allow _ _ _ Hn) as (y & Hy & Hh & Hne & Hc).
    exists y. cbn [tran conversion_waits]. split; [done|]. split; [done|]. by rewrite <- Ha in Hne.
Qed.

Lemma lock_step_justified a m q q' rep :
  Forall known_status q -> justified q -> lock_queue_step a m q q' rep -> justified q'.
Proof.
  intros Hk Hq. destruct 1 as [q q' r Hst Hg Ho E Ha Es Em|q q' r Hst Hn E Ha Es Em|q1 r q2 Ha Es Ho|q1 r q2 Ha Es Ho].
  - apply (justified_same (q ++ [r])); [done|]. apply all_granted_justified. apply Forall_app. by repeat constructor.
  - apply (justified_same (q ++ [r])); [done|]. by eapply snoc_waiter_justified.
  - by apply convert_justified.
  - by eapply convert_wait_justified.
Qed.

(** *** Wake-ups *)

Lemma granted_prefix_all q' q1 q1' : Forall2 (granted_prefix q') q1 q1' -> all_granted q1'.
Proof.
  induction 1 as [|x x' q1 q1' Hx _ IH]; [constructor|]. constructor; [|done].
  destruct Hx as [[E Hg]|(y & Hy & E & _)]; apply core_fields in E as (_ & _ & E & _); red; rewrite E; [done|].
  by apply wakes_granted in Hy as [? _].
Qed.

Lemma wake_step_justified q q' :
  queue_shape q' -> NoDup (map tran q') -> wake_step q q' -> justified q'.
Proof.
  intros Hs Hnd (q1 & q2 & q1' & q2' & _ & -> & HF & _ & Hst) x Hx. apply granted_prefix_all in HF.
  rewrite granted_prefix_next in Hx by done. destruct q2' as [|r q2']; [done|].
  destruct Hst as [[Hw Hc]|[Hcv (y & Hy & Hb)%existsb_exists]].
  - assert (Hall : Forall is_waiter (r :: q2')).
    { apply queue_shape_waiter; [|done]. clear -Hs. induction q1'; [done|]. by eapply IHq1', queue_shape_cons_holder. }
    rewrite List.Forall_forall in Hall. unfold next_in_line in Hx. rewrite (find_none_all converting) in Hx.
    2:{ intros z Hz. apply Hall in Hz. unfold converting. red in Hz. by rewrite Hz. }
    cbn in Hx. replace (pending r) with true in Hx by (unfold pending; red in Hw; by rewrite Hw).
    injection Hx as <-. assert (Hno : ~ others_allow (tran r) (mode r) q1').
    { rewrite <- compat_group_others; [by rewrite Hc|]. intros z Hz E.
      rewrite map_app in Hnd. cbn in Hnd. apply NoDup_ListNoDup, NoDup_remove_2 in Hnd. apply Hnd.
      rewrite in_app_iff, <- E. left. by apply in_map. }
    destruct (not_others_allow _ _ _ Hno) as (y & Hy & Hh & Hne & Hcf).
    exists y. split; [rewrite in_app_iff; auto|]. split; [done|]. split; [done|].
    unfold wanted_mode, converting. red in Hw. by rewrite Hw.
  - unfold next_in_line in Hx. cbn in Hx. unfold is_converter in Hcv. unfold converting at 1 in Hx.
    rewrite Hcv in Hx. cbn in Hx. injection Hx as <-.
    unfold blocks_convert_wake in Hb. rewrite !andb_true_iff, !negb_true_iff, bool_decide_eq_true in Hb.
    destruct Hb as [[Hg Ho] Hc]. exists y. split; [done|]. split; [by apply granted_holds|].
    split; [by apply owned_by_false|]. unfold wanted_mode, converting. rewrite Hcv. cbn. by rewrite lock_compat_sym.
Qed.

(** *** Reachable states *)

Definition lm_justified (st : lm_state) : Prop := forall k, justified (queue_of (l_table st) k).

Lemma inv_queue_shape st k : lm_inv st -> queue_shape (queue_of (l_table st) k).
Proof.
  intros HI. unfold queue_of. destruct (l_table st !! k) as [h|] eqn:Hk; [|by exists [], []].
  by apply (ho_shape k), (inv_heads _ _ _ _ HI).
Qed.

Lemma lock_outcome_justified st st' a res_id m rep :
  lm_inv st -> lm_justified st -> lock_outcome st st' a res_id m rep -> lm_justified st'.
Proof.
  intros HI Hj (_ & Hstep & Hother & _) k. destruct (decide (k = get_str_res_id res_id)) as [->|Hne].
  - eapply lock_step_justified; [by apply queue_shape_known, inv_queue_shape|apply Hj|exact Hstep].
  - eapply justified_same; [symmetry; by apply Hother|done].
Qed.

Lemma lm_step_justified st st' : lm_inv st -> lm_justified st -> lm_step st st' -> lm_justified st'.
Proof.
  intros HI Hj. destruct 1 as [st st' a s d0 d1 name c Hm Hl|st st' a Hr].
  - destruct (sm_lock_spec st a s d0 d1 name HI Hm) as (st2 & c2 & Hl2 & Hres).
    rewrite Hl in Hl2. injection Hl2 as <- <-.
    destruct Hres as [st' Ho|st' Ho Hno|st' t Ho Hc Ht]; exact (lock_outcome_justified _ _ _ _ _ _ HI Hj Ho).
  - destruct (sm_release_spec st a HI) as (st2 & Hr2 & Hrel). rewrite Hr in Hr2. injection Hr2 as <-.
    intros k. destruct (release_queue st st' a k HI Hrel) as [[E _]|(q1 & r & q2 & _ & _ & Hw & _)].
    + eapply justified_same; [symmetry; exact E|done].
    + destruct Hrel as (HI' & _). eapply wake_step_justified; [by apply inv_queue_shape|by apply queue_trans_nodup|done].
Qed.

Lemma reachable_justified st : lm_reachable st -> lm_justified st.
Proof.
  intros H. assert (Hgood : lm_inv st /\ lm_justified st); [|tauto].
  apply (star_invariant lm_step (fun st => lm_inv st /\ lm_justified st)) with (a := init_lm); [|exact H|].
  - intros s1 s2 [H1 H2] Hs. split; [by eapply lm_step_inv|by eapply lm_step_justified].
  - split; [apply inv_init|]. by intros k r.
Qed.
