(* ===== verification/LockClaims.v ===== *)
(** * The properties of the lock manager

    The theorems about the reachable states of the lock tables, with runs
    that witness them, and runs that show their limits: what a victim still
    holds, a deadlock through the order of a queue, and the explicit unlock
    of a single resource. *)

From Stdlib Require Import ZArith List Lia Bool Ascii.
From stdpp Require Import base gmap strings list relations sets.
From S2P Require Import Prelude LockTable LockQueue LockGraph LockInv LockRelease LockSafety LockDeadlock.
Local Open Scope sedna_scope.
Local Open Scope Z_scope.

(** ** Runs *)

(** Lock messages on one document by a list of transactions; each
    transaction is its own session. *)
Fixpoint lock_run (st : lm_state) (l : list (transaction_id * ascii * string)) : res lm_exn (lm_state * string) :=
  match l with
  | [] => Ok (st, ""%string)
  | (a, d0, name) :: l =>
      let* (st, c) := sm_lock st a a d0 "d"%char name in
      let* (st, s) := lock_run st l in
      Ok (st, String c s)
  end.

Definition ready (st : lm_state) (a : transaction_id) : bool :=
  match tr_table st !! a with
  | None => true
  | Some t => match wait t with None => true | Some _ => false end
  end.

Lemma ready_may st a : ready st a = true -> may_request st a.
Proof. unfold ready. intros H t Ht. rewrite Ht in H. by destruct (wait t). Qed.

(** The transactions do not wait when they send. *)
Fixpoint run_ok (st : lm_state) (l : list (transaction_id * ascii * string)) : bool :=
  match l with
  | [] => true
  | (a, d0, name) :: l =>
      ready st a &&
      match sm_lock st a a d0 "d"%char name with
      | Ok (st, c) => run_ok st l
      | Throw _ => false
      end
  end.

Definition state_of (r : res lm_exn (lm_state * string)) : lm_state :=
  match r with Ok (st, _) => st | Throw _ => init_lm end.

Lemma lock_run_reachable l : forall st0 st,
  star lm_step st0 st -> run_ok st l = true -> star lm_step st0 (state_of (lock_run st l)).
Proof.
  induction l as [|[[a d0] name] l IH]; intros st0 st Hst; [done|]. cbn [run_ok lock_run].
  intros [Hr H]%andb_true_iff. destruct (sm_lock st a a d0 "d"%char name) as [[st1 c]|e] eqn:E; [|done].
  cbn [bind_res].
  assert (H1 : star lm_step st0 st1).
  { eapply star_step; [exact Hst|]. eapply step_lock; [by apply ready_may|exact E]. }
  specialize (IH st0 st1 H1 H). by destruct (lock_run st1 l) as [[st2 s]|e].
Qed.

(** Two readers, a writer that waits, and a reader behind it. *)
Definition sample_requests : list (transaction_id * ascii * string) :=
  [(1, "s"%char, "a"%string); (2, "s"%char, "a"%string); (3, "x"%char, "a"%string);
   (4, "s"%char, "a"%string); (1, "x"%char, "b"%string)].
Definition sample : lm_state := state_of (lock_run init_lm sample_requests).

Lemma sample_reachable : lm_reachable sample.
Proof. apply lock_run_reachable; [constructor|]. vm_compute. reflexivity. Qed.

(** Two readers that both want to write: the second one is a victim. *)
Definition cyclic_requests : list (transaction_id * ascii * string) :=
  [(1, "s"%char, "a"%string); (2, "s"%char, "a"%string); (3, "s"%char, "a"%string);
   (1, "x"%char, "a"%string); (2, "x"%char, "a"%string)].
Definition cyclic : lm_state := state_of (lock_run init_lm cyclic_requests).

Lemma cyclic_reachable : lm_reachable cyclic.
Proof. apply lock_run_reachable; [constructor|]. vm_compute. reflexivity. Qed.

(** ** Safety *)

(** C1: in every state that lock and release messages reach, in any order and
    with any replies, two locks that are held on the same resource by
    different transactions (granted, or held while a conversion is pending)
    have compatible modes, unless one of the two transactions was chosen as
    the victim of a deadlock and has not released its locks yet. *)
Theorem held_locks_compatible st k h r1 r2 :
  lm_reachable st -> l_table st !! k = Some h -> In r1 (queue h) -> In r2 (queue h) ->
  tran r1 <> tran r2 -> holds r1 = true -> holds r2 = true ->
  victim (tr_table st) (tran r1) = false -> victim (tr_table st) (tran r2) = false ->
  lock_compat (mode r1) (mode r2) = true.
Proof.
  intros Hre Hk H1 H2 Hne Hh1 Hh2 Hv1 Hv2. destruct (reachable_good st Hre) as [_ Hs].
  destruct (Hs k) as [Hg _]. unfold queue_of in Hg. rewrite Hk in Hg.
  destruct (ForallOrdPairs_In Hg r1 r2 H1 H2) as [->|[Hc|Hc]]; [done|by apply Hc|].
  rewrite lock_compat_sym. by apply Hc.
Qed.

(** Transactions 1 (converting) and 3 (granted) beside the victim 2. *)
Definition cyclic_queue : list lock_request := queue_of (l_table cyclic) "_doc_a".

Lemma held_locks_compatible_witness :
  exists h r1 r2, l_table cyclic !! "_doc_a"%string = Some h /\ queue h = cyclic_queue /\
    nth_error cyclic_queue 0 = Some r1 /\ nth_error cyclic_queue 2 = Some r2 /\
    victim (tr_table cyclic) 2 = true /\ lock_compat (mode r1) (mode r2) = true.
Proof.
  destruct (l_table cyclic !! "_doc_a"%string) as [h|] eqn:Hk; [|vm_compute in Hk; discriminate].
  assert (Hq : queue h = cyclic_queue) by (unfold cyclic_queue, queue_of; by rewrite Hk).
  destruct (nth_error cyclic_queue 0) as [r1|] eqn:H1; [|vm_compute in H1; discriminate].
  destruct (nth_error cyclic_queue 2) as [r2|] eqn:H2; [|vm_compute in H2; discriminate].
  exists h, r1, r2. split; [done|]. split; [done|]. split; [done|]. split; [done|].
  split; [vm_compute; reflexivity|].
  apply (held_locks_compatible cyclic "_doc_a"%string h r1 r2 cyclic_reachable Hk).
  1, 2: rewrite Hq; by eapply nth_error_In.
  all: vm_compute in H1, H2; injection H1 as <-; injection H2 as <-; vm_compute; (reflexivity || discriminate).
Defined.

(** C2: in every reachable state each cycle of transactions that conflict
    goes through a victim: between the others no transaction waits, directly
    or through others, for itself.  A waits for b here when the lock that b
    holds, or that b wished for earlier, has a mode that conflicts with what
    a asks for.  A request that merely stands behind another one of a
    compatible mode does not wait for it in this sense, and
    [fifo_deadlock_not_seen] below shows a deadlock of that kind. *)
Theorem conflict_cycles_have_victims st a : lm_reachable st -> ~ tc (live_waits st) a a.
Proof. intros H. by apply reachable_acyclic. Qed.

Lemma conflict_cycles_have_victims_witness :
  tc (waits cyclic) 2 2 /\ waits cyclic 1 3 /\ ~ tc (live_waits cyclic) 1 1.
Proof.
  assert (HI := reachable_inv _ cyclic_reachable).
  assert (E12 : waits cyclic 1 2) by (apply (edge_waits _ _ _ HI); eexists; split; [vm_compute; reflexivity|by left]).
  assert (E21 : waits cyclic 2 1) by (apply (edge_waits _ _ _ HI); eexists; split; [vm_compute; reflexivity|by left]).
  split; [eapply tc_l; [exact E21|by apply tc_once]|].
  split; [|apply (conflict_cycles_have_victims cyclic 1 cyclic_reachable)].
  apply (edge_waits _ _ _ HI). eexists. split; [vm_compute; reflexivity|]. right. by left.
Defined.

(** ** The messages *)

(** C3: the lock message never fails on a reachable state, and its reply is
    true: 1 when the lock was granted, 0 when the request waits, 2 when it
    waits and its transaction is on a cycle of conflicting requests, in which
    case it is marked as a victim; the queue of the resource makes the step
    of the abstract lock queue, and nothing else changes. *)
Theorem lock_message_correct st a s d0 d1 name :
  lm_reachable st -> may_request st a ->
  exists st' c, sm_lock st a s d0 d1 name = Ok (st', c) /\
    sm_lock_result st a d0 d1 name st' c /\ (c = "2"%char <-> tc (waits st') a a).
Proof.
  intros Hre Hm. pose proof (reachable_inv _ Hre) as HI.
  destruct (sm_lock_spec st a s d0 d1 name HI Hm) as (st' & c & Hl & Hres). exists st', c.
  split; [done|]. split; [done|]. destruct Hres as [st' Ho|st' Ho Hno|st' t Ho Hc Ht].
  - split; [done|]. intros Hc. by apply (granted_not_waiting _ _ _ _ _ HI Hm Ho) in Hc.
  - split; [done|]. intros Hc. apply tc_edge_waits in Hc; [done|by destruct Ho].
  - split; [|done]. intros _. change (tc (waits st') a a). apply tc_edge_waits; [by destruct Ho|done].
Qed.

Lemma lock_message_correct_witness :
  exists st' c, sm_lock sample 2 2 "s"%char "d"%char "b"%string = Ok (st', c) /\
    sm_lock_result sample 2 "s"%char "d"%char "b"%string st' c /\ (c = "2"%char <-> tc (waits st') 2 2).
Proof.
  apply (lock_message_correct sample 2 2 "s"%char "d"%char "b"%string sample_reachable).
  apply ready_may. vm_compute. reflexivity.
Defined.

(** C4: the release message never fails on a reachable state.  Afterwards the
    transaction is in neither table.  Every queue it was in has lost its
    request; of the others a prefix is granted, each of the newly granted
    ones in a mode that no granted lock of another transaction conflicts
    with, and the request behind the prefix, if any, conflicts and goes on
    waiting with everything behind it.  Every other queue is as it was.  The
    semaphores that are raised are those of the requests that were pending
    and are granted now, each once, without those of victims. *)
Theorem release_message_correct st a :
  lm_reachable st -> exists st', sm_release st a = Ok st' /\ release_outcome a st st'.
Proof. intros H. apply sm_release_spec. auto with sedna. Qed.

Lemma release_message_correct_witness :
  exists st', sm_release sample 1 = Ok st' /\ release_outcome 1 sample st'.
Proof. apply (release_message_correct sample 1 sample_reachable). Defined.

(** When the first reader of [sample] is gone the writer still waits; when
    the second one is, the writer is woken and the reader behind it is not. *)
Example sample_releases :
  match sm_release sample 1 with
  | Ok st1 => match sm_release st1 2 with
              | Ok st2 => (sem_ups st1, sem_ups st2) = ([], [3])
              | Throw _ => False
              end
  | Throw _ => False
  end.
Proof. vm_compute. reflexivity. Qed.

(** C5: on tables that satisfy the invariant the search of [deadlock]
    terminates within its fuel, raises no exception, and reports a deadlock
    exactly when the transaction is on a cycle of the waits-for relation. *)
Theorem deadlock_exact st a :
  lm_inv st -> is_Some (tr_table st !! a) ->
  exists b, deadlock st a = Ok b /\ (b = true <-> tc (waits st) a a).
Proof.
  intros HI Hkn. destruct (deadlock_decides st a (lm_inv_graph_ok _ HI) Hkn) as (b & Hd & Hb).
  exists b. split; [done|]. by rewrite Hb, tc_edge_waits.
Qed.

Lemma deadlock_exact_witness : deadlock cyclic 2 = Ok true /\ tc (waits cyclic) 2 2.
Proof.
  split; [vm_compute; reflexivity|].
  destruct (deadlock_exact cyclic 2 (reachable_inv _ cyclic_reachable)) as (b & Hd & Hb).
  - vm_compute. eauto.
  - apply Hb. vm_compute in Hd. by injection Hd.
Defined.

(** The group mode of a queue stands for all its holders: a mode is
    compatible with the [lock_max] of the modes held exactly when it is
    compatible with each of them. *)
Theorem group_mode_stands_for_holders m q :
  lock_compat m (foldr (fun r g => if holds r then lock_max (mode r) g else g) NULL_LOCK q) = true <->
  Forall (fun r => holds r = true -> lock_compat m (mode r) = true) q.
Proof. apply compat_group. Qed.

(** ** The client *)

Definition client_mode (m : lock_mode) (intention_mode : bool) : lock_mode :=
  match intention_mode, bool_decide (m = lm_s) with
  | false, true => lm_s
  | false, false => lm_x
  | true, true => lm_is
  | true, false => lm_ix
  end.

(** C7: what a transaction process asks for is what the storage manager
    understands: for an updating transaction and a name of at most 99 bytes
    [put_lock_on_document] and its siblings send two messages, and the
    storage manager decodes them into an intention lock on the database and
    then the lock on the entity, with the kinds and names that were meant. *)
Theorem client_messages_decode m db name k :
  (String.length name <= 99)%nat ->
  exists m1 m2, put_lock_on_entity false m db name k = Ok [Some m1; Some m2] /\
    (sm_lock_mode (msg_data0 m1), msg_resource (msg_data1 m1) (msg_name m1))
      = (client_mode m true, mk_resource db LM_DATABASE) /\
    (sm_lock_mode (msg_data0 m2), msg_resource (msg_data1 m2) (msg_name m2))
      = (client_mode m false, mk_resource name k).
Proof.
  intros Hn. unfold put_lock_on_entity, MAX_RESOURCE_NAME_LENGTH.
  rewrite (proj2 (Nat.ltb_ge _ _)) by (cbn; lia). eexists _, _. split; [reflexivity|].
  split; [by destruct m|]. by destruct m, k.
Qed.

Lemma client_messages_decode_witness :
  exists m1 m2, put_lock_on_entity false lm_x "db" "doc" LM_DOCUMENT = Ok [Some m1; Some m2] /\
    (sm_lock_mode (msg_data0 m1), msg_resource (msg_data1 m1) (msg_name m1))
      = (lm_ix, mk_resource "db" LM_DATABASE) /\
    (sm_lock_mode (msg_data0 m2), msg_resource (msg_data1 m2) (msg_name m2))
      = (lm_x, mk_resource "doc" LM_DOCUMENT).
Proof. apply (client_messages_decode lm_x "db" "doc" LM_DOCUMENT). cbn. lia. Defined.

(** ** Progress *)

(** C8: nobody waits in vain.  In every reachable state, when a queue has a
    pending request, the one next in line (the first pending conversion or,
    if there is none, the first waiter) asks for a mode that conflicts with a
    lock another transaction holds on the resource. *)
Theorem nobody_waits_in_vain st k h x :
  lm_reachable st -> l_table st !! k = Some h -> In x (queue h) -> status x <> LOCK_GRANTED ->
  exists r y, next_in_line (queue h) = Some r /\ In y (queue h) /\ holds y = true /\
    tran y <> tran r /\ lock_compat (mode y) (wanted_mode r) = false.
Proof.
  intros Hre Hk Hx Hp. pose proof (reachable_justified st Hre k) as Hj. unfold queue_of in Hj. rewrite Hk in Hj.
  destruct (next_in_line (queue h)) as [r|] eqn:Hr.
  - destruct (Hj r Hr) as (y & Hy). by exists r, y.
  - apply next_in_line_none in Hr. red in Hr. rewrite List.Forall_forall in Hr. by apply Hr in Hx.
Qed.

Lemma nobody_waits_in_vain_witness :
  exists h r y, l_table sample !! "_doc_a"%string = Some h /\
    next_in_line (queue h) = Some r /\ tran r = 3 /\ In y (queue h) /\ holds y = true /\
    tran y <> tran r /\ lock_compat (mode y) (wanted_mode r) = false.
Proof.
  destruct (l_table sample !! "_doc_a"%string) as [h|] eqn:Hk; [|vm_compute in Hk; discriminate].
  assert (Hq : queue h = queue_of (l_table sample) "_doc_a") by (unfold queue_of; by rewrite Hk).
  destruct (nth_error (queue h) 2) as [x|] eqn:Hx; [|rewrite Hq in Hx; vm_compute in Hx; discriminate].
  destruct (nobody_waits_in_vain sample "_doc_a"%string h x sample_reachable Hk) as (r & y & Hr & Hy & Hh & Hne & Hc).
  - by eapply nth_error_In.
  - rewrite Hq in Hx. vm_compute in Hx. injection Hx as <-. discriminate.
  - exists h, r, y. split; [reflexivity|]. split; [exact Hr|]. split; [|exact (conj Hy (conj Hh (conj Hne Hc)))].
    rewrite Hq in Hr. vm_compute in Hr. injection Hr as <-. reflexivity.
Defined.

(** ** Limits *)

(** The statuses and modes of a queue. *)
Definition holders_of (st : lm_state) (k : string) : list (transaction_id * lock_status * lock_mode) :=
  map (fun r => (tran r, status r, mode r)) (queue_of (l_table st) k).

(** While the victim of a deadlock has not yet released its locks, a release
    of a third transaction can grant a conversion to an exclusive lock
    although the victim still holds a shared one: the wake-up loop of
    [unlock] looks only at granted requests, not at converting ones, which
    hold their old mode too. *)
Example victim_window :
  exists st1 st2,
    lock_run init_lm cyclic_requests = Ok (st1, "11102"%string) /\
    sm_release st1 3 = Ok st2 /\
    holders_of st2 "_doc_a" = [(1, LOCK_GRANTED, lm_x); (2, LOCK_CONVERTING, lm_s)].
Proof.
  eexists _, _. split; [vm_compute; reflexivity|]. split; [vm_compute; reflexivity|]. vm_compute. reflexivity.
Qed.

(** The search follows conflicts only.  Transaction 3 stands behind 2, with
    which it is compatible, 2 waits for 1 and 1 for 3: all three wait, none
    can go on, and the search finds no deadlock for any of them. *)
Example fifo_deadlock_not_seen :
  exists st,
    lock_run init_lm [(1, "w"%char, "db"%string); (3, "x"%char, "a"%string); (2, "s"%char, "db"%string);
                      (3, "r"%char, "db"%string); (1, "s"%char, "a"%string)] = Ok (st, "11000"%string) /\
    map (ready st) [1; 2; 3] = [false; false; false] /\
    map (deadlock st) [1; 2; 3] = [Ok false; Ok false; Ok false].
Proof. eexists. split; [vm_compute; reflexivity|]. split; vm_compute; reflexivity. Qed.

(** The destructor of a request leaves the back pointer of the next
    request of its transaction alone, unless the request was the first one:
    after the explicit unlock of a request in the middle of the list, the
    unlock of the next one writes through a pointer to the freed request. *)
Theorem middle_unlock_dangles :
  exists st1 st2,
    lock_run init_lm [(1, "s"%char, "a"%string); (1, "s"%char, "b"%string); (1, "s"%char, "c"%string)]
      = Ok (st1, "111"%string) /\
    sm_unlock st1 1 "d"%char "b" = Ok st2 /\
    sm_unlock st2 1 "d"%char "c" = Throw DANGLING.
Proof.
  eexists _, _. split; [vm_compute; reflexivity|]. split; [vm_compute; reflexivity|]. vm_compute. reflexivity.
Qed.
