(* ===== verification/Nid.v ===== *)
(** * Node labels: data and operations of the numbering scheme

    Models src/kernel/tr/nid/numb_scheme.cpp, nid.h and nidalloc.cpp.  A label
    ([t_prefix]) is a register of bytes of which the first [size] are in use.
    The register is the memory behind the pointer [prefix], a function from
    offsets to bytes, so that writes behind the end followed by a change of
    [size] are what they are in the source.  [size] is an unsigned short and
    the bytes are unsigned chars: the updates wrap as these types do. *)

From Stdlib Require Import ZArith List Lia Bool.
From S2P Require Import Prelude.
Import ListNotations.
Local Open Scope Z_scope.
Local Open Scope sedna_scope.

(** ** nid.h *)

Definition ALPHABET_SIZE : Z := 255.
Definition MAX_LETTER : Z := 254.
Definition DEF_LETTER : Z := 25.

Inductive nid_exn := SE1003 | SE2023 | ALGO_ERROR | BAD_RESULT.

(** A fraction [x/y]; its constructor refuses values outside [0, 1]. *)
Record fnumber := mk_fnumber { getx : Z; gety : Z }.

Definition new_fnumber (the_x the_y : Z) : res nid_exn fnumber :=
  if (the_x >? the_y) || (the_x <? 0) || (the_y <=? 0) then Throw SE1003
  else Ok (mk_fnumber the_x the_y).

Record t_prefix := mk_prefix { prefix : Z -> Z; size : Z }.

Definition put (i v : Z) (p : t_prefix) : t_prefix :=
  mk_prefix (fun j => if j =? i then u8 v else prefix p j) (size p).
Definition set_size (n : Z) (p : t_prefix) : t_prefix := mk_prefix (prefix p) (u16 n).

(** The bytes in use, and a register that holds a given list. *)
Definition bytes (p : t_prefix) : list Z := map (fun i => prefix p (Z.of_nat i)) (seq 0 (Z.to_nat (size p))).
Definition of_bytes (l : list Z) : t_prefix :=
  mk_prefix (fun i => nth (Z.to_nat i) l 0) (Z.of_nat (length l)).

(** ** nidalloc.cpp: the registers

    The list of slots that starts at [nid_head]; a slot is its [used] flag. *)

Definition nid_slots := list bool.

(** The index of the slot that is handed out, and the slots after it. *)
Fixpoint nid_alloc (slots : nid_slots) : nat * nid_slots :=
  match slots with
  | [] => (O, [true])
  | used :: rest =>
      if negb used then (O, true :: rest)
      else let (i, rest) := nid_alloc rest in (S i, used :: rest)
  end.

Definition nid_free (slots : nid_slots) (buf : nat) : nid_slots :=
  firstn buf slots ++ match skipn buf slots with [] => [] | _ :: rest => false :: rest end.

(** ** Consistency *)

Definition NID_CONSISTENT (a : t_prefix) : bool := negb (prefix a (size a - 1) =? ALPHABET_SIZE).

(** ** The outmost left sibling *)

(** The search of [decrementNID] from position [size_ + n - 1] down to
    [size_]. *)
Fixpoint decrement_scan (lp : t_prefix) (size_ : Z) (n : nat) : t_prefix :=
  match n with
  | O =>
      set_size (size lp + 1) (put (size lp) DEF_LETTER (put (size lp - 1) 0 lp))
  | S n =>
      let pos := size_ + Z.of_nat n in
      if prefix lp pos >? 0 then
        if prefix lp pos >? 1 then
          set_size (pos + 1) (put pos (prefix lp pos - 1) lp)
        else
          set_size (pos + 2) (put (pos + 1) DEF_LETTER (put pos 0 lp))
      else decrement_scan lp size_ n
  end.

Definition decrementNID (lp : t_prefix) (size_ : Z) : t_prefix :=
  let pos := size lp - 1 in
  if negb (prefix lp pos =? 1) then put pos (prefix lp pos - 1) lp
  else if size lp - size_ >? 1 then decrement_scan lp size_ (Z.to_nat (pos - size_))
  else set_size (size lp + 1) (put (pos + 1) DEF_LETTER (put pos 0 lp)).

(** ** The label after a given one, below a bound *)

(** Writes [v] to the [n] positions from [pos] on. *)
Fixpoint fill (lp : t_prefix) (pos : Z) (n : nat) (v : Z) : t_prefix :=
  match n with
  | O => lp
  | S n => fill (put pos v lp) (pos + 1) n v
  end.

(** The carry loop of [incrementNID_between] from [pos = size_ + n] on: the
    new label and whether the carry was absorbed. *)
Fixpoint carry_between (lp : t_prefix) (size_ : Z) (n : nat) : t_prefix * bool :=
  match n with
  | O => (lp, false)
  | S n =>
      let pos := size_ + Z.of_nat (S n) in
      let lp := put pos 1 lp in
      let pos := pos - 1 in
      if negb (prefix lp pos =? ALPHABET_SIZE) then (put pos (prefix lp pos + 1) lp, true)
      else carry_between lp size_ n
  end.

Definition incrementNID_between (lp : t_prefix) (size_ : Z) : t_prefix :=
  let lp := put (size lp - 1) (prefix lp (size lp - 1) + 1) lp in
  if prefix lp (size lp - 1) =? ALPHABET_SIZE then
    let (lp, done) := carry_between lp size_ (Z.to_nat (size lp - 1 - size_)) in
    if done then lp
    else
      let lp := fill lp size_ (Z.to_nat (size lp - size_)) ALPHABET_SIZE in
      let lp := put (size lp + 1) 1 (put (size lp) DEF_LETTER lp) in
      set_size (size lp + 2) lp
  else lp.

(** ** The outmost right sibling *)

(** The carry loop of [incrementNID] from [pos = size_ + n] on. *)
Fixpoint carry_right (lp : t_prefix) (size_ : Z) (n : nat) : t_prefix :=
  match n with
  | O => lp
  | S n =>
      let pos := size_ + Z.of_nat (S n) in
      let lp := put pos 1 lp in
      if negb (prefix lp (pos - 1) =? ALPHABET_SIZE) then put (pos - 1) (prefix lp (pos - 1) + 1) lp
      else carry_right lp size_ n
  end.

Definition incrementNID (lp : t_prefix) (size_ : Z) : res nid_exn t_prefix :=
  let lp := put (size lp - 1) (prefix lp (size lp - 1) + 1) lp in
  if prefix lp size_ =? ALPHABET_SIZE then
    if negb (size lp =? size_ + 1) then Throw ALGO_ERROR
    else
      let lp := put (size_ + 2) 1 (put (size_ + 1) ALPHABET_SIZE (put size_ MAX_LETTER lp)) in
      Ok (set_size (size lp + 2) lp)
  else if prefix lp (size lp - 1) =? ALPHABET_SIZE then
    let lp := carry_right lp size_ (Z.to_nat (size lp - 1 - size_)) in
    if prefix lp size_ =? ALPHABET_SIZE then
      let lp := put size_ MAX_LETTER lp in
      let lp := fill lp (size_ + 1) (Z.to_nat (size lp - (size_ + 1))) ALPHABET_SIZE in
      let lp := put (size lp + 1) 1 (put (size lp) DEF_LETTER lp) in
      Ok (set_size (size lp + 2) lp)
    else Ok lp
  else Ok lp.

(** ** Between two siblings *)

(** The search for a difference, from position [pos] on, [n] positions to go:
    a finished label, or the value of [difsmall]. *)
Fixpoint between_scan (lp rp : t_prefix) (pos difsmall : Z) (n : nat) : t_prefix + Z :=
  match n with
  | O => inr difsmall
  | S n =>
      if prefix lp pos <? prefix rp pos then
        if prefix lp pos + 1 <? prefix rp pos then
          inl (set_size (pos + 1) (put pos (prefix lp pos + 1) lp))
        else between_scan lp rp (pos + 1) (if difsmall =? 0 then pos else difsmall) n
      else between_scan lp rp (pos + 1) difsmall n
  end.

Definition betweenNID (lp rp : t_prefix) : t_prefix :=
  match between_scan lp rp 0 0 (Z.to_nat (Z.min (size lp) (size rp))) with
  | inl r => r
  | inr difsmall =>
      if negb (difsmall =? 0) then
        if difsmall <? size lp - 1 then incrementNID_between lp (difsmall + 1)
        else
          let lp := put (difsmall + 2) DEF_LETTER (put (difsmall + 1) ALPHABET_SIZE lp) in
          set_size (size lp + 2) lp
      else decrementNID rp (size lp + 1)
  end.

(** ** The labels of new nodes *)

(** The hints of a bulk load: the number of letters a child adds and the step
    between siblings. *)
Record nid_hint_t := mk_hint { hint_size : Z; increment : Z }.

(** The carry of [nid_create_right] from position [pos] on, [n] positions may
    still be changed. *)
Fixpoint hint_carry (lp : t_prefix) (pos : Z) (n : nat) : res nid_exn t_prefix :=
  match n with
  | O => Throw SE2023
  | S n =>
      let pos := pos - 1 in
      let lp := put pos (prefix lp pos + 1) lp in
      if negb (prefix lp pos =? ALPHABET_SIZE) then Ok lp
      else hint_carry (put pos 1 lp) pos n
  end.

Definition nid_create_between (left right : t_prefix) : t_prefix := betweenNID left right.

Definition nid_create_right (sizehnt : option nid_hint_t) (left : t_prefix) (parent_size : Z)
  : res nid_exn t_prefix :=
  match sizehnt with
  | Some h =>
      let pos := size left - 1 in
      if prefix left pos + increment h <? ALPHABET_SIZE then
        Ok (put pos (prefix left pos + increment h) left)
      else
        let lp := put pos (increment h + prefix left pos - MAX_LETTER) left in
        hint_carry lp pos (Z.to_nat (hint_size h - 1))
  | None => incrementNID left parent_size
  end.

Definition nid_create_left (right : t_prefix) (parent_size : Z) : t_prefix :=
  decrementNID right parent_size.

Definition nid_create_child (sizehnt : option nid_hint_t) (parent : t_prefix) : t_prefix :=
  match sizehnt with
  | Some h =>
      let pp := fill parent (size parent) (Z.to_nat (hint_size h - 1)) 1 in
      let pp := put (size pp + hint_size h - 1) (1 + hint_size h) pp in
      set_size (size pp + hint_size h) pp
  | None => set_size (size parent + 1) (put (size parent) 1 parent)
  end.

(** The label of a node that is inserted between two siblings, of which each
    may be missing (mo/nodeinsert.cpp). *)
Definition createNID (sizehnt : option nid_hint_t) (left_sibling right_sibling : option t_prefix)
    (parent : t_prefix) : res nid_exn t_prefix :=
  match left_sibling, right_sibling with
  | Some l, Some r => Ok (nid_create_between l r)
  | Some l, None => nid_create_right sizehnt l (size parent)
  | None, Some r => Ok (nid_create_left r (size parent))
  | None, None => Ok (nid_create_child sizehnt parent)
  end.

(** *** The hints of a bulk load (updates/bulkload.cpp)

    [ceil (log10 count / log10 254)] is the number of letters that [count]
    labels need.  The powers of 254 are exact [double]s; the conversion of one
    that is no [int] (from the fourth on) gives [INT_MIN] on the platforms the
    program is built for. *)
Definition hint_letters (count : Z) : Z :=
  if count <=? 1 then 0
  else if count <=? MAX_LETTER then 1
  else if count <=? MAX_LETTER ^ 2 then 2
  else if count <=? MAX_LETTER ^ 3 then 3
  else 4.

Definition double_to_int (v : Z) : Z := if (INT_MIN <=? v) && (v <=? INT_MAX) then v else INT_MIN.

Definition bulk_hint (children : Z) : nid_hint_t :=
  let count := Z.max children 1 in
  let size_ := Z.max (hint_letters count) 1 in
  mk_hint size_ (Z.min DEF_LETTER (Z.quot (double_to_int (MAX_LETTER ^ size_)) (2 + count))).

(** A child as the data parser of a bulk load meets it: an element, whose own
    children are parsed before the next child comes, or any other node. *)
Inductive child_kind := CHILD_ELEMENT | CHILD_OTHER.

(** The labels of the children of a node, in order.  [DataParser::init] sets
    the global [sizehnt] to the hint of the level of the node and [left] to
    nothing; every child is inserted behind [left], which is null only before
    the first.  An element child sets [sizehnt] to the hint of its own level
    and, when it is closed, to null: for the children behind it there is no
    hint any more. *)
Fixpoint bulk_children (sizehnt : option nid_hint_t) (left : option t_prefix) (parent : t_prefix)
    (children : list child_kind) : res nid_exn (list t_prefix) :=
  match children with
  | [] => Ok []
  | c :: children =>
      let* x := createNID sizehnt left None parent in
      let sizehnt := match c with CHILD_ELEMENT => None | CHILD_OTHER => sizehnt end in
      let* xs := bulk_children sizehnt (Some x) parent children in
      Ok (x :: xs)
  end.

(** ** The labels of documents *)

(** The search for a letter that can be incremented: [n] letters to go, the
    first at [pos]. *)
Fixpoint root_scan (last_nid : t_prefix) (pos : Z) (n : nat) : option Z :=
  match n with
  | O => None
  | S n =>
      if prefix last_nid pos <? MAX_LETTER then Some pos
      else root_scan last_nid (pos - 2) n
  end.

(** Writes [v] to [pos], [pos + 2], ..., [n] letters. *)
Fixpoint fill_even (lp : t_prefix) (pos : Z) (n : nat) (v : Z) : t_prefix :=
  match n with
  | O => lp
  | S n => fill_even (put pos v lp) (pos + 2) n v
  end.

Definition updateEP_nid (last_nid : t_prefix) : t_prefix :=
  let last_nid_size := size last_nid in
  if last_nid_size =? 255 then last_nid
  else if last_nid_size =? 0 then mk_prefix (prefix (put 0 1 last_nid)) 1
  else if negb (prefix last_nid (last_nid_size - 1) =? MAX_LETTER) then
    put (last_nid_size - 1) (prefix last_nid (last_nid_size - 1) + 1) last_nid
  else
    match root_scan last_nid (last_nid_size - 3) (Z.to_nat ((last_nid_size - 1) / 2)) with
    | Some pos =>
        fill_even (put pos (prefix last_nid pos + 1) last_nid) (pos + 2)
          (Z.to_nat ((last_nid_size - pos - 1) / 2)) 1
    | None =>
        let n := last_nid_size + 2 in
        let l := fill_even last_nid 0 (Z.to_nat ((n + 1) / 2)) 1 in
        let l := fill_even l 1 (Z.to_nat (n / 2)) ALPHABET_SIZE in
        mk_prefix (prefix l) n
    end.

(** ** Comparisons *)

Fixpoint lex_cmp_loop (p1 p2 : t_prefix) (i : Z) (n : nat) : Z :=
  match n with
  | O => if size p1 >? size p2 then 1 else if size p2 >? size p1 then -1 else 0
  | S n =>
      if negb (Z.lxor (prefix p1 i) (prefix p2 i) =? 0) then
        if prefix p1 i >? prefix p2 i then 1 else -1
      else lex_cmp_loop p1 p2 (i + 1) n
  end.

Definition lex_cmp (p1 p2 : t_prefix) : Z :=
  lex_cmp_loop p1 p2 0 (Z.to_nat (Z.min (size p1) (size p2))).

(** The loop runs down from the last byte of [p1]. *)
Fixpoint lex_ispref_loop (p1 p2 : t_prefix) (n : nat) : bool :=
  match n with
  | O => true
  | S n =>
      if negb (Z.lxor (prefix p1 (Z.of_nat n)) (prefix p2 (Z.of_nat n)) =? 0) then false
      else lex_ispref_loop p1 p2 n
  end.

Definition lex_ispref (p1 p2 : t_prefix) : bool := lex_ispref_loop p1 p2 (Z.to_nat (size p1)).

(** [memcmp] on the first [n] bytes, its sign. *)
Fixpoint memcmp_sign (p1 p2 : t_prefix) (i : Z) (n : nat) : Z :=
  match n with
  | O => 0
  | S n =>
      if prefix p1 i <? prefix p2 i then -1
      else if prefix p2 i <? prefix p1 i then 1
      else memcmp_sign p1 p2 (i + 1) n
  end.

(** The comparisons of two nodes, given their labels and whether they are the
    same node. *)
Definition nid_cmp (same_node : bool) (p1 p2 : t_prefix) : Z :=
  if same_node then 0 else lex_cmp p1 p2.

Definition nid_cmp_effective (same_node : bool) (p1 p2 : t_prefix) : Z :=
  if same_node then 0
  else
    let result := memcmp_sign p1 p2 0 (Z.to_nat (Z.min (size p1) (size p2))) in
    if result =? 0 then
      if size p1 >? size p2 then (if prefix p1 (size p2) =? ALPHABET_SIZE then 1 else 2)
      else (if prefix p2 (size p1) =? ALPHABET_SIZE then -1 else -2)
    else result.

Definition nid_ancestor (p1 p2 : t_prefix) : bool :=
  if size p1 >=? size p2 then false
  else negb (prefix p2 (size p1) =? ALPHABET_SIZE) && lex_ispref p1 p2.

Definition nid_descendant (p1 p2 : t_prefix) : bool := nid_ancestor p2 p1.
