(* ===== verification/NidOrder.v ===== *)
(** * Node labels: order, ancestry, and the labels of new nodes

    Every label that the numbering scheme makes for a new node lies strictly
    between its neighbours in document order, is unrelated to them as
    ancestor or descendant, and belongs to the subtree of the parent. *)

From Stdlib Require Import ZArith List Lia Bool.
From S2P Require Import Prelude Nid.
Import ListNotations.
Local Open Scope Z_scope.
Local Open Scope sedna_scope.

(** ** Orders on labels *)

(** The first [i] letters are the same. *)
Definition agree (x y : t_prefix) (i : Z) : Prop :=
  forall j, 0 <= j < i -> prefix x j = prefix y j.

(** Document order. *)
Definition doc_before (x y : t_prefix) : Prop :=
  exists i, 0 <= i /\ agree x y i /\
    ((i < size x /\ i < size y /\ prefix x i < prefix y i) \/ (i = size x /\ i < size y)).

(** [x] is the label of an ancestor of [y]. *)
Definition ancestor (x y : t_prefix) : Prop :=
  size x < size y /\ agree x y (size x) /\ prefix y (size x) <> ALPHABET_SIZE.

(** [x] comes before [y] and is not its ancestor. *)
Definition precedes (x y : t_prefix) : Prop :=
  exists i, 0 <= i /\ agree x y i /\
    ((i < size x /\ i < size y /\ prefix x i < prefix y i) \/
     (i = size x /\ i < size y /\ prefix y i = ALPHABET_SIZE)).

Definition same_label (x y : t_prefix) : Prop := size x = size y /\ agree x y (size x).

(** ** Well-formed labels *)

Definition is_label (x : t_prefix) : Prop :=
  1 <= size x < 65536 /\ (forall j, 0 <= j < size x -> 0 <= prefix x j <= 255) /\
  1 <= prefix x (size x - 1) <= 254.

(** Room for the letters that one operation can add. *)
Definition has_room (x : t_prefix) : Prop := size x + 2 < 65536.

(** A label of the subtree below the first [n] letters of [x]. *)
Definition below (n : Z) (x y : t_prefix) : Prop :=
  n < size y /\ agree x y n /\ prefix y n <> ALPHABET_SIZE.

(** ** Registers *)

Lemma prefix_put i v p j : prefix (put i v p) j = if j =? i then u8 v else prefix p j.
Proof. reflexivity. Qed.

Lemma prefix_put_eq i v p : 0 <= v <= 255 -> prefix (put i v p) i = v.
Proof. intros H. rewrite prefix_put, Z.eqb_refl. apply u8_small. lia. Qed.

Lemma prefix_put_ne i v p j : j <> i -> prefix (put i v p) j = prefix p j.
Proof. intros H. rewrite prefix_put. destruct (Z.eqb_spec j i); [contradiction|reflexivity]. Qed.

Lemma size_put i v p : size (put i v p) = size p.
Proof. reflexivity. Qed.

Lemma prefix_set_size n p : prefix (set_size n p) = prefix p.
Proof. reflexivity. Qed.

Lemma size_set_size n p : 0 <= n < 65536 -> size (set_size n p) = n.
Proof. apply u16_small. Qed.

(** [nid_norm] evaluates the sizes of updated registers, [nid_at] splits a
    goal about a letter by the writes to the register, [letters Hb] closes
    the goals about letters that the bounds [Hb] of the old ones decide. *)
Ltac nid_norm :=
  rewrite ?prefix_set_size, ?size_put in *;
  rewrite ?size_set_size by (rewrite ?size_put; lia);
  repeat match goal with
  | H : context [size (set_size _ _)] |- _ => rewrite size_set_size in H by (rewrite ?size_put; lia)
  end;
  rewrite ?prefix_set_size, ?size_put in *.

Ltac nid_at :=
  repeat (rewrite prefix_put; case Z.eqb_spec; intros ?);
  unfold ALPHABET_SIZE, MAX_LETTER, DEF_LETTER in *;
  rewrite ?u8_small by lia.

Ltac letters Hb :=
  unfold agree; intros; nid_norm; nid_at; try lia; try reflexivity; try assumption;
  try (apply Hb; lia);
  try (match goal with |- context [prefix ?p ?j] => pose proof (Hb j) end; lia).

Lemma agree_refl x i : agree x x i.
Proof. intros j _. reflexivity. Qed.

Lemma agree_sym x y i : agree x y i -> agree y x i.
Proof. intros H j Hj. symmetry. auto. Qed.

Lemma agree_trans x y z i : agree x y i -> agree y z i -> agree x z i.
Proof. intros H1 H2 j Hj. rewrite H1 by lia. auto. Qed.

Lemma agree_le x y i k : agree x y i -> k <= i -> agree x y k.
Proof. intros H Hk j Hj. apply H. lia. Qed.

#[export] Hint Resolve agree_refl agree_sym : sedna.

(** ** decrementNID *)

(** What an operation on a label [x] promises: a label that agrees with it up
    to [n], stays below the first [n] letters. *)
Record derived (n : Z) (x r : t_prefix) : Prop := {
  dv_label : is_label r;
  dv_size : n < size r;
  dv_agree : agree r x n;
  dv_below : prefix x n <> ALPHABET_SIZE -> prefix r n <> ALPHABET_SIZE }.

Section Decrement.
Context (x : t_prefix) (n : Z) (Hx : is_label x) (Hr : has_room x) (Hn : 0 <= n < size x).

Lemma decrement_scan_spec k :
  Z.of_nat k <= size x - 1 - n -> prefix x (size x - 1) = 1 ->
  (forall j, n + Z.of_nat k <= j < size x - 1 -> prefix x j = 0) ->
  derived n x (decrement_scan x n k) /\ precedes (decrement_scan x n k) x.
Proof.
  destruct Hx as (Hsz & Hb & Hl). unfold has_room in Hr.
  induction k as [|k IH]; intros Hk H1 H0; cbn [decrement_scan].
  - split; [|exists (size x - 1); repeat split; letters Hb].
    repeat split; letters Hb.
  - set (pos := n + Z.of_nat k) in *. assert (Hp : n <= pos < size x - 1) by lia.
    pose proof (Hb pos ltac:(lia)) as Hbp.
    destruct (Z.gtb_spec (prefix x pos) 0) as [Hpos|Hz].
    + destruct (Z.gtb_spec (prefix x pos) 1) as [Hgt|Hle];
        (split; [|exists pos; repeat split; letters Hb]); repeat split; letters Hb.
    + apply IH; [lia|assumption|]. intros j Hj.
      destruct (Z.eq_dec j pos) as [->|]; [lia|apply H0; lia].
Qed.

Lemma decrementNID_spec : derived n x (decrementNID x n) /\ precedes (decrementNID x n) x.
Proof.
  unfold decrementNID. pose proof Hx as (Hsz & Hb & Hl). pose proof Hr as Hr'. unfold has_room in Hr'.
  destruct (Z.eqb_spec (prefix x (size x - 1)) 1) as [H1|H1]; cbn [negb].
  - destruct (Z.gtb_spec (size x - n) 1).
    + apply decrement_scan_spec; [lia|assumption|]. intros j Hj. lia.
    + split; [|exists (size x - 1); repeat split; letters Hb]. repeat split; letters Hb.
  - split; [|exists (size x - 1); repeat split; letters Hb]. repeat split; letters Hb.
Qed.
End Decrement.

(** ** Loops that write letters *)

Lemma fill_spec n : forall p pos v, 0 <= v <= 255 ->
  size (fill p pos n v) = size p /\
  forall j, prefix (fill p pos n v) j = if (pos <=? j) && (j <? pos + Z.of_nat n) then v else prefix p j.
Proof.
  induction n as [|n IH]; intros p pos v Hv; cbn [fill].
  - split; [reflexivity|]. intros j. destruct (Z.leb_spec pos j), (Z.ltb_spec j (pos + Z.of_nat 0)); cbn; lia || reflexivity.
  - destruct (IH (put pos v p) (pos + 1) v Hv) as [Hs Hj]. split; [exact Hs|]. intros j. rewrite Hj, prefix_put.
    destruct (Z.leb_spec (pos + 1) j), (Z.ltb_spec j (pos + 1 + Z.of_nat n)),
      (Z.leb_spec pos j), (Z.ltb_spec j (pos + Z.of_nat (S n))), (Z.eqb_spec j pos);
      cbn [andb]; rewrite ?u8_small by lia; lia || reflexivity.
Qed.

(** What the carry does: it stops at [c], the last position before
    [s + n] whose letter is not the maximal one. *)
Definition carried (lp r : t_prefix) (s c e : Z) : Prop :=
  size r = size lp /\ prefix r c = prefix lp c + 1 /\
  (forall j, c < j <= e -> prefix r j = 1) /\
  (forall j, c < j < e -> prefix lp j = ALPHABET_SIZE) /\
  (forall j, j < c \/ e < j -> prefix r j = prefix lp j).

Lemma carry_between_spec n : forall lp s,
  (forall j, s <= j < s + Z.of_nat n -> 0 <= prefix lp j <= 255) ->
  let (r, done) := carry_between lp s n in
  if done then exists c, s <= c < s + Z.of_nat n /\ prefix lp c <> ALPHABET_SIZE /\ carried lp r s c (s + Z.of_nat n)
  else size r = size lp /\ (forall j, s <= j < s + Z.of_nat n -> prefix lp j = ALPHABET_SIZE) /\
       (forall j, j <= s \/ s + Z.of_nat n < j -> prefix r j = prefix lp j).
Proof.
  induction n as [|n IH]; intros lp s Hb; cbn [carry_between].
  - repeat split; intros; lia || reflexivity.
  - set (pos := s + Z.of_nat (S n)) in *.
    assert (E : prefix (put pos 1 lp) (pos - 1) = prefix lp (pos - 1)) by (apply prefix_put_ne; lia).
    rewrite E. destruct (Z.eqb_spec (prefix lp (pos - 1)) ALPHABET_SIZE) as [H255|Hne]; cbn [negb].
    + specialize (IH (put pos 1 lp) s). destruct (carry_between (put pos 1 lp) s n) as [r done].
      assert (Hsame : forall j, j <> pos -> prefix (put pos 1 lp) j = prefix lp j) by (intros; now apply prefix_put_ne).
      assert (Hpos : prefix (put pos 1 lp) pos = 1) by (apply prefix_put_eq; lia).
      destruct done.
      * destruct IH as (c & Hc & Hcn & H1 & H2 & H3 & H4 & H5); [intros j Hj; rewrite Hsame by lia; apply Hb; lia|].
        rewrite Hsame in Hcn, H2 by lia. exists c. split; [lia|]. split; [exact Hcn|]. split; [exact H1|].
        split; [exact H2|]. split; [|split].
        -- intros j Hj. destruct (Z.eq_dec j pos) as [->|]; [rewrite H5 by lia; exact Hpos|apply H3; lia].
        -- intros j Hj. destruct (Z.eq_dec j (pos - 1)) as [->|]; [exact H255|]. rewrite <- Hsame by lia. apply H4. lia.
        -- intros j Hj. rewrite H5 by lia. apply Hsame. lia.
      * destruct IH as (H1 & H2 & H3); [intros j Hj; rewrite Hsame by lia; apply Hb; lia|].
        split; [exact H1|]. split.
        -- intros j Hj. destruct (Z.eq_dec j (pos - 1)) as [->|]; [exact H255|]. rewrite <- Hsame by lia. apply H2. lia.
        -- intros j Hj. rewrite H3 by lia. apply Hsame. lia.
    + exists (pos - 1). split; [lia|]. split; [exact Hne|]. pose proof (Hb (pos - 1) ltac:(lia)) as Hbp.
      unfold ALPHABET_SIZE in *. repeat split.
      * apply prefix_put_eq. lia.
      * intros j Hj. rewrite prefix_put_ne by lia. replace j with pos by lia. apply prefix_put_eq. lia.
      * intros j Hj. lia.
      * intros j Hj. rewrite !prefix_put_ne by lia. reflexivity.
Qed.

Lemma carry_right_fst n : forall lp s, carry_right lp s n = fst (carry_between lp s n).
Proof.
  induction n as [|n IH]; intros lp s; cbn [carry_right carry_between]; [reflexivity|].
  destruct (negb _); [reflexivity|apply IH].
Qed.

(** ** incrementNID_between and incrementNID *)

Section Increment.
Context (x : t_prefix) (n : Z) (Hx : is_label x) (Hr : has_room x) (Hn : 0 <= n < size x).

(** The label with its last letter incremented. *)
Let x1 := put (size x - 1) (prefix x (size x - 1) + 1) x.

Lemma bumped_letters :
  size x1 = size x /\ prefix x1 (size x - 1) = prefix x (size x - 1) + 1 /\
  (forall j, j <> size x - 1 -> prefix x1 j = prefix x j) /\
  (forall j, 0 <= j < size x -> 0 <= prefix x1 j <= 255).
Proof.
  destruct Hx as (Hsz & Hb & Hl). unfold x1. repeat split.
  - apply prefix_put_eq. lia.
  - intros j Hj. now apply prefix_put_ne.
  - nid_at; [lia|]. apply Hb. lia.
  - nid_at; [lia|]. apply Hb. lia.
Qed.

Lemma bumped_spec :
  prefix x (size x - 1) <> 254 -> prefix x1 n <> ALPHABET_SIZE \/ n < size x - 1 ->
  derived n x x1 /\ precedes x x1.
Proof.
  intros H254 Hnn. destruct Hx as (Hsz & Hb & Hl). destruct bumped_letters as (E1 & E2 & E3 & E4). split.
  - split.
    + unfold is_label. rewrite E1, E2. repeat split; try lia; apply E4; lia.
    + lia.
    + intros j Hj. apply E3. lia.
    + intros He. destruct (Z.eq_dec n (size x - 1)) as [->|]; [rewrite E2; unfold ALPHABET_SIZE; lia|].
      now rewrite E3 by lia.
  - exists (size x - 1). rewrite E1, E2. split; [lia|]. split; [|lia]. intros j Hj. rewrite E3 by lia. reflexivity.
Qed.

(** A carry that stops at [c]. *)
Lemma carried_spec r c :
  prefix x (size x - 1) = 254 -> n <= c < size x - 1 -> prefix x c <> ALPHABET_SIZE ->
  carried x1 r n c (size x - 1) ->
  is_label r /\ size r = size x /\ agree r x c /\ prefix r c = prefix x c + 1 /\ precedes x r.
Proof.
  intros H254 Hc Hne (H1 & H2 & H3 & _ & H5). destruct Hx as (Hsz & Hb & Hl).
  destruct bumped_letters as (E1 & E2 & E3 & E4). rewrite E1 in H1. rewrite E3 in H2 by lia.
  assert (Hag : agree r x c) by (intros j Hj; rewrite H5, E3 by lia; reflexivity).
  pose proof (Hb c ltac:(lia)) as Hbc. unfold ALPHABET_SIZE in *. repeat split; try assumption; try lia.
  - destruct (Z.eq_dec j c) as [->|]; [lia|]. destruct (Z.lt_ge_cases j c); [rewrite Hag by lia; apply Hb; lia|].
    rewrite H3 by lia. lia.
  - destruct (Z.eq_dec j c) as [->|]; [lia|]. destruct (Z.lt_ge_cases j c); [rewrite Hag by lia; apply Hb; lia|].
    rewrite H3 by lia. lia.
  - rewrite H1, H3 by lia. lia.
  - rewrite H1, H3 by lia. lia.
  - exists c. rewrite H1, H2. split; [lia|]. split; [now apply agree_sym|lia].
Qed.

(** A label that ends in [k] maximal letters and two new ones. *)
Lemma extended_spec r m :
  prefix x (size x - 1) = 254 -> size r = size x + 2 -> m <= size x - 1 ->
  (forall j, m <= j < size x - 1 -> prefix x j = ALPHABET_SIZE) ->
  agree r x m -> (forall j, m <= j < size x -> prefix r j = ALPHABET_SIZE) ->
  prefix r (size x) = DEF_LETTER -> prefix r (size x + 1) = 1 ->
  is_label r /\ precedes x r.
Proof.
  intros H254 Hs Hn1 Hmax Hag Hfill Hd H1. destruct Hx as (Hsz & Hb & Hl). unfold has_room in Hr.
  unfold ALPHABET_SIZE, DEF_LETTER in *.
  assert (Hbr : forall j, 0 <= j < size r -> 0 <= prefix r j <= 255).
  { intros j Hj. destruct (Z.lt_ge_cases j m); [rewrite Hag by lia; apply Hb; lia|].
    destruct (Z.lt_ge_cases j (size x)); [rewrite Hfill by lia; lia|].
    destruct (Z.eq_dec j (size x)) as [->|]; [lia|]. replace j with (size x + 1) by lia. lia. }
  repeat split; try lia; try (apply Hbr; lia).
  - rewrite Hs. replace (size x + 2 - 1) with (size x + 1) by lia. lia.
  - rewrite Hs. replace (size x + 2 - 1) with (size x + 1) by lia. lia.
  - exists (size x - 1). split; [lia|]. split; [|left; rewrite Hfill by lia; lia].
    intros j Hj. destruct (Z.lt_ge_cases j m); [symmetry; apply Hag; lia|].
    rewrite Hmax, Hfill by lia. reflexivity.
Qed.

(** The extension step of both functions: maximal letters from [m] to the
    end of the old label, and two more letters. *)
Definition extension (r : t_prefix) (m : Z) : t_prefix :=
  let lp := fill r m (Z.to_nat (size x - m)) ALPHABET_SIZE in
  let lp := put (size lp + 1) 1 (put (size lp) DEF_LETTER lp) in
  set_size (size lp + 2) lp.

Lemma extension_spec r m :
  prefix x (size x - 1) = 254 -> size r = size x -> 0 <= m <= size x - 1 ->
  (forall j, m <= j < size x - 1 -> prefix x j = ALPHABET_SIZE) -> agree r x m ->
  is_label (extension r m) /\ size (extension r m) = size x + 2 /\
  agree (extension r m) x m /\ precedes x (extension r m).
Proof.
  intros H254 Hs Hm Hmax Hag. pose proof Hx as (Hsz & Hb & Hl). pose proof Hr as Hr0. unfold has_room in Hr0.
  destruct (fill_spec (Z.to_nat (size x - m)) r m ALPHABET_SIZE ltac:(unfold ALPHABET_SIZE; lia)) as [F1 F2].
  rewrite Hs in F1. rewrite Z2Nat.id in F2 by lia. unfold extension. cbn zeta.
  set (f := fill r m _ _) in *. rewrite F1, size_put, size_put, F1.
  assert (Hold : forall j, 0 <= j < m -> prefix f j = prefix x j).
  { intros j Hj. rewrite F2. destruct (Z.leb_spec m j); [lia|]. cbn. apply Hag. lia. }
  assert (Hnew : forall j, m <= j < size x -> prefix f j = ALPHABET_SIZE).
  { intros j Hj. rewrite F2. destruct (Z.leb_spec m j), (Z.ltb_spec j (m + (size x - m))); cbn; lia || reflexivity. }
  assert (Hag2 : agree (set_size (size x + 2) (put (size x + 1) 1 (put (size x) DEF_LETTER f))) x m).
  { intros j Hj. rewrite prefix_set_size, !prefix_put_ne by lia. apply Hold. lia. }
  match goal with |- is_label ?q /\ _ => destruct (extended_spec q m) as [X1 X2] end;
    rewrite ?size_set_size, ?prefix_set_size by lia; try lia; try assumption.
  - intros j Hj. rewrite !prefix_put_ne by lia. apply Hnew. lia.
  - rewrite prefix_put_ne by lia. apply prefix_put_eq. unfold DEF_LETTER. lia.
  - apply prefix_put_eq. lia.
  - auto.
Qed.

Lemma incrementNID_between_spec :
  let r := incrementNID_between x n in
  is_label r /\ n < size r /\ agree r x n /\ precedes x r.
Proof.
  cbn zeta. unfold incrementNID_between. fold x1. pose proof bumped_letters as (E1 & E2 & E3 & E4).
  pose proof Hx as (Hsz & Hb & Hl). pose proof Hr as Hr0. unfold has_room in Hr0.
  rewrite E1, E2. destruct (Z.eqb_spec (prefix x (size x - 1) + 1) ALPHABET_SIZE) as [H255|Hne].
  2: { assert (H254 : prefix x (size x - 1) <> 254) by (unfold ALPHABET_SIZE in *; lia).
       split; [|split; [lia|split]].
       - unfold is_label. rewrite E1, E2. unfold ALPHABET_SIZE in *. repeat split; try lia; apply E4; lia.
       - intros j Hj. apply E3. lia.
       - exists (size x - 1). rewrite E1, E2. split; [lia|]. split; [|lia].
         intros j Hj. rewrite E3 by lia. reflexivity. }
  assert (H254 : prefix x (size x - 1) = 254) by (unfold ALPHABET_SIZE in *; lia).
  pose proof (carry_between_spec (Z.to_nat (size x - 1 - n)) x1 n) as HC. rewrite Z2Nat.id in HC by lia.
  replace (n + (size x - 1 - n)) with (size x - 1) in HC by lia.
  specialize (HC ltac:(intros j Hj; apply E4; lia)).
  destruct (carry_between x1 n _) as [r done]. destruct done.
  - destruct HC as (c & Hc & Hcn & HC). rewrite E3 in Hcn by lia.
    destruct (carried_spec r c H254 Hc Hcn HC) as (R1 & R2 & R3 & R4 & R5).
    split; [exact R1|]. split; [lia|]. split; [|exact R5]. eapply agree_le; [exact R3|lia].
  - destruct HC as (S1 & S2 & S3). rewrite S1, E1 in *.
    change (is_label (extension r n) /\ n < size (extension r n) /\
            agree (extension r n) x n /\ precedes x (extension r n)).
    destruct (extension_spec r n) as (X1 & X2 & X3 & X4); try assumption; try lia; [| |auto with zarith].
    + intros j Hj. rewrite <- E3 by lia. apply S2. lia.
    + intros j Hj. rewrite S3, E3 by lia. reflexivity.
Qed.

(** The carry of [incrementNID] is always absorbed, because the first
    letter of the child is not the maximal one. *)
Lemma full_right :
  prefix x n <> ALPHABET_SIZE -> prefix x (size x - 1) = 254 -> n < size x - 1 ->
  let lp := carry_right x1 n (Z.to_nat (size x - 1 - n)) in
  exists r,
    (if prefix lp n =? ALPHABET_SIZE then
       let lp := put n MAX_LETTER lp in
       let lp := fill lp (n + 1) (Z.to_nat (size lp - (n + 1))) ALPHABET_SIZE in
       let lp := put (size lp + 1) 1 (put (size lp) DEF_LETTER lp) in
       Ok (set_size (size lp + 2) lp)
     else Ok lp) = Ok (E := nid_exn) r /\ derived n x r /\ precedes x r.
Proof.
  intros Hxn H254 Hlt. pose proof bumped_letters as (E1 & E2 & E3 & E4). cbn zeta. rewrite carry_right_fst.
  pose proof (carry_between_spec (Z.to_nat (size x - 1 - n)) x1 n) as HC. rewrite Z2Nat.id in HC by lia.
  replace (n + (size x - 1 - n)) with (size x - 1) in HC by lia.
  specialize (HC ltac:(intros j Hj; apply E4; lia)).
  destruct (carry_between x1 n _) as [r done]; cbn [fst].
  destruct done; [|destruct HC as (_ & S2 & _); exfalso; apply Hxn; rewrite <- E3 by lia; apply S2; lia].
  destruct HC as (c & Hc & Hcn & HC). rewrite E3 in Hcn by lia.
  destruct (carried_spec r c H254 Hc Hcn HC) as (R1 & R2 & R3 & R4 & R5).
  destruct (Z.eqb_spec (prefix r n) ALPHABET_SIZE) as [Hfull|Hnf].
  - assert (c = n) as -> by (destruct (Z.eq_dec c n); [assumption|]; rewrite R3 in Hfull by lia; contradiction).
    assert (Hxn254 : prefix x n = MAX_LETTER) by (unfold ALPHABET_SIZE, MAX_LETTER in *; lia).
    eexists. split; [reflexivity|].
    replace (size (put n MAX_LETTER r) - (n + 1)) with (size x - (n + 1)) by (rewrite size_put, R2; reflexivity).
    change (derived n x (extension (put n MAX_LETTER r) (n + 1)) /\ precedes x (extension (put n MAX_LETTER r) (n + 1))).
    assert (Hag : agree (put n MAX_LETTER r) x (n + 1)).
    { intros j Hj. destruct (Z.eq_dec j n) as [->|]; [rewrite prefix_put_eq by (unfold MAX_LETTER; lia); lia|].
      rewrite prefix_put_ne by lia. apply R3. lia. }
    destruct HC as (_ & _ & _ & Hmid & _).
    destruct (extension_spec (put n MAX_LETTER r) (n + 1)) as (X1 & X2 & X3 & X4); [assumption|assumption|lia| |assumption|].
    { intros j Hj. rewrite <- E3 by lia. apply Hmid. lia. }
    split; [|exact X4]. split; [exact X1|lia|eapply agree_le; [exact X3|lia]|].
    intros _. rewrite X3 by lia. assumption.
  - exists r. split; [reflexivity|]. split; [|exact R5]. split; [exact R1|lia|eapply agree_le; [exact R3|lia]|].
    intros _. exact Hnf.
Qed.

Lemma incrementNID_spec :
  prefix x n <> ALPHABET_SIZE ->
  exists r, incrementNID x n = Ok r /\ derived n x r /\ precedes x r.
Proof.
  intros Hxn. unfold incrementNID. fold x1. pose proof bumped_letters as (E1 & E2 & E3 & E4).
  pose proof Hx as (Hsz & Hb & Hl). pose proof Hr as Hr0. unfold has_room in Hr0. rewrite E1, E2.
  destruct (Z.eqb_spec (prefix x1 n) ALPHABET_SIZE) as [Hfull|Hnf].
  - assert (Hlast : n = size x - 1) by (destruct (Z.eq_dec n (size x - 1)); [assumption|]; rewrite E3 in Hfull; lia).
    rewrite Hlast, E2 in Hfull. unfold ALPHABET_SIZE, MAX_LETTER in *.
    destruct (Z.eqb_spec (size x) (n + 1)); [|lia]. cbn [negb]. eexists. split; [reflexivity|].
    rewrite !size_put, E1. split; [repeat split|exists (size x); repeat split]; letters E4.
    all: try (rewrite E3 by lia; reflexivity).
    all: try (rewrite <- E3 by lia; reflexivity).
    all: replace j with (size x - 1) by lia; lia.
  - destruct (Z.eqb_spec (prefix x (size x - 1) + 1) ALPHABET_SIZE) as [H255|Hne].
    + apply full_right; [assumption|unfold ALPHABET_SIZE in *; lia|].
      destruct (Z.eq_dec n (size x - 1)) as [->|]; [rewrite E2 in Hnf; contradiction|lia].
    + exists x1. split; [reflexivity|]. apply bumped_spec; [unfold ALPHABET_SIZE in *; lia|now left].
Qed.
End Increment.

(** ** betweenNID *)

(** The result of the search for a difference from [pos >= 1] on. *)
Lemma between_scan_spec k : forall lp rp pos d,
  1 <= pos ->
  match between_scan lp rp pos d k with
  | inl r => exists p, pos <= p < pos + Z.of_nat k /\ prefix lp p + 1 < prefix rp p /\
               r = set_size (p + 1) (put p (prefix lp p + 1) lp)
  | inr d' =>
      if d =? 0 then
        (d' = 0 /\ forall j, pos <= j < pos + Z.of_nat k -> prefix rp j <= prefix lp j) \/
        (pos <= d' < pos + Z.of_nat k /\ prefix lp d' < prefix rp d' /\
         forall j, pos <= j < d' -> prefix rp j <= prefix lp j)
      else d' = d
  end.
Proof.
  induction k as [|k IH]; intros lp rp pos d Hpos; cbn [between_scan].
  - destruct (Z.eqb_spec d 0) as [->|]; [left; split; [reflexivity|lia]|reflexivity].
  - destruct (Z.ltb_spec (prefix lp pos) (prefix rp pos)) as [Hlt|Hge].
    + destruct (Z.ltb_spec (prefix lp pos + 1) (prefix rp pos)) as [Hgap|Hno].
      * exists pos. split; [lia|]. split; [exact Hgap|reflexivity].
      * specialize (IH lp rp (pos + 1) (if d =? 0 then pos else d) ltac:(lia)).
        destruct (between_scan lp rp (pos + 1) _ k) as [r|d'].
        -- destruct IH as (p & Hp & H). exists p. split; [lia|exact H].
        -- destruct (Z.eqb_spec d 0) as [->|Hd].
           ++ destruct (Z.eqb_spec pos 0); [lia|]. right. subst d'. split; [lia|]. split; [exact Hlt|lia].
           ++ destruct (Z.eqb_spec d 0); [lia|exact IH].
    + specialize (IH lp rp (pos + 1) d ltac:(lia)). destruct (between_scan lp rp (pos + 1) d k) as [r|d'].
      * destruct IH as (p & Hp & H). exists p. split; [lia|exact H].
      * destruct (d =? 0); [|exact IH]. destruct IH as [[H1 H2]|(H1 & H2 & H3)]; [left|right].
        -- split; [exact H1|]. intros j Hj. destruct (Z.eq_dec j pos) as [->|]; [lia|apply H2; lia].
        -- split; [lia|]. split; [exact H2|]. intros j Hj. destruct (Z.eq_dec j pos) as [->|]; [lia|apply H3; lia].
Qed.

Section Between.
Context (x y : t_prefix) (n : Z) (Hx : is_label x) (Hy : is_label y) (Hrx : has_room x) (Hry : has_room y).
Context (Hn : 1 <= n) (Hnx : below n x x) (Hny : below n x y) (Hxy : precedes x y).

(** A label between the two, below the same [n] letters. *)
Definition fits (r : t_prefix) : Prop := is_label r /\ below n x r /\ precedes x r /\ precedes r y.

(** The letter after the common part leaves room. *)
Lemma gap_fits i p :
  n <= i -> agree x y i -> i <= p < Z.min (size x) (size y) -> prefix x i < prefix y i ->
  prefix x p + 1 < prefix y p ->
  fits (set_size (p + 1) (put p (prefix x p + 1) x)).
Proof.
  intros Hni Hag Hp Hi Hgap. destruct Hx as (Hsx & Hbx & Hlx), Hy as (Hsy & Hby & Hly).
  pose proof (Hbx p ltac:(lia)) as Bx. pose proof (Hby p ltac:(lia)) as By.
  destruct Hnx as (_ & _ & Hxn). unfold has_room in *. split; [|split; [|split]].
  - repeat split; letters Hbx.
  - repeat split; letters Hbx.
  - exists p. repeat split; letters Hbx.
  - destruct (Z.eq_dec p i) as [->|Hne].
    + exists i. nid_norm. split; [lia|]. split; [|left; nid_at; lia].
      intros j Hj. nid_norm. nid_at; [lia|apply Hag; lia].
    + exists i. nid_norm. split; [lia|]. split; [|left; nid_at; lia].
      intros j Hj. nid_norm. nid_at; [lia|apply Hag; lia].
Qed.

(** Labels that keep the letter in which the two differ. *)
Lemma kept_difference_fits i r :
  n <= i -> agree x y i -> i < size x -> i < size y -> prefix x i < prefix y i ->
  is_label r -> i < size r -> agree r x (i + 1) -> precedes x r -> fits r.
Proof.
  intros Hni Hag Hix Hiy Hi Hr Hir Hrx' Hpr. destruct Hnx as (_ & _ & Hxn).
  split; [exact Hr|]. split; [|split; [exact Hpr|]].
  - split; [lia|]. split; [intros j Hj; symmetry; apply Hrx'; lia|]. rewrite Hrx' by lia. exact Hxn.
  - exists i. split; [lia|]. split; [|left; rewrite Hrx' by lia; lia].
    intros j Hj. rewrite Hrx' by lia. apply Hag. lia.
Qed.

Lemma appended_fits i :
  n <= i -> agree x y i -> i = size x - 1 -> i < size y -> prefix x i < prefix y i ->
  fits (set_size (size x + 2) (put (i + 2) DEF_LETTER (put (i + 1) ALPHABET_SIZE x))).
Proof.
  intros Hni Hag Hix Hiy Hi. destruct Hx as (Hsx & Hbx & Hlx). unfold has_room in *.
  apply (kept_difference_fits i); nid_norm; try lia; try assumption.
  - repeat split; letters Hbx.
  - letters Hbx.
  - exists (size x). nid_norm. split; [lia|]. split; [letters Hbx|right]. split; [lia|]. split; [lia|].
    nid_at; lia.
Qed.

(** [y] is [x], a maximal letter and more. *)
Lemma inserted_fits :
  agree x y (size x) -> size x < size y -> prefix y (size x) = ALPHABET_SIZE ->
  fits (decrementNID y (size x + 1)).
Proof.
  intros Hag Hs H255. destruct Hx as (Hsx & _ & _), Hy as (Hsy & Hby & Hly). destruct Hnx as (Hns & _ & Hxn).
  assert (Hs1 : size x + 1 < size y).
  { destruct (Z.eq_dec (size x) (size y - 1)) as [E|]; [|lia].
    rewrite E in H255. unfold ALPHABET_SIZE in *. lia. }
  destruct (decrementNID_spec y (size x + 1) Hy Hry ltac:(lia)) as [[D1 D2 D3 _] D5].
  split; [exact D1|]. split; [|split; [|exact D5]].
  - split; [lia|]. split; [intros j Hj; rewrite D3 by lia; apply Hag; lia|]. rewrite D3 by lia.
    rewrite <- Hag by lia. exact Hxn.
  - exists (size x). split; [lia|]. split; [intros j Hj; rewrite D3 by lia; apply Hag; lia|].
    right. split; [reflexivity|]. split; [lia|]. rewrite D3 by lia. exact H255.
Qed.

Lemma betweenNID_spec : fits (betweenNID x y).
Proof.
  pose proof Hx as (Hsx & Hbx & _). pose proof Hy as (Hsy & _ & _).
  destruct Hnx as (Hnsx & _ & Hxn), Hny as (Hnsy & Hag0 & Hyn). unfold betweenNID.
  assert (E : between_scan x y 0 0 (Z.to_nat (Z.min (size x) (size y)))
              = between_scan x y 1 0 (Z.to_nat (Z.min (size x) (size y) - 1))).
  { replace (Z.to_nat (Z.min (size x) (size y))) with (S (Z.to_nat (Z.min (size x) (size y) - 1))) by lia.
    cbn [between_scan]. rewrite (Hag0 0) by lia. destruct (Z.ltb_spec (prefix y 0) (prefix y 0)); [lia|reflexivity]. }
  rewrite E. pose proof (between_scan_spec (Z.to_nat (Z.min (size x) (size y) - 1)) x y 1 0 ltac:(lia)) as HS.
  rewrite Z2Nat.id in HS by lia.
  replace (1 + (Z.min (size x) (size y) - 1)) with (Z.min (size x) (size y)) in HS by lia.
  destruct Hxy as (i & Hi0 & Hag & Hcase).
  assert (Hni : n <= i).
  { destruct (Z.lt_ge_cases i n); [|lia]. destruct Hcase as [(?&?&Hlt)|(->&_&_)]; [|lia].
    rewrite Hag0 in Hlt; lia. }
  assert (Hfirst : forall j, 0 <= j < Z.min (size x) (size y) -> prefix x j < prefix y j -> i <= j).
  { intros j Hj Hlt. destruct (Z.lt_ge_cases j i); [|lia]. rewrite Hag in Hlt; lia. }
  destruct (between_scan x y 1 0 _) as [r|d].
  - destruct HS as (p & Hp & Hgap & ->). destruct Hcase as [(Hix & Hiy & Hlt)|(Hix & Hiy & H255)].
    + apply (gap_fits i); try assumption. split; [apply Hfirst; lia|lia].
    + specialize (Hfirst p). lia.
  - destruct Hcase as [(Hix & Hiy & Hlt)|(Hix & Hiy & H255)].
    + cbn [Z.eqb] in HS. destruct HS as [[-> Hall]|(Hd & Hdl & Hbefore)]; [specialize (Hall i); lia|].
      assert (d = i) as ->.
      { pose proof (Hfirst d ltac:(lia) Hdl). destruct (Z.eq_dec d i); [assumption|].
        specialize (Hbefore i). lia. }
      destruct (Z.eqb_spec i 0); [lia|]. cbn [negb].
      destruct (Z.ltb_spec i (size x - 1)) as [Hin|Hend].
      * destruct (incrementNID_between_spec x (i + 1) Hx Hrx ltac:(lia)) as (R1 & R2 & R3 & R4).
        apply (kept_difference_fits i); try assumption; lia.
      * rewrite !size_put. apply appended_fits; try assumption; lia.
    + destruct HS as [[-> _]|(Hd & Hdl & _)]; [|specialize (Hfirst d); lia].
      cbn [Z.eqb negb]. rewrite Hix in *. now apply inserted_fits.
Qed.
End Between.
