(* ===== verification/NidTree.v ===== *)
(** * Node labels: comparisons, and the labels of a document

    The comparison functions decide document order and ancestry of labels,
    and in a document whose nodes got their labels from [createNID], in any
    order of insertions and deletions, the labels tell document order and
    ancestry of the nodes. *)

From Stdlib Require Import ZArith List Lia Bool.
From S2P Require Import Prelude Nid NidOrder.
Import ListNotations.
Local Open Scope Z_scope.
Local Open Scope sedna_scope.

(** ** The comparison functions *)

Lemma lxor_zero a b : (Z.lxor a b =? 0) = true <-> a = b.
Proof. rewrite Z.eqb_eq. split; [apply Z.lxor_eq|intros ->; apply Z.lxor_nilpotent]. Qed.

(** Both loops look for the first difference among [k] letters. *)
Inductive first_difference (x y : t_prefix) (i : Z) (k : nat) : Prop :=
| fd_none : (forall j, i <= j < i + Z.of_nat k -> prefix x j = prefix y j) -> first_difference x y i k
| fd_at j : i <= j < i + Z.of_nat k -> (forall l, i <= l < j -> prefix x l = prefix y l) ->
    prefix x j <> prefix y j -> first_difference x y i k.

Lemma lex_cmp_loop_eq k : forall x y i,
  (forall j, i <= j < i + Z.of_nat k -> prefix x j = prefix y j) ->
  lex_cmp_loop x y i k = if size x >? size y then 1 else if size y >? size x then -1 else 0.
Proof.
  induction k as [|k IH]; intros x y i H; cbn [lex_cmp_loop]; [reflexivity|].
  rewrite (proj2 (lxor_zero _ _)) by (apply H; lia). cbn [negb]. apply IH. intros j Hj. apply H. lia.
Qed.

Lemma lex_cmp_loop_ne k : forall x y i j,
  i <= j < i + Z.of_nat k -> (forall l, i <= l < j -> prefix x l = prefix y l) -> prefix x j <> prefix y j ->
  lex_cmp_loop x y i k = if prefix x j >? prefix y j then 1 else -1.
Proof.
  induction k as [|k IH]; intros x y i j Hj H Hne; cbn [lex_cmp_loop]; [lia|].
  destruct (Z.eq_dec j i) as [->|Hji].
  - destruct (Z.lxor (prefix x i) (prefix y i) =? 0) eqn:E; [apply lxor_zero in E; contradiction|reflexivity].
  - rewrite (proj2 (lxor_zero _ _)) by (apply H; lia). cbn [negb]. apply IH; [lia| |exact Hne].
    intros l Hl. apply H. lia.
Qed.

Lemma memcmp_sign_eq k : forall x y i,
  (forall j, i <= j < i + Z.of_nat k -> prefix x j = prefix y j) -> memcmp_sign x y i k = 0.
Proof.
  induction k as [|k IH]; intros x y i H; cbn [memcmp_sign]; [reflexivity|].
  rewrite (H i) by lia. rewrite Z.ltb_irrefl. apply IH. intros j Hj. apply H. lia.
Qed.

Lemma memcmp_sign_ne k : forall x y i j,
  i <= j < i + Z.of_nat k -> (forall l, i <= l < j -> prefix x l = prefix y l) -> prefix x j <> prefix y j ->
  memcmp_sign x y i k = if prefix x j >? prefix y j then 1 else -1.
Proof.
  induction k as [|k IH]; intros x y i j Hj H Hne; cbn [memcmp_sign]; [lia|].
  destruct (Z.eq_dec j i) as [->|Hji].
  - destruct (Z.ltb_spec (prefix x i) (prefix y i)), (Z.ltb_spec (prefix y i) (prefix x i)),
      (Z.gtb_spec (prefix x i) (prefix y i)); lia || reflexivity.
  - rewrite (H i) by lia. rewrite Z.ltb_irrefl. apply IH; [lia| |exact Hne]. intros l Hl. apply H. lia.
Qed.

Lemma find_difference x y k : forall i, first_difference x y i k.
Proof.
  induction k as [|k IH]; intros i; [apply fd_none; lia|].
  destruct (Z.eq_dec (prefix x i) (prefix y i)) as [E|E].
  - destruct (IH (i + 1)) as [H|j Hj H Hne].
    + apply fd_none. intros j Hj. destruct (Z.eq_dec j i) as [->|]; [exact E|apply H; lia].
    + apply (fd_at _ _ _ _ j); [lia| |exact Hne]. intros l Hl.
      destruct (Z.eq_dec l i) as [->|]; [exact E|apply H; lia].
  - apply (fd_at _ _ _ _ i); [lia|lia|exact E].
Qed.

(** How two labels can be related. *)
Inductive relation (x y : t_prefix) : Prop :=
| rel_same : same_label x y -> relation x y
| rel_precedes : precedes x y -> relation x y
| rel_follows : precedes y x -> relation x y
| rel_ancestor : ancestor x y -> relation x y
| rel_descendant : ancestor y x -> relation x y.

Definition positive (x : t_prefix) : Prop := 0 < size x.

Lemma relation_total x y : positive x -> positive y -> relation x y.
Proof.
  unfold positive. intros Hx Hy.
  destruct (find_difference x y (Z.to_nat (Z.min (size x) (size y))) 0) as [H|j Hj H Hne].
  - rewrite Z2Nat.id in H by lia. destruct (Z.lt_trichotomy (size x) (size y)) as [Hlt|[E|Hgt]].
    + destruct (Z.eq_dec (prefix y (size x)) ALPHABET_SIZE) as [E|E].
      * apply rel_precedes. exists (size x). split; [lia|]. split; [intros j Hj; apply H; lia|]. right. auto.
      * apply rel_ancestor. split; [lia|]. split; [intros j Hj; apply H; lia|exact E].
    + apply rel_same. split; [exact E|]. intros j Hj. apply H. lia.
    + destruct (Z.eq_dec (prefix x (size y)) ALPHABET_SIZE) as [E|E].
      * apply rel_follows. exists (size y). split; [lia|]. split; [intros j Hj; symmetry; apply H; lia|]. right. auto.
      * apply rel_descendant. split; [lia|]. split; [intros j Hj; symmetry; apply H; lia|exact E].
  - rewrite Z2Nat.id in Hj by lia. destruct (Z.lt_ge_cases (prefix x j) (prefix y j)).
    + apply rel_precedes. exists j. split; [lia|]. split; [intros l Hl; apply H; lia|]. left. lia.
    + apply rel_follows. exists j. split; [lia|]. split; [intros l Hl; symmetry; apply H; lia|]. left. lia.
Qed.

(** The two comparisons on each relation. *)
Lemma cmp_same x y : same_label x y -> lex_cmp x y = 0.
Proof.
  intros [Hs Hag]. unfold lex_cmp. rewrite lex_cmp_loop_eq.
  - rewrite Hs. destruct (Z.gtb_spec (size y) (size y)); [lia|reflexivity].
  - intros j Hj. apply Hag. lia.
Qed.

Lemma cmp_precedes x y :
  positive x -> positive y -> precedes x y -> lex_cmp x y = -1 /\ nid_cmp_effective false x y = -1.
Proof.
  unfold positive, lex_cmp, nid_cmp_effective. intros Hx Hy (i & Hi & Hag & [(H1 & H2 & H3)|(H1 & H2 & H3)]).
  - rewrite (lex_cmp_loop_ne _ _ _ 0 i), (memcmp_sign_ne _ _ _ 0 i); try lia; try (intros l Hl; apply Hag; lia).
    destruct (Z.gtb_spec (prefix x i) (prefix y i)); [lia|]. split; reflexivity.
  - rewrite lex_cmp_loop_eq, memcmp_sign_eq by (intros j Hj; apply Hag; lia).
    destruct (Z.gtb_spec (size x) (size y)); [lia|]. destruct (Z.gtb_spec (size y) (size x)); [|lia].
    rewrite <- H1, H3. split; reflexivity.
Qed.

Lemma cmp_follows x y :
  positive x -> positive y -> precedes y x -> lex_cmp x y = 1 /\ nid_cmp_effective false x y = 1.
Proof.
  unfold positive, lex_cmp, nid_cmp_effective. intros Hx Hy (i & Hi & Hag & [(H1 & H2 & H3)|(H1 & H2 & H3)]).
  - rewrite (lex_cmp_loop_ne _ _ _ 0 i), (memcmp_sign_ne _ _ _ 0 i); try lia; try (intros l Hl; symmetry; apply Hag; lia).
    destruct (Z.gtb_spec (prefix x i) (prefix y i)); [|lia]. split; reflexivity.
  - rewrite lex_cmp_loop_eq, memcmp_sign_eq by (intros j Hj; symmetry; apply Hag; lia).
    destruct (Z.gtb_spec (size x) (size y)); [|lia]. rewrite <- H1, H3. split; reflexivity.
Qed.

Lemma cmp_ancestor x y :
  positive x -> ancestor x y -> lex_cmp x y = -1 /\ nid_cmp_effective false x y = -2.
Proof.
  unfold positive, lex_cmp, nid_cmp_effective. intros Hx (Hs & Hag & Hne).
  rewrite lex_cmp_loop_eq, memcmp_sign_eq by (intros j Hj; apply Hag; lia).
  destruct (Z.gtb_spec (size x) (size y)); [lia|]. destruct (Z.gtb_spec (size y) (size x)); [|lia].
  destruct (Z.eqb_spec (prefix y (size x)) ALPHABET_SIZE); [contradiction|]. split; reflexivity.
Qed.

Lemma cmp_descendant x y :
  positive y -> ancestor y x -> lex_cmp x y = 1 /\ nid_cmp_effective false x y = 2.
Proof.
  unfold positive, lex_cmp, nid_cmp_effective. intros Hx (Hs & Hag & Hne).
  rewrite lex_cmp_loop_eq, memcmp_sign_eq by (intros j Hj; symmetry; apply Hag; lia).
  destruct (Z.gtb_spec (size x) (size y)); [|lia].
  destruct (Z.eqb_spec (prefix x (size y)) ALPHABET_SIZE); [contradiction|]. split; reflexivity.
Qed.

Lemma ispref_spec x y : positive x -> lex_ispref x y = true <-> agree x y (size x).
Proof.
  unfold lex_ispref, positive. intros Hx.
  assert (H : forall k, lex_ispref_loop x y k = true <-> agree x y (Z.of_nat k)).
  { induction k as [|k IH]; cbn [lex_ispref_loop]; [split; [intros _ j Hj; lia|reflexivity]|].
    destruct (Z.lxor (prefix x (Z.of_nat k)) (prefix y (Z.of_nat k)) =? 0) eqn:E; cbn [negb].
    - apply lxor_zero in E. rewrite IH. split; intros Hag j Hj; [|apply Hag; lia].
      destruct (Z.eq_dec j (Z.of_nat k)) as [->|]; [exact E|apply Hag; lia].
    - split; [discriminate|]. intros Hag. rewrite (proj2 (lxor_zero _ _)) in E by (apply Hag; lia). discriminate. }
  rewrite H, Z2Nat.id by lia. reflexivity.
Qed.

Lemma nid_ancestor_spec x y : positive x -> nid_ancestor x y = true <-> ancestor x y.
Proof.
  intros Hx. unfold nid_ancestor, ancestor. destruct (Z.geb_spec (size x) (size y)).
  - split; [discriminate|lia].
  - rewrite andb_true_iff, negb_true_iff, Z.eqb_neq, (ispref_spec x y Hx). tauto.
Qed.

(** ** Laws of the orders *)

Lemma label_positive x : is_label x -> positive x.
Proof. intros [H _]. unfold positive. lia. Qed.

#[export] Hint Resolve label_positive : sedna.

Lemma ancestor_trans x y z : positive x -> ancestor x y -> ancestor y z -> ancestor x z.
Proof.
  unfold positive. intros Hx (H1 & H2 & H3) (H4 & H5 & H6). split; [lia|]. split.
  - intros j Hj. rewrite H2 by lia. apply H5. lia.
  - rewrite <- H5 by lia. exact H3.
Qed.

Lemma precedes_trans x y z : is_label y -> is_label z -> precedes x y -> precedes y z -> precedes x z.
Proof.
  intros (Hsy & Hby & _) (Hsz & Hbz & _) (i & Hi & A1 & C1) (k & Hk & A2 & C2). unfold precedes, ALPHABET_SIZE in *.
  assert (A : agree x z (Z.min i k)) by (intros j Hj; rewrite A1 by lia; apply A2; lia).
  destruct (Z.lt_trichotomy i k) as [Hlt|[->|Hgt]].
  - exists i. rewrite Z.min_l in A by lia. split; [lia|]. split; [exact A|]. rewrite <- A2 by lia.
    destruct C1 as [?|?]; [left|right]; destruct C2 as [?|?]; lia.
  - exists k. rewrite Z.min_l in A by lia. split; [lia|]. split; [exact A|].
    destruct C1 as [?|?], C2 as [?|?]; try lia. specialize (Hbz k). lia.
  - exists k. rewrite Z.min_r in A by lia. split; [lia|]. split; [exact A|]. rewrite A1 by lia.
    destruct C1 as [?|?], C2 as [?|?]; try lia.
Qed.

(** Order carries over to the subtrees. *)
Definition self_or_descendant (x y : t_prefix) : Prop := y = x \/ ancestor x y.

Lemma precedes_subtrees x y x' y' :
  is_label x' -> precedes x y -> self_or_descendant x x' -> self_or_descendant y y' -> precedes x' y'.
Proof.
  intros (Hs' & Hb' & _) (i & Hi & Hag & C) Hx Hy. unfold precedes, self_or_descendant, ancestor, ALPHABET_SIZE in *.
  assert (Ax : agree x' x (size x) /\ size x <= size x' /\ (x' = x \/ (size x < size x' /\ prefix x' (size x) <> 255))).
  { destruct Hx as [->|(H1 & H2 & H3)]; [split; [apply agree_refl|split; [lia|now left]]|].
    split; [now apply agree_sym|]. split; [lia|]. right. split; [lia|exact H3]. }
  assert (Ay : agree y' y (size y) /\ size y <= size y').
  { destruct Hy as [->|(H1 & H2 & H3)]; [split; [apply agree_refl|lia]|]. split; [now apply agree_sym|lia]. }
  destruct Ax as (Ax & Sx & Dx), Ay as (Ay & Sy). exists i. split; [exact Hi|].
  assert (Hle : i <= size x /\ i < size y) by (destruct C as [?|?]; lia).
  split; [intros j Hj; rewrite Ax by lia; rewrite Ay by lia; apply Hag; lia|].
  destruct C as [(C1 & C2 & C3)|(C1 & C2 & C3)].
  - left. rewrite Ax, Ay by lia. lia.
  - rewrite Ay by lia. destruct Dx as [->|[D1 D2]]; [right; lia|]. left. subst i. specialize (Hb' (size x)). lia.
Qed.

Lemma precedes_not_ancestor x y : is_label x -> is_label y -> precedes x y -> ~ ancestor x y /\ ~ ancestor y x /\ ~ precedes y x.
Proof.
  intros Hx Hy Hp. apply label_positive in Hx, Hy. destruct (cmp_precedes x y Hx Hy Hp) as [C1 C2]. split; [|split]; intros H.
  - destruct (cmp_ancestor x y Hx H). lia.
  - destruct (cmp_descendant x y Hy H). lia.
  - destruct (cmp_follows x y Hx Hy H). lia.
Qed.

(** ** createNID *)

(** A label that fits between optional neighbours, below the parent. *)
Definition sits (left right : option t_prefix) (parent r : t_prefix) : Prop :=
  is_label r /\ ancestor parent r /\
  (forall x, left = Some x -> precedes x r) /\ (forall y, right = Some y -> precedes r y).

Lemma derived_ancestor parent x r :
  positive parent -> ancestor parent x -> derived (size parent) x r -> ancestor parent r.
Proof.
  intros Hp (H1 & H2 & H3) [D1 D2 D3 D4]. split; [exact D2|]. split; [|now apply D4].
  intros j Hj. rewrite D3 by lia. apply H2. lia.
Qed.

Lemma child_spec parent : is_label parent -> has_room parent ->
  is_label (nid_create_child None parent) /\ ancestor parent (nid_create_child None parent).
Proof.
  intros (Hs & Hb & Hl) Hr. unfold has_room in Hr. cbn [nid_create_child].
  split; [|unfold ancestor]; repeat split; letters Hb.
Qed.

Lemma createNID_spec parent left right :
  is_label parent -> has_room parent ->
  (forall x, left = Some x -> is_label x /\ has_room x /\ ancestor parent x) ->
  (forall y, right = Some y -> is_label y /\ has_room y /\ ancestor parent y) ->
  (forall x y, left = Some x -> right = Some y -> precedes x y) ->
  exists r, createNID None left right parent = Ok r /\ sits left right parent r.
Proof.
  intros Hp Hrp Hl Hr Hlr. pose proof (label_positive _ Hp) as Hpos. unfold positive in Hpos.
  destruct left as [x|], right as [y|]; cbn [createNID].
  - destruct (Hl x eq_refl) as (Lx & Rx & A1 & A2 & A3), (Hr y eq_refl) as (Ly & Ry & B1 & B2 & B3).
    destruct (betweenNID_spec x y (size parent)) as (F1 & F2 & F3 & F4); try assumption; [lia|..].
    + split; [exact A1|]. split; [apply agree_refl|exact A3].
    + split; [exact B1|]. split; [|exact B3]. intros j Hj. rewrite <- A2 by lia. apply B2. lia.
    + now apply Hlr.
    + eexists. split; [reflexivity|]. split; [exact F1|]. split; [|split; intros ? [= <-]; assumption].
      destruct F2 as (F21 & F22 & F23). split; [exact F21|]. split; [|exact F23].
      intros j Hj. rewrite A2 by lia. apply F22. lia.
  - destruct (Hl x eq_refl) as (Lx & Rx & A). pose proof A as (A1 & A2 & A3).
    destruct (incrementNID_spec x (size parent) Lx Rx ltac:(lia) A3) as (r & E & D & P).
    exists r. split; [exact E|]. split; [apply D|]. split; [now apply (derived_ancestor parent x)|].
    split; [intros ? [= <-]; exact P|discriminate].
  - destruct (Hr y eq_refl) as (Ly & Ry & B). pose proof B as (B1 & B2 & B3).
    destruct (decrementNID_spec y (size parent) Ly Ry ltac:(lia)) as [D P].
    eexists. split; [reflexivity|]. split; [apply D|]. split; [now apply (derived_ancestor parent y)|].
    split; [discriminate|intros ? [= <-]; exact P].
  - destruct (child_spec parent Hp Hrp) as [C1 C2]. eexists. split; [reflexivity|].
    split; [exact C1|]. split; [exact C2|]. split; discriminate.
Qed.

(** ** Documents *)

Set Warnings "-register-all".

Inductive tree := Node (label : t_prefix) (children : list tree).

Definition lab (t : tree) : t_prefix := let 'Node l _ := t in l.
Definition kids (t : tree) : list tree := let 'Node _ cs := t in cs.

(** The node at a path of child positions. *)
Fixpoint node_at (t : tree) (p : list nat) : option tree :=
  match p with
  | [] => Some t
  | i :: p => match nth_error (kids t) i with Some c => node_at c p | None => None end
  end.

Section Documents.
(** The longest label that [nid_assign] stores (PSTRMAXSIZE). *)
Variable max_label : Z.
Hypothesis max_label_room : max_label + 2 < 65536.

(** Insertion of a node as the [i]-th child of the node at [p], and deletion
    of the [i]-th child. *)
Definition insert_child (t : tree) (i : nat) : option tree :=
  let 'Node l cs := t in
  let left := match i with O => None | S k => nth_error cs k end in
  let right := nth_error cs i in
  match createNID None (option_map lab left) (option_map lab right) l with
  | Ok r =>
      if (Nat.leb i (length cs)) && (size r <=? max_label)
      then Some (Node l (firstn i cs ++ Node r [] :: skipn i cs)) else None
  | Throw _ => None
  end.

Definition delete_child (t : tree) (i : nat) : option tree :=
  let 'Node l cs := t in Some (Node l (firstn i cs ++ skipn (S i) cs)).

Fixpoint modify_at (f : tree -> option tree) (t : tree) (p : list nat) : option tree :=
  match p with
  | [] => f t
  | i :: p =>
      let 'Node l cs := t in
      match nth_error cs i with
      | None => None
      | Some c =>
          match modify_at f c p with
          | Some c' => Some (Node l (firstn i cs ++ c' :: skipn (S i) cs))
          | None => None
          end
      end
  end.

Inductive doc_step : tree -> tree -> Prop :=
| doc_insert t t' p i : modify_at (fun n => insert_child n i) t p = Some t' -> doc_step t t'
| doc_delete t t' p i : modify_at (fun n => delete_child n i) t p = Some t' -> doc_step t t'.

(** Well-labelled documents. *)
Inductive well_labelled : tree -> Prop :=
| wl_node l cs :
    is_label l -> size l <= max_label -> Forall well_labelled cs ->
    Forall (fun c => ancestor l (lab c)) cs ->
    ForallOrdPairs (fun a b => precedes (lab a) (lab b)) cs ->
    well_labelled (Node l cs).

Lemma well_labelled_label t : well_labelled t -> is_label (lab t) /\ has_room (lab t).
Proof. destruct 1 as [l cs H1 H2 _ _ _]. split; [exact H1|]. unfold has_room. cbn. lia. Qed.

(** *** Insertion and deletion keep documents well-labelled *)

Lemma FOP_app_iff {A} (R : A -> A -> Prop) l1 l2 :
  ForallOrdPairs R (l1 ++ l2) <->
  ForallOrdPairs R l1 /\ ForallOrdPairs R l2 /\ (forall a b, In a l1 -> In b l2 -> R a b).
Proof.
  induction l1 as [|x l1 IH]; cbn; [split; [intros H; repeat split; [constructor|exact H|contradiction]|tauto]|].
  split.
  - intros H. inversion H as [|? ? Hx Hl]; subst. apply IH in Hl as (H1 & H2 & H3). apply Forall_app in Hx as [Hx1 Hx2].
    rewrite Forall_forall in Hx2. repeat split; [now constructor|exact H2|]. intros a b [<-|Ha] Hb; auto.
  - intros (H1 & H2 & H3). inversion H1 as [|? ? Hx Hl]; subst. constructor; [|apply IH; auto].
    apply Forall_app. split; [exact Hx|]. rewrite Forall_forall. auto.
Qed.

Lemma Forall_insert {A} (P : A -> Prop) i x (l : list A) :
  P x -> Forall P l -> Forall P (firstn i l ++ x :: skipn i l).
Proof.
  intros Hx Hl. rewrite <- (firstn_skipn i l) in Hl. apply Forall_app in Hl as [H1 H2].
  apply Forall_app. split; [exact H1|now constructor].
Qed.

Lemma nth_error_split_at {A} (l : list A) i x :
  nth_error l i = Some x -> l = firstn i l ++ x :: skipn (S i) l.
Proof.
  revert i. induction l as [|y l IH]; intros [|i] H; cbn in *; try discriminate.
  - now injection H as ->.
  - now rewrite <- IH.
Qed.

Lemma Forall_replace_nth {A} (P : A -> Prop) i x y (l : list A) :
  nth_error l i = Some x -> P y -> Forall P l -> Forall P (firstn i l ++ y :: skipn (S i) l).
Proof.
  intros Hi Hy Hl. rewrite (nth_error_split_at l i x Hi) in Hl. apply Forall_app in Hl as [H1 H2].
  inversion H2; subst. apply Forall_app. split; [exact H1|now constructor].
Qed.

Let ordered := ForallOrdPairs (fun a b => precedes (lab a) (lab b)).

(** Everything left of the new label precedes it, everything right of it
    follows it. *)
Lemma ordered_insert l1 l2 (r : tree) :
  Forall (fun c => is_label (lab c)) (l1 ++ l2) -> is_label (lab r) -> ordered (l1 ++ l2) ->
  (forall a l, l1 = l ++ [a] -> precedes (lab a) (lab r)) ->
  (forall b l, l2 = b :: l -> precedes (lab r) (lab b)) ->
  ordered (l1 ++ r :: l2).
Proof.
  unfold ordered. intros Hlab Hr Ho Hleft Hright. rewrite FOP_app_iff in *. destruct Ho as (H1 & H2 & H3).
  apply Forall_app in Hlab as [L1 L2]. rewrite Forall_forall in L1, L2.
  assert (Hl : forall a, In a l1 -> precedes (lab a) (lab r)).
  { intros a Ha. destruct (exists_last (l := l1)) as (l & z & ->); [now intros ->|].
    pose proof (Hleft z l eq_refl) as Hz. apply in_app_iff in Ha as [Ha|[<-|[]]]; [|exact Hz].
    apply (precedes_trans _ (lab z)); [apply L1, in_elt|exact Hr| |exact Hz].
    apply FOP_app_iff in H1 as (_ & _ & H1). apply H1; [exact Ha|now left]. }
  assert (Hrt : Forall (fun b => precedes (lab r) (lab b)) l2).
  { destruct l2 as [|b l2]; [constructor|]. pose proof (Hright b l2 eq_refl) as Hb.
    inversion H2 as [|? ? Hbl _]; subst. rewrite Forall_forall in *. intros c [<-|Hc]; [exact Hb|].
    apply (precedes_trans _ (lab b)); [apply L2; now left|apply L2; now right|exact Hb|now apply Hbl]. }
  split; [exact H1|]. split; [now constructor|]. intros a b Ha [<-|Hb]; auto.
Qed.

Lemma insert_child_well t t' i :
  well_labelled t -> insert_child t i = Some t' -> well_labelled t' /\ lab t' = lab t.
Proof.
  intros Hw. pose proof (well_labelled_label t Hw) as [Hlt Hrt].
  destruct Hw as [l cs Hl Hs Hcs Hanc Hord]. cbn [insert_child lab] in *.
  set (left := match i with O => None | S k => nth_error cs k end).
  assert (Hlab : forall c, In c cs -> is_label (lab c) /\ has_room (lab c) /\ ancestor l (lab c)).
  { rewrite Forall_forall in Hcs, Hanc. intros c Hc. destruct (well_labelled_label c (Hcs c Hc)). auto. }
  assert (Hleft : forall c, left = Some c -> In c cs).
  { unfold left. destruct i; [discriminate|]. intros c Hc. now apply nth_error_In in Hc. }
  destruct (createNID_spec l (option_map lab left) (option_map lab (nth_error cs i))) as (r & E & R1 & R2 & R3 & R4);
    try assumption.
  - intros x Hx. destruct left as [c|]; [|discriminate]. injection Hx as <-. auto.
  - intros y Hy. destruct (nth_error cs i) as [c|] eqn:Hi; [|discriminate]. injection Hy as <-.
    apply Hlab. now apply nth_error_In in Hi.
  - intros x y Hx Hy. destruct (nth_error cs i) as [c|] eqn:Hi; [|discriminate]. injection Hy as <-.
    unfold left in Hx. destruct i as [|i]; [discriminate|]. destruct (nth_error cs i) as [a|] eqn:Ha; [|discriminate].
    injection Hx as <-. rewrite (nth_error_split_at cs i a Ha) in Hord. apply FOP_app_iff in Hord as (_ & Hord & _).
    inversion Hord as [|? ? Hall _]; subst. rewrite Forall_forall in Hall. apply Hall.
    rewrite <- (Nat.add_0_r (S i)), <- nth_error_skipn in Hi. now apply nth_error_In in Hi.
  - rewrite E. destruct (Nat.leb_spec i (length cs)) as [Hi|]; [|discriminate].
    destruct (Z.leb_spec (size r) max_label); [|discriminate]. intros [= <-]. split; [|reflexivity].
    constructor; try assumption.
    + apply Forall_insert; [|exact Hcs]. constructor; [exact R1|assumption|constructor..].
    + apply Forall_insert; [exact R2|exact Hanc].
    + apply ordered_insert; [|exact R1|now rewrite firstn_skipn| |].
      * rewrite firstn_skipn, Forall_forall. intros c Hc. now apply Hlab.
      * intros a k Ek. apply R3. unfold left. destruct i as [|i]; [now destruct k|].
        assert (Hlen : length k = i).
        { apply (f_equal (@length _)) in Ek. rewrite length_firstn, length_app in Ek. cbn [length] in Ek. lia. }
        rewrite <- (firstn_skipn (S i) cs), Ek, <- app_assoc, nth_error_app2, Hlen, Nat.sub_diag by lia. reflexivity.
      * intros b k Ek. apply R4. rewrite <- (Nat.add_0_r i), <- nth_error_skipn, Ek. reflexivity.
Qed.

Lemma FOP_delete {A} (R : A -> A -> Prop) i (l : list A) :
  ForallOrdPairs R l -> ForallOrdPairs R (firstn i l ++ skipn (S i) l).
Proof.
  intros H. destruct (nth_error l i) as [x|] eqn:Hi.
  - rewrite (nth_error_split_at l i x Hi) in H. apply FOP_app_iff in H as (H1 & H2 & H3).
    inversion H2; subst. apply FOP_app_iff. split; [exact H1|]. split; [assumption|].
    intros a b Ha Hb. apply H3; [exact Ha|now right].
  - apply nth_error_None in Hi. rewrite firstn_all2, skipn_all2, app_nil_r by lia. exact H.
Qed.

Lemma FOP_replace {A} (R : A -> A -> Prop) i x y (l : list A) :
  nth_error l i = Some x -> (forall z, R x z -> R y z) -> (forall z, R z x -> R z y) ->
  ForallOrdPairs R l -> ForallOrdPairs R (firstn i l ++ y :: skipn (S i) l).
Proof.
  intros Hi Hl Hr H. rewrite (nth_error_split_at l i x Hi) in H. apply FOP_app_iff in H as (H1 & H2 & H3).
  inversion H2 as [|? ? Hx Hs]; subst. apply FOP_app_iff. split; [exact H1|]. split.
  - constructor; [|exact Hs]. rewrite Forall_forall in *. auto.
  - intros a b Ha [<-|Hb]; [apply Hr, H3; [exact Ha|now left]|apply H3; [exact Ha|now right]].
Qed.

Lemma Forall_delete {A} (P : A -> Prop) i (l : list A) : Forall P l -> Forall P (firstn i l ++ skipn (S i) l).
Proof.
  intros H. apply Forall_app. split.
  - rewrite <- (firstn_skipn i l) in H. now apply Forall_app in H.
  - rewrite <- (firstn_skipn (S i) l) in H. now apply Forall_app in H.
Qed.

Lemma delete_child_well t t' i :
  well_labelled t -> delete_child t i = Some t' -> well_labelled t' /\ lab t' = lab t.
Proof.
  intros Hw. destruct Hw as [l cs Hl Hs Hcs Hanc Hord]. intros [= <-]. split; [|reflexivity].
  constructor; auto using Forall_delete, FOP_delete.
Qed.

Lemma modify_at_well f p : forall t t',
  (forall n n', well_labelled n -> f n = Some n' -> well_labelled n' /\ lab n' = lab n) ->
  well_labelled t -> modify_at f t p = Some t' -> well_labelled t' /\ lab t' = lab t.
Proof.
  induction p as [|i p IH]; intros t t' Hf Hw; cbn [modify_at]; [now apply Hf|].
  destruct Hw as [l cs Hl Hs Hcs Hanc Hord]. destruct (nth_error cs i) as [c|] eqn:Hi; [|discriminate].
  destruct (modify_at f c p) as [c'|] eqn:Hc; [|discriminate]. intros [= <-]. split; [|reflexivity].
  assert (Hin : In c cs) by (now apply nth_error_In in Hi).
  destruct (IH c c' Hf) as [Hw' Hlab]; [rewrite Forall_forall in Hcs; now apply Hcs|exact Hc|].
  constructor; try assumption.
  - now apply (Forall_replace_nth _ i c).
  - apply (Forall_replace_nth _ i c); [exact Hi| |exact Hanc]. rewrite Hlab. rewrite Forall_forall in Hanc. now apply Hanc.
  - apply (FOP_replace _ i c); try assumption; intros z; now rewrite Hlab.
Qed.

Lemma doc_step_well t t' : well_labelled t -> doc_step t t' -> well_labelled t'.
Proof.
  intros Hw. destruct 1 as [t t' p i H|t t' p i H]; (eapply modify_at_well in H; [apply H| |exact Hw]).
  - intros n n'. apply insert_child_well.
  - intros n n'. apply delete_child_well.
Qed.

Lemma reachable_well root t : is_label root -> size root <= max_label -> star doc_step (Node root []) t -> well_labelled t.
Proof.
  intros Hl Hs H. eapply star_invariant; [apply doc_step_well|exact H|]. constructor; auto; constructor.
Qed.

(** *** The labels tell the positions *)

(** The position of the node at [p] relative to the one at [q], in the terms
    of [nid_cmp_effective]. *)
Fixpoint path_cmp (p q : list nat) : Z :=
  match p, q with
  | [], [] => 0
  | [], _ :: _ => -2
  | _ :: _, [] => 2
  | i :: p, j :: q => if Nat.ltb i j then -1 else if Nat.ltb j i then 1 else path_cmp p q
  end.

Lemma subtree_label p : forall t u,
  well_labelled t -> node_at t p = Some u -> well_labelled u /\ self_or_descendant (lab t) (lab u) /\ (p <> [] -> ancestor (lab t) (lab u)).
Proof.
  induction p as [|i p IH]; intros t u Hw; cbn [node_at].
  - intros [= <-]. split; [exact Hw|]. split; [now left|congruence].
  - destruct Hw as [l cs Hl Hs Hcs Hanc Hord]. cbn [kids lab]. destruct (nth_error cs i) as [c|] eqn:Hi; [|discriminate].
    intros Hu. apply nth_error_In in Hi. rewrite Forall_forall in Hcs, Hanc.
    destruct (IH c u (Hcs c Hi) Hu) as (Hwu & Hsd & _). pose proof (Hanc c Hi) as Ha.
    assert (ancestor l (lab u)).
    { destruct Hsd as [->|Hsd]; [exact Ha|]. eapply ancestor_trans; [now apply label_positive|exact Ha|exact Hsd]. }
    split; [exact Hwu|]. split; [now right|auto].
Qed.

Lemma children_precede l cs i j a b :
  well_labelled (Node l cs) -> nth_error cs i = Some a -> nth_error cs j = Some b -> (i < j)%nat -> precedes (lab a) (lab b).
Proof.
  intros Hw Ha Hb Hij. inversion Hw as [? ? _ _ _ _ Hord]; subst.
  rewrite (nth_error_split_at cs i a Ha) in Hord. apply FOP_app_iff in Hord as (_ & Hord & _).
  inversion Hord as [|? ? Hall _]; subst. rewrite Forall_forall in Hall. apply Hall.
  replace j with (S i + (j - S i))%nat in Hb by lia. rewrite <- nth_error_skipn in Hb. now apply nth_error_In in Hb.
Qed.

Lemma labels_tell_positions p : forall q t u v,
  well_labelled t -> node_at t p = Some u -> node_at t q = Some v -> p <> q ->
  nid_cmp_effective false (lab u) (lab v) = path_cmp p q /\
  lex_cmp (lab u) (lab v) = Z.sgn (path_cmp p q).
Proof.
  induction p as [|i p IH]; intros [|j q] t u v Hw Hu Hv Hne; [congruence| | |].
  - pose proof Hu as Hu0. injection Hu0 as <-. destruct (subtree_label _ _ _ Hw Hv) as (_ & _ & Ha).
    destruct (cmp_ancestor (lab t) (lab v)) as [C1 C2]; [apply label_positive, well_labelled_label, Hw|now apply Ha|].
    split; [exact C2|exact C1].
  - pose proof Hv as Hv0. injection Hv0 as <-. destruct (subtree_label _ _ _ Hw Hu) as (_ & _ & Ha).
    destruct (cmp_descendant (lab u) (lab t)) as [C1 C2]; [apply label_positive, well_labelled_label, Hw|now apply Ha|].
    split; [exact C2|exact C1].
  - destruct t as [l cs]. cbn [node_at kids] in Hu, Hv. destruct (nth_error cs i) as [a|] eqn:Ha; [|discriminate].
    destruct (nth_error cs j) as [b|] eqn:Hb; [|discriminate].
    assert (Hcs : forall c, In c cs -> well_labelled c) by (inversion Hw as [? ? _ _ Hcs _ _]; subst; now apply Forall_forall).
    destruct (subtree_label p a u (Hcs a (nth_error_In _ _ Ha)) Hu) as (Wu & Su & _).
    destruct (subtree_label q b v (Hcs b (nth_error_In _ _ Hb)) Hv) as (Wv & Sv & _).
    pose proof (proj1 (well_labelled_label u Wu)) as Lu. pose proof (proj1 (well_labelled_label v Wv)) as Lv.
    cbn [path_cmp]. destruct (Nat.ltb_spec i j) as [Hij|Hij]; [|destruct (Nat.ltb_spec j i) as [Hji|Hji]].
    + destruct (cmp_precedes (lab u) (lab v)) as [C1 C2]; [now apply label_positive..| |split; [exact C2|exact C1]].
      eapply precedes_subtrees; [exact Lu| |exact Su|exact Sv]. now apply (children_precede l cs i j).
    + destruct (cmp_follows (lab u) (lab v)) as [C1 C2]; [now apply label_positive..| |split; [exact C2|exact C1]].
      eapply precedes_subtrees; [exact Lv| |exact Sv|exact Su]. now apply (children_precede l cs j i).
    + assert (j = i) as -> by lia. assert (b = a) as -> by congruence.
      apply (IH q a u v); [apply Hcs, (nth_error_In _ _ Ha)|exact Hu|exact Hv|congruence].
Qed.
End Documents.
