(* ===== verification/NidBulk.v ===== *)
(** * Node labels: bulk loads and documents

    A bulk load spaces the labels of the children by a hint, as numbers to
    the base of the largest letter; the labels of documents are enumerated
    by [updateEP_nid]. *)

From Stdlib Require Import ZArith List Lia Bool.
From S2P Require Import Prelude Nid NidOrder NidTree.
Import ListNotations.
Local Open Scope Z_scope.
Local Open Scope sedna_scope.

(** ** Letters as digits *)

(** The [k] letters from [start] on as a number; the digits are the letters
    from 1 to [MAX_LETTER]. *)
Fixpoint hval (p : t_prefix) (start : Z) (k : nat) : Z :=
  match k with
  | O => 0
  | S k => hval p start k * MAX_LETTER + (prefix p (start + Z.of_nat k) - 1)
  end.

Definition digits (p : t_prefix) (start : Z) (k : nat) : Prop :=
  forall j, start <= j < start + Z.of_nat k -> 1 <= prefix p j <= MAX_LETTER.

Lemma digits_le p start k l : digits p start k -> (l <= k)%nat -> digits p start l.
Proof. intros H Hl j Hj. apply H. lia. Qed.

Lemma hval_range p start k : digits p start k -> 0 <= hval p start k < MAX_LETTER ^ Z.of_nat k.
Proof.
  induction k as [|k IH]; intros Hd; cbn [hval]; [cbn; lia|].
  specialize (IH ltac:(eapply digits_le; [exact Hd|lia])). pose proof (Hd (start + Z.of_nat k) ltac:(lia)) as Hk.
  rewrite Nat2Z.inj_succ, Z.pow_succ_r by lia. unfold MAX_LETTER in *. nia.
Qed.

Lemma hval_ext p q start k :
  (forall j, start <= j < start + Z.of_nat k -> prefix p j = prefix q j) -> hval p start k = hval q start k.
Proof.
  induction k as [|k IH]; intros H; cbn [hval]; [reflexivity|].
  rewrite IH by (intros j Hj; apply H; lia). now rewrite (H (start + Z.of_nat k)) by lia.
Qed.

Lemma hval_ones p start l : (forall j, start <= j < start + Z.of_nat l -> prefix p j = 1) -> hval p start l = 0.
Proof.
  induction l as [|l IH]; intros H; cbn [hval]; [reflexivity|].
  rewrite IH by (intros j Hj; apply H; lia). rewrite H by lia. lia.
Qed.

(** A smaller number has a first smaller digit. *)
Lemma hval_lt p q start k :
  digits p start k -> digits q start k -> hval p start k < hval q start k ->
  exists i, start <= i < start + Z.of_nat k /\ prefix p i < prefix q i /\
    forall j, start <= j < i -> prefix p j = prefix q j.
Proof.
  revert start. assert (Heq : forall start k, digits p start k -> digits q start k ->
    hval p start k = hval q start k -> forall j, start <= j < start + Z.of_nat k -> prefix p j = prefix q j).
  { intros start l. induction l as [|l IH]; intros Hp Hq E j Hj; [lia|]. cbn [hval] in E.
    pose proof (Hp (start + Z.of_nat l) ltac:(lia)) as Bp. pose proof (Hq (start + Z.of_nat l) ltac:(lia)) as Bq.
    unfold MAX_LETTER in *.
    assert (E1 : hval p start l = hval q start l) by nia.
    destruct (Z.eq_dec j (start + Z.of_nat l)) as [->|]; [lia|].
    apply IH; [eapply digits_le; [exact Hp|lia]|eapply digits_le; [exact Hq|lia]|exact E1|lia]. }
  intros start. induction k as [|k IH]; intros Hp Hq Hlt; cbn [hval] in Hlt; [lia|].
  pose proof (Hp (start + Z.of_nat k) ltac:(lia)) as Bp. pose proof (Hq (start + Z.of_nat k) ltac:(lia)) as Bq.
  assert (Hp' : digits p start k) by (eapply digits_le; [exact Hp|lia]).
  assert (Hq' : digits q start k) by (eapply digits_le; [exact Hq|lia]). unfold MAX_LETTER in *.
  destruct (Z.lt_trichotomy (hval p start k) (hval q start k)) as [H|[H|H]]; [| |nia].
  - destruct (IH Hp' Hq' H) as (i & Hi & Hd & Hag). exists i. split; [lia|]. auto.
  - exists (start + Z.of_nat k). split; [lia|]. split; [lia|]. intros j Hj. now apply (Heq start k).
Qed.

(** ** nid_create_right with a hint *)

Lemma hint_carry_spec k : forall lp start,
  digits lp start k ->
  if hval lp start k + 1 <? MAX_LETTER ^ Z.of_nat k then
    exists r, hint_carry lp (start + Z.of_nat k) k = Ok r /\ size r = size lp /\
      digits r start k /\ hval r start k = hval lp start k + 1 /\
      (forall j, j < start \/ start + Z.of_nat k <= j -> prefix r j = prefix lp j)
  else hint_carry lp (start + Z.of_nat k) k = Throw SE2023.
Proof.
  induction k as [|k IH]; intros lp start Hd; [reflexivity|].
  set (pos := start + Z.of_nat k). replace (start + Z.of_nat (S k)) with (pos + 1) by lia.
  assert (Hd' : digits lp start k) by (eapply digits_le; [exact Hd|lia]).
  pose proof (Hd pos ltac:(lia)) as Bp. pose proof (hval_range lp start k Hd') as Hrg.
  cbn [hint_carry hval]. fold pos. replace (pos + 1 - 1) with pos by lia.
  rewrite Nat2Z.inj_succ, Z.pow_succ_r by lia. unfold MAX_LETTER, ALPHABET_SIZE in *.
  rewrite prefix_put_eq by lia. destruct (Z.eqb_spec (prefix lp pos + 1) 255) as [E|E]; cbn [negb].
  - set (lp' := put pos 1 (put pos (prefix lp pos + 1) lp)).
    assert (Hsame : forall j, j <> pos -> prefix lp' j = prefix lp j) by (intros j Hj; unfold lp'; rewrite !prefix_put_ne by lia; reflexivity).
    assert (Hd2 : digits lp' start k) by (intros j Hj; rewrite Hsame by lia; apply Hd'; lia).
    specialize (IH lp' start Hd2). fold pos in IH.
    rewrite (hval_ext lp' lp start k) in IH by (intros j Hj; apply Hsame; lia).
    destruct (Z.ltb_spec (hval lp start k + 1) (254 ^ Z.of_nat k));
      destruct (Z.ltb_spec (hval lp start k * 254 + (prefix lp pos - 1) + 1) (254 * 254 ^ Z.of_nat k)); try lia; [|exact IH].
    destruct IH as (r & E1 & E2 & E3 & E4 & E5). exists r. split; [exact E1|]. split; [exact E2|].
    assert (Er : prefix r pos = 1) by (rewrite E5 by lia; unfold lp'; apply prefix_put_eq; lia).
    split; [|split].
    + intros j Hj. destruct (Z.eq_dec j pos) as [->|]; [unfold MAX_LETTER; lia|apply E3; lia].
    + rewrite E4, Er. lia.
    + intros j Hj. rewrite E5 by lia. apply Hsame. lia.
  - destruct (Z.ltb_spec (hval lp start k * 254 + (prefix lp pos - 1) + 1) (254 * 254 ^ Z.of_nat k)) as [_|]; [|lia].
    eexists. split; [reflexivity|]. split; [reflexivity|]. split; [|split].
    + intros j Hj. unfold MAX_LETTER. nid_at; [lia|]. apply Hd. lia.
    + rewrite (hval_ext _ lp start k) by (intros j Hj; apply prefix_put_ne; lia). rewrite prefix_put_eq by lia. lia.
    + intros j Hj. apply prefix_put_ne. lia.
Qed.

(** The labels of a bulk load below a parent of [n] letters: [k] letters more,
    read as digits. *)
Definition bulk_label (parent : t_prefix) (k : nat) (v : Z) (x : t_prefix) : Prop :=
  size x = size parent + Z.of_nat k /\ agree parent x (size parent) /\
  digits x (size parent) k /\ hval x (size parent) k = v.

Section Bulk.
Context (parent : t_prefix) (k : nat) (h : nid_hint_t).
Context (Hp : is_label parent) (Hk : (1 <= k)%nat) (Hroom : size parent + Z.of_nat k < 65536)
  (Hh : hint_size h = Z.of_nat k) (Hinc : 1 <= increment h <= MAX_LETTER).

Lemma bulk_is_label v x : bulk_label parent k v x -> is_label x /\ ancestor parent x.
Proof.
  intros (Hs & Hag & Hd & _). destruct Hp as (Hsp & Hbp & _). unfold digits, MAX_LETTER, ALPHABET_SIZE in *.
  assert (Hb : forall j, 0 <= j < size x -> 0 <= prefix x j <= 255).
  { intros j Hj. destruct (Z.lt_ge_cases j (size parent)); [rewrite <- Hag by lia; apply Hbp; lia|].
    specialize (Hd j). lia. }
  pose proof (Hd (size parent) ltac:(lia)). pose proof (Hd (size x - 1) ltac:(lia)).
  split; [split; [lia|split; [exact Hb|lia]]|]. split; [lia|]. split; [exact Hag|unfold ALPHABET_SIZE; lia].
Qed.

Lemma bulk_precedes v w x y : bulk_label parent k v x -> bulk_label parent k w y -> v < w -> precedes x y.
Proof.
  intros (Sx & Ax & Dx & Vx) (Sy & Ay & Dy & Vy) Hlt. destruct Hp as (Hsp & _). subst v w.
  destruct (hval_lt x y (size parent) k Dx Dy Hlt) as (i & Hi & Hpi & Hag). exists i. split; [lia|]. split; [|left; lia].
  intros j Hj. destruct (Z.lt_ge_cases j (size parent)); [rewrite <- Ax, <- Ay by lia; reflexivity|apply Hag; lia].
Qed.

(** The next label is the next number of the progression, or there is none. *)
Lemma bulk_right v x :
  bulk_label parent k v x ->
  if v + increment h <? MAX_LETTER ^ Z.of_nat k
  then exists r, nid_create_right (Some h) x (size parent) = Ok r /\ bulk_label parent k (v + increment h) r
  else nid_create_right (Some h) x (size parent) = Throw SE2023.
Proof.
  intros (Hs & Hag & Hd & Hv). destruct Hp as (Hsp & _ & _). destruct k as [|l] eqn:Ek; [lia|].
  unfold nid_create_right. cbn zeta. set (n := size parent) in *.
  replace (size x - 1) with (n + Z.of_nat l) by lia. set (pos := n + Z.of_nat l).
  pose proof (Hd pos ltac:(lia)) as Bp. assert (Hd' : digits x n l) by (eapply digits_le; [exact Hd|lia]).
  pose proof (hval_range x n l Hd') as Hrg. cbn [hval] in Hv. fold pos in Hv.
  rewrite Nat2Z.inj_succ, Z.pow_succ_r by lia. unfold MAX_LETTER, ALPHABET_SIZE in *.
  destruct (Z.ltb_spec (prefix x pos + increment h) 255) as [Hsmall|Hbig].
  - destruct (Z.ltb_spec (v + increment h) (254 * 254 ^ Z.of_nat l)); [|nia]. eexists. split; [reflexivity|].
    split; [rewrite size_put; lia|]. split; [intros j Hj; rewrite prefix_put_ne by lia; apply Hag; lia|]. split.
    + intros j Hj. unfold MAX_LETTER. nid_at; [lia|]. apply Hd. lia.
    + cbn [hval]. fold n pos. rewrite (hval_ext _ x n l) by (intros j Hj; apply prefix_put_ne; lia).
      rewrite prefix_put_eq by lia. unfold MAX_LETTER. lia.
  - set (lp := put pos (increment h + prefix x pos - 254) x). rewrite Hh.
    replace (Z.to_nat (Z.of_nat (S l) - 1)) with l by lia.
    assert (Hsame : forall j, j <> pos -> prefix lp j = prefix x j) by (intros; now apply prefix_put_ne).
    assert (Hpos : prefix lp pos = increment h + prefix x pos - 254) by (apply prefix_put_eq; lia).
    pose proof (hint_carry_spec l lp n ltac:(intros j Hj; rewrite Hsame by lia; apply Hd'; lia)) as HC.
    fold pos in HC. rewrite (hval_ext lp x n l) in HC by (intros j Hj; apply Hsame; lia). unfold MAX_LETTER in HC.
    destruct (Z.ltb_spec (hval x n l + 1) (254 ^ Z.of_nat l)), (Z.ltb_spec (v + increment h) (254 * 254 ^ Z.of_nat l));
      try nia; [|exact HC].
    destruct HC as (r & E1 & E2 & E3 & E4 & E5). exists r. split; [exact E1|].
    split; [rewrite E2; unfold lp; rewrite size_put; lia|].
    split; [intros j Hj; rewrite E5, Hsame by lia; apply Hag; lia|]. split.
    + intros j Hj. destruct (Z.eq_dec j pos) as [->|]; [rewrite E5, Hpos by lia; unfold MAX_LETTER; lia|apply E3; lia].
    + cbn [hval]. fold n pos. rewrite E4, E5, Hpos by lia. unfold MAX_LETTER. lia.
Qed.

Lemma bulk_child : Z.of_nat k < MAX_LETTER -> bulk_label parent k (Z.of_nat k) (nid_create_child (Some h) parent).
Proof.
  intros Hk254. destruct Hp as (Hsp & _ & _). unfold nid_create_child. rewrite Hh. unfold MAX_LETTER in *.
  destruct (fill_spec (Z.to_nat (Z.of_nat k - 1)) parent (size parent) 1 ltac:(lia)) as [F1 F2].
  set (f := fill _ _ _ _) in *. cbn zeta. rewrite !size_put, F1. rewrite Z2Nat.id in F2 by lia.
  assert (F3 : forall j, size parent <= j < size parent + Z.of_nat k - 1 -> prefix f j = 1).
  { intros j Hj. rewrite F2. destruct (Z.leb_spec (size parent) j), (Z.ltb_spec j (size parent + (Z.of_nat k - 1))); cbn; lia. }
  assert (F4 : forall j, j < size parent -> prefix f j = prefix parent j).
  { intros j Hj. rewrite F2. destruct (Z.leb_spec (size parent) j); [lia|reflexivity]. }
  split; [rewrite size_set_size; lia|]. split; [|split].
  - intros j Hj. rewrite prefix_set_size, prefix_put_ne by lia. symmetry. apply F4. lia.
  - intros j Hj. rewrite prefix_set_size. unfold MAX_LETTER. nid_at; [lia|]. rewrite F3; lia.
  - destruct k as [|l]; [lia|]. cbn [hval]. rewrite (hval_ones _ (size parent) l).
    + rewrite prefix_set_size. replace (size parent + Z.of_nat (S l) - 1) with (size parent + Z.of_nat l) by lia.
      rewrite prefix_put_eq by lia. lia.
    + intros j Hj. rewrite prefix_set_size, prefix_put_ne by lia. apply F3. lia.
Qed.
End Bulk.

(** ** The labels of a bulk load *)

(** The numbers of children for which the hint of a level has a positive step
    and enough letters.  The step is zero for the numbers just below the powers
    of 254, and negative above the third power. *)
Definition spreads (count : Z) : Prop :=
  1 <= count <= 252 \/ 255 <= count <= 64514 \/ 64517 <= count <= 16387061.

Lemma hint_facts count :
  spreads count ->
  exists k, hint_size (bulk_hint count) = Z.of_nat k /\ (1 <= k <= 3)%nat /\
    1 <= increment (bulk_hint count) <= DEF_LETTER /\
    Z.of_nat k + (count - 1) * increment (bulk_hint count) < MAX_LETTER ^ Z.of_nat k.
Proof.
  intros Hs. assert (Hc : 1 <= count) by (unfold spreads in Hs; lia).
  set (k := if count <=? 254 then 1%nat else if count <=? 64516 then 2%nat else 3%nat).
  assert (Hk : hint_size (bulk_hint count) = Z.of_nat k).
  { unfold bulk_hint, hint_letters, k, MAX_LETTER. cbn [hint_size]. rewrite (Z.max_l count 1) by lia.
    change (254 ^ 2) with 64516. change (254 ^ 3) with 16387064. unfold spreads in Hs.
    destruct (Z.leb_spec count 1), (Z.leb_spec count 254), (Z.leb_spec count 64516), (Z.leb_spec count 16387064); lia. }
  assert (Hi : increment (bulk_hint count) = Z.min DEF_LETTER (MAX_LETTER ^ Z.of_nat k / (2 + count))).
  { rewrite <- Hk. unfold bulk_hint at 1. cbn [increment]. change (Z.max (hint_letters (Z.max count 1)) 1) with (hint_size (bulk_hint count)).
    rewrite Hk, (Z.max_l count 1) by lia. unfold k, MAX_LETTER. rewrite <- Z.quot_div_nonneg by (try apply Z.pow_nonneg; lia).
    do 2 f_equal. destruct (count <=? 254), (count <=? 64516); reflexivity. }
  set (N := MAX_LETTER ^ Z.of_nat k) in *.
  assert (HN : N = if count <=? 254 then 254 else if count <=? 64516 then 64516 else 16387064)
    by (unfold N, k; destruct (count <=? 254), (count <=? 64516); reflexivity).
  pose proof (Z.mul_div_le N (2 + count) ltac:(lia)) as Hle.
  assert (Hfit : 2 + count <= N /\ (1 <= k <= 3)%nat /\ Z.of_nat k + (count - 1) < N).
  { rewrite HN. unfold k. unfold spreads in Hs. destruct (Z.leb_spec count 254), (Z.leb_spec count 64516); lia. }
  assert (Hdiv : 1 <= N / (2 + count)) by (apply Z.div_le_lower_bound; lia).
  exists k. split; [exact Hk|]. split; [lia|].
  assert (Hinc : 1 <= increment (bulk_hint count) <= N / (2 + count) /\ increment (bulk_hint count) <= DEF_LETTER)
    by (rewrite Hi; unfold DEF_LETTER; lia).
  split; [lia|]. destruct (Z.eq_dec (increment (bulk_hint count)) 1) as [E|E]; [rewrite E; lia|]. nia.
Qed.

(** *** Without a hint *)

Lemma size_carry_right n : forall lp s, size (carry_right lp s n) = size lp.
Proof. induction n as [|n IH]; intros lp s; cbn [carry_right]; [reflexivity|]. destruct (negb _); [reflexivity|]. now rewrite IH. Qed.

Lemma size_fill n : forall lp pos v, size (fill lp pos n v) = size lp.
Proof. induction n as [|n IH]; intros lp pos v; cbn [fill]; [reflexivity|]. now rewrite IH. Qed.

(** The outmost right label has at most two letters more. *)
Lemma incrementNID_size x n r : 0 <= size x -> has_room x -> incrementNID x n = Ok r -> size r <= size x + 2.
Proof.
  unfold has_room, incrementNID. intros H0 Hr. rewrite !size_put.
  destruct (_ =? ALPHABET_SIZE); [destruct (negb _); [discriminate|]|destruct (_ =? ALPHABET_SIZE); [destruct (_ =? ALPHABET_SIZE)|]].
  all: intros [= <-]; rewrite ?size_set_size; rewrite ?size_fill, ?size_put, ?size_carry_right, ?size_put; try lia.
Qed.

(** What the children of a node get: labels below it, in document order. *)
Definition ordered_below (parent : t_prefix) (l : list t_prefix) : Prop :=
  Forall (fun x => is_label x /\ ancestor parent x) l /\ ForallOrdPairs precedes l.

Lemma ordered_below_cons parent x y l :
  is_label x -> ancestor parent x -> precedes x y ->
  ordered_below parent (y :: l) -> ordered_below parent (x :: y :: l).
Proof.
  intros Lx Ax P [H1 H2]. split; [now constructor|]. constructor; [|exact H2].
  inversion H1 as [|? ? [Ly _] Hl]; subst. inversion H2 as [|? ? Hy _]; subst.
  constructor; [exact P|]. rewrite Forall_forall in *. intros z Hz.
  apply (precedes_trans x y z); auto. now apply Hl.
Qed.

Section Children.
Context (parent : t_prefix) (Hp : is_label parent).

Lemma children_without_hint children : forall x,
  is_label x -> ancestor parent x -> size x + 2 * Z.of_nat (length children) + 2 < 65536 ->
  exists xs, bulk_children None (Some x) parent children = Ok xs /\ length xs = length children /\
    ordered_below parent (x :: xs).
Proof.
  induction children as [|c children IH]; intros x Lx Ax Hs; cbn [bulk_children length] in *.
  - exists []. split; [reflexivity|]. split; [reflexivity|]. split; (constructor; [auto|constructor]).
  - pose proof (label_positive _ Lx) as Px. unfold positive in Px.
    assert (Hrx : has_room x) by (unfold has_room; lia). assert (Hrp : has_room parent) by (unfold has_room; destruct Ax; lia).
    destruct (createNID_spec parent (Some x) None Hp Hrp) as (y & E & Ly & Ay & Py & _);
      [intros ? [= <-]; auto|discriminate|discriminate|].
    assert (Hsz : size y <= size x + 2) by (apply (incrementNID_size x (size parent)); [lia|exact Hrx|exact E]).
    rewrite E. cbn [bind_res].
    destruct (IH y Ly Ay ltac:(lia)) as (xs & E2 & Hlen & Ho).
    exists (y :: xs). destruct c; rewrite E2; (split; [reflexivity|]); (split; [cbn; lia|]);
      apply ordered_below_cons; auto.
Qed.

(** *** While the hint is in force *)

Context (k : nat) (h : nid_hint_t).
Context (Hk : (1 <= k <= 3)%nat) (Hh : hint_size h = Z.of_nat k) (Hinc : 1 <= increment h <= MAX_LETTER).

Lemma children_with_hint children : forall x v,
  bulk_label parent k v x -> v + Z.of_nat (length children) * increment h < MAX_LETTER ^ Z.of_nat k ->
  size parent + 2 * Z.of_nat (length children) + 8 < 65536 ->
  exists xs, bulk_children (Some h) (Some x) parent children = Ok xs /\ length xs = length children /\
    ordered_below parent (x :: xs).
Proof.
  induction children as [|c children IH]; intros x v Bx Hv Hs; cbn [bulk_children length] in *;
    destruct (bulk_is_label parent k Hp ltac:(lia) ltac:(lia) _ x Bx) as [Lx Ax].
  - exists []. split; [reflexivity|]. split; [reflexivity|]. split; (constructor; [auto|constructor]).
  - pose proof (bulk_right parent k h Hp ltac:(lia) ltac:(lia) Hh Hinc _ x Bx) as HR.
    destruct (Z.ltb_spec (v + increment h) (MAX_LETTER ^ Z.of_nat k)); [|nia]. destruct HR as (y & E & By).
    cbn [createNID]. rewrite E. cbn [bind_res].
    pose proof (bulk_precedes parent k Hp ltac:(lia) _ _ x y Bx By ltac:(lia)) as Pxy.
    assert (Hrec : exists xs, bulk_children (match c with CHILD_ELEMENT => None | CHILD_OTHER => Some h end) (Some y) parent children = Ok xs /\
      length xs = length children /\ ordered_below parent (y :: xs)).
    { destruct c; [|apply (IH y (v + increment h)); [exact By|nia|lia]].
      destruct (bulk_is_label parent k Hp ltac:(lia) ltac:(lia) _ y By) as [Ly Ay].
      destruct By as (Hsy & _). apply children_without_hint; [exact Ly|exact Ay|lia]. }
    destruct Hrec as (xs & E2 & Hlen & Ho). rewrite E2. exists (y :: xs).
    split; [reflexivity|]. split; [cbn; lia|]. now apply ordered_below_cons.
Qed.
End Children.

Lemma bulk_children_spec parent count children :
  is_label parent -> spreads count -> Z.of_nat (length children) <= count ->
  size parent + 2 * Z.of_nat (length children) + 8 < 65536 ->
  exists xs, bulk_children (Some (bulk_hint count)) None parent children = Ok xs /\
    length xs = length children /\ ordered_below parent xs.
Proof.
  intros Hp Hc Hlen Hroom. destruct (hint_facts count Hc) as (k & Hk & Hk3 & Hinc & Hfit).
  destruct children as [|c children].
  - exists []. split; [reflexivity|]. split; [reflexivity|]. split; constructor.
  - cbn [bulk_children createNID length bind_res] in *. set (h := bulk_hint count) in *. unfold DEF_LETTER in Hinc.
    pose proof (bulk_child parent k h Hp ltac:(lia) ltac:(lia) Hk ltac:(unfold MAX_LETTER; lia)) as Bx.
    set (x := nid_create_child (Some h) parent) in *.
    assert (Hrec : exists xs, bulk_children (match c with CHILD_ELEMENT => None | CHILD_OTHER => Some h end) (Some x) parent children = Ok xs /\
      length xs = length children /\ ordered_below parent (x :: xs)).
    { destruct c.
      - destruct (bulk_is_label parent k Hp ltac:(lia) ltac:(lia) _ x Bx) as [Lx Ax]. destruct Bx as (Hsx & _).
        apply children_without_hint; [exact Hp|exact Lx|exact Ax|lia].
      - apply (children_with_hint parent Hp k h ltac:(lia) Hk ltac:(unfold MAX_LETTER; lia) children x (Z.of_nat k)); [exact Bx|nia|lia]. }
    destruct Hrec as (xs & E2 & Hl & Ho). rewrite E2. exists (x :: xs).
    split; [reflexivity|]. split; [cbn; lia|exact Ho].
Qed.

(** ** The labels of documents *)

(** Letters at even places, the maximal letter at odd ones. *)
Definition root_ok (x : t_prefix) : Prop :=
  1 <= size x <= 255 /\ size x mod 2 = 1 /\
  (forall j, 0 <= j < size x -> j mod 2 = 0 -> 1 <= prefix x j <= MAX_LETTER) /\
  (forall j, 0 <= j < size x -> j mod 2 = 1 -> prefix x j = ALPHABET_SIZE).

Lemma root_is_label x : root_ok x -> is_label x.
Proof.
  intros (Hs & Hodd & He & Ho). unfold MAX_LETTER, ALPHABET_SIZE in *.
  split; [lia|]. split; [|apply He; [lia|]; Z.div_mod_to_equations; lia].
  intros j Hj. destruct (Z.eq_dec (j mod 2) 0) as [E|E]; [specialize (He j Hj E); lia|].
  rewrite Ho by (Z.div_mod_to_equations; lia). lia.
Qed.

Lemma root_scan_spec k : forall x pos,
  match root_scan x pos k with
  | Some q => exists i, 0 <= i < Z.of_nat k /\ q = pos - 2 * i /\ prefix x q < MAX_LETTER /\
                (forall l, 0 <= l < i -> MAX_LETTER <= prefix x (pos - 2 * l))
  | None => forall l, 0 <= l < Z.of_nat k -> MAX_LETTER <= prefix x (pos - 2 * l)
  end.
Proof.
  induction k as [|k IH]; intros x pos; cbn [root_scan]; [lia|].
  destruct (Z.ltb_spec (prefix x pos) MAX_LETTER) as [H|H].
  - exists 0. split; [lia|]. split; [lia|]. split; [exact H|lia].
  - specialize (IH x (pos - 2)).
    assert (Hsh : forall l, 1 <= l -> pos - 2 - 2 * (l - 1) = pos - 2 * l) by lia.
    destruct (root_scan x (pos - 2) k) as [q|].
    + destruct IH as (i & Hi & -> & Hq & Hall). exists (i + 1). split; [lia|]. split; [lia|]. split; [exact Hq|].
      intros l Hl. destruct (Z.eq_dec l 0) as [->|]; [now rewrite Z.sub_0_r|]. rewrite <- Hsh by lia. apply Hall. lia.
    + intros l Hl. destruct (Z.eq_dec l 0) as [->|]; [now rewrite Z.sub_0_r|]. rewrite <- Hsh by lia. apply IH. lia.
Qed.

Lemma fill_even_spec k : forall p pos v, 0 <= v <= 255 ->
  size (fill_even p pos k v) = size p /\
  (forall j, pos <= j < pos + 2 * Z.of_nat k -> (j - pos) mod 2 = 0 -> prefix (fill_even p pos k v) j = v) /\
  (forall j, j < pos \/ pos + 2 * Z.of_nat k <= j \/ (j - pos) mod 2 = 1 -> prefix (fill_even p pos k v) j = prefix p j).
Proof.
  induction k as [|k IH]; intros p pos v Hv; cbn [fill_even].
  - split; [reflexivity|]. split; [lia|reflexivity].
  - destruct (IH (put pos v p) (pos + 2) v Hv) as (H1 & H2 & H3). split; [exact H1|]. split.
    + intros j Hj Hm. destruct (Z.eq_dec j pos) as [->|].
      * rewrite H3 by lia. apply prefix_put_eq. lia.
      * apply H2; Z.div_mod_to_equations; lia.
    + intros j Hj. rewrite H3 by (Z.div_mod_to_equations; lia). apply prefix_put_ne.
      intros ->. rewrite Z.sub_diag in Hj. cbn in Hj. lia.
Qed.

(** A later label: longer, or of the same length and after. *)
Definition later (x y : t_prefix) : Prop := size x < size y \/ (size x = size y /\ precedes x y).

Lemma updateEP_next x :
  root_ok x -> size x < 255 -> root_ok (updateEP_nid x) /\ later x (updateEP_nid x).
Proof.
  intros Hx Hlt. pose proof Hx as (Hs & Hodd & He & Ho). unfold updateEP_nid. cbn zeta. unfold MAX_LETTER, ALPHABET_SIZE in *.
  destruct (Z.eqb_spec (size x) 255); [lia|]. destruct (Z.eqb_spec (size x) 0); [lia|].
  assert (Hlast : 1 <= prefix x (size x - 1) <= 254) by (apply He; Z.div_mod_to_equations; lia).
  destruct (Z.eqb_spec (prefix x (size x - 1)) 254) as [E|E]; cbn [negb].
  2: { split.
       - split; [exact Hs|]. split; [exact Hodd|]. split; intros j Hj Hm; rewrite size_put in Hj; nid_at; auto; [lia|].
         exfalso. Z.div_mod_to_equations; lia.
       - right. split; [reflexivity|]. exists (size x - 1). split; [lia|]. split; [intros j Hj; rewrite prefix_put_ne by lia; reflexivity|].
         left. rewrite size_put, prefix_put_eq by lia. lia. }
  pose proof (root_scan_spec (Z.to_nat ((size x - 1) / 2)) x (size x - 3)) as HS.
  destruct (root_scan x (size x - 3) _) as [q|].
  - destruct HS as (i & Hi & Hq & Hql & _). assert (Hq0 : 0 <= q <= size x - 3 /\ q mod 2 = 0) by (Z.div_mod_to_equations; lia).
    pose proof (He q ltac:(lia) (proj2 Hq0)) as Bq. unfold MAX_LETTER in Hql.
    destruct (fill_even_spec (Z.to_nat ((size x - q - 1) / 2)) (put q (prefix x q + 1) x) (q + 2) 1 ltac:(lia)) as (F1 & F2 & F3).
    rewrite Z2Nat.id in F2, F3 by (Z.div_mod_to_equations; lia). set (f := fill_even _ _ _ _) in *. rewrite size_put in F1.
    assert (Fq : prefix f q = prefix x q + 1) by (rewrite F3 by lia; apply prefix_put_eq; lia).
    assert (Fb : forall j, j < q -> prefix f j = prefix x j) by (intros j Hj; rewrite F3 by lia; apply prefix_put_ne; lia).
    assert (Fo : forall j, 0 <= j < size x -> j mod 2 = 1 -> prefix f j = 255).
    { intros j Hj Hm. rewrite F3 by (Z.div_mod_to_equations; lia). rewrite prefix_put_ne by (Z.div_mod_to_equations; lia). now apply Ho. }
    split.
    + split; [lia|]. split; [rewrite F1; exact Hodd|]. rewrite F1. split; [|exact Fo]. intros j Hj Hm. unfold MAX_LETTER.
      destruct (Z.lt_trichotomy j q) as [H|[->|H]]; [rewrite Fb by lia; now apply He|lia|].
      rewrite F2 by (Z.div_mod_to_equations; lia). lia.
    + right. split; [now rewrite F1|]. exists q. rewrite F1, Fq. split; [lia|].
      split; [intros j Hj; symmetry; apply Fb; lia|lia].
  - destruct (fill_even_spec (Z.to_nat ((size x + 2 + 1) / 2)) x 0 1 ltac:(lia)) as (F1 & F2 & F3).
    set (f := fill_even x 0 _ 1) in *. rewrite Z2Nat.id in F2 by (Z.div_mod_to_equations; lia).
    destruct (fill_even_spec (Z.to_nat ((size x + 2) / 2)) f 1 255 ltac:(lia)) as (G1 & G2 & G3).
    set (g := fill_even f 1 _ 255) in *. rewrite Z2Nat.id in G2, G3 by (Z.div_mod_to_equations; lia).
    split; [|left; cbn [size]; lia]. split; [cbn [size]; Z.div_mod_to_equations; lia|].
    split; [cbn [size]; Z.div_mod_to_equations; lia|]. cbn [size prefix]. unfold MAX_LETTER. split; intros j Hj Hm.
    + rewrite G3 by (Z.div_mod_to_equations; lia). rewrite F2; [lia|Z.div_mod_to_equations; lia|now rewrite Z.sub_0_r].
    + apply G2; Z.div_mod_to_equations; lia.
Qed.

(** The labels of the documents, in the order in which they are created. *)
Fixpoint root_label (n : nat) (last_nid : t_prefix) : t_prefix :=
  match n with
  | O => last_nid
  | S n => updateEP_nid (root_label n last_nid)
  end.

Definition no_nid : t_prefix := mk_prefix (fun _ => 0) 0.

Lemma root_label_ok n : root_ok (root_label (S n) no_nid).
Proof.
  induction n as [|n IH].
  - unfold root_ok, MAX_LETTER, ALPHABET_SIZE. cbn [root_label updateEP_nid no_nid size Z.eqb prefix].
    split; [lia|]. split; [reflexivity|]. split; intros j Hj Hm; assert (j = 0) as -> by lia; [cbn; lia|discriminate].
  - change (root_ok (updateEP_nid (root_label (S n) no_nid))).
    pose proof IH as (Hs & _). destruct (Z.eq_dec (size (root_label (S n) no_nid)) 255) as [E|E].
    + unfold updateEP_nid. rewrite E. exact IH.
    + apply updateEP_next; [exact IH|lia].
Qed.

Lemma later_trans x y z : root_ok y -> root_ok z -> later x y -> later y z -> later x z.
Proof.
  unfold later. intros Hy Hz [H|[E H]] [H'|[E' H']]; [left; lia..|right]. split; [lia|].
  apply (precedes_trans x y z); auto using root_is_label.
Qed.

Lemma root_labels_later i j :
  (i < j)%nat -> size (root_label (S j) no_nid) < 255 -> later (root_label (S i) no_nid) (root_label (S j) no_nid).
Proof.
  induction j as [|j IH]; intros Hij Hsz; [lia|].
  assert (Hstep : size (root_label (S j) no_nid) < 255 /\ later (root_label (S j) no_nid) (root_label (S (S j)) no_nid)).
  { pose proof (root_label_ok j) as Hok. pose proof Hok as (Hs & _).
    change (root_label (S (S j)) no_nid) with (updateEP_nid (root_label (S j) no_nid)) in *.
    destruct (Z.eq_dec (size (root_label (S j) no_nid)) 255) as [E|E].
    - unfold updateEP_nid in Hsz. rewrite E in Hsz. cbn [Z.eqb Pos.eqb] in Hsz. lia.
    - split; [lia|]. apply updateEP_next; [exact Hok|lia]. }
  destruct Hstep as [Hlt Hl]. destruct (Nat.eq_dec i j) as [->|]; [exact Hl|].
  eapply later_trans; [apply root_label_ok|apply root_label_ok|apply IH; [lia|exact Hlt]|exact Hl].
Qed.

(** Labels of different documents are unrelated. *)
Lemma later_unrelated x y :
  root_ok x -> root_ok y -> later x y -> ~ same_label x y /\ ~ ancestor x y /\ ~ ancestor y x.
Proof.
  intros Hx Hy Hl. pose proof Hx as (Hsx & Ho & _). pose proof Hy as (Hsy & _ & _ & H255). destruct Hl as [Hs|[Hs Hp]].
  - split; [intros [E _]; lia|]. split; [intros (_ & _ & H)|intros (H & _); lia]. apply H, H255; lia.
  - pose proof (root_is_label _ Hx) as Lx. pose proof (root_is_label _ Hy) as Ly.
    destruct (precedes_not_ancestor x y Lx Ly Hp) as (N1 & N2 & _). split; [|auto].
    intros Heq. apply cmp_same in Heq. destruct (cmp_precedes x y (label_positive _ Lx) (label_positive _ Ly) Hp). lia.
Qed.
