(* ===== verification/NidClaims.v ===== *)
(** * Node labels: the properties *)

From Stdlib Require Import ZArith List Lia Bool.
From S2P Require Import Prelude Nid NidOrder NidTree NidBulk.
Import ListNotations.
Local Open Scope Z_scope.
Local Open Scope sedna_scope.

Definition some_root : t_prefix := of_bytes [1].

(** [label_tac] checks a concrete label. *)
Ltac label_tac :=
  split; [vm_compute; split; discriminate || reflexivity|]; split; [|vm_compute; split; discriminate];
  let j := fresh in let H := fresh in intros j H; cbn [size of_bytes some_root length] in H;
  assert (j = 0 \/ j = 1 \/ j = 2) as [-> | [-> | ->]] by lia; first [exfalso; lia|vm_compute; split; discriminate].

(** C10: in every document reached from a lone root by insertions and
    deletions of nodes at arbitrary places, whose labels come from [createNID],
    the comparisons of two nodes by their labels tell their positions:
    [nid_cmp_effective] gives -2 and 2 for an ancestor and a descendant and -1
    and 1 for the other nodes before and after in document order, [nid_cmp] its
    sign, and [nid_ancestor] holds exactly for ancestors.  [max_label] is the
    size limit that [nid_assign] enforces. *)
Theorem documents_ordered max_label root t p q u v :
  max_label + 2 < 65536 -> is_label root -> size root <= max_label ->
  star (doc_step max_label) (Node root []) t -> node_at t p = Some u -> node_at t q = Some v -> p <> q ->
  nid_cmp_effective false (lab u) (lab v) = path_cmp p q /\
  nid_cmp false (lab u) (lab v) = Z.sgn (path_cmp p q) /\
  (nid_ancestor (lab u) (lab v) = true <-> path_cmp p q = -2).
Proof.
  intros Hmax Hl Hs Hstar Hu Hv Hne. pose proof (reachable_well max_label Hmax root t Hl Hs Hstar) as Hw.
  destruct (labels_tell_positions max_label Hmax p q t u v Hw Hu Hv Hne) as [H1 H2].
  split; [exact H1|]. split; [exact H2|]. rewrite <- H1.
  destruct (subtree_label max_label p t u Hw Hu) as (Hwu & _). destruct (subtree_label max_label q t v Hw Hv) as (Hwv & _).
  pose proof (label_positive _ (proj1 (well_labelled_label max_label Hmax u Hwu))) as Pu.
  pose proof (label_positive _ (proj1 (well_labelled_label max_label Hmax v Hwv))) as Pv.
  rewrite (nid_ancestor_spec _ _ Pu). split; [intros H; now apply cmp_ancestor|]. intros E.
  destruct (relation_total _ _ Pu Pv) as [R|R|R|R|R]; [|apply cmp_precedes in R; trivial; lia|apply cmp_follows in R; trivial; lia
    |exact R|apply cmp_descendant in R; trivial; lia].
  apply cmp_same in R. rewrite R in H2. rewrite H1 in E. rewrite E in H2. discriminate.
Qed.

(** A document with two children of the root; the second was inserted first. *)
Definition doc1 : tree := Node some_root [Node (nid_create_child None some_root) []].
Definition doc2 : tree :=
  Node some_root [Node (nid_create_left (nid_create_child None some_root) 1) []; Node (nid_create_child None some_root) []].

Lemma documents_ordered_witness :
  exists u v, node_at doc2 [0%nat] = Some u /\ node_at doc2 [1%nat] = Some v /\ nid_cmp_effective false (lab u) (lab v) = -1.
Proof.
  do 2 eexists. split; [reflexivity|]. split; [reflexivity|].
  refine (proj1 (documents_ordered 1000 some_root doc2 [0%nat] [1%nat] _ _ _ _ _ _ eq_refl eq_refl _)); [lia| | | |discriminate].
  - label_tac.
  - cbn. lia.
  - apply (star_step _ _ doc1); [apply (star_step _ _ (Node some_root [])); [constructor|]|].
    + apply (doc_insert 1000 _ _ [] 0). reflexivity.
    + apply (doc_insert 1000 _ _ [] 0). reflexivity.
Defined.

(** C11: [createNID] gives a label for every place at which a node can be
    inserted (between two siblings, after the last, before the first, as the
    only child): it never fails there, and the new label is well-formed, a
    descendant of the parent's label, after the left and before the right
    sibling's label and unrelated to both by ancestry. *)
Theorem insertion_finds_label parent left right :
  is_label parent -> has_room parent ->
  (forall x, left = Some x -> is_label x /\ has_room x /\ ancestor parent x) ->
  (forall y, right = Some y -> is_label y /\ has_room y /\ ancestor parent y) ->
  (forall x y, left = Some x -> right = Some y -> precedes x y) ->
  exists r, createNID None left right parent = Ok r /\ sits left right parent r.
Proof. apply createNID_spec. Qed.

Lemma insertion_finds_label_witness :
  exists r, createNID None (Some (of_bytes [1; 7; 254])) (Some (of_bytes [1; 8])) some_root = Ok r /\
    sits (Some (of_bytes [1; 7; 254])) (Some (of_bytes [1; 8])) some_root r.
Proof.
  assert (Ha : forall l, (1 < length l)%nat -> hd 0 l = 1 -> nth 1 l 0 <> 255 -> ancestor some_root (of_bytes l)).
  { intros l Hlen Hhd Hne. split; [cbn; lia|]. split; [|exact Hne]. intros j Hj. cbn in Hj. assert (j = 0) as -> by lia.
    destruct l; [cbn in Hlen; lia|]. cbn in Hhd. now subst. }
  apply (insertion_finds_label some_root); [label_tac|vm_compute; reflexivity| | |].
  - intros x [= <-]. split; [label_tac|]. split; [vm_compute; reflexivity|]. apply Ha; [cbn; lia|reflexivity|discriminate].
  - intros x [= <-]. split; [label_tac|]. split; [vm_compute; reflexivity|]. apply Ha; [cbn; lia|reflexivity|discriminate].
  - intros x y [= <-] [= <-]. exists 1. split; [lia|]. split; [|left; repeat split; reflexivity].
    intros j Hj. assert (j = 0) as -> by lia. reflexivity.
Defined.

Lemma doc_before_cases x y : positive x -> doc_before x y <-> precedes x y \/ ancestor x y.
Proof.
  unfold positive, doc_before, precedes, ancestor. intros Hx. split.
  - intros (i & Hi & Hag & [C|[-> C]]); [left; eauto 6|].
    destruct (Z.eq_dec (prefix y (size x)) ALPHABET_SIZE) as [E|E]; [left; exists (size x)|right]; repeat split; auto.
  - intros [(i & Hi & Hag & [C|C])|(H1 & H2 & H3)]; [exists i; auto|exists i; tauto|].
    exists (size x). split; [lia|]. auto.
Qed.

(** C12: the comparison functions decide the relations of labels: on two
    different labels each result of [nid_cmp_effective] is given exactly for
    the relation it stands for, [nid_cmp] decides document order, and
    [nid_ancestor] and [nid_descendant] decide ancestry. *)
Theorem comparison_exact x y :
  is_label x -> is_label y -> ~ same_label x y ->
  (nid_cmp_effective false x y = -1 <-> precedes x y) /\ (nid_cmp_effective false x y = 1 <-> precedes y x) /\
  (nid_cmp_effective false x y = -2 <-> ancestor x y) /\ (nid_cmp_effective false x y = 2 <-> ancestor y x) /\
  (nid_cmp false x y = -1 <-> doc_before x y) /\ (nid_cmp false x y = 1 <-> doc_before y x) /\
  (nid_ancestor x y = true <-> ancestor x y) /\ (nid_descendant x y = true <-> ancestor y x).
Proof.
  intros Hx Hy Hne. pose proof (label_positive _ Hx) as Px. pose proof (label_positive _ Hy) as Py.
  unfold nid_cmp, nid_descendant. rewrite !nid_ancestor_spec by assumption. rewrite !doc_before_cases by assumption.
  pose proof (precedes_not_ancestor x y Hx Hy) as N1. pose proof (precedes_not_ancestor y x Hy Hx) as N2.
  destruct (relation_total x y Px Py) as [R|R|R|R|R]; [contradiction|destruct (cmp_precedes x y Px Py R) as [-> ->]
    |destruct (cmp_follows x y Px Py R) as [-> ->]|destruct (cmp_ancestor x y Px R) as [-> ->]
    |destruct (cmp_descendant x y Py R) as [-> ->]].
  all: assert (N3 : ~ (ancestor x y /\ ancestor y x)) by (unfold ancestor; lia).
  all: repeat match goal with |- _ /\ _ => split | |- _ <-> _ => split end; intros; try discriminate; tauto.
Qed.

Lemma comparison_exact_witness : nid_cmp_effective false (of_bytes [1; 7]) (of_bytes [1; 7; 255; 3]) = -1.
Proof.
  apply (comparison_exact (of_bytes [1; 7]) (of_bytes [1; 7; 255; 3])).
  - label_tac.
  - split; [vm_compute; split; discriminate || reflexivity|]. split; [|vm_compute; split; discriminate]. intros j H. cbn [size of_bytes length] in H.
    assert (j = 0 \/ j = 1 \/ j = 2 \/ j = 3) as [-> | [-> | [-> | ->]]] by lia; vm_compute; split; discriminate.
  - intros [H _]. discriminate H.
  - exists 2. split; [lia|]. split; [|right; repeat split]. intros j Hj.
    assert (j = 0 \/ j = 1) as [-> | ->] by lia; reflexivity.
Defined.



(** The labels of documents, made one after the other by
    [updateEP_nid], are different labels and none is an ancestor of another,
    as long as the label stays below 255 letters. *)
Theorem document_roots_unrelated i j :
  (i < j)%nat -> size (root_label (S j) no_nid) < 255 ->
  let x := root_label (S i) no_nid in
  let y := root_label (S j) no_nid in
  is_label x /\ is_label y /\ ~ same_label x y /\ nid_ancestor x y = false /\ nid_ancestor y x = false.
Proof.
  intros Hij Hs x y. pose proof (root_label_ok i) as Hx. pose proof (root_label_ok j) as Hy. fold x in Hx. fold y in Hy.
  destruct (later_unrelated x y Hx Hy (root_labels_later i j Hij Hs)) as (H1 & H2 & H3).
  pose proof (root_is_label _ Hx) as Lx. pose proof (root_is_label _ Hy) as Ly. repeat (split; [assumption|]).
  split; apply not_true_iff_false; rewrite nid_ancestor_spec by auto with sedna; assumption.
Qed.

Lemma document_roots_unrelated_witness :
  nid_ancestor (root_label 3 no_nid) (root_label 300 no_nid) = false.
Proof.
  apply (document_roots_unrelated 2 299); [lia|vm_compute; reflexivity].
Defined.

(** [nid_alloc] hands out a register that is not in use, marks it and
    changes no other slot, and [nid_free] makes exactly this register available
    again. *)
Theorem registers_not_shared slots :
  let (i, slots') := nid_alloc slots in
  nth i slots false = false /\ nth i slots' false = true /\ (forall j, j <> i -> nth j slots' false = nth j slots false) /\
  nid_free slots' i = firstn i slots ++ false :: skipn (S i) slots.
Proof.
  induction slots as [|used slots IH]; cbn [nid_alloc].
  - repeat split. intros [|[|j]] Hj; [contradiction|reflexivity|reflexivity].
  - destruct used; cbn [negb].
    + destruct (nid_alloc slots) as [i slots']. destruct IH as (H1 & H2 & H3 & H4). repeat split; cbn [nth]; trivial.
      * intros [|j] Hj; [reflexivity|]. apply H3. congruence.
      * unfold nid_free in *. cbn [firstn skipn app]. now rewrite H4.
    + repeat split. intros [|j] Hj; [contradiction|reflexivity].
Qed.

(** For 253 children (and 254) the step of the hint is zero, and the
    second child of a bulk load gets the label of the first. *)
Theorem bulk_hint_253 :
  increment (bulk_hint 253) = 0 /\
  exists x y, bulk_children (Some (bulk_hint 253)) None some_root [CHILD_OTHER; CHILD_OTHER] = Ok [x; y] /\ same_label x y.
Proof.
  split; [reflexivity|]. do 2 eexists. split; [reflexivity|]. split; [reflexivity|].
  intros j Hj. change (0 <= j < 2) in Hj. assert (j = 0 \/ j = 1) as [-> | ->] by lia; reflexivity.
Qed.
