(* ===== verification/DateTime.v ===== *)
(** * Dates, times and durations: the values

    Models class [XMLDateTime] of
    src/kernel/tr/executor/base/XMLDateTime.{h,cpp}: the calendar helpers, the
    array of fields, the packed forms, conversion, component extraction,
    normalization, validation and comparison.  Texts are in DateTimeText.v.

    The fields are C++ [int]s: sums, differences and products wrap at 32 bits
    ([+!], [-!], [*!]), quotients and remainders truncate. *)

From Stdlib Require Import ZArith List Lia Bool.
From S2P Require Import Prelude.
Import ListNotations.
Local Open Scope Z_scope.
Local Open Scope sedna_scope.

Notation "a +! b" := (int32 (a + b)) (at level 50, left associativity) : sedna_scope.
Notation "a -! b" := (int32 (a - b)) (at level 50, left associativity) : sedna_scope.
Notation "a *! b" := (int32 (a * b)) (at level 40, left associativity) : sedna_scope.

(** ** Types and fields *)

Definition xs_dateTime : Z := 10.
Definition xs_date : Z := 11.
Definition xs_time : Z := 12.
Definition xs_duration : Z := 13.
Definition xs_yearMonthDuration : Z := 14.
Definition xs_dayTimeDuration : Z := 15.
Definition xs_gYearMonth : Z := 16.
Definition xs_gYear : Z := 17.
Definition xs_gMonthDay : Z := 18.
Definition xs_gDay : Z := 19.
Definition xs_gMonth : Z := 20.

Definition UTC_UNKNOWN : Z := 0.
Definition UTC_STD : Z := 1.
Definition UTC_POS : Z := 2.
Definition UTC_NEG : Z := 3.

Definition YEAR_DEFAULT : Z := 1972.
Definition MONTH_DEFAULT : Z := 12.
Definition DAY_DEFAULT : Z := 31.

Definition EQUAL : Z := 0.
Definition LESS_THAN : Z := -1.
Definition GREATER_THAN : Z := 1.

(** The array [fields], one component per index. *)
Record XMLDateTime := mk_dt {
  Type_ : Z; CentYear : Z; Month : Z; Day : Z; Hour : Z; Minute : Z; Second : Z;
  MiliSecond : Z; utc : Z; tz_hh : Z; tz_mm : Z }.

Definition set_Type v d := mk_dt v (CentYear d) (Month d) (Day d) (Hour d) (Minute d) (Second d) (MiliSecond d) (utc d) (tz_hh d) (tz_mm d).
Definition set_CentYear v d := mk_dt (Type_ d) v (Month d) (Day d) (Hour d) (Minute d) (Second d) (MiliSecond d) (utc d) (tz_hh d) (tz_mm d).
Definition set_Month v d := mk_dt (Type_ d) (CentYear d) v (Day d) (Hour d) (Minute d) (Second d) (MiliSecond d) (utc d) (tz_hh d) (tz_mm d).
Definition set_Day v d := mk_dt (Type_ d) (CentYear d) (Month d) v (Hour d) (Minute d) (Second d) (MiliSecond d) (utc d) (tz_hh d) (tz_mm d).
Definition set_Hour v d := mk_dt (Type_ d) (CentYear d) (Month d) (Day d) v (Minute d) (Second d) (MiliSecond d) (utc d) (tz_hh d) (tz_mm d).
Definition set_Minute v d := mk_dt (Type_ d) (CentYear d) (Month d) (Day d) (Hour d) v (Second d) (MiliSecond d) (utc d) (tz_hh d) (tz_mm d).
Definition set_Second v d := mk_dt (Type_ d) (CentYear d) (Month d) (Day d) (Hour d) (Minute d) v (MiliSecond d) (utc d) (tz_hh d) (tz_mm d).
Definition set_MiliSecond v d := mk_dt (Type_ d) (CentYear d) (Month d) (Day d) (Hour d) (Minute d) (Second d) v (utc d) (tz_hh d) (tz_mm d).
Definition set_utc v d := mk_dt (Type_ d) (CentYear d) (Month d) (Day d) (Hour d) (Minute d) (Second d) (MiliSecond d) v (tz_hh d) (tz_mm d).
Definition set_tz_hh v d := mk_dt (Type_ d) (CentYear d) (Month d) (Day d) (Hour d) (Minute d) (Second d) (MiliSecond d) (utc d) v (tz_mm d).
Definition set_tz_mm v d := mk_dt (Type_ d) (CentYear d) (Month d) (Day d) (Hour d) (Minute d) (Second d) (MiliSecond d) (utc d) (tz_hh d) v.

Definition reset : XMLDateTime := mk_dt 0 0 0 0 0 0 0 0 0 0 0.

(** ** Calendar helpers *)

Definition fQuotient (a b : Z) : Z := Z.quot a b.
Definition fQuotient3 (temp low high : Z) : Z := fQuotient (temp -! low) (high -! low).
Definition mod_ (a b quotient : Z) : Z := a -! (quotient *! b).
Definition modulo (temp low high : Z) : Z :=
  let a := temp -! low in
  let b := high -! low in
  mod_ a b (fQuotient a b) +! low.

Definition isLeapYear (year : Z) : bool :=
  (Z.rem year 4 =? 0) && (negb (Z.rem year 100 =? 0) || (Z.rem year 400 =? 0)).

Definition maxDayInMonthFor (year month : Z) : Z :=
  if (month =? 4) || (month =? 6) || (month =? 9) || (month =? 11) then 30
  else if month =? 2 then (if isLeapYear year then 29 else 28)
  else 31.

Fixpoint times10 (value : Z) (n : nat) : Z :=
  match n with O => value | S n => times10 (value *! 10) n end.
Fixpoint div10 (value : Z) (n : nat) : Z :=
  match n with O => value | S n => div10 (Z.quot value 10) n end.

Definition adjustMiliseconds (value : Z) (actualLen maxLen : nat) : Z :=
  div10 (times10 value (maxLen - actualLen)) (actualLen - maxLen).

(** The loop that brings the day into its month, as it occurs in
    [normalizeDateTime], [normalizeDateTimeWeak] and [printDate]. *)
Fixpoint day_loop (fuel : nat) (year month day : Z) : option (Z * Z * Z) :=
  match fuel with
  | O => None
  | S fuel =>
      let temp := maxDayInMonthFor year month in
      let next (day carry : Z) :=
        let temp := month +! carry in
        let month := modulo temp 1 13 in
        let '(month, year) := if month <=? 0 then (month +! 12, year -! 1) else (month, year) in
        day_loop fuel (year +! fQuotient3 temp 1 13) month day in
      if day <? 1 then next (day +! maxDayInMonthFor year (month -! 1)) (-1)
      else if temp <? day then next (day -! temp) 1
      else Some (year, month, day)
  end.

(** Every round moves the day by at least 28. *)
Definition day_fuel (day : Z) : nat := S (S (Z.to_nat (Z.abs day))).

Definition normalize_day (d : XMLDateTime) : option XMLDateTime :=
  match day_loop (day_fuel (Day d)) (CentYear d) (Month d) (Day d) with
  | Some (y, m, dd) => Some (set_Day dd (set_Month m (set_CentYear y d)))
  | None => None
  end.

(** ** Packed forms *)

Record xs_packed_datetime := mk_pdt {
  p_year : Z; p_day : Z; p_month : Z; p_hour : Z; p_minute : Z; p_second : Z;
  p_mili : Z; p_utc : Z; p_tz_hh : Z; p_tz_mm : Z }.

Record xs_packed_duration := mk_pdur {
  d_years : Z; d_days : Z; d_neg : Z; d_months : Z; d_hours : Z; d_minutes : Z;
  d_seconds : Z; d_milis : Z }.

(** An unsigned bit field of [w] bits keeps the low bits. *)
Definition bits (w v : Z) : Z := v mod 2 ^ w.

Definition getPackedDateTime (d : XMLDateTime) : xs_packed_datetime :=
  mk_pdt (CentYear d) (bits 9 (Day d)) (bits 4 (Month d)) (bits 5 (Hour d)) (bits 6 (Minute d))
    (bits 6 (Second d)) (bits 18 (MiliSecond d)) (bits 4 (utc d)) (bits 4 (tz_hh d)) (bits 6 (tz_mm d)).

Definition of_packed_datetime (p : xs_packed_datetime) (type : Z) : XMLDateTime :=
  mk_dt type (p_year p) (p_month p) (p_day p) (p_hour p) (p_minute p) (p_second p) (p_mili p)
    (p_utc p) (p_tz_hh p) (p_tz_mm p).

Definition getPackedDuration (d : XMLDateTime) : xs_packed_duration :=
  let neg := if utc d =? UTC_POS then 1 else -1 in
  mk_pdur (u32 (neg *! CentYear d)) (u32 (neg *! Day d)) (if utc d =? UTC_POS then 0 else 1)
    (bits 4 (neg *! Month d)) (bits 5 (neg *! Hour d)) (bits 6 (neg *! Minute d))
    (bits 6 (neg *! Second d)) (bits 10 (neg *! MiliSecond d)).

(** The product of an [int] and an unsigned field is unsigned and is then
    stored in an [int]; [int32] does both. *)
Definition of_packed_duration (p : xs_packed_duration) (type : Z) : XMLDateTime :=
  let neg := if d_neg p =? 0 then 1 else -1 in
  mk_dt type (neg *! d_years p) (neg *! d_months p) (neg *! d_days p) (neg *! d_hours p)
    (neg *! d_minutes p) (neg *! d_seconds p) (neg *! d_milis p)
    (if d_neg p =? 0 then UTC_POS else UTC_NEG) 0 0.

(** ** Conversion *)

Definition convertTo (this : XMLDateTime) (type : Z) : XMLDateTime :=
  let has (l : list Z) := existsb (Z.eqb type) l in
  let copy (l : list Z) (v : Z) := if has l then v else 0 in
  let newValue :=
    mk_dt type
      (copy [xs_gYear; xs_gYearMonth; xs_date; xs_dateTime; xs_duration; xs_yearMonthDuration] (CentYear this))
      (copy [xs_gYearMonth; xs_gMonth; xs_gMonthDay; xs_date; xs_dateTime; xs_duration; xs_yearMonthDuration] (Month this))
      (copy [xs_gDay; xs_gMonthDay; xs_date; xs_dateTime; xs_duration; xs_dayTimeDuration] (Day this))
      (copy [xs_time; xs_dateTime; xs_duration; xs_dayTimeDuration] (Hour this))
      (copy [xs_time; xs_dateTime; xs_duration; xs_dayTimeDuration] (Minute this))
      (copy [xs_time; xs_dateTime; xs_duration; xs_dayTimeDuration] (Second this))
      (copy [xs_time; xs_dateTime; xs_duration; xs_dayTimeDuration] (MiliSecond this))
      0 0 0 in
  if ((type =? xs_yearMonthDuration) && (Type_ this =? xs_dayTimeDuration))
     || ((type =? xs_dayTimeDuration) && (Type_ this =? xs_yearMonthDuration))
  then set_utc UTC_POS newValue
  else set_tz_mm (tz_mm this) (set_tz_hh (tz_hh this) (set_utc (utc this) newValue)).

(** ** Normalization *)

Definition isDuration (d : XMLDateTime) : bool :=
  (Type_ d =? xs_duration) || (Type_ d =? xs_dayTimeDuration) || (Type_ d =? xs_yearMonthDuration).

(** A unit of a mixed-radix sum: the digit of [temp] to the base [b], never
    negative, and the carry. *)
Definition carry_unit (temp b : Z) : Z * Z :=
  let carry := fQuotient temp b in
  let digit := mod_ temp b carry in
  if digit <? 0 then (digit +! b, carry -! 1) else (digit, carry).

Definition normalizeDateTime (d : XMLDateTime) : option XMLDateTime :=
  let negate := if utc d =? UTC_POS then -1 else 1 in
  (* months and years *)
  let temp := Month d in
  let month := modulo temp 1 13 in
  let carry := fQuotient3 temp 1 13 in
  let '(month, carry) := if month <=? 0 then (month +! 12, carry -! 1) else (month, carry) in
  let d := set_CentYear (CentYear d +! carry) (set_Month month d) in
  (* minutes *)
  let '(minute, carry) := carry_unit (Minute d +! (negate *! tz_mm d)) 60 in
  let d := set_Minute minute d in
  (* hours *)
  let '(hour, carry) := carry_unit (Hour d +! (negate *! tz_hh d) +! carry) 24 in
  let d := set_Hour hour d in
  (* xs:date keeps the time of day as a time zone *)
  let d :=
    if (Type_ d =? xs_date) && (negb (Hour d =? 0) || negb (Minute d =? 0)) then
      let negate := if (Hour d <? 0) || (Minute d <? 0) then -1 else 1 in
      set_Minute 0 (set_Hour 0
        (set_tz_mm (negate *! Minute d) (set_tz_hh (negate *! Hour d)
          (set_utc (if negate =? 1 then UTC_NEG else UTC_POS) d))))
    else d in
  let d := if negb (Type_ d =? xs_time) then set_Day (Day d +! carry) d else d in
  let loop := if negb (Type_ d =? xs_time) then normalize_day d else Some d in
  match loop with
  | None => None
  | Some d =>
      Some (if negb (Type_ d =? xs_date) then set_tz_mm 0 (set_tz_hh 0 (set_utc UTC_STD d)) else d)
  end.

Definition normalizeDateTimeWeak (d : XMLDateTime) : option XMLDateTime :=
  let d := if Hour d =? 24 then set_Day (Day d +! 1) (set_Hour 0 d) else d in
  normalize_day d.

(** The unit of a duration: [negate * digit] is stored, with the sign of the
    duration. *)
Definition duration_unit (negate temp b : Z) : Z * Z :=
  let carry := fQuotient temp b in
  let v := negate *! mod_ temp b carry in
  if negate *! v <? 0 then (v +! (b *! negate), carry -! 1) else (v, carry).

Definition normalizeDuration (d : XMLDateTime) : XMLDateTime :=
  let negate := if utc d =? UTC_NEG then -1 else 1 in
  let '(second, carry) := duration_unit negate (negate *! Second d) 60 in
  let '(minute, carry) := duration_unit negate (negate *! Minute d +! carry) 60 in
  let '(hour, carry) := duration_unit negate (negate *! Hour d +! carry) 24 in
  let day := Day d +! (carry *! negate) in
  let '(month, carry) := duration_unit negate (negate *! Month d) 12 in
  let year := CentYear d +! (carry *! negate) in
  let zero := (MiliSecond d =? 0) && (second =? 0) && (minute =? 0) && (hour =? 0)
              && (day =? 0) && (month =? 0) && (year =? 0) in
  mk_dt (Type_ d) year month day hour minute second (MiliSecond d)
    (if zero then UTC_POS else utc d) (tz_hh d) (tz_mm d).

Definition normalize (d : XMLDateTime) : option XMLDateTime :=
  if isDuration d then Some (normalizeDuration d) else normalizeDateTime d.

(** ** Components *)

(** [getYears], [getMonths], [getDays], [getHours] and [getMinutes]: the field
    of the value, of a duration after normalization. *)
Definition getComponent (f : XMLDateTime -> Z) (this : XMLDateTime) : option Z :=
  if isDuration this then option_map f (normalize this) else Some (f this).
Definition getYears := getComponent CentYear.
Definition getMonths := getComponent Month.
Definition getDays := getComponent Day.
Definition getHours := getComponent Hour.
Definition getMinutes := getComponent Minute.

Definition getTimezone (this : XMLDateTime) : XMLDateTime :=
  let neg := if utc this =? UTC_NEG then -1 else 1 in
  normalizeDuration
    (mk_dt xs_dayTimeDuration 0 0 0 (neg *! tz_hh this) (neg *! tz_mm this) 0 0
       (if utc this =? UTC_NEG then UTC_NEG else UTC_POS) 0 0).

(** ** Validation *)

(** The exceptions; [Out_of_bounds] stands for a read past the terminating NUL
    of a buffer and [Out_of_fuel] for a loop that has not ended. *)
Inductive dt_exn := FORG0001 | FORG0008 | SE1003 | Out_of_bounds | Out_of_fuel.

Definition type_in (d : XMLDateTime) (l : list Z) : bool := existsb (Z.eqb (Type_ d)) l.

Definition validateDateTime (d : XMLDateTime) : res dt_exn unit :=
  if type_in d [xs_date; xs_dateTime; xs_gYear; xs_gYearMonth] && (CentYear d =? 0) then Throw FORG0001
  else if type_in d [xs_date; xs_dateTime; xs_gMonth; xs_gYearMonth; xs_gMonthDay]
          && ((Month d <? 1) || (12 <? Month d)) then Throw FORG0001
  else if type_in d [xs_date; xs_dateTime; xs_gMonthDay; xs_gDay]
          && ((maxDayInMonthFor (CentYear d) (Month d) <? Day d) || (Day d =? 0)) then Throw FORG0001
  else if (Hour d <? 0) || (24 <? Hour d)
          || ((Hour d =? 24) && (negb (Minute d =? 0) || negb (Second d =? 0) || negb (MiliSecond d =? 0)))
       then Throw FORG0001
  else if (Minute d <? 0) || (59 <? Minute d) then Throw FORG0001
  else if (Second d <? 0) || (60 <=? Second d) then Throw FORG0001
  else if (14 <? Z.abs (tz_hh d)) || ((Z.abs (tz_hh d) =? 14) && negb (tz_mm d =? 0)) then Throw FORG0001
  else if 59 <? Z.abs (tz_mm d) then Throw FORG0001
  else Ok tt.

(** ** Comparison *)

Definition compare_fields (l r : list Z) : Z :=
  fold_right (fun '(a, b) rest => if a <? b then LESS_THAN else if b <? a then GREATER_THAN else rest)
    EQUAL (combine l r).

(** The default date and a normal hour for the comparison of times. *)
Definition as_dateTime (d : XMLDateTime) : XMLDateTime :=
  let d := set_Day DAY_DEFAULT (set_Month MONTH_DEFAULT (set_CentYear YEAR_DEFAULT (set_Type xs_dateTime d))) in
  if Hour d =? 24 then set_Hour 0 d else d.

(** The milliseconds are compared as quotients by the same constant; the
    quotients of different [int]s are different [double]s in the same order. *)
Definition compare (lValue rValue : XMLDateTime) : option Z :=
  let '(lTemp, rTemp) :=
    if Type_ lValue =? xs_time then (as_dateTime lValue, as_dateTime rValue) else (lValue, rValue) in
  match normalize lTemp, normalize rTemp with
  | Some l, Some r =>
      let upto d := [Type_ d; CentYear d; Month d; Day d; Hour d; Minute d; Second d] in
      let c := compare_fields (upto l) (upto r) in
      Some (if negb (c =? EQUAL) then c
            else
              let c := if negb (MiliSecond l =? 0) then compare_fields [MiliSecond l] [MiliSecond r] else EQUAL in
              if negb (c =? EQUAL) then c
              else if (Type_ l =? xs_date) && (Type_ r =? xs_date)
                      && (negb (utc l =? UTC_STD) || negb (utc r =? UTC_STD)) then
                let lNeg := if utc l =? UTC_POS then -1 else 1 in
                let rNeg := if utc r =? UTC_POS then -1 else 1 in
                compare_fields [tz_hh l *! lNeg; tz_mm l *! lNeg] [tz_hh r *! rNeg; tz_mm r *! rNeg]
              else EQUAL)
  | _, _ => None
  end.

Definition xs_dateTime_equal (a b : XMLDateTime) : option bool := option_map (fun c => c =? 0) (compare a b).
(** [!compare(d1, d2)]: true when the comparison returns 0. *)
Definition xs_dateTime_not_equal (a b : XMLDateTime) : option bool := option_map (fun c => c =? 0) (compare a b).
Definition xs_dateTime_less_than (a b : XMLDateTime) : option bool := option_map (fun c => c <? 0) (compare a b).

(** ** Adjustment *)

Definition adjustToTimezone0 (dt : XMLDateTime) : XMLDateTime :=
  set_tz_mm 0 (set_tz_hh 0 (set_utc 0 dt)).

Definition fnDateTime (d t : XMLDateTime) : option (res dt_exn XMLDateTime) :=
  let n := set_Type xs_dateTime d in
  let hours := if Hour t =? 24 then 0 else Hour t in
  let n := set_MiliSecond (MiliSecond t) (set_Second (Second t) (set_Minute (Minute t) (set_Hour hours n))) in
  if utc n =? UTC_UNKNOWN then
    Some (Ok (set_tz_mm (tz_mm t) (set_tz_hh (tz_hh t) (set_utc (utc t) n))))
  else if negb (utc t =? UTC_UNKNOWN) then
    match compare (getTimezone d) (getTimezone t) with
    | Some c => Some (if negb (c =? 0) then Throw FORG0008 else Ok n)
    | None => None
    end
  else Some (Ok n).
