(* ===== verification/DateTimeCal.v ===== *)
(** * Dates, times and durations: the calendar

    Day numbers of the proleptic Gregorian calendar, the loop that brings a
    day into its month, and the normalizations: they keep the instant of a
    date and the length of a duration, and their results are canonical. *)

From Stdlib Require Import ZArith List Lia Bool.
From S2P Require Import Prelude DateTime.
Import ListNotations.
Local Open Scope Z_scope.
Local Open Scope sedna_scope.

(** ** Day numbers *)

Definition leap_days (y : Z) : Z := y / 4 - y / 100 + y / 400.

(** The days before the first of January of year [y]. *)
Definition days_before_year (y : Z) : Z := 365 * (y - 1) + leap_days (y - 1).

Fixpoint days_of_months (y : Z) (k : nat) : Z :=
  match k with
  | O => 0
  | S k => days_of_months y k + maxDayInMonthFor y (Z.of_nat (S k))
  end.

Definition day_number (y m d : Z) : Z := days_before_year y + days_of_months y (Z.to_nat (m - 1)) + d.

Lemma rem_zero a b : 0 < b -> (Z.rem a b =? 0) = (a mod b =? 0).
Proof.
  intros Hb. apply eq_true_iff_eq. rewrite !Z.eqb_eq.
  rewrite Z.rem_divide, Z.mod_divide by lia. reflexivity.
Qed.

Lemma isLeapYear_mod y : isLeapYear y = (y mod 4 =? 0) && (negb (y mod 100 =? 0) || (y mod 400 =? 0)).
Proof. unfold isLeapYear. now rewrite !rem_zero by lia. Qed.

Definition year_length (y : Z) : Z := if isLeapYear y then 366 else 365.

Lemma days_before_next_year y : days_before_year (y + 1) = days_before_year y + year_length y.
Proof.
  unfold days_before_year, leap_days, year_length. rewrite isLeapYear_mod. replace (y + 1 - 1) with y by lia.
  destruct (Z.eqb_spec (y mod 4) 0), (Z.eqb_spec (y mod 100) 0), (Z.eqb_spec (y mod 400) 0); cbn [andb negb orb];
    Z.div_mod_to_equations; lia.
Qed.

Lemma days_of_year y : days_of_months y 12 = year_length y.
Proof. unfold year_length. cbn. unfold maxDayInMonthFor. cbn. destruct (isLeapYear y); reflexivity. Qed.

Lemma maxDay_range y m : 28 <= maxDayInMonthFor y m <= 31.
Proof. unfold maxDayInMonthFor. destruct (_ || _), (m =? 2), (isLeapYear y); lia. Qed.

Definition valid_month (m : Z) : Prop := 1 <= m <= 12.
Definition valid_date (y m d : Z) : Prop := valid_month m /\ 1 <= d <= maxDayInMonthFor y m.

(** The following and the preceding month. *)
Definition next_month (y m : Z) : Z * Z := if m =? 12 then (y + 1, 1) else (y, m + 1).
Definition prev_month (y m : Z) : Z * Z := if m =? 1 then (y - 1, 12) else (y, m - 1).

Lemma days_of_months_step y m : valid_month m ->
  days_of_months y (Z.to_nat m) = days_of_months y (Z.to_nat (m - 1)) + maxDayInMonthFor y m.
Proof.
  intros Hm. replace (Z.to_nat m) with (S (Z.to_nat (m - 1))) by (unfold valid_month in Hm; lia).
  cbn [days_of_months]. f_equal. f_equal. unfold valid_month in Hm. lia.
Qed.

Lemma day_number_next y m d : valid_month m ->
  let '(y', m') := next_month y m in day_number y' m' d = day_number y m (d + maxDayInMonthFor y m).
Proof.
  intros Hm. unfold next_month, day_number. pose proof (days_of_months_step y m Hm) as Hs.
  destruct (Z.eqb_spec m 12) as [->|].
  - rewrite days_before_next_year. change (Z.to_nat (1 - 1)) with 0%nat. change (Z.to_nat 12) with 12%nat in Hs.
    rewrite days_of_year in Hs. cbn [days_of_months]. lia.
  - replace (m + 1 - 1) with m by lia. rewrite Hs. lia.
Qed.

Lemma prev_next y m : valid_month m ->
  let '(y', m') := prev_month y m in valid_month m' /\ next_month y' m' = (y, m).
Proof.
  unfold valid_month, prev_month, next_month. intros Hm. destruct (Z.eqb_spec m 1) as [->|].
  - cbn. split; [lia|]. f_equal. lia.
  - split; [lia|]. destruct (Z.eqb_spec (m - 1) 12); [lia|]. f_equal. lia.
Qed.

(** ** The month step of the loop *)

Definition month_step (y m carry : Z) : Z * Z :=
  let temp := m +! carry in
  let month := modulo temp 1 13 in
  let '(month, year) := if month <=? 0 then (month +! 12, y -! 1) else (month, y) in
  (year +! fQuotient3 temp 1 13, month).

Definition year_ok (y : Z) : Prop := -2147483000 <= y <= 2147483000.

(** [month_cases] evaluates the month step for each of the twelve months. *)
Ltac month_cases m Hm :=
  let Hc := fresh in
  assert (Hc : m = 1 \/ m = 2 \/ m = 3 \/ m = 4 \/ m = 5 \/ m = 6 \/ m = 7 \/ m = 8 \/ m = 9 \/ m = 10 \/ m = 11 \/ m = 12) by lia;
  repeat destruct Hc as [->|Hc]; try subst m;
  repeat match goal with
  | |- context [modulo ?a 1 13] => let v := eval vm_compute in (modulo a 1 13) in change (modulo a 1 13) with v
  | |- context [fQuotient3 ?a 1 13] => let v := eval vm_compute in (fQuotient3 a 1 13) in change (fQuotient3 a 1 13) with v
  end; cbn [Z.leb Z.eqb Z.compare Pos.eqb Pos.compare Pos.compare_cont];
  rewrite ?int32_small by (rewrite ?int32_small by int_lia; int_lia); f_equal; lia.

Lemma month_step_next y m : valid_month m -> year_ok y -> month_step y m 1 = next_month y m.
Proof. unfold valid_month, year_ok, month_step, next_month. intros Hm Hy. month_cases m Hm. Qed.

Lemma month_step_prev y m : valid_month m -> year_ok y -> month_step y m (-1) = prev_month y m.
Proof. unfold valid_month, year_ok, month_step, prev_month. intros Hm Hy. month_cases m Hm. Qed.

(** ** The loop *)

Lemma day_loop_unfold fuel y m d :
  day_loop (S fuel) y m d =
    if d <? 1 then let '(y', m') := month_step y m (-1) in day_loop fuel y' m' (d +! maxDayInMonthFor y (m -! 1))
    else if maxDayInMonthFor y m <? d then let '(y', m') := month_step y m 1 in day_loop fuel y' m' (d -! maxDayInMonthFor y m)
    else Some (y, m, d).
Proof.
  cbn [day_loop]. unfold month_step.
  destruct (d <? 1); [destruct (modulo (m +! -1) 1 13 <=? 0); reflexivity|].
  destruct (maxDayInMonthFor y m <? d); [destruct (modulo (m +! 1) 1 13 <=? 0); reflexivity|reflexivity].
Qed.

Definition date_result (y m d : Z) (r : option (Z * Z * Z)) : Prop :=
  exists y' m' d', r = Some (y', m', d') /\ valid_date y' m' d' /\ day_number y' m' d' = day_number y m d.

Lemma date_result_ext y m d y' m' d' r :
  day_number y m d = day_number y' m' d' -> date_result y m d r -> date_result y' m' d' r.
Proof. intros E (a & b & c & H1 & H2 & H3). exists a, b, c. rewrite <- E. auto. Qed.

Lemma next_month_ok y m : valid_month m -> let '(y', m') := next_month y m in valid_month m' /\ y <= y' <= y + 1.
Proof. unfold valid_month, next_month. intros Hm. destruct (Z.eqb_spec m 12); lia. Qed.

Lemma prev_month_ok y m : valid_month m -> let '(y', m') := prev_month y m in valid_month m' /\ y - 1 <= y' <= y.
Proof. unfold valid_month, prev_month. intros Hm. destruct (Z.eqb_spec m 1); lia. Qed.

(** A day too large: the rounds go forward. *)
Lemma day_loop_forward fuel : forall y m d,
  valid_month m -> 1 <= d < Z.of_nat fuel -> d < 2147483000 -> -2147483000 <= y -> y + d <= 2147483000 ->
  date_result y m d (day_loop fuel y m d).
Proof.
  induction fuel as [|fuel IH]; intros y m d Hm Hd Hd2 Hy1 Hy2; [lia|].
  rewrite day_loop_unfold. pose proof (maxDay_range y m) as Hmax.
  destruct (Z.ltb_spec d 1); [lia|]. destruct (Z.ltb_spec (maxDayInMonthFor y m) d) as [Hgt|Hle].
  - rewrite month_step_next by (unfold year_ok; lia || assumption).
    pose proof (next_month_ok y m Hm) as Hn. pose proof (day_number_next y m (d - maxDayInMonthFor y m) Hm) as E.
    destruct (next_month y m) as [y' m']. rewrite int32_small by int_lia.
    eapply date_result_ext; [|apply IH; lia || tauto]. rewrite E. f_equal. lia.
  - exists y, m, d. split; [reflexivity|]. split; [split; [exact Hm|lia]|reflexivity].
Qed.

(** A day too small: the rounds go backward. *)
Lemma day_loop_backward fuel : forall y m d,
  valid_month m -> d <= 31 -> 1 - d < Z.of_nat fuel -> 0 < Z.of_nat fuel -> -2147483000 < d -> y <= 2147483000 ->
  -2147483000 <= y - (1 - d) -> d <= maxDayInMonthFor y m ->
  date_result y m d (day_loop fuel y m d).
Proof.
  induction fuel as [|fuel IH]; intros y m d Hm Hd Hf Hf0 Hd2 Hy1 Hy2 Hdm; [lia|].
  rewrite day_loop_unfold. destruct (Z.ltb_spec d 1) as [Hlt|Hge].
  - pose proof Hm as Hm0. unfold valid_month in Hm0. rewrite (int32_small (m - 1)) by int_lia.
    rewrite month_step_prev by (unfold year_ok; lia || assumption).
    pose proof (prev_month_ok y m Hm) as Hp. pose proof (prev_next y m Hm) as Hpn.
    assert (Hlen : let '(y', m') := prev_month y m in maxDayInMonthFor y (m - 1) = maxDayInMonthFor y' m').
    { unfold prev_month. destruct (Z.eqb_spec m 1) as [->|]; reflexivity. }
    destruct (prev_month y m) as [y' m']. destruct Hpn as [Hm' Hnx]. rewrite Hlen.
    pose proof (maxDay_range y' m') as Hr. rewrite int32_small by int_lia.
    pose proof (day_number_next y' m' d Hm') as E. rewrite Hnx in E.
    eapply date_result_ext; [|apply IH; lia || assumption]. symmetry. exact E.
  - destruct (Z.ltb_spec (maxDayInMonthFor y m) d); [lia|].
    exists y, m, d. split; [reflexivity|]. split; [split; [exact Hm|lia]|reflexivity].
Qed.

Definition day_bound : Z := 1000000000.

Lemma day_loop_ok y m d :
  valid_month m -> Z.abs y <= day_bound -> Z.abs d <= day_bound ->
  date_result y m d (day_loop (day_fuel d) y m d).
Proof.
  unfold day_bound, day_fuel. intros Hm Hy Hd. pose proof (maxDay_range y m) as Hmax.
  destruct (Z.lt_ge_cases d 1).
  - apply day_loop_backward; lia || assumption.
  - apply day_loop_forward; lia || assumption.
Qed.

(** ** Order of dates *)

Lemma days_of_months_le y j k : (j <= k)%nat -> days_of_months y j <= days_of_months y k.
Proof.
  induction 1 as [|k _ IH]; [lia|]. cbn [days_of_months]. pose proof (maxDay_range y (Z.of_nat (S k))). lia.
Qed.

Lemma day_in_year y m d : valid_date y m d -> days_before_year y < day_number y m d <= days_before_year (y + 1).
Proof.
  intros [Hm Hd]. rewrite days_before_next_year, <- days_of_year. unfold day_number.
  pose proof (days_of_months_step y m Hm) as Hs. unfold valid_month in Hm.
  pose proof (days_of_months_le y 0 (Z.to_nat (m - 1)) ltac:(lia)) as H0.
  pose proof (days_of_months_le y (Z.to_nat m) 12 ltac:(lia)) as H1. cbn [days_of_months] in H0. lia.
Qed.

Lemma days_before_year_mono y y' : y <= y' -> days_before_year y <= days_before_year y'.
Proof. unfold days_before_year, leap_days. intros H. Z.div_mod_to_equations; lia. Qed.

Lemma day_number_lt y m d y' m' d' :
  valid_date y m d -> valid_date y' m' d' ->
  y < y' \/ (y = y' /\ (m < m' \/ (m = m' /\ d < d'))) -> day_number y m d < day_number y' m' d'.
Proof.
  intros H H' [Hy|[-> [Hm|[-> Hd]]]].
  - pose proof (day_in_year _ _ _ H). pose proof (day_in_year _ _ _ H').
    pose proof (days_before_year_mono (y + 1) y' ltac:(lia)). lia.
  - destruct H as [Vm Vd], H' as [Vm' Vd']. unfold day_number. pose proof (days_of_months_step y' m Vm) as Hs.
    unfold valid_month in *. pose proof (days_of_months_le y' (Z.to_nat m) (Z.to_nat (m' - 1)) ltac:(lia)). lia.
  - unfold day_number. lia.
Qed.
