(* ===== verification/DateTimeNorm.v ===== *)
(** * Dates, times and durations: normalization, comparison, packed forms *)

From Stdlib Require Import ZArith List Lia Bool.
From S2P Require Import Prelude DateTime DateTimeCal.
Import ListNotations.
Local Open Scope Z_scope.
Local Open Scope sedna_scope.

(** ** Units *)

(** [v] is at most [B] in size. *)
Definition rng (B v : Z) : Prop := -B <= v <= B.

Definition small (v : Z) : Prop := rng 500000000 v.

Definition is_sign (s : Z) : Prop := s = 1 \/ s = -1.

Lemma rng_add B C a b : rng B a -> rng C b -> rng (B + C) (a + b).
Proof. unfold rng. lia. Qed.

Lemma rng_sign B s v : is_sign s -> rng B v -> rng B (s * v).
Proof. unfold rng. intros [-> | ->]; lia. Qed.

Lemma rng_sign_r B s v : is_sign s -> rng B v -> rng B (v * s).
Proof. intros Hs Hv. rewrite Z.mul_comm. now apply rng_sign. Qed.

Lemma rng_div B v b : 1 < b -> rng B v -> rng B (v / b).
Proof.
  unfold rng. intros Hb Hv. pose proof (Z.div_mod v b ltac:(lia)). pose proof (Z.mod_pos_bound v b ltac:(lia)). nia.
Qed.

Lemma rng_int32 B v : rng B v -> B <= 2147483647 -> int32 v = v.
Proof. unfold rng. intros Hv HB. apply int32_small. int_lia. Qed.

Lemma sign_sq s : is_sign s -> s * s = 1.
Proof. intros [-> | ->]; reflexivity. Qed.

Lemma quot_facts temp b : rng 2000000000 temp -> 1 < b <= 100 ->
  rng 2000000000 (Z.quot temp b) /\ rng 2000000000 (Z.quot temp b * b) /\
  temp - Z.quot temp b * b = Z.rem temp b /\ - b < Z.rem temp b < b.
Proof.
  intros Ht Hb. pose proof (Z.quot_rem' temp b) as E. pose proof (Z.rem_bound_abs temp b ltac:(lia)) as Hr.
  assert (Hle : rng 2000000000 (b * Z.quot temp b)).
  { unfold rng in *. pose proof (Z.mul_quot_le temp b) as H1. pose proof (Z.mul_quot_ge temp b) as H2.
    destruct (Z.le_ge_cases 0 temp) as [Hp|Hn]; [specialize (H1 Hp ltac:(lia))|specialize (H2 Hn ltac:(lia))]; lia. }
  replace (Z.quot temp b * b) with (b * Z.quot temp b) by lia. unfold rng in *. split; [nia|]. split; [lia|]. split; lia.
Qed.

Lemma carry_unit_spec temp b : rng 2000000000 temp -> 1 < b <= 100 -> carry_unit temp b = (temp mod b, temp / b).
Proof.
  intros Ht Hb. destruct (quot_facts temp b Ht Hb) as (H1 & H2 & H3 & H4). unfold carry_unit, mod_, fQuotient. unfold rng in *.
  rewrite (int32_small (Z.quot temp b * b)) by int_lia. rewrite (int32_small (temp - _)) by int_lia. rewrite H3.
  assert (E : temp = b * Z.quot temp b + Z.rem temp b) by lia.
  destruct (Z.ltb_spec (Z.rem temp b) 0); rewrite ?int32_small by int_lia.
  - rewrite <- (Z.mod_unique_pos temp b (Z.quot temp b - 1) (Z.rem temp b + b)) by lia.
    rewrite <- (Z.div_unique_pos temp b (Z.quot temp b - 1) (Z.rem temp b + b)) by lia. reflexivity.
  - rewrite <- (Z.mod_unique_pos temp b (Z.quot temp b) (Z.rem temp b)) by lia.
    rewrite <- (Z.div_unique_pos temp b (Z.quot temp b) (Z.rem temp b)) by lia. reflexivity.
Qed.

Lemma duration_unit_spec s temp b :
  is_sign s -> rng 2000000000 temp -> 1 < b <= 100 ->
  duration_unit s temp b = (s * (temp mod b), temp / b).
Proof.
  intros Hs Ht Hb. pose proof (carry_unit_spec temp b Ht Hb) as Hc.
  destruct (quot_facts temp b Ht Hb) as (H1 & H2 & H3 & H4). unfold carry_unit, mod_, fQuotient in Hc.
  unfold duration_unit, mod_, fQuotient. rewrite (rng_int32 _ _ H2) in * by lia.
  rewrite H3 in *. set (r := Z.rem temp b) in *. rewrite (int32_small r) in * by int_lia.
  pose proof (rng_sign 100 s r Hs ltac:(unfold rng; lia)) as Hsr. rewrite (rng_int32 _ _ Hsr) by lia.
  rewrite Z.mul_assoc, (sign_sq s Hs), Z.mul_1_l, (int32_small r) by int_lia.
  destruct (Z.ltb_spec r 0).
  - rewrite (int32_small (r + b)) in Hc by int_lia. injection Hc as Hm Hd. rewrite <- Hm, <- Hd.
    pose proof (rng_sign_r 100 s b Hs ltac:(unfold rng; lia)) as Hbs. rewrite (rng_int32 _ _ Hbs) by lia.
    rewrite (rng_int32 200) by (lia || apply (rng_add 100 100); assumption). f_equal. lia.
  - injection Hc as Hm Hd. now rewrite <- Hm, <- Hd.
Qed.

(** ** Durations *)

Definition total_months (d : XMLDateTime) : Z := 12 * CentYear d + Month d.
Definition total_seconds (d : XMLDateTime) : Z := 86400 * Day d + 3600 * Hour d + 60 * Minute d + Second d.

Definition sign_of (d : XMLDateTime) : Z := if utc d =? UTC_NEG then -1 else 1.

Definition small_fields (d : XMLDateTime) : Prop :=
  small (CentYear d) /\ small (Month d) /\ small (Day d) /\ small (Hour d) /\ small (Minute d) /\ small (Second d) /\
  small (tz_hh d) /\ small (tz_mm d).

(** The fields of a duration carry the sign [s] and are below their bases. *)
Definition duration_canonical (s : Z) (d : XMLDateTime) : Prop :=
  0 <= s * Month d < 12 /\ 0 <= s * Hour d < 24 /\ 0 <= s * Minute d < 60 /\ 0 <= s * Second d < 60.

Definition all_zero (d : XMLDateTime) : bool :=
  (MiliSecond d =? 0) && (Second d =? 0) && (Minute d =? 0) && (Hour d =? 0) && (Day d =? 0) && (Month d =? 0)
  && (CentYear d =? 0).

Lemma normalizeDuration_eq d :
  small_fields d ->
  let s := sign_of d in
  let minutes := s * Minute d + s * Second d / 60 in
  let hours := s * Hour d + minutes / 60 in
  let y := CentYear d + (s * Month d / 12) * s in
  let dd := Day d + (hours / 24) * s in
  let r := mk_dt (Type_ d) y (s * (s * Month d mod 12)) dd (s * (hours mod 24)) (s * (minutes mod 60))
             (s * (s * Second d mod 60)) (MiliSecond d) (utc d) (tz_hh d) (tz_mm d) in
  normalizeDuration d = if all_zero r then set_utc UTC_POS r else r.
Proof.
  intros (Hy & Hmo & Hd & Hh & Hmi & Hse & _) s minutes hours y dd r.
  assert (Hs : is_sign s) by (unfold s, sign_of; destruct (_ =? _); [right|left]; reflexivity).
  pose proof (rng_sign _ s _ Hs Hse) as Bse. pose proof (rng_sign _ s _ Hs Hmi) as Bmi.
  pose proof (rng_sign _ s _ Hs Hh) as Bh. pose proof (rng_sign _ s _ Hs Hmo) as Bmo.
  pose proof (rng_add _ _ _ _ Bmi (rng_div _ _ 60 ltac:(lia) Bse)) as Bmin. fold minutes in Bmin.
  pose proof (rng_add _ _ _ _ Bh (rng_div _ _ 60 ltac:(lia) Bmin)) as Bhr. fold hours in Bhr.
  pose proof (rng_sign_r _ s _ Hs (rng_div _ _ 24 ltac:(lia) Bhr)) as Bhd.
  pose proof (rng_sign_r _ s _ Hs (rng_div _ _ 12 ltac:(lia) Bmo)) as Byr.
  pose proof (rng_add _ _ _ _ Hd Bhd) as Bdd. fold dd in Bdd. pose proof (rng_add _ _ _ _ Hy Byr) as By. fold y in By.
  unfold normalizeDuration. change (if utc d =? UTC_NEG then -1 else 1) with s.
  rewrite (rng_int32 _ _ Bse), duration_unit_spec by (assumption || lia || (unfold rng in *; lia)).
  rewrite (rng_int32 _ _ Bmi) by lia. fold minutes.
  rewrite (rng_int32 _ _ Bmin), duration_unit_spec by (assumption || lia || (unfold rng in *; lia)).
  rewrite (rng_int32 _ _ Bh) by lia. fold hours.
  rewrite (rng_int32 _ _ Bhr), duration_unit_spec by (assumption || lia || (unfold rng in *; lia)).
  rewrite (rng_int32 _ _ Bmo), duration_unit_spec by (assumption || lia || (unfold rng in *; lia)).
  rewrite (rng_int32 _ _ Bhd), (rng_int32 _ _ Byr) by lia. fold y dd.
  rewrite (rng_int32 _ _ Bdd), (rng_int32 _ _ By) by lia.
  unfold all_zero, r. cbn [CentYear Month Day Hour Minute Second MiliSecond]. destruct (_ && _); reflexivity.
Qed.

Lemma normalizeDuration_spec d :
  small_fields d ->
  let d' := normalizeDuration d in
  total_months d' = total_months d /\ total_seconds d' = total_seconds d /\
  MiliSecond d' = MiliSecond d /\ duration_canonical (sign_of d) d' /\ Type_ d' = Type_ d.
Proof.
  intros Hd d'. pose proof (normalizeDuration_eq d Hd) as HE. cbn zeta in HE. fold d' in HE.
  set (s := sign_of d) in *. set (mi := s * Minute d + s * Second d / 60) in *. set (hr := s * Hour d + mi / 60) in *.
  assert (Hs : is_sign s) by (unfold s, sign_of; destruct (_ =? _); [right|left]; reflexivity).
  pose proof (Z.div_mod (s * Second d) 60 ltac:(lia)) as E1. pose proof (Z.mod_pos_bound (s * Second d) 60 ltac:(lia)) as B1.
  pose proof (Z.div_mod mi 60 ltac:(lia)) as E2. pose proof (Z.mod_pos_bound mi 60 ltac:(lia)) as B2.
  pose proof (Z.div_mod hr 24 ltac:(lia)) as E3. pose proof (Z.mod_pos_bound hr 24 ltac:(lia)) as B3.
  pose proof (Z.div_mod (s * Month d) 12 ltac:(lia)) as E4. pose proof (Z.mod_pos_bound (s * Month d) 12 ltac:(lia)) as B4.
  unfold mi in E2 at 1. unfold hr in E3 at 1.
  set (q1 := s * Second d / 60) in *. set (r1 := (s * Second d) mod 60) in *.
  set (q2 := mi / 60) in *. set (r2 := mi mod 60) in *. set (q3 := hr / 24) in *. set (r3 := hr mod 24) in *.
  set (q4 := s * Month d / 12) in *. set (r4 := (s * Month d) mod 12) in *.
  clearbody q1 r1 q2 r2 q3 r3 q4 r4 s d'. clear mi hr. rewrite HE.
  destruct (all_zero _); unfold total_months, total_seconds, duration_canonical, set_utc;
    cbn [CentYear Month Day Hour Minute Second MiliSecond Type_];
    destruct Hs as [-> | ->]; repeat split; lia.
Qed.

(** A canonical duration is its own normal form. *)
Lemma normalizeDuration_id d : small_fields d -> duration_canonical (sign_of d) d -> (all_zero d = true -> utc d = UTC_POS) ->
  normalizeDuration d = d.
Proof.
  intros Hf (C1 & C2 & C3 & C4) Hz. rewrite normalizeDuration_eq by assumption. set (s := sign_of d) in *.
  assert (Hs : is_sign s) by (unfold s, sign_of; destruct (_ =? _); [right|left]; reflexivity). clearbody s.
  rewrite (Z.div_small (s * Second d) 60), Z.add_0_r, (Z.div_small (s * Minute d) 60), Z.add_0_r by lia.
  rewrite (Z.div_small (s * Hour d) 24), (Z.div_small (s * Month d) 12), !Z.mod_small, !Z.mul_0_l, !Z.add_0_r by lia.
  rewrite !Z.mul_assoc, (sign_sq s Hs), !Z.mul_1_l. destruct d as [ty y mo da h mi se ms u th tm]. unfold set_utc.
  cbn [Type_ CentYear Month Day Hour Minute Second MiliSecond utc tz_hh tz_mm] in *.
  destruct (all_zero _); [|reflexivity]. now rewrite Hz.
Qed.

(** ** Instants *)

(** [dt_cbn] reads the fields of values built by the setters. *)
Ltac dt_cbn :=
  cbn [Type_ CentYear Month Day Hour Minute Second MiliSecond utc tz_hh tz_mm set_Type set_CentYear set_Month set_Day
       set_Hour set_Minute set_Second set_MiliSecond set_utc set_tz_hh set_tz_mm] in *.

Definition tiny (v : Z) : Prop := rng 100000000 v.

Definition tiny_fields (d : XMLDateTime) : Prop :=
  tiny (CentYear d) /\ tiny (Month d) /\ tiny (Day d) /\ tiny (Hour d) /\ tiny (Minute d) /\
  tiny (tz_hh d) /\ tiny (tz_mm d).

(** The month may be out of range: it counts from the January of its year. *)
Definition month_of (d : XMLDateTime) : Z := (Month d - 1) mod 12 + 1.
Definition year_of (d : XMLDateTime) : Z := CentYear d + (Month d - 1) / 12.

Definition tz_sign (d : XMLDateTime) : Z := if utc d =? UTC_POS then -1 else 1.

(** The minutes since the beginning of the year 1, in UTC. *)
Definition instant (d : XMLDateTime) : Z :=
  1440 * day_number (year_of d) (month_of d) (Day d)
  + 60 * (Hour d + tz_sign d * tz_hh d) + (Minute d + tz_sign d * tz_mm d).

Lemma month_carry m : tiny m ->
  (if modulo m 1 13 <=? 0 then (modulo m 1 13 +! 12, fQuotient3 m 1 13 -! 1) else (modulo m 1 13, fQuotient3 m 1 13))
  = ((m - 1) mod 12 + 1, (m - 1) / 12).
Proof.
  intros Hm. unfold tiny, rng in Hm. unfold modulo, fQuotient3, mod_, fQuotient.
  rewrite (int32_small (m - 1)), (int32_small (13 - 1)) by int_lia. change (13 - 1) with 12. set (t := m - 1).
  destruct (quot_facts t 12) as (H1 & H2 & H3 & H4); [unfold rng, t; lia|lia|]. rewrite (rng_int32 _ _ H2) by lia.
  rewrite H3. pose proof (carry_unit_spec t 12 ltac:(unfold rng, t; lia) ltac:(lia)) as Hc.
  unfold carry_unit, mod_, fQuotient in Hc. rewrite (rng_int32 _ _ H2), H3 in Hc by lia.
  unfold rng in *. set (r := Z.rem t 12) in *. rewrite !(int32_small r) in * by int_lia. rewrite (int32_small (r + 1)) by int_lia.
  destruct (Z.ltb_spec r 0), (Z.leb_spec (r + 1) 0); try lia; rewrite ?int32_small in * by int_lia;
    injection Hc as <- <-; f_equal; lia.
Qed.

Definition time_canonical (d : XMLDateTime) : Prop := 0 <= Hour d < 24 /\ 0 <= Minute d < 60.

Lemma normalize_day_ok d :
  valid_month (Month d) -> rng day_bound (CentYear d) -> rng day_bound (Day d) ->
  exists y m dd, normalize_day d = Some (set_Day dd (set_Month m (set_CentYear y d))) /\
    valid_date y m dd /\ day_number y m dd = day_number (CentYear d) (Month d) (Day d).
Proof.
  intros Hm Hy Hd. unfold rng in *. unfold normalize_day.
  destruct (day_loop_ok (CentYear d) (Month d) (Day d) Hm ltac:(lia) ltac:(lia)) as (y & m & dd & -> & H1 & H2).
  exists y, m, dd. auto.
Qed.

(** What [normalizeDateTime] does before the loop over the days. *)
Definition shifted (d : XMLDateTime) : XMLDateTime :=
  let minutes := Minute d + tz_sign d * tz_mm d in
  let hours := Hour d + tz_sign d * tz_hh d + minutes / 60 in
  set_Day (Day d + hours / 24)
    (set_Hour (hours mod 24) (set_Minute (minutes mod 60) (set_Month (month_of d) (set_CentYear (year_of d) d)))).

Lemma shifted_spec d : tiny_fields d ->
  valid_month (Month (shifted d)) /\ rng day_bound (CentYear (shifted d)) /\ rng day_bound (Day (shifted d)) /\
  time_canonical (shifted d) /\
  1440 * day_number (CentYear (shifted d)) (Month (shifted d)) (Day (shifted d)) + 60 * Hour (shifted d) + Minute (shifted d)
    = instant d.
Proof.
  intros (Hy & Hmo & Hd & Hh & Hmi & Htz & Htm). unfold shifted, instant, time_canonical, day_bound.
  cbn [CentYear Month Day Hour Minute set_Day set_Hour set_Minute set_Month set_CentYear].
  assert (Hs : is_sign (tz_sign d)) by (unfold tz_sign; destruct (_ =? _); [right|left]; reflexivity).
  pose proof (rng_add _ _ _ _ Hmi (rng_sign _ _ _ Hs Htm)) as Bm. pose proof (rng_add _ _ _ _ Hh (rng_sign _ _ _ Hs Htz)) as Bh.
  set (m := Minute d + tz_sign d * tz_mm d) in *. set (h := Hour d + tz_sign d * tz_hh d) in *.
  pose proof (rng_add _ _ _ _ Bh (rng_div _ _ 60 ltac:(lia) Bm)) as Bhh. set (h2 := h + m / 60) in *.
  pose proof (rng_add _ _ _ _ Hd (rng_div _ _ 24 ltac:(lia) Bhh)) as Bd.
  assert (Hm1 : rng 100000001 (Month d - 1)) by (unfold tiny, rng in *; lia).
  pose proof (rng_add _ _ _ _ Hy (rng_div _ _ 12 ltac:(lia) Hm1)) as By. fold (year_of d) in By.
  pose proof (Z.mod_pos_bound (Month d - 1) 12 ltac:(lia)) as M1.
  pose proof (Z.mod_pos_bound h2 24 ltac:(lia)) as M2. pose proof (Z.mod_pos_bound m 60 ltac:(lia)) as M3.
  pose proof (Z.div_mod h2 24 ltac:(lia)) as E2. pose proof (Z.div_mod m 60 ltac:(lia)) as E3.
  unfold month_of, valid_month, rng in *. split; [lia|]. split; [lia|]. split; [lia|]. split; [lia|].
  unfold h2 in E2 at 1. unfold day_number. lia.
Qed.

(** The value before the loop over the days, for all types. *)
Definition with_zone (d : XMLDateTime) : XMLDateTime :=
  if (Type_ d =? xs_date) && (negb (Hour d =? 0) || negb (Minute d =? 0))
  then set_Minute 0 (set_Hour 0 (set_tz_mm (Minute d) (set_tz_hh (Hour d) (set_utc UTC_NEG d)))) else d.

Lemma normalizeDateTime_eq d : tiny_fields d -> Type_ d <> xs_time ->
  normalizeDateTime d =
    match normalize_day (with_zone (shifted d)) with
    | None => None
    | Some r => Some (if negb (Type_ r =? xs_date) then set_tz_mm 0 (set_tz_hh 0 (set_utc UTC_STD r)) else r)
    end.
Proof.
  intros Hd Ht. pose proof (shifted_spec d Hd) as (_ & _ & _ & [Hh Hm] & _). pose proof Hd as (By & Bmo & Bd & Bh & Bmi & Btz & Btm).
  unfold normalizeDateTime. fold (tz_sign d).
  assert (Hs : is_sign (tz_sign d)) by (unfold tz_sign; destruct (_ =? _); [right|left]; reflexivity).
  pose proof (rng_sign _ _ _ Hs Btm) as Ctm. pose proof (rng_sign _ _ _ Hs Btz) as Ctz.
  pose proof (rng_add _ _ _ _ Bmi Ctm) as Cm. pose proof (rng_add _ _ _ _ Bh Ctz) as Ch.
  pose proof (rng_add _ _ _ _ Ch (rng_div _ _ 60 ltac:(lia) Cm)) as Chh.
  pose proof (rng_add _ _ _ _ Bd (rng_div _ _ 24 ltac:(lia) Chh)) as Cd.
  assert (Hm1 : rng 100000001 (Month d - 1)) by (unfold tiny, rng in *; lia).
  pose proof (rng_add _ _ _ _ By (rng_div _ _ 12 ltac:(lia) Hm1)) as Cy.
  rewrite (month_carry (Month d) Bmo). rewrite (rng_int32 _ _ Cy) by lia. fold (year_of d) (month_of d).
  cbn [Minute Hour tz_mm tz_hh Day Type_ CentYear Month utc set_CentYear set_Month set_Minute set_Hour].
  rewrite (rng_int32 _ _ Ctm), (rng_int32 _ _ Cm), carry_unit_spec by (lia || (unfold rng in *; lia)).
  cbn [Minute Hour tz_mm tz_hh Day Type_ CentYear Month utc set_CentYear set_Month set_Minute set_Hour].
  rewrite (rng_int32 _ _ Ctz), (rng_int32 _ _ Ch), (rng_int32 _ _ Chh), carry_unit_spec by (lia || (unfold rng in *; lia)).
  unfold shifted in Hh, Hm. cbn [Hour Minute set_Day set_Hour set_Minute] in Hh, Hm.
  unfold with_zone, shifted. cbn [Minute Hour tz_mm tz_hh Day Type_ CentYear Month utc set_CentYear set_Month set_Minute set_Hour set_Day].
  set (hh := _ mod 24) in *. set (mm := _ mod 60) in *.
  destruct (Z.ltb_spec hh 0); [lia|]. destruct (Z.ltb_spec mm 0); [lia|]. cbn [orb Z.eqb Pos.eqb].
  rewrite (int32_small (1 * mm)), (int32_small (1 * hh)), !Z.mul_1_l by int_lia.
  assert (Et : (Type_ d =? xs_time) = false) by (now apply Z.eqb_neq).
  set (q := (_ + _) / 24) in *. clearbody hh mm q.
  destruct d as [ty y mo da h mi se ms ut th tm].
  cbn [Type_ CentYear Month Day Hour Minute Second MiliSecond utc tz_hh tz_mm] in *.
  destruct ((ty =? xs_date) && (negb (hh =? 0) || negb (mm =? 0)));
    dt_cbn; rewrite Et; cbn [negb]; dt_cbn; rewrite Et; cbn [negb]; rewrite ?(rng_int32 _ _ Cd) by lia; reflexivity.
Qed.

(** [r] stands for the instant of [d], with a date of the calendar, a time of
    day and the rest of [d]. *)
Record normal_form (d r : XMLDateTime) : Prop := {
  nf_date : valid_date (CentYear r) (Month r) (Day r);
  nf_time : time_canonical r;
  nf_instant : instant r = instant d;
  nf_type : Type_ r = Type_ d;
  nf_second : Second r = Second d;
  nf_mili : MiliSecond r = MiliSecond d
}.

Lemma normal_instant r : valid_month (Month r) ->
  instant r = 1440 * day_number (CentYear r) (Month r) (Day r)
              + 60 * (Hour r + tz_sign r * tz_hh r) + (Minute r + tz_sign r * tz_mm r).
Proof.
  unfold valid_month, instant, year_of, month_of. intros Hm.
  rewrite (Z.mod_small (Month r - 1) 12), (Z.div_small (Month r - 1) 12) by lia. do 3 f_equal. f_equal; lia.
Qed.

(** Every type but xs:date and xs:time: the zone is folded into the fields. *)
Lemma normalizeDateTime_spec d :
  tiny_fields d -> Type_ d <> xs_time -> Type_ d <> xs_date ->
  exists r, normalizeDateTime d = Some r /\ normal_form d r /\ utc r = UTC_STD /\ tz_hh r = 0 /\ tz_mm r = 0.
Proof.
  intros Hd Ht Hdt. rewrite normalizeDateTime_eq by assumption.
  destruct (shifted_spec d Hd) as (Hm & Hy & Hdd & Htc & Hi).
  assert (E : (Type_ d =? xs_date) = false) by (now apply Z.eqb_neq).
  replace (with_zone (shifted d)) with (shifted d) by (unfold with_zone; change (Type_ (shifted d)) with (Type_ d); now rewrite E).
  destruct (normalize_day_ok (shifted d) Hm Hy Hdd) as (y & m & dd & -> & Hv & Hn).
  eexists. split; [reflexivity|]. change (Type_ (set_Day _ _)) with (Type_ d). rewrite E. cbn [negb].
  split; [|repeat split]. constructor; try reflexivity; try exact Hv; try exact Htc.
  rewrite normal_instant by apply Hv. unfold tz_sign. set (s := shifted d) in *. clearbody s. dt_cbn.
  rewrite Hn, <- Hi. cbn [Z.eqb UTC_STD UTC_POS Pos.eqb]. lia.
Qed.

(** xs:date: the time of day becomes the time zone of the result. *)
Lemma normalizeDate_spec d :
  tiny_fields d -> Type_ d = xs_date -> Hour d = 0 -> Minute d = 0 -> 0 <= tz_hh d < 24 -> 0 <= tz_mm d < 60 ->
  exists r, normalizeDateTime d = Some r /\ normal_form d r /\ Hour r = 0 /\ Minute r = 0 /\
    0 <= 60 * tz_hh r + tz_mm r < 1440 /\ (utc r = UTC_NEG \/ (tz_hh r = 0 /\ tz_mm r = 0)).
Proof.
  intros Hd Ht Hh0 Hm0 Hz1 Hz2. rewrite normalizeDateTime_eq by (rewrite ?Ht; unfold xs_date, xs_time; trivial; lia).
  destruct (shifted_spec d Hd) as (Hm & Hy & Hdd & [Htc1 Htc2] & Hi). set (s := shifted d) in *.
  assert (Hz : Hour s = 0 /\ Minute s = 0 -> tz_hh d = 0 /\ tz_mm d = 0).
  { unfold s, shifted, tz_sign. dt_cbn. rewrite Hh0, Hm0. destruct (_ =? _); Z.div_mod_to_equations; lia. }
  assert (Es : tz_hh s = tz_hh d /\ tz_mm s = tz_mm d /\ Type_ s = xs_date) by (split; [|split]; [reflexivity..|exact Ht]).
  assert (Fs : Type_ s = Type_ d /\ Second s = Second d /\ MiliSecond s = MiliSecond d) by (repeat split).
  clearbody s. destruct Es as (E1 & E2 & E3), Fs as (F1 & F2 & F3).
  unfold with_zone. rewrite E3. cbn [andb Z.eqb xs_date Pos.eqb].
  destruct (Z.eqb_spec (Hour s) 0) as [H0|H0], (Z.eqb_spec (Minute s) 0) as [M0|M0]; cbn [negb orb].
  1: destruct (normalize_day_ok s Hm Hy Hdd) as (y & m & dd & -> & Hv & Hn).
  2-4: match goal with |- context [normalize_day ?x] =>
         destruct (normalize_day_ok x Hm Hy Hdd) as (y & m & dd & -> & Hv & Hn) end.
  all: eexists; split; [reflexivity|]; destruct s as [ty y0 mo da h mi se ms ut th tm]; dt_cbn; cbn [negb Z.eqb xs_date Pos.eqb] in *;
    dt_cbn; subst ty; cbn [negb Z.eqb xs_date Pos.eqb]; split.
  1,3,5,7: constructor; unfold time_canonical; dt_cbn; trivial; try lia; rewrite normal_instant by apply Hv; unfold tz_sign; dt_cbn;
    rewrite Hn, <- Hi; cbn [Z.eqb UTC_NEG UTC_POS Pos.eqb]; try lia.
  all: dt_cbn; try (repeat split; lia).
Qed.

(** ** Comparison *)

(** The seconds since the beginning of the year 1, in UTC. *)
Definition clock (d : XMLDateTime) : Z := 60 * instant d + Second d.

Lemma compare_fields_cons a b l r :
  compare_fields (a :: l) (b :: r) = if a <? b then LESS_THAN else if b <? a then GREATER_THAN else compare_fields l r.
Proof. reflexivity. Qed.

(** One more field: the order of the rest counts when the field is equal. *)
Lemma compare_step a b l r z :
  (a < b -> z < 0) -> (b < a -> 0 < z) -> (a = b -> compare_fields l r = Z.sgn z) ->
  compare_fields (a :: l) (b :: r) = Z.sgn z.
Proof.
  intros H1 H2 H3. rewrite compare_fields_cons. unfold LESS_THAN, GREATER_THAN.
  destruct (Z.ltb_spec a b); [specialize (H1 H); now rewrite Z.sgn_neg|].
  destruct (Z.ltb_spec b a); [specialize (H2 H0); now rewrite Z.sgn_pos|]. apply H3. lia.
Qed.

Lemma compare_one a b : compare_fields [a] [b] = Z.sgn (a - b).
Proof. apply compare_step; try lia. intros ->. now rewrite Z.sub_diag. Qed.

Definition in_utc (d : XMLDateTime) : Prop := tz_hh d = 0 /\ tz_mm d = 0.
Definition second_ok (d : XMLDateTime) : Prop := 0 <= Second d < 60.

Lemma compare_normal l r :
  valid_date (CentYear l) (Month l) (Day l) -> valid_date (CentYear r) (Month r) (Day r) ->
  time_canonical l -> time_canonical r -> second_ok l -> second_ok r -> in_utc l -> in_utc r -> Type_ l = Type_ r ->
  compare_fields [Type_ l; CentYear l; Month l; Day l; Hour l; Minute l; Second l]
                 [Type_ r; CentYear r; Month r; Day r; Hour r; Minute r; Second r] = Z.sgn (clock l - clock r).
Proof.
  intros Dl Dr [Hl Ml] [Hr Mr] Sl Sr [Zl1 Zl2] [Zr1 Zr2] Ht. unfold second_ok in *.
  unfold clock. rewrite (normal_instant l (proj1 Dl)), (normal_instant r (proj1 Dr)), Zl1, Zl2, Zr1, Zr2, !Z.mul_0_r, !Z.add_0_r.
  pose proof (day_number_lt _ _ _ _ _ _ Dl Dr) as L1. pose proof (day_number_lt _ _ _ _ _ _ Dr Dl) as L2.
  set (nl := day_number _ _ (Day l)) in *. set (nr := day_number _ _ (Day r)) in *.
  assert (Enlr : CentYear l = CentYear r -> Month l = Month r -> Day l = Day r -> nl = nr)
    by (unfold nl, nr; intros -> -> ->; reflexivity).
  clearbody nl nr. apply compare_step; [lia..|intros _].
  apply compare_step; [intros H; specialize (L1 ltac:(lia)); lia|intros H; specialize (L2 ltac:(lia)); lia|intros Ey].
  apply compare_step; [intros H; specialize (L1 ltac:(lia)); lia|intros H; specialize (L2 ltac:(lia)); lia|intros Em].
  apply compare_step; [intros H; specialize (L1 ltac:(lia)); lia|intros H; specialize (L2 ltac:(lia)); lia|intros Ed].
  specialize (Enlr Ey Em Ed). apply compare_step; [lia..|intros Eh]. apply compare_step; [lia..|intros Emi].
  rewrite compare_one. f_equal. lia.
Qed.

(** The lexicographic order of two points in time: the seconds since the
    epoch, then the fraction. *)
Definition instant_order (l r : XMLDateTime) : Z :=
  match clock l ?= clock r with
  | Lt => LESS_THAN
  | Gt => GREATER_THAN
  | Eq => match MiliSecond l ?= MiliSecond r with Lt => LESS_THAN | Gt => GREATER_THAN | Eq => EQUAL end
  end.

Lemma normalize_dateTime d : tiny_fields d -> Type_ d = xs_dateTime ->
  exists r, normalize d = Some r /\ normal_form d r /\ in_utc r.
Proof.
  intros Hd Ht. unfold normalize, isDuration. rewrite Ht.
  change ((xs_dateTime =? xs_duration) || (xs_dateTime =? xs_dayTimeDuration) || (xs_dateTime =? xs_yearMonthDuration)) with false.
  destruct (normalizeDateTime_spec d Hd) as (r & -> & Hn & _ & H1 & H2); [rewrite Ht; discriminate..|].
  exists r. unfold in_utc. auto.
Qed.

Lemma compare_dateTimes l r :
  tiny_fields l -> tiny_fields r -> Type_ l = xs_dateTime -> Type_ r = xs_dateTime -> second_ok l -> second_ok r ->
  (MiliSecond l <> 0 \/ MiliSecond r = 0 -> compare l r = Some (instant_order l r)) /\
  (MiliSecond l = 0 -> compare l r = Some (Z.sgn (clock l - clock r))).
Proof.
  intros Hl Hr Tl Tr Sl Sr. unfold compare. rewrite Tl. change (xs_dateTime =? xs_time) with false. cbv iota.
  destruct (normalize_dateTime l Hl Tl) as (l' & -> & Nl & Ul), (normalize_dateTime r Hr Tr) as (r' & -> & Nr & Ur).
  destruct Nl as [L1 L2 L3 L4 L5 L6], Nr as [R1 R2 R3 R4 R5 R6].
  assert (Sl' : second_ok l') by (unfold second_ok in *; lia). assert (Sr' : second_ok r') by (unfold second_ok in *; lia).
  cbv zeta. rewrite compare_normal by (trivial; congruence). rewrite compare_one.
  assert (Cl : clock l' = clock l) by (unfold clock; lia). assert (Cr : clock r' = clock r) by (unfold clock; lia).
  rewrite Cl, Cr, L4, L6, R4, R6, Tl, Tr. change (xs_dateTime =? xs_date) with false. cbn [andb]. unfold instant_order, EQUAL, LESS_THAN, GREATER_THAN.
  assert (Hsgn : forall a b : Z, Z.sgn (a - b) = match a ?= b with Eq => 0 | Lt => -1 | Gt => 1 end).
  { intros a b. destruct (Z.compare_spec a b); lia. }
  rewrite !Hsgn. split; intros Hm.
  - f_equal. destruct (Z.compare_spec (clock l) (clock r)); cbn [Z.eqb negb]; [|reflexivity..].
    destruct (Z.eqb_spec (MiliSecond l) 0) as [E|E]; cbn [negb Z.eqb].
    + destruct Hm as [Hm|Hm]; [contradiction|]. now rewrite E, Hm.
    + now destruct (MiliSecond l ?= MiliSecond r).
  - rewrite Hm. cbn [Z.eqb negb]. f_equal. now destruct (clock l ?= clock r).
Qed.

(** ** Packed forms *)

Definition fits (w v : Z) : Prop := 0 <= v < 2 ^ w.

Lemma bits_fit w v : fits w v -> bits w v = v.
Proof. intros H. now apply Z.mod_small. Qed.

(** The values that fit the bit fields of [xs_packed_datetime]. *)
Definition fits_datetime (d : XMLDateTime) : Prop :=
  fits 9 (Day d) /\ fits 4 (Month d) /\ fits 5 (Hour d) /\ fits 6 (Minute d) /\ fits 6 (Second d) /\
  fits 18 (MiliSecond d) /\ fits 4 (utc d) /\ fits 4 (tz_hh d) /\ fits 6 (tz_mm d).

Lemma packed_datetime d : fits_datetime d -> of_packed_datetime (getPackedDateTime d) (Type_ d) = d.
Proof.
  intros (H1 & H2 & H3 & H4 & H5 & H6 & H7 & H8 & H9). unfold getPackedDateTime, of_packed_datetime.
  rewrite !bits_fit by assumption. now destruct d.
Qed.

Lemma validate_fits d : validateDateTime d = Ok tt -> type_in d [xs_dateTime; xs_date] = true ->
  0 <= Day d -> fits 18 (MiliSecond d) -> fits 4 (utc d) -> 0 <= tz_hh d -> 0 <= tz_mm d -> fits_datetime d.
Proof.
  unfold validateDateTime, fits_datetime, fits, type_in. cbn [existsb]. intros HV HT HD HM HU HH HMM.
  pose proof (maxDay_range (CentYear d) (Month d)).
  destruct (Type_ d =? xs_dateTime) eqn:?, (Type_ d =? xs_date) eqn:?; try discriminate; cbn [orb andb] in HV;
  repeat (match type of HV with (if ?b then _ else _) = _ => destruct b eqn:?; [discriminate|] end);
  repeat (match goal with H : (_ || _) = false |- _ => apply orb_false_iff in H as [? ?] end);
  repeat split; lia.
Qed.
