(* ===== verification/DateTimeText.v ===== *)
(** * Dates, times and durations: texts

    Models the scanners and the printers of class [XMLDateTime],
    src/kernel/tr/executor/base/XMLDateTime.cpp.

    A C string is the list of its character codes without the NUL; positions
    are indices.  Reading at the length gives the NUL, reading further is the
    outcome [Out_of_bounds].  A parser takes the value the object had before
    the call and returns the value it has afterwards. *)

From Stdlib Require Import Ascii String ZArith List Lia Bool.
From S2P Require Import Prelude DateTime.
Import ListNotations.
Local Open Scope Z_scope.
Local Open Scope sedna_scope.

Definition buffer := list Z.

Definition chr (c : ascii) : Z := Z.of_N (N_of_ascii c).
Definition text (s : string) : buffer := map chr (list_ascii_of_string s).

Definition DURATION_STARTER : Z := chr "P".
Definition DURATION_Y : Z := chr "Y".
Definition DURATION_M : Z := chr "M".
Definition DURATION_D : Z := chr "D".
Definition DURATION_H : Z := chr "H".
Definition DURATION_S : Z := chr "S".
Definition DATE_SEPARATOR : Z := chr "-".
Definition TIME_SEPARATOR : Z := chr ":".
Definition TIMEZONE_SEPARATOR : Z := chr ":".
Definition DATETIME_SEPARATOR : Z := chr "T".
Definition MILISECOND_SEPARATOR : Z := chr ".".
Definition UTC_STD_CHAR : Z := chr "Z".
Definition UTC_POS_CHAR : Z := chr "+".
Definition UTC_NEG_CHAR : Z := chr "-".
Definition UTC_SET : buffer := [UTC_STD_CHAR; UTC_POS_CHAR; UTC_NEG_CHAR].
Definition MINUS : Z := chr "-".
Definition ZERO : Z := chr "0".
Definition NINE : Z := chr "9".

Definition YMD_MIN_SIZE : nat := 10.
Definition YMONTH_MIN_SIZE : nat := 7.
Definition TIME_MIN_SIZE : nat := 8.
Definition TIMEZONE_SIZE : nat := 5.
Definition DAY_SIZE : nat := 5.
Definition MONTHDAY_SIZE : nat := 7.
Definition DUR_MILISECOND_DIGITS : nat := 3.
Definition DT_MILISECOND_DIGITS : nat := 5.

(** [fBuffer[i]] *)
Definition rd (buf : buffer) (i : nat) : res dt_exn Z :=
  match nth_error buf i with
  | Some c => Ok c
  | None => if (i =? length buf)%nat then Ok 0 else Throw Out_of_bounds
  end.

(** [if (!b) throw XQUERY_EXCEPTION2(FORG0001, ...)] *)
Definition require (b : bool) : res dt_exn unit := if b then Ok tt else Throw FORG0001.

(** ** White space *)

Definition isspace (c : Z) : bool := ((9 <=? c) && (c <=? 13)) || (c =? 32).

(** The first loop, [n] characters from [i]; they are inside the buffer. *)
Fixpoint skip_space (buf : buffer) (i n : nat) : nat :=
  match n with
  | O => i
  | S n => if isspace (nth i buf 0) then skip_space buf (S i) n else i
  end.

Fixpoint trim_end (buf : buffer) (start end_ : nat) : nat :=
  match end_ with
  | O => O
  | S i => if (start <=? i)%nat && isspace (nth i buf 0) then trim_end buf start i else S i
  end.

Definition handleWhitespace (buf : buffer) (start end_ : nat) : nat * nat :=
  let start := skip_space buf start (end_ - start) in
  if (start =? end_)%nat then (start, end_) else (start, trim_end buf start end_).

(** ** Locators and converters *)

Fixpoint indexOf_loop (buf : buffer) (i n : nat) (ch : Z) : option nat :=
  match n with
  | O => None
  | S n => if nth i buf 0 =? ch then Some i else indexOf_loop buf (S i) n ch
  end.
Definition indexOf (buf : buffer) (start end_ : nat) (ch : Z) : option nat :=
  indexOf_loop buf start (end_ - start) ch.

(** The overload on a NUL-terminated set. *)
Definition indexOf_set (array : buffer) (ch : Z) : option nat := indexOf_loop array 0 (length array) ch.

Fixpoint findUTCSign_loop (d : XMLDateTime) (buf : buffer) (i n : nat) : XMLDateTime * option nat :=
  match n with
  | O => (d, None)
  | S n =>
      match indexOf_set UTC_SET (nth i buf 0) with
      | Some subpos => (set_utc (Z.of_nat subpos + 1) d, Some i)
      | None => findUTCSign_loop d buf (S i) n
      end
  end.
Definition findUTCSign (d : XMLDateTime) (buf : buffer) (start fEnd : nat) : XMLDateTime * option nat :=
  findUTCSign_loop d buf start (fEnd - start).

(** The digit is added as an [unsigned int]; the sum is stored in an [int]. *)
Fixpoint parseInt_loop (buf : buffer) (i n : nat) (retVal : Z) : res dt_exn Z :=
  match n with
  | O => Ok retVal
  | S n =>
      let* c := rd buf i in
      let* _ := require (negb ((c <? ZERO) || (NINE <? c))) in
      parseInt_loop buf (S i) n (retVal *! 10 +! (c - ZERO))
  end.
Definition parseInt (buf : buffer) (start end_ : nat) : res dt_exn Z := parseInt_loop buf start (end_ - start) 0.

Definition parseIntYear (buf : buffer) (fStart end_ : nat) : res dt_exn Z :=
  let* c := rd buf fStart in
  let negative := c =? MINUS in
  let start := if negative then S fStart else fStart in
  let* _ := require (negb (end_ <=? start)%nat) in
  let length := (end_ - start)%nat in
  let* _ := require (negb (length <? 4)%nat) in
  let* c := rd buf start in
  let* _ := require (negb ((4 <? length)%nat && (c =? ZERO))) in
  let* yearVal := parseInt buf start end_ in
  Ok (if negative then -1 *! yearVal else yearVal).

(** ** Scanners *)

Definition getTimeZone (d : XMLDateTime) (buf : buffer) (sign fEnd : nat) : res dt_exn XMLDateTime :=
  let* c := rd buf sign in
  if c =? UTC_STD_CHAR then
    let* _ := require (S sign =? fEnd)%nat in Ok d
  else
    let* _ := require (sign + TIMEZONE_SIZE + 1 =? fEnd)%nat in
    let* c := rd buf (sign + 3) in
    let* _ := require (c =? TIMEZONE_SEPARATOR) in
    let* hh := parseInt buf (sign + 1) (sign + 3) in
    let* mm := parseInt buf (sign + 4) fEnd in
    Ok (set_tz_mm mm (set_tz_hh hh d)).

(** The time zone at [fStart], when there is one: the body of [parseTimeZone]
    and the end of [parseDay], [parseMonth] and [parseMonthDay]. *)
Definition parseTimeZone (d : XMLDateTime) (buf : buffer) (fStart fEnd : nat) : res dt_exn XMLDateTime :=
  if (fStart <? fEnd)%nat then
    let* c := rd buf fStart in
    match indexOf_set UTC_SET c with
    | None => Throw FORG0001
    | Some pos => getTimeZone (set_utc (Z.of_nat pos + 1) d) buf fStart fEnd
    end
  else Ok d.

Definition getYearMonth (d : XMLDateTime) (buf : buffer) (fStart fEnd : nat) : res dt_exn (XMLDateTime * nat) :=
  let* _ := require (negb (fEnd <? fStart + YMONTH_MIN_SIZE)%nat) in
  let* c := rd buf fStart in
  let start := if c =? MINUS then S fStart else fStart in
  match indexOf buf start fEnd DATE_SEPARATOR with
  | None => Throw FORG0001
  | Some yearSeparator =>
      let* year := parseIntYear buf fStart yearSeparator in
      let d := set_CentYear year d in
      let fStart := S yearSeparator in
      let* _ := require (negb (fEnd <? fStart + 2)%nat) in
      let* month := parseInt buf fStart (yearSeparator + 3) in
      Ok (set_Month month d, (fStart + 2)%nat)
  end.

Definition getDate (d : XMLDateTime) (buf : buffer) (fStart fEnd : nat) : res dt_exn (XMLDateTime * nat) :=
  let* _ := require (negb (fEnd <? fStart + YMD_MIN_SIZE)%nat) in
  let* (d, fStart) := getYearMonth d buf fStart fEnd in
  let* c := rd buf fStart in
  let fStart := S fStart in
  let* _ := require (c =? DATE_SEPARATOR) in
  let* day := parseInt buf fStart (fStart + 2) in
  Ok (set_Day day d, (fStart + 2)%nat).

(** The part of a time after the seconds. *)
Definition getTime_rest (d : XMLDateTime) (buf : buffer) (fStart fEnd : nat) : res dt_exn XMLDateTime :=
  let '(d, sign) := findUTCSign d buf fStart fEnd in
  let* c := rd buf fStart in
  let* d :=
    if c =? MILISECOND_SEPARATOR then
      let fStart := S fStart in
      let* _ := require (negb (fEnd <=? fStart)%nat) in
      let stop := match sign with None => fEnd | Some sign => sign end in
      let* rawMilis := parseInt buf fStart stop in
      Ok (set_MiliSecond (adjustMiliseconds rawMilis (stop - fStart) DT_MILISECOND_DIGITS) d)
    else
      let* _ := require (match sign with
                         | None => false
                         | Some sign => negb ((sign =? 0)%nat || negb (sign =? fStart)%nat)
                         end) in
      Ok d in
  match sign with
  | Some sign => if (0 <? sign)%nat then getTimeZone d buf sign fEnd else Ok d
  | None => Ok d
  end.

Definition getTime (d : XMLDateTime) (buf : buffer) (fStart fEnd : nat) : res dt_exn XMLDateTime :=
  let* _ := require (negb (fEnd <? fStart + TIME_MIN_SIZE)%nat) in
  let* c2 := rd buf (fStart + 2) in
  let* _ := require (c2 =? TIME_SEPARATOR) in
  let* c5 := rd buf (fStart + 5) in
  let* _ := require (c5 =? TIME_SEPARATOR) in
  let* hour := parseInt buf fStart (fStart + 2) in
  let* minute := parseInt buf (fStart + 3) (fStart + 5) in
  let* second := parseInt buf (fStart + 6) (fStart + 8) in
  let d := set_Second second (set_Minute minute (set_Hour hour d)) in
  let fStart := (fStart + 8)%nat in
  if (fEnd <=? fStart)%nat then Ok d else getTime_rest d buf fStart fEnd.

(** ** Parsers of dates and times *)

(** [validateDateTime()] as the last statement. *)
Definition validated (d : XMLDateTime) : res dt_exn XMLDateTime :=
  let* _ := validateDateTime d in Ok d.

Definition parseDate (d : XMLDateTime) (buf : buffer) : res dt_exn XMLDateTime :=
  let d := set_Type xs_date d in
  let '(start, end_) := handleWhitespace buf 0 (length buf) in
  let* (d, start) := getDate d buf start end_ in
  let* d := parseTimeZone d buf start end_ in
  validated d.

Definition parseTime (d : XMLDateTime) (buf : buffer) : res dt_exn XMLDateTime :=
  let d := set_Type xs_time d in
  let '(start, end_) := handleWhitespace buf 0 (length buf) in
  let* d := getTime d buf start end_ in
  validated d.

Definition parseDateTime (d : XMLDateTime) (buf : buffer) : res dt_exn XMLDateTime :=
  let d := set_Type xs_dateTime d in
  let '(fStart, fEnd) := handleWhitespace buf 0 (length buf) in
  let* (d, fStart) := getDate d buf fStart fEnd in
  let* c := rd buf fStart in
  let* _ := require (c =? DATETIME_SEPARATOR) in
  let* d := getTime d buf (S fStart) fEnd in
  let* d := validated d in
  of_option Out_of_fuel (normalizeDateTimeWeak d).

Definition parseDay (d : XMLDateTime) (buf : buffer) : res dt_exn XMLDateTime :=
  let d := set_Type xs_gDay d in
  let '(start, end_) := handleWhitespace buf 0 (length buf) in
  let* c := rd buf start in
  let* _ := require (c =? DATE_SEPARATOR) in
  let* c := rd buf (start + 1) in
  let* _ := require (c =? DATE_SEPARATOR) in
  let* c := rd buf (start + 2) in
  let* _ := require (c =? DATE_SEPARATOR) in
  let* day := parseInt buf (start + 3) (start + 5) in
  let* d := parseTimeZone (set_Day day d) buf (start + DAY_SIZE) end_ in
  validated d.

Definition parseMonth (d : XMLDateTime) (buf : buffer) : res dt_exn XMLDateTime :=
  let d := set_Type xs_gMonth d in
  let '(fStart, fEnd) := handleWhitespace buf 0 (length buf) in
  let* c := rd buf fStart in
  let* _ := require (c =? DATE_SEPARATOR) in
  let* c := rd buf (fStart + 1) in
  let* _ := require ((c =? DATE_SEPARATOR) && negb (fEnd <? fStart + 4)%nat) in
  let* month := parseInt buf (fStart + 2) (fStart + 4) in
  let d := set_Month month d in
  let fStart := (fStart + 4)%nat in
  let* fStart :=
    if (fStart + 2 <=? fEnd)%nat then
      let* c := rd buf fStart in
      let* c' := rd buf (fStart + 1) in
      Ok (if (c =? DATE_SEPARATOR) && (c' =? DATE_SEPARATOR) then (fStart + 2)%nat else fStart)
    else Ok fStart in
  let* d := parseTimeZone d buf fStart fEnd in
  validated d.

Definition parseYear (d : XMLDateTime) (buf : buffer) : res dt_exn XMLDateTime :=
  let d := set_Type xs_gYear d in
  let '(fStart, fEnd) := handleWhitespace buf 0 (length buf) in
  let* c := rd buf fStart in
  let '(d, sign) := findUTCSign d buf (if c =? MINUS then S fStart else fStart) fEnd in
  let* d :=
    match sign with
    | None => let* year := parseIntYear buf fStart fEnd in Ok (set_CentYear year d)
    | Some sign =>
        let* year := parseIntYear buf fStart sign in
        getTimeZone (set_CentYear year d) buf sign fEnd
    end in
  validated d.

Definition parseMonthDay (d : XMLDateTime) (buf : buffer) : res dt_exn XMLDateTime :=
  let d := set_Type xs_gMonthDay d in
  let '(fStart, fEnd) := handleWhitespace buf 0 (length buf) in
  let* c := rd buf fStart in
  let* _ := require (c =? DATE_SEPARATOR) in
  let* c := rd buf (fStart + 1) in
  let* _ := require (c =? DATE_SEPARATOR) in
  let* c := rd buf (fStart + 4) in
  let* _ := require (c =? DATE_SEPARATOR) in
  let* month := parseInt buf (fStart + 2) (fStart + 4) in
  let* day := parseInt buf (fStart + 5) (fStart + 7) in
  let* d := parseTimeZone (set_Day day (set_Month month d)) buf (fStart + MONTHDAY_SIZE) fEnd in
  validated d.

Definition parseYearMonth (d : XMLDateTime) (buf : buffer) : res dt_exn XMLDateTime :=
  let d := set_Type xs_gYearMonth d in
  let '(fStart, fEnd) := handleWhitespace buf 0 (length buf) in
  let* (d, fStart) := getYearMonth d buf fStart fEnd in
  let* d := parseTimeZone d buf fStart fEnd in
  validated d.

(** ** Parsers of durations *)

(** The state of the parsers of durations: the value, [fStart] and
    [designator]. *)
Record dur_state := mk_ds { ds_value : XMLDateTime; ds_start : nat; ds_designator : bool }.

(** [P] or [-P] at the beginning; the sign is read at index 0 of the buffer.
    The result is [fStart] and [negate]. *)
Definition duration_start (d : XMLDateTime) (buf : buffer) (fStart fEnd : nat)
  : res dt_exn (XMLDateTime * nat * Z) :=
  let* c := rd buf fStart in
  let fStart := S fStart in
  let* _ := require ((c =? DURATION_STARTER) || (c =? MINUS)) in
  let* fStart :=
    if c =? MINUS then
      let* c := rd buf fStart in
      let* _ := require (c =? DURATION_STARTER) in
      Ok (S fStart)
    else Ok fStart in
  let* c0 := rd buf 0 in
  let d := set_utc (if c0 =? MINUS then UTC_NEG else UTC_POS) d in
  let negate := if c0 =? MINUS then -1 else 1 in
  match indexOf buf fStart fEnd MINUS with
  | Some _ => Throw FORG0001
  | None => Ok (d, fStart, negate)
  end.

(** A number before the designator [ch], if [ch] occurs before [limit]; [set]
    stores it.  [empty_at] is the position the check for an empty number
    compares with: the position of the designator, or [fEnd] in
    [parseYearMonthDuration]. *)
Definition duration_field (negate : Z) (ch : Z) (set : Z -> XMLDateTime -> XMLDateTime)
    (buf : buffer) (limit : nat) (empty_at : nat -> nat) (s : dur_state) : res dt_exn dur_state :=
  match indexOf buf (ds_start s) limit ch with
  | None => Ok s
  | Some end_ =>
      let* _ := require (negb (ds_start s =? empty_at end_)%nat) in
      let* v := parseInt buf (ds_start s) end_ in
      Ok (mk_ds (set (negate *! v) (ds_value s)) (S end_) true)
  end.

(** The seconds, with an optional fraction. *)
Definition duration_seconds (negate : Z) (buf : buffer) (fEnd : nat) (s : dur_state) : res dt_exn dur_state :=
  match indexOf buf (ds_start s) fEnd DURATION_S with
  | None => Ok s
  | Some end_ =>
      match indexOf buf (ds_start s) end_ MILISECOND_SEPARATOR with
      | Some mlsec =>
          let* _ := require (negb (end_ <=? S mlsec)%nat) in
          let* v := parseInt buf (ds_start s) mlsec in
          let* rawMilis := parseInt buf (S mlsec) end_ in
          let miliSecondLen := (end_ - mlsec - 1)%nat in
          let ms := adjustMiliseconds rawMilis miliSecondLen DUR_MILISECOND_DIGITS in
          Ok (mk_ds (set_MiliSecond (negate *! ms) (set_Second (negate *! v) (ds_value s))) (S end_) true)
      | None =>
          let* _ := require (negb (ds_start s =? end_)%nat) in
          let* v := parseInt buf (ds_start s) end_ in
          Ok (mk_ds (set_Second (negate *! v) (ds_value s)) (S end_) true)
      end
  end.

(** The part after [T], when there is one, and the end of the parser. *)
Definition duration_time (negate : Z) (buf : buffer) (endDate fEnd : nat) (s : dur_state) : res dt_exn dur_state :=
  let* _ := require (negb ((fEnd =? endDate)%nat && negb (ds_start s =? fEnd)%nat)) in
  if negb (fEnd =? endDate)%nat then
    let s := mk_ds (ds_value s) (S (ds_start s)) (ds_designator s) in
    let* s := duration_field negate DURATION_H set_Hour buf fEnd (fun e => e) s in
    let* s := duration_field negate DURATION_M set_Minute buf fEnd (fun e => e) s in
    let* s := duration_seconds negate buf fEnd s in
    let* _ := require (ds_start s =? fEnd)%nat in
    let* c := rd buf (ds_start s - 1) in
    let* _ := require (negb (c =? DATETIME_SEPARATOR)) in
    Ok (mk_ds (ds_value s) (ds_start s - 1) (ds_designator s))
  else Ok s.

(** [if (!designator) throw ...; normalize();] *)
Definition duration_end (s : dur_state) : res dt_exn XMLDateTime :=
  let* _ := require (ds_designator s) in
  of_option Out_of_fuel (normalize (ds_value s)).

Definition date_part_end (buf : buffer) (fStart fEnd : nat) : nat :=
  match indexOf buf fStart fEnd DATETIME_SEPARATOR with Some p => p | None => fEnd end.

Definition parseDuration (d : XMLDateTime) (buf : buffer) : res dt_exn XMLDateTime :=
  let d := set_Type xs_duration d in
  let '(fStart, fEnd) := handleWhitespace buf 0 (length buf) in
  let* (d, fStart, negate) := duration_start d buf fStart fEnd in
  let endDate := date_part_end buf fStart fEnd in
  let s := mk_ds d fStart false in
  let* s := duration_field negate DURATION_Y set_CentYear buf endDate (fun e => e) s in
  let* s := duration_field negate DURATION_M set_Month buf endDate (fun e => e) s in
  let* s := duration_field negate DURATION_D set_Day buf endDate (fun e => e) s in
  let* s := duration_time negate buf endDate fEnd s in
  duration_end s.

Definition parseYearMonthDuration (d : XMLDateTime) (buf : buffer) : res dt_exn XMLDateTime :=
  let d := set_Type xs_yearMonthDuration d in
  let '(fStart, fEnd) := handleWhitespace buf 0 (length buf) in
  let* (d, fStart, negate) := duration_start d buf fStart fEnd in
  let s := mk_ds d fStart false in
  let* s := duration_field negate DURATION_Y set_CentYear buf fEnd (fun _ => fEnd) s in
  let* s := duration_field negate DURATION_M set_Month buf fEnd (fun _ => fEnd) s in
  let* _ := require (ds_designator s) in
  let* _ := require (ds_start s =? fEnd)%nat in
  of_option Out_of_fuel (normalize (ds_value s)).

Definition parseDayTimeDuration (d : XMLDateTime) (buf : buffer) : res dt_exn XMLDateTime :=
  let d := set_Type xs_dayTimeDuration d in
  let '(fStart, fEnd) := handleWhitespace buf 0 (length buf) in
  let* (d, fStart, negate) := duration_start d buf fStart fEnd in
  let endDate := date_part_end buf fStart fEnd in
  let s := mk_ds d fStart false in
  let* s := duration_field negate DURATION_D set_Day buf endDate (fun e => e) s in
  let* s := duration_time negate buf endDate fEnd s in
  duration_end s.

(** ** Printers *)

(** The decimal digits of a value below 10^n. *)
Fixpoint udec_loop (n : nat) (v : Z) (acc : buffer) : buffer :=
  match n with
  | O => acc
  | S n =>
      let acc := (ZERO + v mod 10) :: acc in
      if v / 10 =? 0 then acc else udec_loop n (v / 10) acc
  end.

(** [sprintf(buf, "%d", v)]: an [int] has at most 10 digits. *)
Definition udec (v : Z) : buffer := udec_loop 10 v [].
Definition sprintf_d (v : Z) : buffer := if v <? 0 then MINUS :: udec (- v) else udec v.

(** [sprintf(buf, "%0<w>d", v)] *)
Definition sprintf_0d (w : nat) (v : Z) : buffer :=
  let sign := if v <? 0 then [MINUS] else [] in
  let digits := udec (Z.abs v) in
  sign ++ repeat ZERO (w - length sign - length digits) ++ digits.

(** [atoi]: white space, a sign, digits. *)
Fixpoint atoi_digits (l : buffer) (acc : Z) : Z :=
  match l with
  | [] => acc
  | c :: l => if (c <? ZERO) || (NINE <? c) then acc else atoi_digits l (acc *! 10 +! (c - ZERO))
  end.
Fixpoint atoi (l : buffer) : Z :=
  match l with
  | [] => 0
  | c :: l' =>
      if isspace c then atoi l'
      else if c =? MINUS then int32 (- atoi_digits l' 0)
      else if c =? UTC_POS_CHAR then atoi_digits l' 0
      else atoi_digits l 0
  end.

Definition fillString (value : Z) (expLen : nat) : buffer :=
  let strBuffer := sprintf_d value in
  repeat ZERO (expLen - length strBuffer) ++ strBuffer.

(** The first [n] characters, up to a rest that stands for zero. *)
Fixpoint milis_loop (n : nat) (strBuffer : buffer) : buffer :=
  match n, strBuffer with
  | S n, c :: rest => if atoi strBuffer =? 0 then [] else c :: milis_loop n rest
  | _, _ => []
  end.
Definition fillMilisString (value : Z) (maxLen : nat) : buffer := milis_loop maxLen (sprintf_0d maxLen value).

Definition fillYearString (value : Z) : buffer :=
  let strBuffer := sprintf_d value in
  if value <? 0 then MINUS :: repeat ZERO (5 - length strBuffer) ++ tl strBuffer
  else repeat ZERO (4 - length strBuffer) ++ strBuffer.

(** The zone at the end of [printDateTime], [printDate] and [printTime]. *)
Definition print_zone (d : XMLDateTime) : buffer :=
  if utc d =? UTC_UNKNOWN then []
  else if negb (utc d =? UTC_STD) && (negb (tz_hh d =? 0) || negb (tz_mm d =? 0)) then
    nth (Z.to_nat (utc d - 1)) UTC_SET 0 :: fillString (tz_hh d) 2 ++ [TIME_SEPARATOR] ++ fillString (tz_mm d) 2
  else [UTC_STD_CHAR].

Definition print_milis (d : XMLDateTime) : buffer :=
  if negb (MiliSecond d =? 0) then MILISECOND_SEPARATOR :: fillMilisString (MiliSecond d) DT_MILISECOND_DIGITS else [].

Definition printDateTime (d : XMLDateTime) : buffer :=
  fillYearString (CentYear d) ++ [DATE_SEPARATOR] ++ fillString (Month d) 2 ++ [DATE_SEPARATOR]
  ++ fillString (Day d) 2 ++ [DATETIME_SEPARATOR] ++ fillString (Hour d) 2 ++ [TIME_SEPARATOR]
  ++ fillString (Minute d) 2 ++ [TIME_SEPARATOR] ++ fillString (Second d) 2 ++ print_milis d ++ print_zone d.

Definition printTime (d : XMLDateTime) : buffer :=
  let hour := fillString (Hour d) 2 in
  (if Hour d =? 24 then firstn (length hour - 2) hour ++ [ZERO; ZERO] else hour) ++ [TIME_SEPARATOR]
  ++ fillString (Minute d) 2 ++ [TIME_SEPARATOR] ++ fillString (Second d) 2 ++ print_milis d ++ print_zone d.

Definition printDate (d : XMLDateTime) : option buffer :=
  if (Hour d <? 12) || negb (Type_ d =? xs_date) then
    let date :=
      if Type_ d =? xs_gYear then fillYearString (CentYear d)
      else if Type_ d =? xs_gMonth then [DATE_SEPARATOR; DATE_SEPARATOR] ++ fillString (Month d) 2
      else if Type_ d =? xs_gDay then [DATE_SEPARATOR; DATE_SEPARATOR; DATE_SEPARATOR] ++ fillString (Day d) 2
      else if Type_ d =? xs_gYearMonth then fillYearString (CentYear d) ++ [DATE_SEPARATOR] ++ fillString (Month d) 2
      else if Type_ d =? xs_gMonthDay then
        [DATE_SEPARATOR; DATE_SEPARATOR] ++ fillString (Month d) 2 ++ [DATE_SEPARATOR] ++ fillString (Day d) 2
      else fillYearString (CentYear d) ++ [DATE_SEPARATOR] ++ fillString (Month d) 2 ++ [DATE_SEPARATOR]
           ++ fillString (Day d) 2 in
    Some (date ++ print_zone d)
  else
    let '(minute, carry) := if Minute d =? 0 then (0, 0) else (60 -! Minute d, 1) in
    let hour := 24 -! Hour d -! carry in
    let day := Day d +! 1 in
    match day_loop (day_fuel day) (CentYear d) (Month d) day with
    | None => None
    | Some (year, month, day) =>
        Some (fillYearString year ++ [DATE_SEPARATOR] ++ fillString month 2 ++ [DATE_SEPARATOR] ++ fillString day 2
              ++ [UTC_POS_CHAR] ++ fillString hour 2 ++ [TIME_SEPARATOR] ++ fillString minute 2)
    end.

(** A number and its designator, unless the number is zero. *)
Definition print_field (neg v : Z) (ch : Z) : buffer :=
  if negb (v =? 0) then sprintf_d (neg *! v) ++ [ch] else [].

Definition printDuration (d : XMLDateTime) : buffer :=
  let neg := if utc d =? UTC_POS then 1 else -1 in
  let zeroYM := (CentYear d =? 0) && (Month d =? 0) in
  let zeroDate := zeroYM && (Day d =? 0) in
  (if neg =? -1 then [MINUS] else []) ++ [DURATION_STARTER]
  ++ print_field neg (CentYear d) DURATION_Y ++ print_field neg (Month d) DURATION_M
  ++ (if (Type_ d =? xs_yearMonthDuration) && zeroYM then [ZERO; DURATION_M] else [])
  ++ (if (Type_ d =? xs_duration) || (Type_ d =? xs_dayTimeDuration) then
        print_field neg (Day d) DURATION_D
        ++ (if negb (Hour d =? 0) || negb (Minute d =? 0) || negb (Second d =? 0) || negb (MiliSecond d =? 0)
            then [DATETIME_SEPARATOR]
            else if zeroDate then [DATETIME_SEPARATOR; ZERO; DURATION_S] else [])
        ++ print_field neg (Hour d) DURATION_H ++ print_field neg (Minute d) DURATION_M
        ++ (if negb (Second d =? 0) || negb (MiliSecond d =? 0) then
              sprintf_d (neg *! Second d)
              ++ (if negb (MiliSecond d =? 0)
                  then MILISECOND_SEPARATOR :: fillMilisString (neg *! MiliSecond d) DUR_MILISECOND_DIGITS else [])
              ++ [DURATION_S]
            else [])
      else []).

Definition get_string_value (d : XMLDateTime) : res dt_exn buffer :=
  if type_in d [xs_gYearMonth; xs_gYear; xs_gMonthDay; xs_gDay; xs_gMonth; xs_date]
  then of_option Out_of_fuel (printDate d)
  else if Type_ d =? xs_dateTime then Ok (printDateTime d)
  else if Type_ d =? xs_time then Ok (printTime d)
  else if type_in d [xs_duration; xs_dayTimeDuration; xs_yearMonthDuration] then Ok (printDuration d)
  else Throw SE1003.
