(* ===== verification/DateTimeScan.v ===== *)
(** * Dates, times and durations: scanning what is at a position

    The lemmas that follow one scanner over a buffer in which a known text
    stands at a known position, and the properties of printed numbers. *)

From Stdlib Require Import Ascii String ZArith List Lia Bool.
From S2P Require Import Prelude DateTime DateTimeText.
Import ListNotations.
Local Open Scope Z_scope.
Local Open Scope sedna_scope.

(** ** Texts at positions *)

(** The text [s] stands in [buf] at index [i]. *)
Definition stands (buf : buffer) (i : nat) (s : buffer) : Prop :=
  exists pre post, buf = pre ++ s ++ post /\ length pre = i.

Lemma stands_app buf i s t : stands buf i (s ++ t) <-> stands buf i s /\ stands buf (i + length s) t.
Proof.
  split.
  - intros (pre & post & -> & <-). split; [exists pre, (t ++ post)|exists (pre ++ s), post]; rewrite <- ?app_assoc; split;
      rewrite ?length_app; reflexivity.
  - intros [(pre & post & -> & <-) (pre' & post' & E & L)].
    rewrite !app_assoc in E. exists pre, post'. split; [|reflexivity]. rewrite <- !app_assoc in E.
    assert (E' : (pre ++ s) ++ post = pre' ++ t ++ post') by (now rewrite <- app_assoc).
    apply app_eq_app in E'. destruct E' as (l & [[E1 E2]|[E1 E2]]);
      assert (Hl : length l = 0%nat) by (apply (f_equal (@length Z)) in E1; rewrite !length_app in E1; lia);
      destruct l; try discriminate Hl; cbn in E2; rewrite ?app_nil_r in *; subst; now rewrite <- app_assoc.
Qed.

Lemma stands_cons buf i c s : stands buf i (c :: s) <-> stands buf i [c] /\ stands buf (S i) s.
Proof. rewrite <- (Nat.add_1_r i). apply (stands_app buf i [c] s). Qed.

Lemma stands_bound buf i s : stands buf i s -> (i + length s <= length buf)%nat.
Proof. intros (pre & post & -> & <-). rewrite !length_app. lia. Qed.

Lemma stands_nth_error buf i c : stands buf i [c] -> nth_error buf i = Some c.
Proof. intros (pre & post & -> & <-). rewrite nth_error_app2, Nat.sub_diag by lia. reflexivity. Qed.

Lemma stands_rd buf i c : stands buf i [c] -> rd buf i = Ok c.
Proof. intros H. unfold rd. now rewrite (stands_nth_error _ _ _ H). Qed.

Lemma stands_nth buf i c : stands buf i [c] -> nth i buf 0 = c.
Proof. intros H. apply nth_error_nth. now apply stands_nth_error. Qed.

(** ** Searching *)

Lemma indexOf_loop_found buf ch : forall s i n,
  stands buf i (s ++ [ch]) -> ~ In ch s -> (length s < n)%nat -> indexOf_loop buf i n ch = Some (i + length s)%nat.
Proof.
  induction s as [|c s IH]; intros i n Hs Hin Hn; (destruct n as [|n]; [cbn in Hn; lia|]); cbn [indexOf_loop].
  - rewrite (stands_nth _ _ _ Hs), Z.eqb_refl. f_equal. cbn. lia.
  - cbn [app] in Hs. apply stands_cons in Hs as [Hc Hs]. rewrite (stands_nth _ _ _ Hc).
    destruct (Z.eqb_spec c ch) as [->|_]; [elim Hin; now left|].
    rewrite IH; [f_equal; cbn; lia|assumption|intros H; apply Hin; now right|cbn in Hn; lia].
Qed.

Lemma indexOf_found buf i e s ch :
  stands buf i (s ++ [ch]) -> ~ In ch s -> (i + length s < e)%nat -> indexOf buf i e ch = Some (i + length s)%nat.
Proof. intros Hs Hin He. apply indexOf_loop_found; [assumption..|lia]. Qed.

Lemma indexOf_none buf s ch : forall i, stands buf i s -> ~ In ch s -> indexOf buf i (i + length s) ch = None.
Proof.
  unfold indexOf. intros i. replace (i + length s - i)%nat with (length s) by lia. revert i.
  induction s as [|c s IH]; intros i Hs Hin; [reflexivity|]. cbn [indexOf_loop length].
  apply stands_cons in Hs as [Hc Hs]. rewrite (stands_nth _ _ _ Hc).
  destruct (Z.eqb_spec c ch) as [->|_]; [elim Hin; now left|]. apply IH; [assumption|]. intros H. apply Hin. now right.
Qed.

(** ** Digits *)

Definition is_digit (c : Z) : Prop := ZERO <= c <= NINE.

Definition value (ds : buffer) (acc : Z) : Z := fold_left (fun a c => a * 10 + (c - ZERO)) ds acc.

Ltac chars := change ZERO with 48 in *; change NINE with 57 in *.

Lemma value_app s t acc : value (s ++ t) acc = value t (value s acc).
Proof. apply fold_left_app. Qed.

Lemma value_linear : forall ds acc, value ds acc = acc * 10 ^ Z.of_nat (length ds) + value ds 0.
Proof.
  induction ds as [|c ds IH]; intros acc; [cbn; lia|]. cbn [value fold_left length]. fold (value ds (acc * 10 + (c - ZERO))).
  fold (value ds (0 * 10 + (c - ZERO))). rewrite (IH (acc * 10 + _)), (IH (0 * 10 + _)).
  rewrite Nat2Z.inj_succ, Z.pow_succ_r by lia. lia.
Qed.

Lemma value_bound ds : Forall is_digit ds -> 0 <= value ds 0 < 10 ^ Z.of_nat (length ds).
Proof.
  induction 1 as [|c ds Hc _ IH]; [cbn; lia|]. cbn [value fold_left length]. fold (value ds (0 * 10 + (c - ZERO))).
  rewrite value_linear. rewrite Nat2Z.inj_succ, Z.pow_succ_r by lia. unfold is_digit in Hc. chars.
  set (P := 10 ^ _) in *. clearbody P.
  assert (0 <= (c - 48) * P <= 9 * P) by (split; [apply Z.mul_nonneg_nonneg|apply Z.mul_le_mono_nonneg_r]; lia). lia.
Qed.

Lemma value_ge ds acc : Forall is_digit ds -> 0 <= acc -> acc <= value ds acc.
Proof.
  intros H Ha. rewrite value_linear. pose proof (value_bound ds H).
  assert (1 <= 10 ^ Z.of_nat (length ds)) by (apply (Z.pow_le_mono_r 10 0); lia). nia.
Qed.

Lemma value_zeros n ds acc : value (repeat ZERO n ++ ds) acc = value ds (acc * 10 ^ Z.of_nat n).
Proof.
  revert acc. induction n as [|n IH]; intros acc; [cbn [repeat app Z.of_nat]; f_equal; lia|]. cbn [repeat app value fold_left].
  fold (value (repeat ZERO n ++ ds) (acc * 10 + (ZERO - ZERO))). rewrite IH. f_equal.
  rewrite Nat2Z.inj_succ, Z.pow_succ_r by lia. lia.
Qed.

Lemma digits_zeros n : Forall is_digit (repeat ZERO n).
Proof. apply Forall_forall. intros x Hx. apply repeat_spec in Hx as ->. unfold is_digit. chars. lia. Qed.

Lemma digit_guard c : is_digit c -> (c <? ZERO) || (NINE <? c) = false.
Proof. unfold is_digit. chars. lia. Qed.

Lemma digit_step acc c : is_digit c -> 0 <= acc -> acc * 10 + (c - ZERO) <= INT_MAX ->
  acc *! 10 +! (c - ZERO) = acc * 10 + (c - ZERO).
Proof. unfold is_digit. chars. intros. rewrite (int32_small (acc * 10)) by int_lia. apply int32_small. int_lia. Qed.

Lemma parseInt_loop_digits buf : forall ds i acc,
  stands buf i ds -> Forall is_digit ds -> 0 <= acc -> value ds acc <= INT_MAX ->
  parseInt_loop buf i (length ds) acc = Ok (value ds acc).
Proof.
  induction ds as [|c ds IH]; intros i acc Hs Hd Ha Hv; [reflexivity|]. cbn [parseInt_loop length].
  apply stands_cons in Hs as [Hc Hs]. inversion Hd as [|? ? D1 D2]; subst. rewrite (stands_rd _ _ _ Hc). cbn [bind_res].
  rewrite (digit_guard c D1). cbn [negb require bind_res]. cbn [value fold_left] in Hv |- *.
  fold (value ds (acc * 10 + (c - ZERO))) in Hv |- *.
  assert (0 <= acc * 10 + (c - ZERO)) by (unfold is_digit in D1; chars; lia).
  pose proof (value_ge ds _ D2 H). rewrite digit_step by (trivial; lia). apply IH; trivial.
Qed.

Lemma parseInt_digits buf i j ds :
  stands buf i ds -> Forall is_digit ds -> value ds 0 <= INT_MAX -> j = (i + length ds)%nat ->
  parseInt buf i j = Ok (value ds 0).
Proof.
  intros Hs Hd Hv ->. unfold parseInt. replace (i + length ds - i)%nat with (length ds) by lia.
  apply parseInt_loop_digits; trivial. lia.
Qed.

(** ** Printed numbers *)

(** [ds] is the decimal numeral of [v], without leading zeros. *)
Record numeral (v : Z) (ds : buffer) : Prop := {
  num_digits : Forall is_digit ds;
  num_value : value ds 0 = v;
  num_nonempty : (1 <= length ds)%nat;
  num_short : forall k, (1 <= k)%nat -> v < 10 ^ Z.of_nat k -> (length ds <= k)%nat;
  num_lead : (1 < length ds)%nat -> hd 0 ds <> ZERO
}.

Lemma udec_loop_spec n : forall v acc, (1 <= n)%nat -> 0 <= v < 10 ^ Z.of_nat n ->
  exists ds, udec_loop n v acc = ds ++ acc /\ numeral v ds /\ (0 < v -> hd 0 ds <> ZERO).
Proof.
  induction n as [|n IH]; intros v acc Hn Hv; [lia|]. cbn [udec_loop].
  pose proof (Z.mod_pos_bound v 10 ltac:(lia)) as Hm. pose proof (Z.div_mod v 10 ltac:(lia)) as E.
  assert (Hdig : is_digit (ZERO + v mod 10)) by (unfold is_digit; chars; lia).
  destruct (Z.eqb_spec (v / 10) 0) as [Hz|Hz].
  - exists [ZERO + v mod 10]. split; [reflexivity|]. split.
    + constructor; [now constructor|cbn [value fold_left]; lia|cbn; lia|cbn; lia|cbn; lia].
    + intros Hp. cbn [hd]. chars. Z.div_mod_to_equations. lia.
  - rewrite Nat2Z.inj_succ, Z.pow_succ_r in Hv by lia.
    assert (Hn' : (1 <= n)%nat) by (destruct n; [cbn in Hv; nia|lia]).
    destruct (IH (v / 10) ((ZERO + v mod 10) :: acc) Hn' ltac:(nia)) as (ds & -> & [H1 H2 H3 H4 H5] & H6).
    exists (ds ++ [ZERO + v mod 10]). split; [now rewrite <- app_assoc|].
    assert (Hhd : hd 0 (ds ++ [ZERO + v mod 10]) = hd 0 ds) by (destruct ds; [cbn in H3; lia|reflexivity]).
    assert (Hpos : 0 < v / 10) by nia. split; [|intros _; rewrite Hhd; now apply H6].
    constructor.
    + apply Forall_app. split; [assumption|now constructor].
    + rewrite value_app, H2. cbn [value fold_left]. lia.
    + rewrite length_app. cbn. lia.
    + intros [|k] Hk Hlt; [lia|]. rewrite length_app. cbn [length]. rewrite Nat2Z.inj_succ, Z.pow_succ_r in Hlt by lia.
      destruct k as [|k]; [cbn in Hlt; nia|]. specialize (H4 (S k) ltac:(lia) ltac:(nia)). lia.
    + intros _. rewrite Hhd. now apply H6.
Qed.

Lemma udec_spec v : 0 <= v <= INT_MAX -> numeral v (udec v).
Proof.
  intros Hv. destruct (udec_loop_spec 10 v [] ltac:(lia)) as (ds & E & H & _); [unfold INT_MAX in Hv; cbn; lia|].
  unfold udec. now rewrite E, app_nil_r.
Qed.

Lemma sprintf_nonneg v : 0 <= v -> sprintf_d v = udec v.
Proof. intros H. unfold sprintf_d. destruct (Z.ltb_spec v 0); [lia|reflexivity]. Qed.

(** A numeral padded to [n] digits. *)
Definition padded (n : nat) (v : Z) (ds : buffer) : Prop :=
  Forall is_digit ds /\ value ds 0 = v /\ length ds = n.

Lemma pad_spec n v : (1 <= n)%nat -> 0 <= v <= INT_MAX -> v < 10 ^ Z.of_nat n ->
  padded n v (repeat ZERO (n - length (udec v)) ++ udec v).
Proof.
  intros Hn Hv Hlt. destruct (udec_spec v Hv) as [H1 H2 H3 H4 H5]. specialize (H4 n Hn Hlt). repeat split.
  - apply Forall_app. split; [apply digits_zeros|assumption].
  - now rewrite value_zeros, Z.mul_0_l.
  - rewrite length_app, repeat_length. lia.
Qed.

Lemma fillString_spec v n : (1 <= n)%nat -> 0 <= v <= INT_MAX -> v < 10 ^ Z.of_nat n -> padded n v (fillString v n).
Proof. intros Hn Hv Hlt. unfold fillString. rewrite sprintf_nonneg by lia. now apply pad_spec. Qed.

Lemma fill2_spec v : 0 <= v < 100 -> padded 2 v (fillString v 2).
Proof. intros H. apply fillString_spec; [lia|unfold INT_MAX; lia|cbn; lia]. Qed.

Lemma parse_padded buf i j n v ds : stands buf i ds -> padded n v ds -> v <= INT_MAX -> j = (i + n)%nat ->
  parseInt buf i j = Ok v.
Proof. intros Hs (H1 & H2 & H3) Hv ->. rewrite <- H2. apply parseInt_digits; trivial; rewrite ?H2, ?H3; trivial. Qed.

Lemma parse_numeral buf i j v ds : stands buf i ds -> numeral v ds -> v <= INT_MAX -> j = (i + length ds)%nat ->
  parseInt buf i j = Ok v.
Proof. intros Hs [H1 H2 _ _ _] Hv ->. rewrite <- H2. apply parseInt_digits; trivial; rewrite ?H2; trivial. Qed.
