(* ===== verification/DateTimeRound.v ===== *)
(** * Dates, times and durations: parsing what was printed *)

From Stdlib Require Import Ascii String ZArith List Lia Bool ZifyNat ZifyBool.
From S2P Require Import Prelude DateTime DateTimeCal DateTimeNorm DateTimeText DateTimeScan.
Import ListNotations.
Local Open Scope Z_scope.
Local Open Scope sedna_scope.

Lemma digit_not_in ds c : Forall is_digit ds -> ~ is_digit c -> ~ In c ds.
Proof. intros Hd Hc Hin. rewrite Forall_forall in Hd. auto. Qed.

(** [not_digit] proves that a separator is no digit. *)
Ltac not_digit := let H := fresh in intros H; unfold is_digit in H; cbn in H; lia.

Lemma guard_true b : b = true -> require b = Ok tt.
Proof. now intros ->. Qed.

(** [guards] passes the checks that hold by arithmetic. *)
Ltac guards := repeat (rewrite guard_true by lia; cbn [bind_res]).

(** ** Years *)

Definition year_sign (y : Z) : buffer := if y <? 0 then [MINUS] else [].

Definition year_digits (ds : buffer) (y : Z) : Prop :=
  Forall is_digit ds /\ value ds 0 = Z.abs y /\ (4 <= length ds)%nat /\ ((4 < length ds)%nat -> hd 0 ds <> ZERO).

Definition printed_year (y : Z) : Prop := y <> 0 /\ Z.abs y <= INT_MAX.

Lemma pad4_spec v : 0 <= v <= INT_MAX -> year_digits (repeat ZERO (4 - length (udec v)) ++ udec v) v.
Proof.
  intros Hv. destruct (udec_spec v Hv) as [H1 H2 H3 H4 H5]. repeat split.
  - apply Forall_app. split; [apply digits_zeros|assumption].
  - rewrite value_zeros, Z.mul_0_l, H2. lia.
  - rewrite length_app, repeat_length. lia.
  - rewrite length_app, repeat_length. intros Hl. replace (4 - length (udec v))%nat with 0%nat by lia. apply H5. lia.
Qed.

Lemma fillYearString_spec y : Z.abs y <= INT_MAX ->
  exists ds, fillYearString y = year_sign y ++ ds /\ year_digits ds y.
Proof.
  intros Hy. unfold fillYearString, sprintf_d, year_sign. destruct (Z.ltb_spec y 0) as [Hn|Hp].
  - exists (repeat ZERO (4 - length (udec (- y))) ++ udec (- y)). split; [reflexivity|].
    destruct (pad4_spec (- y) ltac:(lia)) as (H1 & H2 & H3). repeat split; trivial; [lia|apply H3..].
  - exists (repeat ZERO (4 - length (udec y)) ++ udec y). split; [reflexivity|]. apply pad4_spec. lia.
Qed.

Lemma digits_head ds : Forall is_digit ds -> (1 <= length ds)%nat -> exists c t, ds = c :: t /\ is_digit c.
Proof. intros Hd Hl. destruct Hd as [|c t Hc Ht]; [cbn in Hl; lia|]. eauto. Qed.

Lemma parseIntYear_spec buf i y ds :
  stands buf i (year_sign y ++ ds) -> year_digits ds y -> Z.abs y <= INT_MAX ->
  parseIntYear buf i (i + length (year_sign y ++ ds)) = Ok y.
Proof.
  intros Hs (H1 & H2 & H3 & H4) Hy. destruct (digits_head ds H1 ltac:(lia)) as (c & t & E & Hc).
  apply stands_app in Hs as [Hs1 Hs2]. assert (Hh : hd 0 ds = c) by (now subst ds).
  assert (Hrd : rd buf (i + length (year_sign y)) = Ok c).
  { apply stands_rd. rewrite E in Hs2. now apply stands_cons in Hs2 as [? _]. }
  assert (Hp : parseInt buf (i + length (year_sign y)) (i + length (year_sign y ++ ds)) = Ok (Z.abs y)).
  { rewrite <- H2. apply parseInt_digits; trivial; [lia|]. rewrite length_app. lia. }
  assert (Hlead : (4 <? length ds)%nat && (c =? ZERO) = false).
  { destruct (Nat.ltb_spec 4 (length ds)) as [Hl|]; [|reflexivity]. specialize (H4 Hl). rewrite Hh in H4. now apply Z.eqb_neq in H4. }
  unfold parseIntYear. unfold year_sign in *. destruct (Z.ltb_spec y 0) as [Hn|Hn].
  - cbn [app length] in *. rewrite (stands_rd _ _ _ Hs1). cbn [bind_res]. rewrite Z.eqb_refl.
    replace (S i) with (i + 1)%nat by lia. replace (i + S (length ds) - (i + 1))%nat with (length ds) by lia.
    guards. rewrite Hrd. cbn [bind_res].
    rewrite Hlead, Hp. cbn [negb require bind_res]. f_equal. rewrite int32_small by int_lia. lia.
  - cbn [app length] in *. rewrite Nat.add_0_r in Hrd, Hp. rewrite Hrd. cbn [bind_res].
    replace (c =? MINUS) with false by (unfold is_digit in Hc; cbn in *; lia).
    replace (i + length ds - i)%nat with (length ds) by lia. guards. rewrite Hrd. cbn [bind_res].
    rewrite Hlead, Hp. cbn [negb require bind_res]. f_equal. lia.
Qed.

(** The search for the separator skips the sign. *)
Lemma year_separator buf i e y ds : stands buf i ((year_sign y ++ ds) ++ [DATE_SEPARATOR]) -> year_digits ds y ->
  (i + length (year_sign y ++ ds) < e)%nat ->
  exists c, rd buf i = Ok c /\
    indexOf buf (if c =? MINUS then S i else i) e DATE_SEPARATOR = Some (i + length (year_sign y ++ ds))%nat.
Proof.
  intros Hs (H1 & H2 & H3 & H4) He. destruct (digits_head ds H1 ltac:(lia)) as (c & t & E & Hc).
  assert (Hni : ~ In DATE_SEPARATOR ds) by (apply digit_not_in; [assumption|not_digit]).
  unfold year_sign in *. destruct (Z.ltb_spec y 0).
  - exists MINUS. cbn [app length] in *. apply stands_cons in Hs as [Hs1 Hs2]. split; [now apply stands_rd|].
    rewrite Z.eqb_refl. rewrite (indexOf_found _ _ _ ds) by (trivial; lia). f_equal. lia.
  - exists c. cbn [app length] in *. split.
    + apply stands_rd. rewrite E in Hs. cbn [app] in Hs. now apply stands_cons in Hs as [? _].
    + replace (c =? MINUS) with false by (unfold is_digit in Hc; cbn in *; lia). now apply indexOf_found.
Qed.

(** ** Dates *)

Definition month_text (y m : Z) : buffer := fillYearString y ++ [DATE_SEPARATOR] ++ fillString m 2.
Definition date_text (y m dd : Z) : buffer := month_text y m ++ [DATE_SEPARATOR] ++ fillString dd 2.

Lemma fill2_length v : 0 <= v < 100 -> length (fillString v 2) = 2%nat.
Proof. intros H. now destruct (fill2_spec v H) as (_ & _ & ?). Qed.

Lemma parse2 buf i j v : stands buf i (fillString v 2) -> 0 <= v < 100 -> j = (i + 2)%nat -> parseInt buf i j = Ok v.
Proof. intros Hs Hv Hj. eapply parse_padded; [eassumption|now apply fill2_spec|unfold INT_MAX; lia|assumption]. Qed.

(** [stands_at] uses a text that stands at an equal index. *)
Ltac stands_at :=
  match goal with
  | H : stands ?b ?i ?s |- stands ?b ?j ?s =>
      replace j with i by (cbn [length] in *; rewrite ?length_app in *; cbn [length] in *; lia); exact H
  end.

Lemma month_text_length y m : Z.abs y <= INT_MAX -> 0 <= m < 100 -> (7 <= length (month_text y m))%nat.
Proof.
  intros Hy Hm. unfold month_text. destruct (fillYearString_spec y Hy) as (ds & -> & _ & _ & Hl & _).
  rewrite !length_app, (fill2_length m Hm). cbn [length]. lia.
Qed.

Lemma getYearMonth_print buf i e y m d :
  stands buf i (month_text y m) -> Z.abs y <= INT_MAX -> 0 <= m < 100 -> (i + length (month_text y m) <= e)%nat ->
  getYearMonth d buf i e = Ok (set_Month m (set_CentYear y d), (i + length (month_text y m))%nat).
Proof.
  intros Hs Hy Hm He. pose proof (month_text_length y m Hy Hm) as Hl7. unfold month_text in *.
  destruct (fillYearString_spec y Hy) as (ds & Ey & Hds). rewrite Ey in *.
  pose proof (fill2_length m Hm) as Lm. rewrite !length_app, Lm in *. cbn [length] in *.
  rewrite !app_assoc in Hs. apply stands_app in Hs as [Hs1 Hs2]. rewrite <- app_assoc in Hs1.
  rewrite !length_app in Hs2. cbn [length] in Hs2. unfold getYearMonth, YMONTH_MIN_SIZE.
  rewrite guard_true by lia. cbn [bind_res].
  destruct (year_separator buf i e y ds) as (c & -> & Hidx); [now rewrite <- app_assoc|assumption|rewrite length_app; lia|].
  cbn [bind_res]. rewrite Hidx. rewrite app_assoc in Hs1. apply stands_app in Hs1 as [Hs1 _].
  rewrite parseIntYear_spec by assumption. cbn [bind_res]. rewrite length_app. rewrite guard_true by lia. cbn [bind_res].
  rewrite (parse2 buf _ _ m); [|stands_at|lia|lia]. cbn [bind_res]. do 2 f_equal. lia.
Qed.

Lemma getDate_print buf i e y m dd d :
  stands buf i (date_text y m dd) -> Z.abs y <= INT_MAX -> 0 <= m < 100 -> 0 <= dd < 100 ->
  (i + length (date_text y m dd) <= e)%nat ->
  getDate d buf i e = Ok (set_Day dd (set_Month m (set_CentYear y d)), (i + length (date_text y m dd))%nat).
Proof.
  intros Hs Hy Hm Hdd He. pose proof (month_text_length y m Hy Hm) as Hl7. unfold date_text in *.
  pose proof (fill2_length dd Hdd) as Ld. rewrite !length_app, Ld in *. cbn [length] in *.
  apply stands_app in Hs as [Hs1 Hs2]. apply stands_app in Hs2 as [Hs2 Hs3]. cbn [length] in Hs3.
  unfold getDate, YMD_MIN_SIZE. rewrite guard_true by lia. cbn [bind_res].
  rewrite (getYearMonth_print buf i e y m d) by (trivial; lia). cbn [bind_res]. rewrite (stands_rd _ _ _ Hs2). cbn [bind_res].
  rewrite guard_true by apply Z.eqb_refl. cbn [bind_res].
  rewrite (parse2 buf _ _ dd); [|stands_at|lia|lia]. cbn [bind_res]. do 2 f_equal. lia.
Qed.

(** ** Time zones *)

Definition zone_plain (d : XMLDateTime) : Prop :=
  (utc d = UTC_UNKNOWN \/ utc d = UTC_STD) /\ tz_hh d = 0 /\ tz_mm d = 0.
Definition zone_shift (d : XMLDateTime) : Prop :=
  (utc d = UTC_POS \/ utc d = UTC_NEG) /\ 0 <= tz_hh d <= 14 /\ 0 <= tz_mm d < 60 /\
  (tz_hh d = 14 -> tz_mm d = 0) /\ (tz_hh d <> 0 \/ tz_mm d <> 0).
(** The zones that are printed as they are. *)
Definition zone_ok (d : XMLDateTime) : Prop := zone_plain d \/ zone_shift d.

(** The value with the zone of [z]. *)
Definition put_zone (z d : XMLDateTime) : XMLDateTime := set_tz_mm (tz_mm z) (set_tz_hh (tz_hh z) (set_utc (utc z) d)).

Definition no_zone (d : XMLDateTime) : Prop := utc d = UTC_UNKNOWN /\ tz_hh d = 0 /\ tz_mm d = 0.

Lemma put_zone_unknown z d : utc z = UTC_UNKNOWN -> tz_hh z = 0 -> tz_mm z = 0 -> no_zone d -> put_zone z d = d.
Proof. unfold put_zone. intros -> -> -> (H1 & H2 & H3). destruct d. dt_cbn. now subst. Qed.

Lemma put_zone_std z d : utc z = UTC_STD -> tz_hh z = 0 -> tz_mm z = 0 -> no_zone d -> put_zone z d = set_utc UTC_STD d.
Proof. unfold put_zone. intros -> -> -> (H1 & H2 & H3). destruct d. dt_cbn. now subst. Qed.

(** The sign character and its index in [UTC_SET]. *)
Definition zone_char (u : Z) : Z := nth (Z.to_nat (u - 1)) UTC_SET 0.

Lemma zone_char_index u : u = UTC_STD \/ u = UTC_POS \/ u = UTC_NEG ->
  exists pos, indexOf_set UTC_SET (zone_char u) = Some pos /\ Z.of_nat pos + 1 = u.
Proof. intros [-> | [-> | ->]]; eexists; split; reflexivity. Qed.

Lemma print_zone_shift d : zone_shift d ->
  print_zone d = zone_char (utc d) :: fillString (tz_hh d) 2 ++ [TIME_SEPARATOR] ++ fillString (tz_mm d) 2.
Proof.
  intros (Hu & Hh & Hm & _ & Hz). unfold print_zone, zone_char.
  replace (utc d =? UTC_UNKNOWN) with false by (destruct Hu as [-> | ->]; reflexivity).
  replace (utc d =? UTC_STD) with false by (destruct Hu as [-> | ->]; reflexivity).
  replace (negb (tz_hh d =? 0) || negb (tz_mm d =? 0)) with true by lia. reflexivity.
Qed.

(** [getTimeZone] on the printed zone; the sign has been stored. *)
Lemma getTimeZone_print buf i z d : stands buf i (print_zone z) -> zone_ok z -> no_zone d -> utc z <> UTC_UNKNOWN ->
  getTimeZone (set_utc (utc z) d) buf i (i + length (print_zone z)) = Ok (put_zone z d).
Proof.
  intros Hs [(Hu & Hh & Hm) | Hz] Hd Hne.
  - destruct Hu as [Hu|Hu]; [congruence|]. unfold print_zone in *. rewrite Hu in *.
    cbn [Z.eqb UTC_STD UTC_UNKNOWN Pos.eqb negb andb length] in *.
    unfold getTimeZone. rewrite (stands_rd _ _ _ Hs). cbn [bind_res]. rewrite Z.eqb_refl. guards.
    now rewrite (put_zone_std z d Hu Hh Hm Hd).
  - rewrite (print_zone_shift z Hz) in *. destruct Hz as (Hu & Hh & Hm & _ & _).
    apply stands_cons in Hs as [Hc Hs]. apply stands_app in Hs as [Hs1 Hs2]. apply stands_app in Hs2 as [Hs2 Hs3].
    assert (Lh : length (fillString (tz_hh z) 2) = 2%nat) by (apply fill2_length; lia).
    assert (Lm : length (fillString (tz_mm z) 2) = 2%nat) by (apply fill2_length; lia).
    rewrite Lh in *. cbn [length] in *. rewrite !length_app, Lh, Lm. cbn [length]. unfold getTimeZone, TIMEZONE_SIZE.
    rewrite (stands_rd _ _ _ Hc). cbn [bind_res].
    replace (zone_char (utc z) =? UTC_STD_CHAR) with false by (destruct Hu as [-> | ->]; reflexivity). guards.
    replace (i + 3)%nat with (S i + 2)%nat by lia. rewrite (stands_rd _ _ _ Hs2). cbn [bind_res].
    rewrite guard_true by reflexivity. cbn [bind_res].
    rewrite (parse2 buf _ _ (tz_hh z)); [|stands_at|lia|lia]. cbn [bind_res].
    rewrite (parse2 buf _ _ (tz_mm z)); [|stands_at|lia|lia]. reflexivity.
Qed.

Lemma print_zone_length z : utc z = UTC_UNKNOWN \/ (0 < length (print_zone z))%nat.
Proof.
  unfold print_zone. destruct (Z.eqb_spec (utc z) UTC_UNKNOWN); [now left|right].
  destruct (_ && _); cbn [length]; lia.
Qed.

Lemma print_zone_head z : zone_ok z -> utc z <> UTC_UNKNOWN -> exists t, print_zone z = zone_char (utc z) :: t.
Proof.
  intros [(Hu & _) | Hz] Hne; [|rewrite (print_zone_shift z Hz); eauto].
  destruct Hu as [Hu|Hu]; [congruence|]. unfold print_zone. rewrite Hu. cbn. eauto.
Qed.

Lemma zone_char_cases z : zone_ok z -> utc z <> UTC_UNKNOWN -> utc z = UTC_STD \/ utc z = UTC_POS \/ utc z = UTC_NEG.
Proof. intros [([H|H] & _) | ([H|H] & _)] Hne; auto; congruence. Qed.

Lemma zone_unknown z : zone_ok z -> utc z = UTC_UNKNOWN -> print_zone z = [] /\ tz_hh z = 0 /\ tz_mm z = 0.
Proof.
  intros Hz Hu. split; [unfold print_zone; now rewrite Hu|].
  destruct Hz as [(_ & Hz) | ([H|H] & _)]; [assumption|rewrite H in Hu; discriminate..].
Qed.

Lemma parseTimeZone_print buf i z d : stands buf i (print_zone z) -> zone_ok z -> no_zone d ->
  parseTimeZone d buf i (i + length (print_zone z)) = Ok (put_zone z d).
Proof.
  intros Hs Hz Hd. unfold parseTimeZone. destruct (Z.eq_dec (utc z) UTC_UNKNOWN) as [Hu|Hu].
  - destruct (zone_unknown z Hz Hu) as (-> & H1 & H2). rewrite (proj2 (Nat.ltb_ge _ _)) by (cbn; lia).
    now rewrite put_zone_unknown.
  - destruct (print_zone_length z) as [|Hl]; [contradiction|]. rewrite (proj2 (Nat.ltb_lt _ _)) by lia.
    destruct (print_zone_head z Hz Hu) as (t & Et). pose proof Hs as Hs'. rewrite Et in Hs'.
    apply stands_cons in Hs' as [Hc _]. rewrite (stands_rd _ _ _ Hc). cbn [bind_res].
    destruct (zone_char_index (utc z) (zone_char_cases z Hz Hu)) as (pos & -> & ->). now apply getTimeZone_print.
Qed.

(** ** Fractions of seconds *)

Lemma atoi_digits_value : forall ds acc, Forall is_digit ds -> 0 <= acc -> value ds acc <= INT_MAX ->
  atoi_digits ds acc = value ds acc.
Proof.
  induction ds as [|c ds IH]; intros acc Hd Ha Hv; [reflexivity|]. inversion Hd as [|? ? D1 D2]; subst.
  cbn [atoi_digits]. rewrite (digit_guard c D1). cbn [value fold_left] in Hv |- *. fold (value ds (acc * 10 + (c - ZERO))) in Hv |- *.
  assert (H : 0 <= acc * 10 + (c - ZERO)) by (unfold is_digit in D1; chars; lia).
  pose proof (value_ge ds _ D2 H). rewrite digit_step by (trivial; lia). apply IH; trivial.
Qed.

Lemma atoi_value ds : Forall is_digit ds -> value ds 0 <= INT_MAX -> atoi ds = value ds 0.
Proof.
  intros Hd Hv. destruct Hd as [|c ds Hc Hd]; [reflexivity|]. cbn [atoi].
  assert (H : 48 <= c <= 57) by (exact Hc).
  replace (isspace c) with false by (unfold isspace; lia).
  change (c =? MINUS) with (c =? 45). change (c =? UTC_POS_CHAR) with (c =? 43).
  replace (c =? 45) with false by lia. replace (c =? 43) with false by lia.
  apply atoi_digits_value; [now constructor|lia|assumption].
Qed.

Lemma value_zero ds : Forall is_digit ds -> value ds 0 = 0 -> ds = repeat ZERO (length ds).
Proof.
  induction 1 as [|c ds Hc Hd IH]; intros Hv; [reflexivity|]. cbn [value fold_left] in Hv. fold (value ds (0 * 10 + (c - ZERO))) in Hv.
  rewrite value_linear in Hv. pose proof (value_bound ds Hd) as Hb. unfold is_digit in Hc. chars.
  assert (Hp : 0 < 10 ^ Z.of_nat (length ds)) by (apply Z.pow_pos_nonneg; lia).
  assert (Ec : c = 48) by nia. subst c. cbn [length repeat]. chars. f_equal. apply IH. lia.
Qed.

(** The digits up to the zeros at the end. *)
Lemma milis_loop_spec : forall n ds, Forall is_digit ds -> length ds = n -> value ds 0 <= INT_MAX ->
  exists k, ds = milis_loop n ds ++ repeat ZERO k /\ (value ds 0 <> 0 -> milis_loop n ds <> []).
Proof.
  induction n as [|n IH]; intros ds Hd Hl Hv.
  - destruct ds; [|discriminate]. exists 0%nat. split; [reflexivity|]. intros H. now elim H.
  - destruct ds as [|c ds]; [discriminate|]. cbn [milis_loop]. rewrite atoi_value by assumption.
    destruct (Z.eqb_spec (value (c :: ds) 0) 0) as [Hz|Hz].
    + exists (length (c :: ds)). split; [now apply value_zero|]. intros H. contradiction.
    + inversion Hd as [|? ? Hc Hd']; subst. injection Hl as Hl.
      assert (Hv' : value ds 0 <= INT_MAX).
      { cbn [value fold_left] in Hv. fold (value ds (0 * 10 + (c - ZERO))) in Hv. rewrite value_linear in Hv.
        unfold is_digit in Hc. chars. assert (Hp : 0 < 10 ^ Z.of_nat (length ds)) by (apply Z.pow_pos_nonneg; lia). nia. }
      destruct (IH ds Hd' Hl Hv') as (k & E & _). exists k. split; [|discriminate]. cbn [app]. f_equal. exact E.
Qed.

Lemma times10_value n : forall v, 0 <= v -> v * 10 ^ Z.of_nat n <= INT_MAX -> times10 v n = v * 10 ^ Z.of_nat n.
Proof.
  induction n as [|n IH]; intros v Hv Hb; [cbn [times10 Z.of_nat]; lia|].
  rewrite Nat2Z.inj_succ, Z.pow_succ_r in Hb |- * by lia. cbn [times10].
  assert (Hp : 0 < 10 ^ Z.of_nat n) by (apply Z.pow_pos_nonneg; lia).
  rewrite int32_small by (split; unfold INT_MIN; nia). rewrite IH by nia. nia.
Qed.

(** A fraction of [n] digits is printed without the zeros at its end and read
    back by [adjustMiliseconds]. *)
Record fraction (n : nat) (v : Z) (ds : buffer) : Prop := {
  fr_digits : Forall is_digit ds;
  fr_nonempty : (1 <= length ds)%nat;
  fr_small : value ds 0 <= INT_MAX;
  fr_read : adjustMiliseconds (value ds 0) (length ds) n = v
}.

Lemma fillMilisString_spec n v : (1 <= n)%nat -> 0 < v <= INT_MAX -> v < 10 ^ Z.of_nat n -> fraction n v (fillMilisString v n).
Proof.
  intros Hn Hv Hlt. unfold fillMilisString, sprintf_0d. destruct (Z.ltb_spec v 0); [lia|]. cbn [app length].
  rewrite Z.abs_eq, Nat.sub_0_r by lia. destruct (pad_spec n v Hn ltac:(lia) Hlt) as (H1 & H2 & H3).
  set (ds := repeat ZERO _ ++ udec v) in *. clearbody ds.
  destruct (milis_loop_spec n ds H1 H3 ltac:(lia)) as (k & E & Hne). specialize (Hne ltac:(lia)).
  set (p := milis_loop n ds) in *. clearbody p. subst ds. rewrite length_app, repeat_length in H3.
  apply Forall_app in H1 as [H1 _]. rewrite value_app in H2. pose proof (value_zeros k [] (value p 0)) as Hz.
  rewrite app_nil_r in Hz. rewrite Hz in H2. cbn [value fold_left] in H2. pose proof (value_bound p H1) as Hb.
  assert (Hp : 0 < 10 ^ Z.of_nat k) by (apply Z.pow_pos_nonneg; lia).
  constructor; [assumption|destruct p; [contradiction|cbn; lia]|nia|].
  unfold adjustMiliseconds. replace (n - length p)%nat with k by lia. replace (length p - n)%nat with 0%nat by lia.
  cbn [div10]. rewrite times10_value by lia. exact H2.
Qed.

(** ** Times *)

Lemma findUTCSign_found buf d u : forall s i n,
  stands buf i (s ++ [zone_char u]) -> (forall c, In c s -> indexOf_set UTC_SET c = None) -> (length s < n)%nat ->
  u = UTC_STD \/ u = UTC_POS \/ u = UTC_NEG ->
  findUTCSign_loop d buf i n = (set_utc u d, Some (i + length s)%nat).
Proof.
  intros s i n Hs Hin Hn Hu. revert s i Hs Hin Hn. induction n as [|n IH]; intros s i Hs Hin Hn; [lia|].
  destruct s as [|c s]; cbn [findUTCSign_loop].
  - rewrite (stands_nth _ _ _ Hs). destruct (zone_char_index u Hu) as (pos & -> & ->). do 2 f_equal. cbn. lia.
  - cbn [app] in Hs. apply stands_cons in Hs as [Hc Hs]. rewrite (stands_nth _ _ _ Hc), Hin by now left.
    rewrite (IH s (S i) Hs); [do 2 f_equal; cbn; lia|intros; apply Hin; now right|cbn in Hn; lia].
Qed.

Lemma findUTCSign_none buf d : forall s i,
  stands buf i s -> (forall c, In c s -> indexOf_set UTC_SET c = None) -> findUTCSign_loop d buf i (length s) = (d, None).
Proof.
  induction s as [|c s IH]; intros i Hs Hin; [reflexivity|]. cbn [findUTCSign_loop length].
  apply stands_cons in Hs as [Hc Hs]. rewrite (stands_nth _ _ _ Hc), Hin by now left. apply IH; [assumption|].
  intros. apply Hin. now right.
Qed.

Lemma digit_no_zone c : is_digit c \/ c = MILISECOND_SEPARATOR -> indexOf_set UTC_SET c = None.
Proof.
  intros [Hc| ->]; [|reflexivity]. assert (H : 48 <= c <= 57) by exact Hc. unfold indexOf_set, UTC_SET.
  cbn [indexOf_loop length nth]. change UTC_STD_CHAR with 90. change UTC_POS_CHAR with 43. change UTC_NEG_CHAR with 45.
  destruct (Z.eqb_spec 90 c), (Z.eqb_spec 43 c), (Z.eqb_spec 45 c); lia || reflexivity.
Qed.

Definition milis_ok (d : XMLDateTime) : Prop := 0 <= MiliSecond d < 100000.

(** The printed fraction is empty or a point and digits. *)
Lemma print_milis_cases z : milis_ok z ->
  (MiliSecond z = 0 /\ print_milis z = []) \/
  exists ds, print_milis z = MILISECOND_SEPARATOR :: ds /\ fraction DT_MILISECOND_DIGITS (MiliSecond z) ds.
Proof.
  intros Hm. unfold milis_ok, print_milis in *. destruct (Z.eqb_spec (MiliSecond z) 0); [now left|right].
  eexists. split; [reflexivity|]. apply fillMilisString_spec; [unfold DT_MILISECOND_DIGITS; lia|unfold INT_MAX; lia|].
  cbn [DT_MILISECOND_DIGITS Z.of_nat Pos.of_succ_nat]. lia.
Qed.

Lemma print_milis_no_zone z c : milis_ok z -> In c (print_milis z) -> indexOf_set UTC_SET c = None.
Proof.
  intros Hm Hin. apply digit_no_zone. destruct (print_milis_cases z Hm) as [[_ E]|(ds & E & F)]; rewrite E in Hin; [destruct Hin|].
  destruct Hin as [<-|Hin]; [now right|left]. pose proof (fr_digits _ _ _ F) as Hd. rewrite Forall_forall in Hd. auto.
Qed.

Definition rest_text (z : XMLDateTime) : buffer := print_milis z ++ print_zone z.

Lemma findUTCSign_rest buf i z d : stands buf i (rest_text z) -> zone_ok z -> milis_ok z ->
  findUTCSign d buf i (i + length (rest_text z)) =
    if utc z =? UTC_UNKNOWN then (d, None) else (set_utc (utc z) d, Some (i + length (print_milis z))%nat).
Proof.
  intros Hs Hz Hm. unfold findUTCSign, rest_text in *. replace (i + length (print_milis z ++ print_zone z) - i)%nat
    with (length (print_milis z ++ print_zone z)) by lia.
  pose proof (fun c => print_milis_no_zone z c Hm) as Hno. destruct (Z.eqb_spec (utc z) UTC_UNKNOWN) as [Hu|Hu].
  - destruct (zone_unknown z Hz Hu) as (Ez & _). rewrite Ez, app_nil_r in *. now apply findUTCSign_none.
  - destruct (print_zone_head z Hz Hu) as (t & Et). rewrite Et in *.
    apply findUTCSign_found; [|assumption|rewrite length_app; cbn; lia|now apply zone_char_cases].
    apply (stands_app buf i (print_milis z ++ [zone_char (utc z)]) t). now rewrite <- app_assoc.
Qed.

Lemma set_mili_utc v u d : set_MiliSecond v (set_utc u d) = set_utc u (set_MiliSecond v d).
Proof. reflexivity. Qed.

Lemma set_mili_zone v z d : set_MiliSecond v (put_zone z d) = put_zone z (set_MiliSecond v d).
Proof. reflexivity. Qed.

Lemma set_mili_same d : MiliSecond d = 0 -> set_MiliSecond 0 d = d.
Proof. intros H. destruct d. dt_cbn. now subst. Qed.

(** The zone after the fraction; the fraction has been stored. *)
Lemma zone_after buf i z d : stands buf i (rest_text z) -> zone_ok z -> (0 < i)%nat -> no_zone d ->
  match (if utc z =? UTC_UNKNOWN then None else Some (i + length (print_milis z))%nat) with
  | Some sign => if (0 <? sign)%nat
      then getTimeZone (set_utc (utc z) d) buf sign (i + length (rest_text z)) else Ok (set_utc (utc z) d)
  | None => Ok d
  end = Ok (put_zone z d).
Proof.
  intros Hs Hz Hi Hd. unfold rest_text in *. apply stands_app in Hs as [_ Hs].
  destruct (Z.eqb_spec (utc z) UTC_UNKNOWN) as [Hu|Hu].
  - destruct (zone_unknown z Hz Hu) as (_ & H1 & H2). now rewrite put_zone_unknown.
  - rewrite (proj2 (Nat.ltb_lt _ _)) by lia. rewrite length_app, Nat.add_assoc. now apply getTimeZone_print.
Qed.

Lemma getTime_rest_print buf i z d :
  stands buf i (rest_text z) -> zone_ok z -> milis_ok z -> (0 < i)%nat -> no_zone d -> MiliSecond d = 0 ->
  rest_text z <> [] ->
  getTime_rest d buf i (i + length (rest_text z)) = Ok (put_zone z (set_MiliSecond (MiliSecond z) d)).
Proof.
  intros Hs Hz Hm Hi Hd Hd0 Hne. unfold getTime_rest. rewrite findUTCSign_rest by assumption.
  set (d' := set_MiliSecond (MiliSecond z) d). pose proof (zone_after buf i z d' Hs Hz Hi Hd) as Hafter.
  assert (Hrd : exists c, rd buf i = Ok c /\ stands buf i [c] /\ hd 0 (rest_text z) = c).
  { destruct (rest_text z) as [|c t] eqn:E; [contradiction|]. exists c. apply stands_cons in Hs as [Hs _].
    split; [now apply stands_rd|]. split; [assumption|reflexivity]. }
  destruct Hrd as (c & Hrd & _ & Hhd).
  destruct (print_milis_cases z Hm) as [[E0 Em]|(ds & Em & [F1 F2 F3 F4])].
  - (* no fraction: the zone comes at once *)
    assert (Ed : d' = d) by (unfold d'; rewrite E0; now apply set_mili_same). rewrite Ed in *. clear Ed d'.
    unfold rest_text in *. rewrite Em in *. cbn [app length] in *. rewrite Nat.add_0_r in *.
    destruct (Z.eqb_spec (utc z) UTC_UNKNOWN) as [Hu|Hu]; [destruct (zone_unknown z Hz Hu); contradiction|].
    destruct (print_zone_head z Hz Hu) as (t & Et). rewrite Hrd. cbn [bind_res].
    replace (c =? MILISECOND_SEPARATOR) with false
      by (rewrite <- Hhd, Et; destruct (zone_char_cases z Hz Hu) as [-> | [-> | ->]]; reflexivity).
    rewrite guard_true by lia. cbn [bind_res]. exact Hafter.
  - pose proof Hs as Hs'. unfold rest_text in Hs'. rewrite Em in Hs'. apply stands_app in Hs' as [Hs' _].
    apply stands_cons in Hs' as [_ Hds]. unfold rest_text in *. rewrite Em in *. cbn [hd app length] in *.
    subst c.
    destruct (Z.eqb_spec (utc z) UTC_UNKNOWN) as [Hu|Hu].
    + destruct (zone_unknown z Hz Hu) as (Ez & _). rewrite Ez, app_nil_r in *. cbn [bind_res]. rewrite Hrd. cbn [bind_res].
      rewrite Z.eqb_refl. guards. rewrite (parseInt_digits buf _ _ ds) by (trivial; lia). cbn [bind_res].
      replace (i + S (length ds) - S i)%nat with (length ds) by lia. rewrite F4. exact Hafter.
    + rewrite Hrd. cbn [bind_res]. rewrite Z.eqb_refl. rewrite length_app. guards.
      rewrite (parseInt_digits buf _ _ ds) by (trivial; lia). cbn [bind_res].
      replace (i + S (length ds) - S i)%nat with (length ds) by lia. rewrite F4, set_mili_utc. rewrite length_app in Hafter. exact Hafter.
Qed.

Definition time_text (z : XMLDateTime) : buffer :=
  fillString (Hour z) 2 ++ [TIME_SEPARATOR] ++ fillString (Minute z) 2 ++ [TIME_SEPARATOR] ++ fillString (Second z) 2
  ++ rest_text z.

Definition time_ok (z : XMLDateTime) : Prop := time_canonical z /\ second_ok z /\ milis_ok z /\ zone_ok z.

(** The value with the time of day and the zone of [z]. *)
Definition put_time (z d : XMLDateTime) : XMLDateTime :=
  put_zone z (set_MiliSecond (MiliSecond z) (set_Second (Second z) (set_Minute (Minute z) (set_Hour (Hour z) d)))).

Lemma rest_empty z d : zone_ok z -> milis_ok z -> no_zone d -> MiliSecond d = 0 -> rest_text z = [] ->
  put_zone z (set_MiliSecond (MiliSecond z) d) = d.
Proof.
  intros Hz Hm Hd H0 E. unfold rest_text in E. apply app_eq_nil in E as [E1 E2].
  assert (Hu : utc z = UTC_UNKNOWN) by (destruct (print_zone_length z); [assumption|rewrite E2 in *; cbn in *; lia]).
  destruct (zone_unknown z Hz Hu) as (_ & H1 & H2).
  destruct (print_milis_cases z Hm) as [[-> _]|(ds & E & _)]; [|congruence].
  rewrite set_mili_same by assumption. now apply put_zone_unknown.
Qed.

Lemma getTime_print buf i z d : stands buf i (time_text z) -> time_ok z -> no_zone d -> MiliSecond d = 0 ->
  getTime d buf i (i + length (time_text z)) = Ok (put_time z d).
Proof.
  intros Hs ([Hh Hmi] & Hse & Hm & Hz) Hd H0. unfold second_ok in Hse. unfold time_text in *.
  assert (Lh : length (fillString (Hour z) 2) = 2%nat) by (apply fill2_length; lia).
  assert (Lm : length (fillString (Minute z) 2) = 2%nat) by (apply fill2_length; lia).
  assert (Ls : length (fillString (Second z) 2) = 2%nat) by (apply fill2_length; lia).
  repeat match goal with H : stands _ _ (_ ++ _) |- _ => apply stands_app in H as [? H] end.
  rewrite !length_app, Lh, Lm, Ls in *. cbn [length] in *.
  unfold getTime, TIME_MIN_SIZE. rewrite guard_true by lia. cbn [bind_res].
  rewrite (stands_rd buf (i + 2) TIME_SEPARATOR) by stands_at. cbn [bind_res]. rewrite guard_true by reflexivity. cbn [bind_res].
  rewrite (stands_rd buf (i + 5) TIME_SEPARATOR) by stands_at. cbn [bind_res]. rewrite guard_true by reflexivity. cbn [bind_res].
  rewrite (parse2 buf i _ (Hour z)), (parse2 buf (i + 3) _ (Minute z)), (parse2 buf (i + 6) _ (Second z)) by (stands_at || lia).
  cbn [bind_res]. set (d' := set_Second _ _).
  assert (Hd' : no_zone d' /\ MiliSecond d' = 0) by (split; assumption). destruct Hd' as [Hd1 Hd2].
  unfold put_time. fold d'. clearbody d'. replace (i + 2 + 1 + 2 + 1 + 2)%nat with (i + 8)%nat in Hs by lia.
  replace (i + (2 + (1 + (2 + (1 + (2 + length (rest_text z)))))))%nat with (i + 8 + length (rest_text z))%nat by lia.
  destruct (rest_text z) as [|c t] eqn:E.
  - rewrite (proj2 (Nat.leb_le _ _)) by (cbn; lia). now rewrite rest_empty.
  - rewrite (proj2 (Nat.leb_gt _ _)) by (cbn; lia). rewrite <- E in *. apply getTime_rest_print; trivial; [lia|congruence].
Qed.

(** ** White space *)

Definition spaces (w : buffer) : Prop := Forall (fun c => isspace c = true) w.
Definition no_space (w : buffer) : Prop := Forall (fun c => isspace c = false) w.

Lemma skip_space_spec buf s c : forall w i n,
  stands buf i (w ++ c :: s) -> spaces w -> isspace c = false -> (length w < n)%nat -> skip_space buf i n = (i + length w)%nat.
Proof.
  induction w as [|x w IH]; intros i n Hs Hw Hc Hn; (destruct n as [|n]; [cbn in Hn; lia|]); cbn [skip_space].
  - cbn [app] in Hs. apply stands_cons in Hs as [Hs _]. rewrite (stands_nth _ _ _ Hs), Hc. cbn. lia.
  - cbn [app] in Hs. apply stands_cons in Hs as [Hx Hs]. inversion Hw; subst. rewrite (stands_nth _ _ _ Hx). rewrite H1.
    rewrite (IH (S i) n) by (trivial; cbn in Hn; lia). cbn. lia.
Qed.

Lemma trim_end_spec buf start c : forall w i,
  stands buf i (c :: w) -> spaces w -> isspace c = false -> (start <= i)%nat ->
  trim_end buf start (S i + length w) = S i.
Proof.
  induction w as [|x w IH] using rev_ind; intros i Hs Hw Hc Hi.
  - cbn [length]. rewrite Nat.add_0_r. cbn [trim_end]. rewrite (stands_nth _ _ _ Hs), Hc, andb_false_r. reflexivity.
  - rewrite length_app. cbn [length]. replace (S i + (length w + 1))%nat with (S (S i + length w)) by lia. cbn [trim_end].
    apply Forall_app in Hw as [Hw Hx]. inversion Hx as [|? ? Hsp _]; subst.
    pose proof (stands_app buf i (c :: w) [x]) as [Happ _]. destruct (Happ Hs) as [H1 H2].
    replace (i + length (c :: w))%nat with (S (i + length w)) in H2 by (cbn; lia).
    replace (S i + length w)%nat with (S (i + length w)) by lia. rewrite (stands_nth _ _ _ H2).
    rewrite (proj2 (Nat.leb_le _ _)) by lia. rewrite Hsp. cbn [andb]. now apply IH.
Qed.

Lemma handleWhitespace_spec w1 s w2 : spaces w1 -> spaces w2 -> no_space s -> s <> [] ->
  handleWhitespace (w1 ++ s ++ w2) 0 (length (w1 ++ s ++ w2)) = (length w1, length w1 + length s)%nat.
Proof.
  intros H1 H2 Hs Hne. unfold handleWhitespace. rewrite Nat.sub_0_r.
  destruct s as [|c t]; [contradiction|]. inversion Hs as [|? ? Hc Ht]; subst.
  rewrite (skip_space_spec _ (t ++ w2) c w1); trivial; [|exists [], []; now rewrite app_nil_r|rewrite !length_app; cbn; lia].
  rewrite Nat.add_0_l, (proj2 (Nat.eqb_neq _ _)) by (rewrite !length_app; cbn; lia). f_equal.
  destruct (exists_last (l := c :: t) ltac:(discriminate)) as (t' & x & E). rewrite E in *.
  apply Forall_app in Hs as [_ Hx]. inversion Hx; subst. rewrite !length_app. cbn [length].
  replace (length w1 + (length t' + 1 + length w2))%nat with (S (length w1 + length t') + length w2)%nat by lia.
  rewrite (trim_end_spec _ _ x w2); trivial; [lia| |lia]. exists (w1 ++ t'), []. rewrite app_nil_r, length_app.
  split; [|reflexivity]. now rewrite <- !app_assoc.
Qed.

(** ** Printed texts have no white space *)

Lemma digits_no_space ds : Forall is_digit ds -> no_space ds.
Proof. apply Forall_impl. intros c Hc. assert (H : 48 <= c <= 57) by exact Hc. unfold isspace. lia. Qed.

Lemma no_space_app s t : no_space (s ++ t) <-> no_space s /\ no_space t.
Proof. apply Forall_app. Qed.

Lemma fill2_no_space v : 0 <= v < 100 -> no_space (fillString v 2).
Proof. intros H. apply digits_no_space. now destruct (fill2_spec v H). Qed.

Lemma year_no_space y : Z.abs y <= INT_MAX -> no_space (fillYearString y).
Proof.
  intros Hy. destruct (fillYearString_spec y Hy) as (ds & -> & Hd & _). apply Forall_app. split; [|now apply digits_no_space].
  unfold year_sign. destruct (_ <? _); repeat constructor.
Qed.

Lemma zone_no_space z : zone_ok z -> no_space (print_zone z).
Proof.
  intros [(Hu & _)|Hz].
  - unfold print_zone. destruct Hu as [-> | ->]; cbn; repeat constructor.
  - rewrite (print_zone_shift z Hz). destruct Hz as (Hu & Hh & Hm & _). constructor; [destruct Hu as [-> | ->]; reflexivity|].
    apply Forall_app. split; [apply fill2_no_space; lia|]. apply Forall_app. split; [repeat constructor|apply fill2_no_space; lia].
Qed.

Lemma milis_no_space z : milis_ok z -> no_space (print_milis z).
Proof.
  intros Hm. destruct (print_milis_cases z Hm) as [[_ ->]|(ds & -> & F)]; constructor; [reflexivity|].
  apply digits_no_space, F.
Qed.

Create HintDb no_space.
#[export] Hint Resolve fill2_no_space year_no_space zone_no_space milis_no_space : no_space.

Ltac no_space_tac :=
  repeat match goal with |- no_space (_ ++ _) => apply no_space_app; split end;
  match goal with
  | |- no_space [_] => repeat constructor
  | |- no_space (fillString _ _) => apply fill2_no_space; lia
  | _ => now auto with no_space
  end.

Lemma date_no_space y m dd : Z.abs y <= INT_MAX -> 0 <= m < 100 -> 0 <= dd < 100 -> no_space (date_text y m dd).
Proof. intros. unfold date_text, month_text. no_space_tac. Qed.

Lemma time_no_space z : time_ok z -> no_space (time_text z).
Proof. intros ([Hh Hm] & Hs & Hms & Hz). unfold second_ok in Hs. unfold time_text, rest_text. no_space_tac. Qed.

(** ** Validation *)

Lemma zone_guards z : zone_ok z ->
  (14 <? Z.abs (tz_hh z)) || ((Z.abs (tz_hh z) =? 14) && negb (tz_mm z =? 0)) = false /\ (59 <? Z.abs (tz_mm z)) = false.
Proof. intros [(_ & -> & ->)|(_ & H1 & H2 & H3 & _)]; [split; reflexivity|]. split; lia. Qed.

Lemma time_guards z : time_canonical z -> second_ok z ->
  (Hour z <? 0) || (24 <? Hour z) || ((Hour z =? 24) && (negb (Minute z =? 0) || negb (Second z =? 0) || negb (MiliSecond z =? 0))) = false
  /\ (Minute z <? 0) || (59 <? Minute z) = false /\ (Second z <? 0) || (60 <=? Second z) = false.
Proof. unfold time_canonical, second_ok. intros. repeat split; lia. Qed.

Lemma validate_ok d : CentYear d <> 0 \/ type_in d [xs_date; xs_dateTime; xs_gYear; xs_gYearMonth] = false ->
  valid_month (Month d) \/ type_in d [xs_date; xs_dateTime; xs_gMonth; xs_gYearMonth; xs_gMonthDay] = false ->
  1 <= Day d <= maxDayInMonthFor (CentYear d) (Month d) \/ type_in d [xs_date; xs_dateTime; xs_gMonthDay; xs_gDay] = false ->
  time_canonical d -> second_ok d -> zone_ok d -> validated d = Ok d.
Proof.
  intros Hy Hm Hd Ht Hs Hz. unfold validated, validateDateTime.
  destruct (time_guards d Ht Hs) as (-> & -> & ->). destruct (zone_guards d Hz) as [-> ->].
  replace (type_in d [xs_date; xs_dateTime; xs_gYear; xs_gYearMonth] && (CentYear d =? 0)) with false
    by (destruct Hy as [Hy| ->]; [apply Z.eqb_neq in Hy as ->; now rewrite andb_false_r|reflexivity]).
  replace (type_in d [xs_date; xs_dateTime; xs_gMonth; xs_gYearMonth; xs_gMonthDay] && ((Month d <? 1) || (12 <? Month d))) with false
    by (destruct Hm as [Hm| ->]; [unfold valid_month in Hm; lia|reflexivity]).
  replace (type_in d [xs_date; xs_dateTime; xs_gMonthDay; xs_gDay]
           && ((maxDayInMonthFor (CentYear d) (Month d) <? Day d) || (Day d =? 0))) with false
    by (destruct Hd as [Hd| ->]; [lia|reflexivity]).
  reflexivity.
Qed.

Lemma weak_id d : time_canonical d -> valid_date (CentYear d) (Month d) (Day d) -> normalizeDateTimeWeak d = Some d.
Proof.
  intros [Hh _] [_ Hd]. unfold normalizeDateTimeWeak. replace (Hour d =? 24) with false by lia.
  unfold normalize_day, day_fuel. rewrite day_loop_unfold. replace (Day d <? 1) with false by lia.
  replace (maxDayInMonthFor (CentYear d) (Month d) <? Day d) with false by lia. now destruct d.
Qed.

(** ** Round trips *)

(** The dateTimes that are printed without loss. *)
Record dateTime_ok (d : XMLDateTime) : Prop := {
  dto_type : Type_ d = xs_dateTime;
  dto_year : printed_year (CentYear d);
  dto_date : valid_date (CentYear d) (Month d) (Day d);
  dto_time : time_ok d
}.

Lemma valid_date_range y m dd : valid_date y m dd -> 0 <= m < 100 /\ 0 <= dd < 100.
Proof. intros [Hm Hd]. unfold valid_month in Hm. pose proof (maxDay_range y m). lia. Qed.

Lemma printDateTime_eq d : printDateTime d = date_text (CentYear d) (Month d) (Day d) ++ [DATETIME_SEPARATOR] ++ time_text d.
Proof. unfold printDateTime, date_text, month_text, time_text, rest_text. now rewrite <- !app_assoc. Qed.

Lemma stands_self w1 s w2 : stands (w1 ++ s ++ w2) (length w1) s.
Proof. exists w1, w2. split; reflexivity. Qed.

Lemma dateTime_round w1 w2 d : spaces w1 -> spaces w2 -> dateTime_ok d ->
  parseDateTime reset (w1 ++ printDateTime d ++ w2) = Ok d.
Proof.
  intros H1 H2 [Ht [Hy0 Hy] Hd Htime]. destruct (valid_date_range _ _ _ Hd) as [Hm Hdd].
  unfold parseDateTime. pose proof (stands_self w1 (printDateTime d) w2) as Hs.
  rewrite handleWhitespace_spec; trivial;
    [|rewrite printDateTime_eq; apply Forall_app; split; [now apply date_no_space|constructor; [reflexivity|now apply time_no_space]]
     |rewrite printDateTime_eq; intros E; apply app_eq_nil in E as [_ E]; discriminate].
  set (buf := w1 ++ _ ++ w2) in *. set (i := length w1) in *. clearbody buf i. rewrite printDateTime_eq in *.
  apply stands_app in Hs as [Hs1 Hs2]. apply stands_app in Hs2 as [Hs2 Hs3]. cbn [length] in Hs3.
  rewrite (getDate_print buf i _ (CentYear d) (Month d) (Day d)) by (trivial; rewrite length_app; lia). cbn [bind_res].
  rewrite (stands_rd _ _ _ Hs2). cbn [bind_res]. rewrite guard_true by reflexivity. cbn [bind_res].
  rewrite !length_app, Nat.add_1_r in *. cbn [length].
  replace (i + (length (date_text (CentYear d) (Month d) (Day d)) + (1 + length (time_text d))))%nat
    with (S (i + length (date_text (CentYear d) (Month d) (Day d))) + length (time_text d))%nat by lia.
  rewrite getTime_print by (trivial; repeat split). cbn [bind_res].
  replace (put_time d _) with d by (unfold put_time, put_zone; destruct d; dt_cbn; now subst).
  destruct Htime as (Htc & Hsec & Hms & Hz). rewrite validate_ok; trivial; [|left; apply Hy0 || apply Hd..].
  cbn [bind_res]. now rewrite weak_id.
Qed.

Record date_ok (d : XMLDateTime) : Prop := {
  dao_type : Type_ d = xs_date;
  dao_year : printed_year (CentYear d);
  dao_date : valid_date (CentYear d) (Month d) (Day d);
  dao_time : Hour d = 0 /\ Minute d = 0 /\ Second d = 0 /\ MiliSecond d = 0;
  dao_zone : zone_ok d
}.

Lemma printDate_eq d : date_ok d -> printDate d = Some (date_text (CentYear d) (Month d) (Day d) ++ print_zone d).
Proof.
  intros [Ht _ _ (Hh & _) _]. unfold printDate. rewrite Hh, Ht. cbn [Z.ltb Z.compare orb].
  cbn [Z.eqb xs_date xs_gYear xs_gMonth xs_gDay xs_gYearMonth xs_gMonthDay Pos.eqb].
  unfold date_text, month_text. now rewrite <- !app_assoc.
Qed.

Lemma date_text_nonempty y m dd t : date_text y m dd ++ t <> [].
Proof. unfold date_text, month_text. intros E. apply (f_equal (@length Z)) in E. rewrite !length_app in E. cbn in E. lia. Qed.

Lemma date_round w1 w2 d : spaces w1 -> spaces w2 -> date_ok d ->
  exists s, printDate d = Some s /\ parseDate reset (w1 ++ s ++ w2) = Ok d.
Proof.
  intros H1 H2 Hok. exists (date_text (CentYear d) (Month d) (Day d) ++ print_zone d). split; [now apply printDate_eq|].
  destruct Hok as [Ht [Hy0 Hy] Hd (T1 & T2 & T3 & T4) Hz]. destruct (valid_date_range _ _ _ Hd) as [Hm Hdd].
  set (s := date_text _ _ _ ++ print_zone d). pose proof (stands_self w1 s w2) as Hs. unfold parseDate.
  rewrite handleWhitespace_spec; trivial;
    [|apply no_space_app; split; [now apply date_no_space|now apply zone_no_space]|apply date_text_nonempty].
  set (buf := w1 ++ _ ++ w2) in *. set (i := length w1) in *. clearbody buf i. subst s.
  apply stands_app in Hs as [Hs1 Hs2].
  rewrite (getDate_print buf i _ (CentYear d) (Month d) (Day d)) by (trivial; rewrite length_app; lia). cbn [bind_res].
  rewrite length_app, Nat.add_assoc, parseTimeZone_print by (trivial; repeat split). cbn [bind_res].
  replace (put_zone d _) with d by (unfold put_zone; destruct d; dt_cbn; now subst).
  apply validate_ok; trivial; [left; exact Hy0|left; apply Hd..| |]; unfold time_canonical, second_ok; lia.
Qed.

(** The times that are printed without loss: [24:00:00] is printed as
    [00:00:00]. *)
Record time_value_ok (d : XMLDateTime) : Prop := {
  tvo_type : Type_ d = xs_time;
  tvo_date : CentYear d = 0 /\ Month d = 0 /\ Day d = 0;
  tvo_time : time_ok d
}.

Lemma time_round w1 w2 d : spaces w1 -> spaces w2 -> time_value_ok d ->
  parseTime reset (w1 ++ printTime d ++ w2) = Ok d.
Proof.
  intros H1 H2 [Ht (D1 & D2 & D3) Htime]. assert (E : printTime d = time_text d).
  { destruct Htime as ([Hh _] & _). unfold printTime. replace (Hour d =? 24) with false by lia.
    unfold time_text, rest_text. reflexivity. }
  rewrite E. pose proof (stands_self w1 (time_text d) w2) as Hs. unfold parseTime.
  rewrite handleWhitespace_spec; trivial; [|now apply time_no_space|].
  2: { unfold time_text. intros F. apply (f_equal (@length Z)) in F. rewrite !length_app in F. cbn in F. lia. }
  rewrite getTime_print by (trivial; repeat split). cbn [bind_res].
  replace (put_time d _) with d by (unfold put_time, put_zone; destruct d; dt_cbn; now subst).
  destruct Htime as (Htc & Hsec & Hms & Hz). apply validate_ok; trivial; right; unfold type_in; rewrite Ht; reflexivity.
Qed.
