(* ===== verification/DurationRound.v ===== *)
(** * Durations: parsing what was printed *)

From Stdlib Require Import Ascii String ZArith List Lia Bool ZifyNat ZifyBool.
From S2P Require Import Prelude DateTime DateTimeCal DateTimeNorm DateTimeText DateTimeScan DateTimeRound.
Import ListNotations.
Local Open Scope Z_scope.
Local Open Scope sedna_scope.

(** ** One field *)

(** The number [v] of a duration of sign [s]. *)
Definition signed (s v : Z) : Prop := 0 <= s * v <= INT_MAX.

Lemma sign_mul_int s v : is_sign s -> signed s v -> s *! v = s * v /\ s *! (s * v) = v.
Proof. unfold signed. intros [-> | ->] Hv; rewrite !int32_small by int_lia; lia. Qed.

Lemma print_field_eq s v ch : is_sign s -> signed s v ->
  print_field s v ch = if v =? 0 then [] else udec (s * v) ++ [ch].
Proof.
  intros Hs Hv. unfold print_field. rewrite (proj1 (sign_mul_int s v Hs Hv)).
  rewrite sprintf_nonneg by apply Hv. now destruct (v =? 0).
Qed.

Lemma not_in_field s v ch x : is_sign s -> signed s v -> ~ is_digit x -> x <> ch -> ~ In x (print_field s v ch).
Proof.
  intros Hs Hv Hx Hne. rewrite print_field_eq by assumption. destruct (v =? 0); [intros []|].
  rewrite in_app_iff. intros [H|[H|[]]]; [|congruence].
  apply (digit_not_in (udec (s * v)) x); [apply (num_digits _ _ (udec_spec _ Hv))|assumption|assumption].
Qed.

(** A field is read back, whether it was printed or not; the rest of the text
    up to [limit] has no such designator. *)
Lemma field_step buf i s v ch set rest d b at_ :
  stands buf i (print_field s v ch ++ rest) -> is_sign s -> signed s v -> ~ In ch rest -> ~ is_digit ch ->
  (v = 0 -> set v d = d) -> (forall e, (i < e < i + length (print_field s v ch ++ rest))%nat -> at_ e <> i) ->
  duration_field s ch set buf (i + length (print_field s v ch ++ rest)) at_ (mk_ds d i b)
  = Ok (mk_ds (set v d) (i + length (print_field s v ch)) (b || negb (v =? 0))).
Proof.
  intros Hst Hs Hv Hrest Hch Hset Hat. rewrite print_field_eq in * by assumption. unfold duration_field. cbn [ds_start ds_value].
  destruct (Z.eqb_spec v 0) as [->|Hne].
  - cbn [app length] in *. rewrite indexOf_none by assumption. rewrite Hset, Nat.add_0_r, orb_false_r by reflexivity. reflexivity.
  - pose proof (udec_spec _ Hv) as N. apply stands_app in Hst as [Hst _].
    assert (Hni : ~ In ch (udec (s * v))) by (apply digit_not_in; [apply N|assumption]).
    pose proof (num_nonempty _ _ N) as Hne'.
    rewrite (indexOf_found buf i _ (udec (s * v))) by (trivial; rewrite !length_app; cbn; lia).
    specialize (Hat (i + length (udec (s * v)))%nat). rewrite !length_app in Hat. cbn [length] in Hat.
    rewrite guard_true by (apply negb_true_iff, Nat.eqb_neq; intros E; apply Hat; lia). cbn [bind_res].
    apply stands_app in Hst as [Hst _].
    rewrite (parse_numeral buf i _ (s * v) (udec (s * v))) by (trivial; apply Hv). cbn [bind_res].
    rewrite (proj2 (sign_mul_int s v Hs Hv)), orb_true_r, length_app. cbn [length]. do 2 f_equal. lia.
Qed.

(** ** The seconds *)

Definition seconds_text (s : Z) (d : XMLDateTime) : buffer :=
  if negb (Second d =? 0) || negb (MiliSecond d =? 0) then
    udec (s * Second d)
    ++ (if negb (MiliSecond d =? 0) then MILISECOND_SEPARATOR :: fillMilisString (s * MiliSecond d) DUR_MILISECOND_DIGITS else [])
    ++ [DURATION_S]
  else [].

Definition milis_signed (s : Z) (d : XMLDateTime) : Prop := 0 <= s * MiliSecond d < 1000.

Lemma duration_fraction s d : is_sign s -> milis_signed s d -> MiliSecond d <> 0 ->
  fraction DUR_MILISECOND_DIGITS (s * MiliSecond d) (fillMilisString (s * MiliSecond d) DUR_MILISECOND_DIGITS).
Proof.
  unfold milis_signed. intros Hs Hm Hne. assert (s * MiliSecond d <> 0) by (destruct Hs as [-> | ->]; lia).
  apply fillMilisString_spec; [unfold DUR_MILISECOND_DIGITS; lia|unfold INT_MAX; lia|].
  cbn [DUR_MILISECOND_DIGITS Z.of_nat Pos.of_succ_nat]. lia.
Qed.

(** The digits before and after the point. *)
Lemma seconds_numbers s z : is_sign s -> signed s (Second z) -> milis_signed s z -> seconds_text s z <> [] ->
  exists ns fs, seconds_text s z = ns ++ fs ++ [DURATION_S] /\ numeral (s * Second z) ns /\
    (MiliSecond z = 0 /\ fs = [] \/ exists ds, fs = MILISECOND_SEPARATOR :: ds /\ fraction DUR_MILISECOND_DIGITS (s * MiliSecond z) ds).
Proof.
  intros Hs Hv Hm Hne. unfold seconds_text in *. destruct (_ || _); [|contradiction]. do 2 eexists. split; [reflexivity|].
  split; [now apply udec_spec|]. destruct (Z.eqb_spec (MiliSecond z) 0) as [E|E]; cbn [negb]; [now left|right].
  eexists. split; [reflexivity|]. now apply duration_fraction.
Qed.

Lemma fs_no_S s z fs : (MiliSecond z = 0 /\ fs = [] \/
    exists ds, fs = MILISECOND_SEPARATOR :: ds /\ fraction DUR_MILISECOND_DIGITS (s * MiliSecond z) ds) -> ~ In DURATION_S fs.
Proof.
  intros [[_ ->]|(ds & -> & F)] Hin; [destruct Hin|]. destruct Hin as [H|H]; [discriminate|].
  apply (digit_not_in ds DURATION_S) in H; [assumption|apply F|not_digit].
Qed.

Lemma seconds_step buf i s z d b :
  stands buf i (seconds_text s z) -> is_sign s -> signed s (Second z) -> milis_signed s z ->
  Second d = 0 -> MiliSecond d = 0 ->
  duration_seconds s buf (i + length (seconds_text s z)) (mk_ds d i b)
  = Ok (mk_ds (set_MiliSecond (MiliSecond z) (set_Second (Second z) d)) (i + length (seconds_text s z))
          (b || negb ((Second z =? 0) && (MiliSecond z =? 0)))).
Proof.
  intros Hst Hs Hv Hm H1 H2. unfold duration_seconds. cbn [ds_start ds_value].
  destruct ((Second z =? 0) && (MiliSecond z =? 0)) eqn:E0.
  - apply andb_prop in E0 as [E1 E2]. apply Z.eqb_eq in E1, E2.
    assert (Et : seconds_text s z = []) by (unfold seconds_text; now rewrite E1, E2). rewrite Et in *.
    rewrite indexOf_none by (trivial; intros []). rewrite E1, E2. cbn [length negb]. rewrite Nat.add_0_r, orb_false_r.
    do 2 f_equal. destruct d; dt_cbn; now subst.
  - rewrite orb_true_r. assert (Hne : seconds_text s z <> []).
    { unfold seconds_text. rewrite <- negb_andb, E0. cbn [negb]. intros F. apply (f_equal (@length Z)) in F.
      rewrite !length_app in F. cbn in F. lia. }
    destruct (seconds_numbers s z Hs Hv Hm Hne) as (ns & fs & Et & N & Hf). rewrite Et in *.
    pose proof (fs_no_S s z fs Hf) as HfS. rewrite app_assoc in Hst |- *.
    assert (HnS : ~ In DURATION_S ns) by (apply digit_not_in; [apply N|not_digit]).
    rewrite (indexOf_found buf i _ (ns ++ fs)); trivial;
      [|rewrite in_app_iff; tauto|rewrite !length_app; cbn [length]; lia].
    apply stands_app in Hst as [Hst _]. pose proof (num_nonempty _ _ N) as Hlen.
    rewrite !length_app in *. cbn [length] in *. destruct Hf as [[Hz ->]|(ds & -> & [F1 F2 F3 F4])].
    + rewrite app_nil_r in *. cbn [length]. rewrite Nat.add_0_r in *.
      rewrite indexOf_none by (first [assumption|apply digit_not_in; [apply N|not_digit]]). rewrite guard_true by lia. cbn [bind_res].
      rewrite (parse_numeral buf i _ (s * Second z) ns) by (trivial; apply Hv). cbn [bind_res].
      rewrite (proj2 (sign_mul_int _ _ Hs Hv)), Hz. rewrite set_mili_same by assumption. do 2 f_equal. lia.
    + apply stands_app in Hst as [Hst Hst2]. apply stands_cons in Hst2 as [Hst2 Hst3]. cbn [length] in *.
      rewrite (indexOf_found buf i _ ns) by (first [lia|apply stands_app; now split|apply digit_not_in; [apply N|not_digit]]).
      rewrite guard_true by lia. cbn [bind_res].
      rewrite (parse_numeral buf i _ (s * Second z) ns) by (trivial; apply Hv). cbn [bind_res].
      rewrite (parseInt_digits buf _ _ ds) by (trivial; lia). cbn [bind_res].
      replace (i + (length ns + S (length ds)) - (i + length ns) - 1)%nat with (length ds) by lia. rewrite F4.
      rewrite (proj2 (sign_mul_int _ _ Hs Hv)). rewrite (proj2 (sign_mul_int s (MiliSecond z) Hs ltac:(unfold signed, milis_signed, INT_MAX in *; lia))).
      do 2 f_equal. lia.
Qed.

(** ** The part after [T] *)

(** A text ends with a designator that is not [T]. *)
Definition ends_well (t : buffer) : Prop := exists t' c, t = t' ++ [c] /\ c <> DATETIME_SEPARATOR.

Lemma ends_well_app s t : ends_well t -> ends_well (s ++ t).
Proof. intros (t' & c & -> & Hc). exists (s ++ t'), c. now rewrite app_assoc. Qed.

Lemma ends_app s t : (s = [] \/ ends_well s) -> (t = [] \/ ends_well t) -> s ++ t = [] \/ ends_well (s ++ t).
Proof.
  intros Hs [->|Ht]; [rewrite app_nil_r; assumption|]. right. now apply ends_well_app.
Qed.

Lemma field_ends s v ch : ch <> DATETIME_SEPARATOR -> print_field s v ch = [] \/ ends_well (print_field s v ch).
Proof. intros H. unfold print_field. destruct (negb _); [right|now left]. now exists (sprintf_d (s *! v)), ch. Qed.

Lemma seconds_ends s z : seconds_text s z = [] \/ ends_well (seconds_text s z).
Proof.
  unfold seconds_text. destruct (_ || _); [right|now left]. rewrite app_assoc. eexists _, DURATION_S.
  split; [reflexivity|discriminate].
Qed.

Lemma ends_rd buf i t : stands buf i t -> ends_well t -> exists c, rd buf (i + length t - 1) = Ok c /\ c <> DATETIME_SEPARATOR.
Proof.
  intros Hs (t' & c & -> & Hc). apply stands_app in Hs as [_ Hs]. exists c. split; [|assumption].
  rewrite length_app. cbn [length]. apply stands_rd. now replace (i + (length t' + 1) - 1)%nat with (i + length t')%nat by lia.
Qed.

Definition hms_text (s : Z) (z : XMLDateTime) : buffer :=
  print_field s (Hour z) DURATION_H ++ print_field s (Minute z) DURATION_M ++ seconds_text s z.

Definition no_time (z : XMLDateTime) : bool :=
  (Hour z =? 0) && (Minute z =? 0) && ((Second z =? 0) && (MiliSecond z =? 0)).

(** The printed time part; [zero] when the date part is empty. *)
Definition time_part (s : Z) (zero : bool) (z : XMLDateTime) : buffer :=
  if no_time z then (if zero then [DATETIME_SEPARATOR; ZERO; DURATION_S] else [])
  else DATETIME_SEPARATOR :: hms_text s z.

Definition put_hms (z d : XMLDateTime) : XMLDateTime :=
  set_MiliSecond (MiliSecond z) (set_Second (Second z) (set_Minute (Minute z) (set_Hour (Hour z) d))).

Definition time_fresh (d : XMLDateTime) : Prop := Hour d = 0 /\ Minute d = 0 /\ Second d = 0 /\ MiliSecond d = 0.

Lemma put_hms_none z d : no_time z = true -> time_fresh d -> put_hms z d = d.
Proof.
  unfold no_time, put_hms. intros Hz (F1 & F2 & F3 & F4). destruct z, d. dt_cbn.
  repeat (apply andb_prop in Hz as [Hz ?]). unfold set_MiliSecond, set_Second, set_Minute, set_Hour. dt_cbn. f_equal; lia.
Qed.

Record time_signed (s : Z) (z : XMLDateTime) : Prop := {
  ts_hour : signed s (Hour z); ts_minute : signed s (Minute z); ts_second : signed s (Second z); ts_mili : milis_signed s z
}.

Lemma seconds_no_letter s z x : is_sign s -> time_signed s z -> ~ is_digit x -> x <> MILISECOND_SEPARATOR -> x <> DURATION_S ->
  ~ In x (seconds_text s z).
Proof.
  intros Hs [_ _ H3 H4] Hx Hp HS. unfold seconds_text. destruct (_ || _); [|intros []].
  rewrite !in_app_iff. pose proof (num_digits _ _ (udec_spec _ H3)) as D1. intros [H|[H|[H|[]]]]; [|clear D1|congruence].
  - now apply (digit_not_in _ x D1).
  - destruct (Z.eqb_spec (MiliSecond z) 0) as [E|E]; cbn [negb] in H; [destruct H|].
    destruct H as [H|H]; [congruence|]. apply (digit_not_in _ x) in H; trivial. now apply duration_fraction.
Qed.

(** The three fields after [T]. *)
Lemma hms_step buf i s z d b :
  stands buf i (hms_text s z) -> is_sign s -> time_signed s z -> time_fresh d ->
  (let* st := duration_field s DURATION_H set_Hour buf (i + length (hms_text s z)) (fun e => e) (mk_ds d i b) in
   let* st := duration_field s DURATION_M set_Minute buf (i + length (hms_text s z)) (fun e => e) st in
   duration_seconds s buf (i + length (hms_text s z)) st)
  = Ok (mk_ds (put_hms z d) (i + length (hms_text s z)) (b || negb (no_time z))).
Proof.
  intros Hst Hs Hz (F1 & F2 & F3 & F4). pose proof Hz as [Z1 Z2 Z3 Z4]. unfold hms_text in *.
  rewrite field_step; trivial; [|rewrite in_app_iff; intros [H|H]; revert H; [apply not_in_field|apply seconds_no_letter]; trivial; discriminate || not_digit
                                |not_digit|intros ->; destruct d; dt_cbn; now subst|intros; lia].
  cbn [bind_res]. apply stands_app in Hst as [_ Hst]. rewrite length_app, Nat.add_assoc.
  rewrite field_step; trivial; [|apply seconds_no_letter; trivial; discriminate || not_digit
                                |not_digit|intros ->; destruct d; dt_cbn; now subst|intros; lia].
  cbn [bind_res]. apply stands_app in Hst as [_ Hst]. rewrite length_app, Nat.add_assoc.
  rewrite seconds_step by trivial. unfold put_hms, no_time. do 2 f_equal.
  now rewrite <- !orb_assoc, <- !negb_andb, !andb_assoc.
Qed.

Lemma field_nil s v ch : print_field s v ch = [] -> v = 0.
Proof.
  unfold print_field. destruct (Z.eqb_spec v 0); [trivial|]. cbn [negb]. intros E. apply app_eq_nil in E as [_ E]. discriminate.
Qed.

Lemma hms_ends s z : no_time z = false -> ends_well (hms_text s z).
Proof.
  intros Hn. destruct (ends_app (print_field s (Hour z) DURATION_H) (print_field s (Minute z) DURATION_M ++ seconds_text s z))
    as [E|E]; [apply field_ends; discriminate|apply ends_app; [apply field_ends; discriminate|apply seconds_ends]| |exact E].
  apply app_eq_nil in E as [E1 E]. apply app_eq_nil in E as [E2 E3]. apply field_nil in E1, E2. unfold no_time in Hn.
  rewrite E1, E2 in Hn. unfold seconds_text in E3. rewrite <- negb_andb in E3. cbn in Hn. rewrite Hn in E3.
  cbn [negb] in E3. apply app_eq_nil in E3 as [_ E3]. apply app_eq_nil in E3 as [_ E3]. discriminate.
Qed.

(** The zero duration is printed [T0S]. *)
Lemma zero_time_step buf i s d b :
  stands buf i [DATETIME_SEPARATOR; ZERO; DURATION_S] -> is_sign s -> Second d = 0 ->
  exists start, duration_time s buf i (i + 3) (mk_ds d i b) = Ok (mk_ds d start true).
Proof.
  intros Hst Hs Hd. apply stands_cons in Hst as [HT Hb]. pose proof Hb as Hst.
  apply (stands_app buf (S i) [ZERO] [DURATION_S]) in Hst as [H0 HS]. cbn [length] in *.
  exists (i + 2)%nat. unfold duration_time. cbn [ds_start ds_value ds_designator].
  rewrite guard_true by lia. cbn [bind_res]. rewrite (proj2 (Nat.eqb_neq _ _)) by lia. cbn [negb].
  unfold duration_field, duration_seconds. cbn [ds_start ds_value ds_designator].
  replace (i + 3)%nat with (S i + length [ZERO; DURATION_S])%nat by (cbn; lia).
  do 2 (rewrite (indexOf_none buf [ZERO; DURATION_S]) by (trivial; cbn; intros [H|[H|[]]]; discriminate); cbn [bind_res ds_start]).
  rewrite (indexOf_found buf (S i) _ [ZERO]) by (trivial; cbn; lia || (intros [H|[]]; discriminate)).
  rewrite (indexOf_none buf [ZERO]) by (trivial; cbn; intros [H|[]]; discriminate). cbn [length]. guards.
  rewrite (parseInt_digits buf _ _ [ZERO]) by (trivial; cbn; unfold INT_MAX; lia || (repeat constructor; cbn; lia)).
  cbn [bind_res ds_start ds_value ds_designator]. guards.
  replace (S (S i + 1) - 1)%nat with (S i + 1)%nat by lia. rewrite (stands_rd _ _ _ HS). cbn [bind_res].
  rewrite guard_true by reflexivity. cbn [bind_res]. do 2 f_equal; [|lia].
  replace (s *! value [ZERO] 0) with 0 by (destruct Hs as [-> | ->]; reflexivity). unfold set_Second. destruct d; dt_cbn. now subst.
Qed.

Lemma time_part_step buf i s zero z d b :
  stands buf i (time_part s zero z) -> is_sign s -> time_signed s z -> time_fresh d ->
  exists start, duration_time s buf i (i + length (time_part s zero z)) (mk_ds d i b)
    = Ok (mk_ds (put_hms z d) start (b || negb (length (time_part s zero z) =? 0)%nat)).
Proof.
  intros Hst Hs Hz Hd. unfold time_part in *. destruct (no_time z) eqn:En; [rewrite put_hms_none by assumption; destruct zero|].
  - rewrite orb_true_r. apply zero_time_step; trivial. apply Hd.
  - exists i. unfold duration_time. cbn [ds_start length]. rewrite Nat.add_0_r, Nat.eqb_refl.
    cbn [negb andb require bind_res Nat.eqb]. now rewrite orb_false_r.
  - apply stands_cons in Hst as [HT Hst]. destruct (ends_rd buf (S i) _ Hst (hms_ends s z En)) as (c & Hc & HcT).
    eexists. unfold duration_time. cbn [length ds_start ds_value ds_designator]. rewrite guard_true by lia. cbn [bind_res].
    rewrite (proj2 (Nat.eqb_neq _ _)) by lia. cbn [negb].
    replace (i + S (length (hms_text s z)))%nat with (S i + length (hms_text s z))%nat by lia.
    pose proof (hms_step buf (S i) s z d b Hst Hs Hz Hd) as HH. unfold bind_res at 1 2 in HH.
    destruct (duration_field s DURATION_H _ _ _ _ _) as [s1|]; [cbn [bind_res]|discriminate].
    destruct (duration_field s DURATION_M _ _ _ _ _) as [s2|]; [cbn [bind_res]|discriminate].
    rewrite HH. cbn [bind_res ds_start ds_value ds_designator]. guards. rewrite Hc. cbn [bind_res].
    rewrite guard_true by (apply Z.eqb_neq in HcT; now rewrite HcT). cbn [bind_res]. rewrite En. reflexivity.
Qed.

(** ** Whole durations *)

(** The durations that are printed without loss: the sign is stored, every
    number has it, and the numbers are canonical. *)
Record duration_ok (d : XMLDateTime) : Prop := {
  duo_utc : utc d = UTC_POS \/ utc d = UTC_NEG;
  duo_year : 0 <= sign_of d * CentYear d <= 500000000;
  duo_month : 0 <= sign_of d * Month d < 12;
  duo_day : 0 <= sign_of d * Day d <= 500000000;
  duo_hour : 0 <= sign_of d * Hour d < 24;
  duo_minute : 0 <= sign_of d * Minute d < 60;
  duo_second : 0 <= sign_of d * Second d < 60;
  duo_mili : milis_signed (sign_of d) d;
  duo_zero : all_zero d = true -> utc d = UTC_POS;
  duo_zone : tz_hh d = 0 /\ tz_mm d = 0
}.

Lemma sign_of_is d : is_sign (sign_of d).
Proof. unfold sign_of. destruct (_ =? _); [now right|now left]. Qed.

Lemma rng_of_sign s v : is_sign s -> 0 <= s * v <= 500000000 -> small v.
Proof. unfold small, rng. intros [-> | ->]; lia. Qed.

Lemma duration_normal d : duration_ok d -> normalizeDuration d = d.
Proof.
  intros [Hu Hy Hmo Hd Hh Hmi Hse Hms Hz [Ht1 Ht2]]. pose proof (sign_of_is d) as Hs. apply normalizeDuration_id; trivial.
  - unfold small_fields. repeat split; rewrite ?Ht1, ?Ht2; try (unfold small, rng; lia);
      match goal with |- context [?f d] => apply (rng_of_sign (sign_of d) (f d) Hs); lia end.
  - unfold duration_canonical. auto.
Qed.

Lemma duration_time_signed d : duration_ok d -> time_signed (sign_of d) d.
Proof. intros []. constructor; unfold signed, INT_MAX; trivial; lia. Qed.

Definition sign_text (s : Z) : buffer := if s =? -1 then [MINUS] else [].

(** The first characters. *)
Lemma duration_start_step buf s rest d :
  stands buf 0 (sign_text s ++ [DURATION_STARTER] ++ rest) -> is_sign s -> ~ In MINUS rest ->
  duration_start d buf 0 (length (sign_text s ++ [DURATION_STARTER] ++ rest))
  = Ok (set_utc (if s =? -1 then UTC_NEG else UTC_POS) d, (length (sign_text s) + 1)%nat, s).
Proof.
  intros Hst Hs Hno. unfold duration_start, sign_text in *. destruct Hs as [-> | ->]; cbn [Z.eqb Pos.eqb app length Nat.add] in *.
  - apply stands_cons in Hst as [H0 Hst]. rewrite !(stands_rd _ _ _ H0). cbn [bind_res].
    rewrite guard_true by reflexivity. cbn [bind_res]. change (DURATION_STARTER =? MINUS) with false. cbv iota. cbn [bind_res].
    change (S (length rest)) with (1 + length rest)%nat. now rewrite (indexOf_none buf rest MINUS 1).
  - apply stands_cons in Hst as [H0 Hst]. apply stands_cons in Hst as [H1 Hst]. rewrite !(stands_rd _ _ _ H0). cbn [bind_res].
    rewrite guard_true by reflexivity. cbn [bind_res]. change (MINUS =? MINUS) with true. cbv iota.
    rewrite (stands_rd _ _ _ H1). cbn [bind_res]. rewrite guard_true by reflexivity. cbn [bind_res].
    change (S (S (length rest))) with (2 + length rest)%nat. now rewrite (indexOf_none buf rest MINUS 2).
Qed.

(** ** The characters of a printed duration *)

Definition dur_char (c : Z) : Prop :=
  is_digit c \/ In c [DURATION_Y; DURATION_M; DURATION_D; DURATION_H; DURATION_S; DATETIME_SEPARATOR; MILISECOND_SEPARATOR].

Lemma digits_dur ds : Forall is_digit ds -> Forall dur_char ds.
Proof. apply Forall_impl. now left. Qed.

Lemma field_dur s v ch : is_sign s -> signed s v -> dur_char ch -> Forall dur_char (print_field s v ch).
Proof.
  intros Hs Hv Hch. rewrite print_field_eq by assumption. destruct (v =? 0); [constructor|]. apply Forall_app. split.
  - apply digits_dur, (udec_spec _ Hv).
  - now constructor.
Qed.

(** [letter] proves that a designator is one. *)
Ltac letter := right; cbn; auto 10.

Lemma seconds_dur s z : is_sign s -> time_signed s z -> Forall dur_char (seconds_text s z).
Proof.
  intros Hs [_ _ H3 H4]. unfold seconds_text. destruct (_ || _); [|constructor].
  apply Forall_app. split; [apply digits_dur, (udec_spec _ H3)|]. apply Forall_app. split; [|constructor; [letter|constructor]].
  destruct (Z.eqb_spec (MiliSecond z) 0) as [E|E]; cbn [negb]; [constructor|]. constructor; [letter|].
  now apply digits_dur, duration_fraction.
Qed.

Lemma time_part_dur s zero z : is_sign s -> time_signed s z -> Forall dur_char (time_part s zero z).
Proof.
  intros Hs Hz. pose proof Hz as [H1 H2 _ _]. unfold time_part. destruct (no_time z); [destruct zero|].
  - constructor; [letter|]. constructor; [left; split; cbn; lia|]. constructor; [letter|constructor].
  - constructor.
  - constructor; [letter|]. unfold hms_text. apply Forall_app. split; [apply field_dur; trivial; letter|].
    apply Forall_app. split; [apply field_dur; trivial; letter|now apply seconds_dur].
Qed.

Lemma dur_no_minus t : Forall dur_char t -> ~ In MINUS t.
Proof.
  intros H Hin. rewrite Forall_forall in H. destruct (H _ Hin) as [Hd|Hl]; [revert Hd; not_digit|].
  cbn in Hl. repeat destruct Hl as [Hl|Hl]; discriminate || contradiction.
Qed.

Lemma dur_no_space t : Forall dur_char t -> no_space t.
Proof.
  apply Forall_impl. intros c [Hd|Hl].
  - assert (H : 48 <= c <= 57) by exact Hd. unfold isspace. lia.
  - cbn in Hl. repeat destruct Hl as [<-|Hl]; reflexivity || contradiction.
Qed.

(** ** The date part *)

(** Up to [T] or to the end. *)
Lemma date_part_end_step buf i date s zero z :
  stands buf i (date ++ time_part s zero z) -> ~ In DATETIME_SEPARATOR date ->
  date_part_end buf i (i + length (date ++ time_part s zero z)) = (i + length date)%nat.
Proof.
  intros Hst Hno. unfold date_part_end. assert (Ht : time_part s zero z = [] \/ exists t, time_part s zero z = DATETIME_SEPARATOR :: t).
  { unfold time_part. destruct (no_time z), zero; eauto. }
  destruct Ht as [E|(t & E)]; rewrite E in *.
  - rewrite app_nil_r in *. now rewrite indexOf_none.
  - rewrite (indexOf_found buf i _ date); trivial; [|rewrite length_app; cbn; lia].
    apply (stands_app buf i (date ++ [DATETIME_SEPARATOR]) t). now rewrite <- app_assoc.
Qed.

Definition ymd_text (s : Z) (d : XMLDateTime) : buffer :=
  print_field s (CentYear d) DURATION_Y ++ print_field s (Month d) DURATION_M ++ print_field s (Day d) DURATION_D.

Definition zero_date (d : XMLDateTime) : bool := (CentYear d =? 0) && (Month d =? 0) && (Day d =? 0).

Lemma printDuration_eq d : duration_ok d -> Type_ d <> xs_yearMonthDuration ->
  (Type_ d =? xs_duration) || (Type_ d =? xs_dayTimeDuration) = true ->
  printDuration d = sign_text (sign_of d) ++ [DURATION_STARTER] ++ ymd_text (sign_of d) d
                    ++ time_part (sign_of d) (zero_date d) d.
Proof.
  intros Hok Ht Htt. destruct (duration_time_signed d Hok) as [_ _ S3 S4]. pose proof (sign_of_is d) as Hs.
  assert (En : (if utc d =? UTC_POS then 1 else -1) = sign_of d)
    by (unfold sign_of; destruct (duo_utc d Hok) as [-> | ->]; reflexivity).
  unfold printDuration. rewrite En. apply Z.eqb_neq in Ht. rewrite Ht, Htt. cbn [andb]. unfold sign_text, ymd_text, time_part, hms_text.
  rewrite (proj1 (sign_mul_int _ _ Hs S3)), sprintf_nonneg by apply S3.
  rewrite (proj1 (sign_mul_int _ (MiliSecond d) Hs ltac:(unfold signed, milis_signed, INT_MAX in *; lia))).
  fold (seconds_text (sign_of d) d). rewrite <- !app_assoc. cbn [app]. do 2 f_equal. apply f_equal, f_equal, f_equal.
  unfold no_time, zero_date, seconds_text, print_field.
  destruct (Hour d =? 0), (Minute d =? 0), (Second d =? 0), (MiliSecond d =? 0); cbn [negb andb orb app]; try reflexivity.
  destruct ((CentYear d =? 0) && (Month d =? 0) && (Day d =? 0)); reflexivity.
Qed.

Lemma field_not_in_2 s v1 c1 v2 c2 x : is_sign s -> signed s v1 -> signed s v2 -> ~ is_digit x -> x <> c1 -> x <> c2 ->
  ~ In x (print_field s v1 c1 ++ print_field s v2 c2).
Proof. intros. rewrite in_app_iff. intros [H'|H']; revert H'; now apply not_in_field. Qed.

Record date_signed (s : Z) (z : XMLDateTime) : Prop := {
  dsg_year : signed s (CentYear z); dsg_month : signed s (Month z); dsg_day : signed s (Day z)
}.

Lemma duration_date_signed d : duration_ok d -> date_signed (sign_of d) d.
Proof. intros []. constructor; unfold signed, INT_MAX; lia. Qed.

Lemma ymd_dur s z : is_sign s -> date_signed s z -> Forall dur_char (ymd_text s z).
Proof.
  intros Hs [H1 H2 H3]. unfold ymd_text. apply Forall_app. split; [apply field_dur; trivial; letter|].
  apply Forall_app. split; apply field_dur; trivial; letter.
Qed.

Lemma ymd_no_T s z : is_sign s -> date_signed s z -> ~ In DATETIME_SEPARATOR (ymd_text s z).
Proof.
  intros Hs [H1 H2 H3]. unfold ymd_text. rewrite in_app_iff. intros [H|H]; revert H.
  - apply not_in_field; trivial; discriminate || not_digit.
  - apply field_not_in_2; trivial; discriminate || not_digit.
Qed.

Definition put_ymd (z d : XMLDateTime) : XMLDateTime := set_Day (Day z) (set_Month (Month z) (set_CentYear (CentYear z) d)).
Definition date_fresh (d : XMLDateTime) : Prop := CentYear d = 0 /\ Month d = 0 /\ Day d = 0.

(** The three fields before [T]. *)
Lemma ymd_step buf i s z d :
  stands buf i (ymd_text s z) -> is_sign s -> date_signed s z -> date_fresh d ->
  (let* st := duration_field s DURATION_Y set_CentYear buf (i + length (ymd_text s z)) (fun e => e) (mk_ds d i false) in
   let* st := duration_field s DURATION_M set_Month buf (i + length (ymd_text s z)) (fun e => e) st in
   duration_field s DURATION_D set_Day buf (i + length (ymd_text s z)) (fun e => e) st)
  = Ok (mk_ds (put_ymd z d) (i + length (ymd_text s z)) (negb (zero_date z))).
Proof.
  intros Hst Hs [H1 H2 H3] (F1 & F2 & F3). unfold ymd_text in *.
  rewrite field_step; trivial; [|apply field_not_in_2; trivial; discriminate || not_digit
                                |not_digit|intros ->; destruct d; dt_cbn; now subst|intros; lia].
  cbn [bind_res]. apply stands_app in Hst as [_ Hst]. rewrite length_app, Nat.add_assoc.
  rewrite field_step; trivial; [|apply not_in_field; trivial; discriminate || not_digit
                                |not_digit|intros ->; destruct d; dt_cbn; now subst|intros; lia].
  cbn [bind_res]. apply stands_app in Hst as [_ Hst]. rewrite length_app, Nat.add_assoc.
  rewrite <- (app_nil_r (print_field s (Day z) DURATION_D)) in Hst |- *.
  rewrite field_step; trivial; [|intros []|not_digit|intros ->; destruct d; dt_cbn; now subst|intros; lia].
  unfold put_ymd, zero_date. rewrite app_nil_r. do 2 f_equal. cbn [orb]. now rewrite !negb_andb.
Qed.

Lemma designator_seen s z : negb (zero_date z) || negb (length (time_part s (zero_date z) z) =? 0)%nat = true.
Proof. destruct (zero_date z) eqn:E; [|reflexivity]. unfold time_part. now destruct (no_time z). Qed.

Lemma sign_utc d : duration_ok d -> (if sign_of d =? -1 then UTC_NEG else UTC_POS) = utc d.
Proof. intros H. unfold sign_of. destruct (duo_utc d H) as [-> | ->]; reflexivity. Qed.

Lemma duration_normalize d : duration_ok d -> isDuration d = true -> normalize d = Some d.
Proof. intros Hok Ht. unfold normalize. rewrite Ht. now rewrite duration_normal. Qed.

(** The beginning common to the parsers. *)
Lemma duration_prefix d w (s := sign_of d) (rest := ymd_text s d ++ time_part s (zero_date d) d)
    (buf := (sign_text s ++ [DURATION_STARTER] ++ rest) ++ w) (i := (length (sign_text s) + 1)%nat) :
  spaces w -> duration_ok d ->
  handleWhitespace buf 0 (length buf) = (0%nat, (i + length rest)%nat) /\
  (forall d0, duration_start d0 buf 0 (i + length rest) = Ok (set_utc (utc d) d0, i, s)) /\ stands buf i rest.
Proof.
  intros Hw Hok. pose proof (sign_of_is d) as Hs. fold s in Hs. pose proof (duration_date_signed d Hok) as Hds.
  pose proof (duration_time_signed d Hok) as Hts.
  assert (Hchars : Forall dur_char rest) by (apply Forall_app; split; [now apply ymd_dur|now apply time_part_dur]).
  assert (Hst : stands buf 0 (sign_text s ++ [DURATION_STARTER] ++ rest)) by (exists [], w; split; reflexivity).
  assert (Hlen : length (sign_text s ++ [DURATION_STARTER] ++ rest) = (i + length rest)%nat) by (rewrite !length_app; cbn; lia).
  split; [|split].
  - pose proof (handleWhitespace_spec [] (sign_text s ++ [DURATION_STARTER] ++ rest) w) as HW. cbn [app length] in HW.
    cbn [app] in Hlen. rewrite Hlen in HW. apply HW; [constructor|assumption| |destruct (sign_text s); discriminate].
    apply no_space_app. split; [unfold sign_text; destruct (_ =? _); repeat constructor|].
    constructor; [reflexivity|now apply dur_no_space].
  - intros d0. rewrite <- Hlen, duration_start_step by (trivial; now apply dur_no_minus). unfold s, i. now rewrite sign_utc.
  - apply stands_app in Hst as [_ Hst]. apply stands_app in Hst as [_ Hst]. exact Hst.
Qed.

Lemma duration_round w d : spaces w -> duration_ok d -> Type_ d = xs_duration ->
  parseDuration reset (printDuration d ++ w) = Ok d.
Proof.
  intros Hw Hok Ht. rewrite printDuration_eq by (trivial; rewrite Ht; reflexivity || discriminate).
  destruct (duration_prefix d w Hw Hok) as (H1 & H2 & Hst). pose proof (sign_of_is d) as Hs. set (s := sign_of d) in *.
  pose proof (duration_date_signed d Hok) as Hds. pose proof (duration_time_signed d Hok) as Hts. fold s in Hds, Hts.
  unfold parseDuration. rewrite H1, H2. cbn [bind_res].
  rewrite (date_part_end_step _ _ (ymd_text s d)) by (trivial; now apply ymd_no_T).
  apply stands_app in Hst as [Hst1 Hst2].
  match goal with |- context [mk_ds ?d0 ?i false] => pose proof (ymd_step _ i s d d0 Hst1 Hs Hds ltac:(repeat split)) as HY end.
  unfold bind_res at 1 2 in HY. cbn [app] in HY |- *.
  destruct (duration_field s DURATION_Y _ _ _ _ _) as [s1|]; [cbn [bind_res]|discriminate].
  destruct (duration_field s DURATION_M _ _ _ _ _) as [s2|]; [cbn [bind_res]|discriminate].
  rewrite HY. cbn [bind_res]. rewrite length_app, Nat.add_assoc.
  match goal with |- context [mk_ds ?d0 ?i ?b] => destruct (time_part_step _ i s (zero_date d) d d0 b Hst2 Hs Hts) as (st & HT) end;
    [repeat split|].
  cbn [app] in HT. rewrite HT. cbn [bind_res]. unfold duration_end. cbn [ds_designator ds_value]. rewrite designator_seen. cbn [require bind_res].
  replace (put_hms d _) with d; [rewrite duration_normalize; trivial; unfold isDuration; now rewrite Ht|].
  destruct (duo_zone d Hok). unfold put_hms, put_ymd. destruct d; dt_cbn; now subst.
Qed.

Lemma dayTimeDuration_round w d : spaces w -> duration_ok d -> Type_ d = xs_dayTimeDuration -> CentYear d = 0 -> Month d = 0 ->
  parseDayTimeDuration reset (printDuration d ++ w) = Ok d.
Proof.
  intros Hw Hok Ht Hy Hm. rewrite printDuration_eq by (trivial; rewrite Ht; reflexivity || discriminate).
  destruct (duration_prefix d w Hw Hok) as (H1 & H2 & Hst). pose proof (sign_of_is d) as Hs. set (s := sign_of d) in *.
  pose proof (duration_date_signed d Hok) as Hds. pose proof (duration_time_signed d Hok) as Hts. fold s in Hds, Hts.
  unfold parseDayTimeDuration. rewrite H1, H2. cbn [bind_res]. set (buf := _ ++ w) in *. clearbody buf. clear H1 H2.
  rewrite (date_part_end_step _ _ (ymd_text s d)) by (trivial; now apply ymd_no_T).
  apply stands_app in Hst as [Hst1 Hst2].
  assert (Ey : ymd_text s d = print_field s (Day d) DURATION_D ++ []) by (unfold ymd_text; now rewrite Hy, Hm, app_nil_r).
  rewrite Ey in Hst1. replace (length (ymd_text s d)) with (length (print_field s (Day d) DURATION_D ++ [])) by now rewrite Ey.
  rewrite field_step; trivial; [|apply Hds|intros []|not_digit|intros ->; reflexivity|intros; lia].
  cbn [bind_res orb]. rewrite app_nil_r in Ey. rewrite <- Ey, ?app_nil_r. rewrite length_app, Nat.add_assoc.
  match goal with |- context [mk_ds ?d0 ?i ?b] => destruct (time_part_step _ i s (zero_date d) d d0 b Hst2 Hs Hts) as (st & HT) end;
    [repeat split|].
  rewrite HT. cbn [bind_res]. unfold duration_end. cbn [ds_designator ds_value].
  replace (Day d =? 0) with (zero_date d) by (unfold zero_date; rewrite Hy, Hm; reflexivity).
  rewrite designator_seen. cbn [require bind_res].
  replace (put_hms d _) with d; [rewrite duration_normalize; trivial; unfold isDuration; now rewrite Ht|].
  destruct (duo_zone d Hok). unfold put_hms. destruct d; dt_cbn; now subst.
Qed.

Definition only_months (d : XMLDateTime) : Prop :=
  Day d = 0 /\ Hour d = 0 /\ Minute d = 0 /\ Second d = 0 /\ MiliSecond d = 0.

Definition ym_text (s : Z) (d : XMLDateTime) : buffer :=
  print_field s (CentYear d) DURATION_Y ++ print_field s (Month d) DURATION_M
  ++ (if (CentYear d =? 0) && (Month d =? 0) then [ZERO; DURATION_M] else []).

Lemma printYearMonth_eq d : duration_ok d -> Type_ d = xs_yearMonthDuration ->
  printDuration d = sign_text (sign_of d) ++ [DURATION_STARTER] ++ ym_text (sign_of d) d.
Proof.
  intros Hok Ht. assert (En : (if utc d =? UTC_POS then 1 else -1) = sign_of d)
    by (unfold sign_of; destruct (duo_utc d Hok) as [-> | ->]; reflexivity).
  unfold printDuration, ym_text, sign_text. rewrite En, Ht. cbn [Z.eqb xs_yearMonthDuration xs_duration xs_dayTimeDuration Pos.eqb orb andb]. now rewrite app_nil_r.
Qed.

(** The two fields of a yearMonthDuration; the check for an empty number
    compares with the end of the text. *)
Lemma ym_step buf i s z d (e := (i + length (ym_text s z))%nat) :
  stands buf i (ym_text s z) -> is_sign s -> date_signed s z -> CentYear d = 0 -> Month d = 0 ->
  (let* st := duration_field s DURATION_Y set_CentYear buf e (fun _ => e) (mk_ds d i false) in
   duration_field s DURATION_M set_Month buf e (fun _ => e) st)
  = Ok (mk_ds (set_Month (Month z) (set_CentYear (CentYear z) d)) e true).
Proof.
  intros Hst Hs [H1 H2 _] F1 F2. unfold e, ym_text in *. clear e. destruct ((CentYear z =? 0) && (Month z =? 0)) eqn:E0.
  - apply andb_prop in E0 as [E1 E2]. apply Z.eqb_eq in E1, E2. rewrite E1, E2 in *. cbn [print_field Z.eqb negb app length] in *.
    unfold duration_field. cbn [ds_start ds_value]. change 2%nat with (length [ZERO; DURATION_M]) at 1.
    rewrite indexOf_none by (trivial; cbn; intros [H|[H|[]]]; discriminate). cbn [bind_res ds_start ds_value].
    rewrite (indexOf_found buf i _ [ZERO]) by (trivial; cbn; lia || (intros [H|[]]; discriminate)). cbn [length].
    apply (stands_app buf i [ZERO] [DURATION_M]) in Hst as [Hst _]. guards.
    rewrite (parseInt_digits buf _ _ [ZERO]) by (trivial; cbn; unfold INT_MAX; lia || (repeat constructor; cbn; lia)).
    cbn [bind_res]. replace (s *! value [ZERO] 0) with 0 by (destruct Hs as [-> | ->]; reflexivity).
    do 2 f_equal; [|lia]. destruct d; dt_cbn; now subst.
  - rewrite field_step; trivial; [|rewrite app_nil_r; apply not_in_field; trivial; discriminate || not_digit
                                  |not_digit|intros ->; destruct d; dt_cbn; now subst|intros; lia].
    cbn [bind_res]. apply stands_app in Hst as [_ Hst]. rewrite length_app, Nat.add_assoc.
    rewrite field_step; trivial; [|intros []|not_digit|intros ->; destruct d; dt_cbn; now subst|intros; lia].
    rewrite app_nil_r. do 2 f_equal. cbn [orb]. now rewrite <- negb_andb, E0.
Qed.

Lemma ym_dur s z : is_sign s -> date_signed s z -> Forall dur_char (ym_text s z).
Proof.
  intros Hs [H1 H2 H3]. unfold ym_text. apply Forall_app. split; [apply field_dur; trivial; letter|].
  apply Forall_app. split; [apply field_dur; trivial; letter|]. destruct (_ && _); [|constructor].
  constructor; [left; split; cbn; lia|constructor; [letter|constructor]].
Qed.

Lemma ym_value d : Type_ d = xs_yearMonthDuration -> only_months d -> tz_hh d = 0 /\ tz_mm d = 0 ->
  set_Month (Month d) (set_CentYear (CentYear d) (set_utc (utc d) (set_Type xs_yearMonthDuration reset))) = d.
Proof. intros Ht (O1 & O2 & O3 & O4 & O5) [Z1 Z2]. destruct d; dt_cbn; now subst. Qed.

Lemma yearMonthDuration_round w d : spaces w -> duration_ok d -> Type_ d = xs_yearMonthDuration -> only_months d ->
  parseYearMonthDuration reset (printDuration d ++ w) = Ok d.
Proof.
  intros Hw Hok Ht (O1 & O2 & O3 & O4 & O5). rewrite printYearMonth_eq by assumption. pose proof (sign_of_is d) as Hs.
  pose proof (duration_date_signed d Hok) as Hds. pose proof (sign_utc d Hok) as Hu. set (s := sign_of d) in *.
  pose proof (ym_dur s d Hs Hds) as Hchars. set (rest := ym_text s d) in *.
  set (buf := (sign_text s ++ [DURATION_STARTER] ++ rest) ++ w).
  assert (Hst : stands buf 0 (sign_text s ++ [DURATION_STARTER] ++ rest)) by (exists [], w; split; reflexivity).
  pose proof (handleWhitespace_spec [] (sign_text s ++ [DURATION_STARTER] ++ rest) w) as HW. cbn [app length] in HW.
  unfold parseYearMonthDuration. change buf with ((sign_text s ++ DURATION_STARTER :: rest) ++ w) at 1 2.
  rewrite HW; [|constructor|assumption| |destruct (sign_text s); discriminate].
  2: { apply no_space_app. split; [unfold sign_text; destruct (_ =? _); repeat constructor|].
       constructor; [reflexivity|now apply dur_no_space]. }
  pose proof (duration_start_step buf s rest) as HS. cbn [app] in HS, Hst. cbn [Nat.add].
  rewrite HS by (trivial; now apply dur_no_minus). cbn [bind_res]. rewrite Hu.
  replace (length (sign_text s ++ DURATION_STARTER :: rest)) with (length (sign_text s) + 1 + length rest)%nat
    by (rewrite length_app; cbn; lia).
  apply stands_app in Hst as [_ Hst]. apply stands_cons in Hst as [_ Hst]. cbn [Nat.add] in Hst. rewrite <- Nat.add_1_r in Hst.
  match goal with |- context [mk_ds ?d0 ?i false] => pose proof (ym_step _ i s d d0 Hst Hs Hds eq_refl eq_refl) as HY end.
  unfold bind_res at 1 in HY. fold rest in HY.
  destruct (duration_field s DURATION_Y _ _ _ _ _) as [s1|]; [cbn [bind_res]|discriminate].
  rewrite HY. cbn [bind_res ds_designator ds_start ds_value require]. guards.
  rewrite ym_value by (trivial; repeat split; trivial; apply Hok). rewrite duration_normalize; trivial. unfold isDuration. now rewrite Ht.
Qed.

(** ** The packed form *)

Lemma packed_field s v w : is_sign s -> 0 <= s * v < 2 ^ w -> s * v <= INT_MAX -> s *! bits w (s *! v) = v.
Proof.
  intros Hs Hv Hi. destruct (sign_mul_int s v Hs ltac:(unfold signed; lia)) as [-> E]. now rewrite bits_fit, E.
Qed.

Lemma packed_wide s v : is_sign s -> 0 <= s * v <= INT_MAX -> s *! u32 (s *! v) = v.
Proof.
  intros Hs Hv. destruct (sign_mul_int s v Hs Hv) as [-> E]. now rewrite u32_small by int_lia.
Qed.

Lemma packed_duration d : duration_ok d -> of_packed_duration (getPackedDuration d) (Type_ d) = d.
Proof.
  intros Hok. pose proof (sign_of_is d) as Hs. pose proof (duo_utc d Hok) as Hu.
  assert (En : (if utc d =? UTC_POS then 1 else -1) = sign_of d)
    by (unfold sign_of; destruct Hu as [-> | ->]; reflexivity).
  assert (Ed : (if (if utc d =? UTC_POS then 0 else 1) =? 0 then 1 else -1) = sign_of d)
    by (unfold sign_of; destruct Hu as [-> | ->]; reflexivity).
  assert (Eu : (if (if utc d =? UTC_POS then 0 else 1) =? 0 then UTC_POS else UTC_NEG) = utc d)
    by (destruct Hu as [-> | ->]; reflexivity).
  unfold of_packed_duration, getPackedDuration. cbn [d_neg d_years d_days d_months d_hours d_minutes d_seconds d_milis].
  rewrite En, Ed, Eu. destruct Hok as [_ Hy Hmo Hd Hh Hmi Hse Hms _ [Z1 Z2]]. unfold milis_signed in Hms.
  rewrite !packed_wide, !packed_field by (trivial; unfold INT_MAX; lia). destruct d; dt_cbn; now subst.
Qed.
