(* ===== verification/DateTimeSafe.v ===== *)
(** * Dates, times and durations: the parsers on arbitrary texts

    No parser but [parseMonthDay] reads past the terminating NUL of its
    buffer, and what [parseDateTime] accepts is a date of the calendar. *)

From Stdlib Require Import Ascii String ZArith List Lia Bool ZifyNat ZifyBool.
From S2P Require Import Prelude DateTime DateTimeCal DateTimeNorm DateTimeText DateTimeScan DateTimeRound.
Import ListNotations.
Local Open Scope Z_scope.
Local Open Scope sedna_scope.

(** ** Reads inside the buffer *)

Definition safe {A} (r : res dt_exn A) : Prop := r <> Throw Out_of_bounds.

Lemma safe_Ok {A} (a : A) : safe (Ok a).
Proof. discriminate. Qed.

Lemma safe_bind {A B} (c : res dt_exn A) (k : A -> res dt_exn B) :
  safe c -> (forall a, c = Ok a -> safe (k a)) -> safe (bind_res c k).
Proof. unfold safe. destruct c as [a|e]; cbn; [eauto|]. intros H _ [= ->]. now apply H. Qed.

Lemma safe_require b : safe (require b).
Proof. now destruct b. Qed.

Lemma safe_rd buf i : (i <= length buf)%nat -> safe (rd buf i).
Proof.
  unfold safe, rd. intros Hi. destruct (nth_error buf i) eqn:E; [discriminate|]. apply nth_error_None in E.
  rewrite (proj2 (Nat.eqb_eq _ _)) by lia. discriminate.
Qed.

Lemma safe_fuel {A} (o : option A) : safe (of_option Out_of_fuel o).
Proof. now destruct o. Qed.

Lemma require_Ok b u : require b = Ok u -> b = true.
Proof. now destruct b. Qed.

Lemma safe_validated d : safe (validated d).
Proof.
  unfold validated, validateDateTime.
  repeat match goal with |- context [if ?b then _ else _] => destruct b; [discriminate|] end. discriminate.
Qed.

Create HintDb safe.
#[export] Hint Resolve safe_Ok safe_require safe_fuel safe_validated : safe.

(** A character other than the NUL is inside the buffer. *)
Lemma rd_inside buf i c : rd buf i = Ok c -> c <> 0 -> (i < length buf)%nat.
Proof.
  unfold rd. destruct (nth_error buf i) eqn:E; [intros _ _; apply nth_error_Some; congruence|].
  destruct (_ =? _)%nat; [intros [= <-]; congruence|discriminate].
Qed.

Lemma parseInt_loop_safe buf : forall n i acc, (i <= length buf)%nat ->
  safe (parseInt_loop buf i n acc) /\ (forall v, parseInt_loop buf i n acc = Ok v -> (i + n <= length buf)%nat).
Proof.
  induction n as [|n IH]; intros i acc Hi; cbn [parseInt_loop]; [split; [apply safe_Ok|lia]|].
  destruct (rd buf i) as [c|e] eqn:E; cbn [bind_res]; [|split; [rewrite <- E in *; intros [= H]; now apply (safe_rd buf i Hi)|discriminate]].
  destruct (negb ((c <? ZERO) || (NINE <? c))) eqn:G; cbn [require bind_res]; [|split; [discriminate|discriminate]].
  assert (Hlt : (i < length buf)%nat) by (apply (rd_inside buf i c E); intros ->; cbn in G; discriminate).
  destruct (IH (S i) (acc *! 10 +! (c - ZERO)) ltac:(lia)) as [H1 H2]. split; [assumption|].
  intros v Hv. specialize (H2 v Hv). lia.
Qed.

Lemma safe_parseInt buf i j : (i <= length buf)%nat -> safe (parseInt buf i j).
Proof. intros H. now apply parseInt_loop_safe. Qed.

Lemma parseInt_inside buf i j v : parseInt buf i j = Ok v -> (i <= length buf)%nat -> (i <= j)%nat -> (j <= length buf)%nat.
Proof. intros H Hi Hj. apply (proj2 (parseInt_loop_safe buf (j - i) i 0 Hi)) in H. lia. Qed.

Lemma indexOf_loop_bound buf ch : forall n i p, indexOf_loop buf i n ch = Some p -> (i <= p < i + n)%nat.
Proof.
  induction n as [|n IH]; intros i p H; cbn [indexOf_loop] in H; [discriminate|].
  destruct (_ =? _); [injection H as <-; lia|]. apply IH in H. lia.
Qed.

Lemma indexOf_bound buf i e ch p : indexOf buf i e ch = Some p -> (i <= p < e)%nat.
Proof. intros H. apply indexOf_loop_bound in H. lia. Qed.

Lemma findUTCSign_bound buf : forall n d i d' p, findUTCSign_loop d buf i n = (d', Some p) -> (i <= p < i + n)%nat.
Proof.
  induction n as [|n IH]; intros d i d' p H; cbn [findUTCSign_loop] in H; [discriminate|].
  destruct (indexOf_set _ _); [injection H as _ <-; lia|]. apply IH in H. lia.
Qed.

Lemma skip_space_bound buf : forall n i, (i <= skip_space buf i n <= i + n)%nat.
Proof.
  induction n as [|n IH]; intros i; cbn [skip_space]; [lia|]. destruct (isspace _); [|lia]. specialize (IH (S i)). lia.
Qed.

Lemma trim_end_bound buf start : forall e, (trim_end buf start e <= e)%nat.
Proof. induction e as [|e IH]; cbn [trim_end]; [lia|]. destruct (_ && _); lia. Qed.

Lemma handleWhitespace_bound buf start end_ :
  handleWhitespace buf 0 (length buf) = (start, end_) -> (start <= length buf)%nat /\ (end_ <= length buf)%nat.
Proof.
  unfold handleWhitespace. pose proof (skip_space_bound buf (length buf - 0) 0) as H1.
  set (s := skip_space _ _ _) in *. clearbody s. destruct (_ =? _)%nat; intros [= <- <-]; [lia|].
  pose proof (trim_end_bound buf s (length buf)). lia.
Qed.

(** [safe_step] goes one statement further; [inside] keeps what the successful
    reads say about the positions. *)
Ltac inside :=
  repeat match goal with
  | H : require _ = Ok _ |- _ => apply require_Ok in H
  | H : parseInt _ _ _ = Ok _ |- _ => apply parseInt_inside in H; [|lia|lia]
  end.
Ltac safe_step :=
  inside;
  match goal with
  | |- context [if ?b then S ?i else ?i] => destruct b eqn:?
  | |- safe (Ok _) => apply safe_Ok
  | |- safe (Throw _) => discriminate
  | |- safe (require _) => apply safe_require
  | |- safe (validated _) => apply safe_validated
  | |- safe (of_option _ _) => apply safe_fuel
  | |- safe (rd _ _) => apply safe_rd; lia
  | |- safe (parseInt _ _ _) => apply safe_parseInt; lia
  | |- safe (bind_res _ _) => apply safe_bind; [|intros ? ?]
  | |- safe (match ?x with _ => _ end) => destruct x eqn:?
  end.

(** ** Scanners *)

Lemma safe_parseIntYear buf i e : (i <= length buf)%nat -> (e <= length buf)%nat -> safe (parseIntYear buf i e).
Proof. intros Hi He. unfold parseIntYear. repeat (safe_step; cbn zeta). Qed.

Lemma getTimeZone_safe d buf i e : (i <= length buf)%nat -> (e <= length buf)%nat -> safe (getTimeZone d buf i e).
Proof. intros Hi He. unfold getTimeZone, TIMEZONE_SIZE. repeat safe_step. Qed.

Lemma parseTimeZone_safe d buf i e : (e <= length buf)%nat -> safe (parseTimeZone d buf i e).
Proof.
  intros He. unfold parseTimeZone. destruct (Nat.ltb_spec i e); [|apply safe_Ok]. repeat safe_step.
  apply getTimeZone_safe; lia.
Qed.

Lemma getYearMonth_safe d buf i e : (e <= length buf)%nat ->
  safe (getYearMonth d buf i e) /\ (forall r p, getYearMonth d buf i e = Ok (r, p) -> (p <= length buf)%nat).
Proof.
  intros He. unfold getYearMonth, YMONTH_MIN_SIZE. split.
  - repeat (safe_step; cbn zeta);
      match goal with H : indexOf _ _ _ _ = Some _ |- _ => apply indexOf_bound in H end.
    all: try (apply safe_parseIntYear; lia). all: repeat safe_step.
  - intros r p H. res_inv. destruct (indexOf _ _ _ _) eqn:E; [|discriminate]. apply indexOf_bound in E. res_inv. inside. lia.
Qed.

Lemma getDate_safe d buf i e : (e <= length buf)%nat ->
  safe (getDate d buf i e) /\ (forall r p, getDate d buf i e = Ok (r, p) -> (p <= length buf)%nat).
Proof.
  intros He. destruct (getYearMonth_safe d buf i e He) as [S1 B1]. unfold getDate. split.
  - repeat (safe_step; cbn zeta); trivial;
      match goal with p : (XMLDateTime * nat)%type, H : getYearMonth _ _ _ _ = Ok _ |- _ => subst p; apply B1 in H end; repeat safe_step.
    all: match goal with H : rd _ _ = Ok _ |- _ => apply rd_inside in H; [repeat safe_step|] end.
    all: intros ->; discriminate.
  - intros r p H. res_inv. apply B1 in Hb0. inside.
    match goal with H : rd _ _ = Ok ?c, G : (?c =? _) = true |- _ =>
      apply rd_inside in H; [|intros ->; discriminate G] end.
    inside. lia.
Qed.

Lemma getTime_rest_safe d buf i e : (i <= length buf)%nat -> (e <= length buf)%nat -> safe (getTime_rest d buf i e).
Proof.
  intros Hi He. unfold getTime_rest, findUTCSign. destruct (findUTCSign_loop d buf i (e - i)) as [d' [p|]] eqn:E.
  - apply findUTCSign_bound in E. repeat (safe_step; cbn zeta). all: apply getTimeZone_safe; lia.
  - repeat (safe_step; cbn zeta).
Qed.

Lemma getTime_safe d buf i e : (e <= length buf)%nat -> safe (getTime d buf i e).
Proof.
  intros He. unfold getTime, TIME_MIN_SIZE. repeat (safe_step; cbn zeta). apply getTime_rest_safe; lia.
Qed.

(** ** Parsers of dates and times *)

(** [parser_start] opens the common beginning of the parsers. *)
Ltac parser_start :=
  let start := fresh "start" in let stop := fresh "stop" in let E := fresh "E" in
  match goal with |- context [handleWhitespace ?b 0 ?n] => destruct (handleWhitespace b 0 n) as [start stop] eqn:E end;
  let H1 := fresh "Hstart" in let H2 := fresh "Hstop" in apply handleWhitespace_bound in E as [H1 H2].

(** The read of a separator that was found. *)
Ltac sep_inside :=
  repeat match goal with
  | H : rd ?b ?i = Ok ?c, G : (?c =? _) = true |- _ =>
      apply rd_inside in H; [|intros ->; discriminate G]
  | H : rd ?b ?i = Ok ?c, G : (?c =? _) && _ = true |- _ =>
      let G' := fresh in assert (G' : c <> 0) by (intros ->; discriminate G); apply rd_inside in H; [|exact G']
  end.

Lemma parseDate_safe d buf : safe (parseDate d buf).
Proof.
  unfold parseDate. parser_start. destruct (getDate_safe (set_Type xs_date d) buf start stop ltac:(lia)) as [S1 B1].
  apply safe_bind; [assumption|]. intros [d1 p] H. apply B1 in H. apply safe_bind; [apply parseTimeZone_safe; lia|].
  intros. apply safe_validated.
Qed.

Lemma parseTime_safe d buf : safe (parseTime d buf).
Proof. unfold parseTime. parser_start. apply safe_bind; [now apply getTime_safe|]. intros. apply safe_validated. Qed.

Lemma parseDateTime_safe d buf : safe (parseDateTime d buf).
Proof.
  unfold parseDateTime. parser_start. destruct (getDate_safe (set_Type xs_dateTime d) buf start stop ltac:(lia)) as [S1 B1].
  apply safe_bind; [assumption|]. intros [d1 p] H. apply B1 in H. repeat safe_step. now apply getTime_safe.
Qed.

Lemma parseDay_safe d buf : safe (parseDay d buf).
Proof.
  unfold parseDay, DAY_SIZE. parser_start. repeat (safe_step; sep_inside). now apply parseTimeZone_safe.
Qed.

Lemma parseMonth_safe d buf : safe (parseMonth d buf).
Proof.
  unfold parseMonth. parser_start. repeat (safe_step; sep_inside; cbn zeta). all: try (apply parseTimeZone_safe; lia).
Qed.

Lemma parseYear_safe d buf : safe (parseYear d buf).
Proof.
  unfold parseYear, findUTCSign. parser_start. apply safe_bind; [repeat safe_step|]. intros c Hc.
  set (i := if c =? MINUS then S start else start). destruct (findUTCSign_loop _ buf i (stop - i)) as [d' [p|]] eqn:E.
  - apply findUTCSign_bound in E. repeat safe_step; [apply safe_parseIntYear; lia|apply getTimeZone_safe; lia].
  - repeat safe_step. now apply safe_parseIntYear.
Qed.

Lemma parseYearMonth_safe d buf : safe (parseYearMonth d buf).
Proof.
  unfold parseYearMonth. parser_start. destruct (getYearMonth_safe (set_Type xs_gYearMonth d) buf start stop ltac:(lia)) as [S1 B1].
  apply safe_bind; [assumption|]. intros [d1 p] H. apply B1 in H. repeat safe_step. now apply parseTimeZone_safe.
Qed.

(** ** Parsers of durations *)

Lemma duration_start_safe d buf i e : (i <= length buf)%nat ->
  safe (duration_start d buf i e) /\
  (forall d' p s, duration_start d buf i e = Ok (d', p, s) -> (p <= length buf)%nat).
Proof.
  intros Hi. unfold duration_start. split.
  - apply safe_bind; [repeat safe_step|]. intros c Hc. apply safe_bind; [apply safe_require|]. intros u Hu. apply require_Ok in Hu.
    assert (Hlt : (i < length buf)%nat) by (apply (rd_inside buf i c Hc); intros ->; discriminate). repeat safe_step.
  - intros d' p s H. res_inv. inside. assert (Hlt : (i < length buf)%nat) by (apply (rd_inside buf i _ Hb); intros ->; discriminate).
    destruct (indexOf _ _ _ _); [discriminate|]. injection H as _ <- _.
    match goal with H : (if ?b then _ else _) = Ok _ |- _ => destruct b; res_inv; inside; sep_inside; lia end.
Qed.

(** The position stays inside the buffer. *)
Definition ds_inside (buf : buffer) (s : dur_state) : Prop := (ds_start s <= length buf)%nat.

Lemma duration_field_safe neg ch set buf limit at_ s : ds_inside buf s -> (limit <= length buf)%nat ->
  safe (duration_field neg ch set buf limit at_ s) /\
  (forall s', duration_field neg ch set buf limit at_ s = Ok s' -> ds_inside buf s').
Proof.
  unfold ds_inside, duration_field. intros Hs Hl. destruct (indexOf _ _ _ _) as [p|] eqn:E; [apply indexOf_bound in E|].
  - split; [repeat safe_step|]. intros s' H. res_inv. cbn. lia.
  - split; [apply safe_Ok|]. now intros s' [= <-].
Qed.

Lemma duration_seconds_safe neg buf e s : ds_inside buf s -> (e <= length buf)%nat ->
  safe (duration_seconds neg buf e s) /\ (forall s', duration_seconds neg buf e s = Ok s' -> ds_inside buf s').
Proof.
  unfold ds_inside, duration_seconds. intros Hs Hl. destruct (indexOf _ _ e _) as [p|] eqn:E; [apply indexOf_bound in E|].
  - destruct (indexOf _ _ p _) as [m|] eqn:E2; [apply indexOf_bound in E2|]; (split; [repeat safe_step|]);
      intros s' H; res_inv; cbn; lia.
  - split; [apply safe_Ok|]. now intros s' [= <-].
Qed.

(** [ds_step] runs one part of a duration. *)
Ltac ds_step tac :=
  apply safe_bind; [eapply tac; eauto|];
  let s := fresh "s" in let H := fresh "H" in intros s H; apply tac in H; [|assumption|lia].

Lemma duration_time_safe neg buf endDate e s : ds_inside buf s -> (e <= length buf)%nat -> (endDate <= e)%nat ->
  (endDate = e \/ ds_start s <= endDate)%nat -> safe (duration_time neg buf endDate e s).
Proof.
  intros Hs He Hd Hsd. unfold duration_time. apply safe_bind; [apply safe_require|]. intros _ _.
  destruct (Nat.eqb_spec e endDate) as [_|Hne]; [apply safe_Ok|]. cbn [negb].
  assert (H0 : ds_inside buf (mk_ds (ds_value s) (S (ds_start s)) (ds_designator s))) by (unfold ds_inside; cbn; lia).
  ds_step duration_field_safe. ds_step duration_field_safe. ds_step duration_seconds_safe.
  unfold ds_inside in *. repeat safe_step.
Qed.

Lemma duration_field_le neg ch set buf limit at_ e s s' : duration_field neg ch set buf limit at_ s = Ok s' ->
  (limit = e \/ ds_start s <= limit)%nat -> (limit = e \/ ds_start s' <= limit)%nat.
Proof.
  unfold duration_field. destruct (indexOf _ _ _ _) as [p|] eqn:E; [apply indexOf_bound in E|].
  - intros H Hle. res_inv. cbn. lia.
  - now intros [= <-].
Qed.

Lemma date_part_end_bound buf i e : (date_part_end buf i e <= e /\ (date_part_end buf i e = e \/ i <= date_part_end buf i e))%nat.
Proof. unfold date_part_end. destruct (indexOf _ _ _ _) as [p|] eqn:E; [apply indexOf_bound in E|]; lia. Qed.

Lemma duration_end_safe s : safe (duration_end s).
Proof. unfold duration_end. repeat safe_step. Qed.

(** [ds_field] runs one field before [T]; the position does not pass [T]. *)
Ltac ds_field e :=
  apply safe_bind; [eapply duration_field_safe; eauto; lia|];
  let s := fresh "s" in let H := fresh "H" in intros s H;
  match goal with Hle : (_ = e \/ _)%nat |- _ => apply (duration_field_le _ _ _ _ _ _ e) in H as ?; [clear Hle|exact Hle] end;
  apply duration_field_safe in H; [|assumption|lia].

Lemma parseDuration_safe d buf : safe (parseDuration d buf).
Proof.
  unfold parseDuration. parser_start. destruct (duration_start_safe (set_Type xs_duration d) buf start stop Hstart) as [S1 B1].
  apply safe_bind; [assumption|]. intros [[d1 p] neg] H. apply B1 in H.
  destruct (date_part_end_bound buf p stop) as [H1 H2]. set (endDate := date_part_end buf p stop) in *. clearbody endDate.
  assert (Hds : ds_inside buf (mk_ds d1 p false)) by exact H.
  change p with (ds_start (mk_ds d1 p false)) in H2. set (s0 := mk_ds d1 p false) in *. clearbody s0.
  ds_field stop. ds_field stop. ds_field stop. apply safe_bind; [now apply duration_time_safe|]. intros. apply duration_end_safe.
Qed.

Lemma parseDayTimeDuration_safe d buf : safe (parseDayTimeDuration d buf).
Proof.
  unfold parseDayTimeDuration. parser_start.
  destruct (duration_start_safe (set_Type xs_dayTimeDuration d) buf start stop Hstart) as [S1 B1].
  apply safe_bind; [assumption|]. intros [[d1 p] neg] H. apply B1 in H.
  destruct (date_part_end_bound buf p stop) as [H1 H2]. set (endDate := date_part_end buf p stop) in *. clearbody endDate.
  assert (Hds : ds_inside buf (mk_ds d1 p false)) by exact H.
  change p with (ds_start (mk_ds d1 p false)) in H2. set (s0 := mk_ds d1 p false) in *. clearbody s0.
  ds_field stop. apply safe_bind; [now apply duration_time_safe|]. intros. apply duration_end_safe.
Qed.

Lemma parseYearMonthDuration_safe d buf : safe (parseYearMonthDuration d buf).
Proof.
  unfold parseYearMonthDuration. parser_start.
  destruct (duration_start_safe (set_Type xs_yearMonthDuration d) buf start stop Hstart) as [S1 B1].
  apply safe_bind; [assumption|]. intros [[d1 p] neg] H. apply B1 in H.
  assert (Hds : ds_inside buf (mk_ds d1 p false)) by exact H.
  ds_step duration_field_safe. ds_step duration_field_safe. repeat safe_step.
Qed.

(** ** What is accepted *)

Lemma parse2_range buf i v : parseInt buf i (i + 2) = Ok v -> 0 <= v < 100.
Proof.
  unfold parseInt. replace (i + 2 - i)%nat with 2%nat by lia. cbn [parseInt_loop]. intros H. res_inv. inside.
  assert (D1 : is_digit a) by (unfold is_digit; chars; lia). assert (D2 : is_digit a1) by (unfold is_digit; chars; lia).
  rewrite (int32_small (a - ZERO)), digit_step by (trivial; unfold is_digit in *; chars; int_lia).
  unfold is_digit in *. chars. lia.
Qed.

Lemma getDate_day d buf i e r p : getDate d buf i e = Ok (r, p) -> 0 <= Day r < 100.
Proof. unfold getDate. intros H. res_inv. now apply parse2_range in Hb3. Qed.

Definition same_date (r d : XMLDateTime) : Prop := Day r = Day d /\ Type_ r = Type_ d /\ CentYear r = CentYear d.

Lemma same_date_refl d : same_date d d.
Proof. repeat split. Qed.
#[local] Hint Resolve same_date_refl : core.

Lemma same_date_trans a b c : same_date a b -> same_date b c -> same_date a c.
Proof. unfold same_date. intuition congruence. Qed.

Lemma getTimeZone_date d buf i e r : getTimeZone d buf i e = Ok r -> same_date r d.
Proof.
  unfold getTimeZone. intros H. res_inv. destruct (_ =? _); res_inv; repeat split.
Qed.

Lemma findUTCSign_date buf : forall n d i d' s, findUTCSign_loop d buf i n = (d', s) -> same_date d' d.
Proof.
  induction n as [|n IH]; intros d i d' s H; cbn [findUTCSign_loop] in H; [injection H as <- _; auto|].
  destruct (indexOf_set _ _); [injection H as <- _; repeat split|eauto].
Qed.

Lemma getTime_rest_date d buf i e r : getTime_rest d buf i e = Ok r -> same_date r d.
Proof.
  unfold getTime_rest, findUTCSign. intros H.
  destruct (findUTCSign_loop _ _ _ _) as [d' s] eqn:E. apply findUTCSign_date in E. apply (same_date_trans r d' d); [|exact E]. clear E.
  res_inv. destruct (_ =? MILISECOND_SEPARATOR); res_inv; destruct s as [s|]; res_inv; try (repeat split; fail);
    (match type of H with (if ?b then _ else _) = _ => destruct b end); res_inv; try (repeat split; fail);
    apply getTimeZone_date in H; exact H.
Qed.

Lemma getTime_date d buf i e r : getTime d buf i e = Ok r -> same_date r d.
Proof.
  unfold getTime. intros H. res_inv. destruct (_ <=? _)%nat; [res_inv; repeat split|]. apply getTime_rest_date in H. exact H.
Qed.

Lemma month_step_valid y m : valid_month m -> exists y' m', month_step y m 1 = (y', m') /\ valid_month m'.
Proof.
  unfold valid_month. intros Hm. exists (fst (month_step y m 1)), (snd (month_step y m 1)).
  split; [now destruct (month_step y m 1)|].
  assert (Hc : In m [1; 2; 3; 4; 5; 6; 7; 8; 9; 10; 11; 12]) by (cbn; lia). cbn in Hc.
  repeat destruct Hc as [<-|Hc]; [vm_compute; split; discriminate..|contradiction].
Qed.

(** The loop over the days makes at most one round. *)
Lemma day_loop_32 y m d : valid_month m -> 1 <= d <= maxDayInMonthFor y m + 1 -> in_int y ->
  exists y' m' d', day_loop (day_fuel d) y m d = Some (y', m', d') /\ valid_date y' m' d'.
Proof.
  intros Hm Hd Hy. pose proof (maxDay_range y m) as Hr. unfold day_fuel. rewrite day_loop_unfold.
  replace (d <? 1) with false by lia. destruct (Z.ltb_spec (maxDayInMonthFor y m) d) as [Hgt|Hle].
  - replace (d -! maxDayInMonthFor y m) with 1 by (rewrite int32_small by int_lia; lia).
    assert (Hms : exists y' m', month_step y m 1 = (y', m') /\ valid_month m') by now apply month_step_valid.
    destruct Hms as (y' & m' & -> & Hm'). rewrite day_loop_unfold. cbn [Z.ltb Z.compare Pos.compare Pos.compare_cont].
    pose proof (maxDay_range y' m'). replace (maxDayInMonthFor y' m' <? 1) with false by lia.
    do 3 eexists. split; [reflexivity|]. split; [assumption|lia].
  - do 3 eexists. split; [reflexivity|]. split; [assumption|lia].
Qed.

Lemma validated_facts d : validated d = Ok d -> Type_ d = xs_dateTime ->
  CentYear d <> 0 /\ valid_month (Month d) /\ Day d <= maxDayInMonthFor (CentYear d) (Month d) /\ Day d <> 0 /\
  0 <= Hour d <= 24 /\ 0 <= Minute d < 60 /\ 0 <= Second d < 60 /\ (Hour d = 24 -> Minute d = 0 /\ Second d = 0).
Proof.
  unfold validated, validateDateTime, type_in, valid_month. intros H Ht. rewrite Ht in H. cbn [existsb orb Z.eqb xs_dateTime xs_date
    xs_gYear xs_gYearMonth xs_gMonth xs_gMonthDay xs_gDay Pos.eqb andb] in H.
  repeat match type of H with bind_res (if ?b then _ else _) _ = _ => destruct b eqn:?; [discriminate|] end. lia.
Qed.

Lemma parseInt_loop_in_int buf : forall n i acc v, in_int acc -> parseInt_loop buf i n acc = Ok v -> in_int v.
Proof.
  induction n as [|n IH]; intros i acc v Ha H; cbn [parseInt_loop] in H; [now injection H as <-|]. res_inv.
  eapply IH; [|eassumption]. apply int32_range.
Qed.

Lemma parseIntYear_in_int buf i e v : parseIntYear buf i e = Ok v -> in_int v.
Proof.
  unfold parseIntYear. intros H. res_inv. destruct (_ =? _); [apply int32_range|].
  apply parseInt_loop_in_int in Hb4; [assumption|int_lia].
Qed.

Lemma getDate_year d buf i e r p : getDate d buf i e = Ok (r, p) -> in_int (CentYear r) /\ Type_ r = Type_ d.
Proof.
  unfold getDate, getYearMonth. intros H. res_inv. destruct (indexOf _ _ _ _); [|discriminate]. res_inv.
  split; [|reflexivity]. eapply parseIntYear_in_int. eassumption.
Qed.

(** [res_inv] on a parser that does not run out of fuel. *)
Definition fueled {A} (r : res dt_exn A) : Prop := r <> Throw Out_of_fuel.

Lemma fueled_bind {A B} (c : res dt_exn A) (k : A -> res dt_exn B) :
  fueled c -> (forall a, c = Ok a -> fueled (k a)) -> fueled (bind_res c k).
Proof. unfold fueled. destruct c as [a|e]; cbn; [eauto|]. intros H _ [= ->]. now apply H. Qed.

Lemma fueled_rd buf i : fueled (rd buf i).
Proof. unfold fueled, rd. destruct (nth_error _ _); [discriminate|]. destruct (_ =? _)%nat; discriminate. Qed.

Lemma fueled_parseInt buf i j : fueled (parseInt buf i j).
Proof.
  unfold parseInt. generalize (j - i)%nat as n. intros n. generalize 0 as acc. revert i.
  induction n as [|n IH]; intros i acc; cbn [parseInt_loop]; [discriminate|].
  apply fueled_bind; [apply fueled_rd|intros c _]. destruct (negb _); cbn [require bind_res]; [apply IH|discriminate].
Qed.

Ltac fueled_step :=
  match goal with
  | |- fueled (Ok _) => discriminate
  | |- fueled (Throw FORG0001) => discriminate
  | |- fueled (require ?b) => destruct b; discriminate
  | |- fueled (rd _ _) => apply fueled_rd
  | |- fueled (parseInt _ _ _) => apply fueled_parseInt
  | |- fueled (bind_res _ _) => apply fueled_bind; [|intros ? ?]
  | |- fueled (match ?x with _ => _ end) => destruct x eqn:?
  end.

Lemma fueled_getTimeZone d buf i e : fueled (getTimeZone d buf i e).
Proof. unfold getTimeZone. repeat fueled_step. Qed.

Lemma fueled_getDate d buf i e : fueled (getDate d buf i e).
Proof. unfold getDate, getYearMonth, parseIntYear. repeat (fueled_step; cbn zeta). Qed.

Lemma fueled_getTime d buf i e : fueled (getTime d buf i e).
Proof. unfold getTime, getTime_rest. repeat (fueled_step; cbn zeta). all: apply fueled_getTimeZone. Qed.

Lemma validated_same d r : validated d = Ok r -> r = d.
Proof. unfold validated. intros H. res_inv. reflexivity. Qed.

(** The values [parseDateTime] has after validation. *)
Lemma weak_valid d : validated d = Ok d -> Type_ d = xs_dateTime -> 0 <= Day d -> in_int (CentYear d) ->
  exists r, normalizeDateTimeWeak d = Some r /\ valid_date (CentYear r) (Month r) (Day r) /\ time_canonical r /\
    second_ok r /\ Type_ r = xs_dateTime.
Proof.
  intros Hv Ht Hd Hy. destruct (validated_facts d Hv Ht) as (F1 & F2 & F3 & F4 & F5 & F6 & F7 & F8).
  pose proof (maxDay_range (CentYear d) (Month d)) as Hr. unfold normalizeDateTimeWeak, normalize_day.
  destruct (Z.eqb_spec (Hour d) 24) as [E|E]; dt_cbn.
  - rewrite (int32_small (Day d + 1)) by int_lia.
    destruct (day_loop_32 (CentYear d) (Month d) (Day d + 1)) as (y & m & dd & -> & Hvd); [assumption|lia|assumption|].
    eexists. split; [reflexivity|]. unfold time_canonical, second_ok. dt_cbn. repeat split; trivial; try lia; apply Hvd.
  - destruct (day_loop_32 (CentYear d) (Month d) (Day d)) as (y & m & dd & -> & Hvd); [assumption|lia|assumption|].
    eexists. split; [reflexivity|]. unfold time_canonical, second_ok. dt_cbn. repeat split; trivial; try lia; apply Hvd.
Qed.

(** What [parseDateTime] accepts is a date of the calendar with a time of day,
    and the loop over the days ends. *)
Lemma parseDateTime_valid buf :
  parseDateTime reset buf <> Throw Out_of_fuel /\
  (forall d, parseDateTime reset buf = Ok d ->
     valid_date (CentYear d) (Month d) (Day d) /\ time_canonical d /\ second_ok d /\ Type_ d = xs_dateTime).
Proof.
  unfold parseDateTime. destruct (handleWhitespace _ _ _) as [i e].
  destruct (getDate (set_Type xs_dateTime reset) buf i e) as [[d p]|x] eqn:E; cbn [bind_res];
    [|split; [intros [= ->]; now apply fueled_getDate in E|discriminate]].
  pose proof (getDate_day _ _ _ _ _ _ E) as Hday. apply getDate_year in E as [Hy Ht].
  destruct (rd buf p) as [c|x] eqn:Er; cbn [bind_res]; [|split; [intros [= ->]; now apply fueled_rd in Er|discriminate]].
  destruct (c =? DATETIME_SEPARATOR); cbn [require bind_res]; [|split; discriminate].
  destruct (getTime d buf (S p) e) as [d1|x] eqn:Et; cbn [bind_res]; [|split; [intros [= ->]; now apply fueled_getTime in Et|discriminate]].
  apply getTime_date in Et as (T1 & T2 & T3). destruct (validated d1) as [d2|x] eqn:Ev; cbn [bind_res].
  - pose proof (validated_same _ _ Ev) as ->. destruct (weak_valid d1 Ev) as (r & -> & Hr); [rewrite T2, Ht; reflexivity|lia|congruence|].
    cbn [of_option]. split; [discriminate|]. now intros d' [= <-].
  - split; [|discriminate]. intros [= ->]. revert Ev. unfold validated, validateDateTime.
    repeat match goal with |- context [if ?b then _ else _] => destruct b; [discriminate|] end. discriminate.
Qed.
