(* ===== verification/DateTimeLexical.v ===== *)
(** * Dates, times and durations: the interface to the texts

    What the printers and the parsers promise to their clients, for one type:
    a printable value has a text, and the parser of the type gives the value
    back.  The six types with a round trip are instances. *)

From Stdlib Require Import ZArith List Lia Bool.
From S2P Require Import Prelude DateTime DateTimeNorm DateTimeText DateTimeScan DateTimeRound DurationRound.
Import ListNotations.
Local Open Scope Z_scope.
Local Open Scope sedna_scope.

Class Lexical (type : Z) := {
  lx_ok : XMLDateTime -> Prop;
  lx_parse : XMLDateTime -> buffer -> res dt_exn XMLDateTime;
  lx_round : forall d, lx_ok d ->
    exists s, get_string_value d = Ok s /\ forall w, spaces w -> lx_parse reset (s ++ w) = Ok d
}.
Arguments lx_ok type {_} d.
Arguments lx_parse type {_} d buf.

#[export] Instance lexical_dateTime : Lexical xs_dateTime.
Proof.
  refine {| lx_ok := dateTime_ok; lx_parse := parseDateTime; lx_round := _ |}.
  intros d Hd. exists (printDateTime d). split.
  - unfold get_string_value, type_in. now rewrite (dto_type d Hd).
  - intros w Hw. apply (dateTime_round [] w d (Forall_nil _) Hw Hd).
Defined.

#[export] Instance lexical_date : Lexical xs_date.
Proof.
  refine {| lx_ok := date_ok; lx_parse := parseDate; lx_round := _ |}.
  intros d Hd. exists (date_text (CentYear d) (Month d) (Day d) ++ print_zone d). split.
  - unfold get_string_value, type_in. rewrite (dao_type d Hd). cbn. now rewrite printDate_eq.
  - intros w Hw. destruct (date_round [] w d (Forall_nil _) Hw Hd) as (s & E & H). rewrite printDate_eq in E by assumption.
    injection E as <-. exact H.
Defined.

#[export] Instance lexical_time : Lexical xs_time.
Proof.
  refine {| lx_ok := time_value_ok; lx_parse := parseTime; lx_round := _ |}.
  intros d Hd. exists (printTime d). split.
  - unfold get_string_value, type_in. now rewrite (tvo_type d Hd).
  - intros w Hw. apply (time_round [] w d (Forall_nil _) Hw Hd).
Defined.

#[export] Instance lexical_duration : Lexical xs_duration.
Proof.
  refine {| lx_ok := fun d => duration_ok d /\ Type_ d = xs_duration; lx_parse := parseDuration; lx_round := _ |}.
  intros d [Hd Ht]. exists (printDuration d). split; [unfold get_string_value, type_in; now rewrite Ht|].
  intros w Hw. now apply duration_round.
Defined.

#[export] Instance lexical_dayTimeDuration : Lexical xs_dayTimeDuration.
Proof.
  refine {| lx_ok := fun d => duration_ok d /\ Type_ d = xs_dayTimeDuration /\ CentYear d = 0 /\ Month d = 0;
     lx_parse := parseDayTimeDuration; lx_round := _ |}.
  intros d (Hd & Ht & Hy & Hm). exists (printDuration d). split; [unfold get_string_value, type_in; now rewrite Ht|].
  intros w Hw. now apply dayTimeDuration_round.
Defined.

#[export] Instance lexical_yearMonthDuration : Lexical xs_yearMonthDuration.
Proof.
  refine {| lx_ok := fun d => duration_ok d /\ Type_ d = xs_yearMonthDuration /\ only_months d;
     lx_parse := parseYearMonthDuration; lx_round := _ |}.
  intros d (Hd & Ht & Ho). exists (printDuration d). split; [unfold get_string_value, type_in; now rewrite Ht|].
  intros w Hw. now apply yearMonthDuration_round.
Defined.

Section Clients.
Context {type : Z} {L : Lexical type}.

Lemma lx_parse_print d : lx_ok type d -> exists s, get_string_value d = Ok s /\ lx_parse type reset s = Ok d.
Proof.
  intros Hd. destruct (lx_round d Hd) as (s & E & H). exists s. split; [exact E|].
  rewrite <- (app_nil_r s). apply H. constructor.
Qed.

(** Different values have different texts. *)
Lemma lx_injective d1 d2 : lx_ok type d1 -> lx_ok type d2 -> get_string_value d1 = get_string_value d2 -> d1 = d2.
Proof.
  intros H1 H2 E. destruct (lx_parse_print d1 H1) as (s1 & E1 & P1), (lx_parse_print d2 H2) as (s2 & E2 & P2).
  rewrite E1, E2 in E. injection E as <-. rewrite P1 in P2. now injection P2.
Qed.
End Clients.
