(* ===== verification/DateClaims.v ===== *)
(** * Dates, times and durations: the properties *)

From Stdlib Require Import Ascii String ZArith List Lia Bool.
From S2P Require Import Prelude DateTime DateTimeCal DateTimeNorm DateTimeText DateTimeScan DateTimeRound DurationRound DateTimeSafe DateTimeLexical.
Import ListNotations.
Local Open Scope Z_scope.
Local Open Scope sedna_scope.

(** 2004-02-29T23:30:05.5-05:45 *)
Definition leap_evening : XMLDateTime := mk_dt xs_dateTime 2004 2 29 23 30 5 50000 UTC_NEG 5 45.
(** -P1Y2M3DT4H5M6.7S *)
Definition long_ago : XMLDateTime := mk_dt xs_duration (-1) (-2) (-3) (-4) (-5) (-6) (-700) UTC_NEG 0 0.

(** [fields_lia] proves bounds of the fields of a given value. *)
Ltac fields_lia := vm_compute; repeat split; trivial; try discriminate; try (right; reflexivity); try (left; reflexivity).

(** C17: normalization ends and keeps the instant, for fields of at most 10^8
    in size, however far they are out of their ranges.  For a value of a type
    other than xs:date and xs:time, [normalizeDateTime] gives a date of the
    calendar and a time of day in UTC that stand for the same minute, with the
    same seconds and fraction.  An xs:date keeps its starting instant; the
    result has no time of day, its zone is expressed as an offset of less than
    24 hours west of UTC. *)
Theorem normalization_keeps_instant d :
  tiny_fields d ->
  (Type_ d <> xs_time -> Type_ d <> xs_date ->
   exists r, normalizeDateTime d = Some r /\ normal_form d r /\ utc r = UTC_STD /\ tz_hh r = 0 /\ tz_mm r = 0) /\
  (Type_ d = xs_date -> Hour d = 0 -> Minute d = 0 -> 0 <= tz_hh d < 24 -> 0 <= tz_mm d < 60 ->
   exists r, normalizeDateTime d = Some r /\ normal_form d r /\ Hour r = 0 /\ Minute r = 0 /\
     0 <= 60 * tz_hh r + tz_mm r < 1440 /\ (utc r = UTC_NEG \/ (tz_hh r = 0 /\ tz_mm r = 0))).
Proof. intros Hd. split; [now apply normalizeDateTime_spec|now apply normalizeDate_spec]. Qed.

Lemma normalization_keeps_instant_witness :
  (exists r, normalizeDateTime leap_evening = Some r /\ normal_form leap_evening r /\ utc r = UTC_STD /\ tz_hh r = 0 /\ tz_mm r = 0) /\
  (exists r, normalizeDateTime (mk_dt xs_date 2000 3 1 0 0 0 0 UTC_POS 13 20) = Some r /\ Day r = 29).
Proof.
  split; [apply (normalization_keeps_instant leap_evening); [fields_lia|discriminate|discriminate]|].
  destruct (normalization_keeps_instant (mk_dt xs_date 2000 3 1 0 0 0 0 UTC_POS 13 20)) as [_ H]; [fields_lia|].
  destruct H as (r & E & _); try reflexivity; try (cbn; lia).
  exists r. split; [exact E|]. vm_compute in E. injection E as <-. reflexivity.
Defined.

(** C28: [normalizeDuration] keeps the months and the seconds a duration
    stands for and brings months, hours, minutes and seconds into their ranges,
    all with the sign of the duration, for fields of at most 5*10^8 in size. *)
Theorem duration_normalization d :
  small_fields d ->
  let d' := normalizeDuration d in
  total_months d' = total_months d /\ total_seconds d' = total_seconds d /\
  MiliSecond d' = MiliSecond d /\ duration_canonical (sign_of d) d' /\ Type_ d' = Type_ d.
Proof. apply normalizeDuration_spec. Qed.

Lemma duration_normalization_witness :
  total_seconds (normalizeDuration (mk_dt xs_duration 0 25 (-3) 0 0 (-100000) 0 UTC_NEG 0 0)) = -359200.
Proof.
  destruct (duration_normalization (mk_dt xs_duration 0 25 (-3) 0 0 (-100000) 0 UTC_NEG 0 0)) as (_ & H & _); [fields_lia|].
  rewrite H. reflexivity.
Defined.

(** C20: [compare] on two dateTimes is the lexicographic order of the instants
    they stand for, whatever their zones, and of their fractions, provided the
    first value has a fraction or the second has none.  A first value without a
    fraction is compared by the instants alone: the fraction of the second one
    is then ignored. *)
Theorem compare_orders_instants l r :
  tiny_fields l -> tiny_fields r -> Type_ l = xs_dateTime -> Type_ r = xs_dateTime -> second_ok l -> second_ok r ->
  (MiliSecond l <> 0 \/ MiliSecond r = 0 -> compare l r = Some (instant_order l r)) /\
  (MiliSecond l = 0 -> compare l r = Some (Z.sgn (clock l - clock r))).
Proof. apply compare_dateTimes. Qed.

Lemma compare_orders_instants_witness :
  compare leap_evening (mk_dt xs_dateTime 2004 3 1 5 15 6 0 UTC_STD 0 0) = Some LESS_THAN /\
  compare (mk_dt xs_dateTime 2004 3 1 5 15 5 0 UTC_STD 0 0) leap_evening = Some EQUAL.
Proof.
  split.
  - rewrite (proj1 (compare_orders_instants leap_evening (mk_dt xs_dateTime 2004 3 1 5 15 6 0 UTC_STD 0 0)
      ltac:(fields_lia) ltac:(fields_lia) eq_refl eq_refl ltac:(fields_lia) ltac:(fields_lia))); [reflexivity|now left].
  - rewrite (proj2 (compare_orders_instants (mk_dt xs_dateTime 2004 3 1 5 15 5 0 UTC_STD 0 0) leap_evening
      ltac:(fields_lia) ltac:(fields_lia) eq_refl eq_refl ltac:(fields_lia) ltac:(fields_lia))); reflexivity.
Defined.

(** C21: a dateTime, a date and a time, printed and parsed again with any white
    space around them, give the same value, zone and fraction included.  The
    value is one of the calendar with a year other than 0 and hours below 24,
    and its zone is absent, Z or an offset other than zero; a value with the
    year 0 or the offset +00:00 does not come back. *)
Theorem calendar_print_parse w1 w2 d : spaces w1 -> spaces w2 ->
  (dateTime_ok d -> parseDateTime reset (w1 ++ printDateTime d ++ w2) = Ok d) /\
  (date_ok d -> exists s, printDate d = Some s /\ parseDate reset (w1 ++ s ++ w2) = Ok d) /\
  (time_value_ok d -> parseTime reset (w1 ++ printTime d ++ w2) = Ok d).
Proof. intros H1 H2. split; [now apply dateTime_round|]. split; [now apply date_round|now apply time_round]. Qed.

Lemma calendar_print_parse_witness :
  parseDateTime reset (text " 2004-02-29T23:30:05.5-05:45 ") = Ok leap_evening /\
  parseDate reset (text "-12004-02-28Z") = Ok (mk_dt xs_date (-12004) 2 28 0 0 0 0 UTC_STD 0 0) /\
  parseTime reset (text "23:59:59.01+14:00") = Ok (mk_dt xs_time 0 0 0 23 59 59 1000 UTC_POS 14 0).
Proof.
  split; [|split].
  - apply (calendar_print_parse [32] [32] leap_evening); [repeat constructor..|]. constructor; try reflexivity.
    + split; [discriminate|vm_compute; discriminate].
    + repeat split; vm_compute; discriminate.
    + repeat split; try (vm_compute; discriminate). right. repeat split; try (vm_compute; discriminate); [now right|now left].
  - destruct (calendar_print_parse [] [] (mk_dt xs_date (-12004) 2 28 0 0 0 0 UTC_STD 0 0)) as (_ & H & _); [constructor..|].
    destruct H as (s & E & H).
    + constructor; try reflexivity; try (repeat split; reflexivity).
      * split; [discriminate|vm_compute; discriminate].
      * repeat split; vm_compute; discriminate.
      * left. repeat split. now right.
    + rewrite app_nil_r in H. vm_compute in E. injection E as <-. exact H.
  - apply (calendar_print_parse [] [] (mk_dt xs_time 0 0 0 23 59 59 1000 UTC_POS 14 0)); [constructor..|]. constructor; try reflexivity.
    + repeat split.
    + repeat split; try (vm_compute; discriminate). right. repeat split; try (vm_compute; discriminate); left; reflexivity || discriminate.
Defined.

(** C24: a canonical duration of each of the three types, printed and parsed
    again (white space may follow), gives the same value. *)
Theorem duration_print_parse w d : spaces w -> duration_ok d ->
  (Type_ d = xs_duration -> parseDuration reset (printDuration d ++ w) = Ok d) /\
  (Type_ d = xs_dayTimeDuration -> CentYear d = 0 -> Month d = 0 -> parseDayTimeDuration reset (printDuration d ++ w) = Ok d) /\
  (Type_ d = xs_yearMonthDuration -> only_months d -> parseYearMonthDuration reset (printDuration d ++ w) = Ok d).
Proof.
  intros Hw Hok. split; [now apply duration_round|]. split; [now apply dayTimeDuration_round|now apply yearMonthDuration_round].
Qed.

Lemma duration_print_parse_witness : parseDuration reset (text "-P1Y2M3DT4H5M6.7S") = Ok long_ago.
Proof.
  assert (Hok : duration_ok long_ago) by (constructor; (now right) || discriminate || (vm_compute; split; trivial; discriminate)).
  apply (duration_print_parse [] long_ago (Forall_nil _) Hok). reflexivity.
Defined.

(** C25: on no buffer does a parser read behind the terminating NUL;
    [parseMonthDay] is the exception, see [date_divergences]. *)
Theorem parsers_stay_in_buffer d buf :
  Forall (fun r => r <> Throw Out_of_bounds)
    [parseDate d buf; parseTime d buf; parseDateTime d buf; parseDay d buf; parseMonth d buf; parseYear d buf;
     parseYearMonth d buf; parseDuration d buf; parseDayTimeDuration d buf; parseYearMonthDuration d buf].
Proof.
  repeat apply Forall_cons; try apply Forall_nil; [apply parseDate_safe|apply parseTime_safe|apply parseDateTime_safe|apply parseDay_safe
    |apply parseMonth_safe|apply parseYear_safe|apply parseYearMonth_safe|apply parseDuration_safe|apply parseDayTimeDuration_safe
    |apply parseYearMonthDuration_safe].
Qed.

(** C26: [parseDateTime] ends on every buffer, and what it accepts is a date
    of the calendar with a time of day below 24:00:00. *)
Theorem accepted_dateTime_valid buf :
  parseDateTime reset buf <> Throw Out_of_fuel /\
  (forall d, parseDateTime reset buf = Ok d ->
     valid_date (CentYear d) (Month d) (Day d) /\ time_canonical d /\ second_ok d /\ Type_ d = xs_dateTime).
Proof. apply parseDateTime_valid. Qed.

Lemma accepted_dateTime_valid_witness : exists d, parseDateTime reset (text "2004-02-28T24:00:00") = Ok d /\ valid_date (CentYear d) (Month d) (Day d).
Proof.
  exists (mk_dt xs_dateTime 2004 2 29 0 0 0 0 UTC_UNKNOWN 0 0). split; [reflexivity|].
  now apply (accepted_dateTime_valid (text "2004-02-28T24:00:00")).
Defined.

(** The packed forms in which dateTimes and durations are stored keep
    every value that fits their bit fields; for durations these are the
    canonical ones. *)
Theorem packed_forms_keep_value d :
  (fits_datetime d -> of_packed_datetime (getPackedDateTime d) (Type_ d) = d) /\
  (duration_ok d -> of_packed_duration (getPackedDuration d) (Type_ d) = d).
Proof. split; [apply packed_datetime|apply packed_duration]. Qed.

Lemma packed_forms_keep_value_witness :
  of_packed_datetime (getPackedDateTime leap_evening) xs_dateTime = leap_evening /\
  of_packed_duration (getPackedDuration long_ago) xs_duration = long_ago.
Proof.
  split; [apply (packed_forms_keep_value leap_evening)|apply (packed_forms_keep_value long_ago)].
  - fields_lia.
  - constructor; (now right) || discriminate || (vm_compute; split; trivial; discriminate).
Defined.

(** Where the code differs from the rules it quotes, by example.  [compare] is
    not antisymmetric: when the first value has no fraction the fraction of the
    second is not looked at; and [xs_dateTime_not_equal] holds for values that
    compare as equal.  The sign of a duration is lost after white space; a
    yearMonthDuration without numbers is accepted; a gMonthDay of two
    characters is read behind its end; ten digits of a fraction overflow; and
    24:00:00 at the end of the year -1 gives the year 0, whose text is
    rejected. *)
Example date_divergences :
  (exists l r, compare l r = Some EQUAL /\ compare r l = Some GREATER_THAN /\ xs_dateTime_not_equal l r = Some true) /\
  parseDuration reset (text " -P1Y") = parseDuration reset (text " P1Y") /\
  (exists d, parseYearMonthDuration reset (text "PYM") = Ok d) /\
  parseMonthDay reset (text "--") = Throw Out_of_bounds /\
  (exists d, parseTime reset (text "00:00:00.9999999999") = Ok d /\ MiliSecond d = 14100) /\
  (exists d, parseDateTime reset (text "-0001-12-31T24:00:00") = Ok d /\ CentYear d = 0 /\
     parseDateTime reset (printDateTime d) = Throw FORG0001).
Proof.
  split; [exists (mk_dt xs_dateTime 2001 1 1 0 0 0 0 UTC_STD 0 0), (mk_dt xs_dateTime 2001 1 1 0 0 0 50000 UTC_STD 0 0); repeat split|].
  split; [reflexivity|]. split; [eexists; vm_compute; reflexivity|]. split; [reflexivity|].
  split; eexists; split; [vm_compute; reflexivity|reflexivity|vm_compute; reflexivity|split; reflexivity].
Qed.

(** For each type with a lexical interface the text of a printable value
    tells it apart from every other one: two printable values with the same
    text are equal, although the printer drops trailing zeros of fractions and
    zero fields of durations. *)
Theorem texts_tell_values_apart type (L : Lexical type) d1 d2 :
  lx_ok type d1 -> lx_ok type d2 -> get_string_value d1 = get_string_value d2 -> d1 = d2.
Proof. apply lx_injective. Qed.

Lemma texts_tell_values_apart_witness : get_string_value long_ago <> get_string_value (set_MiliSecond (-70) long_ago).
Proof.
  intros E. apply (texts_tell_values_apart xs_duration _ long_ago (set_MiliSecond (-70) long_ago)) in E; [discriminate E| |];
    (split; [|reflexivity]; constructor; (now right) || discriminate || (vm_compute; split; trivial; discriminate)).
Defined.
