(* ===== verification/WuBase.v ===== *)
(** * Base of the version manager (src/kernel/sm/wu)

    Timestamps, addresses, error codes, and the monad of the functions of
    "wu": they return 1 or 0, leave their effects behind in both cases, and
    set a last error before they return 0. *)

From Stdlib Require Import ZArith List Lia Bool.
From stdpp Require Import base list.
From S2P Require Import Prelude.
Local Open Scope Z_scope.

(** ** Timestamps and addresses (common/wutypes.h) *)

Abbreviation XPTR := Z (only parsing).
Abbreviation LXPTR := Z (only parsing).
Abbreviation TIMESTAMP := Z (only parsing).

Definition TIMESTAMP_MIN : TIMESTAMP := 0x10000.
Definition TIMESTAMP_MAX : TIMESTAMP := 0xFFFFFFFFFFFF0000.
Definition INVALID_TIMESTAMP : TIMESTAMP := 0xFFFFFFFFFFFFFFFF.
Definition SN_LAST_COMMITED_VERSION_TIMESTAMP : TIMESTAMP := 1 + TIMESTAMP_MAX.
Definition SN_WORKING_VERSION_TIMESTAMP : TIMESTAMP := 2 + TIMESTAMP_MAX.

Definition IsValidTimestamp (ts : TIMESTAMP) : bool :=
  (TIMESTAMP_MIN <=? ts) && (ts <=? TIMESTAMP_MAX).

(** [ts++] on an unsigned 64-bit integer. *)
Definition u64 (z : Z) : Z := z mod 2 ^ 64.

Lemma IsValidTimestamp_spec ts :
  IsValidTimestamp ts = true <-> TIMESTAMP_MIN <= ts <= TIMESTAMP_MAX.
Proof. unfold IsValidTimestamp. rewrite andb_true_iff, !Z.leb_le. tauto. Qed.

Lemma invalid_not_valid : IsValidTimestamp INVALID_TIMESTAMP = false.
Proof. reflexivity. Qed.

(** [ts_lia]: linear arithmetic with the bounds of valid timestamps. *)
Ltac ts_lia :=
  unfold SN_LAST_COMMITED_VERSION_TIMESTAMP, SN_WORKING_VERSION_TIMESTAMP,
    TIMESTAMP_MIN, TIMESTAMP_MAX, INVALID_TIMESTAMP in *; lia.

(** ** Errors (wuerr.h)

    The codes that the modelled functions set; [ASSERTION] stands for a failed
    [assert] of a build with assertions (where a theorem is about release
    builds too, as for the clients, the flag [DEBUGI] decides), [UNDEFINED] for a read or write outside of an array or through a
    null pointer, [DIVERGES] for a loop that never ends, and [NO_ERROR_SET] for
    a function that returns 0 and leaves the last error as it was. *)
Inductive wuerr :=
| WUERR_GENERAL_ERROR
| WUERR_BAD_PARAMS
| WUERR_FUNCTION_INVALID_IN_THIS_STATE
| WUERR_SHUTDOWN_ERROR
| WUERR_PERS_DATA_VALIDATION_FAILED
| WUERR_SEDNA_EXCEPTION
| WUERR_NO_MEMORY
| WUERR_DEBUG_FUNCTION_UNAVAILABLE
| WUERR_BAD_TICKET
| WUERR_STATE_TABLE_MAX_ROW_SIZE_EXCEEDED
| WUERR_STATE_TABLE_MAX_NUMBER_OF_COLUMNS_EXCEEDED
| WUERR_STATE_TABLE_MAX_NUMBER_OF_COLUMNS_WITH_DEBUG_INFO_EXCEEDED
| WUERR_STATE_TABLE_BAD_ROW_ID
| WUERR_STATE_TABLE_FULL
| WUERR_BAD_CLIENT_ID
| WUERR_CLIENT_ID_ALREADY_IN_USE
| WUERR_MAX_NUMBER_OF_CLIENTS_EXCEEDED
| WUERR_CLIENT_ALREADY_MARKED_READY
| WUERR_CLIENT_ALREADY_MARKED_LEAVING
| WUERR_CLIENT_SET_ALREADY_UNLOCKED
| WUERR_CLIENT_SET_MAX_NUMBER_OF_LOCKS_EXCEEDED
| WUERR_CLIENT_SET_DEADLOCK_DETECTED
| WUERR_UNABLE_TO_UNREGISTER_CURRENT_CLIENT
| WUERR_UNABLE_TO_UNREGISTER_READY_CLIENT
| WUERR_UNABLE_TO_DISCARD_SNAPSHOT_IN_USE
| WUERR_UNABLE_TO_DISCARD_SPECIAL_SNAPSHOT
| WUERR_UNABLE_TO_USE_DAMAGED_SNAPSHOT
| WUERR_UNABLE_TO_DAMAGE_SNAPSHOT_IN_USE
| WUERR_SNAPSHOT_ALREADY_PERSISTENT
| WUERR_MAX_NUMBER_OF_SNAPSHOTS_EXCEEDED
| WUERR_NO_SNAPSHOT_WITH_THIS_TIMESTAMP
| WUERR_NO_SNAPSHOT_WITH_THIS_TYPE
| WUERR_NO_SNAPSHOTS_EXIST
| WUERR_SNAPSHOTS_ARE_READ_ONLY
| WUERR_BAD_TIMESTAMP
| WUERR_MAX_TIMESTAMP_VALUE_EXCEEDED
| WUERR_NO_APROPRIATE_VERSION
| WUERR_WORKING_VERSION_ALREADY_CREATED
| WUERR_WORKING_VERSION_CREATED_BY_ALLY
| WUERR_VERSIONS_DISABLED
| WUERR_BLOCK_NOT_IN_BUFFERS
| WUERR_VERSIONS_UNSUPPORTED_FOR_THIS_BLOCK_TYPE
| WUERR_UNEXPECTED_TRID_WR_A
| DIVERGES
| ASSERTION
| UNDEFINED
| NO_ERROR_SET.

#[export] Instance wuerr_eq_dec : EqDecision wuerr.
Proof. solve_decision. Defined.

(** ** Functions with success and last error

    [Done a s]: the function returned 1 with result [a]; [Failed e s]: it
    returned 0 and the last error is [e].  The state is kept in both cases. *)
Inductive outcome (S A : Type) : Type :=
| Done (a : A) (s : S)
| Failed (e : wuerr) (s : S).
Arguments Done {S A} a s.
Arguments Failed {S A} e s.

Definition wu (S A : Type) : Type := S -> outcome S A.

Definition wu_ret {S A} (a : A) : wu S A := fun s => Done a s.
Definition wu_fail {S A} (e : wuerr) : wu S A := fun s => Failed e s.

(** [if (!f()) {} else ...], and the chains [!f() || !g()]. *)
Definition wu_bind {S A B} (c : wu S A) (k : A -> wu S B) : wu S B :=
  fun s =>
    match c s with
    | Done a s => k a s
    | Failed e s => Failed e s
    end.

Definition wu_get {S} : wu S S := fun s => Done s s.
Definition wu_put {S} (s : S) : wu S unit := fun _ => Done tt s.
Definition wu_modify {S} (f : S -> S) : wu S unit := fun s => Done tt (f s).

(** A call whose result is not tested. *)
Definition wu_ignore {S A} (c : wu S A) : wu S unit :=
  fun s =>
    match c s with
    | Done _ s => Done tt s
    | Failed _ s => Done tt s
    end.

Notation "'do!' p '<-' c ';' k" :=
  (wu_bind c (fun p => k))
  (at level 100, p pattern, c at level 99, k at level 200, right associativity)
  : sedna_scope.
Definition out_state {S A} (o : outcome S A) : S :=
  match o with Done _ s => s | Failed _ s => s end.

(** [wu_lift get put c]: a function of a part of the state. *)
Definition wu_lift {S T A} (get : S -> T) (put : T -> S -> S) (c : wu T A) : wu S A :=
  fun s =>
    match c (get s) with
    | Done a t => Done a (put t s)
    | Failed e t => Failed e (put t s)
    end.

(** A function preserves [I] when it does on every outcome. *)
Definition wu_preserves {S A} (I : S -> Prop) (c : wu S A) : Prop :=
  forall s, I s -> I (out_state (c s)).

Lemma wu_bind_Done {S A B} (c : wu S A) (k : A -> wu S B) s b s' :
  wu_bind c k s = Done b s' <-> exists a s1, c s = Done a s1 /\ k a s1 = Done b s'.
Proof.
  unfold wu_bind. destruct (c s) as [a s1|e s1]; split.
  - eauto.
  - intros (a' & s2 & [= <- <-] & H); exact H.
  - discriminate.
  - intros (a' & s2 & H & _); discriminate.
Qed.

Lemma wu_bind_assoc {S A B C} (a : wu S A) (b : A -> wu S B) (k : B -> wu S C) s :
  wu_bind (wu_bind a b) k s = wu_bind a (fun x => wu_bind (b x) k) s.
Proof. unfold wu_bind. now destruct (a s). Qed.

Lemma bind_done {S A B} (c : wu S A) (k : A -> wu S B) s a s1 :
  c s = Done a s1 -> wu_bind c k s = k a s1.
Proof. unfold wu_bind. now intros ->. Qed.

Lemma bind_failed {S A B} (c : wu S A) (k : A -> wu S B) s e s1 :
  c s = Failed e s1 -> wu_bind c k s = Failed e s1.
Proof. unfold wu_bind. now intros ->. Qed.

Lemma preserves_bind {S A B} (I : S -> Prop) (c : wu S A) (k : A -> wu S B) :
  wu_preserves I c -> (forall a, wu_preserves I (k a)) -> wu_preserves I (wu_bind c k).
Proof.
  intros Hc Hk s Hs. unfold wu_bind. specialize (Hc s Hs).
  destruct (c s) as [a s1|e s1]; cbn in *; [now apply Hk|exact Hc].
Qed.

Lemma preserves_ret {S A} (I : S -> Prop) (a : A) : wu_preserves I (wu_ret a).
Proof. intros s Hs; exact Hs. Qed.

Lemma preserves_fail {S A} (I : S -> Prop) e : wu_preserves I (@wu_fail S A e).
Proof. intros s Hs; exact Hs. Qed.

Lemma preserves_get {S} (I : S -> Prop) : wu_preserves I (@wu_get S).
Proof. intros s Hs; exact Hs. Qed.

Lemma preserves_modify {S} (I : S -> Prop) (f : S -> S) :
  (forall s, I s -> I (f s)) -> wu_preserves I (wu_modify f).
Proof. intros H s Hs; now apply H. Qed.

Lemma preserves_ignore {S A} (I : S -> Prop) (c : wu S A) :
  wu_preserves I c -> wu_preserves I (wu_ignore c).
Proof. intros H s Hs. unfold wu_ignore. specialize (H s Hs). now destruct (c s). Qed.

(** [wu_inv] opens every successful sequence of calls in the context. *)
Ltac wu_inv :=
  repeat match goal with
  | H : wu_bind ?c ?k ?s = Done _ _ |- _ =>
      apply wu_bind_Done in H;
      let a := fresh "a" in let s1 := fresh "s" in let H1 := fresh "Hc" in
      destruct H as (a & s1 & H1 & H)
  | H : wu_ret _ _ = Done _ _ |- _ => unfold wu_ret in H
  | H : wu_get _ = Done _ _ |- _ => unfold wu_get in H
  | H : wu_put _ _ = Done _ _ |- _ => unfold wu_put in H
  | H : wu_modify _ _ = Done _ _ |- _ => unfold wu_modify in H
  | H : wu_fail _ _ = Done _ _ |- _ => discriminate H
  | H : Done _ _ = Done _ _ |- _ => injection H as H
  | H : Failed _ _ = Done _ _ |- _ => discriminate H
  end; subst.

Create HintDb wu.
#[export] Hint Resolve preserves_ret preserves_fail preserves_get preserves_ignore : wu.
