(* ===== verification/Snapshots.v ===== *)
(** * Snapshots: the list of snapshots and its chains of old versions

    Model of the helper functions of src/kernel/sm/wu/wusnapshots.cpp.  A
    snapshot has a timestamp, the timestamps of the transactions that were
    active when it was taken, and a chain of nodes of old versions: the first
    node of a chain holds the versions that belong to this snapshot only, the
    second node those that belong to this snapshot and to the one in front of
    it, and so on.

    Linked lists are lists: the pools of [InitSnapshotsList] give every node
    to one chain and every snapshot one place, and the code only moves them.
    A pointer to a snapshot is its position in the list. *)

From Stdlib Require Import ZArith List Lia Bool.
From stdpp Require Import base list.
From S2P Require Import Prelude WuBase.
Local Open Scope sedna_scope.
Local Open Scope Z_scope.

(** ** Data *)

Definition SN_SNAPSHOTS_COUNT : Z := 3.
Definition SN_BUFSZ : Z := 1024.
Definition SN_MAX_CLIENTS_COUNT : Z := 0x10000.
Definition SN_MAX_SNAPSHOTS_COUNT : Z := 0x100.

Definition SN_REGULAR_SNAPSHOT : Z := 0x01.
Definition SN_PERSISTENT_SNAPSHOT : Z := 0x02.
Definition SN_PREV_PERSISTENT_SNAPSHOT : Z := 0x04.
Definition SN_FUTURE_SNAPSHOT : Z := 0x10.

Record SnVersionEntry := mk_entry { lxptr : LXPTR; xptr : XPTR }.

Record SnGcNode := mk_node { entries : list SnVersionEntry; garbageCount : Z }.

Record SnSnapshot := mk_snapshot {
  timestamp : TIMESTAMP;
  active : list TIMESTAMP;        (* tsBegin .. tsEnd *)
  gcChain : list SnGcNode;
  type : Z;
  occupancy : Z;
  isDamaged : bool
}.

Record SnSnapshotsList := mk_snapshots {
  leading : list SnSnapshot;      (* from leadingSnapshot, by next *)
  ts_active : list TIMESTAMP;     (* tsBegin .. tsEnd *)
  nClientsMax : Z;
  nSnapshotsMax : Z;
  runawayCount : Z
}.

Definition set_leading l (s : SnSnapshotsList) : SnSnapshotsList :=
  mk_snapshots l (ts_active s) (nClientsMax s) (nSnapshotsMax s) (runawayCount s).
Definition set_ts_active l (s : SnSnapshotsList) : SnSnapshotsList :=
  mk_snapshots (leading s) l (nClientsMax s) (nSnapshotsMax s) (runawayCount s).
Definition set_runawayCount n (s : SnSnapshotsList) : SnSnapshotsList :=
  mk_snapshots (leading s) (ts_active s) (nClientsMax s) (nSnapshotsMax s) n.

Definition set_gcChain c (s : SnSnapshot) : SnSnapshot :=
  mk_snapshot (timestamp s) (active s) c (type s) (occupancy s) (isDamaged s).
Definition set_type t (s : SnSnapshot) : SnSnapshot :=
  mk_snapshot (timestamp s) (active s) (gcChain s) t (occupancy s) (isDamaged s).
Definition set_occupancy n (s : SnSnapshot) : SnSnapshot :=
  mk_snapshot (timestamp s) (active s) (gcChain s) (type s) n (isDamaged s).
Definition set_isDamaged b (s : SnSnapshot) : SnSnapshot :=
  mk_snapshot (timestamp s) (active s) (gcChain s) (type s) (occupancy s) b.

(** ** InitSnapshotsList, DestroySnapshotsList *)

Definition empty_node : SnGcNode := mk_node [] 0.

Definition init_snapshot (i : nat) : SnSnapshot :=
  mk_snapshot INVALID_TIMESTAMP [] (repeat empty_node (S i)) SN_FUTURE_SNAPSHOT 0 false.

Definition InitSnapshotsList (nClientsMaxParam nSnapshotsMaxParam : Z)
  : res wuerr SnSnapshotsList :=
  if (nClientsMaxParam <? 1) || (SN_MAX_CLIENTS_COUNT <? nClientsMaxParam)
     || (nSnapshotsMaxParam <? 1) || (SN_MAX_SNAPSHOTS_COUNT <? nSnapshotsMaxParam)
  then Throw WUERR_BAD_PARAMS
  else Ok (mk_snapshots (map init_snapshot (seq 0 (Z.to_nat nSnapshotsMaxParam))) []
             nClientsMaxParam nSnapshotsMaxParam 0).

Definition DestroySnapshotsList : SnSnapshotsList := mk_snapshots [] [] 0 0 0.

(** ** Lookup

    The results are positions: the ordinal of the code less one, and the
    previous element is the one at the position before. *)

Fixpoint GetSnapshotByTimestamp2 (hd : list SnSnapshot) (ts : TIMESTAMP)
  : option (nat * SnSnapshot) :=
  match hd with
  | [] => None
  | s :: hd =>
      if timestamp s =? ts then Some (O, s)
      else match GetSnapshotByTimestamp2 hd ts with
           | Some (n, s) => Some (S n, s)
           | None => None
           end
  end.

Definition GetSnapshotByTimestamp (snLst : SnSnapshotsList) (ts : TIMESTAMP) :=
  GetSnapshotByTimestamp2 (leading snLst) ts.

Fixpoint GetSnapshotByType2 (hd : list SnSnapshot) (typeMask : Z)
  : option (nat * SnSnapshot) :=
  match hd with
  | [] => None
  | s :: hd =>
      if negb (Z.land (type s) typeMask =? 0) then Some (O, s)
      else match GetSnapshotByType2 hd typeMask with
           | Some (n, s) => Some (S n, s)
           | None => None
           end
  end.

Definition GetSnapshotByType (snLst : SnSnapshotsList) (typeMask : Z) :=
  GetSnapshotByType2 (leading snLst) typeMask.

Definition GetCurrentSnapshot (snLst : SnSnapshotsList) : option (nat * SnSnapshot) :=
  GetSnapshotByType snLst (Z.lnot SN_FUTURE_SNAPSHOT).

(** The list from the current snapshot on, by [next]. *)
Definition from_current (snLst : SnSnapshotsList) : list SnSnapshot :=
  match GetCurrentSnapshot snLst with
  | Some (p, _) => drop p (leading snLst)
  | None => []
  end.

(** The node of a chain at an index: the last one when the index is out of
    bounds; no node only when the chain is empty. *)
Fixpoint GetGcNodeByIndex (hd : list SnGcNode) (index : nat) : option nat :=
  match hd with
  | [] => None
  | [_] => Some O
  | _ :: hd =>
      match index with
      | O => Some O
      | S index => option_map S (GetGcNodeByIndex hd index)
      end
  end.

(** ** Chains *)

Definition MergeNodesAppendReset (dest src : SnGcNode) : SnGcNode * SnGcNode :=
  (mk_node (entries dest ++ entries src) (garbageCount dest + garbageCount src),
   mk_node [] 0).

(** The node at [mergeIndex] is merged with the next one, which moves, empty,
    to the end of the chain. *)
Definition RotateGcChain (hd : list SnGcNode) (mergeIndex : nat) : res wuerr (list SnGcNode) :=
  match drop mergeIndex hd with
  | toMerge :: moved :: tl =>
      let '(toMerge, moved) := MergeNodesAppendReset toMerge moved in
      Ok (take mergeIndex hd ++ toMerge :: tl ++ [moved])
  | _ => Throw ASSERTION
  end.

(** The loop over the merged chain and the detached one. *)
Fixpoint merge_chains (merged gniter : list SnGcNode)
  : res wuerr (list SnGcNode * list SnGcNode) :=
  match merged, gniter with
  | m :: merged, g :: gniter =>
      let '(m, g) := MergeNodesAppendReset m g in
      let* (merged, gniter) := merge_chains merged gniter in
      Ok (m :: merged, g :: gniter)
  | [], [] => Ok ([], [])
  | _, _ => Throw ASSERTION
  end.

(** Every snapshot takes the first detached node at the end of its chain. *)
Fixpoint repair_chains (sns : list SnSnapshot) (detached : list SnGcNode)
  : res wuerr (list SnSnapshot) :=
  match sns with
  | [] => match detached with [] => Ok [] | _ :: _ => Throw ASSERTION end
  | sniter :: sns =>
      match detached with
      | [] => Throw ASSERTION
      | gniter :: detached =>
          let* sns := repair_chains sns detached in
          Ok (set_gcChain (gcChain sniter ++ [gniter]) sniter :: sns)
      end
  end.

(** [victim] is the position of the snapshot that is discarded; the snapshot
    before it is [beforeVictim], if any. *)
Definition RotateSnapshots (hd : list SnSnapshot) (victim : nat)
  : res wuerr (list SnSnapshot) :=
  match victim with
  | O => Ok hd
  | S before =>
      match drop before hd with
      | beforeVictim :: victim :: unaffected =>
          match gcChain victim with
          | [] => Throw UNDEFINED
          | first :: detached =>
              let* (merged, detached) := merge_chains (gcChain beforeVictim) detached in
              let beforeVictim := set_gcChain merged beforeVictim in
              let victim := set_gcChain [first] victim in
              let* front := repair_chains (take before hd ++ [beforeVictim]) detached in
              Ok (victim :: front ++ unaffected)
          end
      | _ => Throw UNDEFINED
      end
  end.

(** [RotateGcChain] on the snapshots after the victim. *)
Fixpoint rotate_after (i : nat) (iter : list SnSnapshot) : res wuerr (list SnSnapshot) :=
  match iter with
  | [] => Ok []
  | s :: iter =>
      let* c := RotateGcChain (gcChain s) i in
      let* iter := rotate_after (S i) iter in
      Ok (set_gcChain c s :: iter)
  end.

(** The fields of a victim before it becomes a future snapshot. *)
Definition reset_victim (node : SnGcNode) (s : SnSnapshot) : SnSnapshot :=
  mk_snapshot INVALID_TIMESTAMP []
    (match gcChain s with [] => [] | _ :: c => node :: c end) SN_FUTURE_SNAPSHOT 0 false.

(** ** Active timestamps *)

(** [std::lower_bound] on an ordered range: the elements before the first one
    that is not smaller, and the rest. *)
Fixpoint lower_bound (l : list TIMESTAMP) (ts : TIMESTAMP)
  : list TIMESTAMP * list TIMESTAMP :=
  match l with
  | [] => ([], [])
  | x :: l' =>
      if x <? ts then let '(a, b) := lower_bound l' ts in (x :: a, b) else ([], l)
  end.

(** [std::binary_search] on an ordered range. *)
Definition binary_search (l : list TIMESTAMP) (ts : TIMESTAMP) : bool :=
  match snd (lower_bound l ts) with
  | [] => false
  | x :: _ => negb (ts <? x)
  end.

Definition AddActiveTimestamp (snLst : SnSnapshotsList) (ts : TIMESTAMP)
  : res wuerr SnSnapshotsList :=
  if negb (IsValidTimestamp ts) then Throw WUERR_BAD_TIMESTAMP
  else if Z.of_nat (length (ts_active snLst)) =? nClientsMax snLst
  then Throw WUERR_MAX_NUMBER_OF_CLIENTS_EXCEEDED
  else Ok (set_ts_active (ts_active snLst ++ [ts]) snLst).

(** The function returns 0 in both cases, and its caller does not test it. *)
Definition RemoveActiveTimestamp (snLst : SnSnapshotsList) (ts : TIMESTAMP) : SnSnapshotsList :=
  match lower_bound (ts_active snLst) ts with
  | (before, x :: after) =>
      if x =? ts then set_ts_active (before ++ after) snLst else snLst
  | (_, []) => snLst
  end.

Definition IsVersionYoungerThanSnapshot (pSn : SnSnapshot) (ts : TIMESTAMP) : bool :=
  (timestamp pSn <? ts) || binary_search (active pSn) ts.

(** The snapshot in front of the current one that stands for the last
    committed versions. *)
Definition InitFakeHeadSnapshot (snLst : SnSnapshotsList) : SnSnapshot :=
  mk_snapshot SN_LAST_COMMITED_VERSION_TIMESTAMP (ts_active snLst) [] 0 0 false.

(** ** CreateSnapshot *)

Definition update_at (p : nat) (f : SnSnapshot -> SnSnapshot) (l : list SnSnapshot)
  : list SnSnapshot :=
  match l !! p with
  | Some s => <[p := f s]> l
  | None => l
  end.

Definition CreateSnapshot (snLst : SnSnapshotsList) (ts : TIMESTAMP) (ty : Z)
  : res wuerr SnSnapshotsList :=
  if negb (IsValidTimestamp ts) then Throw WUERR_BAD_TIMESTAMP
  else
    match leading snLst with
    | [] => Throw UNDEFINED
    | hd :: _ =>
        if negb (type hd =? SN_FUTURE_SNAPSHOT)
        then Throw WUERR_MAX_NUMBER_OF_SNAPSHOTS_EXCEEDED
        else
          let lastFutureSn :=
            match GetCurrentSnapshot snLst with
            | Some (S p, _) => p
            | _ => pred (length (leading snLst))
            end in
          match leading snLst !! lastFutureSn with
          | None => Throw UNDEFINED
          | Some sn =>
              let sn := mk_snapshot ts (ts_active snLst) (gcChain sn) ty 0 false in
              Ok (set_leading (<[lastFutureSn := sn]> (leading snLst)) snLst)
          end
    end.

(** ** Damaged snapshots *)

Definition damage_unused (s : SnSnapshot) : SnSnapshot :=
  if occupancy s =? 0 then set_isDamaged true s else s.

Definition AutoDamageSnapshotsAndScanForGarbage (snLst : SnSnapshotsList)
    (isKeepingCurrentSnapshot : bool) : SnSnapshotsList :=
  match GetCurrentSnapshot snLst with
  | None => snLst
  | Some (p, _) =>
      let p := if isKeepingCurrentSnapshot then S p else p in
      set_leading (take p (leading snLst) ++ map damage_unused (drop p (leading snLst))) snLst
  end.

Definition EnsureCanAdvanceSnapshots (snLst : SnSnapshotsList) : res wuerr bool :=
  let count := Z.of_nat (length (List.filter (fun s => negb (isDamaged s)) (from_current snLst))) in
  match leading snLst with
  | [] => Throw UNDEFINED
  | hd :: _ => Ok ((count <? SN_SNAPSHOTS_COUNT - 1) && (type hd =? SN_FUTURE_SNAPSHOT))
  end.

(** The loop of [SnDamageSnapshots]; a snapshot in use stops it. *)
Fixpoint damage_loop (timestampFrom : TIMESTAMP) (l : list SnSnapshot)
  : list SnSnapshot * bool :=
  match l with
  | [] => ([], true)
  | sniter :: l =>
      if timestamp sniter <=? timestampFrom then
        if 0 <? occupancy sniter then (sniter :: l, false)
        else
          let '(l, ok) := damage_loop timestampFrom l in
          (set_isDamaged true sniter :: l, ok)
      else
        let '(l, ok) := damage_loop timestampFrom l in
        (sniter :: l, ok)
  end.

(** ** Discarding snapshots

    [freeBlock] is the callback of [SnSetup] that frees the block of a
    version; [W] is the state it works on. *)

Section Discard.
Context {W : Type} (freeBlock : XPTR -> wu W unit).

(** The loop frees the blocks from the front; what is left stays. *)
Fixpoint purge_loop (l : list SnVersionEntry) (w : W) : list SnVersionEntry * outcome W unit :=
  match l with
  | [] => ([], Done tt w)
  | e :: l' =>
      match freeBlock (xptr e) w with
      | Done _ w => purge_loop l' w
      | Failed err w => (l, Failed err w)
      end
  end.

Definition PurgeVersions (pGn : SnGcNode) (w : W) : SnGcNode * outcome W unit :=
  match purge_loop (entries pGn) w with
  | (rest, Done _ w) => (mk_node rest 0, Done tt w)
  | (rest, Failed err w) => (mk_node rest (garbageCount pGn), Failed err w)
  end.

Definition set_first_node (n : SnGcNode) (s : SnSnapshot) : SnSnapshot :=
  set_gcChain (match gcChain s with [] => [] | _ :: c => n :: c end) s.

Definition DiscardSnapshot (ts : TIMESTAMP) : wu (SnSnapshotsList * W) unit := fun '(snLst, w) =>
  match GetSnapshotByTimestamp snLst ts with
  | None => Failed WUERR_NO_SNAPSHOT_WITH_THIS_TIMESTAMP (snLst, w)
  | Some (p, victim) =>
      if negb (type victim =? SN_REGULAR_SNAPSHOT)
      then Failed WUERR_UNABLE_TO_DISCARD_SPECIAL_SNAPSHOT (snLst, w)
      else if 0 <? occupancy victim
      then Failed WUERR_UNABLE_TO_DISCARD_SNAPSHOT_IN_USE (snLst, w)
      else
        match gcChain victim with
        | [] => Failed ASSERTION (snLst, w)
        | first :: _ =>
            match PurgeVersions first w with
            | (node, Failed err w) =>
                Failed err (set_leading (update_at p (set_first_node node) (leading snLst)) snLst, w)
            | (node, Done _ w) =>
                match rotate_after 0 (drop (S p) (leading snLst)) with
                | Throw err => Failed err (snLst, w)
                | Ok after =>
                    match RotateSnapshots
                            (take p (leading snLst) ++ reset_victim node victim :: after) p with
                    | Throw err => Failed err (snLst, w)
                    | Ok l => Done tt (set_leading l snLst, w)
                    end
                end
            end
        end
  end.

(** The loop of [PurifySnapshots] over the snapshots from [current] on, by
    their timestamps: [current] is advanced before the discarded snapshot
    moves to the front.  The callbacks wired by wu.cpp neither deny nor discard
    anything themselves. *)
Fixpoint purify_loop (current : list TIMESTAMP) : wu (SnSnapshotsList * W) unit :=
  match current with
  | [] => wu_ret tt
  | ts :: next => fun '(snLst, w) =>
      match GetSnapshotByTimestamp snLst ts with
      | None => Failed UNDEFINED (snLst, w)
      | Some (_, sn) =>
          if negb (occupancy sn =? 0) || negb (type sn =? SN_REGULAR_SNAPSHOT)
          then purify_loop next (snLst, w)
          else wu_bind (DiscardSnapshot ts) (fun _ => purify_loop next) (snLst, w)
      end
  end.

Definition PurifySnapshots (isKeepingCurrentSnapshot : bool) : wu (SnSnapshotsList * W) unit :=
  fun '(snLst, w) =>
  let current := from_current snLst in
  let current := if isKeepingCurrentSnapshot then tl current else current in
  wu_bind (purify_loop (map timestamp current))
    (fun _ => wu_modify (fun '(snLst, w) =>
       (AutoDamageSnapshotsAndScanForGarbage snLst isKeepingCurrentSnapshot, w)))
    (snLst, w).

(** ** Requests for garbage collection *)

Inductive request_type :=
| SN_REQUEST_NOP
| SN_REQUEST_DISCARD_VERSION
| SN_REQUEST_ADD_NORMAL_VERSION
| SN_REQUEST_ADD_BOGUS_VERSION.

Record SnRequestForGc := mk_request {
  rq_lxptr : LXPTR;
  rq_xptr : XPTR;
  anchorTs : TIMESTAMP;
  rq_type : request_type
}.

Definition ValidateRequestForGc (req : SnRequestForGc) : bool :=
  match rq_type req with
  | SN_REQUEST_NOP => true
  | SN_REQUEST_DISCARD_VERSION => negb (rq_xptr req =? 0)
  | SN_REQUEST_ADD_NORMAL_VERSION =>
      negb (rq_xptr req =? 0) && negb (rq_lxptr req =? 0)
      && (IsValidTimestamp (anchorTs req) || (anchorTs req =? INVALID_TIMESTAMP))
  | SN_REQUEST_ADD_BOGUS_VERSION =>
      negb (rq_xptr req =? 0)
      && (IsValidTimestamp (anchorTs req) || (anchorTs req =? INVALID_TIMESTAMP))
  end.

(** Where [SubmitRequestForGc] starts: a snapshot of the list, by its
    position, or the snapshot [infinipast], which has timestamp 0 and neither
    versions nor a successor. *)
Inductive entry_snapshot := AtSnapshot (p : nat) | Infinipast.

(** How many snapshots after the first one depend on the version. *)
Fixpoint dependent_level (next : list SnSnapshot) (anchor : TIMESTAMP) : nat :=
  match next with
  | [] => O
  | s :: next => if anchor <=? timestamp s then S (dependent_level next anchor) else O
  end.

(** The last snapshot that depends on the version, and the index of the node;
    [None] when no snapshot depends on it. *)
Definition find_dependent (snLst : SnSnapshotsList) (pSn : entry_snapshot) (anchor : TIMESTAMP)
  : option (entry_snapshot * nat) :=
  match pSn with
  | Infinipast => if 0 <? anchor then None else Some (Infinipast, O)
  | AtSnapshot p =>
      match drop p (leading snLst) with
      | [] => None
      | s :: next =>
          if timestamp s <? anchor then None
          else let level := dependent_level next anchor in
               Some (AtSnapshot (p + level)%nat, level)
      end
  end.

Definition push_entry (e : SnVersionEntry) (garbage : bool) (n : SnGcNode) : SnGcNode :=
  mk_node (entries n ++ [e]) (if garbage then garbageCount n + 1 else garbageCount n).

(** A new entry at the node of the chain. *)
Definition push_version (snLst : SnSnapshotsList) (p level : nat) (e : SnVersionEntry)
    (garbage : bool) : option SnSnapshotsList :=
  match leading snLst !! p with
  | None => None
  | Some s =>
      match GetGcNodeByIndex (gcChain s) level with
      | None => None
      | Some i =>
          match gcChain s !! i with
          | None => None
          | Some n =>
              let s := set_gcChain (<[i := push_entry e garbage n]> (gcChain s)) s in
              Some (set_leading (<[p := s]> (leading snLst)) snLst)
          end
      end
  end.

Definition is_add_normal (t : request_type) : bool :=
  match t with SN_REQUEST_ADD_NORMAL_VERSION => true | _ => false end.

Definition is_add_bogus (t : request_type) : bool :=
  match t with SN_REQUEST_ADD_BOGUS_VERSION => true | _ => false end.

(** [success = ImpFreeBlock(request.xptr)] *)
Definition free_version (x : XPTR) : wu (SnSnapshotsList * W) unit := fun '(snLst, w) =>
  match freeBlock x w with
  | Done _ w => Done tt (snLst, w)
  | Failed e w => Failed e (snLst, w)
  end.

Definition SubmitRequestForGc (pSn : entry_snapshot) (request : SnRequestForGc)
  : wu (SnSnapshotsList * W) unit := fun '(snLst, w) =>
  if negb (ValidateRequestForGc request) then Failed WUERR_BAD_PARAMS (snLst, w)
  else
    match rq_type request with
    | SN_REQUEST_NOP => Done tt (snLst, w)
    | ty =>
        match find_dependent snLst pSn (anchorTs request) with
        | None =>
            let snLst := if is_add_normal ty then set_runawayCount (runawayCount snLst + 1) snLst
                         else snLst in
            free_version (rq_xptr request) (snLst, w)
        | Some (last, level) =>
            match ty with
            | SN_REQUEST_DISCARD_VERSION => free_version (rq_xptr request) (snLst, w)
            | _ =>
                let entry := mk_entry (if is_add_bogus ty then 0 else rq_lxptr request)
                               (rq_xptr request) in
                match last with
                | Infinipast => Failed UNDEFINED (snLst, w)
                | AtSnapshot p =>
                    match push_version snLst p level entry (is_add_bogus ty) with
                    | None => Failed UNDEFINED (snLst, w)
                    | Some snLst => Done tt (snLst, w)
                    end
                end
            end
        end
    end.

(** [while (entrySn && entrySn->timestamp > currentSnapshotTs) entrySn = entrySn->next] *)
Fixpoint entry_loop (p : nat) (l : list SnSnapshot) (currentSnapshotTs : TIMESTAMP) : entry_snapshot :=
  match l with
  | [] => Infinipast
  | s :: l => if currentSnapshotTs <? timestamp s then entry_loop (S p) l currentSnapshotTs
              else AtSnapshot p
  end.

Definition find_entry (snLst : SnSnapshotsList) (versionsDisabled : bool)
    (currentSnapshotTs : TIMESTAMP) : entry_snapshot :=
  if versionsDisabled then Infinipast
  else
    match GetCurrentSnapshot snLst with
    | None => Infinipast
    | Some (p, _) => entry_loop p (drop p (leading snLst)) currentSnapshotTs
    end.

Fixpoint submit_all (pSn : entry_snapshot) (buf : list SnRequestForGc)
  : wu (SnSnapshotsList * W) unit :=
  match buf with
  | [] => wu_ret tt
  | r :: buf => wu_bind (SubmitRequestForGc pSn r) (fun _ => submit_all pSn buf)
  end.

Definition SnSubmitRequestForGc (versionsDisabled : bool) (currentSnapshotTs : TIMESTAMP)
    (buf : list SnRequestForGc) : wu (SnSnapshotsList * W) unit := fun '(snLst, w) =>
  if negb (IsValidTimestamp currentSnapshotTs) && negb (currentSnapshotTs =? INVALID_TIMESTAMP)
  then Failed WUERR_BAD_TIMESTAMP (snLst, w)
  else submit_all (find_entry snLst versionsDisabled currentSnapshotTs) buf (snLst, w).
End Discard.

(** ** Visiting the nodes *)

Section Visit.
Context {U : Type} (visitNodeProc : SnGcNode -> bool -> bool -> wu U unit).

Fixpoint visit_chain (x y pos : Z) (c : list SnGcNode) : wu U unit :=
  match c with
  | [] => wu_ret tt
  | n :: c =>
      wu_bind (visitNodeProc n ((pos <=? x) && (x - pos <=? y)) (0 <? y))
        (fun _ => visit_chain x (y + 1) pos c)
  end.

Fixpoint visit_snapshots (x pos : Z) (l : list SnSnapshot) : wu U unit :=
  match l with
  | [] => wu_ret tt
  | s :: l =>
      wu_bind (visit_chain x 0 pos (gcChain s)) (fun _ => visit_snapshots (x + 1) pos l)
  end.

Definition VisitNodes (snLst : SnSnapshotsList) (ts : TIMESTAMP) : wu U unit :=
  if ts =? INVALID_TIMESTAMP then visit_snapshots 0 INT_MAX (leading snLst)
  else
    match GetSnapshotByTimestamp snLst ts with
    | None => wu_fail WUERR_NO_SNAPSHOT_WITH_THIS_TIMESTAMP
    | Some (p, _) => visit_snapshots 0 (Z.of_nat p) (leading snLst)
    end.
End Visit.

Record SnInternalSnapshotStats := mk_stats {
  nVersions : Z;
  nGarbageVersions : Z;
  nSnapshotVersions : Z;
  nSnapshotGarbageVersions : Z;
  nSnapshotSharedVersions : Z;
  nSnapshotSharedGarbageVersions : Z
}.

Definition GatherInternalStatsProc (node : SnGcNode) (belongs shared : bool)
  : wu SnInternalSnapshotStats unit :=
  wu_modify (fun stats =>
    let n := Z.of_nat (length (entries node)) in
    let g := garbageCount node in
    let own := if belongs then 1 else 0 in
    let sh := if belongs && shared then 1 else 0 in
    mk_stats (nVersions stats + n) (nGarbageVersions stats + g)
      (nSnapshotVersions stats + own * n) (nSnapshotGarbageVersions stats + own * g)
      (nSnapshotSharedVersions stats + sh * n) (nSnapshotSharedGarbageVersions stats + sh * g)).

Definition GatherInternalStats (snLst : SnSnapshotsList) (ts : TIMESTAMP)
  : outcome SnInternalSnapshotStats unit :=
  VisitNodes GatherInternalStatsProc snLst ts (mk_stats 0 0 0 0 0 0).

(** ** Enumeration of the versions for a checkpoint

    [enumProc] receives the parameters, a buffer of entries and whether they
    are garbage. *)

Record SnEnumerateVersionsParams := mk_params {
  persSnapshotTs : TIMESTAMP;
  persVersionsCount : Z;
  garbageVersionsCount : Z;
  persVersionsSent : Z;
  garbageVersionsSent : Z
}.

Definition add_pers_sent n (p : SnEnumerateVersionsParams) : SnEnumerateVersionsParams :=
  mk_params (persSnapshotTs p) (persVersionsCount p) (garbageVersionsCount p)
    (persVersionsSent p + n) (garbageVersionsSent p).
Definition add_garbage_sent n (p : SnEnumerateVersionsParams) : SnEnumerateVersionsParams :=
  mk_params (persSnapshotTs p) (persVersionsCount p) (garbageVersionsCount p)
    (persVersionsSent p) (garbageVersionsSent p + n).

Record SnEnumerateVersionsBuf := mk_enum {
  bufferSz : nat;
  normalBuf : list SnVersionEntry;    (* the first normalCount entries *)
  garbageBuf : list SnVersionEntry;
  params : SnEnumerateVersionsParams
}.

Section Enumerate.
Context {U : Type}
  (enumProc : SnEnumerateVersionsParams -> list SnVersionEntry -> bool -> wu U unit).

Definition flush_normal (bFlushAll : bool) : wu (SnEnumerateVersionsBuf * U) unit := fun '(b, u) =>
  let normalCount := length (normalBuf b) in
  if (bFlushAll && negb (Nat.eqb normalCount 0)) || Nat.eqb normalCount (bufferSz b) then
    match enumProc (params b) (normalBuf b) false u with
    | Done _ u => Done tt (mk_enum (bufferSz b) [] (garbageBuf b)
                             (add_pers_sent (Z.of_nat normalCount) (params b)), u)
    | Failed e u => Failed e (b, u)
    end
  else Done tt (b, u).

Definition flush_garbage (bFlushAll : bool) : wu (SnEnumerateVersionsBuf * U) unit := fun '(b, u) =>
  let garbageCount := length (garbageBuf b) in
  if (bFlushAll && negb (Nat.eqb garbageCount 0)) || Nat.eqb garbageCount (bufferSz b) then
    match enumProc (params b) (garbageBuf b) true u with
    | Done _ u => Done tt (mk_enum (bufferSz b) (normalBuf b) []
                             (add_garbage_sent (Z.of_nat garbageCount) (params b)), u)
    | Failed e u => Failed e (b, u)
    end
  else Done tt (b, u).

Definition FlushEnumerateVersionsBuf (bFlushAll : bool) : wu (SnEnumerateVersionsBuf * U) unit :=
  wu_bind (flush_normal bFlushAll) (fun _ => flush_garbage bFlushAll).

Definition buffer_entry (entry : SnVersionEntry) (isGarbage : bool) (b : SnEnumerateVersionsBuf)
  : SnEnumerateVersionsBuf :=
  if isGarbage then mk_enum (bufferSz b) (normalBuf b) (garbageBuf b ++ [entry]) (params b)
  else mk_enum (bufferSz b) (normalBuf b ++ [entry]) (garbageBuf b) (params b).

Definition BufferVersionEntry (entry : SnVersionEntry) (isGarbage : bool)
  : wu (SnEnumerateVersionsBuf * U) unit := fun '(b, u) =>
  let full := Nat.eqb (length (if isGarbage then garbageBuf b else normalBuf b)) (bufferSz b) in
  wu_bind (if full then FlushEnumerateVersionsBuf false else wu_ret tt)
    (fun _ => wu_modify (fun '(b, u) => (buffer_entry entry isGarbage b, u))) (b, u).

Fixpoint buffer_entries (belongs : bool) (l : list SnVersionEntry)
  : wu (SnEnumerateVersionsBuf * U) unit :=
  match l with
  | [] => wu_ret tt
  | e :: l =>
      wu_bind (BufferVersionEntry e (negb belongs || (lxptr e =? 0)))
        (fun _ => buffer_entries belongs l)
  end.

Definition EnumerateVersionsForCheckpointProc (node : SnGcNode) (belongs shared : bool)
  : wu (SnEnumerateVersionsBuf * U) unit := buffer_entries belongs (entries node).

Definition SnGetSnapshotTimestamps_pers (snLst : SnSnapshotsList) : TIMESTAMP :=
  match GetSnapshotByType snLst SN_PERSISTENT_SNAPSHOT with
  | Some (_, s) => timestamp s
  | None => INVALID_TIMESTAMP
  end.

(** The result has the parameters as the last callback or the code left them. *)
Definition SnEnumerateVersionsForCheckpoint (snLst : SnSnapshotsList)
  : wu U SnEnumerateVersionsParams := fun u =>
  let persTs := SnGetSnapshotTimestamps_pers snLst in
  match GatherInternalStats snLst persTs with
  | Failed e _ => Failed e u
  | Done _ stats =>
      let pers := nSnapshotVersions stats - nSnapshotGarbageVersions stats in
      let params0 := mk_params persTs (u64 pers) (u64 (nVersions stats - u64 pers)) 0 0 in
      if nVersions stats =? 0 then
        match enumProc params0 [] false u with
        | Done _ u => Done params0 u
        | Failed e u => Failed e u
        end
      else
        match wu_bind (VisitNodes EnumerateVersionsForCheckpointProc snLst persTs)
                (fun _ => FlushEnumerateVersionsBuf true)
                (mk_enum (Z.to_nat (SN_BUFSZ / 2)) [] [] params0, u) with
        | Done _ (b, u) => Done (params b) u
        | Failed e (_, u) => Failed e u
        end
  end.
End Enumerate.

(** ** The header of a block against the snapshots *)

Definition SnGetSnapshotTimestamps_cur (versionsDisabled : bool) (snLst : SnSnapshotsList)
  : TIMESTAMP :=
  match GetCurrentSnapshot snLst with
  | Some (_, s) => if versionsDisabled then INVALID_TIMESTAMP else timestamp s
  | None => INVALID_TIMESTAMP
  end.

Definition SnGetDamagedTimestamps (snLst : SnSnapshotsList) : list TIMESTAMP :=
  map timestamp (List.filter isDamaged (from_current snLst)).

(** The arrays [tsOut] and [idOut] are a list of pairs.  An element that is
    removed is overwritten by its successor, and the index moves on: the
    successor is not inspected. *)
Fixpoint SnFilterOutDamaged (snLst : SnSnapshotsList) (out : list (TIMESTAMP * Z))
  : res wuerr (list (TIMESTAMP * Z)) :=
  match out with
  | [] => Ok []
  | (ts, id) :: rest =>
      if (ts =? SN_WORKING_VERSION_TIMESTAMP) || (ts =? SN_LAST_COMMITED_VERSION_TIMESTAMP) then
        let* rest := SnFilterOutDamaged snLst rest in Ok ((ts, id) :: rest)
      else
        match GetSnapshotByTimestamp snLst ts with
        | None => Throw WUERR_NO_SNAPSHOT_WITH_THIS_TIMESTAMP
        | Some (_, sn) =>
            if isDamaged sn then
              match rest with
              | [] => Ok []
              | next :: rest =>
                  let* rest := SnFilterOutDamaged snLst rest in Ok (next :: rest)
              end
            else
              let* rest := SnFilterOutDamaged snLst rest in Ok ((ts, id) :: rest)
        end
  end.

(** [tsInCur] and its index, moved over the versions younger than [sniter]. *)
Fixpoint skip_younger (sniter : SnSnapshot) (tsInCur : list TIMESTAMP) (id : Z)
  : list TIMESTAMP * Z :=
  match tsInCur with
  | [] => ([], id)
  | ts :: rest =>
      if IsValidTimestamp ts && IsVersionYoungerThanSnapshot sniter ts
      then skip_younger sniter rest (id + 1)
      else (tsInCur, id)
  end.

(** The records the main loop stores. *)
Fixpoint expand_loop (snaps : list SnSnapshot) (tsInCur : list TIMESTAMP) (id : Z)
  : res wuerr (list (TIMESTAMP * Z)) :=
  match snaps with
  | [] => Ok []
  | sniter :: next =>
      let '(tsInCur, id) := skip_younger sniter tsInCur id in
      match tsInCur with
      | [] => Ok []
      | ts :: _ =>
          if ts =? INVALID_TIMESTAMP then Ok []
          else if negb (IsValidTimestamp ts) then Throw WUERR_BAD_TIMESTAMP
          else
            let* out := expand_loop next tsInCur id in
            Ok ((timestamp sniter, id) :: out)
      end
  end.

Fixpoint drop_to_lc (out : list (TIMESTAMP * Z)) : list (TIMESTAMP * Z) :=
  match out with
  | [] => []
  | (ts, id) :: rest =>
      if ts =? SN_LAST_COMMITED_VERSION_TIMESTAMP then out else drop_to_lc rest
  end.

(** The timestamp of the last record of the run with the same version. *)
Fixpoint run_end (idLC : Z) (last : TIMESTAMP) (out : list (TIMESTAMP * Z)) : TIMESTAMP :=
  match out with
  | [] => last
  | (ts, id) :: rest => if id =? idLC then run_end idLC ts rest else last
  end.

Definition expand_anchor (versionsDisabled : bool) (snLst : SnSnapshotsList)
    (out : list (TIMESTAMP * Z)) : TIMESTAMP :=
  match drop_to_lc out with
  | [] => INVALID_TIMESTAMP
  | (ts, idLC) :: rest =>
      let anchor := run_end idLC ts rest in
      if anchor =? SN_LAST_COMMITED_VERSION_TIMESTAMP
      then u64 (SnGetSnapshotTimestamps_cur versionsDisabled snLst + 1)
      else anchor
  end.

(** [szOut] is the room in the buffers; the result has the records and the
    anchor.  With [isTotalAnchor] the record before the first one is read when
    there are none. *)
Definition SnExpandDfvHeader (versionsDisabled : bool) (snLst : SnSnapshotsList)
    (tsIn : list TIMESTAMP) (szOut : nat) (isTotalAnchor : bool)
  : res wuerr (list (TIMESTAMP * Z) * TIMESTAMP) :=
  let fakeHead := InitFakeHeadSnapshot snLst in
  let* out :=
    match tsIn with
    | [] => Ok []
    | ts :: _ =>
        if ts =? INVALID_TIMESTAMP then Ok []
        else if negb (IsValidTimestamp ts) then Throw WUERR_BAD_TIMESTAMP
        else
          let* out := expand_loop (fakeHead :: from_current snLst) tsIn 0 in
          Ok (if IsVersionYoungerThanSnapshot fakeHead ts
              then (SN_WORKING_VERSION_TIMESTAMP, 0) :: out else out)
    end in
  if (szOut <? length out)%nat then Throw WUERR_GENERAL_ERROR
  else
    let anchor := expand_anchor versionsDisabled snLst out in
    if isTotalAnchor then
      match last out with
      | None => Throw UNDEFINED
      | Some (ts, _) =>
          Ok (out, if (ts =? SN_LAST_COMMITED_VERSION_TIMESTAMP)
                      || (ts =? SN_WORKING_VERSION_TIMESTAMP) then anchor else ts)
      end
    else Ok (out, anchor).

(** [SnDamageSnapshots]: the list is changed up to the snapshot that stops
    the loop. *)
Definition SnDamageSnapshots (versionsDisabled : bool) (snLst : SnSnapshotsList)
    (timestampFrom : TIMESTAMP) : outcome SnSnapshotsList unit :=
  if negb (IsValidTimestamp timestampFrom) then Failed WUERR_BAD_TIMESTAMP snLst
  else if versionsDisabled then Failed WUERR_VERSIONS_DISABLED snLst
  else
    match GetCurrentSnapshot snLst with
    | None => Done tt snLst
    | Some (p, _) =>
        let '(l, ok) := damage_loop timestampFrom (drop p (leading snLst)) in
        let snLst := set_leading (take p (leading snLst) ++ l) snLst in
        if ok then Done tt snLst else Failed WUERR_UNABLE_TO_DAMAGE_SNAPSHOT_IN_USE snLst
    end.
