(* ===== verification/SnGc.v ===== *)
(** * Ownership of old versions

    What the chains of the snapshots mean: every pushed version belongs to a
    set of snapshots, those from its node's snapshot on towards newer ones.
    Discarding a snapshot takes it out of all these sets, frees exactly the
    versions that belonged to it alone, and keeps all others. *)

From Stdlib Require Import ZArith List Lia Bool.
From stdpp Require Import base list sets.
From S2P Require Import Prelude WuBase Snapshots.
Local Open Scope sedna_scope.
Local Open Scope Z_scope.

(** ** Ownership, declaratively *)

(** A version with the timestamps of the snapshots it belongs to. *)
Definition owned_version : Type := SnVersionEntry * list TIMESTAMP.

(** The non-empty prefixes of a list, the shortest first. *)
Fixpoint prefixes {A} (l : list A) : list (list A) :=
  match l with
  | [] => []
  | x :: l => [x] :: map (cons x) (prefixes l)
  end.

Fixpoint own_nodes (owners : list (list TIMESTAMP)) (c : list SnGcNode) : list owned_version :=
  match owners, c with
  | o :: owners, n :: c => map (fun e => (e, o)) (entries n) ++ own_nodes owners c
  | _, _ => []
  end.

(** [prev] are the timestamps of the snapshots in front, the nearest first. *)
Fixpoint owned_from (prev : list TIMESTAMP) (l : list SnSnapshot) : list owned_version :=
  match l with
  | [] => []
  | s :: l => own_nodes (prefixes (timestamp s :: prev)) (gcChain s)
              ++ owned_from (timestamp s :: prev) l
  end.

Definition owned (snLst : SnSnapshotsList) : list owned_version := owned_from [] (leading snLst).

(** The chain of the i-th snapshot has i+1 nodes. *)
Fixpoint shape (k : nat) (l : list SnSnapshot) : Prop :=
  match l with
  | [] => True
  | s :: l => length (gcChain s) = S k /\ shape (S k) l
  end.

(** A snapshot without its chain. *)
Definition bare (s : SnSnapshot) : SnSnapshot := set_gcChain [] s.

Lemma bare_timestamps l l' : map bare l' = map bare l -> map timestamp l' = map timestamp l.
Proof.
  intros H. apply (f_equal (map timestamp)) in H. rewrite !map_map in H. exact H.
Qed.

(** The effect of a discard on one version. *)
Definition disown (ts : TIMESTAMP) (v : owned_version) : option owned_version :=
  match List.filter (fun t => negb (t =? ts)) (snd v) with
  | [] => None
  | o => Some (fst v, o)
  end.

Definition orphaned (ts : TIMESTAMP) (v : owned_version) : bool :=
  match disown ts v with None => true | Some _ => false end.

(** ** Prefixes *)

Lemma prefixes_app {A} (l1 l2 : list A) :
  prefixes (l1 ++ l2) = prefixes l1 ++ map (app l1) (prefixes l2).
Proof.
  induction l1 as [|x l1 IH]; cbn; [by rewrite map_id|].
  by rewrite IH, map_app, map_map.
Qed.

Lemma prefixes_length {A} (l : list A) : length (prefixes l) = length l.
Proof. induction l as [|x l IH]; cbn; [done|]. by rewrite length_map, IH. Qed.

Lemma prefixes_snoc {A} (l : list A) x : prefixes (l ++ [x]) = prefixes l ++ [l ++ [x]].
Proof. by rewrite prefixes_app. Qed.

Lemma prefixes_cons_last {A} (x : A) l :
  exists ps, prefixes (x :: l) = ps ++ [x :: l] /\ length ps = length l.
Proof.
  induction l as [|y l' _] using rev_ind.
  - exists []; done.
  - exists (prefixes (x :: l')). split.
    + change (x :: l' ++ [y]) with ((x :: l') ++ [y]). apply prefixes_snoc.
    + rewrite prefixes_length, length_app. cbn; lia.
Qed.

Lemma prefixes_sub {A} (l : list A) o : o ∈ prefixes l -> o <> [] /\ o ⊆ l.
Proof.
  revert o; induction l as [|x l IH]; intros o; cbn; [by intros ?%elem_of_nil|].
  intros [->|H]%elem_of_cons.
  - split; [done|]. intros y ->%list_elem_of_singleton. left.
  - apply list_elem_of_fmap in H as (q & -> & Hq). destruct (IH q Hq) as [_ Hs].
    split; [done|]. intros y [->|Hy]%elem_of_cons; [left|right; auto].
Qed.

(** ** Nodes with their owners *)

Lemma own_nodes_app os1 os2 c1 c2 :
  length os1 = length c1 ->
  own_nodes (os1 ++ os2) (c1 ++ c2) = own_nodes os1 c1 ++ own_nodes os2 c2.
Proof.
  revert c1; induction os1 as [|o os1 IH]; intros [|n c1] H; cbn in *; try done.
  rewrite <- app_assoc. f_equal. apply IH. lia.
Qed.

Lemma own_nodes_empty os n : own_nodes os (repeat empty_node n) = [].
Proof. revert os; induction n as [|n IH]; intros [|o os]; cbn; auto. Qed.

(** More owners than nodes change nothing. *)
Lemma own_nodes_prefix os os' c :
  (length c <= length os)%nat -> own_nodes (os ++ os') c = own_nodes os c.
Proof.
  revert c; induction os as [|o os IH]; intros [|n c] H; cbn in *; try done; try lia.
  - by destruct os'.
  - f_equal. apply IH. lia.
Qed.

Lemma own_nodes_snoc_empty os c :
  length os = S (length c) -> own_nodes os (c ++ [empty_node]) = own_nodes os c.
Proof.
  revert c; induction os as [|o os IH]; intros [|n c] H; cbn in *; try lia.
  - by destruct os.
  - f_equal. apply IH. lia.
Qed.

Definition loses (ts : TIMESTAMP) (o o' : list TIMESTAMP) : Prop :=
  List.filter (fun t => negb (t =? ts)) o = o' /\ o' <> [].

Lemma loses_same ts o : ts ∉ o -> o <> [] -> loses ts o o.
Proof.
  intros H Hne. split; [|done]. induction o as [|x o IH]; [done|]. cbn.
  apply not_elem_of_cons in H as [Hx Ho].
  destruct (Z.eqb_spec x ts); [congruence|]. cbn. f_equal.
  destruct o; [done|]. by apply IH.
Qed.

Lemma loses_app ts o1 o1' o2 : loses ts o1 o1' -> ts ∉ o2 -> loses ts (o1 ++ o2) (o1' ++ o2).
Proof.
  intros [H1 H2] Ho. split; [|by destruct o1'].
  rewrite List.filter_app, H1. f_equal.
  destruct o2 as [|y o2]; [done|]. by apply loses_same.
Qed.

Lemma disown_nodes ts os os' c :
  Forall2 (loses ts) os os' -> omap (disown ts) (own_nodes os c) = own_nodes os' c.
Proof.
  intros H; revert c; induction H as [|o o' os os' [Hf Hne] H IH]; intros [|n c]; cbn; try done.
  rewrite omap_app, IH. f_equal.
  induction (entries n) as [|e l IHl]; cbn; [done|].
  unfold disown at 1. cbn. rewrite Hf. destruct o'; [done|]. by rewrite IHl.
Qed.

Lemma loses_same_list ts os :
  Forall (fun o : list Z => (ts ∉ o) /\ o <> []) os -> Forall2 (loses ts) os os.
Proof. induction 1 as [|o os [H1 H2] _ IH]; constructor; auto using loses_same. Qed.

Lemma prefixes_keep ts l : ts ∉ l -> Forall (fun o : list Z => (ts ∉ o) /\ o <> []) (prefixes l).
Proof.
  intros H. apply Forall_forall. intros o Ho.
  destruct (prefixes_sub l o Ho) as [Hne Hs]. split; [|done]. intros Hin. by apply H, Hs.
Qed.

(** ** Merging *)

Lemma merge_chains_ok c1 c2 :
  length c1 = length c2 ->
  exists m, merge_chains c1 c2 = Ok (m, repeat empty_node (length c1)) /\ length m = length c1
    /\ forall os, own_nodes os m ≡ₚ own_nodes os c1 ++ own_nodes os c2.
Proof.
  revert c2; induction c1 as [|n c1 IH]; intros [|n' c2] H; cbn in *; try done.
  - exists []. repeat split; auto. by intros [].
  - destruct (IH c2) as (m & Hm & Hl & Hp); [lia|]. rewrite Hm. cbn.
    eexists. split; [reflexivity|]. split; [cbn; lia|]. intros [|o os]; cbn; [done|].
    rewrite map_app, Hp. solve_Permutation.
Qed.

(** ** The snapshots after the victim *)

(** The chain of a snapshot [t] with [A] between it and the victim [v]. *)
Lemma rotate_chain_ok t (A B : list TIMESTAMP) v c :
  length c = S (length A + S (length B)) -> v <> t -> v ∉ A -> v ∉ B ->
  exists c', RotateGcChain c (length A) = Ok c' /\ length c' = length c
    /\ own_nodes (prefixes (t :: A ++ B ++ [INVALID_TIMESTAMP])) c'
       = omap (disown v) (own_nodes (prefixes (t :: A ++ v :: B)) c).
Proof.
  intros Hlen Ht HA HB. unfold RotateGcChain.
  assert (Hd : length (drop (length A) c) = S (S (length B))) by (rewrite length_drop; lia).
  destruct (drop (length A) c) as [|a [|b tl]] eqn:Ec; cbn in Hd; try lia.
  assert (Hc : c = take (length A) c ++ a :: b :: tl) by (by rewrite <- Ec, take_drop).
  assert (Hk : length (take (length A) c) = length A) by (rewrite length_take; lia).
  eexists. split; [reflexivity|]. split; [rewrite Hc at 2; rewrite !length_app; cbn; rewrite length_app; cbn; lia|].
  destruct (prefixes_cons_last t A) as (ps & Hps & Hlps).
  change (t :: A ++ B ++ [INVALID_TIMESTAMP]) with ((t :: A) ++ B ++ [INVALID_TIMESTAMP]).
  change (t :: A ++ v :: B) with ((t :: A) ++ v :: B). rewrite Hc at 2.
  rewrite !prefixes_app, Hps, <- !app_assoc. cbn [prefixes map].
  rewrite !own_nodes_app by lia. cbn [own_nodes app].
  change (mk_node [] 0) with empty_node.
  rewrite (own_nodes_snoc_empty _ tl) by (rewrite length_map, length_app, prefixes_length; cbn; lia).
  rewrite map_app, own_nodes_prefix by (rewrite length_map, prefixes_length; lia).
  rewrite !omap_app. cbn [entries MergeNodesAppendReset fst snd]. rewrite map_app, <- app_assoc.
  assert (Hlose : forall q, v ∉ q -> loses v ((t :: A) ++ v :: q) ((t :: A) ++ q)).
  { intros q Hq. split; [|done]. rewrite List.filter_app.
    assert (H1 : loses v (t :: A) (t :: A)) by (apply loses_same; [by apply not_elem_of_cons|done]).
    destruct H1 as [-> _]. f_equal. cbn. rewrite Z.eqb_refl. cbn.
    destruct q as [|y q]; [done|]. by apply (loses_same v (y :: q)). }
  assert (Hsame : loses v (t :: A) (t :: A)) by (apply loses_same; [by apply not_elem_of_cons|done]).
  assert (Hp : Forall2 (loses v) ps ps).
  { apply loses_same_list. assert (H : v ∉ t :: A) by (by apply not_elem_of_cons).
    apply prefixes_keep in H. rewrite Hps in H. by apply Forall_app in H as [H _]. }
  assert (Hone : forall o o' (l : list SnVersionEntry), loses v o o' ->
            omap (disown v) (map (fun e => (e, o)) l) = map (fun e => (e, o')) l).
  { intros o o' l Ho. assert (H := disown_nodes v [o] [o'] [mk_node l 0]). cbn in H.
    rewrite !app_nil_r in H. apply H. by constructor. }
  assert (Hv : loses v (t :: A ++ [v]) (t :: A)).
  { assert (H := Hlose [] ltac:(apply not_elem_of_nil)). by rewrite app_nil_r in H. }
  rewrite (disown_nodes v ps ps) by done.
  rewrite (Hone (t :: A) (t :: A)), (Hone (t :: A ++ [v]) (t :: A)) by done.
  f_equal. f_equal. f_equal. symmetry. apply disown_nodes.
  rewrite map_map. apply Forall2_fmap_2, Forall_Forall2_diag, Forall_forall.
  intros q Hq. apply prefixes_sub in Hq as [_ Hq]. apply Hlose. intros Hin. by apply HB, Hq.
Qed.

Lemma rotate_after_ok v (B : list TIMESTAMP) l : forall A,
  shape (length A + S (length B)) l -> v ∉ A -> v ∉ B -> v ∉ map timestamp l ->
  exists l', rotate_after (length A) l = Ok l'
    /\ shape (length A + S (length B)) l'
    /\ map bare l' = map bare l
    /\ owned_from (A ++ B ++ [INVALID_TIMESTAMP]) l' = omap (disown v) (owned_from (A ++ v :: B) l).
Proof.
  induction l as [|s l IH]; intros A Hs HA HB Hl; [exists []; done|].
  destruct Hs as [Hlen Hs]. cbn in Hl. apply not_elem_of_cons in Hl as [Hv Hl].
  destruct (rotate_chain_ok (timestamp s) A B v (gcChain s)) as (c & Hc & Hcl & Ho); [lia|done|done|done|].
  destruct (IH (timestamp s :: A)) as (l' & Hl' & Hs' & Ht & Ho'); [done|by apply not_elem_of_cons|done|done|].
  cbn [length] in Hl'. cbn [rotate_after]. rewrite Hc. cbn [bind_res]. rewrite Hl'. cbn [bind_res].
  eexists. split; [reflexivity|]. cbn. split; [split; [lia|done]|]. split; [by rewrite Ht|].
  rewrite omap_app. f_equal; done.
Qed.

(** ** The snapshots in front of the victim *)

Lemma shape_app k l1 l2 : shape k (l1 ++ l2) <-> shape k l1 /\ shape (k + length l1) l2.
Proof.
  revert k; induction l1 as [|s l1 IH]; intros k; cbn.
  - rewrite Nat.add_0_r. tauto.
  - rewrite IH. replace (S k + length l1)%nat with (k + S (length l1))%nat by lia. tauto.
Qed.

Lemma owned_from_app prev l1 l2 :
  owned_from prev (l1 ++ l2) = owned_from prev l1 ++ owned_from (rev (map timestamp l1) ++ prev) l2.
Proof.
  revert prev; induction l1 as [|s l1 IH]; intros prev; cbn; [done|].
  rewrite IH, <- !app_assoc. done.
Qed.

(** A snapshot put in front of all others, with nothing in the nodes that
    reach to it. *)
Lemma repair_ok l : forall prev x,
  shape (length prev) l ->
  exists l', repair_chains l (repeat empty_node (length l)) = Ok l'
    /\ shape (S (length prev)) l' /\ map bare l' = map bare l
    /\ owned_from (prev ++ [x]) l' = owned_from prev l.
Proof.
  induction l as [|s l IH]; intros prev x Hs; [exists []; done|]. destruct Hs as [Hlen Hs].
  destruct (IH (timestamp s :: prev) x Hs) as (l' & Hl' & Hs' & Ht & Ho).
  cbn [repeat length repair_chains]. rewrite Hl'. cbn [bind_res]. eexists. split; [reflexivity|].
  cbn. split; [split; [rewrite length_app; cbn; lia|done]|]. split; [by rewrite Ht|].
  f_equal; [|exact Ho]. clear IH Hl' Hs' Ht Ho.
  change (own_nodes (prefixes ((timestamp s :: prev) ++ [x])) (gcChain s ++ [empty_node])
          = own_nodes (prefixes (timestamp s :: prev)) (gcChain s)).
  rewrite prefixes_app, (own_nodes_snoc_empty _ (gcChain s)).
  - apply own_nodes_prefix. rewrite prefixes_length. cbn. lia.
  - rewrite length_app, length_map, !prefixes_length. cbn. lia.
Qed.

(** ** DiscardSnapshot *)

Lemma omap_id {A} (f : A -> option A) (l : list A) : (forall x, x ∈ l -> f x = Some x) -> omap f l = l.
Proof.
  induction l as [|x l IH]; intros H; [done|]. cbn. rewrite (H x) by left. f_equal.
  apply IH. intros y Hy. apply H. by right.
Qed.

Lemma own_nodes_owner os c e o : (e, o) ∈ own_nodes os c -> o ∈ os.
Proof.
  revert c; induction os as [|q os IH]; intros [|n c]; cbn; try by intros ?%elem_of_nil.
  intros [H|H]%elem_of_app; [|right; eauto].
  apply list_elem_of_fmap in H as (e' & [= -> ->] & _). left.
Qed.

Lemma owned_from_owner l : forall prev e o, (e, o) ∈ owned_from prev l ->
  o <> [] /\ o ⊆ map timestamp l ++ prev.
Proof.
  induction l as [|s l IH]; intros prev e o; cbn [owned_from map]; [by intros ?%elem_of_nil|].
  intros [H|H]%elem_of_app.
  - apply own_nodes_owner, prefixes_sub in H as [Hn Hs]. split; [done|].
    intros t Ht. apply Hs in Ht. set_solver.
  - apply IH in H as [Hn Hs]. split; [done|]. intros t Ht. apply Hs in Ht. set_solver.
Qed.

Lemma disown_other ts prev l :
  ts ∉ map timestamp l -> ts ∉ prev -> omap (disown ts) (owned_from prev l) = owned_from prev l.
Proof.
  intros Hl Hp. apply omap_id. intros [e o] H. apply owned_from_owner in H as [Hn Hs].
  unfold disown. cbn. destruct (loses_same ts o) as [Hf _]; [|done|].
  - intros Hin. apply Hs, elem_of_app in Hin. tauto.
  - rewrite Hf. by destruct o.
Qed.

(** The rotation of the victim to the front: the versions of [before] and of
    the victim end up in the chain of [before]. *)
Lemma rotate_front_ok front before chain v :
  shape 0 (front ++ [before]) -> length chain = S (length front) ->
  v ∉ map timestamp (front ++ [before]) ->
  exists front' detached merged,
    merge_chains (gcChain before) chain = Ok (merged, detached)
    /\ repair_chains (front ++ [set_gcChain merged before]) detached = Ok front'
    /\ shape 1 front' /\ map bare front' = map bare (front ++ [before])
    /\ owned_from [INVALID_TIMESTAMP] front'
       ≡ₚ owned_from [] (front ++ [before])
          ++ omap (disown v) (own_nodes (map (cons v)
               (prefixes (rev (map timestamp (front ++ [before]))))) chain).
Proof.
  intros Hs Hc Hv. apply shape_app in Hs as [Hs [Hb _]]. cbn in Hb.
  destruct (merge_chains_ok (gcChain before) chain) as (m & Hm & Hml & Hp); [lia|].
  destruct (repair_ok (front ++ [set_gcChain m before]) [] INVALID_TIMESTAMP)
    as (front' & Hr & Hs' & Ht & Ho).
  { apply shape_app. cbn. repeat split; [done|lia]. }
  rewrite length_app in Hr. cbn in Hr. rewrite Nat.add_1_r, <- Hb in Hr.
  exists front', (repeat empty_node (length (gcChain before))), m.
  split; [done|]. split; [done|]. split; [done|].
  split; [by rewrite Ht, !map_app|]. cbn [app] in Ho. rewrite Ho. clear Hr Hs' Ht Ho.
  rewrite !owned_from_app. cbn [owned_from gcChain set_gcChain timestamp].
  rewrite !app_nil_r, Hp, <- app_assoc, map_app, rev_app_distr. cbn [map rev app].
  do 2 f_equiv. rewrite (disown_nodes _ _ (prefixes (timestamp before :: rev (map timestamp front)))); [done|].
  apply Forall2_fmap_l, Forall_Forall2_diag.
  rewrite map_app, not_elem_of_app in Hv. destruct Hv as [Hv1 Hv2].
  assert (H : v ∉ timestamp before :: rev (map timestamp front)).
  { rewrite not_elem_of_cons, list_elem_of_In, <- in_rev, <- list_elem_of_In. cbn in Hv2. rewrite list_elem_of_singleton in Hv2. done. }
  eapply Forall_impl; [exact (prefixes_keep _ _ H)|]. intros o [Ho1 Ho2]. split; [|done].
  cbn. rewrite Z.eqb_refl. cbn. by apply loses_same.
Qed.

Lemma owned_from_own l : forall prev e o, (e, o) ∈ owned_from prev l ->
  exists t, t ∈ map timestamp l /\ t ∈ o.
Proof.
  induction l as [|s l IH]; intros prev e o; cbn [owned_from map]; [by intros ?%elem_of_nil|].
  intros [H|H]%elem_of_app.
  - exists (timestamp s). split; [left|]. apply own_nodes_owner in H. cbn in H.
    apply elem_of_cons in H as [->|H]; [left|]. apply list_elem_of_fmap in H as (q & -> & _). left.
  - apply IH in H as (t & Ht & Ho). exists t. split; [by right|done].
Qed.

Lemma orphaned_false ts e o t : t ∈ o -> t <> ts -> orphaned ts (e, o) = false.
Proof.
  intros Ht Hne. unfold orphaned, disown. cbn.
  destruct (List.filter (fun t => negb (t =? ts)) o) eqn:E; [|done].
  assert (H : In t (List.filter (fun t => negb (t =? ts)) o)).
  { apply filter_In. split; [by apply list_elem_of_In|]. by apply negb_true_iff, Z.eqb_neq. }
  rewrite E in H. destruct H.
Qed.

Lemma filter_none {A} (f : A -> bool) (l : list A) :
  (forall x, x ∈ l -> f x = false) -> List.filter f l = [].
Proof.
  induction l as [|x l IH]; intros H; [done|]. cbn. rewrite (H x) by left.
  apply IH. intros y Hy. apply H. by right.
Qed.

Lemma filter_all {A} (f : A -> bool) (l : list A) :
  (forall x, x ∈ l -> f x = true) -> List.filter f l = l.
Proof.
  induction l as [|x l IH]; intros H; [done|]. cbn. rewrite (H x) by left. f_equal.
  apply IH. intros y Hy. apply H. by right.
Qed.

(** The versions of a list of snapshots [F], the victim and the rest. *)
Section Victim.
Context (F after : list SnSnapshot) (victim : SnSnapshot) (first : SnGcNode) (detached : list SnGcNode).
Context (Hchain : gcChain victim = first :: detached).
Context (HF : timestamp victim ∉ map timestamp F) (Hafter : timestamp victim ∉ map timestamp after).
Abbreviation v := (timestamp victim).
Abbreviation B := (rev (map timestamp F)).

Lemma victim_owned :
  owned_from [] (F ++ victim :: after)
  = owned_from [] F ++ map (fun e => (e, [v])) (entries first)
    ++ own_nodes (map (cons v) (prefixes B)) detached ++ owned_from (v :: B) after.
Proof.
  rewrite owned_from_app, app_nil_r. cbn [owned_from]. rewrite Hchain. cbn [prefixes own_nodes].
  by rewrite <- app_assoc.
Qed.

Lemma not_in_B : v ∉ B.
Proof. rewrite list_elem_of_In, <- in_rev, <- list_elem_of_In. exact HF. Qed.

Lemma victim_orphans :
  List.filter (orphaned v) (owned_from [] (F ++ victim :: after))
  = map (fun e => (e, [v])) (entries first).
Proof.
  rewrite victim_owned, !List.filter_app.
  rewrite (filter_none _ (owned_from [] F)), (filter_all _ (map _ _)), (filter_none _ (own_nodes _ _)),
    (filter_none _ (owned_from _ after)); [by rewrite !app_nil_r| | | |].
  - intros [e o] H. apply owned_from_own in H as (t & Ht & Ho). apply (orphaned_false _ _ _ t); [done|].
    by intros ->.
  - intros [e o] H. apply own_nodes_owner, list_elem_of_fmap in H as (q & -> & Hq).
    apply prefixes_sub in Hq as [Hne Hs]. destruct q as [|t q]; [done|].
    apply (orphaned_false _ _ _ t); [right; left|]. intros ->. apply not_in_B, Hs. left.
  - intros [e o] H. apply list_elem_of_fmap in H as (e' & [= -> ->] & _).
    unfold orphaned, disown. cbn. by rewrite Z.eqb_refl.
  - intros [e o] H. apply owned_from_own in H as (t & Ht & Ho). apply (orphaned_false _ _ _ t); [done|].
    by intros ->.
Qed.

Lemma victim_disowned :
  omap (disown v) (owned_from [] (F ++ victim :: after))
  = owned_from [] F ++ omap (disown v) (own_nodes (map (cons v) (prefixes B)) detached)
    ++ omap (disown v) (owned_from (v :: B) after).
Proof.
  rewrite victim_owned, !omap_app, disown_other by (done || apply not_elem_of_nil). f_equal.
  assert (H : omap (disown v) (map (fun e => (e, [v])) (entries first)) = []); [|by rewrite H].
  induction (entries first) as [|e l IH]; cbn; [done|]. unfold disown at 1. cbn.
  by rewrite Z.eqb_refl.
Qed.

End Victim.

(** The rotated list, and what it owns. *)
Lemma discard_list_ok F after victim first detached node :
  gcChain victim = first :: detached ->
  timestamp victim ∉ map timestamp F -> timestamp victim ∉ map timestamp after ->
  shape 0 (F ++ victim :: after) -> entries node = [] ->
  exists after' l',
    rotate_after 0 after = Ok after'
    /\ RotateSnapshots (F ++ reset_victim node victim :: after') (length F)
       = Ok (mk_snapshot INVALID_TIMESTAMP [] [node] SN_FUTURE_SNAPSHOT 0 false :: l')
    /\ map bare l' = map bare (F ++ after)
    /\ shape 1 l'
    /\ owned_from [] (mk_snapshot INVALID_TIMESTAMP [] [node] SN_FUTURE_SNAPSHOT 0 false :: l')
       ≡ₚ omap (disown (timestamp victim)) (owned_from [] (F ++ victim :: after)).
Proof.
  intros Hchain HF Hafter Hs Hn. apply shape_app in Hs as (HsF & Hv & Hsa). cbn in Hv, Hsa.
  rewrite Hchain in Hv. cbn in Hv.
  destruct (rotate_after_ok (timestamp victim) (rev (map timestamp F)) after []) as (after' & Ha & Hsa' & Hba & Hoa).
  { cbn. rewrite length_rev, length_map. done. } { apply not_elem_of_nil. } { by apply not_in_B. } { done. }
  cbn in Ha, Hoa. exists after'. rewrite (victim_disowned _ _ _ _ _ Hchain), <- Hoa by done.
  destruct F as [|bf F0 _] using rev_ind.
  - exists after'. split; [done|]. unfold reset_victim. rewrite Hchain. cbn.
    destruct detached as [|d ds]; cbn in Hv; [|lia]. repeat split; try done. cbn. rewrite Hn. done.
  - rewrite length_app in Hv. cbn in Hv.
    destruct (rotate_front_ok F0 bf detached (timestamp victim)) as (F' & det & mg & Hm & Hr & Hs' & Hb & Ho); [done|lia|done|].
    exists (F' ++ after'). split; [done|]. unfold RotateSnapshots.
    rewrite length_app. cbn [length]. rewrite Nat.add_1_r, <- app_assoc, drop_app_length. cbn [app].
    unfold reset_victim. rewrite Hchain. cbn [gcChain]. rewrite Hm. cbn [bind_res].
    rewrite take_app_length, Hr. cbn [bind_res]. split; [done|].
    split; [by rewrite map_app, Hb, Hba, <- map_app|]. split.
    { apply shape_app. split; [done|].
      assert (HlF : length F' = S (length F0)).
      { apply (f_equal length) in Hb. rewrite !length_map, length_app in Hb. cbn in Hb. lia. }
      rewrite HlF. revert Hsa'. cbn. rewrite length_rev, length_map, length_app. cbn.
      by rewrite Nat.add_1_r. }
    cbn [owned_from timestamp gcChain prefixes own_nodes map app]. rewrite Hn. cbn [map app].
    rewrite owned_from_app, Ho, (bare_timestamps _ _ Hb), <- !app_assoc. done.
Qed.

(** ** Freed blocks *)

Section Frees.
Context {W : Type} (freeBlock : XPTR -> wu W unit).

(** The blocks are freed one after the other, and every call succeeds. *)
Inductive frees : W -> list XPTR -> W -> Prop :=
| frees_nil w : frees w [] w
| frees_cons w x w1 l w2 : freeBlock x w = Done tt w1 -> frees w1 l w2 -> frees w (x :: l) w2.

Lemma purge_loop_spec l w :
  exists freed rest w1, l = freed ++ rest /\ frees w (map xptr freed) w1
    /\ ((rest = [] /\ purge_loop freeBlock l w = ([], Done tt w1))
        \/ (exists e rest' err w2, rest = e :: rest' /\ freeBlock (xptr e) w1 = Failed err w2
            /\ purge_loop freeBlock l w = (rest, Failed err w2))).
Proof.
  revert w; induction l as [|e l IH]; intros w; cbn.
  - exists [], [], w. repeat split; [constructor|by left].
  - destruct (freeBlock (xptr e) w) as [[] w0|err w0] eqn:E.
    + destruct (IH w0) as (f & r & w1 & -> & Hf & Hr). exists (e :: f), r, w1.
      split; [done|]. split; [by econstructor|done].
    + exists [], (e :: l), w. split; [done|]. split; [constructor|]. right. eauto 10.
Qed.

Lemma lookup_by_timestamp l ts p s :
  GetSnapshotByTimestamp2 l ts = Some (p, s) ->
  l = take p l ++ s :: drop (S p) l /\ length (take p l) = p /\ timestamp s = ts
  /\ ts ∉ map timestamp (take p l).
Proof.
  revert p s; induction l as [|x l IH]; intros p s; cbn; [done|].
  destruct (Z.eqb_spec (timestamp x) ts) as [He|He].
  - intros [= <- <-]. cbn. repeat split; [done|apply not_elem_of_nil].
  - destruct (GetSnapshotByTimestamp2 l ts) as [[n s']|] eqn:E; [|done]. intros [= <- <-].
    destruct (IH n s' eq_refl) as (H1 & H2 & H3 & H4). cbn. repeat split; [by f_equal|lia|done|].
    apply not_elem_of_cons. split; congruence.
Qed.

(** What a discard of a regular snapshot without readers does. *)
Lemma discard_cases snLst w ts p victim :
  shape 0 (leading snLst) ->
  GetSnapshotByTimestamp snLst ts = Some (p, victim) ->
  type victim = SN_REGULAR_SNAPSHOT -> occupancy victim = 0 ->
  ts ∉ map timestamp (drop (S p) (leading snLst)) ->
  exists first detached freed rest w1,
    gcChain victim = first :: detached /\ entries first = freed ++ rest
    /\ frees w (map xptr freed) w1
    /\ map fst (List.filter (orphaned ts) (owned snLst)) = entries first
    /\ ((rest = []
         /\ exists l', DiscardSnapshot freeBlock ts (snLst, w)
              = Done tt (set_leading (mk_snapshot INVALID_TIMESTAMP [] [empty_node] SN_FUTURE_SNAPSHOT 0 false :: l')
                           snLst, w1)
            /\ map bare l' = map bare (take p (leading snLst) ++ drop (S p) (leading snLst))
            /\ shape 1 l'
            /\ owned_from [] (mk_snapshot INVALID_TIMESTAMP [] [empty_node] SN_FUTURE_SNAPSHOT 0 false :: l')
               ≡ₚ omap (disown ts) (owned snLst))
        \/ (exists e rest' err w2, rest = e :: rest' /\ freeBlock (xptr e) w1 = Failed err w2
            /\ DiscardSnapshot freeBlock ts (snLst, w)
               = Failed err (set_leading (update_at p (set_first_node (mk_node rest (garbageCount first)))
                                            (leading snLst)) snLst, w2))).
Proof.
  intros Hs Hg Hty Hoc Hd. destruct (lookup_by_timestamp _ _ _ _ Hg) as (Hl & Hp & Hts & Hf).
  assert (Hs' := Hs). rewrite Hl in Hs'. apply shape_app in Hs' as (_ & Hlen & _).
  destruct (gcChain victim) as [|first detached] eqn:Hc; [cbn in Hlen; lia|].
  destruct (purge_loop_spec (entries first) w) as (freed & rest & w1 & He & Hfr & Hr).
  exists first, detached, freed, rest, w1. do 3 (split; [done|]).
  assert (Hord := victim_orphans (take p (leading snLst)) (drop (S p) (leading snLst)) victim first detached Hc).
  rewrite Hts, <- Hl in Hord. unfold owned. rewrite Hord by done.
  split; [rewrite map_map; apply map_id|].
  unfold DiscardSnapshot. rewrite Hg, Hty, Hoc, Hc. cbn [negb Z.eqb SN_REGULAR_SNAPSHOT Pos.eqb Z.ltb Z.compare].
  unfold PurgeVersions.
  destruct Hr as [[-> Hr]|(e & rest' & err & w2 & -> & Hfb & Hr)]; rewrite Hr; [left|right; eauto 10].
  split; [done|].
  destruct (discard_list_ok (take p (leading snLst)) (drop (S p) (leading snLst)) victim first detached empty_node)
    as (after' & l' & Ha & Hro & Hb & Hsh & Ho); try done.
  { by rewrite Hts. } { by rewrite Hts. } { by rewrite <- Hl. }
  exists l'. rewrite Ha. change (mk_node [] 0) with empty_node. rewrite Hp in Hro. rewrite Hro.
  rewrite Hts, <- Hl in Ho. done.
Qed.
End Frees.
