(* ===== verification/SnApi.v ===== *)
(** * The interface of the snapshots

    Model of the public functions of src/kernel/sm/wu/wusnapshots.cpp, with
    the clock of wu.cpp ([WuGetTimestamp]).  The state has the list of
    snapshots, the clock, the state block of the current client (none when
    [ClGetCurrentStateBlock] fails) and the state of the callbacks. *)

From Stdlib Require Import ZArith List Lia Bool.
From stdpp Require Import base list.
From S2P Require Import Prelude WuBase Snapshots.
Local Open Scope sedna_scope.
Local Open Scope Z_scope.

Definition SN_UPDATER_TRANSACTION : Z := 1.
Definition SN_READ_ONLY_TRANSACTON : Z := 2.
Definition SN_COMPLETED_TRANSACTION : Z := 3.

(** The union of [snapshotTs], [clientTs] and [timestamp] is one field. *)
Record SnClientState := mk_client { cl_timestamp : TIMESTAMP; statusAndType : Z }.

(** A row of the state table is zeroed when it is vacated. *)
Definition zero_client : SnClientState := mk_client 0 0.

Record sn_state (W : Type) := mk_sn {
  snapshots : SnSnapshotsList;
  clock : TIMESTAMP;
  block : option SnClientState;
  world : W
}.
Arguments mk_sn {W}.
Arguments snapshots {W}.
Arguments clock {W}.
Arguments block {W}.
Arguments world {W}.

Section Api.
Context {W : Type} (versionsDisabled : bool) (freeBlock : XPTR -> wu W unit).
Abbreviation M := (wu (sn_state W)).

Definition set_snapshots l (s : sn_state W) : sn_state W := mk_sn l (clock s) (block s) (world s).
Definition set_clock t (s : sn_state W) : sn_state W := mk_sn (snapshots s) t (block s) (world s).
Definition set_block b (s : sn_state W) : sn_state W := mk_sn (snapshots s) (clock s) (Some b) (world s).

(** A function on the list and the state of the callbacks. *)
Definition on_snapshots {A} (c : wu (SnSnapshotsList * W) A) : M A :=
  wu_lift (fun s => (snapshots s, world s))
    (fun '(l, w) s => mk_sn l (clock s) (block s) w) c.

(** A pure change of the list that may fail. *)
Definition on_list (f : SnSnapshotsList -> res wuerr SnSnapshotsList) : M unit := fun s =>
  match f (snapshots s) with
  | Ok l => Done tt (set_snapshots l s)
  | Throw e => Failed e s
  end.

Definition WuGetTimestamp : M TIMESTAMP := fun s =>
  if negb (IsValidTimestamp (clock s)) then Failed WUERR_MAX_TIMESTAMP_VALUE_EXCEEDED s
  else Done (clock s) (set_clock (u64 (clock s + 1)) s).

Definition ImpGetCurrentStateBlock : M SnClientState := fun s =>
  match block s with
  | None => Failed WUERR_STATE_TABLE_BAD_ROW_ID s
  | Some b => Done b s
  end.

Definition put_state (b : SnClientState) : M unit := wu_modify (set_block b).

(** [current->occupancy++] on the snapshot at a position. *)
Definition add_occupancy (d : Z) (p : nat) (l : SnSnapshotsList) : SnSnapshotsList :=
  set_leading (update_at p (fun s => set_occupancy (occupancy s + d) s) (leading l)) l.

(** [ImpGetTimestamp(&state->clientTs)]: a failed call leaves an invalid
    timestamp in the state block. *)
Definition get_client_timestamp (state : SnClientState) : M TIMESTAMP := fun s =>
  match WuGetTimestamp s with
  | Done ts s => Done ts (set_block (mk_client ts (statusAndType state)) s)
  | Failed e s => Failed e (set_block (mk_client INVALID_TIMESTAMP (statusAndType state)) s)
  end.

Definition SnOnRegisterClient (isUsingSnapshot : bool) : M unit :=
  do! state <- ImpGetCurrentStateBlock;
  if isUsingSnapshot then
    if versionsDisabled then wu_fail WUERR_VERSIONS_DISABLED
    else
      do! s <- wu_get;
      match GetCurrentSnapshot (snapshots s) with
      | None => wu_fail WUERR_NO_SNAPSHOTS_EXIST
      | Some (p, current) =>
          if isDamaged current then wu_fail WUERR_UNABLE_TO_USE_DAMAGED_SNAPSHOT
          else
            do! _ <- put_state (mk_client (timestamp current) SN_READ_ONLY_TRANSACTON);
            wu_modify (fun s => set_snapshots (add_occupancy 1 p (snapshots s)) s)
      end
  else
    do! ts <- get_client_timestamp state;
    do! _ <- wu_ignore (on_list (fun l => AddActiveTimestamp l ts));
    put_state (mk_client ts SN_UPDATER_TRANSACTION).

(** The timestamp of the current snapshot, as [SnOnTransactionEnd] gives it. *)
Definition current_timestamp (l : SnSnapshotsList) : TIMESTAMP :=
  match GetCurrentSnapshot l with
  | Some (_, s) => timestamp s
  | None => INVALID_TIMESTAMP
  end.

Definition end_read_only (ts : TIMESTAMP) : M unit :=
  do! s <- wu_get;
  match GetSnapshotByTimestamp (snapshots s) ts with
  | None => wu_fail ASSERTION
  | Some (p, _) =>
      do! _ <- wu_modify (fun s => set_snapshots (add_occupancy (-1) p (snapshots s)) s);
      on_snapshots (PurifySnapshots freeBlock true)
  end.

Definition SnOnTransactionEnd : M TIMESTAMP :=
  do! state <- ImpGetCurrentStateBlock;
  do! _ <- (if statusAndType state =? SN_UPDATER_TRANSACTION then
              wu_modify (fun s => set_snapshots (RemoveActiveTimestamp (snapshots s) (cl_timestamp state)) s)
            else if statusAndType state =? SN_READ_ONLY_TRANSACTON then
              end_read_only (cl_timestamp state)
            else if statusAndType state =? SN_COMPLETED_TRANSACTION then
              wu_fail WUERR_FUNCTION_INVALID_IN_THIS_STATE
            else wu_fail WUERR_BAD_PARAMS);
  do! _ <- put_state (mk_client INVALID_TIMESTAMP SN_COMPLETED_TRANSACTION);
  do! s <- wu_get;
  wu_ret (current_timestamp (snapshots s)).

Definition SnOnUnregisterClient : M unit :=
  do! state <- ImpGetCurrentStateBlock;
  if (statusAndType state =? 0) || (statusAndType state =? SN_COMPLETED_TRANSACTION)
  then wu_ret tt
  else do! _ <- SnOnTransactionEnd; wu_ret tt.

Definition SnSubmitRequest (currentSnapshotTs : TIMESTAMP) (buf : list SnRequestForGc) : M unit :=
  on_snapshots (SnSubmitRequestForGc freeBlock versionsDisabled currentSnapshotTs buf).

Definition SnPurifySnapshots : M unit := on_snapshots (PurifySnapshots freeBlock true).

Definition SnTryAdvanceSnapshots : M TIMESTAMP :=
  do! _ <- on_snapshots (PurifySnapshots freeBlock false);
  do! s <- wu_get;
  match EnsureCanAdvanceSnapshots (snapshots s) with
  | Throw e => wu_fail e
  | Ok false => wu_fail WUERR_MAX_NUMBER_OF_SNAPSHOTS_EXCEEDED
  | Ok true =>
      do! ts <- WuGetTimestamp;
      do! _ <- on_list (fun l => CreateSnapshot l ts SN_REGULAR_SNAPSHOT);
      do! _ <- wu_modify (fun s => set_snapshots (set_runawayCount 0 (snapshots s)) s);
      wu_ret ts
  end.

Definition set_type_at (p : nat) (t : Z) (l : SnSnapshotsList) : SnSnapshotsList :=
  set_leading (update_at p (set_type t) (leading l)) l.

Definition SnOnBeginCheckpoint : M TIMESTAMP :=
  do! s <- wu_get;
  let l := snapshots s in
  match GetSnapshotByType l SN_PREV_PERSISTENT_SNAPSHOT with
  | Some _ => wu_fail WUERR_FUNCTION_INVALID_IN_THIS_STATE
  | None =>
      match GetCurrentSnapshot l with
      | None => wu_fail WUERR_NO_SNAPSHOTS_EXIST
      | Some (next, nextPersSnapshot) =>
          if negb (type nextPersSnapshot =? SN_REGULAR_SNAPSHOT)
          then wu_fail WUERR_SNAPSHOT_ALREADY_PERSISTENT
          else
            do! _ <- wu_modify (fun s =>
              let l := match GetSnapshotByType l SN_PERSISTENT_SNAPSHOT with
                       | Some (p, _) => set_type_at p SN_PREV_PERSISTENT_SNAPSHOT l
                       | None => l
                       end in
              set_snapshots (set_type_at next SN_PERSISTENT_SNAPSHOT l) s);
            wu_ret (timestamp nextPersSnapshot)
      end
  end.

Definition SnOnCompleteCheckpoint : M unit :=
  do! s <- wu_get;
  let l := snapshots s in
  match GetSnapshotByType l SN_PERSISTENT_SNAPSHOT with
  | None => wu_fail WUERR_FUNCTION_INVALID_IN_THIS_STATE
  | Some _ =>
      do! _ <- wu_modify (set_snapshots
                 (match GetSnapshotByType l SN_PREV_PERSISTENT_SNAPSHOT with
                  | Some (p, _) => set_type_at p SN_REGULAR_SNAPSHOT l
                  | None => l
                  end));
      on_snapshots (PurifySnapshots freeBlock true)
  end.

Definition SnDamage (timestampFrom : TIMESTAMP) : M unit := fun s =>
  match SnDamageSnapshots versionsDisabled (snapshots s) timestampFrom with
  | Done _ l => Done tt (set_snapshots l s)
  | Failed e l => Failed e (set_snapshots l s)
  end.

(** [SnStartup], on the state [SnInitialize] leaves. *)
Definition SnStartup (initialPersSnapshotTs : TIMESTAMP) (maxClientsCount : Z) : M unit :=
  do! _ <- on_list (fun _ => InitSnapshotsList maxClientsCount SN_SNAPSHOTS_COUNT);
  if initialPersSnapshotTs =? INVALID_TIMESTAMP then wu_ret tt
  else fun s =>
    match CreateSnapshot (snapshots s) initialPersSnapshotTs SN_PERSISTENT_SNAPSHOT with
    | Ok l => Done tt (set_snapshots l s)
    | Throw e => Failed e (set_snapshots DestroySnapshotsList s)
    end.

Definition SnShutdown : M unit :=
  do! _ <- (do! s <- wu_get;
            match GetSnapshotByType (snapshots s) SN_PERSISTENT_SNAPSHOT with
            | None => wu_ret tt
            | Some (p, persSn) =>
                if nSnapshotVersions (out_state (GatherInternalStats (snapshots s) (timestamp persSn))) =? 0
                then wu_modify (fun s => set_snapshots (set_type_at p SN_REGULAR_SNAPSHOT (snapshots s)) s)
                else wu_fail WUERR_SHUTDOWN_ERROR
            end);
  do! _ <- on_snapshots (PurifySnapshots freeBlock false);
  do! s <- wu_get;
  match GetCurrentSnapshot (snapshots s) with
  | Some _ => wu_fail WUERR_SHUTDOWN_ERROR
  | None => wu_ret tt
  end.

Record SnSnapshotStats := mk_snapshot_stats {
  curSnapshotTs : TIMESTAMP;
  persSnapshotTs_ : TIMESTAMP;
  versionsCount : Z;
  runawayVersionsCount : Z;
  curSnapshotVersionsCount : Z;
  curSnapshotSharedVersionsCount : Z;
  persSnapshotVersionsCount : Z;
  persSnapshotSharedVersionsCount : Z;
  isSnapshotSlotAvalible : bool
}.

Definition SnGatherSnapshotStats (l : SnSnapshotsList) : res wuerr SnSnapshotStats :=
  let cur := SnGetSnapshotTimestamps_cur versionsDisabled l in
  let pers := SnGetSnapshotTimestamps_pers l in
  match GatherInternalStats l cur, GatherInternalStats l pers with
  | Done _ statsCur, Done _ statsPers =>
      let* available := if versionsDisabled then Ok false else EnsureCanAdvanceSnapshots l in
      Ok (mk_snapshot_stats cur pers (nVersions statsCur) (runawayCount l)
            (nSnapshotVersions statsCur) (nSnapshotSharedVersions statsCur)
            (nSnapshotVersions statsPers) (nSnapshotSharedVersions statsPers) available)
  | Failed e _, _ => Throw e
  | _, Failed e _ => Throw e
  end.

Definition SnGetTransactionStatusAndType : M Z :=
  do! state <- ImpGetCurrentStateBlock; wu_ret (statusAndType state).

Definition SnGetTransactionSnapshotTs : M TIMESTAMP :=
  do! state <- ImpGetCurrentStateBlock;
  wu_ret (if statusAndType state =? SN_READ_ONLY_TRANSACTON then cl_timestamp state
          else INVALID_TIMESTAMP).

Definition SnGetTransactionTs : M TIMESTAMP :=
  do! state <- ImpGetCurrentStateBlock;
  wu_ret (if statusAndType state =? SN_UPDATER_TRANSACTION then cl_timestamp state
          else INVALID_TIMESTAMP).
End Api.
