(* ===== verification/SnInv.v ===== *)
(** * The invariant of the snapshots

    The list is made of future snapshots followed by live ones, the newest
    first; a transaction that was active when a snapshot was taken either
    started after the next older snapshot or was active then, too.  Every
    function of the interface keeps this. *)

From Stdlib Require Import ZArith List Lia Bool Sorted.
From stdpp Require Import base list sets sorting.
From S2P Require Import Prelude WuBase Snapshots SnGc SnApi.
Local Open Scope sedna_scope.
Local Open Scope Z_scope.

(** ** Definition *)

Definition live_type (t : Z) : Prop :=
  t = SN_REGULAR_SNAPSHOT \/ t = SN_PERSISTENT_SNAPSHOT \/ t = SN_PREV_PERSISTENT_SNAPSHOT.

Definition future_ok (s : SnSnapshot) : Prop :=
  bare s = mk_snapshot INVALID_TIMESTAMP [] [] SN_FUTURE_SNAPSHOT 0 false.

(** Newer timestamps first. *)
Abbreviation newer_first := (StronglySorted (fun a b : Z => b < a)).
Abbreviation older_first := (StronglySorted (fun a b : Z => a < b)).

Record live_ok (s : SnSnapshot) : Prop := {
  lv_type : live_type (type s);
  lv_valid : IsValidTimestamp (timestamp s) = true;
  lv_occupancy : 0 <= occupancy s;
  lv_damaged : isDamaged s = true -> occupancy s = 0;
  lv_sorted : older_first (active s)
}.

(** [acts] were active later than the snapshots of [l] were taken. *)
Fixpoint nested (acts : list TIMESTAMP) (l : list SnSnapshot) : Prop :=
  match l with
  | [] => True
  | s :: l =>
      (forall t, t ∈ acts -> timestamp s < t \/ t ∈ active s)
      /\ (forall t, t ∈ active s -> t < timestamp s)
      /\ nested (active s) l
  end.

Definition count_type (t : Z) (l : list SnSnapshot) : nat :=
  length (List.filter (fun s => type s =? t) l).

Definition undamaged (l : list SnSnapshot) : nat :=
  length (List.filter (fun s => negb (isDamaged s)) l).

Record list_ok (clk : TIMESTAMP) (acts : list TIMESTAMP) (fut lv : list SnSnapshot) : Prop := {
  ls_future : Forall future_ok fut;
  ls_live : Forall live_ok lv;
  ls_order : newer_first (map timestamp lv);
  ls_past : Forall (fun s => timestamp s < clk) lv;
  ls_acts : older_first acts;
  ls_acts_past : Forall (fun t => TIMESTAMP_MIN <= t < clk) acts;
  ls_nested : nested acts lv;
  ls_pers : (count_type SN_PERSISTENT_SNAPSHOT lv <= 1)%nat;
  ls_prev : (count_type SN_PREV_PERSISTENT_SNAPSHOT lv <= 1)%nat;
  ls_undamaged : (undamaged lv <= 2)%nat
}.

(** The chains. *)
Definition gc_ok (l : list SnSnapshot) : Prop :=
  shape 0 l /\ forall e o, (e, o) ∈ owned_from [] l -> INVALID_TIMESTAMP ∉ o.

Definition split_ok (clk : TIMESTAMP) (L : SnSnapshotsList) (fut lv : list SnSnapshot) : Prop :=
  leading L = fut ++ lv /\ list_ok clk (ts_active L) fut lv /\ gc_ok (leading L)
  /\ length (leading L) = Z.to_nat SN_SNAPSHOTS_COUNT.

Definition snapshots_ok (clk : TIMESTAMP) (L : SnSnapshotsList) : Prop :=
  exists fut lv, split_ok clk L fut lv.

(** ** Only the chains change *)

Lemma bare_eq s s' : bare s' = bare s ->
  timestamp s' = timestamp s /\ active s' = active s /\ type s' = type s
  /\ occupancy s' = occupancy s /\ isDamaged s' = isDamaged s.
Proof. destruct s, s'. unfold bare, set_gcChain; cbn. intros [= -> -> -> -> ->]. done. Qed.

Lemma bare_list_ind (P : list SnSnapshot -> list SnSnapshot -> Prop) :
  P [] [] ->
  (forall s s' l l', bare s' = bare s -> map bare l' = map bare l -> P l l' -> P (s :: l) (s' :: l')) ->
  forall l l', map bare l' = map bare l -> P l l'.
Proof.
  intros H0 Hs l; induction l as [|s l IH]; intros [|s' l'] H; try done.
  assert (H1 := f_equal (hd (bare s)) H). assert (H2 := f_equal (@tl _) H). cbn in H1, H2. auto.
Qed.

Lemma bare_Forall (P : SnSnapshot -> Prop) l l' :
  (forall s s', bare s' = bare s -> P s -> P s') ->
  map bare l' = map bare l -> Forall P l -> Forall P l'.
Proof.
  intros HP H. revert l l' H. apply (bare_list_ind (fun l l' => Forall P l -> Forall P l')); [done|].
  intros s s' l l' H _ IH [H1 H2]%Forall_cons. constructor; eauto.
Qed.

Lemma bare_filter_length (f : SnSnapshot -> bool) l l' :
  (forall s s', bare s' = bare s -> f s' = f s) ->
  map bare l' = map bare l -> length (List.filter f l') = length (List.filter f l).
Proof.
  intros Hf H. revert l l' H. apply bare_list_ind; [done|].
  intros s s' l l' H _ IH. cbn. rewrite (Hf s s' H). destruct (f s); cbn; lia.
Qed.

Lemma bare_nested acts l l' : map bare l' = map bare l -> nested acts l -> nested acts l'.
Proof.
  intros H. revert acts. revert l l' H.
  apply (bare_list_ind (fun l l' => forall acts, nested acts l -> nested acts l')); [done|].
  intros s s' l l' H _ IH acts (H1 & H2 & H3). apply bare_eq in H as (E1 & E2 & _). cbn.
  rewrite E1, E2. eauto.
Qed.

Lemma bare_live_ok s s' : bare s' = bare s -> live_ok s -> live_ok s'.
Proof.
  intros H [? ? ? ? ?]. apply bare_eq in H as (E1 & E2 & E3 & E4 & E5).
  constructor; rewrite ?E1, ?E2, ?E3, ?E4, ?E5; done.
Qed.

(** A list that differs in the chains only. *)
Lemma list_ok_bare clk acts fut fut' lv lv' :
  map bare fut' = map bare fut -> map bare lv' = map bare lv ->
  list_ok clk acts fut lv -> list_ok clk acts fut' lv'.
Proof.
  intros Hf Hl [H1 H2 H3 H4 H5 H6 H7 H8 H9 H10]. constructor; try done.
  - revert H1. apply bare_Forall; [|done]. unfold future_ok. congruence.
  - revert H2. apply bare_Forall; [|done]. apply bare_live_ok.
  - by rewrite (bare_timestamps _ _ Hl).
  - revert H4. apply bare_Forall; [|done]. intros s s' H. apply bare_eq in H as (-> & _). done.
  - by apply (bare_nested _ _ _ Hl).
  - unfold count_type. rewrite (bare_filter_length _ lv lv'); [done| |done].
    intros s s' H. by apply bare_eq in H as (_ & _ & -> & _).
  - unfold count_type. rewrite (bare_filter_length _ lv lv'); [done| |done].
    intros s s' H. by apply bare_eq in H as (_ & _ & -> & _).
  - unfold undamaged. rewrite (bare_filter_length _ lv lv'); [done| |done].
    intros s s' H. by apply bare_eq in H as (_ & _ & _ & _ & ->).
Qed.

(** ** Lookup in the list *)

Lemma future_fields s : future_ok s ->
  timestamp s = INVALID_TIMESTAMP /\ active s = [] /\ type s = SN_FUTURE_SNAPSHOT
  /\ occupancy s = 0 /\ isDamaged s = false.
Proof. destruct s. unfold future_ok, bare, set_gcChain; cbn. intros [= -> -> -> -> ->]. done. Qed.

Lemma live_mask s : live_ok s -> Z.land (type s) (Z.lnot SN_FUTURE_SNAPSHOT) <> 0.
Proof. intros [[->|[->| ->]] _ _ _ _]; done. Qed.

Lemma by_type_app l1 l2 m :
  Forall (fun s => Z.land (type s) m = 0) l1 ->
  GetSnapshotByType2 (l1 ++ l2) m
  = option_map (fun '(p, s) => ((length l1 + p)%nat, s)) (GetSnapshotByType2 l2 m).
Proof.
  induction 1 as [|s l1 Hs _ IH]; cbn; [by destruct (GetSnapshotByType2 l2 m) as [[p s]|]|].
  rewrite Hs, IH. cbn. by destruct (GetSnapshotByType2 l2 m) as [[p s']|].
Qed.

Lemma current_split L fut lv :
  leading L = fut ++ lv -> Forall future_ok fut -> Forall live_ok lv ->
  GetCurrentSnapshot L = match lv with [] => None | s :: _ => Some (length fut, s) end
  /\ from_current L = lv.
Proof.
  intros Hl Hf Hv.
  assert (E : GetCurrentSnapshot L = match lv with [] => None | s :: _ => Some (length fut, s) end).
  { unfold GetCurrentSnapshot, GetSnapshotByType. rewrite Hl, by_type_app.
    - destruct lv as [|s lv]; cbn; [done|]. apply Forall_cons in Hv as [Hs _].
      destruct (Z.eqb_spec (Z.land (type s) (Z.lnot SN_FUTURE_SNAPSHOT)) 0) as [H|_];
        [by apply live_mask in Hs|]. cbn. by rewrite Nat.add_0_r.
    - eapply Forall_impl; [exact Hf|]. intros s H. apply future_fields in H as (_ & _ & -> & _). done. }
  split; [done|]. unfold from_current. rewrite E. destruct lv as [|s lv]; [done|].
  by rewrite Hl, drop_app_length.
Qed.

Lemma by_timestamp_app l1 l2 ts :
  ts ∉ map timestamp l1 ->
  GetSnapshotByTimestamp2 (l1 ++ l2) ts
  = option_map (fun '(p, s) => ((length l1 + p)%nat, s)) (GetSnapshotByTimestamp2 l2 ts).
Proof.
  induction l1 as [|s l1 IH]; cbn; intros H; [by destruct (GetSnapshotByTimestamp2 l2 ts) as [[p s]|]|].
  apply not_elem_of_cons in H as [Hne H]. destruct (Z.eqb_spec (timestamp s) ts); [congruence|].
  rewrite IH by done. by destruct (GetSnapshotByTimestamp2 l2 ts) as [[p s']|].
Qed.

Lemma by_timestamp_in l ts :
  ts ∈ map timestamp l -> exists p s, GetSnapshotByTimestamp2 l ts = Some (p, s).
Proof.
  induction l as [|s l IH]; cbn; [by intros ?%elem_of_nil|].
  intros H. destruct (Z.eqb_spec (timestamp s) ts) as [|Hne]; [eauto|].
  apply elem_of_cons in H as [|H]; [congruence|]. destruct (IH H) as (p & s' & ->). eauto.
Qed.

Lemma invalid_not_live lv : Forall live_ok lv -> INVALID_TIMESTAMP ∉ map timestamp lv.
Proof.
  intros H Hin. apply list_elem_of_fmap in Hin as (s & Hs & Hi).
  rewrite Forall_forall in H. destruct (H s Hi) as [_ Hv _ _ _]. rewrite <- Hs, invalid_not_valid in Hv. done.
Qed.

Lemma futures_invalid fut : Forall future_ok fut ->
  map timestamp fut = repeat INVALID_TIMESTAMP (length fut).
Proof.
  induction 1 as [|s fut Hs _ IH]; [done|]. cbn. rewrite IH. f_equal. by destruct (future_fields s Hs).
Qed.

Lemma not_future_timestamp fut ts :
  Forall future_ok fut -> ts <> INVALID_TIMESTAMP -> ts ∉ map timestamp fut.
Proof.
  intros H Hne. rewrite (futures_invalid _ H). intros Hin.
  apply list_elem_of_In, repeat_spec in Hin. done.
Qed.

(** A live snapshot by its timestamp. *)
Lemma find_live L fut lv ts :
  leading L = fut ++ lv -> Forall future_ok fut -> Forall live_ok lv -> ts ∈ map timestamp lv ->
  exists l1 s l2, lv = l1 ++ s :: l2 /\ timestamp s = ts /\ (ts ∉ map timestamp l1)
    /\ GetSnapshotByTimestamp L ts = Some ((length fut + length l1)%nat, s).
Proof.
  intros Hl Hf Hv Hin. destruct (by_timestamp_in _ _ Hin) as (p & s & Hp).
  destruct (lookup_by_timestamp _ _ _ _ Hp) as (H1 & H2 & H3 & H4).
  exists (take p lv), s, (drop (S p) lv). repeat split; try done.
  unfold GetSnapshotByTimestamp. rewrite Hl, by_timestamp_app, Hp; [cbn; by rewrite H2|].
  apply not_future_timestamp; [done|]. intros ->. by apply (invalid_not_live lv).
Qed.

Lemma update_at_app l1 s l2 f :
  update_at (length l1) f (l1 ++ s :: l2) = l1 ++ f s :: l2.
Proof.
  unfold update_at. rewrite lookup_app_r, Nat.sub_diag by lia. cbn.
  rewrite insert_app_r_alt, Nat.sub_diag by lia. done.
Qed.

(** ** Changes that leave timestamps and chains alone *)

Definition gc_part (s : SnSnapshot) : TIMESTAMP * list SnGcNode := (timestamp s, gcChain s).

Lemma gc_part_owned l : forall l' prev k, map gc_part l' = map gc_part l ->
  owned_from prev l' = owned_from prev l /\ (shape k l -> shape k l').
Proof.
  induction l as [|s l IH]; intros [|s' l'] prev k H; try done.
  cbn in H. injection H as Ht Hc H. cbn. rewrite Ht, Hc.
  destruct (IH l' (timestamp s :: prev) (S k) H) as [-> Hs]. split; [done|]. intros [H1 H2]. auto.
Qed.

Lemma gc_ok_part l l' : map gc_part l' = map gc_part l -> gc_ok l -> gc_ok l'.
Proof.
  intros H [Hs Ho]. destruct (gc_part_owned l l' [] 0 H) as [E Hs']. split; [auto|]. by rewrite E.
Qed.

(** Marking snapshots that nobody uses. *)
Definition damage_step (s s' : SnSnapshot) : Prop :=
  s' = s \/ (occupancy s = 0 /\ s' = set_isDamaged true s).

Lemma damage_step_fields s s' : damage_step s s' ->
  timestamp s' = timestamp s /\ active s' = active s /\ type s' = type s
  /\ occupancy s' = occupancy s /\ gcChain s' = gcChain s
  /\ (isDamaged s' = true -> isDamaged s = true \/ occupancy s = 0)
  /\ (isDamaged s = true -> isDamaged s' = true).
Proof. intros [->|[H ->]]; cbn; tauto. Qed.

Lemma damage_map {A} (f : SnSnapshot -> A) l l' :
  (forall s s', damage_step s s' -> f s' = f s) -> Forall2 damage_step l l' -> map f l' = map f l.
Proof. intros Hf. induction 1; cbn; [done|]. f_equal; auto. Qed.

Lemma damage_nested acts l l' : Forall2 damage_step l l' -> nested acts l -> nested acts l'.
Proof.
  intros H; revert acts; induction H as [|s s' l l' Hd _ IH]; intros acts; [done|].
  apply damage_step_fields in Hd as (E1 & E2 & _). cbn. rewrite E1, E2. naive_solver.
Qed.

Lemma damage_count t l l' : Forall2 damage_step l l' -> count_type t l' = count_type t l.
Proof.
  unfold count_type. induction 1 as [|s s' l l' Hd _ IH]; [done|].
  apply damage_step_fields in Hd as (_ & _ & E & _). cbn. rewrite E.
  destruct (type s =? t); cbn; lia.
Qed.

Lemma damage_undamaged l l' : Forall2 damage_step l l' -> (undamaged l' <= undamaged l)%nat.
Proof.
  unfold undamaged. induction 1 as [|s s' l l' Hd _ IH]; [done|].
  apply damage_step_fields in Hd as (_ & _ & _ & _ & _ & _ & E). cbn.
  destruct (isDamaged s); [rewrite E by done; done|]. destruct (isDamaged s'); cbn; lia.
Qed.

Lemma list_ok_damage clk acts fut lv lv' :
  Forall2 damage_step lv lv' -> list_ok clk acts fut lv -> list_ok clk acts fut lv'.
Proof.
  intros Hd [H1 H2 H3 H4 H5 H6 H7 H8 H9 H10].
  assert (Et : map timestamp lv' = map timestamp lv).
  { apply damage_map; [|done]. intros s s' H. by destruct (damage_step_fields s s' H). }
  constructor; try done.
  - clear -Hd H2. induction Hd as [|s s' l l' H _ IH]; [constructor|].
    apply Forall_cons in H2 as [[A1 A2 A3 A4 A5] H2]. constructor; [|auto].
    apply damage_step_fields in H as (E1 & E2 & E3 & E4 & _ & E5 & _).
    constructor; rewrite ?E1, ?E2, ?E3, ?E4; try done. intros H. destruct (E5 H); auto.
  - by rewrite Et.
  - rewrite <- (Forall_map timestamp (fun t => t < clk)), Et, Forall_map. done.
  - by apply (damage_nested _ lv).
  - by rewrite (damage_count _ _ _ Hd).
  - by rewrite (damage_count _ _ _ Hd).
  - apply damage_undamaged in Hd. lia.
Qed.

Lemma snapshots_ok_damage clk L fut lv lv' :
  leading L = fut ++ lv -> list_ok clk (ts_active L) fut lv -> gc_ok (leading L) ->
  length (leading L) = Z.to_nat SN_SNAPSHOTS_COUNT ->
  Forall2 damage_step lv lv' -> split_ok clk (set_leading (fut ++ lv') L) fut lv'.
Proof.
  intros Hl Hok Hgc Hlen Hd. split; [done|].
  split; [by apply (list_ok_damage _ _ _ lv)|]. split.
  - revert Hgc. apply gc_ok_part. rewrite Hl. cbn. rewrite !map_app. f_equal.
    apply damage_map; [|done]. unfold gc_part. intros s s' H.
    by destruct (damage_step_fields s s' H) as (-> & _ & _ & _ & -> & _).
  - rewrite Hl in Hlen. cbn. rewrite length_app in *. apply Forall2_length in Hd. lia.
Qed.

Lemma damage_refl l : Forall2 damage_step l l.
Proof. induction l; constructor; [by left|done]. Qed.

Lemma damage_unused_map l : Forall2 damage_step l (map damage_unused l).
Proof.
  induction l as [|s l IH]; constructor; [|done]. unfold damage_unused.
  destruct (Z.eqb_spec (occupancy s) 0); [by right|by left].
Qed.

Lemma auto_damage_ok clk L fut lv keep :
  split_ok clk L fut lv ->
  exists lv', split_ok clk (AutoDamageSnapshotsAndScanForGarbage L keep) fut lv'
    /\ Forall2 damage_step lv lv'
    /\ Forall (fun s => occupancy s = 0 -> isDamaged s = true) (if keep then tl lv' else lv')
    /\ ts_active (AutoDamageSnapshotsAndScanForGarbage L keep) = ts_active L
    /\ nClientsMax (AutoDamageSnapshotsAndScanForGarbage L keep) = nClientsMax L
    /\ owned (AutoDamageSnapshotsAndScanForGarbage L keep) = owned L
    /\ lv' = (if keep then take 1 lv else []) ++ map damage_unused (if keep then tl lv else lv).
Proof.
  intros (Hl & Hok & Hgc & Hlen). unfold AutoDamageSnapshotsAndScanForGarbage.
  destruct (current_split L fut lv Hl) as [-> _]; [apply Hok|apply Hok|].
  destruct lv as [|s lv]; [exists []; split; [done|]; by destruct keep|].
  assert (Hdam : forall l, Forall (fun s => occupancy s = 0 -> isDamaged s = true) (map damage_unused l)).
  { intros l. apply Forall_map, Forall_forall. intros x _. unfold damage_unused.
    destruct (Z.eqb_spec (occupancy x) 0); [done|]. by intros ?. }
  assert (Hgcp : forall l, map gc_part (map damage_unused l) = map gc_part l).
  { intros l. rewrite map_map. apply map_ext. intros x. unfold damage_unused. by destruct (_ =? _). }
  destruct keep; rewrite Hl.
  - change (S (length fut)) with (1 + length fut)%nat. rewrite Nat.add_comm.
    rewrite take_app_add, drop_app_add. cbn [take drop]. rewrite take_0, drop_0, <- app_assoc. cbn [app].
    assert (Hd : Forall2 damage_step (s :: lv) (s :: map damage_unused lv)) by (constructor; [by left|apply damage_unused_map]).
    exists (s :: map damage_unused lv). split; [by apply (snapshots_ok_damage _ _ _ (s :: lv))|].
    split; [done|]. split; [apply Hdam|]. split; [done|]. split; [done|]. split; [|done].
    unfold owned. cbn [set_leading leading]. rewrite Hl. apply gc_part_owned with (k := O). rewrite !map_app. cbn [map]. by rewrite Hgcp.
  - rewrite take_app_length, drop_app_length.
    assert (Hd := damage_unused_map (s :: lv)).
    exists (map damage_unused (s :: lv)). split; [by apply (snapshots_ok_damage _ _ _ (s :: lv))|].
    split; [done|]. split; [apply Hdam|]. split; [done|]. split; [done|]. split; [|done].
    unfold owned. cbn [set_leading leading]. rewrite Hl. apply gc_part_owned with (k := O). by rewrite !map_app, Hgcp.
Qed.

Lemma damage_loop_step ts l : Forall live_ok l -> Forall2 damage_step l (fst (damage_loop ts l)).
Proof.
  induction 1 as [|s l Hs _ IH]; cbn; [constructor|].
  destruct (timestamp s <=? ts); [destruct (Z.ltb_spec 0 (occupancy s)) as [|Ho]|].
  - apply damage_refl.
  - destruct (damage_loop ts l) as [l' ok]. constructor; [|done]. right. split; [|done].
    destruct Hs. lia.
  - destruct (damage_loop ts l) as [l' ok]. constructor; [by left|done].
Qed.

Lemma damage_ok clk vd L fut lv ts : split_ok clk L fut lv ->
  exists lv', split_ok clk (out_state (SnDamageSnapshots vd L ts)) fut lv' /\ Forall2 damage_step lv lv'
    /\ ts_active (out_state (SnDamageSnapshots vd L ts)) = ts_active L
    /\ nClientsMax (out_state (SnDamageSnapshots vd L ts)) = nClientsMax L
    /\ owned (out_state (SnDamageSnapshots vd L ts)) = owned L.
Proof.
  intros Hsp. assert (H' := Hsp). destruct H' as (Hl & Hok & Hgc & Hlen). unfold SnDamageSnapshots.
  assert (Hsame : exists lv', split_ok clk L fut lv' /\ Forall2 damage_step lv lv' /\ ts_active L = ts_active L
    /\ nClientsMax L = nClientsMax L /\ owned L = owned L) by (exists lv; split; [done|]; split; [apply damage_refl|done]).
  destruct (negb _); [done|]. destruct vd; [done|].
  destruct (current_split L fut lv Hl) as [-> _]; [apply Hok|apply Hok|].
  destruct lv as [|s lv]; [done|]. rewrite Hl, take_app_length, drop_app_length.
  assert (Hd := damage_loop_step ts (s :: lv) (ls_live _ _ _ _ Hok)).
  destruct (damage_loop ts (s :: lv)) as [l ok]. cbn [fst] in Hd.
  assert (Ho : owned (set_leading (fut ++ l) L) = owned L).
  { unfold owned. cbn [set_leading leading]. rewrite Hl. apply gc_part_owned with (k := O). rewrite !map_app. f_equal.
    apply damage_map; [|done]. unfold gc_part. intros x x' Hx.
    by destruct (damage_step_fields x x' Hx) as (-> & _ & _ & _ & -> & _). }
  exists l. destruct ok; (split; [|done]); by apply (snapshots_ok_damage _ _ _ (s :: lv)).
Qed.

(** A live snapshot with another occupancy or type. *)
Lemma count_app t l1 l2 : count_type t (l1 ++ l2) = (count_type t l1 + count_type t l2)%nat.
Proof. unfold count_type. by rewrite List.filter_app, length_app. Qed.

Lemma count_cons t s l :
  count_type t (s :: l) = ((if (type s =? t)%Z then 1 else 0) + count_type t l)%nat.
Proof. unfold count_type. cbn. by destruct (type s =? t). Qed.

Lemma undamaged_app l1 l2 : undamaged (l1 ++ l2) = (undamaged l1 + undamaged l2)%nat.
Proof. unfold undamaged. by rewrite List.filter_app, length_app. Qed.

Lemma nested_replace acts l1 s s' l2 :
  timestamp s' = timestamp s -> active s' = active s ->
  nested acts (l1 ++ s :: l2) -> nested acts (l1 ++ s' :: l2).
Proof.
  intros Ht Ha. revert acts; induction l1 as [|x l1 IH]; intros acts; cbn.
  - by rewrite Ht, Ha.
  - intros (H1 & H2 & H3). auto.
Qed.

Lemma list_ok_replace clk acts fut l1 s s' l2 :
  timestamp s' = timestamp s -> active s' = active s -> isDamaged s' = isDamaged s ->
  live_ok s' ->
  (count_type SN_PERSISTENT_SNAPSHOT (l1 ++ s' :: l2) <= 1)%nat ->
  (count_type SN_PREV_PERSISTENT_SNAPSHOT (l1 ++ s' :: l2) <= 1)%nat ->
  list_ok clk acts fut (l1 ++ s :: l2) -> list_ok clk acts fut (l1 ++ s' :: l2).
Proof.
  intros Ht Ha Hd Hl Hp Hv [H1 H2 H3 H4 H5 H6 H7 H8 H9 H10]. constructor; try done.
  - rewrite Forall_app, Forall_cons in *. tauto.
  - revert H3. rewrite !map_app. cbn. by rewrite Ht.
  - rewrite Forall_app, Forall_cons in *. rewrite Ht. tauto.
  - by apply (nested_replace _ _ s).
  - rewrite undamaged_app in *. unfold undamaged in *. cbn in *. rewrite Hd. by destruct (isDamaged s).
Qed.

Lemma snapshots_ok_replace clk L fut l1 s s' l2 :
  leading L = fut ++ l1 ++ s :: l2 -> gc_part s' = gc_part s ->
  list_ok clk (ts_active L) fut (l1 ++ s' :: l2) ->
  gc_ok (leading L) -> length (leading L) = Z.to_nat SN_SNAPSHOTS_COUNT ->
  split_ok clk (set_leading (fut ++ l1 ++ s' :: l2) L) fut (l1 ++ s' :: l2)
  /\ owned (set_leading (fut ++ l1 ++ s' :: l2) L) = owned L.
Proof.
  intros Hl Hg Hok Hgc Hlen. assert (E : map gc_part (fut ++ l1 ++ s' :: l2) = map gc_part (leading L)).
  { rewrite Hl, !map_app. cbn. by rewrite Hg. }
  split; [|by apply gc_part_owned with (k := O)]. split; [done|]. split; [done|]. cbn. split.
  - revert Hgc. by apply gc_ok_part.
  - rewrite Hl in Hlen. rewrite !length_app in *. cbn in *. lia.
Qed.

(** ** Removing a live snapshot *)

Lemma nested_mono acts acts' l : acts' ⊆ acts -> nested acts l -> nested acts' l.
Proof. destruct l as [|s l]; [done|]. intros Hs (H1 & H2 & H3). split; [|done]. intros t Ht. auto. Qed.

Lemma nested_skip acts s l :
  newer_first (map timestamp (s :: l)) -> nested acts (s :: l) -> nested acts l.
Proof.
  intros Hs (H1 & H2 & H3). destruct l as [|x l]; [done|]. destruct H3 as (H3 & H4 & H5).
  split; [|done]. intros t Ht. cbn in Hs. apply StronglySorted_inv in Hs as [_ Hs].
  apply Forall_cons in Hs as [Hs _]. destruct (H1 t Ht) as [H|H]; [left; lia|auto].
Qed.

Lemma nested_remove acts l1 s l2 :
  newer_first (map timestamp (l1 ++ s :: l2)) -> nested acts (l1 ++ s :: l2) -> nested acts (l1 ++ l2).
Proof.
  revert acts; induction l1 as [|x l1 IH]; intros acts; cbn.
  - apply nested_skip.
  - intros [Hs _]%StronglySorted_inv (H1 & H2 & H3). auto.
Qed.

Lemma sorted_remove {A} (R : A -> A -> Prop) l1 x l2 :
  StronglySorted R (l1 ++ x :: l2) -> StronglySorted R (l1 ++ l2).
Proof.
  induction l1 as [|y l1 IH]; cbn; intros [Hs Hf]%StronglySorted_inv; [done|].
  constructor; [auto|]. rewrite Forall_app, Forall_cons in Hf. apply Forall_app. tauto.
Qed.

Lemma list_ok_remove clk acts fut fut' l1 s l2 :
  Forall future_ok fut' ->
  list_ok clk acts fut (l1 ++ s :: l2) -> list_ok clk acts fut' (l1 ++ l2).
Proof.
  intros Hf [H1 H2 H3 H4 H5 H6 H7 H8 H9 H10].
  constructor; try done.
  - rewrite Forall_app, Forall_cons in *. tauto.
  - rewrite map_app in *. by apply sorted_remove in H3.
  - rewrite Forall_app, Forall_cons in *. tauto.
  - by apply nested_remove in H7.
  - rewrite count_app in *. rewrite count_cons in H8. lia.
  - rewrite count_app in *. rewrite count_cons in H9. lia.
  - rewrite undamaged_app in *. unfold undamaged in *. cbn in H10. destruct (isDamaged s); cbn in *; lia.
Qed.

Lemma sorted_NoDup l : newer_first l -> NoDup l.
Proof.
  induction 1 as [|x l _ IH Hf]; constructor; [|done]. intros Hin.
  rewrite Forall_forall in Hf. apply Hf in Hin. lia.
Qed.

(** The snapshot at a known place. *)
Lemma find_here clk L fut l1 v l2 :
  leading L = fut ++ l1 ++ v :: l2 -> list_ok clk (ts_active L) fut (l1 ++ v :: l2) ->
  GetSnapshotByTimestamp L (timestamp v) = Some ((length fut + length l1)%nat, v)
  /\ timestamp v ∉ map timestamp l2.
Proof.
  intros Hl Hok. assert (Hnd := sorted_NoDup _ (ls_order _ _ _ _ Hok)).
  rewrite map_app in Hnd. cbn in Hnd. apply NoDup_app in Hnd as (_ & Hd1 & Hd2).
  apply NoDup_cons in Hd2 as [Hd2 _]. split; [|done].
  assert (Hv : live_ok v).
  { assert (H := ls_live _ _ _ _ Hok). rewrite Forall_app, Forall_cons in H. tauto. }
  unfold GetSnapshotByTimestamp. rewrite Hl, by_timestamp_app.
  - rewrite by_timestamp_app; [cbn; rewrite Z.eqb_refl; cbn; by rewrite Nat.add_0_r|].
    intros Hin. apply (Hd1 _ Hin). left.
  - apply not_future_timestamp; [apply Hok|]. intros E. assert (H := lv_valid _ Hv).
    by rewrite E, invalid_not_valid in H.
Qed.

(** ** Discarding *)

Section Discards.
Context {W : Type} (freeBlock : XPTR -> wu W unit).

(** Calls that free a block succeed. *)
Definition free_total : Prop := forall x w, exists w', freeBlock x w = Done tt w'.

Lemma map_bare_app l l1 l2 : map bare l = map bare (l1 ++ l2) ->
  exists k1 k2, l = k1 ++ k2 /\ map bare k1 = map bare l1 /\ map bare k2 = map bare l2.
Proof.
  rewrite map_app. intros H. apply map_eq_app in H as (k1 & k2 & -> & H1 & H2). eauto.
Qed.

Lemma disowned_valid ts (l : list owned_version) (e : SnVersionEntry) (o : list TIMESTAMP) :
  (forall e o, (e, o) ∈ l -> INVALID_TIMESTAMP ∉ o) ->
  (e, o) ∈ omap (disown ts) l -> INVALID_TIMESTAMP ∉ o.
Proof.
  intros H Hin. apply list_elem_of_omap in Hin as ([e' o'] & Hin & Hd). unfold disown in Hd. cbn in Hd.
  assert (Ho : o = List.filter (fun t => negb (t =? ts)) o').
  { by destruct (List.filter (fun t => negb (t =? ts)) o') eqn:E; inversion Hd; subst. }
  intros Hi. rewrite Ho, list_elem_of_In, filter_In in Hi. apply (H _ _ Hin).
  apply list_elem_of_In. tauto.
Qed.

Lemma discard_ok clk L fut l1 v l2 w :
  free_total -> split_ok clk L fut (l1 ++ v :: l2) ->
  type v = SN_REGULAR_SNAPSHOT -> occupancy v = 0 ->
  exists L' w' fut' lv',
    DiscardSnapshot freeBlock (timestamp v) (L, w) = Done tt (L', w')
    /\ split_ok clk L' fut' lv' /\ map bare lv' = map bare (l1 ++ l2)
    /\ ts_active L' = ts_active L /\ runawayCount L' = runawayCount L /\ nClientsMax L' = nClientsMax L
    /\ owned L' ≡ₚ omap (disown (timestamp v)) (owned L)
    /\ frees freeBlock w
         (map (fun x => xptr (fst x)) (List.filter (orphaned (timestamp v)) (owned L))) w'.
Proof.
  intros Hfree (Hl & Hok & Hgc & Hlen) Hty Hoc.
  destruct (find_here _ _ _ _ _ _ Hl Hok) as (Hg & Hd2).
  set (p := (length fut + length l1)%nat) in *.
  assert (Ht : take p (leading L) = fut ++ l1).
  { rewrite Hl. unfold p. rewrite take_app_add, take_app_length. done. }
  assert (Hdr : drop (S p) (leading L) = l2).
  { rewrite Hl. unfold p. rewrite <- Nat.add_succ_r, drop_app_add.
    replace (S (length l1)) with (length l1 + 1)%nat by lia. by rewrite drop_app_add. }
  destruct (discard_cases freeBlock L w (timestamp v) p v) as (first & det & freed & rest & w1 & Hc & He & Hfr & Hor & Hcase);
    try done; [apply Hgc|by rewrite Hdr|].
  destruct Hcase as [(-> & l' & HD & Hb & Hsh & Hown)|(e & r' & err & w2 & _ & Hfb & _)];
    [|destruct (Hfree (xptr e) w1) as [w' E]; congruence].
  rewrite Ht, Hdr, <- app_assoc in Hb.
  destruct (map_bare_app l' fut (l1 ++ l2) Hb) as (f' & lv' & -> & Hbf & Hbl).
  exists (set_leading (mk_snapshot INVALID_TIMESTAMP [] [empty_node] SN_FUTURE_SNAPSHOT 0 false :: f' ++ lv') L),
    w1, (mk_snapshot INVALID_TIMESTAMP [] [empty_node] SN_FUTURE_SNAPSHOT 0 false :: f'), lv'.
  split; [exact HD|]. split.
  - split; [done|]. split; [|split; [split; [by split|]|]].
    + apply (list_ok_bare _ _ (mk_snapshot INVALID_TIMESTAMP [] [empty_node] SN_FUTURE_SNAPSHOT 0 false :: fut) _ (l1 ++ l2)); [by cbn; rewrite Hbf|done|].
      apply (list_ok_remove _ _ fut _ _ v); [constructor; [done|apply Hok]|done].
    + intros e o Hin. cbn [set_leading leading] in Hin. rewrite Hown in Hin.
      apply (disowned_valid _ _ _ _ (proj2 Hgc) Hin).
    + cbn. rewrite length_app. apply (f_equal length) in Hbf, Hbl. rewrite !length_map in *.
      rewrite Hl in Hlen. rewrite !length_app in *. cbn in *. lia.
  - split; [done|]. do 3 (split; [done|]). split; [exact Hown|].
    rewrite <- map_map, Hor, He, app_nil_r. done.
Qed.
End Discards.
