(* ===== verification/SnPurify.v ===== *)
(** * PurifySnapshots

    All regular snapshots without readers (but the current one, when it is
    kept) are discarded; the blocks that are freed are exactly those of the
    versions all of whose snapshots are discarded. *)

From Stdlib Require Import ZArith List Lia Bool Sorted.
From stdpp Require Import base list sets sorting.
From S2P Require Import Prelude WuBase Snapshots SnGc SnApi SnInv.
Local Open Scope sedna_scope.
Local Open Scope Z_scope.

(** ** Lists of versions up to their order *)

#[export] Instance filter_perm {A} (f : A -> bool) :
  Proper (Permutation ==> Permutation) (List.filter f).
Proof.
  intros l l' H. induction H as [|x l l' _ IH|x y l|l1 l2 l3 _ IH1 _ IH2]; cbn.
  - done.
  - destruct (f x); [by apply perm_skip|done].
  - destruct (f x), (f y); [apply perm_swap|done|done|done].
  - by transitivity (List.filter f l2).
Qed.

#[export] Instance omap_perm {A B} (f : A -> option B) :
  Proper (Permutation ==> Permutation) (fun l : list A => omap f l).
Proof.
  intros l l' H. induction H as [|x l l' _ IH|x y l|l1 l2 l3 _ IH1 _ IH2]; cbn.
  - done.
  - destruct (f x); [by apply perm_skip|done].
  - destruct (f x), (f y); [apply perm_swap|done|done|done].
  - by transitivity (omap f l2).
Qed.

(** ** Several discards *)

Definition mem (D : list TIMESTAMP) (t : TIMESTAMP) : bool := existsb (Z.eqb t) D.
Arguments mem : simpl never.

Definition disown_all (D : list TIMESTAMP) (v : owned_version) : option owned_version :=
  match List.filter (fun t => negb (mem D t)) (snd v) with
  | [] => None
  | o => Some (fst v, o)
  end.

Definition orphaned_all (D : list TIMESTAMP) (v : owned_version) : bool :=
  forallb (mem D) (snd v).

Definition block_of (v : owned_version) : XPTR := xptr (fst v).

Lemma mem_elem D t : mem D t = true <-> t ∈ D.
Proof.
  unfold mem. rewrite existsb_exists. split.
  - intros (x & Hx & ->%Z.eqb_eq). by apply list_elem_of_In.
  - intros H. exists t. split; [by apply list_elem_of_In|apply Z.eqb_refl].
Qed.

Lemma filter_mem_cons t D o :
  List.filter (fun x => negb (mem (t :: D) x)) o
  = List.filter (fun x => negb (mem D x)) (List.filter (fun x => negb (x =? t)) o).
Proof.
  induction o as [|x o IH]; [done|]. cbn [List.filter].
  assert (E : mem (t :: D) x = (x =? t) || mem D x) by done. rewrite E.
  destruct (x =? t); cbn [orb negb List.filter]; [done|]. destruct (mem D x); cbn [negb]; by rewrite IH.
Qed.

Lemma orphaned_all_None D v : orphaned_all D v = true <-> disown_all D v = None.
Proof.
  unfold orphaned_all, disown_all. destruct v as [e o]. cbn. induction o as [|t o IH]; cbn; [done|].
  destruct (mem D t); cbn; [done|]. split; done.
Qed.

Lemma disown_all_step t D v :
  disown_all (t :: D) v = match disown t v with None => None | Some v' => disown_all D v' end.
Proof.
  unfold disown_all, disown. rewrite filter_mem_cons.
  by destruct (List.filter (fun x => negb (x =? t)) (snd v)).
Qed.

Lemma orphaned_all_step t D v :
  orphaned_all (t :: D) v = match disown t v with None => true | Some v' => orphaned_all D v' end.
Proof.
  apply eq_true_iff_eq. rewrite orphaned_all_None, disown_all_step.
  destruct (disown t v); [by rewrite orphaned_all_None|done].
Qed.

Lemma disown_fst t v v' : disown t v = Some v' -> fst v' = fst v.
Proof. unfold disown. destruct (List.filter _ _); [done|]. by intros [= <-]. Qed.

Lemma disown_all_cons t D (vs : list owned_version) :
  omap (disown_all (t :: D)) vs = omap (disown_all D) (omap (disown t) vs).
Proof.
  induction vs as [|v vs IH]; [done|]. cbn. rewrite IH, disown_all_step.
  destruct (disown t v); done.
Qed.

Lemma orphans_cons t D (vs : list owned_version) :
  map block_of (List.filter (orphaned_all (t :: D)) vs)
  ≡ₚ map block_of (List.filter (orphaned t) vs)
     ++ map block_of (List.filter (orphaned_all D) (omap (disown t) vs)).
Proof.
  induction vs as [|v vs IH]; [done|]. cbn. rewrite orphaned_all_step. unfold orphaned at 1.
  destruct (disown t v) as [v'|] eqn:E; cbn; [|by rewrite IH].
  destruct (orphaned_all D v'); cbn; [|done]. rewrite IH.
  unfold block_of at 1 5. rewrite (disown_fst _ _ _ E). solve_Permutation.
Qed.

Lemma disown_all_nil (vs : list owned_version) : Forall (fun v : owned_version => snd v <> []) vs ->
  omap (disown_all []) vs = vs /\ List.filter (orphaned_all []) vs = [].
Proof.
  induction 1 as [|[e o] vs Hne _ [IH1 IH2]]; [done|]. cbn in Hne. cbn. rewrite IH1. split.
  - unfold disown_all. cbn. rewrite (filter_all _ o) by done. by destruct o.
  - unfold orphaned_all at 1. cbn. destruct o as [|t o]; [done|]. cbn. done.
Qed.

Lemma owned_nonempty L : Forall (fun v : owned_version => snd v <> []) (owned L).
Proof. apply Forall_forall. intros [e o] H. by apply owned_from_owner in H as [H _]. Qed.

(** ** The loop *)

Definition discardable (s : SnSnapshot) : bool :=
  (occupancy s =? 0) && (type s =? SN_REGULAR_SNAPSHOT).

Lemma bare_discardable s s' : bare s' = bare s -> discardable s' = discardable s.
Proof. intros H. unfold discardable. apply bare_eq in H as (_ & _ & -> & -> & _). done. Qed.

Definition victims (l : list SnSnapshot) : list TIMESTAMP := map timestamp (List.filter discardable l).
Definition kept (l : list SnSnapshot) : list SnSnapshot := List.filter (fun s => negb (discardable s)) l.

Lemma bare_victims l l' : map bare l' = map bare l ->
  victims l' = victims l /\ map bare (kept l') = map bare (kept l).
Proof.
  revert l l'. apply bare_list_ind; [done|]. intros s s' l l' H _ [IH1 IH2].
  unfold victims, kept in *. cbn. rewrite (bare_discardable _ _ H).
  destruct (discardable s); cbn; rewrite ?IH1, ?IH2, ?H; [|done].
  by apply bare_eq in H as (-> & _).
Qed.

(** The list is the same but for the snapshots. *)
Definition same_frame (L L' : SnSnapshotsList) : Prop :=
  ts_active L' = ts_active L /\ runawayCount L' = runawayCount L /\ nClientsMax L' = nClientsMax L.

Lemma same_frame_trans L1 L2 L3 : same_frame L1 L2 -> same_frame L2 L3 -> same_frame L1 L3.
Proof. unfold same_frame. intuition congruence. Qed.

Section Purify.
Context {W : Type} (freeBlock : XPTR -> wu W unit) (Hfree : free_total freeBlock).

Lemma frees_app w l1 w1 l2 w2 :
  frees freeBlock w l1 w1 -> frees freeBlock w1 l2 w2 -> frees freeBlock w (l1 ++ l2) w2.
Proof. induction 1; cbn; [done|]. intros. econstructor; eauto. Qed.

(** What a purge of the victims among [cand] leaves. *)
Definition purified clk (L : SnSnapshotsList) (w : W) (l1 cand : list SnSnapshot)
    (L' : SnSnapshotsList) (w' : W) : Prop :=
  exists fut' lv' freed,
    split_ok clk L' fut' lv' /\ map bare lv' = map bare (l1 ++ kept cand) /\ same_frame L L'
    /\ owned L' ≡ₚ omap (disown_all (victims cand)) (owned L)
    /\ freed ≡ₚ map block_of (List.filter (orphaned_all (victims cand)) (owned L))
    /\ frees freeBlock w freed w'.

Lemma purify_loop_ok clk cand : forall L w fut l1,
  split_ok clk L fut (l1 ++ cand) ->
  exists L' w', purify_loop freeBlock (map timestamp cand) (L, w) = Done tt (L', w')
    /\ purified clk L w l1 cand L' w'.
Proof.
  induction cand as [cand IHn] using (induction_ltof1 _ (@length SnSnapshot)).
  intros L w fut l1 Hok. destruct cand as [|s cand].
  { exists L, w. split; [done|]. exists fut, l1, []. rewrite app_nil_r in *.
    destruct (disown_all_nil _ (owned_nonempty L)) as [E1 E2]. unfold victims, kept. cbn. rewrite E1, E2.
    split; [done|]. split; [by rewrite ?app_nil_r|]. repeat split; done || constructor. }
  destruct Hok as (Hl & Hlok & Hgc & Hlen).
  destruct (find_here _ _ _ _ _ _ Hl Hlok) as (Hg & _). cbn [map purify_loop]. rewrite Hg.
  destruct (discardable s) eqn:Ed.
  - assert (Hd := Ed). apply andb_true_iff in Hd as [Ho%Z.eqb_eq Ht%Z.eqb_eq].
    rewrite Ho, Ht. cbn [Z.eqb negb orb SN_REGULAR_SNAPSHOT Pos.eqb].
    destruct (discard_ok freeBlock clk L fut l1 s cand w Hfree) as (L1 & w1 & f1 & lv1 & HD & Hok1 & Hb & E1 & E2 & E3 & Hown & Hfr);
      [done|done|done|].
    unfold wu_bind. rewrite HD. destruct (map_bare_app lv1 l1 cand Hb) as (l1' & cand' & -> & Hb1 & Hb2).
    destruct (IHn cand') with (L := L1) (w := w1) (fut := f1) (l1 := l1') as (L' & w' & Hrun & Hp); [|done|].
    { apply (f_equal length) in Hb2. rewrite !length_map in Hb2. unfold ltof. cbn. lia. }
    rewrite (bare_timestamps _ _ Hb2) in Hrun. exists L', w'. split; [done|].
    destruct Hp as (f' & lv' & freed & Hok' & Hb' & Hfm & Hown' & Hfd & Hfr').
    destruct (bare_victims _ _ Hb2) as [Ev Ek]. rewrite Ev in *.
    exists f', lv', (map (fun x => xptr (fst x)) (List.filter (orphaned (timestamp s)) (owned L)) ++ freed).
    split; [done|]. unfold victims, kept. cbn [List.filter]. rewrite Ed. cbn [negb map].
    fold (victims cand). fold (kept cand).
    split; [by rewrite Hb', !map_app, Hb1, Ek|]. split.
    { apply (same_frame_trans _ L1); [|done]. repeat split; done. }
    rewrite disown_all_cons, orphans_cons.
    split; [rewrite Hown'; by apply omap_perm|]. split; [|by apply (frees_app _ _ w1)].
    rewrite Hfd. apply Permutation_app; [done|]. by apply Permutation_map, filter_perm.
  - assert (Hd : negb (occupancy s =? 0) || negb (type s =? SN_REGULAR_SNAPSHOT) = true).
    { rewrite <- negb_andb. fold (discardable s). by rewrite Ed. }
    rewrite Hd. destruct (IHn cand) with (L := L) (w := w) (fut := fut) (l1 := l1 ++ [s]) as (L' & w' & Hrun & Hp).
    { unfold ltof. cbn. lia. } { rewrite <- app_assoc. done. }
    exists L', w'. split; [done|]. destruct Hp as (f' & lv' & freed & Hok' & Hb' & Hrest).
    exists f', lv', freed. split; [done|]. unfold victims, kept. cbn [List.filter]. rewrite Ed. cbn [negb].
    split; [|done]. rewrite Hb', <- app_assoc. done.
Qed.

Lemma purify_ok clk L w keep :
  snapshots_ok clk L ->
  exists L1 w' l1 cand,
    PurifySnapshots freeBlock keep (L, w) = Done tt (AutoDamageSnapshotsAndScanForGarbage L1 keep, w')
    /\ from_current L = l1 ++ cand
    /\ l1 = (if keep then take 1 (from_current L) else [])
    /\ purified clk L w l1 cand L1 w'.
Proof.
  intros (fut & lv & Hok). assert (Hok' := Hok). destruct Hok' as (Hl & Hlok & _).
  destruct (current_split L fut lv Hl) as [_ Hcur]; [apply Hlok|apply Hlok|].
  unfold PurifySnapshots. rewrite Hcur.
  destruct (purify_loop_ok clk (if keep then tl lv else lv) L w fut (if keep then take 1 lv else []))
    as (L1 & w' & Hrun & Hp); [destruct keep; [by destruct lv|done]|].
  exists L1, w', (if keep then take 1 lv else []), (if keep then tl lv else lv).
  split; [|split; [by destruct keep; [destruct lv|]|done]].
  replace (if keep then tl (map timestamp lv) else map timestamp lv) with (map timestamp (if keep then tl lv else lv))
    by (by destruct keep; [destruct lv|]).
  unfold wu_bind. destruct keep; rewrite Hrun; done.
Qed.
End Purify.
