(* ===== verification/SnOps.v ===== *)
(** * Creating snapshots, active timestamps and pushed versions

    The remaining changes of the list of snapshots and what they do to the
    invariant and to the ownership of versions. *)

From Stdlib Require Import ZArith List Lia Bool Sorted.
From stdpp Require Import base list sets sorting.
From S2P Require Import Prelude WuBase Snapshots SnGc SnApi SnInv SnPurify.
Local Open Scope sedna_scope.
Local Open Scope Z_scope.

(** ** A future snapshot gets a timestamp *)

Lemma own_nodes_nil_len os os' c :
  length os = length os' -> own_nodes os c = [] -> own_nodes os' c = [].
Proof.
  revert os' c; induction os as [|o os IH]; intros [|o' os'] [|n c] H E; cbn in *; try done.
  apply app_eq_nil in E as [E1 E2]. apply map_eq_nil in E1. rewrite E1. cbn. apply IH; [lia|done].
Qed.

(** Nodes whose owners contain [x] have no versions: their owner may change. *)
Lemma own_nodes_rename (Q : list TIMESTAMP) x y P c :
  (forall e o, (e, o) ∈ own_nodes (prefixes (Q ++ x :: P)) c -> x ∉ o) ->
  own_nodes (prefixes (Q ++ y :: P)) c = own_nodes (prefixes (Q ++ x :: P)) c.
Proof.
  intros H. destruct (le_lt_dec (length c) (length Q)) as [Hc|Hc].
  { rewrite !prefixes_app, !own_nodes_prefix; rewrite ?prefixes_length; done. }
  assert (Hl : length (take (length Q) c) = length (prefixes Q)).
  { rewrite length_take, prefixes_length. lia. }
  rewrite <- (take_drop (length Q) c) in H |- *. rewrite !prefixes_app in *.
  rewrite own_nodes_app in H by done. rewrite !own_nodes_app by done. f_equal.
  assert (E : own_nodes (map (app Q) (prefixes (x :: P))) (drop (length Q) c) = []).
  { destruct (own_nodes _ (drop (length Q) c)) as [|[e o] l] eqn:E; [done|]. exfalso.
    assert (Hin : (e, o) ∈ own_nodes (map (app Q) (prefixes (x :: P))) (drop (length Q) c)) by (rewrite E; left).
    apply (H e o); [apply elem_of_app; right; left|].
    apply own_nodes_owner, list_elem_of_fmap in Hin as (q & -> & Hq). apply elem_of_app. right.
    cbn in Hq. apply elem_of_cons in Hq as [->|Hq]; [left|].
    apply list_elem_of_fmap in Hq as (q' & -> & _). left. }
  rewrite E. apply (own_nodes_nil_len (map (app Q) (prefixes (x :: P)))); [|done].
  rewrite !length_map, !prefixes_length. done.
Qed.

Lemma owned_from_rename l : forall Q x y P,
  (forall e o, (e, o) ∈ owned_from (Q ++ x :: P) l -> x ∉ o) ->
  owned_from (Q ++ y :: P) l = owned_from (Q ++ x :: P) l.
Proof.
  induction l as [|s l IH]; intros Q x y P H; [done|]. cbn [owned_from] in *. f_equal.
  - apply (own_nodes_rename (timestamp s :: Q)). intros e o Hin. apply (H e o), elem_of_app. by left.
  - apply (IH (timestamp s :: Q)). intros e o Hin. apply (H e o), elem_of_app. by right.
Qed.

Lemma create_gc l1 s l2 ts acts ty :
  timestamp s = INVALID_TIMESTAMP -> gc_ok (l1 ++ s :: l2) ->
  let s' := mk_snapshot ts acts (gcChain s) ty 0 false in
  owned_from [] (l1 ++ s' :: l2) = owned_from [] (l1 ++ s :: l2)
  /\ shape 0 (l1 ++ s' :: l2).
Proof.
  intros Ht [Hs Ho]. cbn. rewrite !owned_from_app in *. cbn [owned_from timestamp gcChain] in *.
  rewrite Ht in *. split.
  - f_equal. f_equal.
    + apply (own_nodes_rename []). intros e o Hin. apply (Ho e o). rewrite !elem_of_app. tauto.
    + apply (owned_from_rename _ []). intros e o Hin. apply (Ho e o). rewrite !elem_of_app. tauto.
  - apply shape_app in Hs as (H1 & H2 & H3). apply shape_app. done.
Qed.

Lemma list_ok_create clk acts fut s lv ts ty c clk' :
  live_type ty -> IsValidTimestamp ts = true -> clk <= ts < clk' ->
  (count_type SN_PERSISTENT_SNAPSHOT lv + (if (ty =? SN_PERSISTENT_SNAPSHOT)%Z then 1 else 0) <= 1)%nat ->
  (count_type SN_PREV_PERSISTENT_SNAPSHOT lv + (if (ty =? SN_PREV_PERSISTENT_SNAPSHOT)%Z then 1 else 0) <= 1)%nat ->
  (undamaged lv < 2)%nat ->
  list_ok clk acts (fut ++ [s]) lv ->
  list_ok clk' acts fut (mk_snapshot ts acts c ty 0 false :: lv).
Proof.
  intros Hty Hv Hclk Hp Hpp Hu [H1 H2 H3 H4 H5 H6 H7 H8 H9 H10]. constructor; try done.
  - by apply Forall_app in H1 as [H1 _].
  - constructor; [|done]. constructor; cbn; done.
  - cbn. constructor; [done|]. apply Forall_map. revert H4. rewrite !Forall_forall. cbn. intros H x Hx.
    specialize (H x Hx). lia.
  - constructor; [cbn; lia|]. revert H4. rewrite !Forall_forall. intros H x Hx. specialize (H x Hx). lia.
  - revert H6. rewrite !Forall_forall. intros H x Hx. specialize (H x Hx). cbn in H. lia.
  - split; [auto|]. split; [|done]. intros t Ht. rewrite Forall_forall in H6. specialize (H6 t Ht). cbn in *. lia.
  - rewrite count_cons. cbn. lia.
  - rewrite count_cons. cbn. lia.
Qed.

(** The place [CreateSnapshot] chooses: the last future snapshot. *)
Lemma create_ok clk L fut lv ts ty clk' :
  split_ok clk L fut lv -> live_type ty -> IsValidTimestamp ts = true -> clk <= ts < clk' ->
  (count_type SN_PERSISTENT_SNAPSHOT lv + (if (ty =? SN_PERSISTENT_SNAPSHOT)%Z then 1 else 0) <= 1)%nat ->
  (count_type SN_PREV_PERSISTENT_SNAPSHOT lv + (if (ty =? SN_PREV_PERSISTENT_SNAPSHOT)%Z then 1 else 0) <= 1)%nat ->
  (undamaged lv < 2)%nat ->
  match fut with
  | [] => CreateSnapshot L ts ty = Throw WUERR_MAX_NUMBER_OF_SNAPSHOTS_EXCEEDED
  | _ :: _ => exists L' fut' c, CreateSnapshot L ts ty = Ok L'
      /\ split_ok clk' L' fut' (mk_snapshot ts (ts_active L) c ty 0 false :: lv)
      /\ same_frame L L' /\ owned L' = owned L
  end.
Proof.
  intros (Hl & Hok & Hgc & Hlen) Hty Hv Hclk Hp Hpp Hu. unfold CreateSnapshot. rewrite Hv. cbn [negb].
  destruct (current_split L fut lv Hl) as [Hcur _]; [apply Hok|apply Hok|].
  destruct fut as [|f0 fut0].
  { rewrite Hl. destruct lv as [|s lv]; [by rewrite Hl in Hlen|]. cbn [app].
    assert (Hs : live_ok s) by (assert (H := ls_live _ _ _ _ Hok); by apply Forall_cons in H as [H _]).
    destruct (lv_type _ Hs) as [->|[->| ->]]; done. }
  assert (Hf0 : type f0 = SN_FUTURE_SNAPSHOT).
  { assert (H := ls_future _ _ _ _ Hok). apply Forall_cons in H as [H _]. by apply future_fields in H as (_ & _ & -> & _). }
  destruct (exists_last (l := f0 :: fut0)) as (f & x & Hfx); [done|].
  assert (Hlead : leading L = f ++ x :: lv) by (by rewrite Hl, Hfx, <- app_assoc).
  assert (Hx : timestamp x = INVALID_TIMESTAMP).
  { assert (H := ls_future _ _ _ _ Hok). rewrite Hfx, Forall_app, Forall_cons in H.
    destruct H as (_ & H & _). by destruct (future_fields x H). }
  assert (Hpos : match GetCurrentSnapshot L with Some (S p, _) => p | _ => pred (length (leading L)) end = length f).
  { rewrite Hcur, Hlead. destruct lv as [|s lv].
    - rewrite length_app. cbn. lia.
    - rewrite Hfx, length_app. cbn. by rewrite Nat.add_1_r. }
  exists (set_leading (f ++ mk_snapshot ts (ts_active L) (gcChain x) ty 0 false :: lv) L), f, (gcChain x).
  split.
  { rewrite Hpos. rewrite Hl at 1. cbn [app]. rewrite Hf0. cbn [Z.eqb negb SN_FUTURE_SNAPSHOT Pos.eqb].
    rewrite Hlead, lookup_app_r, Nat.sub_diag by lia. cbn [lookup list_lookup].
    rewrite insert_app_r_alt, Nat.sub_diag by lia. done. }
  rewrite Hlead in Hgc. destruct (create_gc f x lv ts (ts_active L) ty Hx Hgc) as [Ho Hsh].
  split; [|split; [done|]].
  - split; [done|]. split; [|split; [split; [done|]|]].
    + cbn [set_leading ts_active]. apply (list_ok_create clk _ _ x); try done. by rewrite <- Hfx.
    + cbn [set_leading leading]. rewrite Ho. apply Hgc.
    + cbn [set_leading leading]. rewrite Hlead in Hlen. rewrite length_app in *. cbn in *. lia.
  - unfold owned. cbn [set_leading leading]. rewrite Hlead. exact Ho.
Qed.

(** ** Active timestamps *)

Lemma lower_bound_spec l ts a b :
  older_first l -> lower_bound l ts = (a, b) ->
  l = a ++ b /\ Forall (fun x => x < ts) a /\ Forall (fun x => ts <= x) b.
Proof.
  revert a b; induction l as [|x l IH]; intros a b Hs; cbn; [by intros [= <- <-]|].
  apply StronglySorted_inv in Hs as [Hs Hf]. destruct (Z.ltb_spec x ts) as [Hx|Hx].
  - destruct (lower_bound l ts) as [a' b'] eqn:E. intros [= <- <-].
    destruct (IH a' b' Hs eq_refl) as (-> & H1 & H2). repeat split; [|done]. by constructor.
  - intros [= <- <-]. repeat split; [done|]. constructor; [done|].
    revert Hf. rewrite !Forall_forall. intros Hf y Hy. specialize (Hf y Hy). lia.
Qed.

Lemma binary_search_spec l ts : older_first l -> binary_search l ts = true <-> ts ∈ l.
Proof.
  intros Hs. unfold binary_search. destruct (lower_bound l ts) as [a b] eqn:E.
  destruct (lower_bound_spec _ _ _ _ Hs E) as (-> & Ha & Hb). cbn.
  assert (Hna : ts ∉ a). { intros H. rewrite Forall_forall in Ha. specialize (Ha _ H). cbn in Ha. lia. }
  destruct b as [|x b].
  - rewrite app_nil_r. split; [done|]. done.
  - apply Forall_cons in Hb as [Hx Hb]. split.
    + intros H%negb_true_iff%Z.ltb_ge. assert (x = ts) as -> by lia. apply elem_of_app. right. left.
    + intros [H|H]%elem_of_app; [done|]. apply negb_true_iff, Z.ltb_ge.
      apply elem_of_cons in H as [->|H]; [lia|].
      assert (Hsx : older_first (x :: b)). { clear -Hs. induction a as [|y a IH]; [done|]. apply IH. by apply StronglySorted_inv in Hs as [Hs _]. }
      apply StronglySorted_inv in Hsx as [_ Hsx]. rewrite Forall_forall in Hsx. specialize (Hsx _ H). lia.
Qed.

Lemma list_ok_acts clk clk' acts acts' fut lv :
  clk <= clk' -> older_first acts' ->
  (forall t, t ∈ acts' -> t ∈ acts \/ (TIMESTAMP_MIN <= t /\ clk <= t < clk')) ->
  list_ok clk acts fut lv -> list_ok clk' acts' fut lv.
Proof.
  intros Hc Hs Hin [H1 H2 H3 H4 H5 H6 H7 H8 H9 H10]. constructor; try done.
  - revert H4. rewrite !Forall_forall. intros H x Hx. specialize (H x Hx). lia.
  - rewrite Forall_forall in *. intros t Ht. destruct (Hin t Ht) as [H|H]; [|lia].
    specialize (H6 t H). cbn in H6. lia.
  - destruct lv as [|s lv]; [done|]. destruct H7 as (H71 & H72 & H73). split; [|done].
    intros t Ht. destruct (Hin t Ht) as [H|H]; [auto|]. left.
    apply Forall_cons in H4 as [H4 _]. lia.
Qed.

Lemma add_active_ok clk L L' fut lv :
  split_ok clk L fut lv -> AddActiveTimestamp L clk = Ok L' ->
  split_ok (clk + 1) L' fut lv /\ ts_active L' = ts_active L ++ [clk] /\ leading L' = leading L.
Proof.
  intros (Hl & Hok & Hgc & Hlen). unfold AddActiveTimestamp.
  destruct (IsValidTimestamp clk) eqn:Hv; [|done]. cbn.
  destruct (_ =? _); [done|]. intros [= <-]. split; [|done]. split; [done|]. split; [|done]. cbn.
  apply IsValidTimestamp_spec in Hv.
  apply (list_ok_acts clk _ (ts_active L)); [lia| |intros t [H|H%list_elem_of_singleton]%elem_of_app; [by left|right; subst; lia]|done].
  assert (H1 := ls_acts _ _ _ _ Hok). assert (H2 := ls_acts_past _ _ _ _ Hok).
  clear -H1 H2. induction H1 as [|x l H IH Hf]; cbn; [by repeat constructor|].
  apply Forall_cons in H2 as [Hx H2]. constructor; [auto|]. apply Forall_app. split; [done|].
  constructor; [lia|done].
Qed.

Lemma remove_active_ok clk L fut lv ts :
  split_ok clk L fut lv -> split_ok clk (RemoveActiveTimestamp L ts) fut lv
  /\ ts_active (RemoveActiveTimestamp L ts) = List.filter (fun t => negb (t =? ts)) (ts_active L)
  /\ leading (RemoveActiveTimestamp L ts) = leading L.
Proof.
  intros (Hl & Hok & Hgc & Hlen). assert (Hs := ls_acts _ _ _ _ Hok).
  assert (E : ts_active (RemoveActiveTimestamp L ts) = List.filter (fun t => negb (t =? ts)) (ts_active L)
          /\ leading (RemoveActiveTimestamp L ts) = leading L).
  { unfold RemoveActiveTimestamp. destruct (lower_bound (ts_active L) ts) as [a b] eqn:Elb.
    destruct (lower_bound_spec _ _ _ _ Hs Elb) as (Ea & Ha & Hb).
    assert (Fa : List.filter (fun t => negb (t =? ts)) a = a).
    { apply filter_all. intros x Hx. rewrite Forall_forall in Ha. specialize (Ha x Hx). cbn in Ha.
      apply negb_true_iff, Z.eqb_neq. lia. }
    rewrite Ea, List.filter_app, Fa. rewrite Ea in Hs. destruct b as [|x b]; [by rewrite !app_nil_r in *|].
    assert (Hsx : older_first (x :: b)).
    { clear -Hs. induction a as [|y a IH]; [done|]. apply IH. by apply StronglySorted_inv in Hs as [Hs _]. }
    apply StronglySorted_inv in Hsx as [_ Hsx]. apply Forall_cons in Hb as [Hx Hb].
    assert (Fb : List.filter (fun t => negb (t =? ts)) b = b).
    { apply filter_all. intros y Hy. rewrite Forall_forall in Hsx. specialize (Hsx y Hy).
      apply negb_true_iff, Z.eqb_neq. lia. }
    cbn [List.filter]. rewrite Fb. destruct (Z.eqb_spec x ts); cbn; done. }
  destruct E as [E1 E2]. split; [|done]. split; [by rewrite E2|]. rewrite E2. split; [|done]. rewrite E1.
  apply (list_ok_acts clk _ (ts_active L)); [lia| | |done].
  - clear -Hs. induction Hs as [|x l H IH Hf]; cbn; [constructor|]. destruct (negb (x =? ts)); [|done].
    constructor; [done|]. rewrite Forall_forall in *. intros y Hy. apply Hf.
    rewrite list_elem_of_In, filter_In in Hy. apply list_elem_of_In. tauto.
  - intros t Ht. rewrite list_elem_of_In, filter_In in Ht. left. apply list_elem_of_In. tauto.
Qed.

(** ** Pushed versions *)

Lemma own_nodes_push os c i o n e g :
  os !! i = Some o -> c !! i = Some n ->
  own_nodes os (<[i := push_entry e g n]> c) ≡ₚ (e, o) :: own_nodes os c.
Proof.
  revert c i; induction os as [|q os IH]; intros [|m c] [|i] Ho Hc; cbn in *; try done.
  - injection Ho as ->. injection Hc as ->. rewrite map_app. cbn. solve_Permutation.
  - rewrite (IH c i Ho Hc). solve_Permutation.
Qed.

Lemma prefixes_lookup {A} (l : list A) i : (i < length l)%nat -> prefixes l !! i = Some (take (S i) l).
Proof.
  revert i; induction l as [|x l IH]; intros [|i] H; cbn in *; try lia; [done|].
  change (map (cons x) (prefixes l) !! i) with ((cons x <$> prefixes l) !! i).
  rewrite list_lookup_fmap, IH by lia. done.
Qed.

Lemma node_by_index c i : (i < length c)%nat -> GetGcNodeByIndex c i = Some i.
Proof.
  revert i; induction c as [|n c IH]; intros i H; [cbn in H; lia|].
  destruct c as [|m c]; [cbn in H; replace i with 0%nat by lia; done|].
  destruct i as [|i]; [done|]. cbn [length] in H. cbn -[GetGcNodeByIndex].
  change (GetGcNodeByIndex (n :: m :: c) (S i)) with (option_map S (GetGcNodeByIndex (m :: c) i)).
  rewrite IH by (cbn; lia). done.
Qed.

Lemma push_version_ok clk L fut l1 s l2 level e g :
  split_ok clk L fut (l1 ++ s :: l2) -> (level <= length l1)%nat ->
  exists L' lv', push_version L (length fut + length l1) level e g = Some L'
    /\ split_ok clk L' fut lv' /\ map bare lv' = map bare (l1 ++ s :: l2)
    /\ same_frame L L'
    /\ owned L' ≡ₚ (e, timestamp s :: take level (rev (map timestamp l1))) :: owned L.
Proof.
  intros (Hl & Hok & Hgc & Hlen) Hlev. unfold push_version.
  assert (Hlook : leading L !! (length fut + length l1)%nat = Some s).
  { rewrite Hl, lookup_app_r by lia. rewrite lookup_app_r by lia.
    replace (length fut + length l1 - length fut - length l1)%nat with 0%nat by lia. done. }
  rewrite Hlook.
  assert (Hs : length (gcChain s) = S (length fut + length l1)).
  { destruct Hgc as [Hs _]. rewrite Hl, app_assoc in Hs. apply shape_app in Hs as (_ & Hs & _).
    rewrite length_app in Hs. cbn in Hs. lia. }
  rewrite node_by_index by lia.
  destruct (lookup_lt_is_Some_2 (gcChain s) level) as [n Hn]; [lia|]. rewrite Hn.
  set (s' := set_gcChain _ s).
  assert (Hins : <[(length fut + length l1)%nat := s']> (leading L) = fut ++ l1 ++ s' :: l2).
  { rewrite Hl, insert_app_r, insert_app_r_alt, Nat.sub_diag by lia. done. }
  eexists _, (l1 ++ s' :: l2). split; [reflexivity|]. rewrite Hins.
  assert (Hb : map bare (l1 ++ s' :: l2) = map bare (l1 ++ s :: l2)) by (by rewrite !map_app).
  assert (Hown : owned_from [] (fut ++ l1 ++ s' :: l2)
                 ≡ₚ (e, timestamp s :: take level (rev (map timestamp l1))) :: owned L).
  { unfold owned. rewrite Hl, !owned_from_app. cbn [owned_from].
    change (timestamp s') with (timestamp s). change (gcChain s') with (<[level := push_entry e g n]> (gcChain s)).
    rewrite (own_nodes_push _ _ _ (timestamp s :: take level (rev (map timestamp l1)))); [solve_Permutation| |done].
    rewrite prefixes_lookup.
    - cbn [take]. do 2 f_equal. rewrite app_nil_r, take_app_le; [done|]. rewrite length_rev, length_map. done.
    - cbn. rewrite !length_app, length_rev, length_map. cbn. lia. }
  split; [|split; [done|split; [done|exact Hown]]].
  split; [done|]. split; [by apply (list_ok_bare _ _ fut _ (l1 ++ s :: l2))|]. cbn [set_leading leading].
  split; [split|].
  - destruct Hgc as [Hsh _]. rewrite Hl in Hsh. rewrite app_assoc in *. apply shape_app in Hsh as (H1 & H2 & H3).
    apply shape_app. split; [done|]. cbn. rewrite length_insert. done.
  - intros e' o Hin. rewrite Hown in Hin. apply elem_of_cons in Hin as [[= -> ->]|Hin]; [|by apply (proj2 Hgc) in Hin].
    assert (Hlv := invalid_not_live _ (ls_live _ _ _ _ Hok)). rewrite map_app in Hlv. cbn in Hlv.
    rewrite not_elem_of_app, not_elem_of_cons in Hlv. intros [Hi|Hi]%elem_of_cons; [tauto|].
    apply elem_of_take in Hi as (i & Hi & _). apply list_elem_of_lookup_2 in Hi.
    rewrite list_elem_of_In, <- in_rev, <- list_elem_of_In in Hi. tauto.
  - rewrite <- Hlen, Hl, !length_app. done.
Qed.

(** The snapshots a version with this anchor belongs to when it is submitted
    while [cur] is current, the oldest first. *)
Definition dependents (anchor cur : TIMESTAMP) (lv : list SnSnapshot) : list TIMESTAMP :=
  rev (List.filter (fun t => (anchor <=? t) && (t <=? cur)) (map timestamp lv)).

Lemma entry_loop_spec p lv cur :
  newer_first (map timestamp lv) ->
  (exists l1 s next, lv = l1 ++ s :: next /\ entry_loop p lv cur = AtSnapshot (p + length l1)
     /\ Forall (fun x => cur < timestamp x) l1 /\ timestamp s <= cur
     /\ Forall (fun x => timestamp x < timestamp s) next)
  \/ (entry_loop p lv cur = Infinipast /\ Forall (fun x => cur < timestamp x) lv).
Proof.
  revert p; induction lv as [|s lv IH]; intros p Hs; cbn in *; [right; done|].
  apply StronglySorted_inv in Hs as [Hs Hf]. destruct (Z.ltb_spec cur (timestamp s)).
  - destruct (IH (S p) Hs) as [(l1 & x & next & -> & E & H1 & H2 & H3)|[E H1]].
    + left. exists (s :: l1), x, next. rewrite E. cbn. repeat split; [by rewrite Nat.add_succ_r| |done|done].
      by constructor.
    + right. split; [done|]. by constructor.
  - left. exists [], s, lv. cbn. rewrite Nat.add_0_r. repeat split; [constructor|lia|].
    by rewrite Forall_map in Hf.
Qed.

Lemma filter_above anchor cur l :
  Forall (fun x => cur < timestamp x) l ->
  List.filter (fun t => (anchor <=? t) && (t <=? cur)) (map timestamp l) = [].
Proof.
  intros H. apply filter_none. intros t Ht. apply list_elem_of_fmap in Ht as (s & -> & Hs).
  rewrite Forall_forall in H. specialize (H s Hs). cbn in H.
  apply andb_false_iff. right. apply Z.leb_gt. lia.
Qed.

(** The run of dependent snapshots after the first one. *)
Lemma dependent_run anchor next : newer_first (map timestamp next) ->
  exists pre post, next = pre ++ post /\ dependent_level next anchor = length pre
    /\ Forall (fun x => anchor <= timestamp x) pre /\ Forall (fun x => timestamp x < anchor) post.
Proof.
  induction next as [|s next IH]; intros Hs; cbn in *; [by exists [], []|].
  apply StronglySorted_inv in Hs as [Hs Hf]. destruct (Z.leb_spec anchor (timestamp s)).
  - destruct (IH Hs) as (pre & post & -> & -> & H1 & H2). exists (s :: pre), post. repeat split; [|done].
    by constructor.
  - exists [], (s :: next). repeat split; [constructor|]. constructor; [done|].
    rewrite Forall_map in Hf. revert Hf. rewrite !Forall_forall. intros Hf x Hx. specialize (Hf x Hx). lia.
Qed.

Lemma find_dependent_spec L fut lv anchor cur :
  leading L = fut ++ lv -> Forall future_ok fut -> Forall live_ok lv ->
  newer_first (map timestamp lv) -> 0 < anchor ->
  match find_dependent L (find_entry L false cur) anchor with
  | None => dependents anchor cur lv = []
  | Some (AtSnapshot p, level) => exists l1 s l2,
      lv = l1 ++ s :: l2 /\ p = (length fut + length l1)%nat /\ (level <= length l1)%nat
      /\ timestamp s :: take level (rev (map timestamp l1)) = dependents anchor cur lv
  | Some (Infinipast, _) => False
  end.
Proof.
  intros Hl Hf Hv Hs Ha. unfold find_entry. destruct (current_split L fut lv Hl Hf Hv) as [-> _].
  destruct lv as [|c lv0]; [cbn; destruct (Z.ltb_spec 0 anchor); [done|lia]|].
  rewrite Hl, drop_app_length. set (lv := c :: lv0) in *.
  destruct (entry_loop_spec (length fut) lv cur Hs) as [(l1 & s & next & Hlv & -> & H1 & H2 & H3)|[-> H1]].
  - unfold find_dependent. rewrite Hl, Hlv, drop_app_add, drop_app_length.
    unfold dependents. rewrite map_app, List.filter_app, filter_above by done. cbn [app map List.filter].
    assert (Hn : newer_first (map timestamp (s :: next))).
    { rewrite Hlv, map_app in Hs. clear -Hs. induction l1 as [|y l1 IH]; [done|]. apply IH. by apply StronglySorted_inv in Hs as [Hs _]. }
    assert (Hc : (timestamp s <=? cur) = true) by (by apply Z.leb_le).
    destruct (Z.ltb_spec (timestamp s) anchor).
    + destruct (Z.leb_spec anchor (timestamp s)); [lia|]. cbn [andb].
      rewrite (filter_none _ (map timestamp next)); [done|]. intros t Ht.
      apply list_elem_of_fmap in Ht as (x & -> & Hx). rewrite Forall_forall in H3. specialize (H3 x Hx). cbn in H3.
      apply andb_false_iff. left. apply Z.leb_gt. lia.
    + destruct (Z.leb_spec anchor (timestamp s)); [|lia]. rewrite Hc. cbn [andb].
      apply StronglySorted_inv in Hn as [Hn _].
      destruct (dependent_run anchor next Hn) as (pre & post & -> & -> & Hp1 & Hp2).
      assert (Hpre : List.filter (fun t => (anchor <=? t) && (t <=? cur)) (map timestamp pre) = map timestamp pre).
      { apply filter_all. intros t Ht. apply list_elem_of_fmap in Ht as (x & -> & Hx).
        rewrite Forall_app, !Forall_forall in H3. rewrite Forall_forall in Hp1.
        specialize (proj1 H3 x Hx). specialize (Hp1 x Hx). cbn in *.
        intros. apply andb_true_iff. split; apply Z.leb_le; lia. }
      assert (Hpost : List.filter (fun t => (anchor <=? t) && (t <=? cur)) (map timestamp post) = []).
      { apply filter_none. intros t Ht. apply list_elem_of_fmap in Ht as (x & -> & Hx).
        rewrite Forall_forall in Hp2. specialize (Hp2 x Hx). cbn in Hp2.
        apply andb_false_iff. left. apply Z.leb_gt. lia. }
      rewrite map_app, List.filter_app, Hpre, Hpost, app_nil_r.
      destruct (exists_last (l := s :: pre)) as (q & x & Hq); [done|].
      exists (l1 ++ q), x, post. split; [rewrite <- app_assoc; change (s :: pre ++ post) with ((s :: pre) ++ post); by rewrite Hq, <- app_assoc|].
      assert (Hlen : length pre = length q).
      { apply (f_equal length) in Hq. rewrite length_app in Hq. cbn in Hq. lia. }
      split; [rewrite length_app; lia|]. split; [rewrite length_app; lia|].
      change (timestamp s :: map timestamp pre) with (map timestamp (s :: pre)). rewrite Hq, !map_app, !rev_app_distr. cbn [map rev app].
      f_equal. rewrite take_app_le; rewrite ?length_rev, ?length_map; [|lia].
      rewrite <- (length_map timestamp), <- length_rev in Hlen |- *. rewrite Hlen.
      by rewrite <- (length_map timestamp), <- length_rev, firstn_all.
  - unfold find_dependent. destruct (Z.ltb_spec 0 anchor); [|lia].
    unfold dependents. by rewrite filter_above.
Qed.

(** ** SubmitRequestForGc *)

Definition entry_of (r : SnRequestForGc) : SnVersionEntry :=
  mk_entry (if is_add_bogus (rq_type r) then 0 else rq_lxptr r) (rq_xptr r).

Section Submit.
Context {W : Type} (freeBlock : XPTR -> wu W unit) (Hfree : free_total freeBlock).

(** The effect of one request: nothing, a freed block, or one more owned
    version. *)
Definition submitted (cur : TIMESTAMP) (lv : list SnSnapshot) (r : SnRequestForGc)
    (before after : list owned_version) (w w' : W) : Prop :=
  match rq_type r with
  | SN_REQUEST_NOP => after = before /\ w' = w
  | SN_REQUEST_DISCARD_VERSION => after = before /\ frees freeBlock w [rq_xptr r] w'
  | _ =>
      match dependents (anchorTs r) cur lv with
      | [] => after = before /\ frees freeBlock w [rq_xptr r] w'
      | o => after ≡ₚ (entry_of r, o) :: before /\ w' = w
      end
  end.

Lemma free_version_ok L w x :
  exists w', free_version freeBlock x (L, w) = Done tt (L, w') /\ frees freeBlock w [x] w'.
Proof.
  destruct (Hfree x w) as [w' E]. exists w'. unfold free_version. rewrite E. split; [done|].
  econstructor; [done|constructor].
Qed.

Lemma valid_anchor_pos r :
  ValidateRequestForGc r = true -> is_add_normal (rq_type r) || is_add_bogus (rq_type r) = true ->
  0 < anchorTs r.
Proof.
  unfold ValidateRequestForGc. destruct (rq_type r); cbn; try done; rewrite !andb_true_iff, orb_true_iff;
    intros [_ [H|H]] _; try (apply IsValidTimestamp_spec in H; ts_lia); apply Z.eqb_eq in H; rewrite H; done.
Qed.

Lemma set_runaway_ok clk L fut lv n :
  split_ok clk L fut lv -> split_ok clk (set_runawayCount n L) fut lv.
Proof. done. Qed.

Lemma submit_ok clk L fut lv cur r w :
  split_ok clk L fut lv -> ValidateRequestForGc r = true ->
  exists L' w' lv', SubmitRequestForGc freeBlock (find_entry L false cur) r (L, w) = Done tt (L', w')
    /\ split_ok clk L' fut lv' /\ map bare lv' = map bare lv
    /\ ts_active L' = ts_active L /\ nClientsMax L' = nClientsMax L
    /\ submitted cur lv r (owned L) (owned L') w w'.
Proof.
  intros Hok Hval. unfold SubmitRequestForGc, submitted. rewrite Hval. cbn [negb].
  destruct (rq_type r) eqn:Ety.
  { exists L, w, lv. done. }
  { assert (H : exists w', free_version freeBlock (rq_xptr r) (L, w) = Done tt (L, w')
        /\ frees freeBlock w [rq_xptr r] w') by apply free_version_ok.
    destruct H as (w' & E & Hf). cbn [is_add_normal].
    destruct (find_dependent _ _ _) as [[p lev]|]; rewrite E; exists L, w', lv; done. }
  all: assert (Ha : 0 < anchorTs r) by (apply valid_anchor_pos; [done|by rewrite Ety]).
  all: assert (Hok' := Hok); destruct Hok' as (Hl & Hlok & Hgc & Hlen).
  all: assert (Hd := find_dependent_spec L fut lv (anchorTs r) cur Hl (ls_future _ _ _ _ Hlok)
                       (ls_live _ _ _ _ Hlok) (ls_order _ _ _ _ Hlok) Ha).
  all: destruct (find_dependent _ _ _) as [[[p|] lev]|]; cbn [is_add_normal is_add_bogus]; [|done|].
  1, 3: destruct Hd as (l1 & s & l2 & -> & -> & Hlev & Hdep).
  1, 2: edestruct (push_version_ok clk L fut l1 s l2 lev) as (L' & lv' & -> & Hok' & Hb & (E1 & _ & E3) & Hown);
          [done|done|]; exists L', w, lv'; split; [done|]; split; [done|]; split; [done|]; split; [done|];
          split; [done|]; rewrite <- Hdep; split; [|done]; rewrite Hown; unfold entry_of; by rewrite Ety.
  all: rewrite Hd; edestruct (free_version_ok) as (w' & E & Hf); rewrite E; eexists _, w', lv; split; [done|]; done.
Qed.

Lemma find_entry_bare L L' fut lv lv' cur clk :
  split_ok clk L fut lv -> split_ok clk L' fut lv' -> map bare lv' = map bare lv ->
  find_entry L' false cur = find_entry L false cur.
Proof.
  intros (Hl & Hok & _) (Hl' & Hok' & _) Hb. unfold find_entry.
  destruct (current_split L fut lv Hl) as [-> _]; [apply Hok|apply Hok|].
  destruct (current_split L' fut lv' Hl') as [-> _]; [apply Hok'|apply Hok'|].
  destruct lv as [|s lv], lv' as [|s' lv']; try done.
  rewrite Hl, Hl', !drop_app_length. revert Hb. generalize (s :: lv) (s' :: lv') (length fut).
  intros l l' p Hb. revert p. revert l l' Hb.
  apply (bare_list_ind (fun l l' => forall p, entry_loop p l' cur = entry_loop p l cur)); [done|].
  intros x x' l l' Hx _ IH p. cbn. apply bare_eq in Hx as (-> & _). by destruct (_ <? _).
Qed.

Lemma dependents_bare anchor cur lv lv' :
  map bare lv' = map bare lv -> dependents anchor cur lv' = dependents anchor cur lv.
Proof. intros H. unfold dependents. by rewrite (bare_timestamps _ _ H). Qed.

(** The effects of a list of requests, in order. *)
Inductive all_submitted (cur : TIMESTAMP) (lv : list SnSnapshot)
  : list SnRequestForGc -> list owned_version -> list owned_version -> W -> W -> Prop :=
| all_nil o w : all_submitted cur lv [] o o w w
| all_cons r rs o o1 o2 w w1 w2 :
    submitted cur lv r o o1 w w1 -> all_submitted cur lv rs o1 o2 w1 w2 ->
    all_submitted cur lv (r :: rs) o o2 w w2.

Lemma submitted_one cur lv r o o' w w' : all_submitted cur lv [r] o o' w w' -> submitted cur lv r o o' w w'.
Proof. intros H. inversion H as [|? ? ? ? ? ? ? ? Hsub Hnil]; subst. by inversion Hnil; subst. Qed.

Lemma submit_all_ok clk cur rs : forall L fut lv w,
  split_ok clk L fut lv -> Forall (fun r => ValidateRequestForGc r = true) rs ->
  exists L' w' lv', submit_all freeBlock (find_entry L false cur) rs (L, w) = Done tt (L', w')
    /\ split_ok clk L' fut lv' /\ map bare lv' = map bare lv
    /\ ts_active L' = ts_active L /\ nClientsMax L' = nClientsMax L
    /\ all_submitted cur lv rs (owned L) (owned L') w w'.
Proof.
  induction rs as [|r rs IH]; intros L fut lv w Hok Hv.
  { exists L, w, lv. repeat split; try done; try apply Hok. constructor. }
  apply Forall_cons in Hv as [Hr Hv].
  destruct (submit_ok clk L fut lv cur r w Hok Hr) as (L1 & w1 & lv1 & E & Hok1 & Hb1 & E1 & E2 & Hs).
  destruct (IH L1 fut lv1 w1 Hok1 Hv) as (L2 & w2 & lv2 & E' & Hok2 & Hb2 & E3 & E4 & Hs2).
  exists L2, w2, lv2. cbn [submit_all]. unfold wu_bind. rewrite E.
  rewrite (find_entry_bare L L1 fut lv lv1 cur clk) in E' by done. rewrite E'.
  split; [done|]. split; [done|]. split; [congruence|]. split; [congruence|]. split; [congruence|].
  econstructor; [exact Hs|]. clear -Hs2 Hb1. induction Hs2 as [|r rs o o1 o2 w w1 w2 H _ IH]; [constructor|].
  econstructor; [|exact IH]. revert H. unfold submitted. by rewrite (dependents_bare _ _ _ _ Hb1).
Qed.
End Submit.
