(* ===== verification/SnEvolve.v ===== *)
(** * What a call may do to the snapshots

    A snapshot that still exists has kept all of its versions, a snapshot that
    is kept for a checkpoint still exists with its type, and every other
    snapshot is either an old one or one taken by the call. *)

From Stdlib Require Import ZArith List Lia Bool Sorted.
From stdpp Require Import base list sets sorting.
From S2P Require Import Prelude WuBase Snapshots SnGc SnApi SnInv SnPurify SnOps.
Local Open Scope sedna_scope.
Local Open Scope Z_scope.

(** The snapshot [t] owns the version. *)
Definition owns (L : SnSnapshotsList) (t : TIMESTAMP) (e : SnVersionEntry) : Prop :=
  exists o, (e, o) ∈ owned L /\ t ∈ o.

Definition live_at (L : SnSnapshotsList) (t : TIMESTAMP) : Prop := t ∈ map timestamp (from_current L).

(** The type a snapshot that is kept for a checkpoint has afterwards; [None]
    for one that may go. *)
Definition stays (t : Z) : option Z := if t =? SN_REGULAR_SNAPSHOT then None else Some t.
Definition begins (t : Z) : option Z :=
  if t =? SN_PERSISTENT_SNAPSHOT then Some SN_PREV_PERSISTENT_SNAPSHOT else stays t.
Definition completes (t : Z) : option Z :=
  if t =? SN_PREV_PERSISTENT_SNAPSHOT then None else stays t.

Record evolves (keep : Z -> option Z) (clk : TIMESTAMP) (L L' : SnSnapshotsList) : Prop := {
  ev_owns : forall t e, owns L t e -> live_at L' t -> owns L' t e;
  ev_old : forall t, live_at L' t -> live_at L t \/ clk <= t;
  ev_special : forall s ty, s ∈ from_current L -> keep (type s) = Some ty ->
    exists s', s' ∈ from_current L' /\ timestamp s' = timestamp s /\ type s' = ty
}.

Lemma split_current clk L fut lv : split_ok clk L fut lv ->
  GetCurrentSnapshot L = match lv with [] => None | s :: _ => Some (length fut, s) end
  /\ from_current L = lv.
Proof. intros (Hl & Hok & _). apply current_split; [done|apply Hok..]. Qed.

(** Owners are live. *)
Lemma owner_live clk L fut lv t e : split_ok clk L fut lv -> owns L t e ->
  t ∈ map timestamp lv /\ t < clk.
Proof.
  intros Hsp (o & Hin & Ht). assert (Hsp' := Hsp). destruct Hsp' as (Hl & Hok & [_ Hinv] & _).
  assert (Hn := Hinv _ _ Hin). assert (Ho := owned_from_owner _ _ _ _ Hin). destruct Ho as [_ Hs].
  specialize (Hs t Ht). rewrite app_nil_r, Hl, map_app, elem_of_app in Hs. destruct Hs as [Hs|Hs].
  - rewrite (futures_invalid _ (ls_future _ _ _ _ Hok)) in Hs. apply list_elem_of_In, repeat_spec in Hs. by subst.
  - split; [done|]. apply list_elem_of_fmap in Hs as (s & -> & Hs).
    assert (H := ls_past _ _ _ _ Hok). rewrite Forall_forall in H. by apply H.
Qed.

Lemma evolves_trans k k1 k2 clk clk' L1 L2 L3 :
  (forall t ty, k t = Some ty -> exists t', k1 t = Some t' /\ k2 t' = Some ty) ->
  snapshots_ok clk L1 -> clk <= clk' -> evolves k1 clk L1 L2 -> evolves k2 clk' L2 L3 -> evolves k clk L1 L3.
Proof.
  intros Hk (fut & lv & Hsp) Hc [A1 A2 A3] [B1 B2 B3]. constructor.
  - intros t e Ho Hl. assert (H := owner_live _ _ _ _ _ _ Hsp Ho). apply B1; [|done].
    apply A1; [done|]. destruct (B2 t Hl) as [|Hge]; [done|]. lia.
  - intros t Hl. destruct (B2 t Hl) as [H|H]; [|right; lia]. by apply A2.
  - intros s ty Hs Hty. destruct (Hk _ _ Hty) as (ty1 & H1 & H2). destruct (A3 s ty1 Hs H1) as (s2 & Hs2 & E1 & E2).
    destruct (B3 s2 ty Hs2) as (s3 & H3 & E3 & E4); [by rewrite E2|].
    exists s3. split; [done|]. split; congruence.
Qed.

Lemma stays_trans t ty : stays t = Some ty -> exists t', stays t = Some t' /\ stays t' = Some ty.
Proof. intros H. exists ty. split; [done|]. revert H. unfold stays. destruct (t =? SN_REGULAR_SNAPSHOT) eqn:E; [done|]. intros [= <-]. by rewrite E. Qed.

(** Timestamps stay, versions are only added. *)
Lemma evolves_same k clk L L' clk1 clk2 fut fut' lv lv' new :
  split_ok clk1 L fut lv -> split_ok clk2 L' fut' lv' ->
  map timestamp lv' = map timestamp lv ->
  (forall s ty, s ∈ lv -> k (type s) = Some ty -> (timestamp s, ty) ∈ map (fun s => (timestamp s, type s)) lv') ->
  owned L' ≡ₚ new ++ owned L -> evolves k clk L L'.
Proof.
  intros H1 H2 Ht Hty Ho. destruct (split_current _ _ _ _ H1) as [_ E1]. destruct (split_current _ _ _ _ H2) as [_ E2].
  constructor; unfold live_at; rewrite ?E1, ?E2.
  - intros t e (o & Hin & Hto) _. exists o. split; [|done]. rewrite Ho, elem_of_app. by right.
  - intros t. rewrite Ht. by left.
  - intros s ty Hs Hk. specialize (Hty s ty Hs Hk).
    apply list_elem_of_fmap in Hty as (s' & [= -> ->] & Hs'). by exists s'.
Qed.

Lemma stays_same lv lv' : map (fun s => (timestamp s, type s)) lv' = map (fun s => (timestamp s, type s)) lv ->
  map timestamp lv' = map timestamp lv
  /\ forall s ty, s ∈ lv -> stays (type s) = Some ty -> (timestamp s, ty) ∈ map (fun s => (timestamp s, type s)) lv'.
Proof.
  intros Hm. split.
  - assert (H := f_equal (map fst) Hm). by rewrite !map_map in H.
  - intros s ty Hs Hk. rewrite Hm. apply list_elem_of_fmap. exists s. split; [|done].
    revert Hk. unfold stays. destruct (_ =? _); [done|]. by intros [= <-].
Qed.

Lemma evolves_stays clk L L' clk1 clk2 fut fut' lv lv' new :
  split_ok clk1 L fut lv -> split_ok clk2 L' fut' lv' ->
  map (fun s => (timestamp s, type s)) lv' = map (fun s => (timestamp s, type s)) lv ->
  owned L' ≡ₚ new ++ owned L -> evolves stays clk L L'.
Proof. intros H1 H2 [H3 H4]%stays_same Ho. by apply (evolves_same stays clk L L' clk1 clk2 fut fut' lv lv' new). Qed.

Lemma evolves_refl clk clk1 L fut lv : split_ok clk1 L fut lv -> evolves stays clk L L.
Proof. intros H. by apply (evolves_stays clk L L clk1 clk1 fut fut lv lv []). Qed.

(** A new snapshot in front. *)
Lemma evolves_create clk clk1 clk2 L L' fut fut' s lv :
  split_ok clk1 L fut lv -> split_ok clk2 L' fut' (s :: lv) -> clk <= timestamp s ->
  owned L' = owned L -> evolves stays clk L L'.
Proof.
  intros H1 H2 Ht Ho. destruct (split_current _ _ _ _ H1) as [_ E1]. destruct (split_current _ _ _ _ H2) as [_ E2].
  constructor; unfold live_at, owns; rewrite ?E1, ?E2, ?Ho.
  - done.
  - intros t [->|H]%elem_of_cons; [by right|by left].
  - intros x ty Hx Hk. exists x. split; [by right|]. split; [done|]. revert Hk. unfold stays. destruct (_ =? _); [done|]. by intros [= <-].
Qed.

Lemma bare_types l l' : map bare l' = map bare l ->
  map (fun s => (timestamp s, type s)) l' = map (fun s => (timestamp s, type s)) l.
Proof.
  revert l l'. apply bare_list_ind; [done|]. intros s s' l l' H _ IH. cbn. rewrite IH.
  by apply bare_eq in H as (-> & _ & -> & _).
Qed.

Lemma damage_types l l' : Forall2 damage_step l l' ->
  map (fun s => (timestamp s, type s)) l' = map (fun s => (timestamp s, type s)) l.
Proof.
  apply damage_map. intros s s' H. by destruct (damage_step_fields s s' H) as (-> & _ & -> & _).
Qed.

Lemma disown_all_owner D v v' t : disown_all D v = Some v' -> t ∈ snd v -> mem D t = false -> t ∈ snd v'.
Proof.
  unfold disown_all. intros H Ht Hm.
  assert (Hf : t ∈ List.filter (fun t => negb (mem D t)) (snd v))
    by (apply list_elem_of_In, filter_In; rewrite Hm; split; [by apply list_elem_of_In|done]).
  destruct (List.filter _ _); [by apply elem_of_nil in Hf|]. by injection H as <-.
Qed.

Lemma victims_in cand t : t ∈ victims cand -> t ∈ map timestamp cand.
Proof.
  intros Hx. apply list_elem_of_fmap in Hx as (s & -> & Hs). apply list_elem_of_In, filter_In in Hs as [Hs _].
  apply list_elem_of_fmap. exists s. split; [done|]. by apply list_elem_of_In.
Qed.

Lemma timestamps_inj l (s x : SnSnapshot) :
  NoDup (map timestamp l) -> s ∈ l -> x ∈ l -> timestamp x = timestamp s -> x = s.
Proof.
  intros Hnd Hs Hx E. apply list_elem_of_lookup in Hs as [i Hi], Hx as [j Hj].
  assert (i = j) as ->; [|congruence]. eapply NoDup_lookup; [exact Hnd| |].
  - rewrite list_lookup_fmap, Hi. done.
  - rewrite list_lookup_fmap, Hj. cbn. by rewrite E.
Qed.

(** A kept snapshot is no victim. *)
Lemma kept_no_victim l1 cand t : NoDup (map timestamp (l1 ++ cand)) ->
  t ∈ map timestamp (l1 ++ kept cand) ->
  mem (victims cand) t = false /\ t ∈ map timestamp (l1 ++ cand).
Proof.
  intros Hnd. rewrite !map_app, !elem_of_app. rewrite map_app in Hnd. apply NoDup_app in Hnd as (_ & Hd & Hnc).
  intros [H|H].
  - split; [|by left]. apply not_true_is_false. rewrite mem_elem. intros Hm. by apply (Hd t H), victims_in.
  - apply list_elem_of_fmap in H as (s & -> & Hs). unfold kept in Hs. apply list_elem_of_In, filter_In in Hs as [Hs Hk].
    apply list_elem_of_In in Hs. split; [|right; apply list_elem_of_fmap; by exists s].
    apply not_true_is_false. rewrite mem_elem. intros Hm. apply list_elem_of_fmap in Hm as (x & Ex & Hx).
    apply list_elem_of_In, filter_In in Hx as [Hx Hdx]. apply list_elem_of_In in Hx.
    assert (x = s) as -> by (by apply (timestamps_inj cand)). by rewrite Hdx in Hk.
Qed.

Lemma purified_evolves {W} (freeBlock : XPTR -> wu W unit) clk L w fut l1 cand L' w' :
  split_ok clk L fut (l1 ++ cand) -> purified freeBlock clk L w l1 cand L' w' -> evolves stays clk L L'.
Proof.
  intros Hsp (fut' & lv' & freed & Hsp' & Hb & _ & Hown & _ & _).
  destruct (split_current _ _ _ _ Hsp) as [_ E1]. destruct (split_current _ _ _ _ Hsp') as [_ E2].
  assert (Hnd : NoDup (map timestamp (l1 ++ cand))) by (destruct Hsp as (_ & Hok & _); apply sorted_NoDup, Hok).
  assert (Hbt := bare_types _ _ Hb).
  assert (Hsurv : forall t, t ∈ map timestamp lv' -> mem (victims cand) t = false /\ t ∈ map timestamp (l1 ++ cand)).
  { intros t. rewrite (bare_timestamps _ _ Hb). by apply kept_no_victim. }
  constructor; unfold live_at; rewrite ?E1, ?E2.
  - intros t e (o & Hin & Hto) Hl. destruct (Hsurv t Hl) as [Hm _].
    destruct (disown_all (victims cand) (e, o)) as [[e' o']|] eqn:Ed.
    + exists o'. split; [|by apply (disown_all_owner _ _ _ _ Ed)]. rewrite Hown.
      assert (He : e' = e). { revert Ed. unfold disown_all. cbn. destruct (List.filter _ _); [done|]. by intros [= <- _]. }
      subst e'. apply list_elem_of_omap. by exists (e, o).
    + exfalso. apply orphaned_all_None in Ed. unfold orphaned_all in Ed. cbn in Ed. rewrite forallb_forall in Ed.
      rewrite (Ed t) in Hm; [done|]. by apply list_elem_of_In.
  - intros t Hl. left. by apply Hsurv.
  - intros s ty Hs Hspec. unfold stays in Hspec. destruct (Z.eqb_spec (type s) SN_REGULAR_SNAPSHOT) as [|Hty]; [done|].
    injection Hspec as <-. assert (Hin : (timestamp s, type s) ∈ map (fun s => (timestamp s, type s)) lv').
    { rewrite Hbt, map_app, elem_of_app. apply elem_of_app in Hs as [Hs|Hs]; [left|right]; apply list_elem_of_fmap; exists s; [done|].
      split; [done|]. unfold kept. apply list_elem_of_In, filter_In. split; [by apply list_elem_of_In|].
      unfold discardable. destruct (Z.eqb_spec (type s) SN_REGULAR_SNAPSHOT); [done|]. by rewrite andb_false_r. }
    apply list_elem_of_fmap in Hin as (s' & [= -> ->] & Hs'). by exists s'.
Qed.
