(* ===== verification/SnExpand.v ===== *)
(** * Which version of a block a snapshot sees

    [SnExpandDfvHeader] walks once over the versions of a header and once over
    the snapshots.  It computes, for every snapshot, the newest version that
    is not younger than the snapshot, because versions younger than a snapshot
    are younger than all older snapshots.  The anchor it returns tells exactly
    the snapshots that see the last committed version. *)

From Stdlib Require Import ZArith List Lia Bool Sorted.
From stdpp Require Import base list sets sorting.
From S2P Require Import Prelude WuBase Snapshots SnGc SnApi SnInv SnPurify SnOps SnEvolve.
Local Open Scope sedna_scope.
Local Open Scope Z_scope.

(** ** The reference *)

(** The transaction [t] was not complete when the snapshot was taken. *)
Definition younger (s : SnSnapshot) (t : TIMESTAMP) : Prop := timestamp s < t \/ t ∈ active s.

#[export] Instance younger_dec s t : Decision (younger s t).
Proof. unfold younger. apply _. Defined.

(** The index of the newest version the snapshot sees; headers are filled up
    with invalid timestamps. *)
Fixpoint visible_from (s : SnSnapshot) (versions : list TIMESTAMP) (id : Z) : option Z :=
  match versions with
  | [] => None
  | t :: versions =>
      if t =? INVALID_TIMESTAMP then None
      else if decide (younger s t) then visible_from s versions (id + 1)
      else Some id
  end.
Definition visible (s : SnSnapshot) (versions : list TIMESTAMP) : option Z := visible_from s versions 0.

Definition seen (versions : list TIMESTAMP) (id : Z) (l : list SnSnapshot) : list (TIMESTAMP * Z) :=
  omap (fun s => option_map (pair (timestamp s)) (visible_from s versions id)) l.

Definition expand_reference (L : SnSnapshotsList) (versions : list TIMESTAMP) : list (TIMESTAMP * Z) :=
  match versions with
  | [] => []
  | t :: _ =>
      if t =? INVALID_TIMESTAMP then []
      else (if decide (t ∈ ts_active L) then [(SN_WORKING_VERSION_TIMESTAMP, 0)] else [])
           ++ seen versions 0 (InitFakeHeadSnapshot L :: from_current L)
  end.

(** Valid timestamps, then invalid ones. *)
Definition header_ok (versions : list TIMESTAMP) : Prop :=
  exists vs n, versions = vs ++ repeat INVALID_TIMESTAMP n
    /\ Forall (fun t => IsValidTimestamp t = true) vs.

(** ** Monotonicity *)

Lemma younger_spec s t : older_first (active s) ->
  IsVersionYoungerThanSnapshot s t = bool_decide (younger s t).
Proof.
  intros H. apply eq_true_iff_eq. unfold IsVersionYoungerThanSnapshot, younger.
  rewrite orb_true_iff, Z.ltb_lt, binary_search_spec, bool_decide_eq_true by done. done.
Qed.

(** Every snapshot of the list sees less than the ones before it. *)
Fixpoint monotone (l : list SnSnapshot) : Prop :=
  match l with
  | [] => True
  | s :: l => older_first (active s)
              /\ (forall t x, x ∈ l -> IsValidTimestamp t = true -> younger s t -> younger x t)
              /\ monotone l
  end.

Lemma nested_monotone lv : newer_first (map timestamp lv) -> Forall live_ok lv ->
  forall acts h, older_first (active h) -> active h = acts -> nested acts lv ->
    (forall s t, s ∈ lv -> IsValidTimestamp t = true -> timestamp h < t -> timestamp s < t) ->
    monotone (h :: lv).
Proof.
  induction lv as [|s lv IH]; intros Hs Hv acts h Hh Ha Hn Hlt; [cbn; split; [done|]; split; [|done]; intros ? ? []%elem_of_nil|].
  cbn in Hs. apply StronglySorted_inv in Hs as [Hs Hf]. rewrite Forall_map in Hf.
  apply Forall_cons in Hv as [Hv1 Hv]. destruct Hn as (H1 & H2 & H3).
  assert (Hlt' : forall x t, x ∈ lv -> IsValidTimestamp t = true -> timestamp s < t -> timestamp x < t).
  { intros x t Hx _ Ht. rewrite Forall_forall in Hf. specialize (Hf x Hx). lia. }
  assert (Hm := IH Hs Hv (active s) s (lv_sorted _ Hv1) eq_refl H3 Hlt').
  assert (Hys : forall t, IsValidTimestamp t = true -> younger h t -> younger s t).
  { intros t Ht [H|H]; [left; apply (Hlt s t); [left|done|done]|]. apply H1. by rewrite <- Ha. }
  split; [done|]. split; [|done].
  intros t x Hx Ht Hy. apply elem_of_cons in Hx as [->|Hx]; [by apply Hys|].
  destruct Hm as (_ & Hm & _). apply (Hm t x Hx Ht), Hys; done.
Qed.

Lemma list_monotone clk L fut lv :
  split_ok clk L fut lv -> monotone (InitFakeHeadSnapshot L :: lv).
Proof.
  intros (_ & Hok & _). apply (nested_monotone lv (ls_order _ _ _ _ Hok) (ls_live _ _ _ _ Hok) (ts_active L)); try done.
  - apply Hok.
  - apply Hok.
  - cbn. intros s t _ Ht H. apply IsValidTimestamp_spec in Ht. ts_lia.
Qed.

(** ** The walk *)

Lemma header_cons t versions : header_ok (t :: versions) ->
  (t = INVALID_TIMESTAMP \/ IsValidTimestamp t = true) /\ header_ok versions.
Proof.
  intros ([|v vs] & n & E & H).
  - destruct n as [|n]; [done|]. cbn in E. injection E as -> ->. split; [by left|].
    exists [], n. done.
  - injection E as -> ->. apply Forall_cons in H as [Hv H]. split; [by right|]. by exists vs, n.
Qed.

Lemma skip_spec s versions : forall id cur id',
  older_first (active s) -> header_ok versions -> skip_younger s versions id = (cur, id') ->
  header_ok cur
  /\ visible_from s versions id = match cur with
                                  | t :: _ => if t =? INVALID_TIMESTAMP then None else Some id'
                                  | [] => None
                                  end
  /\ forall x, (forall t, IsValidTimestamp t = true -> younger s t -> younger x t) ->
       visible_from x versions id = visible_from x cur id'.
Proof.
  induction versions as [|t versions IH]; intros id cur id' Hs Hh E.
  { cbn in E. injection E as <- <-. done. }
  assert (Hh' := Hh). apply header_cons in Hh' as [Ht Hh']. cbn in E.
  rewrite younger_spec in E by done.
  destruct (IsValidTimestamp t) eqn:Hv; [destruct (decide (younger s t)) as [Hy|Hy]|].
  - rewrite bool_decide_eq_true_2 in E by done. cbn in E.
    destruct (IH (id + 1) cur id' Hs Hh' E) as (H1 & H2 & H3). split; [done|].
    assert (Hne : (t =? INVALID_TIMESTAMP) = false).
    { apply Z.eqb_neq. intros ->. by rewrite invalid_not_valid in Hv. }
    split.
    + cbn. rewrite Hne, decide_True by done. done.
    + intros x Hx. cbn. rewrite Hne, decide_True by auto. by apply H3.
  - rewrite bool_decide_eq_false_2 in E by done. cbn in E. injection E as <- <-.
    split; [done|]. split; [|done]. cbn. destruct (t =? INVALID_TIMESTAMP); [done|]. by rewrite decide_False.
  - cbn in E. injection E as <- <-. split; [done|]. split; [|done]. cbn.
    destruct Ht as [->|]; [by rewrite Z.eqb_refl|congruence].
Qed.

Lemma visible_none x cur id :
  match cur with [] => True | t :: _ => t = INVALID_TIMESTAMP end -> visible_from x cur id = None.
Proof. destruct cur as [|t cur]; [done|]. by intros ->. Qed.

Lemma seen_none cur id l :
  match cur with [] => True | t :: _ => t = INVALID_TIMESTAMP end -> seen cur id l = [].
Proof.
  intros H. induction l as [|s l IH]; [done|]. unfold seen in *. cbn. by rewrite visible_none, IH.
Qed.

Lemma seen_ext l versions cur id id' :
  (forall x, x ∈ l -> visible_from x versions id = visible_from x cur id') ->
  seen versions id l = seen cur id' l.
Proof.
  induction l as [|s l IH]; intros H; [done|]. unfold seen in *. cbn.
  rewrite (H s) by left. rewrite IH; [done|]. intros x Hx. apply H. by right.
Qed.

Lemma expand_loop_ok l : forall versions id, monotone l -> header_ok versions ->
  expand_loop l versions id = Ok (seen versions id l).
Proof.
  induction l as [|s l IH]; intros versions id Hm Hh; [done|]. destruct Hm as (Hs & Hy & Hm).
  cbn [expand_loop]. destruct (skip_younger s versions id) as [cur id'] eqn:E.
  destruct (skip_spec _ _ _ _ _ Hs Hh E) as (Hc & Hv & Hx).
  assert (Hl : seen versions id l = seen cur id' l) by (apply seen_ext; intros x Hin; apply Hx; eauto).
  unfold seen. cbn [omap list_omap]. rewrite Hv. fold (seen versions id l). rewrite Hl.
  destruct cur as [|t cur]; [by rewrite seen_none|].
  assert (Hc' := Hc). apply header_cons in Hc' as [[->|Hvt] _].
  - rewrite Z.eqb_refl. cbn. by rewrite seen_none.
  - assert (Hne : (t =? INVALID_TIMESTAMP) = false).
    { apply Z.eqb_neq. intros ->. by rewrite invalid_not_valid in Hvt. }
    rewrite Hne, Hvt, (IH (t :: cur) id' Hm Hc). done.
Qed.

(** ** SnExpandDfvHeader *)

Lemma seen_length versions id l : (length (seen versions id l) <= length l)%nat.
Proof.
  induction l as [|s l IH]; [done|]. unfold seen in *. cbn.
  destruct (visible_from s versions id); cbn; lia.
Qed.

(** The buffers of VE_VERSIONS_COUNT + 2 elements are large enough. *)
Lemma expand_ok clk vd L versions total :
  snapshots_ok clk L -> header_ok versions ->
  (total = true -> expand_reference L versions <> []) ->
  exists anchor, SnExpandDfvHeader vd L versions 6 total = Ok (expand_reference L versions, anchor)
    /\ (total = false -> anchor = expand_anchor vd L (expand_reference L versions)).
Proof.
  intros (fut & lv & Hok) Hh Ht. assert (Hok' := Hok). destruct Hok' as (Hl & Hlok & _ & Hlen).
  destruct (current_split L fut lv Hl) as [_ Hcur]; [apply Hlok|apply Hlok|].
  assert (E : forall k,
    bind_res match versions with
      | [] => Ok []
      | ts :: _ =>
          if ts =? INVALID_TIMESTAMP then Ok []
          else if negb (IsValidTimestamp ts) then Throw WUERR_BAD_TIMESTAMP
          else bind_res (expand_loop (InitFakeHeadSnapshot L :: from_current L) versions 0)
                 (fun out => Ok (if IsVersionYoungerThanSnapshot (InitFakeHeadSnapshot L) ts
                                 then (SN_WORKING_VERSION_TIMESTAMP, 0) :: out else out))
      end k = k (expand_reference L versions) :> res wuerr (list (TIMESTAMP * Z) * TIMESTAMP)).
  { intros k. destruct versions as [|t versions]; [done|]. assert (Hh' := Hh).
    apply header_cons in Hh' as [[->|Hv] _]; [done|]. unfold expand_reference.
    destruct (t =? INVALID_TIMESTAMP); [done|]. rewrite Hv, Hcur. cbn [negb].
    rewrite expand_loop_ok by (done || by apply (list_monotone clk _ fut)). cbn [bind_res].
    rewrite younger_spec by (cbn; apply Hlok).
    assert (Hy : younger (InitFakeHeadSnapshot L) t <-> t ∈ ts_active L).
    { unfold younger. cbn. apply IsValidTimestamp_spec in Hv. split; [intros [H|H]; [ts_lia|done]|by right]. }
    rewrite (bool_decide_ext _ _ Hy). f_equal. by case_decide; case_bool_decide. }
  unfold SnExpandDfvHeader. rewrite E.
  assert (Hle : (6 <? length (expand_reference L versions))%nat = false).
  { apply Nat.ltb_ge. unfold expand_reference. destruct versions as [|t versions]; [cbn; lia|].
    destruct (t =? INVALID_TIMESTAMP); [cbn; lia|]. rewrite length_app, Hcur.
    assert (H := seen_length (t :: versions) 0 (InitFakeHeadSnapshot L :: lv)). cbn [length] in H.
    rewrite Hl, length_app in Hlen. change (Z.to_nat SN_SNAPSHOTS_COUNT) with 3%nat in Hlen.
    case_decide; cbn [length]; lia. }
  rewrite Hle. destruct total; [|by eexists].
  destruct (last (expand_reference L versions)) as [[ts id]|] eqn:El; [by eexists|].
  apply last_None in El. by apply Ht in El.
Qed.

(** ** The anchor *)

Lemma visible_mono s x versions : forall id,
  header_ok versions ->
  (forall t, IsValidTimestamp t = true -> younger s t -> younger x t) ->
  match visible_from x versions id with
  | None => True
  | Some j => exists i, visible_from s versions id = Some i /\ id <= i <= j
  end.
Proof.
  induction versions as [|t versions IH]; intros id Hh Hy; [done|].
  apply header_cons in Hh as [[->|Hv] Hh]; [done|]. cbn.
  destruct (t =? INVALID_TIMESTAMP); [done|]. specialize (IH (id + 1) Hh Hy).
  case_decide as H1.
  - case_decide as H2.
    + destruct (visible_from x versions (id + 1)) as [j|]; [|done]. destruct IH as (i & E & H). exists i. split; [done|lia].
    + destruct (visible_from x versions (id + 1)) as [j|]; [|done]. destruct IH as (i & E & H). exists id. split; [done|lia].
  - case_decide as H2; [by apply Hy in H2|]. exists id. split; [done|lia].
Qed.

Lemma run_end_spec versions id0 lv : forall h,
  header_ok versions -> monotone (h :: lv) -> newer_first (map timestamp (h :: lv)) ->
  visible h versions = Some id0 ->
  let a := run_end id0 (timestamp h) (seen versions 0 lv) in
  (a = timestamp h \/ a ∈ map timestamp lv)
  /\ forall s, s ∈ lv -> visible s versions = Some id0 <-> a <= timestamp s.
Proof.
  induction lv as [|s lv IH]; intros h Hh Hm Hn Hv; cbn zeta; [split; [by left|intros s []%elem_of_nil]|].
  destruct Hm as (_ & Hy & Hm). cbn in Hn. apply StronglySorted_inv in Hn as [Hn Hf].
  assert (Hlt : forall x, x ∈ s :: lv -> timestamp x < timestamp h).
  { change (Forall (fun b => b < timestamp h) (map timestamp (s :: lv))) in Hf.
    rewrite Forall_map, Forall_forall in Hf. exact Hf. }
  assert (Hstop : forall a, a = timestamp h -> (forall x, x ∈ s :: lv -> visible x versions <> Some id0) ->
    (a = timestamp h \/ a ∈ map timestamp (s :: lv))
    /\ forall x, x ∈ s :: lv -> visible x versions = Some id0 <-> a <= timestamp x).
  { intros a -> Hno. split; [by left|]. intros x Hx. specialize (Hlt x Hx). specialize (Hno x Hx).
    split; [done|lia]. }
  assert (Hhs := visible_mono h s versions 0 Hh ltac:(intros t Ht; apply Hy; [left|done])).
  assert (Hsx : forall x, x ∈ lv -> match visible_from x versions 0 with None => True
             | Some j => exists i, visible_from s versions 0 = Some i /\ 0 <= i <= j end).
  { intros x Hx. apply visible_mono; [done|]. intros t Ht. destruct Hm as (_ & Hm & _). by apply Hm. }
  unfold seen. cbn [omap list_omap]. unfold visible in *.
  destruct (visible_from s versions 0) as [i|] eqn:Es; cbn [option_map].
  - destruct Hhs as (i0 & E & Hi). assert (i0 = id0) as -> by congruence. cbn [run_end].
    destruct (Z.eqb_spec i id0) as [->|Hne].
    + destruct (IH s Hh Hm Hn Es) as [Ha Hx]. fold (seen versions 0 lv). cbn zeta in *.
      set (a := run_end _ _ _) in *. cbn in Hn. apply StronglySorted_inv in Hn as [_ Hf2]. rewrite Forall_map in Hf2.
      assert (Has : a <= timestamp s).
      { destruct Ha as [->|Ha]; [done|]. apply list_elem_of_fmap in Ha as (x & -> & Hin).
        rewrite Forall_forall in Hf2. specialize (Hf2 x Hin). lia. }
      split; [right; destruct Ha as [->|Ha]; [left|by right]|].
      intros x [->|Hin]%elem_of_cons; [by rewrite Es|by apply Hx].
    + apply Hstop; [done|]. intros x [->|Hin]%elem_of_cons; [congruence|].
      specialize (Hsx x Hin). intros Ex. rewrite Ex in Hsx. destruct Hsx as (k & [= <-] & Hk). lia.
  - assert (Hnil : omap (fun s => option_map (pair (timestamp s)) (visible_from s versions 0)) lv = []).
    { clear -Hsx. induction lv as [|x lv IH]; [done|]. cbn. assert (Hx := Hsx x ltac:(left)).
      destruct (visible_from x versions 0); [by destruct Hx as (? & ? & _)|]. apply IH. intros y Hin. apply Hsx. by right. }
    rewrite Hnil. apply Hstop; [done|]. intros x [->|Hin]%elem_of_cons; [congruence|].
    specialize (Hsx x Hin). intros Ex. rewrite Ex in Hsx. by destruct Hsx as (k & ? & _).
Qed.

Lemma anchor_spec clk L fut lv versions id0 :
  split_ok clk L fut lv -> header_ok versions ->
  visible (InitFakeHeadSnapshot L) versions = Some id0 ->
  (forall s, s ∈ lv ->
    visible s versions = Some id0 <-> expand_anchor false L (expand_reference L versions) <= timestamp s)
  /\ (lv <> [] -> clk <= TIMESTAMP_MAX ->
      IsValidTimestamp (expand_anchor false L (expand_reference L versions)) = true).
Proof.
  intros Hok Hh Hv. assert (Hok' := Hok). destruct Hok' as (Hl & Hlok & _).
  destruct (current_split L fut lv Hl) as [Hc Hcur]; [apply Hlok|apply Hlok|].
  set (h := InitFakeHeadSnapshot L) in *.
  assert (Hbound : forall s, s ∈ lv -> timestamp s < timestamp h).
  { intros s Hs. assert (H := ls_live _ _ _ _ Hlok). rewrite Forall_forall in H.
    destruct (H s Hs) as [_ Hts _ _ _]. apply IsValidTimestamp_spec in Hts. cbn. ts_lia. }
  destruct (run_end_spec versions id0 lv h Hh (list_monotone clk L fut lv Hok)) as [Ha Hx]; [|done|].
  { cbn [map]. constructor; [apply Hlok|]. apply Forall_map, Forall_forall. exact Hbound. }
  assert (E : drop_to_lc (expand_reference L versions)
              = (SN_LAST_COMMITED_VERSION_TIMESTAMP, id0) :: seen versions 0 lv).
  { unfold expand_reference. destruct versions as [|t versions]; [done|].
    destruct (Z.eqb_spec t INVALID_TIMESTAMP) as [->|_]; [done|].
    rewrite Hcur. fold h. unfold seen at 1. cbn [omap list_omap]. unfold visible in Hv. rewrite Hv. cbn [option_map].
    fold (seen (t :: versions) 0 lv). case_decide; reflexivity. }
  unfold expand_anchor. rewrite E. cbn zeta in *.
  change (run_end id0 SN_LAST_COMMITED_VERSION_TIMESTAMP) with (run_end id0 (timestamp h)).
  set (a := run_end id0 (timestamp h) (seen versions 0 lv)) in *.
  assert (Hlive : forall s, s ∈ lv -> TIMESTAMP_MIN <= timestamp s <= TIMESTAMP_MAX).
  { intros s Hs. assert (H := ls_live _ _ _ _ Hlok). rewrite Forall_forall in H. by apply IsValidTimestamp_spec, H. }
  unfold SnGetSnapshotTimestamps_cur. rewrite Hc.
  destruct (Z.eqb_spec a SN_LAST_COMMITED_VERSION_TIMESTAMP) as [Ea|Hne].
  - change (a = timestamp h) in Ea. destruct lv as [|c lv]; [split; [by intros s []%elem_of_nil|done]|].
    assert (Hcv := Hlive c ltac:(left)). unfold u64. rewrite Z.mod_small by ts_lia. split.
    + intros s Hs. rewrite (Hx s Hs). assert (Hle : timestamp s <= timestamp c).
      { apply elem_of_cons in Hs as [->|Hs]; [done|]. assert (H := ls_order _ _ _ _ Hlok). cbn in H.
        apply StronglySorted_inv in H as [_ H]. rewrite Forall_map, Forall_forall in H. specialize (H s Hs). lia. }
      specialize (Hbound s Hs). split; lia.
    + intros _ Hclk. apply IsValidTimestamp_spec. assert (H := ls_past _ _ _ _ Hlok). apply Forall_cons in H as [H _]. lia.
  - split; [intros s Hs; apply (Hx s Hs)|]. intros _ _. destruct Ha as [Ha|Ha]; [done|].
    apply list_elem_of_fmap in Ha as (s & -> & Hs). by apply IsValidTimestamp_spec, Hlive.
Qed.

(** The snapshots between an anchor and the current one. *)
Lemma dependents_seers clk L fut lv anchor (P : SnSnapshot -> Prop) `{forall s, Decision (P s)} :
  split_ok clk L fut lv -> (forall s, s ∈ lv -> P s <-> anchor <= timestamp s) ->
  dependents anchor (SnGetSnapshotTimestamps_cur false L) lv
  = rev (map timestamp (List.filter (fun s => bool_decide (P s)) lv)).
Proof.
  intros Hsp HP. destruct (split_current _ _ _ _ Hsp) as [Hc _]. unfold dependents, SnGetSnapshotTimestamps_cur. rewrite Hc.
  f_equal. destruct lv as [|c lv]; [done|].
  assert (Hle : forall s, s ∈ c :: lv -> timestamp s <= timestamp c).
  { intros s [->|Hs]%elem_of_cons; [done|]. assert (Ho := ls_order _ _ _ _ (proj1 (proj2 Hsp))). cbn in Ho.
    apply StronglySorted_inv in Ho as [_ Ho]. rewrite Forall_map, Forall_forall in Ho. specialize (Ho s Hs). lia. }
  clear -HP Hle. revert HP Hle. generalize (timestamp c) as m. induction (c :: lv) as [|s l IH]; intros m HP Hle; [done|].
  cbn. assert (E : (anchor <=? timestamp s) && (timestamp s <=? m) = bool_decide (P s)).
  { assert (H1 := Hle s ltac:(left)). assert (H2 := HP s ltac:(left)). apply eq_true_iff_eq.
    rewrite andb_true_iff, bool_decide_eq_true, H2, !Z.leb_le. split; [tauto|]. split; [done|lia]. }
  rewrite E, (IH m); [by destruct (bool_decide (P s))|intros x Hx; apply HP; by right|intros x Hx; apply Hle; by right].
Qed.

(** ** Damaged snapshots *)

(** The record of a damaged snapshot. *)
Definition record_damaged (L : SnSnapshotsList) (r : TIMESTAMP * Z) : bool :=
  negb ((fst r =? SN_WORKING_VERSION_TIMESTAMP) || (fst r =? SN_LAST_COMMITED_VERSION_TIMESTAMP))
  && match GetSnapshotByTimestamp L (fst r) with Some (_, s) => isDamaged s | None => false end.

(** Records of damaged snapshots only are removed. *)
Lemma filter_out_spec L out out' :
  SnFilterOutDamaged L out = Ok out' ->
  out' `sublist_of` out
  /\ List.filter (fun r => negb (record_damaged L r)) out' = List.filter (fun r => negb (record_damaged L r)) out.
Proof.
  revert out'. induction out as [out IH] using (induction_ltof1 _ (@length _)).
  assert (Hin : forall r l, out = r :: l -> forall l', bind_res (SnFilterOutDamaged L l) (fun rest => Ok (r :: rest)) = Ok l' ->
    l' `sublist_of` out /\ List.filter (fun r => negb (record_damaged L r)) l' = List.filter (fun r => negb (record_damaged L r)) out).
  { intros r l -> l'. destruct (SnFilterOutDamaged L l) as [l1|] eqn:E; [|done]. cbn. intros [= <-].
    destruct (IH l ltac:(unfold ltof; cbn; lia) l1 E) as [H1 H2]. split; [by apply sublist_skip|]. cbn. by rewrite H2. }
  destruct out as [|[ts id] out]; intros out'; [by intros [= <-]|]. cbn [SnFilterOutDamaged].
  destruct ((ts =? SN_WORKING_VERSION_TIMESTAMP) || (ts =? SN_LAST_COMMITED_VERSION_TIMESTAMP)) eqn:Es; [by apply Hin|].
  destruct (GetSnapshotByTimestamp L ts) as [[p sn]|] eqn:Eg; [|done].
  destruct (isDamaged sn) eqn:Ed; [|by apply Hin].
  assert (Hd : record_damaged L (ts, id) = true) by (unfold record_damaged; cbn [fst]; by rewrite Es, Eg, Ed).
  destruct out as [|next rest].
  - intros [= <-]. split; [by apply sublist_nil_l|]. cbn. by rewrite Hd.
  - destruct (SnFilterOutDamaged L rest) as [l1|] eqn:E; [|done]. cbn [bind_res]. intros [= <-].
    destruct (IH rest ltac:(unfold ltof; cbn; lia) l1 E) as [H1 H2].
    split; [by apply sublist_cons, sublist_skip|]. cbn. rewrite Hd. cbn. by rewrite H2.
Qed.


Lemma filter_out_total L out :
  Forall (fun r => fst r = SN_WORKING_VERSION_TIMESTAMP \/ fst r = SN_LAST_COMMITED_VERSION_TIMESTAMP
                   \/ exists p s, GetSnapshotByTimestamp L (fst r) = Some (p, s)) out ->
  exists out', SnFilterOutDamaged L out = Ok out'
    /\ (length out' <= length out)%nat
    /\ (existsb (record_damaged L) out = true -> (length out' < length out)%nat).
Proof.
  induction out as [out IH] using (induction_ltof1 _ (@length _)). intros Hf.
  destruct out as [|[ts id] out]; [by exists []|]. apply Forall_cons in Hf as [Hr Hf]. cbn [fst] in Hr.
  assert (Hkeep : record_damaged L (ts, id) = false -> exists out',
    bind_res (SnFilterOutDamaged L out) (fun rest => Ok ((ts, id) :: rest)) = Ok out'
    /\ (length out' <= length ((ts, id) :: out))%nat
    /\ (existsb (record_damaged L) ((ts, id) :: out) = true -> (length out' < length ((ts, id) :: out))%nat)).
  { intros Hd. destruct (IH out ltac:(unfold ltof; cbn; lia) Hf) as (o & E & H1 & H2). exists ((ts, id) :: o).
    rewrite E. split; [done|]. cbn. rewrite Hd. split; [lia|]. intros H. specialize (H2 H). lia. }
  cbn [SnFilterOutDamaged]. unfold record_damaged in Hkeep at 1. cbn [fst] in Hkeep.
  destruct ((ts =? SN_WORKING_VERSION_TIMESTAMP) || (ts =? SN_LAST_COMMITED_VERSION_TIMESTAMP)) eqn:Es; [by apply Hkeep|].
  apply orb_false_iff in Es as [E1%Z.eqb_neq E2%Z.eqb_neq]. destruct Hr as [|[|(p & s & Hg)]]; [done|done|].
  rewrite Hg in Hkeep |- *. destruct (isDamaged s); [|by apply Hkeep]. clear Hkeep.
  destruct out as [|next rest]; [exists []; cbn; split; [done|]; split; lia|]. apply Forall_cons in Hf as [_ Hf].
  destruct (IH rest ltac:(unfold ltof; cbn; lia) Hf) as (o & E & H1 & _). exists (next :: o). rewrite E.
  split; [done|]. cbn. split; [lia|]. lia.
Qed.

Lemma seen_full versions id l : length (seen versions id l) = length l ->
  forall s, s ∈ l -> exists i, (timestamp s, i) ∈ seen versions id l.
Proof.
  intros Hlen s Hs. destruct (visible_from s versions id) as [i|] eqn:E.
  - exists i. unfold seen. apply list_elem_of_omap. exists s. by rewrite E.
  - exfalso. apply list_elem_of_split in Hs as (l1 & l2 & ->). unfold seen in Hlen. rewrite omap_app in Hlen. cbn in Hlen.
    rewrite E in Hlen. cbn in Hlen. rewrite !length_app in Hlen. cbn in Hlen.
    assert (H1 := seen_length versions id l1). assert (H2 := seen_length versions id l2). unfold seen in H1, H2. cbn in H1, H2. lia.
Qed.

Lemma damaged_of_three lv : (3 <= length lv)%nat -> (undamaged lv <= 2)%nat -> exists s, s ∈ lv /\ isDamaged s = true.
Proof.
  intros H3 Hu. destruct (existsb isDamaged lv) eqn:E.
  - apply existsb_exists in E as (s & Hs & Hd). exists s. split; [by apply list_elem_of_In|done].
  - exfalso. unfold undamaged in Hu. rewrite filter_all in Hu; [lia|]. intros s Hs. apply negb_true_iff.
    destruct (isDamaged s) eqn:Ed; [|done]. rewrite <- E. symmetry. apply existsb_exists. exists s. split; [by apply list_elem_of_In|done].
Qed.

(** The number of working versions of a header. *)
Definition working_count (L : SnSnapshotsList) (versions : list TIMESTAMP) : nat :=
  match versions with [] => 0 | t :: _ => if decide (t ∈ ts_active L) then 1 else 0 end.

(** Of three live snapshots one is damaged. *)
Lemma filter_reference clk L fut lv versions : split_ok clk L fut lv ->
  exists out, SnFilterOutDamaged L (expand_reference L versions) = Ok out
    /\ (length out <= 3 + working_count L versions)%nat.
Proof.
  intros Hsp. assert (Hsp' := Hsp). destruct Hsp' as (Hl & Hok & _ & Hlen). destruct (split_current _ _ _ _ Hsp) as [_ Hcur].
  rewrite Hl, length_app in Hlen. change (Z.to_nat SN_SNAPSHOTS_COUNT) with 3%nat in Hlen.
  assert (Hget : forall s, s ∈ lv -> exists p, GetSnapshotByTimestamp L (timestamp s) = Some (p, s)).
  { intros s (l1 & l2 & ->)%list_elem_of_split. destruct (find_here _ _ _ _ _ _ Hl Hok) as [H _]. eauto. }
  assert (Hvalid : forall s, s ∈ lv -> timestamp s <> SN_WORKING_VERSION_TIMESTAMP /\ timestamp s <> SN_LAST_COMMITED_VERSION_TIMESTAMP).
  { intros s Hs. assert (H := ls_live _ _ _ _ Hok). rewrite Forall_forall in H. apply H, lv_valid, IsValidTimestamp_spec in Hs. ts_lia. }
  destruct (filter_out_total L (expand_reference L versions)) as (out & E & H1 & H2).
  - unfold expand_reference. destruct versions as [|t versions]; [constructor|]. destruct (_ =? _); [constructor|].
    rewrite Hcur. apply Forall_app. split; [case_decide; repeat constructor; by left|]. apply Forall_forall.
    intros r Hr. unfold seen in Hr. apply list_elem_of_omap in Hr as (s & Hs & Hv).
    destruct (visible_from s (t :: versions) 0) as [i|]; [|done]. injection Hv as <-. cbn [fst].
    apply elem_of_cons in Hs as [->|Hs]; [right; left; done|]. right. right. destruct (Hget s Hs) as [p Hp]. eauto.
  - exists out. split; [done|]. destruct (le_lt_dec (length (expand_reference L versions)) (3 + working_count L versions)) as [|Hgt]; [lia|].
    assert (H5 : (length (expand_reference L versions) <= 4 + working_count L versions)%nat /\ existsb (record_damaged L) (expand_reference L versions) = true);
      [|destruct H5 as [H5 Hex]; specialize (H2 Hex); lia].
    revert Hgt. unfold expand_reference, working_count. destruct versions as [|t versions]; [cbn; lia|]. destruct (t =? _); [cbn; lia|].
    rewrite Hcur, length_app. set (vs := t :: versions). set (h := InitFakeHeadSnapshot L).
    set (wk := if decide (t ∈ ts_active L) then [(_, _)] else _).
    assert (Hs := seen_length vs 0 (h :: lv)). cbn [length] in Hs. intros Hgt.
    assert (Hd : length wk = if decide (t ∈ ts_active L) then 1%nat else 0%nat) by (unfold wk; by case_decide).
    rewrite Hd in *. split; [lia|]. assert (Hfull : length (seen vs 0 (h :: lv)) = S (length lv)) by lia.
    destruct (damaged_of_three lv) as (s & Hs1 & Hs2); [lia|apply (ls_undamaged _ _ _ _ Hok)|].
    rewrite existsb_app. apply orb_true_iff. right. apply existsb_exists.
    destruct (seen_full vs 0 (h :: lv) Hfull s) as (i & Hi); [by right|]. exists (timestamp s, i).
    split; [by apply list_elem_of_In|]. unfold record_damaged. cbn [fst].
    destruct (Hvalid s Hs1) as [V1 V2]. apply Z.eqb_neq in V1, V2. rewrite V1, V2. destruct (Hget s Hs1) as [p ->]. done.
Qed.
