(* ===== verification/SnSystem.v ===== *)
(** * The snapshots and their clients

    The transition system of the calls of the storage manager into the
    snapshots: clients register and end their transactions in any order,
    versions are submitted, snapshots advance, checkpoints begin and complete.
    The invariant of its states ties the occupancy of the snapshots and the
    list of active timestamps to the clients. *)

From Stdlib Require Import ZArith List Lia Bool Sorted.
From stdpp Require Import base gmap list sets sorting.
From S2P Require Import Prelude WuBase Snapshots SnGc SnApi SnInv SnPurify SnOps SnEvolve.
Local Open Scope sedna_scope.
Local Open Scope Z_scope.

(** ** Clients against snapshots *)

Definition is_reader (t : TIMESTAMP) (b : SnClientState) : bool :=
  (statusAndType b =? SN_READ_ONLY_TRANSACTON) && (cl_timestamp b =? t).
Definition is_updater (b : SnClientState) : bool := statusAndType b =? SN_UPDATER_TRANSACTION.

Definition occupancies (lv : list SnSnapshot) : list (TIMESTAMP * Z) :=
  map (fun s => (timestamp s, occupancy s)) lv.

Record clients_ok (occ : list (TIMESTAMP * Z)) (acts : list TIMESTAMP) (bl : list SnClientState) : Prop := {
  cl_readers : forall t n, (t, n) ∈ occ -> n = Z.of_nat (length (List.filter (is_reader t) bl));
  cl_snapshot : forall b, b ∈ bl -> statusAndType b = SN_READ_ONLY_TRANSACTON -> cl_timestamp b ∈ map fst occ;
  cl_updaters : acts ≡ₚ map cl_timestamp (List.filter is_updater bl)
}.

Lemma clients_ok_perm occ acts bl bl' : bl' ≡ₚ bl -> clients_ok occ acts bl -> clients_ok occ acts bl'.
Proof.
  intros Hp [H1 H2 H3]. constructor.
  - intros t n H. rewrite (Permutation_length (filter_perm (is_reader t) _ _ Hp)). by apply H1.
  - intros b Hb. apply H2. by rewrite <- Hp.
  - rewrite H3. apply Permutation_map. by apply filter_perm.
Qed.

(** Snapshots without readers may go. *)
Lemma clients_ok_sub occ occ' acts bl :
  (forall t n, (t, n) ∈ occ' -> (t, n) ∈ occ) ->
  (forall t n, (t, n) ∈ occ -> n <> 0 -> (t, n) ∈ occ') ->
  clients_ok occ acts bl -> clients_ok occ' acts bl.
Proof.
  intros Hs Hk [H1 H2 H3]. constructor; [eauto| |done].
  intros b Hb Hr. specialize (H2 b Hb Hr). apply list_elem_of_fmap in H2 as ([t n] & Ht & Hin). cbn in Ht.
  apply list_elem_of_fmap. exists (t, n). split; [done|]. apply Hk; [done|]. rewrite (H1 t n Hin).
  assert (Hbr : In b (List.filter (is_reader t) bl)).
  { apply filter_In. split; [by apply list_elem_of_In|]. unfold is_reader. by rewrite Hr, Ht, !Z.eqb_refl. }
  destruct (List.filter (is_reader t) bl); [done|cbn; lia].
Qed.

(** ** Client blocks in a table *)

Definition blocks (m : gmap Z SnClientState) : list SnClientState := map snd (map_to_list m).

Lemma blocks_insert m c b : m !! c = None -> blocks (<[c := b]> m) ≡ₚ b :: blocks m.
Proof. intros H. unfold blocks. rewrite map_to_list_insert by done. done. Qed.

Lemma blocks_update m c b : blocks (<[c := b]> m) ≡ₚ b :: blocks (delete c m).
Proof. rewrite <- insert_delete_eq. apply blocks_insert, lookup_delete_eq. Qed.

Lemma blocks_lookup m c b : m !! c = Some b -> blocks m ≡ₚ b :: blocks (delete c m).
Proof. intros H. rewrite <- (insert_delete_id m c b) at 1 by done. apply blocks_insert, lookup_delete_eq. Qed.

(** A client that neither reads a snapshot nor updates does not count. *)
Definition idle_client (b : SnClientState) : Prop :=
  statusAndType b <> SN_READ_ONLY_TRANSACTON /\ statusAndType b <> SN_UPDATER_TRANSACTION.

Lemma clients_ok_idle occ acts b bl : idle_client b ->
  clients_ok occ acts (b :: bl) <-> clients_ok occ acts bl.
Proof.
  intros [Hr Hu].
  assert (E1 : forall t, List.filter (is_reader t) (b :: bl) = List.filter (is_reader t) bl).
  { intros t. cbn. unfold is_reader at 1. destruct (Z.eqb_spec (statusAndType b) SN_READ_ONLY_TRANSACTON); done. }
  assert (E2 : List.filter is_updater (b :: bl) = List.filter is_updater bl).
  { cbn. unfold is_updater at 1. destruct (Z.eqb_spec (statusAndType b) SN_UPDATER_TRANSACTION); done. }
  split; intros [H1 H2 H3]; constructor.
  - intros t n H. rewrite <- E1. by apply H1.
  - intros x Hx. apply H2. by right.
  - by rewrite <- E2.
  - intros t n H. rewrite E1. by apply H1.
  - intros x [->|Hx]%elem_of_cons; [done|]. by apply H2.
  - by rewrite E2.
Qed.

Lemma clients_ok_reader occ occ' acts t bl :
  NoDup (map fst occ) ->
  (forall t' n, (t', n) ∈ occ' -> exists n', (t', n') ∈ occ /\ n = (if t' =? t then n' + 1 else n')) ->
  map fst occ' = map fst occ -> t ∈ map fst occ ->
  clients_ok occ acts bl -> clients_ok occ' acts (mk_client t SN_READ_ONLY_TRANSACTON :: bl).
Proof.
  intros Hnd Hocc Hf Ht [H1 H2 H3]. constructor.
  - intros t' n Hin. destruct (Hocc t' n Hin) as (n' & Hin' & ->). specialize (H1 _ _ Hin').
    cbn [List.filter]. unfold is_reader at 1. cbn [statusAndType cl_timestamp Z.eqb SN_READ_ONLY_TRANSACTON Pos.eqb andb].
    rewrite (Z.eqb_sym t t'). destruct (t' =? t); cbn [length]; lia.
  - intros b [->|Hb]%elem_of_cons; rewrite Hf; [done|]. by apply H2.
  - done.
Qed.

Lemma clients_ok_unreader occ occ' acts t bl :
  (forall t' n, (t', n) ∈ occ' -> exists n', (t', n') ∈ occ /\ n = (if t' =? t then n' - 1 else n')) ->
  map fst occ' = map fst occ ->
  clients_ok occ acts (mk_client t SN_READ_ONLY_TRANSACTON :: bl) -> clients_ok occ' acts bl.
Proof.
  intros Hocc Hf [H1 H2 H3]. constructor.
  - intros t' n Hin. destruct (Hocc t' n Hin) as (n' & Hin' & ->). specialize (H1 _ _ Hin').
    cbn [List.filter] in H1. unfold is_reader at 1 in H1.
    cbn [statusAndType cl_timestamp Z.eqb SN_READ_ONLY_TRANSACTON Pos.eqb andb] in H1.
    rewrite (Z.eqb_sym t t') in H1. destruct (t' =? t); cbn [length] in H1; lia.
  - intros b Hb. rewrite Hf. apply H2. by right.
  - done.
Qed.

Lemma clients_ok_updater occ acts t bl :
  clients_ok occ acts bl <-> clients_ok occ (t :: acts) (mk_client t SN_UPDATER_TRANSACTION :: bl).
Proof.
  split; intros [H1 H2 H3]; constructor; cbn in *.
  - done.
  - intros b [->|Hb]%elem_of_cons; [done|]. by apply H2.
  - by constructor.
  - done.
  - intros b Hb. apply H2. by right.
  - by apply Permutation_cons_inv in H3.
Qed.

Lemma clients_ok_acts occ acts acts' bl : acts' ≡ₚ acts -> clients_ok occ acts bl -> clients_ok occ acts' bl.
Proof. intros Hp [H1 H2 H3]. constructor; [done|done|]. by rewrite Hp. Qed.

(** ** The list and the clients *)

Section States.
Context {W : Type} (freeBlock : XPTR -> wu W unit) (Hfree : free_total freeBlock).

(** [rest] are the state blocks of the clients that are not the current one. *)
Definition state_ok (rest : list SnClientState) (st : sn_state W) : Prop :=
  TIMESTAMP_MIN <= clock st <= TIMESTAMP_MAX + 1
  /\ exists fut lv, split_ok (clock st) (snapshots st) fut lv
    /\ clients_ok (occupancies lv) (ts_active (snapshots st)) (option_list (block st) ++ rest)
    /\ Z.of_nat (length (option_list (block st) ++ rest)) <= nClientsMax (snapshots st).

Lemma bare_occupancies l l' : map bare l' = map bare l -> occupancies l' = occupancies l.
Proof.
  revert l l'. apply (bare_list_ind (fun l l' => occupancies l' = occupancies l)); [done|].
  intros s s' l l' H _ IH. unfold occupancies in *. cbn. rewrite IH. f_equal.
  by apply bare_eq in H as (-> & _ & _ & -> & _).
Qed.

Lemma damage_occupancies l l' : Forall2 damage_step l l' -> occupancies l' = occupancies l.
Proof.
  apply damage_map. intros s s' H. by destruct (damage_step_fields s s' H) as (-> & _ & _ & -> & _).
Qed.

Lemma kept_occupancies l1 cand acts bl :
  clients_ok (occupancies (l1 ++ cand)) acts bl -> clients_ok (occupancies (l1 ++ kept cand)) acts bl.
Proof.
  unfold occupancies, kept. rewrite !map_app. apply clients_ok_sub; intros t n; rewrite !elem_of_app.
  - intros [H|H]; [by left|right]. apply list_elem_of_fmap in H as (s & E & Hs).
    apply list_elem_of_In, filter_In in Hs as [Hs _]. apply list_elem_of_fmap. exists s. split; [done|]. by apply list_elem_of_In.
  - intros [H|H] Hn; [by left|right]. apply list_elem_of_fmap in H as (s & E & Hs).
    apply list_elem_of_fmap. exists s. split; [done|]. apply list_elem_of_In, filter_In.
    split; [by apply list_elem_of_In|]. injection E as _ ->. unfold discardable.
    destruct (Z.eqb_spec (occupancy s) 0); [congruence|done].
Qed.

(** ** Each call keeps the invariant *)

Lemma purify_state rest keep : forall st, state_ok rest st ->
  exists st', on_snapshots (PurifySnapshots freeBlock keep) st = Done tt st'
    /\ state_ok rest st' /\ clock st' = clock st /\ block st' = block st
    /\ nClientsMax (snapshots st') = nClientsMax (snapshots st)
    /\ evolves stays (clock st) (snapshots st) (snapshots st')
    /\ (keep = false -> forall fut lv, split_ok (clock st') (snapshots st') fut lv ->
        Forall (fun s => occupancy s = 0 -> isDamaged s = true) lv).
Proof.
  intros st (Hclk & fut & lv & Hsp & Hcl & Hmax).
  destruct (purify_ok freeBlock Hfree (clock st) (snapshots st) (world st) keep) as (L1 & w' & l1 & cand & Hrun & Hcur & _ & Hp);
    [by exists fut, lv|].
  assert (Hl1 : l1 ++ cand = lv) by (destruct (split_current _ _ _ _ Hsp) as [_ E]; congruence). subst lv.
  assert (Hev := purified_evolves _ _ _ _ _ _ _ _ _ Hsp Hp).
  destruct Hp as (fut' & lv' & freed & Hsp' & Hb & (Ea & _ & En) & _).
  destruct (auto_damage_ok _ _ _ _ keep Hsp') as (lv2 & Hsp2 & Hd & Hu & Ea2 & En2 & Ho2 & _).
  eexists. split; [|split; [|split; [|split; [|split; [|split]]]]].
  - unfold on_snapshots, wu_lift. by rewrite Hrun.
  - split; [done|]. exists fut', lv2. cbn. split; [done|]. split; [|by rewrite En2, En].
    rewrite Ea2, Ea, (damage_occupancies _ _ Hd), (bare_occupancies _ _ Hb). by apply kept_occupancies.
  - done.
  - done.
  - cbn. by rewrite En2, En.
  - cbn. apply (evolves_trans stays stays stays _ (clock st) _ L1); [apply stays_trans|by exists fut, (l1 ++ cand)|done|done|].
    apply (evolves_stays _ _ _ (clock st) (clock st) fut' fut' lv' lv2 []); [done|done|by apply damage_types|by rewrite Ho2].
  - intros -> f l H. destruct (split_current _ _ _ _ H) as [_ <-].
    destruct (split_current _ _ _ _ Hsp2) as [_ E]. cbn [snapshots]. by rewrite E.
Qed.

(** A live snapshot with another occupancy or type. *)
Lemma update_split L fut l1 s l2 f :
  leading L = fut ++ l1 ++ s :: l2 ->
  update_at (length fut + length l1) f (leading L) = fut ++ l1 ++ f s :: l2.
Proof.
  intros ->. rewrite app_assoc, <- length_app, update_at_app. by rewrite <- app_assoc.
Qed.

Lemma occupancy_step clk L fut l1 s l2 d :
  split_ok clk L fut (l1 ++ s :: l2) -> 0 <= occupancy s + d ->
  (isDamaged s = true -> occupancy s + d = 0) ->
  split_ok clk (add_occupancy d (length fut + length l1) L) fut
    (l1 ++ set_occupancy (occupancy s + d) s :: l2)
  /\ owned (add_occupancy d (length fut + length l1) L) = owned L.
Proof.
  intros (Hl & Hok & Hgc & Hlen) Hd Hdam. unfold add_occupancy. rewrite (update_split _ _ _ s l2) by done.
  apply (snapshots_ok_replace _ _ _ _ s); try done.
  assert (Hs : live_ok s). { assert (H := ls_live _ _ _ _ Hok). rewrite Forall_app, Forall_cons in H. tauto. }
  apply (list_ok_replace _ _ _ _ s); try done.
  - destruct Hs. constructor; cbn; done.
  - assert (H := ls_pers _ _ _ _ Hok). rewrite count_app, count_cons in *. done.
  - assert (H := ls_prev _ _ _ _ Hok). rewrite count_app, count_cons in *. done.
Qed.

Lemma occupancies_step l1 s l2 d t n :
  NoDup (map timestamp (l1 ++ s :: l2)) ->
  (t, n) ∈ occupancies (l1 ++ set_occupancy (occupancy s + d) s :: l2) ->
  exists n', (t, n') ∈ occupancies (l1 ++ s :: l2)
    /\ n = (if t =? timestamp s then n' + d else n').
Proof.
  unfold occupancies. rewrite !map_app, map_cons. intros Hnd. cbn [map]. rewrite elem_of_app, elem_of_cons. cbn.
  apply NoDup_app in Hnd as (_ & H1 & [H2 _]%NoDup_cons).
  assert (Hother : forall l, timestamp s ∉ map timestamp l -> (t, n) ∈ map (fun s => (timestamp s, occupancy s)) l ->
    (t =? timestamp s) = false).
  { intros l Hn Hin. apply Z.eqb_neq. intros ->. apply Hn. apply list_elem_of_fmap in Hin as (x & [= -> ->] & Hx).
    apply list_elem_of_fmap. by exists x. }
  intros [Hin|[[= -> ->]|Hin]].
  - exists n. rewrite (Hother l1); [|intros Hc; apply (H1 _ Hc); left|done]. split; [|done].
    apply elem_of_app. by left.
  - exists (occupancy s). rewrite Z.eqb_refl. split; [|done]. apply elem_of_app. right. left.
  - exists n. rewrite (Hother l2); [|done|done]. split; [|done]. apply elem_of_app. right. by right.
Qed.

Lemma occupancies_fst lv : map fst (occupancies lv) = map timestamp lv.
Proof. unfold occupancies. by rewrite map_map. Qed.

Lemma occupancies_same l1 s l2 d :
  map fst (occupancies (l1 ++ set_occupancy d s :: l2)) = map fst (occupancies (l1 ++ s :: l2)).
Proof. rewrite !occupancies_fst, !map_app. done. Qed.
End States.
