(* ===== verification/SnReach.v ===== *)
(** * The calls of the storage manager and the states they reach

    Every function of the interface keeps [state_ok]; a system of clients that
    call them in any order keeps it from the start on. *)

From Stdlib Require Import ZArith List Lia Bool Sorted.
From stdpp Require Import base gmap list sets sorting.
From S2P Require Import Prelude WuBase Snapshots SnGc SnApi SnInv SnPurify SnOps SnEvolve SnSystem.
Local Open Scope sedna_scope.
Local Open Scope Z_scope.

Section Calls.
Context {W : Type} (freeBlock : XPTR -> wu W unit) (Hfree : free_total freeBlock).

Lemma split_NoDup clk L fut lv : split_ok clk L fut lv -> NoDup (map timestamp lv).
Proof. intros (_ & Hok & _). apply sorted_NoDup, Hok. Qed.

Lemma state_block (st : sn_state W) b :
  block st = Some b -> ImpGetCurrentStateBlock st = Done b st.
Proof. unfold ImpGetCurrentStateBlock. by intros ->. Qed.

(** The call keeps the invariant, and the snapshots evolve. *)
Definition keeps (k : Z -> option Z) rest (st : sn_state W) {A} (o : outcome (sn_state W) A) : Prop :=
  state_ok rest (out_state o) /\ evolves k (clock st) (snapshots st) (snapshots (out_state o)).

Lemma keeps_refl rest (st : sn_state W) {A} (o : outcome (sn_state W) A) :
  out_state o = st -> state_ok rest st -> keeps stays rest st o.
Proof. intros E H. unfold keeps. rewrite E. split; [done|]. destruct H as (_ & fut & lv & H & _). by apply (evolves_refl _ (clock st) _ fut lv). Qed.

(** The snapshot of a reader exists and is not damaged. *)
Lemma reader_snapshot clk acts fut lv bl b :
  list_ok clk acts fut lv -> clients_ok (occupancies lv) acts bl -> b ∈ bl ->
  statusAndType b = SN_READ_ONLY_TRANSACTON ->
  exists s, s ∈ lv /\ timestamp s = cl_timestamp b /\ isDamaged s = false.
Proof.
  intros Hok Hcl Hb Hro. assert (Hin := cl_snapshot _ _ _ Hcl b Hb Hro). rewrite occupancies_fst in Hin.
  apply list_elem_of_fmap in Hin as (s & Ht & Hs). exists s. split; [done|]. split; [done|].
  apply not_true_is_false. intros Hd. assert (Hlv := ls_live _ _ _ _ Hok). rewrite Forall_forall in Hlv.
  apply (lv_damaged _ (Hlv s Hs)) in Hd.
  assert (Ho : occupancy s = Z.of_nat (length (List.filter (is_reader (timestamp s)) bl))).
  { apply (cl_readers _ _ _ Hcl). unfold occupancies. apply list_elem_of_fmap. by exists s. }
  assert (Hbr : In b (List.filter (is_reader (timestamp s)) bl)).
  { apply filter_In. split; [by apply list_elem_of_In|]. unfold is_reader. by rewrite Hro, Ht, !Z.eqb_refl. }
  destruct (List.filter _ bl); [done|cbn in Ho; lia].
Qed.

(** ** Registration *)

Lemma register_reader rest (st : sn_state W) b :
  state_ok rest st -> block st = Some b -> idle_client b ->
  keeps stays rest st (SnOnRegisterClient false true st).
Proof.
  intros Hst Hb Hidle. assert (Hst' := Hst). destruct Hst' as (Hclk & fut & lv & Hsp & Hcl & Hmax).
  rewrite Hb in Hcl, Hmax. cbn in Hcl, Hmax. rewrite clients_ok_idle in Hcl by done.
  unfold SnOnRegisterClient, wu_bind, ImpGetCurrentStateBlock, wu_get. rewrite Hb.
  destruct (split_current _ _ _ _ Hsp) as [-> _]. destruct lv as [|s lv]; [by apply keeps_refl|].
  destruct (isDamaged s) eqn:Ed; [by apply keeps_refl|].
  assert (Hs : live_ok s). { destruct Hsp as (_ & Hok & _). by apply ls_live, Forall_cons in Hok as [Hs _]. }
  destruct (occupancy_step (clock st) (snapshots st) fut [] s lv 1 Hsp) as [Hsp1 Ho1];
    [assert (H := lv_occupancy _ Hs); lia|congruence|]. rewrite Nat.add_0_r in Hsp1, Ho1.
  split; [split; [done|]|apply (evolves_stays _ _ _ _ _ fut fut (s :: lv) _ [] Hsp Hsp1); [done|exact (Permutation_refl' Ho1)]].
  exists fut, (set_occupancy (occupancy s + 1) s :: lv). cbn. split; [done|split; [|done]].
  - apply (clients_ok_reader (occupancies (s :: lv))).
    + rewrite occupancies_fst. by apply split_NoDup in Hsp.
    + intros t n. apply (occupancies_step [] s lv 1). by apply split_NoDup in Hsp.
    + apply (occupancies_same []).
    + cbn. left.
    + done.
Qed.

Lemma clock_step clk : TIMESTAMP_MIN <= clk <= TIMESTAMP_MAX + 1 -> IsValidTimestamp clk = true ->
  u64 (clk + 1) = clk + 1 /\ TIMESTAMP_MIN <= clk + 1 <= TIMESTAMP_MAX + 1.
Proof.
  intros H Hv%IsValidTimestamp_spec. unfold u64. split; [|ts_lia].
  apply Z.mod_small. split; ts_lia.
Qed.

Lemma updaters_bound occ acts bl : clients_ok occ acts bl -> (length acts <= length bl)%nat.
Proof.
  intros [_ _ H]. rewrite (Permutation_length H), length_map. apply filter_length_le.
Qed.

Lemma register_updater rest (st : sn_state W) b :
  state_ok rest st -> block st = Some b -> idle_client b ->
  keeps stays rest st (SnOnRegisterClient false false st).
Proof.
  intros Hst Hb Hidle. assert (Hst' := Hst). destruct Hst' as (Hclk & fut & lv & Hsp & Hcl & Hmax).
  rewrite Hb in Hcl, Hmax. cbn in Hcl, Hmax. rewrite clients_ok_idle in Hcl by done.
  unfold SnOnRegisterClient, wu_bind, ImpGetCurrentStateBlock. rewrite Hb.
  unfold get_client_timestamp, WuGetTimestamp.
  destruct (IsValidTimestamp (clock st)) eqn:Hv; cbn.
  - destruct (clock_step _ Hclk Hv) as [-> Hclk'].
    unfold wu_ignore, on_list. cbn. destruct (AddActiveTimestamp (snapshots st) (clock st)) as [L|e] eqn:Ha.
    + destruct (add_active_ok _ _ _ _ _ Hsp Ha) as (Hsp' & Eact & El).
      split; [split; [done|]; cbn|apply (evolves_stays _ _ _ _ _ fut fut lv lv [] Hsp Hsp'); [done|apply Permutation_refl'; cbn; unfold owned; by rewrite El]].
      exists fut, lv. split; [done|]. split.
      * rewrite Eact. apply (clients_ok_acts _ (clock st :: ts_active (snapshots st))); [solve_Permutation|].
        by apply clients_ok_updater.
      * unfold AddActiveTimestamp in Ha. rewrite Hv in Ha. cbn in Ha. destruct (_ =? _); [done|].
        injection Ha as <-. done.
    + exfalso. unfold AddActiveTimestamp in Ha. rewrite Hv in Ha. cbn in Ha.
      apply updaters_bound in Hcl. destruct (Z.eqb_spec (Z.of_nat (length (ts_active (snapshots st)))) (nClientsMax (snapshots st)));
        [lia|done].
  - split; [split; [done|]|by apply (evolves_refl _ (clock st) _ fut lv)].
    exists fut, lv. cbn. split; [done|]. split; [|done]. by apply clients_ok_idle.
Qed.

(** ** The end of a transaction *)

Lemma end_reader rest (st : sn_state W) t :
  state_ok rest st -> block st = Some (mk_client t SN_READ_ONLY_TRANSACTON) ->
  exists st', end_read_only freeBlock t st = Done tt st' /\ clock st' = clock st
    /\ evolves stays (clock st) (snapshots st) (snapshots st')
    /\ forall b, idle_client b -> state_ok rest (set_block b st').
Proof.
  intros (Hclk & fut & lv & Hsp & Hcl & Hmax) Hb. rewrite Hb in Hcl, Hmax. cbn in Hcl, Hmax.
  assert (Ht : t ∈ map timestamp lv).
  { rewrite <- occupancies_fst. apply (cl_snapshot _ _ _ Hcl (mk_client t SN_READ_ONLY_TRANSACTON)); [left|done]. }
  assert (Hsp' := Hsp). destruct Hsp' as (Hl & Hok & _).
  destruct (find_live _ _ _ _ Hl (ls_future _ _ _ _ Hok) (ls_live _ _ _ _ Hok) Ht) as (l1 & s & l2 & -> & Es & _ & Hget).
  assert (Hocc : occupancy s = Z.of_nat (length (List.filter (is_reader t) (mk_client t SN_READ_ONLY_TRANSACTON :: rest)))).
  { apply (cl_readers _ _ _ Hcl). unfold occupancies. rewrite map_app. apply elem_of_app. right. cbn. rewrite Es. left. }
  cbn [List.filter] in Hocc. unfold is_reader at 1 in Hocc. cbn in Hocc. rewrite Z.eqb_refl in Hocc. cbn [length] in Hocc.
  assert (Hnd := split_NoDup _ _ _ _ Hsp).
  assert (Hund : isDamaged s = true -> False).
  { intros Hd. assert (H := ls_live _ _ _ _ Hok). rewrite Forall_app, Forall_cons in H. destruct H as (_ & Hs & _).
    apply (lv_damaged _ Hs) in Hd. lia. }
  destruct (occupancy_step (clock st) (snapshots st) fut l1 s l2 (-1) Hsp) as [Hsp2 Ho2]; [lia|intros H; destruct (Hund H)|].
  set (L2 := add_occupancy (-1) (length fut + length l1) (snapshots st)) in *.
  assert (Hst2 : state_ok rest (mk_sn L2 (clock st) None (world st))).
  { split; [done|]. exists fut, (l1 ++ set_occupancy (occupancy s + -1) s :: l2). cbn. split; [done|split; [|lia]].
    apply (clients_ok_unreader (occupancies (l1 ++ s :: l2)) _ _ t); [|apply occupancies_same|done].
    intros t' n Hin. rewrite <- Es. by apply (occupancies_step l1 s l2 (-1)). }
  destruct (purify_state freeBlock Hfree rest true _ Hst2) as (st' & Hrun & (Hc1 & f1 & v1 & Hs1 & Hk1 & Hm1) & Ec & Eb & En & Hev & _).
  cbn in Ec, Eb, Hev. revert Hrun. unfold end_read_only, wu_bind, wu_get, wu_modify. rewrite Hget.
  unfold on_snapshots, wu_lift. cbn -[PurifySnapshots]. fold L2.
  destruct (PurifySnapshots freeBlock true (L2, world st)) as [[] [L3 w3]|e [L3 w3]]; [|done].
  intros [= <-]. eexists. split; [done|]. split; [done|]. split.
  { apply (evolves_trans stays stays stays _ (clock st) _ L2); [apply stays_trans|by exists fut, (l1 ++ s :: l2)|done| |done].
    apply (evolves_stays _ _ _ _ _ fut fut _ _ [] Hsp Hsp2); [by rewrite !map_app|by rewrite Ho2]. }
  intros b Hi. cbn in *.
  split; [done|]. exists f1, v1. cbn. split; [done|]. split; [by apply clients_ok_idle|].
  rewrite En. done.
Qed.

Definition completed_client : SnClientState := mk_client INVALID_TIMESTAMP SN_COMPLETED_TRANSACTION.

Lemma completed_idle : idle_client completed_client.
Proof. done. Qed.

Lemma remove_updater occ acts t bl : NoDup acts ->
  clients_ok occ acts (mk_client t SN_UPDATER_TRANSACTION :: bl) ->
  clients_ok occ (List.filter (fun x => negb (x =? t)) acts) bl.
Proof.
  intros Hnd Hcl. assert (Hp := cl_updaters _ _ _ Hcl). cbn in Hp.
  apply (clients_ok_updater occ _ t). apply (clients_ok_acts _ acts); [|done].
  rewrite Hp in Hnd |- *. cbn. rewrite Z.eqb_refl. cbn. apply NoDup_cons in Hnd as [Hn _].
  rewrite filter_all; [done|]. intros x Hx. apply negb_true_iff, Z.eqb_neq. intros ->. done.
Qed.

Lemma older_NoDup l : older_first l -> NoDup l.
Proof.
  induction 1 as [|x l _ IH Hf]; constructor; [|done]. intros Hin.
  rewrite Forall_forall in Hf. apply Hf in Hin. lia.
Qed.

(** An updater or a reader always ends; another client gets an error. *)
Lemma transaction_end rest (st : sn_state W) b :
  state_ok rest st -> block st = Some b ->
  if (statusAndType b =? SN_UPDATER_TRANSACTION) || (statusAndType b =? SN_READ_ONLY_TRANSACTON)
  then exists st', SnOnTransactionEnd freeBlock st = Done (current_timestamp (snapshots st')) st'
         /\ state_ok rest st' /\ block st' = Some completed_client
         /\ evolves stays (clock st) (snapshots st) (snapshots st')
  else exists e, SnOnTransactionEnd freeBlock st = Failed e st.
Proof.
  intros Hst Hb. assert (Hst' := Hst). destruct Hst' as (Hclk & fut & lv & Hsp & Hcl & Hmax).
  rewrite Hb in Hcl, Hmax. cbn in Hcl, Hmax.
  unfold SnOnTransactionEnd. rewrite (bind_done _ _ _ b st) by (by apply state_block).
  destruct b as [t status]. cbn [statusAndType cl_timestamp] in *.
  destruct (Z.eqb_spec status SN_UPDATER_TRANSACTION) as [->|Hu]; [|destruct (Z.eqb_spec status SN_READ_ONLY_TRANSACTON) as [->|Hr]]; cbn [orb].
  - destruct (remove_active_ok _ _ _ _ t Hsp) as (Hsp' & Ea & El). eexists. split; [done|].
    split; [|split; [done|apply (evolves_stays _ _ _ _ _ fut fut lv lv [] Hsp Hsp'); [done|apply Permutation_refl'; cbn; unfold owned; by rewrite El]]].
    split; [done|]. cbn. exists fut, lv. split; [done|].
    assert (En : nClientsMax (RemoveActiveTimestamp (snapshots st) t) = nClientsMax (snapshots st)).
    { unfold RemoveActiveTimestamp. destruct (lower_bound _ _) as [a [|x c]]; [done|]. by destruct (_ =? _). }
    rewrite En. split; [|done]. apply clients_ok_idle; [apply completed_idle|]. rewrite Ea.
    apply remove_updater; [|done]. destruct Hsp as (_ & Hok & _). apply older_NoDup, Hok.
  - destruct (end_reader rest st t Hst Hb) as (st' & Hrun & Ec & Hev & Hok').
    eexists. split; [unfold wu_bind; rewrite Hrun; done|]. split; [|done].
    apply (Hok' completed_client), completed_idle.
  - unfold wu_bind. by destruct (status =? SN_COMPLETED_TRANSACTION); eexists.
Qed.

(** After [SnOnUnregisterClient] the client does not count. *)
Lemma unregister_state rest (st : sn_state W) b :
  state_ok rest st -> block st = Some b -> In (statusAndType b) [0; 1; 2; 3] ->
  exists st' b', SnOnUnregisterClient freeBlock st = Done tt st' /\ state_ok rest st'
    /\ block st' = Some b' /\ idle_client b' /\ evolves stays (clock st) (snapshots st) (snapshots st').
Proof.
  intros Hst Hb Hin. unfold SnOnUnregisterClient. rewrite (bind_done _ _ _ b st) by (by apply state_block).
  assert (H := transaction_end rest st b Hst Hb).
  destruct ((statusAndType b =? 0) || (statusAndType b =? SN_COMPLETED_TRANSACTION)) eqn:Ei.
  - exists st, b. split; [done|]. split; [done|]. split; [done|].
    split; [apply orb_true_iff in Ei as [E%Z.eqb_eq|E%Z.eqb_eq]; split; rewrite E; done|].
    destruct Hst as (_ & fut & lv & Hsp & _). by apply (evolves_refl _ (clock st) _ fut lv).
  - destruct ((statusAndType b =? SN_UPDATER_TRANSACTION) || (statusAndType b =? SN_READ_ONLY_TRANSACTON)) eqn:Ea.
    + destruct H as (st' & Hrun & H & Hb' & Hev). exists st', completed_client. unfold wu_bind. rewrite Hrun.
      split; [done|]. split; [done|]. split; [done|]. split; [apply completed_idle|done].
    + exfalso. revert Ei Ea. destruct Hin as [<-|[<-|[<-|[<-|[]]]]]; done.
Qed.

(** ** Versions *)

Lemma submitted_adds cur lv r o o' (w w' : W) :
  submitted freeBlock cur lv r o o' w w' -> exists new, o' ≡ₚ new ++ o.
Proof.
  unfold submitted. destruct (rq_type r); try (by intros [-> _]; exists []);
    (destruct (dependents _ _ _) as [|t ts]; [by intros [-> _]; exists []|intros [H _]]);
    exists [(entry_of r, t :: ts)]; exact H.
Qed.

Lemma submit_all_state clk cur rs : forall L fut lv w,
  split_ok clk L fut lv ->
  exists L' w' lv' o, submit_all freeBlock (find_entry L false cur) rs (L, w) = o
    /\ out_state o = (L', w') /\ split_ok clk L' fut lv' /\ map bare lv' = map bare lv
    /\ ts_active L' = ts_active L /\ nClientsMax L' = nClientsMax L
    /\ exists new, owned L' ≡ₚ new ++ owned L.
Proof.
  induction rs as [|r rs IH]; intros L fut lv w Hok.
  { exists L, w, lv. eexists. repeat (split; [done|]). by exists []. }
  cbn [submit_all]. destruct (ValidateRequestForGc r) eqn:Hv.
  - destruct (submit_ok freeBlock Hfree clk L fut lv cur r w Hok Hv) as (L1 & w1 & lv1 & Hrun & Hok1 & Hb & Ea & En & Hsub).
    rewrite (bind_done _ _ _ tt (L1, w1)) by done.
    rewrite <- (find_entry_bare L L1 fut lv lv1 cur clk Hok Hok1 Hb).
    destruct (IH L1 fut lv1 w1 Hok1) as (L2 & w2 & lv2 & o & Ho & Hs & Hok2 & Hb2 & Ea2 & En2 & new2 & Hn2).
    exists L2, w2, lv2, o. rewrite Ea2, En2, Hb2. repeat (split; [done|]).
    apply submitted_adds in Hsub as [new1 Hn1]. exists (new2 ++ new1). by rewrite Hn2, Hn1, app_assoc.
  - exists L, w, lv. eexists. rewrite (bind_failed _ _ _ WUERR_BAD_PARAMS (L, w)) by (unfold SubmitRequestForGc; by rewrite Hv).
    repeat (split; [done|]). by exists [].
Qed.

Lemma submit_state rest cur buf (st : sn_state W) :
  state_ok rest st -> keeps stays rest st (SnSubmitRequest false freeBlock cur buf st).
Proof.
  intros Hst. assert (Hst' := Hst). destruct Hst' as (Hclk & fut & lv & Hsp & Hcl & Hmax).
  unfold SnSubmitRequest, on_snapshots, wu_lift, SnSubmitRequestForGc.
  destruct (negb _ && negb _); [apply keeps_refl; by destruct st|].
  destruct (submit_all_state (clock st) cur buf _ _ _ (world st) Hsp) as (L' & w' & lv' & o & -> & Hs & Hok & Hb & Ea & En & new & Hn).
  assert (H : state_ok rest (mk_sn L' (clock st) (block st) w')).
  { split; [done|]. exists fut, lv'. cbn. rewrite Ea, En, (bare_occupancies _ _ Hb). done. }
  assert (Hev : evolves stays (clock st) (snapshots st) L').
  { by apply (evolves_stays _ _ _ (clock st) (clock st) fut fut lv lv' new); [..|apply bare_types|]. }
  destruct o as [a [L2 w2]|e [L2 w2]]; cbn in Hs; injection Hs as -> ->; split; done.
Qed.

(** ** The types of the snapshots *)

Lemma live_type_mask s m : live_ok s -> m = SN_PERSISTENT_SNAPSHOT \/ m = SN_PREV_PERSISTENT_SNAPSHOT ->
  (Z.land (type s) m =? 0) = negb (type s =? m).
Proof. intros [[->|[->| ->]] _ _ _ _] [-> | ->]; done. Qed.

(** The snapshot of a type, or none. *)
Lemma find_type clk L fut lv m :
  split_ok clk L fut lv -> m = SN_PERSISTENT_SNAPSHOT \/ m = SN_PREV_PERSISTENT_SNAPSHOT ->
  (GetSnapshotByType L m = None /\ count_type m lv = O)
  \/ exists l1 s l2, lv = l1 ++ s :: l2 /\ type s = m
      /\ GetSnapshotByType L m = Some ((length fut + length l1)%nat, s).
Proof.
  intros (Hl & Hok & _) Hm. unfold GetSnapshotByType. rewrite Hl, by_type_app.
  2:{ eapply Forall_impl; [apply Hok|]. intros s H. apply future_fields in H as (_ & _ & -> & _).
      destruct Hm as [-> | ->]; done. }
  assert (Hlv := ls_live _ _ _ _ Hok). clear Hl Hok. induction Hlv as [|s lv Hs _ IH]; [by left|].
  cbn [GetSnapshotByType2]. rewrite (live_type_mask s m Hs Hm), negb_involutive.
  destruct (Z.eqb_spec (type s) m) as [E|Hne].
  - right. exists [], s, lv. cbn. by rewrite Nat.add_0_r.
  - destruct IH as [[H1 H2]|(l1 & x & l2 & -> & Hx & Hg)].
    + left. destruct (GetSnapshotByType2 lv m) as [[p x]|]; [done|]. split; [done|].
      rewrite count_cons. destruct (Z.eqb_spec (type s) m); [done|lia].
    + right. exists (s :: l1), x, l2. split; [done|]. split; [done|].
      destruct (GetSnapshotByType2 (l1 ++ x :: l2) m) as [[p y]|]; [|done]. cbn in Hg |- *.
      injection Hg as Hp ->. do 2 f_equal. lia.
Qed.

Lemma type_step clk L fut l1 s l2 t :
  split_ok clk L fut (l1 ++ s :: l2) -> live_type t ->
  (count_type SN_PERSISTENT_SNAPSHOT (l1 ++ set_type t s :: l2) <= 1)%nat ->
  (count_type SN_PREV_PERSISTENT_SNAPSHOT (l1 ++ set_type t s :: l2) <= 1)%nat ->
  split_ok clk (set_type_at (length fut + length l1) t L) fut (l1 ++ set_type t s :: l2)
  /\ owned (set_type_at (length fut + length l1) t L) = owned L.
Proof.
  intros (Hl & Hok & Hgc & Hlen) Ht Hp Hv. unfold set_type_at. rewrite (update_split _ _ _ s l2) by done.
  apply (snapshots_ok_replace _ _ _ _ s); try done.
  assert (Hs : live_ok s). { assert (H := ls_live _ _ _ _ Hok). rewrite Forall_app, Forall_cons in H. tauto. }
  apply (list_ok_replace _ _ _ _ s); try done. destruct Hs. constructor; cbn; done.
Qed.

Lemma occupancies_type l1 s l2 t : occupancies (l1 ++ set_type t s :: l2) = occupancies (l1 ++ s :: l2).
Proof. unfold occupancies. by rewrite !map_app. Qed.

(** ** Checkpoints *)

Lemma one_of_type t l x y : (count_type t l <= 1)%nat -> x ∈ l -> y ∈ l -> type x = t -> type y = t -> x = y.
Proof.
  intros Hc Hx Hy Tx Ty.
  assert (H : forall z, z ∈ l -> type z = t -> In z (List.filter (fun s => type s =? t) l)).
  { intros z Hz Tz. apply filter_In. split; [by apply list_elem_of_In|]. by rewrite Tz, Z.eqb_refl. }
  assert (Hx' := H x Hx Tx). assert (Hy' := H y Hy Ty). unfold count_type in Hc.
  destruct (List.filter _ l) as [|a [|b f]]; cbn in *; [done| |lia]. intuition congruence.
Qed.

Lemma begins_type clk L fut s lv :
  split_ok clk L fut (s :: lv) -> type s = SN_REGULAR_SNAPSHOT ->
  count_type SN_PERSISTENT_SNAPSHOT lv = O -> (count_type SN_PREV_PERSISTENT_SNAPSHOT lv <= 1)%nat ->
  split_ok clk (set_type_at (length fut) SN_PERSISTENT_SNAPSHOT L) fut (set_type SN_PERSISTENT_SNAPSHOT s :: lv)
  /\ owned (set_type_at (length fut) SN_PERSISTENT_SNAPSHOT L) = owned L.
Proof.
  intros H Hr H1 H2. rewrite <- (Nat.add_0_r (length fut)).
  apply (type_step _ _ _ [] s lv); [done|by right; left|..]; cbn [app]; rewrite count_cons; cbn; lia.
Qed.

(** The snapshot that was persistent, if any, with its new type. *)
Lemma retire_persistent clk L fut s lv :
  split_ok clk L fut (s :: lv) -> type s = SN_REGULAR_SNAPSHOT ->
  count_type SN_PREV_PERSISTENT_SNAPSHOT (s :: lv) = O ->
  let L' := match GetSnapshotByType L SN_PERSISTENT_SNAPSHOT with
            | Some (p, _) => set_type_at p SN_PREV_PERSISTENT_SNAPSHOT L
            | None => L
            end in
  exists lv', split_ok clk L' fut (s :: lv') /\ owned L' = owned L
    /\ occupancies lv' = occupancies lv
    /\ count_type SN_PERSISTENT_SNAPSHOT lv' = O /\ (count_type SN_PREV_PERSISTENT_SNAPSHOT lv' <= 1)%nat
    /\ ts_active L' = ts_active L /\ nClientsMax L' = nClientsMax L
    /\ forall x ty, x ∈ s :: lv -> begins (type x) = Some ty -> (timestamp x, ty) ∈ map (fun s => (timestamp s, type s)) lv'.
Proof.
  intros Hsp Hreg Hprev. cbv zeta.
  assert (Hno : forall x, x ∈ s :: lv -> type x <> SN_PREV_PERSISTENT_SNAPSHOT).
  { intros x Hx E. unfold count_type in Hprev. assert (Hin : In x (List.filter (fun s => type s =? SN_PREV_PERSISTENT_SNAPSHOT) (s :: lv))).
    { apply filter_In. split; [by apply list_elem_of_In|]. by rewrite E. }
    destruct (List.filter _ _); [done|]. discriminate Hprev. }
  assert (Hlive : forall x, x ∈ s :: lv -> live_ok x).
  { apply Forall_forall, (ls_live _ _ _ _ (proj1 (proj2 Hsp))). }
  assert (Hb : forall x ty, x ∈ s :: lv -> begins (type x) = Some ty -> type x = SN_PERSISTENT_SNAPSHOT /\ ty = SN_PREV_PERSISTENT_SNAPSHOT).
  { intros x ty Hx. specialize (Hno x Hx). destruct (Hlive x Hx) as [[E|[E|E]] _ _ _ _]; rewrite E; [done|by intros [= <-]|done]. }
  assert (Hpers := ls_pers _ _ _ _ (proj1 (proj2 Hsp))).
  rewrite count_cons, Hreg in Hprev, Hpers. cbn in Hprev, Hpers.
  destruct (find_type _ _ _ _ SN_PERSISTENT_SNAPSHOT Hsp) as [[-> Hp]|(l1 & x & l2 & Elv & Hx & ->)]; [by left| |].
  - rewrite count_cons, Hreg in Hp. cbn in Hp. exists lv. do 3 (split; [done|]). split; [lia|]. split; [lia|].
    do 2 (split; [done|]). intros x ty Hx [Ht _]%Hb; [|done]. exfalso.
    assert (H := proj2 (filter_In (fun s => type s =? SN_PERSISTENT_SNAPSHOT) x lv)). unfold count_type in Hp.
    destruct (List.filter _ lv); [|discriminate Hp]. apply H. apply elem_of_cons in Hx as [->|Hx]; [by rewrite Hreg in Ht|].
    split; [by apply list_elem_of_In|]. by rewrite Ht.
  - destruct l1 as [|y l1]; cbn in Elv; injection Elv as <- ->; [by rewrite Hreg in Hx|].
    rewrite count_app, count_cons, Hx in Hpers, Hprev. cbn in Hpers, Hprev.
    exists (l1 ++ set_type SN_PREV_PERSISTENT_SNAPSHOT x :: l2).
    destruct (type_step _ _ _ (s :: l1) x l2 SN_PREV_PERSISTENT_SNAPSHOT Hsp) as [H1 H2]; [by right; right|..];
      try (cbn [app]; rewrite count_cons, count_app, count_cons, Hreg; cbn; lia).
    split; [done|]. split; [done|]. split; [apply occupancies_type|].
    do 2 (split; [rewrite count_app, count_cons; cbn; lia|]). do 2 (split; [done|]).
    intros z ty Hz Hty. destruct (Hb z ty Hz Hty) as [Hzt ->]. rewrite map_app, elem_of_app. right. cbn.
    rewrite elem_of_cons. left. f_equal. apply (f_equal timestamp (x := z)). apply (one_of_type SN_PERSISTENT_SNAPSHOT (s :: l1 ++ x :: l2)); [|done| |done|done].
    + rewrite count_cons, count_app, count_cons, Hreg, Hx. cbn. lia.
    + right. apply elem_of_app. right. left.
Qed.

Lemma begin_checkpoint_state rest (st : sn_state W) :
  state_ok rest st ->
  match SnOnBeginCheckpoint st with
  | Done _ _ => keeps begins rest st (SnOnBeginCheckpoint st)
  | Failed _ st' => st' = st
  end.
Proof.
  intros Hst. assert (Hst' := Hst). destruct Hst' as (Hclk & fut & lv & Hsp & Hcl & Hmax).
  unfold SnOnBeginCheckpoint. rewrite !(bind_done _ _ _ st st) by done. cbv zeta.
  destruct (find_type _ _ _ _ SN_PREV_PERSISTENT_SNAPSHOT Hsp) as [[-> Hprev]|(?&?&?&?&?& ->)]; [by right| |done].
  destruct (split_current _ _ _ _ Hsp) as [-> _]. destruct lv as [|s lv]; [done|].
  destruct (Z.eqb_spec (type s) SN_REGULAR_SNAPSHOT) as [Hreg|]; cbn [negb]; [|done].
  cbn [wu_bind wu_modify wu_ret].
  destruct (retire_persistent _ _ _ _ _ Hsp Hreg Hprev) as (lv' & Hsp1 & Ho1 & Hocc & Hc1 & Hc2 & Ea & En & Hty).
  set (L1 := match GetSnapshotByType _ _ with Some _ => _ | None => _ end) in *.
  destruct (begins_type _ _ _ _ _ Hsp1 Hreg Hc1 Hc2) as [Hsp2 Ho2].
  split; [split; [done|]|].
  - exists fut, (set_type SN_PERSISTENT_SNAPSHOT s :: lv'). split; [exact Hsp2|]. cbn. rewrite Ea, En.
    split; [|done]. revert Hcl. unfold occupancies in *. cbn. by rewrite Hocc.
  - apply (evolves_same begins _ _ _ _ _ fut fut (s :: lv) _ [] Hsp Hsp2); [|..].
    + cbn. f_equal. assert (H := f_equal (map fst) Hocc). by rewrite !occupancies_fst in H.
    + intros x ty Hx Hk. right. by apply Hty.
    + apply Permutation_refl'. etransitivity; [exact Ho2|exact Ho1].
Qed.

Lemma purify_keeps rest keep (st : sn_state W) :
  state_ok rest st -> keeps stays rest st (on_snapshots (PurifySnapshots freeBlock keep) st).
Proof. intros H. by destruct (purify_state freeBlock Hfree rest keep st H) as (st' & -> & H' & _ & _ & _ & Hev & _). Qed.

Lemma complete_checkpoint_state rest (st : sn_state W) :
  state_ok rest st -> keeps completes rest st (SnOnCompleteCheckpoint freeBlock st).
Proof.
  intros Hst. assert (Hst' := Hst). destruct Hst' as (Hclk & fut & lv & Hsp & Hcl & Hmax).
  assert (Hweak : forall L L', evolves stays (clock st) L L' -> evolves completes (clock st) L L').
  { intros L L' [H1 H2 H3]. constructor; [done|done|]. intros s ty Hs Hk. apply H3; [done|].
    revert Hk. unfold completes. by destruct (_ =? _). }
  unfold SnOnCompleteCheckpoint. rewrite (bind_done _ _ _ st st) by done. cbv zeta.
  destruct (GetSnapshotByType (snapshots st) SN_PERSISTENT_SNAPSHOT).
  2:{ split; [done|]. apply Hweak. by apply (evolves_refl _ (clock st) _ fut lv). }
  erewrite bind_done by done.
  destruct (find_type _ _ _ _ SN_PREV_PERSISTENT_SNAPSHOT Hsp) as [[-> _]|(l1 & x & l2 & -> & Hx & ->)]; [by right| |].
  - destruct (purify_keeps rest true (set_snapshots (snapshots st) st)) as [H1 H2]; [split; [done|by exists fut, lv]|].
    split; [done|]. by apply Hweak.
  - assert (H1 := ls_pers _ _ _ _ (proj1 (proj2 Hsp))). assert (H2 := ls_prev _ _ _ _ (proj1 (proj2 Hsp))).
    rewrite count_app, count_cons, Hx in H1, H2. cbn in H1, H2.
    destruct (type_step _ _ _ l1 x l2 SN_REGULAR_SNAPSHOT Hsp) as [Hsp1 Ho]; [by left|..];
      try (rewrite count_app, count_cons; cbn; lia).
    edestruct (purify_keeps rest true (set_snapshots (set_type_at (length fut + length l1) SN_REGULAR_SNAPSHOT (snapshots st)) st)) as [H3 H4].
    { split; [done|]. eexists fut, _. split; [exact Hsp1|]. by rewrite occupancies_type. }
    split; [done|]. refine (evolves_trans completes completes stays _ _ _ _ _ _ _ (Z.le_refl _) _ H4); [|by exists fut, (l1 ++ x :: l2)|].
    + intros t ty Hk. exists ty. split; [done|]. revert Hk. unfold completes, stays. destruct (t =? _); [done|].
      destruct (t =? SN_REGULAR_SNAPSHOT) eqn:E; [done|]. intros [= <-]. by rewrite E.
    + apply (evolves_same completes _ _ _ _ _ fut fut _ _ [] Hsp Hsp1); [by rewrite !map_app| |exact (Permutation_refl' Ho)].
      intros s ty Hs Hk. unfold completes in Hk. destruct (Z.eqb_spec (type s) SN_PREV_PERSISTENT_SNAPSHOT) as [|Hne]; [done|].
      unfold stays in Hk. destruct (_ =? _); [done|]. injection Hk as <-.
      rewrite map_app, elem_of_app. apply elem_of_app in Hs as [Hs|[->|Hs]%elem_of_cons]; [left|done|right; right];
        apply list_elem_of_fmap; by exists s.
Qed.

(** ** Advancing and damaging *)

(** Nobody reads a new snapshot. *)
Lemma clients_ok_new occ t acts bl :
  t ∉ map fst occ -> clients_ok occ acts bl -> clients_ok ((t, 0) :: occ) acts bl.
Proof.
  intros Hn [H1 H2 H3]. constructor; [| |done].
  - intros t' n [[= -> ->]|H]%elem_of_cons; [|by apply H1].
    rewrite filter_none; [done|]. intros b Hb. unfold is_reader.
    destruct (Z.eqb_spec (statusAndType b) SN_READ_ONLY_TRANSACTON) as [E|]; [|done].
    destruct (Z.eqb_spec (cl_timestamp b) t) as [<-|]; [|done]. destruct (Hn (H2 b Hb E)).
  - intros b Hb E. right. by apply H2.
Qed.

Lemma advance_state rest (st : sn_state W) :
  state_ok rest st -> keeps stays rest st (SnTryAdvanceSnapshots freeBlock st).
Proof.
  intros Hst. destruct (purify_state freeBlock Hfree rest false st Hst) as (s1 & Hrun & H1 & Ec & _ & _ & Hev & _).
  unfold SnTryAdvanceSnapshots. rewrite (bind_done _ _ _ tt s1) by done.
  rewrite (bind_done _ _ _ s1 s1) by done.
  assert (H1' := H1). destruct H1' as (Hclk & fut & lv & Hsp & Hcl & Hmax).
  unfold EnsureCanAdvanceSnapshots. destruct (split_current _ _ _ _ Hsp) as [_ ->].
  destruct (leading (snapshots s1)) as [|hd tl] eqn:El; [by split|].
  destruct (_ && _) eqn:Eadv; [|by split].
  apply andb_true_iff in Eadv as [Hu%Z.ltb_lt Hf%Z.eqb_eq]. 
  assert (Hu' : (undamaged lv < 2)%nat) by (unfold undamaged; unfold SN_SNAPSHOTS_COUNT in Hu; lia).
  unfold wu_bind at 1, WuGetTimestamp. destruct (IsValidTimestamp (clock s1)) eqn:Hv; cbn [negb]; [|by split].
  destruct (clock_step _ Hclk Hv) as [-> Hclk'].
  assert (Hcr := create_ok (clock s1) (snapshots s1) fut lv (clock s1) SN_REGULAR_SNAPSHOT (clock s1 + 1) Hsp).
  destruct fut as [|f fut].
  { exfalso. destruct Hsp as (Hl & Hok & _). rewrite El in Hl. cbn in Hl. subst lv.
    assert (Hlv := ls_live _ _ _ _ Hok). apply Forall_cons in Hlv as [[Ht _ _ _ _] _].
    rewrite Hf in Ht. destruct Ht as [H|[H|H]]; discriminate H. }
  destruct Hcr as (L' & fut' & c & HC & Hsp' & Hframe);
    [by left|done|lia|rewrite Nat.add_0_r; apply (ls_pers _ _ _ _ (proj1 (proj2 Hsp)))|rewrite Nat.add_0_r; apply (ls_prev _ _ _ _ (proj1 (proj2 Hsp)))|done|].
  rewrite (bind_done _ _ _ tt (mk_sn L' (clock s1 + 1) (block s1) (world s1))) by (unfold on_list; cbn; by rewrite HC).
  unfold wu_bind, wu_modify, wu_ret, keeps. cbn [out_state set_snapshots snapshots clock block].
  assert (Hsp2 := set_runaway_ok _ _ _ _ 0 Hsp').
  assert (Hev2 : evolves stays (clock s1) (snapshots s1) (set_runawayCount 0 L')).
  { apply (evolves_create _ _ _ _ _ _ _ _ _ Hsp Hsp2); [done|exact (proj2 Hframe)]. }
  split; [split; [done|]|refine (evolves_trans stays stays stays _ _ _ _ _ stays_trans _ _ Hev Hev2); [|by rewrite Ec]].
  2:{ destruct Hst as (_ & f0 & lv0 & H0 & _). by exists f0, lv0. }
  exists fut'. eexists. unfold set_snapshots. cbn [clock snapshots block ts_active nClientsMax]. split; [apply set_runaway_ok, Hsp'|].
  destruct Hframe as [(Ea & _ & En) _]. cbn [set_runawayCount ts_active nClientsMax]. rewrite Ea, En.
  split; [|done]. apply (clients_ok_new _ (clock s1)); [|done]. rewrite occupancies_fst.
  intros Hin. apply list_elem_of_fmap in Hin as (x & Ex & Hx).
  assert (Hpast := ls_past _ _ _ _ (proj1 (proj2 Hsp))). rewrite Forall_forall in Hpast.
  specialize (Hpast x Hx). cbn in Hpast. lia.
Qed.

Lemma damage_state rest ts (st : sn_state W) :
  state_ok rest st -> keeps stays rest st (SnDamage false ts st).
Proof.
  intros (Hclk & fut & lv & Hsp & Hcl & Hmax).
  destruct (damage_ok _ false _ _ _ ts Hsp) as (lv' & Hsp' & Hd & Ea & En & Ho).
  assert (Hev := evolves_stays (clock st) _ _ _ _ fut fut lv lv' [] Hsp Hsp' (damage_types _ _ Hd) (Permutation_refl' Ho)).
  unfold SnDamage. destruct (SnDamageSnapshots false (snapshots st) ts) as [a L|e L]; cbn in *;
    (split; [split; [done|]|done]; exists fut, lv'; cbn; rewrite Ea, En, (damage_occupancies _ _ Hd); done).
Qed.
End Calls.

(** ** The system

    The table of clients has a row per registered transaction.  A call is the
    part of a function of wu.cpp that concerns the snapshots. *)

Section System.
Context {W : Type} (freeBlock : XPTR -> wu W unit).

Record sys := mk_sys {
  sy_list : SnSnapshotsList;
  sy_clock : TIMESTAMP;
  sy_clients : gmap Z SnClientState;
  sy_world : W
}.

Inductive call :=
| WuOnRegisterTransaction (sid : Z) (isUsingSnapshot : bool)
| WuOnCommitTransaction (sid : Z)
| WuOnUnregisterTransaction (sid : Z)
| SubmitRequests (currentSnapshotTs : TIMESTAMP) (buf : list SnRequestForGc)
| WuTryAdvanceSnapshots
| WuOnBeginCheckpoint
| WuOnCompleteCheckpoint
| DamageSnapshots (ts : TIMESTAMP).

Definition with_block (S : sys) (b : option SnClientState) : sn_state W :=
  mk_sn (sy_list S) (sy_clock S) b (sy_world S).

Definition back (st : sn_state W) (m : gmap Z SnClientState) : sys :=
  mk_sys (snapshots st) (clock st) m (world st).

Definition back_client (st : sn_state W) (sid : Z) (m : gmap Z SnClientState) : sys :=
  back st (match block st with Some b => <[sid := b]> m | None => m end).

Definition sys_call (c : call) (S : sys) : sys :=
  let no_client {A} (f : wu (sn_state W) A) := back (out_state (f (with_block S None))) (sy_clients S) in
  match c with
  | WuOnRegisterTransaction sid u =>
      match sy_clients S !! sid with
      | Some _ => S
      | None =>
          if nClientsMax (sy_list S) <=? Z.of_nat (size (sy_clients S)) then S
          else
            match SnOnRegisterClient false u (with_block S (Some zero_client)) with
            | Done _ st => back_client st sid (sy_clients S)
            | Failed _ st => back st (sy_clients S)
            end
      end
  | WuOnCommitTransaction sid =>
      match sy_clients S !! sid with
      | None => S
      | Some b => back_client (out_state (SnOnTransactionEnd freeBlock (with_block S (Some b)))) sid (sy_clients S)
      end
  | WuOnUnregisterTransaction sid =>
      match sy_clients S !! sid with
      | None => S
      | Some b => back (out_state (SnOnUnregisterClient freeBlock (with_block S (Some b)))) (delete sid (sy_clients S))
      end
  | SubmitRequests cur buf => no_client (SnSubmitRequest false freeBlock cur buf)
  | WuTryAdvanceSnapshots => no_client (SnTryAdvanceSnapshots freeBlock)
  | WuOnBeginCheckpoint => no_client SnOnBeginCheckpoint
  | WuOnCompleteCheckpoint => no_client (SnOnCompleteCheckpoint freeBlock)
  | DamageSnapshots ts => no_client (SnDamage false ts)
  end.

(** The states after [SnStartup]: the clock is behind the persistent
    snapshot, or anywhere when there is none. *)
Inductive started : sys -> Prop :=
| started_fresh n clk w st :
    TIMESTAMP_MIN <= clk <= TIMESTAMP_MAX ->
    SnStartup INVALID_TIMESTAMP n (mk_sn DestroySnapshotsList clk None w) = Done tt st ->
    started (back st ∅)
| started_persistent pers n w st :
    SnStartup pers n (mk_sn DestroySnapshotsList (pers + 1) None w) = Done tt st ->
    pers <> INVALID_TIMESTAMP -> started (back st ∅).

Definition sys_step (S S' : sys) : Prop := exists c, S' = sys_call c S.

Definition reachable (S : sys) : Prop := exists S0, started S0 /\ rtc sys_step S0 S.

Record sys_ok (S : sys) : Prop := {
  sy_state : state_ok (blocks (sy_clients S)) (with_block S None);
  sy_status : forall c b, sy_clients S !! c = Some b -> In (statusAndType b) [1; 2; 3]
}.

(** A client as the current one. *)
Lemma state_current S sid b : sy_clients S !! sid = Some b ->
  state_ok (blocks (sy_clients S)) (with_block S None)
  <-> state_ok (blocks (delete sid (sy_clients S))) (with_block S (Some b)).
Proof.
  intros Hb. assert (Hp := blocks_lookup _ _ _ Hb). unfold state_ok. cbn.
  assert (Hlen := Permutation_length Hp). cbn in Hlen. rewrite Hlen.
  split; intros (H & fut & lv & H1 & H2 & H3); (split; [done|]; exists fut, lv; split; [done|]; split; [|lia]).
  - by apply (clients_ok_perm _ _ _ _ (symmetry Hp)).
  - by apply (clients_ok_perm _ _ _ _ Hp).
Qed.

Lemma blocks_length m : length (blocks m) = size m.
Proof. unfold blocks. by rewrite length_map, length_map_to_list. Qed.

Lemma state_drop rest (st : sn_state W) b : block st = Some b -> idle_client b ->
  state_ok rest st -> state_ok rest (mk_sn (snapshots st) (clock st) None (world st)).
Proof.
  intros Hb Hi (H & fut & lv & H1 & H2 & H3). split; [done|]. exists fut, lv. rewrite Hb in H2, H3. cbn in *.
  rewrite clients_ok_idle in H2 by done. split; [done|]. split; [done|lia].
Qed.

Lemma state_back sid m (st : sn_state W) b : block st = Some b ->
  state_ok (blocks (delete sid m)) st ->
  state_ok (blocks (<[sid := b]> m)) (mk_sn (snapshots st) (clock st) None (world st)).
Proof.
  intros Hb (H & fut & lv & H1 & H2 & H3). split; [done|]. exists fut, lv. rewrite Hb in H2, H3. cbn in *.
  assert (Hp := blocks_update m sid b). split; [done|].
  split; [by apply (clients_ok_perm _ _ _ _ Hp)|]. apply Permutation_length in Hp. cbn in Hp. lia.
Qed.

Lemma register_block u (st : sn_state W) b : block st = Some b ->
  match SnOnRegisterClient false u st with
  | Done _ st' => exists b', block st' = Some b' /\ In (statusAndType b') [1; 2]
  | Failed _ st' => exists b', block st' = Some b' /\ statusAndType b' = statusAndType b
  end.
Proof.
  intros Hb. unfold SnOnRegisterClient. rewrite (bind_done _ _ _ b st) by (by apply state_block).
  destruct u.
  - rewrite (bind_done _ _ _ st st) by done. destruct (GetCurrentSnapshot _) as [[p s]|]; [|cbn; eauto].
    destruct (isDamaged s); cbn; eauto.
  - unfold get_client_timestamp, WuGetTimestamp, wu_bind. destruct (negb _); cbn.
    + eexists. done.
    + unfold wu_ignore, on_list. destruct (AddActiveTimestamp _ _); cbn; eauto.
Qed.

Context (Hfree : free_total freeBlock).

(** A call keeps the invariant; the snapshots evolve or stay as they are. *)
Definition advances (k : Z -> option Z) (S S' : sys) : Prop :=
  sys_ok S' /\ (evolves k (sy_clock S) (sy_list S) (sy_list S') \/ sy_list S' = sy_list S).

Lemma register_ok sid u S :
  sys_ok S -> advances stays S (sys_call (WuOnRegisterTransaction sid u) S).
Proof.
  intros Hok. assert (Hok' := Hok). destruct Hok' as [Hst Hs]. cbn [sys_call].
  destruct (sy_clients S !! sid) eqn:Hn; [by split; [|right]|].
  destruct (Z.leb_spec (nClientsMax (sy_list S)) (Z.of_nat (size (sy_clients S)))) as [|Hsz]; [by split; [|right]|].
  assert (Hst0 : state_ok (blocks (sy_clients S)) (with_block S (Some zero_client))).
  { destruct Hst as (H & fut & lv & H1 & H2 & H3). split; [done|]. exists fut, lv. cbn in *. split; [done|].
    split; [by apply clients_ok_idle|]. rewrite blocks_length. lia. }
  assert (Hreg : keeps stays (blocks (sy_clients S)) (with_block S (Some zero_client))
                   (SnOnRegisterClient false u (with_block S (Some zero_client)))).
  { destruct u; [eapply register_reader|eapply register_updater]; done. }
  assert (Hblk := register_block u (with_block S (Some zero_client)) zero_client eq_refl).
  destruct (SnOnRegisterClient false u _) as [[] st|e st]; destruct Hreg as [Hreg Hev]; cbn in Hreg, Hev; destruct Hblk as (b & Hb & Hbs).
  - unfold back_client. rewrite Hb. split; [|by left]. constructor; cbn.
    + apply state_back; [done|]. by rewrite delete_id.
    + intros c b' H. apply lookup_insert_Some in H as [[<- <-]|[_ H]]; [cbn in *; tauto|exact (Hs _ _ H)].
  - split; [|by left]. constructor; [|done]. cbn. apply (state_drop _ _ b); [done| |done]. unfold idle_client. rewrite Hbs. done.
Qed.

Lemma commit_ok sid S : sys_ok S -> advances stays S (sys_call (WuOnCommitTransaction sid) S).
Proof.
  intros Hok. cbn [sys_call]. destruct (sy_clients S !! sid) as [b|] eqn:Hb; [|by split; [|right]].
  assert (Hok' := Hok). destruct Hok' as [Hst Hs]. apply (state_current _ _ _ Hb) in Hst.
  assert (H := transaction_end freeBlock Hfree _ _ b Hst eq_refl).
  destruct (_ || _).
  - destruct H as (st' & -> & Hst' & Hb' & Hev). unfold back_client. cbn [out_state]. rewrite Hb'.
    split; [|by left]. constructor; cbn; [by apply state_back|].
    intros c x H. apply lookup_insert_Some in H as [[<- <-]|[_ H]]; [cbn; tauto|exact (Hs _ _ H)].
  - destruct H as (e & ->). split; [|by right]. unfold back_client. cbn. rewrite (insert_id _ _ _ Hb). by destruct S.
Qed.

Lemma unregister_ok sid S : sys_ok S -> advances stays S (sys_call (WuOnUnregisterTransaction sid) S).
Proof.
  intros Hok. cbn [sys_call]. destruct (sy_clients S !! sid) as [b|] eqn:Hb; [|by split; [|right]].
  destruct Hok as [Hst Hs]. apply (state_current _ _ _ Hb) in Hst.
  destruct (unregister_state freeBlock Hfree _ _ b Hst eq_refl) as (st' & b' & -> & Hst' & Hb' & Hi & Hev);
    [right; exact (Hs _ _ Hb)|].
  split; [|by left]. constructor; cbn; [by apply (state_drop _ _ b')|].
  intros c x H. apply lookup_delete_Some in H as [_ H]. exact (Hs _ _ H).
Qed.

Lemma server_ok {A} k (f : wu (sn_state W) A) S :
  keeps k (blocks (sy_clients S)) (with_block S None) (f (with_block S None)) ->
  block (out_state (f (with_block S None))) = None ->
  sys_ok S -> advances k S (back (out_state (f (with_block S None))) (sy_clients S)).
Proof.
  intros [Hf Hev] Hn [_ Hs]. split; [|by left]. constructor; [|done].
  destruct (out_state (f (with_block S None))) as [l c b w]. cbn in *. by subst b.
Qed.

Lemma unblocked st : block st = None -> forall {A} (f : wu (SnSnapshotsList * W) A),
  block (out_state (on_snapshots f st)) = None.
Proof. intros H A f. unfold on_snapshots, wu_lift. by destruct (f _) as [a [l w]|e [l w]]. Qed.

Lemma advance_unblocked st : block st = None -> block (out_state (SnTryAdvanceSnapshots freeBlock st)) = None.
Proof.
  intros Hn. unfold SnTryAdvanceSnapshots. unfold wu_bind at 1.
  assert (Hu := unblocked st Hn (PurifySnapshots freeBlock false)).
  destruct (on_snapshots _ st) as [[] s1|e s1]; [|done]. cbn in Hu. rewrite (bind_done _ _ _ s1 s1) by done.
  destruct (EnsureCanAdvanceSnapshots _) as [[|]|]; [|done|done]. unfold wu_bind, WuGetTimestamp, on_list.
  destruct (negb _); [done|]. cbn. by destruct (CreateSnapshot _ _ _).
Qed.

(** How the types of the special snapshots change. *)
Definition types_after (c : call) : Z -> option Z :=
  match c with
  | WuOnBeginCheckpoint => begins
  | WuOnCompleteCheckpoint => completes
  | _ => stays
  end.

Theorem sys_call_ok c S : sys_ok S -> advances (types_after c) S (sys_call c S).
Proof.
  intros Hok. assert (Hst := sy_state _ Hok). destruct c as [sid u|sid|sid|cur buf| | | |ts].
  - by apply register_ok.
  - by apply commit_ok.
  - by apply unregister_ok.
  - apply server_ok; [by apply submit_state|by apply unblocked|done].
  - apply server_ok; [by apply advance_state|by apply advance_unblocked|done].
  - assert (H := begin_checkpoint_state _ _ Hst). cbn [sys_call types_after].
    destruct (SnOnBeginCheckpoint (with_block S None)) as [t st|e st] eqn:Hb.
    + rewrite <- Hb. apply server_ok; [by rewrite Hb| |done]. unfold SnOnBeginCheckpoint. rewrite (bind_done _ _ _ (with_block S None) (with_block S None)) by done. cbv zeta.
      destruct (GetSnapshotByType _ _); [done|]. destruct (GetCurrentSnapshot _) as [[p s]|]; [|done]. by destruct (negb _).
    + subst st. split; [|by right]. by destruct S.
  - apply server_ok; [by apply complete_checkpoint_state| |done].
    unfold SnOnCompleteCheckpoint. rewrite (bind_done _ _ _ (with_block S None) (with_block S None)) by done. cbv zeta.
    destruct (GetSnapshotByType _ _); [|done]. erewrite bind_done by done. by apply unblocked.
  - apply server_ok; [by apply damage_state| |done]. unfold SnDamage. by destruct (SnDamageSnapshots _ _ _).
Qed.

(** ** The start *)

Lemma init_split n L clk : InitSnapshotsList n SN_SNAPSHOTS_COUNT = Ok L ->
  split_ok clk L (leading L) [] /\ ts_active L = [] /\ 1 <= nClientsMax L.
Proof.
  unfold InitSnapshotsList. destruct (_ || _) eqn:E; [done|]. intros [= <-]. cbn in E.
  rewrite !orb_false_iff, Z.ltb_ge in E. destruct E as [[[E _] _] _].
  split; [|by split]. split; [by rewrite app_nil_r|]. cbn. split; [|split; [|done]].
  - constructor; cbn; try done; try constructor; try (by apply Nat.le_0_l).
    all: repeat constructor; done.
  - split; [cbn; repeat split; lia|]. cbn. intros e o H. by apply elem_of_nil in H.
Qed.

Lemma blocks_empty : blocks ∅ = [].
Proof. unfold blocks. by rewrite map_to_list_empty. Qed.

Lemma empty_clients acts : acts = [] -> clients_ok [] acts [].
Proof. intros ->. constructor; cbn; [by intros t n H%elem_of_nil|by intros b H%elem_of_nil|done]. Qed.

Lemma started_ok S : started S -> sys_ok S.
Proof.
  intros [n clk w st Hclk Hrun|pers n w st Hrun Hne]; revert Hrun; unfold SnStartup, wu_bind, on_list; cbn [snapshots];
    destruct (InitSnapshotsList n SN_SNAPSHOTS_COUNT) as [L|e] eqn:Hi; [|done| |done].
  - intros [= <-]. destruct (init_split n L clk Hi) as (Hsp & Ha & Hm).
    constructor; [|by intros c b H]. split; [cbn; ts_lia|]. exists (leading L), []. cbn.
    split; [done|]. rewrite blocks_empty. split; [by apply empty_clients|cbn; lia].
  - intros Hrun. destruct (Z.eqb_spec pers INVALID_TIMESTAMP); [done|].
    cbn [set_snapshots snapshots] in Hrun. destruct (init_split n L pers Hi) as (Hsp & Ha & Hm).
    destruct (IsValidTimestamp pers) eqn:Hv; [|unfold CreateSnapshot in Hrun; by rewrite Hv in Hrun].
    assert (Hb := proj1 (IsValidTimestamp_spec _) Hv).
    assert (Hcr := create_ok pers L (leading L) [] pers SN_PERSISTENT_SNAPSHOT (pers + 1) Hsp).
    destruct (leading L) as [|f fut] eqn:El; [by destruct Hsp as (_ & _ & _ & Hlen); rewrite El in Hlen|].
    destruct Hcr as (L' & fut' & c & HC & Hsp' & (Ea & _ & En) & _); [by right; left|done|lia|cbn; lia..|].
    rewrite HC in Hrun. injection Hrun as <-. constructor; [|by intros c' b H].
    split; [cbn; ts_lia|]. eexists fut', _. cbn -[occupancies]. split; [done|]. rewrite Ea, En, Ha, blocks_empty. split; [|cbn; lia].
    apply (clients_ok_new _ pers); [by apply not_elem_of_nil|]. by apply empty_clients.
Qed.

Theorem reachable_ok S : reachable S -> sys_ok S.
Proof.
  intros (S0 & H0 & Hr). apply started_ok in H0. induction Hr as [|S1 S2 S3 [c ->] _ IH]; [done|].
  apply IH. by destruct (sys_call_ok c S1 H0).
Qed.
End System.
