(* ===== verification/SnLive.v ===== *)
(** * When the snapshots advance

    [SnTryAdvanceSnapshots] gives up every snapshot nobody needs.  It succeeds
    exactly when at most one snapshot is read and a place is left: during a
    checkpoint two places are taken by the persistent snapshots. *)

From Stdlib Require Import ZArith List Lia Bool Sorted.
From stdpp Require Import base gmap list sets sorting.
From S2P Require Import Prelude WuBase Snapshots SnGc SnApi SnInv SnPurify SnOps SnEvolve SnSystem SnReach.
Local Open Scope sedna_scope.
Local Open Scope Z_scope.

(** The snapshots that are read, and those that cannot be discarded. *)
Definition read_count (l : list SnSnapshot) : nat :=
  length (List.filter (fun s => negb (occupancy s =? 0)) l).
Definition needed_count (l : list SnSnapshot) : nat := length (kept l).

Definition can_advance (l : list SnSnapshot) : bool :=
  (read_count l <? 2)%nat && (needed_count l <? 3)%nat.

Lemma read_kept l : read_count (kept l) = read_count l.
Proof.
  unfold read_count, kept. induction l as [|s l IH]; [done|]. cbn. unfold discardable at 1.
  destruct (occupancy s =? 0) eqn:E; cbn; [destruct (type s =? SN_REGULAR_SNAPSHOT); cbn; rewrite ?E; done|].
  rewrite E. cbn. by rewrite IH.
Qed.

Lemma bare_read l l' : map bare l' = map bare l -> read_count l' = read_count l.
Proof.
  intros H. apply bare_filter_length; [|done]. intros s s' Hs. by apply bare_eq in Hs as (_ & _ & _ & -> & _).
Qed.

(** After the unused ones are damaged. *)
Lemma undamaged_read l l' : Forall live_ok l' -> Forall2 damage_step l l' ->
  Forall (fun s => occupancy s = 0 -> isDamaged s = true) l' -> undamaged l' = read_count l.
Proof.
  unfold undamaged, read_count. intros Hl Hd. induction Hd as [|s s' l l' Hs _ IH]; [done|].
  apply Forall_cons in Hl as [Hl Hls]. intros [Hu Hus]%Forall_cons. cbn.
  destruct (damage_step_fields _ _ Hs) as (_ & _ & _ & Eo & _). rewrite Eo in Hu.
  assert (H := lv_damaged _ Hl). rewrite Eo in H. specialize (IH Hls Hus).
  destruct (Z.eqb_spec (occupancy s) 0) as [E|E]; cbn.
  - by rewrite Hu.
  - destruct (isDamaged s'); cbn; [destruct (E (H eq_refl))|lia].
Qed.

Lemma needed_bound lv :
  Forall live_ok lv -> (needed_count lv <= read_count lv + count_type SN_PERSISTENT_SNAPSHOT lv + count_type SN_PREV_PERSISTENT_SNAPSHOT lv)%nat.
Proof.
  unfold needed_count, kept, read_count. induction 1 as [|s l Hs _ IH]; [done|]. rewrite !count_cons. cbn [List.filter].
  destruct Hs as [Ht _ _ _ _]. unfold discardable at 1.
  destruct (occupancy s =? 0); destruct Ht as [-> | [-> | ->]]; cbn in *; lia.
Qed.

Lemma bare_damage s : bare (damage_unused s) = damage_unused (bare s).
Proof. unfold damage_unused. by destruct s as [? ? ? ? o ?]; cbn; destruct (o =? 0). Qed.

Lemma bare_damaged l : map bare (map damage_unused l) = map damage_unused (map bare l).
Proof. rewrite !map_map. apply map_ext, bare_damage. Qed.

(** The list that [PurifySnapshots] leaves. *)
Lemma purified_bare (keep : bool) l1 cand live lv' :
  live = l1 ++ cand -> l1 = (if keep then take 1 live else []) ->
  map bare lv' = map bare (l1 ++ kept cand) ->
  map bare ((if keep then take 1 lv' else []) ++ map damage_unused (if keep then tl lv' else lv'))
  = map bare l1 ++ map damage_unused (map bare (kept cand)).
Proof.
  intros Hlive Hl1 Hb. rewrite map_app, bare_damaged. destruct keep; [|by subst l1; rewrite Hb].
  destruct live as [|s live]; [subst l1; cbn in *; subst cand; by destruct lv'|].
  subst l1. cbn in Hb |- *. destruct lv' as [|s' lv']; [discriminate Hb|]. cbn in Hb |- *.
  assert (H1 := f_equal (hd (bare s)) Hb). assert (H2 := f_equal (@tl _) Hb). cbn in H1, H2. rewrite take_0. cbn. by rewrite H1, H2.
Qed.

Section Advance.
Context {W : Type} (freeBlock : XPTR -> wu W unit) (Hfree : free_total freeBlock).

(** The first half: what nobody needs is gone or damaged. *)
Lemma advance_purify rest (st : sn_state W) : state_ok rest st ->
  exists st' fut lv, on_snapshots (PurifySnapshots freeBlock false) st = Done tt st'
    /\ clock st' = clock st /\ ts_active (snapshots st') = ts_active (snapshots st)
    /\ split_ok (clock st) (snapshots st') fut lv
    /\ map bare lv = map damage_unused (map bare (kept (from_current (snapshots st))))
    /\ undamaged lv = read_count (from_current (snapshots st))
    /\ length lv = needed_count (from_current (snapshots st)).
Proof.
  intros (Hclk & fut & lv & Hsp & Hcl & Hmax).
  destruct (purify_ok freeBlock Hfree (clock st) (snapshots st) (world st) false) as (L1 & w' & l1 & cand & Hrun & Hcur & -> & Hp);
    [by exists fut, lv|]. rewrite Hcur. cbn [app].
  destruct Hp as (fut' & lv' & freed & Hsp' & Hb & (Ea & _ & En) & _). cbn [app] in Hb.
  destruct (auto_damage_ok _ _ _ _ false Hsp') as (lv2 & Hsp2 & Hd & Hu & Ea2 & _ & _ & E2). cbn [app] in E2.
  eexists _, fut', lv2. split; [unfold on_snapshots, wu_lift; by rewrite Hrun|].
  split; [done|]. split; [cbn; by rewrite Ea2|]. split; [done|]. split; [|split].
  - by rewrite E2, bare_damaged, Hb.
  - rewrite (undamaged_read lv' lv2), (bare_read _ _ Hb), read_kept; [done| |done|done].
    apply (ls_live _ _ _ _ (proj1 (proj2 Hsp2))).
  - unfold needed_count. rewrite E2, length_map. assert (H := f_equal length Hb). by rewrite !length_map in H.
Qed.

Lemma advance_spec rest (st : sn_state W) :
  state_ok rest st -> IsValidTimestamp (clock st) = true ->
  let kept_bare := map damage_unused (map bare (kept (from_current (snapshots st)))) in
  if can_advance (from_current (snapshots st))
  then exists st', SnTryAdvanceSnapshots freeBlock st = Done (clock st) st'
         /\ map bare (from_current (snapshots st'))
            = mk_snapshot (clock st) (ts_active (snapshots st)) [] SN_REGULAR_SNAPSHOT 0 false :: kept_bare
  else exists st', SnTryAdvanceSnapshots freeBlock st = Failed WUERR_MAX_NUMBER_OF_SNAPSHOTS_EXCEEDED st'
         /\ map bare (from_current (snapshots st')) = kept_bare.
Proof.
  intros Hst Hv. cbv zeta. destruct (advance_purify rest st Hst) as (s1 & fut & lv & Hrun & Ec & Ea & Hsp & Hb & Hu & Hn).
  unfold can_advance. rewrite <- Hu, <- Hn, <- Hb. assert (Hsp' := Hsp). destruct Hsp' as (Hl & Hok & _ & Hlen).
  rewrite Hl, length_app in Hlen. change (Z.to_nat SN_SNAPSHOTS_COUNT) with 3%nat in Hlen.
  destruct (split_current _ _ _ _ Hsp) as [_ Hcur].
  assert (Hadv : EnsureCanAdvanceSnapshots (snapshots s1) = Ok ((undamaged lv <? 2)%nat && (length lv <? 3)%nat)).
  { unfold EnsureCanAdvanceSnapshots. rewrite Hcur, Hl. change (length (List.filter _ lv)) with (undamaged lv).
    destruct fut as [|f fut].
    - destruct lv as [|s lv]; [discriminate Hlen|]. cbn [app]. f_equal.
      assert (Hs := ls_live _ _ _ _ Hok). apply Forall_cons in Hs as [[Ht _ _ _ _] _].
      replace (type s =? SN_FUTURE_SNAPSHOT) with false by (destruct Ht as [-> | [-> | ->]]; done).
      replace (length (s :: lv) <? 3)%nat with false by (symmetry; apply Nat.ltb_ge; cbn in *; lia).
      by rewrite !andb_false_r.
    - cbn [app]. f_equal. assert (Hf := ls_future _ _ _ _ Hok). apply Forall_cons in Hf as [Hf _].
      apply future_fields in Hf as (_ & _ & -> & _). cbn [length] in Hlen.
      rewrite Z.eqb_refl, andb_true_r. replace (length lv <? 3)%nat with true by (symmetry; apply Nat.ltb_lt; lia).
      rewrite andb_true_r. unfold SN_SNAPSHOTS_COUNT.
      destruct (Z.ltb_spec (Z.of_nat (undamaged lv)) (3 - 1)), (Nat.ltb_spec (undamaged lv) 2); lia. }
  unfold SnTryAdvanceSnapshots. rewrite (bind_done _ _ _ tt s1) by done. rewrite (bind_done _ _ _ s1 s1) by done.
  rewrite Hadv. destruct (_ && _) eqn:E; [|exists s1; by rewrite Hcur].
  apply andb_true_iff in E as [E1%Nat.ltb_lt E2%Nat.ltb_lt]. unfold wu_bind at 1, WuGetTimestamp. rewrite Ec, Hv. cbn [negb].
  assert (Hcr := create_ok (clock st) (snapshots s1) fut lv (clock st) SN_REGULAR_SNAPSHOT (clock st + 1) Hsp).
  destruct fut as [|f fut]; [cbn in Hlen; lia|].
  destruct Hcr as (L' & fut' & c & HC & Hsp' & Hframe);
    [by left|done|lia|rewrite Nat.add_0_r; apply (ls_pers _ _ _ _ Hok)|rewrite Nat.add_0_r; apply (ls_prev _ _ _ _ Hok)|done|].
  rewrite (bind_done _ _ _ tt (mk_sn L' (u64 (clock st + 1)) (block s1) (world s1))) by (unfold on_list; cbn; by rewrite HC).
  eexists. split; [done|]. cbn [set_snapshots snapshots].
  destruct (split_current _ _ _ _ (set_runaway_ok _ _ _ _ 0 Hsp')) as [_ ->]. cbn [map]. by rewrite Ea.
Qed.
End Advance.
