(* ===== verification/SnNodes.v ===== *)
(** * The counts of garbage versions

    Every node counts the versions of its list that belong to no block any
    more.  The count is exact in every state the calls reach. *)

From Stdlib Require Import ZArith List Lia Bool Sorted.
From stdpp Require Import base gmap list sets sorting.
From S2P Require Import Prelude WuBase Snapshots SnGc SnApi SnInv SnPurify SnOps SnEvolve SnSystem SnReach.
Local Open Scope sedna_scope.
Local Open Scope Z_scope.

Definition bogus (e : SnVersionEntry) : bool := lxptr e =? 0.
Definition bogus_count (l : list SnVersionEntry) : Z := Z.of_nat (length (List.filter bogus l)).

Definition node_ok (n : SnGcNode) : Prop := garbageCount n = bogus_count (entries n).
Definition chain_ok (s : SnSnapshot) : Prop := Forall node_ok (gcChain s).
Definition nodes_ok (L : SnSnapshotsList) : Prop := Forall chain_ok (leading L).

Lemma bogus_count_app l1 l2 : bogus_count (l1 ++ l2) = bogus_count l1 + bogus_count l2.
Proof. unfold bogus_count. rewrite List.filter_app, length_app. lia. Qed.

Lemma merge_node_ok m g m' g' : node_ok m -> node_ok g -> MergeNodesAppendReset m g = (m', g') ->
  node_ok m' /\ node_ok g'.
Proof.
  unfold node_ok, MergeNodesAppendReset. intros H1 H2 [= <- <-]. cbn. rewrite bogus_count_app. split; [lia|done].
Qed.

Lemma rotate_chain_nodes c i c' : Forall node_ok c -> RotateGcChain c i = Ok c' -> Forall node_ok c'.
Proof.
  unfold RotateGcChain. intros Hc. rewrite <- (take_drop i c) in Hc. apply Forall_app in Hc as [H1 H2].
  destruct (drop i c) as [|a [|b tl]]; [done|done|].
  apply Forall_cons in H2 as [Ha [Hb Ht]%Forall_cons]. cbn. intros [= <-].
  rewrite Forall_app, Forall_cons, Forall_app. repeat split; try done; try (by constructor).
  unfold node_ok in *. cbn. rewrite bogus_count_app. lia.
Qed.

Lemma merge_chains_nodes m : forall g m' g', Forall node_ok m -> Forall node_ok g ->
  merge_chains m g = Ok (m', g') -> Forall node_ok m' /\ Forall node_ok g'.
Proof.
  induction m as [|a m IH]; intros [|b g] m' g' Hm Hg; cbn; try done; [by intros [= <- <-]|].
  apply Forall_cons in Hm as [Ha Hm], Hg as [Hb Hg].
  destruct (merge_chains m g) as [[m1 g1]|] eqn:E; [|done]. cbn. intros [= <- <-].
  destruct (IH _ _ _ Hm Hg E) as [H1 H2]. destruct (merge_node_ok _ _ _ _ Ha Hb eq_refl) as [H3 H4].
  split; by constructor.
Qed.

Lemma repair_nodes l : forall d l', Forall chain_ok l -> Forall node_ok d ->
  repair_chains l d = Ok l' -> Forall chain_ok l'.
Proof.
  induction l as [|s l IH]; intros [|n d] l' Hl Hd; cbn; try done; [by intros [= <-]|].
  apply Forall_cons in Hl as [Hs Hl], Hd as [Hn Hd].
  destruct (repair_chains l d) as [l1|] eqn:E; [|done]. cbn. intros [= <-].
  constructor; [|by apply (IH d)]. unfold chain_ok. cbn. apply Forall_app. split; [done|by constructor].
Qed.

Lemma rotate_after_nodes l : forall i l', Forall chain_ok l -> rotate_after i l = Ok l' -> Forall chain_ok l'.
Proof.
  induction l as [|s l IH]; intros i l' Hl; cbn; [by intros [= <-]|].
  apply Forall_cons in Hl as [Hs Hl]. destruct (RotateGcChain _ _) as [c|] eqn:E; [|done]. cbn.
  destruct (rotate_after (S i) l) as [l1|] eqn:E1; [|done]. cbn. intros [= <-].
  constructor; [by apply (rotate_chain_nodes _ _ _ Hs E)|by apply (IH (S i))].
Qed.

Lemma rotate_snapshots_nodes l p l' : Forall chain_ok l -> RotateSnapshots l p = Ok l' -> Forall chain_ok l'.
Proof.
  unfold RotateSnapshots. destruct p as [|p]; [by intros H [= <-]|]. intros Hl.
  rewrite <- (take_drop p l) in Hl. apply Forall_app in Hl as [Ht Hd].
  destruct (drop p l) as [|b [|v u]]; [done|done|]. apply Forall_cons in Hd as [Hb [Hv Hu]%Forall_cons].
  unfold chain_ok in Hv. destruct (gcChain v) as [|first det]; [done|]. apply Forall_cons in Hv as [Hf Hdet].
  destruct (merge_chains (gcChain b) det) as [[m d]|] eqn:E; [|done]. cbn.
  destruct (merge_chains_nodes _ _ _ _ Hb Hdet E) as [Hm Hd'].
  destruct (repair_chains (take p l ++ [set_gcChain m b]) d) as [front|] eqn:E2; [|done]. cbn. intros [= <-].
  constructor; [unfold chain_ok; cbn; by constructor|]. apply Forall_app. split; [|done].
  apply (repair_nodes _ _ _) in E2; [done| |done]. apply Forall_app. split; [done|]. constructor; [done|constructor].
Qed.

Section NodesOf.
Context {W : Type} (freeBlock : XPTR -> wu W unit) (Hfree : free_total freeBlock).

Lemma purge_total l : forall w, exists w', purge_loop freeBlock l w = ([], Done tt w').
Proof.
  induction l as [|e l IH]; intros w; cbn; [by exists w|].
  destruct (Hfree (xptr e) w) as [w1 ->]. apply IH.
Qed.

Definition pair_nodes_ok (p : SnSnapshotsList * W) : Prop := nodes_ok (fst p).

Lemma discard_nodes ts : wu_preserves pair_nodes_ok (DiscardSnapshot freeBlock ts).
Proof.
  intros [L w] HL. unfold pair_nodes_ok, DiscardSnapshot in *. cbn in HL.
  destruct (GetSnapshotByTimestamp L ts) as [[p v]|] eqn:Hg; [|done].
  destruct (negb _); [done|]. destruct (_ <? _); [done|]. destruct (gcChain v) as [|first c] eqn:Ec; [done|].
  unfold PurgeVersions. destruct (purge_total (entries first) w) as [w1 ->].
  destruct (rotate_after 0 (drop (S p) (leading L))) as [after|] eqn:Ea; [|done].
  destruct (RotateSnapshots _ p) as [l|] eqn:Er; [|done]. cbn. unfold nodes_ok in *. cbn.
  apply (rotate_snapshots_nodes _ _ _) in Er; [done|].
  destruct (lookup_by_timestamp _ _ _ _ Hg) as (Hl & _). rewrite Hl in HL.
  apply Forall_app in HL as [H1 [H2 H3]%Forall_cons]. apply Forall_app. split; [done|]. constructor.
  - unfold chain_ok, reset_victim in *. cbn. rewrite Ec in *. apply Forall_cons in H2 as [_ H2]. by constructor.
  - by apply (rotate_after_nodes _ _ _ H3 Ea).
Qed.

Lemma purify_nodes keep : wu_preserves pair_nodes_ok (PurifySnapshots freeBlock keep).
Proof.
  intros [L w] HL. unfold PurifySnapshots.
  assert (Hloop : forall l, wu_preserves pair_nodes_ok (purify_loop freeBlock l)).
  { induction l as [|t l IH]; intros [L1 w1] H1; [done|]. cbn [purify_loop].
    destruct (GetSnapshotByTimestamp L1 t) as [[p s]|]; [|done].
    destruct (_ || _); [by apply IH|]. apply preserves_bind; [apply discard_nodes|done|done]. }
  apply preserves_bind; [apply Hloop| |done]. intros [] [L1 w1] H1. unfold pair_nodes_ok, nodes_ok in *. cbn in *.
  unfold AutoDamageSnapshotsAndScanForGarbage. destruct (GetCurrentSnapshot L1) as [[p s]|]; [|done]. cbn.
  set (q := if keep then S p else p). rewrite <- (take_drop q (leading L1)) in H1. apply Forall_app in H1 as [H1 H2].
  apply Forall_app. split; [done|]. apply Forall_map. eapply Forall_impl; [exact H2|].
  intros x Hx. unfold damage_unused. by destruct (_ =? _).
Qed.

Lemma push_node_ok e g n : node_ok n -> g = bogus e -> node_ok (push_entry e g n).
Proof.
  unfold node_ok, push_entry. cbn. rewrite bogus_count_app. intros -> ->. unfold bogus_count. cbn.
  destruct (bogus e); cbn; lia.
Qed.

Lemma push_version_nodes L p i e g L' : nodes_ok L -> g = bogus e ->
  push_version L p i e g = Some L' -> nodes_ok L'.
Proof.
  unfold nodes_ok, push_version. intros HL Hg. destruct (leading L !! p) as [s|] eqn:Es; [|done].
  destruct (GetGcNodeByIndex _ _) as [k|]; [|done]. destruct (gcChain s !! k) as [n|] eqn:En; [|done].
  intros [= <-]. cbn. apply Forall_insert; [done|]. unfold chain_ok. cbn.
  assert (Hs : chain_ok s) by (by apply (Forall_lookup_1 _ _ _ _ HL Es)).
  apply Forall_insert; [done|]. apply push_node_ok; [|done]. by apply (Forall_lookup_1 _ _ _ _ Hs En).
Qed.

Lemma submit_nodes q r : wu_preserves pair_nodes_ok (SubmitRequestForGc freeBlock q r).
Proof.
  intros [L w] HL. unfold SubmitRequestForGc, pair_nodes_ok in *. cbn in HL.
  destruct (ValidateRequestForGc r) eqn:Hv; [|done]. cbn [negb].
  assert (Hfr : forall L', nodes_ok L' -> nodes_ok (fst (out_state (free_version freeBlock (rq_xptr r) (L', w))))).
  { intros L' H. unfold free_version. by destruct (freeBlock _ _). }
  unfold ValidateRequestForGc in Hv.
  destruct (rq_type r); cbn [is_add_normal is_add_bogus]; [done|..];
    (destruct (find_dependent L q (anchorTs r)) as [[[p|] level]|]; [..|by apply Hfr]); try done; try (by apply Hfr).
  - destruct (push_version _ _ _ _ _) as [L'|] eqn:Hp; [|done]. cbn. apply (push_version_nodes _ _ _ _ _ _ HL) in Hp; [done|].
    rewrite !andb_true_iff, negb_true_iff in Hv. unfold bogus. cbn. by destruct Hv as [[_ ->%negb_true_iff] _].
  - destruct (push_version _ _ _ _ _) as [L'|] eqn:Hp; [|done]. cbn. by apply (push_version_nodes _ _ _ _ _ _ HL) in Hp.
Qed.

Lemma submit_all_nodes q rs : wu_preserves pair_nodes_ok (submit_all freeBlock q rs).
Proof.
  induction rs as [|r rs IH]; [intros x Hx; exact Hx|]. apply preserves_bind; [apply submit_nodes|]. intros _. exact IH.
Qed.

(** Changes of a snapshot that leave the chain alone. *)
Lemma update_nodes L p f : nodes_ok L -> (forall s, gcChain (f s) = gcChain s) ->
  nodes_ok (set_leading (update_at p f (leading L)) L).
Proof.
  unfold nodes_ok, update_at. intros HL Hf. cbn. destruct (leading L !! p) as [s|] eqn:E; [|done].
  apply Forall_insert; [done|]. unfold chain_ok. rewrite Hf. by apply (Forall_lookup_1 _ _ _ _ HL E).
Qed.

Lemma create_nodes L ts ty L' : nodes_ok L -> CreateSnapshot L ts ty = Ok L' -> nodes_ok L'.
Proof.
  unfold nodes_ok, CreateSnapshot. intros HL. destruct (negb _); [done|]. destruct (leading L) as [|h l] eqn:El; [done|].
  destruct (negb _); [done|]. rewrite <- El in *. destruct (leading L !! _) as [s|] eqn:E; [|done].
  intros [= <-]. cbn. apply Forall_insert; [done|]. apply (Forall_lookup_1 _ _ _ _ HL E).
Qed.

Lemma damage_loop_nodes ts l : Forall chain_ok l -> Forall chain_ok (fst (damage_loop ts l)).
Proof.
  induction 1 as [|s l Hs Hl IH]; cbn; [constructor|].
  destruct (_ <=? _); [destruct (_ <? _); [by constructor|]|]; destruct (damage_loop ts l); by constructor.
Qed.

Definition st_nodes_ok (st : sn_state W) : Prop := nodes_ok (snapshots st).

Lemma on_snapshots_nodes {A} (f : wu (SnSnapshotsList * W) A) :
  wu_preserves pair_nodes_ok f -> wu_preserves st_nodes_ok (on_snapshots f).
Proof.
  intros Hf st H. unfold st_nodes_ok, on_snapshots, wu_lift in *. specialize (Hf (snapshots st, world st) H).
  unfold pair_nodes_ok in Hf. by destruct (f _) as [a [l w]|e [l w]].
Qed.

Lemma register_nodes u : wu_preserves st_nodes_ok (@SnOnRegisterClient W false u).
Proof.
  intros st H. unfold st_nodes_ok, SnOnRegisterClient, wu_bind, ImpGetCurrentStateBlock in *.
  destruct (block st) as [b|]; [|done]. destruct u.
  - unfold wu_get. destruct (GetCurrentSnapshot _) as [[p s]|]; [|done]. destruct (isDamaged s); [done|].
    cbn. unfold add_occupancy. by apply update_nodes.
  - unfold get_client_timestamp, WuGetTimestamp. destruct (negb _); [done|]. cbn.
    unfold wu_ignore, on_list, AddActiveTimestamp. cbn. destruct (negb _); [done|]. by destruct (_ =? _).
Qed.

Lemma transaction_end_nodes : wu_preserves st_nodes_ok (SnOnTransactionEnd freeBlock).
Proof.
  apply preserves_bind; [intros st H; unfold ImpGetCurrentStateBlock; by destruct (block st)|]. intros b.
  apply preserves_bind; [|intros _ st H; exact H].
  destruct (_ =? _); [|destruct (_ =? _); [|by destruct (_ =? _); intros st H]].
  - intros st H. unfold st_nodes_ok, RemoveActiveTimestamp in *. cbn.
    destruct (lower_bound _ _) as [x [|y z]]; [done|]. by destruct (_ =? _).
  - unfold end_read_only. intros st H. unfold wu_bind at 1, wu_get. destruct (GetSnapshotByTimestamp _ _) as [[p s]|]; [|done].
    apply preserves_bind; [|intros _; apply on_snapshots_nodes, purify_nodes|exact H].
    intros st' H'. unfold st_nodes_ok, add_occupancy in *. cbn. by apply update_nodes.
Qed.
End NodesOf.

Theorem call_nodes {W} (freeBlock : XPTR -> wu W unit) (Hfree : free_total freeBlock) c S :
  nodes_ok (sy_list S) -> nodes_ok (sy_list (sys_call freeBlock c S)).
Proof.
  intros H. destruct c as [sid u|sid|sid|cur buf| | | |ts]; cbn [sys_call].
  - destruct (sy_clients S !! sid); [done|]. destruct (_ <=? _); [done|].
    assert (Hr := register_nodes u (with_block S (Some zero_client)) H).
    by destruct (SnOnRegisterClient false u _) as [[] st|e st].
  - destruct (sy_clients S !! sid) as [b|]; [|done]. by apply (transaction_end_nodes freeBlock Hfree (with_block S (Some b))).
  - destruct (sy_clients S !! sid) as [b|]; [|done].
    assert (Hr : wu_preserves st_nodes_ok (SnOnUnregisterClient freeBlock)); [|by apply (Hr (with_block S (Some b)))].
    apply preserves_bind; [intros st H'; unfold ImpGetCurrentStateBlock; by destruct (block st)|]. intros b'.
    destruct (_ || _); [intros st H'; exact H'|]. apply preserves_bind; [by apply transaction_end_nodes|intros _ st H'; exact H'].
  - apply (on_snapshots_nodes (SnSubmitRequestForGc freeBlock false cur buf)); [|done]. intros [L w] HL. cbn.
    destruct (_ && _); [done|]. by apply (submit_all_nodes freeBlock).
  - unfold SnTryAdvanceSnapshots. apply (preserves_bind st_nodes_ok); [by apply on_snapshots_nodes, purify_nodes| |done].
    intros _ st H'. unfold wu_bind, wu_get. destruct (EnsureCanAdvanceSnapshots _) as [[|]|]; [|done|done].
    unfold WuGetTimestamp, on_list. destruct (negb _); [done|]. cbn. destruct (CreateSnapshot _ _ _) as [L|] eqn:E; [|done].
    by apply (create_nodes _ _ _ _ H' E).
  - unfold SnOnBeginCheckpoint, wu_bind, wu_get. cbv zeta. destruct (GetSnapshotByType _ _); [done|].
    destruct (GetCurrentSnapshot _) as [[p s]|]; [|done]. destruct (negb _); [done|]. cbn.
    unfold set_type_at. apply update_nodes; [|done]. destruct (GetSnapshotByType _ _) as [[q x]|]; [|done]. by apply update_nodes.
  - unfold SnOnCompleteCheckpoint. rewrite (bind_done _ _ _ (with_block S None) (with_block S None)) by done. cbv zeta.
    destruct (GetSnapshotByType _ _); [|done]. erewrite bind_done by done.
    apply on_snapshots_nodes; [by apply purify_nodes|]. unfold st_nodes_ok. cbn.
    destruct (GetSnapshotByType _ _) as [[q x]|]; [|done]. by apply update_nodes.
  - unfold SnDamage, SnDamageSnapshots. destruct (negb _); [done|]. cbn [with_block snapshots].
    destruct (GetCurrentSnapshot _) as [[p s]|]; [|done]. unfold nodes_ok in *. rewrite <- (take_drop p (leading (sy_list S))) in H.
    apply Forall_app in H as [H1 H2]. apply (damage_loop_nodes ts) in H2. destruct (damage_loop _ _) as [l ok].
    by destruct ok; cbn; apply Forall_app.
Qed.

Theorem reachable_nodes {W} (freeBlock : XPTR -> wu W unit) (Hfree : free_total freeBlock) S :
  reachable freeBlock S -> nodes_ok (sy_list S).
Proof.
  intros (S0 & H0 & Hr).
  assert (H : nodes_ok (sy_list S0)).
  { assert (Hinit : forall n L, InitSnapshotsList n SN_SNAPSHOTS_COUNT = Ok L -> nodes_ok L).
    { intros n L. unfold InitSnapshotsList. destruct (_ || _); [done|]. intros [= <-]. repeat constructor. }
    destruct H0 as [n clk w st Hclk Hrun|pers n w st Hrun Hne]; revert Hrun; unfold SnStartup, wu_bind, on_list; cbn [snapshots];
      (destruct (InitSnapshotsList n SN_SNAPSHOTS_COUNT) as [L|e] eqn:Hi; [|done]); apply Hinit in Hi.
    - by intros [= <-].
    - destruct (_ =? _); [by intros [= <-]|]. cbn [set_snapshots snapshots].
      destruct (CreateSnapshot L pers SN_PERSISTENT_SNAPSHOT) as [L'|] eqn:Hc; [|done]. intros [= <-].
      by apply (create_nodes _ _ _ _ Hi Hc). }
  clear H0. induction Hr as [|S1 S2 S3 [c ->] _ IH]; [done|]. by apply IH, call_nodes.
Qed.
