(* ===== verification/SnCheckpoint.v ===== *)
(** * The versions a checkpoint records

    [SnEnumerateVersionsForCheckpoint] hands every version to its callback
    exactly once: the versions of the persistent snapshot that belong to a
    block, and all others as garbage, in buffers of at most 512 entries with
    the totals announced before. *)

From Stdlib Require Import ZArith List Lia Bool Sorted.
From stdpp Require Import base gmap list sets sorting.
From S2P Require Import Prelude WuBase Snapshots SnGc SnApi SnInv SnPurify SnOps SnEvolve SnSystem SnReach SnNodes.
Local Open Scope sedna_scope.
Local Open Scope Z_scope.

(** ** The nodes in the order of the visit *)

Fixpoint chain_nodes (x y pos : Z) (c : list SnGcNode) : list (SnGcNode * bool * bool) :=
  match c with
  | [] => []
  | n :: c => (n, (pos <=? x) && (x - pos <=? y), 0 <? y) :: chain_nodes x (y + 1) pos c
  end.

Fixpoint all_nodes (x pos : Z) (l : list SnSnapshot) : list (SnGcNode * bool * bool) :=
  match l with
  | [] => []
  | s :: l => chain_nodes x 0 pos (gcChain s) ++ all_nodes (x + 1) pos l
  end.

Section Visits.
Context {U : Type} (proc : SnGcNode -> bool -> bool -> wu U unit).

Fixpoint visit_each (l : list (SnGcNode * bool * bool)) : wu U unit :=
  match l with
  | [] => wu_ret tt
  | (n, belongs, shared) :: l => wu_bind (proc n belongs shared) (fun _ => visit_each l)
  end.

Lemma visit_each_app l1 l2 u :
  visit_each (l1 ++ l2) u = wu_bind (visit_each l1) (fun _ => visit_each l2) u.
Proof.
  revert u; induction l1 as [|[[n b] s] l1 IH]; intros u; [done|]. cbn. unfold wu_bind at 1 3. unfold wu_bind.
  destruct (proc n b s u) as [a u1|e u1]; [|done]. apply IH.
Qed.

Lemma visit_chain_flat x pos c : forall y u,
  visit_chain proc x y pos c u = visit_each (chain_nodes x y pos c) u.
Proof.
  induction c as [|n c IH]; intros y u; [done|]. cbn. unfold wu_bind. destruct (proc _ _ _ u); [apply IH|done].
Qed.

Lemma visit_flat pos l : forall x u, visit_snapshots proc x pos l u = visit_each (all_nodes x pos l) u.
Proof.
  induction l as [|s l IH]; intros x u; [done|]. cbn [visit_snapshots all_nodes]. rewrite visit_each_app.
  unfold wu_bind. rewrite visit_chain_flat. destruct (visit_each _ u); [apply IH|done].
Qed.
End Visits.

(** The entries with their classification. *)
Definition node_entries (v : SnGcNode * bool * bool) : list (SnVersionEntry * bool) :=
  map (fun e => (e, snd (fst v))) (entries (fst (fst v))).
Definition visited (l : list (SnGcNode * bool * bool)) : list (SnVersionEntry * bool) :=
  concat (map node_entries l).

Definition owned_by (t : TIMESTAMP) (v : owned_version) : SnVersionEntry * bool := (fst v, mem (snd v) t).

Lemma mem_take (Q : list TIMESTAMP) (t d : Z) y :
  (forall k x, Q !! k = Some x -> x = t <-> Z.of_nat k = d) -> (y < length Q)%nat ->
  mem (take (S y) Q) t = (0 <=? d) && (d <=? Z.of_nat y).
Proof.
  intros HQ Hy. apply eq_true_iff_eq. rewrite mem_elem, andb_true_iff, !Z.leb_le, list_elem_of_lookup. split.
  - intros [k Hk]. apply lookup_take_Some in Hk as [Hk Hlt]. apply HQ in Hk. destruct Hk as [Hk _].
    specialize (Hk eq_refl). lia.
  - intros [H1 H2]. destruct (lookup_lt_is_Some_2 Q (Z.to_nat d)) as [x Hx]; [lia|].
    exists (Z.to_nat d). rewrite lookup_take_lt, Hx by lia. f_equal. apply (HQ _ _ Hx). lia.
Qed.

Lemma chain_visited t d c : forall A B,
  (forall k x, (A ++ B) !! k = Some x -> x = t <-> Z.of_nat k = d) -> (length c <= length B)%nat ->
  forall x pos, x - pos = d ->
  visited (chain_nodes x (Z.of_nat (length A)) pos c) = map (owned_by t) (own_nodes (map (app A) (prefixes B)) c).
Proof.
  induction c as [|n c IH]; intros A B HQ Hlen x pos Hd; [by destruct B|].
  destruct B as [|b B]; [cbn in Hlen; lia|]. cbn [chain_nodes prefixes map own_nodes visited concat].
  unfold visited. cbn [map concat]. rewrite map_app. f_equal.
  - rewrite map_map. unfold node_entries. apply map_ext. intros e. unfold owned_by. cbn. f_equal.
    assert (H := mem_take (A ++ b :: B) t d (length A) HQ). rewrite length_app in H. cbn [length] in H.
    replace (take (S (length A)) (A ++ b :: B)) with (A ++ [b]) in H
      by (change (S (length A)) with (1 + length A)%nat; rewrite Nat.add_comm, take_app_add; done).
    rewrite H by lia. destruct (Z.leb_spec pos x), (Z.leb_spec 0 d); lia.
  - rewrite map_map. specialize (IH (A ++ [b]) B). rewrite length_app in IH. cbn [length] in IH.
    replace (Z.of_nat (length A) + 1) with (Z.of_nat (length A + 1)) by lia.
    rewrite <- app_assoc in IH. cbn [app] in IH. rewrite (map_ext (fun x => A ++ b :: x) (app (A ++ [b]))).
    + apply IH; [done|cbn in Hlen; lia|done].
    + intros z. by rewrite <- app_assoc.
Qed.

Lemma all_visited t l : forall x pos prev,
  shape (length prev) l -> x = Z.of_nat (length prev) ->
  (forall j z, map timestamp l !! j = Some z -> z = t <-> Z.of_nat j = pos - x) ->
  (forall k z, prev !! k = Some z -> z = t <-> Z.of_nat k = x - 1 - pos) ->
  visited (all_nodes x pos l) = map (owned_by t) (owned_from prev l).
Proof.
  induction l as [|s l IH]; intros x pos prev Hs Hx Hl Hp; [done|]. destruct Hs as [Hc Hs].
  cbn [all_nodes owned_from]. unfold visited. rewrite map_app, concat_app, map_app.
  assert (HQ : forall k z, (timestamp s :: prev) !! k = Some z -> z = t <-> Z.of_nat k = x - pos).
  { intros [|k] z; cbn.
    - intros [= <-]. rewrite (Hl O (timestamp s) eq_refl). lia.
    - intros H. rewrite (Hp _ _ H). lia. }
  f_equal.
  - assert (H := chain_visited t (x - pos) (gcChain s) [] (timestamp s :: prev) HQ ltac:(cbn; lia) x pos eq_refl).
    cbn [length] in H. fold (visited (chain_nodes x 0 pos (gcChain s))). change (Z.of_nat 0) with 0 in H. rewrite H.
    f_equal. f_equal. rewrite <- (map_id (prefixes (timestamp s :: prev))) at 2. by apply map_ext.
  - fold (visited (all_nodes (x + 1) pos l)). apply IH; cbn [length]; [done|lia| |].
    + intros j z H. rewrite (Hl (S j) z H). lia.
    + intros k z H. rewrite (HQ _ _ H). lia.
Qed.

(** ** The counts *)

Definition count_if {A} (f : A -> bool) (l : list A) : Z := Z.of_nat (length (List.filter f l)).

Lemma count_if_app {A} (f : A -> bool) l1 l2 : count_if f (l1 ++ l2) = count_if f l1 + count_if f l2.
Proof. unfold count_if. rewrite List.filter_app, length_app. lia. Qed.

Lemma count_if_map {A B} (g : A -> B) (f : B -> bool) l : count_if f (map g l) = count_if (fun x => f (g x)) l.
Proof. unfold count_if. induction l as [|x l IH]; [done|]. cbn. destruct (f (g x)); cbn; lia. Qed.

Definition tally (s0 : SnInternalSnapshotStats) (l : list (SnVersionEntry * bool)) (s1 : SnInternalSnapshotStats) : Prop :=
  nVersions s1 = nVersions s0 + Z.of_nat (length l)
  /\ nSnapshotVersions s1 = nSnapshotVersions s0 + count_if snd l
  /\ nSnapshotGarbageVersions s1 = nSnapshotGarbageVersions s0 + count_if (fun v => snd v && bogus (fst v)) l.

Lemma gather_each l : forall s0, Forall (fun v => node_ok (fst (fst v))) l ->
  exists s1, visit_each GatherInternalStatsProc l s0 = Done tt s1 /\ tally s0 (visited l) s1.
Proof.
  induction l as [|[[n b] sh] l IH]; intros s0 Hok; [exists s0; split; [done|]; unfold tally, count_if; cbn; lia|].
  apply Forall_cons in Hok as [Hn Hok]. cbn [visit_each].
  erewrite bind_done by done.
  set (s' := mk_stats _ _ _ _ _ _). destruct (IH s' Hok) as (s1 & Hrun & Ht1 & Ht2 & Ht3). exists s1. split; [exact Hrun|].
  assert (E1 : count_if snd (node_entries (n, b, sh)) = if b then Z.of_nat (length (entries n)) else 0).
  { unfold node_entries. rewrite count_if_map. cbn. unfold count_if. destruct b.
    - by rewrite filter_all.
    - by rewrite filter_none. }
  assert (E2 : count_if (fun v => snd v && bogus (fst v)) (node_entries (n, b, sh)) = if b then garbageCount n else 0).
  { unfold node_entries. rewrite count_if_map. cbn. cbn in Hn. rewrite Hn. unfold count_if, bogus_count.
    destruct b; [done|]. by rewrite filter_none. }
  unfold tally, visited. cbn [map concat]. fold (visited l). rewrite length_app, !count_if_app, E1, E2.
  assert (E3 : length (node_entries (n, b, sh)) = length (entries n)) by (unfold node_entries; by rewrite length_map).
  rewrite E3, Ht1, Ht2, Ht3. cbn. destruct b; lia.
Qed.

Lemma chain_nodes_ok pos c : forall x y, Forall node_ok c -> Forall (fun v => node_ok (fst (fst v))) (chain_nodes x y pos c).
Proof. induction c as [|n c IH]; intros x y; [constructor|]. intros [H1 H2]%Forall_cons. constructor; [done|]. by apply IH. Qed.

Lemma all_nodes_ok pos l : forall x, Forall chain_ok l -> Forall (fun v => node_ok (fst (fst v))) (all_nodes x pos l).
Proof.
  induction l as [|s l IH]; intros x; [constructor|]. intros [H1 H2]%Forall_cons. cbn. apply Forall_app.
  split; [by apply chain_nodes_ok|by apply IH].
Qed.

(** ** The buffers *)

Section Buffers.
Context {U : Type}
  (enumProc : SnEnumerateVersionsParams -> list SnVersionEntry -> bool -> wu U unit).

(** The callback succeeds. *)
Definition enum_total : Prop := forall p b g u, exists u', enumProc p b g u = Done tt u'.

(** A call of the callback: its buffer and whether it is garbage.  The
    parameters of a call count what was sent before. *)
Definition sent_params (p : SnEnumerateVersionsParams) (b : list SnVersionEntry) (g : bool)
  : SnEnumerateVersionsParams :=
  if g then add_garbage_sent (Z.of_nat (length b)) p else add_pers_sent (Z.of_nat (length b)) p.

Inductive delivers : SnEnumerateVersionsParams -> U -> list (list SnVersionEntry * bool)
    -> SnEnumerateVersionsParams -> U -> Prop :=
| delivers_nil p u : delivers p u [] p u
| delivers_snoc p u l p1 u1 b g u2 :
    delivers p u l p1 u1 -> enumProc p1 b g u1 = Done tt u2 ->
    delivers p u (l ++ [(b, g)]) (sent_params p1 b g) u2.

(** The entries that were sent as normal versions, or as garbage. *)
Definition sent (g : bool) (l : list (list SnVersionEntry * bool)) : list SnVersionEntry :=
  concat (map fst (List.filter (fun c => Bool.eqb (snd c) g) l)).

Lemma sent_snoc g l b g' : sent g (l ++ [(b, g')]) = sent g l ++ (if Bool.eqb g' g then b else []).
Proof.
  unfold sent. rewrite List.filter_app, map_app, concat_app. f_equal. cbn. destruct (Bool.eqb g' g); cbn; [|done].
  by rewrite app_nil_r.
Qed.

Definition chunk_ok (sz : nat) (c : list SnVersionEntry * bool) : Prop := (1 <= length (fst c) <= sz)%nat.

(** What was buffered and sent after the items [P] have been processed. *)
Record buffered (sz : nat) (p0 : SnEnumerateVersionsParams) (u0 : U) (P : list (SnVersionEntry * bool))
    (b : SnEnumerateVersionsBuf) (u : U) (calls : list (list SnVersionEntry * bool)) : Prop := {
  bf_size : bufferSz b = sz;
  bf_calls : delivers p0 u0 calls (params b) u;
  bf_chunks : Forall (chunk_ok sz) calls;
  bf_normal : sent false calls ++ normalBuf b = map fst (List.filter (fun v => negb (snd v)) P);
  bf_garbage : sent true calls ++ garbageBuf b = map fst (List.filter snd P);
  bf_nlen : (length (normalBuf b) <= sz)%nat;
  bf_glen : (length (garbageBuf b) <= sz)%nat
}.

Context (Htotal : enum_total).

Lemma flush_normal_ok all sz p0 u0 P b u calls : (1 <= sz)%nat -> buffered sz p0 u0 P b u calls ->
  exists b' u' calls', flush_normal enumProc all (b, u) = Done tt (b', u') /\ buffered sz p0 u0 P b' u' calls'
    /\ (if all then normalBuf b' = [] else (length (normalBuf b') < sz)%nat)
    /\ garbageBuf b' = garbageBuf b.
Proof.
  intros Hsz [H1 H2 H3 H4 H5 H6 H7]. unfold flush_normal. rewrite H1.
  destruct (Htotal (params b) (normalBuf b) false u) as [u' Hu].
  destruct ((all && negb (Nat.eqb (length (normalBuf b)) 0)) || Nat.eqb (length (normalBuf b)) sz) eqn:E.
  - rewrite Hu. do 3 eexists. split; [done|]. split; [|split; [destruct all; cbn; [done|lia]|done]].
    econstructor; cbn [bufferSz params normalBuf garbageBuf].
    + done.
    + exact (delivers_snoc _ _ _ _ _ _ false _ H2 Hu).
    + apply Forall_app. split; [done|]. constructor; [|constructor]. unfold chunk_ok. cbn.
      apply orb_true_iff in E as [[_ E%negb_true_iff%Nat.eqb_neq]%andb_true_iff|E%Nat.eqb_eq]; lia.
    + rewrite sent_snoc. cbn. rewrite app_nil_r. exact H4.
    + rewrite sent_snoc. cbn. rewrite app_nil_r. exact H5.
    + cbn. lia.
    + done.
  - exists b, u, calls. split; [done|]. split; [by constructor|]. split; [|done].
    apply orb_false_iff in E as [E1 E2%Nat.eqb_neq]. destruct all; [|lia]. cbn in E1.
    apply negb_false_iff, Nat.eqb_eq in E1. by destruct (normalBuf b).
Qed.

Lemma flush_garbage_ok all sz p0 u0 P b u calls : (1 <= sz)%nat -> buffered sz p0 u0 P b u calls ->
  exists b' u' calls', flush_garbage enumProc all (b, u) = Done tt (b', u') /\ buffered sz p0 u0 P b' u' calls'
    /\ (if all then garbageBuf b' = [] else (length (garbageBuf b') < sz)%nat)
    /\ normalBuf b' = normalBuf b.
Proof.
  intros Hsz [H1 H2 H3 H4 H5 H6 H7]. unfold flush_garbage. rewrite H1.
  destruct (Htotal (params b) (garbageBuf b) true u) as [u' Hu].
  destruct ((all && negb (Nat.eqb (length (garbageBuf b)) 0)) || Nat.eqb (length (garbageBuf b)) sz) eqn:E.
  - rewrite Hu. do 3 eexists. split; [done|]. split; [|split; [destruct all; cbn; [done|lia]|done]].
    econstructor; cbn [bufferSz params normalBuf garbageBuf].
    + done.
    + exact (delivers_snoc _ _ _ _ _ _ true _ H2 Hu).
    + apply Forall_app. split; [done|]. constructor; [|constructor]. unfold chunk_ok. cbn.
      apply orb_true_iff in E as [[_ E%negb_true_iff%Nat.eqb_neq]%andb_true_iff|E%Nat.eqb_eq]; lia.
    + rewrite sent_snoc. cbn. rewrite app_nil_r. exact H4.
    + rewrite sent_snoc. cbn. rewrite app_nil_r. exact H5.
    + done.
    + cbn. lia.
  - exists b, u, calls. split; [done|]. split; [by constructor|]. split; [|done].
    apply orb_false_iff in E as [E1 E2%Nat.eqb_neq]. destruct all; [|lia]. cbn in E1.
    apply negb_false_iff, Nat.eqb_eq in E1. by destruct (garbageBuf b).
Qed.

Lemma flush_ok all sz p0 u0 P b u calls : (1 <= sz)%nat -> buffered sz p0 u0 P b u calls ->
  exists b' u' calls', FlushEnumerateVersionsBuf enumProc all (b, u) = Done tt (b', u') /\ buffered sz p0 u0 P b' u' calls'
    /\ (if all then normalBuf b' = [] /\ garbageBuf b' = []
        else (length (normalBuf b') < sz)%nat /\ (length (garbageBuf b') < sz)%nat).
Proof.
  intros Hsz Hb. destruct (flush_normal_ok all sz p0 u0 P b u calls Hsz Hb) as (b1 & u1 & c1 & E1 & Hb1 & Hn & _).
  destruct (flush_garbage_ok all sz p0 u0 P b1 u1 c1 Hsz Hb1) as (b2 & u2 & c2 & E2 & Hb2 & Hg & En).
  exists b2, u2, c2. unfold FlushEnumerateVersionsBuf, wu_bind. rewrite E1, E2. split; [done|]. split; [done|].
  rewrite En. by destruct all.
Qed.

Lemma buffer_ok sz p0 u0 P b u calls e g : (1 <= sz)%nat -> buffered sz p0 u0 P b u calls ->
  exists b' u' calls', BufferVersionEntry enumProc e g (b, u) = Done tt (b', u')
    /\ buffered sz p0 u0 (P ++ [(e, g)]) b' u' calls'.
Proof.
  intros Hsz Hb. unfold BufferVersionEntry. rewrite (bf_size _ _ _ _ _ _ _ Hb).
  assert (Hadd : forall b u calls, buffered sz p0 u0 P b u calls ->
    (length (if g then garbageBuf b else normalBuf b) < sz)%nat ->
    buffered sz p0 u0 (P ++ [(e, g)]) (buffer_entry e g b) u calls).
  { intros b1 u1 c1 [H1 H2 H3 H4 H5 H6 H7] Hlt. unfold buffer_entry.
    destruct g; constructor; cbn; try done; rewrite ?List.filter_app, ?map_app; cbn; rewrite ?app_nil_r; try done;
      rewrite ?app_assoc, ?H4, ?H5, ?length_app; cbn; try done; lia. }
  destruct (Nat.eqb_spec (length (if g then garbageBuf b else normalBuf b)) sz) as [E|E].
  - destruct (flush_ok false sz p0 u0 P b u calls Hsz Hb) as (b1 & u1 & c1 & E1 & Hb1 & Hn & Hg).
    exists (buffer_entry e g b1), u1, c1. unfold wu_bind. rewrite E1. split; [done|]. apply Hadd; [done|]. by destruct g.
  - exists (buffer_entry e g b), u, calls. split; [done|]. apply Hadd; [done|].
    destruct Hb as [_ _ _ _ _ H6 H7]. destruct g; lia.
Qed.

Definition classify (v : SnVersionEntry * bool) : SnVersionEntry * bool := (fst v, negb (snd v) || bogus (fst v)).

Lemma buffer_entries_ok sz p0 u0 belongs l : forall P b u calls, (1 <= sz)%nat -> buffered sz p0 u0 P b u calls ->
  exists b' u' calls', buffer_entries enumProc belongs l (b, u) = Done tt (b', u')
    /\ buffered sz p0 u0 (P ++ map classify (map (fun e => (e, belongs)) l)) b' u' calls'.
Proof.
  induction l as [|e l IH]; intros P b u calls Hsz Hb; [exists b, u, calls; cbn; by rewrite app_nil_r|].
  destruct (buffer_ok sz p0 u0 P b u calls e (negb belongs || bogus e) Hsz Hb) as (b1 & u1 & c1 & E1 & Hb1).
  destruct (IH _ b1 u1 c1 Hsz Hb1) as (b2 & u2 & c2 & E2 & Hb2). exists b2, u2, c2. cbn [buffer_entries].
  unfold bogus in E1. rewrite (bind_done _ _ _ tt (b1, u1)) by exact E1. split; [exact E2|].
  cbn [map]. rewrite <- app_assoc in Hb2. exact Hb2.
Qed.

Lemma enumerate_each sz p0 u0 l : forall P b u calls, (1 <= sz)%nat -> buffered sz p0 u0 P b u calls ->
  exists b' u' calls', visit_each (EnumerateVersionsForCheckpointProc enumProc) l (b, u) = Done tt (b', u')
    /\ buffered sz p0 u0 (P ++ map classify (visited l)) b' u' calls'.
Proof.
  induction l as [|[[n bl] sh] l IH]; intros P b u calls Hsz Hb; [exists b, u, calls; cbn; by rewrite app_nil_r|].
  destruct (buffer_entries_ok sz p0 u0 bl (entries n) P b u calls Hsz Hb) as (b1 & u1 & c1 & E1 & Hb1).
  destruct (IH _ b1 u1 c1 Hsz Hb1) as (b2 & u2 & c2 & E2 & Hb2). exists b2, u2, c2. cbn [visit_each].
  rewrite (bind_done _ _ _ tt (b1, u1)) by exact E1. split; [exact E2|].
  unfold visited. cbn [map concat]. rewrite map_app, app_assoc. exact Hb2.
Qed.
End Buffers.

(** ** The enumeration *)

(** The versions of the persistent snapshot that belong to a block, and the
    others. *)
Definition is_persistent_version (t : TIMESTAMP) (v : owned_version) : bool :=
  mem (snd v) t && negb (bogus (fst v)).
Definition persistent_versions (L : SnSnapshotsList) : list SnVersionEntry :=
  map fst (List.filter (is_persistent_version (SnGetSnapshotTimestamps_pers L)) (owned L)).
Definition garbage_versions (L : SnSnapshotsList) : list SnVersionEntry :=
  map fst (List.filter (fun v => negb (is_persistent_version (SnGetSnapshotTimestamps_pers L) v)) (owned L)).

Lemma position_unique clk L fut l1 s l2 : split_ok clk L fut (l1 ++ s :: l2) ->
  forall j, map timestamp (leading L) !! j = Some (timestamp s) <-> Z.of_nat j = Z.of_nat (length fut + length l1).
Proof.
  intros Hsp j. assert (Hsp' := Hsp). destruct Hsp' as (Hl & Hok & _).
  assert (Hnd := split_NoDup _ _ _ _ Hsp). assert (Hv := ls_live _ _ _ _ Hok). rewrite Forall_app, Forall_cons in Hv.
  destruct Hv as (_ & Hs & _). apply lv_valid, IsValidTimestamp_spec in Hs.
  rewrite Hl, map_app, Nat2Z.inj_iff. rewrite lookup_app_Some, length_map. split.
  - intros [H|[Hge H]].
    + exfalso. rewrite (futures_invalid _ (ls_future _ _ _ _ Hok)) in H. apply list_elem_of_lookup_2, list_elem_of_In, repeat_spec in H.
      ts_lia.
    + assert (j - length fut = length l1)%nat; [|lia]. eapply NoDup_lookup; [exact Hnd|exact H|].
      rewrite map_app, lookup_app_r, length_map, Nat.sub_diag; [done|by rewrite length_map].
  - intros ->. right. split; [lia|]. rewrite map_app, lookup_app_r, length_map; [|rewrite length_map; lia].
    by replace (length fut + length l1 - length fut - length l1)%nat with 0%nat by lia.
Qed.

Lemma no_owner clk L fut lv e o t : split_ok clk L fut lv -> (e, o) ∈ owned L ->
  IsValidTimestamp t = false -> mem o t = false.
Proof.
  intros Hsp Hin Hv. apply not_true_is_false. rewrite mem_elem. intros Ht.
  destruct (owner_live clk L fut lv t e Hsp) as [Hl _]; [by exists o|].
  apply list_elem_of_fmap in Hl as (s & -> & Hs). destruct Hsp as (_ & Hok & _).
  assert (H := ls_live _ _ _ _ Hok). rewrite Forall_forall in H. apply H, lv_valid in Hs. by rewrite Hs in Hv.
Qed.

(** One list of nodes for both visits. *)
Lemma visit_persistent clk L fut lv : split_ok clk L fut lv ->
  exists nodes, visited nodes = map (owned_by (SnGetSnapshotTimestamps_pers L)) (owned L)
    /\ (nodes_ok L -> Forall (fun v => node_ok (fst (fst v))) nodes)
    /\ forall U (proc : SnGcNode -> bool -> bool -> wu U unit) u,
         VisitNodes proc L (SnGetSnapshotTimestamps_pers L) u = visit_each proc nodes u.
Proof.
  intros Hsp. assert (Hsp' := Hsp). destruct Hsp' as (Hl & Hok & [Hshape Hinv] & Hlen). unfold SnGetSnapshotTimestamps_pers.
  destruct (find_type _ _ _ _ SN_PERSISTENT_SNAPSHOT Hsp) as [[-> _]|(l1 & s & l2 & -> & Hs & ->)]; [by left| |].
  - exists (all_nodes 0 INT_MAX (leading L)). split; [|split; [intros H; by apply all_nodes_ok|]].
    + unfold owned. rewrite (all_visited (-1) _ _ _ []); [|done|done|..|by intros k z; rewrite lookup_nil].
      * fold (owned L). apply map_ext_in. intros [e o] Hin%list_elem_of_In. unfold owned_by. cbn. f_equal.
        rewrite (no_owner _ _ _ _ e o INVALID_TIMESTAMP Hsp Hin), (no_owner _ _ _ _ e o (-1) Hsp Hin); done.
      * intros j z Hz. assert (Hj := lookup_lt_Some _ _ _ Hz). rewrite length_map, Hlen in Hj.
        change (Z.to_nat SN_SNAPSHOTS_COUNT) with 3%nat in Hj. apply list_elem_of_lookup_2, list_elem_of_fmap in Hz as (s & -> & Hs).
        split; [|unfold INT_MAX; lia]. intros E. exfalso. rewrite Hl in Hs. apply elem_of_app in Hs as [Hs|Hs].
        -- assert (Hf := ls_future _ _ _ _ Hok). rewrite Forall_forall in Hf. apply Hf, future_fields in Hs as [Hs _]. by rewrite E in Hs.
        -- assert (Hf := ls_live _ _ _ _ Hok). rewrite Forall_forall in Hf. apply Hf, lv_valid in Hs. by rewrite E in Hs.
    + intros U proc u. unfold VisitNodes. rewrite Z.eqb_refl. apply visit_flat.
  - exists (all_nodes 0 (Z.of_nat (length fut + length l1)) (leading L)). split; [|split; [intros H; by apply all_nodes_ok|]].
    + apply all_visited; [done|done| |by intros k z; rewrite lookup_nil].
      intros j z Hz. assert (H := position_unique _ _ _ _ _ _ Hsp j). rewrite Hz in H.
      split; [intros ->; apply proj1 in H; specialize (H eq_refl); lia|]. intros Hj. apply proj2 in H.
      assert (Some z = Some (timestamp s)) by (apply H; lia). congruence.
    + intros U proc u. unfold VisitNodes. destruct (find_here _ _ _ _ _ _ Hl Hok) as [-> _].
      destruct (Z.eqb_spec (timestamp s) INVALID_TIMESTAMP) as [E|_]; [|apply visit_flat].
      exfalso. apply (invalid_not_live _ (ls_live _ _ _ _ Hok)). rewrite <- E, map_app. apply elem_of_app. right. left.
Qed.

Lemma delivers_params {U} (enumProc : SnEnumerateVersionsParams -> list SnVersionEntry -> bool -> wu U unit) p u calls p' u' :
  delivers enumProc p u calls p' u' ->
  p' = mk_params (persSnapshotTs p) (persVersionsCount p) (garbageVersionsCount p)
         (persVersionsSent p + Z.of_nat (length (sent false calls)))
         (garbageVersionsSent p + Z.of_nat (length (sent true calls))).
Proof.
  induction 1 as [p u|p u l p1 u1 b g u2 _ -> _].
  - destruct p. cbn. by rewrite !Z.add_0_r.
  - rewrite !sent_snoc, !length_app. unfold sent_params.
    destruct g; cbn; unfold add_garbage_sent, add_pers_sent; cbn; f_equal; lia.
Qed.

Lemma filter_map_comm {A B} (g : A -> B) (f : B -> bool) l : List.filter f (map g l) = map g (List.filter (fun x => f (g x)) l).
Proof. induction l as [|x l IH]; [done|]. cbn. destruct (f (g x)); cbn; by rewrite IH. Qed.

Lemma classified t (l : list owned_version) :
  map fst (List.filter (fun v => negb (snd v)) (map classify (map (owned_by t) l)))
    = map fst (List.filter (is_persistent_version t) l)
  /\ map fst (List.filter snd (map classify (map (owned_by t) l)))
    = map fst (List.filter (fun v => negb (is_persistent_version t v)) l).
Proof.
  assert (E : forall v, snd (classify (owned_by t v)) = negb (is_persistent_version t v)).
  { intros [e o]. unfold classify, owned_by, is_persistent_version. cbn. by rewrite negb_andb, negb_involutive. }
  rewrite map_map, !filter_map_comm, !map_map. split; f_equal; apply filter_ext; intros v; rewrite E; [apply negb_involutive|done].
Qed.

Section Enumeration.
Context {U : Type}
  (enumProc : SnEnumerateVersionsParams -> list SnVersionEntry -> bool -> wu U unit)
  (Htotal : enum_total enumProc).

Lemma counts_split (f : owned_version -> bool) l :
  (length (List.filter f l) + length (List.filter (fun v => negb (f v)) l) = length l)%nat.
Proof. induction l as [|v l IH]; [done|]. cbn. destruct (f v); cbn; lia. Qed.

Lemma enumerate_stats clk L fut lv : split_ok clk L fut lv -> nodes_ok L ->
  exists stats, GatherInternalStats L (SnGetSnapshotTimestamps_pers L) = Done tt stats
    /\ nVersions stats = Z.of_nat (length (owned L))
    /\ nSnapshotVersions stats - nSnapshotGarbageVersions stats = Z.of_nat (length (persistent_versions L)).
Proof.
  intros Hsp Hn. destruct (visit_persistent clk L fut lv Hsp) as (nodes & Hv & Hok & Hvis).
  unfold GatherInternalStats. rewrite Hvis. destruct (gather_each nodes (mk_stats 0 0 0 0 0 0) (Hok Hn)) as (st & Hrun & H1 & H2 & H3).
  exists st. split; [done|]. rewrite Hv in *. cbn in H1, H2, H3. rewrite H1, H2, H3. split; [by rewrite length_map|].
  rewrite !count_if_map. unfold persistent_versions. rewrite length_map. unfold is_persistent_version, count_if, owned_by. cbn.
  clear. induction (owned L) as [|[e o] l IH]; [done|]. cbn. destruct (mem o _), (bogus e); cbn; lia.
Qed.

Theorem enumerate_spec clk L u :
  snapshots_ok clk L -> nodes_ok L -> Z.of_nat (length (owned L)) < 2 ^ 64 ->
  let n := Z.of_nat (length (persistent_versions L)) in
  let g := Z.of_nat (length (garbage_versions L)) in
  let pers := SnGetSnapshotTimestamps_pers L in
  exists calls u', SnEnumerateVersionsForCheckpoint enumProc L u = Done (mk_params pers n g n g) u'
    /\ delivers enumProc (mk_params pers n g 0 0) u calls (mk_params pers n g n g) u'
    /\ sent false calls = persistent_versions L /\ sent true calls = garbage_versions L
    /\ (if decide (owned L = []) then calls = [([], false)] else Forall (chunk_ok 512) calls).
Proof.
  intros (fut & lv & Hsp) Hn Hmax. cbv zeta.
  destruct (enumerate_stats clk L fut lv Hsp Hn) as (st & Hst & Ht & Hp).
  destruct (visit_persistent clk L fut lv Hsp) as (nodes & Hv & _ & Hvis).
  assert (Hsum := counts_split (is_persistent_version (SnGetSnapshotTimestamps_pers L)) (owned L)).
  assert (En : length (persistent_versions L) = length (List.filter (is_persistent_version (SnGetSnapshotTimestamps_pers L)) (owned L)))
    by (unfold persistent_versions; apply length_map).
  assert (Eg : length (garbage_versions L) = length (List.filter (fun v => negb (is_persistent_version (SnGetSnapshotTimestamps_pers L) v)) (owned L)))
    by (unfold garbage_versions; apply length_map).
  unfold SnEnumerateVersionsForCheckpoint. rewrite Hst, Hp, Ht.
  assert (E1 : u64 (Z.of_nat (length (persistent_versions L))) = Z.of_nat (length (persistent_versions L)))
    by (apply Z.mod_small; lia).
  rewrite E1. replace (u64 (Z.of_nat (length (owned L)) - Z.of_nat (length (persistent_versions L))))
    with (Z.of_nat (length (garbage_versions L))) by (symmetry; unfold u64; rewrite Z.mod_small; lia).
  set (p0 := mk_params _ _ _ 0 0). destruct (Z.eqb_spec (Z.of_nat (length (owned L))) 0) as [E0|Hne].
  - assert (Eo : owned L = []) by (destruct (owned L); [done|cbn in E0; lia]).
    assert (N0 : persistent_versions L = []) by (unfold persistent_versions; by rewrite Eo).
    assert (G0 : garbage_versions L = []) by (unfold garbage_versions; by rewrite Eo).
    destruct (Htotal p0 [] false u) as [u' Hu]. rewrite Hu. exists [([], false)], u'.
    assert (Hd := delivers_snoc enumProc p0 u [] p0 u [] false u' (delivers_nil _ _ _) Hu).
    unfold p0 in Hd |- *. rewrite N0, G0 in *. split; [done|]. split; [exact Hd|]. split; [done|]. split; [done|].
    by case_decide.
  - assert (Hb0 : buffered enumProc 512 p0 u [] (mk_enum 512 [] [] p0) u []).
    { constructor; try done; try constructor; cbn; lia. }
    destruct (enumerate_each enumProc Htotal 512 p0 u nodes [] _ u [] ltac:(lia) Hb0) as (b1 & u1 & c1 & Hrun & Hb1).
    destruct (flush_ok enumProc Htotal true 512 p0 u _ b1 u1 c1 ltac:(lia) Hb1) as (b2 & u2 & c2 & Hfl & Hb2 & E2 & E3).
    unfold wu_bind. rewrite Hvis. change (Z.to_nat (SN_BUFSZ / 2)) with 512%nat. rewrite Hrun, Hfl.
    rewrite Hv in Hb2. cbn [app] in Hb2. destruct Hb2 as [_ Hd Hch H4 H5 _ _]. rewrite E2, app_nil_r in H4. rewrite E3, app_nil_r in H5.
    destruct (classified (SnGetSnapshotTimestamps_pers L) (owned L)) as [C1 C2]. rewrite C1 in H4. rewrite C2 in H5.
    assert (Hpar := delivers_params _ _ _ _ _ _ Hd). rewrite H4, H5 in Hpar. cbn in Hpar.
    fold (persistent_versions L) in Hpar. fold (garbage_versions L) in Hpar.
    rewrite !Z.add_0_l in Hpar. exists c2, u2. rewrite <- Hpar. split; [done|]. split; [done|]. split; [done|]. split; [done|].
    case_decide as Hd'; [|done]. by rewrite Hd' in Hne.
Qed.
End Enumeration.
