(* ===== verification/SnClaims.v ===== *)
(** * Claims about the snapshots

    What src/kernel/sm/wu/wusnapshots.cpp guarantees to the versions it keeps,
    to readers and to checkpoints.  The callback that frees a block is a
    parameter; [free_total] says that it succeeds. *)

From Stdlib Require Import ZArith List Lia Bool Sorted.
From stdpp Require Import base gmap list sets sorting.
From S2P Require Import Prelude WuBase Snapshots SnGc SnApi SnInv SnPurify SnOps SnExpand SnEvolve SnSystem SnReach SnLive SnNodes SnCheckpoint.
Local Open Scope sedna_scope.
Local Open Scope Z_scope.

(** ** A concrete system

    The callback records the freed blocks. *)

Definition log_free (x : XPTR) : wu (list XPTR) unit := fun w => Done tt (x :: w).

Lemma log_free_total : free_total log_free.
Proof. intros x w. by exists (x :: w). Qed.

(** The state after the start from the persistent snapshot 0x10000, for four
    clients. *)
Definition first_state : @sys (list XPTR) :=
  back (out_state (SnStartup 0x10000 4 (mk_sn DestroySnapshotsList 0x10001 None []))) ∅.

Definition run_calls (l : list call) : @sys (list XPTR) := fold_left (fun S c => sys_call log_free c S) l first_state.

Lemma run_reachable l : reachable log_free (run_calls l).
Proof.
  exists first_state. split.
  - apply (started_persistent 0x10000 4 [] _); reflexivity || done.
  - unfold run_calls. generalize first_state. induction l as [|c l IH]; intros S; [done|].
    cbn. eapply rtc_l; [by exists c|apply IH].
Qed.

(** A reader of the snapshot 0x10001, an updater, a newer snapshot, and two
    versions: one that both snapshots need, one of the older snapshot only. *)
Definition busy_calls : list call :=
  [WuTryAdvanceSnapshots; WuOnRegisterTransaction 1 true; WuOnRegisterTransaction 2 false;
   WuTryAdvanceSnapshots;
   SubmitRequests 0x10003 [mk_request 5 50 0x10001 SN_REQUEST_ADD_NORMAL_VERSION];
   SubmitRequests 0x10001 [mk_request 6 60 0x10001 SN_REQUEST_ADD_NORMAL_VERSION]].
Definition busy_state : @sys (list XPTR) := run_calls busy_calls.

Example busy_live :
  map (fun s => (timestamp s, type s, occupancy s, isDamaged s)) (from_current (sy_list busy_state))
  = [(0x10003, 1, 0, false); (0x10001, 1, 1, false); (0x10000, 2, 0, true)].
Proof. vm_compute. reflexivity. Qed.

Example busy_owned :
  owned (sy_list busy_state) = [(mk_entry 6 60, [0x10001]); (mk_entry 5 50, [0x10001; 0x10003])].
Proof. vm_compute. reflexivity. Qed.

Lemma busy_ok : snapshots_ok (sy_clock busy_state) (sy_list busy_state).
Proof.
  destruct (sy_state _ (reachable_ok log_free log_free_total busy_state (run_reachable busy_calls))) as (_ & fut & lv & H & _).
  by exists fut, lv.
Qed.

(** ** Discarding *)

(** C31. [PurifySnapshots] implements the abstract collection: every regular
    snapshot without readers (but the current one, if it is kept) disappears,
    the others keep their order, their timestamps, types and readers; each
    version loses exactly the owners that disappeared; and the blocks that are
    freed are exactly those of the versions that lost all of their owners. *)
Theorem purify_refines {W} (freeBlock : XPTR -> wu W unit) clk L w (keep : bool) :
  free_total freeBlock -> snapshots_ok clk L ->
  let head := if keep then take 1 (from_current L) else [] in
  let cand := if keep then tl (from_current L) else from_current L in
  exists L' w' freed,
    PurifySnapshots freeBlock keep (L, w) = Done tt (L', w')
    /\ snapshots_ok clk L'
    /\ map bare (from_current L') = map bare head ++ map damage_unused (map bare (kept cand))
    /\ owned L' ≡ₚ omap (disown_all (victims cand)) (owned L)
    /\ frees freeBlock w freed w'
    /\ freed ≡ₚ map block_of (List.filter (orphaned_all (victims cand)) (owned L)).
Proof.
  intros Hfree Hok. cbv zeta.
  destruct (purify_ok freeBlock Hfree clk L w keep Hok) as (L1 & w' & l1 & cand & Hrun & Hcur & Hl1 & Hp).
  assert (Hc : cand = if keep then tl (from_current L) else from_current L).
  { subst l1. destruct keep; [|done]. destruct (from_current L) as [|s l]; [done|]. cbn in Hcur. by injection Hcur as ->. }
  destruct Hp as (fut' & lv' & freed & Hsp & Hb & _ & Hown & Hfr & Hrel).
  destruct (auto_damage_ok _ _ _ _ keep Hsp) as (lv2 & Hsp2 & _ & _ & _ & _ & Ho & E2).
  eexists _, w', freed. split; [exact Hrun|]. split; [by exists fut', lv2|].
  destruct (split_current _ _ _ _ Hsp2) as [_ ->]. rewrite Ho, <- Hc, <- Hl1.
  split; [rewrite E2; by apply (purified_bare keep l1 cand (from_current L))|done].
Qed.

Lemma purify_refines_witness :
  exists L' w' freed, PurifySnapshots log_free false (sy_list busy_state, []) = Done tt (L', w')
    /\ frees log_free [] freed w'.
Proof.
  destruct (purify_refines log_free _ _ [] false log_free_total busy_ok) as (L' & w' & freed & H1 & _ & _ & _ & H2 & _).
  exists L', w', freed. split; [exact H1|exact H2].
Defined.

(** ** The reachable states *)

(** C32. In every state that registrations, ends of transactions, submitted
    versions, advances, checkpoints and damages reach, in any order: the live
    snapshots (at most three) are ordered from the newest to the oldest, with
    valid timestamps that are behind the clock; the occupancy of a snapshot is
    the number of clients that read it; the snapshot of every reader exists
    and is not damaged; the active timestamps are ordered and are exactly those
    of the updaters; there is at most one persistent and at most one previous
    persistent snapshot, and at most two snapshots are undamaged. *)
Theorem snapshots_invariant {W} (freeBlock : XPTR -> wu W unit) S :
  free_total freeBlock -> reachable freeBlock S ->
  let live := from_current (sy_list S) in
  let clients := blocks (sy_clients S) in
  (newer_first (map timestamp live) /\ (length live <= 3)%nat)
  /\ Forall (fun s => IsValidTimestamp (timestamp s) = true /\ timestamp s < sy_clock S
               /\ occupancy s = Z.of_nat (length (List.filter (is_reader (timestamp s)) clients))) live
  /\ (forall b, b ∈ clients -> statusAndType b = SN_READ_ONLY_TRANSACTON ->
        exists s, s ∈ live /\ timestamp s = cl_timestamp b /\ isDamaged s = false)
  /\ (older_first (ts_active (sy_list S))
      /\ ts_active (sy_list S) ≡ₚ map cl_timestamp (List.filter is_updater clients))
  /\ (count_type SN_PERSISTENT_SNAPSHOT live <= 1)%nat
  /\ (count_type SN_PREV_PERSISTENT_SNAPSHOT live <= 1)%nat
  /\ (undamaged live <= 2)%nat.
Proof.
  intros Hfree Hr. cbv zeta.
  destruct (sy_state _ (reachable_ok freeBlock Hfree S Hr)) as (_ & fut & lv & Hsp & Hcl & _). cbn in Hsp, Hcl.
  destruct (split_current _ _ _ _ Hsp) as [_ ->]. destruct Hsp as (Hl & Hok & _ & Hlen).
  rewrite Hl, length_app in Hlen. change (Z.to_nat SN_SNAPSHOTS_COUNT) with 3%nat in Hlen.
  split; [split; [apply Hok|lia]|]. split; [|split; [|split; [split; [apply Hok|apply Hcl]|split; [apply Hok|split; apply Hok]]]].
  - rewrite Forall_forall. intros s Hs. assert (H1 := ls_live _ _ _ _ Hok). assert (H2 := ls_past _ _ _ _ Hok).
    rewrite Forall_forall in H1, H2. split; [apply (H1 s Hs)|]. split; [apply (H2 s Hs)|].
    apply (cl_readers _ _ _ Hcl). unfold occupancies. apply list_elem_of_fmap. by exists s.
  - intros b Hb Hro. destruct (reader_snapshot _ _ _ _ _ b Hok Hcl Hb Hro) as (s & Hs & Ht & Hd). by exists s.
Qed.

Lemma snapshots_invariant_witness :
  (length (from_current (sy_list busy_state)) <= 3)%nat /\ (undamaged (from_current (sy_list busy_state)) <= 2)%nat.
Proof.
  destruct (snapshots_invariant log_free busy_state log_free_total (run_reachable busy_calls)) as ((_ & H1) & _ & _ & _ & _ & _ & H2).
  split; [exact H1|exact H2].
Defined.

(** C33. No call loses a version that is still needed, and no call loses a
    persistent snapshot: as long as a snapshot exists it owns every version it
    owned before; the persistent snapshot survives every call (it is at most
    demoted to the previous one, when a checkpoint begins), and the previous
    persistent snapshot survives until the checkpoint completes. *)
Theorem call_safe {W} (freeBlock : XPTR -> wu W unit) S c :
  free_total freeBlock -> reachable freeBlock S ->
  let L := sy_list S in
  let L' := sy_list (sys_call freeBlock c S) in
  (forall t e, owns L t e -> live_at L' t -> owns L' t e)
  /\ (forall s, s ∈ from_current L -> type s = SN_PERSISTENT_SNAPSHOT ->
        exists s', s' ∈ from_current L' /\ timestamp s' = timestamp s
          /\ (type s' = SN_PERSISTENT_SNAPSHOT
              \/ c = WuOnBeginCheckpoint /\ type s' = SN_PREV_PERSISTENT_SNAPSHOT))
  /\ (forall s, s ∈ from_current L -> type s = SN_PREV_PERSISTENT_SNAPSHOT ->
        c <> WuOnCompleteCheckpoint ->
        exists s', s' ∈ from_current L' /\ timestamp s' = timestamp s
          /\ type s' = SN_PREV_PERSISTENT_SNAPSHOT).
Proof.
  intros Hfree Hr. cbv zeta.
  destruct (sys_call_ok freeBlock Hfree c S (reachable_ok freeBlock Hfree S Hr)) as [_ [[H1 H2 H3]|E]].
  - split; [done|]. split.
    + intros s Hs Ht.
      assert (Hk : types_after c SN_PERSISTENT_SNAPSHOT = Some SN_PERSISTENT_SNAPSHOT
                   \/ c = WuOnBeginCheckpoint /\ types_after c SN_PERSISTENT_SNAPSHOT = Some SN_PREV_PERSISTENT_SNAPSHOT)
        by (destruct c; auto).
      rewrite <- (f_equal (types_after c) Ht) in Hk.
      destruct Hk as [Hk|[Hc Hk]]; destruct (H3 s _ Hs Hk) as (s' & Hs' & E1 & E2); exists s'; auto.
    + intros s Hs Ht Hc. apply H3; [done|]. rewrite Ht. by destruct c.
  - rewrite E. split; [done|]. split; intros s Hs Ht; [|intros _]; exists s; auto.
Qed.

Lemma call_safe_witness :
  owns (sy_list busy_state) 0x10001 (mk_entry 5 50)
  /\ owns (sy_list (sys_call log_free WuTryAdvanceSnapshots busy_state)) 0x10001 (mk_entry 5 50).
Proof.
  assert (H : owns (sy_list busy_state) 0x10001 (mk_entry 5 50)).
  { exists [0x10001; 0x10003]. rewrite busy_owned. split; [right; left|left]. }
  split; [exact H|].
  destruct (call_safe log_free busy_state WuTryAdvanceSnapshots log_free_total (run_reachable busy_calls)) as (H1 & _).
  apply H1; [exact H|]. apply list_elem_of_In. vm_compute. tauto.
Defined.

(** ** Versions and the snapshots that see them *)

(** C34. [SnSubmitRequestForGc] on valid requests succeeds and has, in order,
    the effect of each request: a version that no live snapshot between its
    anchor and the given snapshot needs, or that is discarded, has its block
    freed; any other version is owned afterwards by exactly those snapshots,
    and no other version changes. *)
Theorem submit_owners {W} (freeBlock : XPTR -> wu W unit) clk L w cur buf :
  free_total freeBlock -> snapshots_ok clk L ->
  Forall (fun r => ValidateRequestForGc r = true) buf ->
  IsValidTimestamp cur || (cur =? INVALID_TIMESTAMP) = true ->
  exists L' w', SnSubmitRequestForGc freeBlock false cur buf (L, w) = Done tt (L', w')
    /\ snapshots_ok clk L' /\ map bare (from_current L') = map bare (from_current L)
    /\ all_submitted freeBlock cur (from_current L) buf (owned L) (owned L') w w'.
Proof.
  intros Hfree (fut & lv & Hsp) Hv Hcur. unfold SnSubmitRequestForGc.
  rewrite <- negb_orb, Hcur. cbn [negb].
  destruct (submit_all_ok freeBlock Hfree clk cur buf L fut lv w Hsp Hv) as (L' & w' & lv' & Hrun & Hsp' & Hb & _ & _ & Hs).
  exists L', w'. split; [done|]. split; [by exists fut, lv'|].
  destruct (split_current _ _ _ _ Hsp) as [_ ->]. by destruct (split_current _ _ _ _ Hsp') as [_ ->].
Qed.

Lemma submit_owners_witness :
  exists L' w', SnSubmitRequestForGc log_free false 0x10003
    [mk_request 7 70 0x10001 SN_REQUEST_ADD_NORMAL_VERSION; mk_request 8 80 0x10004 SN_REQUEST_ADD_NORMAL_VERSION]
    (sy_list busy_state, []) = Done tt (L', w').
Proof.
  destruct (submit_owners log_free _ _ [] 0x10003
    [mk_request 7 70 0x10001 SN_REQUEST_ADD_NORMAL_VERSION; mk_request 8 80 0x10004 SN_REQUEST_ADD_NORMAL_VERSION]
    log_free_total busy_ok) as (L' & w' & H & _); [repeat constructor|reflexivity|].
  exists L', w'. exact H.
Defined.

(** C35. One pass over the versions of a header and over the snapshots
    ([SnExpandDfvHeader]) computes the same records as the definition: for the
    last committed state and for every live snapshot the newest version that
    was committed before it was taken, preceded by the working version if
    there is one; the six places of the callers' buffers are enough. *)
Theorem expand_equiv clk L versions :
  snapshots_ok clk L -> header_ok versions ->
  exists anchor, SnExpandDfvHeader false L versions 6 false = Ok (expand_reference L versions, anchor).
Proof.
  intros Hok Hh. destruct (expand_ok clk false L versions false Hok Hh) as (a & H & _); [done|]. by exists a.
Qed.

(** A header whose newest version was written by the updater of [busy_state]. *)
Definition busy_header : list TIMESTAMP := [0x10002; 0x10000; INVALID_TIMESTAMP; INVALID_TIMESTAMP].

Lemma busy_header_ok : header_ok busy_header.
Proof. exists [0x10002; 0x10000], 2%nat. split; [reflexivity|repeat constructor]. Qed.

Example busy_expanded : expand_reference (sy_list busy_state) busy_header
  = [(SN_WORKING_VERSION_TIMESTAMP, 0); (SN_LAST_COMMITED_VERSION_TIMESTAMP, 1);
     (0x10003, 1); (0x10001, 1); (0x10000, 1)].
Proof. vm_compute. reflexivity. Qed.

Lemma expand_equiv_witness :
  exists anchor, SnExpandDfvHeader false (sy_list busy_state) busy_header 6 false
    = Ok (expand_reference (sy_list busy_state) busy_header, anchor).
Proof. exact (expand_equiv _ _ busy_header busy_ok busy_header_ok). Defined.

(** The live snapshots that see the version at [id], the oldest first. *)
Definition seers (L : SnSnapshotsList) (versions : list TIMESTAMP) (id : Z) : list TIMESTAMP :=
  rev (map timestamp (List.filter (fun s => bool_decide (visible s versions = Some id)) (from_current L))).

(** C36. The anchor of [SnExpandDfvHeader] is exact: a last committed version
    that is replaced and submitted with it is owned afterwards by exactly the
    live snapshots that see it, and its block is freed at once when there are
    none. *)
Theorem anchor_exact {W} (freeBlock : XPTR -> wu W unit) clk L versions id lx x w out anchor :
  free_total freeBlock -> snapshots_ok clk L -> clk <= TIMESTAMP_MAX -> from_current L <> [] ->
  header_ok versions -> visible (InitFakeHeadSnapshot L) versions = Some id ->
  lx <> 0 -> x <> 0 ->
  SnExpandDfvHeader false L versions 6 false = Ok (out, anchor) ->
  exists L' w',
    SnSubmitRequestForGc freeBlock false (SnGetSnapshotTimestamps_cur false L)
      [mk_request lx x anchor SN_REQUEST_ADD_NORMAL_VERSION] (L, w) = Done tt (L', w')
    /\ match seers L versions id with
       | [] => owned L' = owned L /\ frees freeBlock w [x] w'
       | o => owned L' ≡ₚ (mk_entry lx x, o) :: owned L /\ w' = w
       end.
Proof.
  intros Hfree (fut & lv & Hsp) Hclk Hne Hh Hvis Hlx Hx Hexp.
  destruct (expand_ok clk false L versions false (ex_intro _ fut (ex_intro _ lv Hsp)) Hh) as (a & Ha & Ea); [done|].
  rewrite Hexp in Ha. injection Ha as _ <-. specialize (Ea eq_refl).
  destruct (split_current _ _ _ _ Hsp) as [Hc Hcur]. unfold seers. rewrite Hcur in *.
  destruct (anchor_spec clk L fut lv versions id Hsp Hh Hvis) as [Hsee Hval]. rewrite <- Ea in *.
  specialize (Hval Hne Hclk). set (r := mk_request lx x anchor SN_REQUEST_ADD_NORMAL_VERSION).
  assert (Hr : ValidateRequestForGc r = true).
  { cbn. rewrite Hval. apply Z.eqb_neq in Hlx, Hx. by rewrite Hlx, Hx. }
  destruct (submit_all_ok freeBlock Hfree clk (SnGetSnapshotTimestamps_cur false L) [r] L fut lv w Hsp) as (L' & w' & lv' & Hrun & _ & _ & _ & _ & Hs);
    [by constructor|].
  exists L', w'. split.
  - unfold SnSubmitRequestForGc. rewrite <- negb_orb. rewrite Hrun.
    unfold SnGetSnapshotTimestamps_cur. rewrite Hc. destruct lv as [|s lv]; [done|].
    destruct Hsp as (_ & Hok & _). assert (H := ls_live _ _ _ _ Hok). apply Forall_cons in H as [H _]. by rewrite (lv_valid _ H).
  - apply submitted_one in Hs as Hsub. unfold submitted in Hsub. cbn [rq_type r anchorTs rq_xptr] in Hsub.
    assert (Ed : dependents anchor (SnGetSnapshotTimestamps_cur false L) lv
                 = rev (map timestamp (List.filter (fun s => bool_decide (visible s versions = Some id)) lv))).
    { apply (dependents_seers clk L fut lv); [done|]. intros s Hs'. by rewrite (Hsee s Hs'). }
    rewrite Ed in Hsub. exact Hsub.
Qed.

Lemma anchor_exact_witness :
  exists L' w', SnSubmitRequestForGc log_free false 0x10003
      [mk_request 9 90 0x10000 SN_REQUEST_ADD_NORMAL_VERSION] (sy_list busy_state, []) = Done tt (L', w')
    /\ owned L' ≡ₚ (mk_entry 9 90, [0x10000; 0x10001; 0x10003]) :: owned (sy_list busy_state) /\ w' = [].
Proof.
  exact (anchor_exact log_free (sy_clock busy_state) (sy_list busy_state) busy_header 1 9 90 []
    (expand_reference (sy_list busy_state) busy_header) 0x10000 log_free_total busy_ok
    ltac:(apply Z.leb_le; vm_compute; reflexivity) ltac:(vm_compute; discriminate) busy_header_ok
    ltac:(vm_compute; reflexivity) ltac:(discriminate) ltac:(discriminate) ltac:(vm_compute; reflexivity)).
Defined.

(** ** Progress *)

(** C37. Snapshots advance whenever they can: [SnTryAdvanceSnapshots] creates a
    snapshot with the timestamp of the clock and the active timestamps exactly
    when at most one snapshot has readers and at most two cannot be discarded;
    otherwise it reports that there are too many.  Without a checkpoint in
    progress, one snapshot with readers at most is enough. *)
Theorem advance_progress {W} (freeBlock : XPTR -> wu W unit) S :
  free_total freeBlock -> reachable freeBlock S -> IsValidTimestamp (sy_clock S) = true ->
  let live := from_current (sy_list S) in
  let rest := map damage_unused (map bare (kept live)) in
  (if can_advance live
   then exists st, SnTryAdvanceSnapshots freeBlock (with_block S None) = Done (sy_clock S) st
          /\ map bare (from_current (snapshots st))
             = mk_snapshot (sy_clock S) (ts_active (sy_list S)) [] SN_REGULAR_SNAPSHOT 0 false :: rest
   else exists st, SnTryAdvanceSnapshots freeBlock (with_block S None)
            = Failed WUERR_MAX_NUMBER_OF_SNAPSHOTS_EXCEEDED st
          /\ map bare (from_current (snapshots st)) = rest)
  /\ (GetSnapshotByType (sy_list S) SN_PREV_PERSISTENT_SNAPSHOT = None -> (read_count live <= 1)%nat ->
      can_advance live = true).
Proof.
  intros Hfree Hr Hv. cbv zeta. assert (Hst := sy_state _ (reachable_ok freeBlock Hfree S Hr)). split.
  - exact (advance_spec freeBlock Hfree _ _ Hst Hv).
  - intros Hn Hread. destruct Hst as (_ & fut & lv & Hsp & _). cbn in Hsp. destruct (split_current _ _ _ _ Hsp) as [_ E].
    rewrite E in *. assert (Hlv := ls_live _ _ _ _ (proj1 (proj2 Hsp))). apply needed_bound in Hlv.
    assert (Hp := ls_pers _ _ _ _ (proj1 (proj2 Hsp))).
    destruct (find_type _ _ _ _ SN_PREV_PERSISTENT_SNAPSHOT Hsp) as [[_ H0]|(?&?&?&_&_&H)]; [by right| |congruence].
    unfold can_advance. rewrite andb_true_iff, !Nat.ltb_lt. lia.
Qed.

Lemma advance_progress_witness :
  can_advance (from_current (sy_list busy_state)) = true
  /\ exists st, SnTryAdvanceSnapshots log_free (with_block busy_state None) = Done 0x10004 st.
Proof.
  destruct (advance_progress log_free busy_state log_free_total (run_reachable busy_calls)) as [H1 H2]; [vm_compute; reflexivity|].
  assert (E : can_advance (from_current (sy_list busy_state)) = true).
  { apply H2; [vm_compute; reflexivity|apply Nat.leb_le; vm_compute; reflexivity]. }
  split; [exact E|]. rewrite E in H1. destruct H1 as (st & H & _). exists st. exact H.
Defined.

(** ** Checkpoints *)

(** C38. In every reachable state the enumeration for a checkpoint hands over
    every version exactly once, in buffers of at most 512 entries: as normal
    versions those the persistent snapshot owns and that belong to a block, as
    garbage all others; the totals announced with every buffer are exact, and
    an empty set of versions is announced by one empty buffer. *)
Theorem checkpoint_enumerates {W U} (freeBlock : XPTR -> wu W unit)
    (enumProc : SnEnumerateVersionsParams -> list SnVersionEntry -> bool -> wu U unit) S u :
  free_total freeBlock -> enum_total enumProc -> reachable freeBlock S ->
  Z.of_nat (length (owned (sy_list S))) < 2 ^ 64 ->
  let L := sy_list S in
  let n := Z.of_nat (length (persistent_versions L)) in
  let g := Z.of_nat (length (garbage_versions L)) in
  let pers := SnGetSnapshotTimestamps_pers L in
  exists calls u', SnEnumerateVersionsForCheckpoint enumProc L u = Done (mk_params pers n g n g) u'
    /\ delivers enumProc (mk_params pers n g 0 0) u calls (mk_params pers n g n g) u'
    /\ sent false calls = persistent_versions L /\ sent true calls = garbage_versions L
    /\ (if decide (owned L = []) then calls = [([], false)] else Forall (chunk_ok 512) calls).
Proof.
  intros Hfree Ht Hr Hmax. destruct (sy_state _ (reachable_ok freeBlock Hfree S Hr)) as (_ & fut & lv & Hsp & _).
  apply (enumerate_spec enumProc Ht (sy_clock S)); [by exists fut, lv|by apply (reachable_nodes freeBlock Hfree)|done].
Qed.

(** A callback that records its calls. *)
Definition log_enum (p : SnEnumerateVersionsParams) (b : list SnVersionEntry) (g : bool)
  : wu (list (SnEnumerateVersionsParams * list SnVersionEntry * bool)) unit :=
  fun u => Done tt (u ++ [(p, b, g)]).

Lemma checkpoint_enumerates_witness :
  exists u', SnEnumerateVersionsForCheckpoint log_enum (sy_list busy_state) []
    = Done (mk_params 0x10000 0 2 0 2) u'.
Proof.
  destruct (checkpoint_enumerates log_free log_enum busy_state []) as (calls & u' & H & _);
    [exact log_free_total|intros p b g u; eexists; reflexivity|exact (run_reachable busy_calls)|rewrite busy_owned; reflexivity|].
  exists u'. exact H.
Defined.

(** ** Damaged snapshots *)

(** C39. An attempt to advance that fails damages every snapshot without
    readers, the newest one included: readers that register afterwards are
    refused when the newest snapshot had no readers, although the list of
    snapshots is otherwise unchanged. *)
Theorem failed_advance_refuses {W} (freeBlock : XPTR -> wu W unit) S s rest b :
  free_total freeBlock -> reachable freeBlock S -> IsValidTimestamp (sy_clock S) = true ->
  can_advance (from_current (sy_list S)) = false ->
  kept (from_current (sy_list S)) = s :: rest -> occupancy s = 0 ->
  let S' := sys_call freeBlock WuTryAdvanceSnapshots S in
  map timestamp (from_current (sy_list S')) = map timestamp (s :: rest)
  /\ SnOnRegisterClient false true (with_block S' (Some b))
     = Failed WUERR_UNABLE_TO_USE_DAMAGED_SNAPSHOT (with_block S' (Some b)).
Proof.
  intros Hfree Hr Hv Hadv Hk Ho. cbv zeta. assert (Hok := reachable_ok freeBlock Hfree S Hr).
  assert (H := advance_spec freeBlock Hfree _ _ (sy_state _ Hok) Hv). cbn [with_block snapshots clock] in H. cbv zeta in H.
  rewrite Hadv, Hk in H. destruct H as (st & Hrun & Hb). cbn [sys_call]. rewrite Hrun. cbn [out_state back sy_list].
  assert (Hok' := proj1 (sys_call_ok freeBlock Hfree WuTryAdvanceSnapshots S Hok)). cbn [sys_call] in Hok'. rewrite Hrun in Hok'.
  destruct (sy_state _ Hok') as (_ & fut & lv & Hsp & _). cbn in Hsp. destruct (split_current _ _ _ _ Hsp) as [Hc Hcur].
  rewrite Hcur in *. cbn [map] in Hb. destruct lv as [|s1 lv]; [discriminate Hb|]. split.
  - assert (Hts := f_equal (map timestamp) Hb). rewrite map_cons in Hts. cbn [map] in Hts.
    assert (E : forall x, timestamp (damage_unused (bare x)) = timestamp x) by (intros x; unfold damage_unused; by destruct (_ =? _)).
    rewrite !map_map in Hts. rewrite (map_ext _ _ E), E in Hts. exact Hts.
  - assert (Hd : isDamaged s1 = true).
    { assert (H := f_equal (fun l => isDamaged (hd s1 l)) Hb). cbn in H. unfold damage_unused in H. cbn in H. by rewrite Ho in H. }
    unfold SnOnRegisterClient. rewrite (bind_done _ _ _ b (with_block (back st (sy_clients S)) (Some b))) by done.
    rewrite (bind_done _ _ _ (with_block (back st (sy_clients S)) (Some b)) (with_block (back st (sy_clients S)) (Some b))) by done.
    cbn [with_block snapshots back sy_list]. by rewrite Hc, Hd.
Qed.

(** During a checkpoint, with one reader of an older snapshot. *)
Definition crowded_calls : list call :=
  [WuTryAdvanceSnapshots; WuOnRegisterTransaction 1 true; WuTryAdvanceSnapshots; WuOnBeginCheckpoint].
Definition crowded_state : @sys (list XPTR) := run_calls crowded_calls.

Lemma failed_advance_refuses_witness :
  (exists st, SnOnRegisterClient false true (with_block crowded_state (Some zero_client)) = Done tt st)
  /\ SnOnRegisterClient false true (with_block (sys_call log_free WuTryAdvanceSnapshots crowded_state) (Some zero_client))
     = Failed WUERR_UNABLE_TO_USE_DAMAGED_SNAPSHOT
         (with_block (sys_call log_free WuTryAdvanceSnapshots crowded_state) (Some zero_client)).
Proof.
  split; [eexists; vm_compute; reflexivity|].
  destruct (failed_advance_refuses log_free crowded_state
    (hd (init_snapshot 0) (kept (from_current (sy_list crowded_state))))
    (tl (kept (from_current (sy_list crowded_state)))) zero_client) as [_ H];
    [exact log_free_total|exact (run_reachable crowded_calls)|vm_compute; reflexivity..|].
  exact H.
Defined.

(** The header of a block has room for what a checkpoint and the readers
    need: in every reachable state the expansion of a header followed by
    [SnFilterOutDamaged] succeeds with at most four records
    (VE_VERSIONS_COUNT), in the order of the expansion, and only records of
    damaged snapshots are missing. *)
Theorem header_fits {W} (freeBlock : XPTR -> wu W unit) S versions :
  free_total freeBlock -> reachable freeBlock S -> header_ok versions ->
  exists anchor out,
    SnExpandDfvHeader false (sy_list S) versions 6 false = Ok (expand_reference (sy_list S) versions, anchor)
    /\ SnFilterOutDamaged (sy_list S) (expand_reference (sy_list S) versions) = Ok out
    /\ (length out <= 4)%nat
    /\ out `sublist_of` expand_reference (sy_list S) versions
    /\ List.filter (fun r => negb (record_damaged (sy_list S) r)) out
       = List.filter (fun r => negb (record_damaged (sy_list S) r)) (expand_reference (sy_list S) versions).
Proof.
  intros Hfree Hr Hh. destruct (sy_state _ (reachable_ok freeBlock Hfree S Hr)) as (_ & fut & lv & Hsp & _). cbn in Hsp.
  destruct (expand_ok (sy_clock S) false (sy_list S) versions false) as (a & Ha & _); [by exists fut, lv|done|done|].
  destruct (filter_reference _ _ _ _ versions Hsp) as (out & Hout & Hlen). exists a, out.
  assert (Hw : (working_count (sy_list S) versions <= 1)%nat) by (unfold working_count; destruct versions; [lia|case_decide; lia]).
  split; [done|]. split; [done|]. split; [lia|]. by apply filter_out_spec.
Qed.

(** Two neighbours are damaged: the checkpoint has begun, and the snapshots
    have advanced since. *)
Definition damaged_calls : list call := [WuTryAdvanceSnapshots; WuOnBeginCheckpoint; WuTryAdvanceSnapshots].
Definition damaged_state : @sys (list XPTR) := run_calls damaged_calls.

Lemma header_fits_witness :
  exists out, SnFilterOutDamaged (sy_list damaged_state) (expand_reference (sy_list damaged_state) busy_header) = Ok out
    /\ (length out <= 4)%nat.
Proof.
  destruct (header_fits log_free damaged_state busy_header log_free_total (run_reachable damaged_calls) busy_header_ok)
    as (a & out & _ & H1 & H2 & _).
  exists out. split; [exact H1|exact H2].
Defined.

(** The record after a removed one is not inspected: of two neighbouring
    damaged snapshots the second one stays. *)
Example filter_skips_damaged :
  record_damaged (sy_list damaged_state) (0x10001, 1) = true
  /\ record_damaged (sy_list damaged_state) (0x10000, 1) = true
  /\ SnFilterOutDamaged (sy_list damaged_state) [(0x10002, 0); (0x10001, 1); (0x10000, 1)]
     = Ok [(0x10002, 0); (0x10000, 1)].
Proof. vm_compute. repeat split. Qed.

(** Without a snapshot the anchor wraps around, and the request with it is
    not valid. *)
Example anchor_wraps :
  let L := mk_snapshots (map init_snapshot [0; 1; 2]%nat) [] 4 3 0 in
  SnExpandDfvHeader false L [0x10005] 6 false = Ok ([(SN_LAST_COMMITED_VERSION_TIMESTAMP, 0)], 0)
  /\ ValidateRequestForGc (mk_request 5 50 0 SN_REQUEST_ADD_NORMAL_VERSION) = false.
Proof. vm_compute. repeat split. Qed.
