(* ===== verification/WuAux.v ===== *)
(** * Auxiliary functions of the version manager

    Model of src/kernel/sm/wu/wuaux.h and of the guard memory of wuaux.cpp:
    rounding, the lowest set bit of a word, and the filling and checking of
    memory regions word by word.

    Pointers are addresses of 64 bits.  A block of memory has an address and
    its bytes; a read or write outside of it is undefined.  Words of 32 bits
    are little endian. *)

From Stdlib Require Import ZArith List Lia Bool.
From stdpp Require Import base list.
From S2P Require Import Prelude WuBase.
Local Open Scope sedna_scope.
Local Open Scope Z_scope.

(** ** Numbers and pointers *)

Definition Is2Power (val : Z) : bool := Z.land val (val - 1) =? 0.

Definition RoundSizeUp (size roundFactor : Z) : Z :=
  u64 (Z.lor (u64 (size - 1)) (roundFactor - 1) + 1).

Definition AlignPtr (ptr alignment : Z) : Z :=
  Z.land (u64 (ptr + alignment - 1)) (Z.lnot (alignment - 1)).

(** ** The lowest set bit *)

Definition bit_tab : list Z :=
  [0; 1; 28; 2; 29; 14; 24; 3; 30; 22; 20; 15; 25; 17; 4; 8;
   31; 27; 13; 23; 21; 19; 16; 7; 26; 12; 18; 6; 11; 5; 10; 9].

(** [val&-val] on a word. *)
Definition low_bit (val : Z) : Z := Z.land val (u32 (- val)).

Definition FindLowestBitSet (val : Z) : Z :=
  nth (Z.to_nat (Z.shiftr (u32 (low_bit val * 0x077CB531)) 27)) bit_tab 0.

Definition ResetLowestBitSet (val : Z) : Z * Z :=
  (FindLowestBitSet val, Z.lxor val (low_bit val)).

(** ** Memory *)

Record memory := mk_memory { m_addr : Z; m_bytes : list Z }.

Definition m_end (m : memory) : Z := m_addr m + Z.of_nat (length (m_bytes m)).

Definition get (m : memory) (a : Z) : option Z :=
  if m_addr m <=? a then m_bytes m !! Z.to_nat (a - m_addr m) else None.

Definition set (m : memory) (a b : Z) : memory :=
  if m_addr m <=? a then mk_memory (m_addr m) (<[Z.to_nat (a - m_addr m) := b]> (m_bytes m)) else m.

Definition byte_of (k v : Z) : Z := Z.shiftr v (8 * k) mod 256.

Definition word (b0 b1 b2 b3 : Z) : Z := b0 + b1 * 2 ^ 8 + b2 * 2 ^ 16 + b3 * 2 ^ 24.

Definition load32 (m : memory) (a : Z) : res wuerr Z :=
  match get m a, get m (a + 1), get m (a + 2), get m (a + 3) with
  | Some b0, Some b1, Some b2, Some b3 => Ok (word b0 b1 b2 b3)
  | _, _, _, _ => Throw UNDEFINED
  end.

Definition store32 (m : memory) (a v : Z) : res wuerr memory :=
  if (m_addr m <=? a) && (a + 4 <=? m_end m) then
    Ok (set (set (set (set m a (byte_of 0 v)) (a + 1) (byte_of 1 v)) (a + 2) (byte_of 2 v))
         (a + 3) (byte_of 3 v))
  else Throw UNDEFINED.

(** [memset(ptr,v,n)]. *)
Definition memset (m : memory) (a v n : Z) : res wuerr memory :=
  if (m_addr m <=? a) && (a + n <=? m_end m) then
    let i := Z.to_nat (a - m_addr m) in
    Ok (mk_memory (m_addr m)
          (take i (m_bytes m) ++ repeat v (Z.to_nat n) ++ drop (i + Z.to_nat n) (m_bytes m)))
  else Throw UNDEFINED.

(** ** Guard memory *)

Definition BigEndianByteOrder (arg : Z) : Z :=
  Z.lor (Z.lor (Z.land (u32 (Z.shiftl arg 24)) 0xFF000000) (Z.land (u32 (Z.shiftl arg 8)) 0x00FF0000))
    (Z.lor (Z.land (Z.shiftr arg 8) 0x0000FF00) (Z.land (Z.shiftr arg 24) 0x000000FF)).

(** [None] for [frag0] and [frag1] is the address of [dummy]. *)
Record GuardMemoryVars := mk_vars {
  g_fill : Z; g_m0 : Z; g_m1 : Z;
  g_begin : Z; g_end : Z;
  g_frag0 : option Z; g_frag1 : option Z;
  g_dummy : Z
}.

Definition swap_vars (v : GuardMemoryVars) : GuardMemoryVars :=
  mk_vars (BigEndianByteOrder (g_fill v)) (BigEndianByteOrder (g_m0 v)) (BigEndianByteOrder (g_m1 v))
    (g_begin v) (g_end v) (g_frag0 v) (g_frag1 v) (BigEndianByteOrder (g_dummy v)).

(** The variables of a region that is not empty. *)
Definition region_vars (ptr eptr fill : Z) : GuardMemoryVars :=
  let frag0 := Z.land ptr (Z.lnot 3) in
  let frag1 := Z.land (eptr - 1) (Z.lnot 3) in
  let m0 := Z.shiftr 0xffffffff ((ptr - frag0) * 8) in
  let m1 := u32 (Z.shiftl 0xffffffff (32 - (eptr - frag1) * 8)) in
  let '(begin, end_) := if frag1 <=? frag0 + 4 then (0, 0) else (frag0 + 4, frag1) in
  if frag0 =? frag1 then mk_vars fill (Z.land m0 m1) 0 begin end_ (Some frag0) None fill
  else mk_vars fill m0 m1 begin end_ (Some frag0) (Some frag1) fill.

Definition InitGuardMemoryVars (ptr dist fill : Z) : GuardMemoryVars :=
  swap_vars
    (if dist =? 0 then mk_vars fill 0 0 0 0 None None fill
     else if 0 <? dist then region_vars ptr (ptr + dist) fill
     else region_vars (ptr + dist) ptr fill).

(** [( *frag & ~m) | (fill & m)] *)
Definition blend (old fill m : Z) : Z := Z.lor (Z.land old (Z.lnot m)) (Z.land fill m).

(** [*gmv.frag=...]; a write to [dummy] is not seen. *)
Definition blend_frag (m : memory) (frag : option Z) (fill mask : Z) : res wuerr memory :=
  match frag with
  | None => Ok m
  | Some a => let* old := load32 m a in store32 m a (blend old fill mask)
  end.

Fixpoint fill_words (n : nat) (m : memory) (i fill : Z) : res wuerr memory :=
  match n with
  | O => Ok m
  | S n => let* m := store32 m i fill in fill_words n m (i + 4) fill
  end.

Definition words_between (begin end_ : Z) : nat := Z.to_nat ((end_ - begin) / 4).

Definition DbgInitGuardMemory (m : memory) (ptr dist fill : Z) : res wuerr memory :=
  let gmv := InitGuardMemoryVars ptr dist fill in
  let* m := blend_frag m (g_frag0 gmv) (g_fill gmv) (g_m0 gmv) in
  let* m := fill_words (words_between (g_begin gmv) (g_end gmv)) m (g_begin gmv) (g_fill gmv) in
  blend_frag m (g_frag1 gmv) (g_fill gmv) (g_m1 gmv).

(** The number of damages in a word (0 or 1). *)
Definition check_frag (m : memory) (frag : option Z) (gmv : GuardMemoryVars) (mask : Z) : res wuerr Z :=
  let* content := match frag with None => Ok (g_dummy gmv) | Some a => load32 m a end in
  Ok (if blend content (g_fill gmv) mask =? content then 0 else 1).

Fixpoint check_words (n : nat) (m : memory) (i fill : Z) : res wuerr Z :=
  match n with
  | O => Ok 0
  | S n =>
      let* content := load32 m i in
      let* rest := check_words n m (i + 4) fill in
      Ok ((if fill =? content then 0 else 1) + rest)
  end.

Definition DbgCheckGuardMemory (m : memory) (ptr dist fill : Z) : res wuerr bool :=
  let gmv := InitGuardMemoryVars ptr dist fill in
  let* d0 := check_frag m (g_frag0 gmv) gmv (g_m0 gmv) in
  let* d := check_words (words_between (g_begin gmv) (g_end gmv)) m (g_begin gmv) (g_fill gmv) in
  let* d1 := check_frag m (g_frag1 gmv) gmv (g_m1 gmv) in
  Ok (d0 + d + d1 =? 0).

(** ** Rounding *)

Lemma lor_ones_next a n : 0 <= a -> 0 <= n ->
  Z.lor a (2 ^ n - 1) = a - a mod 2 ^ n + (2 ^ n - 1).
Proof.
  intros Ha Hn. assert (Hp := Z.pow_pos_nonneg 2 n ltac:(lia) Hn).
  assert (E : Z.lor a (2 ^ n - 1) = Z.shiftl (Z.shiftr a n) n + Z.ones n).
  { rewrite Z.add_nocarry_lxor.
    - apply Z.bits_inj'. intros i Hi. replace (2 ^ n - 1) with (Z.pred (2 ^ n)) by lia. rewrite <- Z.ones_equiv, Z.lor_spec, Z.lxor_spec.
      destruct (Z.ltb_spec i n).
      + rewrite (Z.shiftl_spec_low _ n i), !Z.ones_spec_low by lia. by rewrite orb_true_r.
      + rewrite Z.shiftl_spec_high, Z.shiftr_spec, Z.ones_spec_high by lia.
        replace (i - n + n) with i by lia. by rewrite orb_false_r, xorb_false_r.
    - apply Z.bits_inj'. intros i Hi. rewrite Z.land_spec, Z.bits_0. destruct (Z.ltb_spec i n).
      + by rewrite Z.shiftl_spec_low by lia.
      + rewrite Z.ones_spec_high by lia. apply andb_false_r. }
  rewrite E, Z.ones_equiv, Z.shiftl_mul_pow2, Z.shiftr_div_pow2 by lia.
  assert (H := Z.div_mod a (2 ^ n) ltac:(lia)). lia.
Qed.

(** The least multiple of [2^n] that is not smaller. *)
Definition round_up (a n : Z) : Z := (a + 2 ^ n - 1) / 2 ^ n * 2 ^ n.

Lemma round_up_spec a n : 0 <= n ->
  a <= round_up a n < a + 2 ^ n /\ exists q, round_up a n = q * 2 ^ n.
Proof.
  intros Hn. assert (Hp := Z.pow_pos_nonneg 2 n ltac:(lia) Hn). unfold round_up.
  assert (H := Z.div_mod (a + 2 ^ n - 1) (2 ^ n) ltac:(lia)).
  assert (H1 := Z.mod_pos_bound (a + 2 ^ n - 1) (2 ^ n) Hp). split; [lia|eauto].
Qed.

Lemma u64_small z : 0 <= z < 2 ^ 64 -> u64 z = z.
Proof. apply Z.mod_small. Qed.

Lemma RoundSizeUp_spec size n : 0 < size -> 0 <= n -> size + 2 ^ n < 2 ^ 64 ->
  RoundSizeUp size (2 ^ n) = round_up size n.
Proof.
  intros Hs Hn Hb. assert (Hp := Z.pow_pos_nonneg 2 n ltac:(lia) Hn). unfold RoundSizeUp.
  rewrite (u64_small (size - 1)) by lia. rewrite lor_ones_next by lia.
  assert (Hm := Z.mod_pos_bound (size - 1) (2 ^ n) Hp).
  assert (Hd := Z.div_mod (size - 1) (2 ^ n) ltac:(lia)).
  unfold round_up. replace (size + 2 ^ n - 1) with (size - 1 + 1 * 2 ^ n) by lia.
  rewrite Z.div_add by lia.
  replace (size - 1 - (size - 1) mod 2 ^ n + (2 ^ n - 1) + 1) with ((size - 1) / 2 ^ n * 2 ^ n + 2 ^ n) by lia.
  rewrite u64_small by lia. lia.
Qed.

Lemma AlignPtr_spec ptr n : 0 <= ptr -> 0 <= n -> ptr + 2 ^ n <= 2 ^ 64 ->
  AlignPtr ptr (2 ^ n) = round_up ptr n.
Proof.
  intros Ha Hn Hb. assert (Hp := Z.pow_pos_nonneg 2 n ltac:(lia) Hn). unfold AlignPtr, round_up.
  rewrite u64_small by lia. replace (2 ^ n - 1) with (Z.pred (2 ^ n)) by lia.
  rewrite <- Z.ones_equiv, <- Z.ldiff_land, Z.ldiff_ones_r by lia.
  by rewrite Z.shiftl_mul_pow2, Z.shiftr_div_pow2 by lia.
Qed.

Lemma land_lnot3 a : Z.land a (Z.lnot 3) = a - a mod 4.
Proof.
  change 3 with (Z.ones 2). rewrite <- Z.ldiff_land, Z.ldiff_ones_r by lia.
  rewrite Z.shiftl_mul_pow2, Z.shiftr_div_pow2 by lia.
  assert (H := Z.div_mod a (2 ^ 2) ltac:(lia)). change 4 with (2 ^ 2). lia.
Qed.

(** ** Lowest bits *)

(** [k] is the index of the lowest set bit. *)
Definition lowest (v k : Z) : Prop :=
  0 <= k /\ Z.testbit v k = true /\ forall i, 0 <= i < k -> Z.testbit v i = false.

Lemma lowest_unique v k k' : lowest v k -> lowest v k' -> k = k'.
Proof.
  intros (H1 & H2 & H3) (H1' & H2' & H3').
  destruct (Z.lt_trichotomy k k') as [H|[H|H]]; [|done|].
  - rewrite H3' in H2 by lia. done.
  - rewrite H3 in H2' by lia. done.
Qed.

Lemma odd_part p : exists k q, 0 <= k /\ 0 <= q /\ Z.pos p = 2 ^ k * (2 * q + 1).
Proof.
  induction p as [p _|p (k & q & Hk & Hq & E)|].
  - exists 0, (Z.pos p). lia.
  - exists (k + 1), q. split; [lia|]. split; [lia|]. rewrite Z.pow_add_r by lia. lia.
  - exists 0, 0. lia.
Qed.

Lemma odd_part_bits k q i : 0 <= k -> 0 <= i ->
  Z.testbit (2 ^ k * (2 * q + 1)) i = if i <? k then false else if i =? k then true else Z.testbit q (i - k - 1).
Proof.
  intros Hk Hi. rewrite Z.mul_comm. destruct (Z.ltb_spec i k) as [H|H].
  - by rewrite Z.mul_pow2_bits_low.
  - rewrite Z.mul_pow2_bits by lia. destruct (Z.eqb_spec i k) as [->|H1].
    + rewrite Z.sub_diag. apply Z.testbit_odd_0.
    + rewrite <- (Z.testbit_odd_succ q (i - k - 1)) by lia. f_equal. lia.
Qed.

Lemma lowest_exists v : 0 < v -> exists k, lowest v k.
Proof.
  intros Hv. destruct v as [|p|p]; try lia. destruct (odd_part p) as (k & q & Hk & Hq & E).
  exists k. rewrite E. split; [done|]. split.
  - rewrite odd_part_bits, Z.ltb_irrefl, Z.eqb_refl by lia. done.
  - intros i Hi. rewrite odd_part_bits by lia. destruct (Z.ltb_spec i k); [done|lia].
Qed.

Lemma neg_land v k : 0 < v -> lowest v k -> Z.land v (- v) = 2 ^ k.
Proof.
  intros Hv Hl. destruct v as [|p|p]; try lia. destruct (odd_part p) as (k' & q & Hk & Hq & E).
  assert (k = k') as <-.
  { apply (lowest_unique (Z.pos p)); [done|]. rewrite E. split; [done|]. split.
    - rewrite odd_part_bits, Z.ltb_irrefl, Z.eqb_refl by lia. done.
    - intros i Hi. rewrite odd_part_bits by lia. destruct (Z.ltb_spec i k'); [done|lia]. }
  rewrite E. assert (Hp := Z.pow_pos_nonneg 2 k ltac:(lia) Hk). apply Z.bits_inj'. intros i Hi.
  replace (- (2 ^ k * (2 * q + 1))) with (2 ^ k * (2 * (- q - 1) + 1)) by lia.
  rewrite Z.land_spec, !odd_part_bits, Z.pow2_bits_eqb by lia.
  destruct (Z.ltb_spec i k) as [H|H]; [cbn; symmetry; apply Z.eqb_neq; lia|].
  rewrite (Z.eqb_sym k i). destruct (Z.eqb_spec i k) as [H1|H1]; [done|].
  replace (- q - 1) with (Z.lnot q) by (unfold Z.lnot; lia). rewrite Z.lnot_spec by lia.
  by destruct (Z.testbit q (i - k - 1)).
Qed.

Definition is_word (v : Z) : Prop := 0 <= v < 2 ^ 32.

Lemma word_bits_high v i : is_word v -> 32 <= i -> Z.testbit v i = false.
Proof.
  intros [H1 H2] Hi. rewrite <- (Z.mod_small v (2 ^ 32)) by lia. by apply Z.mod_pow2_bits_high; lia.
Qed.

Lemma lowest_word v k : is_word v -> lowest v k -> 0 <= k < 32.
Proof.
  intros Hw (H1 & H2 & _). destruct (Z.lt_ge_cases k 32) as [|H]; [lia|].
  by rewrite (word_bits_high v k Hw H) in H2.
Qed.

Lemma low_bit_spec v k : 0 < v -> is_word v -> lowest v k -> low_bit v = 2 ^ k.
Proof.
  intros Hv Hw Hl. rewrite <- (neg_land v k Hv Hl). unfold low_bit. apply Z.bits_inj'. intros i Hi.
  rewrite !Z.land_spec. destruct (Z.lt_ge_cases i 32) as [H|H].
  - unfold u32. change UINT32_MOD with (2 ^ 32). by rewrite Z.mod_pow2_bits_low by lia.
  - by rewrite (word_bits_high v i Hw H).
Qed.

Lemma small_cases (P : Z -> Prop) (n : nat) :
  Forall P (map Z.of_nat (seq 0 n)) -> forall k, 0 <= k < Z.of_nat n -> P k.
Proof.
  intros H k Hk. rewrite Forall_forall in H. apply H. apply list_elem_of_In, in_map_iff.
  exists (Z.to_nat k). split; [lia|]. apply in_seq. lia.
Qed.

Lemma debruijn_table k : 0 <= k < 32 ->
  nth (Z.to_nat (Z.shiftr (u32 (2 ^ k * 0x077CB531)) 27)) bit_tab 0 = k.
Proof.
  apply (small_cases (fun k => nth (Z.to_nat (Z.shiftr (u32 (2 ^ k * 0x077CB531)) 27)) bit_tab 0 = k) 32).
  repeat constructor.
Qed.

(** The multiplication and the table find the lowest set bit. *)
Lemma FindLowestBitSet_spec v : 0 < v -> is_word v -> lowest v (FindLowestBitSet v).
Proof.
  intros Hv Hw. destruct (lowest_exists v Hv) as [k Hk]. unfold FindLowestBitSet.
  rewrite (low_bit_spec v k Hv Hw Hk), debruijn_table by (by apply (lowest_word v)). done.
Qed.

Lemma ResetLowestBitSet_spec v : 0 < v -> is_word v ->
  exists k v', ResetLowestBitSet v = (k, v') /\ lowest v k /\ 0 <= v' < v
    /\ forall i, 0 <= i -> Z.testbit v' i = Z.testbit v i && negb (i =? k).
Proof.
  intros Hv Hw. assert (Hl := FindLowestBitSet_spec v Hv Hw). eexists _, _. split; [reflexivity|].
  split; [done|]. destruct (lowest_word _ _ Hw Hl) as [Hk _]. rewrite (low_bit_spec _ _ Hv Hw Hl).
  set (k := FindLowestBitSet v) in *.
  assert (Hb : forall i, 0 <= i -> Z.testbit (Z.lxor v (2 ^ k)) i = Z.testbit v i && negb (i =? k)).
  { intros i Hi. rewrite Z.lxor_spec, Z.pow2_bits_eqb, (Z.eqb_sym k i) by lia.
    destruct (Z.eqb_spec i k) as [->|]; [|by destruct (Z.testbit v i)]. destruct Hl as (_ & -> & _). done. }
  split; [|done].
  assert (E : v = Z.lxor v (2 ^ k) + 2 ^ k).
  { rewrite Z.add_nocarry_lxor; [by rewrite Z.lxor_assoc, Z.lxor_nilpotent, Z.lxor_0_r|].
    apply Z.bits_inj'. intros i Hi. rewrite Z.land_spec, Hb, Z.pow2_bits_eqb, Z.bits_0, (Z.eqb_sym k i) by lia.
    by destruct (Z.testbit v i), (i =? k). }
  assert (Hp := Z.pow_pos_nonneg 2 k ltac:(lia) Hk).
  assert (0 <= Z.lxor v (2 ^ k)) by (apply Z.lxor_nonneg; lia). lia.
Qed.
