(* ===== verification/StGuard.v ===== *)
(** * Memory of the version manager: loads, stores and guards

    What the loads and stores of src/kernel/sm/wu do to the bytes of a block,
    and the guard memory of wuaux.cpp against its definition by bytes. *)

From Stdlib Require Import ZArith List Lia Bool.
From stdpp Require Import base list.
From S2P Require Import Prelude WuBase WuAux.
Local Open Scope sedna_scope.
Local Open Scope Z_scope.

(** ** Bytes of a block *)

Definition in_mem (m : memory) (x : Z) : Prop := m_addr m <= x < m_end m.

Definition bytes_ok (m : memory) : Prop := Forall (fun b => 0 <= b < 256) (m_bytes m).

Lemma get_in m x : in_mem m x -> exists b, get m x = Some b.
Proof.
  unfold in_mem, m_end, get. intros [H1 H2]. destruct (Z.leb_spec (m_addr m) x); [|lia].
  apply lookup_lt_is_Some_2. lia.
Qed.

Lemma get_out m x : ~ in_mem m x -> get m x = None.
Proof.
  unfold in_mem, m_end, get. intros H. destruct (Z.leb_spec (m_addr m) x); [|done].
  apply lookup_ge_None_2. lia.
Qed.

Lemma get_Some_in m x b : get m x = Some b -> in_mem m x.
Proof.
  unfold in_mem, m_end, get. destruct (Z.leb_spec (m_addr m) x); [|done].
  intros H1%lookup_lt_Some. lia.
Qed.

Lemma get_byte m x b : bytes_ok m -> get m x = Some b -> 0 <= b < 256.
Proof.
  unfold bytes_ok, get. destruct (m_addr m <=? x); [|done]. rewrite Forall_lookup. eauto.
Qed.

Lemma mem_ext m m' :
  m_addr m' = m_addr m -> length (m_bytes m') = length (m_bytes m) ->
  (forall x, in_mem m x -> get m' x = get m x) -> m' = m.
Proof.
  destruct m as [a l], m' as [a' l']. cbn. intros -> Hl H. f_equal. apply list_eq. intros i.
  destruct (Nat.lt_ge_cases i (length l)) as [Hi|Hi].
  - specialize (H (a + Z.of_nat i)). unfold in_mem, m_end, get in H. cbn in H.
    destruct (Z.leb_spec a (a + Z.of_nat i)); [|lia].
    replace (Z.to_nat (a + Z.of_nat i - a)) with i in H by lia. apply H. lia.
  - rewrite !lookup_ge_None_2 by lia. done.
Qed.

(** [m'] is [m] with the bytes that [f] gives. *)
Record updated (m m' : memory) (f : Z -> option Z) : Prop := {
  up_addr : m_addr m' = m_addr m;
  up_len : length (m_bytes m') = length (m_bytes m);
  up_get : forall x, in_mem m x -> get m' x = match f x with Some b => Some b | None => get m x end
}.

Lemma updated_in m m' f x : updated m m' f -> in_mem m' x <-> in_mem m x.
Proof. intros [H1 H2 _]. unfold in_mem, m_end. by rewrite H1, H2. Qed.

Lemma updated_refl m f : (forall x, in_mem m x -> f x = None) -> updated m m f.
Proof. intros H. split; [done|done|]. intros x Hx. by rewrite H. Qed.

Lemma updated_ext m m' f g : (forall x, in_mem m x -> f x = g x) -> updated m m' f -> updated m m' g.
Proof. intros H [H1 H2 H3]. split; [done|done|]. intros x Hx. rewrite <- H by done. by apply H3. Qed.

Lemma updated_trans m1 m2 m3 f g :
  updated m1 m2 f -> updated m2 m3 g ->
  updated m1 m3 (fun x => match g x with Some b => Some b | None => f x end).
Proof.
  intros H1 H2. split.
  - by rewrite (up_addr _ _ _ H2), (up_addr _ _ _ H1).
  - by rewrite (up_len _ _ _ H2), (up_len _ _ _ H1).
  - intros x Hx. rewrite (up_get _ _ _ H2) by (by apply (updated_in _ _ _ _ H1)).
    destruct (g x); [done|]. by apply (up_get _ _ _ H1).
Qed.

Lemma updated_unique m m1 m2 f : updated m m1 f -> updated m m2 f -> m1 = m2.
Proof.
  intros H1 H2. apply mem_ext.
  - by rewrite (up_addr _ _ _ H1), (up_addr _ _ _ H2).
  - by rewrite (up_len _ _ _ H1), (up_len _ _ _ H2).
  - intros x Hx. assert (in_mem m x) by (by apply (updated_in _ _ _ _ H2)).
    by rewrite (up_get _ _ _ H1), (up_get _ _ _ H2).
Qed.

Lemma updated_bytes m m' f : (forall x b, f x = Some b -> 0 <= b < 256) ->
  bytes_ok m -> updated m m' f -> bytes_ok m'.
Proof.
  intros Hf Hm H. unfold bytes_ok. rewrite Forall_lookup. intros i b Hi.
  assert (Hg : get m' (m_addr m' + Z.of_nat i) = Some b).
  { unfold get. destruct (Z.leb_spec (m_addr m') (m_addr m' + Z.of_nat i)); [|lia].
    by replace (Z.to_nat (m_addr m' + Z.of_nat i - m_addr m')) with i by lia. }
  assert (Hin := get_Some_in _ _ _ Hg). rewrite (updated_in _ _ _ _ H) in Hin.
  rewrite (up_get _ _ _ H _ Hin) in Hg. destruct (f _) eqn:E; [injection Hg as <-; eauto|].
  by apply (get_byte m (m_addr m' + Z.of_nat i)).
Qed.

Lemma set_updated m a b : in_mem m a -> updated m (set m a b) (fun x => if x =? a then Some b else None).
Proof.
  unfold in_mem, m_end. intros [H1 H2]. unfold set. destruct (Z.leb_spec (m_addr m) a); [|lia].
  split; cbn; [done|by rewrite length_insert|]. intros x [Hx1 Hx2]. unfold m_end in Hx2. unfold get. cbn.
  destruct (Z.leb_spec (m_addr m) x); [|lia]. destruct (Z.eqb_spec x a) as [->|Hn].
  - apply list_lookup_insert_eq. lia.
  - apply list_lookup_insert_ne. lia.
Qed.

(** ** Words *)

Lemma byte_of_range k v : 0 <= byte_of k v < 256.
Proof. apply Z.mod_pos_bound. lia. Qed.

Lemma byte_of_bits k v i : 0 <= k -> 0 <= i ->
  Z.testbit (byte_of k v) i = if i <? 8 then Z.testbit v (8 * k + i) else false.
Proof.
  intros Hk Hi. unfold byte_of. change 256 with (2 ^ 8). destruct (Z.ltb_spec i 8).
  - rewrite Z.mod_pow2_bits_low, Z.shiftr_spec by lia. f_equal. lia.
  - by rewrite Z.mod_pow2_bits_high by lia.
Qed.

Lemma byte_of_word b0 b1 b2 b3 k :
  0 <= b0 < 256 -> 0 <= b1 < 256 -> 0 <= b2 < 256 -> 0 <= b3 < 256 -> 0 <= k < 4 ->
  byte_of k (word b0 b1 b2 b3) = if k =? 0 then b0 else if k =? 1 then b1 else if k =? 2 then b2 else b3.
Proof.
  intros H0 H1 H2 H3 Hk. unfold byte_of, word. rewrite Z.shiftr_div_pow2 by lia.
  assert (k = 0 \/ k = 1 \/ k = 2 \/ k = 3) as [->|[->|[->| ->]]] by lia; cbn -[Z.div Z.modulo];
    Z.div_mod_to_equations; lia.
Qed.

Lemma word_range b0 b1 b2 b3 :
  0 <= b0 < 256 -> 0 <= b1 < 256 -> 0 <= b2 < 256 -> 0 <= b3 < 256 -> is_word (word b0 b1 b2 b3).
Proof. unfold is_word, word. lia. Qed.

Lemma word_of_bytes v : is_word v -> word (byte_of 0 v) (byte_of 1 v) (byte_of 2 v) (byte_of 3 v) = v.
Proof.
  unfold is_word, word, byte_of. intros H. rewrite !Z.shiftr_div_pow2 by lia. cbn -[Z.div Z.modulo].
  Z.div_mod_to_equations. lia.
Qed.

(** The bytes of a word in memory. *)
Definition word_at (m : memory) (a v : Z) : Prop :=
  forall k, 0 <= k < 4 -> get m (a + k) = Some (byte_of k v).

Lemma load32_Ok m a v : is_word v -> word_at m a v -> load32 m a = Ok v.
Proof.
  intros Hv H. assert (H0 := H 0 ltac:(lia)). assert (H1 := H 1 ltac:(lia)).
  assert (H2 := H 2 ltac:(lia)). assert (H3 := H 3 ltac:(lia)). unfold load32.
  rewrite Z.add_0_r in H0. rewrite H0, H1, H2, H3. by rewrite word_of_bytes.
Qed.

Lemma load32_in m a : bytes_ok m -> m_addr m <= a -> a + 4 <= m_end m ->
  exists v, load32 m a = Ok v /\ is_word v /\ word_at m a v.
Proof.
  intros Hb H1 H2.
  destruct (get_in m a) as [b0 E0]; [by split; lia|]. destruct (get_in m (a + 1)) as [b1 E1]; [by split; lia|].
  destruct (get_in m (a + 2)) as [b2 E2]; [by split; lia|]. destruct (get_in m (a + 3)) as [b3 E3]; [by split; lia|].
  assert (B0 := get_byte _ _ _ Hb E0). assert (B1 := get_byte _ _ _ Hb E1).
  assert (B2 := get_byte _ _ _ Hb E2). assert (B3 := get_byte _ _ _ Hb E3).
  exists (word b0 b1 b2 b3). unfold load32. rewrite E0, E1, E2, E3. split; [done|]. split; [by apply word_range|].
  intros k Hk. rewrite byte_of_word by done.
  assert (k = 0 \/ k = 1 \/ k = 2 \/ k = 3) as [->|[->|[->| ->]]] by lia; cbn; rewrite ?Z.add_0_r; done.
Qed.

Lemma load32_out m a : ~ (m_addr m <= a /\ a + 4 <= m_end m) -> load32 m a = Throw UNDEFINED.
Proof.
  intros H. unfold load32. destruct (get m a) eqn:E0; [|done]. destruct (get m (a + 1)) eqn:E1; [|done].
  destruct (get m (a + 2)) eqn:E2; [|done]. destruct (get m (a + 3)) eqn:E3; [|done].
  apply get_Some_in in E0, E3. destruct E0, E3. lia.
Qed.

Definition store_bytes (a v x : Z) : option Z :=
  if (a <=? x) && (x <? a + 4) then Some (byte_of (x - a) v) else None.

Lemma store32_Ok m a v : m_addr m <= a -> a + 4 <= m_end m ->
  exists m', store32 m a v = Ok m' /\ updated m m' (store_bytes a v).
Proof.
  intros H1 H2. unfold store32. rewrite (proj2 (Z.leb_le _ _) H1), (proj2 (Z.leb_le _ _) H2). cbn [andb].
  eexists. split; [done|].
  assert (U0 : updated m _ _) by (apply (set_updated m a (byte_of 0 v)); split; lia).
  assert (U1 : updated _ _ _) by (apply (set_updated (set m a (byte_of 0 v)) (a + 1) (byte_of 1 v));
    apply (updated_in _ _ _ _ U0); split; lia).
  assert (U01 := updated_trans _ _ _ _ _ U0 U1). clear U0 U1.
  assert (U2 : updated _ _ _) by (apply (set_updated (set (set m a (byte_of 0 v)) (a + 1) (byte_of 1 v)) (a + 2) (byte_of 2 v));
    apply (updated_in _ _ _ _ U01); split; lia).
  assert (U02 := updated_trans _ _ _ _ _ U01 U2). clear U01 U2.
  assert (U3 : updated _ _ _) by (apply (set_updated (set (set (set m a (byte_of 0 v)) (a + 1) (byte_of 1 v)) (a + 2) (byte_of 2 v)) (a + 3) (byte_of 3 v));
    apply (updated_in _ _ _ _ U02); split; lia).
  assert (U := updated_trans _ _ _ _ _ U02 U3).
  eapply updated_ext; [|exact U]. intros x _. unfold store_bytes. cbn.
  destruct (Z.leb_spec a x), (Z.ltb_spec x (a + 4)); cbn;
    repeat match goal with |- context [x =? ?y] => destruct (Z.eqb_spec x y) as [->|] end;
    try lia; try done; do 2 f_equal; lia.
Qed.

Lemma store32_inv m a v m' : store32 m a v = Ok m' ->
  m_addr m <= a /\ a + 4 <= m_end m /\ updated m m' (store_bytes a v).
Proof.
  intros H. destruct (Z.le_gt_cases (m_addr m) a) as [H1|H1]; [destruct (Z.le_gt_cases (a + 4) (m_end m)) as [H2|H2]|].
  - split; [done|]. split; [done|]. destruct (store32_Ok m a v H1 H2) as (m1 & E & U).
    rewrite E in H. by injection H as <-.
  - unfold store32 in H. rewrite (proj2 (Z.leb_gt _ _) H2), andb_false_r in H. done.
  - unfold store32 in H. rewrite (proj2 (Z.leb_gt _ _) H1) in H. done.
Qed.

Lemma store_bytes_range a v x b : store_bytes a v x = Some b -> 0 <= b < 256.
Proof. unfold store_bytes. destruct ((a <=? x) && (x <? a + 4)); [|done]. intros [= <-]. apply byte_of_range. Qed.

Lemma load_after_store m a v m' : is_word v -> store32 m a v = Ok m' -> load32 m' a = Ok v.
Proof.
  intros Hv (H1 & H2 & U)%store32_inv. apply load32_Ok; [done|]. intros k Hk.
  rewrite (up_get _ _ _ U) by (split; lia). unfold store_bytes.
  rewrite (proj2 (Z.leb_le a (a + k))), (proj2 (Z.ltb_lt (a + k) (a + 4))) by lia. cbn. do 2 f_equal. lia.
Qed.

(** Bytes outside of the update keep their word. *)
Lemma load_updated m m' f a : (forall k, 0 <= k < 4 -> f (a + k) = None) ->
  updated m m' f -> load32 m' a = load32 m a.
Proof.
  intros Hf U. assert (H : forall k, 0 <= k < 4 -> get m' (a + k) = get m (a + k)).
  { intros k Hk. destruct (Z.le_gt_cases (m_addr m) (a + k)) as [H1|H1]; [destruct (Z.le_gt_cases (m_end m) (a + k)) as [H2|H2]|].
    - rewrite !get_out; [done| |]; [|rewrite (updated_in _ _ _ _ U)]; unfold in_mem; lia.
    - rewrite (up_get _ _ _ U) by (split; lia). by rewrite Hf.
    - rewrite !get_out; [done| |]; [|rewrite (updated_in _ _ _ _ U)]; unfold in_mem; lia. }
  unfold load32. assert (H0 := H 0 ltac:(lia)). rewrite Z.add_0_r in H0.
  by rewrite H0, (H 1), (H 2), (H 3) by lia.
Qed.

(** ** Masks of bytes *)

(** The bits of the bytes [lo .. hi-1] are set, the others are not. *)
Definition byte_mask (m lo hi : Z) : Prop :=
  forall k i, 0 <= k < 4 -> 0 <= i < 8 -> Z.testbit m (8 * k + i) = (lo <=? k) && (k <? hi).

Lemma masks lo hi : 0 <= lo < 4 -> 1 <= hi < 5 ->
  byte_mask (BigEndianByteOrder (Z.land (Z.shiftr 0xffffffff (lo * 8)) (u32 (Z.shiftl 0xffffffff (32 - hi * 8))))) lo hi.
Proof.
  intros Hlo Hhi k i Hk Hi.
  assert (H : forallb (fun l => forallb (fun h => forallb (fun k => forallb (fun i =>
     Bool.eqb (Z.testbit (BigEndianByteOrder (Z.land (Z.shiftr 0xffffffff (l * 8)) (u32 (Z.shiftl 0xffffffff (32 - h * 8))))) (8 * k + i))
       ((l <=? k) && (k <? h))) [0;1;2;3;4;5;6;7]) [0;1;2;3]) [1;2;3;4]) [0;1;2;3] = true) by (vm_compute; reflexivity).
  rewrite forallb_forall in H. specialize (H lo ltac:(cbn; lia)).
  rewrite forallb_forall in H. specialize (H hi ltac:(cbn; lia)).
  rewrite forallb_forall in H. specialize (H k ltac:(cbn; lia)).
  rewrite forallb_forall in H. specialize (H i ltac:(cbn; lia)). by apply eqb_prop in H.
Qed.

Lemma byte_mask_0 lo : byte_mask 0 lo lo.
Proof.
  intros k i Hk Hi. rewrite Z.bits_0. destruct (Z.leb_spec lo k), (Z.ltb_spec k lo); lia || done.
Qed.

Lemma byte_of_blend k old fill m b : 0 <= k ->
  (forall i, 0 <= i < 8 -> Z.testbit m (8 * k + i) = b) ->
  byte_of k (blend old fill m) = byte_of k (if b : bool then fill else old).
Proof.
  intros Hk H. apply Z.bits_inj'. intros i Hi. rewrite !byte_of_bits by lia.
  destruct (Z.ltb_spec i 8); [|done]. unfold blend.
  rewrite Z.lor_spec, !Z.land_spec, Z.lnot_spec, H by lia.
  destruct b; cbn; [by rewrite andb_false_r, andb_true_r|by rewrite andb_true_r, andb_false_r, orb_false_r].
Qed.

Lemma word_from_bits v : 0 <= v -> (forall i, 32 <= i -> Z.testbit v i = false) -> is_word v.
Proof.
  intros Hv Hb. split; [done|]. assert (E : v = v mod 2 ^ 32); [|rewrite E; apply Z.mod_pos_bound; lia].
  apply Z.bits_inj'. intros i Hi. destruct (Z.lt_ge_cases i 32).
  - by rewrite Z.mod_pow2_bits_low by lia.
  - rewrite Z.mod_pow2_bits_high by lia. by apply Hb.
Qed.

Lemma blend_word old fill m lo hi : byte_mask m lo hi -> is_word old -> is_word fill -> is_word (blend old fill m).
Proof.
  intros Hm Ho Hf. unfold is_word, blend.
  destruct Ho as [Ho1 Ho2], Hf as [Hf1 Hf2]. apply word_from_bits.
  - apply Z.lor_nonneg. split; apply Z.land_nonneg; auto.
  - intros i Hi. rewrite Z.lor_spec, !Z.land_spec. by rewrite (word_bits_high old i), (word_bits_high fill i).
Qed.

(** ** The pattern of a guard *)

(** The byte of the pattern at an address: the fill is stored big endian. *)
Definition pattern_at (fill x : Z) : Z := byte_of (3 - x mod 4) fill.

Lemma u32_bits z i : 0 <= i -> Z.testbit (u32 z) i = (i <? 32) && Z.testbit z i.
Proof.
  intros Hi. unfold u32. change UINT32_MOD with (2 ^ 32). destruct (Z.ltb_spec i 32); cbn.
  - by rewrite Z.mod_pow2_bits_low by lia.
  - by rewrite Z.mod_pow2_bits_high by lia.
Qed.

Lemma swap_byte v k : is_word v -> 0 <= k < 4 -> byte_of k (BigEndianByteOrder v) = byte_of (3 - k) v.
Proof.
  intros Hv Hk. apply Z.bits_inj'. intros i Hi. rewrite !byte_of_bits by lia.
  destruct (Z.ltb_spec i 8) as [Hi8|]; [|done]. unfold BigEndianByteOrder.
  rewrite !Z.lor_spec, !Z.land_spec, !u32_bits, !Z.shiftr_spec by lia.
  assert (k = 0 \/ k = 1 \/ k = 2 \/ k = 3) as [->|[->|[->| ->]]] by lia;
  assert (i = 0 \/ i = 1 \/ i = 2 \/ i = 3 \/ i = 4 \/ i = 5 \/ i = 6 \/ i = 7)
    as [->|[->|[->|[->|[->|[->|[->| ->]]]]]]] by lia;
  rewrite ?Z.shiftl_spec by lia;
  cbn -[Z.testbit Z.shiftl]; rewrite ?Z.shiftl_spec_low by lia;
  cbn -[Z.testbit Z.shiftl]; repeat (rewrite ?andb_true_r, ?andb_false_r, ?orb_false_r, ?orb_false_l); try done.
Qed.

Lemma swap_word v : is_word v -> is_word (BigEndianByteOrder v).
Proof.
  intros [H1 H2]. apply word_from_bits; unfold BigEndianByteOrder.
  - rewrite !Z.lor_nonneg, !Z.land_nonneg. lia.
  - intros i Hi. rewrite !Z.lor_spec, !Z.land_spec.
    rewrite (word_bits_high 0xFF000000 i), (word_bits_high 0x00FF0000 i), (word_bits_high 0x0000FF00 i),
      (word_bits_high 0xFF i) by (unfold is_word; lia). by rewrite !andb_false_r.
Qed.

(** ** Filling *)

(** The bytes of [lo .. hi-1] become the pattern. *)
Definition guard_bytes (lo hi fill x : Z) : option Z :=
  if (lo <=? x) && (x <? hi) then Some (pattern_at fill x) else None.

Lemma aligned_mod a x : a mod 4 = 0 -> a <= x < a + 4 -> x mod 4 = x - a.
Proof. intros H1 H2. Z.div_mod_to_equations. lia. Qed.

Section Fill.
Context (fill : Z) (Hfill : is_word fill).

Lemma store_pattern a x : a mod 4 = 0 ->
  store_bytes a (BigEndianByteOrder fill) x = guard_bytes a (a + 4) fill x.
Proof.
  intros Ha. unfold store_bytes, guard_bytes. destruct (Z.leb_spec a x), (Z.ltb_spec x (a + 4)); cbn; try done.
  f_equal. rewrite swap_byte by (done || lia). unfold pattern_at. by rewrite (aligned_mod a x).
Qed.

Lemma fill_words_ok n : forall m i, i mod 4 = 0 -> m_addr m <= i -> i + 4 * Z.of_nat n <= m_end m ->
  exists m', fill_words n m i (BigEndianByteOrder fill) = Ok m'
    /\ updated m m' (guard_bytes i (i + 4 * Z.of_nat n) fill).
Proof.
  induction n as [|n IH]; intros m i Hi H1 H2; cbn [fill_words].
  - exists m. split; [done|]. apply updated_refl. intros x _. unfold guard_bytes.
    destruct (Z.leb_spec i x), (Z.ltb_spec x (i + 4 * Z.of_nat 0)); cbn; lia || done.
  - destruct (store32_Ok m i (BigEndianByteOrder fill)) as (m1 & E & U); [lia|lia|]. rewrite E. cbn [bind_res].
    destruct (IH m1 (i + 4)) as (m2 & E2 & U2).
    { rewrite <- (Z.mul_1_l 4), Z_mod_plus_full. done. }
    { rewrite (up_addr _ _ _ U). lia. }
    { unfold m_end in *. rewrite (up_addr _ _ _ U), (up_len _ _ _ U). lia. }
    exists m2. split; [done|]. eapply updated_ext; [|exact (updated_trans _ _ _ _ _ U U2)].
    intros x _. cbn beta. rewrite store_pattern by done. unfold guard_bytes.
    destruct (Z.leb_spec i x), (Z.ltb_spec x (i + 4)), (Z.leb_spec (i + 4) x),
      (Z.ltb_spec x (i + 4 + 4 * Z.of_nat n)), (Z.ltb_spec x (i + 4 * Z.of_nat (S n))); cbn; lia || done.
Qed.

Lemma blend_frag_ok m a mask lo hi : bytes_ok m -> a mod 4 = 0 -> m_addr m <= a -> a + 4 <= m_end m ->
  0 <= lo -> hi <= 4 -> byte_mask mask lo hi ->
  exists m', blend_frag m (Some a) (BigEndianByteOrder fill) mask = Ok m'
    /\ updated m m' (guard_bytes (a + lo) (a + hi) fill).
Proof.
  intros Hb Ha H1 H2 Hlo Hhi Hm. destruct (load32_in m a Hb H1 H2) as (old & E & Hold & Hat).
  cbn [blend_frag]. rewrite E. cbn [bind_res].
  destruct (store32_Ok m a (blend old (BigEndianByteOrder fill) mask) H1 H2) as (m' & E' & U).
  exists m'. split; [done|]. split; [apply U|apply U|]. intros x Hx. rewrite (up_get _ _ _ U) by done.
  unfold store_bytes, guard_bytes.
  destruct (Z.leb_spec a x), (Z.ltb_spec x (a + 4)); cbn [andb].
  - rewrite (byte_of_blend (x - a) old (BigEndianByteOrder fill) mask ((lo <=? x - a) && (x - a <? hi))) by (lia || intros i Hi; apply Hm; lia).
    replace (lo <=? x - a) with (a + lo <=? x) by (destruct (Z.leb_spec (a + lo) x), (Z.leb_spec lo (x - a)); lia || done).
    replace (x - a <? hi) with (x <? a + hi) by (destruct (Z.ltb_spec x (a + hi)), (Z.ltb_spec (x - a) hi); lia || done).
    destruct ((a + lo <=? x) && (x <? a + hi)).
    + f_equal. rewrite swap_byte by (done || lia). unfold pattern_at. by rewrite (aligned_mod a x).
    + rewrite <- (Hat (x - a)) by lia. f_equal. lia.
  - destruct (Z.leb_spec (a + lo) x), (Z.ltb_spec x (a + hi)); cbn; lia || done.
  - destruct (Z.leb_spec (a + lo) x), (Z.ltb_spec x (a + hi)); cbn; lia || done.
  - destruct (Z.leb_spec (a + lo) x), (Z.ltb_spec x (a + hi)); cbn; lia || done.
Qed.

(** The variables of a region: a first word, whole words, a last word. *)
Lemma region_vars_spec lo hi : lo < hi ->
  let frag0 := lo - lo mod 4 in
  let frag1 := (hi - 1) - (hi - 1) mod 4 in
  region_vars lo hi fill =
    if frag0 =? frag1
    then mk_vars fill (Z.land (Z.shiftr 0xffffffff ((lo - frag0) * 8)) (u32 (Z.shiftl 0xffffffff (32 - (hi - frag0) * 8)))) 0
           0 0 (Some frag0) None fill
    else mk_vars fill (Z.land (Z.shiftr 0xffffffff ((lo - frag0) * 8)) (u32 (Z.shiftl 0xffffffff (32 - 4 * 8))))
           (Z.land (Z.shiftr 0xffffffff (0 * 8)) (u32 (Z.shiftl 0xffffffff (32 - (hi - frag1) * 8))))
           (if frag1 <=? frag0 + 4 then 0 else frag0 + 4) (if frag1 <=? frag0 + 4 then 0 else frag1)
           (Some frag0) (Some frag1) fill.
Proof.
  intros H. cbv zeta. unfold region_vars. rewrite !land_lnot3.
  destruct (Z.eqb_spec (lo - lo mod 4) (hi - 1 - (hi - 1) mod 4)) as [E|E].
  - rewrite <- E. destruct (Z.leb_spec (lo - lo mod 4) (lo - lo mod 4 + 4)); [done|lia].
  - assert (forall x, 0 <= x < 4 -> Z.land (Z.shiftr 0xffffffff (x * 8)) (u32 (Z.shiftl 0xffffffff (32 - 4 * 8))) = Z.shiftr 0xffffffff (x * 8)) as E0.
    { apply (small_cases (fun x => Z.land (Z.shiftr 0xffffffff (x * 8)) (u32 (Z.shiftl 0xffffffff (32 - 4 * 8))) = Z.shiftr 0xffffffff (x * 8)) 4). repeat constructor. }
    assert (forall x, 0 <= x < 5 -> Z.land (Z.shiftr 0xffffffff (0 * 8)) (u32 (Z.shiftl 0xffffffff (32 - x * 8))) = u32 (Z.shiftl 0xffffffff (32 - x * 8))) as E1.
    { apply (small_cases (fun x => Z.land (Z.shiftr 0xffffffff (0 * 8)) (u32 (Z.shiftl 0xffffffff (32 - x * 8))) = u32 (Z.shiftl 0xffffffff (32 - x * 8))) 5). repeat constructor. }
    rewrite E0, E1 by (Z.div_mod_to_equations; lia).
    by destruct (hi - 1 - (hi - 1) mod 4 <=? lo - lo mod 4 + 4).
Qed.

(** A region of a block whose bounds are aligned. *)
Definition region_in (m : memory) (lo hi : Z) : Prop :=
  m_addr m mod 4 = 0 /\ m_end m mod 4 = 0 /\ m_addr m <= lo /\ hi <= m_end m.

Lemma region_updated m m' f lo hi : updated m m' f -> region_in m lo hi -> region_in m' lo hi.
Proof. intros [H1 H2 _]. unfold region_in, m_end. by rewrite H1, H2. Qed.

Ltac split_region :=
  unfold guard_bytes;
  repeat match goal with
  | |- context [?a <=? ?b] => destruct (Z.leb_spec a b)
  | |- context [?a <? ?b] => destruct (Z.ltb_spec a b)
  end; cbn; Z.div_mod_to_equations; lia || done.

Lemma middle_ok m frag0 frag1 lo hi : bytes_ok m -> region_in m lo hi ->
  frag0 = lo - lo mod 4 -> frag1 = hi - 1 - (hi - 1) mod 4 -> lo < hi -> frag0 <> frag1 ->
  exists m', fill_words
      (words_between (if frag1 <=? frag0 + 4 then 0 else frag0 + 4) (if frag1 <=? frag0 + 4 then 0 else frag1))
      m (if frag1 <=? frag0 + 4 then 0 else frag0 + 4) (BigEndianByteOrder fill) = Ok m'
    /\ updated m m' (guard_bytes (frag0 + 4) frag1 fill).
Proof.
  intros Hb (A1 & A2 & A3 & A4) H0 H1 Hlh Hne. destruct (Z.leb_spec frag1 (frag0 + 4)) as [H|H].
  - exists m. split; [done|]. apply updated_refl. intros x _. split_region.
  - unfold words_between. destruct (fill_words_ok (Z.to_nat ((frag1 - (frag0 + 4)) / 4)) m (frag0 + 4)) as (m' & E & U).
    + Z.div_mod_to_equations; lia.
    + Z.div_mod_to_equations; lia.
    + Z.div_mod_to_equations; lia.
    + exists m'. split; [done|]. replace (frag0 + 4 + 4 * _) with frag1 in U by (Z.div_mod_to_equations; lia). done.
Qed.

Lemma masked_frag_ok m a lo hi : bytes_ok m -> a mod 4 = 0 -> m_addr m <= a -> a + 4 <= m_end m ->
  0 <= lo < 4 -> 1 <= hi < 5 ->
  exists m', blend_frag m (Some a) (BigEndianByteOrder fill)
      (BigEndianByteOrder (Z.land (Z.shiftr 0xffffffff (lo * 8)) (u32 (Z.shiftl 0xffffffff (32 - hi * 8))))) = Ok m'
    /\ updated m m' (guard_bytes (a + lo) (a + hi) fill) /\ bytes_ok m'.
Proof.
  intros Hb Ha H1 H2 Hlo Hhi.
  destruct (blend_frag_ok m a _ lo hi Hb Ha H1 H2 ltac:(lia) ltac:(lia) (masks lo hi Hlo Hhi)) as (m' & E & U).
  exists m'. split; [done|]. split; [done|]. eapply updated_bytes; [|exact Hb|exact U].
  intros x b. unfold guard_bytes. destruct (_ && _); [|done]. intros [= <-]. apply byte_of_range.
Qed.

Lemma region_fill_ok m lo hi : bytes_ok m -> region_in m lo hi -> lo < hi ->
  let gmv := swap_vars (region_vars lo hi fill) in
  exists m',
    (let* m := blend_frag m (g_frag0 gmv) (g_fill gmv) (g_m0 gmv) in
     let* m := fill_words (words_between (g_begin gmv) (g_end gmv)) m (g_begin gmv) (g_fill gmv) in
     blend_frag m (g_frag1 gmv) (g_fill gmv) (g_m1 gmv)) = Ok m'
    /\ updated m m' (guard_bytes lo hi fill).
Proof.
  intros Hb Hreg Hlh. assert (Hr := Hreg). destruct Hr as (A1 & A2 & A3 & A4).
  rewrite (region_vars_spec lo hi Hlh). cbv zeta. set (frag0 := lo - lo mod 4). set (frag1 := hi - 1 - (hi - 1) mod 4).
  assert (Hf0 : frag0 = lo - lo mod 4) by done. assert (Hf1 : frag1 = hi - 1 - (hi - 1) mod 4) by done.
  clearbody frag0 frag1. destruct (Z.eqb_spec frag0 frag1) as [E|E]; cbn [swap_vars g_fill g_m0 g_m1 g_begin g_end g_frag0 g_frag1].
  - destruct (masked_frag_ok m frag0 (lo - frag0) (hi - frag0) Hb) as (m' & E1 & U & _); [Z.div_mod_to_equations; lia..|].
    rewrite E1. cbn. exists m'. split; [done|].
    eapply updated_ext; [|exact U]. intros x _. cbn beta. split_region.
  - destruct (masked_frag_ok m frag0 (lo - frag0) 4 Hb) as (m1 & E1 & U1 & Hb1); [Z.div_mod_to_equations; lia..|].
    rewrite E1. cbn [bind_res].
    destruct (middle_ok m1 frag0 frag1 lo hi Hb1 (region_updated _ _ _ _ _ U1 Hreg) Hf0 Hf1 Hlh E) as (m2 & E2 & U2).
    rewrite E2. cbn [bind_res].
    assert (Hb2 : bytes_ok m2) by (eapply updated_bytes; [|exact Hb1|exact U2]; intros x b; unfold guard_bytes; destruct (_ && _); [intros [= <-]; apply byte_of_range|done]).
    assert (U12 := updated_trans _ _ _ _ _ U1 U2).
    assert (Hr2 := region_updated _ _ _ _ _ U12 Hreg). destruct Hr2 as (B1 & B2 & B3 & B4).
    destruct (masked_frag_ok m2 frag1 0 (hi - frag1) Hb2) as (m3 & E3 & U3 & _); [Z.div_mod_to_equations; lia..|].
    exists m3. split; [done|]. eapply updated_ext; [|exact (updated_trans _ _ _ _ _ U12 U3)].
    intros x _. cbn beta. split_region.
Qed.

(** ** Checking *)

Definition matches (m : memory) (lo hi : Z) : Prop :=
  forall x, lo <= x < hi -> get m x = Some (pattern_at fill x).

Lemma matches_split m lo mid hi : lo <= mid <= hi -> matches m lo hi <-> matches m lo mid /\ matches m mid hi.
Proof.
  intros H. split; [intros Hm; split; intros x Hx; apply Hm; lia|].
  intros [H1 H2] x Hx. destruct (Z.lt_ge_cases x mid); [apply H1|apply H2]; lia.
Qed.

Lemma word_eq v w : is_word v -> is_word w -> (forall k, 0 <= k < 4 -> byte_of k v = byte_of k w) -> v = w.
Proof.
  intros Hv Hw H. rewrite <- (word_of_bytes v Hv), <- (word_of_bytes w Hw).
  by rewrite (H 0), (H 1), (H 2), (H 3) by lia.
Qed.

(** A word agrees with the fill under a mask exactly when its bytes match. *)
Lemma blend_same m a v mask lo hi : is_word v -> word_at m a v -> a mod 4 = 0 -> 0 <= lo -> hi <= 4 ->
  byte_mask mask lo hi ->
  (blend v (BigEndianByteOrder fill) mask = v <-> matches m (a + lo) (a + hi)).
Proof.
  intros Hv Hat Ha Hlo Hhi Hm.
  assert (Hb : forall k, 0 <= k < 4 -> byte_of k (blend v (BigEndianByteOrder fill) mask)
     = if (lo <=? k) && (k <? hi) then pattern_at fill (a + k) else byte_of k v).
  { intros k Hk. rewrite (byte_of_blend k v _ mask ((lo <=? k) && (k <? hi))) by (lia || intros i Hi; by apply Hm).
    destruct ((lo <=? k) && (k <? hi)); [|done]. rewrite swap_byte by done. unfold pattern_at.
    rewrite (aligned_mod a (a + k)) by lia. f_equal. lia. }
  split.
  - intros E x Hx. replace x with (a + (x - a)) by lia. rewrite Hat by lia. f_equal.
    rewrite <- E at 1. rewrite Hb by lia. by rewrite (proj2 (Z.leb_le lo (x - a))), (proj2 (Z.ltb_lt (x - a) hi)) by lia.
  - intros H. apply word_eq; [by apply (blend_word _ _ _ lo hi); [|done|apply swap_word]|done|].
    intros k Hk. rewrite Hb by done. destruct (Z.leb_spec lo k), (Z.ltb_spec k hi); cbn; try done.
    specialize (H (a + k) ltac:(lia)). rewrite Hat in H by lia. by injection H.
Qed.

Lemma check_frag_ok m a gmv lo hi : bytes_ok m -> a mod 4 = 0 -> m_addr m <= a -> a + 4 <= m_end m ->
  0 <= lo < 4 -> 1 <= hi < 5 -> g_fill gmv = BigEndianByteOrder fill ->
  exists d, check_frag m (Some a) gmv
      (BigEndianByteOrder (Z.land (Z.shiftr 0xffffffff (lo * 8)) (u32 (Z.shiftl 0xffffffff (32 - hi * 8))))) = Ok d
    /\ 0 <= d /\ (d = 0 <-> matches m (a + lo) (a + hi)).
Proof.
  intros Hb Ha H1 H2 Hlo Hhi Hg. destruct (load32_in m a Hb H1 H2) as (v & E & Hv & Hat).
  unfold check_frag. rewrite E, Hg. cbn [bind_res]. eexists. split; [done|].
  rewrite <- (blend_same m a v _ lo hi Hv Hat Ha ltac:(lia) ltac:(lia) (masks lo hi Hlo Hhi)).
  destruct (Z.eqb_spec (blend v (BigEndianByteOrder fill)
    (BigEndianByteOrder (Z.land (Z.shiftr 0xffffffff (lo * 8)) (u32 (Z.shiftl 0xffffffff (32 - hi * 8)))))) v); split; lia || done.
Qed.

Lemma check_words_ok m n : bytes_ok m -> forall i, i mod 4 = 0 -> m_addr m <= i -> i + 4 * Z.of_nat n <= m_end m ->
  exists d, check_words n m i (BigEndianByteOrder fill) = Ok d /\ 0 <= d
    /\ (d = 0 <-> matches m i (i + 4 * Z.of_nat n)).
Proof.
  intros Hb. induction n as [|n IH]; intros i Hi H1 H2; cbn [check_words].
  - exists 0. split; [done|]. split; [lia|]. split; [intros _ x Hx; lia|done].
  - destruct (load32_in m i Hb H1 ltac:(lia)) as (v & E & Hv & Hat). rewrite E. cbn [bind_res].
    destruct (IH (i + 4)) as (d & Ed & Hd & Hm); [Z.div_mod_to_equations; lia|lia|lia|]. rewrite Ed. cbn [bind_res].
    eexists. split; [done|]. rewrite (matches_split m i (i + 4)) by lia.
    replace (i + 4 * Z.of_nat (S n)) with (i + 4 + 4 * Z.of_nat n) by lia. rewrite <- Hm.
    assert (Hw : BigEndianByteOrder fill = v <-> matches m i (i + 4)).
    { split.
      - intros <- x Hx. replace x with (i + (x - i)) by lia. rewrite Hat by lia. rewrite swap_byte by (done || lia).
        unfold pattern_at. rewrite (aligned_mod i (i + (x - i))) by lia. do 2 f_equal. lia.
      - intros H. apply word_eq; [by apply swap_word|done|]. intros k Hk. rewrite swap_byte by done.
        specialize (H (i + k) ltac:(lia)). rewrite Hat in H by done. injection H as ->.
        unfold pattern_at. rewrite (aligned_mod i (i + k)) by lia. f_equal. lia. }
    rewrite <- Hw. destruct (Z.eqb_spec (BigEndianByteOrder fill) v); split; lia.
Qed.

Lemma region_check_ok m lo hi : bytes_ok m -> region_in m lo hi -> lo < hi ->
  let gmv := swap_vars (region_vars lo hi fill) in
  exists b,
    (let* d0 := check_frag m (g_frag0 gmv) gmv (g_m0 gmv) in
     let* d := check_words (words_between (g_begin gmv) (g_end gmv)) m (g_begin gmv) (g_fill gmv) in
     let* d1 := check_frag m (g_frag1 gmv) gmv (g_m1 gmv) in
     Ok (d0 + d + d1 =? 0)) = Ok b
    /\ (b = true <-> matches m lo hi).
Proof.
  intros Hb (A1 & A2 & A3 & A4) Hlh.
  rewrite (region_vars_spec lo hi Hlh). cbv zeta. set (frag0 := lo - lo mod 4). set (frag1 := hi - 1 - (hi - 1) mod 4).
  assert (Hf0 : frag0 = lo - lo mod 4) by done. assert (Hf1 : frag1 = hi - 1 - (hi - 1) mod 4) by done.
  clearbody frag0 frag1. destruct (Z.eqb_spec frag0 frag1) as [E|E]; cbn [swap_vars g_fill g_m0 g_m1 g_begin g_end g_frag0 g_frag1].
  - match goal with |- context [check_frag m _ ?g _] => set (gmv := g) end.
    destruct (check_frag_ok m frag0 gmv (lo - frag0) (hi - frag0) Hb) as (d0 & E0 & P0 & M0); [Z.div_mod_to_equations; lia..|done|].
    rewrite E0. cbn -[Z.eqb]. eexists. split; [done|].
    replace (frag0 + (lo - frag0)) with lo in M0 by lia. replace (frag0 + (hi - frag0)) with hi in M0 by lia.
    rewrite <- M0. unfold blend. change (BigEndianByteOrder 0) with 0.
    rewrite Z.land_0_r, Z.lor_0_r. change (Z.lnot 0) with (-1). rewrite Z.land_m1_r, Z.eqb_refl, Z.eqb_eq. lia.
  - match goal with |- context [check_frag m _ ?g _] => set (gmv := g) end.
    destruct (check_frag_ok m frag0 gmv (lo - frag0) 4 Hb) as (d0 & E0 & P0 & M0); [Z.div_mod_to_equations; lia..|done|].
    rewrite E0. cbn [bind_res].
    destruct (check_words_ok m (words_between (if frag1 <=? frag0 + 4 then 0 else frag0 + 4) (if frag1 <=? frag0 + 4 then 0 else frag1)) Hb)
      with (i := if frag1 <=? frag0 + 4 then m_addr m else frag0 + 4) as (d & Ed & Pd & Md).
    { destruct (frag1 <=? frag0 + 4); [done|]. Z.div_mod_to_equations; lia. }
    { destruct (frag1 <=? frag0 + 4); [lia|]. Z.div_mod_to_equations; lia. }
    { unfold words_between. destruct (Z.leb_spec frag1 (frag0 + 4)); [change (Z.of_nat (Z.to_nat ((0 - 0) / 4))) with 0; unfold m_end; lia|]. Z.div_mod_to_equations; lia. }
    assert (Ed' : check_words (words_between (if frag1 <=? frag0 + 4 then 0 else frag0 + 4) (if frag1 <=? frag0 + 4 then 0 else frag1))
      m (if frag1 <=? frag0 + 4 then 0 else frag0 + 4) (BigEndianByteOrder fill) = Ok d) by (rewrite <- Ed; by destruct (frag1 <=? frag0 + 4)).
    rewrite Ed'.
    cbn [bind_res].
    destruct (check_frag_ok m frag1 gmv 0 (hi - frag1) Hb) as (d1 & E1 & P1 & M1); [Z.div_mod_to_equations; lia..|done|].
    rewrite E1. cbn [bind_res]. eexists. split; [done|]. rewrite Z.eqb_eq.
    replace (frag0 + (lo - frag0)) with lo in M0 by lia. replace (frag1 + (hi - frag1)) with hi in M1 by lia.
    rewrite Z.add_0_r in M1.
    assert (Hmid : d = 0 <-> matches m (frag0 + 4) frag1).
    { rewrite Md. unfold words_between. destruct (Z.leb_spec frag1 (frag0 + 4)).
      - split; intros _ x Hx; [lia|]. change (Z.of_nat (Z.to_nat ((0 - 0) / 4))) with 0 in Hx. lia.
      - replace (frag0 + 4 + 4 * _) with frag1 by (Z.div_mod_to_equations; lia). done. }
    rewrite (matches_split m lo (frag0 + 4)), (matches_split m (frag0 + 4) frag1) by (Z.div_mod_to_equations; lia).
    rewrite <- M0, <- M1, <- Hmid. lia.
Qed.

End Fill.

(** The bounds of a region given by a pointer and a distance. *)
Definition region (ptr dist : Z) : Z * Z := if 0 <? dist then (ptr, ptr + dist) else (ptr + dist, ptr).

(** [DbgInitGuardMemory] writes the pattern to the bytes of the region. *)
Lemma DbgInitGuardMemory_ok m ptr dist fill : is_word fill -> bytes_ok m ->
  let '(lo, hi) := region ptr dist in
  region_in m lo hi ->
  exists m', DbgInitGuardMemory m ptr dist fill = Ok m' /\ updated m m' (guard_bytes lo hi fill).
Proof.
  intros Hf Hb. unfold region, DbgInitGuardMemory, InitGuardMemoryVars.
  destruct (Z.ltb_spec 0 dist) as [H|H]; (destruct (Z.eqb_spec dist 0) as [H0|H0]; [|]); intros Hr.
  - lia.
  - apply (region_fill_ok fill Hf); [done|done|lia].
  - exists m. split; [done|]. apply updated_refl. intros x _. unfold guard_bytes.
    destruct (Z.leb_spec (ptr + dist) x), (Z.ltb_spec x ptr); cbn; lia || done.
  - apply (region_fill_ok fill Hf); [done|done|lia].
Qed.

(** [DbgCheckGuardMemory] tells whether the region has the pattern. *)
Lemma DbgCheckGuardMemory_ok m ptr dist fill : is_word fill -> bytes_ok m ->
  let '(lo, hi) := region ptr dist in
  region_in m lo hi ->
  exists b, DbgCheckGuardMemory m ptr dist fill = Ok b /\ (b = true <-> matches fill m lo hi).
Proof.
  intros Hf Hb. unfold region, DbgCheckGuardMemory, InitGuardMemoryVars.
  destruct (Z.ltb_spec 0 dist) as [H|H]; (destruct (Z.eqb_spec dist 0) as [H0|H0]; [|]); intros Hr.
  - lia.
  - apply (region_check_ok fill Hf); [done|done|lia].
  - subst dist. eexists. split; [reflexivity|]. change (BigEndianByteOrder 0) with 0. unfold blend.
    cbn [swap_vars g_fill g_m0 g_m1 g_begin g_end g_frag0 g_frag1 g_dummy].
    rewrite Z.land_0_r, Z.lor_0_r. change (Z.lnot 0) with (-1). rewrite Z.land_m1_r, Z.eqb_refl.
    split; [intros _ x Hx; lia|done].
  - apply (region_check_ok fill Hf); [done|done|lia].
Qed.
