(* ===== verification/StateTable.v ===== *)
(** * The table of client states

    Model of src/kernel/sm/wu/wustatetable.{h,cpp}: a block of memory with a
    bitmap of vacant rows and rows of columns.  Components reserve columns
    before the rows are created and get tickets for them; a cell is found from
    a ticket and the number of a row.  In debug builds ([DEBUGI]) the space
    around the cells is guard memory.

    [malloc] is the allocator: a size to an address, if there is memory.
    [wide_shift] stands for the value of [1<<n] on a 32-bit word when [n] is 32
    or more, which the language does not define. *)

From Stdlib Require Import ZArith List Lia Bool.
From stdpp Require Import base list.
From S2P Require Import Prelude WuBase WuAux.
Local Open Scope sedna_scope.
Local Open Scope Z_scope.

Definition ST_ALIGNMENT : Z := 8.
Definition ST_TICKET_PTR_BITS : Z := 20.
Definition ST_TICKET_ORD_BITS : Z := 8.
Definition ST_GUARD_SIZE : Z := 4 * 2.
Definition ST_GUARD_FILL : Z := 0xDEADBEAF.
Definition ST_MAX_ROW_SIZE : Z := Z.shiftl 1 (ST_TICKET_PTR_BITS - 1).
Definition ST_MAX_COLUMNS : Z := Z.shiftl 1 (ST_TICKET_ORD_BITS - 1).
Definition ST_TICKET_XOR_MASK : Z := 0xFFAFE0CC.

Record StateTable := mk_table {
  rowsCount : Z;
  columnsCount : Z;
  mem : option memory;
  base : Z;
  stride : Z;
  rowSize : Z;
  columnSize : list Z;
  columnBase : list Z
}.

Definition set_mem (m : memory) (t : StateTable) : StateTable :=
  mk_table (rowsCount t) (columnsCount t) (Some m) (base t) (stride t) (rowSize t) (columnSize t) (columnBase t).

(** ** Tickets *)

Definition MakeTicket (ptr ordinal : Z) : Z :=
  Z.lxor (Z.lor (Z.land ptr (ST_MAX_ROW_SIZE - 1))
            (Z.shiftl (Z.land ordinal (ST_MAX_COLUMNS - 1)) ST_TICKET_PTR_BITS))
    ST_TICKET_XOR_MASK.

Definition PtrFromTicket (ticket : Z) : Z :=
  Z.land (Z.lxor ticket ST_TICKET_XOR_MASK) (ST_MAX_ROW_SIZE - 1).

Definition OrdinalFromTicket (ticket : Z) : Z :=
  Z.land (Z.shiftr (Z.lxor ticket ST_TICKET_XOR_MASK) ST_TICKET_PTR_BITS) (ST_MAX_COLUMNS - 1).

Definition CheckTicket (ticket : Z) : bool := true.

(** An element of one of the two arrays. *)
Definition elt (l : list Z) (i : Z) : Z := nth (Z.to_nat i) l 0.

Section Table.
Context (DEBUGI : bool) (malloc : Z -> option Z) (wide_shift : Z -> Z).
Abbreviation M := (wu StateTable).

Definition ST_MAX_COLUMNS_WITH_INFO : Z := if DEBUGI then 16 else 1.

(** A pure result that may fail. *)
Definition lift {A} (r : res wuerr A) : M A := fun t =>
  match r with
  | Ok a => Done a t
  | Throw e => Failed e t
  end.

(** The size of a column and the unused space before and after it; [isBogus]
    when no result is asked for. *)
Definition GetColumnInfo (t : StateTable) (ticket : Z) (isBogus : bool) : res wuerr (Z * Z * Z) :=
  let end_ := stride t in
  let colbase := PtrFromTicket ticket in
  let colnum := OrdinalFromTicket ticket in
  if (colbase <? 0) || (end_ <=? colbase) || negb (CheckTicket ticket) || (colnum <? 0)
     || (columnsCount t <=? colnum) || (DEBUGI && negb (elt (columnBase t) colnum =? colbase))
  then Throw WUERR_BAD_TICKET
  else if isBogus then Ok (0, 0, 0)
  else if negb DEBUGI then Throw WUERR_DEBUG_FUNCTION_UNAVAILABLE
  else
    let size := elt (columnSize t) colnum in
    let preceedingUnused :=
      if 0 <? colnum
      then colbase - elt (columnBase t) (colnum - 1) - elt (columnSize t) (colnum - 1)
      else ST_GUARD_SIZE in
    let followingUnused :=
      if colnum <? columnsCount t - 1
      then elt (columnBase t) (colnum + 1) - colbase - size
      else ST_GUARD_SIZE in
    Ok (size, preceedingUnused, followingUnused).

Definition ValidateTicket (t : StateTable) (ticket : Z) : res wuerr unit :=
  let* _ := GetColumnInfo t ticket true in Ok tt.

(** ** Guards

    The walk over the guards of a row: a pointer and a distance for the space
    before each column and after the last one. *)
Fixpoint walk_columns (t : StateTable) (n : nat) (i ptr preceedingUnused : Z) : list (Z * Z) :=
  match n with
  | O => [(ptr, - preceedingUnused); (ptr + elt (columnSize t) i, ST_GUARD_SIZE)]
  | S n =>
      let ofs := elt (columnBase t) (i + 1) - elt (columnBase t) i in
      (ptr, - preceedingUnused)
        :: walk_columns t n (i + 1) (ptr + ofs) (ofs - elt (columnSize t) i)
  end.

Definition row_guards (t : StateTable) (rowId : Z) : list (Z * Z) :=
  walk_columns t (Z.to_nat (columnsCount t - 1)) 0 (base t + stride t * rowId) ST_GUARD_SIZE.

Definition cell_guards (t : StateTable) (rowId ticket : Z) : list (Z * Z) :=
  let ptr := base t + stride t * rowId + PtrFromTicket ticket in
  let '(size, preceedingUnused, followingUnused) :=
    match GetColumnInfo t ticket false with Ok r => r | Throw _ => (0, 0, 0) end in
  [(ptr, - preceedingUnused); (ptr + size, followingUnused)].

(** [ST_TABLE_GUARD], [ST_ROW_GUARD], [ST_CELL_GUARD] *)
Inductive guard_kind :=
| table_guard
| row_guard (rowId : Z)
| cell_guard (rowId ticket : Z).

Definition valid_row (t : StateTable) (rowId : Z) : bool := (0 <=? rowId) && (rowId <? rowsCount t).

Definition guards (t : StateTable) (kind : guard_kind) : res wuerr (list (Z * Z)) :=
  match kind with
  | table_guard => Ok (flat_map (fun r => row_guards t (Z.of_nat r)) (seq 0 (Z.to_nat (rowsCount t))))
  | row_guard rowId => if valid_row t rowId then Ok (row_guards t rowId) else Throw ASSERTION
  | cell_guard rowId ticket =>
      if valid_row t rowId then Ok (cell_guards t rowId ticket) else Throw ASSERTION
  end.

Fixpoint init_regions (l : list (Z * Z)) (m : memory) : res wuerr memory :=
  match l with
  | [] => Ok m
  | (ptr, dist) :: l =>
      let* m := DbgInitGuardMemory m ptr dist ST_GUARD_FILL in
      init_regions l m
  end.

Fixpoint check_regions (l : list (Z * Z)) (m : memory) : res wuerr bool :=
  match l with
  | [] => Ok true
  | (ptr, dist) :: l =>
      let* b := DbgCheckGuardMemory m ptr dist ST_GUARD_FILL in
      let* rest := check_regions l m in
      Ok (b && rest)
  end.

Definition with_mem {A} (k : memory -> M A) : M A := fun t =>
  match mem t with
  | None => Failed UNDEFINED t
  | Some m => k m t
  end.

Definition InitGuardMemory (kind : guard_kind) : M unit :=
  if DEBUGI then
    with_mem (fun m =>
      do! t <- wu_get;
      do! l <- lift (guards t kind);
      do! m <- lift (init_regions l m);
      wu_modify (set_mem m))
  else wu_ret tt.

Definition ValidateGuardMemory (kind : guard_kind) : M unit :=
  if DEBUGI then
    with_mem (fun m =>
      do! t <- wu_get;
      do! l <- lift (guards t kind);
      do! ok <- lift (check_regions l m);
      if ok : bool then wu_ret tt else wu_fail ASSERTION)
  else wu_ret tt.

(** ** Creation *)

Definition empty_table : StateTable :=
  mk_table 0 0 None 0 0 0
    (repeat 0 (Z.to_nat ST_MAX_COLUMNS_WITH_INFO)) (repeat 0 (Z.to_nat ST_MAX_COLUMNS_WITH_INFO)).

Definition ResetStateTable : M unit :=
  do! t <- wu_get;
  do! _ <- match mem t with Some _ => ValidateGuardMemory table_guard | None => wu_ret tt end;
  wu_put empty_table.

(** [InitializeStateTable] on storage of any content. *)
Definition InitializeStateTable : M unit := wu_put empty_table.

Definition DeinitializeStateTable : M unit := ResetStateTable.

Definition ReserveStateTableColumn (size alignment : Z) : M Z :=
  do! t <- wu_get;
  let colnum := columnsCount t in
  if DEBUGI && negb ((0 <=? alignment) && Is2Power alignment) then wu_fail ASSERTION
  else
    let alignment := if (alignment =? 0) || (ST_ALIGNMENT <? alignment) then ST_ALIGNMENT else alignment in
    let p := AlignPtr (rowSize t) alignment in
    let nsize := u64 (p + size) in
    let nsize := if DEBUGI then u64 (nsize + ST_GUARD_SIZE) else nsize in
    if ST_MAX_COLUMNS <=? colnum then wu_fail WUERR_STATE_TABLE_MAX_NUMBER_OF_COLUMNS_EXCEEDED
    else if ST_MAX_ROW_SIZE <=? nsize then wu_fail WUERR_STATE_TABLE_MAX_ROW_SIZE_EXCEEDED
    else if DEBUGI && (ST_MAX_COLUMNS_WITH_INFO <=? colnum)
    then wu_fail WUERR_STATE_TABLE_MAX_NUMBER_OF_COLUMNS_WITH_DEBUG_INFO_EXCEEDED
    else
      do! _ <- wu_put (mk_table (rowsCount t) (colnum + 1) (mem t) (base t) (stride t) nsize
                 (if DEBUGI then <[Z.to_nat colnum := size]> (columnSize t) else columnSize t)
                 (if DEBUGI then <[Z.to_nat colnum := p]> (columnBase t) else columnBase t));
      wu_ret (MakeTicket p colnum).

(** The sizes of [CreateStateTableRows]. *)
Definition header_size (rows : Z) : Z := RoundSizeUp (4 * RoundSizeUp rows 32 / 32) ST_ALIGNMENT.
Definition row_stride (t : StateTable) : Z :=
  let rowSize := RoundSizeUp (rowSize t) ST_ALIGNMENT in
  if DEBUGI then rowSize + ST_GUARD_SIZE else rowSize.

Definition CreateStateTableRows (rows maxRowSize : Z) : M unit :=
  do! t <- wu_get;
  if DEBUGI && negb (0 <? rows) then wu_fail ASSERTION
  else
    let headerSize := header_size rows in
    let rowSize' := row_stride t in
    let totalSize := headerSize + rowSize' * rows + ST_ALIGNMENT in
    if maxRowSize <? rowSize' then wu_fail WUERR_STATE_TABLE_MAX_ROW_SIZE_EXCEEDED
    else
      match malloc totalSize with
      | None => wu_fail WUERR_NO_MEMORY
      | Some a =>
          let m := mk_memory a (repeat 0 (Z.to_nat totalSize)) in
          do! m <- lift (memset m a 0xFF headerSize);
          do! _ <- wu_put (mk_table rows (columnsCount t) (Some m)
                     (AlignPtr (a + headerSize + (if DEBUGI then ST_GUARD_SIZE else 0)) ST_ALIGNMENT)
                     rowSize' (rowSize t) (columnSize t) (columnBase t));
          InitGuardMemory table_guard
      end.

(** ** Rows *)

(** [((uint32_t* )t->mem)[i]] *)
Definition load_word (m : memory) (i : Z) : M Z := lift (load32 m (m_addr m + 4 * i)).
Definition store_word (m : memory) (i v : Z) : M unit :=
  do! m <- lift (store32 m (m_addr m + 4 * i) v);
  wu_modify (set_mem m).

(** [UINT32_C(1)<<n] *)
Definition shift1 (n : Z) : Z := if n <? 32 then Z.shiftl 1 n else wide_shift n.

(** The condition of the code shifts first and masks with 31 afterwards. *)
Definition IsValidStateTableRowId (rowId : Z) : M unit :=
  do! t <- wu_get;
  if (rowId <? 0) || (rowsCount t <=? rowId) then wu_fail WUERR_STATE_TABLE_BAD_ROW_ID
  else
    with_mem (fun m =>
      do! w <- load_word m (rowId / 32);
      if negb (Z.land w (Z.land (shift1 rowId) 31) =? 0) then wu_fail WUERR_STATE_TABLE_BAD_ROW_ID
      else wu_ret tt).

Definition cell_address (t : StateTable) (ticket rowId : Z) : Z :=
  base t + (stride t * rowId + PtrFromTicket ticket).

Definition GetStateTableCell (ticket rowId : Z) : M Z :=
  do! t <- wu_get;
  do! _ <- lift (ValidateTicket t ticket);
  do! _ <- IsValidStateTableRowId rowId;
  do! _ <- ValidateGuardMemory (cell_guard rowId ticket);
  wu_ret (cell_address t ticket rowId).

Definition GetStateTableMasterCell (rowId : Z) : M Z := GetStateTableCell (MakeTicket 0 0) rowId.

(** The loop over the words before the last one; [n] words are left. *)
Fixpoint scan_words (n : nat) (m : memory) (i v : Z) : res wuerr (Z * Z) :=
  match n with
  | O => Ok (i, v)
  | S n =>
      if v =? 0 then
        let* v := load32 m (m_addr m + 4 * (i + 1)) in
        scan_words n m (i + 1) v
      else Ok (i, v)
  end.

(** The word in which a vacant row was found, with the rows in the range. *)
Definition find_vacant (m : memory) (rngBegin rngEnd : Z) : res wuerr (Z * Z) :=
  let m0 := u32 (Z.shiftl 0xffffffff (Z.land rngBegin 31)) in
  let m1 := Z.shiftr 0xffffffff (Z.land (32 - rngEnd) 31) in
  let i := rngBegin / 32 in
  let e := Z.quot (rngEnd + 31) 32 in
  if i + 1 =? e then
    let* w := load32 m (m_addr m + 4 * i) in
    Ok (i, Z.land (Z.land w m0) m1)
  else if i + 1 <? e then
    let* w := load32 m (m_addr m + 4 * i) in
    let* (i, v) := scan_words (Z.to_nat (e - 1 - i)) m i (Z.land w m0) in
    if v =? 0 then
      let* w := load32 m (m_addr m + 4 * (i + 1)) in
      Ok (i + 1, Z.land w m1)
    else Ok (i, v)
  else Ok (i, 0).

Definition OccupyStateTableFirstVacantRow (rngBegin rngEnd : Z) : M Z :=
  do! t <- wu_get;
  let rngBegin := if rngBegin <? 0 then 0 else rngBegin in
  let rngEnd := if rowsCount t <? rngEnd then rowsCount t else rngEnd in
  with_mem (fun m =>
    do! (i, v) <- lift (find_vacant m rngBegin rngEnd);
    if v =? 0 then wu_fail WUERR_STATE_TABLE_FULL
    else
      let bitId := FindLowestBitSet v in
      do! w <- load_word m i;
      do! _ <- store_word m i (Z.land w (Z.lnot (low_bit v)));
      let rowId := bitId + i * 32 in
      do! _ <- ValidateGuardMemory (row_guard rowId);
      wu_ret rowId).

Definition SetStateTableIsVacantRowFlag (rowId : Z) (isVacant : bool) : M unit :=
  do! t <- wu_get;
  if (rowId <? 0) || (rowsCount t <=? rowId) then wu_fail WUERR_STATE_TABLE_BAD_ROW_ID
  else
    do! _ <- ValidateGuardMemory (row_guard rowId);
    let m := Z.shiftl 1 (Z.land rowId 31) in
    if isVacant then
      do! _ <- with_mem (fun mm =>
        do! mm <- lift (memset mm (base t + stride t * rowId) 0 (rowSize t));
        wu_modify (set_mem mm));
      do! _ <- InitGuardMemory (row_guard rowId);
      with_mem (fun mm =>
        do! p <- load_word mm (rowId / 32);
        store_word mm (rowId / 32) (Z.lor p m))
    else
      with_mem (fun mm =>
        do! p <- load_word mm (rowId / 32);
        store_word mm (rowId / 32) (Z.land p (Z.lnot m))).

Definition IsStateTableRowVacant (rowId : Z) : M bool :=
  do! t <- wu_get;
  if (rowId <? 0) || (rowsCount t <=? rowId) then wu_fail WUERR_STATE_TABLE_BAD_ROW_ID
  else
    do! _ <- ValidateGuardMemory (row_guard rowId);
    with_mem (fun m =>
      do! p <- load_word m (rowId / 32);
      wu_ret (negb (Z.land p (Z.shiftl 1 (Z.land rowId 31)) =? 0))).

End Table.
