(* ===== verification/StLayout.v ===== *)
(** * The layout of the table of client states

    Tickets, columns and guards of src/kernel/sm/wu/wustatetable.cpp: a ticket
    gives back the offset and the number of its column, columns do not overlap,
    and the guards are exactly the bytes of a row between and around its
    columns. *)

From Stdlib Require Import ZArith List Lia Bool.
From stdpp Require Import base list.
From S2P Require Import Prelude WuBase WuAux StGuard StateTable.
Local Open Scope sedna_scope.
Local Open Scope Z_scope.

(** ** Tickets *)

Lemma lor_shift a b n : 0 <= n -> 0 <= a < 2 ^ n -> Z.lor a (Z.shiftl b n) = a + b * 2 ^ n.
Proof.
  intros Hn Ha. rewrite <- Z.shiftl_mul_pow2 by lia. rewrite Z.add_nocarry_lxor.
  - apply Z.bits_inj'. intros i Hi. rewrite Z.lor_spec, Z.lxor_spec. destruct (Z.lt_ge_cases i n).
    + rewrite Z.shiftl_spec_low by lia. by rewrite orb_false_r, xorb_false_r.
    + assert (Z.testbit a i = false) as ->; [|by rewrite orb_false_l, xorb_false_l].
      rewrite <- (Z.mod_small a (2 ^ n)) by lia. apply Z.mod_pow2_bits_high. lia.
  - apply Z.bits_inj'. intros i Hi. rewrite Z.land_spec, Z.bits_0. destruct (Z.lt_ge_cases i n).
    + rewrite Z.shiftl_spec_low by lia. apply andb_false_r.
    + rewrite <- (Z.mod_small a (2 ^ n)) by lia. by rewrite Z.mod_pow2_bits_high by lia.
Qed.

(** A ticket holds the offset and the number of a column. *)
Lemma ticket_roundtrip p c : 0 <= p < ST_MAX_ROW_SIZE -> 0 <= c < ST_MAX_COLUMNS ->
  PtrFromTicket (MakeTicket p c) = p /\ OrdinalFromTicket (MakeTicket p c) = c /\ MakeTicket p c <> 0.
Proof.
  intros Hp Hc. unfold PtrFromTicket, OrdinalFromTicket, MakeTicket.
  change (ST_MAX_ROW_SIZE - 1) with (Z.ones 19). change (ST_MAX_COLUMNS - 1) with (Z.ones 7).
  change ST_MAX_ROW_SIZE with (2 ^ 19) in Hp. change ST_MAX_COLUMNS with (2 ^ 7) in Hc.
  change ST_TICKET_PTR_BITS with 20. rewrite Z.lxor_assoc, Z.lxor_nilpotent, Z.lxor_0_r.
  rewrite !Z.land_ones by lia. rewrite Z.shiftr_div_pow2 by lia. rewrite (Z.mod_small p), (Z.mod_small c) by lia.
  rewrite lor_shift by lia. split; [|split].
  - Z.div_mod_to_equations; lia.
  - Z.div_mod_to_equations; lia.
  - intros H. apply Z.lxor_eq in H. unfold ST_TICKET_XOR_MASK in H. lia.
Qed.

(** ** Columns *)

Section Layout.
Context (DEBUGI : bool).

Definition gap : Z := if DEBUGI then ST_GUARD_SIZE else 0.

(** A column is its offset in a row and its size. *)
Abbreviation column := (Z * Z)%type.

Record columns_ok (t : StateTable) (cols : list column) : Prop := {
  co_count : columnsCount t = Z.of_nat (length cols);
  co_max : columnsCount t <= ST_MAX_COLUMNS;
  co_info : DEBUGI = true -> columnsCount t <= 16;
  co_empty : cols = [] -> rowSize t = 0;
  co_first : forall c, cols !! 0%nat = Some c -> fst c = 0;
  co_pos : forall i c, cols !! i = Some c -> 0 <= fst c /\ 0 <= snd c;
  co_order : forall i j c d, (i < j)%nat -> cols !! i = Some c -> cols !! j = Some d ->
    fst c + snd c + gap <= fst d;
  co_end : forall i c, cols !! i = Some c -> fst c + snd c + gap <= rowSize t;
  co_row : 0 <= rowSize t < ST_MAX_ROW_SIZE;
  co_lens : length (columnBase t) = Z.to_nat (ST_MAX_COLUMNS_WITH_INFO DEBUGI)
    /\ length (columnSize t) = Z.to_nat (ST_MAX_COLUMNS_WITH_INFO DEBUGI);
  co_arrays : DEBUGI = true -> forall i c, cols !! i = Some c ->
    elt (columnBase t) (Z.of_nat i) = fst c /\ elt (columnSize t) (Z.of_nat i) = snd c
}.

Lemma empty_columns : columns_ok (empty_table DEBUGI) [].
Proof.
  split; try done. cbn. by rewrite !repeat_length.
Qed.

Lemma gap_nonneg : 0 <= gap.
Proof. unfold gap, ST_GUARD_SIZE. destruct DEBUGI; lia. Qed.

Lemma power2_cases a : 0 <= a <= 8 -> Is2Power a = true -> a <> 0 -> exists n, 0 <= n <= 3 /\ a = 2 ^ n.
Proof.
  intros Ha Hp Hn.
  assert (a = 1 \/ a = 2 \/ a = 3 \/ a = 4 \/ a = 5 \/ a = 6 \/ a = 7 \/ a = 8) as
    [->|[->|[->|[->|[->|[->|[->| ->]]]]]]] by lia; try discriminate Hp.
  - by exists 0. - by exists 1. - by exists 2. - by exists 3.
Qed.

(** The alignment that is used: 8 unless a smaller power of two is given. *)
Definition used_alignment (alignment : Z) : Z :=
  if (alignment =? 0) || (ST_ALIGNMENT <? alignment) then ST_ALIGNMENT else alignment.

Lemma used_alignment_spec alignment : 0 <= alignment -> Is2Power alignment = true ->
  exists n, 0 <= n <= 3 /\ used_alignment alignment = 2 ^ n.
Proof.
  intros Ha Hp. unfold used_alignment, ST_ALIGNMENT.
  destruct (Z.eqb_spec alignment 0), (Z.ltb_spec 8 alignment); cbn; try (by exists 3).
  apply power2_cases; [lia|done|done].
Qed.

Lemma elt_insert_eq l i v : 0 <= i < Z.of_nat (length l) -> elt (<[Z.to_nat i := v]> l) i = v.
Proof.
  intros Hi. unfold elt. rewrite nth_lookup, list_lookup_insert_eq by lia. done.
Qed.

Lemma elt_insert_ne l i j v : 0 <= i -> 0 <= j -> i <> j -> elt (<[Z.to_nat i := v]> l) j = elt l j.
Proof.
  intros Hi Hj Hn. unfold elt. rewrite !nth_lookup. by rewrite list_lookup_insert_ne by lia.
Qed.

Lemma snoc_lookup {A} (l : list A) x i c : (l ++ [x]) !! i = Some c ->
  l !! i = Some c \/ i = length l /\ c = x.
Proof.
  intros H. apply lookup_app_Some in H as [H|[H1 H2]]; [by left|]. right.
  apply list_lookup_singleton_Some in H2 as [H2 <-]. split; [lia|done].
Qed.

(** A reservation that succeeds adds an aligned column behind the others. *)
Lemma reserve_ok t cols size alignment tk t' :
  columns_ok t cols -> 0 <= size < 2 ^ 32 -> (0 <=? alignment) && Is2Power alignment = true ->
  ReserveStateTableColumn DEBUGI size alignment t = Done tk t' ->
  exists p, tk = MakeTicket p (Z.of_nat (length cols)) /\ columns_ok t' (cols ++ [(p, size)])
    /\ (exists q, p = q * used_alignment alignment)
    /\ rowsCount t' = rowsCount t /\ mem t' = mem t /\ base t' = base t /\ stride t' = stride t
    /\ rowSize t' = p + size + gap.
Proof.
  intros Hok Hs Ea. unfold ReserveStateTableColumn. unfold wu_bind, wu_get, wu_put, wu_fail, wu_ret. fold (used_alignment alignment).
  rewrite Ea, andb_false_r.
  apply andb_true_iff in Ea as [Ea1%Z.leb_le Ea2].
  destruct (used_alignment_spec alignment Ea1 Ea2) as (n & Hn & En). rewrite En.
  destruct (co_row _ _ Hok) as [Hr1 Hr2]. change ST_MAX_ROW_SIZE with 524288 in *.
  assert (Hpn : 1 <= 2 ^ n <= 8) by (assert (H := Z.pow_le_mono_r 2 0 n ltac:(lia) ltac:(lia)); assert (H' := Z.pow_le_mono_r 2 n 3 ltac:(lia) ltac:(lia)); lia).
  rewrite AlignPtr_spec by lia. destruct (round_up_spec (rowSize t) n ltac:(lia)) as ([Hp1 Hp2] & q & Hq).
  set (p := round_up (rowSize t) n) in *. rewrite (u64_small (p + size)) by lia.
  set (nsize := if DEBUGI then _ else _).
  assert (Ens : nsize = p + size + gap).
  { unfold nsize, gap, ST_GUARD_SIZE. destruct DEBUGI; [rewrite u64_small; lia|lia]. }
  rewrite Ens. assert (Hg := gap_nonneg).
  destruct (Z.leb_spec ST_MAX_COLUMNS (columnsCount t)) as [|Hc]; [done|].
  destruct (Z.leb_spec 524288 (p + size + gap)) as [|Hrow]; [done|].
  destruct (DEBUGI && (ST_MAX_COLUMNS_WITH_INFO DEBUGI <=? columnsCount t)) eqn:Ed; [done|].
  intros [= <- <-]. exists p. rewrite (co_count _ _ Hok). split; [done|].
  split; [|split; [by exists q|done]].
  assert (Hd : DEBUGI = true -> Z.of_nat (length cols) < 16).
  { intros Hd. rewrite Hd in Ed. cbn in Ed. apply Z.leb_gt in Ed. rewrite (co_count _ _ Hok) in Ed. lia. }
  destruct (co_lens _ _ Hok) as [L1 L2].
  split; cbn [columnsCount rowSize columnBase columnSize].
  - rewrite length_app. cbn. lia.
  - rewrite (co_count _ _ Hok) in Hc. lia.
  - intros H. specialize (Hd H). lia.
  - by destruct cols.
  - intros c Hc0. destruct cols as [|c0 cols]; [|by apply (co_first _ _ Hok)].
    cbn in Hc0. injection Hc0 as <-. cbn. rewrite Hq.
    assert (Hz := co_empty _ _ Hok eq_refl).
    assert (Hq0 : 0 <= q * 2 ^ n < 2 ^ n) by lia. assert (q = 0) as -> by nia. lia.
  - intros i c [Hi|[-> ->]]%snoc_lookup; [by apply (co_pos _ _ Hok i)|cbn; lia].
  - intros i j c d Hij [Hi|[-> ->]]%snoc_lookup [Hj|[-> ->]]%snoc_lookup.
    + by apply (co_order _ _ Hok i j).
    + assert (H := co_end _ _ Hok i c Hi). cbn. lia.
    + apply lookup_lt_Some in Hj. lia.
    + lia.
  - intros i c [Hi|[-> ->]]%snoc_lookup; [|cbn; lia]. assert (H := co_end _ _ Hok i c Hi). lia.
  - change ST_MAX_ROW_SIZE with 524288. lia.
  - destruct DEBUGI; rewrite ?length_insert; done.
  - intros H i c. specialize (Hd H). rewrite H in *. unfold ST_MAX_COLUMNS_WITH_INFO in L1, L2.
    intros [Hi|[-> ->]]%snoc_lookup.
    + assert (Hlt := lookup_lt_Some _ _ _ Hi). rewrite !elt_insert_ne by lia. by apply (co_arrays _ _ Hok H).
    + rewrite !elt_insert_eq by lia. done.
Qed.

(** ** The guards of a row *)

Definition in_region (x : Z) (r : Z * Z) : bool :=
  let '(lo, hi) := region (fst r) (snd r) in (lo <=? x) && (x <? hi).

Definition covers (l : list (Z * Z)) (x : Z) : bool := existsb (in_region x) l.

Lemma in_region_pos x p d : 0 <= d -> in_region x (p, d) = true <-> p <= x < p + d.
Proof.
  intros Hd. unfold in_region, region. cbn. destruct (Z.ltb_spec 0 d); rewrite andb_true_iff, Z.leb_le, Z.ltb_lt; lia.
Qed.

Lemma in_region_neg x p d : 0 <= d -> in_region x (p, - d) = true <-> p - d <= x < p.
Proof.
  intros Hd. unfold in_region, region. cbn. destruct (Z.ltb_spec 0 (- d)); rewrite andb_true_iff, Z.leb_le, Z.ltb_lt; lia.
Qed.

(** [x] is not in a column from [i] on, of the row at [p]. *)
Definition outside_columns (cols : list column) (p : Z) (i : nat) (x : Z) : Prop :=
  forall j d, (i <= j)%nat -> cols !! j = Some d -> ~ (p + fst d <= x < p + fst d + snd d).

Lemma walk_spec t cols p n : DEBUGI = true -> columns_ok t cols ->
  forall i c last ptr unused, (i + n + 1 = length cols)%nat -> cols !! i = Some c ->
  cols !! (length cols - 1)%nat = Some last -> ptr = p + fst c -> 0 <= unused ->
  forall x, covers (walk_columns t n (Z.of_nat i) ptr unused) x = true
    <-> ptr - unused <= x < p + fst last + snd last + ST_GUARD_SIZE /\ outside_columns cols p i x.
Proof.
  intros Hd Hok. assert (Hgap : gap = 8) by (unfold gap; by rewrite Hd).
  induction n as [|n IH]; intros i c last ptr unused Hlen Hi Hl -> Hu x.
  - replace (length cols - 1)%nat with i in Hl by lia. rewrite Hl in Hi. injection Hi as <-.
    destruct (co_arrays _ _ Hok Hd i last Hl) as [_ Hsz]. cbn [walk_columns covers existsb]. rewrite Hsz.
    destruct (co_pos _ _ Hok i last Hl) as [P1 P2].
    rewrite !orb_true_iff, in_region_neg, in_region_pos by (done || cbn; lia). unfold ST_GUARD_SIZE. split.
    + intros H. split; [lia|]. intros j d Hj Hjd. assert (j = i) as -> by (apply lookup_lt_Some in Hjd; lia).
      rewrite Hl in Hjd. injection Hjd as <-. lia.
    + intros [H1 H2]. specialize (H2 i last ltac:(lia) Hl). lia.
  - destruct (lookup_lt_is_Some_2 cols (S i)) as [d Hdd]; [lia|].
    destruct (co_arrays _ _ Hok Hd i c Hi) as [Hb Hsz]. destruct (co_arrays _ _ Hok Hd (S i) d Hdd) as [Hb' _].
    assert (Hord := co_order _ _ Hok i (S i) c d ltac:(lia) Hi Hdd).
    destruct (co_pos _ _ Hok i c Hi) as [P1 P2].
    cbn [walk_columns covers existsb]. fold (covers (walk_columns t n (Z.of_nat i + 1)
      (p + fst c + (elt (columnBase t) (Z.of_nat i + 1) - elt (columnBase t) (Z.of_nat i)))
      (elt (columnBase t) (Z.of_nat i + 1) - elt (columnBase t) (Z.of_nat i) - elt (columnSize t) (Z.of_nat i))) x).
    replace (Z.of_nat i + 1) with (Z.of_nat (S i)) by lia. rewrite Hb, Hb', Hsz.
    rewrite orb_true_iff, in_region_neg by done.
    rewrite (IH (S i) d last) by (done || lia).
    assert (Hlast : fst d + snd d <= fst last + snd last).
    { destruct (Nat.eq_dec (S i) (length cols - 1)%nat) as [E|E]; [rewrite <- E, Hdd in Hl; injection Hl as <-; lia|].
      assert (H := co_order _ _ Hok (S i) (length cols - 1)%nat d last ltac:(lia) Hdd Hl).
      destruct (co_pos _ _ Hok _ _ Hl). lia. }
    destruct (co_pos _ _ Hok _ _ Hdd) as [P3 P4]. unfold ST_GUARD_SIZE. split.
    + intros [H|[H1 H2]].
      * split; [lia|]. intros j e Hj He. assert (Hce : fst c <= fst e); [|lia].
        destruct (Nat.eq_dec j i) as [->|]; [rewrite Hi in He; injection He as <-; lia|].
        assert (H' := co_order _ _ Hok i j c e ltac:(lia) Hi He). lia.
      * split; [lia|]. intros j e Hj He. destruct (Nat.eq_dec j i) as [->|]; [rewrite Hi in He; injection He as <-; lia|].
        apply (H2 j e); [lia|done].
    + intros [H1 H2]. assert (Hc := H2 i c ltac:(lia) Hi). destruct (Z.lt_ge_cases x (p + fst c)) as [|Hx]; [left; lia|].
      right. split; [lia|]. intros j e Hj He. apply (H2 j e); [lia|done].
Qed.

(** The regions of a walk are well bounded. *)
Lemma walk_bounds t cols p n : DEBUGI = true -> columns_ok t cols ->
  forall i c last ptr unused, (i + n + 1 = length cols)%nat -> cols !! i = Some c ->
  cols !! (length cols - 1)%nat = Some last -> ptr = p + fst c -> 0 <= unused ->
  Forall (fun r => let '(lo, hi) := region (fst r) (snd r) in
      ptr - unused <= lo /\ lo <= hi /\ hi <= p + fst last + snd last + ST_GUARD_SIZE)
    (walk_columns t n (Z.of_nat i) ptr unused).
Proof.
  intros Hd Hok. assert (Hgap : gap = 8) by (unfold gap; by rewrite Hd).
  induction n as [|n IH]; intros i c last ptr unused Hlen Hi Hl -> Hu.
  - replace (length cols - 1)%nat with i in Hl by lia. rewrite Hl in Hi. injection Hi as <-.
    destruct (co_arrays _ _ Hok Hd i last Hl) as [_ Hsz]. cbn [walk_columns]. rewrite Hsz.
    destruct (co_pos _ _ Hok i last Hl) as [P1 P2].
    unfold region, ST_GUARD_SIZE. repeat constructor; cbn; destruct (Z.ltb_spec 0 (- unused)); lia.
  - destruct (lookup_lt_is_Some_2 cols (S i)) as [d Hdd]; [lia|].
    destruct (co_arrays _ _ Hok Hd i c Hi) as [Hb Hsz]. destruct (co_arrays _ _ Hok Hd (S i) d Hdd) as [Hb' _].
    assert (Hord := co_order _ _ Hok i (S i) c d ltac:(lia) Hi Hdd).
    destruct (co_pos _ _ Hok i c Hi) as [P1 P2].
    assert (Hlast : fst c + snd c <= fst last).
    { assert (H := co_order _ _ Hok i (length cols - 1)%nat c last ltac:(lia) Hi Hl). lia. }
    destruct (co_pos _ _ Hok _ _ Hl) as [P3 P4].
    cbn [walk_columns]. replace (Z.of_nat i + 1) with (Z.of_nat (S i)) by lia. rewrite Hb, Hb', Hsz.
    apply Forall_cons. split.
    + unfold region, ST_GUARD_SIZE. cbn. destruct (Z.ltb_spec 0 (- unused)); lia.
    + eapply Forall_impl; [apply (IH (S i) d last); done || lia|]. intros [q e]. cbn.
      destruct (region q e). lia.
Qed.

End Layout.
