(* ===== verification/StRows.v ===== *)
(** * The invariant of the table of client states

    The memory of a table of src/kernel/sm/wu/wustatetable.cpp after
    [CreateStateTableRows]: the bitmap, the rows with their cells and, in debug
    builds, the guards, and what every operation does to them. *)

From Stdlib Require Import ZArith List Lia Bool.
From stdpp Require Import base list.
From S2P Require Import Prelude WuBase WuAux StGuard StateTable StLayout.
Local Open Scope sedna_scope.
Local Open Scope Z_scope.

(** ** Sizes *)

Definition bitmap_words (rows : Z) : Z := (rows + 31) / 32.

Lemma header_size_round rows : 0 <= rows < 2 ^ 31 -> header_size rows = round_up (4 * bitmap_words rows) 3.
Proof.
  intros H. destruct (Z.eq_dec rows 0) as [->|Hne]; [done|].
  unfold header_size, bitmap_words. change ST_ALIGNMENT with (2 ^ 3).
  assert (E : RoundSizeUp rows 32 = round_up rows 5) by (apply (RoundSizeUp_spec rows 5); lia).
  assert (E2 : 4 * RoundSizeUp rows 32 / 32 = 4 * ((rows + 31) / 32)).
  { rewrite E. unfold round_up. change (2 ^ 5) with 32. replace (rows + 32 - 1) with (rows + 31) by lia.
    replace (4 * ((rows + 31) / 32 * 32)) with (4 * ((rows + 31) / 32) * 32) by lia. by rewrite Z.div_mul. }
  rewrite E2. apply RoundSizeUp_spec; Z.div_mod_to_equations; lia.
Qed.

Lemma header_size_spec rows : 0 <= rows < 2 ^ 31 ->
  4 * bitmap_words rows <= header_size rows < 4 * bitmap_words rows + 8 /\ header_size rows mod 8 = 0
  /\ rows <= 32 * bitmap_words rows < rows + 32.
Proof.
  intros H. rewrite header_size_round by done.
  destruct (round_up_spec (4 * bitmap_words rows) 3 ltac:(lia)) as ([H1 H2] & q & Hq).
  split; [lia|]. split; [rewrite Hq; change 8 with (2 ^ 3); apply Z_mod_mult|].
  unfold bitmap_words. Z.div_mod_to_equations; lia.
Qed.

(** The bits of the words at the start of a block. *)
Definition bitmap_is (m : memory) (words : Z) (vac : Z -> bool) : Prop :=
  forall i, 0 <= i < words -> exists w, load32 m (m_addr m + 4 * i) = Ok w /\ is_word w
    /\ forall k, 0 <= k < 32 -> Z.testbit w k = vac (32 * i + k).

Section Rows.
Context (DEBUGI : bool).
Abbreviation column := (Z * Z)%type.

(** [vac] tells the vacant rows. *)
Record table_ok (t : StateTable) (cols : list column) (m : memory) (vac : Z -> bool) : Prop := {
  tk_cols : columns_ok DEBUGI t cols;
  tk_some : cols <> [];
  tk_rows : 0 <= rowsCount t < 2 ^ 31;
  tk_mem : mem t = Some m;
  tk_bytes : bytes_ok m;
  tk_addr : 0 < m_addr m /\ m_addr m mod 8 = 0;
  tk_base : base t = m_addr m + header_size (rowsCount t) + gap DEBUGI;
  tk_stride : rowSize t + gap DEBUGI <= stride t /\ stride t mod 8 = 0 /\ 0 < stride t;
  tk_end : m_end m = m_addr m + header_size (rowsCount t) + stride t * rowsCount t + 8;
  tk_guards : DEBUGI = true -> forall r x, 0 <= r < rowsCount t -> covers (row_guards t r) x = true ->
    get m x = Some (pattern_at ST_GUARD_FILL x);
  tk_bits : bitmap_is m (bitmap_words (rowsCount t)) vac;
  tk_padding : forall r, rowsCount t <= r < 32 * bitmap_words (rowsCount t) -> vac r = true
}.

Lemma last_exists (cols : list column) : cols <> [] -> exists l, cols !! (length cols - 1)%nat = Some l.
Proof. intros H. apply lookup_lt_is_Some_2. destruct cols; [done|cbn; lia]. Qed.

Lemma first_column t cols : columns_ok DEBUGI t cols -> cols <> [] -> exists s, cols !! 0%nat = Some (0, s).
Proof.
  intros Hok H. destruct cols as [|[o s] cols]; [done|]. exists s.
  assert (E := co_first _ _ _ Hok (o, s) eq_refl). cbn in E. by subst.
Qed.

Lemma walk_set_mem t m n : forall i p u, walk_columns (set_mem m t) n i p u = walk_columns t n i p u.
Proof. induction n as [|n IH]; intros i p u; cbn; [done|]. by rewrite IH. Qed.

Lemma row_guards_set_mem t m r : row_guards (set_mem m t) r = row_guards t r.
Proof. apply walk_set_mem. Qed.

(** The guard bytes of a row: between the row before and the end of the last
    column with its guard, outside of the columns. *)
Lemma row_guards_spec t cols last r : DEBUGI = true -> columns_ok DEBUGI t cols ->
  cols !! (length cols - 1)%nat = Some last ->
  let p := base t + stride t * r in
  (forall x, covers (row_guards t r) x = true <->
     p - ST_GUARD_SIZE <= x < p + fst last + snd last + ST_GUARD_SIZE /\ outside_columns cols p 0 x)
  /\ Forall (fun g => let '(lo, hi) := region (fst g) (snd g) in
       p - ST_GUARD_SIZE <= lo /\ lo <= hi /\ hi <= p + fst last + snd last + ST_GUARD_SIZE) (row_guards t r).
Proof.
  intros Hd Hok Hl. cbv zeta. assert (Hne : cols <> []) by (intros ->; done).
  destruct (first_column t cols Hok Hne) as [s H0]. unfold row_guards.
  assert (E : Z.to_nat (columnsCount t - 1) = (length cols - 1)%nat) by (rewrite (co_count _ _ _ Hok); lia).
  rewrite E. assert (length cols <> 0)%nat by (by destruct cols). split.
  - intros x. apply (walk_spec DEBUGI t cols _ _ Hd Hok 0%nat (0, s) last); try done; unfold ST_GUARD_SIZE; cbn; lia.
  - apply (walk_bounds DEBUGI t cols _ _ Hd Hok 0%nat (0, s) last); try done; unfold ST_GUARD_SIZE; cbn; lia.
Qed.

(** ** Where cells and guards are *)

Section Table.
Context (t : StateTable) (cols : list column) (m : memory) (vac : Z -> bool) (Hok : table_ok t cols m vac).

Lemma row_bounds r : 0 <= r < rowsCount t ->
  m_addr m + header_size (rowsCount t) + gap DEBUGI <= base t + stride t * r
  /\ base t + stride t * r + rowSize t + gap DEBUGI <= base t + stride t * (r + 1)
  /\ base t + stride t * (r + 1) <= m_end m - 8 + gap DEBUGI.
Proof.
  intros Hr. destruct (tk_stride _ _ _ _ Hok) as (H1 & H2 & H3). rewrite (tk_base _ _ _ _ Hok), (tk_end _ _ _ _ Hok).
  assert (Hg := gap_nonneg DEBUGI). nia.
Qed.

Lemma row_order r r' : r < r' -> base t + stride t * (r + 1) <= base t + stride t * r'.
Proof. intros H. destruct (tk_stride _ _ _ _ Hok) as (H1 & H2 & H3). nia. Qed.

Lemma header_bounds : 4 * bitmap_words (rowsCount t) <= header_size (rowsCount t).
Proof. destruct (header_size_spec (rowsCount t) (tk_rows _ _ _ _ Hok)) as [H _]. lia. Qed.

Lemma gap_le : gap DEBUGI <= 8.
Proof. unfold gap, ST_GUARD_SIZE. destruct DEBUGI; lia. Qed.

(** A byte of a cell: behind the header, inside its row, not guarded. *)
Lemma cell_byte r j c x : 0 <= r < rowsCount t -> cols !! j = Some c ->
  base t + stride t * r + fst c <= x < base t + stride t * r + fst c + snd c ->
  in_mem m x /\ m_addr m + header_size (rowsCount t) + gap DEBUGI <= x
  /\ base t + stride t * r <= x /\ x + gap DEBUGI < base t + stride t * r + rowSize t + gap DEBUGI.
Proof.
  intros Hr Hj Hx. destruct (row_bounds r Hr) as (H1 & H2 & H3). assert (H4 := co_end _ _ _ (tk_cols _ _ _ _ Hok) j c Hj).
  destruct (co_pos _ _ _ (tk_cols _ _ _ _ Hok) j c Hj) as [H5 H6]. assert (Hg := gap_nonneg DEBUGI). assert (Hg' := gap_le).
  destruct (header_size_spec (rowsCount t) (tk_rows _ _ _ _ Hok)) as [Hh _].
  assert (0 <= bitmap_words (rowsCount t)) by (assert (H := tk_rows _ _ _ _ Hok); unfold bitmap_words; apply Z.div_pos; lia).
  unfold in_mem. lia.
Qed.

Lemma guard_byte r x : DEBUGI = true -> 0 <= r < rowsCount t -> covers (row_guards t r) x = true ->
  base t + stride t * r - 8 <= x < base t + stride t * r + rowSize t
  /\ outside_columns cols (base t + stride t * r) 0 x.
Proof.
  intros Hd Hr Hc. destruct (last_exists cols (tk_some _ _ _ _ Hok)) as [last Hl].
  destruct (row_guards_spec t cols last r Hd (tk_cols _ _ _ _ Hok) Hl) as [Hs _].
  destruct (proj1 (Hs x) Hc) as [H1 H2].
  assert (H3 := co_end _ _ _ (tk_cols _ _ _ _ Hok) _ _ Hl). unfold gap in H3. rewrite Hd in H3. unfold ST_GUARD_SIZE in *.
  split; [lia|done].
Qed.

(** Cells are not guarded. *)
Lemma cell_unguarded r j c x r' : DEBUGI = true -> 0 <= r < rowsCount t -> 0 <= r' < rowsCount t ->
  cols !! j = Some c -> base t + stride t * r + fst c <= x < base t + stride t * r + fst c + snd c ->
  covers (row_guards t r') x = false.
Proof.
  intros Hd Hr Hr' Hj Hx. apply not_true_iff_false. intros Hc.
  destruct (guard_byte r' x Hd Hr' Hc) as [H1 H2]. destruct (cell_byte r j c x Hr Hj Hx) as (_ & _ & H3 & H4).
  destruct (row_bounds r Hr) as (_ & B & _). destruct (row_bounds r' Hr') as (_ & B' & _).
  unfold gap, ST_GUARD_SIZE in *. rewrite Hd in *.
  destruct (Z.lt_trichotomy r r') as [H|[->|H]].
  - assert (Ho := row_order r r' H). lia.
  - by apply (H2 j c ltac:(lia) Hj).
  - assert (Ho := row_order r' r H). lia.
Qed.

(** Different cells do not overlap. *)
Lemma cells_disjoint r r' j j' c c' x : 0 <= r < rowsCount t -> 0 <= r' < rowsCount t ->
  cols !! j = Some c -> cols !! j' = Some c' -> (r, j) <> (r', j') ->
  base t + stride t * r + fst c <= x < base t + stride t * r + fst c + snd c ->
  ~ (base t + stride t * r' + fst c' <= x < base t + stride t * r' + fst c' + snd c').
Proof.
  intros Hr Hr' Hj Hj' Hne Hx Hx'. assert (Hg := gap_nonneg DEBUGI).
  destruct (cell_byte r j c x Hr Hj Hx) as (_ & _ & H3 & H4). destruct (cell_byte r' j' c' x Hr' Hj' Hx') as (_ & _ & H3' & H4').
  destruct (row_bounds r Hr) as (_ & B & _). destruct (row_bounds r' Hr') as (_ & B' & _).
  destruct (Z.lt_trichotomy r r') as [H|[->|H]].
  - assert (Ho := row_order r r' H). lia.
  - destruct (Nat.lt_trichotomy j j') as [H|[->|H]]; [|done|].
    + assert (Ho := co_order _ _ _ (tk_cols _ _ _ _ Hok) j j' c c' H Hj Hj'). lia.
    + assert (Ho := co_order _ _ _ (tk_cols _ _ _ _ Hok) j' j c' c H Hj' Hj). lia.
  - assert (Ho := row_order r' r H). lia.
Qed.

End Table.
End Rows.
