(* ===== verification/StOps.v ===== *)
(** * The operations on the table of client states

    Every operation of src/kernel/sm/wu/wustatetable.cpp on a table that
    satisfies the invariant of StRows.v: its result and the table it leaves. *)

From Stdlib Require Import ZArith List Lia Bool.
From stdpp Require Import base list.
From S2P Require Import Prelude WuBase WuAux StGuard StateTable StLayout StRows.
Local Open Scope sedna_scope.
Local Open Scope Z_scope.

(** ** Lists of guards *)

Definition regions_in (m : memory) (l : list (Z * Z)) : Prop :=
  Forall (fun g => let '(lo, hi) := region (fst g) (snd g) in region_in m lo hi) l.

Lemma fill_word : is_word ST_GUARD_FILL.
Proof. unfold is_word, ST_GUARD_FILL. lia. Qed.

Lemma in_region_bounds x p d lo hi : region p d = (lo, hi) -> in_region x (p, d) = (lo <=? x) && (x <? hi).
Proof. intros H. unfold in_region. cbn [fst snd]. by rewrite H. Qed.

Lemma covers_cons g l x : covers (g :: l) x = in_region x g || covers l x.
Proof. done. Qed.

Lemma check_regions_true l m : bytes_ok m -> regions_in m l ->
  (forall x, covers l x = true -> get m x = Some (pattern_at ST_GUARD_FILL x)) ->
  check_regions l m = Ok true.
Proof.
  intros Hb. induction l as [|[p d] l IH]; intros Hr Hc; cbn [check_regions]; [done|].
  apply Forall_cons in Hr as [Hr1 Hr2]. cbn [fst snd] in Hr1.
  assert (H := DbgCheckGuardMemory_ok m p d ST_GUARD_FILL fill_word Hb).
  destruct (region p d) as [lo hi] eqn:E. destruct (H Hr1) as (b & Eb & Hbm). rewrite Eb. cbn [bind_res].
  rewrite IH; [|done|intros x Hx; apply Hc; rewrite covers_cons, Hx; apply orb_true_r]. cbn.
  rewrite (proj2 Hbm); [done|]. intros x Hx. apply Hc. rewrite covers_cons, (in_region_bounds x p d lo hi E).
  rewrite (proj2 (Z.leb_le lo x)), (proj2 (Z.ltb_lt x hi)) by lia. done.
Qed.

Definition covered_bytes (l : list (Z * Z)) (x : Z) : option Z :=
  if covers l x then Some (pattern_at ST_GUARD_FILL x) else None.

Lemma covered_range l x b : covered_bytes l x = Some b -> 0 <= b < 256.
Proof. unfold covered_bytes. destruct (covers l x); [|done]. intros [= <-]. apply byte_of_range. Qed.

Lemma regions_updated m m' f l : updated m m' f -> regions_in m l -> regions_in m' l.
Proof.
  intros U H. eapply Forall_impl; [exact H|]. intros [p d]. cbn. destruct (region p d). by apply (region_updated m m' f).
Qed.

Lemma init_regions_ok l : forall m, bytes_ok m -> regions_in m l ->
  exists m', init_regions l m = Ok m' /\ updated m m' (covered_bytes l).
Proof.
  induction l as [|[p d] l IH]; intros m Hb Hr; cbn [init_regions].
  - exists m. split; [done|]. by apply updated_refl.
  - apply Forall_cons in Hr as [Hr1 Hr2]. cbn [fst snd] in Hr1.
    assert (H := DbgInitGuardMemory_ok m p d ST_GUARD_FILL fill_word Hb).
    destruct (region p d) as [lo hi] eqn:E. destruct (H Hr1) as (m1 & E1 & U1). rewrite E1. cbn [bind_res].
    assert (Hb1 : bytes_ok m1).
    { eapply updated_bytes; [|exact Hb|exact U1]. intros x b. unfold guard_bytes. destruct (_ && _); [|done].
      intros [= <-]. apply byte_of_range. }
    destruct (IH m1 Hb1 (regions_updated _ _ _ _ U1 Hr2)) as (m2 & E2 & U2). exists m2. split; [done|].
    eapply updated_ext; [|exact (updated_trans _ _ _ _ _ U1 U2)]. intros x _. cbn beta.
    unfold covered_bytes, guard_bytes. rewrite covers_cons, (in_region_bounds x p d lo hi E).
    by destruct ((lo <=? x) && (x <? hi)), (covers l x).
Qed.

Lemma lookup_repeat {A} (v : A) n i : (i < n)%nat -> repeat v n !! i = Some v.
Proof. revert i. induction n as [|n IH]; intros [|i] H; cbn; try lia; [done|apply IH; lia]. Qed.

Lemma memset_ok m a v n : m_addr m <= a -> 0 <= n -> a + n <= m_end m ->
  exists m', memset m a v n = Ok m' /\ updated m m' (fun x => if (a <=? x) && (x <? a + n) then Some v else None).
Proof.
  intros H1 H2 H3. unfold memset. rewrite (proj2 (Z.leb_le _ _) H1), (proj2 (Z.leb_le _ _) H3). cbn [andb].
  eexists. split; [done|]. unfold m_end in H3. split; cbn [m_addr m_bytes].
  - done.
  - rewrite !length_app, length_take, length_drop, repeat_length. lia.
  - intros x [Hx1 Hx2]. unfold m_end in Hx2. unfold get. cbn [m_addr m_bytes].
    destruct (Z.leb_spec (m_addr m) x); [|lia]. destruct (Z.leb_spec a x), (Z.ltb_spec x (a + n)); cbn [andb].
    + rewrite lookup_app_r by (rewrite length_take; lia). rewrite lookup_app_l by (rewrite repeat_length, length_take; lia).
      apply lookup_repeat. rewrite length_take. lia.
    + rewrite lookup_app_r by (rewrite length_take; lia). rewrite lookup_app_r by (rewrite repeat_length, length_take; lia).
      rewrite lookup_drop. f_equal. rewrite repeat_length, length_take. lia.
    + rewrite lookup_app_l by (rewrite length_take; lia). by rewrite lookup_take_lt by lia.
    + lia.
Qed.

Lemma if_true {A} (b : bool) (x y : A) : b = true -> (if b then x else y) = x.
Proof. by intros ->. Qed.
Lemma if_false {A} (b : bool) (x y : A) : b = false -> (if b then x else y) = y.
Proof. by intros ->. Qed.

(** [debug_cases Hd b]: the two builds, for a definition that starts with a
    test of the kind of build. *)
Ltac debug_cases Hd b :=
  destruct (sumbool_of_bool b) as [Hd|Hd];
  [rewrite (if_true b _ _ Hd)|rewrite (if_false b _ _ Hd); try done].

Section Ops.
Context (DEBUGI : bool).
Abbreviation column := (Z * Z)%type.

(** ** Guards of a table *)

Section Guards.
Context (t : StateTable) (cols : list column) (m : memory) (vac : Z -> bool) (Hok : table_ok DEBUGI t cols m vac).

Lemma mem_aligned : m_addr m mod 4 = 0 /\ m_end m mod 4 = 0.
Proof.
  destruct (tk_addr _ _ _ _ _ Hok) as [H0 H1]. destruct (tk_stride _ _ _ _ _ Hok) as (_ & H2 & _).
  destruct (header_size_spec (rowsCount t) (tk_rows _ _ _ _ _ Hok)) as (_ & H3 & _).
  rewrite (tk_end _ _ _ _ _ Hok).
  assert (E : exists q, stride t * rowsCount t = 8 * q).
  { exists (stride t / 8 * rowsCount t). assert (H := Z.div_mod (stride t) 8 ltac:(lia)). rewrite H2 in H. nia. }
  destruct E as [q ->]. split; Z.div_mod_to_equations; lia.
Qed.

Lemma row_regions r : DEBUGI = true -> 0 <= r < rowsCount t -> regions_in m (row_guards t r).
Proof.
  intros Hd Hr. destruct (last_exists cols (tk_some _ _ _ _ _ Hok)) as [lst Hl].
  destruct (row_guards_spec DEBUGI t cols lst r Hd (tk_cols _ _ _ _ _ Hok) Hl) as [_ Hf].
  eapply Forall_impl; [exact Hf|]. intros [p d]. cbn. destruct (region p d) as [lo hi]. intros (H1 & H2 & H3).
  destruct mem_aligned as [A1 A2]. split; [done|]. split; [done|].
  destruct (row_bounds _ _ _ _ _ Hok r Hr) as (B1 & B2 & B3). assert (Hend := co_end _ _ _ (tk_cols _ _ _ _ _ Hok) _ _ Hl).
  destruct (header_size_spec (rowsCount t) (tk_rows _ _ _ _ _ Hok)) as (C1 & _ & C3).
  unfold gap, ST_GUARD_SIZE in *. rewrite Hd in *. lia.
Qed.

Lemma validate_row r : 0 <= r < rowsCount t -> ValidateGuardMemory DEBUGI (row_guard r) t = Done tt t.
Proof.
  intros Hr. unfold ValidateGuardMemory. debug_cases Hd DEBUGI.
  unfold with_mem, wu_bind, wu_get, lift, guards, valid_row. rewrite (tk_mem _ _ _ _ _ Hok).
  rewrite (proj2 (Z.leb_le 0 r)), (proj2 (Z.ltb_lt r (rowsCount t))) by lia. cbn [andb].
  rewrite check_regions_true; [done|apply (tk_bytes _ _ _ _ _ Hok)|apply (row_regions r); [done|lia]|].
  intros x. by apply (tk_guards _ _ _ _ _ Hok).
Qed.

Lemma covers_flat (g : nat -> list (Z * Z)) l x : covers (flat_map g l) x = existsb (fun r => covers (g r) x) l.
Proof. induction l as [|r l IH]; cbn; [done|]. rewrite <- IH. unfold covers. by rewrite existsb_app. Qed.

Lemma table_regions : DEBUGI = true ->
  regions_in m (flat_map (fun r => row_guards t (Z.of_nat r)) (seq 0 (Z.to_nat (rowsCount t)))).
Proof.
  intros Hd. unfold regions_in. rewrite Forall_forall. intros g Hg. rewrite list_elem_of_In, in_flat_map in Hg.
  destruct Hg as (r & Hr%in_seq & Hg). assert (Hrr := row_regions (Z.of_nat r) Hd ltac:(lia)).
  unfold regions_in in Hrr. rewrite Forall_forall in Hrr. apply Hrr. by apply list_elem_of_In.
Qed.

Lemma validate_table : ValidateGuardMemory DEBUGI table_guard t = Done tt t.
Proof.
  unfold ValidateGuardMemory. debug_cases Hd DEBUGI.
  unfold with_mem, wu_bind, wu_get, lift, guards. rewrite (tk_mem _ _ _ _ _ Hok).
  rewrite check_regions_true; [done|apply (tk_bytes _ _ _ _ _ Hok)|by apply table_regions|].
  intros x. rewrite covers_flat, existsb_exists. intros (r & Hr%in_seq & Hx).
  apply (tk_guards _ _ _ _ _ Hok Hd (Z.of_nat r)); [lia|done].
Qed.

(** The ticket of a column. *)
Definition ticket_of (j : nat) (c : column) : Z := MakeTicket (fst c) (Z.of_nat j).

Lemma ticket_fields j c : cols !! j = Some c ->
  PtrFromTicket (ticket_of j c) = fst c /\ OrdinalFromTicket (ticket_of j c) = Z.of_nat j.
Proof.
  intros Hj. assert (Hlt := lookup_lt_Some _ _ _ Hj). assert (Hc := tk_cols _ _ _ _ _ Hok).
  destruct (co_pos _ _ _ Hc j c Hj) as [P1 P2]. assert (He := co_end _ _ _ Hc j c Hj).
  assert (Hg := gap_nonneg DEBUGI). assert (Hr := co_row _ _ _ Hc). assert (Hm := co_max _ _ _ Hc).
  rewrite (co_count _ _ _ Hc) in Hm. destruct (ticket_roundtrip (fst c) (Z.of_nat j)) as (H1 & H2 & _); [lia|lia|done].
Qed.

(** A column of at least one byte lies in the row. *)
Lemma column_info j c isBogus : cols !! j = Some c -> 0 < snd c ->
  GetColumnInfo DEBUGI t (ticket_of j c) isBogus =
    if isBogus : bool then Ok (0, 0, 0)
    else if negb DEBUGI then Throw WUERR_DEBUG_FUNCTION_UNAVAILABLE
    else Ok (snd c,
      if 0 <? Z.of_nat j then fst c - elt (columnBase t) (Z.of_nat j - 1) - elt (columnSize t) (Z.of_nat j - 1) else ST_GUARD_SIZE,
      if Z.of_nat j <? columnsCount t - 1 then elt (columnBase t) (Z.of_nat j + 1) - fst c - snd c else ST_GUARD_SIZE).
Proof.
  intros Hj Hs. destruct (ticket_fields j c Hj) as [E1 E2]. unfold GetColumnInfo. rewrite E1, E2.
  assert (Hc := tk_cols _ _ _ _ _ Hok). destruct (co_pos _ _ _ Hc j c Hj) as [P1 P2].
  assert (He := co_end _ _ _ Hc j c Hj). destruct (tk_stride _ _ _ _ _ Hok) as (S1 & _ & _). assert (Hg := gap_nonneg DEBUGI).
  assert (Hlt := lookup_lt_Some _ _ _ Hj). rewrite (co_count _ _ _ Hc).
  rewrite (proj2 (Z.ltb_ge (fst c) 0)), (proj2 (Z.leb_gt (stride t) (fst c))), (proj2 (Z.ltb_ge (Z.of_nat j) 0)),
    (proj2 (Z.leb_gt (Z.of_nat (length cols)) (Z.of_nat j))) by lia.
  destruct DEBUGI eqn:Hd; cbn [negb orb andb CheckTicket]; [|done].
  destruct (co_arrays _ _ _ Hc eq_refl j c Hj) as [-> ->]. by rewrite Z.eqb_refl.
Qed.

(** The unused space before and after a column. *)
Definition unused_before (j : nat) (c : column) : Z :=
  if 0 <? Z.of_nat j then fst c - elt (columnBase t) (Z.of_nat j - 1) - elt (columnSize t) (Z.of_nat j - 1) else ST_GUARD_SIZE.
Definition unused_after (j : nat) (c : column) : Z :=
  if Z.of_nat j <? columnsCount t - 1 then elt (columnBase t) (Z.of_nat j + 1) - fst c - snd c else ST_GUARD_SIZE.

Lemma column_order i j c d : (i <= j)%nat -> cols !! i = Some c -> cols !! j = Some d -> fst c + snd c <= fst d + snd d /\ fst c <= fst d.
Proof.
  intros Hij Hi Hj. assert (Hc := tk_cols _ _ _ _ _ Hok). destruct (Nat.eq_dec i j) as [->|Hne]; [rewrite Hi in Hj; injection Hj as <-; lia|].
  assert (H := co_order _ _ _ Hc i j c d ltac:(lia) Hi Hj). destruct (co_pos _ _ _ Hc _ _ Hi), (co_pos _ _ _ Hc _ _ Hj).
  assert (Hg := gap_nonneg DEBUGI). lia.
Qed.

Lemma before_outside p j c : DEBUGI = true -> cols !! j = Some c ->
  0 <= unused_before j c /\ - ST_GUARD_SIZE <= fst c - unused_before j c
  /\ forall x, p + fst c - unused_before j c <= x < p + fst c -> outside_columns cols p 0 x.
Proof.
  intros Hd Hj. assert (Hc := tk_cols _ _ _ _ _ Hok). assert (Hgap : gap DEBUGI = 8) by (unfold gap; by rewrite Hd).
  destruct (co_pos _ _ _ Hc j c Hj) as [P1 P2]. unfold unused_before, ST_GUARD_SIZE. destruct (Z.ltb_spec 0 (Z.of_nat j)) as [H|H].
  - destruct (lookup_lt_is_Some_2 cols (j - 1)%nat) as [b Hb]; [apply lookup_lt_Some in Hj; lia|].
    destruct (co_arrays _ _ _ Hc Hd (j - 1)%nat b Hb) as [E1 E2].
    replace (Z.of_nat j - 1) with (Z.of_nat (j - 1)) by lia. rewrite E1, E2.
    assert (Hord := co_order _ _ _ Hc (j - 1)%nat j b c ltac:(lia) Hb Hj). destruct (co_pos _ _ _ Hc _ _ Hb) as [Q1 Q2].
    split; [lia|]. split; [lia|]. intros x Hx i d _ Hi. destruct (Nat.lt_ge_cases i j) as [H'|H'].
    + destruct (column_order i (j - 1)%nat d b ltac:(lia) Hi Hb). lia.
    + destruct (column_order j i c d H' Hj Hi). lia.
  - assert (j = 0%nat) as -> by lia. assert (E0 := co_first _ _ _ Hc c Hj).
    split; [lia|]. split; [lia|]. intros x Hx i d _ Hi. destruct (co_pos _ _ _ Hc _ _ Hi). lia.
Qed.

Lemma after_outside p j c lst : DEBUGI = true -> cols !! j = Some c -> cols !! (length cols - 1)%nat = Some lst ->
  0 <= unused_after j c /\ fst c + snd c + unused_after j c <= fst lst + snd lst + ST_GUARD_SIZE
  /\ forall x, p + fst c + snd c <= x < p + fst c + snd c + unused_after j c -> outside_columns cols p 0 x.
Proof.
  intros Hd Hj Hl. assert (Hc := tk_cols _ _ _ _ _ Hok). assert (Hgap : gap DEBUGI = 8) by (unfold gap; by rewrite Hd).
  assert (Hlt := lookup_lt_Some _ _ _ Hj). unfold unused_after, ST_GUARD_SIZE. rewrite (co_count _ _ _ Hc).
  destruct (Z.ltb_spec (Z.of_nat j) (Z.of_nat (length cols) - 1)) as [H|H].
  - destruct (lookup_lt_is_Some_2 cols (S j)) as [b Hb]; [lia|]. destruct (co_arrays _ _ _ Hc Hd (S j) b Hb) as [E1 E2].
    replace (Z.of_nat j + 1) with (Z.of_nat (S j)) by lia. rewrite E1.
    assert (Hord := co_order _ _ _ Hc j (S j) c b ltac:(lia) Hj Hb). destruct (co_pos _ _ _ Hc _ _ Hb) as [Q1 Q2].
    destruct (column_order (S j) (length cols - 1) b lst ltac:(lia) Hb Hl).
    split; [lia|]. split; [lia|]. intros x Hx i d _ Hi. destruct (Nat.le_gt_cases i j) as [H'|H'].
    + destruct (column_order i j d c H' Hi Hj). lia.
    + destruct (column_order (S j) i b d H' Hb Hi). lia.
  - assert (E : j = (length cols - 1)%nat) by lia. rewrite <- E, Hj in Hl. injection Hl as <-.
    split; [lia|]. split; [lia|]. intros x Hx i d _ Hi. assert (Hlt' := lookup_lt_Some _ _ _ Hi).
    destruct (column_order i j d c ltac:(lia) Hi Hj). lia.
Qed.

(** The guards around a cell are guards of its row. *)
Lemma cell_guards_ok r j c : DEBUGI = true -> 0 <= r < rowsCount t -> cols !! j = Some c -> 0 < snd c ->
  regions_in m (cell_guards DEBUGI t r (ticket_of j c))
  /\ forall x, covers (cell_guards DEBUGI t r (ticket_of j c)) x = true -> covers (row_guards t r) x = true.
Proof.
  intros Hd Hr Hj Hs. destruct (last_exists cols (tk_some _ _ _ _ _ Hok)) as [lst Hl].
  assert (Hc := tk_cols _ _ _ _ _ Hok).
  destruct (row_guards_spec DEBUGI t cols lst r Hd Hc Hl) as [Hrow _].
  unfold cell_guards. rewrite (column_info j c false Hj Hs). rewrite (if_false (negb DEBUGI)) by (by rewrite Hd).
  fold (unused_before j c) (unused_after j c).
  destruct (ticket_fields j c Hj) as [-> _]. set (p := base t + stride t * r) in *.
  destruct (before_outside p j c Hd Hj) as (A1 & A2 & A3), (after_outside p j c lst Hd Hj Hl) as (B1 & B2 & B3).
  destruct (column_order j (length cols - 1) c lst) as [Hlast _]; [apply lookup_lt_Some in Hj; lia|done|done|].
  destruct (co_pos _ _ _ Hc j c Hj) as [P1 P2]. assert (Hgap : gap DEBUGI = 8) by (unfold gap; by rewrite Hd).
  set (pre := unused_before j c) in *. set (post := unused_after j c) in *. clearbody pre post. unfold ST_GUARD_SIZE in *. split.
  - destruct mem_aligned as [M1 M2]. destruct (row_bounds _ _ _ _ _ Hok r Hr) as (R1 & R2 & R3).
    assert (Hend := co_end _ _ _ Hc _ _ Hl). destruct (header_size_spec (rowsCount t) (tk_rows _ _ _ _ _ Hok)) as (C1 & _ & C3).
    fold p in R1, R2. unfold regions_in, region_in, region. repeat constructor; cbn;
      repeat match goal with |- context [0 <? ?z] => destruct (Z.ltb_spec 0 z) end; repeat split; try done; lia.
  - intros x Hx. rewrite Hrow. rewrite !covers_cons, !orb_true_iff, in_region_neg, in_region_pos in Hx by done.
    destruct Hx as [Hx|[Hx|Hx]]; [| |done].
    + split; [lia|by apply A3].
    + split; [lia|by apply B3].
Qed.

Lemma validate_cell r j c : 0 <= r < rowsCount t -> cols !! j = Some c -> 0 < snd c ->
  ValidateGuardMemory DEBUGI (cell_guard r (ticket_of j c)) t = Done tt t.
Proof.
  intros Hr Hj Hs. unfold ValidateGuardMemory. debug_cases Hd DEBUGI.
  unfold with_mem, wu_bind, wu_get, lift, guards, valid_row. rewrite (tk_mem _ _ _ _ _ Hok).
  rewrite (proj2 (Z.leb_le 0 r)), (proj2 (Z.ltb_lt r (rowsCount t))) by lia. cbn [andb].
  destruct (cell_guards_ok r j c Hd Hr Hj Hs) as [H1 H2].
  rewrite check_regions_true; [done|apply (tk_bytes _ _ _ _ _ Hok)|done|].
  intros x Hx. apply (tk_guards _ _ _ _ _ Hok Hd r); [lia|by apply H2].
Qed.

End Guards.
End Ops.
