(* ===== verification/StBits.v ===== *)
(** * Rows of the table of client states

    The bitmap of vacant rows and the operations of
    src/kernel/sm/wu/wustatetable.cpp on rows and cells. *)

From Stdlib Require Import ZArith List Lia Bool.
From stdpp Require Import base list.
From S2P Require Import Prelude WuBase WuAux StGuard StateTable StLayout StRows StOps.
Local Open Scope sedna_scope.
Local Open Scope Z_scope.

(** ** Bits *)

Lemma land_31 r : Z.land r 31 = r mod 32.
Proof. change 31 with (Z.ones 5). by rewrite Z.land_ones by lia. Qed.

Lemma land_pow2 w k : 0 <= k -> (Z.land w (2 ^ k) =? 0) = negb (Z.testbit w k).
Proof.
  intros Hk. destruct (Z.testbit w k) eqn:E; cbn.
  - apply Z.eqb_neq. intros H. assert (H1 : Z.testbit (Z.land w (2 ^ k)) k = false) by (by rewrite H, Z.bits_0).
    rewrite Z.land_spec, E, Z.pow2_bits_true in H1 by lia. done.
  - apply Z.eqb_eq. apply Z.bits_inj'. intros i Hi. rewrite Z.land_spec, Z.bits_0, Z.pow2_bits_eqb by lia.
    destruct (Z.eqb_spec k i) as [<-|]; [by rewrite E|apply andb_false_r].
Qed.

(** [(1<<k)&31]: the mask of a bit below 5, nothing otherwise. *)
Lemma low_mask w k : 0 <= k ->
  (Z.land w (Z.land (2 ^ k) 31) =? 0) = negb (Z.testbit w k && (k <? 5)).
Proof.
  intros Hk. destruct (Z.ltb_spec k 5) as [H|H].
  - assert (E : Z.land (2 ^ k) 31 = 2 ^ k).
    { change 31 with (Z.ones 5). rewrite Z.land_ones by lia. apply Z.mod_small. split; [lia|]. apply Z.pow_lt_mono_r; lia. }
    rewrite E, land_pow2 by lia. by rewrite andb_true_r.
  - assert (E : Z.land (2 ^ k) 31 = 0).
    { apply Z.bits_inj'. intros i Hi. rewrite Z.land_spec, Z.bits_0, Z.pow2_bits_eqb by lia.
      destruct (Z.eqb_spec k i) as [<-|]; [|done]. change 31 with (Z.ones 5). by rewrite Z.ones_spec_high by lia. }
    rewrite E, Z.land_0_r. by rewrite andb_false_r.
Qed.

Lemma set_bit_spec w k i : 0 <= k -> 0 <= i -> Z.testbit (Z.lor w (2 ^ k)) i = (i =? k) || Z.testbit w i.
Proof.
  intros Hk Hi. rewrite Z.lor_spec, Z.pow2_bits_eqb, (Z.eqb_sym k i) by lia. apply orb_comm.
Qed.

Lemma clear_bit_spec w k i : 0 <= k -> 0 <= i ->
  Z.testbit (Z.land w (Z.lnot (2 ^ k))) i = negb (i =? k) && Z.testbit w i.
Proof.
  intros Hk Hi. rewrite Z.land_spec, Z.lnot_spec, Z.pow2_bits_eqb, (Z.eqb_sym k i) by lia. apply andb_comm.
Qed.

Lemma set_bit_word w k : is_word w -> 0 <= k < 32 -> is_word (Z.lor w (2 ^ k)).
Proof.
  intros Hw Hk. apply word_from_bits.
  - apply Z.lor_nonneg. destruct Hw. split; [lia|]. apply Z.pow_nonneg. lia.
  - intros i Hi. rewrite set_bit_spec, (word_bits_high w i Hw) by lia. rewrite (proj2 (Z.eqb_neq i k)) by lia. done.
Qed.

Lemma clear_bit_word w k : is_word w -> 0 <= k -> is_word (Z.land w (Z.lnot (2 ^ k))).
Proof.
  intros Hw Hk. apply word_from_bits.
  - apply Z.land_nonneg. left. apply Hw.
  - intros i Hi. rewrite clear_bit_spec, (word_bits_high w i Hw) by lia. apply andb_false_r.
Qed.

(** ** Changes of the memory of a table *)

Section Bits.
Context (DEBUGI : bool).
Abbreviation column := (Z * Z)%type.

(** [vac] with another value for one row. *)
Definition put_vac (vac : Z -> bool) (r : Z) (b : bool) (x : Z) : bool := if x =? r then b else vac x.

Section Changes.
Context (t : StateTable) (cols : list column) (m : memory) (vac : Z -> bool) (Hok : table_ok DEBUGI t cols m vac).

(** A change that leaves the guards alone. *)
Lemma table_update m' f vac' :
  updated m m' f -> (forall x b, f x = Some b -> 0 <= b < 256) ->
  (DEBUGI = true -> forall r x, 0 <= r < rowsCount t -> covers (row_guards t r) x = true ->
     f x = None \/ f x = Some (pattern_at ST_GUARD_FILL x)) ->
  bitmap_is m' (bitmap_words (rowsCount t)) vac' ->
  (forall r, rowsCount t <= r < 32 * bitmap_words (rowsCount t) -> vac' r = true) ->
  table_ok DEBUGI (set_mem m' t) cols m' vac'.
Proof.
  intros U Hf Hg Hb Hp. split; try done; cbn [rowsCount base stride rowSize mem set_mem].
  - destruct (tk_cols _ _ _ _ _ Hok). by split.
  - apply (tk_some _ _ _ _ _ Hok).
  - apply (tk_rows _ _ _ _ _ Hok).
  - apply (updated_bytes m m' f Hf (tk_bytes _ _ _ _ _ Hok) U).
  - rewrite (up_addr _ _ _ U). apply (tk_addr _ _ _ _ _ Hok).
  - rewrite (up_addr _ _ _ U). apply (tk_base _ _ _ _ _ Hok).
  - apply (tk_stride _ _ _ _ _ Hok).
  - unfold m_end. rewrite (up_addr _ _ _ U), (up_len _ _ _ U). apply (tk_end _ _ _ _ _ Hok).
  - intros Hd r x Hr. rewrite row_guards_set_mem. intros Hc.
    assert (Hx := tk_guards _ _ _ _ _ Hok Hd r x Hr Hc). rewrite (up_get _ _ _ U) by (by apply (get_Some_in m x _ Hx)).
    destruct (Hg Hd r x Hr Hc) as [->| ->]; done.
Qed.

Lemma bitmap_update m' f : updated m m' f ->
  (forall x, m_addr m <= x < m_addr m + 4 * bitmap_words (rowsCount t) -> f x = None) ->
  bitmap_is m' (bitmap_words (rowsCount t)) vac.
Proof.
  intros U Hf i Hi. destruct (tk_bits _ _ _ _ _ Hok i Hi) as (w & E & H). exists w.
  split; [|done]. rewrite (up_addr _ _ _ U), (load_updated m m' f); [done| |done]. intros k Hk. apply Hf. lia.
Qed.

(** The guards are behind the header. *)
Lemma guard_behind_header r x : DEBUGI = true -> 0 <= r < rowsCount t -> covers (row_guards t r) x = true ->
  m_addr m + 4 * bitmap_words (rowsCount t) <= x.
Proof.
  intros Hd Hr Hc. destruct (guard_byte _ _ _ _ _ Hok r x Hd Hr Hc) as [H _].
  destruct (row_bounds _ _ _ _ _ Hok r Hr) as (B & _). assert (Hh := header_bounds _ _ _ _ _ Hok).
  unfold gap, ST_GUARD_SIZE in B. rewrite Hd in B. lia.
Qed.

Lemma word_in_mem i : 0 <= i < bitmap_words (rowsCount t) ->
  m_addr m <= m_addr m + 4 * i /\ m_addr m + 4 * i + 4 <= m_end m.
Proof.
  intros Hi. assert (Hh := header_bounds _ _ _ _ _ Hok). rewrite (tk_end _ _ _ _ _ Hok).
  destruct (tk_stride _ _ _ _ _ Hok) as (_ & _ & Hs). assert (Hr := tk_rows _ _ _ _ _ Hok). nia.
Qed.

(** A store into a word of the bitmap. *)
Lemma store_bits i v vac' : 0 <= i < bitmap_words (rowsCount t) -> is_word v ->
  (forall k, 0 <= k < 32 -> Z.testbit v k = vac' (32 * i + k)) ->
  (forall r, 0 <= r -> r / 32 <> i -> vac' r = vac r) ->
  (forall r, rowsCount t <= r < 32 * bitmap_words (rowsCount t) -> vac' r = true) ->
  exists m', store32 m (m_addr m + 4 * i) v = Ok m'
    /\ updated m m' (store_bytes (m_addr m + 4 * i) v)
    /\ table_ok DEBUGI (set_mem m' t) cols m' vac'.
Proof.
  intros Hi Hv Hb Ho Hp. destruct (word_in_mem i Hi) as [W1 W2].
  destruct (store32_Ok m (m_addr m + 4 * i) v W1 W2) as (m' & E & U). exists m'. split; [done|]. split; [done|].
  apply (table_update m' _ vac' U).
  - intros x b. apply store_bytes_range.
  - intros Hd r x Hr Hc. left. assert (H := guard_behind_header r x Hd Hr Hc). unfold store_bytes.
    rewrite (proj2 (Z.ltb_ge x (m_addr m + 4 * i + 4))) by lia. by rewrite andb_false_r.
  - intros j Hj. rewrite (up_addr _ _ _ U). destruct (Z.eq_dec j i) as [->|Hn].
    + exists v. by rewrite (load_after_store m _ v m' Hv E).
    + destruct (tk_bits _ _ _ _ _ Hok j Hj) as (w & Ew & Hw & Hbits). exists w. split; [|split; [done|]].
      * rewrite (load_updated m m' _ _) with (2 := U); [done|]. intros k Hk. unfold store_bytes.
        destruct (Z.leb_spec (m_addr m + 4 * i) (m_addr m + 4 * j + k)), (Z.ltb_spec (m_addr m + 4 * j + k) (m_addr m + 4 * i + 4)); cbn; lia || done.
      * intros k Hk. rewrite Hbits by lia. symmetry. apply Ho; [lia|]. Z.div_mod_to_equations; lia.
  - done.
Qed.

(** ** Rows *)

Lemma row_word r : 0 <= r < rowsCount t -> 0 <= r / 32 < bitmap_words (rowsCount t)
  /\ exists w, load32 m (m_addr m + 4 * (r / 32)) = Ok w /\ is_word w
    /\ (forall k, 0 <= k < 32 -> Z.testbit w k = vac (32 * (r / 32) + k)) /\ Z.testbit w (r mod 32) = vac r.
Proof.
  intros Hr. assert (Hi : 0 <= r / 32 < bitmap_words (rowsCount t)) by (unfold bitmap_words; Z.div_mod_to_equations; lia).
  split; [done|]. destruct (tk_bits _ _ _ _ _ Hok _ Hi) as (w & E & Hw & Hb). exists w.
  split; [done|]. split; [done|]. split; [done|]. rewrite Hb by (Z.div_mod_to_equations; lia).
  f_equal. Z.div_mod_to_equations; lia.
Qed.

Lemma row_in_range r : (r <? 0) || (rowsCount t <=? r) = negb (valid_row t r).
Proof. unfold valid_row. destruct (Z.ltb_spec r 0), (Z.leb_spec 0 r), (Z.leb_spec (rowsCount t) r), (Z.ltb_spec r (rowsCount t)); lia || done. Qed.

Lemma valid_row_iff r : valid_row t r = true <-> 0 <= r < rowsCount t.
Proof. unfold valid_row. rewrite andb_true_iff, Z.leb_le, Z.ltb_lt. lia. Qed.

Lemma is_vacant_ok r : IsStateTableRowVacant DEBUGI r t =
  if valid_row t r then Done (vac r) t else Failed WUERR_STATE_TABLE_BAD_ROW_ID t.
Proof.
  unfold IsStateTableRowVacant. unfold wu_bind at 1, wu_get at 1. rewrite row_in_range.
  destruct (valid_row t r) eqn:Hr; [|done]. cbn [negb]. apply valid_row_iff in Hr.
  unfold wu_bind at 1. rewrite (validate_row _ _ _ _ _ Hok r Hr). unfold with_mem. rewrite (tk_mem _ _ _ _ _ Hok).
  destruct (row_word r Hr) as (Hi & w & E & Hw & _ & Hb). unfold wu_bind, load_word, lift. rewrite E.
  rewrite land_31, Z.shiftl_1_l, land_pow2, negb_involutive, Hb by (apply Z.mod_pos_bound; lia). done.
Qed.

(** On a machine that shifts by the count modulo 32. *)
Context (wide_shift : Z -> Z) (Hshift : forall n, 32 <= n -> wide_shift n = 2 ^ (n mod 32)).

Lemma shift1_spec n : 0 <= n -> shift1 wide_shift n = 2 ^ (n mod 32).
Proof.
  intros Hn. unfold shift1. destruct (Z.ltb_spec n 32).
  - by rewrite Z.shiftl_1_l, Z.mod_small by lia.
  - by apply Hshift.
Qed.

(** The test of a row number refuses a vacant row only if it is one of the
    first five of a word. *)
Lemma is_valid_ok r : IsValidStateTableRowId wide_shift r t =
  if valid_row t r && negb (vac r && (r mod 32 <? 5)) then Done tt t else Failed WUERR_STATE_TABLE_BAD_ROW_ID t.
Proof.
  unfold IsValidStateTableRowId. unfold wu_bind at 1, wu_get at 1. rewrite row_in_range.
  destruct (valid_row t r) eqn:Hr; [|done]. cbn [negb andb]. apply valid_row_iff in Hr.
  unfold with_mem. rewrite (tk_mem _ _ _ _ _ Hok). destruct (row_word r Hr) as (Hi & w & E & Hw & _ & Hb).
  unfold wu_bind, load_word, lift. rewrite E. assert (Hm : 0 <= r mod 32) by (apply Z.mod_pos_bound; lia).
  rewrite shift1_spec, low_mask, negb_involutive, Hb by lia. by destruct (vac r && (r mod 32 <? 5)).
Qed.

Lemma get_cell_ok r j c : cols !! j = Some c -> 0 < snd c ->
  GetStateTableCell DEBUGI wide_shift (ticket_of j c) r t =
  if valid_row t r && negb (vac r && (r mod 32 <? 5))
  then Done (base t + stride t * r + fst c) t else Failed WUERR_STATE_TABLE_BAD_ROW_ID t.
Proof.
  intros Hj Hs. unfold GetStateTableCell. unfold wu_bind at 1, wu_get at 1. unfold wu_bind at 1, lift, ValidateTicket.
  rewrite (column_info _ _ _ _ _ Hok j c true Hj Hs). cbn [bind_res]. unfold wu_bind at 1. rewrite is_valid_ok.
  destruct (valid_row t r) eqn:Hr; [|done]. cbn [andb]. destruct (negb (vac r && (r mod 32 <? 5))); [|done].
  apply valid_row_iff in Hr. unfold wu_bind. rewrite (validate_cell _ _ _ _ _ Hok r j c Hr Hj Hs).
  unfold wu_ret, cell_address. destruct (ticket_fields _ _ _ _ _ Hok j c Hj) as [-> _]. f_equal. lia.
Qed.

(** ** Occupying and vacating a row *)

(** The bytes behind the bitmap are the same. *)
Definition rows_kept (m' : memory) : Prop :=
  forall x, m_addr m + 4 * bitmap_words (rowsCount t) <= x -> get m' x = get m x.

Lemma stored_kept i v m' : 0 <= i < bitmap_words (rowsCount t) ->
  updated m m' (store_bytes (m_addr m + 4 * i) v) -> rows_kept m'.
Proof.
  intros Hi U x Hx. destruct (decide (m_addr m <= x < m_end m)) as [H|H].
  - rewrite (up_get _ _ _ U x H). unfold store_bytes. rewrite (proj2 (Z.ltb_ge x (m_addr m + 4 * i + 4))) by lia.
    by rewrite andb_false_r.
  - rewrite !get_out; [done|done|]. by rewrite (updated_in _ _ _ _ U).
Qed.

Lemma pow_bit r : 0 <= r -> Z.shiftl 1 (Z.land r 31) = 2 ^ (r mod 32).
Proof. intros Hr. by rewrite land_31, Z.shiftl_1_l. Qed.

Lemma div_split r i k : 0 <= k < 32 -> (32 * i + k =? r) = (i =? r / 32) && (k =? r mod 32).
Proof.
  intros Hk. destruct (Z.eqb_spec (32 * i + k) r), (Z.eqb_spec i (r / 32)), (Z.eqb_spec k (r mod 32)); cbn;
    try done; exfalso; Z.div_mod_to_equations; lia.
Qed.

(** The bitmap with one bit changed. *)
Lemma change_bit r b w v : 0 <= r < rowsCount t ->
  load32 m (m_addr m + 4 * (r / 32)) = Ok w ->
  (forall k, 0 <= k < 32 -> Z.testbit v k = if k =? r mod 32 then b else Z.testbit w k) -> is_word v ->
  exists m', store32 m (m_addr m + 4 * (r / 32)) v = Ok m' /\ rows_kept m'
    /\ table_ok DEBUGI (set_mem m' t) cols m' (put_vac vac r b).
Proof.
  intros Hr Hw Hb Hv. destruct (row_word r Hr) as (Hi & w' & E & _ & Hbits & _). rewrite Hw in E. injection E as <-.
  destruct (store_bits (r / 32) v (put_vac vac r b) Hi Hv) as (m' & E & U & Hok').
  - intros k Hk. rewrite Hb, Hbits by done. unfold put_vac. rewrite div_split, Z.eqb_refl by done. done.
  - intros x Hx Hne. unfold put_vac. destruct (Z.eqb_spec x r) as [->|]; [done|done].
  - intros x Hx. unfold put_vac. destruct (Z.eqb_spec x r) as [->|]; [lia|]. by apply (tk_padding _ _ _ _ _ Hok).
  - exists m'. split; [done|]. split; [|done]. by apply (stored_kept (r / 32) v).
Qed.

Lemma occupy_ok r : 0 <= r < rowsCount t ->
  exists m', SetStateTableIsVacantRowFlag DEBUGI r false t = Done tt (set_mem m' t) /\ rows_kept m'
    /\ table_ok DEBUGI (set_mem m' t) cols m' (put_vac vac r false).
Proof.
  intros Hr. unfold SetStateTableIsVacantRowFlag. unfold wu_bind at 1, wu_get at 1. rewrite row_in_range.
  rewrite (proj2 (valid_row_iff r) Hr). cbn [negb]. unfold wu_bind at 1. rewrite (validate_row _ _ _ _ _ Hok r Hr).
  unfold with_mem. rewrite (tk_mem _ _ _ _ _ Hok).
  destruct (row_word r Hr) as (Hi & w & E & Hw & Hbits & _). unfold wu_bind at 1, load_word, lift. rewrite E.
  assert (Hm : 0 <= r mod 32 < 32) by (apply Z.mod_pos_bound; lia).
  destruct (change_bit r false w (Z.land w (Z.lnot (2 ^ (r mod 32)))) Hr E) as (m' & E' & Hk & Hok').
  - intros k Hk. rewrite clear_bit_spec by lia. by destruct (k =? r mod 32).
  - apply clear_bit_word; [done|lia].
  - exists m'. rewrite pow_bit by lia. unfold store_word, wu_bind, lift. rewrite E'. done.
Qed.

(** A cleared row: zeros with the guards. *)
Definition cleared (r x : Z) : option Z :=
  let p := base t + stride t * r in
  if DEBUGI && covers (row_guards t r) x then Some (pattern_at ST_GUARD_FILL x)
  else if (p <=? x) && (x <? p + rowSize t) then Some 0 else None.

Lemma clear_row r : 0 <= r < rowsCount t ->
  exists m', (do! _ <- with_mem (fun mm =>
      do! mm <- lift (memset mm (base t + stride t * r) 0 (rowSize t)); wu_modify (set_mem mm));
      InitGuardMemory DEBUGI (row_guard r)) t = Done tt (set_mem m' t)
    /\ updated m m' (cleared r).
Proof.
  intros Hr. destruct (row_bounds _ _ _ _ _ Hok r Hr) as (B1 & B2 & B3). assert (Hh := header_bounds _ _ _ _ _ Hok).
  assert (Hg := gap_nonneg DEBUGI). assert (Hg' := gap_le DEBUGI). destruct (co_row _ _ _ (tk_cols _ _ _ _ _ Hok)) as [R1 R2].
  assert (Hw : 0 <= bitmap_words (rowsCount t)) by (unfold bitmap_words; apply Z.div_pos; lia).
  destruct (memset_ok m (base t + stride t * r) 0 (rowSize t)) as (m1 & E1 & U1); [lia|lia|lia|].
  unfold wu_bind at 1, with_mem at 1. rewrite (tk_mem _ _ _ _ _ Hok). unfold wu_bind at 1, lift at 1. rewrite E1.
  unfold wu_modify at 1. unfold InitGuardMemory. debug_cases Hd DEBUGI.
  - unfold with_mem. cbn [mem set_mem]. unfold wu_bind, wu_get, lift, guards. cbn [valid_row rowsCount set_mem].
    change (valid_row (set_mem m1 t) r) with (valid_row t r). rewrite (proj2 (valid_row_iff r) Hr), row_guards_set_mem.
    assert (Hb1 : bytes_ok m1).
    { eapply updated_bytes; [|exact (tk_bytes _ _ _ _ _ Hok)|exact U1]. intros x b. cbn. destruct (_ && _); [|done]. intros [= <-]. lia. }
    destruct (init_regions_ok (row_guards t r) m1 Hb1) as (m2 & E2 & U2).
    { apply (regions_updated m m1 _ _ U1). by apply (row_regions _ _ _ _ _ Hok). }
    rewrite E2. exists m2. split; [done|]. eapply updated_ext; [|exact (updated_trans _ _ _ _ _ U1 U2)].
    intros x _. cbn beta. unfold cleared, covered_bytes. rewrite Hd. cbn [andb]. by destruct (covers (row_guards t r) x).
  - exists m1. split; [done|]. eapply updated_ext; [|exact U1]. intros x _. unfold cleared. by rewrite Hd.
Qed.

Lemma cleared_header r x : 0 <= r < rowsCount t -> x < m_addr m + 4 * bitmap_words (rowsCount t) -> cleared r x = None.
Proof.
  intros Hr Hx. unfold cleared. destruct (row_bounds _ _ _ _ _ Hok r Hr) as (B1 & _ & _).
  assert (Hh := header_bounds _ _ _ _ _ Hok). assert (Hg := gap_nonneg DEBUGI).
  rewrite (proj2 (Z.leb_gt (base t + stride t * r) x)) by lia. cbn [andb].
  destruct (DEBUGI && covers (row_guards t r) x) eqn:E; [|done].
  apply andb_true_iff in E as [Hd Hc]. assert (H := guard_behind_header r x Hd Hr Hc). lia.
Qed.

Lemma cleared_guards r r' x : DEBUGI = true -> 0 <= r < rowsCount t -> 0 <= r' < rowsCount t ->
  covers (row_guards t r') x = true -> cleared r x = None \/ cleared r x = Some (pattern_at ST_GUARD_FILL x).
Proof.
  intros Hd Hr Hr' Hc. unfold cleared. rewrite Hd. cbn [andb]. destruct (covers (row_guards t r) x) eqn:E; [by right|].
  left. assert (Hne : r <> r') by congruence. destruct (guard_byte _ _ _ _ _ Hok r' x Hd Hr' Hc) as [H _].
  destruct (row_bounds _ _ _ _ _ Hok r Hr) as (_ & B & _). destruct (row_bounds _ _ _ _ _ Hok r' Hr') as (_ & B' & _).
  unfold gap, ST_GUARD_SIZE in B, B'. rewrite Hd in B, B'.
  destruct (Z.leb_spec (base t + stride t * r) x), (Z.ltb_spec x (base t + stride t * r + rowSize t)); try done.
  destruct (Z.lt_ge_cases r r') as [Hl|Hl].
  - assert (Ho := row_order _ _ _ _ _ Hok r r' Hl). lia.
  - assert (Ho := row_order _ _ _ _ _ Hok r' r ltac:(lia)). lia.
Qed.

Lemma cleared_cell r r' j c x : 0 <= r < rowsCount t -> 0 <= r' < rowsCount t -> cols !! j = Some c ->
  base t + stride t * r' + fst c <= x < base t + stride t * r' + fst c + snd c ->
  cleared r x = if r' =? r then Some 0 else None.
Proof.
  intros Hr Hr' Hj Hx. unfold cleared.
  rewrite (if_false (DEBUGI && covers (row_guards t r) x)).
  2: { destruct (sumbool_of_bool DEBUGI) as [Hd|Hd]; rewrite Hd; [|done]. cbn [andb].
       by apply (cell_unguarded _ _ _ _ _ Hok r' j c x r Hd Hr' Hr Hj Hx). }
  destruct (cell_byte _ _ _ _ _ Hok r' j c x Hr' Hj Hx) as (_ & _ & C1 & C2). assert (Hg := gap_nonneg DEBUGI).
  destruct (row_bounds _ _ _ _ _ Hok r Hr) as (_ & B & _). destruct (row_bounds _ _ _ _ _ Hok r' Hr') as (_ & B' & _).
  destruct (Z.eqb_spec r' r) as [->|Hne].
  - rewrite (proj2 (Z.leb_le (base t + stride t * r) x)), (proj2 (Z.ltb_lt x (base t + stride t * r + rowSize t))) by lia. done.
  - destruct (Z.leb_spec (base t + stride t * r) x), (Z.ltb_spec x (base t + stride t * r + rowSize t)); try done.
    destruct (Z.lt_ge_cases r r') as [Hl|Hl].
    + assert (Ho := row_order _ _ _ _ _ Hok r r' Hl). lia.
    + assert (Ho := row_order _ _ _ _ _ Hok r' r ltac:(lia)). lia.
Qed.

Lemma cleared_range r x b : cleared r x = Some b -> 0 <= b < 256.
Proof.
  unfold cleared. destruct (DEBUGI && covers (row_guards t r) x); [intros [= <-]; apply byte_of_range|].
  destruct (_ && _); [|done]. intros [= <-]. lia.
Qed.

End Changes.

(** The cells of a row are zero, the other cells are the same. *)
Definition row_zeroed (t : StateTable) (cols : list column) (m m' : memory) (r : Z) : Prop :=
  forall r' j c x, 0 <= r' < rowsCount t -> cols !! j = Some c ->
    base t + stride t * r' + fst c <= x < base t + stride t * r' + fst c + snd c ->
    get m' x = if r' =? r then Some 0 else get m x.

Lemma vacate_ok t cols m vac r : table_ok DEBUGI t cols m vac -> 0 <= r < rowsCount t ->
  exists m', SetStateTableIsVacantRowFlag DEBUGI r true t = Done tt (set_mem m' t)
    /\ row_zeroed t cols m m' r
    /\ table_ok DEBUGI (set_mem m' t) cols m' (put_vac vac r true).
Proof.
  intros Hok Hr. unfold SetStateTableIsVacantRowFlag. unfold wu_bind at 1, wu_get at 1. rewrite row_in_range.
  rewrite (proj2 (valid_row_iff t r) Hr). cbn [negb]. unfold wu_bind at 1. rewrite (validate_row _ _ _ _ _ Hok r Hr).
  destruct (clear_row t cols m vac Hok r Hr) as (m1 & E1 & U1).
  cbv zeta. rewrite <- wu_bind_assoc.
  unfold wu_bind at 1. rewrite E1.
  assert (Hok1 : table_ok DEBUGI (set_mem m1 t) cols m1 vac).
  { apply (table_update t cols m vac Hok m1 _ vac U1).
    - intros x b. apply cleared_range.
    - intros Hd r' x Hr' Hc. by apply (cleared_guards t cols m vac Hok r r').
    - apply (bitmap_update t cols m vac Hok m1 _ U1). intros x Hx. apply (cleared_header t cols m vac Hok r x Hr). lia.
    - apply (tk_padding _ _ _ _ _ Hok). }
  assert (Hm : 0 <= r mod 32 < 32) by (apply Z.mod_pos_bound; lia).
  destruct (row_word _ _ _ _ Hok1 r Hr) as (Hi & w & E & Hw & _).
  destruct (change_bit (set_mem m1 t) cols m1 vac Hok1 r true w (Z.lor w (2 ^ (r mod 32))) Hr E) as (m2 & E2 & Hk & Hok2).
  - intros k Hk. rewrite set_bit_spec by lia. by destruct (k =? r mod 32).
  - by apply set_bit_word.
  - exists m2. unfold with_mem. cbn [mem set_mem]. unfold wu_bind at 1, load_word, lift. rewrite E, pow_bit by lia.
    unfold store_word, wu_bind, lift. rewrite E2. split; [done|]. split; [|done].
    intros r' j c x Hr' Hj Hx. destruct (cell_byte _ _ _ _ _ Hok r' j c x Hr' Hj Hx) as (Hin & Hx' & _).
    assert (Hh := header_bounds _ _ _ _ _ Hok). assert (Hg := gap_nonneg DEBUGI).
    rewrite Hk by (rewrite (up_addr _ _ _ U1); cbn [rowsCount set_mem]; lia).
    rewrite (up_get _ _ _ U1 x Hin), (cleared_cell t cols m vac Hok r r' j c x Hr Hr' Hj Hx). by destruct (r' =? r).
Qed.

End Bits.
