(* ===== verification/StFind.v ===== *)
(** * Creation of the rows and the search for a vacant one

    [CreateStateTableRows] and [OccupyStateTableFirstVacantRow] of
    src/kernel/sm/wu/wustatetable.cpp. *)

From Stdlib Require Import ZArith List Lia Bool.
From stdpp Require Import base list.
From S2P Require Import Prelude WuBase WuAux StGuard StateTable StLayout StRows StOps StBits.
Local Open Scope sedna_scope.
Local Open Scope Z_scope.

(** ** Masks of the search *)

Lemma ones32_bits k : 0 <= k -> Z.testbit 0xffffffff k = (k <? 32).
Proof.
  intros Hk. change 0xffffffff with (Z.ones 32). destruct (Z.ltb_spec k 32).
  - by apply Z.ones_spec_low.
  - by apply Z.ones_spec_high.
Qed.

Lemma begin_mask b k : 0 <= b -> 0 <= k < 32 ->
  Z.testbit (u32 (Z.shiftl 0xffffffff (Z.land b 31))) k = (b mod 32 <=? k).
Proof.
  intros Hb Hk. rewrite land_31, u32_bits, Z.shiftl_spec by lia. rewrite (proj2 (Z.ltb_lt k 32)) by lia. cbn [andb].
  assert (Hm := Z.mod_pos_bound b 32 ltac:(lia)). destruct (Z.leb_spec (b mod 32) k).
  - rewrite ones32_bits by lia. apply Z.ltb_lt. lia.
  - by rewrite Z.testbit_neg_r by lia.
Qed.

Lemma end_mask e k : 0 <= k < 32 ->
  Z.testbit (Z.shiftr 0xffffffff (Z.land (32 - e) 31)) k = (k + (32 - e) mod 32 <? 32).
Proof.
  intros Hk. assert (Hm := Z.mod_pos_bound (32 - e) 32 ltac:(lia)).
  rewrite land_31, Z.shiftr_spec, ones32_bits by lia. done.
Qed.

Section Find.
Context (DEBUGI : bool).
Abbreviation column := (Z * Z)%type.
Context (t : StateTable) (cols : list column) (m : memory) (vac : Z -> bool) (Hok : table_ok DEBUGI t cols m vac).

(** What the search knows at the word [i]: the bits of [v] are the vacant rows
    of the word from [b] on, and there is none before. *)
Definition at_word (b i v : Z) : Prop :=
  0 <= v /\ is_word v
  /\ (forall k, 0 <= k < 32 -> Z.testbit v k = vac (32 * i + k) && (b <=? 32 * i + k))
  /\ (forall r, b <= r < 32 * i -> vac r = false).

Lemma at_next b i w : 0 <= i -> b <= 32 * (i + 1) -> at_word b i 0 -> is_word w ->
  (forall k, 0 <= k < 32 -> Z.testbit w k = vac (32 * (i + 1) + k)) -> at_word b (i + 1) w.
Proof.
  intros Hi Hb (_ & _ & Hz & Hbefore) Hw Hbits. split; [apply Hw|]. split; [done|]. split.
  - intros k Hk. rewrite Hbits by done. rewrite (proj2 (Z.leb_le b (32 * (i + 1) + k))) by lia. by rewrite andb_true_r.
  - intros r Hr. destruct (Z.lt_ge_cases r (32 * i)); [apply Hbefore; lia|].
    specialize (Hz (r - 32 * i) ltac:(lia)). rewrite Z.bits_0 in Hz. replace (32 * i + (r - 32 * i)) with r in Hz by lia.
    rewrite (proj2 (Z.leb_le b r)), andb_true_r in Hz by lia. done.
Qed.

Lemma scan_ok b n : forall i v, 0 <= i -> i + Z.of_nat n < bitmap_words (rowsCount t) -> b <= 32 * (i + 1) ->
  at_word b i v ->
  exists i' v', scan_words n m i v = Ok (i', v') /\ at_word b i' v' /\ i <= i' <= i + Z.of_nat n
    /\ (v' <> 0 \/ i' = i + Z.of_nat n).
Proof.
  induction n as [|n IH]; intros i v Hi Hn Hb Hat; cbn [scan_words].
  - exists i, v. split; [done|]. split; [done|]. split; [lia|]. right. lia.
  - destruct (Z.eqb_spec v 0) as [->|Hv].
    + destruct (tk_bits _ _ _ _ _ Hok (i + 1)) as (w & E & Hw & Hbits); [lia|]. rewrite E. cbn [bind_res].
      destruct (IH (i + 1) w) as (i' & v' & E' & Hat' & Hr & Hd); [lia|lia|lia|by apply at_next|].
      exists i', v'. split; [done|]. split; [done|]. split; [lia|]. destruct Hd; [by left|right; lia].
    + exists i, v. split; [done|]. split; [done|]. split; [lia|by left].
Qed.

(** The first word, masked. *)
Lemma first_word b w : 0 <= b -> is_word w ->
  (forall k, 0 <= k < 32 -> Z.testbit w k = vac (32 * (b / 32) + k)) ->
  at_word b (b / 32) (Z.land w (u32 (Z.shiftl 0xffffffff (Z.land b 31)))).
Proof.
  intros Hb Hw Hbits. set (v := Z.land w _).
  assert (Hv : 0 <= v) by (apply Z.land_nonneg; left; apply Hw). split; [done|]. split; [|split].
  - apply word_from_bits; [done|]. intros i Hi. unfold v. by rewrite Z.land_spec, (word_bits_high w i Hw Hi).
  - intros k Hk. unfold v. rewrite Z.land_spec, begin_mask, Hbits by lia. f_equal.
    destruct (Z.leb_spec (b mod 32) k), (Z.leb_spec b (32 * (b / 32) + k)); try done; exfalso; Z.div_mod_to_equations; lia.
  - intros r Hr. Z.div_mod_to_equations; lia.
Qed.

(** [r] is the first vacant row from [b] on. *)
Definition first_vacant (b r : Z) : Prop := b <= r /\ vac r = true /\ forall x, b <= x < r -> vac x = false.

Lemma first_vacant_unique b r r' : first_vacant b r -> first_vacant b r' -> r = r'.
Proof.
  intros (H1 & H2 & H3) (H1' & H2' & H3'). destruct (Z.lt_trichotomy r r') as [H|[H|H]]; [|done|].
  - rewrite H3' in H2 by lia. done.
  - rewrite H3 in H2' by lia. done.
Qed.

(** The lowest bit of a word that has the vacant rows with [P]. *)
Lemma lowest_row (P : Z -> bool) b i v : is_word v -> v <> 0 ->
  (forall k, 0 <= k < 32 -> Z.testbit v k = vac (32 * i + k) && P (32 * i + k)) ->
  (forall x, P x = true -> b <= x) -> (forall x y, b <= x <= y -> P y = true -> P x = true) ->
  (forall r, b <= r < 32 * i -> vac r = false) -> first_vacant b (FindLowestBitSet v + i * 32).
Proof.
  intros Hw Hne Hbits HP HP' Hbefore. destruct Hw as [Hv Hw'].
  destruct (FindLowestBitSet_spec v ltac:(lia) (conj Hv Hw')) as (H1 & H2 & H3).
  assert (Hk := lowest_word v _ (conj Hv Hw') (conj H1 (conj H2 H3))). set (k := FindLowestBitSet v) in *.
  rewrite Hbits in H2 by done. apply andb_true_iff in H2 as [H2 H4].
  replace (k + i * 32) with (32 * i + k) by lia. split; [by apply HP|]. split; [done|].
  intros x Hx. destruct (Z.lt_ge_cases x (32 * i)); [apply Hbefore; lia|].
  specialize (H3 (x - 32 * i) ltac:(lia)). rewrite Hbits in H3 by lia.
  replace (32 * i + (x - 32 * i)) with x in H3 by lia. rewrite (HP' x (32 * i + k)) in H3 by (done || lia).
  by rewrite andb_true_r in H3.
Qed.

Lemma at_word_first b i v : at_word b i v -> v <> 0 -> first_vacant b (FindLowestBitSet v + i * 32).
Proof.
  intros (Hv & Hw & Hbits & Hbefore) Hne. apply (lowest_row (fun x => b <=? x)); try done.
  - intros x. apply Z.leb_le.
  - intros x y Hx _. apply Z.leb_le. lia.
Qed.

(** The only word of a range, masked at both ends. *)
Lemma single_word b e w : 0 <= b < e -> b / 32 + 1 = (e + 31) / 32 -> is_word w ->
  (forall k, 0 <= k < 32 -> Z.testbit w k = vac (32 * (b / 32) + k)) ->
  let v := Z.land (Z.land w (u32 (Z.shiftl 0xffffffff (Z.land b 31)))) (Z.shiftr 0xffffffff (Z.land (32 - e) 31)) in
  is_word v /\ forall k, 0 <= k < 32 ->
    Z.testbit v k = vac (32 * (b / 32) + k) && ((b <=? 32 * (b / 32) + k) && (32 * (b / 32) + k <? e)).
Proof.
  intros Hb E1 Hw Hbits. cbv zeta. destruct (first_word b w ltac:(lia) Hw Hbits) as (Hv & Hvw & Hvb & _).
  set (v := Z.land w _) in *. split.
  - apply word_from_bits; [apply Z.land_nonneg; by left|]. intros k Hk. by rewrite Z.land_spec, (word_bits_high v k Hvw Hk).
  - intros k Hk. rewrite Z.land_spec, Hvb, end_mask, <- andb_assoc by done. do 2 f_equal.
    destruct (Z.ltb_spec (k + (32 - e) mod 32) 32), (Z.ltb_spec (32 * (b / 32) + k) e); try done;
      exfalso; Z.div_mod_to_equations; lia.
Qed.

(** A range of several words: the last word is searched to its end. *)
Lemma find_in_words b e : 0 <= b -> b < e <= rowsCount t -> b / 32 + 1 < (e + 31) / 32 ->
  (exists r, b <= r < 32 * ((e + 31) / 32) /\ vac r = true) ->
  exists i v, find_vacant m b e = Ok (i, v) /\ v <> 0 /\ is_word v /\ 0 <= i < bitmap_words (rowsCount t)
    /\ first_vacant b (FindLowestBitSet v + i * 32).
Proof.
  intros Hb He E2 (r & Hr & Hvr). unfold find_vacant. rewrite Z.quot_div_nonneg by lia.
  assert (Hi : 0 <= b / 32 < bitmap_words (rowsCount t)) by (unfold bitmap_words; Z.div_mod_to_equations; lia).
  assert (He' : (e + 31) / 32 <= bitmap_words (rowsCount t)) by (unfold bitmap_words; Z.div_mod_to_equations; lia).
  destruct (tk_bits _ _ _ _ _ Hok (b / 32) Hi) as (w & E & Hw & Hbits).
  assert (Hfirst := first_word b w Hb Hw Hbits). rewrite E. cbn [bind_res].
  rewrite (proj2 (Z.eqb_neq (b / 32 + 1) ((e + 31) / 32))), (proj2 (Z.ltb_lt (b / 32 + 1) ((e + 31) / 32))) by lia.
  destruct (scan_ok b (Z.to_nat ((e + 31) / 32 - 1 - b / 32)) (b / 32) _ ltac:(lia) ltac:(lia) ltac:(Z.div_mod_to_equations; lia) Hfirst)
    as (i & v & Es & Hat & Hir & Hd). rewrite Es. cbn [bind_res].
  assert (Hne : v <> 0).
  { destruct Hd as [|Hd]; [done|]. intros ->. destruct Hat as (_ & _ & Hz & Hbef).
    destruct (Z.lt_ge_cases r (32 * i)) as [Hlt|Hge]; [by rewrite Hbef in Hvr by lia|].
    assert (H := Hz (r - 32 * i) ltac:(lia)). rewrite Z.bits_0 in H.
    replace (32 * i + (r - 32 * i)) with r in H by lia. rewrite Hvr, (proj2 (Z.leb_le b r)) in H by lia. done. }
  rewrite (proj2 (Z.eqb_neq v 0) Hne). exists i, v. split; [done|]. split; [done|]. split; [apply Hat|].
  split; [lia|]. by apply at_word_first.
Qed.

(** The word found by the search, when a row of the range is vacant. *)
Lemma find_vacant_ok b e : 0 <= b -> b < e <= rowsCount t -> (exists r, b <= r < e /\ vac r = true) ->
  exists i v, find_vacant m b e = Ok (i, v) /\ v <> 0 /\ is_word v /\ 0 <= i < bitmap_words (rowsCount t)
    /\ first_vacant b (FindLowestBitSet v + i * 32).
Proof.
  intros Hb He (r & Hr & Hvr). destruct (Z.eq_dec (b / 32 + 1) ((e + 31) / 32)) as [E1|E1].
  - unfold find_vacant. rewrite Z.quot_div_nonneg by lia.
    assert (Hi : 0 <= b / 32 < bitmap_words (rowsCount t)) by (unfold bitmap_words; Z.div_mod_to_equations; lia).
    destruct (tk_bits _ _ _ _ _ Hok (b / 32) Hi) as (w & E & Hw & Hbits). rewrite E. cbn [bind_res].
    rewrite (proj2 (Z.eqb_eq (b / 32 + 1) ((e + 31) / 32)) E1).
    destruct (single_word b e w ltac:(lia) E1 Hw Hbits) as [Hw1 Hb1]. set (v := Z.land (Z.land w _) _) in *.
    assert (Hne : v <> 0).
    { intros H0. assert (H := Hb1 (r - 32 * (b / 32)) ltac:(Z.div_mod_to_equations; lia)). rewrite H0, Z.bits_0 in H.
      replace (32 * (b / 32) + (r - 32 * (b / 32))) with r in H by lia.
      rewrite Hvr, (proj2 (Z.leb_le b r)), (proj2 (Z.ltb_lt r e)) in H by lia. done. }
    exists (b / 32), v. split; [done|]. split; [done|]. split; [done|]. split; [done|].
    apply (lowest_row (fun x => (b <=? x) && (x <? e))); try done.
    + intros x [Hx%Z.leb_le _]%andb_true_iff. done.
    + intros x y Hx [_ Hy%Z.ltb_lt]%andb_true_iff. rewrite andb_true_iff, Z.leb_le, Z.ltb_lt. lia.
    + intros x Hx. exfalso. Z.div_mod_to_equations; lia.
  - apply find_in_words; [done|done|Z.div_mod_to_equations; lia|].
    exists r. split; [Z.div_mod_to_equations; lia|done].
Qed.

(** In a range of one word the search also finds that there is no vacant row. *)
Lemma find_none b e : 0 <= b -> b < e <= rowsCount t -> b / 32 + 1 = (e + 31) / 32 ->
  (forall r, b <= r < e -> vac r = false) -> find_vacant m b e = Ok (b / 32, 0).
Proof.
  intros Hb He E1 Hno. unfold find_vacant. rewrite Z.quot_div_nonneg by lia.
  assert (Hi : 0 <= b / 32 < bitmap_words (rowsCount t)) by (unfold bitmap_words; Z.div_mod_to_equations; lia).
  destruct (tk_bits _ _ _ _ _ Hok (b / 32) Hi) as (w & E & Hw & Hbits). rewrite E, E1, Z.eqb_refl. cbn [bind_res].
  destruct (single_word b e w ltac:(lia) E1 Hw Hbits) as [Hw1 Hb1]. set (v := Z.land (Z.land w _) _) in *.
  do 2 f_equal. apply Z.bits_inj'. intros k Hk. rewrite Z.bits_0.
  destruct (Z.lt_ge_cases k 32); [|by apply word_bits_high]. rewrite Hb1 by lia.
  destruct (Z.leb_spec b (32 * (b / 32) + k)), (Z.ltb_spec (32 * (b / 32) + k) e); cbn [andb]; rewrite ?andb_false_r; try done.
  by rewrite Hno.
Qed.

(** ** The search occupies what it finds *)

Definition clamp (b e : Z) : Z * Z :=
  (if b <? 0 then 0 else b, if rowsCount t <? e then rowsCount t else e).

Lemma occupy_first_ok b e r : first_vacant (fst (clamp b e)) r -> r < snd (clamp b e) ->
  exists m', OccupyStateTableFirstVacantRow DEBUGI b e t = Done r (set_mem m' t) /\ rows_kept t m m'
    /\ table_ok DEBUGI (set_mem m' t) cols m' (put_vac vac r false).
Proof.
  intros Hf Hr. unfold OccupyStateTableFirstVacantRow. unfold wu_bind at 1, wu_get at 1.
  cbv zeta. unfold clamp in Hf, Hr. cbn [fst snd] in Hf, Hr.
  set (b' := if b <? 0 then 0 else b) in *. set (e' := if rowsCount t <? e then rowsCount t else e) in *.
  assert (Hb' : 0 <= b') by (unfold b'; destruct (Z.ltb_spec b 0); lia).
  assert (He' : e' <= rowsCount t) by (unfold e'; destruct (Z.ltb_spec (rowsCount t) e); lia).
  assert (Hf' := Hf). destruct Hf' as (F1 & F2 & F3).
  unfold with_mem. rewrite (tk_mem _ _ _ _ _ Hok).
  destruct (find_vacant_ok b' e' Hb' ltac:(lia)) as (i & v & E & Hv & Hw & Hi & Hfv); [exists r; split; [lia|done]|].
  unfold wu_bind at 1, lift. rewrite E. rewrite (proj2 (Z.eqb_neq v 0) Hv). cbv zeta.
  assert (Er : FindLowestBitSet v + i * 32 = r) by (by apply (first_vacant_unique b')). rewrite Er.
  destruct Hw as [Hw1 Hw2]. assert (Hl := FindLowestBitSet_spec v ltac:(lia) (conj Hw1 Hw2)).
  assert (Hk := lowest_word _ _ (conj Hw1 Hw2) Hl).
  assert (Ei : r / 32 = i /\ r mod 32 = FindLowestBitSet v) by (split; Z.div_mod_to_equations; lia). destruct Ei as [Ei Em].
  assert (Hrow : 0 <= r < rowsCount t) by lia.
  destruct (row_word _ _ _ _ _ Hok r Hrow) as (_ & w & Ew & Hww & _). rewrite Ei in Ew.
  unfold wu_bind at 1, load_word, lift. rewrite Ew.
  destruct (change_bit DEBUGI t cols m vac Hok r false w (Z.land w (Z.lnot (2 ^ (r mod 32)))) Hrow) as (m' & E' & Hkept & Hok').
  { by rewrite Ei. }
  { intros k Hk'. rewrite clear_bit_spec by lia. by destruct (k =? r mod 32). }
  { apply clear_bit_word; [done|lia]. }
  exists m'. rewrite (low_bit_spec v _ ltac:(lia) (conj Hw1 Hw2) Hl). rewrite Em, Ei in E'.
  unfold wu_bind at 1, store_word. unfold wu_bind at 1, lift. rewrite E'. unfold wu_modify.
  unfold wu_bind. rewrite (validate_row _ _ _ _ _ Hok' r Hrow). done.
Qed.

Lemma occupy_full b e : fst (clamp b e) < snd (clamp b e) ->
  fst (clamp b e) / 32 + 1 = (snd (clamp b e) + 31) / 32 ->
  (forall r, fst (clamp b e) <= r < snd (clamp b e) -> vac r = false) ->
  OccupyStateTableFirstVacantRow DEBUGI b e t = Failed WUERR_STATE_TABLE_FULL t.
Proof.
  unfold clamp. cbn [fst snd]. intros Hlt Hone Hno. unfold OccupyStateTableFirstVacantRow. unfold wu_bind at 1, wu_get at 1.
  cbv zeta. unfold with_mem. rewrite (tk_mem _ _ _ _ _ Hok). unfold wu_bind at 1, lift.
  rewrite find_none; [done| | |done|done].
  - destruct (Z.ltb_spec b 0); lia.
  - destruct (Z.ltb_spec (rowsCount t) e); lia.
Qed.

(** An empty range. *)
Lemma occupy_empty b e : fst (clamp b e) = 0 -> snd (clamp b e) = 0 ->
  OccupyStateTableFirstVacantRow DEBUGI b e t = Failed WUERR_STATE_TABLE_FULL t.
Proof.
  unfold clamp. cbn [fst snd]. intros Hb He. unfold OccupyStateTableFirstVacantRow. unfold wu_bind at 1, wu_get at 1.
  cbv zeta. unfold with_mem. rewrite (tk_mem _ _ _ _ _ Hok), Hb, He. done.
Qed.

(** A full table of more than one word whose last word is not full: the search
    finds the row behind the last one. *)
Lemma occupy_overrun b e : (b <= 0) -> rowsCount t <= e -> 32 < rowsCount t -> rowsCount t mod 32 <> 0 ->
  (forall r, 0 <= r < rowsCount t -> vac r = false) ->
  exists m', OccupyStateTableFirstVacantRow DEBUGI b e t
    = if DEBUGI then Failed ASSERTION (set_mem m' t) else Done (rowsCount t) (set_mem m' t).
Proof.
  intros Hb He H32 Hmod Hno. assert (Hrows := tk_rows _ _ _ _ _ Hok). set (n := rowsCount t) in *.
  assert (Hw : n < 32 * bitmap_words n) by (unfold bitmap_words; Z.div_mod_to_equations; lia).
  assert (Hpad : first_vacant 0 n).
  { split; [lia|]. split; [apply (tk_padding _ _ _ _ _ Hok); fold n; lia|done]. }
  unfold OccupyStateTableFirstVacantRow. unfold wu_bind at 1, wu_get at 1. cbv zeta. fold n.
  replace (if b <? 0 then 0 else b) with 0 by (destruct (Z.ltb_spec b 0); lia).
  replace (if n <? e then n else e) with n by (destruct (Z.ltb_spec n e); lia).
  unfold with_mem. rewrite (tk_mem _ _ _ _ _ Hok).
  destruct (find_in_words 0 n ltac:(lia) ltac:(fold n; lia) ltac:(Z.div_mod_to_equations; lia)) as (i & v & E & Hv & Hwv & Hi & Hf).
  { exists n. split; [unfold bitmap_words in Hw; lia|apply Hpad]. }
  unfold wu_bind at 1, lift. rewrite E, (proj2 (Z.eqb_neq v 0) Hv). cbv zeta.
  rewrite (first_vacant_unique 0 _ n Hf Hpad). destruct (tk_bits _ _ _ _ _ Hok i Hi) as (w & Ew & _ & _).
  unfold wu_bind at 1, load_word, lift. rewrite Ew.
  destruct (word_in_mem _ _ _ _ _ Hok i Hi) as [W1 W2].
  destruct (store32_Ok m (m_addr m + 4 * i) (Z.land w (Z.lnot (low_bit v))) W1 W2) as (m' & Es & _). exists m'.
  unfold wu_bind at 1, store_word. unfold wu_bind at 1, lift. rewrite Es. unfold wu_modify, wu_bind, ValidateGuardMemory.
  destruct DEBUGI; [|done]. unfold with_mem, wu_bind, wu_get, lift, guards, valid_row. cbn [mem set_mem rowsCount]. fold n.
  by rewrite Z.ltb_irrefl, andb_false_r.
Qed.

End Find.

(** ** Creation *)

Lemma apply_update m (f : Z -> option Z) : exists m', updated m m' f.
Proof.
  exists (mk_memory (m_addr m) (imap (fun i b => match f (m_addr m + Z.of_nat i) with Some b' => b' | None => b end) (m_bytes m))).
  split; cbn; [done|by rewrite length_imap|]. intros x [H1 H2]. unfold get. cbn.
  rewrite (proj2 (Z.leb_le (m_addr m) x)) by lia. rewrite list_lookup_imap.
  replace (m_addr m + Z.of_nat (Z.to_nat (x - m_addr m))) with x by lia. unfold m_end in H2.
  destruct (lookup_lt_is_Some_2 (m_bytes m) (Z.to_nat (x - m_addr m))) as [b Hb]; [lia|]. rewrite Hb. cbn. by destruct (f x).
Qed.

Lemma regions_same m m' l : m_addr m' = m_addr m -> length (m_bytes m') = length (m_bytes m) ->
  regions_in m l -> regions_in m' l.
Proof.
  intros H1 H2 H. eapply Forall_impl; [exact H|]. intros [p d]. cbn. destruct (region p d).
  unfold region_in, m_end. by rewrite H1, H2.
Qed.

Section Create.
Context (DEBUGI : bool) (malloc : Z -> option Z).
Abbreviation column := (Z * Z)%type.

Definition total_size (t : StateTable) (rows : Z) : Z := header_size rows + row_stride DEBUGI t * rows + ST_ALIGNMENT.

Lemma row_stride_spec t : 0 < rowSize t < ST_MAX_ROW_SIZE ->
  rowSize t + gap DEBUGI <= row_stride DEBUGI t < rowSize t + gap DEBUGI + 8 /\ row_stride DEBUGI t mod 8 = 0.
Proof.
  change ST_MAX_ROW_SIZE with 524288. intros H. unfold row_stride, gap, ST_GUARD_SIZE.
  assert (E : RoundSizeUp (rowSize t) ST_ALIGNMENT = round_up (rowSize t) 3) by (apply (RoundSizeUp_spec (rowSize t) 3); lia).
  rewrite E. destruct (round_up_spec (rowSize t) 3 ltac:(lia)) as ([H1 H2] & q & Hq).
  change (2 ^ 3) with 8 in *. destruct DEBUGI; (split; [lia|]); rewrite Hq; Z.div_mod_to_equations; lia.
Qed.

(** The memory before the guards are filled. *)
Definition fresh_memory (a headerSize total : Z) (x : Z) : option Z :=
  if (a <=? x) && (x <? a + total) then Some (if x <? a + headerSize then 255 else 0) else None.

Lemma fresh_memory_ok a headerSize total : 0 <= headerSize <= total ->
  exists m, memset (mk_memory a (repeat 0 (Z.to_nat total))) a 0xFF headerSize = Ok m
    /\ m_addr m = a /\ m_end m = a + total /\ bytes_ok m /\ forall x, get m x = fresh_memory a headerSize total x.
Proof.
  intros H. set (m0 := mk_memory a (repeat 0 (Z.to_nat total))).
  assert (Hend : m_end m0 = a + total) by (unfold m_end, m0; cbn; rewrite repeat_length; lia).
  destruct (memset_ok m0 a 255 headerSize) as (m & E & U); [cbn; lia|lia|lia|]. exists m.
  split; [done|]. split; [apply (up_addr _ _ _ U)|].
  assert (Hend' : m_end m = a + total) by (rewrite <- Hend; unfold m_end; by rewrite (up_addr _ _ _ U), (up_len _ _ _ U)).
  split; [done|]. split.
  - eapply updated_bytes; [|unfold bytes_ok, m0; cbn; apply Forall_forall|exact U].
    + intros x b. cbn. destruct (_ && _); [|done]. intros [= <-]. lia.
    + intros b Hb%list_elem_of_In%repeat_spec. subst. lia.
  - intros x. unfold fresh_memory. destruct (decide (a <= x < a + total)) as [Hx|Hx].
    + rewrite (up_get _ _ _ U) by (unfold in_mem; rewrite Hend; cbn; lia).
      rewrite (proj2 (Z.leb_le a x)), (proj2 (Z.ltb_lt x (a + total))) by lia. cbn [andb].
      destruct (Z.ltb_spec x (a + headerSize)); [done|]. unfold get, m0. cbn.
      rewrite (proj2 (Z.leb_le a x)) by lia. apply lookup_repeat. lia.
    + rewrite get_out by (unfold in_mem; rewrite (up_addr _ _ _ U), Hend'; cbn; lia).
      destruct (Z.leb_spec a x), (Z.ltb_spec x (a + total)); cbn; try done; lia.
Qed.

Lemma full_bitmap m words : (forall x, m_addr m <= x < m_addr m + 4 * words -> get m x = Some 255) ->
  bitmap_is m words (fun _ => true).
Proof.
  intros H i Hi. exists 0xffffffff. split; [|split].
  - apply load32_Ok; [unfold is_word; lia|]. intros k Hk. rewrite H by lia.
    assert (k = 0 \/ k = 1 \/ k = 2 \/ k = 3) as [->|[->|[->| ->]]] by lia; reflexivity.
  - unfold is_word. lia.
  - intros k Hk. rewrite ones32_bits by lia. apply Z.ltb_lt. lia.
Qed.

(** The table of [CreateStateTableRows] with the memory [m]. *)
Definition created (t : StateTable) (rows a : Z) (m : memory) : StateTable :=
  mk_table rows (columnsCount t) (Some m) (a + header_size rows + gap DEBUGI) (row_stride DEBUGI t)
    (rowSize t) (columnSize t) (columnBase t).

Definition all_guards (t : StateTable) : list (Z * Z) :=
  flat_map (fun r => row_guards t (Z.of_nat r)) (seq 0 (Z.to_nat (rowsCount t))).

(** The fresh memory with its guards makes a table in which every row is
    vacant. *)
Lemma created_ok t cols rows a m : columns_ok DEBUGI t cols -> cols <> [] -> 0 < rowSize t -> 0 <= rows < 2 ^ 31 ->
  0 < a -> a mod 8 = 0 -> m_addr m = a -> m_end m = a + total_size t rows -> bytes_ok m ->
  (forall x, a <= x < a + header_size rows -> get m x = Some 255) ->
  (DEBUGI = true -> forall x, covers (all_guards (created t rows a m)) x = true -> get m x = Some (pattern_at ST_GUARD_FILL x)) ->
  table_ok DEBUGI (created t rows a m) cols m (fun _ => true).
Proof.
  intros Hc Hne Hrs Hrows Ha Hal Haddr Hend Hb Hh Hg. destruct (co_row _ _ _ Hc) as [_ R2].
  destruct (row_stride_spec t ltac:(lia)) as [S1 S2]. assert (Hgap := gap_nonneg DEBUGI).
  split; try done; cbn [rowsCount base stride rowSize created].
  - destruct Hc. by split.
  - by rewrite Haddr.
  - rewrite Haddr. done.
  - split; [lia|]. split; [done|lia].
  - rewrite Hend, Haddr. unfold total_size, ST_ALIGNMENT. lia.
  - intros Hd r x Hr Hx. apply (Hg Hd). unfold all_guards. rewrite covers_flat. apply existsb_exists. exists (Z.to_nat r).
    split; [apply in_seq; cbn; lia|]. by rewrite Z2Nat.id by lia.
  - apply full_bitmap. intros x Hx. apply Hh. destruct (header_size_spec rows Hrows) as [H1 _]. lia.
Qed.

(** The guards are behind the header and in the block. *)
Lemma guards_behind t cols rows a m x : DEBUGI = true -> columns_ok DEBUGI t cols -> cols <> [] -> 0 < rowSize t -> 0 <= rows ->
  covers (all_guards (created t rows a m)) x = true -> a + header_size rows <= x < a + total_size t rows.
Proof.
  intros Hd Hc Hne Hrs Hrows. unfold all_guards. rewrite covers_flat, existsb_exists. intros (r & Hr%in_seq & Hx).
  cbn [rowsCount created] in Hr. destruct (last_exists cols Hne) as [lst Hl].
  assert (Hc' : columns_ok DEBUGI (created t rows a m) cols) by (destruct Hc; by split).
  destruct (row_guards_spec DEBUGI (created t rows a m) cols lst (Z.of_nat r) Hd Hc' Hl) as [Hs _].
  destruct (proj1 (Hs x) Hx) as [[H1 H2] _]. cbn [base stride created] in H1, H2. assert (Hend := co_end _ _ _ Hc _ _ Hl).
  destruct (co_row _ _ _ Hc) as [_ R2]. destruct (row_stride_spec t ltac:(lia)) as [S1 S2].
  unfold gap, ST_GUARD_SIZE in *. rewrite Hd in *. unfold total_size, ST_ALIGNMENT. rewrite Hd.
  assert (0 <= row_stride true t * Z.of_nat r) by (apply Z.mul_nonneg_nonneg; lia).
  assert (row_stride true t * Z.of_nat r + row_stride true t <= row_stride true t * rows) by nia. lia.
Qed.

Lemma walk_created t rows a m m' r : row_guards (created t rows a m) r = row_guards (created t rows a m') r.
Proof. exact (row_guards_set_mem (created t rows a m') m r). Qed.

(** The result: a table with every row vacant and zero in every cell. *)
Definition fresh_table (t' : StateTable) (cols : list column) (m : memory) : Prop :=
  table_ok DEBUGI t' cols m (fun _ => true)
  /\ forall r j c x, 0 <= r < rowsCount t' -> cols !! j = Some c ->
       base t' + stride t' * r + fst c <= x < base t' + stride t' * r + fst c + snd c -> get m x = Some 0.

(** The bytes of the fresh memory with guards. *)
Lemma guarded_get t rows a m1 m l : m_addr m1 = a -> m_end m1 = a + total_size t rows ->
  (forall x, get m1 x = fresh_memory a (header_size rows) (total_size t rows) x) -> updated m1 m (covered_bytes l) ->
  forall x, get m x = if covers l x && (a <=? x) && (x <? a + total_size t rows) then Some (pattern_at ST_GUARD_FILL x)
            else fresh_memory a (header_size rows) (total_size t rows) x.
Proof.
  intros Haddr Hend Hget U x. destruct (decide (a <= x < a + total_size t rows)) as [Hx|Hx].
  - rewrite (up_get _ _ _ U) by (unfold in_mem; rewrite Haddr, Hend; lia). unfold covered_bytes.
    rewrite (proj2 (Z.leb_le a x)), (proj2 (Z.ltb_lt x (a + total_size t rows))), !andb_true_r by lia.
    destruct (covers l x); [done|apply Hget].
  - rewrite get_out by (rewrite (updated_in _ _ _ _ U); unfold in_mem; rewrite Haddr, Hend; lia). unfold fresh_memory.
    destruct (Z.leb_spec a x), (Z.ltb_spec x (a + total_size t rows)); cbn; rewrite ?andb_false_r; try done; lia.
Qed.

Lemma fill_guards t cols rows a m1 : columns_ok DEBUGI t cols -> cols <> [] -> 0 < rowSize t -> 0 <= rows < 2 ^ 31 ->
  0 < a -> a mod 8 = 0 -> m_addr m1 = a -> m_end m1 = a + total_size t rows -> bytes_ok m1 ->
  (forall x, get m1 x = fresh_memory a (header_size rows) (total_size t rows) x) ->
  exists m, InitGuardMemory DEBUGI table_guard (created t rows a m1) = Done tt (created t rows a m)
    /\ fresh_table (created t rows a m) cols m.
Proof.
  intros Hc Hne Hrs Hrows Ha Hal Haddr Hend Hb Hget.
  destruct (co_row _ _ _ Hc) as [_ R2]. destruct (row_stride_spec t ltac:(lia)) as [S1 S2].
  destruct (header_size_spec rows Hrows) as (H1 & _ & H3). assert (Hg := gap_nonneg DEBUGI).
  assert (Htot : header_size rows <= total_size t rows) by (unfold total_size, ST_ALIGNMENT; nia).
  set (l := if DEBUGI then all_guards (created t rows a m1) else []).
  destruct (apply_update m1 (covered_bytes l)) as [m U].
  assert (Hb' : bytes_ok m) by (eapply updated_bytes; [|exact Hb|exact U]; intros x b; apply covered_range).
  assert (Hm : m_addr m = a /\ m_end m = a + total_size t rows).
  { unfold m_end in *. rewrite (up_addr _ _ _ U), (up_len _ _ _ U). done. }
  assert (Hl : DEBUGI = true -> l = all_guards (created t rows a m)).
  { intros Hd. unfold l. rewrite Hd. unfold all_guards. apply flat_map_ext. intros r. apply walk_created. }
  assert (Hg' := guarded_get t rows a m1 m l Haddr Hend Hget U).
  assert (Hok : table_ok DEBUGI (created t rows a m) cols m (fun _ => true)).
  { apply (created_ok t cols rows a m); try done; [apply Hm|apply Hm| |].
    - intros x Hx. rewrite Hg'. rewrite (if_false (covers l x && _ && _)).
      + unfold fresh_memory. rewrite (proj2 (Z.leb_le a x)), (proj2 (Z.ltb_lt x (a + total_size t rows))), (proj2 (Z.ltb_lt x (a + header_size rows))) by lia. done.
      + rewrite <- andb_assoc. apply andb_false_iff. left. apply not_true_iff_false. intros Hx'. unfold l in Hx'.
        destruct (sumbool_of_bool DEBUGI) as [Hd|Hd]; [rewrite (if_true DEBUGI _ _ Hd) in Hx'|by rewrite (if_false DEBUGI _ _ Hd) in Hx'].
        assert (H := guards_behind t cols rows a m1 x Hd Hc Hne Hrs ltac:(lia) Hx'). lia.
    - intros Hd x Hx. rewrite <- (Hl Hd) in Hx. rewrite Hg', Hx.
      rewrite (Hl Hd) in Hx. assert (Hr := guards_behind t cols rows a m x Hd Hc Hne Hrs ltac:(lia) Hx).
      rewrite (proj2 (Z.leb_le a x)), (proj2 (Z.ltb_lt x (a + total_size t rows))) by lia. done. }
  exists m. split.
  - unfold InitGuardMemory. destruct (sumbool_of_bool DEBUGI) as [Hd|Hd].
    + rewrite (if_true DEBUGI _ _ Hd). unfold with_mem. cbn [mem created]. unfold wu_bind, wu_get, lift, guards.
      fold (all_guards (created t rows a m1)). assert (Hl1 : l = all_guards (created t rows a m1)) by (unfold l; by rewrite Hd).
      rewrite <- Hl1. destruct (init_regions_ok l m1 Hb) as (m' & E & U').
      * rewrite (Hl Hd). apply (regions_same m m1); [by rewrite (up_addr _ _ _ U)|by rewrite (up_len _ _ _ U)|].
        exact (table_regions _ _ _ _ _ Hok Hd).
      * rewrite E, (updated_unique _ _ _ _ U' U). done.
    + rewrite (if_false DEBUGI _ _ Hd). unfold wu_ret. do 2 f_equal. apply (updated_unique m1 m1 m (covered_bytes l)); [|done].
      apply updated_refl. intros x _. unfold l. by rewrite Hd.
  - split; [done|]. intros r j c x Hr Hj Hx. destruct (cell_byte _ _ _ _ _ Hok r j c x Hr Hj Hx) as ([I1 I2] & Hx' & _).
    rewrite Hg', (if_false (covers l x && _ && _)).
    + destruct Hm as [M1 M2]. rewrite M1, M2 in *. cbn [rowsCount created] in Hx'. unfold fresh_memory.
      rewrite (proj2 (Z.leb_le a x)), (proj2 (Z.ltb_lt x (a + total_size t rows))), (proj2 (Z.ltb_ge x (a + header_size rows))) by lia. done.
    + rewrite <- andb_assoc. apply andb_false_iff. left. destruct (sumbool_of_bool DEBUGI) as [Hd|Hd]; [|unfold l; by rewrite Hd].
      rewrite (Hl Hd). unfold all_guards. rewrite covers_flat. apply not_true_iff_false. rewrite existsb_exists.
      intros (r' & Hr'%in_seq & Hc'). cbn [rowsCount created] in Hr, Hr'.
      by rewrite (cell_unguarded _ _ _ _ _ Hok r j c x (Z.of_nat r') Hd Hr ltac:(cbn; lia) Hj Hx) in Hc'.
Qed.

Lemma create_rows_ok t cols rows maxRowSize a : columns_ok DEBUGI t cols -> cols <> [] -> 0 < rowSize t -> 0 <= rows < 2 ^ 31 ->
  (DEBUGI = true -> 0 < rows) ->
  row_stride DEBUGI t <= maxRowSize -> malloc (total_size t rows) = Some a ->
  0 < a -> a mod 8 = 0 -> a + total_size t rows <= 2 ^ 63 ->
  exists m, CreateStateTableRows DEBUGI malloc rows maxRowSize t = Done tt (created t rows a m)
    /\ fresh_table (created t rows a m) cols m.
Proof.
  intros Hc Hne Hrs Hrows Hpos Hmax Hmal Ha Hal Hbig.
  destruct (co_row _ _ _ Hc) as [_ R2]. destruct (row_stride_spec t ltac:(lia)) as [S1 S2].
  destruct (header_size_spec rows Hrows) as (H1 & H2 & H3). assert (Hg := gap_nonneg DEBUGI).
  assert (Htot : header_size rows + 8 <= total_size t rows) by (unfold total_size, ST_ALIGNMENT; nia).
  destruct (fresh_memory_ok a (header_size rows) (total_size t rows) ltac:(lia)) as (m1 & E & M1 & M2 & Hb & Hget).
  destruct (fill_guards t cols rows a m1 Hc Hne Hrs Hrows Ha Hal M1 M2 Hb Hget) as (m & Ei & Hf).
  exists m. split; [|done]. unfold CreateStateTableRows. unfold wu_bind at 1, wu_get at 1.
  rewrite (if_false (DEBUGI && _)) by (destruct DEBUGI; [by rewrite (proj2 (Z.ltb_lt 0 rows)) by auto|done]).
  cbv zeta. fold (total_size t rows).
  rewrite (proj2 (Z.ltb_ge maxRowSize (row_stride DEBUGI t))) by lia. rewrite Hmal.
  unfold wu_bind at 1, lift. rewrite E. unfold wu_bind, wu_put.
  assert (Eb : AlignPtr (a + header_size rows + (if DEBUGI then ST_GUARD_SIZE else 0)) ST_ALIGNMENT = a + header_size rows + gap DEBUGI).
  { fold (gap DEBUGI). assert (Hg' := gap_le DEBUGI). change ST_ALIGNMENT with (2 ^ 3). rewrite AlignPtr_spec by lia.
    destruct (round_up_spec (a + header_size rows + gap DEBUGI) 3 ltac:(lia)) as ([B1 B2] & q & Hq). change (2 ^ 3) with 8 in *.
    assert (Hgm : gap DEBUGI mod 8 = 0) by (unfold gap, ST_GUARD_SIZE; by destruct DEBUGI). Z.div_mod_to_equations; lia. }
  rewrite Eb. exact Ei.
Qed.

End Create.
