(* ===== verification/Clients.v ===== *)
(** * Clients of the version manager

    Model of src/kernel/sm/wu/wuclients.cpp: the registration of clients, the
    current client, the clients that are ready and their enumeration.  The
    static variables are the fields of [cl_state]; the thread state is global,
    as in the source.  The parameters are those of StateTable.v. *)

From Stdlib Require Import ZArith List Lia Bool.
From stdpp Require Import base list.
From S2P Require Import Prelude WuBase WuAux StateTable.
Local Open Scope sedna_scope.
Local Open Scope Z_scope.

Record cl_state := mk_cl {
  stateTable : StateTable;
  readyClientsBitmap : option (list Z);
  clientsCount : Z;
  readyClientsCount : Z;
  currentClientId : Z;
  clientSetLockCount : Z;
  isInitialized : bool
}.

Definition with_table t (s : cl_state) : cl_state :=
  mk_cl t (readyClientsBitmap s) (clientsCount s) (readyClientsCount s) (currentClientId s)
    (clientSetLockCount s) (isInitialized s).
Definition with_ready b n (s : cl_state) : cl_state :=
  mk_cl (stateTable s) b (clientsCount s) n (currentClientId s) (clientSetLockCount s) (isInitialized s).
Definition with_count n (s : cl_state) : cl_state :=
  mk_cl (stateTable s) (readyClientsBitmap s) n (readyClientsCount s) (currentClientId s)
    (clientSetLockCount s) (isInitialized s).
Definition with_current c (s : cl_state) : cl_state :=
  mk_cl (stateTable s) (readyClientsBitmap s) (clientsCount s) (readyClientsCount s) c
    (clientSetLockCount s) (isInitialized s).
Definition with_locks n (s : cl_state) : cl_state :=
  mk_cl (stateTable s) (readyClientsBitmap s) (clientsCount s) (readyClientsCount s) (currentClientId s)
    n (isInitialized s).

Section Clients.
Context (DEBUGI : bool) (malloc : Z -> option Z) (wide_shift : Z -> Z).
Abbreviation M := (wu cl_state).

Definition on_table {A} (c : wu StateTable A) : M A := wu_lift stateTable with_table c.

(** [if (WuGetLastError() == WUERR_STATE_TABLE_BAD_ROW_ID)
    WuSetLastErrorMacro(WUERR_BAD_CLIENT_ID)] *)
Definition as_client_error {A} (c : M A) : M A := fun s =>
  match c s with
  | Done a s => Done a s
  | Failed e s =>
      Failed (if decide (e = WUERR_STATE_TABLE_BAD_ROW_ID) then WUERR_BAD_CLIENT_ID else e) s
  end.

(** [assert(p)] on the pointer that a call has set or left null, and the use of
    the pointer after it.  CMakeLists.txt defines DEBUGI as 1 for the builds
    with assertions and as 0 for those with NDEBUG; without assertions the null
    pointer is dereferenced. *)
Definition assert_done {A} (c : M A) : M A := fun s =>
  match c s with
  | Done a s => Done a s
  | Failed UNDEFINED s => Failed UNDEFINED s
  | Failed _ s => Failed (if DEBUGI then ASSERTION else UNDEFINED) s
  end.

(** [sizeof(ClMgmtData)]: one [int], [currentCntr]. *)
Definition sizeof_ClMgmtData : Z := 4.

Definition load_cntr (p : Z) : M Z := fun s =>
  match mem (stateTable s) with
  | None => Failed UNDEFINED s
  | Some m =>
      match load32 m p with
      | Ok v => Done (int32 v) s
      | Throw e => Failed e s
      end
  end.

Definition store_cntr (p v : Z) : M unit := fun s =>
  match mem (stateTable s) with
  | None => Failed UNDEFINED s
  | Some m =>
      match store32 m p (u32 v) with
      | Ok m => Done tt (with_table (set_mem m (stateTable s)) s)
      | Throw e => Failed e s
      end
  end.

(** ** Start and end *)

Definition ClInitialize : M unit := fun s =>
  let s := with_ready None 0 (with_count 0 s) in
  match ReserveStateTableColumn DEBUGI sizeof_ClMgmtData 0 (empty_table DEBUGI) with
  | Done _ t =>
      Done tt (mk_cl t None 0 0 (currentClientId s) (clientSetLockCount s) true)
  | Failed e t => Failed e (with_table t s)
  end.

Definition ClReserveStateBlocks (size : Z) : M Z := on_table (ReserveStateTableColumn DEBUGI size 0).

Definition ClStartup (maxClientsCount maxSizePerClient : Z) : M unit := fun s =>
  if maxClientsCount <? 0 then Failed WUERR_BAD_PARAMS s
  else
    let words := RoundSizeUp maxClientsCount 32 / 32 in
    match malloc (4 * RoundSizeUp maxClientsCount 32 / 32) with
    | None => Failed NO_ERROR_SET (with_ready None (readyClientsCount s) s)
    | Some _ =>
        let s := with_ready (Some (repeat 0 (Z.to_nat words))) (readyClientsCount s) s in
        match on_table (CreateStateTableRows DEBUGI malloc maxClientsCount (u64 maxSizePerClient)) s with
        | Done _ s => Done tt s
        | Failed e s => Failed e (with_ready None (readyClientsCount s) s)
        end
    end.

Definition ClShutdown : M unit := wu_ret tt.

Definition ClDeinitialize : M unit := fun s =>
  if isInitialized s then
    match on_table (DeinitializeStateTable DEBUGI) (with_count 0 (with_ready None 0 s)) with
    | Done _ s =>
        Done tt (mk_cl (stateTable s) (readyClientsBitmap s) (clientsCount s) (readyClientsCount s)
                   (currentClientId s) (clientSetLockCount s) false)
    | Failed e s => Failed e s
    end
  else Done tt s.

Definition ClQueryMaxClientsCount (s : cl_state) : Z := rowsCount (stateTable s).

(** ** Registration *)

Definition ClRegisterClient (clientId : Z) (isFixed : bool) : M Z :=
  do! clientId <-
    (if isFixed then
       do! isVacant <- as_client_error (on_table (IsStateTableRowVacant DEBUGI clientId));
       if negb isVacant then wu_fail WUERR_CLIENT_ID_ALREADY_IN_USE
       else
         do! _ <- on_table (SetStateTableIsVacantRowFlag DEBUGI clientId false);
         wu_ret clientId
     else on_table (OccupyStateTableFirstVacantRow DEBUGI 0 INT_MAX));
  do! mgmtData <- assert_done (on_table (GetStateTableMasterCell DEBUGI wide_shift clientId));
  do! _ <- store_cntr mgmtData 0;
  do! _ <- wu_modify (fun s => with_count (clientsCount s + 1) s);
  wu_ret clientId.

Definition ready_mask (clientId : Z) : Z := Z.shiftl 1 (Z.rem clientId 32).

(** [readyClientsBitmap[clientId/32]] *)
Definition ready_word (clientId : Z) : M Z := fun s =>
  match readyClientsBitmap s with
  | None => Failed UNDEFINED s
  | Some b =>
      match b !! Z.to_nat (clientId / 32) with
      | None => Failed UNDEFINED s
      | Some w => Done w s
      end
  end.

Definition put_ready_word (clientId w n : Z) : M unit := fun s =>
  match readyClientsBitmap s with
  | None => Failed UNDEFINED s
  | Some b => Done tt (with_ready (Some (<[Z.to_nat (clientId / 32) := w]> b)) n s)
  end.

(** Flag 1 marks a client ready, flag 2 leaving. *)
Definition ClMarkClientReadyOrLeaving (clientId flag : Z) : M unit :=
  do! s <- wu_get;
  if 0 <? clientSetLockCount s then wu_fail WUERR_CLIENT_SET_DEADLOCK_DETECTED
  else
    do! _ <- as_client_error (on_table (IsValidStateTableRowId wide_shift clientId));
    do! w <- ready_word clientId;
    let mask := ready_mask clientId in
    if flag =? 1 then
      if Z.land mask w =? 0 then put_ready_word clientId (Z.lor w mask) (readyClientsCount s + 1)
      else wu_fail WUERR_CLIENT_ALREADY_MARKED_READY
    else if flag =? 2 then
      if negb (Z.land mask w =? 0)
      then put_ready_word clientId (Z.land w (Z.lnot mask)) (readyClientsCount s - 1)
      else wu_fail WUERR_CLIENT_ALREADY_MARKED_LEAVING
    else wu_fail (if DEBUGI then ASSERTION else NO_ERROR_SET).

Definition ClMarkClientReady (clientId : Z) : M unit := ClMarkClientReadyOrLeaving clientId 1.
Definition ClMarkClientLeaving (clientId : Z) : M unit := ClMarkClientReadyOrLeaving clientId 2.

Definition ClUnregisterClient (clientId : Z) : M unit :=
  do! mgmtData <- as_client_error (on_table (GetStateTableMasterCell DEBUGI wide_shift clientId));
  do! currentCntr <- load_cntr mgmtData;
  if 0 <? currentCntr then wu_fail WUERR_UNABLE_TO_UNREGISTER_CURRENT_CLIENT
  else
    do! w <- ready_word clientId;
    if negb (Z.land w (ready_mask clientId) =? 0) then wu_fail WUERR_UNABLE_TO_UNREGISTER_READY_CLIENT
    else
      do! _ <- on_table (SetStateTableIsVacantRowFlag DEBUGI clientId true);
      wu_modify (fun s => with_count (clientsCount s - 1) s).

(** ** The current client *)

Definition ClGetCurrentClientId (s : cl_state) : Z := currentClientId s.

Definition ClSetCurrentClientId (clientId : Z) : M unit :=
  do! s <- wu_get;
  do! _ <-
    (if negb (currentClientId s =? -1) then
       do! mgmtData <- assert_done (on_table (GetStateTableMasterCell DEBUGI wide_shift (currentClientId s)));
       do! currentCntr <- load_cntr mgmtData;
       if DEBUGI && negb (0 <? currentCntr) then wu_fail ASSERTION
       else
         do! _ <- store_cntr mgmtData (currentCntr - 1);
         wu_modify (with_current (-1))
     else wu_ret tt);
  if clientId =? -1 then wu_ret tt
  else
    do! mgmtData <- as_client_error (on_table (GetStateTableMasterCell DEBUGI wide_shift clientId));
    do! currentCntr <- load_cntr mgmtData;
    do! _ <- store_cntr mgmtData (currentCntr + 1);
    wu_modify (with_current clientId).

Definition ClGetStateBlock (ticket clientId : Z) : M Z :=
  on_table (GetStateTableCell DEBUGI wide_shift ticket clientId).

Definition ClGetCurrentStateBlock (ticket : Z) : M Z :=
  do! s <- wu_get;
  ClGetStateBlock ticket (currentClientId s).

(** ** The set of ready clients *)

Definition ClLockClientsSet : M unit :=
  do! s <- wu_get;
  if clientSetLockCount s =? INT_MAX then wu_fail WUERR_CLIENT_SET_MAX_NUMBER_OF_LOCKS_EXCEEDED
  else wu_put (with_locks (clientSetLockCount s + 1) s).

Definition ClUnlockClientsSet : M unit :=
  do! s <- wu_get;
  if clientSetLockCount s <=? 0 then
    if DEBUGI && negb (clientSetLockCount s =? 0) then wu_fail ASSERTION
    else wu_fail WUERR_CLIENT_SET_ALREADY_UNLOCKED
  else wu_put (with_locks (clientSetLockCount s - 1) s).

Section Enumerate.
Context {W : Type} (enumProc : Z -> Z -> Z -> W -> bool * W).

(** The inner loop over the bits of a word, with the number of clients
    enumerated so far; a callback that returns 0 leaves this loop only.
    [None] when the fuel is used up. *)
Fixpoint enumerate_word (fuel : nat) (readyCount first temp cnt : Z) (w : W) : option (Z * W) :=
  if temp =? 0 then Some (cnt, w)
  else
    match fuel with
    | O => None
    | S fuel =>
        let '(bitid, temp) := ResetLowestBitSet temp in
        let '(go, w) := enumProc readyCount cnt (first + bitid) w in
        if go then enumerate_word fuel readyCount first temp (cnt + 1) w else Some (cnt, w)
    end.

Fixpoint enumerate_words (readyCount : Z) (l : list Z) (i cnt : Z) (w : W) : option (Z * W) :=
  match l with
  | [] => Some (cnt, w)
  | temp :: l =>
      match enumerate_word 32 readyCount (i * 32) temp cnt w with
      | None => None
      | Some (cnt, w) => enumerate_words readyCount l (i + 1) cnt w
      end
  end.

(** The words of the bitmap that belong to the rows of the table. *)
Definition ready_words (s : cl_state) : list Z :=
  match readyClientsBitmap s with
  | None => []
  | Some b => take (Z.to_nat (RoundSizeUp (rowsCount (stateTable s)) 32 / 32)) b
  end.

(** A failed call is an assertion that fails or, without assertions, is
    passed over. *)
Definition assert_call (c : M unit) (s : cl_state) : outcome cl_state unit :=
  match c s with
  | Done _ s => Done tt s
  | Failed _ s => if DEBUGI then Failed ASSERTION s else Done tt s
  end.

(** [None] when the loops did not end. *)
Definition ClEnumerateClients (w : W) (s : cl_state) : option (outcome cl_state W) :=
  match assert_call ClLockClientsSet s with
  | Failed e s => Some (Failed e s)
  | Done _ s =>
      match enumerate_words (readyClientsCount s) (ready_words s) 0 0 w with
      | None => None
      | Some (_, w) =>
          match assert_call ClUnlockClientsSet s with
          | Failed e s => Some (Failed e s)
          | Done _ s => Some (Done w s)
          end
      end
  end.

End Enumerate.

Definition ClIsClientReady (clientId : Z) : M bool :=
  do! _ <- as_client_error (on_table (IsValidStateTableRowId wide_shift clientId));
  do! w <- ready_word clientId;
  wu_ret (negb (Z.land w (ready_mask clientId) =? 0)).

(** ** Use of a state block

    What the owner of a ticket does with the pointer it got: it reads and
    writes bytes of its block. *)

Definition read_byte (p : Z) : M Z := fun s =>
  match mem (stateTable s) with
  | None => Failed UNDEFINED s
  | Some m =>
      match get m p with
      | None => Failed UNDEFINED s
      | Some b => Done b s
      end
  end.

Definition write_byte (p b : Z) : M unit := fun s =>
  match mem (stateTable s) with
  | None => Failed UNDEFINED s
  | Some m =>
      match get m p with
      | None => Failed UNDEFINED s
      | Some _ => Done tt (with_table (set_mem (set m p b) (stateTable s)) s)
      end
  end.

End Clients.
