(* ===== verification/ClCells.v ===== *)
(** * The cells of the table of clients

    Reading and writing cells of a table of src/kernel/sm/wu/wustatetable.cpp
    that satisfies its invariant. *)

From Stdlib Require Import ZArith List Lia Bool.
From stdpp Require Import base list.
From S2P Require Import Prelude WuBase WuAux StGuard StateTable StLayout StRows StOps StBits StFind.
Local Open Scope sedna_scope.
Local Open Scope Z_scope.

Section Cells.
Context (DEBUGI : bool).
Abbreviation column := (Z * Z)%type.

(** [g r j k] is the byte [k] of the column [j] in the row [r]. *)
Definition cells_are (t : StateTable) (cols : list column) (m : memory) (g : Z -> nat -> Z -> Z) : Prop :=
  forall r j c k, 0 <= r < rowsCount t -> cols !! j = Some c -> 0 <= k < snd c ->
    get m (base t + stride t * r + fst c + k) = Some (g r j k).

Lemma cells_ext t cols m g g' :
  (forall r j c k, 0 <= r < rowsCount t -> cols !! j = Some c -> 0 <= k < snd c -> g r j k = g' r j k) ->
  cells_are t cols m g -> cells_are t cols m g'.
Proof. intros E H r j c k Hr Hj Hk. rewrite <- (E r j c k) by done. by apply H. Qed.

Lemma fresh_cells t cols m : fresh_table DEBUGI t cols m -> cells_are t cols m (fun _ _ _ => 0).
Proof. intros [_ H] r j c k Hr Hj Hk. apply (H r j c); [done|done|lia]. Qed.

Section Table.
Context (t : StateTable) (cols : list column) (m : memory) (vac : Z -> bool) (Hok : table_ok DEBUGI t cols m vac).
Context (g : Z -> nat -> Z -> Z) (Hg : cells_are t cols m g).

(** Changes of the bitmap do not reach the cells. *)
Lemma cells_kept m' : rows_kept t m m' -> cells_are t cols m' g.
Proof.
  intros Hk r j c k Hr Hj Hkk. rewrite Hk; [by apply Hg|].
  destruct (cell_byte _ _ _ _ _ Hok r j c (base t + stride t * r + fst c + k) Hr Hj ltac:(lia)) as (_ & H & _).
  assert (Hh := header_bounds _ _ _ _ _ Hok). assert (Hgap := gap_nonneg DEBUGI). lia.
Qed.

Lemma cells_zeroed m' r0 : row_zeroed t cols m m' r0 ->
  cells_are t cols m' (fun r j k => if r =? r0 then 0 else g r j k).
Proof.
  intros Hz r j c k Hr Hj Hk. rewrite (Hz r j c) by (done || lia). destruct (r =? r0); [done|]. by apply Hg.
Qed.

(** A change inside of one cell. *)
Lemma cell_change m' f r0 j0 c0 (v : Z -> Z) : 0 <= r0 < rowsCount t -> cols !! j0 = Some c0 ->
  updated m m' f -> (forall x b, f x = Some b -> 0 <= b < 256) ->
  (forall x, f x <> None -> base t + stride t * r0 + fst c0 <= x < base t + stride t * r0 + fst c0 + snd c0) ->
  (forall k, 0 <= k < snd c0 -> get m' (base t + stride t * r0 + fst c0 + k) = Some (v k)) ->
  table_ok DEBUGI (set_mem m' t) cols m' vac
  /\ cells_are t cols m' (fun r j k => if (r =? r0) && (j =? j0)%nat then v k else g r j k).
Proof.
  intros Hr0 Hj0 U Hb Hin Hv. split.
  - apply (table_update DEBUGI t cols m vac Hok m' f vac U Hb).
    + intros Hd r x Hr Hc. left. destruct (f x) eqn:E; [|done]. exfalso.
      assert (Hx := Hin x ltac:(congruence)). by rewrite (cell_unguarded _ _ _ _ _ Hok r0 j0 c0 x r Hd Hr0 Hr Hj0 Hx) in Hc.
    + apply (bitmap_update DEBUGI t cols m vac Hok m' f U). intros x Hx. destruct (f x) eqn:E; [|done]. exfalso.
      assert (Hx' := Hin x ltac:(congruence)). destruct (cell_byte _ _ _ _ _ Hok r0 j0 c0 x Hr0 Hj0 Hx') as (_ & H & _).
      assert (Hh := header_bounds _ _ _ _ _ Hok). assert (Hgap := gap_nonneg DEBUGI). lia.
    + apply (tk_padding _ _ _ _ _ Hok).
  - assert (Hother : forall r j c k, 0 <= r < rowsCount t -> cols !! j = Some c -> 0 <= k < snd c -> (r, j) <> (r0, j0) ->
              get m' (base t + stride t * r + fst c + k) = Some (g r j k)).
    { intros r j c k Hr Hj Hk Hne. set (x := base t + stride t * r + fst c + k).
      assert (Hxc : base t + stride t * r + fst c <= x < base t + stride t * r + fst c + snd c) by (unfold x; lia).
      rewrite (up_get _ _ _ U) by (by apply (cell_byte _ _ _ _ _ Hok r j c x Hr Hj Hxc)).
      destruct (f x) eqn:E; [exfalso|by apply Hg]. assert (Hx := Hin x ltac:(rewrite E; discriminate)).
      by apply (cells_disjoint _ _ _ _ _ Hok r r0 j j0 c c0 x Hr Hr0 Hj Hj0 Hne Hxc Hx). }
    intros r j c k Hr Hj Hk. destruct (Z.eqb_spec r r0) as [->|Hne]; [destruct (Nat.eqb_spec j j0) as [->|Hne]|]; cbn [andb].
    + rewrite Hj0 in Hj. injection Hj as <-. by apply Hv.
    + apply Hother; [done|done|done|congruence].
    + apply Hother; [done|done|done|congruence].
Qed.

Lemma store_cell r0 j0 c0 v : 0 <= r0 < rowsCount t -> cols !! j0 = Some c0 -> snd c0 = 4 -> is_word v ->
  exists m', store32 m (base t + stride t * r0 + fst c0) v = Ok m'
    /\ table_ok DEBUGI (set_mem m' t) cols m' vac
    /\ cells_are t cols m' (fun r j k => if (r =? r0) && (j =? j0)%nat then byte_of k v else g r j k).
Proof.
  intros Hr0 Hj0 Hs Hv. set (p := base t + stride t * r0 + fst c0).
  destruct (cell_byte _ _ _ _ _ Hok r0 j0 c0 p Hr0 Hj0 ltac:(unfold p; lia)) as ([I1 _] & _).
  destruct (cell_byte _ _ _ _ _ Hok r0 j0 c0 (p + 3) Hr0 Hj0 ltac:(unfold p; lia)) as ([_ I2] & _).
  destruct (store32_Ok m p v I1 ltac:(lia)) as (m' & E & U). exists m'. split; [done|].
  apply (cell_change m' (store_bytes p v) r0 j0 c0 (fun k => byte_of k v) Hr0 Hj0 U).
  - intros x b. apply store_bytes_range.
  - intros x Hx. unfold store_bytes in Hx. fold p. destruct (Z.leb_spec p x), (Z.ltb_spec x (p + 4)); cbn in Hx; try done. lia.
  - intros k Hk. fold p. rewrite (up_get _ _ _ U) by (split; lia). unfold store_bytes.
    rewrite (proj2 (Z.leb_le p (p + k))), (proj2 (Z.ltb_lt (p + k) (p + 4))) by lia. cbn. do 2 f_equal. lia.
Qed.

Lemma load_cell r0 j0 c0 v : 0 <= r0 < rowsCount t -> cols !! j0 = Some c0 -> snd c0 = 4 -> is_word v ->
  (forall k, 0 <= k < 4 -> g r0 j0 k = byte_of k v) -> load32 m (base t + stride t * r0 + fst c0) = Ok v.
Proof.
  intros Hr0 Hj0 Hs Hv H. apply load32_Ok; [done|]. intros k Hk. rewrite <- H by done. apply Hg; [done|done|lia].
Qed.

Lemma write_cell r0 j0 c0 k0 b : 0 <= r0 < rowsCount t -> cols !! j0 = Some c0 -> 0 <= k0 < snd c0 -> 0 <= b < 256 ->
  let m' := set m (base t + stride t * r0 + fst c0 + k0) b in
  table_ok DEBUGI (set_mem m' t) cols m' vac
  /\ cells_are t cols m' (fun r j k => if (r =? r0) && (j =? j0)%nat then (if k =? k0 then b else g r0 j0 k) else g r j k).
Proof.
  intros Hr0 Hj0 Hk0 Hb. cbv zeta. set (p := base t + stride t * r0 + fst c0).
  assert (U := set_updated m (p + k0) b (proj1 (cell_byte _ _ _ _ _ Hok r0 j0 c0 (p + k0) Hr0 Hj0 ltac:(unfold p; lia)))).
  apply (cell_change _ _ r0 j0 c0 (fun k => if k =? k0 then b else g r0 j0 k) Hr0 Hj0 U).
  - intros x b'. destruct (x =? p + k0); [|done]. intros [= <-]. done.
  - intros x Hx. cbn beta in Hx. fold p. destruct (Z.eqb_spec x (p + k0)) as [E|E]; [lia|done].
  - intros k Hk. fold p. rewrite (up_get _ _ _ U).
    + destruct (Z.eqb_spec k k0) as [->|Hn]; [by rewrite Z.eqb_refl|].
      rewrite (proj2 (Z.eqb_neq (p + k) (p + k0))) by lia. by apply Hg.
    + by apply (cell_byte _ _ _ _ _ Hok r0 j0 c0 (p + k) Hr0 Hj0 ltac:(unfold p; lia)).
Qed.

End Table.
End Cells.
