(* ===== verification/ClSpec.v ===== *)
(** * What the table of clients promises

    The abstract registry behind src/kernel/sm/wu/wuclients.cpp: which clients
    are registered, which of them are ready, what their state blocks hold and
    which one is current.  [spec_call] gives the reply to a call and the next
    registry; it has none for a call outside of the contract: a number of a
    client that is in range but not registered, or an access outside of a block.
    [impl_call] is the same call to the code. *)

From Stdlib Require Import ZArith List Lia Bool.
From stdpp Require Import base gmap list.
From S2P Require Import Prelude WuBase WuAux StateTable Clients.
Local Open Scope sedna_scope.
Local Open Scope Z_scope.

(** ** The registry *)

Record entry := mk_entry_of { e_ready : bool; e_blocks : list (list Z) }.

Record registry := mk_registry {
  r_clients : gmap Z entry;
  r_current : Z;                  (* -1: none *)
  r_locks : Z
}.

Definition empty_registry : registry := mk_registry ∅ (-1) 0.

Inductive cl_call :=
| RegisterFixed (id : Z)
| RegisterAny
| MarkReady (id : Z)
| MarkLeaving (id : Z)
| Unregister (id : Z)
| SetCurrent (id : Z)
| IsReady (id : Z)
| LockSet
| UnlockSet
| ReadByte (j : nat) (id k : Z)
| WriteByte (j : nat) (id k b : Z)
| ReadCurrent (j : nat) (k : Z)
| WriteCurrent (j : nat) (k b : Z).

Inductive reply :=
| RUnit
| RId (id : Z)
| RFlag (b : bool)
| RByte (b : Z)
| RError (e : wuerr).

Section Spec.
(** The number of rows and the sizes of the blocks of a client. *)
Context (rows : Z) (sizes : list Z).

Definition in_range (id : Z) : bool := (0 <=? id) && (id <? rows).

Definition fresh_entry : entry := mk_entry_of false (map (fun n => repeat 0 (Z.to_nat n)) sizes).

(** The first number that is not registered. *)
Definition first_free (a : registry) : option Z :=
  List.find (fun r => bool_decide (r_clients a !! r = None)) (map Z.of_nat (seq 0 (Z.to_nat rows))).

Definition put_entry (id : Z) (e : entry) (a : registry) : registry :=
  mk_registry (<[id := e]> (r_clients a)) (r_current a) (r_locks a).

Definition register (id : Z) (a : registry) : reply * registry := (RId id, put_entry id fresh_entry a).

(** A call that needs a registered client. *)
Definition with_entry (id : Z) (e : wuerr) (a : registry) (k : entry -> option (reply * registry))
  : option (reply * registry) :=
  if in_range id then
    match r_clients a !! id with
    | Some c => k c
    | None => None
    end
  else Some (RError e, a).

Definition block_byte (c : entry) (j : nat) (k : Z) : option Z :=
  match e_blocks c !! j with
  | Some blk => if 0 <=? k then blk !! Z.to_nat k else None
  | None => None
  end.

Definition set_block_byte (c : entry) (j : nat) (k b : Z) : entry :=
  match e_blocks c !! j with
  | Some blk => mk_entry_of (e_ready c) (<[j := <[Z.to_nat k := b]> blk]> (e_blocks c))
  | None => c
  end.

Definition spec_read (j : nat) (id k : Z) (a : registry) : option (reply * registry) :=
  if (j <? length sizes)%nat then
    with_entry id WUERR_STATE_TABLE_BAD_ROW_ID a (fun c =>
      match block_byte c j k with
      | Some b => Some (RByte b, a)
      | None => None
      end)
  else None.

Definition spec_write (j : nat) (id k b : Z) (a : registry) : option (reply * registry) :=
  if (j <? length sizes)%nat then
    with_entry id WUERR_STATE_TABLE_BAD_ROW_ID a (fun c =>
      match block_byte c j k with
      | Some _ => Some (RUnit, put_entry id (set_block_byte c j k b) a)
      | None => None
      end)
  else None.

Definition spec_mark (ready : bool) (id : Z) (a : registry) : option (reply * registry) :=
  if 0 <? r_locks a then Some (RError WUERR_CLIENT_SET_DEADLOCK_DETECTED, a)
  else
    with_entry id WUERR_BAD_CLIENT_ID a (fun c =>
      if Bool.eqb (e_ready c) ready
      then Some (RError (if ready then WUERR_CLIENT_ALREADY_MARKED_READY else WUERR_CLIENT_ALREADY_MARKED_LEAVING), a)
      else Some (RUnit, put_entry id (mk_entry_of ready (e_blocks c)) a)).

Definition spec_call (c : cl_call) (a : registry) : option (reply * registry) :=
  match c with
  | RegisterFixed id =>
      Some (if in_range id then
              match r_clients a !! id with
              | Some _ => (RError WUERR_CLIENT_ID_ALREADY_IN_USE, a)
              | None => register id a
              end
            else (RError WUERR_BAD_CLIENT_ID, a))
  | RegisterAny =>
      match first_free a with
      | Some id => Some (register id a)
      | None => if rows <=? 32 then Some (RError WUERR_STATE_TABLE_FULL, a) else None
      end
  | MarkReady id => spec_mark true id a
  | MarkLeaving id => spec_mark false id a
  | Unregister id =>
      with_entry id WUERR_BAD_CLIENT_ID a (fun c =>
        if r_current a =? id then Some (RError WUERR_UNABLE_TO_UNREGISTER_CURRENT_CLIENT, a)
        else if e_ready c then Some (RError WUERR_UNABLE_TO_UNREGISTER_READY_CLIENT, a)
        else Some (RUnit, mk_registry (delete id (r_clients a)) (r_current a) (r_locks a)))
  | SetCurrent id =>
      let a := mk_registry (r_clients a) (-1) (r_locks a) in
      if id =? -1 then Some (RUnit, a)
      else with_entry id WUERR_BAD_CLIENT_ID a (fun _ =>
             Some (RUnit, mk_registry (r_clients a) id (r_locks a)))
  | IsReady id => with_entry id WUERR_BAD_CLIENT_ID a (fun c => Some (RFlag (e_ready c), a))
  | LockSet =>
      Some (if r_locks a =? INT_MAX then (RError WUERR_CLIENT_SET_MAX_NUMBER_OF_LOCKS_EXCEEDED, a)
            else (RUnit, mk_registry (r_clients a) (r_current a) (r_locks a + 1)))
  | UnlockSet =>
      Some (if r_locks a <=? 0 then (RError WUERR_CLIENT_SET_ALREADY_UNLOCKED, a)
            else (RUnit, mk_registry (r_clients a) (r_current a) (r_locks a - 1)))
  | ReadByte j id k => spec_read j id k a
  | WriteByte j id k b => if (0 <=? b) && (b <? 256) then spec_write j id k b a else None
  | ReadCurrent j k => spec_read j (r_current a) k a
  | WriteCurrent j k b => if (0 <=? b) && (b <? 256) then spec_write j (r_current a) k b a else None
  end.

Fixpoint spec_run (l : list cl_call) (a : registry) : option (list reply * registry) :=
  match l with
  | [] => Some ([], a)
  | c :: l =>
      match spec_call c a with
      | None => None
      | Some (r, a) =>
          match spec_run l a with
          | None => None
          | Some (rs, a) => Some (r :: rs, a)
          end
      end
  end.

End Spec.

(** ** The code *)

Section Impl.
Context (DEBUGI : bool) (malloc : Z -> option Z) (wide_shift : Z -> Z).
(** The tickets of the blocks. *)
Context (tickets : list Z).

Definition replied {A} (f : A -> reply) (o : outcome cl_state A) : reply * cl_state :=
  match o with
  | Done a s => (f a, s)
  | Failed e s => (RError e, s)
  end.

Definition ticket (j : nat) : Z := nth j tickets 0.

Definition impl_call (c : cl_call) (s : cl_state) : reply * cl_state :=
  match c with
  | RegisterFixed id => replied RId (ClRegisterClient DEBUGI wide_shift id true s)
  | RegisterAny => replied RId (ClRegisterClient DEBUGI wide_shift (-1) false s)
  | MarkReady id => replied (fun _ => RUnit) (ClMarkClientReady DEBUGI wide_shift id s)
  | MarkLeaving id => replied (fun _ => RUnit) (ClMarkClientLeaving DEBUGI wide_shift id s)
  | Unregister id => replied (fun _ => RUnit) (ClUnregisterClient DEBUGI wide_shift id s)
  | SetCurrent id => replied (fun _ => RUnit) (ClSetCurrentClientId DEBUGI wide_shift id s)
  | IsReady id => replied RFlag (ClIsClientReady wide_shift id s)
  | LockSet => replied (fun _ => RUnit) (ClLockClientsSet s)
  | UnlockSet => replied (fun _ => RUnit) (ClUnlockClientsSet DEBUGI s)
  | ReadByte j id k =>
      replied RByte ((do! p <- ClGetStateBlock DEBUGI wide_shift (ticket j) id; read_byte (p + k)) s)
  | WriteByte j id k b =>
      replied (fun _ => RUnit)
        ((do! p <- ClGetStateBlock DEBUGI wide_shift (ticket j) id; write_byte (p + k) b) s)
  | ReadCurrent j k =>
      replied RByte ((do! p <- ClGetCurrentStateBlock DEBUGI wide_shift (ticket j); read_byte (p + k)) s)
  | WriteCurrent j k b =>
      replied (fun _ => RUnit)
        ((do! p <- ClGetCurrentStateBlock DEBUGI wide_shift (ticket j); write_byte (p + k) b) s)
  end.

Fixpoint impl_run (l : list cl_call) (s : cl_state) : list reply * cl_state :=
  match l with
  | [] => ([], s)
  | c :: l =>
      let '(r, s) := impl_call c s in
      let '(rs, s) := impl_run l s in
      (r :: rs, s)
  end.

(** The start, as in [WuInit]: the blocks are reserved one after the other,
    then the rows are created. *)
Fixpoint reserve_all (sizes : list Z) : wu cl_state (list Z) :=
  match sizes with
  | [] => wu_ret []
  | n :: sizes =>
      do! tk <- ClReserveStateBlocks DEBUGI n;
      do! tks <- reserve_all sizes;
      wu_ret (tk :: tks)
  end.

Definition cl_start (sizes : list Z) (rows maxSizePerClient : Z) : wu cl_state (list Z) :=
  do! _ <- ClInitialize DEBUGI;
  do! tks <- reserve_all sizes;
  do! _ <- ClStartup DEBUGI malloc rows maxSizePerClient;
  wu_ret tks.

End Impl.

(** The static variables at the start of the process. *)
Definition static_state : cl_state := mk_cl (mk_table 0 0 None 0 0 0 [] []) None 0 0 (-1) 0 false.
