(* ===== verification/ClRefine.v ===== *)
(** * The code of the clients implements the registry

    The relation between the variables of src/kernel/sm/wu/wuclients.cpp and
    the registry of ClSpec.v, and its preservation by every call. *)

From Stdlib Require Import ZArith List Lia Bool.
From stdpp Require Import base gmap list.
From S2P Require Import Prelude WuBase WuAux StGuard StateTable StLayout StRows StOps StBits StFind Clients ClCells ClSpec.
Local Open Scope sedna_scope.
Local Open Scope Z_scope.

(** ** Bitmaps of ready clients *)

Definition ready_is (b : list Z) (f : Z -> bool) : Prop :=
  forall i w, b !! i = Some w -> is_word w /\ forall k, 0 <= k < 32 -> Z.testbit w k = f (32 * Z.of_nat i + k).

Lemma ready_lookup b f rows r : 0 <= r < rows -> Z.of_nat (length b) = bitmap_words rows -> ready_is b f ->
  exists w, b !! Z.to_nat (r / 32) = Some w /\ is_word w /\ Z.testbit w (r mod 32) = f r.
Proof.
  intros Hr Hl H. destruct (lookup_lt_is_Some_2 b (Z.to_nat (r / 32))) as [w Hw].
  { unfold bitmap_words in Hl. Z.div_mod_to_equations; lia. }
  exists w. destruct (H _ _ Hw) as [H1 H2]. split; [done|]. split; [done|]. rewrite H2 by (Z.div_mod_to_equations; lia).
  f_equal. Z.div_mod_to_equations; lia.
Qed.

Lemma ready_mask_spec r : 0 <= r -> ready_mask r = 2 ^ (r mod 32).
Proof. intros Hr. unfold ready_mask. by rewrite Z.shiftl_1_l, Z.rem_mod_nonneg by lia. Qed.

Lemma ready_update b f f' r w v : 0 <= r -> b !! Z.to_nat (r / 32) = Some w -> is_word v ->
  (forall k, 0 <= k < 32 -> Z.testbit v k = if k =? r mod 32 then f' r else Z.testbit w k) ->
  (forall x, x <> r -> f' x = f x) -> ready_is b f -> ready_is (<[Z.to_nat (r / 32) := v]> b) f'.
Proof.
  intros Hr Hw Hv Hbits Hf H i w' Hi. destruct (Nat.eq_dec i (Z.to_nat (r / 32))) as [->|Hn].
  - rewrite list_lookup_insert_eq in Hi by (by apply (lookup_lt_Some _ _ w)). injection Hi as <-. split; [done|].
    intros k Hk. rewrite Hbits by done. destruct (H _ _ Hw) as [_ H2]. rewrite Z2Nat.id in * by (Z.div_mod_to_equations; lia).
    destruct (Z.eqb_spec k (r mod 32)) as [->|Hne].
    + f_equal. Z.div_mod_to_equations; lia.
    + rewrite H2 by done. symmetry. apply Hf. Z.div_mod_to_equations; lia.
  - rewrite list_lookup_insert_ne in Hi by done. destruct (H _ _ Hi) as [H1 H2]. split; [done|].
    intros k Hk. rewrite H2 by done. symmetry. apply Hf. Z.div_mod_to_equations; lia.
Qed.

Lemma on_table_spec {A} (c : wu StateTable A) s :
  on_table c s = match c (stateTable s) with
                 | Done x t => Done x (with_table t s)
                 | Failed e t => Failed e (with_table t s)
                 end.
Proof. done. Qed.

Lemma with_same_table s : with_table (stateTable s) s = s.
Proof. by destruct s. Qed.

Section Refine.
Context (DEBUGI : bool) (wide_shift : Z -> Z) (Hshift : forall n, 32 <= n -> wide_shift n = 2 ^ (n mod 32)).
Context (rows : Z) (sizes : list Z) (tickets : list Z).
Abbreviation column := (Z * Z)%type.

Definition ready_in (a : registry) (r : Z) : bool :=
  match r_clients a !! r with Some e => e_ready e | None => false end.

(** The number that [currentCntr] has for a client. *)
Definition counter (a : registry) (r : Z) : Z := if r_current a =? r then 1 else 0.

(** What a byte of the table holds: the counter of the client in the first
    column, its blocks in the others, zero in a vacant row. *)
Definition content (a : registry) (r : Z) (j : nat) (k : Z) : Z :=
  match r_clients a !! r with
  | None => 0
  | Some e =>
      match j with
      | O => byte_of k (counter a r)
      | S j => nth (Z.to_nat k) (nth j (e_blocks e) []) 0
      end
  end.

Definition ready_count (cl : gmap Z entry) : nat := size (filter (fun p => e_ready p.2 = true) cl).

Record refines (s : cl_state) (a : registry) (cols : list column) (m : memory) (vac : Z -> bool) (b : list Z) : Prop := {
  rf_table : table_ok DEBUGI (stateTable s) cols m vac;
  rf_rows : rowsCount (stateTable s) = rows;
  rf_cols : exists rest, cols = (0, 4) :: rest /\ map snd rest = sizes;
  rf_sizes : Forall (fun n => 0 < n) sizes;
  rf_aligned : forall j c, cols !! j = Some c -> fst c mod 8 = 0;
  rf_tickets : forall j c, cols !! S j = Some c -> ticket tickets j = ticket_of (S j) c;
  rf_vac : forall r, 0 <= r < rows -> vac r = bool_decide (r_clients a !! r = None);
  rf_dom : forall r, is_Some (r_clients a !! r) -> 0 <= r < rows;
  rf_blocks : forall r e, r_clients a !! r = Some e ->
    map (fun blk => Z.of_nat (length blk)) (e_blocks e) = sizes;
  rf_cells : cells_are (stateTable s) cols m (content a);
  rf_bitmap : readyClientsBitmap s = Some b;
  rf_words : Z.of_nat (length b) = bitmap_words rows;
  rf_ready : ready_is b (ready_in a);
  rf_count : clientsCount s = Z.of_nat (size (r_clients a));
  rf_readies : readyClientsCount s = Z.of_nat (ready_count (r_clients a));
  rf_current : currentClientId s = r_current a;
  rf_current_ok : r_current a = -1 \/ is_Some (r_clients a !! r_current a);
  rf_locks : clientSetLockCount s = r_locks a /\ 0 <= r_locks a
}.

Definition related (s : cl_state) (a : registry) : Prop := exists cols m vac b, refines s a cols m vac b.

(** ** Lookups *)

Section State.
Context (s : cl_state) (a : registry) (cols : list column) (m : memory) (vac : Z -> bool) (b : list Z).
Context (R : refines s a cols m vac b).

Lemma range_valid r : valid_row (stateTable s) r = in_range rows r.
Proof. unfold valid_row, in_range. by rewrite (rf_rows _ _ _ _ _ _ R). Qed.

Lemma in_range_iff r : in_range rows r = true <-> 0 <= r < rows.
Proof. unfold in_range. rewrite andb_true_iff, Z.leb_le, Z.ltb_lt. lia. Qed.

Lemma registered_vac r e : r_clients a !! r = Some e -> 0 <= r < rows /\ vac r = false.
Proof.
  intros H. assert (Hr := rf_dom _ _ _ _ _ _ R r (mk_is_Some _ _ H)). split; [done|].
  rewrite (rf_vac _ _ _ _ _ _ R r Hr). apply bool_decide_eq_false. congruence.
Qed.

(** A number is valid when it is registered, and is refused out of range. *)
Lemma valid_registered r e : r_clients a !! r = Some e -> on_table (IsValidStateTableRowId wide_shift r) s = Done tt s.
Proof.
  intros H. destruct (registered_vac r e H) as [Hr Hv].
  rewrite on_table_spec, (is_valid_ok DEBUGI _ _ _ _ (rf_table _ _ _ _ _ _ R) wide_shift Hshift r), range_valid, Hv.
  rewrite (proj2 (in_range_iff r) Hr). cbn. by rewrite with_same_table.
Qed.

Lemma invalid_range r : in_range rows r = false ->
  on_table (IsValidStateTableRowId wide_shift r) s = Failed WUERR_STATE_TABLE_BAD_ROW_ID s.
Proof.
  intros H. rewrite on_table_spec, (is_valid_ok DEBUGI _ _ _ _ (rf_table _ _ _ _ _ _ R) wide_shift Hshift r), range_valid, H.
  cbn. by rewrite with_same_table.
Qed.

Lemma cell_registered r e j c : r_clients a !! r = Some e -> cols !! j = Some c -> 0 < snd c ->
  on_table (GetStateTableCell DEBUGI wide_shift (ticket_of j c) r) s
  = Done (base (stateTable s) + stride (stateTable s) * r + fst c) s.
Proof.
  intros H Hj Hs. destruct (registered_vac r e H) as [Hr Hv].
  rewrite on_table_spec, (get_cell_ok DEBUGI _ _ _ _ (rf_table _ _ _ _ _ _ R) wide_shift Hshift r j c Hj Hs), range_valid, Hv.
  rewrite (proj2 (in_range_iff r) Hr). cbn. by rewrite with_same_table.
Qed.

Lemma cell_range r j c : in_range rows r = false -> cols !! j = Some c -> 0 < snd c ->
  on_table (GetStateTableCell DEBUGI wide_shift (ticket_of j c) r) s = Failed WUERR_STATE_TABLE_BAD_ROW_ID s.
Proof.
  intros H Hj Hs. rewrite on_table_spec, (get_cell_ok DEBUGI _ _ _ _ (rf_table _ _ _ _ _ _ R) wide_shift Hshift r j c Hj Hs), range_valid, H.
  cbn. by rewrite with_same_table.
Qed.

Lemma master_column : cols !! 0%nat = Some (0, 4).
Proof. destruct (rf_cols _ _ _ _ _ _ R) as (rest & -> & _). done. Qed.

Lemma master_registered r e : r_clients a !! r = Some e ->
  on_table (GetStateTableMasterCell DEBUGI wide_shift r) s = Done (base (stateTable s) + stride (stateTable s) * r + 0) s.
Proof. intros H. exact (cell_registered r e 0%nat (0, 4) H master_column ltac:(cbn; lia)). Qed.

Lemma master_range r : in_range rows r = false ->
  on_table (GetStateTableMasterCell DEBUGI wide_shift r) s = Failed WUERR_STATE_TABLE_BAD_ROW_ID s.
Proof. intros H. exact (cell_range r 0%nat (0, 4) H master_column ltac:(cbn; lia)). Qed.

Lemma counter_word r : is_word (counter a r).
Proof. unfold is_word, counter. destruct (r_current a =? r); lia. Qed.

Lemma load_counter r e : r_clients a !! r = Some e ->
  load_cntr (base (stateTable s) + stride (stateTable s) * r + 0) s = Done (counter a r) s.
Proof.
  intros H. destruct (registered_vac r e H) as [Hr _]. unfold load_cntr.
  rewrite (tk_mem _ _ _ _ _ (rf_table _ _ _ _ _ _ R)).
  assert (E : load32 m (base (stateTable s) + stride (stateTable s) * r + 0) = Ok (counter a r)).
  { apply (load_cell (stateTable s) cols m (content a) (rf_cells _ _ _ _ _ _ R) r 0%nat (0, 4) (counter a r)).
    - by rewrite (rf_rows _ _ _ _ _ _ R).
    - apply master_column.
    - done.
    - apply counter_word.
    - intros k Hk. unfold content. by rewrite H. }
  rewrite E. f_equal. apply int32_small. unfold counter, in_int, INT_MIN, INT_MAX. destruct (r_current a =? r); lia.
Qed.

Lemma ready_word_ok r : 0 <= r < rows ->
  exists w, ready_word r s = Done w s /\ b !! Z.to_nat (r / 32) = Some w /\ is_word w
    /\ (Z.land w (ready_mask r) =? 0) = negb (ready_in a r) /\ (Z.land (ready_mask r) w =? 0) = negb (ready_in a r).
Proof.
  intros Hr. destruct (ready_lookup b (ready_in a) rows r Hr (rf_words _ _ _ _ _ _ R) (rf_ready _ _ _ _ _ _ R)) as (w & Hw & Hww & Hb).
  exists w. unfold ready_word. rewrite (rf_bitmap _ _ _ _ _ _ R), Hw. split; [done|]. split; [done|]. split; [done|].
  rewrite (Z.land_comm (ready_mask r)), ready_mask_spec, land_pow2, Hb by (try apply Z.mod_pos_bound; lia). done.
Qed.

End State.
End Refine.
