(* ===== verification/ClOps.v ===== *)
(** * The calls of the clients, one by one

    Every call of src/kernel/sm/wu/wuclients.cpp replies as the registry of
    ClSpec.v says, and keeps the relation of ClRefine.v. *)

From Stdlib Require Import ZArith List Lia Bool.
From stdpp Require Import base gmap list.
From S2P Require Import Prelude WuBase WuAux StGuard StateTable StLayout StRows StOps StBits StFind Clients ClCells ClSpec ClRefine.
Local Open Scope sedna_scope.
Local Open Scope Z_scope.

(** ** Counting *)

Definition bit (b : bool) : nat := if b then 1%nat else 0%nat.

Lemma ready_count_insert cl r e : cl !! r = None ->
  ready_count (<[r := e]> cl) = (ready_count cl + bit (e_ready e))%nat.
Proof.
  intros H. unfold ready_count. destruct (e_ready e) eqn:E; cbn [bit].
  - rewrite map_filter_insert_True by done. rewrite map_size_insert_None; [lia|]. apply map_lookup_filter_None. by left.
  - rewrite map_filter_insert_False by (cbn; congruence). rewrite delete_id by done. lia.
Qed.

Lemma ready_count_delete cl r e : cl !! r = Some e ->
  ready_count cl = (ready_count (delete r cl) + bit (e_ready e))%nat.
Proof. intros H. rewrite <- (insert_delete_id cl r e H) at 1. apply ready_count_insert, lookup_delete_eq. Qed.

Lemma ready_count_update cl r e e' : cl !! r = Some e ->
  (ready_count (<[r := e']> cl) + bit (e_ready e) = ready_count cl + bit (e_ready e'))%nat.
Proof.
  intros H. rewrite <- insert_delete_eq, ready_count_insert by apply lookup_delete_eq. rewrite (ready_count_delete cl r e H). lia.
Qed.

Section Calls.
Context (DEBUGI : bool) (wide_shift : Z -> Z) (Hshift : forall n, 32 <= n -> wide_shift n = 2 ^ (n mod 32)).
Context (rows : Z) (sizes : list Z) (tickets : list Z).
Abbreviation column := (Z * Z)%type.
Abbreviation refines := (refines DEBUGI rows sizes tickets).
Abbreviation related := (related DEBUGI rows sizes tickets).
Abbreviation impl := (impl_call DEBUGI wide_shift tickets).

Section State.
Context (s : cl_state) (a : registry) (cols : list column) (m : memory) (vac : Z -> bool) (b : list Z).
Context (R : refines s a cols m vac b).

Lemma related_self : related s a.
Proof. by exists cols, m, vac, b. Qed.

(** ** The set of ready clients *)

Lemma relocked n : 0 <= n -> related (with_locks n s) (mk_registry (r_clients a) (r_current a) n).
Proof. intros Hn. exists cols, m, vac, b. destruct R. by split. Qed.

Lemma lock_ok rep a' : spec_call rows sizes LockSet a = Some (rep, a') ->
  exists s', impl LockSet s = (rep, s') /\ related s' a'.
Proof.
  cbn [spec_call impl_call]. unfold ClLockClientsSet, wu_bind, wu_get. destruct (rf_locks _ _ _ _ _ _ _ _ _ _ R) as [-> Hl].
  destruct (r_locks a =? INT_MAX); intros [= <- <-].
  - exists s. split; [done|apply related_self].
  - eexists. split; [done|]. apply relocked. lia.
Qed.

Lemma unlock_ok rep a' : spec_call rows sizes UnlockSet a = Some (rep, a') ->
  exists s', impl UnlockSet s = (rep, s') /\ related s' a'.
Proof.
  cbn [spec_call impl_call]. unfold ClUnlockClientsSet, wu_bind, wu_get. destruct (rf_locks _ _ _ _ _ _ _ _ _ _ R) as [-> Hl].
  destruct (Z.leb_spec (r_locks a) 0); intros [= <- <-].
  - assert (r_locks a = 0) as -> by lia. cbn [Z.eqb negb]. rewrite andb_false_r.
    exists s. split; [done|apply related_self].
  - eexists. split; [done|]. apply relocked. lia.
Qed.

(** Another entry for a registered client, with blocks of the same sizes. *)
Lemma entry_changed r e e' : r_clients a !! r = Some e ->
  map (fun blk => Z.of_nat (length blk)) (e_blocks e') = sizes ->
  let a' := put_entry r e' a in
  (forall x, 0 <= x < rows -> vac x = bool_decide (r_clients a' !! x = None))
  /\ (forall x, is_Some (r_clients a' !! x) -> 0 <= x < rows)
  /\ (forall x e0, r_clients a' !! x = Some e0 -> map (fun blk => Z.of_nat (length blk)) (e_blocks e0) = sizes)
  /\ clientsCount s = Z.of_nat (size (r_clients a'))
  /\ (r_current a' = -1 \/ is_Some (r_clients a' !! r_current a')).
Proof.
  intros He Hb. cbn. assert (Hne : forall x, x <> r -> <[r := e']> (r_clients a) !! x = r_clients a !! x) by (intros x Hx; by rewrite lookup_insert_ne).
  destruct R. repeat split.
  - intros x Hx. rewrite rf_vac by done. destruct (decide (x = r)) as [->|Hx']; [by rewrite lookup_insert_eq, He|by rewrite Hne].
  - destruct (decide (x = r)) as [->|Hx']; [apply rf_dom; by exists e|]. rewrite Hne in H by done. by apply rf_dom.
  - destruct (decide (x = r)) as [->|Hx']; [apply rf_dom; by exists e|]. rewrite Hne in H by done. by apply rf_dom.
  - intros x e0. destruct (decide (x = r)) as [->|Hx']; [rewrite lookup_insert_eq; by intros [= <-]|]. rewrite Hne by done. apply rf_blocks.
  - rewrite map_size_insert_Some; [done|by exists e].
  - destruct rf_current_ok as [|Hc]; [by left|right]. destruct (decide (r_current a = r)) as [->|Hx']; [by rewrite lookup_insert_eq|by rewrite Hne].
Qed.

(** A client is marked: the ready bit and the number of ready clients. *)
Lemma marked r e v w n : r_clients a !! r = Some e -> b !! Z.to_nat (r / 32) = Some w -> is_word v ->
  (forall k, 0 <= k < 32 -> Z.testbit v k = if k =? r mod 32 then negb (e_ready e) else Z.testbit w k) ->
  n = readyClientsCount s + (if e_ready e then -1 else 1) ->
  related (with_ready (Some (<[Z.to_nat (r / 32) := v]> b)) n s) (put_entry r (mk_entry_of (negb (e_ready e)) (e_blocks e)) a).
Proof.
  intros He Hw Hv Hbits Hn. destruct (registered_vac _ _ _ _ _ _ _ _ _ _ R r e He) as [Hr _].
  destruct (entry_changed r e (mk_entry_of (negb (e_ready e)) (e_blocks e)) He (rf_blocks _ _ _ _ _ _ _ _ _ _ R r e He)) as (F1 & F2 & F3 & F4 & F5).
  exists cols, m, vac, (<[Z.to_nat (r / 32) := v]> b). destruct R. split; try done.
  - eapply cells_ext; [|exact rf_cells]. intros x j c k _ _ _. unfold content, counter. cbn.
    destruct (decide (x = r)) as [->|Hne]; [by rewrite lookup_insert_eq, He|by rewrite lookup_insert_ne].
  - by rewrite length_insert.
  - apply (ready_update b (ready_in a) _ r w v); [lia|done|done| | |done].
    + intros k Hk. rewrite Hbits by done. unfold ready_in. cbn. by rewrite lookup_insert_eq.
    + intros x Hx. unfold ready_in. cbn. by rewrite lookup_insert_ne.
  - cbn. rewrite Hn, rf_readies. assert (H := ready_count_update (r_clients a) r e (mk_entry_of (negb (e_ready e)) (e_blocks e)) He).
    destruct (e_ready e); cbn in *; lia.
Qed.

(** A failed call with the numbers of clients instead of rows. *)
Lemma client_error {A} (c : wu cl_state A) : c s = Failed WUERR_STATE_TABLE_BAD_ROW_ID s ->
  as_client_error c s = Failed WUERR_BAD_CLIENT_ID s.
Proof. intros H. unfold as_client_error. by rewrite H, decide_True. Qed.

Lemma client_done {A} (c : wu cl_state A) x s' : c s = Done x s' -> as_client_error c s = Done x s'.
Proof. intros H. unfold as_client_error. by rewrite H. Qed.

Lemma mark_ok ready r rep a' : spec_mark rows ready r a = Some (rep, a') ->
  exists s', replied (fun _ => RUnit) (ClMarkClientReadyOrLeaving DEBUGI wide_shift r (if ready then 1 else 2) s) = (rep, s')
    /\ related s' a'.
Proof.
  unfold spec_mark, ClMarkClientReadyOrLeaving. unfold wu_bind at 1, wu_get at 1.
  rewrite (proj1 (rf_locks _ _ _ _ _ _ _ _ _ _ R)). destruct (0 <? r_locks a).
  { intros [= <- <-]. exists s. split; [done|apply related_self]. }
  unfold with_entry. destruct (in_range rows r) eqn:Hr.
  2: { intros [= <- <-]. unfold wu_bind at 1. rewrite client_error by (by apply (invalid_range _ _ Hshift _ _ _ _ _ _ _ _ _ R)).
       exists s. split; [done|apply related_self]. }
  destruct (r_clients a !! r) as [e|] eqn:He; [|done]. intros Hspec.
  unfold wu_bind at 1. rewrite (client_done _ tt s) by (by apply (valid_registered _ _ Hshift _ _ _ _ _ _ _ _ _ R r e)).
  apply in_range_iff in Hr. destruct (ready_word_ok _ _ _ _ _ _ _ _ _ _ R r Hr) as (w & E & Hw & Hww & E1 & E2).
  unfold wu_bind. rewrite E. assert (Hre : ready_in a r = e_ready e) by (unfold ready_in; by rewrite He). rewrite Hre in *.
  assert (Hm : 0 <= r mod 32 < 32) by (apply Z.mod_pos_bound; lia).
  destruct ready; cbn [Z.eqb Pos.eqb]; rewrite E2; destruct (e_ready e) eqn:Ere; cbn [Bool.eqb negb] in *;
    injection Hspec as <- <-; try (exists s; split; [done|apply related_self]).
  - unfold put_ready_word. rewrite (rf_bitmap _ _ _ _ _ _ _ _ _ _ R). eexists. split; [done|].
    assert (H := marked r e (Z.lor w (ready_mask r)) w (readyClientsCount s + 1) He Hw). rewrite Ere in H.
    apply H; [rewrite ready_mask_spec by lia; by apply set_bit_word| |done].
    intros k Hk. rewrite ready_mask_spec, set_bit_spec by lia. by destruct (k =? r mod 32).
  - unfold put_ready_word. rewrite (rf_bitmap _ _ _ _ _ _ _ _ _ _ R). eexists. split; [done|].
    assert (H := marked r e (Z.land w (Z.lnot (ready_mask r))) w (readyClientsCount s - 1) He Hw). rewrite Ere in H.
    apply H; [rewrite ready_mask_spec by lia; apply clear_bit_word; [done|lia]| |lia].
    intros k Hk. rewrite ready_mask_spec, clear_bit_spec by lia. by destruct (k =? r mod 32).
Qed.

Lemma is_ready_ok r rep a' : spec_call rows sizes (IsReady r) a = Some (rep, a') ->
  exists s', impl (IsReady r) s = (rep, s') /\ related s' a'.
Proof.
  cbn [spec_call impl_call]. unfold with_entry, ClIsClientReady. destruct (in_range rows r) eqn:Hr.
  2: { intros [= <- <-]. unfold wu_bind at 1. rewrite client_error by (by apply (invalid_range _ _ Hshift _ _ _ _ _ _ _ _ _ R)).
       exists s. split; [done|apply related_self]. }
  destruct (r_clients a !! r) as [e|] eqn:He; [|done]. intros [= <- <-].
  unfold wu_bind at 1. rewrite (client_done _ tt s) by (by apply (valid_registered _ _ Hshift _ _ _ _ _ _ _ _ _ R r e)).
  apply in_range_iff in Hr. destruct (ready_word_ok _ _ _ _ _ _ _ _ _ _ R r Hr) as (w & E & _ & _ & E1 & _).
  unfold wu_bind. rewrite E, E1, negb_involutive. unfold ready_in. rewrite He. exists s. split; [done|apply related_self].
Qed.

(** ** State blocks *)

Lemma block_column j : (j < length sizes)%nat -> exists c, cols !! S j = Some c /\ sizes !! j = Some (snd c) /\ 0 < snd c.
Proof.
  intros Hj. destruct (rf_cols _ _ _ _ _ _ _ _ _ _ R) as (rest & -> & Hs). rewrite <- Hs, length_map in Hj.
  destruct (lookup_lt_is_Some_2 rest j Hj) as [c Hc]. exists c. split; [done|].
  assert (Hsz : sizes !! j = Some (snd c)) by (rewrite <- Hs; change (map snd rest) with (snd <$> rest); rewrite list_lookup_fmap, Hc; done).
  split; [done|]. assert (H := rf_sizes _ _ _ _ _ _ _ _ _ _ R). rewrite Forall_lookup in H. by apply (H j).
Qed.

Lemma block_found r e j k x c : r_clients a !! r = Some e -> block_byte e j k = Some x -> cols !! S j = Some c ->
  sizes !! j = Some (snd c) ->
  exists blk, e_blocks e !! j = Some blk /\ blk !! Z.to_nat k = Some x /\ 0 <= k < snd c
    /\ Z.of_nat (length blk) = snd c /\ content a r (S j) k = x.
Proof.
  intros He Hb Hc Hs. unfold block_byte in Hb. destruct (e_blocks e !! j) as [blk|] eqn:Hblk; [|done].
  destruct (Z.leb_spec 0 k); [|done]. exists blk. split; [done|]. split; [done|].
  assert (Hl : Z.of_nat (length blk) = snd c).
  { assert (H1 := rf_blocks _ _ _ _ _ _ _ _ _ _ R r e He). rewrite <- H1 in Hs.
    change (map ?f ?l) with (f <$> l) in Hs. rewrite list_lookup_fmap, Hblk in Hs. cbn in Hs. by injection Hs. }
  assert (Hlt := lookup_lt_Some _ _ _ Hb). split; [lia|]. split; [done|].
  unfold content. rewrite He. rewrite (nth_lookup_Some _ _ _ _ Hblk). by apply nth_lookup_Some.
Qed.

Lemma read_ok r j k rep a' : spec_read rows sizes j r k a = Some (rep, a') ->
  exists s', replied RByte ((do! p <- ClGetStateBlock DEBUGI wide_shift (ticket tickets j) r; read_byte (p + k)) s) = (rep, s')
    /\ related s' a'.
Proof.
  unfold spec_read, with_entry, ClGetStateBlock. destruct (Nat.ltb_spec j (length sizes)) as [Hj|]; [|done].
  destruct (block_column j Hj) as (c & Hc & Hsz & Hpos). rewrite (rf_tickets _ _ _ _ _ _ _ _ _ _ R j c Hc).
  destruct (in_range rows r) eqn:Hr.
  2: { intros [= <- <-]. unfold wu_bind. rewrite (cell_range _ _ Hshift _ _ _ _ _ _ _ _ _ R r (S j) c Hr Hc Hpos).
       exists s. split; [done|apply related_self]. }
  destruct (r_clients a !! r) as [e|] eqn:He; [|done]. destruct (block_byte e j k) as [x|] eqn:Hb; [|done].
  intros [= <- <-]. destruct (block_found r e j k x c He Hb Hc Hsz) as (blk & _ & _ & Hk & _ & Hx).
  unfold wu_bind. rewrite (cell_registered _ _ Hshift _ _ _ _ _ _ _ _ _ R r e (S j) c He Hc Hpos).
  destruct (registered_vac _ _ _ _ _ _ _ _ _ _ R r e He) as [Hrow _].
  unfold read_byte. rewrite (tk_mem _ _ _ _ _ (rf_table _ _ _ _ _ _ _ _ _ _ R)).
  rewrite (rf_cells _ _ _ _ _ _ _ _ _ _ R r (S j) c k) by (rewrite ?(rf_rows _ _ _ _ _ _ _ _ _ _ R); done).
  rewrite Hx. exists s. split; [done|apply related_self].
Qed.

(** The state after a write into a block. *)
Lemma written r e j k x c v : r_clients a !! r = Some e -> cols !! S j = Some c -> sizes !! j = Some (snd c) ->
  block_byte e j k = Some x -> 0 <= v < 256 ->
  related (with_table (set_mem (set m (base (stateTable s) + stride (stateTable s) * r + fst c + k) v) (stateTable s)) s)
    (put_entry r (set_block_byte e j k v) a).
Proof.
  intros He Hc Hsz Hb Hv. destruct (registered_vac _ _ _ _ _ _ _ _ _ _ R r e He) as [Hr _].
  destruct (block_found r e j k x c He Hb Hc Hsz) as (blk & Hblk & Hx & Hk & Hlen & _).
  assert (Hrow : 0 <= r < rowsCount (stateTable s)) by (by rewrite (rf_rows _ _ _ _ _ _ _ _ _ _ R)).
  destruct (write_cell DEBUGI (stateTable s) cols m vac (rf_table _ _ _ _ _ _ _ _ _ _ R) (content a) (rf_cells _ _ _ _ _ _ _ _ _ _ R)
    r (S j) c k v Hrow Hc Hk Hv) as [Hok' Hcells].
  set (m' := set m _ v) in *. assert (Eb : set_block_byte e j k v = mk_entry_of (e_ready e) (<[j := <[Z.to_nat k := v]> blk]> (e_blocks e))).
  { unfold set_block_byte. by rewrite Hblk. }
  rewrite Eb. destruct (entry_changed r e (mk_entry_of (e_ready e) (<[j := <[Z.to_nat k := v]> blk]> (e_blocks e))) He) as (F1 & F2 & F3 & F4 & F5).
  { cbn. rewrite <- (rf_blocks _ _ _ _ _ _ _ _ _ _ R r e He). apply list_eq. intros i.
    change (map ?f ?l) with (f <$> l). rewrite !list_lookup_fmap. destruct (decide (i = j)) as [->|Hi].
    + rewrite list_lookup_insert_eq by (by apply (lookup_lt_Some _ _ blk)). rewrite Hblk. cbn. by rewrite length_insert.
    + by rewrite list_lookup_insert_ne. }
  exists cols, m', vac, b. destruct R. split; try done.
  - eapply cells_ext; [|exact Hcells]. intros x' J c' k' Hx' HJ Hk'. cbn beta. unfold content, counter. cbn.
    destruct (Z.eqb_spec x' r) as [->|Hne]; [|by rewrite lookup_insert_ne]. rewrite lookup_insert_eq, He. cbn.
    destruct J as [|J]; [done|]. cbn. destruct (Nat.eqb_spec J j) as [->|HJj].
    + rewrite (nth_lookup_Some (<[j := _]> _) j [] (<[Z.to_nat k := v]> blk)) by (apply list_lookup_insert_eq; by apply (lookup_lt_Some _ _ blk)).
      rewrite (nth_lookup_Some (e_blocks e) j [] blk Hblk). rewrite !nth_lookup.
      rewrite Hc in HJ. injection HJ as <-. destruct (Z.eqb_spec k' k) as [->|Hkk].
      * by rewrite list_lookup_insert_eq by lia.
      * by rewrite list_lookup_insert_ne by lia.
    + rewrite !nth_lookup. by rewrite list_lookup_insert_ne.
  - intros i w Hi. destruct (rf_ready i w Hi) as [H1 H2]. split; [done|]. intros k' Hk'. rewrite H2 by done.
    unfold ready_in. cbn. destruct (decide (32 * Z.of_nat i + k' = r)) as [->|Hne]; [by rewrite lookup_insert_eq, He|by rewrite lookup_insert_ne].
  - cbn. rewrite rf_readies. assert (H := ready_count_update (r_clients a) r e (mk_entry_of (e_ready e) (<[j := <[Z.to_nat k := v]> blk]> (e_blocks e))) He).
    cbn in H. f_equal. lia.
Qed.

Lemma write_ok r j k v rep a' : 0 <= v < 256 -> spec_write rows sizes j r k v a = Some (rep, a') ->
  exists s', replied (fun _ => RUnit) ((do! p <- ClGetStateBlock DEBUGI wide_shift (ticket tickets j) r; write_byte (p + k) v) s) = (rep, s')
    /\ related s' a'.
Proof.
  intros Hv. unfold spec_write, with_entry, ClGetStateBlock. destruct (Nat.ltb_spec j (length sizes)) as [Hj|]; [|done].
  destruct (block_column j Hj) as (c & Hc & Hsz & Hpos). rewrite (rf_tickets _ _ _ _ _ _ _ _ _ _ R j c Hc).
  destruct (in_range rows r) eqn:Hr.
  2: { intros [= <- <-]. unfold wu_bind. rewrite (cell_range _ _ Hshift _ _ _ _ _ _ _ _ _ R r (S j) c Hr Hc Hpos).
       exists s. split; [done|apply related_self]. }
  destruct (r_clients a !! r) as [e|] eqn:He; [|done]. destruct (block_byte e j k) as [x|] eqn:Hb; [|done].
  intros [= <- <-]. destruct (block_found r e j k x c He Hb Hc Hsz) as (blk & _ & _ & Hk & _ & Hx).
  unfold wu_bind. rewrite (cell_registered _ _ Hshift _ _ _ _ _ _ _ _ _ R r e (S j) c He Hc Hpos).
  destruct (registered_vac _ _ _ _ _ _ _ _ _ _ R r e He) as [Hrow _].
  unfold write_byte. rewrite (tk_mem _ _ _ _ _ (rf_table _ _ _ _ _ _ _ _ _ _ R)).
  rewrite (rf_cells _ _ _ _ _ _ _ _ _ _ R r (S j) c k) by (rewrite ?(rf_rows _ _ _ _ _ _ _ _ _ _ R); done).
  eexists. split; [done|]. by apply (written r e j k x).
Qed.

(** ** Registration *)

(** A new counter in the master cell of a row. *)
Lemma store_master r v : 0 <= r < rows -> 0 <= v < 2 ^ 31 ->
  exists m', store_cntr (base (stateTable s) + stride (stateTable s) * r + 0) v s = Done tt (with_table (set_mem m' (stateTable s)) s)
    /\ table_ok DEBUGI (set_mem m' (stateTable s)) cols m' vac
    /\ cells_are (stateTable s) cols m' (fun r' j k => if (r' =? r) && (j =? 0)%nat then byte_of k v else content a r' j k).
Proof.
  intros Hr Hv. destruct (store_cell DEBUGI (stateTable s) cols m vac (rf_table _ _ _ _ _ _ _ _ _ _ R) (content a) (rf_cells _ _ _ _ _ _ _ _ _ _ R)
    r 0%nat (0, 4) v) as (m' & E & Hok' & Hc).
  - by rewrite (rf_rows _ _ _ _ _ _ _ _ _ _ R).
  - apply (master_column _ _ _ _ _ _ _ _ _ _ R).
  - done.
  - unfold is_word. lia.
  - exists m'. split; [|done]. unfold store_cntr. rewrite (tk_mem _ _ _ _ _ (rf_table _ _ _ _ _ _ _ _ _ _ R)).
    rewrite u32_small by (unfold UINT32_MOD; lia). cbn [fst] in E. by rewrite E.
Qed.

Lemma content_fresh r j k : content (put_entry r (fresh_entry sizes) a) r j k = match j with O => byte_of k (counter a r) | S _ => 0 end.
Proof.
  unfold content, put_entry. cbn. rewrite lookup_insert_eq. destruct j as [|j]; [done|]. cbn.
  rewrite !nth_lookup. change (map ?f ?l) with (f <$> l). rewrite list_lookup_fmap. destruct (sizes !! j) as [n|]; cbn; [|done].
  destruct (repeat 0 (Z.to_nat n) !! Z.to_nat k) as [x|] eqn:E; [|done].
  apply list_elem_of_lookup_2, list_elem_of_In, repeat_spec in E. by subst.
Qed.

(** The state after the bit of a row is cleared: everything but the table of
    clients is as for a registered client. *)
Lemma registered r m' n : r_clients a !! r = None -> 0 <= r < rows -> n = clientsCount s + 1 ->
  cells_are (stateTable s) cols m' (content a) -> table_ok DEBUGI (set_mem m' (stateTable s)) cols m' (put_vac vac r false) ->
  refines (with_count n (with_table (set_mem m' (stateTable s)) s)) (put_entry r (fresh_entry sizes) a) cols m' (put_vac vac r false) b.
Proof.
  intros Hn Hr Hcount Hcells Hok'.
  assert (Hcur : r_current a <> r).
  { intros E. destruct (rf_current_ok _ _ _ _ _ _ _ _ _ _ R) as [H|[e H]]; [lia|congruence]. }
  destruct R. split; try done.
  - intros x Hx. cbn. unfold put_vac. destruct (Z.eqb_spec x r) as [->|Hne].
    + by rewrite lookup_insert_eq.
    + rewrite lookup_insert_ne by done. by apply rf_vac.
  - intros x. cbn. destruct (decide (x = r)) as [->|Hne]; [done|]. rewrite lookup_insert_ne by done. apply rf_dom.
  - intros x e. cbn. destruct (decide (x = r)) as [->|Hne]; [|rewrite lookup_insert_ne by done; apply rf_blocks].
    rewrite lookup_insert_eq. intros [= <-]. cbn. rewrite map_map. rewrite <- (map_id sizes) at 2. apply map_ext_in.
    intros n' Hn'. rewrite repeat_length. rewrite Forall_forall in rf_sizes. specialize (rf_sizes n' ltac:(by apply list_elem_of_In)). lia.
  - eapply cells_ext; [|exact Hcells]. intros x j c k Hx Hj Hkk. destruct (decide (x = r)) as [->|Hne].
    + rewrite content_fresh. unfold content at 1. rewrite Hn. destruct j; [|done]. unfold counter.
      rewrite (proj2 (Z.eqb_neq (r_current a) r) Hcur). unfold byte_of. by rewrite Z.shiftr_0_l.
    + unfold content, counter. cbn. by rewrite lookup_insert_ne.
  - intros i w Hi. destruct (rf_ready i w Hi) as [H1 H2]. split; [done|]. intros k Hkk. rewrite H2 by done.
    unfold ready_in. cbn. destruct (decide (32 * Z.of_nat i + k = r)) as [->|Hne]; [by rewrite lookup_insert_eq, Hn|by rewrite lookup_insert_ne].
  - cbn. rewrite map_size_insert_None by done. lia.
  - cbn. rewrite rf_readies, ready_count_insert by done. cbn. lia.
  - destruct rf_current_ok as [|Hc]; [by left|right]. cbn. rewrite lookup_insert_ne; [done|lia].
Qed.

(** The rest of a registration, when the row is occupied. *)
Lemma register_done r m' : r_clients a !! r = None -> 0 <= r < rows ->
  rows_kept (stateTable s) m m' -> table_ok DEBUGI (set_mem m' (stateTable s)) cols m' (put_vac vac r false) ->
  exists s', (do! mgmtData <- assert_done DEBUGI (on_table (GetStateTableMasterCell DEBUGI wide_shift r));
              do! _ <- store_cntr mgmtData 0;
              do! _ <- wu_modify (fun s => with_count (clientsCount s + 1) s);
              wu_ret r) (with_table (set_mem m' (stateTable s)) s) = Done r s'
    /\ related s' (put_entry r (fresh_entry sizes) a).
Proof.
  intros Hn Hr Hk Hok'. assert (Hcells := cells_kept DEBUGI _ _ _ _ (rf_table _ _ _ _ _ _ _ _ _ _ R) _ (rf_cells _ _ _ _ _ _ _ _ _ _ R) m' Hk).
  assert (Hcol := master_column _ _ _ _ _ _ _ _ _ _ R).
  assert (Hrow : 0 <= r < rowsCount (set_mem m' (stateTable s))) by (cbn; by rewrite (rf_rows _ _ _ _ _ _ _ _ _ _ R)).
  assert (E : on_table (GetStateTableMasterCell DEBUGI wide_shift r) (with_table (set_mem m' (stateTable s)) s)
    = Done (base (stateTable s) + stride (stateTable s) * r + 0) (with_table (set_mem m' (stateTable s)) s)).
  { rewrite on_table_spec. cbn [stateTable with_table]. unfold GetStateTableMasterCell. change (MakeTicket 0 0) with (ticket_of 0 (0, 4)).
    rewrite (get_cell_ok DEBUGI _ _ _ _ Hok' wide_shift Hshift r 0%nat (0, 4) Hcol ltac:(cbn; lia)).
    rewrite (proj2 (valid_row_iff _ r) Hrow). unfold put_vac. rewrite Z.eqb_refl. done. }
  unfold wu_bind at 1, assert_done. rewrite E.
  destruct (store_cell DEBUGI (set_mem m' (stateTable s)) cols m' _ Hok' (content a) Hcells r 0%nat (0, 4) 0 Hrow Hcol eq_refl ltac:(unfold is_word; lia))
    as (m2 & E2 & Hok2 & Hc2). cbn [fst base stride set_mem] in E2.
  unfold wu_bind at 1, store_cntr. cbn [mem stateTable with_table set_mem]. rewrite u32_small by (unfold UINT32_MOD; lia). rewrite E2.
  eexists. split; [done|]. exists cols, m2, (put_vac vac r false), b.
  apply (registered r m2 (clientsCount s + 1) Hn Hr eq_refl); [|done].
  eapply cells_ext; [|exact Hc2]. intros x j c k Hx Hj Hkk. cbn beta. destruct (Z.eqb_spec x r) as [->|]; [|done].
  destruct j; [|done]. cbn. unfold content. rewrite Hn. unfold byte_of. by rewrite Z.shiftr_0_l.
Qed.

Lemma unregistered_vac r : 0 <= r < rows -> vac r = bool_decide (r_clients a !! r = None).
Proof. apply (rf_vac _ _ _ _ _ _ _ _ _ _ R). Qed.

Lemma register_fixed_ok r rep a' : spec_call rows sizes (RegisterFixed r) a = Some (rep, a') ->
  exists s', impl (RegisterFixed r) s = (rep, s') /\ related s' a'.
Proof.
  cbn [spec_call impl_call]. unfold ClRegisterClient. intros [= H].
  assert (Hv := is_vacant_ok DEBUGI _ _ _ _ (rf_table _ _ _ _ _ _ _ _ _ _ R) r). rewrite (range_valid _ _ _ _ _ _ _ _ _ _ R) in Hv.
  rewrite wu_bind_assoc. unfold wu_bind at 1. unfold as_client_error. rewrite on_table_spec, Hv. clear Hv.
  destruct (in_range rows r) eqn:Hr.
  2: { injection H as <- <-. rewrite with_same_table, decide_True by done. exists s. split; [done|apply related_self]. }
  rewrite with_same_table. apply in_range_iff in Hr. rewrite (unregistered_vac r Hr).
  destruct (r_clients a !! r) as [e|] eqn:He.
  { injection H as <- <-. exists s. split; [done|apply related_self]. }
  rewrite bool_decide_true by done. cbn [negb].
  destruct (occupy_ok DEBUGI _ _ _ _ (rf_table _ _ _ _ _ _ _ _ _ _ R) r) as (m' & E & Hk & Hok').
  { by rewrite (rf_rows _ _ _ _ _ _ _ _ _ _ R). }
  unfold wu_bind at 1. unfold wu_bind at 1. rewrite on_table_spec, E. unfold wu_ret at 1.
  destruct (register_done r m' He Hr Hk Hok') as (s' & Es & Hrel).
  rewrite Es. injection H as <- <-. by exists s'.
Qed.

Lemma find_spec (P : Z -> bool) n : match List.find P (map Z.of_nat (seq 0 n)) with
  | Some r => 0 <= r < Z.of_nat n /\ P r = true /\ forall x, 0 <= x < r -> P x = false
  | None => forall x, 0 <= x < Z.of_nat n -> P x = false
  end.
Proof.
  induction n as [|n IH]; [intros x Hx; lia|]. rewrite seq_S, map_app. cbn.
  assert (Happ : forall l r, List.find P (l ++ [r]) = match List.find P l with Some x => Some x | None => if P r then Some r else None end).
  { induction l as [|x l IHl]; intros r; cbn; [done|]. destruct (P x); [done|apply IHl]. }
  rewrite Happ. destruct (List.find P (map Z.of_nat (seq 0 n))) as [r|].
  - destruct IH as (H1 & H2 & H3). split; [lia|]. done.
  - destruct (P (Z.of_nat n)) eqn:E.
    + split; [lia|]. split; [done|]. apply IH.
    + intros x Hx. destruct (Z.eq_dec x (Z.of_nat n)) as [->|]; [done|]. apply IH. lia.
Qed.

Lemma register_any_ok rep a' : rows <= INT_MAX -> spec_call rows sizes RegisterAny a = Some (rep, a') ->
  exists s', impl RegisterAny s = (rep, s') /\ related s' a'.
Proof.
  intros Hmax. cbn [spec_call impl_call]. unfold first_free, ClRegisterClient.
  assert (Hf := find_spec (fun r => bool_decide (r_clients a !! r = None)) (Z.to_nat rows)).
  assert (Hrows := tk_rows _ _ _ _ _ (rf_table _ _ _ _ _ _ _ _ _ _ R)). rewrite (rf_rows _ _ _ _ _ _ _ _ _ _ R) in Hrows.
  assert (Hcl : clamp (stateTable s) 0 INT_MAX = (0, rows)).
  { unfold clamp. rewrite (rf_rows _ _ _ _ _ _ _ _ _ _ R). cbn. destruct (Z.ltb_spec rows INT_MAX); f_equal; lia. }
  destruct (List.find _ _) as [r|].
  - intros [= <- <-]. destruct Hf as (H1 & H2 & H3). rewrite Z2Nat.id in H1 by lia. apply bool_decide_eq_true in H2.
    destruct (occupy_first_ok DEBUGI _ _ _ _ (rf_table _ _ _ _ _ _ _ _ _ _ R) 0 INT_MAX r) as (m' & E & Hk & Hok').
    + rewrite Hcl. cbn. split; [lia|]. split; [rewrite unregistered_vac by done; by apply bool_decide_eq_true|].
      intros x Hx. rewrite unregistered_vac by lia. by apply H3.
    + rewrite Hcl. cbn. lia.
    + unfold wu_bind at 1. rewrite on_table_spec, E. destruct (register_done r m' H2 H1 Hk Hok') as (s' & Es & Hrel).
      rewrite Es. by exists s'.
  - destruct (Z.leb_spec rows 32) as [H32|]; [|done]. intros [= <- <-]. unfold wu_bind at 1. rewrite on_table_spec.
    destruct (Z.eq_dec rows 0) as [H0|Hpos].
    { rewrite (occupy_empty DEBUGI _ _ _ _ (rf_table _ _ _ _ _ _ _ _ _ _ R) 0 INT_MAX); rewrite ?Hcl; [|done..].
      rewrite with_same_table. exists s. split; [done|apply related_self]. }
    rewrite (occupy_full DEBUGI _ _ _ _ (rf_table _ _ _ _ _ _ _ _ _ _ R) 0 INT_MAX); rewrite ?Hcl; cbn [fst snd].
    + rewrite with_same_table. exists s. split; [done|apply related_self].
    + lia.
    + Z.div_mod_to_equations; lia.
    + intros x Hx. rewrite unregistered_vac by lia. apply Hf. lia.
Qed.

(** The state after a row is vacated. *)
Lemma vacated r e m' n : r_clients a !! r = Some e -> r_current a <> r -> e_ready e = false -> n = clientsCount s - 1 ->
  row_zeroed (stateTable s) cols m m' r -> table_ok DEBUGI (set_mem m' (stateTable s)) cols m' (put_vac vac r true) ->
  related (with_count n (with_table (set_mem m' (stateTable s)) s)) (mk_registry (delete r (r_clients a)) (r_current a) (r_locks a)).
Proof.
  intros He Hcur Hre Hn Hz Hok'. exists cols, m', (put_vac vac r true), b.
  assert (Hcells := cells_zeroed (stateTable s) cols m (content a) (rf_cells _ _ _ _ _ _ _ _ _ _ R) m' r Hz).
  destruct R. split; try done.
  - intros x Hx. cbn. unfold put_vac. destruct (Z.eqb_spec x r) as [->|Hne].
    + by rewrite lookup_delete_eq.
    + rewrite lookup_delete_ne by done. by apply rf_vac.
  - intros x. cbn. intros [e' H]. apply lookup_delete_Some in H as [_ H]. apply rf_dom. by exists e'.
  - intros x e'. cbn. intros H. apply lookup_delete_Some in H as [_ H]. by apply (rf_blocks x).
  - eapply cells_ext; [|exact Hcells]. intros x j c k Hx Hj Hk. cbn beta. unfold content, counter. cbn.
    destruct (Z.eqb_spec x r) as [->|Hne]; [by rewrite lookup_delete_eq|by rewrite lookup_delete_ne].
  - intros i w Hi. destruct (rf_ready i w Hi) as [H1 H2]. split; [done|]. intros k Hkk. rewrite H2 by done.
    unfold ready_in. cbn. destruct (decide (32 * Z.of_nat i + k = r)) as [->|Hne]; [by rewrite lookup_delete_eq, He|by rewrite lookup_delete_ne].
  - cbn. rewrite Hn, rf_count, map_size_delete_Some by (by exists e).
    assert (size (r_clients a) <> 0%nat) by (intros H%map_size_empty_inv; rewrite H in He; done). lia.
  - cbn. rewrite rf_readies, (ready_count_delete _ r e He), Hre. cbn. lia.
  - destruct rf_current_ok as [|Hc]; [by left|right]. cbn. by rewrite lookup_delete_ne.
Qed.

Lemma unregister_related r rep a' : spec_call rows sizes (Unregister r) a = Some (rep, a') ->
  exists s', impl (Unregister r) s = (rep, s') /\ related s' a'.
Proof.
  cbn [spec_call impl_call]. unfold with_entry, ClUnregisterClient. destruct (in_range rows r) eqn:Hr.
  2: { intros [= <- <-]. unfold wu_bind at 1. rewrite client_error by (by apply (master_range _ _ Hshift _ _ _ _ _ _ _ _ _ R)).
       exists s. split; [done|apply related_self]. }
  apply in_range_iff in Hr. destruct (r_clients a !! r) as [e|] eqn:He; [|done]. intros H.
  unfold wu_bind at 1. rewrite (client_done _ _ s) by (by apply (master_registered _ _ Hshift _ _ _ _ _ _ _ _ _ R r e)).
  unfold wu_bind at 1. rewrite (load_counter _ _ _ _ _ _ _ _ _ _ R r e He). unfold counter.
  destruct (Z.eqb_spec (r_current a) r) as [Hcur|Hcur].
  { injection H as <- <-. exists s. split; [done|apply related_self]. }
  cbn [Z.ltb Z.compare]. destruct (ready_word_ok _ _ _ _ _ _ _ _ _ _ R r Hr) as (w & E & _ & _ & E1 & _).
  unfold wu_bind at 1. rewrite E, E1, negb_involutive. unfold ready_in. rewrite He. destruct (e_ready e) eqn:Hre.
  { injection H as <- <-. exists s. split; [done|apply related_self]. }
  destruct (vacate_ok DEBUGI _ _ _ _ r (rf_table _ _ _ _ _ _ _ _ _ _ R)) as (m' & E' & Hz & Hok').
  { by rewrite (rf_rows _ _ _ _ _ _ _ _ _ _ R). }
  unfold wu_bind. rewrite on_table_spec, E'. injection H as <- <-. eexists. split; [done|]. by apply (vacated r e).
Qed.

(** ** Calls outside of the contract *)

(** A vacant row that passes the test of its number is vacated again. *)
Lemma unregister_vacant r : 0 <= r < rows -> r_clients a !! r = None -> 5 <= r mod 32 ->
  exists s', ClUnregisterClient DEBUGI wide_shift r s = Done tt s' /\ clientsCount s' = clientsCount s - 1.
Proof.
  intros Hr Hn H5. assert (Hok := rf_table _ _ _ _ _ _ _ _ _ _ R). assert (Hcol := master_column _ _ _ _ _ _ _ _ _ _ R).
  assert (Hrow : 0 <= r < rowsCount (stateTable s)) by (by rewrite (rf_rows _ _ _ _ _ _ _ _ _ _ R)).
  unfold ClUnregisterClient. unfold wu_bind at 1.
  rewrite (client_done _ (base (stateTable s) + stride (stateTable s) * r + 0) s).
  2: { rewrite on_table_spec. unfold GetStateTableMasterCell. change (MakeTicket 0 0) with (ticket_of 0 (0, 4)).
       rewrite (get_cell_ok DEBUGI _ _ _ _ Hok wide_shift Hshift r 0%nat (0, 4) Hcol ltac:(cbn; lia)).
       rewrite (proj2 (valid_row_iff _ r) Hrow), (proj2 (Z.ltb_ge (r mod 32) 5)), andb_false_r by lia. cbn. by rewrite with_same_table. }
  assert (E : load32 m (base (stateTable s) + stride (stateTable s) * r + 0) = Ok 0).
  { apply (load_cell (stateTable s) cols m (content a) (rf_cells _ _ _ _ _ _ _ _ _ _ R) r 0%nat (0, 4) 0 Hrow Hcol eq_refl ltac:(unfold is_word; lia)).
    intros k Hk. unfold content. rewrite Hn. unfold byte_of. by rewrite Z.shiftr_0_l. }
  unfold wu_bind at 1, load_cntr. rewrite (tk_mem _ _ _ _ _ Hok), E. change (0 <? int32 0) with false. cbv iota.
  destruct (ready_word_ok _ _ _ _ _ _ _ _ _ _ R r Hr) as (w & Ew & _ & _ & E1 & _).
  unfold wu_bind at 1. rewrite Ew, E1, negb_involutive. unfold ready_in. rewrite Hn.
  destruct (vacate_ok DEBUGI _ _ _ _ r Hok Hrow) as (m' & E' & _ & _).
  unfold wu_bind. rewrite on_table_spec, E'. eexists. split; [done|]. done.
Qed.

(** A full table of more than 32 rows. *)
Lemma register_overrun : rows <= INT_MAX -> 32 < rows -> rows mod 32 <> 0 -> (forall r, 0 <= r < rows -> is_Some (r_clients a !! r)) ->
  exists s', ClRegisterClient DEBUGI wide_shift (-1) false s = Failed (if DEBUGI then ASSERTION else UNDEFINED) s'.
Proof.
  intros Hmax H32 Hmod Hall. assert (Hok := rf_table _ _ _ _ _ _ _ _ _ _ R). assert (Hrows := rf_rows _ _ _ _ _ _ _ _ _ _ R).
  destruct (occupy_overrun DEBUGI _ _ _ _ Hok 0 INT_MAX) as (m' & E); rewrite ?Hrows; try done.
  { intros r Hr. rewrite unregistered_vac by done. apply bool_decide_eq_false. destruct (Hall r Hr) as [e ->]. done. }
  unfold ClRegisterClient. unfold wu_bind at 1. rewrite on_table_spec, E. clear E.
  destruct (sumbool_of_bool DEBUGI) as [Hd|Hd]; rewrite Hd; [by eexists|]. eexists. rewrite Hrows.
  unfold wu_bind at 1, assert_done. rewrite on_table_spec. cbn [stateTable with_table].
  unfold GetStateTableMasterCell, GetStateTableCell. unfold wu_bind at 1, wu_get at 1. unfold wu_bind at 1, lift, ValidateTicket.
  change (MakeTicket 0 0) with (ticket_of 0 (0, 4)).
  assert (Hi := column_info DEBUGI _ _ _ _ Hok 0%nat (0, 4) true (master_column _ _ _ _ _ _ _ _ _ _ R) ltac:(cbn; lia)).
  rewrite Hd in Hi. change (GetColumnInfo false (set_mem m' (stateTable s)) (ticket_of 0 (0, 4)) true)
    with (GetColumnInfo false (stateTable s) (ticket_of 0 (0, 4)) true). rewrite Hi. cbn [bind_res].
  unfold wu_bind at 1, IsValidStateTableRowId. unfold wu_bind at 1, wu_get at 1. cbn [rowsCount set_mem]. rewrite Hrows.
  rewrite Z.leb_refl, orb_true_r. done.
Qed.

(** ** The current client *)

(** The state with another current client, when its counter is stored. *)
Lemma current_changed id m' : (id = -1 \/ is_Some (r_clients a !! id)) ->
  table_ok DEBUGI (set_mem m' (stateTable s)) cols m' vac ->
  cells_are (stateTable s) cols m' (content (mk_registry (r_clients a) id (r_locks a))) ->
  refines (with_current id (with_table (set_mem m' (stateTable s)) s)) (mk_registry (r_clients a) id (r_locks a)) cols m' vac b.
Proof. intros Hid Hok' Hcells. destruct R. by split. Qed.

(** The first part of [ClSetCurrentClientId]: there is no current client. *)
Lemma release_current : exists s', (if negb (currentClientId s =? -1) then
       do! mgmtData <- assert_done DEBUGI (on_table (GetStateTableMasterCell DEBUGI wide_shift (currentClientId s)));
       do! currentCntr <- load_cntr mgmtData;
       if DEBUGI && negb (0 <? currentCntr) then wu_fail ASSERTION
       else
         do! _ <- store_cntr mgmtData (currentCntr - 1);
         wu_modify (with_current (-1))
     else wu_ret tt) s = Done tt s' /\ related s' (mk_registry (r_clients a) (-1) (r_locks a)).
Proof.
  rewrite (rf_current _ _ _ _ _ _ _ _ _ _ R). destruct (Z.eqb_spec (r_current a) (-1)) as [E|E]; cbn [negb].
  - exists s. split; [done|]. exists cols, m, vac, b. rewrite <- E. destruct R, a. by split.
  - destruct (rf_current_ok _ _ _ _ _ _ _ _ _ _ R) as [|[e He]]; [done|]. set (r := r_current a) in *.
    destruct (registered_vac _ _ _ _ _ _ _ _ _ _ R r e He) as [Hr _].
    unfold wu_bind at 1, assert_done. rewrite (master_registered _ _ Hshift _ _ _ _ _ _ _ _ _ R r e He).
    unfold wu_bind at 1. rewrite (load_counter _ _ _ _ _ _ _ _ _ _ R r e He). unfold counter. fold r. rewrite Z.eqb_refl.
    change (0 <? 1) with true. cbn [negb]. rewrite andb_false_r. destruct (store_master r 0 Hr ltac:(lia)) as (m' & Es & Hok' & Hc).
    unfold wu_bind. change (1 - 1) with 0. rewrite Es. eexists. split; [done|].
    exists cols, m', vac, b. apply current_changed; [by left|done|].
    eapply cells_ext; [|exact Hc]. intros x j c k Hx Hj Hk. cbn beta. unfold content, counter. cbn [r_clients r_current].
    destruct (Z.eqb_spec x r) as [->|Hne].
    + destruct j; cbn [Nat.eqb andb]; [|done]. rewrite He. by rewrite (proj2 (Z.eqb_neq (-1) r)) by lia.
    + cbn [andb]. destruct (r_clients a !! x) as [e'|] eqn:He'; [|done]. destruct j; [|done].
      destruct (registered_vac _ _ _ _ _ _ _ _ _ _ R x e' He') as [Hx' _]. fold r.
      by rewrite (proj2 (Z.eqb_neq r x)), (proj2 (Z.eqb_neq (-1) x)) by lia.
Qed.

End State.

Lemma set_current_ok s a id rep a' : related s a -> spec_call rows sizes (SetCurrent id) a = Some (rep, a') ->
  exists s', impl (SetCurrent id) s = (rep, s') /\ related s' a'.
Proof.
  intros (cols & m & vac & b & R). cbn [spec_call impl_call]. unfold ClSetCurrentClientId. unfold wu_bind at 1, wu_get at 1.
  destruct (release_current s a cols m vac b R) as (s1 & E1 & Hrel1). unfold wu_bind at 1. rewrite E1. clear E1.
  destruct (Z.eqb_spec id (-1)) as [->|Hid].
  { intros [= <- <-]. by exists s1. }
  set (a1 := mk_registry (r_clients a) (-1) (r_locks a)) in *. destruct Hrel1 as (cols1 & m1 & vac1 & b1 & R1).
  unfold with_entry. destruct (in_range rows id) eqn:Hr.
  2: { intros [= <- <-]. unfold wu_bind at 1. rewrite client_error by (by apply (master_range _ _ Hshift _ _ _ _ _ _ _ _ _ R1)).
       exists s1. split; [done|]. by exists cols1, m1, vac1, b1. }
  apply in_range_iff in Hr. destruct (r_clients a1 !! id) as [e|] eqn:He; [|done]. intros [= <- <-].
  unfold wu_bind at 1. rewrite (client_done _ _ _ s1) by (by apply (master_registered _ _ Hshift _ _ _ _ _ _ _ _ _ R1 id e)).
  unfold wu_bind at 1. rewrite (load_counter _ _ _ _ _ _ _ _ _ _ R1 id e He). unfold counter. cbn [r_current a1].
  rewrite (proj2 (Z.eqb_neq (-1) id)) by lia. destruct (store_master s1 a1 cols1 m1 vac1 b1 R1 id 1 Hr ltac:(lia)) as (m' & Es & Hok' & Hc).
  unfold wu_bind. change (0 + 1) with 1. rewrite Es. eexists. split; [done|].
  exists cols1, m', vac1, b1. apply (current_changed s1 a1 cols1 m1 vac1 b1 R1 id m'); [right; by exists e|done|].
  eapply cells_ext; [|exact Hc]. intros x j c k Hx Hj Hk. cbn beta. unfold content, counter. cbn [r_clients r_current a1].
  destruct (Z.eqb_spec x id) as [->|Hne].
  - destruct j; cbn [Nat.eqb andb]; [|done]. cbn in He. rewrite He. by rewrite Z.eqb_refl.
  - cbn [andb]. destruct (r_clients a !! x) as [e'|] eqn:He'; [|done]. destruct j; [|done].
    destruct (registered_vac _ _ _ _ _ _ _ _ _ _ R1 x e' He') as [Hx' _].
    by rewrite (proj2 (Z.eqb_neq id x)), (proj2 (Z.eqb_neq (-1) x)) by lia.
Qed.

(** Every call within the contract. *)
Lemma call_refines s a c rep a' : rows <= INT_MAX -> related s a -> spec_call rows sizes c a = Some (rep, a') ->
  exists s', impl c s = (rep, s') /\ related s' a'.
Proof.
  intros Hmax Hrel. assert (Hr' := Hrel). destruct Hr' as (cols & m & vac & b & R). destruct c; intros H.
  - by apply (register_fixed_ok s a cols m vac b R).
  - by apply (register_any_ok s a cols m vac b R).
  - exact (mark_ok s a cols m vac b R true id rep a' H).
  - exact (mark_ok s a cols m vac b R false id rep a' H).
  - by apply (unregister_related s a cols m vac b R).
  - by apply (set_current_ok s a).
  - by apply (is_ready_ok s a cols m vac b R).
  - by apply (lock_ok s a cols m vac b R).
  - by apply (unlock_ok s a cols m vac b R).
  - exact (read_ok s a cols m vac b R id j k rep a' H).
  - cbn [spec_call] in H. destruct (_ && _) eqn:E; [|done]. apply andb_true_iff in E as [E1%Z.leb_le E2%Z.ltb_lt].
    exact (write_ok s a cols m vac b R id j k b0 rep a' (conj E1 E2) H).
  - cbn [spec_call] in H. rewrite <- (rf_current _ _ _ _ _ _ _ _ _ _ R) in H. exact (read_ok s a cols m vac b R _ j k rep a' H).
  - cbn [spec_call] in H. destruct (_ && _) eqn:E; [|done]. apply andb_true_iff in E as [E1%Z.leb_le E2%Z.ltb_lt].
    rewrite <- (rf_current _ _ _ _ _ _ _ _ _ _ R) in H. exact (write_ok s a cols m vac b R _ j k b0 rep a' (conj E1 E2) H).
Qed.

(** Every sequence of calls within the contract. *)
Lemma run_refines l : rows <= INT_MAX -> forall s a rs a', related s a -> spec_run rows sizes l a = Some (rs, a') ->
  exists s', impl_run DEBUGI wide_shift tickets l s = (rs, s') /\ related s' a'.
Proof.
  intros Hmax. induction l as [|c l IH]; intros s a rs a' Hrel; cbn.
  - intros [= <- <-]. by exists s.
  - destruct (spec_call rows sizes c a) as [[r a1]|] eqn:E; [|done].
    destruct (spec_run rows sizes l a1) as [[rs1 a2]|] eqn:E2; [|done]. intros [= <- <-].
    destruct (call_refines s a c r a1 Hmax Hrel E) as (s1 & -> & Hrel1).
    destruct (IH s1 a1 rs1 a2 Hrel1 E2) as (s2 & -> & Hrel2). by exists s2.
Qed.

End Calls.

(** * The start of the clients

    [ClInitialize], the reservations and [ClStartup] of
    src/kernel/sm/wu/wuclients.cpp, in the order of [WuInit], make a state that
    implements the empty registry; the enumeration of the ready clients. *)
(** What the C library promises of [malloc]. *)
Definition malloc_ok (malloc : Z -> option Z) : Prop :=
  forall n a, malloc n = Some a -> 0 < a /\ a mod 8 = 0 /\ a + n <= 2 ^ 63.

Lemma words_round rows : 0 <= rows < 2 ^ 31 -> RoundSizeUp rows 32 / 32 = bitmap_words rows.
Proof.
  intros H. destruct (Z.eq_dec rows 0) as [->|Hne]; [done|].
  assert (E : RoundSizeUp rows 32 = round_up rows 5) by (apply (RoundSizeUp_spec rows 5); lia).
  rewrite E. unfold round_up, bitmap_words. change (2 ^ 5) with 32. rewrite Z.div_mul by lia. f_equal. lia.
Qed.

Section Start.
Context (DEBUGI : bool) (malloc : Z -> option Z) (Hmalloc : malloc_ok malloc).
Abbreviation column := (Z * Z)%type.

(** The columns added by a sequence of reservations. *)
Lemma reserve_all_ok sizes : Forall (fun n => 0 < n < 2 ^ 32) sizes ->
  forall s cols tks s', columns_ok DEBUGI (stateTable s) cols -> reserve_all DEBUGI sizes s = Done tks s' ->
  exists cols', map snd cols' = sizes /\ columns_ok DEBUGI (stateTable s') (cols ++ cols')
    /\ (forall j c, cols' !! j = Some c -> nth j tks 0 = ticket_of (length cols + j) c)
    /\ (forall j c, cols' !! j = Some c -> fst c mod 8 = 0)
    /\ s' = with_table (stateTable s') s.
Proof.
  induction 1 as [|n sizes Hn _ IH]; intros s cols tks s' Hok; cbn [reserve_all].
  - intros [= <- <-]. exists []. rewrite app_nil_r. split; [done|]. split; [done|]. split; [done|]. split; [done|]. by rewrite with_same_table.
  - intros H. apply wu_bind_Done in H as (tk & s1 & E1 & H). apply wu_bind_Done in H as (tks' & s2 & E2 & H). injection H as <- <-.
    unfold ClReserveStateBlocks in E1. rewrite on_table_spec in E1.
    destruct (ReserveStateTableColumn DEBUGI n 0 (stateTable s)) as [tk' t'|e t'] eqn:Er; [|done]. injection E1 as <- <-.
    destruct (reserve_ok DEBUGI (stateTable s) cols n 0 tk' t' Hok ltac:(lia) eq_refl Er) as (p & -> & Hok' & (q & Hq) & _).
    destruct (IH (with_table t' s) (cols ++ [(p, n)]) tks' s2 Hok' E2) as (cols' & Hs & Hok2 & Htk & Hal & Es).
    exists ((p, n) :: cols'). rewrite <- app_assoc in Hok2. split; [cbn; by rewrite Hs|]. split; [done|]. split.
    + intros [|j] c; cbn.
      * intros [= <-]. unfold ticket_of. cbn. do 2 f_equal. lia.
      * intros Hj. rewrite (Htk j c Hj). f_equal. rewrite length_app. cbn. lia.
    + split; [|rewrite Es at 1; by destruct s]. intros [|j] c; cbn; [|apply Hal].
      intros [= <-]. cbn. rewrite Hq. change (used_alignment 0) with 8. apply Z_mod_mult.
Qed.

(** [ClStartup] that returns 1. *)
Lemma startup_ok s cols rows maxSize s' : columns_ok DEBUGI (stateTable s) cols -> cols <> [] -> 0 < rowSize (stateTable s) ->
  rows < 2 ^ 31 -> ClStartup DEBUGI malloc rows maxSize s = Done tt s' ->
  0 <= rows /\ exists m t', s' = with_table t' (with_ready (Some (repeat 0 (Z.to_nat (bitmap_words rows)))) (readyClientsCount s) s)
    /\ fresh_table DEBUGI t' cols m /\ rowsCount t' = rows.
Proof.
  intros Hok Hne Hrs Hmax. unfold ClStartup. destruct (Z.ltb_spec rows 0); [done|].
  destruct (malloc (4 * RoundSizeUp rows 32 / 32)) as [x|]; [|done]. rewrite on_table_spec. cbn [stateTable with_ready].
  assert (Hrows : 0 <= rows < 2 ^ 31) by lia. rewrite (words_round rows Hrows).
  destruct (CreateStateTableRows DEBUGI malloc rows (u64 maxSize) (stateTable s)) as [u t'|e t'] eqn:E; [|done].
  set (maxRow := u64 maxSize) in *.
  intros [= <-]. split; [lia|].
  assert (Hpos : DEBUGI = true -> 0 < rows).
  { intros Hd. destruct (Z.ltb_spec 0 rows) as [|Hle]; [done|]. unfold CreateStateTableRows, wu_bind, wu_get in E.
    by rewrite Hd, (proj2 (Z.ltb_ge 0 rows)) in E by lia. }
  assert (Hdb : DEBUGI && negb (0 <? rows) = false)
    by (destruct DEBUGI; [by rewrite (proj2 (Z.ltb_lt 0 rows)) by auto|done]).
  assert (Hfit : row_stride DEBUGI (stateTable s) <= maxRow).
  { destruct (Z.le_gt_cases (row_stride DEBUGI (stateTable s)) maxRow) as [|Hgt]; [done|].
    unfold CreateStateTableRows, wu_bind, wu_get in E. rewrite Hdb in E.
    by rewrite (proj2 (Z.ltb_lt maxRow (row_stride DEBUGI (stateTable s)))) in E by lia. }
  destruct (malloc (total_size DEBUGI (stateTable s) rows)) as [a|] eqn:Hm.
  - destruct (Hmalloc _ _ Hm) as (A1 & A2 & A3).
    destruct (create_rows_ok DEBUGI malloc (stateTable s) cols rows maxRow a Hok Hne Hrs Hrows Hpos Hfit Hm A1 A2 A3) as (m & E' & Hf).
    rewrite E in E'. injection E' as _ ->. by eexists _, _.
  - unfold CreateStateTableRows, wu_bind, wu_get in E. rewrite Hdb in E.
    rewrite (proj2 (Z.ltb_ge maxRow (row_stride DEBUGI (stateTable s)))) in E by lia.
    unfold total_size in Hm. cbv zeta in E. by rewrite Hm in E.
Qed.

(** The state after a successful start implements the empty registry. *)
Lemma start_related sizes rows maxSize tks s : Forall (fun n => 0 < n < 2 ^ 32) sizes -> rows < 2 ^ 31 ->
  cl_start DEBUGI malloc sizes rows maxSize static_state = Done tks s ->
  related DEBUGI rows sizes tks s empty_registry.
Proof.
  intros Hs Hrows H. unfold cl_start in H. apply wu_bind_Done in H as (u & s1 & E1 & H).
  apply wu_bind_Done in H as (tks' & s2 & E2 & H). apply wu_bind_Done in H as (u' & s3 & E3 & H). injection H as <- <-.
  unfold ClInitialize in E1. destruct (ReserveStateTableColumn _ _ _ _) as [tk t1|e t1] eqn:Er; [|done]. injection E1 as _ <-.
  destruct (reserve_ok DEBUGI (empty_table DEBUGI) [] sizeof_ClMgmtData 0 tk t1 (empty_columns DEBUGI) ltac:(unfold sizeof_ClMgmtData; lia) eq_refl Er) as (p & _ & Hok1 & _).
  assert (p = 0) as -> by exact (co_first _ _ _ Hok1 _ eq_refl). cbn [app] in Hok1.
  destruct (reserve_all_ok sizes Hs (mk_cl t1 None 0 0 (-1) 0 true) [(0, sizeof_ClMgmtData)] _ _ Hok1 E2) as (cols' & Hsz & Hok2 & Htk & Hal & Es2).
  cbn [app] in Hok2. assert (Hend := co_end _ _ _ Hok2 0%nat _ eq_refl). assert (Hg := gap_nonneg DEBUGI).
  destruct u'. destruct (startup_ok s2 _ rows maxSize s3 Hok2 ltac:(done) ltac:(cbn in Hend; unfold sizeof_ClMgmtData in Hend; lia) Hrows E3) as (Hpos & m & t' & -> & Hf & Hr).
  exists ((0, 4) :: cols'), m, (fun _ => true), (repeat 0 (Z.to_nat (bitmap_words rows))). rewrite Es2.
  split; try done; cbn.
  - apply Hf.
  - by exists cols'.
  - eapply Forall_impl; [exact Hs|]. intros n. cbn. lia.
  - intros [|j] c; cbn; [by intros [= <-]|apply Hal].
  - intros r [e He]. done.
  - eapply cells_ext; [|exact (fresh_cells DEBUGI _ _ _ Hf)]. intros r j c k _ _ _. done.
  - rewrite repeat_length. unfold bitmap_words. Z.div_mod_to_equations; lia.
  - intros i w Hi. apply list_elem_of_lookup_2, list_elem_of_In, repeat_spec in Hi. subst w. split; [unfold is_word; lia|].
    intros k _. rewrite Z.bits_0. done.
  - by left.
Qed.

End Start.
