(* ===== verification/ClEnum.v ===== *)
(** * The enumeration of the ready clients

    [ClEnumerateClients] of src/kernel/sm/wu/wuclients.cpp: its loops end, and
    the callback gets the ready clients in ascending order.  A callback that
    returns 0 skips the other clients of the same word of the bitmap. *)

From Stdlib Require Import ZArith List Lia Bool.
From stdpp Require Import base gmap list.
From S2P Require Import Prelude WuBase WuAux StGuard StateTable StLayout StRows StOps StBits StFind Clients ClCells ClSpec ClRefine ClOps.
Local Open Scope sedna_scope.
Local Open Scope Z_scope.

(** The set bits of a word, from the lowest on. *)
Definition bits (v : Z) : list Z := List.filter (Z.testbit v) (map Z.of_nat (seq 0 32)).

Lemma bits_0 : bits 0 = [].
Proof. reflexivity. Qed.

Lemma filter_keeps_none {A} (P : A -> bool) l : (forall x, x ∈ l -> P x = false) -> List.filter P l = [].
Proof.
  induction l as [|x l IH]; intros H; cbn; [done|]. rewrite (H x) by left. apply IH. intros y Hy. apply H. by right.
Qed.

Lemma filter_same {A} (P Q : A -> bool) l : (forall x, x ∈ l -> P x = Q x) -> List.filter P l = List.filter Q l.
Proof.
  induction l as [|x l IH]; intros H; cbn; [done|]. rewrite (H x) by left. rewrite IH; [done|]. intros y Hy. apply H. by right.
Qed.

Lemma bits_reset v k v' : is_word v -> lowest v k -> (forall i, 0 <= i -> Z.testbit v' i = Z.testbit v i && negb (i =? k)) ->
  bits v = k :: bits v'.
Proof.
  intros Hw Hl Hb. destruct (lowest_word v k Hw Hl) as [K1 K2]. destruct Hl as (_ & H1 & H2). unfold bits.
  replace (seq 0 32) with (seq 0 (Z.to_nat k) ++ Z.to_nat k :: seq (S (Z.to_nat k)) (31 - Z.to_nat k)).
  2: { change (Z.to_nat k :: seq (S (Z.to_nat k)) (31 - Z.to_nat k)) with (seq (0 + Z.to_nat k) (S (31 - Z.to_nat k))).
       rewrite <- seq_app. f_equal. lia. }
  rewrite map_app, !List.filter_app. cbn [map List.filter]. rewrite Z2Nat.id, H1 by lia.
  rewrite Hb, Z.eqb_refl, andb_false_r by lia.
  rewrite (filter_keeps_none (Z.testbit v) (map Z.of_nat (seq 0 (Z.to_nat k)))), (filter_keeps_none (Z.testbit v') (map Z.of_nat (seq 0 (Z.to_nat k)))); cbn [app].
  - f_equal. apply filter_same. intros x Hx. apply list_elem_of_In, in_map_iff in Hx as (n & <- & Hn%in_seq).
    rewrite Hb by lia. rewrite (proj2 (Z.eqb_neq (Z.of_nat n) k)) by lia. by rewrite andb_true_r.
  - intros x Hx. apply list_elem_of_In, in_map_iff in Hx as (n & <- & Hn%in_seq). rewrite Hb, H2 by lia. done.
  - intros x Hx. apply list_elem_of_In, in_map_iff in Hx as (n & <- & Hn%in_seq). rewrite H2 by lia. done.
Qed.

Lemma bits_length v : (length (bits v) <= 32)%nat.
Proof.
  unfold bits. etransitivity; [apply filter_length_le|]. by rewrite length_map, length_seq.
Qed.

#[local] Opaque bits.

Section Enumerate.
Context {W : Type} (enumProc : Z -> Z -> Z -> W -> bool * W).

(** The callback on a list of clients, until it returns 0. *)
Fixpoint enum_list (n : Z) (l : list Z) (cnt : Z) (w : W) : Z * W :=
  match l with
  | [] => (cnt, w)
  | id :: l =>
      let '(go, w) := enumProc n cnt id w in
      if go then enum_list n l (cnt + 1) w else (cnt, w)
  end.

Fixpoint enum_lists (n : Z) (ls : list (list Z)) (cnt : Z) (w : W) : Z * W :=
  match ls with
  | [] => (cnt, w)
  | l :: ls => let '(cnt, w) := enum_list n l cnt w in enum_lists n ls cnt w
  end.

Lemma enumerate_zero fuel n first cnt w : enumerate_word enumProc fuel n first 0 cnt w = Some (cnt, w).
Proof. by destruct fuel. Qed.

Lemma enumerate_step fuel n first temp cnt w k v' : temp <> 0 -> ResetLowestBitSet temp = (k, v') ->
  enumerate_word enumProc (S fuel) n first temp cnt w =
    let '(go, w) := enumProc n cnt (first + k) w in
    if go then enumerate_word enumProc fuel n first v' (cnt + 1) w else Some (cnt, w).
Proof. intros Hne E. cbn [enumerate_word]. rewrite (proj2 (Z.eqb_neq temp 0) Hne), E. done. Qed.

Lemma enumerate_word_ok fuel n first : forall temp cnt w, is_word temp -> (length (bits temp) <= fuel)%nat ->
  enumerate_word enumProc fuel n first temp cnt w = Some (enum_list n (map (Z.add first) (bits temp)) cnt w).
Proof.
  induction fuel as [|fuel IH]; intros temp cnt w Hw Hf.
  all: destruct (Z.eq_dec temp 0) as [->|Hne]; [rewrite enumerate_zero, bits_0; done|].
  all: assert (Hpos : 0 < temp) by (destruct Hw; lia).
  all: destruct (ResetLowestBitSet_spec temp Hpos Hw) as (k & v' & E & Hl & Hv & Hb).
  all: rewrite (bits_reset temp k v' Hw Hl Hb) in Hf |- *; cbn [length] in Hf; [lia || idtac].
  rewrite (enumerate_step fuel n first temp cnt w k v' Hne E). cbn [map enum_list].
  destruct (enumProc n cnt (first + k) w) as [go w']. destruct go; [|done]. apply IH; [destruct Hw; split; lia|lia].
Qed.

(** The clients of a bitmap, word by word. *)
Fixpoint chunks (i : Z) (l : list Z) : list (list Z) :=
  match l with
  | [] => []
  | v :: l => map (Z.add (i * 32)) (bits v) :: chunks (i + 1) l
  end.

Lemma enumerate_words_ok n l : Forall is_word l -> forall i cnt w,
  enumerate_words enumProc n l i cnt w = Some (enum_lists n (chunks i l) cnt w).
Proof.
  induction 1 as [|v l Hw _ IH]; intros i cnt w; cbn [enumerate_words enum_lists chunks]; [done|].
  rewrite enumerate_word_ok by (done || apply bits_length). destruct (enum_list n _ cnt w). apply IH.
Qed.

End Enumerate.

#[local] Transparent bits.

(** ** The words of the registry *)

(** The ready clients of the word [i]. *)
Definition ready_chunk (a : registry) (i : nat) : list Z :=
  List.filter (ready_in a) (map (fun k => Z.of_nat (32 * i + k)%nat) (seq 0 32)).

Definition ready_chunks (rows : Z) (a : registry) : list (list Z) :=
  map (ready_chunk a) (seq 0 (Z.to_nat (bitmap_words rows))).

(** All ready clients. *)
Definition ready_clients (rows : Z) (a : registry) : list Z :=
  List.filter (ready_in a) (map Z.of_nat (seq 0 (Z.to_nat rows))).

Lemma chunk_bits a i v : is_word v -> (forall k, 0 <= k < 32 -> Z.testbit v k = ready_in a (32 * Z.of_nat i + k)) ->
  map (Z.add (Z.of_nat i * 32)) (bits v) = ready_chunk a i.
Proof.
  intros Hw Hb. unfold bits, ready_chunk. assert (H : forall l, Forall (fun n => (n < 32)%nat) l ->
    map (Z.add (Z.of_nat i * 32)) (List.filter (Z.testbit v) (map Z.of_nat l))
    = List.filter (ready_in a) (map (fun k => Z.of_nat (32 * i + k)) l)).
  { induction 1 as [|n l Hn _ IH]; [done|]. cbn [map List.filter]. rewrite Hb by lia.
    replace (32 * Z.of_nat i + Z.of_nat n) with (Z.of_nat (32 * i + n)) by lia.
    destruct (ready_in a (Z.of_nat (32 * i + n))); cbn [map]; rewrite IH; [f_equal; lia|done]. }
  apply H. apply Forall_forall. intros n Hn%list_elem_of_In%in_seq. lia.
Qed.

Lemma ready_chunks_ok a b : ready_is b (ready_in a) ->
  forall j, chunks (Z.of_nat j) (drop j b) = map (ready_chunk a) (seq j (length b - j)).
Proof.
  intros H j. remember (length b - j)%nat as n eqn:En. revert j En. induction n as [|n IH]; intros j En.
  - rewrite drop_ge by lia. done.
  - destruct (lookup_lt_is_Some_2 b j) as [v Hv]; [lia|]. rewrite (drop_S b v j Hv). cbn [chunks seq map].
    destruct (H j v Hv) as [Hw Hbits]. rewrite (chunk_bits a j v Hw Hbits). f_equal.
    replace (Z.of_nat j + 1) with (Z.of_nat (S j)) by lia. apply IH. lia.
Qed.

Lemma seq_offset d n : map Z.of_nat (seq d n) = map (fun k => Z.of_nat (d + k)%nat) (seq 0 n).
Proof.
  replace (seq d n) with (map (Nat.add d) (seq 0 n)); [by rewrite map_map|].
  rewrite <- (Nat.add_0_r d) at 2. exact (fmap_add_seq d 0 n).
Qed.

Lemma ready_clients_chunks DEBUGI rows sizes tickets s a : related DEBUGI rows sizes tickets s a ->
  concat (ready_chunks rows a) = ready_clients rows a.
Proof.
  intros (cols & m & vac & b & R). unfold ready_chunks, ready_clients.
  assert (Hrows := tk_rows _ _ _ _ _ (rf_table _ _ _ _ _ _ _ _ _ _ R)). rewrite (rf_rows _ _ _ _ _ _ _ _ _ _ R) in Hrows.
  assert (E : forall n, concat (map (ready_chunk a) (seq 0 n)) = List.filter (ready_in a) (map Z.of_nat (seq 0 (32 * n)))).
  { induction n as [|n IH]; [done|]. rewrite seq_S, map_app, concat_app, IH. cbn [map concat]. rewrite app_nil_r.
    replace (32 * S n)%nat with (32 * n + 32)%nat by lia. rewrite seq_app, map_app, List.filter_app.
    unfold ready_chunk. by rewrite (seq_offset (0 + 32 * n) 32). }
  rewrite E. assert (Hle : (Z.to_nat rows <= 32 * Z.to_nat (bitmap_words rows))%nat) by (unfold bitmap_words; Z.div_mod_to_equations; lia).
  replace (32 * Z.to_nat (bitmap_words rows))%nat with (Z.to_nat rows + (32 * Z.to_nat (bitmap_words rows) - Z.to_nat rows))%nat by lia.
  rewrite seq_app, map_app, List.filter_app. rewrite (filter_keeps_none (ready_in a) (map Z.of_nat (seq (0 + Z.to_nat rows) _))), app_nil_r; [done|].
  intros x Hx. apply list_elem_of_In, in_map_iff in Hx as (n & <- & Hn%in_seq). unfold ready_in.
  destruct (r_clients a !! Z.of_nat n) as [e|] eqn:He; [|done].
  assert (H := rf_dom _ _ _ _ _ _ _ _ _ _ R _ (mk_is_Some _ _ He)). lia.
Qed.

(** ** The whole enumeration *)

Section Whole.
Context {W : Type} (enumProc : Z -> Z -> Z -> W -> bool * W).

Lemma enum_app n l1 l2 cnt w : (forall n c id w, fst (enumProc n c id w) = true) ->
  enum_list enumProc n (l1 ++ l2) cnt w = let '(cnt, w) := enum_list enumProc n l1 cnt w in enum_list enumProc n l2 cnt w.
Proof.
  intros Hgo. revert cnt w. induction l1 as [|id l1 IH]; intros cnt w; cbn; [done|].
  assert (H := Hgo n cnt id w). destruct (enumProc n cnt id w) as [go w']. cbn in H. rewrite H. apply IH.
Qed.

Lemma enum_concat n ls : (forall n c id w, fst (enumProc n c id w) = true) -> forall cnt w,
  enum_lists enumProc n ls cnt w = enum_list enumProc n (concat ls) cnt w.
Proof.
  intros Hgo. induction ls as [|l ls IH]; intros cnt w; cbn [enum_lists concat]; [done|].
  rewrite enum_app by done. destruct (enum_list enumProc n l cnt w). apply IH.
Qed.

Lemma enumerate_state DEBUGI rows sizes tickets s a cols m vac b w : refines DEBUGI rows sizes tickets s a cols m vac b ->
  r_locks a < INT_MAX ->
  ClEnumerateClients DEBUGI enumProc w s = Some (Done (snd (enum_lists enumProc (readyClientsCount s) (ready_chunks rows a) 0 w)) s).
Proof.
  intros R Hl. unfold ClEnumerateClients, assert_call, ClLockClientsSet, wu_bind, wu_get, wu_put. destruct (rf_locks _ _ _ _ _ _ _ _ _ _ R) as [El Hl0].
  rewrite El, (proj2 (Z.eqb_neq (r_locks a) INT_MAX)) by lia. cbn [readyClientsCount with_locks].
  assert (Hrows := tk_rows _ _ _ _ _ (rf_table _ _ _ _ _ _ _ _ _ _ R)). rewrite (rf_rows _ _ _ _ _ _ _ _ _ _ R) in Hrows.
  assert (Ew : ready_words (with_locks (r_locks a + 1) s) = b).
  { unfold ready_words. cbn. rewrite (rf_bitmap _ _ _ _ _ _ _ _ _ _ R), (rf_rows _ _ _ _ _ _ _ _ _ _ R), words_round by done.
    apply take_ge. assert (H := rf_words _ _ _ _ _ _ _ _ _ _ R). lia. }
  rewrite Ew, enumerate_words_ok.
  2: { apply Forall_lookup. intros i v Hv. by apply (rf_ready _ _ _ _ _ _ _ _ _ _ R i v). }
  assert (Hc := ready_chunks_ok a b (rf_ready _ _ _ _ _ _ _ _ _ _ R) 0). rewrite drop_0, Nat.sub_0_r in Hc.
  assert (Hc' : chunks 0 b = ready_chunks rows a).
  { change 0 with (Z.of_nat 0). rewrite Hc. unfold ready_chunks. f_equal. f_equal. assert (H := rf_words _ _ _ _ _ _ _ _ _ _ R). lia. }
  rewrite Hc'. destruct (enum_lists enumProc (readyClientsCount s) (ready_chunks rows a) 0 w) as [c' w']. cbn [snd].
  unfold ClUnlockClientsSet, wu_bind, wu_get, wu_put. cbn [clientSetLockCount with_locks].
  rewrite (proj2 (Z.leb_gt (r_locks a + 1) 0)) by lia. do 2 f_equal. replace (r_locks a + 1 - 1) with (clientSetLockCount s) by lia. by destruct s.
Qed.

End Whole.
