(* ===== verification/ClClaims.v ===== *)
(** * Claims about the clients of the version manager

    What src/kernel/sm/wu/wuclients.cpp and wustatetable.cpp guarantee to the
    components that keep a state per client, and where the code departs from
    it.  [malloc_ok] is what the C library promises; [shift_mod_32] is what a
    shift by 32 or more does on the machines the program is built for. *)

From Stdlib Require Import ZArith List Lia Bool.
From stdpp Require Import base gmap list.
From S2P Require Import Prelude WuBase WuAux StGuard StateTable StLayout StRows StOps StBits StFind Clients ClCells ClSpec ClRefine ClOps ClEnum.
Local Open Scope sedna_scope.
Local Open Scope Z_scope.

Definition shift_mod_32 (wide_shift : Z -> Z) : Prop := forall n, 32 <= n -> wide_shift n = 2 ^ (n mod 32).

(** The states after a successful start and a sequence of calls within the
    contract, with the registry they stand for. *)
Definition cl_reachable (DEBUGI : bool) (malloc : Z -> option Z) (wide_shift : Z -> Z) (rows : Z) (sizes tks : list Z)
    (s : cl_state) (a : registry) : Prop :=
  exists maxSize s0 l rs, cl_start DEBUGI malloc sizes rows maxSize static_state = Done tks s0
    /\ spec_run rows sizes l empty_registry = Some (rs, a)
    /\ snd (impl_run DEBUGI wide_shift tks l s0) = s.

Section Claims.
Context (DEBUGI : bool) (malloc : Z -> option Z) (wide_shift : Z -> Z) (rows : Z) (sizes tks : list Z).

Lemma reachable_related s a : malloc_ok malloc -> shift_mod_32 wide_shift ->
  Forall (fun n => 0 < n < 2 ^ 32) sizes -> rows <= INT_MAX ->
  cl_reachable DEBUGI malloc wide_shift rows sizes tks s a -> related DEBUGI rows sizes tks s a.
Proof.
  intros Hm Hsh Hs Hr (maxSize & s0 & l & rs & H0 & Hl & Hrun).
  assert (Hrel := start_related DEBUGI malloc Hm sizes rows maxSize tks s0 Hs ltac:(unfold INT_MAX in Hr; lia) H0).
  destruct (run_refines DEBUGI wide_shift Hsh rows sizes tks l Hr s0 _ rs a Hrel Hl) as (s' & E & Hrel').
  rewrite E in Hrun. cbn in Hrun. by subst.
Qed.

(** ** The registry *)

(** C18. The code of the clients implements the registry: after a successful
    start, every sequence of calls within the contract gets the replies of the
    registry, errors included, in debug and in release builds; the counts of
    clients and of ready clients and the current client are those of the
    registry. *)
Theorem clients_refine maxSize s0 l rs a : malloc_ok malloc -> shift_mod_32 wide_shift ->
  Forall (fun n => 0 < n < 2 ^ 32) sizes -> rows <= INT_MAX ->
  cl_start DEBUGI malloc sizes rows maxSize static_state = Done tks s0 ->
  spec_run rows sizes l empty_registry = Some (rs, a) ->
  exists s, impl_run DEBUGI wide_shift tks l s0 = (rs, s)
    /\ ClQueryMaxClientsCount s = rows
    /\ clientsCount s = Z.of_nat (size (r_clients a))
    /\ readyClientsCount s = Z.of_nat (size (filter (fun p => e_ready p.2 = true) (r_clients a)))
    /\ ClGetCurrentClientId s = r_current a.
Proof.
  intros Hm Hsh Hs Hr H0 Hl.
  assert (Hrel := start_related DEBUGI malloc Hm sizes rows maxSize tks s0 Hs ltac:(unfold INT_MAX in Hr; lia) H0).
  destruct (run_refines DEBUGI wide_shift Hsh rows sizes tks l Hr s0 _ rs a Hrel Hl) as (s & E & cols & m & vac & b & R).
  exists s. split; [done|]. split; [apply (rf_rows _ _ _ _ _ _ _ _ _ _ R)|]. split; [apply (rf_count _ _ _ _ _ _ _ _ _ _ R)|].
  split; [apply (rf_readies _ _ _ _ _ _ _ _ _ _ R)|apply (rf_current _ _ _ _ _ _ _ _ _ _ R)].
Qed.

(** ** State blocks *)

(** C22. The state blocks of registered clients are aligned pieces of the
    table's memory, behind the bitmap and inside of the allocated block; the
    blocks of different clients, and different blocks of one client, do not
    overlap. *)
Theorem state_blocks_placed s a : malloc_ok malloc -> shift_mod_32 wide_shift ->
  Forall (fun n => 0 < n < 2 ^ 32) sizes -> rows <= INT_MAX ->
  cl_reachable DEBUGI malloc wide_shift rows sizes tks s a ->
  exists place m, mem (stateTable s) = Some m
    /\ (forall r j n, is_Some (r_clients a !! r) -> sizes !! j = Some n ->
          ClGetStateBlock DEBUGI wide_shift (ticket tks j) r s = Done (place r j) s
          /\ place r j mod 8 = 0
          /\ m_addr m + 4 * bitmap_words rows <= place r j /\ place r j + n <= m_end m)
    /\ (forall r j n r' j' n' x, is_Some (r_clients a !! r) -> sizes !! j = Some n ->
          is_Some (r_clients a !! r') -> sizes !! j' = Some n' -> (r, j) <> (r', j') ->
          place r j <= x < place r j + n -> ~ (place r' j' <= x < place r' j' + n')).
Proof.
  intros Hm Hsh Hs Hr Hreach. destruct (reachable_related s a Hm Hsh Hs Hr Hreach) as (cols & m & vac & b & R).
  assert (Hok := rf_table _ _ _ _ _ _ _ _ _ _ R). assert (Hrows := rf_rows _ _ _ _ _ _ _ _ _ _ R).
  set (off := fun j => match cols !! S j with Some c => fst c | None => 0 end).
  exists (fun r j => base (stateTable s) + stride (stateTable s) * r + off j), m. split; [apply (tk_mem _ _ _ _ _ Hok)|].
  assert (Hcol : forall j n, sizes !! j = Some n -> exists c, cols !! S j = Some c /\ snd c = n /\ 0 < n /\ off j = fst c).
  { intros j n Hj. destruct (block_column _ _ _ _ _ _ _ _ _ _ R j (lookup_lt_Some _ _ _ Hj)) as (c & Hc & Hsz & Hpos).
    exists c. rewrite Hj in Hsz. injection Hsz as ->. split; [done|]. split; [done|]. split; [done|]. unfold off. by rewrite Hc. }
  assert (Hreg : forall r, is_Some (r_clients a !! r) -> 0 <= r < rowsCount (stateTable s)).
  { intros r H. rewrite Hrows. by apply (rf_dom _ _ _ _ _ _ _ _ _ _ R). }
  split.
  - intros r j n Hre Hj. destruct (Hcol j n Hj) as (c & Hc & <- & Hpos & ->). assert (Hrr := Hreg r Hre). destruct Hre as [e He].
    rewrite (rf_tickets _ _ _ _ _ _ _ _ _ _ R j c Hc). split; [by apply (cell_registered _ _ Hsh _ _ _ _ _ _ _ _ _ R r e)|]. split.
    + destruct (tk_addr _ _ _ _ _ Hok) as [_ A1]. destruct (tk_stride _ _ _ _ _ Hok) as (_ & A2 & _).
      destruct (header_size_spec _ (tk_rows _ _ _ _ _ Hok)) as (_ & A3 & _). assert (A4 := rf_aligned _ _ _ _ _ _ _ _ _ _ R _ _ Hc).
      assert (A5 : gap DEBUGI mod 8 = 0) by (unfold gap, ST_GUARD_SIZE; by destruct DEBUGI). rewrite (tk_base _ _ _ _ _ Hok).
      assert (A6 : (stride (stateTable s) * r) mod 8 = 0) by (rewrite Z.mul_mod, A2 by lia; done). Z.div_mod_to_equations; lia.
    + destruct (cell_byte _ _ _ _ _ Hok r (S j) c (base (stateTable s) + stride (stateTable s) * r + fst c) Hrr Hc ltac:(lia)) as ([_ _] & B1 & _).
      destruct (cell_byte _ _ _ _ _ Hok r (S j) c (base (stateTable s) + stride (stateTable s) * r + fst c + snd c - 1) Hrr Hc ltac:(lia)) as ([_ B2] & _).
      assert (Hh := header_bounds _ _ _ _ _ Hok). assert (Hg := gap_nonneg DEBUGI). rewrite Hrows in *. lia.
  - intros r j n r' j' n' x Hre Hj Hre' Hj' Hne Hx. destruct (Hcol j n Hj) as (c & Hc & <- & _ & Eo), (Hcol j' n' Hj') as (c' & Hc' & <- & _ & Eo').
    rewrite Eo in Hx. rewrite Eo'. apply (cells_disjoint _ _ _ _ _ Hok r r' (S j) (S j') c c' x (Hreg r Hre) (Hreg r' Hre') Hc Hc'); [congruence|lia].
Qed.

(** ** Ready clients *)

(** C29. The enumeration of the ready clients ends for every callback and every
    state with fewer than [INT_MAX] locks, and leaves the state as it was.  The
    callback gets the number of ready clients and their ids in ascending order,
    word by word of the bitmap; it gets all of them if it never returns 0, and
    a 0 skips the rest of one word only. *)
Theorem enumerate_ready {W} (enumProc : Z -> Z -> Z -> W -> bool * W) s a w : malloc_ok malloc -> shift_mod_32 wide_shift ->
  Forall (fun n => 0 < n < 2 ^ 32) sizes -> rows <= INT_MAX ->
  cl_reachable DEBUGI malloc wide_shift rows sizes tks s a -> r_locks a < INT_MAX ->
  let n := readyClientsCount s in
  ClEnumerateClients DEBUGI enumProc w s = Some (Done (snd (enum_lists enumProc n (ready_chunks rows a) 0 w)) s)
  /\ concat (ready_chunks rows a) = ready_clients rows a
  /\ ((forall n c id w, fst (enumProc n c id w) = true) ->
        enum_lists enumProc n (ready_chunks rows a) 0 w = enum_list enumProc n (ready_clients rows a) 0 w).
Proof.
  intros Hm Hsh Hs Hr Hreach Hlocks. cbv zeta. assert (Hrel := reachable_related s a Hm Hsh Hs Hr Hreach).
  assert (Hcat := ready_clients_chunks _ _ _ _ _ _ Hrel). destruct Hrel as (cols & m & vac & b & R).
  split; [|split; [done|]].
  - by apply (enumerate_state enumProc DEBUGI rows sizes tks s a cols m vac b w R).
  - intros Hgo. rewrite <- Hcat. by apply enum_concat.
Qed.

(** ** Where the code departs from the contract *)

(** C30. The test of a client's number shifts before it masks the shift count
    ([1<<rowId&31]), and the search for a vacant row does not mask the last
    word of a table of several words.  So a client that was never registered,
    with a number of 5 or more (modulo 32), can be unregistered: the call
    returns 1 and the count of clients goes down.  And when all rows of a table
    of more than 32 rows, whose number is not divisible by 32, are taken, a
    client that asks for any row does not get the error
    [WUERR_STATE_TABLE_FULL]: an assertion fails in a build with assertions,
    and in a release build a null pointer is written to. *)
Theorem table_divergences s a : malloc_ok malloc -> shift_mod_32 wide_shift ->
  Forall (fun n => 0 < n < 2 ^ 32) sizes -> rows <= INT_MAX ->
  cl_reachable DEBUGI malloc wide_shift rows sizes tks s a ->
  (forall r, 0 <= r < rows -> r_clients a !! r = None -> 5 <= r mod 32 ->
     exists s', ClUnregisterClient DEBUGI wide_shift r s = Done tt s' /\ clientsCount s' = clientsCount s - 1)
  /\ (32 < rows -> rows mod 32 <> 0 -> (forall r, 0 <= r < rows -> is_Some (r_clients a !! r)) ->
     exists s', ClRegisterClient DEBUGI wide_shift (-1) false s = Failed (if DEBUGI then ASSERTION else UNDEFINED) s').
Proof.
  intros Hm Hsh Hs Hr Hreach. destruct (reachable_related s a Hm Hsh Hs Hr Hreach) as (cols & m & vac & b & R). split.
  - intros r Hrr Hn H5. exact (unregister_vacant _ _ Hsh _ _ _ _ _ _ _ _ _ R r Hrr Hn H5).
  - intros H32 Hmod Hall. exact (register_overrun _ _ _ _ _ _ _ _ _ _ _ R Hr H32 Hmod Hall).
Qed.

End Claims.

(** ** Guard memory *)

(** C23. The guard memory of wuaux.cpp, which works on words with masks and
    swapped bytes, is the definition by bytes: filling writes the pattern to
    every byte of the region and changes no other byte, and checking returns 1
    exactly when every byte of the region has the pattern. *)
Theorem guard_memory_exact m ptr dist fill : is_word fill -> bytes_ok m ->
  let '(lo, hi) := region ptr dist in
  region_in m lo hi ->
  exists m' b, DbgInitGuardMemory m ptr dist fill = Ok m'
    /\ (forall x, get m' x = if (lo <=? x) && (x <? hi) then Some (pattern_at fill x) else get m x)
    /\ DbgCheckGuardMemory m ptr dist fill = Ok b
    /\ (b = true <-> forall x, lo <= x < hi -> get m x = Some (pattern_at fill x)).
Proof.
  intros Hf Hb. assert (H1 := DbgInitGuardMemory_ok m ptr dist fill Hf Hb). assert (H2 := DbgCheckGuardMemory_ok m ptr dist fill Hf Hb).
  destruct (region ptr dist) as [lo hi]. intros Hr. destruct (H1 Hr) as (m' & E1 & U). destruct (H2 Hr) as (b & E2 & Hm).
  exists m', b. split; [done|]. split; [|done]. intros x. destruct (decide (m_addr m <= x < m_end m)) as [Hx|Hx].
  - rewrite (up_get _ _ _ U x Hx). unfold guard_bytes. by destruct ((lo <=? x) && (x <? hi)).
  - rewrite !get_out; [|done|by rewrite (updated_in _ _ _ _ U)]. destruct Hr as (_ & _ & R1 & R2).
    destruct (Z.leb_spec lo x), (Z.ltb_spec x hi); cbn; lia || done.
Qed.

Lemma guard_memory_exact_witness :
  let m := mk_memory 0x1000 [1; 2; 3; 4; 5; 6; 7; 8; 9; 10; 11; 12] in
  exists m' b, DbgInitGuardMemory m 0x1009 (-6) 0xDEADBEAF = Ok m' /\ DbgCheckGuardMemory m 0x1009 (-6) 0xDEADBEAF = Ok b
    /\ m_bytes m' = [1; 2; 3; 0xAF; 0xDE; 0xAD; 0xBE; 0xAF; 0xDE; 10; 11; 12] /\ b = false.
Proof.
  cbv zeta. destruct (guard_memory_exact (mk_memory 0x1000 [1; 2; 3; 4; 5; 6; 7; 8; 9; 10; 11; 12]) 0x1009 (-6) 0xDEADBEAF) as (m' & b & E1 & _ & E2 & _).
  - unfold is_word. lia.
  - unfold bytes_ok. repeat constructor; lia.
  - repeat split; vm_compute; congruence.
  - exists m', b. split; [exact E1|]. split; [exact E2|]. vm_compute in E1, E2. injection E1 as <-. injection E2 as <-. split; reflexivity.
Defined.

(** ** A concrete table

    The rows of [WuInit] (50 clients) with two blocks, in a debug build. *)

Definition small_malloc (n : Z) : option Z := if n <=? 2 ^ 40 then Some 0x1000 else None.

Lemma small_malloc_ok : malloc_ok small_malloc.
Proof.
  intros n a. unfold small_malloc. destruct (Z.leb_spec n (2 ^ 40)); [|done]. intros [= <-]. split; [lia|]. split; [reflexivity|lia].
Qed.

Definition x86_shift (n : Z) : Z := 2 ^ (n mod 32).

Lemma x86_shift_ok : shift_mod_32 x86_shift.
Proof. intros n _. reflexivity. Qed.

Definition block_sizes : list Z := [13; 16].

Lemma block_sizes_ok : Forall (fun n => 0 < n < 2 ^ 32) block_sizes.
Proof. repeat constructor; lia. Qed.

Definition started (DEBUGI : bool) : list Z * cl_state :=
  match cl_start DEBUGI small_malloc block_sizes 50 0x10000 static_state with
  | Done tks s => (tks, s)
  | Failed _ s => ([], s)
  end.

(** Two clients, the first one ready and current, with a byte written to it. *)
Definition some_calls : list cl_call :=
  [RegisterFixed 7; RegisterAny; MarkReady 7; SetCurrent 7; WriteCurrent 0 3 99; ReadByte 0 7 3; Unregister 7].

Definition spec_state (l : list cl_call) : registry :=
  match spec_run 50 block_sizes l empty_registry with Some (_, a) => a | None => empty_registry end.

Definition code_state (DEBUGI : bool) (l : list cl_call) : cl_state :=
  snd (impl_run DEBUGI x86_shift (fst (started DEBUGI)) l (snd (started DEBUGI))).

Definition in_contract (l : list cl_call) : bool :=
  match spec_run 50 block_sizes l empty_registry with Some _ => true | None => false end.

Lemma start_ok (DEBUGI : bool) :
  cl_start DEBUGI small_malloc block_sizes 50 0x10000 static_state = Done (fst (started DEBUGI)) (snd (started DEBUGI)).
Proof. destruct DEBUGI; vm_compute; reflexivity. Qed.

Lemma code_reachable (DEBUGI : bool) l : in_contract l = true ->
  cl_reachable DEBUGI small_malloc x86_shift 50 block_sizes (fst (started DEBUGI)) (code_state DEBUGI l) (spec_state l).
Proof.
  unfold in_contract, spec_state. destruct (spec_run 50 block_sizes l empty_registry) as [[rs a]|] eqn:E; [|done]. intros _.
  exists 0x10000, (snd (started DEBUGI)), l, rs. split; [apply start_ok|]. split; [exact E|reflexivity].
Qed.

Lemma clients_refine_witness : exists s, impl_run true x86_shift (fst (started true)) some_calls (snd (started true))
  = ([RId 7; RId 0; RUnit; RUnit; RUnit; RByte 99; RError WUERR_UNABLE_TO_UNREGISTER_CURRENT_CLIENT], s)
  /\ clientsCount s = 2.
Proof.
  destruct (clients_refine true small_malloc x86_shift 50 block_sizes (fst (started true)) 0x10000 (snd (started true)) some_calls
    [RId 7; RId 0; RUnit; RUnit; RUnit; RByte 99; RError WUERR_UNABLE_TO_UNREGISTER_CURRENT_CLIENT] (spec_state some_calls)
    small_malloc_ok x86_shift_ok block_sizes_ok ltac:(unfold INT_MAX; lia) (start_ok true)) as (s & E & _ & Hc & _).
  - vm_compute. reflexivity.
  - exists s. split; [exact E|]. rewrite Hc. vm_compute. reflexivity.
Defined.

Lemma state_blocks_placed_witness : exists place m, mem (stateTable (code_state true some_calls)) = Some m
  /\ place 7 0%nat mod 8 = 0 /\ (place 7 0%nat <= place 7 1%nat < place 7 0%nat + 13 -> False).
Proof.
  destruct (state_blocks_placed true small_malloc x86_shift 50 block_sizes (fst (started true)) (code_state true some_calls) (spec_state some_calls)
    small_malloc_ok x86_shift_ok block_sizes_ok ltac:(unfold INT_MAX; lia) (code_reachable true some_calls eq_refl)) as (place & m & Hm & H1 & H2).
  assert (H7 : is_Some (r_clients (spec_state some_calls) !! 7)) by (vm_compute; eexists; reflexivity).
  exists place, m. split; [exact Hm|]. split; [apply (H1 7 0%nat 13 H7 eq_refl)|]. intros Hx.
  apply (H2 7 0%nat 13 7 1%nat 16 (place 7 1%nat) H7 eq_refl H7 eq_refl ltac:(discriminate) Hx). lia.
Defined.

(** A callback that records the clients. *)
Definition record_client (n c id : Z) (w : list Z) : bool * list Z := (true, w ++ [id]).

Lemma enumerate_ready_witness :
  ClEnumerateClients false record_client [] (code_state false (some_calls ++ [RegisterFixed 40; MarkReady 40]))
  = Some (Done [7; 40] (code_state false (some_calls ++ [RegisterFixed 40; MarkReady 40]))).
Proof.
  set (l := some_calls ++ [RegisterFixed 40; MarkReady 40]).
  destruct (enumerate_ready false small_malloc x86_shift 50 block_sizes (fst (started false)) record_client (code_state false l) (spec_state l) []
    small_malloc_ok x86_shift_ok block_sizes_ok ltac:(unfold INT_MAX; lia) (code_reachable false l eq_refl) eq_refl) as (H & _).
  rewrite H. vm_compute. reflexivity.
Defined.

Lemma table_divergences_witness :
  (exists s', ClUnregisterClient true x86_shift 9 (code_state true some_calls) = Done tt s' /\ clientsCount s' = 1)
  /\ (exists s', ClRegisterClient false x86_shift (-1) false (code_state false (repeat RegisterAny 50)) = Failed UNDEFINED s').
Proof.
  split.
  - destruct (table_divergences true small_malloc x86_shift 50 block_sizes (fst (started true)) (code_state true some_calls) (spec_state some_calls)
      small_malloc_ok x86_shift_ok block_sizes_ok ltac:(unfold INT_MAX; lia) (code_reachable true some_calls eq_refl)) as (H & _).
    destruct (H 9 ltac:(lia) eq_refl ltac:(vm_compute; congruence)) as (s' & E & Hc). exists s'. split; [exact E|].
    rewrite Hc. vm_compute. reflexivity.
  - destruct (table_divergences false small_malloc x86_shift 50 block_sizes (fst (started false)) (code_state false (repeat RegisterAny 50))
      (spec_state (repeat RegisterAny 50)) small_malloc_ok x86_shift_ok block_sizes_ok ltac:(unfold INT_MAX; lia)
      (code_reachable false (repeat RegisterAny 50) eq_refl)) as (_ & H).
    apply H; [lia|vm_compute; congruence|]. intros r Hr.
    assert (Hall : forallb (fun r => bool_decide (is_Some (r_clients (spec_state (repeat RegisterAny 50)) !! r))) (map Z.of_nat (seq 0 50)) = true)
      by (vm_compute; reflexivity).
    rewrite forallb_forall in Hall. apply (bool_decide_eq_true_1 _). apply Hall. apply (proj2 (in_map_iff _ _ _)).
    exists (Z.to_nat r). split; [lia|]. apply in_seq. lia.
Defined.
