(* ===== verification/Buffers.v ===== *)
(** * The buffers of the storage manager

    Model of the buffer functions of src/kernel/sm/bufmgr/bm_core.cpp, of the
    part of wuversions.cpp that a flush calls back ([OnFlushBuffer]), and of
    the functions of wu.cpp that give the buffers to the versions of blocks.

    A buffer is known by its number, the offset of the code divided by the size
    of a page.  An [xptr] is the number [WuInternaliseXptr] makes of it.  The
    hash table of the buffers is a finite map, the lists of free and
    used buffers are lists that are pushed at the head and popped at the end
    (offs_list.h).  The data file is a map from blocks to pages: the file as
    the system shows it, whether or not it has reached the disk.  Its writes
    and the barriers between them are also kept in the order they are issued
    ([io]), and fail only outside of the file.

    Parameters: [approve], the answer of the other transactions when they are
    asked to unmap a block; [isPersSnapshotVersion], the function of the
    versions that needs the snapshots; and the allocator of blocks
    ([Allocator], blk_mngmt.cpp), with a state of its own; FreeBlocks.v has the
    one of the code. *)

From Stdlib Require Import ZArith List Lia Bool.
From stdpp Require Import base gmap list.
From S2P Require Import Prelude WuBase.
Local Open Scope sedna_scope.
Local Open Scope Z_scope.

(** ** Pages *)

Definition VE_VERSIONS_COUNT : nat := 4.

(** The two arrays of VE_VERSIONS_COUNT elements. *)
Record VersionsHeader := mk_vh { vh_xptr : list XPTR; vh_creatorTs : list TIMESTAMP }.

Definition LFS_INVALID_LSN : Z := 2 ^ 64 - 1.
Definition XNULL : XPTR := 0.

(** [IS_DATA_BLOCK]: the layer is the high half of the number. *)
Definition TMP_LAYER_STARTS_WITH : Z := 0x40000000.
Definition IS_DATA_BLOCK (p : XPTR) : bool := p / 2 ^ 32 <? TMP_LAYER_STARTS_WITH.

(** [vmm_sm_blk_hdr] and the rest of the page. *)
Record page (D : Type) := mk_page {
  pg_p : XPTR;
  pg_lsn : Z;
  pg_vh : VersionsHeader;
  pg_roffs : Z;
  pg_changed : bool;
  pg_trid : Z;
  pg_data : D
}.
Arguments mk_page {D}.
Arguments pg_p {D}.
Arguments pg_lsn {D}.
Arguments pg_vh {D}.
Arguments pg_roffs {D}.
Arguments pg_changed {D}.
Arguments pg_trid {D}.
Arguments pg_data {D}.

Definition ResetHeader : VersionsHeader :=
  mk_vh (repeat 0 VE_VERSIONS_COUNT) (repeat INVALID_TIMESTAMP VE_VERSIONS_COUNT).

(** [vmm_sm_blk_hdr::init]: the data stay what they were. *)
Definition init_hdr {D} (pg : page D) : page D :=
  mk_page XNULL LFS_INVALID_LSN ResetHeader 0 false (-1) (pg_data pg).

Definition set_p {D} p (pg : page D) : page D :=
  mk_page p (pg_lsn pg) (pg_vh pg) (pg_roffs pg) (pg_changed pg) (pg_trid pg) (pg_data pg).
Definition set_lsn {D} n (pg : page D) : page D :=
  mk_page (pg_p pg) n (pg_vh pg) (pg_roffs pg) (pg_changed pg) (pg_trid pg) (pg_data pg).
Definition set_vh {D} h (pg : page D) : page D :=
  mk_page (pg_p pg) (pg_lsn pg) h (pg_roffs pg) (pg_changed pg) (pg_trid pg) (pg_data pg).
Definition set_roffs {D} o (pg : page D) : page D :=
  mk_page (pg_p pg) (pg_lsn pg) (pg_vh pg) o (pg_changed pg) (pg_trid pg) (pg_data pg).
Definition set_changed {D} c (pg : page D) : page D :=
  mk_page (pg_p pg) (pg_lsn pg) (pg_vh pg) (pg_roffs pg) c (pg_trid pg) (pg_data pg).
Definition set_trid {D} t (pg : page D) : page D :=
  mk_page (pg_p pg) (pg_lsn pg) (pg_vh pg) (pg_roffs pg) (pg_changed pg) t (pg_data pg).
Definition set_data {D} d (pg : page D) : page D :=
  mk_page (pg_p pg) (pg_lsn pg) (pg_vh pg) (pg_roffs pg) (pg_changed pg) (pg_trid pg) d.

(** ** The physical log

    The records the versions write; the position of a record is its LSN. *)
Inductive log_record (D : Type) :=
| LL_PERS_SNAPSHOT_ADD (lxptr xptr : XPTR) (ts : TIMESTAMP)
| LL_HBBLOCK (xptr : XPTR) (block : page D)
| LL_FREE_BLOCKS (xptr : XPTR) (block : page D)
| LL_DECREASE (old_size : Z).
Arguments LL_PERS_SNAPSHOT_ADD {D} lxptr xptr ts.
Arguments LL_HBBLOCK {D} xptr block.
Arguments LL_FREE_BLOCKS {D} xptr block.
Arguments LL_DECREASE {D} old_size.

(** ** The requests to the operating system

    What a flush asks of the system, in this order: a page goes to its file
    ([write_block]), or the data file is synchronised ([uFlushBuffers]).  After
    a crash the writes before the last barrier are in the file; those after it
    may be there or not, in any order. *)
Inductive io_event (D : Type) :=
| IO_WRITE (p : XPTR) (pg : page D)
| IO_SYNC.
Arguments IO_WRITE {D} p pg.
Arguments IO_SYNC {D}.

(** ** The state *)

Record bm (D A : Type) := mk_bm {
  frames : gmap Z (page D);          (* the pages in buf_mem_addr *)
  buffer_table : gmap XPTR Z;
  phys_xptrs : gmap Z XPTR;
  free_mem : list Z;
  used_mem : list Z;
  buffer_on_stake : Z;               (* -1: RAMOFFS_OUT_OFF_BOUNDS *)
  swapped : list XPTR;               (* at most WU_SWAPPED_XPTRS_COUNT *)
  deps : gmap XPTR XPTR;             (* flushingDependenciesHash *)
  disk : gmap XPTR (page D);         (* the data and the temporary file *)
  io : list (io_event D);            (* the writes and barriers of the flushes *)
  log : list (log_record D);
  durable : Z;                       (* the records before it are on the disk *)
  alloc : A                          (* the allocator of blocks *)
}.
Arguments mk_bm {D A}.
Arguments frames {D A}.
Arguments buffer_table {D A}.
Arguments phys_xptrs {D A}.
Arguments free_mem {D A}.
Arguments used_mem {D A}.
Arguments buffer_on_stake {D A}.
Arguments swapped {D A}.
Arguments deps {D A}.
Arguments disk {D A}.
Arguments io {D A}.
Arguments log {D A}.
Arguments durable {D A}.
Arguments alloc {D A}.

Section Setters.
Context {D A : Type}.
Implicit Types b : bm D A.
Definition set_frames f b : bm D A := mk_bm f (buffer_table b) (phys_xptrs b) (free_mem b) (used_mem b)
  (buffer_on_stake b) (swapped b) (deps b) (disk b) (io b) (log b) (durable b) (alloc b).
Definition set_table t b : bm D A := mk_bm (frames b) t (phys_xptrs b) (free_mem b) (used_mem b)
  (buffer_on_stake b) (swapped b) (deps b) (disk b) (io b) (log b) (durable b) (alloc b).
Definition set_phys p b : bm D A := mk_bm (frames b) (buffer_table b) p (free_mem b) (used_mem b)
  (buffer_on_stake b) (swapped b) (deps b) (disk b) (io b) (log b) (durable b) (alloc b).
Definition set_free l b : bm D A := mk_bm (frames b) (buffer_table b) (phys_xptrs b) l (used_mem b)
  (buffer_on_stake b) (swapped b) (deps b) (disk b) (io b) (log b) (durable b) (alloc b).
Definition set_used l b : bm D A := mk_bm (frames b) (buffer_table b) (phys_xptrs b) (free_mem b) l
  (buffer_on_stake b) (swapped b) (deps b) (disk b) (io b) (log b) (durable b) (alloc b).
Definition set_stake i b : bm D A := mk_bm (frames b) (buffer_table b) (phys_xptrs b) (free_mem b) (used_mem b)
  i (swapped b) (deps b) (disk b) (io b) (log b) (durable b) (alloc b).
Definition set_swapped l b : bm D A := mk_bm (frames b) (buffer_table b) (phys_xptrs b) (free_mem b) (used_mem b)
  (buffer_on_stake b) l (deps b) (disk b) (io b) (log b) (durable b) (alloc b).
Definition set_deps d b : bm D A := mk_bm (frames b) (buffer_table b) (phys_xptrs b) (free_mem b) (used_mem b)
  (buffer_on_stake b) (swapped b) d (disk b) (io b) (log b) (durable b) (alloc b).
Definition set_disk d b : bm D A := mk_bm (frames b) (buffer_table b) (phys_xptrs b) (free_mem b) (used_mem b)
  (buffer_on_stake b) (swapped b) (deps b) d (io b) (log b) (durable b) (alloc b).
Definition set_io e b : bm D A := mk_bm (frames b) (buffer_table b) (phys_xptrs b) (free_mem b) (used_mem b)
  (buffer_on_stake b) (swapped b) (deps b) (disk b) e (log b) (durable b) (alloc b).
Definition set_log l n b : bm D A := mk_bm (frames b) (buffer_table b) (phys_xptrs b) (free_mem b) (used_mem b)
  (buffer_on_stake b) (swapped b) (deps b) (disk b) (io b) l n (alloc b).
Definition set_alloc a b : bm D A := mk_bm (frames b) (buffer_table b) (phys_xptrs b) (free_mem b) (used_mem b)
  (buffer_on_stake b) (swapped b) (deps b) (disk b) (io b) (log b) (durable b) a.
End Setters.

(** ** Lists of buffers (offs_list.h) *)

Definition push (i : Z) (l : list Z) : list Z := i :: l.

(** The last element and the list without it. *)
Fixpoint pop (l : list Z) : option (Z * list Z) :=
  match l with
  | [] => None
  | [i] => Some (i, [])
  | i :: l => match pop l with Some (j, l) => Some (j, i :: l) | None => None end
  end.

Definition find_remove (i : Z) (l : list Z) : list Z := List.filter (fun j => negb (j =? i)) l.

(** ** The allocator of blocks (blk_mngmt.cpp) *)

(** [new_data_block] and [push_to_persistent_free_blocks_stack] on the stack of
    the data file, which may use the buffers, and [bm_delete_block] on
    temporary blocks. *)
Class Allocator (D A : Type) := {
  new_data_block : wu (bm D A) XPTR;
  push_free_block : XPTR -> wu (bm D A) unit;
  delete_temp_block : Z -> XPTR -> wu (bm D A) unit
}.

Section Buffers.
Context {D A : Type} (approve : Z -> XPTR -> bool)
  (isPersSnapshotVersion : VersionsHeader -> option bool).
Abbreviation M := (wu (bm D A)).

(** ** Pages in buffers *)

(** [OFFS2ADDR]: a buffer that does not exist is outside of the memory. *)
Definition get_frame (id : Z) : M (page D) := fun b =>
  match frames b !! id with
  | None => Failed UNDEFINED b
  | Some pg => Done pg b
  end.
Definition put_frame (id : Z) (pg : page D) : M unit :=
  wu_modify (fun b => set_frames (<[id := pg]> (frames b)) b).
Definition upd_frame (id : Z) (f : page D -> page D) : M unit :=
  do! pg <- get_frame id; put_frame id (f pg).

Definition get_phys (id : Z) : M XPTR := fun b =>
  match phys_xptrs b !! id with
  | None => Failed UNDEFINED b
  | Some p => Done p b
  end.

(** ** The data file *)

(** [calculate_offset_and_file_handler] refuses blocks outside of the files. *)
Definition read_block (p : XPTR) (id : Z) : M unit := fun b =>
  match disk b !! p with
  | None => Failed WUERR_SEDNA_EXCEPTION b
  | Some pg => Done tt (set_frames (<[id := set_changed false (set_roffs id pg)]> (frames b)) b)
  end.

Definition write_block (p : XPTR) (id : Z) : M unit :=
  do! pg <- get_frame id;
  fun b =>
    match disk b !! p with
    | None => Failed WUERR_SEDNA_EXCEPTION b
    | Some _ => Done tt (set_io (io b ++ [IO_WRITE p pg]) (set_disk (<[p := pg]> (disk b)) b))
    end.

(** A barrier of the data file; the system does not fail. *)
Definition uFlushBuffers : M unit := wu_modify (fun b => set_io (io b ++ [IO_SYNC]) b).
Definition sync_barrier (sync : bool) : M unit := if sync then uFlushBuffers else wu_ret tt.

(** ** The log *)

(** All of the log is flushed when the record belongs to the chain of physical
    records, whose last one is the last record here. *)
Definition llFlushLsn (lsn : Z) : M unit :=
  if lsn =? LFS_INVALID_LSN then wu_ret tt
  else wu_modify (fun b =>
    set_log (log b) (if lsn <=? Z.of_nat (length (log b)) - 1 then Z.of_nat (length (log b)) else Z.max (durable b) lsn) b).

Definition llLogPersSnapshotInfo (lxptr xptr : XPTR) (ts : TIMESTAMP) : M Z := fun b =>
  Done (Z.of_nat (length (log b))) (set_log (log b ++ [LL_PERS_SNAPSHOT_ADD lxptr xptr ts]) (durable b) b).

Definition llLogRecordBlock (xptr : XPTR) (pg : page D) : M unit :=
  wu_modify (fun b => set_log (log b ++ [LL_HBBLOCK xptr pg]) (durable b) b).

(** ** Flushing dependencies (wuversions.cpp) *)

Definition UpdateFlushingDependency (trigger target : XPTR) : M unit :=
  wu_modify (fun b =>
    set_deps (if target =? 0 then delete trigger (deps b) else <[trigger := target]> (deps b)) b).

Definition LookupFlushingDependency (trigger : XPTR) : M XPTR := fun b =>
  Done (default 0 (deps b !! trigger)) b.

(** ** Functions of wu.cpp on buffers *)

Definition FindBlockInBuffers (xptr : XPTR) : M Z := fun b =>
  match buffer_table b !! xptr with
  | Some id => Done id b
  | None => Failed WUERR_BLOCK_NOT_IN_BUFFERS b
  end.

Definition LocateBlockHeader (id : Z) : M (page D) :=
  if id <? 0 then wu_fail WUERR_BAD_PARAMS else get_frame id.

Definition LocateVersionsHeader (id : Z) : M VersionsHeader :=
  do! pg <- LocateBlockHeader id; wu_ret (pg_vh pg).

(** [OnPersVersionRelocating]: 1 when a version is created, 2 when one is
    flushed.  With mode 1 a block that is not in buffers is no error. *)
Definition OnPersVersionRelocating (lxptr oldVerXptr : XPTR) (mode : Z) : M unit :=
  if mode =? 1 then fun b =>
    match (do! id <- FindBlockInBuffers oldVerXptr; do! pg <- LocateBlockHeader id; wu_ret (id, pg)) b with
    | Failed _ b => Done tt b
    | Done (id, pg) b =>
        (do! oldVerTs <- (fun b => match vh_creatorTs (pg_vh pg) !! 0%nat with
                                   | Some ts => Done ts b
                                   | None => Failed UNDEFINED b
                                   end);
         do! lsn <- llLogPersSnapshotInfo lxptr oldVerXptr oldVerTs;
         put_frame id (set_lsn lsn pg)) b
    end
  else if mode =? 2 then fun b =>
    match (do! id <- FindBlockInBuffers oldVerXptr; LocateBlockHeader id) b with
    | Failed _ b => Failed WUERR_BLOCK_NOT_IN_BUFFERS b
    | Done pg b => llLogRecordBlock oldVerXptr pg b
    end
  else wu_fail WUERR_BAD_PARAMS.

(** ** Flushing *)

(** [OnFlushBuffer] of wuversions.cpp; [flush] is [ImpFlushBuffer]. *)
Definition before_flush (flush : Z -> bool -> M bool) (xptr : XPTR) : M unit :=
  do! target <- LookupFlushingDependency xptr;
  if target =? 0 then wu_ret tt
  else fun b =>
    match FindBlockInBuffers target b with
    | Failed e b => if decide (e = WUERR_BLOCK_NOT_IN_BUFFERS) then UpdateFlushingDependency xptr 0 b else Failed e b
    | Done id b => (do! _ <- UpdateFlushingDependency xptr 0; do! _ <- flush id true; wu_ret tt) b
    end.

(** The result of [ImpOnPersVersionRelocating] is overwritten by 1. *)
Definition OnFlushBuffer (flush : Z -> bool -> M bool) (xptr : XPTR) : M unit :=
  do! _ <- before_flush flush xptr;
  do! id <- FindBlockInBuffers xptr;
  do! header <- LocateVersionsHeader id;
  match isPersSnapshotVersion header with
  | None => wu_fail WUERR_GENERAL_ERROR
  | Some true =>
      match vh_xptr header !! 0%nat with
      | Some lxptr => wu_ignore (OnPersVersionRelocating lxptr xptr 2)
      | None => wu_fail UNDEFINED
      end
  | Some false => wu_ret tt
  end.

(** [flush_buffer] calls [OnFlushBuffer], which may flush another buffer after
    it has removed a dependency: the number of dependencies bounds the depth. *)
Fixpoint flush_rec (fuel : nat) (id : Z) (sync : bool) : M bool :=
  match fuel with
  | O => wu_fail DIVERGES
  | S fuel =>
      do! blk <- get_frame id;
      if pg_changed blk then
        do! physXptr <- get_phys id;
        do! _ <- (if IS_DATA_BLOCK physXptr then llFlushLsn (pg_lsn blk) else wu_ret tt);
        do! _ <- OnFlushBuffer (flush_rec fuel) physXptr;
        do! _ <- sync_barrier sync;
        do! _ <- write_block physXptr id;
        do! _ <- sync_barrier sync;
        do! _ <- upd_frame id (set_changed false);
        wu_ret true
      else wu_ret false
  end.

Definition flush_buffer (id : Z) (sync : bool) : M bool := fun b =>
  flush_rec (S (size (deps b))) id sync b.

(** The loops of [flush_buffers] and [flush_data_buffers] over the table; the
    order of the table is that of the map. *)
Fixpoint flush_list (data_only : bool) (ids : list Z) : M unit :=
  match ids with
  | [] => wu_ret tt
  | id :: ids =>
      do! blk <- get_frame id;
      do! _ <- (if negb data_only || IS_DATA_BLOCK (pg_p blk) then flush_buffer id false else wu_ret false);
      flush_list data_only ids
  end.

Definition buffered_ids (b : bm D A) : list Z := map snd (map_to_list (buffer_table b)).

Definition flush_buffers : M unit := fun b => flush_list false (buffered_ids b) b.
(** The buffers of a checkpoint are written without barriers, but for one at
    the end. *)
Definition flush_data_buffers : M unit := fun b =>
  (do! _ <- flush_list true (buffered_ids b); uFlushBuffers) b.

(** ** Free buffers *)

(** The loop of [get_free_buffer] over the used buffers, from the end of the
    list; a buffer that is not approved goes to its head.  After [n] buffers
    without approval the list is as before, and the loop never ends. *)
Fixpoint choose_victim (n : nat) (sid : Z) : M (XPTR * Z) := fun b =>
  match n with
  | O => match used_mem b with
         | [] => Failed WUERR_SEDNA_EXCEPTION b
         | _ :: _ => Failed DIVERGES b
         end
  | S n =>
      match pop (used_mem b) with
      | None => Failed WUERR_SEDNA_EXCEPTION b
      | Some (id, used) =>
          let b := set_used used b in
          if id =? buffer_on_stake b then choose_victim n sid (set_used (push id (used_mem b)) b)
          else
            match frames b !! id with
            | None => Failed UNDEFINED b
            | Some blk =>
                if approve sid (pg_p blk) then Done (pg_p blk, id) b
                else choose_victim n sid (set_used (push id (used_mem b)) b)
            end
      end
  end.

Definition get_free_buffer (sid : Z) : M (XPTR * Z) := fun b =>
  match pop (free_mem b) with
  | Some (id, free) => Done (XNULL, id) (set_free free b)
  | None =>
      (do! (cur_p, id) <- choose_victim (length (used_mem b)) sid;
       do! _ <- flush_buffer id false;
       do! p <- get_phys id;
       do! _ <- wu_modify (fun b => set_table (delete p (buffer_table b)) b);
       do! _ <- wu_modify (fun b => set_phys (<[id := XNULL]> (phys_xptrs b)) b);
       wu_ret (cur_p, id)) b
  end.

Definition put_block_to_buffer (sid : Z) (p : XPTR) (read_block_from_disk : bool) : M (XPTR * Z) := fun b =>
  match buffer_table b !! p with
  | Some id => Done (XNULL, id) b
  | None =>
      (do! (swapped, id) <- get_free_buffer sid;
       do! _ <- wu_modify (fun b => set_table (<[p := id]> (buffer_table b)) b);
       do! _ <- wu_modify (fun b => set_used (push id (used_mem b)) b);
       do! _ <- (if read_block_from_disk then
                   do! _ <- read_block p id; upd_frame id (set_trid (-1))
                 else upd_frame id (fun hdr => set_roffs id (set_p p (init_hdr hdr))));
       do! _ <- wu_modify (fun b => set_phys (<[id := p]> (phys_xptrs b)) b);
       wu_ret (swapped, id)) b
  end.

(** ** Buffers for the versions (wu.cpp) *)

Definition WU_SWAPPED_XPTRS_COUNT : nat := 1.

Definition GetSwapCode (curClientId : Z) (b : bm D A) : Z :=
  if (length (swapped b) <? WU_SWAPPED_XPTRS_COUNT)%nat then curClientId else -1.

Definition PushSwappedXptr (xptr : XPTR) : M unit :=
  wu_modify (fun b =>
    if (length (swapped b) <? WU_SWAPPED_XPTRS_COUNT)%nat then set_swapped (xptr :: swapped b) b else b).

Definition PopSwappedXptr : M XPTR := fun b =>
  match swapped b with
  | [] => Done 0 b
  | x :: l => Done x (set_swapped l b)
  end.

Definition PutBlockToBuffer (curClientId : Z) (xptr : XPTR) : M Z :=
  do! b <- wu_get;
  do! (swapped, id) <- put_block_to_buffer (GetSwapCode curClientId b) xptr true;
  do! _ <- PushSwappedXptr swapped;
  wu_ret id.

Definition MarkBufferDirty (id : Z) : M unit :=
  do! pg <- LocateBlockHeader id; put_frame id (set_changed true pg).

Definition FlushBuffer (id : Z) (sync : bool) : M unit :=
  do! _ <- flush_buffer id sync; wu_ret tt.

Definition GrantExclusiveAccessToBuffer (curClientId : Z) (id : Z) : M unit :=
  if curClientId =? -1 then wu_fail WUERR_FUNCTION_INVALID_IN_THIS_STATE
  else
    do! header <- LocateBlockHeader id;
    if negb (pg_trid header =? -1) && negb (pg_trid header =? curClientId)
    then wu_fail WUERR_UNEXPECTED_TRID_WR_A
    else put_frame id (set_trid curClientId header).

Definition RevokeExclusiveAccessToBuffer (curClientId : Z) (id : Z) : M unit :=
  if curClientId =? -1 then wu_fail WUERR_FUNCTION_INVALID_IN_THIS_STATE
  else
    do! header <- LocateBlockHeader id;
    if negb (pg_trid header =? -1) && negb (pg_trid header =? curClientId)
    then wu_fail WUERR_UNEXPECTED_TRID_WR_A
    else put_frame id (set_trid (-1) header).

Context `{Allocator D A}.

Definition bm_allocate_data_block (sid : Z) : M (XPTR * Z * XPTR) :=
  do! p <- new_data_block;
  do! (swapped, id) <- put_block_to_buffer sid p false;
  do! _ <- upd_frame id (fun hdr => set_changed true (set_roffs id (set_p p (init_hdr hdr))));
  wu_ret (p, id, swapped).

Definition AllocateDataBlock (curClientId : Z) : M (XPTR * Z) :=
  do! b <- wu_get;
  do! (p, id, swapped) <- bm_allocate_data_block (GetSwapCode curClientId b);
  do! _ <- PushSwappedXptr swapped;
  wu_ret (p, id).

(** The source buffer is on stake during the allocation. *)
Definition AllocateDataBlockAndCopyData (curClientId : Z) (srcBufferId : Z) : M (XPTR * Z) :=
  do! _ <- LocateBlockHeader srcBufferId;
  do! _ <- wu_modify (set_stake srcBufferId);
  fun b =>
    match (do! (p, id) <- AllocateDataBlock curClientId;
           do! _ <- LocateBlockHeader id;
           do! srcHeader <- get_frame srcBufferId;
           do! _ <- put_frame id (set_roffs id (set_changed true srcHeader));
           wu_ret (p, id)) b with
    | Done r b => Done r (set_stake (-1) b)
    | Failed e b => Failed e (set_stake (-1) b)
    end.

(** [delete_data_block] of blk_mngmt.cpp *)
Definition delete_data_block (p : XPTR) : M unit := fun b =>
  match buffer_table b !! p with
  | Some id =>
      push_free_block p
        (set_free (push id (free_mem b)) (set_used (find_remove id (used_mem b))
           (set_table (delete p (buffer_table b)) b)))
  | None => push_free_block p b
  end.

Definition FreeBlock (xptr : XPTR) : M unit := delete_data_block xptr.
End Buffers.
