(* ===== verification/Versions.v ===== *)
(** * The versions of blocks

    Model of src/kernel/sm/wu/wuversions.cpp: which version of a block a
    transaction gets, the creation of versions, the deletion of blocks, commit
    and rollback.  The state has the snapshots and the clock (SnApi.v), the
    buffers (Buffers.v), the restrictions and the state block of the current
    client; a pointer to a restriction is its key in the hash table.

    [checksDisabled] is VE_SETUP_DISABLE_CORRECTNESS_CHECKS_FLAG, which release
    builds set; [versionsDisabled] is VE_SETUP_DISABLE_VERSIONS_FLAG. *)

From Stdlib Require Import ZArith List Lia Bool.
From stdpp Require Import base gmap list.
From S2P Require Import Prelude WuBase Snapshots SnApi Buffers.
Local Open Scope sedna_scope.
Local Open Scope Z_scope.

(** ** Data *)

Definition VE_BUFSZ : nat := 1024.

Inductive ve_function_type :=
| VE_FUNCTION_ALLOCATE_BLOCK
| VE_FUNCTION_CREATE_VERSION
| VE_FUNCTION_CREATE_VERSION_PERS
| VE_FUNCTION_FREE_BLOCK.

Record VeFunction := mk_function {
  vf_lxptr : LXPTR;
  vf_xptr : XPTR;
  vf_anchorTs : TIMESTAMP;
  vf_type : ve_function_type
}.

Definition VE_RESTRICTION_NONE : Z := -1.
Definition VE_RESTRICTION_OLD_VERSION : Z := -2.
Definition VE_RESTRICTION_DEAD_BLOCK : Z := -3.

(** [r_type] is the union of [type] (negative) and [creatorId]. *)
Record VeRestriction := mk_restriction {
  r_xptr : XPTR;
  deletorTs : TIMESTAMP;
  r_type : Z;
  r_next : option XPTR
}.

Record VeClientState := mk_ve_client {
  isCompleted : bool;
  isRolledBack : bool;
  functionList : option (list VeFunction);
  restrictionList : option XPTR
}.

(** A row of the state table is zeroed when it is vacated. *)
Definition zero_ve_client : VeClientState := mk_ve_client false false None None.

Definition VE_COMMIT_TRANSACTION : Z := 37.
Definition VE_ROLLBACK_TRANSACTION : Z := 29.

Record ve_world (D A : Type) := mk_ve {
  ve_bm : bm D A;
  restrictionHash : gmap XPTR VeRestriction;
  ve_block : option VeClientState;
  ve_current : Z
}.
Arguments mk_ve {D A}.
Arguments ve_bm {D A}.
Arguments restrictionHash {D A}.
Arguments ve_block {D A}.
Arguments ve_current {D A}.

(** ** Headers *)

(** [hdr->xptr[i] != 0 && IsValidTimestamp(hdr->creatorTs[i])] and the check of
    an empty entry, on the entries in order. *)
Definition entry_used (e : XPTR * TIMESTAMP) : bool := negb (fst e =? 0) && IsValidTimestamp (snd e).
Definition entry_empty (e : XPTR * TIMESTAMP) : bool := (fst e =? 0) && (snd e =? INVALID_TIMESTAMP).

Fixpoint drop_used (l : list (XPTR * TIMESTAMP)) : list (XPTR * TIMESTAMP) :=
  match l with
  | [] => []
  | e :: l' => if entry_used e then drop_used l' else l
  end.

Definition header_entries (hdr : VersionsHeader) : list (XPTR * TIMESTAMP) :=
  zip (vh_xptr hdr) (vh_creatorTs hdr).

Definition ValidateHeader (hdr : VersionsHeader) : bool :=
  match header_entries hdr with
  | [] => false
  | e :: l => entry_used e && forallb entry_empty (drop_used l)
  end.

(** The entries of [ComposeHeader] behind the first one, and the records that
    found no room: an entry is copied when its number differs from the one
    before ([prevId]). *)
Fixpoint compose_entries (room : nat) (prevId : Z) (hdr : VersionsHeader) (out : list (TIMESTAMP * Z))
  : res wuerr (list (XPTR * TIMESTAMP) * list (TIMESTAMP * Z)) :=
  match room, out with
  | O, _ => Ok ([], out)
  | _, [] => Ok ([], [])
  | S room', (ts, id) :: out' =>
      if id =? prevId then compose_entries room prevId hdr out'
      else
        let* e := of_option UNDEFINED (if id <? 0 then None else header_entries hdr !! Z.to_nat id) in
        let* (l, rest) := compose_entries room' id hdr out' in
        Ok (e :: l, rest)
  end.

Definition fill_entries (l : list (XPTR * TIMESTAMP)) : VersionsHeader :=
  mk_vh (take VE_VERSIONS_COUNT (map fst l ++ repeat 0 VE_VERSIONS_COUNT))
    (take VE_VERSIONS_COUNT (map snd l ++ repeat INVALID_TIMESTAMP VE_VERSIONS_COUNT)).

(** [i] is the position of the first record with timestamp [ts]. *)
Fixpoint find_record (ts : TIMESTAMP) (out : list (TIMESTAMP * Z)) : option Z :=
  match out with
  | [] => None
  | (t, id) :: out => if t =? ts then Some id else find_record ts out
  end.

(** [tsOutBuf[0]], [idOutBuf[0]]; the buffers are zeroed. *)
Definition first_record (out : list (TIMESTAMP * Z)) : TIMESTAMP * Z := hd (0, 0) out.

Definition VeIsVersionPersistent (out : list (TIMESTAMP * Z)) (persTs : TIMESTAMP) : bool :=
  match find_record persTs out with
  | Some id => snd (first_record out) =? id
  | None => false
  end.

(** [VE_VERSIONS_COUNT+2] *)
Definition OUT_SIZE : nat := 6.

(** [None] when a call in it fails. *)
Definition IsPersSnapshotVersion (versionsDisabled : bool) (snLst : SnSnapshotsList) (hdr : VersionsHeader)
  : option bool :=
  match SnExpandDfvHeader versionsDisabled snLst (vh_creatorTs hdr) OUT_SIZE false with
  | Throw _ => None
  | Ok (out, _) =>
      Some (match find_record (SnGetSnapshotTimestamps_pers snLst) out with
            | Some id => id =? 0
            | None => false
            end)
  end.

(** ** Restrictions *)

Section Restrictions.
Context (checksDisabled : bool).
Abbreviation hash := (gmap XPTR VeRestriction).

Definition LookupRestriction (xptr : XPTR) (h : hash) : VeRestriction :=
  match (if checksDisabled then None else h !! xptr) with
  | Some r => mk_restriction (r_xptr r) (deletorTs r) (r_type r) None
  | None => mk_restriction 0 INVALID_TIMESTAMP VE_RESTRICTION_NONE None
  end.

(** The new table and the new head of the client's list. *)
Definition UpdateRestriction (r : VeRestriction) (h : hash) (restrictionList : option XPTR)
  : res wuerr (hash * option XPTR) :=
  if checksDisabled then Ok (h, restrictionList)
  else if (r_type r <? 0) && negb (r_type r =? VE_RESTRICTION_OLD_VERSION)
          && negb (r_type r =? VE_RESTRICTION_DEAD_BLOCK) then Throw WUERR_BAD_PARAMS
  else
    match h !! r_xptr r with
    | None =>
        Ok (<[r_xptr r := mk_restriction (r_xptr r) (deletorTs r) (r_type r) restrictionList]> h,
            Some (r_xptr r))
    | Some old =>
        if negb (r_type r =? VE_RESTRICTION_DEAD_BLOCK) then Throw WUERR_GENERAL_ERROR
        else Ok (<[r_xptr r := mk_restriction (r_xptr r) (deletorTs r) (r_type r) (r_next old)]> h,
                 restrictionList)
    end.

(** The walk over a client's list; every step follows a pointer into the table,
    so that its size bounds the steps of a list without cycles. *)
Fixpoint dismiss_list (fuel : nat) (head : option XPTR) (isCleaningUp : bool) (h : hash) : res wuerr hash :=
  match head with
  | None => Ok h
  | Some k =>
      match fuel with
      | O => Throw DIVERGES
      | S fuel =>
          match h !! k with
          | None => Throw UNDEFINED
          | Some inspected =>
              let unlinked := <[k := mk_restriction (r_xptr inspected) (deletorTs inspected) (r_type inspected) None]> h in
              dismiss_list fuel (r_next inspected) isCleaningUp
                (if isCleaningUp || (0 <=? r_type inspected) then delete (r_xptr inspected) unlinked else unlinked)
          end
      end
  end.

Definition DismissRestrictionList (head : option XPTR) (isCleaningUp : bool) (h : hash) : res wuerr hash :=
  if checksDisabled then Ok h else dismiss_list (S (size h)) head isCleaningUp h.

Definition UpdateRestrictionsOnFreeBlock (xptr : XPTR) (h : hash) : res wuerr hash :=
  if checksDisabled then Ok h
  else
    match h !! xptr with
    | None => Throw WUERR_GENERAL_ERROR
    | Some r =>
        if negb (r_type r =? VE_RESTRICTION_OLD_VERSION) && negb (r_type r =? VE_RESTRICTION_DEAD_BLOCK)
        then Throw WUERR_GENERAL_ERROR
        else Ok (delete xptr h)
    end.
End Restrictions.

Section Versions.
Context {D A : Type} `{Allocator D A} (approve : Z -> XPTR -> bool)
  (versionsDisabled checksDisabled : bool).
Abbreviation state := (sn_state (ve_world D A)).
Abbreviation M := (wu state).

Definition set_world (w : ve_world D A) (s : state) : state := mk_sn (snapshots s) (clock s) (block s) w.
Definition set_bm (b : bm D A) (w : ve_world D A) : ve_world D A :=
  mk_ve b (restrictionHash w) (ve_block w) (ve_current w).
Definition set_hash h (w : ve_world D A) : ve_world D A := mk_ve (ve_bm w) h (ve_block w) (ve_current w).
Definition set_ve_block c (w : ve_world D A) : ve_world D A :=
  mk_ve (ve_bm w) (restrictionHash w) (Some c) (ve_current w).

(** The function of a flush that needs the snapshots. *)
Definition pers (s : state) : VersionsHeader -> option bool :=
  IsPersSnapshotVersion versionsDisabled (snapshots s).

(** A function of the buffers. *)
Definition on_bm {R} (c : state -> wu (bm D A) R) : M R := fun s =>
  match c s (ve_bm (world s)) with
  | Done r b => Done r (set_world (set_bm b (world s)) s)
  | Failed e b => Failed e (set_world (set_bm b (world s)) s)
  end.

(** A change of the restrictions that may fail. *)
Definition on_hash (f : gmap XPTR VeRestriction -> res wuerr (gmap XPTR VeRestriction)) : M unit := fun s =>
  match f (restrictionHash (world s)) with
  | Ok h => Done tt (set_world (set_hash h (world s)) s)
  | Throw e => Failed e s
  end.

Definition of_res {R} (r : res wuerr R) : M R :=
  match r with Ok a => wu_ret a | Throw e => wu_fail e end.

Definition ve_fetch {R} (e : wuerr) (o : option R) : M R :=
  match o with Some a => wu_ret a | None => wu_fail e end.

(** *** Functions of other components *)

Definition GetCurrentVeBlock : M VeClientState := fun s =>
  match ve_block (world s) with
  | None => Failed WUERR_STATE_TABLE_BAD_ROW_ID s
  | Some c => Done c s
  end.
Definition put_client (c : VeClientState) : M unit :=
  wu_modify (fun s => set_world (set_ve_block c (world s)) s).

Definition ClGetCurrent : M Z := fun s => Done (ve_current (world s)) s.

Definition ImpPutBlockToBuffer (xptr : XPTR) : M Z :=
  on_bm (fun s => PutBlockToBuffer approve (pers s) (ve_current (world s)) xptr).
Definition ImpFindBlockInBuffers (xptr : XPTR) : M Z := on_bm (fun _ => FindBlockInBuffers xptr).
Definition ImpLocateHeader (id : Z) : M VersionsHeader := on_bm (fun _ => LocateVersionsHeader id).
Definition ImpAllocateBlock : M (XPTR * Z) :=
  on_bm (fun s => AllocateDataBlock approve (pers s) (ve_current (world s))).
Definition ImpFreeBlock (xptr : XPTR) : M unit := on_bm (fun _ => FreeBlock xptr).
Definition ImpMarkBufferDirty (id : Z) : M unit := on_bm (fun _ => MarkBufferDirty id).
Definition ImpFlushBuffer (id : Z) (sync : bool) : M unit := on_bm (fun s => FlushBuffer (pers s) id sync).
Definition ImpAllocateBlockAndCopyData (src : Z) : M (XPTR * Z) :=
  on_bm (fun s => AllocateDataBlockAndCopyData approve (pers s) (ve_current (world s)) src).
Definition ImpGrantExclusiveAccessToBuffer (id : Z) : M unit :=
  on_bm (fun s => GrantExclusiveAccessToBuffer (ve_current (world s)) id).
Definition ImpRevokeExclusiveAccessToBuffer (id : Z) : M unit :=
  on_bm (fun s => RevokeExclusiveAccessToBuffer (ve_current (world s)) id).
Definition ImpOnPersVersionRelocating (lxptr xptr : XPTR) (mode : Z) : M unit :=
  on_bm (fun _ => OnPersVersionRelocating lxptr xptr mode).
Definition ImpExpandDfvHeader (tsIn : list TIMESTAMP) (isTotalAnchor : bool)
  : M (list (TIMESTAMP * Z) * TIMESTAMP) := fun s =>
  of_res (SnExpandDfvHeader versionsDisabled (snapshots s) tsIn OUT_SIZE isTotalAnchor) s.

(** [VeFreeBlockLowAndUpdateRestrictions], the callback of the snapshots. *)
Definition VeFreeBlockLow (xptr : XPTR) : wu (ve_world D A) unit := fun w =>
  match UpdateRestrictionsOnFreeBlock checksDisabled xptr (restrictionHash w) with
  | Throw e => Failed e w
  | Ok h =>
      match FreeBlock xptr (ve_bm w) with
      | Done _ b => Done tt (set_bm b (set_hash h w))
      | Failed e b => Failed e (set_bm b (set_hash h w))
      end
  end.

(** *** The version a transaction gets *)

(** The records of a header; the deletor of a dead block comes first. *)
Definition expand_for (restriction : VeRestriction) (hdr : VersionsHeader)
  : M (list (TIMESTAMP * Z) * TIMESTAMP) :=
  if r_type restriction =? VE_RESTRICTION_DEAD_BLOCK then
    do! (out, anchorTs) <- ImpExpandDfvHeader (deletorTs restriction :: vh_creatorTs hdr) false;
    wu_ret (map (fun '(ts, id) => (ts, id - 1)) out, anchorTs)
  else ImpExpandDfvHeader (vh_creatorTs hdr) false.

Definition updater_branch (restriction : VeRestriction) (hdr : VersionsHeader) (bufferId : Z)
    (out : list (TIMESTAMP * Z)) : M Z :=
  do! transactionTs <- SnGetTransactionTs;
  do! me <- ClGetCurrent;
  do! creator <- ve_fetch UNDEFINED (vh_creatorTs hdr !! 0%nat);
  let '(ts0, id0) := first_record out in
  if ((0 <=? r_type restriction) && negb (r_type restriction =? me))
     || ((ts0 =? SN_WORKING_VERSION_TIMESTAMP) && negb (creator =? transactionTs))
  then wu_fail WUERR_WORKING_VERSION_CREATED_BY_ALLY
  else if id0 =? -1 then wu_fail WUERR_NO_APROPRIATE_VERSION
  else
    do! _ <- (if (ts0 =? SN_WORKING_VERSION_TIMESTAMP) || versionsDisabled
              then ImpGrantExclusiveAccessToBuffer bufferId else wu_ret tt);
    wu_ret bufferId.

Definition query_branch (lxptr : LXPTR) (hdr : VersionsHeader) (out : list (TIMESTAMP * Z)) : M Z :=
  do! snapshotTs <- SnGetTransactionSnapshotTs;
  match find_record snapshotTs out with
  | None => wu_fail WUERR_NO_APROPRIATE_VERSION
  | Some id =>
      if id =? -1 then wu_fail WUERR_NO_APROPRIATE_VERSION
      else
        do! olderXptr <- ve_fetch UNDEFINED (if id <? 0 then None else vh_xptr hdr !! Z.to_nat id);
        do! bufferId <- ImpPutBlockToBuffer olderXptr;
        do! versionHeader <- ImpLocateHeader bufferId;
        if negb (ValidateHeader versionHeader) || negb (bool_decide (vh_xptr versionHeader !! 0%nat = Some lxptr))
        then wu_fail WUERR_PERS_DATA_VALIDATION_FAILED
        else wu_ret bufferId
  end.

(** The result has the buffer, the records and the anchor.  The diagnosis of a
    header that is not valid ([AnalyzePopularFailure]) is left out. *)
Definition PutBlockVersionToBuffer (lxptr : LXPTR) : M (Z * list (TIMESTAMP * Z) * TIMESTAMP) :=
  do! c <- GetCurrentVeBlock;
  do! trnStatusAndType <- SnGetTransactionStatusAndType;
  do! s <- wu_get;
  let restriction := LookupRestriction checksDisabled lxptr (restrictionHash (world s)) in
  if (trnStatusAndType =? SN_COMPLETED_TRANSACTION) || (isCompleted c && negb (isRolledBack c))
  then wu_fail WUERR_FUNCTION_INVALID_IN_THIS_STATE
  else if r_type restriction =? VE_RESTRICTION_OLD_VERSION then wu_fail WUERR_GENERAL_ERROR
  else
    do! bufferId <- ImpPutBlockToBuffer lxptr;
    do! versionHeader <- ImpLocateHeader bufferId;
    if negb (ValidateHeader versionHeader) || negb (bool_decide (vh_xptr versionHeader !! 0%nat = Some lxptr))
    then wu_fail WUERR_PERS_DATA_VALIDATION_FAILED
    else
      do! (out, anchorTs) <- expand_for restriction versionHeader;
      do! bufferId <- (if trnStatusAndType =? SN_UPDATER_TRANSACTION
                       then updater_branch restriction versionHeader bufferId out
                       else if trnStatusAndType =? SN_READ_ONLY_TRANSACTON
                       then query_branch lxptr versionHeader out
                       else wu_fail ASSERTION);
      wu_ret (bufferId, out, anchorTs).

Definition VePutBlockToBuffer (lxptr : LXPTR) : M Z :=
  do! (bufferId, _, _) <- PutBlockVersionToBuffer lxptr;
  wu_ret bufferId.

(** *** Function and restriction lists of the client *)

Definition push_function (f : VeFunction) : M unit :=
  do! c <- GetCurrentVeBlock;
  match functionList c with
  | None => wu_fail UNDEFINED
  | Some l => put_client (mk_ve_client (isCompleted c) (isRolledBack c) (Some (l ++ [f])) (restrictionList c))
  end.

Definition update_restriction (r : VeRestriction) : M unit :=
  do! c <- GetCurrentVeBlock;
  do! s <- wu_get;
  match UpdateRestriction checksDisabled r (restrictionHash (world s)) (restrictionList c) with
  | Throw e => wu_fail e
  | Ok (h, head) =>
      do! _ <- on_hash (fun _ => Ok h);
      put_client (mk_ve_client (isCompleted c) (isRolledBack c) (functionList c) head)
  end.

(** *** Allocation *)

Definition VeAllocateBlock : M (LXPTR * Z) :=
  do! c <- GetCurrentVeBlock;
  do! trnStatusAndType <- SnGetTransactionStatusAndType;
  do! transactionTs <- SnGetTransactionTs;
  if (trnStatusAndType =? SN_COMPLETED_TRANSACTION) || isCompleted c
  then wu_fail WUERR_FUNCTION_INVALID_IN_THIS_STATE
  else if trnStatusAndType =? SN_READ_ONLY_TRANSACTON then wu_fail WUERR_SNAPSHOTS_ARE_READ_ONLY
  else
    do! (xptr, bufferId) <- ImpAllocateBlock;
    do! _ <- ImpLocateHeader bufferId;
    if negb (trnStatusAndType =? SN_UPDATER_TRANSACTION) then wu_fail ASSERTION
    else
      do! _ <- on_bm (fun _ => upd_frame bufferId (set_vh (fill_entries [(xptr, transactionTs)])));
      do! _ <- ImpGrantExclusiveAccessToBuffer bufferId;
      do! _ <- ImpMarkBufferDirty bufferId;
      do! _ <- (if versionsDisabled then wu_ret tt
                else
                  do! me <- ClGetCurrent;
                  do! _ <- push_function (mk_function xptr xptr INVALID_TIMESTAMP VE_FUNCTION_ALLOCATE_BLOCK);
                  update_restriction (mk_restriction xptr INVALID_TIMESTAMP me None));
      wu_ret (xptr, bufferId).

(** *** New versions *)

(** [SnDamageSnapshots] for the first record without room. *)
Definition ComposeHeader (pHeaderIn : VersionsHeader) (xptr : XPTR) (creatorTs : TIMESTAMP)
    (out : list (TIMESTAMP * Z)) : M (list (XPTR * TIMESTAMP)) :=
  do! (entries, rest) <- of_res (compose_entries (VE_VERSIONS_COUNT - 1) (-1) pHeaderIn out);
  do! _ <- match rest with
           | [] => wu_ret tt
           | (ts, _) :: _ => SnDamage versionsDisabled ts
           end;
  wu_ret ((xptr, creatorTs) :: entries).

(** [replace] of the table has no effect on a block that is not in it. *)
Definition table_replace (p : XPTR) (id : Z) (b : bm D A) : bm D A :=
  match buffer_table b !! p with
  | Some _ => set_table (<[p := id]> (buffer_table b)) b
  | None => b
  end.

Definition assert_phys (id : Z) (p : XPTR) : wu (bm D A) unit :=
  do! q <- get_phys id;
  if q =? p then wu_ret tt else wu_fail ASSERTION.

Definition FixFlushXptrs (oldVerBufferId newVerBufferId : Z) (newBlock lxptr : XPTR) : wu (bm D A) unit :=
  do! _ <- assert_phys oldVerBufferId lxptr;
  wu_modify (fun b =>
    let b := set_phys (<[oldVerBufferId := newBlock]> (<[newVerBufferId := lxptr]> (phys_xptrs b))) b in
    table_replace lxptr newVerBufferId (table_replace newBlock oldVerBufferId b)).

Definition OnCreateVersion (lxptr oldVerXptr : XPTR) (isOldVerPers : bool) : M unit :=
  if isOldVerPers then
    do! _ <- on_bm (fun _ => UpdateFlushingDependency lxptr oldVerXptr);
    ImpOnPersVersionRelocating lxptr oldVerXptr 1
  else wu_ret tt.

(** [header.xptr[1] = newBlock] *)
Definition link_old_version (newBlock : XPTR) (hdr : VersionsHeader) : VersionsHeader :=
  mk_vh (<[1%nat := newBlock]> (vh_xptr hdr)) (vh_creatorTs hdr).

Definition VeCreateBlockVersion (lxptr : LXPTR) : M Z :=
  do! c <- GetCurrentVeBlock;
  do! trnStatusAndType <- SnGetTransactionStatusAndType;
  if trnStatusAndType =? SN_READ_ONLY_TRANSACTON then wu_fail WUERR_SNAPSHOTS_ARE_READ_ONLY
  else if (trnStatusAndType =? SN_COMPLETED_TRANSACTION) || isCompleted c
  then wu_fail WUERR_FUNCTION_INVALID_IN_THIS_STATE
  else if versionsDisabled then wu_fail WUERR_VERSIONS_DISABLED
  else
    do! s <- wu_get;
    let persTs := SnGetSnapshotTimestamps_pers (snapshots s) in
    do! trnTs <- SnGetTransactionTs;
    do! (bufferId, out, anchorTs) <- PutBlockVersionToBuffer lxptr;
    do! oldHeader <- ImpLocateHeader bufferId;
    let isPers := VeIsVersionPersistent out persTs in
    do! s <- wu_get;
    do! out <- of_res (SnFilterOutDamaged (snapshots s) out);
    if fst (first_record out) =? SN_WORKING_VERSION_TIMESTAMP then wu_fail WUERR_WORKING_VERSION_ALREADY_CREATED
    else
      do! entries <- ComposeHeader oldHeader lxptr trnTs out;
      do! (newBlock, newBlockBufferId) <- ImpAllocateBlockAndCopyData bufferId;
      do! _ <- ImpLocateHeader newBlockBufferId;
      let header := link_old_version newBlock (fill_entries entries) in
      do! me <- ClGetCurrent;
      do! _ <- on_bm (fun _ => upd_frame newBlockBufferId (set_vh header));
      do! _ <- on_bm (fun _ => FixFlushXptrs bufferId newBlockBufferId newBlock lxptr);
      do! _ <- ImpMarkBufferDirty bufferId;
      do! _ <- update_restriction (mk_restriction lxptr 0 me None);
      do! _ <- update_restriction (mk_restriction newBlock 0 VE_RESTRICTION_OLD_VERSION None);
      do! _ <- OnCreateVersion lxptr newBlock isPers;
      do! _ <- ImpGrantExclusiveAccessToBuffer newBlockBufferId;
      do! _ <- push_function (mk_function lxptr newBlock anchorTs
                 (if isPers then VE_FUNCTION_CREATE_VERSION_PERS else VE_FUNCTION_CREATE_VERSION));
      wu_ret newBlockBufferId.

(** *** Deletion *)

(** A block that is not in buffers leaves the anchor as it was. *)
Definition OnFreeBlock (lxptr : LXPTR) (anchorTs : TIMESTAMP) : M TIMESTAMP := fun s =>
  match ImpFindBlockInBuffers lxptr s with
  | Failed e s => if decide (e = WUERR_BLOCK_NOT_IN_BUFFERS) then Done anchorTs s else Failed e s
  | Done id s =>
      (do! header <- ImpLocateHeader id;
       do! (_, anchorTs) <- ImpExpandDfvHeader (vh_creatorTs header) true;
       wu_ret anchorTs) s
  end.

Definition VeFreeBlock (lxptr : LXPTR) : M unit :=
  do! c <- GetCurrentVeBlock;
  do! trnStatusAndType <- SnGetTransactionStatusAndType;
  do! transactionTs <- SnGetTransactionTs;
  do! s <- wu_get;
  let restriction := LookupRestriction checksDisabled lxptr (restrictionHash (world s)) in
  if (trnStatusAndType =? SN_COMPLETED_TRANSACTION) || isCompleted c
  then wu_fail WUERR_FUNCTION_INVALID_IN_THIS_STATE
  else if trnStatusAndType =? SN_READ_ONLY_TRANSACTON then wu_fail WUERR_SNAPSHOTS_ARE_READ_ONLY
  else if negb (trnStatusAndType =? SN_UPDATER_TRANSACTION) then wu_fail ASSERTION
  else
    do! me <- ClGetCurrent;
    if (0 <? r_type restriction) && negb (r_type restriction =? me)
    then wu_fail WUERR_WORKING_VERSION_CREATED_BY_ALLY
    else if (r_type restriction =? VE_RESTRICTION_DEAD_BLOCK) || (r_type restriction =? VE_RESTRICTION_OLD_VERSION)
    then wu_fail WUERR_NO_APROPRIATE_VERSION
    else if versionsDisabled then ImpFreeBlock lxptr
    else
      do! anchorTs <- OnFreeBlock lxptr TIMESTAMP_MIN;
      do! _ <- update_restriction (mk_restriction lxptr transactionTs VE_RESTRICTION_DEAD_BLOCK None);
      push_function (mk_function lxptr lxptr anchorTs VE_FUNCTION_FREE_BLOCK).

(** *** The end of a transaction *)

(** Exclusive access to a block in buffers is revoked. *)
Definition revoke_block (lxptr : LXPTR) : M unit := fun s =>
  match ImpFindBlockInBuffers lxptr s with
  | Done id s => ImpRevokeExclusiveAccessToBuffer id s
  | Failed e s => if decide (e = WUERR_BLOCK_NOT_IN_BUFFERS) then Done tt s else Failed e s
  end.

Definition is_create (t : ve_function_type) : bool :=
  match t with VE_FUNCTION_CREATE_VERSION | VE_FUNCTION_CREATE_VERSION_PERS => true | _ => false end.
Definition is_free_block (t : ve_function_type) : bool :=
  match t with VE_FUNCTION_FREE_BLOCK => true | _ => false end.

Definition request_of (f : VeFunction) : SnRequestForGc :=
  mk_request (vf_lxptr f) (vf_xptr f) (vf_anchorTs f)
    (match vf_type f with
     | VE_FUNCTION_ALLOCATE_BLOCK => SN_REQUEST_NOP
     | VE_FUNCTION_CREATE_VERSION | VE_FUNCTION_CREATE_VERSION_PERS => SN_REQUEST_ADD_NORMAL_VERSION
     | VE_FUNCTION_FREE_BLOCK => SN_REQUEST_ADD_BOGUS_VERSION
     end).

Definition ImpSubmitRequestForGc (currentSnapshotTs : TIMESTAMP) (buf : list SnRequestForGc) : M unit :=
  SnSubmitRequest versionsDisabled VeFreeBlockLow currentSnapshotTs buf.

(** The loop of [OnTransactionCommit]; [buf] has the requests that wait. *)
Fixpoint commit_loop (currentSnapshotTs : TIMESTAMP) (l : list VeFunction) (buf : list SnRequestForGc) : M unit :=
  match l with
  | [] => ImpSubmitRequestForGc currentSnapshotTs buf
  | f :: l =>
      do! buf <- (if Nat.eqb (length buf) VE_BUFSZ
                  then do! _ <- ImpSubmitRequestForGc currentSnapshotTs buf; wu_ret []
                  else wu_ret buf);
      do! _ <- (if is_free_block (vf_type f) then wu_ret tt else revoke_block (vf_lxptr f));
      commit_loop currentSnapshotTs l (buf ++ [request_of f])
  end.

Definition OnTransactionCommit (c : VeClientState) (currentSnapshotTs : TIMESTAMP) : M unit :=
  match functionList c with
  | None => wu_ret tt
  | Some l => commit_loop currentSnapshotTs l []
  end.

(** The old version in the buffer [id] returns from [xptr] to [lxptr]. *)
Definition FixFlushXptr (id : Z) (xptr lxptr : XPTR) : wu (bm D A) unit :=
  do! _ <- assert_phys id xptr;
  do! b <- wu_get;
  if negb (bool_decide (buffer_table b !! xptr = Some id)) then wu_fail ASSERTION
  else
    wu_modify (fun b =>
      let b := set_phys (<[id := lxptr]> (phys_xptrs b)) b in
      match buffer_table b !! lxptr with
      | Some old =>
          let b := table_replace xptr old (set_table (<[lxptr := id]> (buffer_table b)) b) in
          set_phys (<[old := xptr]> (phys_xptrs b)) b
      | None => set_table (delete xptr (<[lxptr := id]> (buffer_table b))) b
      end).

(** [put_block_to_buffer(-1, ...)] *)
Definition put_old_version (xptr : XPTR) : M Z :=
  do! (_, id) <- on_bm (fun s => put_block_to_buffer approve (pers s) (-1) xptr true);
  wu_ret id.

(** The buffer of a version that returned is written, or its dependency goes. *)
Definition settle_old_version (f : VeFunction) (id : Z) : M unit :=
  match vf_type f with
  | VE_FUNCTION_CREATE_VERSION_PERS =>
      do! target <- on_bm (fun _ => LookupFlushingDependency (vf_lxptr f));
      if negb (target =? 0) then on_bm (fun _ => UpdateFlushingDependency (vf_lxptr f) 0)
      else do! _ <- ImpMarkBufferDirty id; ImpFlushBuffer id true
  | _ => ImpMarkBufferDirty id
  end.

Definition rollback_one (f : VeFunction) : M unit :=
  match vf_type f with
  | VE_FUNCTION_ALLOCATE_BLOCK => wu_ignore (ImpFreeBlock (vf_lxptr f))
  | VE_FUNCTION_CREATE_VERSION | VE_FUNCTION_CREATE_VERSION_PERS =>
      do! id <- put_old_version (vf_xptr f);
      do! _ <- on_bm (fun _ => FixFlushXptr id (vf_xptr f) (vf_lxptr f));
      do! _ <- settle_old_version f id;
      wu_ignore (ImpFreeBlock (vf_xptr f))
  | VE_FUNCTION_FREE_BLOCK => revoke_block (vf_lxptr f)
  end.

(** The loop of [OnTransactionRollback] over the functions, the last one first.
    It stops behind a function that failed, and [success = (i == rend())]: the
    failure of the very last one is not noticed. *)
Fixpoint rollback_loop (l : list VeFunction) : M unit := fun s =>
  match l with
  | [] => Done tt s
  | f :: l =>
      match rollback_one f s with
      | Done _ s => rollback_loop l s
      | Failed e s => match l with [] => Done tt s | _ :: _ => Failed e s end
      end
  end.

Definition OnTransactionRollback (c : VeClientState) : M unit :=
  match functionList c with
  | None => wu_ret tt
  | Some l => rollback_loop (rev l)
  end.

Definition VeClearTransactionRestrictions (how : Z) : M unit :=
  if negb (how =? VE_ROLLBACK_TRANSACTION) && negb (how =? VE_COMMIT_TRANSACTION)
  then wu_fail WUERR_BAD_PARAMS
  else
    do! c <- GetCurrentVeBlock;
    do! _ <- on_hash (DismissRestrictionList checksDisabled (restrictionList c) (how =? VE_ROLLBACK_TRANSACTION));
    put_client (mk_ve_client (isCompleted c) (isRolledBack c) (functionList c) None).

Definition VeOnTransactionEnd (how : Z) (currentSnapshotTs : TIMESTAMP) : M unit :=
  if (if how =? VE_COMMIT_TRANSACTION then negb (IsValidTimestamp currentSnapshotTs)
      else negb (how =? VE_ROLLBACK_TRANSACTION))
  then wu_fail WUERR_BAD_PARAMS
  else
    do! c <- GetCurrentVeBlock;
    if isCompleted c then wu_fail WUERR_FUNCTION_INVALID_IN_THIS_STATE
    else if versionsDisabled && (how =? VE_ROLLBACK_TRANSACTION) then wu_fail WUERR_VERSIONS_DISABLED
    else
      do! _ <- VeClearTransactionRestrictions how;
      do! _ <- (if versionsDisabled then wu_ret tt
                else if how =? VE_COMMIT_TRANSACTION then OnTransactionCommit c currentSnapshotTs
                else OnTransactionRollback c);
      do! c <- GetCurrentVeBlock;
      put_client (mk_ve_client true (if how =? VE_ROLLBACK_TRANSACTION then true else isRolledBack c)
                    (functionList c) (restrictionList c)).

(** *** Clients *)

Definition VeOnRegisterClient : M unit :=
  do! _ <- GetCurrentVeBlock;
  do! statusAndType <- SnGetTransactionStatusAndType;
  if (statusAndType =? SN_READ_ONLY_TRANSACTON) && versionsDisabled then wu_fail WUERR_VERSIONS_DISABLED
  else put_client (mk_ve_client false false
                     (if statusAndType =? SN_UPDATER_TRANSACTION then Some [] else None) None).

Definition VeOnUnregisterClient : M unit :=
  do! c <- GetCurrentVeBlock;
  do! _ <- on_hash (DismissRestrictionList checksDisabled (restrictionList c) true);
  put_client (mk_ve_client (isCompleted c) (isRolledBack c) None None).
End Versions.
