(* ===== verification/BufInv.v ===== *)
(** * The buffers as a transparent cache of the data file

    The invariant of the buffers (Buffers.v), the pages they stand for ([view])
    and the relation [calm]: what evictions and flushes may change.  They never
    change a page as it is seen through the buffers, they write to the file
    only what is seen, and a block with a flushing dependency is not written
    before the dependency is gone. *)

From Stdlib Require Import ZArith List Lia Bool.
From stdpp Require Import base gmap list sets.
From S2P Require Import Prelude WuBase Buffers.
Local Open Scope sedna_scope.
Local Open Scope Z_scope.

(** ** What a page holds *)

Record content (D : Type) := mk_content { ct_p : XPTR; ct_vh : VersionsHeader; ct_data : D }.
Arguments mk_content {D}.
Arguments ct_p {D}.
Arguments ct_vh {D}.
Arguments ct_data {D}.

Definition content_of {D} (pg : page D) : content D := mk_content (pg_p pg) (pg_vh pg) (pg_data pg).

Section Views.
Context {D A : Type}.
Implicit Types b : bm D A.

Definition disk_view b (x : XPTR) : option (content D) := content_of <$> disk b !! x.

Definition view b (x : XPTR) : option (content D) :=
  match buffer_table b !! x with
  | Some id => content_of <$> frames b !! id
  | None => disk_view b x
  end.

(** The client with exclusive access to a block. *)
Definition trid_of b (x : XPTR) : Z :=
  match buffer_table b !! x with
  | Some id => match frames b !! id with Some pg => pg_trid pg | None => -1 end
  | None => -1
  end.

(** ** The invariant

    [U] are the buffers in use: the list of the code, but for a buffer that is
    just being evicted. *)
Record buf_ok (U : list Z) b : Prop := {
  ok_table : forall x id, buffer_table b !! x = Some id ->
    phys_xptrs b !! id = Some x /\ is_Some (frames b !! id) /\ id ∈ U /\ is_Some (disk b !! x);
  ok_clean : forall x id pg, buffer_table b !! x = Some id -> frames b !! id = Some pg ->
    pg_changed pg = false -> disk_view b x = Some (content_of pg);
  ok_used : forall id, id ∈ U -> 0 <= id /\ exists x, buffer_table b !! x = Some id;
  ok_free : forall id, id ∈ free_mem b -> 0 <= id /\ is_Some (frames b !! id) /\ id ∉ U;
  ok_nodup : NoDup U /\ NoDup (free_mem b);
  ok_deps : forall x y, deps b !! x = Some y -> y <> 0 /\ is_Some (disk b !! x)
}.
Definition bm_ok b : Prop := buf_ok (used_mem b) b.

(** ** Quiet changes

    [calm_off P]: a quiet change but for the blocks in [P]. *)
Record calm_off (P : XPTR -> Prop) b b' : Prop := {
  off_view : forall x, ~ P x -> view b' x = view b x;
  off_trid : forall x, ~ P x -> trid_of b' x = trid_of b x \/ trid_of b' x = -1;
  off_deps : forall x y, deps b' !! x = Some y ->
    deps b !! x = Some y /\ disk_view b' x = disk_view b x;
  off_saved : forall x y, deps b !! x = Some y -> ~ P y -> deps b' !! x = Some y \/ disk_view b' y = view b y;
  off_disk : forall x, ~ P x -> disk_view b' x = disk_view b x \/ disk_view b' x = view b x;
  off_stake : buffer_on_stake b' = buffer_on_stake b;
  off_staked : forall x, buffer_table b !! x = Some (buffer_on_stake b) ->
    buffer_table b' !! x = Some (buffer_on_stake b);
  off_dom : forall x, is_Some (disk b !! x) -> is_Some (disk b' !! x)
}.

Lemma off_refl P b : calm_off P b b.
Proof. constructor; auto. Qed.

Lemma off_trans P b1 b2 b3 : calm_off P b1 b2 -> calm_off P b2 b3 -> calm_off P b1 b3.
Proof.
  intros H1 H2. constructor.
  - intros x Hx. by rewrite (off_view _ _ _ H2), (off_view _ _ _ H1).
  - intros x Hx. destruct (off_trid _ _ _ H2 x Hx) as [->|]; [by apply (off_trid _ _ _ H1)|by right].
  - intros x y Hd. destruct (off_deps _ _ _ H2 x y Hd) as [Hd2 E2]. destruct (off_deps _ _ _ H1 x y Hd2) as [Hd1 E1].
    split; [done|]. by rewrite E2.
  - intros x y Hd Hy. assert (Hv := off_view _ _ _ H1 y Hy). destruct (off_saved _ _ _ H1 x y Hd Hy) as [Hd2|E].
    + destruct (off_saved _ _ _ H2 x y Hd2 Hy) as [?|E]; [by left|right; congruence].
    + right. destruct (off_disk _ _ _ H2 y Hy) as [->| ->]; [done|by rewrite Hv].
  - intros x Hx. destruct (off_disk _ _ _ H2 x Hx) as [->| ->]; [by apply (off_disk _ _ _ H1)|right; by apply (off_view _ _ _ H1)].
  - by rewrite (off_stake _ _ _ H2), (off_stake _ _ _ H1).
  - intros x Hx. apply (off_staked _ _ _ H1) in Hx. rewrite <- (off_stake _ _ _ H1) in *. by apply (off_staked _ _ _ H2).
  - intros x Hx. by apply (off_dom _ _ _ H2), (off_dom _ _ _ H1).
Qed.

Lemma off_mono (P Q : XPTR -> Prop) b b' : (forall x, P x -> Q x) -> calm_off P b b' -> calm_off Q b b'.
Proof.
  intros H [C1 C2 C3 C4 C5 C6 C7 C8]. constructor; auto.
Qed.

(** Nothing but evictions and flushes happened. *)
Definition calm b b' : Prop := calm_off (fun _ => False) b b' /\ alloc b' = alloc b.

Lemma calm_refl b : calm b b.
Proof. split; [apply off_refl|done]. Qed.

Lemma calm_trans b1 b2 b3 : calm b1 b2 -> calm b2 b3 -> calm b1 b3.
Proof. intros [H1 E1] [H2 E2]. split; [by apply (off_trans _ _ b2)|congruence]. Qed.

Lemma calm_view b b' x : calm b b' -> view b' x = view b x.
Proof. intros [H _]. apply (off_view _ _ _ H). tauto. Qed.

Lemma calm_disk b b' x : calm b b' -> disk_view b' x = disk_view b x \/ disk_view b' x = view b x.
Proof. intros [H _]. apply (off_disk _ _ _ H). tauto. Qed.

Lemma calm_deps b b' x y : calm b b' -> deps b' !! x = Some y -> deps b !! x = Some y /\ disk_view b' x = disk_view b x.
Proof. intros [H _]. apply (off_deps _ _ _ H). Qed.

Lemma calm_off_calm P b b' : calm b b' -> calm_off P b b'.
Proof. intros [H _]. by apply (off_mono (fun _ => False)). Qed.

(** A page that is on the disk as it is seen stays so. *)
Lemma calm_synced b b' x : calm b b' -> disk_view b x = view b x -> disk_view b' x = view b' x.
Proof.
  intros H E. rewrite (calm_view _ _ _ H). destruct (calm_disk _ _ x H) as [->| ->]; [done|done].
Qed.

Lemma ok_inj U b x y id : buf_ok U b ->
  buffer_table b !! x = Some id -> buffer_table b !! y = Some id -> x = y.
Proof.
  intros Hok Hx Hy. destruct (ok_table _ _ Hok _ _ Hx) as [Ex _]. destruct (ok_table _ _ Hok _ _ Hy) as [Ey _]. congruence.
Qed.
End Views.

#[export] Hint Resolve calm_refl : wu.

(** ** Flushing *)

Section Flush.
Context {D A : Type} (isPersSnapshotVersion : VersionsHeader -> option bool).
Implicit Types b : bm D A.

(** Only the flags of the buffers, the file, the log and the dependencies change. *)
Record flushed (U : list Z) b b' : Prop := {
  fl_same : buffer_table b' = buffer_table b /\ phys_xptrs b' = phys_xptrs b /\ free_mem b' = free_mem b
    /\ used_mem b' = used_mem b /\ swapped b' = swapped b;
  fl_frames : forall i, frames b' !! i = frames b !! i
    \/ exists pg, frames b !! i = Some pg /\ frames b' !! i = Some (set_changed false pg);
  fl_ok : buf_ok U b';
  fl_calm : calm b b';
  fl_deps : (size (deps b') <= size (deps b))%nat
}.

Lemma flushed_refl U b : buf_ok U b -> flushed U b b.
Proof. intros H. constructor; auto 10 using calm_refl. Qed.

Lemma flushed_trans U b1 b2 b3 : flushed U b1 b2 -> flushed U b2 b3 -> flushed U b1 b3.
Proof.
  intros H1 H2. destruct (fl_same _ _ _ H1) as (E1 & E2 & E3 & E4 & E5). destruct (fl_same _ _ _ H2) as (F1 & F2 & F3 & F4 & F5).
  constructor.
  - rewrite F1, F2, F3, F4, F5. done.
  - intros i. destruct (fl_frames _ _ _ H2 i) as [->|(pg & Ei & Ei')]; [apply (fl_frames _ _ _ H1)|].
    destruct (fl_frames _ _ _ H1 i) as [E|(pg' & E & E')].
    + right. exists pg. rewrite <- E. done.
    + right. exists pg'. split; [done|]. rewrite Ei'. rewrite E' in Ei. injection Ei as <-. done.
  - apply (fl_ok _ _ _ H2).
  - apply (calm_trans _ b2); [apply (fl_calm _ _ _ H1)|apply (fl_calm _ _ _ H2)].
  - assert (X := fl_deps _ _ _ H1). assert (Y := fl_deps _ _ _ H2). lia.
Qed.

(** Changes of the log only. *)
Lemma flushed_log U b l n : buf_ok U b -> flushed U b (set_log l n b).
Proof.
  intros [H1 H2 H3 H4 H5 H6]. constructor; cbn; auto 10; [constructor; auto|split; [|done]; constructor; auto].
Qed.

(** A buffer without changes holds what is on the disk. *)
Lemma clean_synced U b x id pg : buf_ok U b -> buffer_table b !! x = Some id ->
  frames b !! id = Some pg -> pg_changed pg = false -> disk_view b x = view b x.
Proof.
  intros Hok Hx Hf Hc. rewrite (ok_clean _ _ Hok _ _ _ Hx Hf Hc). unfold view. by rewrite Hx, Hf.
Qed.

Lemma unbuffered_synced b x : buffer_table b !! x = None -> disk_view b x = view b x.
Proof. intros H. unfold view. by rewrite H. Qed.

(** The dependency of [x] goes, and then more is flushed, its target too. *)
Lemma flushed_undep U b x b' : buf_ok U b ->
  flushed U (set_deps (delete x (deps b)) b) b' ->
  (forall y, deps b !! x = Some y -> disk_view b' y = view b' y) ->
  flushed U b b'.
Proof.
  intros Hok [H1 H2 H3 H4 H5] Hx. constructor; auto.
  - destruct H4 as [[C1 C2 C3 C4 C5 C6 C7 C8] C9]. split; [constructor; auto|done].
    + intros z y Hz. destruct (C3 z y Hz) as [Hd E]. cbn in Hd. apply lookup_delete_Some in Hd as [_ Hd]. done.
    + intros z y Hd Hf. destruct (decide (z = x)) as [->|Hne].
      * right. rewrite (Hx y Hd). by apply C1.
      * apply C4; [|done]. cbn. by rewrite lookup_delete_ne.
  - etransitivity; [exact H5|]. cbn. rewrite map_size_delete. destruct (deps b !! x); cbn; lia.
Qed.

Lemma undep_ok U b x : buf_ok U b -> buf_ok U (set_deps (delete x (deps b)) b).
Proof.
  intros [H1 H2 H3 H4 H5 H6]. constructor; auto. intros z y. cbn. rewrite lookup_delete_Some. intros [_ H]. by apply (H6 z).
Qed.

Definition is_clean b (id : Z) : Prop := exists pg, frames b !! id = Some pg /\ pg_changed pg = false.

Lemma flushed_clean U b b' id : flushed U b b' -> is_clean b id -> is_clean b' id.
Proof.
  intros H (pg & Hf & Hc). destruct (fl_frames _ _ _ H id) as [E|(pg' & E & E')].
  - exists pg. by rewrite E.
  - by exists (set_changed false pg').
Qed.

(** What a flush of a buffer guarantees. *)
Definition flush_spec (flush : Z -> bool -> wu (bm D A) bool) : Prop :=
  forall U id sync b r b', buf_ok U b -> id ∈ U -> flush id sync b = Done r b' ->
    flushed U b b' /\ is_clean b' id.

Lemma before_flush_ok flush U x b b' : flush_spec flush -> buf_ok U b ->
  before_flush flush x b = Done tt b' -> flushed U b b' /\ deps b' !! x = None.
Proof.
  intros Hfl Hok. unfold before_flush, LookupFlushingDependency. cbn -[FindBlockInBuffers].
  destruct (deps b !! x) as [y|] eqn:Hd; cbn -[FindBlockInBuffers UpdateFlushingDependency].
  2:{ intros [= <-]. by split; [apply flushed_refl|]. }
  destruct (Z.eqb_spec y 0) as [->|Hy].
  { by destruct (ok_deps _ _ Hok x 0 Hd). }
  unfold FindBlockInBuffers. destruct (buffer_table b !! y) as [id|] eqn:Ht.
  - unfold UpdateFlushingDependency, wu_bind, wu_modify. cbn -[set_deps].
    destruct (flush id true (set_deps (delete x (deps b)) b)) as [r b1|] eqn:Hf; [|done]. intros [= <-].
    assert (Hid : id ∈ U) by apply (ok_table _ _ Hok _ _ Ht).
    destruct (Hfl U id true _ r b1 (undep_ok U b x Hok) Hid Hf) as [H1 (pg & Hpg & Hc)].
    split.
    + apply (flushed_undep _ _ x); [done|done|]. intros z Hz. assert (z = y) as -> by congruence.
      apply (clean_synced U b1 y id pg); [apply H1| |done|done]. destruct (fl_same _ _ _ H1) as (-> & _). done.
    + destruct (deps b1 !! x) as [z|] eqn:Hz; [|done].
      destruct (calm_deps _ _ _ _ (fl_calm _ _ _ H1) Hz) as [Hz' _]. cbn in Hz'. by rewrite lookup_delete_eq in Hz'.
  - cbn. intros [= <-]. split; [|apply lookup_delete_eq].
    apply (flushed_undep _ _ x); [done|apply flushed_refl; by apply undep_ok|].
    intros z Hz. assert (z = y) as -> by congruence. by apply unbuffered_synced.
Qed.

Lemma on_flush_ok flush U x b b' : flush_spec flush -> buf_ok U b ->
  OnFlushBuffer isPersSnapshotVersion flush x b = Done tt b' ->
  flushed U b b' /\ deps b' !! x = None.
Proof.
  intros Hfl Hok H. unfold OnFlushBuffer in H. apply wu_bind_Done in H as ([] & b1 & H1 & H).
  destruct (before_flush_ok flush U x b b1 Hfl Hok H1) as [Hb1 Hd].
  assert (Hlog : forall lx, flushed U b1 (out_state (OnPersVersionRelocating lx x 2 b1)) /\
            deps (out_state (OnPersVersionRelocating lx x 2 b1)) = deps b1).
  { intros lx. unfold OnPersVersionRelocating. cbn [Z.eqb].
    unfold wu_bind, FindBlockInBuffers, LocateBlockHeader, get_frame, wu_fail. cbn.
    destruct (buffer_table b1 !! x) as [id|]; [|split; [apply flushed_refl, Hb1|done]].
    destruct (id <? 0); [split; [apply flushed_refl, Hb1|done]|]. cbn.
    destruct (frames b1 !! id); [|split; [apply flushed_refl, Hb1|done]].
    cbn. split; [apply flushed_log, Hb1|done]. }
  unfold wu_bind, FindBlockInBuffers in H. destruct (buffer_table b1 !! x) as [id|]; [|done].
  unfold LocateVersionsHeader, LocateBlockHeader, get_frame, wu_bind in H. destruct (id <? 0); [done|].
  destruct (frames b1 !! id) as [pg|]; [|done]. cbn -[OnPersVersionRelocating] in H.
  destruct (isPersSnapshotVersion (pg_vh pg)) as [[]|]; [|injection H as <-; by split|done].
  destruct (vh_xptr (pg_vh pg) !! 0%nat) as [lx|]; [|done]. unfold wu_ignore in H.
  destruct (Hlog lx) as [L1 L2]. destruct (OnPersVersionRelocating lx x 2 b1); injection H as <-; cbn in L1, L2;
    (split; [by apply (flushed_trans _ _ b1)|by rewrite L2]).
Qed.
(** The buffer [id] is written to its block [p]. *)
Definition written (id : Z) (p : XPTR) (pg : page D) (e : list (io_event D)) b : bm D A :=
  set_io e (set_frames (<[id := set_changed false pg]> (frames b)) (set_disk (<[p := pg]> (disk b)) b)).

Lemma written_ok U b id p pg e : buf_ok U b -> buffer_table b !! p = Some id -> frames b !! id = Some pg ->
  deps b !! p = None -> flushed U b (written id p pg e b).
Proof.
  intros Hok Hp Hf Hd.
  assert (Hview : forall x, view (written id p pg e b) x = view b x).
  { intros x. unfold view, written. cbn. destruct (buffer_table b !! x) as [i|] eqn:Hx.
    - destruct (decide (i = id)) as [->|Hne]; [by rewrite lookup_insert_eq, Hf|by rewrite lookup_insert_ne].
    - unfold disk_view. cbn. rewrite lookup_insert_ne; [done|congruence]. }
  constructor; cbn; auto.
  - intros i. destruct (decide (i = id)) as [->|Hne]; [right|left; by rewrite lookup_insert_ne].
    exists pg. by rewrite lookup_insert_eq.
  - destruct Hok as [H1 H2 H3 H4 H5 H6]. constructor; cbn; auto.
    + intros x i Hx. destruct (H1 x i Hx) as (E1 & E2 & E3 & E4). split; [done|]. split; [|split; [done|]].
      * destruct (decide (i = id)) as [->|Hne]; [rewrite lookup_insert_eq; eauto|by rewrite lookup_insert_ne].
      * destruct (decide (x = p)) as [->|Hne]; [rewrite lookup_insert_eq; eauto|by rewrite lookup_insert_ne].
    + intros x i pg' Hx. destruct (decide (x = p)) as [->|Hxp].
      * assert (i = id) as -> by congruence. rewrite lookup_insert_eq. intros [= <-] _.
        unfold disk_view. cbn. by rewrite lookup_insert_eq.
      * assert (Hi : i <> id). { intros ->. destruct (H1 _ _ Hx) as [Ex _]. destruct (H1 _ _ Hp) as [Ep _]. congruence. }
        rewrite lookup_insert_ne by done. intros Hg Hc. unfold disk_view. cbn. rewrite lookup_insert_ne by done.
        by apply (H2 x i pg').
    + intros i Hi. destruct (H4 i Hi) as (E1 & E2 & E3). split; [done|]. split; [|done].
      destruct (decide (i = id)) as [->|Hne]; [rewrite lookup_insert_eq; eauto|by rewrite lookup_insert_ne].
    + intros x y Hx. destruct (H6 x y Hx) as [? ?]. split; [done|]. destruct (decide (x = p)) as [->|Hne]; [congruence|by rewrite lookup_insert_ne].
  - split; [|done]. constructor; cbn; auto.
    + intros x _. left. unfold trid_of. cbn. destruct (buffer_table b !! x) as [i|]; [|done].
      destruct (decide (i = id)) as [->|Hne]; [by rewrite lookup_insert_eq, Hf|by rewrite lookup_insert_ne].
    + intros x y Hx. split; [done|]. unfold disk_view. cbn. rewrite lookup_insert_ne; [done|congruence].
    + intros x _. destruct (decide (x = p)) as [->|Hne]; [right|left; unfold disk_view; cbn; by rewrite lookup_insert_ne].
      unfold disk_view, view. cbn. by rewrite lookup_insert_eq, Hp, Hf.
    + intros x Hx. destruct (decide (x = p)) as [->|Hne]; [rewrite lookup_insert_eq; eauto|by rewrite lookup_insert_ne].
Qed.

(** The requests of one flush, and the end of [flush_buffer] that makes them. *)
Definition write_events (sync : bool) (p : XPTR) (pg : page D) : list (io_event D) :=
  if sync then [IO_SYNC; IO_WRITE p pg; IO_SYNC] else [IO_WRITE p pg].

Lemma write_out id p pg sync b : frames b !! id = Some pg -> is_Some (disk b !! p) ->
  (do! _ <- sync_barrier sync; do! _ <- write_block p id; do! _ <- sync_barrier sync;
   do! _ <- upd_frame id (set_changed false); wu_ret true) b
  = Done true (written id p pg (io b ++ write_events sync p pg) b).
Proof.
  intros Hf [d Hd].
  destruct sync; unfold sync_barrier, uFlushBuffers, write_block, upd_frame, put_frame, get_frame, wu_bind, wu_modify, wu_ret;
    cbn; repeat (rewrite ?Hf, ?Hd; cbn); unfold written, set_io, set_frames, set_disk; cbn; by rewrite <- ?(assoc_L (++)).
Qed.

Theorem flush_rec_ok fuel : flush_spec (flush_rec isPersSnapshotVersion fuel).
Proof.
  induction fuel as [|fuel IH]; intros U id sync b r b' Hok Hid H; [done|]. cbn [flush_rec] in H.
  destruct (ok_used _ _ Hok id Hid) as (_ & p & Hp). destruct (ok_table _ _ Hok _ _ Hp) as (Hphys & [pg Hpg] & _).
  rewrite (bind_done _ _ _ pg b) in H by (unfold get_frame; by rewrite Hpg).
  destruct (pg_changed pg) eqn:Hc; [|injection H as <- <-; split; [by apply flushed_refl|by exists pg]].
  rewrite (bind_done _ _ _ p b) in H by (unfold get_phys; by rewrite Hphys).
  apply wu_bind_Done in H as ([] & b1 & H1 & H).
  assert (Hb1 : flushed U b b1).
  { destruct (IS_DATA_BLOCK p); [|injection H1 as <-; by apply flushed_refl].
    unfold llFlushLsn in H1. destruct (_ =? _); injection H1 as <-; [by apply flushed_refl|by apply flushed_log]. }
  apply wu_bind_Done in H as ([] & b2 & H2 & H).
  destruct (on_flush_ok _ U p b1 b2 IH (fl_ok _ _ _ Hb1) H2) as [Hb2 Hdep].
  assert (Hb : flushed U b b2) by (by apply (flushed_trans _ _ b1)).
  destruct (fl_same _ _ _ Hb) as (Et & _). rewrite <- Et in Hp.
  destruct (ok_table _ _ (fl_ok _ _ _ Hb) _ _ Hp) as (_ & [pg2 Hpg2] & _ & [d Hd]).
  rewrite (write_out id p pg2) in H by eauto. injection H as <- <-. split.
  - apply (flushed_trans _ _ b2); [done|]. apply (written_ok U b2 id p pg2); [apply Hb|done|done|done].
  - exists (set_changed false pg2). cbn. by rewrite lookup_insert_eq.
Qed.

Lemma flush_buffer_ok U id sync b r b' : buf_ok U b -> id ∈ U ->
  flush_buffer isPersSnapshotVersion id sync b = Done r b' -> flushed U b b' /\ is_clean b' id.
Proof. intros Hok Hid H. exact (flush_rec_ok _ U id sync b r b' Hok Hid H). Qed.

(** ** A flush ends *)

(** The recursion is bounded by the number of dependencies: it never runs out
    of fuel, and it succeeds when the test of the versions of every page in a
    buffer does. *)
Definition headers_filled b : Prop := forall x c, is_Some (buffer_table b !! x) -> view b x = Some c ->
  vh_xptr (ct_vh c) <> [] /\ isPersSnapshotVersion (ct_vh c) <> None.

Lemma filled_calm b b' : calm b b' -> buffer_table b' = buffer_table b -> headers_filled b -> headers_filled b'.
Proof. intros H Et Hf x c. rewrite Et, (calm_view _ _ _ H). apply Hf. Qed.

Definition flush_succeeds (n : nat) (flush : Z -> bool -> wu (bm D A) bool) : Prop :=
  forall U id sync b, buf_ok U b -> headers_filled b -> id ∈ U -> (size (deps b) < n)%nat ->
    exists r b', flush id sync b = Done r b'.

Lemma before_flush_total n flush U x b : flush_succeeds n flush -> buf_ok U b -> headers_filled b ->
  (size (deps b) <= n)%nat -> exists b', before_flush flush x b = Done tt b'.
Proof.
  intros Hfl Hok Hf Hn. unfold before_flush, LookupFlushingDependency, FindBlockInBuffers. cbn -[UpdateFlushingDependency].
  destruct (deps b !! x) as [y|] eqn:Hd; cbn -[UpdateFlushingDependency]; [|eauto].
  destruct (y =? 0); [eexists; done|]. destruct (buffer_table b !! y) as [id|] eqn:Ht; cbn; [|eauto].
  unfold UpdateFlushingDependency, wu_bind, wu_modify. cbn -[set_deps].
  destruct (Hfl U id true (set_deps (delete x (deps b)) b)) as (r & b' & E).
  - by apply undep_ok.
  - done.
  - apply (ok_table _ _ Hok _ _ Ht).
  - cbn. rewrite map_size_delete, Hd. cbn. assert (size (deps b) <> 0)%nat; [|lia].
    intros E%map_size_empty_inv. by rewrite E in Hd.
  - rewrite E. eexists. done.
Qed.

Lemma flush_rec_total fuel : flush_succeeds fuel (flush_rec isPersSnapshotVersion fuel).
Proof.
  induction fuel as [|fuel IH]; intros U id sync b Hok Hf Hid Hn; [lia|]. cbn [flush_rec].
  destruct (ok_used _ _ Hok id Hid) as (Hid0 & p & Hp). destruct (ok_table _ _ Hok _ _ Hp) as (Hphys & [pg Hpg] & _).
  rewrite (bind_done _ _ _ pg b) by (unfold get_frame; by rewrite Hpg).
  destruct (pg_changed pg) eqn:Hc; [|eexists _, _; done].
  rewrite (bind_done _ _ _ p b) by (unfold get_phys; by rewrite Hphys).
  assert (H1 : exists b1, (if IS_DATA_BLOCK p then llFlushLsn (pg_lsn pg) else wu_ret tt) b = Done tt b1 /\ flushed U b b1).
  { destruct (IS_DATA_BLOCK p); [|eexists; split; [done|by apply flushed_refl]].
    unfold llFlushLsn. destruct (_ =? _); eexists; (split; [done|]); [by apply flushed_refl|by apply flushed_log]. }
  destruct H1 as (b1 & H1 & Hb1). rewrite (bind_done _ _ _ _ _ H1).
  assert (Hf1 := filled_calm _ _ (fl_calm _ _ _ Hb1) (proj1 (fl_same _ _ _ Hb1)) Hf). assert (Hn1 := fl_deps _ _ _ Hb1).
  destruct (before_flush_total fuel _ U p b1 IH (fl_ok _ _ _ Hb1) Hf1) as (b2 & H2); [lia|].
  destruct (before_flush_ok _ U p b1 b2 (flush_rec_ok fuel) (fl_ok _ _ _ Hb1) H2) as [Hb2 Hd2].
  assert (Hb : flushed U b b2) by (by apply (flushed_trans _ _ b1)).
  assert (Hp2 := Hp). destruct (fl_same _ _ _ Hb) as (Et & _). rewrite <- Et in Hp2.
  destruct (ok_table _ _ (fl_ok _ _ _ Hb) _ _ Hp2) as (_ & [pg2 Hpg2] & _ & [d Hd]).
  assert (Hon : exists b3, OnFlushBuffer isPersSnapshotVersion (flush_rec isPersSnapshotVersion fuel) p b1 = Done tt b3).
  { unfold OnFlushBuffer. rewrite (bind_done _ _ _ _ _ H2). unfold wu_bind, FindBlockInBuffers. rewrite Hp2.
    unfold LocateVersionsHeader, LocateBlockHeader, get_frame, wu_bind. destruct (Z.ltb_spec id 0); [lia|]. rewrite Hpg2.
    cbn -[OnPersVersionRelocating]. assert (Hne := filled_calm _ _ (fl_calm _ _ _ Hb) Et Hf p (content_of pg2) ltac:(by eexists)). unfold view in Hne. rewrite Hp2, Hpg2 in Hne.
    destruct (Hne eq_refl) as [Hne1 Htotal]. cbn in Hne1, Htotal. destruct (isPersSnapshotVersion (pg_vh pg2)) as [[]|]; [|by eexists|done]. destruct (vh_xptr (pg_vh pg2)) as [|lx l]; [done|]. cbn -[OnPersVersionRelocating].
    unfold wu_ignore. destruct (OnPersVersionRelocating lx p 2 b2); by eexists. }
  destruct Hon as (b3 & H3). rewrite (bind_done _ _ _ _ _ H3).
  destruct (on_flush_ok _ U p b1 b3 (flush_rec_ok fuel) (fl_ok _ _ _ Hb1) H3) as [Hb3 _].
  destruct (fl_same _ _ _ Hb1) as (Et1 & _). destruct (fl_same _ _ _ Hb3) as (Et3 & _). rewrite <- Et1, <- Et3 in Hp.
  destruct (ok_table _ _ (fl_ok _ _ _ Hb3) _ _ Hp) as (_ & [pg3 Hpg3] & _ & [d3 Hd3]).
  rewrite (write_out id p pg3) by eauto. by eexists _, _.
Qed.

Lemma flush_total U id sync b : buf_ok U b -> headers_filled b -> id ∈ U ->
  exists r b', flush_buffer isPersSnapshotVersion id sync b = Done r b'.
Proof. intros Hok Hf Hid. apply (flush_rec_total _ U); auto; lia. Qed.

(** ** The order of the writes *)

(** The file after some requests. *)
Definition replay (evs : list (io_event D)) (d : gmap XPTR (page D)) : gmap XPTR (page D) :=
  foldl (fun d e => match e with IO_WRITE x pg => <[x := pg]> d | IO_SYNC => d end) d evs.

(** One block has to be written before another, through some dependencies. *)
Inductive leads b (x : XPTR) : XPTR -> Prop :=
| leads_refl : leads b x x
| leads_step y z : deps b !! x = Some y -> leads b y z -> leads b x z.

(** The page of [y] was written, and a barrier followed. *)
Definition forced b (y : XPTR) (evs : list (io_event D)) : Prop :=
  exists l pg l', evs = l ++ IO_WRITE y pg :: l' /\ IO_SYNC ∈ l' /\ view b y = Some (content_of pg).

(** Every write of a block comes after a barrier behind the write of the block
    it depends on, unless this one is in the file already; a block that depends
    on itself has no such order. *)
Definition dep_order b (evs : list (io_event D)) : Prop :=
  forall x y l pg l', deps b !! x = Some y -> ~ leads b y x -> evs = l ++ IO_WRITE x pg :: l' ->
    disk_view b y = view b y \/ forced b y l.

(** The requests [evs] of a flush of the block [p] with the result [r]. *)
Record traced (p : XPTR) (sync r : bool) b b' (evs : list (io_event D)) : Prop := {
  tr_io : io b' = io b ++ evs;
  tr_disk : disk b' = replay evs (disk b);
  tr_writes : forall x pg, IO_WRITE x pg ∈ evs -> leads b p x /\ view b x = Some (content_of pg);
  tr_order : dep_order b evs;
  tr_last : r = true -> exists l pg, evs = l ++ IO_WRITE p pg :: (if sync then [IO_SYNC] else []);
  tr_clean : r = false -> disk_view b p = view b p
}.

Lemma leads_undep b x y z : leads (set_deps (delete x (deps b)) b) y z -> leads b y z.
Proof.
  induction 1 as [|y u z Hy _ IH]; [constructor|]. cbn in Hy. apply lookup_delete_Some in Hy as [_ Hy].
  by apply (leads_step _ _ u).
Qed.

(** The requests of a flush that a dependency of [x] asks for. *)
Lemma traced_undep b x y id b' r evs : deps b !! x = Some y -> buffer_table b !! y = Some id ->
  traced y true r (set_deps (delete x (deps b)) b) b' evs ->
  (forall z pg, IO_WRITE z pg ∈ evs -> leads b x z /\ view b z = Some (content_of pg)) /\ dep_order b evs
  /\ (disk_view b y = view b y \/ forced b y evs).
Proof.
  intros Hd Ht [T1 T2 T3 T4 T5 T6].
  assert (Hw : forall z pg, IO_WRITE z pg ∈ evs -> leads b y z /\ view b z = Some (content_of pg)).
  { intros z pg Hz. destruct (T3 z pg Hz) as [Hl Hv]. split; [by apply (leads_undep b x)|done]. }
  split; [|split].
  - intros z pg Hz. destruct (Hw z pg Hz) as [Hl Hv]. split; [by apply (leads_step _ _ y)|done].
  - intros z u l pg l' Hz Hn E. destruct (decide (z = x)) as [->|Hne].
    + assert (u = y) as -> by congruence. destruct Hn. apply (Hw x pg). rewrite E. apply elem_of_app. right. left.
    + destruct (T4 z u l pg l') as [Hs|Hf]; [cbn; by rewrite lookup_delete_ne| |done|by left|by right].
      intros Hl. by apply Hn, (leads_undep b x).
  - destruct r; [right|left; by apply T6]. destruct (T5 eq_refl) as (l & pg & E). exists l, pg, [IO_SYNC].
    split; [done|]. split; [left|]. apply (Hw y pg). rewrite E. apply elem_of_app. right. left.
Qed.

(** The flush of the target and the write of the block itself. *)
Lemma traced_write id p pg sync b b2 evs : frames b2 !! id = Some pg ->
  io b2 = io b ++ evs -> disk b2 = replay evs (disk b) -> view b p = Some (content_of pg) ->
  (forall x pg', IO_WRITE x pg' ∈ evs -> leads b p x /\ view b x = Some (content_of pg')) -> dep_order b evs ->
  (forall y, deps b !! p = Some y -> disk_view b y = view b y \/ forced b y evs) ->
  traced p sync true b (written id p pg (io b2 ++ write_events sync p pg) b2) (evs ++ write_events sync p pg).
Proof.
  intros Hf Hio Hdk Hv Hw Ho Hy.
  assert (Hin : forall x pg', IO_WRITE x pg' ∈ write_events sync p pg -> x = p /\ pg' = pg).
  { intros x pg'. destruct sync; cbn; rewrite !elem_of_cons, elem_of_nil; intros H; repeat destruct H as [H|H]; try done; by injection H as -> ->. }
  constructor.
  - cbn. by rewrite Hio, (assoc_L (++)).
  - cbn. unfold replay. rewrite foldl_app. change (foldl _ (disk b) evs) with (replay evs (disk b)). rewrite <- Hdk. by destruct sync.
  - intros x pg' [Hx|Hx]%elem_of_app; [by apply Hw|]. apply Hin in Hx as [-> ->]. split; [constructor|done].
  - intros x y l pg' l' Hd Hn E. apply app_eq_inv in E as [(k & E1 & E2)|(k & E1 & E2)].
    + destruct k as [|e k]; cbn in E2.
      * assert (Hx : IO_WRITE x pg' ∈ write_events sync p pg) by (rewrite <- E2; left). apply Hin in Hx as [-> _].
        rewrite app_nil_r in E1. subst l. by apply Hy.
      * injection E2 as <- E2. by apply (Ho x y l pg' k).
    + assert (Hx : IO_WRITE x pg' ∈ write_events sync p pg) by (rewrite E2; apply elem_of_app; right; left). apply Hin in Hx as [-> _].
      destruct (Hy y Hd) as [Hs|(l1 & q & l2 & -> & Hs & Hvy)]; [by left|right]. subst l. exists l1, q, (l2 ++ k).
      rewrite <- (assoc_L (++)). split; [done|]. split; [apply elem_of_app; by left|done].
  - intros _. destruct sync; [exists (evs ++ [IO_SYNC]), pg; by rewrite <- (assoc_L (++))|by exists evs, pg].
  - done.
Qed.

Definition trace_spec (flush : Z -> bool -> wu (bm D A) bool) : Prop :=
  forall U id p sync b r b', buf_ok U b -> buffer_table b !! p = Some id -> flush id sync b = Done r b' ->
    exists evs, traced p sync r b b' evs.

Lemma on_flush_traced flush U x b b' : trace_spec flush -> buf_ok U b ->
  OnFlushBuffer isPersSnapshotVersion flush x b = Done tt b' ->
  exists evs, io b' = io b ++ evs /\ disk b' = replay evs (disk b)
    /\ (forall z pg, IO_WRITE z pg ∈ evs -> leads b x z /\ view b z = Some (content_of pg)) /\ dep_order b evs
    /\ forall y, deps b !! x = Some y -> disk_view b y = view b y \/ forced b y evs.
Proof.
  intros Hfl Hok H. unfold OnFlushBuffer in H. apply wu_bind_Done in H as ([] & b1 & H1 & H).
  assert (Hlog : io b' = io b1 /\ disk b' = disk b1).
  { unfold wu_bind, FindBlockInBuffers in H. destruct (buffer_table b1 !! x) as [id|] eqn:Hx; [|done].
    unfold LocateVersionsHeader, LocateBlockHeader, get_frame, wu_bind in H. destruct (id <? 0) eqn:E0; [done|].
    destruct (frames b1 !! id) as [pg|] eqn:Hpg; [|done]. cbn -[OnPersVersionRelocating] in H.
    destruct (isPersSnapshotVersion (pg_vh pg)) as [[]|]; [|by injection H as <-|done].
    destruct (vh_xptr (pg_vh pg) !! 0%nat) as [lx|]; [|done]. unfold wu_ignore, OnPersVersionRelocating, wu_bind, FindBlockInBuffers, LocateBlockHeader, get_frame in H.
    cbn in H. rewrite Hx, E0, Hpg in H. by injection H as <-. }
  destruct Hlog as [-> ->]. unfold before_flush, LookupFlushingDependency in H1. cbn -[FindBlockInBuffers] in H1.
  destruct (deps b !! x) as [y|] eqn:Hd; cbn -[FindBlockInBuffers UpdateFlushingDependency] in H1.
  2:{ injection H1 as <-. exists []. rewrite app_nil_r. do 2 (split; [done|]). split; [by intros z pg ?%elem_of_nil|]. split; [|done].
      by intros z u [|] pg l'. }
  destruct (Z.eqb_spec y 0) as [->|Hy0]; [by destruct (ok_deps _ _ Hok x 0 Hd)|].
  unfold FindBlockInBuffers in H1. destruct (buffer_table b !! y) as [id|] eqn:Ht.
  - unfold UpdateFlushingDependency, wu_bind, wu_modify in H1. cbn -[set_deps] in H1.
    destruct (flush id true (set_deps (delete x (deps b)) b)) as [r b2|] eqn:Hf; [|done]. injection H1 as <-.
    destruct (Hfl U id y true _ r b2 (undep_ok U b x Hok) Ht Hf) as (evs & T). exists evs.
    destruct (traced_undep b x y id b2 r evs Hd Ht T) as (K1 & K2 & K3). split; [apply T|]. split; [apply T|]. split; [done|]. split; [done|].
    intros z [= <-]. done.
  - cbn in H1. injection H1 as <-. exists []. rewrite app_nil_r. do 2 (split; [done|]). split; [by intros z pg ?%elem_of_nil|].
    split; [by intros z u [|] pg l'|]. intros z [= <-]. left. by apply unbuffered_synced.
Qed.

Lemma flush_rec_traced fuel : trace_spec (flush_rec isPersSnapshotVersion fuel).
Proof.
  induction fuel as [|fuel IH]; intros U id p sync b r b' Hok Hp H; [done|]. cbn [flush_rec] in H.
  destruct (ok_table _ _ Hok _ _ Hp) as (Hphys & [pg Hpg] & _).
  rewrite (bind_done _ _ _ pg b) in H by (unfold get_frame; by rewrite Hpg).
  destruct (pg_changed pg) eqn:Hc.
  2:{ injection H as <- <-. exists []. constructor; [by rewrite app_nil_r|done|by intros z q ?%elem_of_nil|by intros z u [|] q l'|done|].
      intros _. by apply (clean_synced U b p id pg). }
  rewrite (bind_done _ _ _ p b) in H by (unfold get_phys; by rewrite Hphys).
  apply wu_bind_Done in H as ([] & b1 & H1 & H).
  assert (Hb1 : exists l n, b1 = set_log l n b).
  { destruct (IS_DATA_BLOCK p); [|injection H1 as <-; exists (log b), (durable b); by destruct b].
    unfold llFlushLsn in H1. destruct (_ =? _); injection H1 as <-; [exists (log b), (durable b); by destruct b|eauto]. }
  destruct Hb1 as (l1 & n1 & ->). assert (Hok1 := fl_ok _ _ _ (flushed_log U b l1 n1 Hok)).
  apply wu_bind_Done in H as ([] & b2 & H2 & H).
  destruct (on_flush_traced _ U p _ b2 IH Hok1 H2) as (evs & K1 & K2 & K3 & K4 & K5).
  destruct (on_flush_ok _ U p _ b2 (flush_rec_ok fuel) Hok1 H2) as [Hb2 _]. destruct (fl_same _ _ _ Hb2) as (Et & _).
  assert (Hp2 : buffer_table b2 !! p = Some id) by (by rewrite Et). destruct (ok_table _ _ (fl_ok _ _ _ Hb2) _ _ Hp2) as (_ & [pg2 Hpg2] & _ & Hd).
  rewrite (write_out id p pg2) in H by eauto. injection H as <- <-. exists (evs ++ write_events sync p pg2).
  assert (Hlead : forall x z, leads (set_log l1 n1 b) x z -> leads b x z) by (intros x z; induction 1; econstructor; done).
  assert (Hlead' : forall x z, leads b x z -> leads (set_log l1 n1 b) x z) by (intros x z; induction 1; econstructor; done).
  apply traced_write; [done|done|done| | | |done].
  - change (view b p) with (view (set_log l1 n1 b) p). rewrite <- (calm_view _ _ p (fl_calm _ _ _ Hb2)). unfold view. by rewrite Hp2, Hpg2.
  - intros x q Hx. destruct (K3 x q Hx) as [Hl Hv]. auto.
  - intros x y l q l' Hx Hn E. apply (K4 x y l q l' Hx); [|done]. intros Hl. by apply Hn, Hlead.
Qed.

Lemma flush_traced U id p sync b r b' : buf_ok U b -> buffer_table b !! p = Some id ->
  flush_buffer isPersSnapshotVersion id sync b = Done r b' -> exists evs, traced p sync r b b' evs.
Proof. intros Hok Hp H. exact (flush_rec_traced _ U id p sync b r b' Hok Hp H). Qed.
End Flush.
