(* ===== verification/BufOps.v ===== *)
(** * The operations on buffers

    Eviction, reading of blocks, allocation and deletion (Buffers.v) against
    the pages that are seen through the buffers (BufInv.v), and the contract of
    the allocator of blocks. *)

From Stdlib Require Import ZArith List Lia Bool.
From stdpp Require Import base gmap list sets.
From S2P Require Import Prelude WuBase Buffers BufInv.
Local Open Scope sedna_scope.
Local Open Scope Z_scope.

(** ** Lists of buffers *)

Lemma pop_spec l i l' : pop l = Some (i, l') -> l = l' ++ [i].
Proof.
  revert i l'. induction l as [|j l IH]; intros i l' H; [done|]. cbn in H. destruct l as [|k l].
  - by injection H as <- <-.
  - destruct (pop (k :: l)) as [[m q]|] eqn:E; [|done]. injection H as <- <-. cbn. f_equal. by apply IH.
Qed.

Lemma pop_nil l : pop l = None -> l = [].
Proof.
  induction l as [|j l IH]; intros H; [done|]. cbn in H. destruct l as [|k l]; [done|].
  destruct (pop (k :: l)) as [[m q]|] eqn:E; [done|]. by specialize (IH eq_refl).
Qed.

Lemma find_remove_spec i j l : j ∈ find_remove i l <-> j ∈ l /\ j <> i.
Proof.
  unfold find_remove. rewrite !list_elem_of_In, filter_In. destruct (Z.eqb_spec j i); intuition (done || congruence).
Qed.

Lemma find_remove_NoDup i l : NoDup l -> NoDup (find_remove i l).
Proof. rewrite !NoDup_ListNoDup. apply List.NoDup_filter. Qed.

Section Ops.
Context {D A : Type} (approve : Z -> XPTR -> bool) (isPersSnapshotVersion : VersionsHeader -> option bool).
Implicit Types b : bm D A.

Lemma buf_ok_perm U U' b : U' ≡ₚ U -> buf_ok U b -> buf_ok U' b.
Proof.
  intros Hp [H1 H2 H3 H4 [H5 H5'] H6]. constructor; auto.
  - intros x id Hx. rewrite Hp. by apply H1.
  - intros id. rewrite Hp. apply H3.
  - intros id. rewrite Hp. apply H4.
  - split; [by rewrite Hp|done].
Qed.

(** A page that is seen has a block in the file. *)
Lemma view_disk b x c : bm_ok b -> view b x = Some c -> is_Some (disk b !! x).
Proof.
  intros Hok Hv. unfold view in Hv. destruct (buffer_table b !! x) as [id|] eqn:E; [by apply (ok_table _ _ Hok x id)|].
  unfold disk_view in Hv. destruct (disk b !! x); [eauto|done].
Qed.

(** The lists of buffers do not matter for what is seen. *)
Lemma set_used_ok U l b : buf_ok U b -> buf_ok U (set_used l b).
Proof. intros [H1 H2 H3 H4 H5 H6]. constructor; auto. Qed.

Lemma set_used_calm l b : calm b (set_used l b).
Proof. split; [constructor; auto|done]. Qed.

Lemma set_free_calm l b : calm b (set_free l b).
Proof. split; [constructor; auto|done]. Qed.

(** ** Eviction *)

Lemma choose_victim_ok n sid : forall b p id b',
  choose_victim approve n sid b = Done (p, id) b' ->
  exists u, b' = set_used u b /\ used_mem b ≡ₚ id :: u /\ id <> buffer_on_stake b.
Proof.
  induction n as [|n IH]; intros b p id b' H; [cbn in H; by destruct (used_mem b)|].
  cbn [choose_victim] in H. destruct (pop (used_mem b)) as [[i u]|] eqn:Hp; [|done]. apply pop_spec in Hp.
  assert (Hrot : choose_victim approve n sid (set_used (push i (used_mem (set_used u b))) (set_used u b)) = Done (p, id) b' ->
    exists u', b' = set_used u' b /\ used_mem b ≡ₚ id :: u' /\ id <> buffer_on_stake b).
  { intros Hr. apply IH in Hr as (u' & -> & Hu & Hs). exists u'. split; [done|]. split; [|done].
    cbn in Hu. rewrite Hp, <- Hu. unfold push. by rewrite Permutation_app_comm. }
  cbn [buffer_on_stake set_used] in H. destruct (Z.eqb_spec i (buffer_on_stake b)) as [|Hs]; [by apply Hrot|].
  cbn [frames set_used] in H. destruct (frames b !! i) as [pg|]; [|done].
  destruct (approve sid (pg_p pg)); [|by apply Hrot]. injection H as <- <- <-.
  exists u. split; [done|]. split; [|done]. rewrite Hp. by rewrite Permutation_app_comm.
Qed.

(** A clean buffer leaves the table. *)
Lemma evict_ok U b id p : buf_ok (id :: U) b -> buffer_table b !! p = Some id -> is_clean b id ->
  id <> buffer_on_stake b ->
  let b' := set_phys (<[id := XNULL]> (phys_xptrs b)) (set_table (delete p (buffer_table b)) b) in
  buf_ok U b' /\ calm b b'.
Proof.
  intros Hok Hp (pg & Hpg & Hc) Hs b'. assert (Hsync := clean_synced _ _ _ _ _ Hok Hp Hpg Hc).
  assert (Hinj := fun x => ok_inj _ b x p id Hok). destruct Hok as [H1 H2 H3 H4 [H5 H5'] H6].
  apply NoDup_cons in H5 as [Hn H5].
  assert (Hid : forall x i, delete p (buffer_table b) !! x = Some i -> buffer_table b !! x = Some i /\ x <> p /\ i <> id).
  { intros x i Hx. apply lookup_delete_Some in Hx as [Hne Hx]. split; [done|]. split; [done|]. intros ->. by apply Hne, symmetry, Hinj. }
  split; [constructor; cbn|split; [constructor; cbn; auto|done]].
  - intros x i Hx. apply Hid in Hx as (Hx & Hne & Hi). destruct (H1 x i Hx) as (E1 & E2 & E3 & E4).
    rewrite lookup_insert_ne by done. split; [done|]. split; [done|]. split; [|done]. by apply elem_of_cons in E3 as [|].
  - intros x i pg' Hx. apply Hid in Hx as (Hx & _). by apply (H2 x i).
  - intros i Hi. destruct (H3 i) as (E & x & Hx); [by right|]. split; [done|]. exists x.
    rewrite lookup_delete_ne; [done|]. intros <-. assert (i = id) by congruence. by subst i.
  - intros i Hi. destruct (H4 i Hi) as (E1 & E2 & E3). split; [done|]. split; [done|]. intros Hc'. apply E3. by right.
  - done.
  - done.
  - intros x _. unfold view. cbn. destruct (decide (x = p)) as [->|Hne]; [|by rewrite lookup_delete_ne].
    rewrite lookup_delete_eq. unfold view in Hsync. rewrite Hp in *. unfold disk_view in *. done.
  - intros x _. unfold trid_of. cbn. destruct (decide (x = p)) as [->|Hne]; [rewrite lookup_delete_eq; by right|].
    rewrite lookup_delete_ne by done. by left.
  - intros x Hx. rewrite lookup_delete_ne; [done|]. intros <-. congruence.
Qed.

(** A buffer that is in no list and in no table. *)
Definition detached b (id : Z) : Prop :=
  0 <= id /\ is_Some (frames b !! id) /\ (id ∉ used_mem b) /\ (id ∉ free_mem b)
  /\ forall x, buffer_table b !! x <> Some id.

Lemma get_free_buffer_ok sid b sw id b' : bm_ok b ->
  get_free_buffer approve isPersSnapshotVersion sid b = Done (sw, id) b' ->
  bm_ok b' /\ calm b b' /\ detached b' id
  /\ (forall x, buffer_table b !! x = None -> buffer_table b' !! x = None) /\ swapped b' = swapped b.
Proof.
  intros Hok H. unfold get_free_buffer in H. destruct (pop (free_mem b)) as [[i l]|] eqn:Hp.
  - injection H as <- <- <-. apply pop_spec in Hp. split; [|split; [apply set_free_calm|split; [|done]]].
    + destruct Hok as [H1 H2 H3 H4 [H5 H5'] H6]. constructor; auto; cbn.
      * intros j Hj. apply H4. rewrite Hp. apply elem_of_app. by left.
      * split; [done|]. rewrite Hp in H5'. by apply NoDup_app in H5' as (? & _).
    + destruct (ok_free _ _ Hok i) as (E1 & E2 & E3); [rewrite Hp; apply elem_of_app; right; left|].
      split; [done|]. split; [done|]. split; [done|]. split.
      * destruct (ok_nodup _ _ Hok) as [_ Hnd]. rewrite Hp in Hnd. apply NoDup_app in Hnd as (_ & Hnd & _).
        intros Hin. apply (Hnd _ Hin). left.
      * intros x Hx. apply E3, (ok_table _ _ Hok _ _ Hx).
  - apply wu_bind_Done in H as ([p i] & b1 & H1 & H). apply choose_victim_ok in H1 as (u & -> & Hu & Hst).
    assert (Hok1 : buf_ok (i :: u) (set_used u b)) by (apply set_used_ok, (buf_ok_perm (used_mem b)); [by symmetry|done]).
    apply wu_bind_Done in H as (r & b2 & H2 & H).
    destruct (flush_buffer_ok _ (i :: u) i false _ r b2 Hok1 ltac:(left) H2) as [Hfl Hcl].
    destruct (fl_same _ _ _ Hfl) as (Et & Ep & Ef & Eu & Es).
    destruct (ok_used _ _ (fl_ok _ _ _ Hfl) i ltac:(left)) as (Hi0 & q & Hq).
    destruct (ok_table _ _ (fl_ok _ _ _ Hfl) _ _ Hq) as (Hphys & Hfr & _).
    rewrite (bind_done _ _ _ q b2) in H by (unfold get_phys; by rewrite Hphys).
    unfold wu_bind, wu_modify, wu_ret in H. injection H as <- <- <-. assert (Hst2 := off_stake _ _ _ (proj1 (fl_calm _ _ _ Hfl))).
    destruct (evict_ok u b2 i q (fl_ok _ _ _ Hfl) Hq Hcl) as [Hok' Hcalm]; [by rewrite Hst2|].
    split; [|split; [|split; [|split]]].
    + unfold bm_ok. cbn. by rewrite Eu.
    + apply (calm_trans _ (set_used u b)); [apply set_used_calm|]. apply (calm_trans _ b2); [apply Hfl|done].
    + assert (Hnd := proj1 (ok_nodup _ _ Hok1)). apply NoDup_cons in Hnd as [Hn _].
      assert (Hall := fl_ok _ _ _ Hfl). split; [done|]. split; [done|]. cbn. split; [by rewrite Eu|]. split.
      * intros Hin. destruct (ok_free _ _ Hall i Hin) as (_ & _ & Hni). apply Hni. left.
      * intros x Hx. apply lookup_delete_Some in Hx as [Hne Hx]. by apply Hne, (ok_inj _ b2 q x i Hall).
    + intros x Hx. cbn. rewrite Et. cbn. rewrite lookup_delete_None. by right.
    + cbn. by rewrite Es.
Qed.
(** ** Blocks in buffers *)

(** The page [pg] of the block [p] is in the buffer [id]. *)
Definition attach (p : XPTR) (id : Z) (pg : page D) b : bm D A :=
  set_phys (<[id := p]> (phys_xptrs b)) (set_frames (<[id := pg]> (frames b))
    (set_used (push id (used_mem b)) (set_table (<[p := id]> (buffer_table b)) b))).

Lemma attach_ok b p id pg : bm_ok b -> detached b id -> buffer_table b !! p = None -> is_Some (disk b !! p) ->
  (pg_changed pg = false -> disk_view b p = Some (content_of pg)) ->
  bm_ok (attach p id pg b)
  /\ view (attach p id pg b) p = Some (content_of pg) /\ trid_of (attach p id pg b) p = pg_trid pg
  /\ calm_off (fun x => x = p) b (attach p id pg b).
Proof.
  intros Hok (Hid & Hfr & Hu & Hf & Ht) Hp Hd Hc. destruct Hok as [H1 H2 H3 H4 [H5 H5'] H6].
  assert (Hne : forall x i, buffer_table b !! x = Some i -> x <> p /\ i <> id).
  { intros x i Hx. split; [congruence|]. intros ->. by apply (Ht x). }
  assert (Hoth : forall x, x <> p -> view (attach p id pg b) x = view b x /\ trid_of (attach p id pg b) x = trid_of b x).
  { intros x Hx. unfold view, trid_of, attach. cbn. rewrite lookup_insert_ne by done.
    destruct (buffer_table b !! x) as [i|] eqn:Ei; [|done]. rewrite lookup_insert_ne; [done|]. apply not_eq_sym. by apply (Hne x). }
  split; [|split; [|split]].
  - constructor; cbn.
    + intros x i Hx. apply lookup_insert_Some in Hx as [[<- <-]|[Hxp Hx]].
      * rewrite !lookup_insert_eq. split; [done|]. split; [eauto|]. split; [left|done].
      * destruct (H1 x i Hx) as (E1 & E2 & E3 & E4). destruct (Hne x i Hx) as [_ Hi].
        rewrite !lookup_insert_ne by done. split; [done|]. split; [done|]. split; [by right|done].
    + intros x i pg' Hx. apply lookup_insert_Some in Hx as [[<- <-]|[Hxp Hx]].
      * rewrite lookup_insert_eq. intros [= <-]. apply Hc.
      * destruct (Hne x i Hx) as [_ Hi]. rewrite lookup_insert_ne by done. by apply (H2 x i).
    + intros i [->|Hi]%elem_of_cons; [split; [done|]; exists p; apply lookup_insert_eq|].
      destruct (H3 i Hi) as (E & x & Hx). split; [done|]. exists x. rewrite lookup_insert_ne; [done|congruence].
    + intros i Hi. destruct (H4 i Hi) as (E1 & E2 & E3). split; [done|].
      assert (Hne' : i <> id) by (intros ->; done). rewrite lookup_insert_ne by done. split; [done|].
      intros [?|?]%elem_of_cons; done.
    + split; [|done]. by constructor.
    + done.
  - unfold view, attach. cbn. by rewrite !lookup_insert_eq.
  - unfold trid_of, attach. cbn. by rewrite !lookup_insert_eq.
  - constructor; cbn; auto.
    + intros x Hx. by apply Hoth.
    + intros x Hx. left. by apply Hoth.
    + intros x Hx. destruct (Hne x _ Hx) as [? _]. by rewrite lookup_insert_ne.
Qed.

Lemma put_ok sid p b sw id b' : bm_ok b ->
  put_block_to_buffer approve isPersSnapshotVersion sid p true b = Done (sw, id) b' ->
  bm_ok b' /\ calm b b' /\ buffer_table b' !! p = Some id /\ swapped b' = swapped b.
Proof.
  intros Hok H. unfold put_block_to_buffer in H. destruct (buffer_table b !! p) as [i|] eqn:Hp.
  { injection H as <- <- <-. split; [done|]. split; [apply calm_refl|done]. }
  apply wu_bind_Done in H as ([sw' i] & b1 & H1 & H).
  destruct (get_free_buffer_ok sid b sw' i b1 Hok H1) as (Hok1 & Hcalm & Hdet & Hnone & Hsw). specialize (Hnone p Hp).
  unfold wu_bind at 1, wu_modify at 1 in H. unfold wu_bind at 1, wu_modify at 1 in H.
  apply wu_bind_Done in H as ([] & b2 & H2 & H). unfold wu_bind, read_block in H2. cbn in H2.
  destruct (disk b1 !! p) as [d|] eqn:Hd; [|done].
  unfold upd_frame, wu_bind, get_frame, put_frame, wu_modify in H2. cbn in H2. rewrite lookup_insert_eq in H2. injection H2 as <-.
  unfold wu_bind, wu_modify, wu_ret in H. injection H as <- <- <-. cbn.
  set (pg := set_trid (-1) (set_changed false (set_roffs i d))).
  destruct (attach_ok b1 p i pg Hok1 Hdet Hnone) as (Hok2 & Hv & Ht & Hc); [eauto|intros _; unfold disk_view; by rewrite Hd|].
  assert (E : mk_bm (<[i := pg]> (<[i := set_changed false (set_roffs i d)]> (frames b1))) (<[p := i]> (buffer_table b1))
    (<[i := p]> (phys_xptrs b1)) (free_mem b1) (push i (used_mem b1)) (buffer_on_stake b1) (swapped b1) (deps b1) (disk b1) (io b1)
    (log b1) (durable b1) (alloc b1) = attach p i pg b1) by (unfold attach; cbn; by rewrite insert_insert_eq).
  unfold set_phys. cbn -[attach]. rewrite E. split; [done|]. split; [|split; [apply lookup_insert_eq|done]].
  apply (calm_trans _ b1); [done|]. split; [|done]. destruct Hc as [C1 C2 C3 C4 C5 C6 C7 C8].
  assert (Hvp : view (attach p i pg b1) p = view b1 p).
  { rewrite Hv, <- (unbuffered_synced b1 p Hnone). unfold disk_view. by rewrite Hd. }
  constructor; auto.
  - intros x _. destruct (decide (x = p)) as [->|Hne]; [done|by apply C1].
  - intros x _. destruct (decide (x = p)) as [->|Hne]; [by right|by apply C2].
Qed.

(** ** Changes of a page in its buffer *)

(** Another page in the buffer [id]. *)
Definition poke (id : Z) (pg : page D) b : bm D A := set_frames (<[id := pg]> (frames b)) b.

Lemma poke_ok b p id pg0 pg : bm_ok b -> buffer_table b !! p = Some id -> frames b !! id = Some pg0 ->
  (pg_changed pg = false -> pg_changed pg0 = false /\ content_of pg = content_of pg0) ->
  bm_ok (poke id pg b)
  /\ view (poke id pg b) p = Some (content_of pg) /\ trid_of (poke id pg b) p = pg_trid pg
  /\ (forall x, x <> p -> view (poke id pg b) x = view b x /\ trid_of (poke id pg b) x = trid_of b x).
Proof.
  intros Hok Hp Hf Hc. assert (Hinj := fun x => ok_inj _ b x p id Hok). destruct Hok as [H1 H2 H3 H4 H5 H6].
  assert (Hsome : forall i, is_Some (frames b !! i) -> is_Some (<[id := pg]> (frames b) !! i)).
  { intros i Hi. destruct (decide (i = id)) as [->|Hne]; [rewrite lookup_insert_eq; eauto|by rewrite lookup_insert_ne]. }
  split; [constructor; cbn; auto|split; [|split]].
  - intros x i Hx. destruct (H1 x i Hx) as (E1 & E2 & E3 & E4). auto.
  - intros x i pg' Hx. destruct (decide (i = id)) as [->|Hne].
    + rewrite lookup_insert_eq. intros [= <-] Hch. destruct (Hc Hch) as [Hc0 ->]. assert (x = p) as -> by auto. by apply (H2 p id).
    + rewrite lookup_insert_ne by done. by apply (H2 x i).
  - intros i Hi. destruct (H4 i Hi) as (E1 & E2 & E3). auto.
  - unfold view, poke. cbn. by rewrite Hp, lookup_insert_eq.
  - unfold trid_of, poke. cbn. by rewrite Hp, lookup_insert_eq.
  - intros x Hx. unfold view, trid_of, poke. cbn. destruct (buffer_table b !! x) as [i|] eqn:Ei; [|done].
    rewrite lookup_insert_ne; [done|]. intros ->. by apply Hx, Hinj.
Qed.

Lemma poke_off b p id pg0 pg : bm_ok b -> buffer_table b !! p = Some id -> frames b !! id = Some pg0 ->
  (pg_changed pg = false -> pg_changed pg0 = false /\ content_of pg = content_of pg0) ->
  calm_off (fun x => x = p) b (poke id pg b).
Proof.
  intros Hok Hp Hf Hc. destruct (poke_ok b p id pg0 pg Hok Hp Hf Hc) as (_ & _ & _ & Ho).
  constructor; cbn; auto; intros x Hx; [|left]; by apply Ho.
Qed.
(** The flags of a page do not matter for what is seen. *)
Lemma poke_calm b p id pg0 pg : bm_ok b -> buffer_table b !! p = Some id -> frames b !! id = Some pg0 ->
  (pg_changed pg = false -> pg_changed pg0 = false) -> content_of pg = content_of pg0 ->
  (pg_trid pg = pg_trid pg0 \/ pg_trid pg = -1) ->
  bm_ok (poke id pg b) /\ calm b (poke id pg b).
Proof.
  intros Hok Hp Hf Hc Hcont Ht.
  destruct (poke_ok b p id pg0 pg Hok Hp Hf) as (Hok' & Hv & Htr & Ho); [auto|].
  split; [done|]. split; [|done]. assert (Ev : view b p = Some (content_of pg)) by (unfold view; by rewrite Hp, Hf, Hcont).
  assert (Et : trid_of b p = pg_trid pg0) by (unfold trid_of; by rewrite Hp, Hf).
  constructor; cbn; auto.
  - intros x _. destruct (decide (x = p)) as [->|Hne]; [congruence|by apply Ho].
  - intros x _. destruct (decide (x = p)) as [->|Hne]; [rewrite Htr, Et; destruct Ht; auto|left; by apply Ho].
Qed.
End Ops.

Section But.
Context {D A : Type}.
Implicit Types b : bm D A.

(** The invariant but for the page of one block. *)
Record ok_but (p : XPTR) b : Prop := {
  ob_table : forall x id, buffer_table b !! x = Some id ->
    phys_xptrs b !! id = Some x /\ is_Some (frames b !! id) /\ id ∈ used_mem b /\ is_Some (disk b !! x);
  ob_clean : forall x id pg, x <> p -> buffer_table b !! x = Some id -> frames b !! id = Some pg ->
    pg_changed pg = false -> disk_view b x = Some (content_of pg);
  ob_used : forall id, id ∈ used_mem b -> 0 <= id /\ exists x, buffer_table b !! x = Some id;
  ob_free : forall id, id ∈ free_mem b -> 0 <= id /\ is_Some (frames b !! id) /\ id ∉ used_mem b;
  ob_nodup : NoDup (used_mem b) /\ NoDup (free_mem b);
  ob_deps : forall x y, deps b !! x = Some y -> y <> 0 /\ is_Some (disk b !! x)
}.

Lemma ok_but_ok p b : bm_ok b -> ok_but p b.
Proof. intros [H1 H2 H3 H4 H5 H6]. constructor; auto. intros x id pg _. apply H2. Qed.

(** A page of that block that is marked as changed restores it. *)
Lemma but_poke p b id pg0 pg : ok_but p b -> buffer_table b !! p = Some id -> frames b !! id = Some pg0 -> pg_changed pg = true ->
  bm_ok (poke id pg b) /\ calm_off (fun x => x = p) b (poke id pg b).
Proof.
  intros [B1 B2 B3 B4 B5 B6] Ht Hf Hch.
  assert (Hinj : forall x, buffer_table b !! x = Some id -> x = p) by (intros x Hx; destruct (B1 _ _ Hx) as [E1 _]; destruct (B1 _ _ Ht) as [E2 _]; congruence).
  split.
  - constructor; [|  |done| |done|done].
    + intros x i Hx. destruct (B1 x i Hx) as (E1 & E2 & E3 & E4). cbn. split; [done|]. split; [|done].
      destruct (decide (i = id)) as [->|]; [rewrite lookup_insert_eq; eauto|by rewrite lookup_insert_ne].
    + intros x i q Hx. cbn. destruct (decide (i = id)) as [->|]; [rewrite lookup_insert_eq; intros [= <-]; by rewrite Hch|rewrite lookup_insert_ne by done].
      apply B2; [|done]. intros ->. cbn in Hx. congruence.
    + intros i Hi. destruct (B4 i Hi) as (E1 & E2 & E3). split; [done|]. split; [|done]. cbn.
      destruct (decide (i = id)) as [->|]; [rewrite lookup_insert_eq; eauto|by rewrite lookup_insert_ne].
  - assert (Hoth : forall x, x <> p -> view (poke id pg b) x = view b x /\ trid_of (poke id pg b) x = trid_of b x).
    { intros x Hx. unfold view, trid_of, disk_view. cbn. destruct (buffer_table b !! x) as [i|] eqn:Ei; [|done].
      rewrite lookup_insert_ne; [done|]. intros ->. by apply Hx, Hinj. }
    constructor; [intros x Hx; by apply Hoth|intros x Hx; left; by apply Hoth|by intros x y ?|by left|by left|done|done|done].
Qed.

(** A block that is not in the buffers has no page there. *)
Lemma but_unbuffered p b : ok_but p b -> buffer_table b !! p = None -> bm_ok b.
Proof.
  intros [B1 B2 B3 B4 B5 B6] Ht. constructor; [done| |done|done|done|done]. intros x id pg Hx. apply B2; [|done]. intros ->. congruence.
Qed.
End But.

(** ** The contract of the allocator *)

(** [is_free] are the blocks that are not in use, [alloc_ok] the invariant of
    the allocator; they depend on its state, on the pages of free blocks and on
    the size of the file only.  The page of a new block may be in a buffer and
    differ from the file; it will be overwritten. *)
Class AllocatorOk (D A : Type) `{Allocator D A} := {
  is_free : bm D A -> XPTR -> Prop;
  alloc_ok : bm D A -> Prop;
  is_free_ext : forall b b', alloc b' = alloc b -> (forall x, is_free b x -> view b' x = view b x) ->
    forall x, is_free b' x <-> is_free b x;
  alloc_ok_ext : forall b b', alloc b' = alloc b -> (forall x, is_free b x -> view b' x = view b x) ->
    (forall x, is_Some (disk b !! x) -> is_Some (disk b' !! x)) -> alloc_ok b -> alloc_ok b';
  new_ok : forall b x b', bm_ok b -> alloc_ok b -> new_data_block b = Done x b' ->
    ok_but x b' /\ alloc_ok b' /\ is_free b x /\ x <> 0 /\ IS_DATA_BLOCK x = true /\ is_Some (disk b' !! x)
    /\ (forall y, is_free b' y <-> is_free b y /\ y <> x)
    /\ calm_off (is_free b) b b' /\ swapped b' = swapped b;
  push_ok : forall b x b', bm_ok b -> alloc_ok b -> ~ is_free b x -> x <> 0 -> IS_DATA_BLOCK x = true ->
    buffer_table b !! x = None -> is_Some (disk b !! x) -> push_free_block x b = Done tt b' ->
    bm_ok b' /\ alloc_ok b' /\ (forall y, is_free b' y <-> is_free b y \/ y = x)
    /\ calm_off (fun y => is_free b y \/ y = x) b b' /\ swapped b' = swapped b
}.

Section Blocks.
Context {D A : Type} `{AllocatorOk D A} (approve : Z -> XPTR -> bool)
  (isPersSnapshotVersion : VersionsHeader -> option bool).
Implicit Types b : bm D A.

Lemma free_off (P : XPTR -> Prop) b b' : calm_off P b b' -> alloc b' = alloc b -> (forall x, P x -> ~ is_free b x) ->
  forall x, is_free b' x <-> is_free b x.
Proof.
  intros Hc Ha HP. apply is_free_ext; [done|]. intros x Hx. apply (off_view _ _ _ Hc). intros Hp. by apply (HP x).
Qed.

Lemma free_calm b b' : calm b b' -> forall x, is_free b' x <-> is_free b x.
Proof. intros [Hc Ha]. by apply (free_off (fun _ => False)). Qed.

Lemma alloc_off (P : XPTR -> Prop) b b' : calm_off P b b' -> alloc b' = alloc b -> (forall x, P x -> ~ is_free b x) ->
  alloc_ok b -> alloc_ok b'.
Proof.
  intros Hc Ha HP. apply alloc_ok_ext; [done| |apply (off_dom _ _ _ Hc)]. intros x Hx. apply (off_view _ _ _ Hc). intros Hp. by apply (HP x).
Qed.

Lemma alloc_calm b b' : calm b b' -> alloc_ok b -> alloc_ok b'.
Proof. intros [Hc Ha]. by apply (alloc_off (fun _ => False)). Qed.

(** The block [p] is new, in the buffer [id] and still empty. *)
Lemma allocate_ok sid b p id sw b' : bm_ok b -> alloc_ok b ->
  bm_allocate_data_block approve isPersSnapshotVersion sid b = Done (p, id, sw) b' ->
  bm_ok b' /\ alloc_ok b' /\ is_free b p /\ p <> 0 /\ IS_DATA_BLOCK p = true
  /\ (forall y, is_free b' y <-> is_free b y /\ y <> p)
  /\ calm_off (is_free b) b b' /\ buffer_table b' !! p = Some id
  /\ (exists pg, frames b' !! id = Some pg /\ pg_p pg = p /\ pg_changed pg = true /\ pg_trid pg = -1)
  /\ swapped b' = swapped b.
Proof.
  intros Hok Halk Hrun. unfold bm_allocate_data_block in Hrun. apply wu_bind_Done in Hrun as (q & b1 & H1 & Hrun).
  destruct (new_ok b q b1 Hok Halk H1) as (Hok1 & Halk1 & Hfree & Hq0 & Hdata & Hdisk & Hfr & Hcalm & Hsw).
  assert (Hnf : ~ is_free b1 q) by (rewrite Hfr; tauto).
  apply wu_bind_Done in Hrun as ([sw' i] & b2 & H2 & Hrun).
  apply wu_bind_Done in Hrun as ([] & b3 & H3 & Hrun). injection Hrun as <- <- <- <-.
  (* the final state is [b3]; it extends [b1] at [q] only *)
  assert (Hfin : bm_ok b3 /\ calm_off (fun x => x = q) b1 b3 /\ alloc b3 = alloc b1 /\ buffer_table b3 !! q = Some i
    /\ (exists pg, frames b3 !! i = Some pg /\ pg_p pg = q /\ pg_changed pg = true /\ pg_trid pg = -1) /\ swapped b3 = swapped b1).
  { unfold upd_frame, wu_bind, get_frame, put_frame, wu_modify in H3. unfold put_block_to_buffer in H2.
    destruct (buffer_table b1 !! q) as [j|] eqn:Hq.
    - injection H2 as <- <- <-. destruct (frames b1 !! j) as [hdr|] eqn:Hf; [|done]. injection H3 as <-.
      set (pg := set_changed true (set_roffs j (set_p q (init_hdr hdr)))).
      destruct (but_poke q b1 j hdr pg Hok1 Hq Hf eq_refl) as [Hok3 Hoff].
      split; [done|]. split; [done|]. split; [done|]. split; [done|]. split; [|done].
      exists pg. cbn. by rewrite lookup_insert_eq.
    - apply (but_unbuffered _ _) in Hok1; [|done]. apply wu_bind_Done in H2 as ([sw2 j] & b4 & H4 & H2).
      destruct (get_free_buffer_ok approve isPersSnapshotVersion sid b1 sw2 j b4 Hok1 H4) as (Hok4 & Hc4 & Hdet & Hnone & Hs4).
      specialize (Hnone q Hq). destruct Hdet as (Hj & [hdr Hhdr] & Hrest).
      unfold wu_bind at 1, wu_modify at 1 in H2. unfold wu_bind at 1, wu_modify at 1 in H2.
      unfold upd_frame, wu_bind, get_frame, put_frame, wu_modify, wu_ret in H2. cbn in H2. rewrite Hhdr in H2. injection H2 as <- <- <-.
      cbn in H3. rewrite lookup_insert_eq in H3. injection H3 as <-.
      set (pg := set_changed true (set_roffs j (set_p q (init_hdr (set_roffs j (set_p q (init_hdr hdr))))))).
      assert (Hdet : detached b4 j) by (split; [done|]; split; [eauto|done]).
      destruct (attach_ok b4 q j pg Hok4 Hdet Hnone) as (Hok3 & _ & _ & Hc3); [apply (off_dom _ _ _ (proj1 Hc4)); done|done|].
      rewrite insert_insert_eq. change (mk_bm (<[j := pg]> (frames b4)) (<[q := j]> (buffer_table b4)) (<[j := q]> (phys_xptrs b4))
        (free_mem b4) (push j (used_mem b4)) (buffer_on_stake b4) (swapped b4) (deps b4) (disk b4) (io b4) (log b4) (durable b4) (alloc b4))
        with (attach q j pg b4).
      split; [done|]. split; [|split; [apply Hc4|split; [apply lookup_insert_eq|split; [|done]]]].
      + apply (off_trans _ _ b4); [by apply calm_off_calm|done].
      + exists pg. cbn. by rewrite lookup_insert_eq. }
  destruct Hfin as (Hok3 & Hoff & Hal & Htab & Hpg & Hs3).
  split; [done|]. split; [by apply (alloc_off _ _ _ Hoff Hal); [intros x ->|]|]. split; [done|]. split; [done|]. split; [done|].
  split; [intros y; rewrite (free_off _ _ _ Hoff Hal); [apply Hfr|by intros x ->]|].
  split; [|split; [done|split; [done|congruence]]].
  apply (off_trans _ _ b1); [done|]. apply (off_mono (fun x => x = q)); [by intros x ->|done].
Qed.
(** ** Deletion *)

(** The block [p] leaves the table and its buffer becomes free. *)
Definition drop_block (p : XPTR) b : bm D A :=
  match buffer_table b !! p with
  | Some id => set_free (push id (free_mem b)) (set_used (find_remove id (used_mem b))
                 (set_table (delete p (buffer_table b)) b))
  | None => b
  end.

Lemma delete_drop p b : delete_data_block p b = push_free_block p (drop_block p b).
Proof. unfold delete_data_block, drop_block. by destruct (buffer_table b !! p). Qed.

Lemma drop_ok p b : ok_but p b -> buffer_on_stake b = -1 ->
  bm_ok (drop_block p b) /\ buffer_table (drop_block p b) !! p = None
  /\ calm_off (fun x => x = p) b (drop_block p b) /\ alloc (drop_block p b) = alloc b
  /\ swapped (drop_block p b) = swapped b /\ deps (drop_block p b) = deps b /\ disk (drop_block p b) = disk b.
Proof.
  clear approve isPersSnapshotVersion. intros [H1 H2 H3 H4 [H5 H5'] H6] Hst. unfold drop_block. destruct (buffer_table b !! p) as [id|] eqn:Hp.
  2:{ split; [|split; [done|split; [apply off_refl|done]]]. constructor; auto. intros x i pg Hx. apply H2; [congruence|done]. }
  destruct (H1 _ _ Hp) as (Hph & Hfr & Hu & Hd). destruct (H3 id Hu) as [Hid _].
  assert (Hid' : forall x i, delete p (buffer_table b) !! x = Some i -> buffer_table b !! x = Some i /\ x <> p /\ i <> id).
  { intros x i Hx. apply lookup_delete_Some in Hx as [Hne Hx]. split; [done|]. split; [done|]. intros ->.
    destruct (H1 _ _ Hx) as [E _]. congruence. }
  split; [|split; [apply lookup_delete_eq|split; [|done]]].
  - constructor; cbn.
    + intros x i Hx. apply Hid' in Hx as (Hx & Hne & Hi). destruct (H1 x i Hx) as (E1 & E2 & E3 & E4).
      split; [done|]. split; [done|]. split; [by apply find_remove_spec|done].
    + intros x i pg Hx. apply Hid' in Hx as (Hx & Hne & Hi). by apply (H2 x i).
    + intros i [Hi Hne]%find_remove_spec. destruct (H3 i Hi) as (E & x & Hx). split; [done|]. exists x.
      rewrite lookup_delete_ne; [done|congruence].
    + intros i [->|Hi]%elem_of_cons.
      * split; [done|]. split; [done|]. rewrite find_remove_spec. tauto.
      * destruct (H4 i Hi) as (E1 & E2 & E3). split; [done|]. split; [done|]. rewrite find_remove_spec. tauto.
    + split; [by apply find_remove_NoDup|]. constructor; [|done]. intros Hi. by destruct (H4 id Hi) as (_ & _ & E3).
    + done.
  - constructor; cbn; auto.
    + intros x Hx. unfold view. cbn. by rewrite lookup_delete_ne.
    + intros x Hx. left. unfold trid_of. cbn. by rewrite lookup_delete_ne.
    + intros x Hx. destruct (H1 _ _ Hx) as (_ & _ & Hx' & _). destruct (H3 _ Hx') as [? _]. lia.
Qed.

(** Deletion of a block that is in use. *)
Lemma delete_ok p b b' : ok_but p b -> alloc_ok b -> buffer_on_stake b = -1 -> ~ is_free b p -> p <> 0 -> IS_DATA_BLOCK p = true ->
  is_Some (disk b !! p) -> FreeBlock p b = Done tt b' ->
  bm_ok b' /\ alloc_ok b' /\ (forall y, is_free b' y <-> is_free b y \/ y = p)
  /\ calm_off (fun y => is_free b y \/ y = p) b b' /\ swapped b' = swapped b.
Proof.
  clear approve isPersSnapshotVersion. intros Hok Halk Hst Hnf Hp0 Hdb Hd Hrun. unfold FreeBlock in Hrun. rewrite delete_drop in Hrun.
  destruct (drop_ok p b Hok Hst) as (Hok1 & Ht1 & Hc1 & Ha1 & Hs1 & _ & Ed).
  assert (Hfr := free_off _ _ _ Hc1 Ha1). assert (Hfr' : forall x, is_free (drop_block p b) x <-> is_free b x) by (apply Hfr; by intros x ->).
  assert (Halk1 : alloc_ok (drop_block p b)) by (apply (alloc_off _ _ _ Hc1 Ha1); [by intros x ->|done]).
  destruct (push_ok _ p b' Hok1 Halk1) as (Hok' & Halk' & Hf' & Hc' & Hs'); [by rewrite Hfr'|done|done|done|by rewrite Ed|done|].
  split; [done|]. split; [done|]. split; [intros y; rewrite Hf', Hfr'; done|]. split; [|congruence].
  apply (off_trans _ _ (drop_block p b)); [apply (off_mono (fun x => x = p)); [tauto|done]|].
  apply (off_mono (fun y => is_free (drop_block p b) y \/ y = p)); [intros x; by rewrite Hfr'|done].
Qed.
End Blocks.
