(* ===== verification/BufSwap.v ===== *)
(** * Blocks that change places

    The functions of wu.cpp on buffers (Buffers.v) against the pages that are
    seen through them: a copy of a block in a new one, the exchange of the
    places of two buffers when a version is created, and the return of an old
    version when a transaction is rolled back. *)

From Stdlib Require Import ZArith List Lia Bool.
From stdpp Require Import base gmap list sets.
From S2P Require Import Prelude WuBase Snapshots SnApi Buffers Versions BufInv BufOps.
Local Open Scope sedna_scope.
Local Open Scope Z_scope.

Section Places.
Context {D A : Type}.
Implicit Types b : bm D A.

Lemma set_swapped_ok l b : bm_ok b -> bm_ok (set_swapped l b) /\ calm b (set_swapped l b).
Proof. intros [H1 H2 H3 H4 H5 H6]. split; [constructor; auto|]. split; [constructor; auto|done]. Qed.

Lemma push_swapped_ok x b b' : bm_ok b -> PushSwappedXptr x b = Done tt b' ->
  bm_ok b' /\ calm b b' /\ buffer_table b' = buffer_table b /\ frames b' = frames b.
Proof.
  unfold PushSwappedXptr, wu_modify. intros Hok [= <-]. destruct (_ <? _)%nat; [|auto using calm_refl].
  destruct (set_swapped_ok (x :: swapped b) b Hok). done.
Qed.

(** What a page in the table is. *)
Lemma table_frame b x id : bm_ok b -> buffer_table b !! x = Some id ->
  0 <= id /\ exists pg, frames b !! id = Some pg /\ view b x = Some (content_of pg) /\ trid_of b x = pg_trid pg.
Proof.
  intros Hok Hx. destruct (ok_table _ _ Hok _ _ Hx) as (_ & [pg Hpg] & Hu & _). destruct (ok_used _ _ Hok _ Hu) as [Hid _].
  split; [done|]. exists pg. unfold view, trid_of. by rewrite Hx, Hpg.
Qed.

Lemma locate_ok b x id pg : bm_ok b -> buffer_table b !! x = Some id -> frames b !! id = Some pg ->
  LocateBlockHeader id b = Done pg b.
Proof.
  intros Hok Hx Hpg. destruct (table_frame _ _ _ Hok Hx) as [Hid _]. unfold LocateBlockHeader, get_frame.
  destruct (Z.ltb_spec id 0); [lia|]. by rewrite Hpg.
Qed.

Lemma dirty_ok b x id b' : bm_ok b -> buffer_table b !! x = Some id -> MarkBufferDirty id b = Done tt b' ->
  exists pg, frames b !! id = Some pg /\ b' = poke id (set_changed true pg) b /\ bm_ok b' /\ calm b b'.
Proof.
  intros Hok Hx H. destruct (table_frame _ _ _ Hok Hx) as (_ & pg & Hpg & _).
  unfold MarkBufferDirty in H. rewrite (bind_done _ _ _ pg b) in H by (by apply (locate_ok _ x)). injection H as <-.
  exists pg. split; [done|]. split; [done|]. by apply (poke_calm _ x _ pg); auto.
Qed.

(** The page of [x] with another owner. *)
Lemma trid_ok b x id pg t : bm_ok b -> buffer_table b !! x = Some id -> frames b !! id = Some pg ->
  bm_ok (poke id (set_trid t pg) b) /\ calm_off (fun y => y = x) b (poke id (set_trid t pg) b)
  /\ (forall y, view (poke id (set_trid t pg) b) y = view b y) /\ trid_of (poke id (set_trid t pg) b) x = t
  /\ (forall y, disk_view (poke id (set_trid t pg) b) y = disk_view b y).
Proof.
  intros Hok Hx Hpg.
  destruct (poke_ok b x id pg (set_trid t pg) Hok Hx Hpg) as (Hok' & Hv & Ht & Ho); [done|].
  split; [done|]. split; [by apply (poke_off b x id pg)|]. split; [|by split].
  intros y. destruct (decide (y = x)) as [->|Hne]; [|by apply Ho]. rewrite Hv. unfold view. by rewrite Hx, Hpg.
Qed.

Lemma grant_ok me b x id b' : bm_ok b -> buffer_table b !! x = Some id ->
  GrantExclusiveAccessToBuffer me id b = Done tt b' ->
  bm_ok b' /\ calm_off (fun y => y = x) b b' /\ (forall y, view b' y = view b y) /\ trid_of b' x = me
  /\ (forall y, disk_view b' y = disk_view b y) /\ buffer_table b' = buffer_table b /\ alloc b' = alloc b /\ deps b' = deps b
  /\ (trid_of b x = -1 \/ trid_of b x = me).
Proof.
  intros Hok Hx H. unfold GrantExclusiveAccessToBuffer in H. destruct (me =? -1); [done|].
  destruct (table_frame _ _ _ Hok Hx) as (_ & pg & Hpg & _ & Ht). rewrite (bind_done _ _ _ pg b) in H by (by apply (locate_ok _ x)).
  destruct (negb (pg_trid pg =? -1) && negb (pg_trid pg =? me)) eqn:E; [done|]. injection H as <-.
  destruct (trid_ok b x id pg me Hok Hx Hpg) as (H1 & H2 & H3 & H4 & H5). split; [done|].
  split; [done|]. split; [done|]. split; [done|]. split; [done|]. repeat (split; [done|]).
  rewrite Ht. apply andb_false_iff in E as [E|E]; apply negb_false_iff, Z.eqb_eq in E; auto.
Qed.

Lemma revoke_ok me b x id b' : bm_ok b -> buffer_table b !! x = Some id ->
  RevokeExclusiveAccessToBuffer me id b = Done tt b' ->
  bm_ok b' /\ calm b b' /\ trid_of b' x = -1.
Proof.
  intros Hok Hx H. unfold RevokeExclusiveAccessToBuffer in H. destruct (me =? -1); [done|].
  destruct (table_frame _ _ _ Hok Hx) as (_ & pg & Hpg & _ & Ht). rewrite (bind_done _ _ _ pg b) in H by (by apply (locate_ok _ x)).
  destruct (negb (pg_trid pg =? -1) && negb (pg_trid pg =? me)) eqn:E; [done|]. injection H as <-.
  destruct (poke_calm b x id pg (set_trid (-1) pg) Hok Hx Hpg) as [H1 H2]; auto.
  split; [done|]. split; [done|]. apply (trid_ok b x id pg (-1) Hok Hx Hpg).
Qed.

(** ** Two buffers exchange their blocks *)

Definition exchange (x y : XPTR) (i j : Z) b : bm D A :=
  set_table (<[x := j]> (<[y := i]> (buffer_table b))) (set_phys (<[i := y]> (<[j := x]> (phys_xptrs b))) b).

(** Every buffer is in the table where the exchange says. *)
Lemma exchange_table b x y i j z k : bm_ok b -> x <> y -> buffer_table b !! x = Some i -> buffer_table b !! y = Some j ->
  buffer_table (exchange x y i j b) !! z = Some k ->
  (z = x /\ k = j) \/ (z = y /\ k = i) \/ (z <> x /\ z <> y /\ k <> i /\ k <> j /\ buffer_table b !! z = Some k).
Proof.
  intros Hok Hne Hx Hy. unfold exchange. cbn. rewrite !lookup_insert_Some.
  intros [[<- <-]|[Hzx [[<- <-]|[Hzy Hz]]]]; [by left|right; left; done|]. right. right.
  split; [done|]. split; [done|]. split; [|split; [|done]]; intros ->; [by apply Hzx, (ok_inj _ b x z i Hok)|by apply Hzy, (ok_inj _ b y z j Hok)].
Qed.

(** The invariant but for the page at [y], when the page that comes to [x] is
    dirty or on the disk there. *)
Lemma exchange_but b x y i j pj : bm_ok b -> x <> y -> buffer_table b !! x = Some i -> buffer_table b !! y = Some j ->
  frames b !! j = Some pj -> (pg_changed pj = false -> disk_view b x = Some (content_of pj)) ->
  ok_but y (exchange x y i j b).
Proof.
  intros Hok Hne Hx Hy Hpj Hc. assert (Hij : i <> j) by (intros ->; by apply Hne, (ok_inj _ b x y j Hok)).
  assert (Ht := fun z k => exchange_table b x y i j z k Hok Hne Hx Hy). destruct Hok as [H1 H2 H3 H4 H5 H6].
  destruct (H1 _ _ Hx) as (X1 & X2 & X3 & X4). destruct (H1 _ _ Hy) as (Y1 & Y2 & Y3 & Y4).
  constructor; auto.
  - intros z k Hz. apply Ht in Hz as [[-> ->]|[[-> ->]|(Hzx & Hzy & Hki & Hkj & Hz)]]; cbn.
    + rewrite lookup_insert_ne, lookup_insert_eq by done. auto.
    + rewrite lookup_insert_eq. auto.
    + rewrite !lookup_insert_ne by done. by apply H1.
  - intros z k pg Hzy Hz. apply Ht in Hz as [[-> ->]|[[-> ->]|(Hzx & _ & Hki & Hkj & Hz)]]; [|done|by apply (H2 z k)].
    cbn. rewrite Hpj. by intros [= <-].
  - intros k Hk. destruct (H3 k Hk) as (Hk0 & z & Hz). split; [done|]. cbn.
    destruct (decide (k = j)) as [->|Hkj]; [exists x; by rewrite lookup_insert_eq|].
    destruct (decide (k = i)) as [->|Hki]; [exists y; by rewrite lookup_insert_ne, lookup_insert_eq|].
    exists z. rewrite !lookup_insert_ne; congruence.
Qed.

Lemma exchange_ok b x y i j pi pj : bm_ok b -> x <> y -> buffer_table b !! x = Some i -> buffer_table b !! y = Some j ->
  frames b !! i = Some pi -> frames b !! j = Some pj -> pg_changed pi = true -> pg_changed pj = true ->
  bm_ok (exchange x y i j b).
Proof.
  intros Hok Hne Hx Hy Hpi Hpj Hci Hcj. destruct (exchange_but b x y i j pj Hok Hne Hx Hy Hpj) as [H1 H2 H3 H4 H5 H6]; [congruence|].
  constructor; auto. intros z k pg Hz. destruct (decide (z = y)) as [->|Hzy]; [|by apply H2].
  apply (exchange_table b x y i j y k Hok Hne Hx Hy) in Hz as [[? _]|[[_ ->]|(_ & ? & _)]]; [congruence| |done].
  cbn. rewrite Hpi. intros [= <-]. congruence.
Qed.

Lemma exchange_view b x y i j : bm_ok b -> x <> y -> buffer_table b !! x = Some i -> buffer_table b !! y = Some j ->
  buffer_on_stake b = -1 ->
  view (exchange x y i j b) x = view b y /\ view (exchange x y i j b) y = view b x
  /\ trid_of (exchange x y i j b) x = trid_of b y /\ trid_of (exchange x y i j b) y = trid_of b x
  /\ calm_off (fun z => z = x \/ z = y) b (exchange x y i j b).
Proof.
  intros Hok Hne Hx Hy Hst. unfold view, trid_of. cbn. rewrite lookup_insert_eq, lookup_insert_ne, lookup_insert_eq, Hx, Hy by done.
  repeat (split; [done|]). constructor; cbn; auto.
  - intros z Hz. unfold view. cbn. rewrite !lookup_insert_ne by naive_solver. done.
  - intros z Hz. left. unfold trid_of. cbn. rewrite !lookup_insert_ne by naive_solver. done.
  - intros z Hz. destruct (table_frame _ _ _ Hok Hz) as [? _]. lia.
Qed.

(** ** A new version takes the place of the old one *)

Lemma off_same P b b' : buffer_table b' = buffer_table b -> disk b' = disk b -> deps b' = deps b ->
  buffer_on_stake b' = buffer_on_stake b ->
  (forall x, ~ P x -> view b' x = view b x /\ trid_of b' x = trid_of b x) -> calm_off P b b'.
Proof.
  intros Et Ed Edp Es Hv. assert (Edv : forall x, disk_view b' x = disk_view b x) by (intros x; unfold disk_view; by rewrite Ed).
  constructor; rewrite ?Et, ?Ed, ?Edp, ?Es; auto; intros x Hx; [|left]; by apply Hv.
Qed.

(** The page with the header [h] comes to [x], the old page goes to [p]. *)
Lemma relocate_ok b x src p id pg h b1 b2 b3 : bm_ok b -> x <> p -> buffer_on_stake b = -1 ->
  buffer_table b !! x = Some src -> buffer_table b !! p = Some id -> frames b !! id = Some pg -> pg_changed pg = true ->
  upd_frame id (set_vh h) b = Done tt b1 -> FixFlushXptrs src id p x b1 = Done tt b2 -> MarkBufferDirty src b2 = Done tt b3 ->
  bm_ok b3 /\ view b3 x = Some (content_of (set_vh h pg)) /\ view b3 p = view b x
  /\ trid_of b3 x = pg_trid pg /\ trid_of b3 p = trid_of b x
  /\ calm_off (fun z => z = x \/ z = p) b b3
  /\ buffer_table b3 !! x = Some id /\ buffer_table b3 !! p = Some src
  /\ deps b3 = deps b /\ disk b3 = disk b /\ alloc b3 = alloc b.
Proof.
  intros Hok Hne Hst Hx Hp Hpg Hc H1 H2 H3.
  assert (Hsi : src <> id) by (intros ->; by apply Hne, (ok_inj _ b x p id Hok)).
  destruct (table_frame _ _ _ Hok Hx) as (Hs0 & spg & Hspg & Hvx & Htx).
  unfold upd_frame, wu_bind, get_frame, put_frame, wu_modify in H1. rewrite Hpg in H1. injection H1 as <-. fold (poke id (set_vh h pg) b) in H2.
  set (b1 := poke id (set_vh h pg) b) in *.
  destruct (poke_ok b p id pg (set_vh h pg) Hok Hp Hpg) as (Hok1 & Hv1 & Ht1 & Ho1); [cbn; congruence|]. fold b1 in Hok1, Hv1, Ht1, Ho1.
  assert (Hs1 : frames b1 !! src = Some spg) by (unfold b1, poke; cbn; by rewrite lookup_insert_ne).
  destruct (poke_calm b1 x src spg (set_changed true spg) Hok1 Hx Hs1) as [Hok2 Hc2]; [done|done|by left|].
  set (c := poke src (set_changed true spg) b1) in *.
  assert (Hfs : frames c !! src = Some (set_changed true spg)) by (unfold c, poke; cbn; by rewrite lookup_insert_eq).
  assert (Hfi : frames c !! id = Some (set_vh h pg)) by (unfold c, poke; cbn; rewrite lookup_insert_ne by done; unfold b1, poke; cbn; by rewrite lookup_insert_eq).
  assert (E3 : b3 = exchange x p src id c).
  { unfold FixFlushXptrs, assert_phys, wu_bind, get_phys, wu_modify in H2. destruct (ok_table _ _ Hok1 _ _ Hx) as (Hph & _).
    rewrite Hph, Z.eqb_refl in H2. unfold wu_ret in H2. injection H2 as <-. unfold table_replace in H3. cbn in H3.
    rewrite Hp in H3. cbn in H3. rewrite lookup_insert_ne, Hx in H3 by done.
    unfold MarkBufferDirty, wu_bind, LocateBlockHeader, get_frame, put_frame, wu_modify in H3.
    destruct (Z.ltb_spec src 0); [lia|]. cbn in H3. rewrite lookup_insert_ne, Hspg in H3 by done. by injection H3 as <-. }
  destruct (exchange_view c x p src id Hok2 Hne Hx Hp Hst) as (V1 & V2 & T1 & T2 & Hoff).
  assert (Hp2 : view c p = Some (content_of (set_vh h pg)) /\ trid_of c p = pg_trid pg) by (unfold view, trid_of; rewrite (Hp : buffer_table c !! p = Some id), Hfi; done).
  assert (Hx2 : view c x = view b x /\ trid_of c x = trid_of b x) by (unfold view, trid_of; rewrite (Hx : buffer_table c !! x = Some src), Hfs, Hx, Hspg; done).
  rewrite E3. split; [by apply (exchange_ok c x p src id (set_changed true spg) (set_vh h pg))|].
  rewrite V1, V2, T1, T2, (proj1 Hp2), (proj2 Hp2), (proj1 Hx2), (proj2 Hx2). repeat (split; [done|]).
  split; [|cbn; rewrite lookup_insert_eq, lookup_insert_ne, lookup_insert_eq by done; done].
  apply (off_trans _ _ c); [|done]. apply off_same; [done..|]. intros z Hz. unfold view, trid_of. cbn.
  destruct (buffer_table b !! z) as [k|] eqn:Ek; [|done].
  assert (k <> src /\ k <> id) as [? ?] by (split; intros ->; apply Hz; [left|right]; by apply (ok_inj _ b z _ _ Hok Ek)).
  by rewrite !lookup_insert_ne.
Qed.

(** The flushing dependency of a new version. *)
Lemma depend_ok b x p : bm_ok b -> p <> 0 -> is_Some (disk b !! x) -> bm_ok (set_deps (<[x := p]> (deps b)) b).
Proof.
  intros [H1 H2 H3 H4 H5 H6] Hp Hd. constructor; auto. intros z y. cbn. rewrite lookup_insert_Some. intros [[<- <-]|[_ E]]; [done|by apply (H6 z)].
Qed.

Lemma relocating_ok b x p b' : bm_ok b -> OnPersVersionRelocating x p 1 b = Done tt b' ->
  bm_ok b' /\ calm b b' /\ buffer_table b' = buffer_table b /\ deps b' = deps b /\ disk b' = disk b
  /\ (forall y, trid_of b' y = trid_of b y).
Proof.
  intros Hok H. unfold OnPersVersionRelocating, wu_bind, FindBlockInBuffers in H. cbn [Z.eqb Pos.eqb] in H.
  destruct (buffer_table b !! p) as [id|] eqn:Hp; [|injection H as <-; auto 10 using calm_refl].
  destruct (table_frame _ _ _ Hok Hp) as (_ & pg & Hpg & _). rewrite (locate_ok _ p id pg) in H by done. cbn in H.
  destruct (vh_creatorTs (pg_vh pg) !! 0%nat) as [ts|]; [|done]. cbn in H. injection H as <-.
  set (bl := set_log _ _ b). assert (Hbl : bm_ok bl /\ calm b bl).
  { destruct (flushed_log (used_mem b) b (log b ++ [LL_PERS_SNAPSHOT_ADD x p ts]) (durable b) Hok) as [_ _ K1 K2 _]. done. }
  destruct Hbl as [Hok1 Hc1].
  destruct (poke_calm bl p id pg (set_lsn (Z.of_nat (length (log b))) pg) Hok1 Hp Hpg) as [Hok2 Hc2]; auto.
  split; [done|]. split; [by apply (calm_trans _ bl)|]. repeat (split; [done|]).
  intros y. unfold trid_of. cbn. destruct (buffer_table b !! y) as [k|]; [|done].
  destruct (decide (k = id)) as [->|Hne]; [by rewrite lookup_insert_eq, Hpg|by rewrite lookup_insert_ne].
Qed.

(** ** An old version returns *)

(** The buffer of [y] becomes that of [x], which is in no buffer. *)
Definition move (x y : XPTR) (j : Z) b : bm D A :=
  set_table (delete y (<[x := j]> (buffer_table b))) (set_phys (<[j := x]> (phys_xptrs b)) b).

Lemma move_but b x y j pj : bm_ok b -> x <> y -> buffer_table b !! x = None -> buffer_table b !! y = Some j ->
  frames b !! j = Some pj -> is_Some (disk b !! x) -> (pg_changed pj = false -> disk_view b x = Some (content_of pj)) ->
  ok_but y (move x y j b).
Proof.
  intros Hok Hne Hx Hy Hpj Hd Hc. assert (Hinj := fun z => ok_inj _ b z y j Hok). destruct Hok as [H1 H2 H3 H4 H5 H6].
  destruct (H1 _ _ Hy) as (Y1 & Y2 & Y3 & Y4).
  assert (Ht : forall z k, buffer_table (move x y j b) !! z = Some k ->
    (z = x /\ k = j) \/ (z <> x /\ z <> y /\ k <> j /\ buffer_table b !! z = Some k)).
  { intros z k. cbn. rewrite lookup_delete_Some, lookup_insert_Some. intros [Hzy [[<- <-]|[Hzx Hz]]]; [by left|].
    right. split; [done|]. split; [done|]. split; [|done]. intros ->. by apply Hzy, symmetry, Hinj. }
  constructor; auto.
  - intros z k Hz. apply Ht in Hz as [[-> ->]|(Hzx & Hzy & Hk & Hz)]; cbn; [by rewrite lookup_insert_eq|].
    rewrite lookup_insert_ne by done. by apply H1.
  - intros z k pg Hzy Hz. apply Ht in Hz as [[-> ->]|(Hzx & _ & Hk & Hz)]; [|by apply (H2 z k)]. cbn. rewrite Hpj. by intros [= <-].
  - intros k Hk. destruct (H3 k Hk) as (Hk0 & z & Hz). split; [done|]. cbn. destruct (decide (k = j)) as [->|Hkj].
    + exists x. by rewrite lookup_delete_ne, lookup_insert_eq.
    + exists z. rewrite lookup_delete_ne, lookup_insert_ne; congruence.
Qed.

Lemma move_view b x y j : bm_ok b -> x <> y -> buffer_table b !! x = None -> buffer_table b !! y = Some j ->
  buffer_on_stake b = -1 ->
  view (move x y j b) x = view b y /\ trid_of (move x y j b) x = trid_of b y
  /\ calm_off (fun z => z = x \/ z = y) b (move x y j b).
Proof.
  intros Hok Hne Hx Hy Hst. unfold view, trid_of. cbn. rewrite lookup_delete_ne, lookup_insert_eq, Hy by done.
  repeat (split; [done|]). constructor; cbn; auto.
  - intros z Hz. unfold view. cbn. rewrite lookup_delete_ne, lookup_insert_ne by naive_solver. done.
  - intros z Hz. left. unfold trid_of. cbn. rewrite lookup_delete_ne, lookup_insert_ne by naive_solver. done.
  - intros z Hz. destruct (table_frame _ _ _ Hok Hz) as [? _]. lia.
Qed.

Definition place (x y : XPTR) (j : Z) b : bm D A :=
  match buffer_table b !! x with
  | Some i => exchange x y i j b
  | None => move x y j b
  end.

Lemma fix_place b x y j b' : bm_ok b -> x <> y -> buffer_table b !! y = Some j ->
  FixFlushXptr j y x b = Done tt b' -> b' = place x y j b.
Proof.
  intros Hok Hne Hy H. unfold FixFlushXptr, assert_phys, wu_bind, get_phys, wu_get, wu_modify, wu_ret in H.
  destruct (ok_table _ _ Hok _ _ Hy) as (Hph & _). rewrite Hph, Z.eqb_refl, Hy, bool_decide_eq_true_2 in H by done. cbn in H.
  injection H as <-. unfold place, exchange, move, table_replace. destruct (buffer_table b !! x) as [i|]; [|done].
  cbn. rewrite lookup_insert_ne, Hy by done. cbn. by rewrite (insert_insert_ne _ y x) by done.
Qed.

Lemma place_same x y j b : frames (place x y j b) = frames b /\ disk (place x y j b) = disk b /\ deps (place x y j b) = deps b
  /\ alloc (place x y j b) = alloc b /\ buffer_on_stake (place x y j b) = buffer_on_stake b.
Proof. unfold place. by destruct (buffer_table b !! x). Qed.

Lemma place_but b x y j pj : bm_ok b -> x <> y -> buffer_table b !! y = Some j -> frames b !! j = Some pj ->
  is_Some (view b x) -> (pg_changed pj = false -> disk_view b x = Some (content_of pj)) ->
  ok_but y (place x y j b) /\ buffer_table (place x y j b) !! x = Some j.
Proof.
  intros Hok Hne Hy Hpj Hv Hc. unfold place. destruct (buffer_table b !! x) as [i|] eqn:Hx.
  - split; [by apply (exchange_but b x y i j pj)|]. cbn. by rewrite lookup_insert_eq.
  - split; [|cbn; by rewrite lookup_delete_ne, lookup_insert_eq]. apply (move_but b x y j pj); auto.
    unfold view, disk_view in Hv. rewrite Hx in Hv. by apply fmap_is_Some in Hv.
Qed.

Lemma place_view b x y j : bm_ok b -> x <> y -> buffer_table b !! y = Some j -> buffer_on_stake b = -1 ->
  view (place x y j b) x = view b y /\ trid_of (place x y j b) x = trid_of b y
  /\ calm_off (fun z => z = x \/ z = y) b (place x y j b).
Proof.
  intros Hok Hne Hy Hst. unfold place. destruct (buffer_table b !! x) as [i|] eqn:Hx.
  - destruct (exchange_view b x y i j Hok Hne Hx Hy Hst) as (V1 & _ & T1 & _ & Hoff). done.
  - by apply move_view.
Qed.

(** The flags of the page that returned do not matter for the place. *)
Lemma place_poke b x y j pg : place x y j (poke j pg b) = poke j pg (place x y j b).
Proof. unfold place. cbn. by destruct (buffer_table b !! x). Qed.

Lemma written_but y b x j pg e l n : ok_but y b -> x <> y -> buffer_table b !! x = Some j -> frames b !! j = Some pg ->
  ok_but y (written j x pg e (set_log l n b)).
Proof.
  intros [H1 H2 H3 H4 H5 H6] Hne Hx Hpg.
  assert (Hsome : forall k, is_Some (frames b !! k) -> is_Some (<[j := set_changed false pg]> (frames b) !! k)).
  { intros k Hk. destruct (decide (k = j)) as [->|Hkj]; [rewrite lookup_insert_eq; eauto|by rewrite lookup_insert_ne]. }
  constructor; cbn; auto.
  - intros z k Hz. destruct (H1 z k Hz) as (E1 & E2 & E3 & E4). split; [done|]. split; [auto|]. split; [done|].
    destruct (decide (z = x)) as [->|Hzx]; [rewrite lookup_insert_eq; eauto|by rewrite lookup_insert_ne].
  - intros z k pg' Hzy Hz. destruct (decide (z = x)) as [->|Hzx].
    + assert (k = j) as -> by congruence. rewrite lookup_insert_eq. intros [= <-] _. unfold disk_view. cbn. by rewrite lookup_insert_eq.
    + assert (Hk : k <> j). { intros ->. destruct (H1 _ _ Hz) as [Ez _]. destruct (H1 _ _ Hx) as [Ex _]. congruence. }
      rewrite lookup_insert_ne by done. intros Hf Hcl. unfold disk_view. cbn. rewrite lookup_insert_ne by done. by apply (H2 z k pg').
  - intros k Hk. destruct (H4 k Hk) as (E1 & E2 & E3). auto.
  - intros z w Hz. destruct (H6 z w Hz) as [? ?]. split; [done|]. destruct (decide (z = x)) as [->|Hzx]; [rewrite lookup_insert_eq; eauto|by rewrite lookup_insert_ne].
Qed.
End Places.

Section Wrappers.
Context {D A : Type} (approve : Z -> XPTR -> bool) (isPersSnapshotVersion : VersionsHeader -> option bool).
Implicit Types b : bm D A.

Lemma put_to_buffer_ok me x b id b' : bm_ok b ->
  PutBlockToBuffer approve isPersSnapshotVersion me x b = Done id b' ->
  bm_ok b' /\ calm b b' /\ buffer_table b' !! x = Some id.
Proof.
  intros Hok H. unfold PutBlockToBuffer in H. unfold wu_bind at 1, wu_get in H.
  apply wu_bind_Done in H as ([sw i] & b1 & H1 & H). destruct (put_ok _ _ _ _ _ _ _ _ Hok H1) as (Hok1 & Hc1 & Ht & _).
  apply wu_bind_Done in H as ([] & b2 & H2 & H). injection H as <- <-.
  destruct (push_swapped_ok _ _ _ Hok1 H2) as (Hok2 & Hc2 & Et & _). rewrite Et. eauto using calm_trans.
Qed.

(** A dirty buffer without a dependency is written to its block, and nothing
    else happens but entries in the log. *)
Lemma flush_plain b x j pg r b' : buffer_table b !! x = Some j -> phys_xptrs b !! j = Some x -> frames b !! j = Some pg ->
  pg_changed pg = true -> deps b !! x = None -> is_Some (disk b !! x) ->
  flush_buffer isPersSnapshotVersion j true b = Done r b' -> exists e l n, b' = written j x pg e (set_log l n b).
Proof.
  intros Hx Hph Hpg Hc Hd Hdk Hrun. unfold flush_buffer in Hrun. cbn [flush_rec] in Hrun.
  rewrite (bind_done _ _ _ pg b) in Hrun by (unfold get_frame; by rewrite Hpg). rewrite Hc in Hrun.
  rewrite (bind_done _ _ _ x b) in Hrun by (unfold get_phys; by rewrite Hph).
  apply wu_bind_Done in Hrun as ([] & b1 & H1 & Hrun).
  assert (E1 : exists l n, b1 = set_log l n b).
  { destruct (IS_DATA_BLOCK x); [|injection H1 as <-; exists (log b), (durable b); by destruct b].
    unfold llFlushLsn in H1. destruct (_ =? _); injection H1 as <-; [exists (log b), (durable b); by destruct b|eauto]. }
  destruct E1 as (l1 & n1 & ->). apply wu_bind_Done in Hrun as ([] & b2 & H2 & Hrun).
  assert (E2 : exists l n, b2 = set_log l n b).
  { unfold OnFlushBuffer, before_flush, LookupFlushingDependency, FindBlockInBuffers, LocateVersionsHeader, LocateBlockHeader, get_frame, wu_bind, wu_ret in H2.
    cbn in H2. rewrite Hd in H2. cbn in H2. rewrite Hx in H2. destruct (j <? 0); [done|]. cbn in H2. rewrite Hpg in H2.
    destruct (isPersSnapshotVersion (pg_vh pg)) as [[]|]; [|injection H2 as <-; eauto|done].
    destruct (vh_xptr (pg_vh pg) !! 0%nat); [|done]. unfold wu_ignore, OnPersVersionRelocating, wu_bind, FindBlockInBuffers, LocateBlockHeader, get_frame in H2.
    cbn in H2. rewrite Hx in H2. destruct (j <? 0); [injection H2 as <-; eauto|]. cbn in H2. rewrite Hpg in H2. cbn in H2. injection H2 as <-.
    eexists _, _. done. }
  destruct E2 as (l2 & n2 & ->). rewrite (write_out j x pg) in Hrun by done. injection Hrun as <- <-. by eexists _, l2, n2.
Qed.
End Wrappers.

Section Moves.
Context {D A : Type} `{AllocatorOk D A} (approve : Z -> XPTR -> bool)
  (isPersSnapshotVersion : VersionsHeader -> option bool).
Implicit Types b : bm D A.

Lemma set_stake_ok i b : bm_ok b -> bm_ok (set_stake i b).
Proof. intros [H1 H2 H3 H4 H5 H6]. constructor; auto. Qed.

Lemma set_stake_free i b x : is_free (set_stake i b) x <-> is_free b x.
Proof. apply is_free_ext; done. Qed.

Lemma set_stake_alloc i b : alloc_ok b -> alloc_ok (set_stake i b).
Proof. by apply alloc_ok_ext. Qed.

(** A buffer that was on stake in between. *)
Lemma restake_off P i b b' : bm_ok b -> buffer_on_stake b = -1 -> calm_off P (set_stake i b) b' ->
  calm_off P b (set_stake (-1) b').
Proof.
  intros Hok Hst [C1 C2 C3 C4 C5 C6 C7 C8]. constructor; cbn in *; auto.
  intros x Hx. destruct (table_frame _ _ _ Hok Hx) as [? _]. lia.
Qed.

Lemma allocate_block_ok me b p id b' : bm_ok b -> alloc_ok b ->
  AllocateDataBlock approve isPersSnapshotVersion me b = Done (p, id) b' ->
  bm_ok b' /\ alloc_ok b' /\ is_free b p /\ p <> 0 /\ IS_DATA_BLOCK p = true
  /\ (forall y, is_free b' y <-> is_free b y /\ y <> p)
  /\ calm_off (is_free b) b b' /\ buffer_table b' !! p = Some id
  /\ (exists pg, frames b' !! id = Some pg /\ pg_p pg = p /\ pg_changed pg = true /\ pg_trid pg = -1).
Proof.
  intros Hok Halk Hrun. unfold AllocateDataBlock in Hrun. unfold wu_bind at 1, wu_get in Hrun.
  apply wu_bind_Done in Hrun as ([[q i] sw] & b1 & H1 & Hrun).
  destruct (allocate_ok _ _ _ _ _ _ _ _ Hok Halk H1) as (Hok1 & Halk1 & Hf & Hp0 & Hd & Hfr & Hc & Ht & Hpg & _).
  apply wu_bind_Done in Hrun as ([] & b2 & H2 & Hrun). injection Hrun as <- <- <-.
  destruct (push_swapped_ok _ _ _ Hok1 H2) as (Hok2 & Hc2 & Et & Ef). rewrite Et, Ef.
  split; [done|]. split; [by apply (alloc_calm _ _ Hc2)|]. split; [done|]. split; [done|]. split; [done|].
  split; [intros y; rewrite (free_calm _ _ Hc2); apply Hfr|].
  split; [|by split]. apply (off_trans _ _ b1); [done|by apply calm_off_calm].
Qed.

(** The new block [p] holds a copy of [x]. *)
Lemma copy_ok me b x src p id b' : bm_ok b -> alloc_ok b -> buffer_table b !! x = Some src -> ~ is_free b x -> buffer_on_stake b = -1 ->
  AllocateDataBlockAndCopyData approve isPersSnapshotVersion me src b = Done (p, id) b' ->
  bm_ok b' /\ alloc_ok b' /\ is_free b p /\ p <> 0 /\ IS_DATA_BLOCK p = true
  /\ (forall y, is_free b' y <-> is_free b y /\ y <> p)
  /\ calm_off (is_free b) b b' /\ buffer_table b' !! p = Some id /\ buffer_table b' !! x = Some src
  /\ exists pg, frames b' !! id = Some pg /\ pg_changed pg = true /\ view b x = Some (content_of pg)
       /\ pg_trid pg = trid_of b' x.
Proof.
  intros Hok Halk Hx Hnf Hst Hrun. destruct (table_frame _ _ _ Hok Hx) as (Hs0 & spg & Hspg & Hview & _).
  unfold AllocateDataBlockAndCopyData in Hrun. rewrite (bind_done _ _ _ spg b) in Hrun by (by apply (locate_ok _ x)).
  unfold wu_bind at 1, wu_modify at 1 in Hrun.
  destruct (wu_bind _ _ (set_stake src b)) as [[q i] b3|] eqn:Hb; [|done]. injection Hrun as <- <- <-.
  apply wu_bind_Done in Hb as ([q' i'] & b1 & H1 & Hb).
  destruct (allocate_block_ok me (set_stake src b) q' i' b1 (set_stake_ok _ _ Hok) (set_stake_alloc _ _ Halk) H1) as (Hok1 & Halk1 & Hf & Hp0 & Hd & Hfr & Hc & Ht & (npg & Hnpg & _)).
  rewrite set_stake_free in Hf.
  rewrite (bind_done _ _ _ npg b1) in Hb by (by apply (locate_ok _ q')).
  assert (Hx1 : buffer_table b1 !! x = Some src) by (by apply (off_staked _ _ _ Hc)).
  destruct (table_frame _ _ _ Hok1 Hx1) as (_ & cpg & Hcpg & Hv1 & Ht1).
  assert (Ev : view b1 x = view b x) by (apply (off_view _ _ _ Hc); by rewrite set_stake_free).
  rewrite (bind_done _ _ _ cpg b1) in Hb by (unfold get_frame; by rewrite Hcpg).
  unfold wu_bind, put_frame, wu_modify, wu_ret in Hb. injection Hb as <- <- <-.
  set (pg := set_roffs i' (set_changed true cpg)). fold (poke i' pg b1).
  destruct (poke_ok b1 q' i' npg pg Hok1 Ht Hnpg) as (Hok2 & _); [done|].
  assert (Hoff := poke_off b1 q' i' npg pg Hok1 Ht Hnpg ltac:(done)).
  assert (Hnq : ~ is_free b1 q') by (rewrite Hfr; tauto).
  assert (Hfree2 := free_off _ _ _ Hoff eq_refl). assert (Hfree2' : forall y, is_free (poke i' pg b1) y <-> is_free b1 y) by (apply Hfree2; by intros y ->).
  assert (Hne : x <> q') by (intros ->; by apply Hnf).
  assert (Hsi : src <> i') by (intros ->; by apply Hne, (ok_inj _ b1 x q' i' Hok1)).
  split; [by apply set_stake_ok|]. split; [apply set_stake_alloc, (alloc_off _ _ _ Hoff eq_refl); [by intros y ->|done]|]. split; [done|]. split; [done|]. split; [done|].
  split; [intros y; rewrite set_stake_free, Hfree2', Hfr, set_stake_free; done|].
  split.
  { apply (restake_off _ src); [done|done|]. apply (off_mono (is_free (set_stake src b))); [intros y; apply set_stake_free|].
    apply (off_trans _ _ b1); [done|]. apply (off_mono (fun y => y = q')); [intros y ->; by rewrite set_stake_free|done]. }
  split; [done|]. split; [done|]. exists pg. cbn. rewrite lookup_insert_eq. split; [done|]. split; [done|].
  split; [by rewrite <- Ev, Hv1|]. unfold trid_of. cbn. rewrite Hx1, lookup_insert_ne, Hcpg by done. done.
Qed.

(** ** The return of an old version *)

(** [settle_old_version] on the buffers. *)
Definition settle_buffer (pers : bool) (x : XPTR) (id : Z) : wu (bm D A) unit :=
  if pers then
    do! target <- LookupFlushingDependency x;
    if negb (target =? 0) then UpdateFlushingDependency x 0
    else do! _ <- MarkBufferDirty id; FlushBuffer isPersSnapshotVersion id true
  else MarkBufferDirty id.

(** What holds before the block [y] of the version that returned is freed. *)
Record returned (pers : bool) (x y : XPTR) b b' : Prop := {
  rt_ok : ok_but y b';
  rt_view : view b' x = view b y;
  rt_trid : trid_of b' x = trid_of b y \/ trid_of b' x = -1;
  rt_off : calm_off (fun z => z = x \/ z = y) b b';
  rt_alloc : alloc b' = alloc b;
  rt_stake : buffer_on_stake b' = -1;
  rt_disk : is_Some (disk b' !! y);
  rt_synced : pers = true -> disk_view b' x = view b' x;
  rt_kept : forall z, deps b' !! x = Some z -> disk_view b' x = disk_view b x
}.

Lemma returned_calm pers b b1 b2 x y : calm b b1 -> returned pers x y b1 b2 -> returned pers x y b b2.
Proof.
  intros Hc [R1 R2 R3 R4 R5 R6 R7 R8 R9]. constructor; auto.
  - by rewrite R2, (calm_view _ _ _ Hc).
  - destruct R3 as [->|]; [|by right]. apply (off_trid _ _ _ (proj1 Hc)). tauto.
  - apply (off_trans _ _ b1); [by apply calm_off_calm|done].
  - rewrite R5. apply Hc.
  - intros z Hz. rewrite (R9 z Hz). destruct (off_deps _ _ _ R4 x z Hz) as [Hz1 _]. by apply (calm_deps _ _ _ _ Hc Hz1).
Qed.

Section Return.
Context (b : bm D A) (x y : XPTR) (id : Z) (pg : page D).
Context (Hok : bm_ok b) (Hne : x <> y) (Hst : buffer_on_stake b = -1) (Hv : is_Some (view b x))
  (Hy : buffer_table b !! y = Some id) (Hpg : frames b !! id = Some pg).
Abbreviation dirty := (poke id (set_changed true pg) (place x y id b)).

(** The page that returned is dirty. *)
Lemma returned_dirty : returned false x y b dirty /\ buffer_table dirty !! x = Some id /\ deps dirty = deps b.
Proof.
  rewrite <- place_poke.
  destruct (poke_calm b y id pg (set_changed true pg) Hok Hy Hpg) as [Hok1 Hc1]; [done|done|by left|].
  set (b1 := poke id (set_changed true pg) b) in *.
  assert (Hp1 : frames b1 !! id = Some (set_changed true pg)) by (unfold b1, poke; cbn; by rewrite lookup_insert_eq).
  destruct (place_but b1 x y id (set_changed true pg) Hok1 Hne Hy Hp1) as [Hbut Ht]; [by rewrite (calm_view _ _ _ Hc1)|done|].
  destruct (place_view b1 x y id Hok1 Hne Hy Hst) as (V & T & Hoff).
  destruct (place_same x y id b1) as (_ & Ed & Edp & Ea & Es).
  destruct (ok_table _ _ Hok _ _ Hy) as (_ & _ & _ & Hdy).
  split; [|by split; [|rewrite Edp]]. constructor; [done| | | |done|by rewrite Es|by rewrite Ed|done|].
  - by rewrite V, (calm_view _ _ _ Hc1).
  - rewrite T. destruct (off_trid _ _ _ (proj1 Hc1) y) as [->|]; auto.
  - apply (off_trans _ _ b1); [by apply calm_off_calm|done].
  - intros z _. unfold disk_view. by rewrite Ed.
Qed.

(** The block itself still has the contents on the disk: its dependency goes. *)
Lemma returned_undep : deps b !! x = Some y -> disk_view b x = view b y ->
  returned true x y b (set_deps (delete x (deps b)) (place x y id b)).
Proof.
  intros Hz Hdx. destruct (table_frame _ _ _ Hok Hy) as (Hid & pg' & Hpg' & Hvy & Hty). rewrite Hpg in Hpg'. injection Hpg' as <-.
  destruct (place_same x y id b) as (Ef & Ed & Edp & Ea & Es).
  destruct (place_but b x y id pg Hok Hne Hy Hpg Hv) as [Hbut Ht]; [intros _; by rewrite Hdx|].
  destruct (place_view b x y id Hok Hne Hy Hst) as (V & T & Hoff). destruct (ok_table _ _ Hok _ _ Hy) as (_ & _ & _ & Hdy).
  constructor; [|done|by left| |done|cbn; by rewrite Es|cbn; by rewrite Ed| |].
  - destruct Hbut as [B1 B2 B3 B4 B5 B6]. constructor; auto. intros w u. cbn. rewrite lookup_delete_Some. intros [_ E]. rewrite <- Edp in E. by apply (B6 w).
  - destruct Hoff as [C1 C2 C3 C4 C5 C6 C7 C8]. constructor; auto.
    + intros w u. cbn. rewrite lookup_delete_Some. intros [_ E]. rewrite <- Edp in E. exact (C3 w u E).
    + intros w u Hw Hu. cbn. destruct (decide (w = x)) as [->|Hwx]; [assert (u = y) by congruence; tauto|].
      rewrite lookup_delete_ne by done. rewrite Edp in C4. by apply (C4 w u).
  - intros _. change (disk_view (place x y id b) x = view (place x y id b) x). rewrite V, <- Hdx. unfold disk_view. by rewrite Ed.
  - intros z. cbn. by rewrite lookup_delete_eq.
Qed.

(** The page that returned is written at once. *)
Lemma returned_written e l n : deps b !! x = None -> returned true x y b (written id x (set_changed true pg) e (set_log l n dirty)).
Proof.
  intros Hz. destruct returned_dirty as (Hret & Htab & Hdeps). set (b2 := dirty) in *. destruct (ob_table _ _ (rt_ok _ _ _ _ _ Hret) _ _ Htab) as (Hph2 & _).
  assert (Hpg2 : frames b2 !! id = Some (set_changed true pg)) by (unfold b2, poke; cbn; by rewrite lookup_insert_eq).
  destruct Hret as [R1 R2 R3 R4 R5 R6 R7 R8 R9]. set (b3 := written _ _ _ _ _).
  assert (Hvw : forall z, view b3 z = view b2 z).
  { intros z. unfold b3, view, disk_view. cbn. destruct (buffer_table (place x y id b) !! z) as [k|] eqn:Ek.
    - destruct (decide (k = id)) as [->|]; [by rewrite !lookup_insert_eq|by rewrite !lookup_insert_ne].
    - rewrite lookup_insert_ne; [done|]. intros E. rewrite E in Htab. cbn in Htab. congruence. }
  assert (Htr : forall z, trid_of b3 z = trid_of b2 z).
  { intros z. unfold b3, trid_of. cbn. destruct (buffer_table (place x y id b) !! z) as [k|] eqn:Ek; [|done].
    destruct (decide (k = id)) as [->|]; [by rewrite !lookup_insert_eq|by rewrite !lookup_insert_ne]. }
  assert (Hdv : forall z, z <> x -> disk_view b3 z = disk_view b2 z) by (intros z Hz'; unfold disk_view; cbn; by rewrite lookup_insert_ne).
  constructor; [by apply written_but|by rewrite Hvw|by rewrite Htr| |done|done| | |].
  - apply (off_trans _ _ b2); [done|]. constructor; [intros; apply Hvw|left; apply Htr| |by left|left; apply Hdv; tauto|done|done|].
    + intros z w Hz'. split; [done|]. apply Hdv. intros ->. change (deps b2 !! x = Some w) in Hz'. rewrite Hdeps in Hz'. congruence.
    + intros z Hz'. cbn. destruct (decide (z = x)) as [->|]; [rewrite lookup_insert_eq; eauto|by rewrite lookup_insert_ne].
  - cbn. rewrite lookup_insert_ne by done. exact R7.
  - intros _. rewrite Hvw. unfold b3, disk_view, view. cbn. rewrite lookup_insert_eq. change (buffer_table b2 !! x = Some id) in Htab. cbn in Htab.
    rewrite Htab, lookup_insert_eq. done.
  - intros z Hz'. change (deps b2 !! x = Some z) in Hz'. rewrite Hdeps in Hz'. congruence.
Qed.
End Return.

Lemma return_ok pers b x y sw id b1 b2 b3 : bm_ok b -> x <> y -> buffer_on_stake b = -1 -> is_Some (view b x) ->
  (pers = true -> forall z, deps b !! x = Some z -> z = y /\ disk_view b x = view b y) ->
  put_block_to_buffer approve isPersSnapshotVersion (-1) y true b = Done (sw, id) b1 ->
  FixFlushXptr id y x b1 = Done tt b2 -> settle_buffer pers x id b2 = Done tt b3 ->
  returned pers x y b b3.
Proof.
  intros Hok Hne Hst Hv Hdep H1 H2 H3. destruct (put_ok _ _ _ _ _ _ _ _ Hok H1) as (Hok1 & Hc1 & Hy & _).
  apply (returned_calm _ _ b1 _ _ _ Hc1). assert (Hst1 := off_stake _ _ _ (proj1 Hc1)). rewrite Hst in Hst1.
  rewrite <- (calm_view _ _ x Hc1) in Hv.
  assert (Hdep1 : pers = true -> forall z, deps b1 !! x = Some z -> z = y /\ disk_view b1 x = view b1 y).
  { intros Hp z Hz. destruct (calm_deps _ _ _ _ Hc1 Hz) as [Hz0 E]. destruct (Hdep Hp z Hz0) as [-> E0]. by rewrite E, E0, (calm_view _ _ _ Hc1). }
  apply fix_place in H2; [subst b2|done..]. destruct (table_frame _ _ _ Hok1 Hy) as (Hid & pg & Hpg & _).
  destruct (place_same x y id b1) as (Ef & _ & Edp & _).
  assert (Hdirty : forall c, MarkBufferDirty id (place x y id b1) = Done tt c -> c = poke id (set_changed true pg) (place x y id b1)).
  { intros c. unfold MarkBufferDirty, wu_bind, LocateBlockHeader, get_frame, put_frame, wu_modify. destruct (Z.ltb_spec id 0); [lia|].
    rewrite Ef, Hpg. by intros [= <-]. }
  destruct pers; [|apply Hdirty in H3 as ->; by apply (returned_dirty b1 x y id pg)].
  unfold settle_buffer, wu_bind, LookupFlushingDependency in H3. rewrite Edp in H3. destruct (deps b1 !! x) as [z|] eqn:Hz; cbn [default] in H3.
  - destruct (Hdep1 eq_refl z eq_refl) as [-> Hdx]. destruct (Z.eqb_spec y 0) as [->|Hy0]; [by destruct (ok_deps _ _ Hok1 x 0 Hz)|].
    apply Z.eqb_neq in Hy0. unfold Datatypes.id in H3. rewrite Hy0 in H3. cbn [negb] in H3. unfold UpdateFlushingDependency, wu_modify in H3. cbn [Z.eqb] in H3. injection H3 as <-. rewrite Edp.
    by apply (returned_undep b1 x y id pg).
  - cbn [negb Z.eqb] in H3. destruct (MarkBufferDirty id (place x y id b1)) as [[] c|] eqn:Hm; [|done]. assert (c = poke id (set_changed true pg) (place x y id b1)) as -> by (by apply Hdirty).
    unfold FlushBuffer, wu_bind in H3. destruct (flush_buffer _ _ _ _) as [r c'|] eqn:Hf; [|done]. injection H3 as ->.
    destruct (returned_dirty b1 x y id pg Hok1 Hne Hst1 Hv Hy Hpg) as (Hret & Htab & Hdeps). destruct (ob_table _ _ (rt_ok _ _ _ _ _ Hret) _ _ Htab) as (Hph2 & _ & _ & Hdk2).
    eapply (flush_plain isPersSnapshotVersion _ x id (set_changed true pg)) in Hf as (e & l & n & ->); [|exact Htab|exact Hph2|cbn; by rewrite lookup_insert_eq|done|by rewrite Hdeps|exact Hdk2].
    by apply (returned_written b1 x y id pg).
Qed.
End Moves.
