(* ===== verification/FreeBlocks.v ===== *)
(** * Free blocks of the data file

    Model of src/kernel/sm/bufmgr/blk_mngmt.cpp: the stack of free blocks that
    lives in the free blocks themselves, the extension of the data file and the
    allocation of data blocks, over the buffers of Buffers.v.

    The state beside the buffers is the master block.  A node of the stack is
    the page of a free block: the fields of [free_blk_hdr] and an array of
    pointers that grows from the end of the page.  [Layout] reads the data of a
    page as such a node; [capacity] is PERS_STACK_NODE_CAPACITY, which depends
    on the size of the header of a page.

    Parameters: the size of a layer, chosen when a database is made; the answer
    of [approve] (Buffers.v); the largest size of a file the operating system
    allows; and what other parts answer: [isPersSnapshotVersion] for a page that
    is flushed, the timestamp [stamp] that [WuGetTimestamp] gives, and the
    timestamp [persTs] of the persistent snapshot.  These are functions of the
    state of the buffers: the list of snapshots may be in the middle of a change
    when a block is freed.  That the clock goes on with every timestamp is the
    call [TakeTimestamp] of WuReach.v. *)

From Stdlib Require Import ZArith List Lia Bool.
From stdpp Require Import base gmap list.
From S2P Require Import Prelude WuBase Buffers.
Local Open Scope sedna_scope.
Local Open Scope Z_scope.

Definition PAGE_SIZE : Z := 65536.

(** ** Nodes of the stack *)

(** [FB_slot k] is the pointer at [PAGE_SIZE - k * sizeof(xptr)]. *)
Inductive fb_field := FB_nblk | FB_num | FB_ts | FB_slot (k : Z).

Class Layout (D : Type) := {
  fb_load : D -> fb_field -> Z;
  fb_store : fb_field -> Z -> D -> D;
  fb_zero : D
}.

(** ** The master block *)

Record bm_masterblock := mk_mb {
  free_data_blocks : XPTR;
  free_tmp_blocks : XPTR;
  data_file_cur_size : Z;
  tmp_file_cur_size : Z;
  data_file_max_size : Z;
  tmp_file_max_size : Z;
  data_file_extending_portion : Z;
  tmp_file_extending_portion : Z
}.

Definition set_free_data_blocks p (m : bm_masterblock) : bm_masterblock :=
  mk_mb p (free_tmp_blocks m) (data_file_cur_size m) (tmp_file_cur_size m) (data_file_max_size m) (tmp_file_max_size m)
    (data_file_extending_portion m) (tmp_file_extending_portion m).
Definition set_data_file_cur_size n (m : bm_masterblock) : bm_masterblock :=
  mk_mb (free_data_blocks m) (free_tmp_blocks m) n (tmp_file_cur_size m) (data_file_max_size m) (tmp_file_max_size m)
    (data_file_extending_portion m) (tmp_file_extending_portion m).

Section FreeBlocks.
Context {D : Type} `{Layout D} (LAYER_ADDRESS_SPACE_SIZE capacity max_file : Z) (approve : Z -> XPTR -> bool)
  (isPersSnapshotVersion : bm D bm_masterblock -> VersionsHeader -> option bool)
  (stamp persTs : bm D bm_masterblock -> TIMESTAMP).
Abbreviation M := (wu (bm D bm_masterblock)).

Definition mb (b : bm D bm_masterblock) : bm_masterblock := alloc b.

(** ** Blocks and offsets *)

(** [calculate_offset_and_file_handler] with the check: the offset of a block in
    its file, the data file or the temporary one. *)
Definition calculate_offset (m : bm_masterblock) (p : XPTR) : option Z :=
  let layer := p / 2 ^ 32 in
  let offs := p mod 2 ^ 32 in
  if IS_DATA_BLOCK p then
    let dsk_offs := (layer - 1) * LAYER_ADDRESS_SPACE_SIZE + offs + PAGE_SIZE in
    if (PAGE_SIZE <=? dsk_offs) && (dsk_offs <=? data_file_cur_size m - PAGE_SIZE) then Some dsk_offs else None
  else
    let dsk_offs := (layer - TMP_LAYER_STARTS_WITH) * LAYER_ADDRESS_SPACE_SIZE + offs in
    if (0 <=? dsk_offs) && (dsk_offs <=? tmp_file_cur_size m - PAGE_SIZE) then Some dsk_offs else None.

Definition FixSpan (spanBeginOffs spanEndOffs : Z) : Z * Z :=
  (Z.quot (spanBeginOffs + PAGE_SIZE - 1) PAGE_SIZE * PAGE_SIZE, Z.quot spanEndOffs PAGE_SIZE * PAGE_SIZE).

(** The block at an offset of the file, as the number of its [xptr]. *)
Definition block_at (layerAdjustment offsAdjustment offset : Z) : XPTR :=
  u32 (layerAdjustment + Z.quot (offset + offsAdjustment) LAYER_ADDRESS_SPACE_SIZE) * 2 ^ 32
  + u32 (Z.rem (offset + offsAdjustment) LAYER_ADDRESS_SPACE_SIZE).

Inductive ConsumeType := CONSUME_NORMAL | CONSUME_REVERSE.

Definition ConsumeNextBlockInSpan (spanBeginOffs spanEndOffs layerAdjustment offsAdjustment : Z) (consumeType : ConsumeType)
  : XPTR * Z * Z :=
  if PAGE_SIZE <=? spanEndOffs - spanBeginOffs then
    match consumeType with
    | CONSUME_NORMAL =>
        (block_at layerAdjustment offsAdjustment spanBeginOffs, spanBeginOffs + PAGE_SIZE, spanEndOffs)
    | CONSUME_REVERSE =>
        (block_at layerAdjustment offsAdjustment (spanEndOffs - PAGE_SIZE), spanBeginOffs, spanEndOffs - PAGE_SIZE)
    end
  else (XNULL, spanBeginOffs, spanEndOffs).

(** ** The stack *)

(** A buffer for a block; the block that was swapped out is of no interest. *)
Definition put_block (p : XPTR) (read_block_from_disk : bool) : M Z := fun b =>
  (do! (_, id) <- put_block_to_buffer approve (isPersSnapshotVersion b) (-1) p read_block_from_disk; wu_ret id) b.

Definition store (id : Z) (f : fb_field) (v : Z) : M unit :=
  upd_frame id (fun pg => set_data (fb_store f v (pg_data pg)) pg).

(** [free_blk_hdr::init] *)
Definition free_blk_hdr_init (id : Z) : M unit :=
  do! _ <- store id FB_nblk XNULL;
  do! _ <- store id FB_num 0;
  do! b <- wu_get;
  store id FB_ts (stamp b).

(** The page goes to the log; it is not written before its record. *)
Definition llLogFreeBlocksInfo (phys_xptr : XPTR) (id : Z) : M unit :=
  do! block <- get_frame id;
  do! b <- wu_get;
  do! _ <- wu_modify (fun b => set_log (log b ++ [LL_FREE_BLOCKS phys_xptr block]) (durable b) b);
  upd_frame id (set_lsn (Z.of_nat (length (log b)))).

(** A node that changes is logged once after every checkpoint. *)
Definition log_node (hd : XPTR) (id : Z) (pers_ts : TIMESTAMP) : M unit :=
  do! blk <- get_frame id;
  if IS_DATA_BLOCK (pg_p blk) then
    do! _ <- (if fb_load (pg_data blk) FB_ts <? pers_ts then llLogFreeBlocksInfo hd id else wu_ret tt);
    do! b <- wu_get;
    store id FB_ts (stamp b)
  else wu_ret tt.

(** The block [p] becomes the first node; the next one is [next]. *)
Definition new_node (p next : XPTR) : M unit :=
  do! id <- put_block p false;
  do! blk <- get_frame id;
  do! _ <- (if IS_DATA_BLOCK (pg_p blk) then llLogFreeBlocksInfo p id else wu_ret tt);
  do! _ <- free_blk_hdr_init id;
  do! _ <- (if next =? XNULL then wu_ret tt else store id FB_nblk next);
  upd_frame id (set_changed true).

(** The result has [*hd] and what the function returns. *)
Definition push_to_persistent_free_blocks_stack (hd p : XPTR) (canStoreFreeBlocks : bool) : M (XPTR * Z) :=
  do! b <- wu_get;
  let pers_ts := persTs b in
  if hd =? XNULL then
    if negb canStoreFreeBlocks then wu_ret (hd, 1)
    else do! _ <- new_node p XNULL; wu_ret (p, 0)
  else
    do! id <- put_block hd true;
    do! blk <- get_frame id;
    let num := fb_load (pg_data blk) FB_num in
    if capacity <=? num then
      if negb canStoreFreeBlocks then wu_ret (hd, 1)
      else do! _ <- new_node p hd; wu_ret (p, 0)
    else
      do! _ <- log_node hd id pers_ts;
      do! _ <- store id FB_num (num + 1);
      do! _ <- store id (FB_slot (num + 1)) p;
      do! _ <- upd_frame id (set_changed true);
      wu_ret (hd, 0).

(** The result has [*hd] and [*p], or nothing when the stack is empty. *)
Definition pop_from_persistent_free_blocks_stack (hd : XPTR) : M (option (XPTR * XPTR)) :=
  if hd =? XNULL then wu_ret None
  else
    do! b <- wu_get;
    let pers_ts := persTs b in
    do! id <- put_block hd true;
    do! blk <- get_frame id;
    let num := fb_load (pg_data blk) FB_num in
    if num =? 0 then
      do! _ <- log_node hd id pers_ts;
      do! blk <- get_frame id;
      wu_ret (Some (fb_load (pg_data blk) FB_nblk, hd))
    else
      let p := fb_load (pg_data blk) (FB_slot num) in
      do! _ <- log_node hd id pers_ts;
      do! _ <- store id FB_num (num - 1);
      do! _ <- upd_frame id (set_changed true);
      wu_ret (Some (hd, p)).

(** With [examineHeadOnly]: the number of pointers in the first node. *)
Definition count_elems_of_head (hd : XPTR) : M Z :=
  if hd =? XNULL then wu_ret 0
  else
    do! id <- put_block hd true;
    do! blk <- get_frame id;
    wu_ret (fb_load (pg_data blk) FB_num).

(** ** The extension of the file *)

Section Span.
Context (layerAdjustment offsAdjustment : Z).

(** The blocks of the span, the last one first; [fuel] is their number. *)
Fixpoint push_blocks (fuel : nat) (hd : XPTR) (spanBeginOffs spanEndOffs stackSpanBeginOffs stackSpanEndOffs : Z)
  : M (XPTR * Z) :=
  match ConsumeNextBlockInSpan spanBeginOffs spanEndOffs layerAdjustment offsAdjustment CONSUME_REVERSE with
  | (p, spanBeginOffs, spanEndOffs) =>
      if p =? XNULL then wu_ret (hd, stackSpanBeginOffs)
      else
        match fuel with
        | O => wu_fail DIVERGES
        | S fuel =>
            do! (hd, res) <- push_to_persistent_free_blocks_stack hd p false;
            if res =? 0 then push_blocks fuel hd spanBeginOffs spanEndOffs stackSpanBeginOffs stackSpanEndOffs
            else
              match ConsumeNextBlockInSpan stackSpanBeginOffs stackSpanEndOffs layerAdjustment offsAdjustment CONSUME_NORMAL with
              | (stackP, stackSpanBeginOffs, stackSpanEndOffs) =>
                  if stackP =? XNULL then wu_fail WUERR_SEDNA_EXCEPTION
                  else
                    do! (hd, _) <- push_to_persistent_free_blocks_stack hd stackP true;
                    do! (hd, _) <- push_to_persistent_free_blocks_stack hd p false;
                    push_blocks fuel hd spanBeginOffs spanEndOffs stackSpanBeginOffs stackSpanEndOffs
              end
        end
  end.

(** The blocks of the stack's own span that are left. *)
Fixpoint push_rest (fuel : nat) (hd : XPTR) (stackSpanBeginOffs stackSpanEndOffs : Z) : M XPTR :=
  match ConsumeNextBlockInSpan stackSpanBeginOffs stackSpanEndOffs layerAdjustment offsAdjustment CONSUME_NORMAL with
  | (stackP, stackSpanBeginOffs, stackSpanEndOffs) =>
      if stackP =? XNULL then wu_ret hd
      else
        match fuel with
        | O => wu_fail DIVERGES
        | S fuel =>
            do! (hd, _) <- push_to_persistent_free_blocks_stack hd stackP true;
            push_rest fuel hd stackSpanBeginOffs stackSpanEndOffs
        end
  end.

Definition numStackBlocks (numFreeBlocks numFreeBlockSlots : Z) : Z :=
  if numFreeBlockSlots <? numFreeBlocks
  then Z.quot (numFreeBlocks - numFreeBlockSlots + capacity) (capacity + 1) else 0.

Definition add_file_span_to_pfb_stack (hd : XPTR) (spanBeginOffs spanEndOffs : Z) : M XPTR :=
  let '(spanBeginOffs, spanEndOffs) := FixSpan spanBeginOffs spanEndOffs in
  let numFreeBlocks := Z.quot (spanEndOffs - spanBeginOffs) PAGE_SIZE in
  if numFreeBlocks <=? 0 then wu_ret hd
  else
    do! numFreeBlockSlots <- (if hd =? XNULL then wu_ret 0
                              else do! n <- count_elems_of_head hd; wu_ret (capacity - n));
    let stackSpanEndOffs := spanBeginOffs + numStackBlocks numFreeBlocks numFreeBlockSlots * PAGE_SIZE in
    let fuel := Z.to_nat numFreeBlocks in
    do! (hd, stackSpanBeginOffs) <- push_blocks fuel hd stackSpanEndOffs spanEndOffs spanBeginOffs stackSpanEndOffs;
    push_rest fuel hd stackSpanBeginOffs stackSpanEndOffs.
End Span.

(** A part of the file that was never written is full of zeros. *)
Definition zero_page : page D :=
  mk_page 0 0 (mk_vh (repeat 0 VE_VERSIONS_COUNT) (repeat 0 VE_VERSIONS_COUNT)) 0 false 0 fb_zero.

(** The first block of the data file is the master block; layer 0 is reserved. *)
Definition data_block (offset : Z) : XPTR := block_at 1 (- PAGE_SIZE) offset.

Definition file_blocks (fileBegin fileEnd : Z) : list XPTR :=
  map (fun i => data_block (fileBegin + Z.of_nat i * PAGE_SIZE)) (seq 0 (Z.to_nat (Z.quot (fileEnd - fileBegin) PAGE_SIZE))).

(** [uSetEndOfFile] on the data file. *)
Definition uSetEndOfFile (fileSizeCurrent fileSizeNew : Z) : M unit := fun b =>
  if max_file <? fileSizeNew then Failed WUERR_SEDNA_EXCEPTION b
  else Done tt (set_disk (disk b ∪ list_to_map (map (fun x => (x, zero_page)) (file_blocks fileSizeCurrent fileSizeNew))) b).

(** The record is flushed at once, with the whole log. *)
Definition llLogDecrease (old_size : Z) : M unit :=
  wu_modify (fun b => set_log (log b ++ [LL_DECREASE old_size]) (Z.of_nat (S (length (log b)))) b).

Definition extend_data_file (extend_portion : Z) : M unit :=
  do! b <- wu_get;
  let fileSizeCurrent := data_file_cur_size (mb b) in
  let fileSizeNew := fileSizeCurrent + extend_portion * PAGE_SIZE in
  if (0 <? data_file_max_size (mb b)) && (data_file_max_size (mb b) * PAGE_SIZE <? fileSizeNew)
  then wu_fail WUERR_SEDNA_EXCEPTION
  else
    do! _ <- llLogDecrease fileSizeCurrent;
    do! _ <- uSetEndOfFile fileSizeCurrent fileSizeNew;
    do! _ <- wu_modify (fun b => set_alloc (set_data_file_cur_size fileSizeNew (mb b)) b);
    do! hd <- add_file_span_to_pfb_stack 1 (- PAGE_SIZE) (free_data_blocks (mb b)) fileSizeCurrent fileSizeNew;
    wu_modify (fun b => set_alloc (set_free_data_blocks hd (mb b)) b).

(** ** Allocation *)

(** [pop] on [mb->free_data_blocks] *)
Definition pop_data_block : M (option XPTR) :=
  do! b <- wu_get;
  do! r <- pop_from_persistent_free_blocks_stack (free_data_blocks (mb b));
  match r with
  | None => wu_ret None
  | Some (hd, p) =>
      do! _ <- wu_modify (fun b => set_alloc (set_free_data_blocks hd (mb b)) b);
      wu_ret (Some p)
  end.

Definition new_data_block_impl : M XPTR :=
  do! r <- pop_data_block;
  match r with
  | Some p => wu_ret p
  | None =>
      do! b <- wu_get;
      do! _ <- extend_data_file (data_file_extending_portion (mb b));
      do! r <- pop_data_block;
      match r with
      | Some p => wu_ret p
      | None => wu_fail WUERR_SEDNA_EXCEPTION
      end
  end.

(** [push_to_persistent_free_blocks_stack(&(mb->free_data_blocks), p)] *)
Definition push_data_block (p : XPTR) : M unit :=
  do! b <- wu_get;
  do! (hd, _) <- push_to_persistent_free_blocks_stack (free_data_blocks (mb b)) p true;
  wu_modify (fun b => set_alloc (set_free_data_blocks hd (mb b)) b).
End FreeBlocks.
