(* ===== verification/FreeStack.v ===== *)
(** * The stack of free blocks

    The stack of FreeBlocks.v against a list: a push and a pop change it as they
    should, through any evictions of buffers, and touch no block in use.  The
    extension of the file adds its blocks in an order in which they are fetched
    in the order of the file.  The stack is an instance of the class of
    allocators the version manager is proved over (BufOps.v).  With a buffer
    that can be swapped out nothing fails, and the nodes of an extension are
    enough for its blocks. *)

From Stdlib Require Import ZArith List Lia Bool.
From stdpp Require Import base gmap list sets.
From S2P Require Import Prelude WuBase Buffers BufInv BufOps FreeBlocks.
Local Open Scope sedna_scope.
Local Open Scope Z_scope.

(** ** Fields of a page *)

Definition fits (capacity : Z) (f : fb_field) : Prop := match f with FB_slot k => 1 <= k <= capacity | _ => True end.

Class LayoutOk (D : Type) (capacity : Z) `{Layout D} := {
  load_store_eq : forall (d : D) f v, fits capacity f -> fb_load (fb_store f v d) f = v;
  load_store_ne : forall (d : D) f g v, fits capacity f -> fits capacity g -> f <> g -> fb_load (fb_store f v d) g = fb_load d g
}.

(** ** Blocks and offsets *)

Section Offsets.
Context (LAYER max_file : Z) (HL : 0 < LAYER) (HLmax : LAYER < 2 ^ 32) (Hmax : max_file <= (TMP_LAYER_STARTS_WITH - 1) * LAYER + PAGE_SIZE).

Lemma data_block_eq off : PAGE_SIZE <= off < max_file ->
  data_block LAYER off = (1 + (off - PAGE_SIZE) / LAYER) * 2 ^ 32 + (off - PAGE_SIZE) mod LAYER
  /\ 0 <= (off - PAGE_SIZE) / LAYER < TMP_LAYER_STARTS_WITH - 1 /\ 0 <= (off - PAGE_SIZE) mod LAYER < LAYER.
Proof.
  intros Hoff. unfold data_block, block_at. replace (off + - PAGE_SIZE) with (off - PAGE_SIZE) by lia. set (a := off - PAGE_SIZE).
  assert (Ha : 0 <= a) by lia. rewrite Z.quot_div_nonneg, Z.rem_mod_nonneg by lia.
  assert (Hm := Z.mod_pos_bound a LAYER HL). assert (Hd : 0 <= a / LAYER < TMP_LAYER_STARTS_WITH - 1).
  { split; [by apply Z.div_pos|]. apply Z.div_lt_upper_bound; [done|]. lia. }
  split; [|done]. unfold u32, UINT32_MOD. change 4294967296 with (2 ^ 32). unfold TMP_LAYER_STARTS_WITH in *. rewrite !Z.mod_small by lia. done.
Qed.

Lemma data_block_parts off : PAGE_SIZE <= off < max_file ->
  data_block LAYER off / 2 ^ 32 = 1 + (off - PAGE_SIZE) / LAYER /\ data_block LAYER off mod 2 ^ 32 = (off - PAGE_SIZE) mod LAYER.
Proof.
  intros Hoff. destruct (data_block_eq off Hoff) as (-> & Hd & Hm).
  set (d := (off - PAGE_SIZE) / LAYER) in *. set (m := (off - PAGE_SIZE) mod LAYER) in *. rewrite (Z.add_comm _ m).
  split; [rewrite Z.div_add, Z.div_small by lia; lia|]. rewrite (Z.mod_add m (1 + d) (2 ^ 32)) by done. apply Z.mod_small. lia.
Qed.

Lemma data_block_data off : PAGE_SIZE <= off < max_file -> IS_DATA_BLOCK (data_block LAYER off) = true /\ data_block LAYER off <> 0.
Proof.
  intros Hoff. destruct (data_block_parts off Hoff) as [E _]. destruct (data_block_eq off Hoff) as (_ & Hd & _). unfold IS_DATA_BLOCK.
  split; [rewrite E; apply Z.ltb_lt; lia|]. intros E0. rewrite E0, Z.div_0_l in E by done. lia.
Qed.

(** The block at an offset is written to this offset. *)
Lemma offset_of_block m off : PAGE_SIZE <= off < max_file -> off + PAGE_SIZE <= data_file_cur_size m ->
  calculate_offset LAYER m (data_block LAYER off) = Some off.
Proof.
  intros Hoff Hcur. unfold calculate_offset. destruct (data_block_data off Hoff) as [-> _]. destruct (data_block_parts off Hoff) as [-> ->].
  assert (Hdm := Z.div_mod (off - PAGE_SIZE) LAYER ltac:(lia)).
  replace ((1 + (off - PAGE_SIZE) / LAYER - 1) * LAYER + (off - PAGE_SIZE) mod LAYER + PAGE_SIZE) with off by lia.
  destruct (Z.leb_spec PAGE_SIZE off); [|lia]. destruct (Z.leb_spec off (data_file_cur_size m - PAGE_SIZE)); [done|lia].
Qed.

Lemma data_block_inj off off' : PAGE_SIZE <= off < max_file -> PAGE_SIZE <= off' < max_file -> data_block LAYER off = data_block LAYER off' -> off = off'.
Proof.
  intros H1 H2 E. destruct (data_block_parts off H1) as [E1 E2]. destruct (data_block_parts off' H2) as [E3 E4]. rewrite E in E1, E2.
  assert (Hd1 := Z.div_mod (off - PAGE_SIZE) LAYER ltac:(lia)). assert (Hd2 := Z.div_mod (off' - PAGE_SIZE) LAYER ltac:(lia)).
  assert ((off - PAGE_SIZE) / LAYER = (off' - PAGE_SIZE) / LAYER) as K by lia. assert ((off - PAGE_SIZE) mod LAYER = (off' - PAGE_SIZE) mod LAYER) as K' by lia. rewrite K, K' in Hd1. lia.
Qed.
End Offsets.

(** ** Blocks in buffers *)

Section Put.
Context {D A : Type} (approve : Z -> XPTR -> bool) (isPersSnapshotVersion : VersionsHeader -> option bool).
Implicit Types b : bm D A.

Lemma put_read_ok sid p b sw id b' : bm_ok b -> put_block_to_buffer approve isPersSnapshotVersion sid p true b = Done (sw, id) b' ->
  bm_ok b' /\ calm b b' /\ buffer_table b' !! p = Some id /\ swapped b' = swapped b
  /\ forall x, x <> p -> buffer_table b !! x = None -> buffer_table b' !! x = None.
Proof.
  intros Hok Hr. destruct (put_ok _ _ _ _ _ _ _ _ Hok Hr) as (K1 & K2 & K3 & K4). do 4 (split; [done|]).
  intros x Hx Hn. unfold put_block_to_buffer in Hr. destruct (buffer_table b !! p) as [j|]; [by injection Hr as _ _ <-|].
  apply wu_bind_Done in Hr as ([sw2 j] & b1 & H1 & Hr). destruct (get_free_buffer_ok _ _ _ _ _ _ _ Hok H1) as (_ & _ & _ & Hnone & _). specialize (Hnone x Hn).
  apply wu_bind_Done in Hr as ([] & b2 & [= <-] & Hr). apply wu_bind_Done in Hr as ([] & b3 & [= <-] & Hr).
  apply wu_bind_Done in Hr as ([] & b4 & H4 & Hr). apply wu_bind_Done in Hr as ([] & b5 & [= <-] & Hr). injection Hr as _ _ <-.
  apply wu_bind_Done in H4 as ([] & b5 & H5 & H4). unfold read_block in H5. destruct (disk _ !! p); [|done]. injection H5 as <-.
  unfold upd_frame, wu_bind, get_frame in H4. destruct (frames _ !! j); [|done]. injection H4 as <-. cbn. by rewrite lookup_insert_ne.
Qed.

(** A block that is not read gets the page of a free buffer with a new header. *)
Lemma put_new_run sid p b sw id b' : bm_ok b -> buffer_table b !! p = None ->
  put_block_to_buffer approve isPersSnapshotVersion sid p false b = Done (sw, id) b' ->
  exists b1 hdr, bm_ok b1 /\ calm b b1 /\ detached b1 id /\ swapped b1 = swapped b
    /\ (forall x, buffer_table b !! x = None -> buffer_table b1 !! x = None)
    /\ b' = attach p id (set_roffs id (set_p p (init_hdr hdr))) b1.
Proof.
  intros Hok Hp Hr. unfold put_block_to_buffer in Hr. rewrite Hp in Hr. apply wu_bind_Done in Hr as ([sw2 j] & b1 & H1 & Hr).
  destruct (get_free_buffer_ok _ _ _ _ _ _ _ Hok H1) as (Hok1 & Hc1 & Hdet & Hnone & Hs). assert (Hdet' := Hdet). destruct Hdet' as (_ & [hdr Hhdr] & _).
  apply wu_bind_Done in Hr as ([] & b2 & [= <-] & Hr). apply wu_bind_Done in Hr as ([] & b3 & [= <-] & Hr). apply wu_bind_Done in Hr as ([] & b4 & H4 & Hr).
  unfold upd_frame, wu_bind, get_frame in H4. cbn [frames set_used set_table] in H4. rewrite Hhdr in H4. injection H4 as <-.
  apply wu_bind_Done in Hr as ([] & b5 & [= <-] & Hr). injection Hr as <- <- <-. by exists b1, hdr.
Qed.

(** The log does not matter for what is seen. *)
Lemma set_log_ok l n b : bm_ok b -> bm_ok (set_log l n b).
Proof. by intros [H1 H2 H3 H4 H5 H6]. Qed.

Lemma set_log_off P l n b : calm_off P b (set_log l n b).
Proof. constructor; auto. Qed.

(** The page [pg] in the buffer [id], and more records in the log. *)
Definition edited (id : Z) (pg : page D) b b' : Prop := exists l, b' = set_log l (durable b) (poke id pg b).

Lemma edited_refl id pg b : frames b !! id = Some pg -> edited id pg b b.
Proof. intros Hf. exists (log b). destruct b. unfold poke, set_log, set_frames. cbn in *. by rewrite insert_id. Qed.

Lemma edited_trans id pg1 pg2 b b1 b2 : edited id pg1 b b1 -> edited id pg2 b1 b2 -> edited id pg2 b b2.
Proof. intros [l1 ->] [l2 ->]. exists l2. unfold poke, set_log, set_frames. cbn. by rewrite insert_insert_eq. Qed.

Lemma edited_frame id pg b b' : edited id pg b b' -> frames b' !! id = Some pg.
Proof. intros [l ->]. cbn. by rewrite lookup_insert_eq. Qed.

Lemma edited_same id pg b b' : edited id pg b b' -> buffer_table b' = buffer_table b /\ alloc b' = alloc b /\ swapped b' = swapped b /\ disk b' = disk b.
Proof. by intros [l ->]. Qed.

(** An edit of a page in a buffer. *)
Lemma edited_ok p id pg0 pg b b' : bm_ok b -> buffer_table b !! p = Some id -> frames b !! id = Some pg0 -> pg_changed pg = true ->
  edited id pg b b' -> bm_ok b' /\ calm_off (fun x => x = p) b b' /\ view b' p = Some (content_of pg).
Proof.
  intros Hok Ht Hf Hch [l ->]. destruct (poke_ok b p id pg0 pg Hok Ht Hf) as (K1 & K2 & _); [by rewrite Hch|].
  assert (Hoff := poke_off b p id pg0 pg Hok Ht Hf ltac:(by rewrite Hch)).
  split; [by apply set_log_ok|]. split; [|done]. apply (off_trans _ _ (poke id pg b)); [done|apply set_log_off].
Qed.

(** The same of a page whose change is not marked. *)
Lemma edited_but p id pg0 pg b b' : bm_ok b -> buffer_table b !! p = Some id -> frames b !! id = Some pg0 ->
  edited id pg b b' -> ok_but p b' /\ calm_off (fun x => x = p) b b'.
Proof.
  intros Hok Ht Hf [l ->].
  destruct (but_poke p b id pg0 (set_changed true pg) (ok_but_ok p b Hok) Ht Hf eq_refl) as [[B1 B2 B3 B4 B5 B6] Hoff]. split.
  - constructor; [|  |done| |done|done].
    + intros x i Hx. destruct (B1 x i Hx) as (E1 & [q E2] & E3). split; [done|]. split; [|done]. cbn in *. destruct (decide (i = id)) as [->|]; [rewrite lookup_insert_eq; eauto|].
      rewrite lookup_insert_ne in * by done. eauto.
    + intros x i q Hxp Hx Hq Hch. assert (i <> id) by (intros ->; by apply Hxp, (ok_inj _ b x p id Hok)). cbn in *. rewrite lookup_insert_ne in Hq by done.
      apply (B2 x i q Hx); [|done]. cbn. by rewrite lookup_insert_ne.
    + intros i Hi. destruct (B4 i Hi) as (E1 & [q E2] & E3). split; [done|]. split; [|done]. cbn in *. destruct (decide (i = id)) as [->|]; [rewrite lookup_insert_eq; eauto|].
      rewrite lookup_insert_ne in * by done. eauto.
  - assert (Hinj : forall x, buffer_table b !! x = Some id -> x = p) by (intros x Hx; by apply (ok_inj _ b x p id Hok)).
    assert (Hoth : forall x, x <> p -> view (set_log l (durable b) (poke id pg b)) x = view b x /\ trid_of (set_log l (durable b) (poke id pg b)) x = trid_of b x).
    { intros x Hx. unfold view, trid_of, disk_view. cbn. destruct (buffer_table b !! x) as [i|] eqn:Ei; [|done].
      rewrite lookup_insert_ne; [done|]. intros ->. by apply Hx, Hinj. }
    constructor; [intros x Hx; by apply Hoth|intros x Hx; left; by apply Hoth|by intros x y ?|by left|by left|done|done|done].
Qed.
End Put.

(** ** Nodes *)

Section Stack.
Context {D : Type} (LAYER capacity max_file : Z) `{LayoutOk D capacity} (approve : Z -> XPTR -> bool)
  (isPersSnapshotVersion : bm D bm_masterblock -> VersionsHeader -> option bool) (stamp persTs : bm D bm_masterblock -> TIMESTAMP)
  (Hcap : 0 < capacity).
Implicit Types b : bm D bm_masterblock.

Lemma upd_run id f b pg : frames b !! id = Some pg -> exists b', upd_frame id f b = Done tt b' /\ edited id (f pg) b b'.
Proof.
  intros Hf. exists (poke id (f pg) b). split; [unfold upd_frame, wu_bind, get_frame; by rewrite Hf|]. exists (log b). by destruct b.
Qed.

Lemma log_info_run x id b pg : frames b !! id = Some pg -> exists b' n, llLogFreeBlocksInfo x id b = Done tt b' /\ edited id (set_lsn n pg) b b'.
Proof.
  intros Hf. unfold llLogFreeBlocksInfo. rewrite (bind_done _ _ _ pg b) by (unfold get_frame; by rewrite Hf). rewrite (bind_done _ _ _ b b) by done.
  unfold wu_bind at 1, wu_modify. set (b1 := set_log _ _ b). destruct (upd_run id (set_lsn (Z.of_nat (length (log b)))) b1 pg Hf) as (b' & E & [l ->]).
  exists (set_log l (durable b1) (poke id (set_lsn (Z.of_nat (length (log b))) pg) b1)), (Z.of_nat (length (log b))). split; [done|]. by exists l.
Qed.

(** What of a page stays when its timestamp and its place in the log change. *)
Definition same_page (pg pg' : page D) : Prop := pg_p pg' = pg_p pg /\ pg_vh pg' = pg_vh pg /\ pg_changed pg' = pg_changed pg
  /\ pg_trid pg' = pg_trid pg /\ forall f, fits capacity f -> f <> FB_ts -> fb_load (pg_data pg') f = fb_load (pg_data pg) f.

Lemma log_node_run hd id ts b pg : frames b !! id = Some pg ->
  exists b' pg', log_node stamp hd id ts b = Done tt b' /\ edited id pg' b b' /\ same_page pg pg'.
Proof.
  intros Hf. unfold log_node. rewrite (bind_done _ _ _ pg b) by (unfold get_frame; by rewrite Hf). destruct (IS_DATA_BLOCK (pg_p pg)); [|by exists b, pg; split; [|split; [by apply edited_refl|]]].
  assert (K : exists b1 pg1, (if fb_load (pg_data pg) FB_ts <? ts then llLogFreeBlocksInfo hd id else wu_ret tt) b = Done tt b1 /\ edited id pg1 b b1 /\ same_page pg pg1).
  { destruct (_ <? _); [|by exists b, pg; split; [|split; [by apply edited_refl|]]]. destruct (log_info_run hd id b pg Hf) as (b1 & n & E & Hed). by exists b1, (set_lsn n pg). }
  destruct K as (b1 & pg1 & E1 & Hed1 & K1 & K2 & K3 & K4 & K5). rewrite (bind_done _ _ _ _ _ E1), (bind_done _ _ _ b1 b1) by done.
  destruct (upd_run id (fun pg => set_data (fb_store FB_ts (stamp b1) (pg_data pg)) pg) b1 pg1 (edited_frame _ _ _ _ Hed1)) as (b2 & E2 & Hed2).
  eexists b2, _. split; [exact E2|]. split; [by apply (edited_trans _ _ _ _ _ _ Hed1 Hed2)|]. do 4 (split; [done|]). intros f Hfit Hne. cbn. rewrite load_store_ne by done. by apply K5.
Qed.

Lemma init_run id b pg : frames b !! id = Some pg -> exists b' pg', free_blk_hdr_init stamp id b = Done tt b' /\ edited id pg' b b'
  /\ pg_p pg' = pg_p pg /\ pg_vh pg' = pg_vh pg /\ pg_trid pg' = pg_trid pg /\ fb_load (pg_data pg') FB_nblk = 0 /\ fb_load (pg_data pg') FB_num = 0.
Proof.
  intros Hf. unfold free_blk_hdr_init. destruct (upd_run id (fun pg => set_data (fb_store FB_nblk XNULL (pg_data pg)) pg) b pg Hf) as (b1 & E1 & Hed1). rewrite (bind_done _ _ _ _ _ E1).
  destruct (upd_run id (fun pg => set_data (fb_store FB_num 0 (pg_data pg)) pg) b1 _ (edited_frame _ _ _ _ Hed1)) as (b2 & E2 & Hed2). rewrite (bind_done _ _ _ _ _ E2), (bind_done _ _ _ b2 b2) by done.
  destruct (upd_run id (fun pg => set_data (fb_store FB_ts (stamp b2) (pg_data pg)) pg) b2 _ (edited_frame _ _ _ _ Hed2)) as (b3 & E3 & Hed3).
  eexists b3, _. split; [exact E3|]. split; [by apply (edited_trans _ _ _ _ _ _ (edited_trans _ _ _ _ _ _ Hed1 Hed2) Hed3)|]. do 3 (split; [done|]). cbn.
  split; [rewrite !load_store_ne by done; by rewrite load_store_eq|]. rewrite load_store_ne by done. by rewrite load_store_eq.
Qed.

(** ** The list the stack stands for *)

Definition node_num (c : content D) : Z := fb_load (ct_data c) FB_num.
Definition node_next (c : content D) : XPTR := fb_load (ct_data c) FB_nblk.

(** The pointers in a node, the last one first. *)
Fixpoint slots_of (d : D) (n : nat) : list XPTR :=
  match n with
  | O => []
  | S m => fb_load d (FB_slot (Z.of_nat n)) :: slots_of d m
  end.

(** [chain b hd room l]: the blocks of [l] are fetched from the stack at [hd] in
    this order, and its first node has room for [room] more. *)
Inductive chain b : XPTR -> Z -> list XPTR -> Prop :=
| chain_nil : chain b 0 0 []
| chain_node hd c room l : hd <> 0 -> view b hd = Some c -> (0 <= node_num c <= capacity) /\ ct_p c = hd -> chain b (node_next c) room l ->
    chain b hd (capacity - node_num c) (slots_of (ct_data c) (Z.to_nat (node_num c)) ++ hd :: l).

Lemma slots_same d d' n : Z.of_nat n <= capacity -> (forall k, 1 <= k <= Z.of_nat n -> fb_load d' (FB_slot k) = fb_load d (FB_slot k)) -> slots_of d' n = slots_of d n.
Proof. induction n as [|n IH]; intros Hn Hk; [done|]. cbn [slots_of]. rewrite Hk by lia. f_equal. apply IH; [lia|]. intros k Hk'. apply Hk. lia. Qed.

Lemma chain_ext b b' hd room l : chain b hd room l -> (forall x, x ∈ l -> view b' x = view b x) -> chain b' hd room l.
Proof.
  induction 1 as [|hd c room l H0' Hv Hn Hc IH]; intros Hx; [constructor|]. apply (chain_node b' hd c room l); [done| |done|].
  - rewrite Hx; [done|]. apply elem_of_app. right. left.
  - apply IH. intros x Hl. apply Hx, elem_of_app. right. by right.
Qed.

Lemma chain_zero b room l : chain b 0 room l -> room = 0 /\ l = [].
Proof. inversion 1; by subst. Qed.

Lemma chain_head b hd room l : chain b hd room l -> hd <> 0 -> hd ∈ l.
Proof. inversion 1; [done|]. intros _. apply elem_of_app. right. left. Qed.

Lemma chain_room b hd room l : chain b hd room l -> 0 <= room <= capacity.
Proof. inversion 1; lia. Qed.

(** The page of a node has its address. *)
Lemma chain_name b hd room l : chain b hd room l -> hd <> 0 -> forall c, view b hd = Some c -> ct_p c = hd.
Proof. inversion 1 as [|h c' room0 l0 _ Hv [_ Hp] _]; [done|]. intros _ c. rewrite Hv. by intros [= <-]. Qed.

Lemma chain_unique b hd room l : chain b hd room l -> forall room' l', chain b hd room' l' -> l = l'.
Proof.
  induction 1 as [|hd c room l Hh Hv Hn Hch IH]; intros room' l' H'; [by apply chain_zero in H' as [_ ->]|].
  inversion H' as [|h c' room0 l0 _ Hv' _ Hch0]; subst; [done|]. assert (c' = c) as -> by congruence. by rewrite (IH _ _ Hch0).
Qed.

(** ** A new node *)

Lemma fill_node id p next b pg0 : frames b !! id = Some pg0 -> exists b' pg,
  (do! blk <- get_frame id;
   do! _ <- (if IS_DATA_BLOCK (pg_p blk) then llLogFreeBlocksInfo p id else wu_ret tt);
   do! _ <- free_blk_hdr_init stamp id;
   do! _ <- (if next =? XNULL then wu_ret tt else store id FB_nblk next);
   upd_frame id (set_changed true)) b = Done tt b'
  /\ edited id pg b b' /\ pg_p pg = pg_p pg0 /\ pg_changed pg = true /\ pg_vh pg = pg_vh pg0 /\ node_next (content_of pg) = next /\ node_num (content_of pg) = 0.
Proof.
  intros Hf. rewrite (bind_done _ _ _ pg0 b) by (unfold get_frame; by rewrite Hf).
  assert (K : exists b2 pg2, (if IS_DATA_BLOCK (pg_p pg0) then llLogFreeBlocksInfo p id else wu_ret tt) b = Done tt b2 /\ edited id pg2 b b2 /\ pg_vh pg2 = pg_vh pg0 /\ pg_p pg2 = pg_p pg0).
  { destruct (IS_DATA_BLOCK _); [destruct (log_info_run p id b pg0 Hf) as (b2 & n & E & Hed); by eexists _, _|]. exists b, pg0. split; [done|]. split; [by apply edited_refl|done]. }
  destruct K as (b2 & pg2 & E2 & Hed2 & Eh2 & Ep2). rewrite (bind_done _ _ _ _ _ E2).
  destruct (init_run id b2 pg2 (edited_frame _ _ _ _ Hed2)) as (b3 & pg3 & E3 & Hed3 & Ep3 & Eh3 & _ & En & Em). rewrite (bind_done _ _ _ _ _ E3).
  assert (K : exists b4 pg4, (if next =? XNULL then wu_ret tt else store id FB_nblk next) b3 = Done tt b4 /\ edited id pg4 b3 b4 /\ pg_p pg4 = pg_p pg3 /\ pg_vh pg4 = pg_vh pg3
    /\ fb_load (pg_data pg4) FB_nblk = next /\ fb_load (pg_data pg4) FB_num = 0).
  { destruct (Z.eqb_spec next XNULL) as [->|Hne]; [exists b3, pg3; split; [done|]; split; [by apply edited_refl, (edited_frame _ _ b2)|done]|].
    destruct (upd_run id (fun pg => set_data (fb_store FB_nblk next (pg_data pg)) pg) b3 pg3 (edited_frame _ _ _ _ Hed3)) as (b4 & E & Hed). eexists b4, _. split; [exact E|]. split; [exact Hed|].
    split; [done|]. split; [done|]. cbn. rewrite load_store_eq, load_store_ne by done. done. }
  destruct K as (b4 & pg4 & E4 & Hed4 & Ep4 & Eh4 & En4 & Em4). rewrite (bind_done _ _ _ _ _ E4).
  destruct (upd_run id (set_changed true) b4 pg4 (edited_frame _ _ _ _ Hed4)) as (b5 & E5 & Hed5). exists b5, (set_changed true pg4). split; [exact E5|].
  split; [apply (edited_trans _ _ _ _ _ _ (edited_trans _ _ _ _ _ _ (edited_trans _ _ _ _ _ _ Hed2 Hed3) Hed4) Hed5)|]. split; [cbn; congruence|]. split; [done|]. split; [cbn; congruence|done].
Qed.

Lemma new_node_ok p next b b' : bm_ok b -> buffer_table b !! p = None -> is_Some (disk b !! p) ->
  new_node approve isPersSnapshotVersion stamp p next b = Done tt b' ->
  bm_ok b' /\ calm_off (fun x => x = p) b b' /\ alloc b' = alloc b /\ swapped b' = swapped b
  /\ (forall x, x <> p -> buffer_table b !! x = None -> buffer_table b' !! x = None)
  /\ is_Some (buffer_table b' !! p)
  /\ exists c, view b' p = Some c /\ ct_p c = p /\ vh_xptr (ct_vh c) <> [] /\ node_next c = next /\ node_num c = 0.
Proof.
  intros Hok Hp Hd Hr. unfold new_node in Hr. apply wu_bind_Done in Hr as (id & b1 & H1 & Hr).
  unfold put_block in H1. apply wu_bind_Done in H1 as ([sw i] & b1' & H1 & [= -> ->]).
  destruct (put_new_run _ _ _ _ _ _ _ _ Hok Hp H1) as (b0 & hdr & Hok0 & Hc0 & Hdet & Hs0 & Hnone & ->).
  set (pg0 := set_roffs id (set_p p (init_hdr hdr))) in *. set (b1 := attach p id pg0 b0) in *.
  assert (Hf1 : frames b1 !! id = Some pg0) by (cbn; by rewrite lookup_insert_eq).
  destruct (fill_node id p next b1 pg0 Hf1) as (b5 & pg & E & Hed & Epp & Hch & Eh & En & Em). rewrite E in Hr. injection Hr as <-. destruct Hed as [l ->].
  assert (Eb : set_log l (durable b1) (poke id pg b1) = set_log l (durable b0) (attach p id pg b0)) by (unfold b1, poke, attach, set_log, set_frames; cbn; by rewrite insert_insert_eq).
  rewrite Eb. destruct (attach_ok b0 p id pg Hok0 Hdet (Hnone p Hp)) as (K1 & K2 & _ & K4); [by apply (off_dom _ _ _ (proj1 Hc0))|by rewrite Hch|].
  split; [by apply set_log_ok|]. split; [|split; [apply Hc0|split; [done|split; [|split]]]].
  - apply (off_trans _ _ b0); [by apply calm_off_calm|]. apply (off_trans _ _ (attach p id pg b0)); [done|apply set_log_off].
  - intros x Hx Hn. cbn. rewrite lookup_insert_ne by done. by apply Hnone.
  - cbn. rewrite lookup_insert_eq. by eexists.
  - exists (content_of pg). split; [exact K2|]. split; [exact Epp|]. split; [|done]. cbn. by rewrite Eh.
Qed.

(** ** Push and pop *)

(** A buffer that may be taken: it is not on stake, and it is free, or no
    transaction refuses the page in it. *)
Definition swappable b (id : Z) : Prop := id <> buffer_on_stake b
  /\ (id ∈ free_mem b \/ (id ∈ used_mem b /\ exists pg, frames b !! id = Some pg /\ approve (-1) (pg_p pg) = true)).

(** There is such a buffer, every page has a header, and no transaction refuses a
    block of [Q], which is not on stake. *)
Definition buffers_ready (Q : XPTR -> Prop) b : Prop :=
  (exists id, swappable b id) /\ (forall x c, view b x = Some c -> vh_xptr (ct_vh c) <> [])
  /\ (forall x, Q x -> approve (-1) x = true)
  /\ (buffer_on_stake b = -1 \/ exists x, ~ Q x /\ buffer_table b !! x = Some (buffer_on_stake b)).

(** What a function on the stack may change: the blocks of [P] and the buffers. *)
Record stack_step (P : XPTR -> Prop) b b' : Prop := {
  ss_ok : bm_ok b';
  ss_off : calm_off P b b';
  ss_same : alloc b' = alloc b /\ swapped b' = swapped b;
  ss_table : forall x, ~ P x -> buffer_table b !! x = None -> buffer_table b' !! x = None;
  ss_ready : forall Q, (forall x, P x -> Q x) -> buffers_ready Q b -> buffers_ready Q b'
}.

Lemma step_refl P b : bm_ok b -> stack_step P b b.
Proof. intros Hok. constructor; auto. apply off_refl. Qed.

Lemma step_trans P b1 b2 b3 : stack_step P b1 b2 -> stack_step P b2 b3 -> stack_step P b1 b3.
Proof.
  intros [A1 A2 [A3 A4] A5 A6] [B1 B2 [B3 B4] B5 B6]. constructor; [done|by apply (off_trans _ _ b2)|split; congruence|auto|auto].
Qed.

Lemma step_mono (P Q : XPTR -> Prop) b b' : (forall x, P x -> Q x) -> stack_step P b b' -> stack_step Q b b'.
Proof. intros HPQ [A1 A2 A3 A4 A5]. constructor; [done|by apply (off_mono P)|done| |auto]. intros x Hx. apply A4. auto. Qed.

(** A change at [p], which is in a buffer: it may be taken next. *)
Lemma ready_at p b b' Q : bm_ok b' -> calm_off (fun x => x = p) b b' -> is_Some (buffer_table b' !! p) -> (forall c, view b' p = Some c -> ct_p c = p) ->
  (forall c, (forall c, view b p = Some c -> vh_xptr (ct_vh c) <> []) -> view b' p = Some c -> vh_xptr (ct_vh c) <> []) ->
  (forall x, x = p -> Q x) -> buffers_ready Q b -> buffers_ready Q b'.
Proof.
  intros Hok Hc [id Ht] Hpp Hp HPQ (_ & Hh & HQ & Hstk). assert (Est := off_stake _ _ _ Hc).
  assert (Hstk' : buffer_on_stake b' = -1 \/ exists x, ~ Q x /\ buffer_table b' !! x = Some (buffer_on_stake b')).
  { rewrite Est. destruct Hstk as [|(x & Hx & Htx)]; [by left|right]. exists x. split; [done|by apply (off_staked _ _ _ Hc)]. }
  destruct (ok_table _ _ Hok _ _ Ht) as (_ & [pg Hpg] & Hu & _). assert (Epg : pg_p pg = p) by (apply (Hpp (content_of pg)); unfold view; by rewrite Ht, Hpg).
  split; [exists id; split; [|right; split; [done|]; exists pg; split; [done|rewrite Epg; by apply HQ, HPQ]]|split; [|done]].
  { destruct (ok_used _ _ Hok id Hu) as [Hid _]. destruct Hstk' as [->|(x & Hx & Htx)]; [lia|]. intros ->. apply Hx, HPQ. by apply (ok_inj _ b' x p (buffer_on_stake b') Hok). }
  intros x c Hv. destruct (decide (x = p)) as [->|Hne]; [by apply (Hp c); [intros c'; apply Hh|]|].
  rewrite (off_view _ _ _ Hc) in Hv by done. by apply (Hh x).
Qed.

(** The first node comes to a buffer. *)
Lemma put_head hd b id b' : bm_ok b -> (forall c, view b hd = Some c -> ct_p c = hd) -> put_block approve isPersSnapshotVersion hd true b = Done id b' ->
  stack_step (fun x => x = hd) b b' /\ calm b b' /\ buffer_table b' !! hd = Some id.
Proof.
  intros Hok Hpp Hr. unfold put_block in Hr. apply wu_bind_Done in Hr as ([sw i] & b1 & H1 & [= -> ->]).
  destruct (put_read_ok _ _ _ _ _ _ _ _ Hok H1) as (K1 & K2 & K3 & K4 & K5). split; [|done]. constructor; [done|by apply calm_off_calm|by split; [apply K2|]|done|].
  intros Q. apply (ready_at hd); [done|by apply calm_off_calm|by eexists|intros c; rewrite (calm_view _ _ _ K2); apply Hpp|]. intros c Hh. rewrite (calm_view _ _ _ K2). apply Hh.
Qed.

Lemma head_page b hd id c : bm_ok b -> buffer_table b !! hd = Some id -> view b hd = Some c -> exists pg, frames b !! id = Some pg /\ c = content_of pg.
Proof.
  intros Hok Ht Hv. destruct (ok_table _ _ Hok _ _ Ht) as (_ & [pg Hpg] & _). exists pg. split; [done|]. unfold view in Hv. rewrite Ht, Hpg in Hv. by injection Hv as <-.
Qed.

Abbreviation push_ := (push_to_persistent_free_blocks_stack capacity approve isPersSnapshotVersion stamp persTs).
Abbreviation pop_ := (pop_from_persistent_free_blocks_stack approve isPersSnapshotVersion stamp persTs).

(** A new node in front. *)
Lemma push_node hd p b b' room l : bm_ok b -> chain b hd room l -> p ∉ l -> p <> 0 -> buffer_table b !! p = None -> is_Some (disk b !! p) ->
  new_node approve isPersSnapshotVersion stamp p hd b = Done tt b' -> stack_step (fun x => x = p) b b' /\ chain b' p capacity (p :: l).
Proof.
  intros Hok Hch Hpl Hp0 Ht Hd Hr. destruct (new_node_ok p hd b b' Hok Ht Hd Hr) as (K1 & K2 & K3 & K4 & K5 & K6 & c & Hv & Epp & Hh & En & Em).
  split; [constructor; [done|done|done|done|intros Q; apply (ready_at p); [done|done|done|rewrite Hv; by intros c' [= <-]|]; intros c' _; rewrite Hv; by intros [= <-]]|].
  assert (Hch' : chain b' hd room l) by (apply (chain_ext b); [done|]; intros x Hx; apply (off_view _ _ _ K2); by intros ->).
  rewrite <- En in Hch'. assert (K := chain_node b' p c room l Hp0 Hv ltac:(split; [lia|done]) Hch'). rewrite Em in K. by replace (capacity - 0) with capacity in K by lia.
Qed.

(** One more pointer in the first node. *)
Lemma slot_run hd p id ts num b pg : frames b !! id = Some pg -> exists b' pg1,
  (do! _ <- log_node stamp hd id ts; do! _ <- store id FB_num (num + 1); do! _ <- store id (FB_slot (num + 1)) p; upd_frame id (set_changed true)) b = Done tt b'
  /\ same_page pg pg1 /\ edited id (set_changed true (set_data (fb_store (FB_slot (num + 1)) p (fb_store FB_num (num + 1) (pg_data pg1))) pg1)) b b'.
Proof.
  intros Hf. destruct (log_node_run hd id ts b pg Hf) as (b1 & pg1 & E1 & Hed1 & Hsame). rewrite (bind_done _ _ _ _ _ E1).
  destruct (upd_run id (fun pg => set_data (fb_store FB_num (num + 1) (pg_data pg)) pg) b1 pg1 (edited_frame _ _ _ _ Hed1)) as (b2 & E2 & Hed2). rewrite (bind_done _ _ _ _ _ E2).
  destruct (upd_run id (fun pg => set_data (fb_store (FB_slot (num + 1)) p (pg_data pg)) pg) b2 _ (edited_frame _ _ _ _ Hed2)) as (b3 & E3 & Hed3). rewrite (bind_done _ _ _ _ _ E3).
  destruct (upd_run id (set_changed true) b3 _ (edited_frame _ _ _ _ Hed3)) as (b4 & E4 & Hed4). exists b4, pg1. split; [exact E4|]. split; [exact Hsame|].
  exact (edited_trans _ _ _ _ _ _ (edited_trans _ _ _ _ _ _ (edited_trans _ _ _ _ _ _ Hed1 Hed2) Hed3) Hed4).
Qed.

Lemma push_slot hd p id ts pg b b' room l : bm_ok b -> chain b hd room l -> hd <> 0 -> NoDup l -> buffer_table b !! hd = Some id -> frames b !! id = Some pg ->
  let num := fb_load (pg_data pg) FB_num in num < capacity ->
  (do! _ <- log_node stamp hd id ts; do! _ <- store id FB_num (num + 1); do! _ <- store id (FB_slot (num + 1)) p; upd_frame id (set_changed true)) b = Done tt b' ->
  stack_step (fun x => x = hd) b b' /\ chain b' hd (room - 1) (p :: l).
Proof.
  intros Hok Hch Hh0 Hnd Ht Hf num Hlt Hr. destruct (slot_run hd p id ts num b pg Hf) as (b4 & pg1 & E & (S1 & S2 & S3 & S4 & S5) & Hed). rewrite E in Hr. injection Hr as <-.
  set (pg' := set_changed true _) in Hed. destruct (edited_ok hd id pg pg' b b4 Hok Ht Hf eq_refl Hed) as (K1 & K2 & K3). destruct (edited_same _ _ _ _ Hed) as (Et & Ea & Es & _).
  split.
  { constructor; [done|done|by split|by rewrite Et|]. intros Q. apply (ready_at hd); [done|done|rewrite Et; by eexists|rewrite K3; intros c [= <-]; cbn; rewrite S1; apply (chain_name b hd room l Hch Hh0 (content_of pg)); unfold view; by rewrite Ht, Hf|]. intros c Hh. rewrite K3. intros [= <-]. cbn. rewrite S2.
    apply (Hh (content_of pg)). unfold view. by rewrite Ht, Hf. }
  inversion Hch as [|h c room0 l0 Hh0' Hv Hn Hch0]; subst; [done|]. unfold view in Hv. rewrite Ht, Hf in Hv. injection Hv as <-.
  assert (En : node_num (content_of pg) = num) by done. rewrite En in *.
  assert (Em' : node_num (content_of pg') = num + 1) by (unfold node_num; cbn; rewrite load_store_ne by (cbn; lia || done); by rewrite load_store_eq).
  assert (Ex' : node_next (content_of pg') = node_next (content_of pg)) by (unfold node_next; cbn; rewrite !load_store_ne by (cbn; lia || done); by apply S5).
  apply NoDup_app in Hnd as (_ & _ & Hnd). apply NoDup_cons in Hnd as [Hhl _].
  assert (Hch' : chain b4 (node_next (content_of pg')) room0 l0).
  { rewrite Ex'. apply (chain_ext b); [done|]. intros x Hx. apply (off_view _ _ _ K2). intros ->. by apply Hhl. }
  assert (K := chain_node b4 hd (content_of pg') room0 l0 Hh0 K3 ltac:(split; [lia|cbn; rewrite S1; apply Hn]) Hch'). rewrite Em' in K.
  replace (Z.to_nat (num + 1)) with (S (Z.to_nat num)) in K by lia. cbn [slots_of] in K.
  replace (Z.of_nat (S (Z.to_nat num))) with (num + 1) in K by lia. replace (capacity - (num + 1)) with (capacity - num - 1) in K by lia.
  assert (Ep : fb_load (ct_data (content_of pg')) (FB_slot (num + 1)) = p) by (cbn; rewrite load_store_eq by (cbn; lia); done). rewrite Ep in K.
  rewrite (slots_same (ct_data (content_of pg))) in K; [exact K|lia|]. intros k Hk. cbn. rewrite !load_store_ne by (first [cbn; lia|done|intros [= Ek]; lia]). apply S5; [cbn; lia|done].
Qed.

Lemma push_stack hd p can b hd' r b' room l : bm_ok b -> chain b hd room l -> NoDup (p :: l) -> p <> 0 ->
  (can = true -> buffer_table b !! p = None /\ is_Some (disk b !! p)) -> push_ hd p can b = Done (hd', r) b' ->
  stack_step (fun x => x ∈ p :: l) b b' /\
  ((r = 1 /\ hd' = hd /\ can = false /\ room = 0 /\ chain b' hd room l)
   \/ (r = 0 /\ exists room', chain b' hd' room' (p :: l) /\ (if room =? 0 then can = true /\ room' = capacity else room' = room - 1))).
Proof.
  intros Hok Hch Hnd Hp0 Hcan Hr. apply NoDup_cons in Hnd as [Hpl Hnd]. unfold push_to_persistent_free_blocks_stack in Hr. rewrite (bind_done _ _ _ b b) in Hr by done.
  destruct (Z.eqb_spec hd XNULL) as [->|Hh0].
  - destruct (chain_zero b _ _ Hch) as [-> ->]. destruct can; cbn [negb] in Hr; [|injection Hr as <- <- <-; split; [by apply step_refl|by left]].
    apply wu_bind_Done in Hr as ([] & b1 & H1 & [= <- <- <-]). destruct (Hcan eq_refl) as [Ht Hd]. destruct (push_node XNULL p b b1 0 [] Hok Hch Hpl Hp0 Ht Hd H1) as [K1 K2].
    split; [apply (step_mono (fun x => x = p)); [by intros x ->; left|done]|]. right. split; [done|]. by exists capacity.
  - assert (Hin := chain_head b _ _ _ Hch Hh0). apply wu_bind_Done in Hr as (id & b1 & H1 & Hr). destruct (put_head hd b id b1 Hok (chain_name b hd room l Hch Hh0) H1) as (Hst & Hc1 & Ht1).
    assert (Hch1 : chain b1 hd room l) by (apply (chain_ext b); [done|intros x _; by apply calm_view]).
    assert (Hst1 : stack_step (fun x => x ∈ p :: l) b b1) by (apply (step_mono (fun x => x = hd)); [by intros x ->; right|done]).
    inversion Hch1 as [|h c room0 l0 _ Hv Hn Hch0]; subst; [done|]. destruct (head_page b1 hd id c (ss_ok _ _ _ Hst) Ht1 Hv) as (pg & Hf & ->).
    rewrite (bind_done _ _ _ pg b1) in Hr by (unfold get_frame; by rewrite Hf). change (fb_load (pg_data pg) FB_num) with (node_num (content_of pg)) in Hr.
    destruct (Z.leb_spec capacity (node_num (content_of pg))) as [Hle|Hlt].
    + replace (capacity - node_num (content_of pg)) with 0 in * by lia. destruct can; cbn [negb] in Hr; [|injection Hr as <- <- <-; split; [done|by left]].
      apply wu_bind_Done in Hr as ([] & b2 & H2 & [= <- <- <-]). destruct (Hcan eq_refl) as [Ht Hd].
      destruct (push_node hd p b1 b2 0 _ (ss_ok _ _ _ Hst) Hch1 Hpl Hp0) as [K1 K2]; [apply (ss_table _ _ _ Hst); [intros ->; by apply Hpl|done]|by apply (off_dom _ _ _ (ss_off _ _ _ Hst))|done|].
      split; [apply (step_trans _ _ b1); [done|]; apply (step_mono (fun x => x = p)); [by intros x ->; left|done]|]. right. split; [done|]. by exists capacity.
    + rewrite <- !wu_bind_assoc in Hr. apply wu_bind_Done in Hr as ([] & b2 & H2 & [= <- <- <-]). rewrite !wu_bind_assoc in H2.
      destruct (push_slot hd p id (persTs b) pg b1 b2 _ _ (ss_ok _ _ _ Hst) Hch1 Hh0 Hnd Ht1 Hf Hlt) as [K1 K2]; [exact H2|].
      split; [apply (step_trans _ _ b1); [done|]; apply (step_mono (fun x => x = hd)); [by intros x ->; right|done]|]. right. split; [done|].
      exists (capacity - node_num (content_of pg) - 1). split; [done|]. destruct (Z.eqb_spec (capacity - node_num (content_of pg)) 0); [lia|done].
Qed.

(** The first block of the list comes back. *)
Lemma pop_stack hd b r b' room l : bm_ok b -> chain b hd room l -> NoDup l -> pop_ hd b = Done r b' ->
  (l = [] /\ hd = 0 /\ r = None /\ b' = b)
  \/ (exists p l' hd' room', l = p :: l' /\ r = Some (hd', p) /\ chain b' hd' room' l' /\ ok_but p b' /\ calm_off (fun x => x ∈ l) b b'
      /\ alloc b' = alloc b /\ swapped b' = swapped b).
Proof.
  intros Hok Hch Hnd Hr. unfold pop_from_persistent_free_blocks_stack in Hr. destruct (Z.eqb_spec hd XNULL) as [->|Hh0].
  { destruct (chain_zero b _ _ Hch) as [_ ->]. injection Hr as <- <-. by left. }
  right. assert (Hin := chain_head b _ _ _ Hch Hh0). rewrite (bind_done _ _ _ b b) in Hr by done. apply wu_bind_Done in Hr as (id & b1 & H1 & Hr). destruct (put_head hd b id b1 Hok (chain_name b hd room l Hch Hh0) H1) as (Hst & Hc1 & Ht1).
  assert (Hch1 : chain b1 hd room l) by (apply (chain_ext b); [done|intros x _; by apply calm_view]).
  inversion Hch1 as [|h c room0 l0 _ Hv Hn Hch0]; subst; [done|]. destruct (head_page b1 hd id c (ss_ok _ _ _ Hst) Ht1 Hv) as (pg & Hf & ->).
  rewrite (bind_done _ _ _ pg b1) in Hr by (unfold get_frame; by rewrite Hf). change (fb_load (pg_data pg) FB_num) with (node_num (content_of pg)) in Hr. set (num := node_num (content_of pg)) in *.
  destruct (log_node_run hd id (persTs b) b1 pg Hf) as (b2 & pg2 & E2 & Hed2 & S1 & S2 & S3 & S4 & S5).
  destruct (ss_same _ _ _ Hst) as [Ea Es]. assert (Hnd' := Hnd). apply NoDup_app in Hnd' as (_ & _ & Hnd'). apply NoDup_cons in Hnd' as [Hhl _].
  assert (Hoff0 : forall b3, calm_off (fun x => x = hd) b1 b3 -> calm_off (fun x => x ∈ slots_of (ct_data (content_of pg)) (Z.to_nat num) ++ hd :: l0) b b3).
  { intros b3 Ho. apply (off_trans _ _ b1); [by apply calm_off_calm|]. apply (off_mono (fun x => x = hd)); [by intros x ->|done]. }
  destruct (Z.eqb_spec num 0) as [En|En].
  - rewrite (bind_done _ _ _ _ _ E2), (bind_done _ _ _ pg2 b2) in Hr by (unfold get_frame; by rewrite (edited_frame _ _ _ _ Hed2)). injection Hr as <- <-.
    destruct (edited_but hd id pg pg2 b1 b2 (ss_ok _ _ _ Hst) Ht1 Hf Hed2) as [K1 K2]. destruct (edited_same _ _ _ _ Hed2) as (_ & Ea2 & Es2 & _).
    exists hd, l0, (node_next (content_of pg)), room0. rewrite En. cbn [Z.to_nat slots_of app]. split; [done|]. split; [do 2 f_equal; by apply S5|].
    split; [apply (chain_ext b1); [done|]; intros x Hx; apply (off_view _ _ _ K2); by intros ->|]. split; [done|]. rewrite En in Hoff0. split; [by apply Hoff0|]. split; congruence.
  - assert (Hpos : exists n, Z.to_nat num = S n) by (exists (pred (Z.to_nat num)); lia). destruct Hpos as [n En']. rewrite (bind_done _ _ _ _ _ E2) in Hr.
    destruct (upd_run id (fun pg => set_data (fb_store FB_num (num - 1) (pg_data pg)) pg) b2 pg2 (edited_frame _ _ _ _ Hed2)) as (b3 & E3 & Hed3). rewrite (bind_done _ _ _ _ _ E3) in Hr.
    destruct (upd_run id (set_changed true) b3 _ (edited_frame _ _ _ _ Hed3)) as (b4 & E4 & Hed4). rewrite (bind_done _ _ _ _ _ E4) in Hr. injection Hr as <- <-.
    assert (Hed := edited_trans _ _ _ _ _ _ (edited_trans _ _ _ _ _ _ Hed2 Hed3) Hed4). set (pg' := set_changed true _) in Hed.
    destruct (edited_ok hd id pg pg' b1 b4 (ss_ok _ _ _ Hst) Ht1 Hf eq_refl Hed) as (K1 & K2 & K3). destruct (edited_same _ _ _ _ Hed) as (_ & Ea4 & Es4 & _).
    rewrite En' in *. cbn [slots_of app] in *. replace (Z.of_nat (S n)) with num in * by lia.
    exists (fb_load (pg_data pg) (FB_slot num)), (slots_of (ct_data (content_of pg)) n ++ hd :: l0), hd, (capacity - (num - 1)). split; [done|]. split; [done|].
    assert (Em' : node_num (content_of pg') = num - 1) by (unfold node_num; cbn; by rewrite load_store_eq).
    assert (Ex' : node_next (content_of pg') = node_next (content_of pg)) by (unfold node_next; cbn; rewrite load_store_ne by done; by apply S5).
    split; [|split; [by apply ok_but_ok|split; [by apply Hoff0|split; congruence]]].
    assert (Hch' : chain b4 (node_next (content_of pg')) room0 l0) by (rewrite Ex'; apply (chain_ext b1); [done|]; intros x Hx; apply (off_view _ _ _ K2); by intros ->).
    assert (K := chain_node b4 hd (content_of pg') room0 l0 Hh0 K3 ltac:(split; [lia|cbn; rewrite S1; apply Hn]) Hch'). rewrite Em' in K. replace (Z.to_nat (num - 1)) with n in K by lia.
    rewrite (slots_same (ct_data (content_of pg))) in K; [exact K|lia|]. intros k Hk. cbn. rewrite load_store_ne by (cbn; lia || done). apply S5; [cbn; lia|done].
Qed.

(** ** The blocks of a span *)

(** [n] blocks of the file from the offset [lo] on. *)
Definition blocks_from (lo : Z) (n : nat) : list XPTR := map (fun i => data_block LAYER (lo + Z.of_nat i * PAGE_SIZE)) (seq 0 n).

Lemma blocks_snoc lo n : blocks_from lo (S n) = blocks_from lo n ++ [data_block LAYER (lo + Z.of_nat n * PAGE_SIZE)].
Proof. unfold blocks_from. rewrite seq_S, map_app. done. Qed.

Lemma blocks_cons lo n : blocks_from lo (S n) = data_block LAYER lo :: blocks_from (lo + PAGE_SIZE) n.
Proof.
  unfold blocks_from. cbn [seq map]. f_equal; [f_equal; lia|]. rewrite <- seq_shift, map_map. apply map_ext. intros i. f_equal. lia.
Qed.

Lemma blocks_app n : forall lo m, blocks_from lo (n + m) = blocks_from lo n ++ blocks_from (lo + Z.of_nat n * PAGE_SIZE) m.
Proof.
  induction n as [|n IH]; intros lo m; [cbn; by rewrite Z.add_0_r|]. cbn [Nat.add]. rewrite !blocks_cons, IH. cbn [app]. do 3 f_equal. lia.
Qed.

Lemma blocks_in lo n x : x ∈ blocks_from lo n <-> exists i, (i < n)%nat /\ x = data_block LAYER (lo + Z.of_nat i * PAGE_SIZE).
Proof.
  unfold blocks_from. rewrite list_elem_of_fmap. split.
  - intros (i & -> & Hi). exists i. apply list_elem_of_In, in_seq in Hi. split; [lia|done].
  - intros (i & Hi & ->). exists i. split; [done|]. apply list_elem_of_In, in_seq. lia.
Qed.

(** Two lists put together, each in its order. *)
Inductive interleave {X : Type} : list X -> list X -> list X -> Prop :=
| il_nil : interleave [] [] []
| il_left x a s r : interleave a s r -> interleave (x :: a) s (x :: r)
| il_right y a s r : interleave a s r -> interleave a (y :: s) (y :: r).

Lemma interleave_app {X} (a s r a' s' r' : list X) : interleave a s r -> interleave a' s' r' -> interleave (a ++ a') (s ++ s') (r ++ r').
Proof. induction 1; intros Hi; cbn; [done|constructor; auto|constructor; auto]. Qed.

Lemma interleave_perm {X} (a s r : list X) : interleave a s r -> r ≡ₚ a ++ s.
Proof. induction 1 as [|x a s r _ IH|y a s r _ IH]; cbn; [done|by rewrite IH|rewrite IH; by apply Permutation_middle]. Qed.

(** ** The extension *)

Section Extend.
Context (HL : 0 < LAYER) (HLmax : LAYER < 2 ^ 32) (Hmax : max_file <= (TMP_LAYER_STARTS_WITH - 1) * LAYER + PAGE_SIZE).

Definition in_range (lo : Z) (n : nat) : Prop := PAGE_SIZE <= lo /\ lo + Z.of_nat n * PAGE_SIZE <= max_file.

Lemma range_block lo n x : in_range lo n -> x ∈ blocks_from lo n -> x <> 0 /\ IS_DATA_BLOCK x = true.
Proof.
  intros [H1 H2] (i & Hi & ->)%blocks_in. destruct (data_block_data LAYER max_file HL HLmax Hmax (lo + Z.of_nat i * PAGE_SIZE)) as [K1 K2]; [unfold PAGE_SIZE in *; lia|]. done.
Qed.

Lemma blocks_NoDup lo n : in_range lo n -> NoDup (blocks_from lo n).
Proof.
  intros [H1 H2]. apply NoDup_alt. intros i j x Hi Hj. unfold blocks_from in Hi, Hj. rewrite list_lookup_fmap in Hi, Hj.
  destruct (seq 0 n !! i) as [i'|] eqn:Ei; [|done]. destruct (seq 0 n !! j) as [j'|] eqn:Ej; [|done]. apply lookup_seq in Ei as [-> Hi']. apply lookup_seq in Ej as [-> Hj']. cbn in Hi, Hj. injection Hi as <-. injection Hj as Hj.
  apply (data_block_inj LAYER max_file HL HLmax Hmax) in Hj; unfold PAGE_SIZE in *; lia.
Qed.

Lemma consume_last lo n : in_range lo (S n) ->
  ConsumeNextBlockInSpan LAYER lo (lo + Z.of_nat (S n) * PAGE_SIZE) 1 (- PAGE_SIZE) CONSUME_REVERSE
  = (data_block LAYER (lo + Z.of_nat n * PAGE_SIZE), lo, lo + Z.of_nat n * PAGE_SIZE) /\ data_block LAYER (lo + Z.of_nat n * PAGE_SIZE) <> 0.
Proof.
  intros [H1 H2]. unfold ConsumeNextBlockInSpan. destruct (Z.leb_spec PAGE_SIZE (lo + Z.of_nat (S n) * PAGE_SIZE - lo)) as [_|Hl]; [|unfold PAGE_SIZE in *; lia].
  replace (lo + Z.of_nat (S n) * PAGE_SIZE - PAGE_SIZE) with (lo + Z.of_nat n * PAGE_SIZE) by lia. split; [done|].
  apply (data_block_data LAYER max_file HL HLmax Hmax). unfold PAGE_SIZE in *. lia.
Qed.

Lemma consume_first lo n : in_range lo (S n) ->
  ConsumeNextBlockInSpan LAYER lo (lo + Z.of_nat (S n) * PAGE_SIZE) 1 (- PAGE_SIZE) CONSUME_NORMAL
  = (data_block LAYER lo, lo + PAGE_SIZE, lo + PAGE_SIZE + Z.of_nat n * PAGE_SIZE) /\ data_block LAYER lo <> 0 /\ in_range (lo + PAGE_SIZE) n.
Proof.
  intros [H1 H2]. unfold ConsumeNextBlockInSpan. destruct (Z.leb_spec PAGE_SIZE (lo + Z.of_nat (S n) * PAGE_SIZE - lo)) as [_|Hl]; [|unfold PAGE_SIZE in *; lia].
  split; [f_equal; lia|]. split; [apply (data_block_data LAYER max_file HL HLmax Hmax); unfold PAGE_SIZE in *; lia|]. unfold in_range, PAGE_SIZE in *. lia.
Qed.

Lemma consume_none lo ct : ConsumeNextBlockInSpan LAYER lo (lo + Z.of_nat 0 * PAGE_SIZE) 1 (- PAGE_SIZE) ct = (XNULL, lo, lo + Z.of_nat 0 * PAGE_SIZE).
Proof. unfold ConsumeNextBlockInSpan. destruct (Z.leb_spec PAGE_SIZE (lo + Z.of_nat 0 * PAGE_SIZE - lo)); [unfold PAGE_SIZE in *; lia|done]. Qed.

(** The blocks of the stack's span are not in buffers yet. *)
Definition untouched b (l : list XPTR) : Prop := forall x, x ∈ l -> buffer_table b !! x = None /\ is_Some (disk b !! x).

Lemma untouched_step P b b' l : stack_step P b b' -> (forall x, x ∈ l -> ~ P x) -> untouched b l -> untouched b' l.
Proof. intros Hs Hl Hu x Hx. destruct (Hu x Hx) as [K1 K2]. split; [by apply (ss_table _ _ _ Hs); [apply Hl|]|by apply (off_dom _ _ _ (ss_off _ _ _ Hs))]. Qed.

Abbreviation push_blocks_ := (push_blocks LAYER capacity approve isPersSnapshotVersion stamp persTs 1 (- PAGE_SIZE)).
Abbreviation push_rest_ := (push_rest LAYER capacity approve isPersSnapshotVersion stamp persTs 1 (- PAGE_SIZE)).

Ltac elems := cbn; intros ?; repeat first [rewrite elem_of_app|rewrite elem_of_cons|rewrite elem_of_nil]; tauto.

(** [new]: the blocks of the span and [k] blocks for nodes are pushed. *)
Definition pushed (lo : Z) (n : nat) (slo : Z) (k : nat) (l : list XPTR) b (hd' : XPTR) b' : Prop :=
  stack_step (fun x => x ∈ blocks_from lo n ++ blocks_from slo k ++ l) b b'
  /\ exists room' new, chain b' hd' room' (new ++ l) /\ interleave (blocks_from lo n) (rev (blocks_from slo k)) new.

Lemma pushed_slot lo n slo k p l b b1 hd' b' : p = data_block LAYER (lo + Z.of_nat n * PAGE_SIZE) -> stack_step (fun x => x ∈ p :: l) b b1 ->
  pushed lo n slo k (p :: l) b1 hd' b' -> pushed lo (S n) slo k l b hd' b'.
Proof.
  intros -> Hs (Hs' & room & new & Hch & Hil). set (p := data_block LAYER _) in *. unfold pushed. rewrite blocks_snoc. fold p. split.
  - apply (step_trans _ _ b1); [eapply step_mono; [|exact Hs]|eapply step_mono; [|exact Hs']]; elems.
  - exists room, (new ++ [p]). split; [by rewrite <- app_assoc|]. rewrite <- (app_nil_r (rev _)). apply interleave_app; [done|]. repeat constructor.
Qed.

Lemma pushed_node lo n slo k p q l b b1 hd' b' : p = data_block LAYER (lo + Z.of_nat n * PAGE_SIZE) -> q = data_block LAYER slo ->
  stack_step (fun x => x ∈ p :: q :: l) b b1 -> pushed lo n (slo + PAGE_SIZE) k (p :: q :: l) b1 hd' b' -> pushed lo (S n) slo (S k) l b hd' b'.
Proof.
  intros -> -> Hs (Hs' & room & new & Hch & Hil). set (p := data_block LAYER (lo + _)) in *. unfold pushed. rewrite blocks_snoc, blocks_cons. fold p. set (q := data_block LAYER slo) in *. split.
  - apply (step_trans _ _ b1); [eapply step_mono; [|exact Hs]|eapply step_mono; [|exact Hs']]; elems.
  - exists room, (new ++ [p; q]). split; [by rewrite <- app_assoc|]. cbn [rev]. apply interleave_app; [done|]. repeat constructor.
Qed.

(** [n] blocks from [lo] on are to be pushed on [l], with [m] blocks from [slo]
    on for nodes. *)
Record span_ok b (hd : XPTR) (room : Z) (l : list XPTR) (lo : Z) (n : nat) (slo : Z) (m : nat) : Prop := {
  sp_lo : in_range lo n;
  sp_slo : in_range slo m;
  sp_ok : bm_ok b;
  sp_chain : chain b hd room l;
  sp_nodup : NoDup (blocks_from lo n ++ blocks_from slo m ++ l);
  sp_new : untouched b (blocks_from slo m)
}.

Abbreviation last_block lo n := (data_block LAYER (lo + Z.of_nat n * PAGE_SIZE)).

Lemma span_nodup b hd room l lo n slo m : span_ok b hd room l lo (S n) slo m -> let p := last_block lo n in
  NoDup (blocks_from lo n ++ blocks_from slo m ++ p :: l) /\ NoDup (p :: l) /\ (forall x, x ∈ blocks_from slo m -> x ∉ p :: l) /\ p <> 0 /\ in_range lo n.
Proof.
  intros [Hlo _ _ _ Hnd _] p. destruct (consume_last lo n Hlo) as [_ Hp0]. rewrite blocks_snoc in Hnd. fold p in Hnd.
  assert (Hnd1 : NoDup (blocks_from lo n ++ blocks_from slo m ++ p :: l)) by (rewrite <- Permutation_middle; by rewrite <- app_assoc in Hnd).
  split; [done|]. apply NoDup_app in Hnd1 as (_ & _ & Hnd1). apply NoDup_app in Hnd1 as (_ & Hdis & Hpl). split; [done|]. split; [done|]. split; [done|]. unfold in_range, PAGE_SIZE in *. lia.
Qed.

(** The last block goes to the first node, or this node is full. *)
Lemma span_slot b hd room l lo n slo m hd1 r b1 : span_ok b hd room l lo (S n) slo m -> let p := last_block lo n in push_ hd p false b = Done (hd1, r) b1 ->
  stack_step (fun x => x ∈ p :: l) b b1 /\
  ((r = 1 /\ hd1 = hd /\ room = 0 /\ span_ok b1 hd 0 l lo (S n) slo m) \/ (r = 0 /\ room <> 0 /\ span_ok b1 hd1 (room - 1) (p :: l) lo n slo m)).
Proof.
  intros Hsp p Hr. destruct (span_nodup _ _ _ _ _ _ _ _ Hsp) as (Hnd1 & Hpl & Hdis & Hp0 & Hlo'). destruct Hsp as [Hlo Hslo Hok Hch Hnd Hun].
  destruct (push_stack hd p false b hd1 r b1 room l Hok Hch Hpl Hp0 ltac:(done) Hr) as [Hst [(-> & -> & _ & -> & Hch1)|(-> & room1 & Hch1 & Er)]]; (split; [done|]); assert (Hun1 := untouched_step _ _ _ _ Hst Hdis Hun); assert (Hok1 := ss_ok _ _ _ Hst).
  - left. do 3 (split; [done|]). by constructor.
  - right. destruct (Z.eqb_spec room 0); [by destruct Er|]. subst room1. do 2 (split; [done|]). by constructor.
Qed.

(** A new node takes the last block. *)
Lemma span_node b hd l lo n slo m hd2 r2 b2 hd3 r3 b3 : span_ok b hd 0 l lo (S n) slo (S m) -> let p := last_block lo n in let q := data_block LAYER slo in
  push_ hd q true b = Done (hd2, r2) b2 -> push_ hd2 p false b2 = Done (hd3, r3) b3 ->
  stack_step (fun x => x ∈ p :: q :: l) b b3 /\ span_ok b3 hd3 (capacity - 1) (p :: q :: l) lo n (slo + PAGE_SIZE) m.
Proof.
  intros Hsp p q H2 H3. destruct (span_nodup _ _ _ _ _ _ _ _ Hsp) as (Hnd1 & _ & _ & Hp0 & Hlo'). destruct Hsp as [_ Hslo Hok Hch _ Hun]. destruct (consume_first slo m Hslo) as (_ & Hs0 & Hslo').
  fold p in Hnd1, Hp0. fold q in Hs0. rewrite blocks_cons in Hun, Hnd1. fold q in Hun, Hnd1.
  assert (Hnd2 : NoDup (blocks_from lo n ++ blocks_from (slo + PAGE_SIZE) m ++ p :: q :: l)) by (rewrite (Permutation_swap q p l), <- Permutation_middle; exact Hnd1).
  assert (Hnd3 := Hnd2). apply NoDup_app in Hnd3 as (_ & _ & Hnd3). apply NoDup_app in Hnd3 as (_ & Hdis & Hpql). assert (Hql : NoDup (q :: l)) by (by apply NoDup_cons in Hpql as [_ K]).
  destruct (push_stack hd q true b hd2 r2 b2 0 l Hok Hch Hql Hs0 ltac:(intros _; apply (Hun q); left) H2) as [Hst2 [(_ & _ & ? & _)|(-> & room2 & Hch2 & (_ & ->))]]; [done|].
  destruct (push_stack hd2 p false b2 hd3 r3 b3 capacity (q :: l) (ss_ok _ _ _ Hst2) Hch2 Hpql Hp0 ltac:(done) H3) as [Hst3 [(_ & _ & _ & ? & _)|(-> & room3 & Hch3 & Er)]]; [lia|].
  destruct (Z.eqb_spec capacity 0); [lia|]. subst room3.
  assert (Hst : stack_step (fun x => x ∈ p :: q :: l) b b3) by (apply (step_trans _ _ b2); [|exact Hst3]; eapply step_mono; [|exact Hst2]; elems).
  split; [done|]. split; [done|done|apply Hst3|done|done|]. apply (untouched_step _ _ _ _ Hst Hdis). intros x Hx. apply Hun. by right.
Qed.

Lemma push_blocks_ok n : forall fuel hd lo slo m b hd' slo' b' room l, span_ok b hd room l lo n slo m ->
  push_blocks_ fuel hd lo (lo + Z.of_nat n * PAGE_SIZE) slo (slo + Z.of_nat m * PAGE_SIZE) b = Done (hd', slo') b' ->
  exists k, (k <= m)%nat /\ slo' = slo + Z.of_nat k * PAGE_SIZE /\ pushed lo n slo k l b hd' b'.
Proof.
  induction n as [|n IH]; intros fuel hd lo slo m b hd' slo' b' room l Hsp Hr.
  { destruct fuel; cbn [push_blocks] in Hr; rewrite consume_none in Hr; injection Hr as <- <- <-; exists 0%nat; (split; [lia|]; split; [lia|]; split; [by apply step_refl, Hsp|]; exists room, []; split; [apply Hsp|constructor]). }
  destruct (consume_last lo n (sp_lo _ _ _ _ _ _ _ _ Hsp)) as [Econ Hp0]. remember (last_block lo n) as p eqn:Ep.
  destruct fuel as [|fuel]; cbn [push_blocks] in Hr; rewrite Econ in Hr; destruct (Z.eqb_spec p XNULL) as [|_]; try done.
  apply wu_bind_Done in Hr as ([hd1 r] & b1 & H1 & Hr). rewrite Ep in H1.
  destruct (span_slot b hd room l lo n slo m hd1 r b1 Hsp H1) as [Hst1 [(-> & -> & -> & Hsp1)|(-> & _ & Hsp1)]]; rewrite <- Ep in *; cbn [Z.eqb] in Hr.
  - (* the first node is full *)
    destruct m as [|m]; [rewrite consume_none in Hr; done|]. destruct (consume_first slo m (sp_slo _ _ _ _ _ _ _ _ Hsp)) as (Es & Hs0 & _). rewrite Es in Hr. destruct (Z.eqb_spec (data_block LAYER slo) XNULL) as [|_]; [done|].
    apply wu_bind_Done in Hr as ([hd2 r2] & b2 & H2 & Hr). apply wu_bind_Done in Hr as ([hd3 r3] & b3 & H3 & Hr). rewrite Ep in H3.
    rewrite Ep in Hst1. destruct (span_node b1 hd l lo n slo m hd2 r2 b2 hd3 r3 b3 Hsp1 H2 H3) as [Hst3 Hsp3]. destruct (IH _ _ _ _ _ _ _ _ _ _ _ Hsp3 Hr) as (k & Hk & -> & Hpu).
    exists (S k). split; [lia|]. split; [lia|]. apply (pushed_node lo n slo k _ _ l b b3 hd' b' eq_refl eq_refl); [|done].
    apply (step_trans _ _ b1); [eapply step_mono; [|exact Hst1]; elems|done].
  - destruct (IH _ _ _ _ _ _ _ _ _ _ _ Hsp1 Hr) as (k & Hk & -> & Hpu). exists k. split; [done|]. split; [done|]. by apply (pushed_slot lo n slo k p l b b1).
Qed.

(** The blocks for nodes that are left. *)
Record rest_ok b (hd : XPTR) (room : Z) (l : list XPTR) (slo : Z) (m : nat) : Prop := {
  rs_slo : in_range slo m;
  rs_ok : bm_ok b;
  rs_chain : chain b hd room l;
  rs_nodup : NoDup (blocks_from slo m ++ l);
  rs_new : untouched b (blocks_from slo m)
}.

Lemma rest_node b hd room l slo m hd1 r b1 : rest_ok b hd room l slo (S m) -> let q := data_block LAYER slo in push_ hd q true b = Done (hd1, r) b1 ->
  stack_step (fun x => x ∈ q :: l) b b1 /\ exists room1, rest_ok b1 hd1 room1 (q :: l) (slo + PAGE_SIZE) m.
Proof.
  intros [Hslo Hok Hch Hnd Hun] q H1. destruct (consume_first slo m Hslo) as (_ & Hs0 & Hslo'). rewrite blocks_cons in Hnd, Hun. fold q in Hnd, Hun, Hs0. cbn [app] in Hnd. rewrite Permutation_middle in Hnd.
  assert (Hnd' := Hnd). apply NoDup_app in Hnd' as (_ & Hdis & Hql).
  destruct (push_stack hd q true b hd1 r b1 room l Hok Hch Hql Hs0 ltac:(intros _; apply (Hun q); left) H1) as [Hst1 [(_ & _ & ? & _)|(-> & room1 & Hch1 & _)]]; [done|].
  split; [done|]. exists room1. split; [done|apply Hst1|done|done|]. apply (untouched_step _ _ _ _ Hst1 Hdis). intros x Hx. apply Hun. by right.
Qed.

Lemma push_rest_ok m : forall fuel hd slo b hd' b' room l, rest_ok b hd room l slo m ->
  push_rest_ fuel hd slo (slo + Z.of_nat m * PAGE_SIZE) b = Done hd' b' ->
  stack_step (fun x => x ∈ blocks_from slo m ++ l) b b' /\ exists room', chain b' hd' room' (rev (blocks_from slo m) ++ l).
Proof.
  induction m as [|m IH]; intros fuel hd slo b hd' b' room l Hrs Hr.
  { destruct fuel; cbn [push_rest] in Hr; rewrite consume_none in Hr; injection Hr as <- <-; (split; [by apply step_refl, Hrs|exists room; apply Hrs]). }
  destruct (consume_first slo m (rs_slo _ _ _ _ _ _ Hrs)) as (Es & Hs0 & _).
  destruct fuel as [|fuel]; cbn [push_rest] in Hr; rewrite Es in Hr; destruct (Z.eqb_spec (data_block LAYER slo) XNULL) as [|_]; try done.
  apply wu_bind_Done in Hr as ([hd1 r] & b1 & H1 & Hr). destruct (rest_node _ _ _ _ _ _ _ _ _ Hrs H1) as (Hst1 & room1 & Hrs1).
  destruct (IH _ _ _ _ _ _ _ _ Hrs1 Hr) as (Hst2 & room2 & Hch2). rewrite blocks_cons. split; [|exists room2; cbn [rev]; by rewrite <- app_assoc].
  apply (step_trans _ _ b1); [eapply step_mono; [|exact Hst1]|eapply step_mono; [|exact Hst2]]; elems.
Qed.

Lemma stack_blocks_bound n s : 0 < n -> 0 <= s -> 0 <= numStackBlocks capacity n s <= n.
Proof.
  intros Hn Hs. unfold numStackBlocks. destruct (Z.ltb_spec s n); [|lia]. rewrite Z.quot_div_nonneg by lia.
  split; [apply Z.div_pos; lia|]. apply Z.div_le_upper_bound; nia.
Qed.

(** The head of the stack is read to count its pointers. *)
Lemma count_head hd room l b n b' : bm_ok b -> chain b hd room l ->
  (if hd =? XNULL then wu_ret 0 else do! n <- count_elems_of_head approve isPersSnapshotVersion hd; wu_ret (capacity - n)) b = Done n b' ->
  n = room /\ calm b b' /\ stack_step (fun x => x ∈ l) b b'.
Proof.
  intros Hok Hch Hr. destruct (Z.eqb_spec hd XNULL) as [->|Hh0]; [injection Hr as <- <-; by destruct (chain_zero b _ _ Hch) as [-> _]; split; [|split; [apply calm_refl|apply step_refl]]|].
  apply wu_bind_Done in Hr as (k & b1 & H1 & [= <- <-]). unfold count_elems_of_head in H1. destruct (Z.eqb_spec hd XNULL) as [|_]; [done|]. apply wu_bind_Done in H1 as (id & b2 & H2 & H1).
  destruct (put_head hd b id b2 Hok (chain_name b hd room l Hch Hh0) H2) as (Hst & Hc & Ht). inversion Hch as [|h c room0 l0 _ Hv Hn Hch0]; subst; [done|]. rewrite <- (calm_view _ _ _ Hc) in Hv.
  destruct (head_page b2 hd id c (ss_ok _ _ _ Hst) Ht Hv) as (pg & Hf & ->). rewrite (bind_done _ _ _ pg b2) in H1 by (unfold get_frame; by rewrite Hf). injection H1 as <- <-.
  split; [done|]. split; [done|]. apply (step_mono (fun x => x = hd)); [|done]. intros x ->. apply elem_of_app. right. left.
Qed.

Abbreviation add_span_ := (add_file_span_to_pfb_stack LAYER capacity approve isPersSnapshotVersion stamp persTs 1 (- PAGE_SIZE)).

(** The blocks of the span in the order in which they will be fetched. *)
Definition fetched (lo : Z) (n k : nat) (new : list XPTR) : Prop :=
  (k <= n)%nat /\ interleave (blocks_from (lo + Z.of_nat k * PAGE_SIZE) (n - k)) (rev (blocks_from lo k)) new.

Lemma fetched_perm lo n k new : fetched lo n k new -> new ≡ₚ blocks_from lo n.
Proof.
  intros [Hk Hi]. rewrite (interleave_perm _ _ _ Hi), <- Permutation_rev, Permutation_app_comm, <- blocks_app. by replace (k + (n - k))%nat with n by lia.
Qed.

Lemma fix_span lo n : lo mod PAGE_SIZE = 0 -> 0 <= lo -> FixSpan lo (lo + Z.of_nat n * PAGE_SIZE) = (lo, lo + Z.of_nat n * PAGE_SIZE).
Proof.
  intros Hm Hlo. unfold FixSpan. assert (E := Z.div_mod lo PAGE_SIZE ltac:(done)). rewrite Hm in E. set (q := lo / PAGE_SIZE) in *. unfold PAGE_SIZE in *.
  rewrite !Z.quot_div_nonneg by lia. f_equal.
  - replace (lo + 65536 - 1) with (65535 + q * 65536) by lia. rewrite Z.div_add by lia. rewrite Z.div_small by lia. lia.
  - replace (lo + Z.of_nat n * 65536) with (0 + (q + Z.of_nat n) * 65536) by lia. rewrite Z.div_add by lia. rewrite Z.div_small by lia. lia.
Qed.

(** The span is split: [k] blocks for nodes, the others for pointers. *)
Lemma span_start hd lo n k b room l : (k <= n)%nat -> in_range lo n -> bm_ok b -> chain b hd room l -> NoDup (blocks_from lo n ++ l) -> untouched b (blocks_from lo n) ->
  span_ok b hd room l (lo + Z.of_nat k * PAGE_SIZE) (n - k) lo k.
Proof.
  intros Hkn Hlo Hok Hch Hnd Hun. replace n with (k + (n - k))%nat in Hnd, Hun by lia. rewrite blocks_app in Hnd, Hun.
  constructor; try done; try (unfold in_range, PAGE_SIZE in *; lia); [rewrite app_assoc, (Permutation_app_comm (blocks_from (lo + _) _)); exact Hnd|]. intros x Hx. apply Hun, elem_of_app. by left.
Qed.

(** After the pointers [k - j] blocks for nodes are left. *)
Lemma rest_start hd room l lo n slo k j b hd2 b2 : span_ok b hd room l lo n slo k -> (j <= k)%nat -> pushed lo n slo j l b hd2 b2 ->
  exists room2 new, interleave (blocks_from lo n) (rev (blocks_from slo j)) new /\ rest_ok b2 hd2 room2 (new ++ l) (slo + Z.of_nat j * PAGE_SIZE) (k - j).
Proof.
  intros [Hlo Hslo Hok Hch Hnd Hun] Hj (Hst & room2 & new & Hch2 & Hil). exists room2, new. split; [done|]. replace k with (j + (k - j))%nat in Hnd, Hun by lia. rewrite blocks_app in Hnd, Hun.
  set (A := blocks_from lo n) in *. set (J := blocks_from slo j) in *. set (B := blocks_from (slo + Z.of_nat j * PAGE_SIZE) (k - j)) in *.
  assert (Hp : A ++ (J ++ B) ++ l ≡ₚ B ++ A ++ J ++ l) by (rewrite !app_assoc; apply Permutation_app_tail; rewrite <- (app_assoc B); apply Permutation_app_comm).
  rewrite Hp in Hnd. assert (Hdis : forall x, x ∈ B -> ~ x ∈ A ++ J ++ l) by (by apply NoDup_app in Hnd as (_ & K & _)).
  constructor; [unfold in_range, PAGE_SIZE in *; lia|apply Hst|done|fold B; rewrite (interleave_perm _ _ _ Hil), <- (Permutation_rev J), <- app_assoc; exact Hnd|].
  apply (untouched_step _ _ _ _ Hst Hdis). intros x Hx. apply Hun, elem_of_app. by right.
Qed.

Lemma add_span_eq hd lo n b : lo mod PAGE_SIZE = 0 -> in_range lo n -> (0 < n)%nat -> add_span_ hd lo (lo + Z.of_nat n * PAGE_SIZE) b =
  (do! s <- (if hd =? XNULL then wu_ret 0 else do! n <- count_elems_of_head approve isPersSnapshotVersion hd; wu_ret (capacity - n));
   let k := numStackBlocks capacity (Z.of_nat n) s * PAGE_SIZE in
   do! (hd, slo) <- push_blocks_ n hd (lo + k) (lo + Z.of_nat n * PAGE_SIZE) lo (lo + k); push_rest_ n hd slo (lo + k)) b.
Proof.
  intros Hlm Hlo Hn. unfold add_file_span_to_pfb_stack. rewrite fix_span by (unfold in_range, PAGE_SIZE in *; lia || done).
  replace (lo + Z.of_nat n * PAGE_SIZE - lo) with (Z.of_nat n * PAGE_SIZE) by lia. rewrite Z.quot_mul by done. destruct (Z.leb_spec (Z.of_nat n) 0); [lia|]. by rewrite Nat2Z.id.
Qed.

Lemma add_span_ok hd lo n b hd' b' room l : lo mod PAGE_SIZE = 0 -> in_range lo n -> (0 < n)%nat -> bm_ok b -> chain b hd room l -> NoDup (blocks_from lo n ++ l) -> untouched b (blocks_from lo n) ->
  add_span_ hd lo (lo + Z.of_nat n * PAGE_SIZE) b = Done hd' b' ->
  stack_step (fun x => x ∈ blocks_from lo n ++ l) b b'
  /\ exists k room' new, chain b' hd' room' (new ++ l) /\ fetched lo n k new.
Proof.
  intros Hlm Hlo Hn Hok Hch Hnd Hun Hr. rewrite add_span_eq in Hr by done.
  apply wu_bind_Done in Hr as (s & b1 & H1 & Hr). destruct (count_head hd room l b s b1 Hok Hch H1) as (-> & Hc1 & Hst1). assert (Hroom := chain_room b _ _ _ Hch).
  destruct (stack_blocks_bound (Z.of_nat n) room ltac:(lia) ltac:(lia)) as [Hk0 Hk1]. remember (Z.to_nat (numStackBlocks capacity (Z.of_nat n) room)) as k eqn:Ek.
  replace (numStackBlocks capacity (Z.of_nat n) room) with (Z.of_nat k) in Hr by lia. assert (Hkn : (k <= n)%nat) by lia. cbv zeta in Hr.
  assert (Hsp : span_ok b1 hd room l (lo + Z.of_nat k * PAGE_SIZE) (n - k) lo k).
  { apply span_start; [done|done|apply Hst1|apply (chain_ext b); [done|intros x _; by apply calm_view]|done|]. apply (untouched_step _ _ _ _ Hst1); [by apply NoDup_app in Hnd as (_ & ? & _)|done]. }
  replace (lo + Z.of_nat n * PAGE_SIZE) with (lo + Z.of_nat k * PAGE_SIZE + Z.of_nat (n - k) * PAGE_SIZE) in Hr by (unfold PAGE_SIZE; lia).
  apply wu_bind_Done in Hr as ([hd2 slo] & b2 & H2 & Hr). destruct (push_blocks_ok _ _ _ _ _ _ _ _ _ _ _ _ Hsp H2) as (j & Hj & -> & Hpu).
  destruct (rest_start _ _ _ _ _ _ _ _ _ _ _ Hsp Hj Hpu) as (room2 & new & Hil & Hrs). destruct Hpu as [Hst2 _].
  replace (lo + Z.of_nat k * PAGE_SIZE) with (lo + Z.of_nat j * PAGE_SIZE + Z.of_nat (k - j) * PAGE_SIZE) in Hr by (unfold PAGE_SIZE; lia).
  destruct (push_rest_ok _ _ _ _ _ _ _ _ _ Hrs Hr) as (Hst3 & room3 & Hch3).
  assert (Ej : blocks_from lo k = blocks_from lo j ++ blocks_from (lo + Z.of_nat j * PAGE_SIZE) (k - j)) by (rewrite <- blocks_app; f_equal; lia).
  assert (En : blocks_from lo n = blocks_from lo k ++ blocks_from (lo + Z.of_nat k * PAGE_SIZE) (n - k)) by (rewrite <- blocks_app; f_equal; lia). split.
  - rewrite En, Ej. apply (step_trans _ _ b1); [eapply step_mono; [|exact Hst1]; cbn; intros x Hx; apply elem_of_app; by right|].
    apply (step_trans _ _ b2); [eapply step_mono; [|exact Hst2]|eapply step_mono; [|exact Hst3]]; cbn; intros x; rewrite ?(interleave_perm _ _ _ Hil), <- ?Permutation_rev, !elem_of_app; tauto.
  - exists k, room3, (rev (blocks_from (lo + Z.of_nat j * PAGE_SIZE) (k - j)) ++ new). rewrite <- app_assoc. split; [done|]. split; [done|]. rewrite Ej, rev_app_distr, <- (app_nil_l (blocks_from (lo + Z.of_nat k * _) _)).
    apply interleave_app; [|done]. clear. induction (rev _) as [|y s IH]; [constructor|by constructor].
Qed.

(** ** Free blocks *)

(** The nodes of the stack at [hd]. *)
Inductive node b (hd : XPTR) : XPTR -> Prop :=
| node_first : hd <> 0 -> node b hd hd
| node_more n c : node b hd n -> view b n = Some c -> node_next c <> 0 -> node b hd (node_next c).

Definition stacked b (hd x : XPTR) : Prop :=
  node b hd x \/ exists n c k, node b hd n /\ view b n = Some c /\ 1 <= k <= node_num c /\ x = fb_load (ct_data c) (FB_slot k).

(** Blocks behind the end of the file. *)
Definition beyond b (x : XPTR) : Prop := exists off, data_file_cur_size (mb b) <= off /\ off + PAGE_SIZE <= max_file /\ off mod PAGE_SIZE = 0 /\ x = data_block LAYER off.

Definition free_block b (x : XPTR) : Prop := beyond b x \/ stacked b (free_data_blocks (mb b)) x.

Definition stack_ok b (l : list XPTR) : Prop := NoDup l /\ forall x, x ∈ l -> x <> 0 /\ IS_DATA_BLOCK x = true /\ is_Some (disk b !! x) /\ ~ beyond b x.

Record master_ok b : Prop := {
  mo_size : PAGE_SIZE <= data_file_cur_size (mb b) <= max_file /\ data_file_cur_size (mb b) mod PAGE_SIZE = 0;
  mo_portion : 0 < data_file_extending_portion (mb b);
  mo_beyond : forall x, beyond b x -> view b x = None;
  mo_stack : exists room l, chain b (free_data_blocks (mb b)) room l /\ stack_ok b l
}.

Lemma node_stacked b hd n : node b hd n -> stacked b hd n.
Proof. by left. Qed.

Lemma slots_in d n x : x ∈ slots_of d n <-> exists k, 1 <= k <= Z.of_nat n /\ x = fb_load d (FB_slot k).
Proof.
  induction n as [|n IH]; cbn [slots_of].
  - split; [by intros ?%elem_of_nil|intros (k & Hk & _); lia].
  - rewrite elem_of_cons, IH. split.
    + intros [->|(k & Hk & ->)]; [exists (Z.of_nat (S n)); split; [lia|done]|exists k; split; [lia|done]].
    + intros (k & Hk & ->). destruct (decide (k = Z.of_nat (S n))) as [->|]; [by left|]. right. exists k. split; [lia|done].
Qed.

Lemma node_unfold b hd c n : hd <> 0 -> view b hd = Some c -> node b hd n <-> n = hd \/ node b (node_next c) n.
Proof.
  intros Hh Hv. split.
  - induction 1 as [_|n c' Hn IH Hv' Hne]; [by left|]. right. destruct IH as [->|IH]; [rewrite Hv in Hv'; injection Hv' as <-; by apply node_first|by apply (node_more b _ n)].
  - intros [->|Hn]; [by apply node_first|]. induction Hn as [Hne|n c' Hn IH Hv' Hne]; [apply (node_more b hd hd); [by apply node_first|done|done]|by apply (node_more b hd n)].
Qed.

Lemma node_zero b n : ~ node b 0 n.
Proof. induction 1; done. Qed.

Lemma stacked_chain b hd room l x : chain b hd room l -> stacked b hd x <-> x ∈ l.
Proof.
  intros Hch. revert x. induction Hch as [|hd c room l Hh Hv Hn Hch IH]; intros x.
  - split; [intros [Hx|(n & ? & ? & Hx & _)]; by apply node_zero in Hx|by intros ?%elem_of_nil].
  - rewrite elem_of_app, elem_of_cons, slots_in, <- IH, Z2Nat.id by lia. unfold stacked. split.
    + intros [Hx|(n & c' & k & Hx & Hv' & Hk & ->)].
      * apply (node_unfold b hd c x Hh Hv) in Hx as [->|Hx]; [by right; left|right; right; by left].
      * apply (node_unfold b hd c n Hh Hv) in Hx as [->|Hx]; [rewrite Hv in Hv'; injection Hv' as <-; left; eauto|right; right; right; eauto 10].
    + intros [(k & Hk & ->)|[->|[Hx|(n & c' & k & Hx & Hv' & Hk & ->)]]].
      * right. exists hd, c, k. split; [by apply node_first|done].
      * left. by apply node_first.
      * left. apply (node_unfold b hd c x Hh Hv). by right.
      * right. exists n, c', k. split; [apply (node_unfold b hd c n Hh Hv); by right|done].
Qed.

Lemma beyond_ext b b' : alloc b' = alloc b -> forall x, beyond b' x <-> beyond b x.
Proof. intros E x. unfold beyond, mb. by rewrite E. Qed.

Lemma node_ext b b' hd : (forall x, stacked b hd x -> view b' x = view b x) -> forall n, node b' hd n <-> node b hd n.
Proof.
  intros Hv n. split.
  - induction 1 as [Hne|n c _ IH Hc Hne]; [by apply node_first|]. apply (node_more b hd n); [done| |done]. by rewrite <- Hv by (by apply node_stacked).
  - induction 1 as [Hne|n c Hn IH Hc Hne]; [by apply node_first|]. apply (node_more b' hd n); [done| |done]. by rewrite Hv by (by apply node_stacked).
Qed.

Lemma stacked_ext b b' hd : (forall x, stacked b hd x -> view b' x = view b x) -> forall x, stacked b' hd x <-> stacked b hd x.
Proof.
  intros Hv x. unfold stacked. rewrite (node_ext b b' hd Hv). split; (intros [Hx|(n & c & k & Hn & Hc & K)]; [by left|right; exists n, c, k]).
  - apply (node_ext b b' hd Hv) in Hn. split; [done|]. rewrite <- Hv by (by apply node_stacked). done.
  - split; [by apply (node_ext b b' hd Hv)|]. rewrite Hv by (by apply node_stacked). done.
Qed.

Lemma free_block_ext b b' : alloc b' = alloc b -> (forall x, free_block b x -> view b' x = view b x) -> forall x, free_block b' x <-> free_block b x.
Proof.
  intros Ha Hv x. unfold free_block. rewrite (beyond_ext b b' Ha). unfold mb at 1. rewrite Ha. fold (mb b). rewrite (stacked_ext b b'); [done|]. intros y Hy. apply Hv. by right.
Qed.

Lemma master_ok_ext b b' : alloc b' = alloc b -> (forall x, free_block b x -> view b' x = view b x) -> (forall x, is_Some (disk b !! x) -> is_Some (disk b' !! x)) ->
  master_ok b -> master_ok b'.
Proof.
  intros Ha Hv Hd [M1 M2 M3 (room & l & Hch & Hnd & Hl)]. assert (Hb := beyond_ext b b' Ha). constructor; unfold mb; rewrite ?Ha; [done|done| |].
  - intros x Hx. apply Hb in Hx. rewrite Hv; [by apply M3|by left].
  - exists room, l. split; [apply (chain_ext b); [done|]; intros x Hx; apply Hv; right; by apply (stacked_chain b _ room l)|]. split; [done|].
    intros x Hx. destruct (Hl x Hx) as (K1 & K2 & K3 & K4). rewrite (Hb x). auto.
Qed.

(** The free blocks of a state with the stack [l]. *)
Lemma free_chain b room l x : chain b (free_data_blocks (mb b)) room l -> free_block b x <-> beyond b x \/ x ∈ l.
Proof. intros Hch. unfold free_block. by rewrite (stacked_chain b _ room l). Qed.

(** ** Pushing and popping data blocks *)

Lemma set_alloc_but m p b : ok_but p b -> ok_but p (set_alloc m b).
Proof. by intros [H1 H2 H3 H4 H5 H6]. Qed.

Lemma set_alloc_ok m b : bm_ok b -> bm_ok (set_alloc m b).
Proof. by intros [H1 H2 H3 H4 H5 H6]. Qed.

Lemma set_alloc_off P m b : calm_off P b (set_alloc m b).
Proof. constructor; auto. Qed.

Lemma set_alloc_chain m b hd room l : chain b hd room l -> chain (set_alloc m b) hd room l.
Proof. intros Hch. by apply (chain_ext b). Qed.

(** The blocks of [l] are fetched from the stack of the data file in this order. *)
Definition free_list b (l : list XPTR) : Prop := master_ok b /\ stack_ok b l /\ exists room, chain b (free_data_blocks (mb b)) room l.

(** A new list in the stack, by a change of free blocks only. *)
Lemma restack b b1 hd' room' l' (P : XPTR -> Prop) : master_ok b -> alloc b1 = alloc b -> calm_off P b b1 -> (forall x, P x -> ~ beyond b x) ->
  chain b1 hd' room' l' -> stack_ok b l' -> let b' := set_alloc (set_free_data_blocks hd' (mb b1)) b1 in
  free_list b' l' /\ (forall y, beyond b' y <-> beyond b y) /\ forall y, free_block b' y <-> beyond b y \/ y ∈ l'.
Proof.
  intros [M1 M2 M3 _] Ha Hc HP Hch [Hnd Hl] b'. assert (Hb : forall y, beyond b' y <-> beyond b y) by (intros y; unfold beyond, b', mb; cbn; by rewrite Ha).
  assert (Hch' : chain b' (free_data_blocks (mb b')) room' l') by exact (set_alloc_chain _ b1 hd' room' l' Hch). split; [|split; [done|intros y; by rewrite (free_chain b' room' l' y Hch'), Hb]].
  assert (Hso : stack_ok b' l') by (split; [done|]; intros x Hx; destruct (Hl x Hx) as (K1 & K2 & K3 & K4); split; [done|]; split; [done|]; split; [by apply (off_dom _ _ _ Hc)|]; by rewrite (Hb x)).
  split; [|split; [done|by exists room']]. constructor; [unfold b', mb; cbn; by rewrite Ha|unfold b', mb; cbn; by rewrite Ha| |by exists room', l'].
  intros x Hx. assert (Hx' := proj1 (Hb x) Hx). change (view b1 x = None). rewrite (off_view _ _ _ Hc); [by apply M3|]. intros Hp. by apply (HP x).
Qed.

Abbreviation push_data_ := (push_data_block capacity approve isPersSnapshotVersion stamp persTs).

Lemma push_data_list b x b' l : bm_ok b -> free_list b l -> ~ free_block b x -> x <> 0 -> IS_DATA_BLOCK x = true -> buffer_table b !! x = None -> is_Some (disk b !! x) ->
  push_data_ x b = Done tt b' ->
  bm_ok b' /\ free_list b' (x :: l) /\ (forall y, free_block b' y <-> free_block b y \/ y = x) /\ calm_off (fun y => y ∈ x :: l) b b' /\ swapped b' = swapped b.
Proof.
  intros Hok (Hm & (Hnd & Hl) & room & Hch) Hnf Hx0 Hdx Ht Hd Hr. unfold push_data_block in Hr. rewrite (bind_done _ _ _ b b) in Hr by done. apply wu_bind_Done in Hr as ([hd' r] & b1 & H1 & [= <-]).
  assert (Hfr := fun y => free_chain b room l y Hch). rewrite Hfr in Hnf. assert (Hxl : NoDup (x :: l)) by (constructor; [tauto|done]).
  destruct (push_stack _ x true b hd' r b1 room l Hok Hch Hxl Hx0 ltac:(done) H1) as [Hst [(_ & _ & ? & _)|(_ & room' & Hch' & _)]]; [done|].
  destruct (restack b b1 hd' room' (x :: l) (fun y => y ∈ x :: l) Hm (proj1 (ss_same _ _ _ Hst)) (ss_off _ _ _ Hst)) as (K1 & K2 & K3); [|done| |].
  { intros y [->|Hy]%elem_of_cons Hby; [tauto|by apply (Hl y)]. }
  { split; [done|]. intros y [->|Hy]%elem_of_cons; [split; [done|split; [done|split; [done|tauto]]]|by apply Hl]. }
  split; [by apply set_alloc_ok, (ss_ok _ _ _ Hst)|]. split; [done|]. split; [intros y; rewrite K3, Hfr, elem_of_cons; tauto|]. split; [|apply (ss_same _ _ _ Hst)].
  apply (off_trans _ _ b1); [exact (ss_off _ _ _ Hst)|apply set_alloc_off].
Qed.

Lemma push_data_ok b x b' : bm_ok b -> master_ok b -> ~ free_block b x -> x <> 0 -> IS_DATA_BLOCK x = true -> buffer_table b !! x = None -> is_Some (disk b !! x) ->
  push_data_ x b = Done tt b' ->
  bm_ok b' /\ master_ok b' /\ (forall y, free_block b' y <-> free_block b y \/ y = x) /\ calm_off (fun y => free_block b y \/ y = x) b b' /\ swapped b' = swapped b.
Proof.
  intros Hok Hm Hnf Hx0 Hdx Ht Hd Hr. destruct (mo_stack _ Hm) as (room & l & Hch & Hso). destruct (push_data_list b x b' l) as (K1 & [K2 _] & K3 & K4 & K5); [done|by split; [|split; [|exists room]]|done..|].
  do 3 (split; [done|]). split; [|done]. eapply off_mono; [|exact K4]. cbn. intros y. rewrite (free_chain b room l y Hch), elem_of_cons. tauto.
Qed.

Abbreviation pop_data_ := (pop_data_block approve isPersSnapshotVersion stamp persTs).

Lemma pop_data_ok b r b' room l : bm_ok b -> master_ok b -> chain b (free_data_blocks (mb b)) room l -> stack_ok b l -> pop_data_ b = Done r b' ->
  (r = None /\ l = [] /\ free_data_blocks (mb b) = 0 /\ b' = b)
  \/ exists x l', r = Some x /\ l = x :: l' /\ ok_but x b' /\ free_list b' l' /\ (forall y, free_block b' y <-> beyond b y \/ y ∈ l') /\ calm_off (fun y => y ∈ l) b b' /\ swapped b' = swapped b
    /\ data_file_cur_size (mb b') = data_file_cur_size (mb b).
Proof.
  intros Hok Hm Hch [Hnd Hl] Hr. unfold pop_data_block in Hr. rewrite (bind_done _ _ _ b b) in Hr by done. apply wu_bind_Done in Hr as (r1 & b1 & H1 & Hr).
  destruct (pop_stack _ b r1 b1 room l Hok Hch Hnd H1) as [(-> & E & -> & ->)|(x & l' & hd' & room' & -> & -> & Hch' & Hbut & Hc & Ha & Hs)].
  - injection Hr as <- <-. by left.
  - right. apply wu_bind_Done in Hr as ([] & b2 & [= <-] & [= <- <-]). exists x, l'. split; [done|]. split; [done|].
    destruct (restack b b1 hd' room' l' (fun y => y ∈ x :: l') Hm Ha Hc) as (K1 & K2 & K3); [intros y Hy; by apply (Hl y)|done|split; [by apply NoDup_cons in Hnd as [_ ?]|intros y Hy; apply Hl; by right]|].
    split; [by apply set_alloc_but|]. split; [done|]. split; [done|]. split; [|split; [done|unfold mb; cbn; by rewrite Ha]]. apply (off_trans _ _ b1); [done|apply set_alloc_off].
Qed.

(** A pop that fetches [x]. *)
Lemma popped_ok b x b' l' room l : bm_ok b -> master_ok b -> chain b (free_data_blocks (mb b)) room l -> stack_ok b l -> l = x :: l' ->
  ok_but x b' -> free_list b' l' -> (forall y, free_block b' y <-> beyond b y \/ y ∈ l') -> calm_off (fun y => y ∈ l) b b' -> swapped b' = swapped b ->
  ok_but x b' /\ master_ok b' /\ free_block b x /\ x <> 0 /\ IS_DATA_BLOCK x = true /\ is_Some (disk b' !! x)
  /\ (forall y, free_block b' y <-> free_block b y /\ y <> x) /\ calm_off (free_block b) b b' /\ swapped b' = swapped b.
Proof.
  intros Hok Hm Hch [Hnd Hl] -> Hbut [Hm' _] Hf Hc Hs. assert (Hfr := fun y => free_chain b room _ y Hch). destruct (Hl x) as (K1 & K2 & K3 & K4); [left|]. apply NoDup_cons in Hnd as [Hxl _].
  split; [done|]. split; [done|]. split; [rewrite Hfr; right; left|]. split; [done|]. split; [done|]. split; [by apply (off_dom _ _ _ Hc)|]. split; [|split; [|done]].
  - intros y. rewrite Hf, Hfr, elem_of_cons. split; [intros [Hy|Hy]; (split; [tauto|]); intros ->; done|]. intros [[|[->|]] Hne]; tauto.
  - eapply off_mono; [|exact Hc]. cbn. intros y Hy. rewrite Hfr. by right.
Qed.

(** ** A longer file *)

Abbreviation zeros n lo := (list_to_map (map (fun x => (x, zero_page)) (blocks_from lo n)) : gmap XPTR (page D)).

Lemma zeros_in n lo x : x ∈ blocks_from lo n -> is_Some (zeros n lo !! x).
Proof.
  intros Hx. apply elem_of_dom. rewrite dom_list_to_map_L, map_map. cbn. rewrite map_id. by apply elem_of_list_to_set.
Qed.

Lemma zeros_out n lo x : x ∉ blocks_from lo n -> zeros n lo !! x = None.
Proof. intros Hx. apply not_elem_of_list_to_map_1. rewrite map_map. cbn. by rewrite map_id. Qed.

(** The file is longer by [n] blocks of zeros. *)
Definition longer (n : nat) b : bm D bm_masterblock :=
  let lo := data_file_cur_size (mb b) in
  set_alloc (set_data_file_cur_size (lo + Z.of_nat n * PAGE_SIZE) (mb b)) (set_disk (disk b ∪ zeros n lo) b).

Lemma beyond_longer b n x : 0 <= data_file_cur_size (mb b) -> data_file_cur_size (mb b) mod PAGE_SIZE = 0 -> data_file_cur_size (mb b) + Z.of_nat n * PAGE_SIZE <= max_file ->
  beyond b x <-> beyond (longer n b) x \/ x ∈ blocks_from (data_file_cur_size (mb b)) n.
Proof.
  intros H0' Hm Hmx. unfold beyond, longer, mb. cbn. fold (mb b). set (lo := data_file_cur_size (mb b)) in *. rewrite blocks_in. split.
  - intros (off & H1 & H2 & H3 & ->). destruct (Z.le_gt_cases (lo + Z.of_nat n * PAGE_SIZE) off) as [Hle|Hgt]; [left; by exists off|right].
    assert (E1 := Z.div_mod off PAGE_SIZE ltac:(done)). assert (E2 := Z.div_mod lo PAGE_SIZE ltac:(done)). rewrite H3 in E1. rewrite Hm in E2. unfold PAGE_SIZE in *.
    exists (Z.to_nat (off / 65536 - lo / 65536)). split; [lia|]. f_equal. lia.
  - intros [(off & H1 & H2 & H3 & ->)|(i & Hi & ->)]; [exists off; unfold PAGE_SIZE in *; split; [lia|done]|].
    exists (lo + Z.of_nat i * PAGE_SIZE). split; [unfold PAGE_SIZE; lia|]. split; [unfold PAGE_SIZE in *; lia|]. split; [|done]. by rewrite Z.mod_add.
Qed.

Lemma longer_distinct b n x : PAGE_SIZE <= data_file_cur_size (mb b) -> data_file_cur_size (mb b) + Z.of_nat n * PAGE_SIZE <= max_file ->
  beyond (longer n b) x -> x ∉ blocks_from (data_file_cur_size (mb b)) n.
Proof.
  intros Hlo Hmx (off & H1 & H2 & H3 & ->) (i & Hi & E)%blocks_in. unfold longer, mb in H1. cbn in H1. fold (mb b) in H1.
  apply (data_block_inj LAYER max_file HL HLmax Hmax) in E; unfold PAGE_SIZE in *; lia.
Qed.

Lemma longer_ok b n : bm_ok b -> master_ok b -> data_file_cur_size (mb b) + Z.of_nat n * PAGE_SIZE <= max_file ->
  bm_ok (longer n b) /\ calm_off (beyond b) b (longer n b) /\ untouched (longer n b) (blocks_from (data_file_cur_size (mb b)) n)
  /\ forall x, x ∉ blocks_from (data_file_cur_size (mb b)) n -> view (longer n b) x = view b x.
Proof.
  intros Hok [[Hsz Hmod] _ M3 _] Hmx. set (lo := data_file_cur_size (mb b)) in *.
  assert (Hbl : forall x, x ∈ blocks_from lo n -> beyond b x) by (intros x Hx; apply (beyond_longer b n x); [fold lo; unfold PAGE_SIZE in *; lia|done|done|by right]).
  assert (Hkeep : forall x pg, disk b !! x = Some pg -> disk (longer n b) !! x = Some pg) by (intros x pg Hx; cbn; by apply lookup_union_Some_l).
  assert (Hout : forall x, x ∉ blocks_from lo n -> disk (longer n b) !! x = disk b !! x) by (intros x Hx; cbn; rewrite lookup_union_r_or_l || idtac; fold lo; rewrite lookup_union, (zeros_out n lo x Hx); by destruct (disk b !! x)).
  assert (Hview : forall x, x ∉ blocks_from lo n -> view (longer n b) x = view b x) by (intros x Hx; unfold view, disk_view; rewrite (Hout x Hx); done).
  split; [|split; [|split; [|done]]].
  - destruct Hok as [O1 O2 O3 O4 O5 O6]. constructor; [| |done|done|done|].
    + intros x id Hx. destruct (O1 x id Hx) as (E1 & E2 & E3 & [pg E4]). split; [done|]. split; [done|]. split; [done|]. rewrite (Hkeep x pg E4). by eexists.
    + intros x id pg Hx Hf Hch. assert (E := O2 x id pg Hx Hf Hch). unfold disk_view in *. destruct (disk b !! x) as [q|] eqn:Eq; [|done]. by rewrite (Hkeep x q Eq).
    + intros x y Hx. destruct (O6 x y Hx) as [Hy0 [pg Hpg]]. split; [done|]. rewrite (Hkeep x pg Hpg). by eexists.
  - assert (Hd : forall x, ~ beyond b x -> disk_view (longer n b) x = disk_view b x) by (intros x Hx; unfold disk_view; rewrite Hout; [done|by intros ?%Hbl]).
    constructor; [intros x Hx; apply Hview; by intros ?%Hbl|by left| |by left|by left; apply Hd|done|done|].
    { intros x y Hx. split; [done|]. destruct (ok_deps _ _ Hok x y Hx) as [_ [pg Hpg]]. unfold disk_view. by rewrite (Hkeep x pg Hpg), Hpg. }
    intros x [pg Hx]. rewrite (Hkeep x pg Hx). by eexists.
  - intros x Hx. assert (Hv := M3 x (Hbl x Hx)). split.
    + cbn. destruct (buffer_table b !! x) as [id|] eqn:Ex; [|done]. exfalso. destruct (ok_table _ _ Hok _ _ Ex) as (_ & [pg Hpg] & _). unfold view in Hv. by rewrite Ex, Hpg in Hv.
    + cbn. fold lo. rewrite lookup_union. destruct (zeros_in n lo x Hx) as [pg ->]. destruct (disk b !! x); eauto.
Qed.

Lemma longer_ready Q b n : bm_ok b -> master_ok b -> data_file_cur_size (mb b) + Z.of_nat n * PAGE_SIZE <= max_file -> buffers_ready Q b -> buffers_ready Q (longer n b).
Proof.
  intros Hok Hm Hmx (Hb & Hh & Hq). split; [exact Hb|]. split; [|exact Hq]. destruct (longer_ok b n Hok Hm Hmx) as (_ & _ & Hun & Hv). intros x c Hx.
  destruct (decide (x ∈ blocks_from (data_file_cur_size (mb b)) n)) as [Hin|Hn]; [|rewrite Hv in Hx by done; by apply (Hh x)].
  unfold view in Hx. rewrite (proj1 (Hun x Hin)) in Hx. unfold disk_view in Hx. apply fmap_Some in Hx as (pg & Hx & ->). cbn in Hx.
  apply lookup_union_Some_raw in Hx as [Hx|[_ Hx]].
  - apply (Hh x). unfold view, disk_view. rewrite (proj1 (Hun x Hin) : buffer_table b !! x = None). by rewrite Hx.
  - apply elem_of_list_to_map_2, list_elem_of_fmap in Hx as (y & [= _ ->] & _). done.
Qed.

(** The size before goes to the log. *)
Definition logged_size b : bm D bm_masterblock := set_log (log b ++ [LL_DECREASE (data_file_cur_size (mb b))]) (Z.of_nat (S (length (log b)))) b.

Abbreviation extend_ := (extend_data_file LAYER capacity max_file approve isPersSnapshotVersion stamp persTs).

Lemma extend_eq n b : (0 < n)%nat -> let lo := data_file_cur_size (mb b) in let size := lo + Z.of_nat n * PAGE_SIZE in
  extend_ (Z.of_nat n) b = if (0 <? data_file_max_size (mb b)) && (data_file_max_size (mb b) * PAGE_SIZE <? size) then Failed WUERR_SEDNA_EXCEPTION b
    else if max_file <? size then Failed WUERR_SEDNA_EXCEPTION (logged_size b)
    else (do! hd <- add_span_ (free_data_blocks (mb b)) lo size; wu_modify (fun b => set_alloc (set_free_data_blocks hd (mb b)) b)) (longer n (logged_size b)).
Proof.
  intros Hn lo size. unfold extend_data_file. rewrite (bind_done _ _ _ b b) by done. fold lo size. destruct (_ && _); [done|].
  rewrite (bind_done _ _ _ tt (logged_size b)) by done. unfold uSetEndOfFile. unfold wu_bind at 1. destruct (max_file <? size); [done|].
  assert (Efb : file_blocks LAYER lo size = blocks_from lo n); [|by rewrite Efb].
  unfold file_blocks, size. replace (lo + Z.of_nat n * PAGE_SIZE - lo) with (Z.of_nat n * PAGE_SIZE) by lia. rewrite Z.quot_mul by done. by rewrite Nat2Z.id.
Qed.

(** The longer file before its blocks are pushed. *)
Record extended (n : nat) (room : Z) (l : list XPTR) b (b1 : bm D bm_masterblock) : Prop := {
  ex_span : in_range (data_file_cur_size (mb b)) n;
  ex_ok : bm_ok b1;
  ex_off : calm_off (beyond b) b b1;
  ex_chain : chain b1 (free_data_blocks (mb b)) room l;
  ex_nodup : NoDup (blocks_from (data_file_cur_size (mb b)) n ++ l);
  ex_new : untouched b1 (blocks_from (data_file_cur_size (mb b)) n);
  ex_view : forall x, x ∉ blocks_from (data_file_cur_size (mb b)) n -> view b1 x = view b x;
  ex_beyond : forall y, beyond b y <-> beyond b1 y \/ y ∈ blocks_from (data_file_cur_size (mb b)) n;
  ex_distinct : forall x, beyond b1 x -> x ∉ blocks_from (data_file_cur_size (mb b)) n;
  ex_ready : forall Q, buffers_ready Q b -> buffers_ready Q b1
}.

Lemma extend_start n b room l : bm_ok b -> master_ok b -> chain b (free_data_blocks (mb b)) room l -> stack_ok b l ->
  data_file_cur_size (mb b) + Z.of_nat n * PAGE_SIZE <= max_file -> extended n room l b (longer n (logged_size b)).
Proof.
  intros Hok Hm Hch [Hnd Hl] Hmx. destruct (mo_size _ Hm) as [Hsz Hmod]. set (lo := data_file_cur_size (mb b)) in *. set (bl := logged_size b).
  assert (Hokl : bm_ok bl) by (by apply set_log_ok). assert (Hml : master_ok bl) by (by apply (master_ok_ext b)). assert (Hrng : in_range lo n) by (split; [apply Hsz|exact Hmx]).
  destruct (longer_ok bl n Hokl Hml Hmx) as (Hok1 & Hc1 & Hun1 & Hv1).
  assert (Hbb : forall y, beyond b y <-> beyond (longer n bl) y \/ y ∈ blocks_from lo n) by (intros y; apply (beyond_longer bl n y); [change (0 <= lo); unfold PAGE_SIZE in *; lia|exact Hmod|exact Hmx]).
  assert (Hlb : forall x, x ∈ l -> x ∉ blocks_from lo n) by (intros x Hx Hin; apply (Hl x Hx), Hbb; by right).
  constructor; fold lo; [done|done| | |apply NoDup_app; split; [by apply blocks_NoDup|split; [intros x Hx Hxl; by apply (Hlb x Hxl)|done]]|exact Hun1|exact Hv1|exact Hbb| |].
  - apply (off_trans _ _ bl); [apply set_log_off|exact Hc1].
  - apply (chain_ext b); [done|]. intros x Hx. by apply (Hv1 x), Hlb.
  - intros x. apply (longer_distinct bl n x); [apply Hsz|exact Hmx].
  - intros Q Hb. by apply (longer_ready Q bl).
Qed.

(** The new blocks are pushed; those fetched first come first in the file. *)
Lemma extend_ok portion b b' room l : bm_ok b -> master_ok b -> 0 < portion -> chain b (free_data_blocks (mb b)) room l -> stack_ok b l -> extend_ portion b = Done tt b' ->
  let lo := data_file_cur_size (mb b) in let n := Z.to_nat portion in
  bm_ok b' /\ master_ok b' /\ (data_file_cur_size (mb b') = lo + portion * PAGE_SIZE /\ forall Q, (forall y, beyond b y \/ y ∈ l -> Q y) -> buffers_ready Q b -> buffers_ready Q b') /\ swapped b' = swapped b
  /\ calm_off (fun y => beyond b y \/ y ∈ l) b b' /\ (forall y, beyond b y <-> beyond b' y \/ y ∈ blocks_from lo n)
  /\ exists k room' new, chain b' (free_data_blocks (mb b')) room' (new ++ l) /\ fetched lo n k new /\ stack_ok b' (new ++ l).
Proof.
  intros Hok Hm Hpos Hch Hso0 Hr lo n. destruct (mo_size _ Hm) as [Hsz Hmod]. fold lo in Hsz, Hmod. assert (En : portion = Z.of_nat n) by lia. rewrite En in Hr |- *.
  rewrite extend_eq in Hr by lia. fold lo in Hr. destruct (_ && _); [done|]. destruct (Z.ltb_spec max_file (lo + Z.of_nat n * PAGE_SIZE)) as [|Hmx]; [done|].
  destruct (extend_start n b room l Hok Hm Hch Hso0 Hmx) as [Hrng Hok1 Hc1 Hch1 Hnd1 Hun1 Hv1 Hbb Hdist Hrd]. destruct Hso0 as [Hnd Hl]. fold lo in Hrng, Hnd1, Hun1, Hv1, Hbb, Hdist. set (b1 := longer n (logged_size b)) in *.
  apply wu_bind_Done in Hr as (hd' & b3 & H3 & [= <-]).
  destruct (add_span_ok _ lo n b1 hd' b3 room l Hmod Hrng ltac:(lia) Hok1 Hch1 Hnd1 Hun1 H3) as (Hst & k & room' & new & Hch3 & Hfe). destruct (ss_same _ _ _ Hst) as [Ha Hs].
  set (b' := set_alloc _ b3). assert (Hb' : forall y, beyond b' y <-> beyond b1 y) by (intros y; unfold beyond, b', mb; cbn; by rewrite Ha).
  assert (Hch' : chain b' (free_data_blocks (mb b')) room' (new ++ l)) by exact (set_alloc_chain _ b3 hd' room' _ Hch3).
  assert (Hso : stack_ok b' (new ++ l)).
  { split; [by rewrite (fetched_perm _ _ _ _ Hfe)|]. intros x. rewrite (fetched_perm _ _ _ _ Hfe), elem_of_app. intros [Hx|Hx].
    - destruct (range_block lo n x Hrng Hx) as [K1 K2]. split; [done|]. split; [done|]. split; [apply (off_dom _ _ _ (ss_off _ _ _ Hst)); by apply Hun1|]. rewrite (Hb' x). intros Hbx. by apply (Hdist x).
    - destruct (Hl x Hx) as (K1 & K2 & K3 & K4). split; [done|]. split; [done|]. split; [apply (off_dom _ _ _ (ss_off _ _ _ Hst)), (off_dom _ _ _ Hc1); exact K3|]. rewrite (Hb' x). intros Hbx. apply K4, Hbb. by left. }
  assert (Hsize : data_file_cur_size (mb b') = lo + Z.of_nat n * PAGE_SIZE) by (unfold b', mb; cbn; by rewrite Ha).
  split; [by apply set_alloc_ok, (ss_ok _ _ _ Hst)|]. split.
  { constructor; [rewrite Hsize; split; [unfold PAGE_SIZE in *; lia|by rewrite Z.mod_add]|unfold b', mb; cbn; rewrite Ha; apply Hm| |by exists room', (new ++ l)].
    intros x Hx. apply Hb' in Hx. change (view b3 x = None). rewrite (off_view _ _ _ (ss_off _ _ _ Hst)).
    - rewrite Hv1 by (by apply Hdist). apply (mo_beyond _ Hm), Hbb. by left.
    - rewrite elem_of_app. intros [Hin|Hin]; [by apply (Hdist x)|]. apply (Hl x Hin), Hbb. by left. }
  split; [split; [done|intros Q HQ Hb; apply (ss_ready _ _ _ Hst Q); [|by apply Hrd]; intros y; rewrite elem_of_app; intros [Hy|Hy]; apply HQ; [left; apply Hbb; by right|by right]]|]. split; [exact Hs|]. split; [|split; [intros y; by rewrite Hb'|by exists k, room', new]].
  apply (off_trans _ _ b1); [eapply off_mono; [|exact Hc1]; cbn; intros y Hy; left; exact Hy|].
  apply (off_trans _ _ b3); [|apply set_alloc_off]. eapply off_mono; [|exact (ss_off _ _ _ Hst)]. cbn. intros y. rewrite elem_of_app, Hbb. tauto.
Qed.

(** ** A new block *)

Lemma new_data_ok b x b' : bm_ok b -> master_ok b -> new_data_block_impl LAYER capacity max_file approve isPersSnapshotVersion stamp persTs b = Done x b' ->
  ok_but x b' /\ master_ok b' /\ free_block b x /\ x <> 0 /\ IS_DATA_BLOCK x = true /\ is_Some (disk b' !! x)
  /\ (forall y, free_block b' y <-> free_block b y /\ y <> x) /\ calm_off (free_block b) b b' /\ swapped b' = swapped b.
Proof.
  intros Hok Hm Hr. destruct (mo_stack _ Hm) as (room & l & Hch & Hso). unfold new_data_block_impl in Hr. apply wu_bind_Done in Hr as (r & b1 & H1 & Hr).
  destruct (pop_data_ok b r b1 room l Hok Hm Hch Hso H1) as [(-> & -> & Eh & ->)|(p & l' & -> & -> & K)].
  - rewrite (bind_done _ _ _ b b) in Hr by done. apply wu_bind_Done in Hr as ([] & b2 & H2 & Hr). apply wu_bind_Done in Hr as (r & b3 & H3 & Hr).
    destruct (extend_ok _ b b2 room [] Hok Hm (mo_portion _ Hm) Hch Hso H2) as (Hok2 & Hm2 & _ & Hs2 & Hc2 & Hb2 & k & room2 & new & Hch2 & Hfe & Hso2). rewrite app_nil_r in Hch2, Hso2.
    destruct (pop_data_ok b2 r b3 room2 new Hok2 Hm2 Hch2 Hso2 H3) as [(-> & _)|(p & l' & -> & -> & Hbut & Hm3 & Hf3 & Hc3 & Hs3 & _)]; [done|]. injection Hr as <- <-.
    destruct (popped_ok b2 p b3 l' room2 _ Hok2 Hm2 Hch2 Hso2 eq_refl Hbut Hm3 Hf3 Hc3 Hs3) as (J1 & J2 & J3 & J4 & J5 & J6 & J7 & J8 & J9).
    assert (Hfb : forall y, free_block b y <-> free_block b2 y).
    { intros y. rewrite (free_chain b room [] y Hch), (free_chain b2 room2 _ y Hch2), (fetched_perm _ _ _ _ Hfe), elem_of_nil. rewrite (Hb2 y). tauto. }
    split; [done|]. split; [done|]. split; [by apply Hfb|]. split; [done|]. split; [done|]. split; [done|]. split; [intros y; by rewrite J7, Hfb|]. split; [|congruence].
    apply (off_trans _ _ b2); [eapply off_mono; [|exact Hc2]|eapply off_mono; [|exact J8]]; cbn; intros y; [rewrite (free_chain b room [] y Hch); tauto|by rewrite Hfb].
  - injection Hr as <- <-. destruct K as (K1 & K2 & K3 & K4 & K5 & _). by apply (popped_ok b p b1 l' room (p :: l')).
Qed.

(** ** Success

    With a buffer that may be taken no function of the stack fails, but for a
    file that may not grow, as long as no transaction refuses to give up a block
    of [Q]: the free blocks. *)

(** The search for a victim goes once around the used buffers. *)
Lemma victim_found n b l1 l2 id : used_mem b = l1 ++ l2 -> (length l2 <= n)%nat -> id ∈ l2 -> (forall j, j ∈ l2 -> is_Some (frames b !! j)) ->
  swappable b id -> id ∉ free_mem b -> exists p j b', choose_victim approve n (-1) b = Done (p, j) b'.
Proof.
  revert b l1 l2. induction n as [|n IH]; intros b l1 l2 Hu Hn Hin Hfr Hsw Hnf; [destruct l2; [by apply elem_of_nil in Hin|cbn in Hn; lia]|].
  destruct (exists_last (l := l2)) as (l & j & El); [by intros ->; apply elem_of_nil in Hin|]. rewrite El in *. cbn [choose_victim].
  assert (Ep : pop (used_mem b) = Some (j, l1 ++ l)).
  { destruct (pop (used_mem b)) as [[k u]|] eqn:Ep; [|apply pop_nil in Ep; rewrite Ep in Hu; by destruct l1, l].
    apply pop_spec in Ep. rewrite Hu, app_assoc in Ep. apply app_inj_tail in Ep as [-> ->]. done. }
  rewrite Ep. cbn [buffer_on_stake frames set_used]. destruct (Hfr j) as [blk Hblk]; [apply elem_of_app; right; left|]. rewrite Hblk.
  assert (Hrot : id <> j -> exists p k b', choose_victim approve n (-1) (set_used (push j (used_mem (set_used (l1 ++ l) b))) (set_used (l1 ++ l) b)) = Done (p, k) b').
  { intros Hne. apply (IH _ (j :: l1) l); [done|rewrite length_app in Hn; cbn in Hn; lia| | | |done].
    - apply elem_of_app in Hin as [|Hin]; [done|]. by apply list_elem_of_singleton in Hin.
    - intros k Hk. apply Hfr, elem_of_app. by left.
    - destruct Hsw as [H1 [H2|(H2 & pg & H3 & H4)]]; [done|]. split; [done|]. right. split; [|by exists pg]. cbn. rewrite Hu in H2. rewrite !elem_of_app, list_elem_of_singleton in H2.
      rewrite elem_of_cons, elem_of_app. tauto. }
  destruct (Z.eqb_spec j (buffer_on_stake b)) as [->|Hj]; [apply Hrot; by destruct Hsw|].
  destruct (approve (-1) (pg_p blk)) eqn:Ea; [by eexists _, _, _|]. apply Hrot. intros ->. destruct Hsw as [_ [|(_ & pg & H3 & H4)]]; [done|]. congruence.
Qed.

Section Total.
Context (Q : XPTR -> Prop) (Hpers : forall b h, isPersSnapshotVersion b h <> None).

Definition ready b : Prop := bm_ok b /\ buffers_ready Q b.

Lemma ready_step P b b' : stack_step P b b' -> (forall x, P x -> Q x) -> ready b -> ready b'.
Proof. intros Hs HPQ [K1 K2]. split; [apply Hs|by apply (ss_ready _ _ _ Hs)]. Qed.

Lemma free_buffer_total (isPers : VersionsHeader -> option bool) b : (forall h, isPers h <> None) -> ready b -> exists sw id b', get_free_buffer approve isPers (-1) b = Done (sw, id) b'.
Proof.
  intros Hp [Hok ((i & Hi) & Hh & _)]. unfold get_free_buffer. destruct (pop (free_mem b)) as [[j f]|] eqn:Ef; [by eexists _, _, _|]. apply pop_nil in Ef.
  assert (Hnf : i ∉ free_mem b) by (rewrite Ef; by apply not_elem_of_nil). assert (Hfr : forall j, j ∈ used_mem b -> is_Some (frames b !! j)).
  { intros j Hj. destruct (ok_used _ _ Hok j Hj) as (_ & x & Hx). by apply (ok_table _ _ Hok _ _ Hx). }
  assert (Hiu : i ∈ used_mem b) by (by destruct Hi as [_ [|[? _]]]).
  destruct (victim_found (length (used_mem b)) b [] (used_mem b) i) as (q & id & b1 & Ec); [done|done|done|done|done|done|].
  rewrite (bind_done _ _ _ _ _ Ec). destruct (choose_victim_ok _ _ _ _ _ _ _ Ec) as (u & -> & Hu & _).
  assert (Hok1 : buf_ok (id :: u) (set_used u b)) by (apply set_used_ok, (buf_ok_perm (used_mem b)); [by symmetry|done]).
  destruct (flush_total isPers (id :: u) id false (set_used u b) Hok1) as (r & b2 & Hf); [intros y c _ Hv; split; [by apply (Hh y)|apply Hp]|left|]. rewrite (bind_done _ _ _ _ _ Hf).
  destruct (flush_buffer_ok _ _ _ _ _ _ _ Hok1 ltac:(left) Hf) as [Hfl _]. destruct (ok_used _ _ (fl_ok _ _ _ Hfl) id ltac:(left)) as (_ & x & Hx).
  destruct (ok_table _ _ (fl_ok _ _ _ Hfl) _ _ Hx) as (Hphys & _). rewrite (bind_done _ _ _ x b2) by (unfold get_phys; by rewrite Hphys). by eexists _, _, _.
Qed.

Lemma put_total p rd b : ready b -> is_Some (disk b !! p) -> exists id b', put_block approve isPersSnapshotVersion p rd b = Done id b'.
Proof.
  intros Hr [d Hd]. unfold put_block, put_block_to_buffer, wu_bind. destruct (buffer_table b !! p) as [id|]; [by eexists _, _|].
  destruct (free_buffer_total (isPersSnapshotVersion b) b (Hpers b) Hr) as (sw & id & b1 & E). rewrite E. destruct (get_free_buffer_ok _ _ _ _ _ _ _ (proj1 Hr) E) as (_ & [Hc _] & (_ & [hdr Hf] & _) & _).
  destruct (off_dom _ _ _ Hc p ltac:(by eexists)) as [d' Hd']. destruct rd; unfold wu_modify, read_block, upd_frame, wu_bind, get_frame, put_frame; cbn.
  - rewrite Hd'. cbn. rewrite lookup_insert_eq. by eexists _, _.
  - rewrite Hf. by eexists _, _.
Qed.

(** The first node comes to a buffer. *)
Lemma put_head_total hd room l b : ready b -> chain b hd room l -> (forall x, x ∈ l -> Q x) -> hd <> 0 ->
  exists id b1 pg room1 l1, put_block approve isPersSnapshotVersion hd true b = Done id b1 /\ ready b1 /\ calm b b1 /\ stack_step (fun x => x = hd) b b1 /\ chain b1 hd room l
    /\ buffer_table b1 !! hd = Some id /\ frames b1 !! id = Some pg /\ chain b1 (node_next (content_of pg)) room1 l1.
Proof.
  intros Hr Hch HQ Hh. assert (Hnm := chain_name b hd room l Hch Hh). assert (Hin := chain_head b hd room l Hch Hh). inversion Hch as [|h c room0 l0 _ Hv Hn Hch0]; subst; [done|]. destruct (put_total hd true b Hr (view_disk _ _ _ (proj1 Hr) Hv)) as (id & b1 & E).
  destruct (put_head hd b id b1 (proj1 Hr) Hnm E) as (Hst & Hc & Ht). assert (Hv1 := Hv). rewrite <- (calm_view _ _ _ Hc) in Hv1. destruct (head_page b1 hd id c (ss_ok _ _ _ Hst) Ht Hv1) as (pg & Hf & ->).
  exists id, b1, pg, room0, l0. split; [done|]. split; [apply (ready_step _ _ _ Hst); [intros x ->; by apply HQ|done]|]. split; [done|]. split; [done|]. split; [apply (chain_ext b); [done|]; intros x _; by apply calm_view|].
  split; [done|]. split; [done|]. apply (chain_ext b); [done|]. intros x _. by apply calm_view.
Qed.

Lemma new_node_total p next b : ready b -> buffer_table b !! p = None -> is_Some (disk b !! p) -> exists b', new_node approve isPersSnapshotVersion stamp p next b = Done tt b'.
Proof.
  intros Hr Ht Hd. unfold new_node. destruct (put_total p false b Hr Hd) as (id & b1 & E). rewrite (bind_done _ _ _ _ _ E).
  unfold put_block in E. apply wu_bind_Done in E as ([sw i] & b1' & E & [= -> ->]). destruct (put_new_run _ _ _ _ _ _ _ _ (proj1 Hr) Ht E) as (b0 & hdr & _ & _ & _ & _ & _ & ->).
  destruct (fill_node id p next (attach p id (set_roffs id (set_p p (init_hdr hdr))) b0) (set_roffs id (set_p p (init_hdr hdr)))) as (b' & pg & E' & _); [cbn; by rewrite lookup_insert_eq|]. by exists b'.
Qed.

Lemma push_total hd p can b room l : ready b -> chain b hd room l -> (forall x, x ∈ p :: l -> Q x) -> p ∉ l -> (can = true -> buffer_table b !! p = None /\ is_Some (disk b !! p)) ->
  exists hd' r b', push_ hd p can b = Done (hd', r) b'.
Proof.
  intros Hr Hch HQ Hp Hcan. assert (HQl : forall x, x ∈ l -> Q x) by (intros x Hx; apply HQ; by right). unfold push_to_persistent_free_blocks_stack. rewrite (bind_done _ _ _ b b) by done. destruct (Z.eqb_spec hd XNULL) as [->|Hh0].
  - destruct can; [|by eexists _, _, _]. destruct (Hcan eq_refl) as [K1 K2]. destruct (new_node_total p XNULL b Hr K1 K2) as [b' E]. cbn [negb]. rewrite (bind_done _ _ _ _ _ E). by eexists _, _, _.
  - destruct (put_head_total hd room l b Hr Hch HQl Hh0) as (id & b1 & pg & _ & _ & E & Hr1 & Hc & Hst & _ & Ht & Hf & _). rewrite (bind_done _ _ _ _ _ E), (bind_done _ _ _ pg b1) by (unfold get_frame; by rewrite Hf).
    destruct (Z.leb_spec capacity (fb_load (pg_data pg) FB_num)).
    + destruct can; [|by eexists _, _, _]. destruct (Hcan eq_refl) as [K1 K2]. assert (Hph : p <> hd) by (intros ->; by apply Hp, (chain_head b hd room)).
      destruct (new_node_total p hd b1 Hr1) as [b' E']; [by apply (ss_table _ _ _ Hst)|by apply (off_dom _ _ _ (proj1 Hc))|]. cbn [negb]. rewrite (bind_done _ _ _ _ _ E'). by eexists _, _, _.
    + destruct (slot_run hd p id (persTs b) (fb_load (pg_data pg) FB_num) b1 pg Hf) as (b' & pg1 & E' & _). rewrite <- !wu_bind_assoc. erewrite bind_done; [|rewrite !wu_bind_assoc; exact E']. by eexists _, _, _.
Qed.

Lemma pop_total hd b room l : ready b -> chain b hd room l -> (forall x, x ∈ l -> Q x) -> exists r b', pop_ hd b = Done r b'.
Proof.
  intros Hr Hch HQl. unfold pop_from_persistent_free_blocks_stack. destruct (Z.eqb_spec hd XNULL) as [->|Hh0]; [by eexists _, _|]. rewrite (bind_done _ _ _ b b) by done.
  destruct (put_head_total hd room l b Hr Hch HQl Hh0) as (id & b1 & pg & _ & _ & E & _ & _ & _ & _ & _ & Hf & _). rewrite (bind_done _ _ _ _ _ E), (bind_done _ _ _ pg b1) by (unfold get_frame; by rewrite Hf).
  destruct (log_node_run hd id (persTs b) b1 pg Hf) as (b2 & pg2 & E2 & Hed2 & _). assert (Hf2 := edited_frame _ _ _ _ Hed2). destruct (_ =? 0); rewrite (bind_done _ _ _ _ _ E2).
  - rewrite (bind_done _ _ _ pg2 b2) by (unfold get_frame; by rewrite Hf2). by eexists _, _.
  - destruct (upd_run id (fun pg' => set_data (fb_store FB_num (fb_load (pg_data pg) FB_num - 1) (pg_data pg')) pg') b2 pg2 Hf2) as (b3 & E3 & Hed3). rewrite (bind_done _ _ _ _ _ E3).
    destruct (upd_run id (set_changed true) b3 _ (edited_frame _ _ _ _ Hed3)) as (b4 & E4 & _). rewrite (bind_done _ _ _ _ _ E4). by eexists _, _.
Qed.

Lemma count_total hd b room l : ready b -> chain b hd room l -> (forall x, x ∈ l -> Q x) ->
  exists s b', (if hd =? XNULL then wu_ret 0 else do! n <- count_elems_of_head approve isPersSnapshotVersion hd; wu_ret (capacity - n)) b = Done s b'.
Proof.
  intros Hr Hch HQl. destruct (Z.eqb_spec hd XNULL) as [->|Hh0]; [by eexists _, _|]. unfold count_elems_of_head. destruct (Z.eqb_spec hd XNULL) as [|_]; [done|].
  destruct (put_head_total hd room l b Hr Hch HQl Hh0) as (id & b1 & pg & _ & _ & E & _ & _ & _ & _ & _ & Hf & _). rewrite wu_bind_assoc, (bind_done _ _ _ _ _ E), wu_bind_assoc, (bind_done _ _ _ pg b1) by (unfold get_frame; by rewrite Hf). by eexists _, _.
Qed.

(** The blocks set aside for nodes are enough. *)
Lemma push_blocks_total n : forall fuel hd lo slo m b room l, span_ok b hd room l lo n slo m -> ready b -> (forall x, x ∈ blocks_from lo n ++ blocks_from slo m ++ l -> Q x) -> (n <= fuel)%nat -> Z.of_nat n <= room + Z.of_nat m * capacity ->
  exists hd' slo' b', push_blocks_ fuel hd lo (lo + Z.of_nat n * PAGE_SIZE) slo (slo + Z.of_nat m * PAGE_SIZE) b = Done (hd', slo') b'.
Proof.
  induction n as [|n IH]; intros fuel hd lo slo m b room l Hsp Hr HQ Hn Hroom; [destruct fuel; cbn [push_blocks]; rewrite consume_none; by eexists _, _, _|].
  destruct (consume_last lo n (sp_lo _ _ _ _ _ _ _ _ Hsp)) as [Econ Hp0]. destruct fuel as [|fuel]; [lia|]. cbn [push_blocks]. rewrite Econ. destruct (Z.eqb_spec (last_block lo n) XNULL) as [|_]; [done|].
  destruct (span_nodup _ _ _ _ _ _ _ _ Hsp) as (Hnd & [Hpl _]%NoDup_cons & _). rewrite blocks_snoc in HQ. assert (HQ1 : forall x, x ∈ last_block lo n :: l -> Q x) by (intros x Hx; apply HQ; revert x Hx; elems).
  destruct (push_total hd (last_block lo n) false b room l Hr (sp_chain _ _ _ _ _ _ _ _ Hsp) HQ1 Hpl ltac:(done)) as (hd1 & r & b1 & E1).
  rewrite (bind_done _ _ _ _ _ E1). destruct (span_slot b hd room l lo n slo m hd1 r b1 Hsp E1) as [Hst1 [(-> & -> & -> & Hsp1)|(-> & Hne & Hsp1)]]; assert (Hr1 := ready_step _ _ _ Hst1 HQ1 Hr); cbn [Z.eqb].
  - destruct m as [|m]; [lia|]. destruct (consume_first slo m (sp_slo _ _ _ _ _ _ _ _ Hsp)) as (Es & Hs0 & _). rewrite Es. destruct (Z.eqb_spec (data_block LAYER slo) XNULL) as [|_]; [done|].
    rewrite blocks_cons in Hnd. apply NoDup_app in Hnd as (_ & _ & [Hql _]%NoDup_cons). rewrite elem_of_app, elem_of_cons in Hql. assert (Hnew := sp_new _ _ _ _ _ _ _ _ Hsp1). rewrite blocks_cons in Hnew, HQ.
    assert (HQ2 : forall x, x ∈ data_block LAYER slo :: l -> Q x) by (intros x Hx; apply HQ; revert x Hx; elems).
    assert (HQ3 : forall x, x ∈ last_block lo n :: data_block LAYER slo :: l -> Q x) by (intros x Hx; apply HQ; revert x Hx; elems).
    destruct (push_total hd (data_block LAYER slo) true b1 0 l Hr1 (sp_chain _ _ _ _ _ _ _ _ Hsp1) HQ2) as (hd2 & r2 & b2 & E2); [tauto|intros _; apply Hnew; left|]. rewrite (bind_done _ _ _ _ _ E2).
    assert (K : exists hd3 r3 b3, push_ hd2 (last_block lo n) false b2 = Done (hd3, r3) b3).
    { destruct (push_stack hd (data_block LAYER slo) true b1 hd2 r2 b2 0 l (proj1 Hr1) (sp_chain _ _ _ _ _ _ _ _ Hsp1)) as [Hst2 [(_ & _ & ? & _)|(_ & room2 & Hch2 & _)]]; [apply NoDup_cons; split; [tauto|]|done|intros _; apply Hnew; left|done|done|].
      - assert (K := sp_nodup _ _ _ _ _ _ _ _ Hsp1). apply NoDup_app in K as (_ & _ & K). by apply NoDup_app in K as (_ & _ & K).
      - apply (push_total _ _ _ _ room2 (data_block LAYER slo :: l) (ready_step _ _ _ Hst2 HQ2 Hr1) Hch2 HQ3); [|done]. rewrite elem_of_cons. intros [Eq|]; [|done]. apply Hql. right. by left. }
    destruct K as (hd3 & r3 & b3 & E3). rewrite (bind_done _ _ _ _ _ E3). destruct (span_node b1 hd l lo n slo m hd2 r2 b2 hd3 r3 b3 Hsp1 E2 E3) as [Hst3 Hsp3].
    apply (IH fuel hd3 lo (slo + PAGE_SIZE) m b3 (capacity - 1) _ Hsp3 (ready_step _ _ _ Hst3 HQ3 Hr1)); [|lia..]. intros x Hx. apply HQ. revert x Hx. elems.
  - apply (IH fuel hd1 lo slo m b1 (room - 1) _ Hsp1 Hr1); [|lia..]. intros x Hx. apply HQ. revert x Hx. elems.
Qed.

Lemma push_rest_total m : forall fuel hd slo b room l, rest_ok b hd room l slo m -> ready b -> (forall x, x ∈ blocks_from slo m ++ l -> Q x) -> (m <= fuel)%nat -> exists hd' b', push_rest_ fuel hd slo (slo + Z.of_nat m * PAGE_SIZE) b = Done hd' b'.
Proof.
  induction m as [|m IH]; intros fuel hd slo b room l Hrs Hr HQ Hm; [destruct fuel; cbn [push_rest]; rewrite consume_none; by eexists _, _|].
  destruct (consume_first slo m (rs_slo _ _ _ _ _ _ Hrs)) as (Es & Hs0 & _). destruct fuel as [|fuel]; [lia|]. cbn [push_rest]. rewrite Es. destruct (Z.eqb_spec (data_block LAYER slo) XNULL) as [|_]; [done|].
  assert (Hnd := rs_nodup _ _ _ _ _ _ Hrs). assert (Hnew := rs_new _ _ _ _ _ _ Hrs). rewrite blocks_cons in Hnd, Hnew, HQ. apply NoDup_cons in Hnd as [Hql _]. rewrite elem_of_app in Hql.
  assert (HQ1 : forall x, x ∈ data_block LAYER slo :: l -> Q x) by (intros x Hx; apply HQ; revert x Hx; elems).
  destruct (push_total hd (data_block LAYER slo) true b room l Hr (rs_chain _ _ _ _ _ _ Hrs) HQ1) as (hd1 & r & b1 & E1); [tauto|intros _; apply Hnew; left|]. rewrite (bind_done _ _ _ _ _ E1).
  destruct (rest_node _ _ _ _ _ _ _ _ _ Hrs E1) as (Hst1 & room1 & Hrs1). apply (IH fuel hd1 _ b1 room1 _ Hrs1 (ready_step _ _ _ Hst1 HQ1 Hr)); [|lia]. intros x Hx. apply HQ. revert x Hx. elems.
Qed.

(** The number of nodes is the least one with room for all other blocks. *)
Lemma stack_blocks_enough n s : 0 < n -> 0 <= s -> n - numStackBlocks capacity n s <= s + numStackBlocks capacity n s * capacity.
Proof.
  intros Hn Hs. unfold numStackBlocks. destruct (Z.ltb_spec s n); [|lia]. rewrite Z.quot_div_nonneg by lia.
  assert (Hd := Z.mul_succ_div_gt (n - s + capacity) (capacity + 1)). set (q := (n - s + capacity) / (capacity + 1)) in *. nia.
Qed.

Lemma add_span_total hd lo n b room l : ready b -> lo mod PAGE_SIZE = 0 -> in_range lo n -> (0 < n)%nat -> chain b hd room l -> NoDup (blocks_from lo n ++ l) -> untouched b (blocks_from lo n) ->
  (forall x, x ∈ blocks_from lo n ++ l -> Q x) -> exists hd' b', add_span_ hd lo (lo + Z.of_nat n * PAGE_SIZE) b = Done hd' b'.
Proof.
  intros Hr Hlm Hlo Hn Hch Hnd Hun HQ. assert (HQl : forall x, x ∈ l -> Q x) by (intros x Hx; apply HQ, elem_of_app; by right).
  rewrite add_span_eq by done. destruct (count_total hd b room l Hr Hch HQl) as (s & b1 & E1). rewrite (bind_done _ _ _ _ _ E1).
  destruct (count_head hd room l b s b1 (proj1 Hr) Hch E1) as (-> & Hc1 & Hst1). assert (Hroom := chain_room b _ _ _ Hch). assert (Hr1 := ready_step _ _ _ Hst1 HQl Hr).
  destruct (stack_blocks_bound (Z.of_nat n) room ltac:(lia) ltac:(lia)) as [Hk0 Hk1]. assert (Hen := stack_blocks_enough (Z.of_nat n) room ltac:(lia) ltac:(lia)).
  remember (Z.to_nat (numStackBlocks capacity (Z.of_nat n) room)) as k eqn:Ek. replace (numStackBlocks capacity (Z.of_nat n) room) with (Z.of_nat k) in * by lia. assert (Hkn : (k <= n)%nat) by lia. cbv zeta.
  assert (Hsp : span_ok b1 hd room l (lo + Z.of_nat k * PAGE_SIZE) (n - k) lo k).
  { apply span_start; [done|done|apply Hst1|apply (chain_ext b); [done|intros x _; by apply calm_view]|done|]. apply (untouched_step _ _ _ _ Hst1); [by apply NoDup_app in Hnd as (_ & ? & _)|done]. }
  replace (lo + Z.of_nat n * PAGE_SIZE) with (lo + Z.of_nat k * PAGE_SIZE + Z.of_nat (n - k) * PAGE_SIZE) by (unfold PAGE_SIZE; lia).
  assert (En : blocks_from lo n = blocks_from lo k ++ blocks_from (lo + Z.of_nat k * PAGE_SIZE) (n - k)) by (rewrite <- blocks_app; f_equal; lia).
  assert (HQs : forall x, x ∈ blocks_from (lo + Z.of_nat k * PAGE_SIZE) (n - k) ++ blocks_from lo k ++ l -> Q x) by (intros x Hx; apply HQ; rewrite En; revert x Hx; elems).
  destruct (push_blocks_total _ n _ _ _ _ _ _ _ Hsp Hr1 HQs) as (hd2 & slo & b2 & E2); [lia|lia|]. rewrite (bind_done _ _ _ _ _ E2).
  destruct (push_blocks_ok _ _ _ _ _ _ _ _ _ _ _ _ Hsp E2) as (j & Hj & -> & Hpu). destruct (rest_start _ _ _ _ _ _ _ _ _ _ _ Hsp Hj Hpu) as (room2 & new & Hil & Hrs).
  assert (Ej : blocks_from lo k = blocks_from lo j ++ blocks_from (lo + Z.of_nat j * PAGE_SIZE) (k - j)) by (rewrite <- blocks_app; f_equal; lia). rewrite Ej in HQs.
  assert (HQ2 : forall x, x ∈ blocks_from (lo + Z.of_nat k * PAGE_SIZE) (n - k) ++ blocks_from lo j ++ l -> Q x) by (intros x Hx; apply HQs; revert x Hx; elems).
  replace (lo + Z.of_nat k * PAGE_SIZE) with (lo + Z.of_nat j * PAGE_SIZE + Z.of_nat (k - j) * PAGE_SIZE) by (unfold PAGE_SIZE; lia).
  apply (push_rest_total _ n _ _ _ _ _ Hrs); [destruct Hpu as [Hst2 _]; by apply (ready_step _ _ _ Hst2)| |lia].
  intros x. rewrite (interleave_perm _ _ _ Hil), <- (Permutation_rev (blocks_from lo j)). intros Hx. apply HQs. revert x Hx. elems.
Qed.

(** The file may grow by [n] blocks. *)
Definition may_grow b (n : Z) : Prop := let size := data_file_cur_size (mb b) + n * PAGE_SIZE in
  (data_file_max_size (mb b) <= 0 \/ size <= data_file_max_size (mb b) * PAGE_SIZE) /\ size <= max_file.

Lemma extend_total n b room l : ready b -> master_ok b -> 0 < n -> chain b (free_data_blocks (mb b)) room l -> stack_ok b l -> (forall y, beyond b y \/ y ∈ l -> Q y) ->
  (may_grow b n -> exists b', extend_ n b = Done tt b') /\ (~ may_grow b n -> exists b', extend_ n b = Failed WUERR_SEDNA_EXCEPTION b' /\ b' = set_log (log b') (durable b') b).
Proof.
  intros Hr Hm Hn Hch Hso HQ. replace n with (Z.of_nat (Z.to_nat n)) by lia. set (m := Z.to_nat n). rewrite extend_eq by lia. unfold may_grow. set (lo := data_file_cur_size (mb b)). set (size := lo + Z.of_nat m * PAGE_SIZE).
  destruct (Z.ltb_spec 0 (data_file_max_size (mb b))) as [H1|H1], (Z.ltb_spec (data_file_max_size (mb b) * PAGE_SIZE) size) as [H2|H2], (Z.ltb_spec max_file size) as [H3|H3]; cbn [andb];
    (split; [intros Hg; try (exfalso; lia)|intros Hg; first [exfalso; lia|eexists; split; [reflexivity|]; unfold logged_size; by destruct b]]).
  all: destruct (extend_start m b room l (proj1 Hr) Hm Hch Hso H3) as [Hrng Hok1 Hc1 Hch1 Hnd1 Hun1 _ Hbb _ Hrd].
  all: assert (Hr1 : ready (longer m (logged_size b))) by (split; [done|apply Hrd, Hr]).
  all: destruct (add_span_total _ lo m _ room l Hr1 (proj2 (mo_size _ Hm)) Hrng ltac:(lia) Hch1 Hnd1 Hun1) as (hd' & b' & E); [intros x; rewrite elem_of_app; intros [Hx|Hx]; apply HQ; [left; apply Hbb; by right|by right]|]; rewrite (bind_done _ _ _ _ _ E); by eexists.
Qed.

(** ** The stack is a list *)

Abbreviation new_data_ := (new_data_block_impl LAYER capacity max_file approve isPersSnapshotVersion stamp persTs).

Lemma push_data_total b x l : ready b -> free_list b l -> (forall y, y ∈ x :: l -> Q y) -> ~ free_block b x -> buffer_table b !! x = None -> is_Some (disk b !! x) -> exists b', push_data_ x b = Done tt b'.
Proof.
  intros Hr (Hm & _ & room & Hch) HQ Hnf Ht Hd. unfold push_data_block. rewrite (bind_done _ _ _ b b) by done. rewrite (free_chain b room l x Hch) in Hnf.
  destruct (push_total _ x true b room l Hr Hch HQ) as (hd' & r & b' & E); [tauto|done|]. rewrite (bind_done _ _ _ _ _ E). by eexists.
Qed.

(** A block is fetched. *)
Lemma pop_data_cons b x l : ready b -> free_list b (x :: l) -> (forall y, y ∈ x :: l -> Q y) ->
  exists b', pop_data_ b = Done (Some x) b' /\ free_list b' l /\ calm_off (fun y => y ∈ x :: l) b b' /\ data_file_cur_size (mb b') = data_file_cur_size (mb b).
Proof.
  intros Hr (Hm & Hso & room & Hch) HQ. destruct (pop_total _ b room _ Hr Hch HQ) as (r & b1 & E).
  assert (Hp : exists r b', pop_data_ b = Done r b').
  { unfold pop_data_block. rewrite (bind_done _ _ _ b b) by done. rewrite (bind_done _ _ _ _ _ E). destruct r as [[hd p]|]; by eexists _, _. }
  destruct Hp as (r' & b' & Hp). destruct (pop_data_ok b r' b' room _ (proj1 Hr) Hm Hch Hso Hp) as [(_ & ? & _)|(y & l' & -> & [= <- <-] & _ & Hfl & _ & Hc & _ & Hsz)]; [done|]. by exists b'.
Qed.

Lemma new_data_cons b x l : ready b -> free_list b (x :: l) -> (forall y, y ∈ x :: l -> Q y) -> exists b', new_data_ b = Done x b' /\ free_list b' l /\ calm_off (fun y => y ∈ x :: l) b b'.
Proof.
  intros Hr Hfl HQ. destruct (pop_data_cons b x l Hr Hfl HQ) as (b' & E & K1 & K2 & _). exists b'. split; [|done]. unfold new_data_block_impl. by rewrite (bind_done _ _ _ _ _ E).
Qed.

(** The file grows when the stack is empty. *)
Lemma new_data_nil b : ready b -> free_list b [] -> (forall y, beyond b y -> Q y) -> let lo := data_file_cur_size (mb b) in let n := data_file_extending_portion (mb b) in
  (may_grow b n -> exists x l k b', new_data_ b = Done x b' /\ fetched lo (Z.to_nat n) k (x :: l) /\ free_list b' l /\ data_file_cur_size (mb b') = lo + n * PAGE_SIZE /\ calm_off (beyond b) b b')
  /\ (~ may_grow b n -> exists b', new_data_ b = Failed WUERR_SEDNA_EXCEPTION b' /\ b' = set_log (log b') (durable b') b).
Proof.
  intros Hr (Hm & Hso & room & Hch) HQ lo n. assert (HQ0 : forall y, beyond b y \/ y ∈ [] -> Q y) by (intros y [Hy|Hy]; [by apply HQ|by apply elem_of_nil in Hy]). inversion Hch as [E0 E1 E2|h c room0 l0 _ _ _ _ E0 E1 E2]; [|by destruct (slots_of _ _)].
  assert (Ep : pop_data_ b = Done None b) by (unfold pop_data_block; rewrite (bind_done _ _ _ b b) by done; unfold pop_from_persistent_free_blocks_stack; by rewrite <- E0).
  rewrite <- E1 in Hch. unfold new_data_block_impl. rewrite !(bind_done _ _ _ _ _ Ep), (bind_done _ _ _ b b) by done. fold n. destruct (extend_total n b 0 [] Hr Hm (mo_portion _ Hm) Hch Hso HQ0) as [Hgrow Hfail]. split.
  - intros Hg. destruct (Hgrow Hg) as [b1 E]. destruct (extend_ok n b b1 0 [] (proj1 Hr) Hm (mo_portion _ Hm) Hch Hso E) as (Hok1 & Hm1 & [Hsz Hrd] & _ & Hc & Hbe & k & room1 & new & Hch1 & Hfe & Hso1). rewrite app_nil_r in Hch1, Hso1.
    assert (Hr1 : ready b1) by (split; [done|apply Hrd; [exact HQ0|apply Hr]]). assert (Hpos := mo_portion _ Hm). fold n lo in Hfe, Hpos.
    destruct new as [|x l]; [assert (K := fetched_perm _ _ _ _ Hfe); apply Permutation_length in K; unfold blocks_from in K; rewrite length_map, length_seq in K; cbn in K; lia|].
    destruct (pop_data_cons b1 x l Hr1) as (b2 & E2' & Hfl2 & Hc2 & Hsz2); [split; [done|]; split; [done|by exists room1]|intros y Hy; rewrite (fetched_perm _ _ _ _ Hfe) in Hy; apply HQ, Hbe; by right|]. exists x, l, k, b2. rewrite !(bind_done _ _ _ _ _ E), (bind_done _ _ _ _ _ E2').
    split; [done|]. split; [done|]. split; [done|]. split; [by rewrite Hsz2|].
    apply (off_trans _ _ b1); [eapply off_mono; [|exact Hc]|eapply off_mono; [|exact Hc2]]; cbn; intros y; [rewrite elem_of_nil; tauto|]. rewrite (fetched_perm _ _ _ _ Hfe), Hbe. by right.
  - intros Hg. destruct (Hfail Hg) as (b1 & E & Eb). exists b1. split; [|done]. unfold wu_bind at 1. by rewrite E.
Qed.
End Total.

(** ** The instance of the class of allocators *)

(** [delete_temp] stands for the temporary blocks, which no client here frees. *)
Definition free_blocks_allocator (delete_temp : Z -> XPTR -> wu (bm D bm_masterblock) unit) : Allocator D bm_masterblock := {|
  new_data_block := new_data_block_impl LAYER capacity max_file approve isPersSnapshotVersion stamp persTs;
  push_free_block := push_data_block capacity approve isPersSnapshotVersion stamp persTs;
  delete_temp_block := delete_temp
|}.

Definition free_blocks_allocator_ok delete_temp : AllocatorOk D bm_masterblock (H := free_blocks_allocator delete_temp) :=
  @Build_AllocatorOk D bm_masterblock (free_blocks_allocator delete_temp) free_block master_ok free_block_ext master_ok_ext new_data_ok push_data_ok.

(** ** The free blocks of a state, evaluated *)

Fixpoint chain_list (fuel : nat) b (hd : XPTR) : option (list XPTR) :=
  if hd =? 0 then Some []
  else
    match fuel, view b hd with
    | S fuel, Some c =>
        if (0 <=? node_num c) && (node_num c <=? capacity) && (ct_p c =? hd)
        then (fun l => slots_of (ct_data c) (Z.to_nat (node_num c)) ++ hd :: l) <$> chain_list fuel b (node_next c)
        else None
    | _, _ => None
    end.

Lemma chain_list_ok fuel : forall b hd l, chain_list fuel b hd = Some l -> exists room, chain b hd room l.
Proof.
  induction fuel as [|fuel IH]; intros b hd l Hl; cbn in Hl; (destruct (Z.eqb_spec hd 0) as [->|Hne]; [injection Hl as <-; eexists; constructor|]); [done|].
  destruct (view b hd) as [c|] eqn:Hv; [|done]. destruct (_ && _) eqn:Hn; [|done]. apply andb_true_iff in Hn as [[H1%Z.leb_le H2%Z.leb_le]%andb_true_iff H3%Z.eqb_eq].
  apply fmap_Some in Hl as (l' & Hl' & ->). destruct (IH _ _ _ Hl') as [room Hc]. eexists. by econstructor.
Qed.

(** A block that is not free for sure: in the file, and not in the stack. *)
Definition occupied (fuel : nat) b (x : XPTR) : bool :=
  match calculate_offset LAYER (mb b) x, chain_list fuel b (free_data_blocks (mb b)) with
  | Some _, Some l => negb (bool_decide (x ∈ l))
  | _, _ => false
  end.

Lemma occupied_ok fuel b x : PAGE_SIZE <= data_file_cur_size (mb b) -> occupied fuel b x = true -> ~ free_block b x.
Proof.
  intros Hs Ho. unfold occupied in Ho. destruct (calculate_offset LAYER (mb b) x) as [o|] eqn:Eo; [|done]. destruct (chain_list _ _ _) as [l|] eqn:El; [|done].
  apply negb_true_iff, bool_decide_eq_false in Ho. destruct (chain_list_ok _ _ _ _ El) as [room Hc]. rewrite (free_chain b room l x Hc). intros [(off & B1 & B2 & _ & ->)|?]; [|done].
  assert (Hr : PAGE_SIZE <= off < max_file) by (unfold PAGE_SIZE in *; lia).
  unfold calculate_offset in Eo. destruct (data_block_data LAYER max_file HL HLmax Hmax off Hr) as [Hd _]. rewrite Hd in Eo.
  destruct (data_block_parts LAYER max_file HL HLmax Hmax off Hr) as [P1 P2]. rewrite P1, P2 in Eo. destruct (_ && _) eqn:Ec; [|done].
  apply andb_true_iff in Ec as [_ Ec%Z.leb_le]. assert (Hdm := Z.div_mod (off - PAGE_SIZE) LAYER). unfold PAGE_SIZE in *. lia.
Qed.
End Extend.
End Stack.
