(* ===== verification/IsoHeader.v ===== *)
(** * Which version of a block a snapshot reads

    The headers of pages (Versions.v) as lists of versions, the version a
    snapshot picks from such a list, and the header [ComposeHeader] makes for a
    new version: it is always large enough, and every snapshot in use picks
    from it what it picked before. *)

From Stdlib Require Import ZArith List Lia Bool Sorted.
From stdpp Require Import base gmap list sets sorting.
From S2P Require Import Prelude WuBase Snapshots SnGc SnApi SnInv SnPurify SnOps SnEvolve SnExpand Buffers Versions BufInv.
Local Open Scope sedna_scope.
Local Open Scope Z_scope.

(** ** Views of the versions

    A snapshot as a reader sees it: its timestamp and the transactions that
    were active.  The last committed state is one, too. *)
Definition snap : Type := TIMESTAMP * list TIMESTAMP.

Definition snap_of (s : SnSnapshot) : snap := (timestamp s, active s).
Definition last_committed (L : SnSnapshotsList) : snap := snap_of (InitFakeHeadSnapshot L).

Definition later (w : snap) (t : TIMESTAMP) : Prop := fst w < t \/ t ∈ snd w.

#[export] Instance later_dec w t : Decision (later w t).
Proof. unfold later. apply _. Defined.

(** The address of the newest version that is not later than the snapshot. *)
Fixpoint pick (w : snap) (l : list (XPTR * TIMESTAMP)) : option XPTR :=
  match l with
  | [] => None
  | (x, t) :: l => if decide (later w t) then pick w l else Some x
  end.

(** The views the isolation speaks of: the last committed state and the
    undamaged snapshots, the only ones a query is given.  A snapshot that an
    advance left without readers is damaged, the persistent one too: headers
    need not name its versions any more, only the chains of the snapshots do. *)
Definition undamaged_live (L : SnSnapshotsList) : list SnSnapshot :=
  List.filter (fun s => negb (isDamaged s)) (from_current L).
Definition viewers (L : SnSnapshotsList) : list snap := last_committed L :: map snap_of (undamaged_live L).

Lemma viewer_cases L w : w ∈ viewers L ->
  w = last_committed L \/ exists s, s ∈ from_current L /\ isDamaged s = false /\ w = snap_of s.
Proof.
  intros [->|H]%elem_of_cons; [by left|]. right. apply list_elem_of_fmap in H as (s & -> & Hs).
  apply list_elem_of_In, filter_In in Hs as [Hs Hd]. exists s. split; [by apply list_elem_of_In|].
  by destruct (isDamaged s).
Qed.

Lemma viewer_live L s : s ∈ from_current L -> isDamaged s = false -> snap_of s ∈ viewers L.
Proof.
  intros Hs Hd. right. apply list_elem_of_fmap. exists s. split; [done|]. apply list_elem_of_In, filter_In.
  rewrite Hd. split; [by apply list_elem_of_In|done].
Qed.

(** ** Headers *)

Definition entry_ok (e : XPTR * TIMESTAMP) : Prop := fst e <> 0 /\ IsValidTimestamp (snd e) = true.

Definition padding (n : nat) : list (XPTR * TIMESTAMP) := repeat (0, INVALID_TIMESTAMP) n.

Lemma fill_creators l : (length l <= 4)%nat ->
  vh_creatorTs (fill_entries l) = map snd l ++ repeat INVALID_TIMESTAMP (4 - length l).
Proof.
  intros H. unfold fill_entries, VE_VERSIONS_COUNT. cbn [vh_creatorTs].
  rewrite take_app, length_map, take_ge by (rewrite length_map; lia). f_equal.
  replace 4%nat with ((4 - length l) + length l)%nat at 2 by lia. rewrite repeat_app, take_app_length'; [done|]. by rewrite repeat_length.
Qed.

Lemma fill_xptrs l : (length l <= 4)%nat -> vh_xptr (fill_entries l) = map fst l ++ repeat 0 (4 - length l).
Proof.
  intros H. unfold fill_entries, VE_VERSIONS_COUNT. cbn [vh_xptr].
  rewrite take_app, length_map, take_ge by (rewrite length_map; lia). f_equal.
  replace 4%nat with ((4 - length l) + length l)%nat at 2 by lia. rewrite repeat_app, take_app_length'; [done|]. by rewrite repeat_length.
Qed.

Lemma zip_fst_snd {A B} (l : list (A * B)) : zip (map fst l) (map snd l) = l.
Proof. induction l as [|[a b] l IH]; [done|]. cbn. by rewrite IH. Qed.

Lemma fill_header l : (length l <= 4)%nat -> header_entries (fill_entries l) = l ++ padding (4 - length l).
Proof.
  intros H. unfold header_entries. rewrite fill_xptrs, fill_creators by done. rewrite zip_with_app by (by rewrite !length_map).
  rewrite zip_fst_snd. f_equal. unfold padding. generalize (4 - length l)%nat as n. induction n as [|n IH]; [done|]. cbn. by rewrite IH.
Qed.

Lemma padding_inj l1 l2 n1 n2 : Forall entry_ok l1 -> Forall entry_ok l2 ->
  l1 ++ padding n1 = l2 ++ padding n2 -> l1 = l2.
Proof.
  revert l2. induction l1 as [|e l1 IH]; intros l2 H1 H2 E.
  - destruct l2 as [|e2 l2]; [done|]. apply Forall_cons in H2 as [[Hx _] _]. destruct n1; [done|]. cbn in E. by injection E as <- _.
  - apply Forall_cons in H1 as [[Hx Hv] H1]. destruct l2 as [|e2 l2].
    + destruct n2; [done|]. cbn in E. by injection E as -> _.
    + apply Forall_cons in H2 as [_ H2]. cbn in E. injection E as -> E. f_equal. by apply IH.
Qed.

Lemma fill_inj l1 l2 : (length l1 <= 4)%nat -> (length l2 <= 4)%nat -> Forall entry_ok l1 -> Forall entry_ok l2 ->
  fill_entries l1 = fill_entries l2 -> l1 = l2.
Proof.
  intros H1 H2 F1 F2 E. apply (f_equal header_entries) in E. rewrite !fill_header in E by done. by apply padding_inj in E.
Qed.

(** The header of a page of the block [x] with the version [t0] and the older
    versions [old]. *)
Record version_of {D} (x : XPTR) (c : content D) (t0 : TIMESTAMP) (old : list (XPTR * TIMESTAMP)) : Prop := {
  vo_p : ct_p c = x;
  vo_vh : ct_vh c = fill_entries ((x, t0) :: old);
  vo_len : (length old < 4)%nat;
  vo_ok : Forall entry_ok ((x, t0) :: old)
}.

Lemma version_inj {D} x x' (c : content D) t0 t0' old old' : version_of x c t0 old -> version_of x' c t0' old' ->
  x' = x /\ t0' = t0 /\ old' = old.
Proof.
  intros [H1 H2 H3 H4] [K1 K2 K3 K4]. rewrite K2 in H2. apply fill_inj in H2; [|cbn; lia|cbn; lia|done|done].
  by injection H2 as -> -> ->.
Qed.

Lemma version_nonzero {D} x (c : content D) t0 old : version_of x c t0 old -> x <> 0.
Proof. intros [_ _ _ [[H _] _]%Forall_cons]. done. Qed.

Lemma version_creators {D} x (c : content D) t0 old : version_of x c t0 old ->
  vh_creatorTs (ct_vh c) = map snd ((x, t0) :: old) ++ repeat INVALID_TIMESTAMP (3 - length old)
  /\ header_ok (vh_creatorTs (ct_vh c)).
Proof.
  intros [_ H2 H3 H4]. rewrite H2, fill_creators by (cbn; lia). split; [done|]. eexists _, _. split; [done|].
  apply Forall_map. apply (Forall_impl entry_ok); [done|]. intros e He. apply He.
Qed.

Lemma version_valid {D} x (c : content D) t0 old : version_of x c t0 old ->
  ValidateHeader (ct_vh c) = true /\ vh_xptr (ct_vh c) !! 0%nat = Some x.
Proof.
  intros [_ H2 H3 H4]. rewrite H2. split; [|by rewrite fill_xptrs by (cbn; lia)].
  unfold ValidateHeader. rewrite fill_header by (cbn; lia). apply Forall_cons in H4 as [H0 H4]. cbn [app].
  assert (Hu : forall e, entry_ok e -> entry_used e = true).
  { intros e [E1 E2]. unfold entry_used. apply Z.eqb_neq in E1. by rewrite E1, E2. }
  rewrite Hu by done. cbn [andb]. clear -H4 Hu. generalize (4 - length ((x, t0) :: old))%nat as n. intros n.
  induction old as [|e old IH]; cbn.
  - destruct n as [|n]; [done|]. cbn. induction n as [|n IH]; [done|]. exact IH.
  - apply Forall_cons in H4 as [He H4]. rewrite Hu by done. by apply IH.
Qed.

(** ** Visible versions *)

(** The first version that is not later than the view is at the index [i]. *)
Definition first_at (w : snap) (l : list (XPTR * TIMESTAMP)) (i : nat) (x : XPTR) : Prop :=
  exists t, l !! i = Some (x, t) /\ ~ later w t /\ forall j y u, (j < i)%nat -> l !! j = Some (y, u) -> later w u.

Lemma first_at_here w l x t : ~ later w t -> first_at w ((x, t) :: l) 0 x.
Proof. intros H. exists t. split; [done|]. split; [done|]. lia. Qed.

Lemma first_at_next w l i x y t : later w t -> first_at w l i x -> first_at w ((y, t) :: l) (S i) x.
Proof.
  intros H (u & Hi & Hl & Hb). exists u. split; [done|]. split; [done|]. intros [|j] z v Hj; [by intros [= <- <-]|].
  cbn. apply Hb. lia.
Qed.

Lemma first_at_unique w l i j x y : first_at w l i x -> first_at w l j y -> i = j.
Proof.
  intros (t & Hi & Hl & Hb) (u & Hj & Hl' & Hb'). destruct (Nat.lt_trichotomy i j) as [H|[H|H]]; [|done|].
  - by destruct Hl; apply (Hb' i x t).
  - by destruct Hl'; apply (Hb j y u).
Qed.

Lemma pick_index w l x : pick w l = Some x -> exists i, first_at w l i x.
Proof.
  induction l as [|[y t] l IH]; [done|]. cbn. destruct (decide (later w t)) as [H|H].
  - intros (i & Hi)%IH. exists (S i). by apply first_at_next.
  - intros [= ->]. exists 0%nat. by apply first_at_here.
Qed.

Lemma pick_elem w l x : pick w l = Some x -> exists t, (x, t) ∈ l /\ ~ later w t.
Proof. intros (i & t & Hi & Hl & _)%pick_index. exists t. split; [by apply list_elem_of_lookup_2 in Hi|done]. Qed.

Lemma pick_none w l x t : pick w l = None -> (x, t) ∈ l -> later w t.
Proof.
  induction l as [|[y u] l IH]; [by intros _ ?%elem_of_nil|]. cbn. destruct (decide (later w u)) as [H|H]; [|done].
  intros Hn [[= -> ->]|Hin]%elem_of_cons; [done|by apply IH].
Qed.

Lemma visible_first s l : forall k n, Forall entry_ok l ->
  match visible_from s (map snd l ++ repeat INVALID_TIMESTAMP n) k with
  | None => pick (snap_of s) l = None
  | Some i => k <= i /\ exists x, pick (snap_of s) l = Some x /\ first_at (snap_of s) l (Z.to_nat (i - k)) x
  end.
Proof.
  induction l as [|[x t] l IH]; intros k n Hl; [by destruct n|].
  apply Forall_cons in Hl as [[_ Hv] Hl]. cbn [map app visible_from snd pick].
  destruct (Z.eqb_spec t INVALID_TIMESTAMP) as [->|_]; [done|].
  assert (Hd : younger s t <-> later (snap_of s) t) by done.
  destruct (decide (younger s t)) as [Hy|Hy].
  - rewrite decide_True by done. specialize (IH (k + 1) n Hl).
    destruct (visible_from s _ (k + 1)) as [i|]; [|done]. destruct IH as (Hk & x' & Hp & Hi).
    split; [lia|]. exists x'. split; [done|]. replace (Z.to_nat (i - k)) with (S (Z.to_nat (i - (k + 1)))) by lia. by apply first_at_next.
  - rewrite decide_False by done. split; [lia|]. exists x. rewrite Z.sub_diag. split; [done|by apply first_at_here].
Qed.

(** ** The header of a new version *)

(** A list of some of the versions, in their order. *)
Definition selects (ids : list Z) (l es : list (XPTR * TIMESTAMP)) : Prop :=
  Forall2 (fun id e => 0 <= id /\ l !! Z.to_nat id = Some e) ids es.

Lemma selects_elem ids l es e : selects ids l es -> e ∈ es -> e ∈ l.
Proof.
  intros Hsel He. apply list_elem_of_lookup in He as [k Hk]. destruct (Forall2_lookup_r _ _ _ _ _ Hsel Hk) as (id & _ & _ & Hid).
  by apply list_elem_of_lookup_2 in Hid.
Qed.

Lemma pick_select w l ids es : selects ids l es -> StronglySorted Z.lt ids ->
  (forall i x, first_at w l i x -> Z.of_nat i ∈ ids) -> pick w es = pick w l.
Proof.
  intros Hsel Hs Hin. destruct (pick w l) as [x|] eqn:Hp.
  - apply pick_index in Hp as (i & Hi). specialize (Hin i x Hi). destruct Hi as (t & Hi & Hl & Hb).
    clear -Hsel Hs Hin Hi Hl Hb. revert Hs Hin. induction Hsel as [|id [y u] ids es [H0 Hid] _ IH]; intros Hs Hin; [by apply elem_of_nil in Hin|].
    apply StronglySorted_inv in Hs as [Hs Hf]. cbn. apply elem_of_cons in Hin as [E|Hin].
    + rewrite <- E, Nat2Z.id in Hid. rewrite Hi in Hid. injection Hid as <- <-. by rewrite decide_False.
    + rewrite Forall_forall in Hf. specialize (Hf _ Hin). rewrite decide_True by (apply (Hb (Z.to_nat id) y u); [lia|done]). by apply IH.
  - destruct (pick w es) as [x|] eqn:He; [|done]. apply pick_elem in He as (t & Hin' & Hl). apply (selects_elem _ _ _ _ Hsel) in Hin'.
    by destruct (Hl (pick_none _ _ _ _ Hp Hin')).
Qed.

Lemma compose_selects l n : forall out room prev es rest,
  compose_entries room prev (fill_entries l) out = Ok (es, rest) -> (length l <= 4)%nat -> (length out <= room)%nat ->
  StronglySorted Z.le (map snd out) -> Forall (fun r => prev <= snd r < n) out -> n <= Z.of_nat (length l) ->
  rest = [] /\ (length es <= length out)%nat /\ exists ids, selects ids l es /\ StronglySorted Z.lt ids /\ Forall (fun i => prev < i) ids
    /\ forall r, r ∈ out -> snd r = prev \/ snd r ∈ ids.
Proof.
  induction out as [|[ts id] out IH]; intros room prev es rest H Hl Hroom Hs Hb Hn.
  { destruct room; injection H as <- <-; (split; [done|]; split; [done|]; exists []; split; [constructor|]; split; [constructor|]; split; [constructor|]; intros r []%elem_of_nil). }
  destruct room as [|room]; [cbn in Hroom; lia|]. cbn in Hroom, Hs. apply StronglySorted_inv in Hs as [Hs Hf].
  apply Forall_cons in Hb as [Hid Hb]. cbn [snd] in Hid. cbn [compose_entries] in H. destruct (Z.eqb_spec id prev) as [->|Hne].
  - destruct (IH (S room) prev es rest H Hl ltac:(lia) Hs Hb Hn) as (-> & Hlen & ids & H1 & H2 & H3 & H4).
    split; [done|]. split; [cbn; lia|]. exists ids. split; [done|]. split; [done|]. split; [done|].
    intros r [->|Hr]%elem_of_cons; [by left|by apply H4].
  - rewrite fill_header in H by done. destruct (Z.ltb_spec id 0) as [Hneg|Hpos]; [done|].
    destruct ((l ++ padding (4 - length l)) !! Z.to_nat id) as [e|] eqn:He; [|done]. cbn [of_option bind_res] in H.
    rewrite lookup_app_l in He by lia.
    destruct (compose_entries room id (fill_entries l) out) as [[es' rest']|] eqn:Hc; [|done]. cbn [bind_res] in H. injection H as <- <-.
    destruct (IH room id es' rest' Hc Hl ltac:(lia) Hs) as (-> & Hlen & ids & H1 & H2 & H3 & H4).
    { rewrite Forall_map in Hf. rewrite Forall_forall in Hb, Hf |- *. intros r Hr. specialize (Hb r Hr). specialize (Hf r Hr). cbn in Hf. lia. }
    { done. }
    split; [done|]. split; [cbn; lia|]. exists (id :: ids). split; [by constructor|]. split; [by constructor|].
    split; [constructor; [lia|]; apply (Forall_impl _ _ _ H3); lia|].
    intros r [->|Hr]%elem_of_cons; [right; left|]. destruct (H4 r Hr) as [->|]; right; [left|by right].
Qed.

(** The records of older snapshots have larger numbers. *)
Lemma seen_sorted versions l : monotone l -> header_ok versions ->
  StronglySorted Z.le (map snd (seen versions 0 l)) /\ Forall (fun r => 0 <= snd r) (seen versions 0 l).
Proof.
  intros Hm Hh. induction l as [|s l IH]; [split; constructor|]. destruct Hm as (_ & Hy & Hm). destruct (IH Hm) as [IH1 IH2].
  unfold seen. cbn [omap list_omap]. fold (seen versions 0 l).
  destruct (visible_from s versions 0) as [i|] eqn:Hi; [|done]. cbn [option_map].
  assert (Hi0 : exists k, visible_from s versions 0 = Some k /\ 0 <= k <= i).
  { assert (H := visible_mono s s versions 0 Hh ltac:(auto)). by rewrite Hi in H |- *. }
  destruct Hi0 as (k & Hk & Hk0). rewrite Hi in Hk. injection Hk as <-.
  split; [|constructor; [cbn; lia|done]]. cbn. constructor; [done|]. apply Forall_map, Forall_forall. intros r Hr.
  unfold seen in Hr. apply list_elem_of_omap in Hr as (x & Hx & Hv).
  assert (Hmono := visible_mono s x versions 0 Hh ltac:(intros t Ht; by apply Hy)).
  destruct (visible_from x versions 0) as [j|]; [|done]. injection Hv as <-. destruct Hmono as (i' & Hi' & Hij).
  cbn. rewrite Hi in Hi'. injection Hi' as <-. lia.
Qed.

Lemma sublist_sorted {A} (R : A -> A -> Prop) l1 l2 : l1 `sublist_of` l2 -> StronglySorted R l2 -> StronglySorted R l1.
Proof.
  induction 1 as [|x l1 l2 Hs IH|x l1 l2 Hs IH]; intros H; [done| |].
  - apply StronglySorted_inv in H as [H Hf]. constructor; [by apply IH|]. rewrite Forall_forall in *. intros y Hy. apply Hf.
    by apply (sublist_subseteq _ _ Hs).
  - apply StronglySorted_inv in H as [H _]. by apply IH.
Qed.

Lemma sublist_map {A B} (f : A -> B) l1 l2 : l1 `sublist_of` l2 -> map f l1 `sublist_of` map f l2.
Proof. induction 1; cbn; [constructor|by apply sublist_skip|by apply sublist_cons]. Qed.

Lemma not_active_committed L t : IsValidTimestamp t = true -> t ∉ ts_active L -> ~ later (last_committed L) t.
Proof. intros Hv Hn [H|H]; [|done]. cbn in H. apply IsValidTimestamp_spec in Hv. ts_lia. Qed.

Lemma nested_all acts lv : newer_first (map timestamp lv) -> nested acts lv ->
  forall s t, s ∈ lv -> t ∈ acts -> younger s t.
Proof.
  induction lv as [|x lv IH]; intros Hs Hn s t Hin Ht; [by apply elem_of_nil in Hin|].
  apply elem_of_cons in Hin as [->|Hin]; [by apply Hn|]. apply IH; [|by apply (nested_skip _ x)|done|done].
  cbn in Hs. by apply StronglySorted_inv in Hs as [Hs _].
Qed.

(** What an active transaction writes is later than every view. *)
Lemma active_later clk L w t : snapshots_ok clk L -> w ∈ viewers L -> t ∈ ts_active L -> later w t.
Proof.
  intros (fut & lv & Hsp) [->|(s & Hs & _ & ->)]%viewer_cases Ht; [by right|].
  destruct (split_current _ _ _ _ Hsp) as [_ Hcur]. rewrite Hcur in Hs.
  destruct Hsp as (_ & Hok & _). by apply (nested_all (ts_active L) lv); [apply Hok|apply Hok| |].
Qed.

Lemma seen_bound l n ss r : Forall entry_ok l -> r ∈ seen (map snd l ++ repeat INVALID_TIMESTAMP n) 0 ss ->
  0 <= snd r < Z.of_nat (length l).
Proof.
  intros Hl Hr. unfold seen in Hr. apply list_elem_of_omap in Hr as (s & _ & Hv). assert (H := visible_first s l 0 n Hl).
  destruct (visible_from s _ 0) as [i|]; [|done]. injection Hv as <-. destruct H as (Hi & x & _ & t & Hx & _).
  apply lookup_lt_Some in Hx. cbn. lia.
Qed.

Lemma expand_cons L t0 ts : t0 <> INVALID_TIMESTAMP ->
  expand_reference L (t0 :: ts) = (if decide (t0 ∈ ts_active L) then [(SN_WORKING_VERSION_TIMESTAMP, 0)] else [])
    ++ seen (t0 :: ts) 0 (InitFakeHeadSnapshot L :: from_current L).
Proof. intros H. unfold expand_reference. destruct (Z.eqb_spec t0 INVALID_TIMESTAMP); done. Qed.

(** The record of every view that is in use survives the filter. *)
Lemma viewer_record clk L x t0 old n out w i y :
  snapshots_ok clk L -> Forall entry_ok ((x, t0) :: old) ->
  SnFilterOutDamaged L (expand_reference L (map snd ((x, t0) :: old) ++ repeat INVALID_TIMESTAMP n)) = Ok out ->
  w ∈ viewers L -> first_at w ((x, t0) :: old) i y -> (fst w, Z.of_nat i) ∈ out.
Proof.
  intros (fut & lv & Hsp) Hl Hf Hw Hi. destruct (split_current _ _ _ _ Hsp) as [_ Hcur].
  destruct (filter_out_spec _ _ _ Hf) as [_ E].
  assert (Hs : exists s, s ∈ InitFakeHeadSnapshot L :: lv /\ w = snap_of s /\ record_damaged L (timestamp s, Z.of_nat i) = false).
  { apply viewer_cases in Hw as [->|(s & Hs & Hd & ->)]; [exists (InitFakeHeadSnapshot L); split; [left|]; done|].
    rewrite Hcur in Hs. exists s. split; [by right|]. split; [done|]. unfold record_damaged. cbn [fst].
    apply list_elem_of_split in Hs as (l1 & l2 & ->). destruct Hsp as (Hlead & Hok & _).
    destruct (find_here _ _ _ _ _ _ Hlead Hok) as [-> _]. by rewrite Hd, andb_false_r. }
  destruct Hs as (s & Hs & -> & Hrd). assert (Hvis := visible_first s ((x, t0) :: old) 0 n Hl). cbn [map app snd] in *.
  assert (Hin : (timestamp s, Z.of_nat i) ∈ expand_reference L (t0 :: map snd old ++ repeat INVALID_TIMESTAMP n)).
  { rewrite expand_cons by (apply Forall_cons in Hl as [[_ Hv] _]; by intros ->). apply elem_of_app. right. rewrite Hcur.
    unfold seen. apply list_elem_of_omap. exists s. split; [done|].
    destruct (visible_from s _ 0) as [k|].
    - destruct Hvis as (Hk & z & _ & Hz). cbn. do 2 f_equal. assert (E2 := first_at_unique _ _ _ _ _ _ Hz Hi). lia.
    - destruct Hi as (u & Hi & Hnl & _). apply list_elem_of_lookup_2 in Hi. by destruct (Hnl (pick_none _ _ _ _ Hvis Hi)). }
  assert (Hfil : forall o, (timestamp s, Z.of_nat i) ∈ List.filter (fun r => negb (record_damaged L r)) o <-> (timestamp s, Z.of_nat i) ∈ o).
  { intros o. rewrite list_elem_of_In, filter_In, Hrd, <- list_elem_of_In. tauto. }
  apply Hfil. rewrite E. by apply Hfil.
Qed.

(** [ComposeHeader] never damages a snapshot, and every view picks from the new
    header what it picked from the old one. *)
Lemma compose_header {D} clk L x (c : content D) t0 old out es rest :
  snapshots_ok clk L -> version_of x c t0 old -> t0 ∉ ts_active L ->
  SnFilterOutDamaged L (expand_reference L (vh_creatorTs (ct_vh c))) = Ok out ->
  compose_entries 3 (-1) (ct_vh c) out = Ok (es, rest) ->
  rest = [] /\ exists es', es = (x, t0) :: es' /\ (length es' < 3)%nat /\ (forall e, e ∈ es' -> e ∈ old)
    /\ forall w, w ∈ viewers L -> later w t0 -> pick w es' = pick w old.
Proof.
  intros Hok Hver Hact Hf Hc. assert (Hok' := Hok). destruct Hok' as (fut & lv & Hsp).
  destruct (version_creators _ _ _ _ Hver) as [Ecr Hh]. destruct (filter_reference _ _ _ _ (vh_creatorTs (ct_vh c)) Hsp) as (out' & Hf' & Hlen).
  rewrite Hf in Hf'. injection Hf' as <-. destruct (filter_out_spec _ _ _ Hf) as [Hsub _].
  assert (Hrec := fun w i y => viewer_record clk L x t0 old (3 - length old) out w i y Hok (vo_ok _ _ _ _ Hver)). rewrite <- Ecr in Hrec.
  specialize (fun w i y => Hrec w i y Hf). assert (Hvalid := vo_ok _ _ _ _ Hver). apply Forall_cons in Hvalid as [[_ Hv0] _]. cbn in Hv0.
  assert (Hlc : visible_from (InitFakeHeadSnapshot L) (vh_creatorTs (ct_vh c)) 0 = Some 0).
  { rewrite Ecr. cbn. destruct (Z.eqb_spec t0 INVALID_TIMESTAMP) as [->|_]; [done|]. rewrite decide_False; [done|].
    by apply not_active_committed. }
  assert (Eexp : expand_reference L (vh_creatorTs (ct_vh c)) = seen (vh_creatorTs (ct_vh c)) 0 (InitFakeHeadSnapshot L :: lv)).
  { destruct (split_current _ _ _ _ Hsp) as [_ Hcur]. rewrite Ecr. cbn [map app snd]. rewrite expand_cons by (by intros ->).
    by rewrite decide_False, Hcur. }
  assert (Hwc : working_count L (vh_creatorTs (ct_vh c)) = 0%nat) by (rewrite Ecr; cbn; by rewrite decide_False). rewrite Hwc in Hlen.
  destruct (seen_sorted _ _ (list_monotone clk L fut lv Hsp) Hh) as [Hsorted _].
  assert (Hbound : forall r, r ∈ out -> 0 <= snd r < Z.of_nat (length ((x, t0) :: old))).
  { intros r Hr. apply (sublist_subseteq _ _ Hsub) in Hr. rewrite Eexp, Ecr in Hr. by apply seen_bound in Hr; [|apply Hver]. }
  rewrite Eexp in Hsub, Hf. unfold seen in Hsub, Hf, Hsorted. cbn [omap list_omap] in Hsub, Hf, Hsorted. rewrite Hlc in Hsub, Hf, Hsorted.
  cbn [option_map SnFilterOutDamaged] in Hf. rewrite Z.eqb_refl, orb_true_r in Hf.
  destruct (SnFilterOutDamaged L _) as [out1|] eqn:Hf1; [|done]. cbn [bind_res] in Hf. injection Hf as <-.
  assert (Hs1 := sublist_sorted _ _ _ (sublist_map snd _ _ Hsub) Hsorted). cbn [map snd] in Hs1. apply StronglySorted_inv in Hs1 as [Hs1 Hge].
  rewrite (vo_vh _ _ _ _ Hver) in Hc. cbn [compose_entries] in Hc. cbn [Z.eqb] in Hc. rewrite fill_header in Hc by (cbn; apply Hver). cbn [Z.ltb Z.compare Z.to_nat app] in Hc.
  cbn [lookup list_lookup of_option bind_res] in Hc.
  destruct (compose_entries 2 0 _ out1) as [[es' rest']|] eqn:Hc1; [|done]. cbn [bind_res] in Hc. injection Hc as <- <-.
  apply (compose_selects ((x, t0) :: old) (Z.of_nat (length ((x, t0) :: old)))) in Hc1 as (-> & Hl & ids & Hsel & Hsi & Hpos & Hin);
    [|cbn; apply Hver|cbn in Hlen; lia|done|..|done].
  2:{ rewrite Forall_forall. intros r Hr. apply Hbound. by right. }
  split; [done|]. exists es'. split; [done|]. split; [cbn in Hlen; lia|]. split.
  - intros e He. apply list_elem_of_lookup in He as [k Hk]. destruct (Forall2_lookup_r _ _ _ _ _ Hsel Hk) as (i & Hi & Hi0 & He).
    rewrite Forall_forall in Hpos. assert (0 < i) by (apply Hpos; by apply list_elem_of_lookup_2 in Hi).
    destruct (Z.to_nat i) as [|j] eqn:Ej; [lia|]. cbn in He. by apply list_elem_of_lookup_2 in He.
  - intros w Hw Hlat. rewrite (pick_select w ((x, t0) :: old) ids es' Hsel Hsi); [cbn; by rewrite decide_True|].
    intros i y Hi. assert (Hr := Hrec w i y Hw Hi). apply elem_of_cons in Hr as [[= _ E]|Hr].
    + destruct i; [|done]. destruct Hi as (u & [= <- <-] & Hnl & _). done.
    + destruct (Hin _ Hr) as [E|]; [|done]. cbn in E. destruct i; [|done]. destruct Hi as (u & [= <- <-] & Hnl & _). done.
Qed.

(** The numbers of records are those of entries. *)
Lemma compose_total hdr : forall out room prev, Forall (fun r => 0 <= snd r < Z.of_nat (length (header_entries hdr))) out ->
  exists r, compose_entries room prev hdr out = Ok r.
Proof.
  induction out as [|[ts id] out IH]; intros room prev Hb; [by destruct room; eexists|]. apply Forall_cons in Hb as [Hid Hb]. cbn [snd] in Hid. destruct room as [|room]; [by eexists|]. cbn [compose_entries].
  destruct (id =? prev); [by apply IH|]. destruct (Z.ltb_spec id 0); [lia|]. destruct (lookup_lt_is_Some_2 (header_entries hdr) (Z.to_nat id)) as [e He]; [lia|]. rewrite He. cbn.
  destruct (IH room id Hb) as [[l rest] E]. rewrite E. cbn. by eexists.
Qed.

Lemma record_bound {D} clk L x (c : content D) t0 old out : snapshots_ok clk L -> version_of x c t0 old -> t0 ∉ ts_active L ->
  SnFilterOutDamaged L (expand_reference L (vh_creatorTs (ct_vh c))) = Ok out -> Forall (fun r => 0 <= snd r < Z.of_nat (length (header_entries (ct_vh c)))) out.
Proof.
  intros (fut & lv & Hsp) Hver Hact Hf. destruct (version_creators _ _ _ _ Hver) as [Ecr Hh]. destruct (filter_out_spec _ _ _ Hf) as [Hsub _].
  assert (Hvalid := vo_ok _ _ _ _ Hver). apply Forall_cons in Hvalid as [[_ Hv0] _]. cbn in Hv0. destruct (split_current _ _ _ _ Hsp) as [_ Hcur].
  rewrite Forall_forall. intros r Hr. apply (sublist_subseteq _ _ Hsub) in Hr. rewrite Ecr in Hr. cbn [map app snd] in Hr. rewrite expand_cons in Hr by (by intros ->). rewrite decide_False, Hcur in Hr by done.
  assert (Hr' : r ∈ seen (map snd ((x, t0) :: old) ++ repeat INVALID_TIMESTAMP (3 - length old)) 0 (InitFakeHeadSnapshot L :: lv)) by exact Hr.
  apply seen_bound in Hr'; [|apply Hver]. rewrite (vo_vh _ _ _ _ Hver), fill_header, length_app by (cbn; apply Hver). lia.
Qed.

(** * The anchor of a version

    [SnExpandDfvHeader] gives with the records of a header a timestamp, such
    that all snapshots that read the last committed version (or, for a deleted
    block, any version) are at or behind it (Snapshots.v, IsoHeader.v). *)
(** With [isTotalAnchor] the records are the same. *)
Lemma expand_total vd L ts n out a : SnExpandDfvHeader vd L ts n true = Ok (out, a) ->
  SnExpandDfvHeader vd L ts n false = Ok (out, expand_anchor vd L out)
  /\ exists t id, last out = Some (t, id)
     /\ a = (if (t =? SN_LAST_COMMITED_VERSION_TIMESTAMP) || (t =? SN_WORKING_VERSION_TIMESTAMP) then expand_anchor vd L out else t).
Proof.
  unfold SnExpandDfvHeader. set (r := match ts with [] => _ | _ => _ end). destruct r as [o|e]; [|done]. cbn [bind_res].
  destruct (n <? length o)%nat; [done|]. destruct (last o) as [[t id]|] eqn:E; [|done]. intros [= <- <-]. split; [done|]. eauto.
Qed.

Lemma current_past clk L fut lv : split_ok clk L fut lv -> TIMESTAMP_MIN <= clk -> u64 (SnGetSnapshotTimestamps_cur false L + 1) <= clk.
Proof.
  intros Hok Hclk. unfold SnGetSnapshotTimestamps_cur. destruct (split_current _ _ _ _ Hok) as [-> _]. destruct lv as [|s lv]; [change (u64 (INVALID_TIMESTAMP + 1)) with 0; ts_lia|].
  destruct Hok as (_ & [_ Hl _ Hp _ _ _ _ _ _] & _). apply Forall_cons in Hl as [Hs _]. apply Forall_cons in Hp as [Hp _].
  assert (Ht := lv_valid _ Hs). apply IsValidTimestamp_spec in Ht. unfold u64. rewrite Z.mod_small; ts_lia.
Qed.

(** Records of snapshots. *)
Lemma run_end_in id0 last l : run_end id0 last l = last \/ exists r, r ∈ l /\ run_end id0 last l = fst r.
Proof.
  revert last. induction l as [|[t id] l IH]; intros last; [by left|]. cbn. destruct (id =? id0); [|by left].
  destruct (IH t) as [->|(r & Hr & ->)]; right; [exists (t, id); split; [left|done]|exists r; split; [by right|done]].
Qed.

Lemma seen_in versions id l r : r ∈ seen versions id l -> exists s, s ∈ l /\ fst r = timestamp s /\ visible_from s versions id = Some (snd r).
Proof.
  intros Hr. apply list_elem_of_omap in Hr as (s & Hs & E). destruct (visible_from s versions id) as [i|] eqn:Ei; [|done]. injection E as <-. by exists s.
Qed.

Section Anchor.
Context {D : Type} (clk : TIMESTAMP) (L : SnSnapshotsList) (fut lv : list SnSnapshot) (Hok : split_ok clk L fut lv)
  (Hclk : TIMESTAMP_MIN <= clk <= TIMESTAMP_MAX + 1).
Context (x : XPTR) (c : content D) (t0 : TIMESTAMP) (old : list (XPTR * TIMESTAMP)) (Hv : version_of x c t0 old).

Lemma version_expand : let vs := vh_creatorTs (ct_vh c) in header_ok vs
  /\ expand_reference L vs = (if decide (t0 ∈ ts_active L) then [(SN_WORKING_VERSION_TIMESTAMP, 0)] else [])
       ++ seen vs 0 (InitFakeHeadSnapshot L :: lv)
  /\ forall s, match visible s vs with
               | None => pick (snap_of s) ((x, t0) :: old) = None
               | Some i => 0 <= i /\ exists y, pick (snap_of s) ((x, t0) :: old) = Some y /\ first_at (snap_of s) ((x, t0) :: old) (Z.to_nat i) y
               end.
Proof.
  destruct (version_creators _ _ _ _ Hv) as [Ec Hh]. split; [done|]. assert (Hvo := vo_ok _ _ _ _ Hv). split.
  - rewrite Ec. cbn [map snd app]. rewrite expand_cons; [by destruct (split_current _ _ _ _ Hok) as [_ ->]|].
    apply Forall_cons in Hvo as [[_ Hvt] _]. cbn in Hvt. by intros ->.
  - intros s. unfold visible. rewrite Ec. assert (Hf := visible_first s ((x, t0) :: old) 0 (3 - length old)%nat Hvo).
    destruct (visible_from s _ 0) as [i|]; [|done]. rewrite Z.sub_0_r in Hf. exact Hf.
Qed.

Lemma live_bounds s : s ∈ lv -> TIMESTAMP_MIN <= timestamp s <= TIMESTAMP_MAX /\ timestamp s < clk.
Proof.
  intros Hs. destruct Hok as (_ & [_ Hl _ Hp _ _ _ _ _ _] & _). rewrite Forall_forall in Hl, Hp. specialize (Hl s Hs). specialize (Hp s Hs). cbn in Hp.
  assert (Ht := lv_valid _ Hl). apply IsValidTimestamp_spec in Ht. ts_lia.
Qed.

(** The anchor is not in the future when a version is committed. *)
Lemma anchor_past : (t0 ∉ ts_active L \/ Exists (fun e => snd e ∉ ts_active L) old) ->
  expand_anchor false L (expand_reference L (vh_creatorTs (ct_vh c))) <= clk.
Proof.
  intros Hc. destruct version_expand as (Hh & -> & Hvis). assert (Hfh := Hvis (InitFakeHeadSnapshot L)). cbn [seen omap list_omap].
  assert (Hpk : exists y, pick (last_committed L) ((x, t0) :: old) = Some y).
  { destruct (pick (last_committed L) ((x, t0) :: old)) as [y|] eqn:E; [eauto|]. exfalso. assert (Hvo := vo_ok _ _ _ _ Hv).
    assert (Hall : forall e, e ∈ (x, t0) :: old -> snd e ∉ ts_active L -> False).
    { intros [y t] He Hn. rewrite Forall_forall in Hvo. destruct (Hvo _ He) as [_ Ht]. apply (not_active_committed L t Ht Hn). by apply (pick_none _ _ _ _ E He). }
    destruct Hc as [Hc|Hc]; [by apply (Hall (x, t0)); [left|]|]. apply Exists_exists in Hc as (e & He & Hn). by apply (Hall e); [right|]. }
  destruct Hpk as [y Hy]. unfold visible in Hfh. destruct (visible_from (InitFakeHeadSnapshot L) (vh_creatorTs (ct_vh c)) 0) as [i|] eqn:Ei.
  2:{ unfold last_committed in Hy. by rewrite Hy in Hfh. }
  cbn [option_map]. change (omap _ lv) with (seen (vh_creatorTs (ct_vh c)) 0 lv). unfold expand_anchor.
  assert (E : drop_to_lc ((if decide (t0 ∈ ts_active L) then [(SN_WORKING_VERSION_TIMESTAMP, 0)] else []) ++ (timestamp (InitFakeHeadSnapshot L), i) :: seen (vh_creatorTs (ct_vh c)) 0 lv)
    = (SN_LAST_COMMITED_VERSION_TIMESTAMP, i) :: seen (vh_creatorTs (ct_vh c)) 0 lv) by (by destruct (decide _)).
  rewrite E. destruct (run_end_in i SN_LAST_COMMITED_VERSION_TIMESTAMP (seen (vh_creatorTs (ct_vh c)) 0 lv)) as [Er|(r & Hr & Er)]; rewrite Er.
  - rewrite Z.eqb_refl. apply (current_past clk L fut lv Hok). lia.
  - destruct (seen_in _ _ _ _ Hr) as (s & Hs & Es & _). rewrite Es. destruct (live_bounds s Hs). destruct (_ =? _); [apply (current_past clk L fut lv Hok); lia|lia].
Qed.

(** The snapshots that read the last committed version are at or behind it. *)
Lemma anchor_readers s : t0 ∉ ts_active L -> s ∈ lv -> ~ later (snap_of s) t0 ->
  expand_anchor false L (expand_reference L (vh_creatorTs (ct_vh c))) <= timestamp s.
Proof.
  intros Ht Hs Hl. destruct version_expand as (Hh & _ & Hvis). assert (Hvo := vo_ok _ _ _ _ Hv). apply Forall_cons in Hvo as [[_ Hvt] _]. cbn in Hvt.
  assert (Hzero : forall z, ~ later (snap_of z) t0 -> visible z (vh_creatorTs (ct_vh c)) = Some 0).
  { intros z Hz. destruct (version_creators _ _ _ _ Hv) as [-> _]. unfold visible. cbn. destruct (Z.eqb_spec t0 INVALID_TIMESTAMP) as [->|]; [done|].
    by rewrite decide_False. }
  destruct (anchor_spec clk L fut lv (vh_creatorTs (ct_vh c)) 0 Hok Hh) as [Ha _]; [by apply Hzero, not_active_committed|]. apply Ha; [done|]. by apply Hzero.
Qed.

(** All snapshots that read any version are at or behind the total anchor. *)
Lemma total_anchor_readers out a s : SnExpandDfvHeader false L (vh_creatorTs (ct_vh c)) OUT_SIZE true = Ok (out, a) ->
  s ∈ lv -> pick (snap_of s) ((x, t0) :: old) <> None -> a <= timestamp s.
Proof.
  intros Hrun Hs Hp. destruct version_expand as (Hh & Href & Hvis). destruct (expand_total _ _ _ _ _ _ Hrun) as (Hrun' & t & id & Hlast & Ha).
  destruct (expand_ok clk false L (vh_creatorTs (ct_vh c)) false) as (a' & E & _); [by exists fut, lv|done|done|]. unfold OUT_SIZE in Hrun'. rewrite Hrun' in E.
  injection E as -> _. specialize (Hvis s). destruct (visible s (vh_creatorTs (ct_vh c))) as [i|] eqn:Ei; [|by rewrite Hvis in Hp].
  assert (Hlive : forall r, r ∈ seen (vh_creatorTs (ct_vh c)) 0 lv -> exists z, z ∈ lv /\ fst r = timestamp z) by (intros r Hr; destruct (seen_in _ _ _ _ Hr) as (z & Hz & E & _); eauto).
  assert (Hin : (timestamp s, i) ∈ seen (vh_creatorTs (ct_vh c)) 0 lv).
  { apply list_elem_of_omap. exists s. split; [done|]. unfold visible in Ei. by rewrite Ei. }
  assert (Hle : exists z, z ∈ lv /\ t = timestamp z /\ t <= timestamp s).
  { assert (Hne : seen (vh_creatorTs (ct_vh c)) 0 lv <> []) by (intros E; rewrite E in Hin; by apply elem_of_nil in Hin).
    assert (Hl : last (seen (vh_creatorTs (ct_vh c)) 0 lv) = Some (t, id)).
    { rewrite Href in Hlast. cbn [seen omap list_omap] in Hlast. change (omap _ lv) with (seen (vh_creatorTs (ct_vh c)) 0 lv) in Hlast.
      destruct (decide _); destruct (option_map _ _); cbn [app] in Hlast; rewrite ?last_cons in Hlast; destruct (last (seen _ 0 lv)) eqn:El; try done; by apply last_None in El. }
    assert (Hord := ls_order _ _ _ _ (proj1 (proj2 Hok))). clear -Hl Hin Hord. revert Hl Hin Hord. generalize (vh_creatorTs (ct_vh c)). intros vs. revert t id.
    induction lv as [|z l IH]; intros t id Hl Hin Hord; [done|]. cbn in Hord. apply StronglySorted_inv in Hord as [Hord Hz]. cbn [seen omap list_omap] in Hl, Hin.
    change (omap _ l) with (seen vs 0 l) in Hl, Hin. destruct (visible_from z vs 0) as [j|]; cbn [option_map] in Hl, Hin.
    - apply elem_of_cons in Hin as [E|Hin].
      + injection E as E ->. rewrite last_cons in Hl. destruct (last (seen vs 0 l)) as [r|] eqn:El.
        * injection Hl as ->. assert (Hr : (t, id) ∈ seen vs 0 l) by (apply last_Some_elem_of; done). destruct (seen_in _ _ _ _ Hr) as (q & Hq & Eq & _). cbn in Eq.
          exists q. split; [by right|]. split; [done|]. rewrite Forall_forall in Hz. assert (Hlt : timestamp q ∈ map timestamp l) by (apply list_elem_of_fmap; eauto). specialize (Hz _ Hlt). lia.
        * injection Hl as <- _. exists z. split; [left|]. split; [done|]. lia.
      + rewrite last_cons in Hl. destruct (last (seen vs 0 l)) as [r|] eqn:El; [|by apply last_None in El; rewrite El in Hin; apply elem_of_nil in Hin].
        injection Hl as ->. destruct (IH t id eq_refl Hin Hord) as (q & Hq & K). exists q. split; [by right|done].
    - destruct (IH t id Hl Hin Hord) as (q & Hq & K). exists q. split; [by right|done]. }
  destruct Hle as (z & Hz & -> & Hle). destruct (live_bounds z Hz) as [Hb _]. rewrite Ha.
  destruct (Z.eqb_spec (timestamp z) SN_LAST_COMMITED_VERSION_TIMESTAMP); [ts_lia|]. destruct (Z.eqb_spec (timestamp z) SN_WORKING_VERSION_TIMESTAMP); [ts_lia|]. done.
Qed.

Lemma total_anchor_past out a : SnExpandDfvHeader false L (vh_creatorTs (ct_vh c)) OUT_SIZE true = Ok (out, a) ->
  (t0 ∉ ts_active L \/ Exists (fun e => snd e ∉ ts_active L) old) -> a <= clk.
Proof.
  intros Hrun Hc. assert (Hp := anchor_past Hc). destruct version_expand as (Hh & Href & Hvis). destruct (expand_total _ _ _ _ _ _ Hrun) as (Hrun' & t & id & Hlast & ->).
  destruct (expand_ok clk false L (vh_creatorTs (ct_vh c)) false) as (a' & E & _); [by exists fut, lv|done|done|]. unfold OUT_SIZE in Hrun'. rewrite Hrun' in E.
  injection E as -> _. destruct (_ || _) eqn:Et; [done|]. apply orb_false_iff in Et as [E1%Z.eqb_neq E2%Z.eqb_neq].
  assert (Hr : (t, id) ∈ expand_reference L (vh_creatorTs (ct_vh c))) by (apply last_Some_elem_of; done). rewrite Href in Hr. apply elem_of_app in Hr as [Hr|Hr].
  - destruct (decide _); [|by apply elem_of_nil in Hr]. apply list_elem_of_singleton in Hr. by injection Hr as -> ->.
  - destruct (seen_in _ _ _ _ Hr) as (s & Hs & Es & _). cbn in Es. apply elem_of_cons in Hs as [->|Hs]; [done|]. destruct (live_bounds s Hs). lia.
Qed.
End Anchor.
