(* ===== verification/Iso.v ===== *)
(** * The state of the versions of blocks

    The invariant that ties the pages of blocks to the snapshots and to the
    functions that transactions still have to commit or to roll back, and the
    contents a view reads ([reads]).  The pages are given by what is seen
    through the buffers (BufInv.v). *)

From Stdlib Require Import ZArith List Lia Bool Sorted.
From stdpp Require Import base gmap list sets sorting.
From S2P Require Import Prelude WuBase Snapshots SnGc SnApi SnInv SnPurify SnOps SnEvolve SnExpand Buffers Versions BufInv IsoHeader.
Local Open Scope sedna_scope.
Local Open Scope Z_scope.

(** ** States *)

(** A pending function with the timestamp of its transaction. *)
Definition pending_fn : Type := TIMESTAMP * VeFunction.

(** The blocks that are freed when the function is committed, once no snapshot
    needs them, and the blocks with a working version. *)
Definition pending (F : list pending_fn) : list XPTR :=
  omap (fun p => match vf_type (snd p) with VE_FUNCTION_ALLOCATE_BLOCK => None | _ => Some (vf_xptr (snd p)) end) F.
Definition is_working (f : VeFunction) : bool := negb (is_free_block (vf_type f)).
Definition working (F : list pending_fn) : list XPTR :=
  omap (fun p => if is_working (snd p) then Some (vf_lxptr (snd p)) else None) F.

Arguments pending : simpl never.
Arguments working : simpl never.

Record iso_state (D : Type) := mk_is {
  il : SnSnapshotsList;
  ic : TIMESTAMP;
  ip : list pending_fn;
  iv : XPTR -> option (content D);
  ifr : XPTR -> Prop
}.
Arguments mk_is {D}.
Arguments il {D}.
Arguments ic {D}.
Arguments ip {D}.
Arguments iv {D}.
Arguments ifr {D}.

Section Iso.
Context {D : Type}.
Implicit Types st : iso_state D.

(** The block [y] is in use and holds the version [t] of the block [x]. *)
Definition holds st (y x : XPTR) (t : TIMESTAMP) (old : list (XPTR * TIMESTAMP)) : Prop :=
  ~ ifr st y /\ exists c, iv st y = Some c /\ version_of x c t old.
Definition master st (x : XPTR) := holds st x x.

(** The block was deleted before the view was taken. *)
Definition gone (L : SnSnapshotsList) (w : snap) (x : XPTR) : Prop :=
  exists o, (mk_entry 0 x, o) ∈ owned L /\ fst w ∉ o.

(** The view reads the block [x] at the address [y], and finds [c]. *)
Definition reads_at st (w : snap) (x y : XPTR) : Prop :=
  ~ gone (il st) w x /\ exists t0 old, master st x t0 old /\ pick w ((x, t0) :: old) = Some y /\ ~ ifr st y.
Definition reads st (w : snap) (x : XPTR) (c : content D) : Prop :=
  exists y, reads_at st w x y /\ iv st y = Some c.

(** ** The invariant *)

(** The version at [y] stays: a snapshot owns it, or it waits in a function. *)
Definition retained st (w : snap) (x y : XPTR) : Prop :=
  owns (il st) (fst w) (mk_entry x y)
  \/ exists o a ty, (o, mk_function x y a ty) ∈ ip st /\ is_create ty = true /\ a <= fst w.

Definition settled st (t : TIMESTAMP) : Prop := t < ic st /\ t ∉ ts_active (il st).

(** What a pending function stands for. *)
Definition fn_ok st (p : pending_fn) : Prop :=
  let '(o, f) := p in
  match vf_type f with
  | VE_FUNCTION_ALLOCATE_BLOCK => master st (vf_lxptr f) o []
  | VE_FUNCTION_FREE_BLOCK =>
      vf_xptr f = vf_lxptr f /\ exists t0 old, master st (vf_lxptr f) t0 old
        /\ (t0 ∈ ts_active (il st) -> t0 = o) /\ (t0 <> o \/ old <> [] -> vf_anchorTs f <= ic st)
        /\ forall s, s ∈ undamaged_live (il st) -> pick (snap_of s) ((vf_lxptr f, t0) :: old) <> None -> vf_anchorTs f <= timestamp s
  | _ =>
      vf_lxptr f <> vf_xptr f /\ exists t1 es old,
        master st (vf_lxptr f) o ((vf_xptr f, t1) :: es) /\ holds st (vf_xptr f) (vf_lxptr f) t1 old
        /\ settled st t1 /\ Forall (fun e => settled st (snd e)) old /\ vf_anchorTs f <= ic st
        /\ forall w, w ∈ viewers (il st) -> pick w ((vf_xptr f, t1) :: es) = pick w ((vf_xptr f, t1) :: old)
  end.

(** What an old version, or a deleted block, is. *)
Definition entry_fine st (e : SnVersionEntry) : Prop :=
  if lxptr e =? 0 then exists t0 old, master st (xptr e) t0 old /\ t0 ∉ ts_active (il st)
  else xptr e <> lxptr e /\ exists t old, holds st (xptr e) (lxptr e) t old.

Record iso st : Prop := {
  i_snap : snapshots_ok (ic st) (il st);
  i_clock : TIMESTAMP_MIN <= ic st <= TIMESTAMP_MAX + 1;
  i_hist : forall x t0 old, master st x t0 old -> t0 < ic st /\ Forall (fun e => settled st (snd e)) old;
  i_kept : forall x t0 old w y, master st x t0 old -> w ∈ viewers (il st) -> ~ gone (il st) w x ->
    later w t0 -> pick w old = Some y ->
    (exists t o', holds st y x t o' /\ ~ later w t /\ t < ic st) /\ retained st w x y;
  i_work : forall x t0 old, master st x t0 old -> t0 ∈ ts_active (il st) ->
    exists f, (t0, f) ∈ ip st /\ vf_lxptr f = x /\ is_working f = true;
  i_fn : forall p, p ∈ ip st -> fn_ok st p;
  i_owned : forall e o, (e, o) ∈ owned (il st) -> entry_fine st e;
  i_addr : NoDup (map block_of (owned (il st)) ++ pending (ip st));
  i_inuse : forall x, x ∈ map block_of (owned (il st)) ++ pending (ip st) -> ~ ifr st x /\ x <> 0;
  i_single : NoDup (working (ip st))
}.

Lemma holds_inj st y x x' t t' old old' : holds st y x t old -> holds st y x' t' old' -> x' = x /\ t' = t /\ old' = old.
Proof. intros [_ (c & Hc & H)] [_ (c' & Hc' & H')]. rewrite Hc in Hc'. injection Hc' as <-. by apply (version_inj x x' c). Qed.

(** A block that is read is in use. *)
Lemma reads_at_cases st w x y : reads_at st w x y -> exists t0 old, master st x t0 old
  /\ ((~ later w t0 /\ y = x) \/ (later w t0 /\ pick w old = Some y)).
Proof.
  intros (_ & t0 & old & Hm & Hp & _). exists t0, old. split; [done|]. cbn in Hp.
  destruct (decide (later w t0)); [by right|]. left. by injection Hp as ->.
Qed.

Lemma reads_at_kept st w x y : iso st -> w ∈ viewers (il st) -> reads_at st w x y ->
  exists t old, holds st y x t old.
Proof.
  intros Hi Hw Hr. assert (Hr' := Hr). apply reads_at_cases in Hr' as (t0 & old & Hm & [[_ ->]|[Hl Hp]]); [eauto|].
  destruct Hr as [Hg _]. destruct (i_kept _ Hi x t0 old w y Hm Hw Hg Hl Hp) as [(t & o & H & _) _]. eauto.
Qed.

(** ** Changes that keep the headers *)

(** The same versions at the same places. *)
Definition same_holds st st' : Prop :=
  (forall y, ifr st' y <-> ifr st y) /\ forall y x t old, holds st' y x t old <-> holds st y x t old.

Lemma same_holds_content st st' : (forall y, ifr st' y <-> ifr st y) ->
  (forall y, ~ ifr st y -> (ct_vh <$> iv st' y) = (ct_vh <$> iv st y) /\ (ct_p <$> iv st' y) = (ct_p <$> iv st y)) -> same_holds st st'.
Proof.
  intros Hf Hv. split; [done|]. intros y x t old. unfold holds. rewrite Hf.
  assert (Hver : forall c c' : content D, ct_vh c = ct_vh c' -> ct_p c = ct_p c' -> version_of x c t old -> version_of x c' t old).
  { intros c c' E1 E2 [V1 V2 V3 V4]. constructor; congruence. }
  split; intros [Hn (c & Hc & H)]; (split; [done|]); destruct (Hv y Hn) as [E1 E2]; rewrite Hc in E1, E2.
  - destruct (iv st y) as [c'|]; [|done]. cbn in E1, E2. injection E1 as E1. injection E2 as E2. exists c'. split; [done|]. by apply (Hver c).
  - destruct (iv st' y) as [c'|]; [|done]. cbn in E1, E2. injection E1 as E1. injection E2 as E2. exists c'. split; [done|]. by apply (Hver c).
Qed.

(** The transactions are the same, and no view is new. *)
Definition views_le (L L' : SnSnapshotsList) : Prop :=
  ts_active L' = ts_active L
  /\ forall s', s' ∈ undamaged_live L' -> exists s, s ∈ undamaged_live L /\ snap_of s' = snap_of s.

Lemma views_le_refl L : views_le L L.
Proof. split; [done|]. eauto. Qed.

Lemma views_le_viewer L L' w : views_le L L' -> w ∈ viewers L' -> w ∈ viewers L.
Proof.
  intros [Ha Hl] [->|H]%elem_of_cons.
  - unfold last_committed, InitFakeHeadSnapshot. rewrite Ha. left.
  - apply list_elem_of_fmap in H as (s' & -> & Hs). destruct (Hl s' Hs) as (s & Hs0 & ->). right. apply list_elem_of_fmap. eauto.
Qed.

Lemma settled_le st st' t : views_le (il st) (il st') -> ic st' = ic st -> settled st' t <-> settled st t.
Proof. intros [Ha _] Hc. unfold settled. by rewrite Ha, Hc. Qed.

Lemma settled_le_all st st' (l : list (XPTR * TIMESTAMP)) : views_le (il st) (il st') -> ic st' = ic st ->
  Forall (fun e => settled st (snd e)) l -> Forall (fun e => settled st' (snd e)) l.
Proof. intros Hv Hc Hl. apply (Forall_impl _ _ _ Hl). intros e. by apply settled_le. Qed.

(** A pending function stays what it stands for while its blocks do. *)
Lemma fn_ok_mono st st' o f : views_le (il st) (il st') -> ic st' = ic st ->
  (forall x t old, holds st (vf_lxptr f) x t old -> holds st' (vf_lxptr f) x t old) ->
  (vf_type f <> VE_FUNCTION_ALLOCATE_BLOCK -> forall x t old, holds st (vf_xptr f) x t old -> holds st' (vf_xptr f) x t old) ->
  fn_ok st (o, f) -> fn_ok st' (o, f).
Proof.
  intros Hv Hc Hlx Hy. assert (Hset := fun l => settled_le_all st st' l Hv Hc). assert (Hw := fun w => views_le_viewer _ _ w Hv).
  unfold fn_ok, master. rewrite Hc. destruct (vf_type f).
  - by apply Hlx.
  - intros (Hne & t1 & es & old & K1 & K2 & K3 & K4 & K5 & K6). split; [done|]. exists t1, es, old.
    split; [by apply Hlx|]. split; [by apply Hy|]. split; [by apply (settled_le st)|]. split; [by apply Hset|]. split; [done|]. auto.
  - intros (Hne & t1 & es & old & K1 & K2 & K3 & K4 & K5 & K6). split; [done|]. exists t1, es, old.
    split; [by apply Hlx|]. split; [by apply Hy|]. split; [by apply (settled_le st)|]. split; [by apply Hset|]. split; [done|]. auto.
  - intros (E & t0 & old & K1 & K2 & K3 & K4). split; [done|]. exists t0, old. split; [by apply Hlx|]. split; [by rewrite (proj1 Hv)|]. split; [done|].
    intros s' Hs' Hp. destruct (proj2 Hv s' Hs') as (s & Hs & Es). rewrite Es in Hp. specialize (K4 s Hs Hp). unfold snap_of in Es. injection Es as -> _. done.
Qed.

Lemma entry_fine_mono st st' e : views_le (il st) (il st') ->
  (forall x t old, holds st (xptr e) x t old -> holds st' (xptr e) x t old) -> entry_fine st e -> entry_fine st' e.
Proof.
  intros [Ha _] Hh. unfold entry_fine. rewrite Ha. destruct (lxptr e =? 0).
  - intros (t0 & old & Hm & Hn). exists t0, old. split; [by apply Hh|done].
  - intros (Hne & t & old & Hm). split; [done|]. exists t, old. by apply Hh.
Qed.

Lemma iso_same st st' : same_holds st st' -> il st' = il st -> ic st' = ic st -> ip st' = ip st -> iso st -> iso st'.
Proof.
  intros Hs El Ec Ep [H1 H2 H3 H4 H5 H6 H7 H8 H9 H10]. assert (Hs' := Hs). destruct Hs' as [Hf Hh].
  constructor; rewrite ?El, ?Ec, ?Ep; auto.
  - intros x t0 old Hm%Hh. unfold settled. rewrite El, Ec. by apply (H3 x).
  - intros x t0 old w y Hm%Hh Hw Hg Hl Hp. destruct (H4 x t0 old w y Hm Hw Hg Hl Hp) as [(t & o' & Hy & Hnl & Hlt) Hr].
    split; [exists t, o'; split; [by apply Hh|done]|]. unfold retained in *. by rewrite El, Ep.
  - intros x t0 old Hm%Hh. by apply (H5 x t0 old).
  - intros [o f] Hp. apply (fn_ok_mono st); [by rewrite El; apply views_le_refl|done|intros; by apply Hh..|by apply H6].
  - intros e o He. apply (entry_fine_mono st); [by rewrite El; apply views_le_refl|intros; by apply Hh|by apply (H7 e o)].
  - intros x Hx. rewrite Hf. by apply H9.
Qed.

Lemma reads_at_same st st' w x y : same_holds st st' -> il st' = il st -> reads_at st' w x y <-> reads_at st w x y.
Proof.
  intros [Hf Hh] El. unfold reads_at. rewrite El. split; intros (Hg & t0 & old & Hm & Hp & Hy);
    (split; [done|]; exists t0, old; split; [by apply Hh|]; split; [done|]; by intros ?%Hf).
Qed.
End Iso.
