(* ===== verification/IsoList.v ===== *)
(** * Changes of the list of snapshots against the versions of blocks

    Registration, the end of transactions, advances, checkpoints and the
    collection of old versions (wusnapshots.cpp) keep the invariant of Iso.v,
    and no view in use loses what it reads. *)

From Stdlib Require Import ZArith List Lia Bool Sorted.
From stdpp Require Import base gmap list sets sorting.
From S2P Require Import Prelude WuBase Snapshots SnGc SnApi SnInv SnPurify SnOps SnEvolve SnExpand Buffers Versions BufInv IsoHeader Iso.
Local Open Scope sedna_scope.
Local Open Scope Z_scope.

Section Views.
Context {D : Type}.
Implicit Types st : iso_state D.

Definition set_il (L : SnSnapshotsList) (clk : TIMESTAMP) st : iso_state D := mk_is L clk (ip st) (iv st) (ifr st).

Lemma undamaged_viewer L s : s ∈ undamaged_live L -> s ∈ from_current L /\ isDamaged s = false /\ snap_of s ∈ viewers L.
Proof.
  intros Hs. assert (Hs' := Hs). apply list_elem_of_In, filter_In in Hs' as [H1 H2]. apply list_elem_of_In in H1.
  split; [done|]. split; [by destruct (isDamaged s)|]. right. apply list_elem_of_fmap. eauto.
Qed.

Lemma live_timestamp clk L s : snapshots_ok clk L -> s ∈ from_current L -> TIMESTAMP_MIN <= timestamp s <= TIMESTAMP_MAX /\ timestamp s < clk.
Proof.
  intros (fut & lv & Hsp) Hs. destruct (split_current _ _ _ _ Hsp) as [_ Hcur]. rewrite Hcur in Hs. destruct Hsp as (_ & Hok & _).
  assert (H1 := ls_live _ _ _ _ Hok). assert (H2 := ls_past _ _ _ _ Hok). rewrite Forall_forall in H1, H2.
  split; [by apply IsValidTimestamp_spec, H1|by apply H2].
Qed.

Lemma owner_past clk L e o t : snapshots_ok clk L -> (e, o) ∈ owned L -> t ∈ o -> t < clk /\ t <= TIMESTAMP_MAX.
Proof.
  intros (fut & lv & Hsp) He Ht. assert (Ho : owns L t e) by (by exists o). destruct (owner_live _ _ _ _ _ _ Hsp Ho) as [Hin Hlt].
  split; [done|]. apply list_elem_of_fmap in Hin as (s & -> & Hs).
  apply (live_timestamp clk L); [by exists fut, lv|]. by destruct (split_current _ _ _ _ Hsp) as [_ ->].
Qed.

(** Views that agree on everything that is settled. *)
Lemma pick_agree w w' (l : list (XPTR * TIMESTAMP)) :
  Forall (fun e => later w' (snd e) <-> later w (snd e)) l -> pick w' l = pick w l.
Proof.
  induction 1 as [|[x t] l H _ IH]; [done|]. cbn in *. destruct (decide (later w' t)), (decide (later w t)); tauto.
Qed.

(** What a change of the list may do to the views: a view of a snapshot stays,
    goes, or is new and then agrees with the last committed state. *)
Record views_change (clk : TIMESTAMP) (L L' : SnSnapshotsList) : Prop := {
  vc_owned : owned L' ≡ₚ owned L;
  vc_active : forall t, t < clk -> t ∈ ts_active L' -> t ∈ ts_active L;
  vc_live : forall s', s' ∈ undamaged_live L' ->
    (exists s, s ∈ undamaged_live L /\ snap_of s' = snap_of s)
    \/ (clk <= timestamp s' /\ forall t, t < clk -> later (snap_of s') t <-> later (last_committed L) t)
}.

Lemma views_cases clk L L' w' : clk <= TIMESTAMP_MAX + 1 -> views_change clk L L' -> w' ∈ viewers L' ->
  exists w, w ∈ viewers L /\ (fst w' = fst w \/ (w = last_committed L /\ clk <= fst w'))
    /\ (forall t, t < clk -> later w' t -> later w t)
    /\ (forall t, t < clk -> t ∉ ts_active L -> later w t -> later w' t).
Proof.
  intros Hclk [_ Ha Hl] Hw. apply elem_of_cons in Hw as [->|Hw].
  - exists (last_committed L). split; [left|]. split; [by left|]. unfold later. cbn. split.
    + intros t Ht [H|H]; [ts_lia|]. right. by apply Ha.
    + intros t Ht Hn [H|H]; [ts_lia|done].
  - apply list_elem_of_fmap in Hw as (s' & -> & Hs). destruct (Hl s' Hs) as [(s & Hs0 & ->)|[Hc Hlc]].
    + exists (snap_of s). split; [by apply undamaged_viewer|]. split; [by left|]. done.
    + exists (last_committed L). split; [left|]. split; [by right|]. split; intros t Ht; rewrite Hlc by done; done.
Qed.

Lemma gone_change clk L L' w w' x : snapshots_ok clk L -> views_change clk L L' ->
  fst w' = fst w \/ clk <= fst w' -> gone L w x -> gone L' w' x.
Proof.
  intros Hok Hv Hf (o & Hin & Hn). exists o. split; [by rewrite (vc_owned _ _ _ Hv)|].
  destruct Hf as [->|Hc]; [done|]. intros Ho. destruct (owner_past _ _ _ _ _ Hok Hin Ho). lia.
Qed.

Lemma iso_views st L' clk' : iso st -> snapshots_ok clk' L' -> ic st <= clk' <= TIMESTAMP_MAX + 1 ->
  views_change (ic st) (il st) L' ->
  (forall s', s' ∈ undamaged_live L' -> ic st <= timestamp s' -> forall o f, (o, f) ∈ ip st -> o ∈ ts_active (il st)) -> iso (set_il L' clk' st).
Proof.
  intros Hi Hok' Hclk Hv Hact. assert (Hcases := fun w' => views_cases _ _ _ w' (proj2 (i_clock _ Hi)) Hv).
  destruct Hi as [H1 H2 H3 H4 H5 H6 H7 H8 H9 H10].
  assert (Hset : forall t, settled st t -> settled (set_il L' clk' st) t).
  { intros t [Ht Hn]. split; [cbn; lia|]. cbn. intros Ha. apply Hn. by apply (vc_active _ _ _ Hv). }
  assert (Hagree : forall w w' l, (forall t, t < ic st -> later w' t -> later w t) ->
    (forall t, t < ic st -> t ∉ ts_active (il st) -> later w t -> later w' t) ->
    Forall (fun e : XPTR * TIMESTAMP => settled st (snd e)) l -> pick w' l = pick w l).
  { intros w w' l K1 K2 Hl. apply pick_agree, (Forall_impl _ _ _ Hl). intros e [E1 E2]. split; auto. }
  assert (Hown : forall t e, owns (il st) t e -> owns L' t e).
  { intros t e (o & Hin & Ht). exists o. by rewrite (vc_owned _ _ _ Hv). }
  constructor; cbn; auto.
  - lia.
  - intros x t0 old Hm. destruct (H3 x t0 old Hm) as [E1 E2]. split; [lia|]. by apply (Forall_impl _ _ _ E2); auto.
  - intros x t0 old w' y Hm Hw' Hg Hl Hp. destruct (Hcases w' Hw') as (w & Hw & Hf & K1 & K2).
    destruct (H3 x t0 old Hm) as [E1 E2].
    destruct (H4 x t0 old w y Hm Hw) as [(t & o1 & Hy & Hnl & Hlt) Hr].
    + intros Hg'. apply Hg. apply (gone_change _ _ _ w w' x H1 Hv); [|done]. tauto.
    + by apply K1.
    + by rewrite <- (Hagree w w' old).
    + split; [exists t, o1; split; [done|]; split; [intros ?%K1; done|lia]|]. destruct Hr as [Hr|(o & a & ty & Hin & Hc & Ha)].
      * destruct Hf as [E|[-> _]]; [left; cbn; rewrite E; by apply Hown|]. destruct Hr as (o & Hin & Ht).
        destruct (owner_past _ _ _ _ _ H1 Hin Ht) as [_ Hmax]. cbn in Hmax. ts_lia.
      * right. exists o, a, ty. split; [done|]. split; [done|]. destruct Hf as [->|[_ Hge]]; [done|].
        assert (Hfn := H6 _ Hin). assert (a <= ic st); [|lia]. unfold fn_ok in Hfn. cbn in Hfn.
        destruct ty; try done; destruct Hfn as (_ & ? & ? & ? & _ & _ & _ & _ & Hle & _); done.
  - intros x t0 old Hm Ha. apply (H5 x t0 old Hm). apply (vc_active _ _ _ Hv); [|done]. by apply (H3 x t0 old).
  - intros [o f] Hin. specialize (H6 _ Hin). unfold fn_ok in *. destruct (vf_type f); [done|..].
    1, 2: destruct H6 as (Hne & t1 & es & old & K1 & K2 & K3 & K4 & K5 & K6); split; [done|]; exists t1, es, old;
      split; [done|]; split; [done|]; split; [by apply Hset|]; split; [by apply (Forall_impl _ _ _ K4); auto|]; split; [cbn; lia|];
      intros w' Hw'; destruct (Hcases w' Hw') as (w & Hw & _ & J1 & J2);
      rewrite !(Hagree w w') by (done || (constructor; [done|done]) || (apply (H3 _ _ _ K1))); by apply K6.
    destruct H6 as (E & t0 & old & K1 & K2 & K3 & K4). split; [done|]. exists t0, old. split; [done|]. split; [|split; [intros K; specialize (K3 K); cbn; lia|]].
    + intros Ha. apply K2, (vc_active _ _ _ Hv); [|done]. by apply (H3 _ _ _ K1).
    + intros s' Hs' Hp. destruct (vc_live _ _ _ Hv s' Hs') as [(s & Hs & Es)|[Hge Hl]].
      2:{ destruct (decide (t0 = o)) as [->|Hne]; [|specialize (K3 (or_introl Hne)); lia]. destruct old as [|e old]; [|assert (vf_anchorTs f <= ic st) by (apply K3; by right); lia].
          exfalso. apply Hp. cbn. rewrite decide_True; [done|]. assert (Ha := Hact s' Hs' Hge o f Hin). apply Hl; [by apply (H3 _ _ _ K1)|]. by right. }
      rewrite Es in Hp. specialize (K4 s Hs Hp). unfold snap_of in Es. injection Es as -> _. done.
  - intros e o He. rewrite (vc_owned _ _ _ Hv) in He. specialize (H7 e o He). unfold entry_fine in *. destruct (lxptr e =? 0); [|done].
    destruct H7 as (t0 & old & Hm & Ha). exists t0, old. split; [done|]. cbn. intros Ha'. apply Ha, (vc_active _ _ _ Hv); [|done].
    by apply (H3 _ _ _ Hm).
  - by rewrite (vc_owned _ _ _ Hv).
  - intros x. rewrite (vc_owned _ _ _ Hv). apply H9.
Qed.

(** No view reads anything else. *)
Lemma reads_views st L' clk' w x y : owned L' ≡ₚ owned (il st) -> reads_at (set_il L' clk' st) w x y <-> reads_at st w x y.
Proof.
  intros Ho. assert (Hg : gone L' w x <-> gone (il st) w x) by (unfold gone; setoid_rewrite Ho; done).
  unfold reads_at. cbn. by rewrite Hg.
Qed.

(** A new snapshot reads the last committed state. *)
Lemma reads_new st w x y : iso st -> ic st <= fst w -> (forall t, t < ic st -> later w t <-> later (last_committed (il st)) t) ->
  reads_at st w x y <-> reads_at st (last_committed (il st)) x y.
Proof.
  intros Hi Hw Hl. assert (Hg : gone (il st) w x <-> gone (il st) (last_committed (il st)) x).
  { unfold gone. split; intros (o & Hin & Hn); exists o; (split; [done|]); intros Ho; destruct (owner_past _ _ _ _ _ (i_snap _ Hi) Hin Ho) as [? ?].
    - cbn in *. ts_lia.
    - lia. }
  unfold reads_at. rewrite Hg. apply and_iff_compat_l.
  assert (Hp : forall t0 old, master st x t0 old -> pick w ((x, t0) :: old) = pick (last_committed (il st)) ((x, t0) :: old)).
  { intros t0 old Hm. destruct (i_hist _ Hi _ _ _ Hm) as [E1 E2]. apply pick_agree. constructor; [by apply Hl|].
    apply (Forall_impl _ _ _ E2). intros e [E _]. by apply Hl. }
  split; intros (t0 & old & Hm & Hpick & Hf); exists t0, old; (split; [done|]; split; [|done]).
  - by rewrite <- Hp.
  - by rewrite Hp.
Qed.
End Views.

(** * Blocks that are freed, and versions that are handed over

    The collection of old versions ([PurifySnapshots]) and the requests of a
    transaction that commits ([SnSubmitRequestForGc]) against the invariant of
    Iso.v: no view in use loses a page it reads. *)
(** ** Lists without duplicates *)

Lemma nodup_omap_inj {A B} (g : A -> option B) l a b x : NoDup (omap g l) -> a ∈ l -> b ∈ l -> g a = Some x -> g b = Some x -> a = b.
Proof.
  intros Hnd Ha Hb Ga Gb. apply list_elem_of_split in Ha as (l1 & l2 & ->). rewrite omap_app in Hnd. cbn in Hnd. rewrite Ga in Hnd.
  apply NoDup_app in Hnd as (_ & H1 & [H2 _]%NoDup_cons). rewrite elem_of_app, elem_of_cons in Hb.
  assert (Hin : forall l, b ∈ l -> x ∈ omap g l) by (intros l Hl; apply list_elem_of_omap; eauto).
  destruct Hb as [Hb|[->|Hb]]; [|done|]; exfalso; [apply (H1 x); [by apply Hin|left]|by apply H2, Hin].
Qed.

Lemma nodup_map_inj {A B} (g : A -> B) l a b : NoDup (map g l) -> a ∈ l -> b ∈ l -> g a = g b -> a = b.
Proof.
  intros Hnd Ha Hb E. apply list_elem_of_lookup in Ha as [i Hi], Hb as [j Hj].
  assert (i = j) as ->; [|congruence]. eapply NoDup_lookup; [exact Hnd| |].
  - by rewrite list_lookup_fmap, Hi.
  - rewrite list_lookup_fmap, Hj. cbn. by rewrite E.
Qed.

Lemma disown_all_fst V v v' : disown_all V v = Some v' -> fst v' = fst v.
Proof. unfold disown_all. intros H. destruct (List.filter _ (snd v)); [discriminate H|]. by injection H as <-. Qed.

(** The versions that lose all owners are exactly the ones that go. *)
Lemma disown_blocks V (vs : list owned_version) :
  map block_of vs ≡ₚ map block_of (omap (disown_all V) vs) ++ map block_of (List.filter (orphaned_all V) vs).
Proof.
  induction vs as [|v vs IH]; [done|]. cbn [map omap list_omap List.filter].
  destruct (disown_all V v) as [v'|] eqn:Hd.
  - assert (Ho : orphaned_all V v = false).
    { apply not_true_is_false. intros Ho%orphaned_all_None. congruence. }
    rewrite Ho. cbn. rewrite IH. unfold block_of at 1 4. by rewrite (disown_all_fst _ _ _ Hd).
  - apply orphaned_all_None in Hd. rewrite Hd. cbn. rewrite IH. by apply Permutation_middle.
Qed.

Section Gc.
Context {D : Type}.
Implicit Types st : iso_state D.

(** ** Addresses *)

Lemma pending_in (F : list pending_fn) o f : (o, f) ∈ F -> vf_type f <> VE_FUNCTION_ALLOCATE_BLOCK -> vf_xptr f ∈ pending F.
Proof. intros Hin Ht. apply list_elem_of_omap. exists (o, f). split; [done|]. cbn. by destruct (vf_type f). Qed.

Lemma pending_unique st o f o' f' : iso st -> (o, f) ∈ ip st -> (o', f') ∈ ip st ->
  vf_type f <> VE_FUNCTION_ALLOCATE_BLOCK -> vf_type f' <> VE_FUNCTION_ALLOCATE_BLOCK -> vf_xptr f = vf_xptr f' -> (o, f) = (o', f').
Proof.
  intros Hi H1 H2 T1 T2 E. assert (Hnd := i_addr _ Hi). apply NoDup_app in Hnd as (_ & _ & Hnd).
  apply (nodup_omap_inj _ _ _ _ (vf_xptr f) Hnd H1 H2); cbn; [by destruct (vf_type f)|rewrite E; by destruct (vf_type f')].
Qed.

Lemma owned_unique st e o e' o' : iso st -> (e, o) ∈ owned (il st) -> (e', o') ∈ owned (il st) -> xptr e = xptr e' -> (e, o) = (e', o').
Proof.
  intros Hi H1 H2 E. assert (Hnd := i_addr _ Hi). apply NoDup_app in Hnd as (Hnd & _ & _). by apply (nodup_map_inj block_of (owned (il st))).
Qed.

Lemma owned_pending st e o y : iso st -> (e, o) ∈ owned (il st) -> y ∈ pending (ip st) -> xptr e <> y.
Proof.
  intros Hi H1 H2 <-. assert (Hnd := i_addr _ Hi). apply NoDup_app in Hnd as (_ & Hd & _). apply (Hd (xptr e)); [|done].
  apply list_elem_of_fmap. by exists (e, o).
Qed.

(** A master among the old versions is a deleted block. *)
Lemma owned_master st e o t0 old : iso st -> (e, o) ∈ owned (il st) -> master st (xptr e) t0 old ->
  e = mk_entry 0 (xptr e) /\ t0 ∉ ts_active (il st).
Proof.
  intros Hi He Hm. assert (Hf := i_owned _ Hi _ _ He). destruct e as [lx y]. unfold entry_fine in Hf. cbn in *.
  destruct (Z.eqb_spec lx 0) as [->|Hne].
  - split; [done|]. destruct Hf as (t & old' & Hm' & Ha). by destruct (holds_inj _ _ _ _ _ _ _ _ Hm Hm') as (_ & <- & _).
  - destruct Hf as (Hyx & t & old' & Hh). by destruct (holds_inj _ _ _ _ _ _ _ _ Hm Hh) as (<- & _).
Qed.

(** The block of a working version is not deleted. *)
Lemma working_not_owned st e o p f : iso st -> (e, o) ∈ owned (il st) -> (p, f) ∈ ip st -> p ∈ ts_active (il st) ->
  xptr e <> vf_lxptr f.
Proof.
  intros Hi He Hf Hp E. assert (Hfn := i_fn _ Hi _ Hf). unfold fn_ok in Hfn. destruct (vf_type f) eqn:Ht.
  - rewrite <- E in Hfn. by destruct (owned_master st e o p [] Hi He Hfn).
  - destruct Hfn as (_ & t1 & es & old & Hm & _). rewrite <- E in Hm. by destruct (owned_master st e o _ _ Hi He Hm).
  - destruct Hfn as (_ & t1 & es & old & Hm & _). rewrite <- E in Hm. by destruct (owned_master st e o _ _ Hi He Hm).
  - destruct Hfn as (Ex & _). apply (owned_pending st e o (vf_xptr f) Hi He); [|by rewrite E].
    apply (pending_in _ p); [done|]. by rewrite Ht.
Qed.

(** ** The collection of old versions *)

(** [V] are the snapshots that disappear, [X] the blocks that are freed. *)
Record purge (V : list TIMESTAMP) (X : list XPTR) st st' : Prop := {
  pg_snap : snapshots_ok (ic st') (il st');
  pg_clock : ic st' = ic st;
  pg_active : ts_active (il st') = ts_active (il st);
  pg_live : forall s', s' ∈ undamaged_live (il st') -> mem V (timestamp s') = false
    /\ exists s, s ∈ undamaged_live (il st) /\ snap_of s' = snap_of s;
  pg_owned : owned (il st') ≡ₚ omap (disown_all V) (owned (il st));
  pg_freed : X ≡ₚ map block_of (List.filter (orphaned_all V) (owned (il st)));
  pg_free : forall y, ifr st' y <-> ifr st y \/ y ∈ X;
  pg_view : forall y, ~ ifr st' y -> iv st' y = iv st y;
  pg_pend : ip st' = ip st
}.

Context (V : list TIMESTAMP) (X : list XPTR) (st st' : iso_state D) (Hi : iso st) (Hp : purge V X st st')
  (Hact : forall o f, (o, f) ∈ ip st -> o ∈ ts_active (il st)).

Lemma purge_viewer w : w ∈ viewers (il st') -> w ∈ viewers (il st) /\ forall e o, (e, o) ∈ owned (il st) -> fst w ∈ o -> mem V (fst w) = false.
Proof.
  intros Hw. apply elem_of_cons in Hw as [->|Hw].
  - split; [unfold viewers, last_committed; unfold InitFakeHeadSnapshot; rewrite (pg_active _ _ _ _ Hp); left|].
    intros e o He Ho. destruct (owner_past _ _ _ _ _ (i_snap _ Hi) He Ho) as [_ H]. cbn in H. ts_lia.
  - apply list_elem_of_fmap in Hw as (s' & -> & Hs). destruct (pg_live _ _ _ _ Hp s' Hs) as [Hm (s & Hs0 & Es)].
    split; [rewrite Es; by apply undamaged_viewer|]. done.
Qed.

Lemma purge_freed y : y ∈ X -> exists e o, (e, o) ∈ owned (il st) /\ xptr e = y /\ forall t, t ∈ o -> mem V t = true.
Proof.
  rewrite (pg_freed _ _ _ _ Hp). intros Hy. apply list_elem_of_fmap in Hy as ([e o] & -> & He).
  apply list_elem_of_In, filter_In in He as [He Ho]. exists e, o. split; [by apply list_elem_of_In|]. split; [done|].
  unfold orphaned_all in Ho. rewrite forallb_forall in Ho. intros t Ht. by apply Ho, list_elem_of_In.
Qed.

Lemma purge_holds y x t old : holds st' y x t old <-> holds st y x t old /\ (y ∉ X).
Proof.
  unfold holds. rewrite (pg_free _ _ _ _ Hp). split.
  - intros [Hn (c & Hc & H)]. split; [|tauto]. split; [tauto|]. exists c. split; [|done]. rewrite <- Hc. symmetry. apply (pg_view _ _ _ _ Hp).
    rewrite (pg_free _ _ _ _ Hp). tauto.
  - intros [[Hn (c & Hc & H)] Hy]. split; [tauto|]. exists c. split; [|done]. rewrite (pg_view _ _ _ _ Hp); [done|]. rewrite (pg_free _ _ _ _ Hp). tauto.
Qed.

(** A block that is pending or is being written is not freed. *)
Lemma purge_pending o f : (o, f) ∈ ip st -> (vf_lxptr f ∉ X) /\ (vf_type f <> VE_FUNCTION_ALLOCATE_BLOCK -> vf_xptr f ∉ X).
Proof.
  intros Hf. split.
  - intros (e & o' & He & E & _)%purge_freed. by apply (working_not_owned st e o' o f Hi He Hf); [apply (Hact o f)|].
  - intros Ht (e & o' & He & E & _)%purge_freed. by apply (owned_pending st e o' _ Hi He (pending_in _ _ _ Hf Ht)).
Qed.

Lemma purge_gone w x : w ∈ viewers (il st') -> x ∉ X -> gone (il st') w x <-> gone (il st) w x.
Proof.
  intros Hw Hx. destruct (purge_viewer w Hw) as [_ Hm]. unfold gone. split.
  - intros (o' & Hin & Hn). rewrite (pg_owned _ _ _ _ Hp) in Hin. apply list_elem_of_omap in Hin as ([e o] & He & Hd).
    assert (e = mk_entry 0 x) as -> by (by apply disown_all_fst in Hd). exists o. split; [done|].
    intros Ho. apply Hn. apply (disown_all_owner _ _ _ _ Hd Ho). by apply (Hm _ _ He).
  - intros (o & Hin & Hn). destruct (disown_all V (mk_entry 0 x, o)) as [[e o']|] eqn:Hd.
    + assert (E := disown_all_fst _ _ _ Hd). cbn in E. subst e. exists o'. split; [rewrite (pg_owned _ _ _ _ Hp); apply list_elem_of_omap; eauto|].
      intros Ho. apply Hn. revert Hd. unfold disown_all. cbn [fst snd]. destruct (List.filter _ o) as [|t l] eqn:Ef; [done|].
      intros [= <-]. rewrite <- Ef in Ho. by apply list_elem_of_In, filter_In in Ho as [Ho%list_elem_of_In _].
    + exfalso. apply Hx. rewrite (pg_freed _ _ _ _ Hp). apply list_elem_of_fmap. exists (mk_entry 0 x, o). split; [done|].
      apply list_elem_of_In, filter_In. split; [by apply list_elem_of_In|]. by apply orphaned_all_None.
Qed.

(** What a view in use reads is not freed. *)
Lemma purge_master w x t0 old : w ∈ viewers (il st') -> master st x t0 old -> ~ gone (il st) w x -> x ∉ X.
Proof.
  intros Hw Hm Hg (e & o & He & <- & Ho)%purge_freed. destruct (owned_master st e o t0 old Hi He Hm) as [E _]. rewrite E in He.
  destruct (purge_viewer w Hw) as [_ Hv]. apply Hg. exists o. split; [done|]. intros Hin. specialize (Hv _ _ He Hin). specialize (Ho _ Hin). congruence.
Qed.

Lemma purge_retained w x y : w ∈ viewers (il st') -> retained st w x y -> (y ∉ X) /\ retained st' w x y.
Proof.
  intros Hw [(o & Hin & Ht)|(o & a & ty & Hin & Hc & Ha)].
  - destruct (purge_viewer w Hw) as [_ Hv]. specialize (Hv _ _ Hin Ht). split.
    + intros (e & o' & He & E & Ho)%purge_freed. assert (E2 := owned_unique st _ _ _ _ Hi He Hin E). injection E2 as -> ->.
      specialize (Ho _ Ht). congruence.
    + left. destruct (disown_all V (mk_entry x y, o)) as [[e o']|] eqn:Hd.
      * assert (E := disown_all_fst _ _ _ Hd). cbn in E. subst e. exists o'. split; [rewrite (pg_owned _ _ _ _ Hp); apply list_elem_of_omap; eauto|].
        by apply (disown_all_owner _ _ _ _ Hd).
      * apply orphaned_all_None in Hd. unfold orphaned_all in Hd. rewrite forallb_forall in Hd. rewrite (Hd (fst w)) in Hv; [done|].
        by apply list_elem_of_In.
  - split; [apply (purge_pending _ _ Hin); cbn; by intros ->|]. right. exists o, a, ty. by rewrite (pg_pend _ _ _ _ Hp).
Qed.

Lemma purge_reads w x y : w ∈ viewers (il st') -> reads_at st' w x y <-> reads_at st w x y.
Proof.
  intros Hw. destruct (purge_viewer w Hw) as [Hw0 _]. split.
  - intros (Hg & t0 & old & Hm & Hpick & Hf). apply purge_holds in Hm as [Hm Hx]. rewrite purge_gone in Hg by done. split; [done|].
    exists t0, old. split; [done|]. split; [done|]. rewrite (pg_free _ _ _ _ Hp) in Hf. tauto.
  - intros Hr. assert (Hr' := Hr). destruct Hr as (Hg & t0 & old & Hm & Hpick & Hf).
    assert (Hx := purge_master w x t0 old Hw Hm Hg).
    assert (Hy : y ∉ X).
    { cbn in Hpick. destruct (decide (later w t0)) as [Hl|]; [|by injection Hpick as <-].
      destruct (i_kept _ Hi x t0 old w y Hm Hw0 Hg Hl Hpick) as [_ Hret]. by apply (purge_retained w x y). }
    split; [by rewrite purge_gone|]. exists t0, old. split; [by apply purge_holds|]. split; [done|].
    rewrite (pg_free _ _ _ _ Hp). tauto.
Qed.

Lemma purge_views : views_le (il st) (il st').
Proof. split; [apply Hp|]. intros s' Hs'. apply (pg_live _ _ _ _ Hp s' Hs'). Qed.

Lemma purge_fn p : p ∈ ip st -> fn_ok st' p.
Proof.
  intros Hin. destruct p as [o f]. destruct (purge_pending o f Hin) as [Hlx Hy].
  apply (fn_ok_mono st); [apply purge_views|apply Hp|intros; by apply purge_holds|intros; apply purge_holds; auto|by apply (i_fn _ Hi)].
Qed.

Lemma iso_purge : iso st'.
Proof.
  assert (Hperm : map block_of (owned (il st)) ≡ₚ map block_of (owned (il st')) ++ X).
  { rewrite (pg_owned _ _ _ _ Hp), (pg_freed _ _ _ _ Hp). apply disown_blocks. }
  assert (Hnd := i_addr _ Hi). rewrite Hperm in Hnd.
  constructor; rewrite ?(pg_clock _ _ _ _ Hp), ?(pg_active _ _ _ _ Hp), ?(pg_pend _ _ _ _ Hp).
  - rewrite <- (pg_clock _ _ _ _ Hp). apply Hp.
  - apply (i_clock _ Hi).
  - intros x t0 old [Hm _]%purge_holds. destruct (i_hist _ Hi _ _ _ Hm) as [E1 E2]. split; [done|]. apply (settled_le_all st); [apply purge_views|apply Hp|done].
  - intros x t0 old w y [Hm Hx]%purge_holds Hw Hg Hl Hpk. destruct (purge_viewer w Hw) as [Hw0 _]. rewrite purge_gone in Hg by done.
    destruct (i_kept _ Hi x t0 old w y Hm Hw0 Hg Hl Hpk) as [(t & o & Hh & Hnl & Hlt) Hr]. destruct (purge_retained w x y Hw Hr) as [Hy Hr'].
    split; [|done]. exists t, o. split; [by apply purge_holds|done].
  - intros x t0 old [Hm _]%purge_holds. by apply (i_work _ Hi x t0 old).
  - intros p Hin. by apply purge_fn.
  - intros e o He. assert (Hex : xptr e ∉ X).
    { rewrite <- app_assoc in Hnd. apply NoDup_app in Hnd as (_ & Hd & _). intros Hx. apply (Hd (xptr e)); [apply list_elem_of_fmap; by exists (e, o)|].
      apply elem_of_app. by left. }
    rewrite (pg_owned _ _ _ _ Hp) in He. apply list_elem_of_omap in He as ([e' o'] & He & Hd). apply disown_all_fst in Hd. cbn in Hd. subst e'.
    apply (entry_fine_mono st); [apply purge_views|intros; by apply purge_holds|by apply (i_owned _ Hi e o')].
  - rewrite <- app_assoc in Hnd. apply NoDup_app in Hnd as (N1 & N2 & N3). apply NoDup_app in N3 as (_ & _ & N3).
    apply NoDup_app. split; [done|]. split; [|done]. intros x Hx Hx'. apply (N2 x Hx). apply elem_of_app. by right.
  - intros x Hx. destruct (i_inuse _ Hi x) as [H1 H2].
    { rewrite Hperm. rewrite !elem_of_app in *. tauto. }
    split; [|done]. rewrite (pg_free _ _ _ _ Hp). intros [|Hin]; [done|]. rewrite <- app_assoc in Hnd.
    apply NoDup_app in Hnd as (_ & N2 & N3). apply elem_of_app in Hx as [Hx|Hx].
    + apply (N2 x Hx), elem_of_app. by left.
    + apply NoDup_app in N3 as (_ & N3 & _). by apply (N3 x).
  - apply (i_single _ Hi).
Qed.
End Gc.
