(* ===== verification/IsoCommit.v ===== *)
(** * The functions of a transaction that commits

    The effect of one request of [SnSubmitRequestForGc] on the invariant of
    Iso.v: the replaced version or the deleted block is owned by the snapshots
    that need it, or its block is freed. *)

From Stdlib Require Import ZArith List Lia Bool Sorted.
From stdpp Require Import base gmap list sets sorting.
From S2P Require Import Prelude WuBase Snapshots SnGc SnApi SnInv SnPurify SnOps SnEvolve SnExpand Buffers Versions BufInv IsoHeader Iso IsoList.
Local Open Scope sedna_scope.
Local Open Scope Z_scope.

Section Commit.
Context {D : Type}.
Implicit Types st : iso_state D.

Definition set_ip (F : list pending_fn) st : iso_state D := mk_is (il st) (ic st) F (iv st) (ifr st).

(** The entry a function is handed over as. *)
Definition entry_of_fn (f : VeFunction) : SnVersionEntry := entry_of (request_of f).

(** The snapshots did not change for readers. *)
Definition same_views (L L' : SnSnapshotsList) : Prop :=
  ts_active L' = ts_active L /\ map snap_of (undamaged_live L') = map snap_of (undamaged_live L).

Lemma same_views_viewers L L' : same_views L L' -> viewers L' = viewers L.
Proof. intros [E1 E2]. unfold viewers. rewrite E2. unfold last_committed, InitFakeHeadSnapshot. by rewrite E1. Qed.

Lemma same_views_le L L' : same_views L L' -> views_le L L'.
Proof.
  intros [Ha E]. split; [done|]. intros s' Hs. assert (H : snap_of s' ∈ map snap_of (undamaged_live L')) by (apply list_elem_of_fmap; eauto).
  rewrite E in H. apply list_elem_of_fmap in H as (s & -> & H). eauto.
Qed.

(** ** A function without a request *)

Lemma forget_fn st o f F : iso st -> ip st = (o, f) :: F -> o ∉ ts_active (il st) ->
  vf_type f = VE_FUNCTION_ALLOCATE_BLOCK -> iso (set_ip F st).
Proof.
  intros [H1 H2 H3 H4 H5 H6 H7 H8 H9 H10] Ep Ho Ht.
  assert (Epend : pending (ip st) = pending F) by (rewrite Ep; unfold pending; cbn; by rewrite Ht).
  assert (Ework : working (ip st) = vf_lxptr f :: working F) by (rewrite Ep; unfold working, is_working; cbn; by rewrite Ht).
  constructor; cbn; auto.
  - intros x t0 old w y Hm Hw Hg Hl Hp. destruct (H4 x t0 old w y Hm Hw Hg Hl Hp) as [Hy [Hr|(o' & a & ty & Hin & Hc & Ha)]]; (split; [done|]); [by left|].
    right. exists o', a, ty. split; [|done]. rewrite Ep in Hin. apply elem_of_cons in Hin as [[= -> <-]|Hin]; [|done]. by destruct ty.
  - intros x t0 old Hm Ha. destruct (H5 x t0 old Hm Ha) as (f' & Hin & Hf). rewrite Ep in Hin. apply elem_of_cons in Hin as [[= -> ->]|Hin]; [done|eauto].
  - intros p Hp. apply (H6 p). rewrite Ep. by right.
  - by rewrite <- Epend.
  - intros x. rewrite <- Epend. apply H9.
  - rewrite Ework in H10. by apply NoDup_cons in H10 as [_ H10].
Qed.

(** ** A version or a deleted block that is handed over *)

Section Request.
Context (st : iso_state D) (o : TIMESTAMP) (f : VeFunction) (F : list pending_fn).
Context (Hi : iso st) (Hip : ip st = (o, f) :: F) (Ho : o ∉ ts_active (il st)) (Hty : vf_type f <> VE_FUNCTION_ALLOCATE_BLOCK).

(** No snapshot at or behind the anchor, or owners for all of them. *)
Lemma fn_here : (o, f) ∈ ip st.
Proof. rewrite Hip. left. Qed.

Lemma entry_block : xptr (entry_of_fn f) = vf_xptr f.
Proof. done. Qed.

Lemma entry_block_lx : lxptr (entry_of_fn f) = if is_free_block (vf_type f) then 0 else vf_lxptr f.
Proof. unfold entry_of_fn, entry_of. cbn. by destruct (vf_type f). Qed.

(** The last committed state does not read the replaced version any more. *)
Lemma handed_retained w x y : w ∈ viewers (il st) -> (exists t0 old, master st x t0 old /\ later w t0) -> retained st w x y ->
  (owns (il st) (fst w) (mk_entry x y) \/ exists o' a ty, (o', mk_function x y a ty) ∈ F /\ is_create ty = true /\ a <= fst w)
  \/ (is_create (vf_type f) = true /\ x = vf_lxptr f /\ y = vf_xptr f
      /\ exists s, s ∈ undamaged_live (il st) /\ w = snap_of s /\ vf_anchorTs f <= timestamp s).
Proof.
  intros Hw (t0 & old & Hm & Hl) [Hr|(o' & a & ty & Hin & Hc & Ha)]; [left; by left|]. assert (Hfn := i_fn _ Hi _ fn_here). rewrite Hip in Hin.
  apply elem_of_cons in Hin as [E|Hin]; [|left; right; eauto 10]. injection E as -> <-. right. split; [done|]. split; [done|]. split; [done|].
  apply elem_of_cons in Hw as [->|Hw].
  - exfalso. unfold fn_ok in Hfn. cbn in Hfn.
    assert (Hm' : exists t1 es, master st x o ((y, t1) :: es)) by (destruct ty; try done; destruct Hfn as (_ & t1 & es & ? & K & _); eauto).
    destruct Hm' as (t1 & es & Hm'). destruct (holds_inj _ _ _ _ _ _ _ _ Hm Hm') as (_ & <- & _).
    destruct (i_hist _ Hi _ _ _ Hm) as [Hlt _]. assert (Hclk := i_clock _ Hi). destruct Hl as [Hl|Hl]; [cbn in Hl; ts_lia|done].
  - apply list_elem_of_fmap in Hw as (s & -> & Hs). exists s. done.
Qed.

Lemma handed_work x t0 old : master st x t0 old -> t0 ∈ ts_active (il st) -> exists f', (t0, f') ∈ F /\ vf_lxptr f' = x /\ is_working f' = true.
Proof.
  intros Hm Ha. destruct (i_work _ Hi x t0 old Hm Ha) as (f' & Hin & Hf). rewrite Hip in Hin.
  apply elem_of_cons in Hin as [[= -> ->]|Hin]; [done|eauto].
Qed.

Lemma handed_pending : pending (ip st) = vf_xptr f :: pending F.
Proof. rewrite Hip. unfold pending. cbn. by destruct (vf_type f). Qed.

Lemma handed_single : NoDup (working F).
Proof.
  assert (H := i_single _ Hi). rewrite Hip in H. unfold working in *. cbn in H. destruct (is_working f); [|done]. by apply NoDup_cons in H as [_ H].
Qed.

(** Deleted blocks are settled. *)
Lemma handed_deleted : is_free_block (vf_type f) = true ->
  vf_xptr f = vf_lxptr f /\ exists t0 old, master st (vf_lxptr f) t0 old /\ (t0 ∉ ts_active (il st))
    /\ forall s, s ∈ undamaged_live (il st) -> pick (snap_of s) ((vf_lxptr f, t0) :: old) <> None -> vf_anchorTs f <= timestamp s.
Proof.
  intros Ht. assert (Hfn := i_fn _ Hi _ fn_here). unfold fn_ok in Hfn. clear Hty. destruct (vf_type f); try done. destruct Hfn as (E & t0 & old & K1 & K2 & K3 & K4).
  split; [done|]. exists t0, old. split; [done|]. split; [|done]. intros Ha. by rewrite (K2 Ha) in Ha.
Qed.

Lemma handed_created : is_free_block (vf_type f) = false ->
  vf_lxptr f <> vf_xptr f /\ is_create (vf_type f) = true /\ exists t1 es old, master st (vf_lxptr f) o ((vf_xptr f, t1) :: es)
    /\ holds st (vf_xptr f) (vf_lxptr f) t1 old.
Proof.
  intros Ht. assert (Hfn := i_fn _ Hi _ fn_here). unfold fn_ok in Hfn.
  destruct (vf_type f) eqn:E; try done; destruct Hfn as (Hne & t1 & es & old & K1 & K2 & _); (split; [done|]; split; [done|]); eauto 10.
Qed.

(** *** The entry is owned *)

Section Kept.
Context (st' : iso_state D) (deps : list TIMESTAMP).
Context (Hsnap : snapshots_ok (ic st) (il st')) (Hc : ic st' = ic st) (Hviews : same_views (il st) (il st')) (Hip' : ip st' = F)
  (Howned : owned (il st') ≡ₚ (entry_of_fn f, deps) :: owned (il st)) (Hsame : same_holds st st')
  (Hdeps : forall s, s ∈ undamaged_live (il st) -> vf_anchorTs f <= timestamp s -> timestamp s ∈ deps).

Lemma kept_gone w x : gone (il st) w x -> gone (il st') w x.
Proof. intros (q & Hin & Hn). exists q. split; [|done]. rewrite Howned. by right. Qed.

Lemma kept_gone_inv w x : gone (il st') w x -> gone (il st) w x \/ (is_free_block (vf_type f) = true /\ x = vf_lxptr f /\ fst w ∉ deps).
Proof.
  intros (q & Hin & Hn). rewrite Howned in Hin. apply elem_of_cons in Hin as [E|Hin]; [|left; by exists q].
  right. assert (E1 := f_equal (fun p => lxptr (fst p)) E). assert (E2 := f_equal (fun p => xptr (fst p)) E). assert (E3 := f_equal snd E).
  cbn [fst snd lxptr xptr] in E1, E2, E3. rewrite entry_block_lx in E1. rewrite entry_block in E2. subst q.
  destruct (is_free_block (vf_type f)) eqn:Ht.
  - split; [done|]. split; [|done]. rewrite E2. by apply handed_deleted.
  - destruct (handed_created Ht) as (_ & _ & t1 & es & old & [_ (c & _ & Hv)] & _). by destruct (version_nonzero _ _ _ _ Hv).
Qed.

Lemma kept_fn p : p ∈ F -> fn_ok st' p.
Proof.
  intros Hin. destruct p as [o' f'].
  apply (fn_ok_mono st); [by apply same_views_le|done|intros; by apply Hsame..|apply (i_fn _ Hi); rewrite Hip; by right].
Qed.

Lemma iso_hand_over : iso st'.
Proof.
  assert (Hperm : map block_of (owned (il st')) ++ pending (ip st') ≡ₚ map block_of (owned (il st)) ++ pending (ip st)).
  { rewrite Howned, Hip', handed_pending. cbn. rewrite Permutation_middle. done. }
  assert (Hsame' := Hsame). destruct Hsame' as [Hf Hh]. assert (Hi' := Hi). destruct Hi' as [H1 H2 H3 H4 H5 H6 H7 H8 H9 H10].
  constructor; rewrite ?Hc, ?(proj1 Hviews), ?(same_views_viewers _ _ Hviews).
  - done.
  - done.
  - intros x t0 old Hm%Hh. destruct (H3 x t0 old Hm) as [E1 E2]. split; [done|]. by apply (settled_le_all st); [apply same_views_le|..].
  - intros x t0 old w y Hm%Hh Hw Hg Hl Hp. destruct (H4 x t0 old w y Hm Hw) as [(t & q & Hy & Hnl) Hr]; [intros Hg'; by apply Hg, kept_gone|done|done|].
    split; [exists t, q; split; [by apply Hh|done]|]. destruct (handed_retained w x y Hw) as [[Hr'|(o' & a & ty & Hin & Hr')]|(Hcr & -> & -> & s & Hs & -> & Ha)]; [eauto|done|..].
    + left. destruct Hr' as (q' & Hin & Ht). exists q'. split; [|done]. rewrite Howned. by right.
    + right. exists o', a, ty. by rewrite Hip'.
    + left. exists deps. split; [|by apply Hdeps]. rewrite Howned.
      assert (E : mk_entry (vf_lxptr f) (vf_xptr f) = entry_of_fn f); [|rewrite E; left].
      unfold entry_of_fn, entry_of, request_of. cbn. clear -Hcr. by destruct (vf_type f).
  - intros x t0 old Hm%Hh Ha. rewrite Hip'. by apply (handed_work x t0 old).
  - intros p Hin. rewrite Hip' in Hin. by apply kept_fn.
  - intros e q He. rewrite Howned in He. apply elem_of_cons in He as [E|He].
    + injection E as -> _. unfold entry_fine. rewrite entry_block_lx, entry_block, (proj1 Hviews). destruct (is_free_block (vf_type f)) eqn:Ht.
      * cbn [Z.eqb]. destruct (handed_deleted Ht) as (-> & t0 & old & Hm & Ha & _). exists t0, old. split; [by apply Hh|done].
      * destruct (handed_created Ht) as (Hne & _ & t1 & es & old & Hm & Hy). destruct (Z.eqb_spec (vf_lxptr f) 0) as [E|_].
        { destruct Hm as [_ (c & _ & Hv)]. by destruct (version_nonzero _ _ _ _ Hv). }
        split; [done|]. exists t1, old. by apply Hh.
    + apply (entry_fine_mono st); [by apply same_views_le|intros; by apply Hh|by apply (H7 e q)].
  - by rewrite Hperm.
  - intros x. rewrite Hperm, Hf. apply H9.
  - rewrite Hip'. apply handed_single.
Qed.

(** Every view reads what it read; a deleted block leaves the last committed
    state. *)
Lemma reads_hand_over w x y : w ∈ viewers (il st) ->
  reads_at st' w x y <-> reads_at st w x y /\ ~ (w = last_committed (il st) /\ is_free_block (vf_type f) = true /\ x = vf_lxptr f).
Proof.
  intros Hw. destruct Hsame as [Hf Hh].
  assert (Hread : forall w x, (exists t0 old, master st' x t0 old /\ pick w ((x, t0) :: old) = Some y /\ ~ ifr st' y)
    <-> exists t0 old, master st x t0 old /\ pick w ((x, t0) :: old) = Some y /\ ~ ifr st y).
  { intros w' x'. split; intros (t0 & old & Hm & Hp & Hy); exists t0, old; (split; [by apply Hh|]; split; [done|]; by intros ?%Hf). }
  unfold reads_at. rewrite Hread. clear Hread. split.
  - intros (Hg & t0 & old & Hm & Hp & Hy). split; [split; [intros Hg'; by apply Hg, kept_gone|eauto]|].
    intros (-> & Ht & ->). apply Hg. exists deps. split.
    + rewrite Howned. destruct (handed_deleted Ht) as (Ex & _).
      assert (E : mk_entry 0 (vf_lxptr f) = entry_of_fn f); [|rewrite E; left].
      unfold entry_of_fn, entry_of, request_of. cbn. rewrite Ex. clear -Ht. by destruct (vf_type f).
    + intros Hin. assert (Hown : (entry_of_fn f, deps) ∈ owned (il st')) by (rewrite Howned; left).
      destruct (owner_past _ _ _ _ _ Hsnap Hown Hin) as [_ Hle]. cbn in Hle. ts_lia.
  - intros [(Hg & t0 & old & Hm & Hp & Hy) Hn]. split; [|eauto]. intros [?|(Ht & -> & Hnd)]%kept_gone_inv; [done|].
    apply elem_of_cons in Hw as [->|Hw]; [by apply Hn|]. apply list_elem_of_fmap in Hw as (s & -> & Hs). apply Hnd, Hdeps; [done|].
    destruct (handed_deleted Ht) as (_ & t0' & old' & Hm' & _ & Ha). destruct (holds_inj _ _ _ _ _ _ _ _ Hm Hm') as (_ & -> & ->).
    apply (Ha s Hs). by rewrite Hp.
Qed.
End Kept.

(** *** The block is freed *)

Section Dropped.
Context (st' : iso_state D).
Context (Hsnap : snapshots_ok (ic st) (il st')) (Hc : ic st' = ic st) (Hviews : same_views (il st) (il st')) (Hip' : ip st' = F)
  (Howned : owned (il st') ≡ₚ owned (il st))
  (Hfree : forall y, ifr st' y <-> ifr st y \/ y = vf_xptr f) (Hview : forall y, ~ ifr st' y -> iv st' y = iv st y)
  (Hno : forall s, s ∈ undamaged_live (il st) -> ~ vf_anchorTs f <= timestamp s)
  (Hlast : is_free_block (vf_type f) = true -> forall o' f', (o', f') ∈ F -> is_working f' = true -> vf_lxptr f' <> vf_lxptr f).

Lemma dropped_holds y x t old : holds st' y x t old <-> holds st y x t old /\ y <> vf_xptr f.
Proof.
  unfold holds. rewrite Hfree. split.
  - intros [Hn (c & Hcc & H)]. split; [|tauto]. split; [tauto|]. exists c. split; [|done]. rewrite <- Hcc. symmetry. apply Hview. rewrite Hfree. tauto.
  - intros [[Hn (c & Hcc & H)] Hy]. split; [tauto|]. exists c. split; [|done]. rewrite Hview; [done|]. rewrite Hfree. tauto.
Qed.

Lemma dropped_gone w x : gone (il st') w x <-> gone (il st) w x.
Proof. unfold gone. split; intros (q & Hin & Hn); exists q; (split; [|done]); [by rewrite <- Howned|by rewrite Howned]. Qed.

(** No view reads the block at its place behind another one. *)
Lemma dropped_retained w x y : w ∈ viewers (il st) -> (exists t0 old, master st x t0 old /\ later w t0) -> retained st w x y ->
  y <> vf_xptr f /\ retained st' w x y.
Proof.
  intros Hw Hm Hr. destruct (handed_retained w x y Hw Hm Hr) as [[Hr'|(o' & a & ty & Hin & Hcr & Ha)]|(_ & _ & _ & s & Hs & _ & Ha)].
  - split; [|left; destruct Hr' as (q & Hin & Ht); exists q; by rewrite Howned]. destruct Hr' as (q & Hin & _).
    apply (owned_pending st _ _ _ Hi Hin). rewrite handed_pending. left.
  - split; [|right; exists o', a, ty; by rewrite Hip']. intros E.
    assert (Hnd := i_addr _ Hi). rewrite handed_pending in Hnd. apply NoDup_app in Hnd as (_ & _ & [Hn _]%NoDup_cons). apply Hn.
    rewrite <- E. apply (pending_in F o' _ Hin). cbn. by intros ->.
  - by destruct (Hno s Hs).
Qed.

(** The other functions are about other blocks. *)
Lemma dropped_other o' f' : (o', f') ∈ F -> vf_lxptr f' <> vf_xptr f /\ (vf_type f' <> VE_FUNCTION_ALLOCATE_BLOCK -> vf_xptr f' <> vf_xptr f).
Proof.
  intros Hin. assert (Hnd := i_addr _ Hi). rewrite handed_pending in Hnd. apply NoDup_app in Hnd as (_ & _ & [Hn _]%NoDup_cons).
  assert (Hx : vf_type f' <> VE_FUNCTION_ALLOCATE_BLOCK -> vf_xptr f' <> vf_xptr f).
  { intros Ht E. apply Hn. rewrite <- E. by apply (pending_in F o'). }
  split; [|done]. assert (Hfn : fn_ok st (o', f')) by (apply (i_fn _ Hi); rewrite Hip; by right).
  assert (Hm : exists t0 old, master st (vf_lxptr f') t0 old).
  { unfold fn_ok in Hfn. destruct (vf_type f'); [eauto|destruct Hfn as (_ & t1 & es & old & K & _); eauto..|]. destruct Hfn as (_ & t0 & old & K & _). eauto. }
  intros E. destruct Hm as (t0 & old & Hm). destruct (is_free_block (vf_type f)) eqn:Ht.
  - destruct (handed_deleted Ht) as (Ex & _). destruct (is_working f') eqn:Hw; [by apply (Hlast eq_refl o' f' Hin Hw); rewrite E|].
    unfold is_working, is_free_block in Hw. unfold fn_ok in Hfn. destruct (vf_type f') eqn:Ht'; try done. destruct Hfn as (E' & _).
    apply Hx; [done|]. by rewrite E', E.
  - destruct (handed_created Ht) as (Hne & _ & t1 & es & old' & _ & Hy). rewrite <- E in Hy, Hne.
    by destruct (holds_inj _ _ _ _ _ _ _ _ Hm Hy) as (? & _).
Qed.

Lemma dropped_fn p : p ∈ F -> fn_ok st' p.
Proof.
  intros Hin. destruct p as [o' f']. destruct (dropped_other o' f' Hin) as [Hlx Hx].
  apply (fn_ok_mono st); [by apply same_views_le|done|intros; by apply dropped_holds|intros; apply dropped_holds; auto|apply (i_fn _ Hi); rewrite Hip; by right].
Qed.

Lemma iso_drop : iso st'.
Proof.
  assert (Hi' := Hi). destruct Hi' as [H1 H2 H3 H4 H5 H6 H7 H8 H9 H10]. assert (Hnd := H8). rewrite handed_pending in Hnd.
  constructor; rewrite ?Hc, ?(proj1 Hviews), ?(same_views_viewers _ _ Hviews).
  - done.
  - done.
  - intros x t0 old [Hm _]%dropped_holds. destruct (H3 x t0 old Hm) as [E1 E2]. split; [done|]. by apply (settled_le_all st); [apply same_views_le|..].
  - intros x t0 old w y [Hm Hx]%dropped_holds Hw Hg Hl Hp. rewrite dropped_gone in Hg.
    destruct (H4 x t0 old w y Hm Hw Hg Hl Hp) as [(t & q & Hy & Hnl) Hr]. destruct (dropped_retained w x y Hw) as [Hne Hr']; [eauto|done|].
    split; [exists t, q; split; [by apply dropped_holds|done]|done].
  - intros x t0 old [Hm _]%dropped_holds Ha. rewrite Hip'. by apply (handed_work x t0 old).
  - intros p Hin. rewrite Hip' in Hin. by apply dropped_fn.
  - intros e q He. rewrite Howned in He. assert (Hne : xptr e <> vf_xptr f) by (apply (owned_pending st e q _ Hi He); rewrite handed_pending; left).
    apply (entry_fine_mono st); [by apply same_views_le|intros; by apply dropped_holds|by apply (H7 e q)].
  - rewrite Howned, Hip'. rewrite <- Permutation_middle in Hnd. by apply NoDup_cons in Hnd as [_ Hnd].
  - intros x. rewrite Howned, Hip', Hfree. intros Hx. destruct (H9 x) as [K1 K2].
    + rewrite handed_pending, <- Permutation_middle. by right.
    + split; [|done]. intros [|E]; [done|]. rewrite <- Permutation_middle in Hnd. apply NoDup_cons in Hnd as [Hn _]. by rewrite E in Hx.
  - rewrite Hip'. apply handed_single.
Qed.

Lemma reads_drop w x y : w ∈ viewers (il st) ->
  reads_at st' w x y <-> reads_at st w x y /\ ~ (w = last_committed (il st) /\ is_free_block (vf_type f) = true /\ x = vf_lxptr f).
Proof.
  intros Hw. unfold reads_at. rewrite dropped_gone. split.
  - intros (Hg & t0 & old & [Hm Hx]%dropped_holds & Hp & Hy). rewrite Hfree in Hy. split; [split; [done|]; exists t0, old; tauto|].
    intros (_ & Ht & ->). by destruct (handed_deleted Ht) as (Ex & _).
  - intros [(Hg & t0 & old & Hm & Hp & Hy) Hn]. split; [done|]. exists t0, old.
    assert (Hx : x <> vf_xptr f).
    { intros ->. destruct (is_free_block (vf_type f)) eqn:Ht.
      - destruct (handed_deleted Ht) as (Ex & t0' & old' & Hm' & _ & Ha). rewrite <- Ex in Hm', Ha. destruct (holds_inj _ _ _ _ _ _ _ _ Hm Hm') as (_ & -> & ->).
        apply elem_of_cons in Hw as [->|Hw]; [by apply Hn|]. apply list_elem_of_fmap in Hw as (s & -> & Hs). apply (Hno s Hs), (Ha s Hs). by rewrite Hp.
      - destruct (handed_created Ht) as (Hne & _ & t1 & es & old' & _ & Hy'). by destruct (holds_inj _ _ _ _ _ _ _ _ Hm Hy') as (? & _). }
    split; [by apply dropped_holds|]. split; [done|]. rewrite Hfree. intros [|E]; [done|]. cbn in Hp.
    destruct (decide (later w t0)) as [Hl|]; [|injection Hp as <-; done].
    destruct (i_kept _ Hi x t0 old w y Hm Hw Hg Hl Hp) as [_ Hr]. by destruct (dropped_retained w x y Hw) as [Hne _]; [eauto|done|].
Qed.
End Dropped.
End Request.
End Commit.
