(* ===== verification/IsoUpdate.v ===== *)
(** * Allocation, new versions, deletion and rollback

    The functions of an updater (wuversions.cpp) against the invariant of
    Iso.v: they change the pages, but no view in use reads anything else. *)

From Stdlib Require Import ZArith List Lia Bool Sorted.
From stdpp Require Import base gmap list sets sorting.
From S2P Require Import Prelude WuBase Snapshots SnGc SnApi SnInv SnPurify SnOps SnEvolve SnExpand Buffers Versions BufInv IsoHeader Iso IsoList IsoCommit.
Local Open Scope sedna_scope.
Local Open Scope Z_scope.

Section Update.
Context {D : Type}.
Implicit Types st : iso_state D.

(** The order of the functions of different transactions does not matter. *)
Lemma iso_perm st F : F ≡ₚ ip st -> iso st -> iso (set_ip F st).
Proof.
  intros Hp [H1 H2 H3 H4 H5 H6 H7 H8 H9 H10].
  assert (E1 : pending F ≡ₚ pending (ip st)) by (by apply omap_perm).
  assert (E2 : working F ≡ₚ working (ip st)) by (by apply omap_perm).
  constructor; cbn; auto; rewrite ?E1, ?E2; auto.
  - intros x t0 old w y Hm Hw Hg Hl Hpk. destruct (H4 x t0 old w y Hm Hw Hg Hl Hpk) as [Hy [Hr|(o & a & ty & Hin & Hr)]]; (split; [done|]); [by left|].
    right. exists o, a, ty. cbn. by rewrite Hp.
  - intros x t0 old Hm Ha. destruct (H5 x t0 old Hm Ha) as (f & Hin & Hf). exists f. by rewrite Hp.
  - intros p Hin. apply (H6 p). by rewrite <- Hp.
  - intros x. rewrite E1. apply H9.
Qed.

(** Masters in use are not free. *)
Lemma inuse_not_free st x : iso st -> x ∈ map block_of (owned (il st)) ++ pending (ip st) -> ~ ifr st x.
Proof. intros Hi Hx. by destruct (i_inuse _ Hi x Hx). Qed.

Lemma fn_master st o f : iso st -> (o, f) ∈ ip st -> exists t0 old, master st (vf_lxptr f) t0 old /\ (is_working f = true -> t0 = o).
Proof.
  intros Hi Hin. assert (Hfn := i_fn _ Hi _ Hin). unfold fn_ok in Hfn. unfold is_working. destruct (vf_type f); cbn.
  - eauto.
  - destruct Hfn as (_ & t1 & es & old & K & _). eauto.
  - destruct Hfn as (_ & t1 & es & old & K & _). eauto.
  - destruct Hfn as (_ & t0 & old & K & _). exists t0, old. done.
Qed.

Lemma working_lx F x : x ∈ working F -> exists o f, (o, f) ∈ F /\ is_working f = true /\ vf_lxptr f = x.
Proof.
  intros Hx. apply list_elem_of_omap in Hx as ([o f] & Hin & E). cbn in E. destruct (is_working f) eqn:Hw; [|done]. injection E as <-. eauto.
Qed.

Lemma active_valid st t : iso st -> t ∈ ts_active (il st) -> IsValidTimestamp t = true /\ t < ic st.
Proof.
  intros Hi Ht. destruct (i_snap _ Hi) as (fut & lv & _ & Hok & _). assert (H := ls_acts_past _ _ _ _ Hok). rewrite Forall_forall in H.
  specialize (H t Ht). assert (Hc := i_clock _ Hi). split; [apply IsValidTimestamp_spec; lia|lia].
Qed.

(** ** Allocation *)

Section Allocate.
Context (st st' : iso_state D) (o p : XPTR) (a : TIMESTAMP) (c : content D).
Context (Hi : iso st) (Hl : il st' = il st) (Hc : ic st' = ic st) (Ho : o ∈ ts_active (il st)) (Hp : ifr st p)
  (Hfree : forall y, ifr st' y <-> ifr st y /\ y <> p) (Hview : forall y, ~ ifr st y -> iv st' y = iv st y)
  (Hnew : iv st' p = Some c) (Hver : version_of p c o [])
  (Hip : ip st' = (o, mk_function p p a VE_FUNCTION_ALLOCATE_BLOCK) :: ip st).

Lemma alloc_holds y x t old : holds st' y x t old <-> holds st y x t old \/ (y = p /\ x = p /\ t = o /\ old = []).
Proof.
  unfold holds. rewrite Hfree. split.
  - intros [Hn (c' & Hc' & Hv)]. destruct (decide (y = p)) as [->|Hne].
    + right. rewrite Hnew in Hc'. injection Hc' as <-. by destruct (version_inj _ _ _ _ _ _ _ Hver Hv) as (-> & -> & ->).
    + left. assert (Hn' : ~ ifr st y) by tauto. split; [done|]. exists c'. split; [|done]. by rewrite <- Hview.
  - intros [[Hn (c' & Hc' & Hv)]|(-> & -> & -> & ->)].
    + split; [tauto|]. exists c'. split; [|done]. by rewrite Hview.
    + split; [tauto|]. by exists c.
Qed.

Lemma iso_alloc : iso st'.
Proof.
  assert (Hi' := Hi). destruct Hi' as [H1 H2 H3 H4 H5 H6 H7 H8 H9 H10]. destruct (active_valid _ _ Hi Ho) as [Hval Hlt].
  assert (Ep : pending (ip st') = pending (ip st)) by (by rewrite Hip).
  assert (Ew : working (ip st') = p :: working (ip st)) by (by rewrite Hip).
  assert (Hvw : views_le (il st) (il st')) by (rewrite Hl; apply views_le_refl).
  constructor; rewrite ?Hl, ?Hc, ?Ep; auto.
  - intros x t0 old [Hm|(_ & -> & -> & ->)]%alloc_holds; [|done]. destruct (H3 x t0 old Hm) as [E1 E2]. split; [done|]. by apply (settled_le_all st).
  - intros x t0 old w y [Hm|(_ & -> & -> & ->)]%alloc_holds Hw Hg Hlat Hpk; [|done].
    destruct (H4 x t0 old w y Hm Hw Hg Hlat Hpk) as [(t & q & Hy & Hr1) Hr]. split; [exists t, q; split; [apply alloc_holds; by left|done]|].
    destruct Hr as [Hr|(o' & b & ty & Hin & Hr)]; [left; by rewrite Hl|right]. exists o', b, ty. rewrite Hip. split; [by right|done].
  - intros x t0 old [Hm|(_ & -> & -> & ->)]%alloc_holds Ha.
    + destruct (H5 x t0 old Hm Ha) as (f & Hin & Hf). exists f. rewrite Hip. split; [by right|done].
    + exists (mk_function p p a VE_FUNCTION_ALLOCATE_BLOCK). rewrite Hip. split; [left|done].
  - intros [o' f] Hin. rewrite Hip in Hin. apply elem_of_cons in Hin as [E|Hin].
    + injection E as -> ->. unfold fn_ok. cbn. apply alloc_holds. by right.
    + apply (fn_ok_mono st); [done|done|intros; apply alloc_holds; by left..|by apply H6].
  - intros e q He. apply (entry_fine_mono st); [done|intros; apply alloc_holds; by left|by apply (H7 e q)].
  - intros x Hx. destruct (H9 x Hx) as [K1 K2]. split; [|done]. rewrite Hfree. tauto.
  - rewrite Ew. constructor; [|done]. intros (o' & f & Hin & _ & E)%working_lx.
    destruct (fn_master _ _ _ Hi Hin) as (t0 & old & [Hn _] & _). by rewrite E in Hn.
Qed.

Lemma reads_alloc w x d : w ∈ viewers (il st) -> reads st' w x d <-> reads st w x d.
Proof.
  intros Hw. assert (Hlat : later w o) by (by apply (active_later (ic st) (il st)); [apply Hi|..]). unfold reads, reads_at. rewrite Hl. split.
  - intros (y & (Hg & t0 & old & [Hm|(_ & -> & -> & ->)]%alloc_holds & Hpk & Hy) & Hd); [|cbn in Hpk; by rewrite decide_True in Hpk].
    exists y. assert (Hy' : ~ ifr st y).
    { cbn in Hpk. destruct (decide (later w t0)) as [Hl'|]; [|injection Hpk as <-; apply Hm].
      destruct (i_kept _ Hi x t0 old w y Hm Hw Hg Hl' Hpk) as [(t & q & [Hn _] & _) _]. done. }
    split; [split; [done|]; exists t0, old; done|]. by rewrite <- Hview.
  - intros (y & (Hg & t0 & old & Hm & Hpk & Hy) & Hd). exists y. split; [split; [done|]; exists t0, old|by rewrite Hview].
    split; [apply alloc_holds; by left|]. split; [done|]. rewrite Hfree. tauto.
Qed.
End Allocate.

(** ** Deletion *)

Lemma iso_delete st o x a t0 old : iso st -> master st x t0 old -> (t0 ∈ ts_active (il st) -> t0 = o) -> (t0 <> o \/ old <> [] -> a <= ic st) ->
  (forall s, s ∈ undamaged_live (il st) -> pick (snap_of s) ((x, t0) :: old) <> None -> a <= timestamp s) ->
  (x ∉ map block_of (owned (il st)) ++ pending (ip st)) ->
  iso (set_ip ((o, mk_function x x a VE_FUNCTION_FREE_BLOCK) :: ip st) st).
Proof.
  intros Hi Hm Ho Ha Hs Hx. assert (Hi' := Hi). destruct Hi' as [H1 H2 H3 H4 H5 H6 H7 H8 H9 H10].
  assert (Ep : pending ((o, mk_function x x a VE_FUNCTION_FREE_BLOCK) :: ip st) = x :: pending (ip st)) by done.
  assert (Ew : working ((o, mk_function x x a VE_FUNCTION_FREE_BLOCK) :: ip st) = working (ip st)) by done.
  constructor; cbn [set_ip il ic ip iv ifr]; rewrite ?Ep, ?Ew; auto.
  - intros x' t1 old' w y Hm' Hw Hg Hlat Hpk. destruct (H4 x' t1 old' w y Hm' Hw Hg Hlat Hpk) as [Hy [Hr|(o' & b & ty & Hin & Hr)]]; (split; [done|]); [by left|].
    right. exists o', b, ty. split; [by right|done].
  - intros x' t1 old' Hm' Hact. destruct (H5 x' t1 old' Hm' Hact) as (f & Hin & Hf). exists f. split; [by right|done].
  - intros p [->|Hin]%elem_of_cons; [|by apply H6]. unfold fn_ok. cbn. split; [done|]. exists t0, old. done.
  - rewrite <- Permutation_middle. by constructor.
  - intros x'. rewrite <- Permutation_middle. intros [->|Hin]%elem_of_cons; [|by apply H9].
    destruct Hm as [Hn (c & _ & Hv)]. split; [done|by apply version_nonzero in Hv].
Qed.

(** The rollback of a deletion. *)
Lemma iso_undelete st o f F : iso st -> ip st = (o, f) :: F -> is_free_block (vf_type f) = true -> iso (set_ip F st).
Proof.
  intros Hi Hip Ht. assert (Hi' := Hi). destruct Hi' as [H1 H2 H3 H4 H5 H6 H7 H8 H9 H10].
  assert (Ep : pending (ip st) = vf_xptr f :: pending F) by (rewrite Hip; unfold pending; cbn; by destruct (vf_type f)).
  assert (Ew : working (ip st) = working F) by (rewrite Hip; unfold working, is_working; cbn; by rewrite Ht).
  rewrite Ep, <- Permutation_middle in H8. apply NoDup_cons in H8 as [_ H8].
  constructor; cbn; rewrite <- ?Ew; auto.
  - intros x t0 old w y Hm Hw Hg Hlat Hpk. destruct (H4 x t0 old w y Hm Hw Hg Hlat Hpk) as [Hy [Hr|(o' & b & ty & Hin & Hcr & Hr)]]; (split; [done|]); [by left|].
    right. exists o', b, ty. split; [|done]. rewrite Hip in Hin. apply elem_of_cons in Hin as [[= _ <-]|Hin]; [by destruct ty|done].
  - intros x t0 old Hm Ha. destruct (H5 x t0 old Hm Ha) as (f' & Hin & Hf & Hw). rewrite Hip in Hin.
    apply elem_of_cons in Hin as [[= _ ->]|Hin]; [unfold is_working in Hw; by rewrite Ht in Hw|eauto].
  - intros p Hin. apply H6. rewrite Hip. by right.
  - intros x Hx. apply H9. rewrite Ep, <- Permutation_middle. by right.
Qed.
End Update.

(** * New versions and their rollback

    [VeCreateBlockVersion] moves the last committed version to a new block and
    puts a copy in its place; the rollback moves it back.  Every view reads the
    same contents before and after. *)
Section Versions.
Context {D : Type}.
Implicit Types st : iso_state D.

(** A block a function is about is no old version of another block. *)
Lemma fn_places st o f x t0 old : iso st -> (o, f) ∈ ip st -> master st x t0 old -> vf_lxptr f <> x ->
  vf_type f <> VE_FUNCTION_ALLOCATE_BLOCK -> vf_xptr f <> x.
Proof.
  intros Hi Hin Hm Hne Ht E. assert (Hfn := i_fn _ Hi _ Hin). unfold fn_ok in Hfn. destruct (vf_type f); [done|..].
  - destruct Hfn as (_ & t1 & es & old' & _ & K & _). rewrite E in K. by destruct (holds_inj _ _ _ _ _ _ _ _ Hm K) as (? & _).
  - destruct Hfn as (_ & t1 & es & old' & _ & K & _). rewrite E in K. by destruct (holds_inj _ _ _ _ _ _ _ _ Hm K) as (? & _).
  - destruct Hfn as (E' & _). congruence.
Qed.

(** ** Creation *)

Section Create.
Context (st st' : iso_state D) (o : TIMESTAMP) (x p : XPTR) (a : TIMESTAMP) (ty : ve_function_type) (c : content D)
  (t0 : TIMESTAMP) (old es : list (XPTR * TIMESTAMP)).
Context (Hi : iso st) (Hl : il st' = il st) (Hc : ic st' = ic st) (Ho : o ∈ ts_active (il st))
  (Hm : master st x t0 old) (Ht0 : t0 ∉ ts_active (il st)) (Hcr : is_create ty = true) (Hp : ifr st p) (Hp0 : p <> 0)
  (Hfree : forall y, ifr st' y <-> ifr st y /\ y <> p) (Hview : forall y, ~ ifr st y -> y <> x -> iv st' y = iv st y)
  (Hold : iv st' p = iv st x) (Hnew : iv st' x = Some c) (Hver : version_of x c o ((p, t0) :: es))
  (Hsub : forall e, e ∈ es -> e ∈ old) (Hes : forall w, w ∈ viewers (il st) -> later w t0 -> pick w es = pick w old)
  (Ha : a <= ic st) (Hanchor : forall s, s ∈ undamaged_live (il st) -> ~ later (snap_of s) t0 -> a <= timestamp s)
  (Hbog : x ∉ map block_of (owned (il st))) (Hfn : forall o' f', (o', f') ∈ ip st -> vf_lxptr f' <> x)
  (Hip : ip st' = (o, mk_function x p a ty) :: ip st).

Lemma create_ne : x <> p.
Proof. intros E. destruct Hm as [Hn _]. by rewrite E in Hn. Qed.

Lemma create_holds y x' t l : holds st' y x' t l <->
  (y = x /\ x' = x /\ t = o /\ l = (p, t0) :: es) \/ (y = p /\ x' = x /\ t = t0 /\ l = old) \/ (y <> x /\ y <> p /\ holds st y x' t l).
Proof.
  assert (Hne := create_ne). assert (Hm' := Hm). destruct Hm' as [Hnx (c0 & Hc0 & Hv0)]. unfold holds. rewrite Hfree. split.
  - intros [Hn (c' & Hc' & Hv)]. destruct (decide (y = x)) as [->|Hyx].
    + left. rewrite Hnew in Hc'. injection Hc' as <-. by destruct (version_inj _ _ _ _ _ _ _ Hver Hv) as (-> & -> & ->).
    + right. destruct (decide (y = p)) as [->|Hyp].
      * left. rewrite Hold, Hc0 in Hc'. injection Hc' as <-. by destruct (version_inj _ _ _ _ _ _ _ Hv0 Hv) as (-> & -> & ->).
      * right. assert (Hny : ~ ifr st y) by tauto. split; [done|]. split; [done|]. split; [done|]. exists c'. split; [|done]. by rewrite <- Hview.
  - intros [(-> & -> & -> & ->)|[(-> & -> & -> & ->)|(Hyx & Hyp & Hny & c' & Hc' & Hv)]].
    + split; [tauto|]. by exists c.
    + split; [tauto|]. exists c0. by rewrite Hold.
    + split; [tauto|]. exists c'. split; [|done]. by rewrite Hview.
Qed.

Lemma create_other y x' t l : y <> x -> holds st y x' t l -> holds st' y x' t l.
Proof.
  intros Hne H. apply create_holds. right. right. split; [done|]. split; [|done]. intros ->. by destruct H as [Hn _].
Qed.

(** The places views read behind [x] are other blocks. *)
Lemma create_behind w x' t1 l y : master st x' t1 l -> w ∈ viewers (il st) -> ~ gone (il st) w x' -> later w t1 -> pick w l = Some y ->
  y <> x /\ (exists t q, holds st' y x' t q /\ ~ later w t /\ t < ic st) /\ retained st' w x' y.
Proof.
  intros Hm' Hw Hg Hlat Hpk. destruct (i_kept _ Hi x' t1 l w y Hm' Hw Hg Hlat Hpk) as [(t & q & Hy & Hnl & Hlt) Hr].
  assert (Hyx : y <> x).
  { intros ->. destruct (holds_inj _ _ _ _ _ _ _ _ Hm Hy) as (-> & -> & ->).
    destruct (holds_inj _ _ _ _ _ _ _ _ Hm Hm') as (_ & -> & _). done. }
  split; [done|]. split; [exists t, q; split; [by apply create_other|done]|].
  destruct Hr as [Hr|(o' & b & ty' & Hin & Hr)]; [left; by rewrite Hl|right]. exists o', b, ty'. rewrite Hip. split; [by right|done].
Qed.

Lemma create_anchor w : w ∈ viewers (il st) -> ~ later w t0 -> a <= fst w.
Proof.
  intros Hw Hnl. apply elem_of_cons in Hw as [->|Hw].
  - cbn. assert (H := i_clock _ Hi). ts_lia.
  - apply list_elem_of_fmap in Hw as (s & -> & Hs). by apply Hanchor.
Qed.

Lemma create_fns p' : p' ∈ ip st' -> fn_ok st' p'.
Proof.
  assert (Hvw : views_le (il st) (il st')) by (rewrite Hl; apply views_le_refl).
  destruct (i_hist _ Hi _ _ _ Hm) as [Hlt Hset]. destruct p' as [o' f]. rewrite Hip. intros [E|Hin]%elem_of_cons.
  - injection E as -> ->. assert (Hgoal : x <> p /\ exists t1 es1 old1, master st' x o ((p, t1) :: es1) /\ holds st' p x t1 old1
      /\ settled st' t1 /\ Forall (fun e => settled st' (snd e)) old1 /\ a <= ic st'
      /\ forall w, w ∈ viewers (il st') -> pick w ((p, t1) :: es1) = pick w ((p, t1) :: old1)).
    { split; [apply create_ne|]. exists t0, es, old. split; [apply create_holds; by left|]. split; [apply create_holds; right; by left|].
      split; [apply (settled_le st); [done|done|by split]|]. split; [by apply (settled_le_all st)|]. split; [by rewrite Hc|].
      intros w Hw. rewrite Hl in Hw. cbn. destruct (decide (later w t0)); [by apply Hes|done]. }
    unfold fn_ok. cbn [vf_type vf_lxptr vf_xptr vf_anchorTs]. destruct ty; done.
  - assert (Hlx := Hfn o' f Hin). apply (fn_ok_mono st); [done|done|..|by apply (i_fn _ Hi)].
    + intros x' t l. by apply create_other.
    + intros Ht x' t l. apply create_other. by apply (fn_places st o' f x t0 old).
Qed.

Lemma iso_create : iso st'.
Proof.
  assert (Hi' := Hi). destruct Hi' as [H1 H2 H3 H4 H5 H6 H7 H8 H9 H10]. destruct (H3 _ _ _ Hm) as [Hlt Hset].
  assert (Ep : pending (ip st') = p :: pending (ip st)) by (rewrite Hip; unfold pending; cbn; by destruct ty).
  assert (Ew : working (ip st') = x :: working (ip st)) by (rewrite Hip; unfold working; cbn; by destruct ty).
  assert (Hvw : views_le (il st) (il st')) by (rewrite Hl; apply views_le_refl).
  constructor; rewrite ?Hl, ?Hc, ?Ep, ?Ew; auto.
  - intros x' t1 l [(-> & _ & -> & ->)|[(E & -> & _)|(_ & _ & Hm')]]%create_holds.
    + split; [by apply (active_valid st)|]. apply (settled_le_all st); [done|done|]. constructor; [by split|].
      rewrite Forall_forall in *. intros e He. by apply Hset, Hsub.
    + by destruct create_ne.
    + destruct (H3 x' t1 l Hm') as [E1 E2]. split; [done|]. by apply (settled_le_all st).
  - intros x' t1 l w y [(-> & _ & -> & ->)|[(E & -> & _)|(_ & _ & Hm')]]%create_holds Hw Hg Hlat Hpk.
    + cbn in Hpk. destruct (decide (later w t0)) as [Hl0|Hl0].
      * rewrite Hes in Hpk by done. by destruct (create_behind w x t0 old y Hm Hw Hg Hl0 Hpk) as (_ & ? & ?).
      * injection Hpk as <-. split; [exists t0, old; split; [apply create_holds; right; by left|done]|].
        right. exists o, a, ty. rewrite Hip. split; [left|]. split; [done|by apply create_anchor].
    + by destruct create_ne.
    + by destruct (create_behind w x' t1 l y Hm' Hw Hg Hlat Hpk) as (_ & ? & ?).
  - intros x' t1 l [(-> & _ & -> & ->)|[(E & -> & _)|(_ & _ & Hm')]]%create_holds Hact.
    + exists (mk_function x p a ty). rewrite Hip. split; [left|]. split; [done|]. by destruct ty.
    + by destruct create_ne.
    + destruct (H5 x' t1 l Hm' Hact) as (f & Hin & Hf). exists f. rewrite Hip. split; [by right|done].
  - apply create_fns.
  - intros e q He. apply (entry_fine_mono st); [done| |by apply (H7 e q)]. intros x' t l. apply create_other.
    intros E. apply Hbog. rewrite <- E. apply list_elem_of_fmap. by exists (e, q).
  - rewrite <- Permutation_middle. constructor; [|done]. intros Hin. by destruct (H9 p Hin).
  - intros x'. rewrite <- Permutation_middle, Hfree. intros [->|Hin]%elem_of_cons; [tauto|]. destruct (H9 x' Hin). tauto.
  - constructor; [|done]. intros (o' & f & Hin & _ & E)%working_lx. by apply (Hfn o' f Hin).
Qed.

Lemma reads_create w x' d : w ∈ viewers (il st) -> reads st' w x' d <-> reads st w x' d.
Proof.
  intros Hw. assert (Hlat : later w o) by (by apply (active_later (ic st) (il st)); [apply Hi|..]). assert (Hne := create_ne).
  assert (Hother : forall t1 l y, master st x' t1 l -> ~ gone (il st) w x' -> later w t1 -> pick w l = Some y -> ~ ifr st y /\ y <> x).
  { intros t1 l y Hm' Hg Hl1 Hpk. destruct (create_behind w x' t1 l y Hm' Hw Hg Hl1 Hpk) as (Hyx & _ & _). split; [|done].
    by destruct (i_kept _ Hi x' t1 l w y Hm' Hw Hg Hl1 Hpk) as [(t & q & [Hn _] & _) _]. }
  unfold reads, reads_at. rewrite Hl. split.
  - intros (y & (Hg & t1 & l & [(-> & _ & -> & ->)|[(E & -> & _)|(Hx1 & Hx2 & Hm')]]%create_holds & Hpk & Hy) & Hd).
    + cbn in Hpk. rewrite decide_True in Hpk by done. destruct (decide (later w t0)) as [Hl0|Hl0].
      * rewrite Hes in Hpk by done. destruct (Hother t0 old y Hm Hg Hl0 Hpk) as [Hny Hyx]. exists y. split; [|by rewrite <- Hview].
        split; [done|]. exists t0, old. split; [done|]. split; [cbn; by rewrite decide_True|done].
      * injection Hpk as <-. exists x. split; [|by rewrite <- Hold]. split; [done|]. exists t0, old. split; [done|]. split; [cbn; by rewrite decide_False|].
        apply Hm.
    + by destruct Hne.
    + exists y. assert (Hyy : ~ ifr st y /\ y <> x).
      { cbn in Hpk. destruct (decide (later w t1)) as [Hl1|]; [by apply (Hother t1 l)|]. injection Hpk as <-. split; [apply Hm'|done]. }
      destruct Hyy as [Hny Hyx]. split; [|by rewrite <- Hview]. split; [done|]. by exists t1, l.
  - intros (y & (Hg & t1 & l & Hm' & Hpk & Hy) & Hd). destruct (decide (x' = x)) as [->|Hx].
    + destruct (holds_inj _ _ _ _ _ _ _ _ Hm Hm') as (_ & -> & ->). cbn in Hpk. destruct (decide (later w t0)) as [Hl0|Hl0].
      * destruct (Hother t0 old y Hm Hg Hl0 Hpk) as [Hny Hyx]. exists y. split; [|by rewrite Hview]. split; [done|]. exists o, ((p, t0) :: es).
        split; [apply create_holds; by left|]. split; [cbn; rewrite !decide_True by done; by rewrite Hes|]. rewrite Hfree. tauto.
      * injection Hpk as <-. exists p. split; [|by rewrite Hold]. split; [done|]. exists o, ((p, t0) :: es).
        split; [apply create_holds; by left|]. split; [cbn; by rewrite decide_True, decide_False|]. rewrite Hfree. tauto.
    + exists y. assert (Hyy : ~ ifr st y /\ y <> x).
      { cbn in Hpk. destruct (decide (later w t1)) as [Hl1|]; [by apply (Hother t1 l)|]. injection Hpk as <-. split; [apply Hm'|done]. }
      destruct Hyy as [Hny Hyx]. split; [|by rewrite Hview]. split; [done|]. exists t1, l. split; [by apply create_other|]. split; [done|]. rewrite Hfree. tauto.
Qed.
End Create.

(** ** Rollback of a creation *)

Section Return.
Context (st st' : iso_state D) (o : TIMESTAMP) (f : VeFunction) (F : list pending_fn).
Context (Hi : iso st) (Hl : il st' = il st) (Hc : ic st' = ic st) (Ho : o ∈ ts_active (il st))
  (Hip : ip st = (o, f) :: F) (Hcr : is_create (vf_type f) = true) (Hip' : ip st' = F)
  (Hfree : forall y, ifr st' y <-> ifr st y \/ y = vf_xptr f)
  (Hview : forall y, ~ ifr st' y -> y <> vf_lxptr f -> iv st' y = iv st y) (Hback : iv st' (vf_lxptr f) = iv st (vf_xptr f))
  (Hlast : forall o' f', (o', f') ∈ F -> is_free_block (vf_type f') = true -> vf_lxptr f' <> vf_lxptr f).

(** The working version and the version it replaced. *)
Lemma return_fn : vf_lxptr f <> vf_xptr f /\ exists t1 es old,
  master st (vf_lxptr f) o ((vf_xptr f, t1) :: es) /\ holds st (vf_xptr f) (vf_lxptr f) t1 old
  /\ settled st t1 /\ Forall (fun e => settled st (snd e)) old
  /\ forall w, w ∈ viewers (il st) -> pick w ((vf_xptr f, t1) :: es) = pick w ((vf_xptr f, t1) :: old).
Proof.
  assert (Hin : (o, f) ∈ ip st) by (rewrite Hip; left). assert (Hfn := i_fn _ Hi _ Hin). unfold fn_ok in Hfn.
  destruct (vf_type f); try done; destruct Hfn as (Hne & t1 & es & old & K1 & K2 & K3 & K4 & _ & K5); (split; [done|]; by exists t1, es, old).
Qed.

Lemma return_holds y x' t l : holds st' y x' t l <->
  (y = vf_lxptr f /\ holds st (vf_xptr f) x' t l) \/ (y <> vf_lxptr f /\ y <> vf_xptr f /\ holds st y x' t l).
Proof.
  destruct return_fn as (Hne & t1 & es & old & [Hnx _] & [Hny _] & _). unfold holds. rewrite Hfree. split.
  - intros [Hn (c' & Hc' & Hv)]. destruct (decide (y = vf_lxptr f)) as [->|Hyx].
    + left. split; [done|]. split; [done|]. exists c'. by rewrite <- Hback.
    + right. split; [done|]. split; [tauto|]. split; [tauto|]. exists c'. split; [|done]. rewrite <- Hview; [done| |done]. by rewrite Hfree.
  - intros [(-> & _ & c' & Hc' & Hv)|(Hyx & Hyp & Hn & c' & Hc' & Hv)].
    + split; [tauto|]. exists c'. by rewrite Hback.
    + split; [tauto|]. exists c'. split; [|done]. rewrite Hview; [done| |done]. rewrite Hfree. tauto.
Qed.

Lemma return_other y x' t l : y <> vf_lxptr f -> y <> vf_xptr f -> holds st y x' t l -> holds st' y x' t l.
Proof. intros H1 H2 H3. apply return_holds. by right. Qed.

(** What a view reads behind a block stays at its place. *)
Lemma return_behind w x' t0 l y : master st x' t0 l -> w ∈ viewers (il st) -> ~ gone (il st) w x' -> later w t0 -> pick w l = Some y ->
  (x' = vf_lxptr f -> forall t1 q, holds st (vf_xptr f) (vf_lxptr f) t1 q -> later w t1) ->
  y <> vf_lxptr f /\ y <> vf_xptr f /\ (exists t q, holds st' y x' t q /\ ~ later w t /\ t < ic st) /\ retained st' w x' y.
Proof.
  intros Hm Hw Hg Hlat Hpk Hsame. destruct (i_kept _ Hi x' t0 l w y Hm Hw Hg Hlat Hpk) as [(t & q & Hy & Hnl & Hlt) Hr].
  destruct return_fn as (Hne & t1 & es & old & K1 & K2 & _).
  assert (Hyx : y <> vf_lxptr f).
  { intros ->. destruct (holds_inj _ _ _ _ _ _ _ _ K1 Hy) as (-> & -> & ->). apply Hnl. by apply (active_later (ic st) (il st)); [apply Hi|..]. }
  assert (Hyy : y <> vf_xptr f).
  { intros ->. destruct (holds_inj _ _ _ _ _ _ _ _ K2 Hy) as (-> & -> & ->). by apply Hnl, (Hsame eq_refl t1 old). }
  split; [done|]. split; [done|]. split; [exists t, q; split; [by apply return_other|done]|].
  destruct Hr as [Hr|(o' & b & ty & Hin & Hr)]; [left; by rewrite Hl|]. rewrite Hip in Hin. right. exists o', b, ty. rewrite Hip'.
  apply elem_of_cons in Hin as [E|Hin]; [|done]. exfalso. apply Hyy. by injection E as _ <-.
Qed.

Lemma return_fns p : p ∈ F -> fn_ok st' p.
Proof.
  destruct p as [o' f']. intros Hin. assert (Hin' : (o', f') ∈ ip st) by (rewrite Hip; by right).
  destruct return_fn as (Hne & t1 & es & old & K1 & K2 & _). destruct (fn_master _ _ _ Hi Hin') as (t0 & q & Hm & _).
  assert (Hlx : vf_lxptr f' <> vf_lxptr f).
  { destruct (is_free_block (vf_type f')) eqn:Ht; [by apply (Hlast o' f')|]. intros E. assert (H := i_single _ Hi). rewrite Hip in H.
    unfold working in H. cbn in H. assert (Hw : is_working f = true) by (unfold is_working; by destruct (vf_type f)). rewrite Hw in H.
    apply NoDup_cons in H as [Hn _]. apply Hn. rewrite <- E. apply list_elem_of_omap. exists (o', f'). split; [done|]. cbn. unfold is_working. by rewrite Ht. }
  assert (Hlx2 : vf_lxptr f' <> vf_xptr f).
  { intros E. rewrite E in Hm. by destruct (holds_inj _ _ _ _ _ _ _ _ K2 Hm) as (? & _). }
  apply (fn_ok_mono st); [by rewrite Hl; apply views_le_refl|done|intros; by apply return_other| |by apply (i_fn _ Hi)].
  intros Ht x t l. apply return_other; [by apply (fn_places st o' f' _ _ _ Hi Hin' K1)|].
  intros E. assert (Hin0 : (o, f) ∈ ip st) by (rewrite Hip; left).
  assert (E2 : (o', f') = (o, f)) by (apply (pending_unique st o' f' o f Hi Hin' Hin0 Ht); [by intros E2; rewrite E2 in Hcr|done]).
  apply Hlx. by injection E2 as _ ->.
Qed.

Lemma iso_return : iso st'.
Proof.
  assert (Hi' := Hi). destruct Hi' as [H1 H2 H3 H4 H5 H6 H7 H8 H9 H10]. destruct return_fn as (Hne & t1 & es & old & K1 & K2 & K3 & K4 & K5).
  assert (Ep : pending (ip st) = vf_xptr f :: pending F) by (rewrite Hip; unfold pending; cbn; by destruct (vf_type f)).
  rewrite Ep, <- Permutation_middle in H8. apply NoDup_cons in H8 as [Hny H8].
  assert (Hvw : views_le (il st) (il st')) by (rewrite Hl; apply views_le_refl).
  constructor; rewrite ?Hl, ?Hc, ?Hip'; auto.
  - intros x' t l [(-> & Hh)|(_ & _ & Hm)]%return_holds.
    + destruct (holds_inj _ _ _ _ _ _ _ _ K2 Hh) as (_ & -> & ->). split; [apply K3|]. by apply (settled_le_all st).
    + destruct (H3 x' t l Hm) as [E1 E2]. split; [done|]. by apply (settled_le_all st).
  - intros x' t l w y [(-> & Hh)|(Hx1 & Hx2 & Hm)]%return_holds Hw Hg Hlat Hpk.
    + destruct (holds_inj _ _ _ _ _ _ _ _ K2 Hh) as (_ & -> & ->).
      assert (Hlo : later w o) by (by apply (active_later (ic st) (il st))).
      assert (Hes := K5 w Hw). cbn in Hes. rewrite !decide_True in Hes by done.
      destruct (return_behind w (vf_lxptr f) o ((vf_xptr f, t1) :: es) y K1 Hw Hg Hlo) as (_ & _ & ? & ?); [cbn; rewrite !decide_True by done; congruence| |done].
      intros _ u q Hu. by destruct (holds_inj _ _ _ _ _ _ _ _ K2 Hu) as (_ & -> & _).
    + by destruct (return_behind w x' t l y Hm Hw Hg Hlat Hpk) as (_ & _ & ? & ?).
  - intros x' t l [(-> & Hh)|(Hx1 & Hx2 & Hm)]%return_holds Hact.
    + destruct (holds_inj _ _ _ _ _ _ _ _ K2 Hh) as (_ & -> & ->). by destruct K3.
    + destruct (H5 x' t l Hm Hact) as (f' & Hin & E & Hf). rewrite Hip in Hin. apply elem_of_cons in Hin as [[= -> ->]|Hin]; [done|eauto].
  - intros p. apply return_fns.
  - intros e q He. apply (entry_fine_mono st); [done| |by apply (H7 e q)]. intros x' t l. apply return_other.
    + assert (Hin : (o, f) ∈ ip st) by (rewrite Hip; left). by apply (working_not_owned st e q o f).
    + intros E. apply Hny. rewrite <- E. apply elem_of_app. left. apply list_elem_of_fmap. by exists (e, q).
  - intros x' Hx. destruct (H9 x') as [J1 J2]; [rewrite Ep, <- Permutation_middle; by right|]. split; [|done]. rewrite Hfree. intros [|E]; [done|]. by rewrite E in Hx.
  - rewrite Hip in H10. unfold working in *. cbn in H10. destruct (is_working f); [|done]. by apply NoDup_cons in H10 as [_ H10].
Qed.

Lemma reads_return w x' d : w ∈ viewers (il st) -> reads st' w x' d <-> reads st w x' d.
Proof.
  intros Hw. assert (Hlo : later w o) by (by apply (active_later (ic st) (il st)); [apply Hi|..]).
  destruct return_fn as (Hne & t1 & es & old & K1 & K2 & _ & _ & K5). specialize (K5 w Hw).
  assert (K6 : later w t1 -> pick w es = pick w old) by (intros H; cbn in K5; by rewrite !decide_True in K5).
  assert (Hplace : forall x0 t l y, master st x0 t l -> ~ gone (il st) w x0 -> later w t -> pick w l = Some y ->
    (x0 = vf_lxptr f -> forall u q, holds st (vf_xptr f) (vf_lxptr f) u q -> later w u) ->
    y <> vf_lxptr f /\ y <> vf_xptr f /\ ~ ifr st y /\ ~ ifr st' y /\ iv st' y = iv st y).
  { intros x0 t l y Hm Hg Hlat Hpk Hs. destruct (return_behind w x0 t l y Hm Hw Hg Hlat Hpk Hs) as (Y1 & Y2 & (u & q & [Hn _] & _) & _).
    split; [done|]. split; [done|]. split; [rewrite Hfree in Hn; tauto|]. split; [done|]. by apply Hview. }
  assert (Hu : later w t1 -> forall u q, holds st (vf_xptr f) (vf_lxptr f) u q -> later w u).
  { intros H u q Hh. by destruct (holds_inj _ _ _ _ _ _ _ _ K2 Hh) as (_ & -> & _). }
  unfold reads, reads_at. rewrite Hl. split.
  - intros (y & (Hg & t & l & [(-> & Hh)|(Hx1 & Hx2 & Hm)]%return_holds & Hpk & Hy) & Hd).
    + destruct (holds_inj _ _ _ _ _ _ _ _ K2 Hh) as (_ & -> & ->). cbn in Hpk. destruct (decide (later w t1)) as [Hl1|Hl1].
      * destruct (Hplace (vf_lxptr f) o ((vf_xptr f, t1) :: es) y K1 Hg Hlo) as (_ & _ & Hny & _ & Ev); [cbn; rewrite !decide_True by done; by rewrite K6|intros _; by apply Hu|].
        exists y. split; [|congruence]. split; [done|]. exists o, ((vf_xptr f, t1) :: es). split; [done|]. split; [cbn; rewrite !decide_True by done; by rewrite K6|done].
      * injection Hpk as <-. exists (vf_xptr f). split; [|congruence]. split; [done|]. exists o, ((vf_xptr f, t1) :: es). split; [done|].
        split; [cbn; by rewrite decide_True, decide_False|]. by destruct K2.
    + cbn in Hpk. destruct (decide (later w t)) as [Hlt|Hlt].
      * destruct (Hplace x' t l y Hm Hg Hlt Hpk) as (_ & _ & Hny & _ & Ev); [done|]. exists y. split; [|congruence]. split; [done|]. exists t, l.
        split; [done|]. split; [cbn; by rewrite decide_True|done].
      * injection Hpk as <-. exists x'. split; [|by rewrite <- Hview]. split; [done|]. exists t, l. split; [done|]. split; [cbn; by rewrite decide_False|]. apply Hm.
  - intros (y & (Hg & t & l & Hm & Hpk & Hy) & Hd). destruct (decide (x' = vf_lxptr f)) as [->|Hx].
    + destruct (holds_inj _ _ _ _ _ _ _ _ K1 Hm) as (_ & -> & ->). cbn in Hpk. rewrite decide_True in Hpk by done.
      destruct (decide (later w t1)) as [Hl1|Hl1].
      * destruct (Hplace (vf_lxptr f) o ((vf_xptr f, t1) :: es) y K1 Hg Hlo) as (_ & _ & _ & Hny & Ev); [cbn; by rewrite decide_True|intros _; by apply Hu|].
        exists y. split; [|congruence]. split; [done|]. exists t1, old. split; [apply return_holds; by left|]. split; [cbn; rewrite decide_True by done; by rewrite <- K6|done].
      * injection Hpk as <-. exists (vf_lxptr f). split; [|congruence]. split; [done|]. exists t1, old. split; [apply return_holds; by left|].
        split; [cbn; by rewrite decide_False|]. rewrite Hfree. destruct K1 as [? _]. tauto.
    + assert (Hx2 : x' <> vf_xptr f). { intros ->. by destruct (holds_inj _ _ _ _ _ _ _ _ K2 Hm) as (? & _). }
      cbn in Hpk. destruct (decide (later w t)) as [Hlt|Hlt].
      * destruct (Hplace x' t l y Hm Hg Hlt Hpk) as (_ & _ & _ & Hny & Ev); [done|]. exists y. split; [|congruence]. split; [done|]. exists t, l.
        split; [by apply return_other|]. split; [cbn; by rewrite decide_True|done].
      * injection Hpk as <-. assert (Hn' : ~ ifr st' x') by (rewrite Hfree; destruct Hm as [? _]; tauto).
        exists x'. split; [|by rewrite Hview]. split; [done|]. exists t, l. split; [by apply return_other|]. split; [cbn; by rewrite decide_False|done].
Qed.
End Return.

(** ** Rollback of an allocation *)

Section Unallocate.
Context (st st' : iso_state D) (o : TIMESTAMP) (f : VeFunction) (F : list pending_fn).
Context (Hi : iso st) (Hl : il st' = il st) (Hc : ic st' = ic st) (Ho : o ∈ ts_active (il st))
  (Hip : ip st = (o, f) :: F) (Hty : vf_type f = VE_FUNCTION_ALLOCATE_BLOCK) (Hip' : ip st' = F)
  (Hfree : forall y, ifr st' y <-> ifr st y \/ y = vf_lxptr f) (Hview : forall y, ~ ifr st' y -> iv st' y = iv st y)
  (Hlast : forall o' f', (o', f') ∈ F -> is_free_block (vf_type f') = true -> vf_lxptr f' <> vf_lxptr f).

Lemma unalloc_fn : master st (vf_lxptr f) o [] /\ (o, f) ∈ ip st.
Proof.
  assert (Hin : (o, f) ∈ ip st) by (rewrite Hip; left). split; [|done]. assert (Hfn := i_fn _ Hi _ Hin). unfold fn_ok in Hfn. by rewrite Hty in Hfn.
Qed.

Lemma unalloc_holds y x t old : holds st' y x t old <-> holds st y x t old /\ y <> vf_lxptr f.
Proof.
  unfold holds. rewrite Hfree. split.
  - intros [Hn (c & Hcc & H)]. split; [|tauto]. split; [tauto|]. exists c. split; [|done]. rewrite <- Hcc. symmetry. apply Hview. rewrite Hfree. tauto.
  - intros [[Hn (c & Hcc & H)] Hy]. split; [tauto|]. exists c. split; [|done]. rewrite Hview; [done|]. rewrite Hfree. tauto.
Qed.

Lemma unalloc_behind w x t0 l y : master st x t0 l -> w ∈ viewers (il st) -> ~ gone (il st) w x -> later w t0 -> pick w l = Some y ->
  y <> vf_lxptr f /\ (exists t q, holds st' y x t q /\ ~ later w t /\ t < ic st) /\ retained st' w x y.
Proof.
  intros Hm Hw Hg Hlat Hpk. destruct (i_kept _ Hi x t0 l w y Hm Hw Hg Hlat Hpk) as [(t & q & Hy & Hnl & Hlt) Hr]. destruct unalloc_fn as [K _].
  assert (Hyx : y <> vf_lxptr f).
  { intros ->. destruct (holds_inj _ _ _ _ _ _ _ _ K Hy) as (_ & -> & _). apply Hnl. by apply (active_later (ic st) (il st)); [apply Hi|..]. }
  split; [done|]. split; [exists t, q; split; [by apply unalloc_holds|done]|].
  destruct Hr as [Hr|(o' & b & ty & Hin & Hcr & Hr)]; [left; by rewrite Hl|]. rewrite Hip in Hin. right. exists o', b, ty. rewrite Hip'.
  apply elem_of_cons in Hin as [E|Hin]; [|done]. injection E as _ <-. cbn in Hty. by rewrite Hty in Hcr.
Qed.

Lemma unalloc_fns p : p ∈ F -> fn_ok st' p.
Proof.
  destruct p as [o' f']. intros Hin. assert (Hin' : (o', f') ∈ ip st) by (rewrite Hip; by right). destruct unalloc_fn as [K _].
  assert (Hlx : vf_lxptr f' <> vf_lxptr f).
  { destruct (is_free_block (vf_type f')) eqn:Ht; [by apply (Hlast o' f')|]. intros E. assert (H := i_single _ Hi). rewrite Hip in H.
    unfold working, is_working in H. cbn in H. rewrite Hty in H. cbn in H.
    apply NoDup_cons in H as [Hn _]. apply Hn. rewrite <- E. apply list_elem_of_omap. exists (o', f'). split; [done|]. cbn. by rewrite Ht. }
  apply (fn_ok_mono st); [by rewrite Hl; apply views_le_refl|done|intros; by apply unalloc_holds| |by apply (i_fn _ Hi)].
  intros Ht x t l Hh. apply unalloc_holds. split; [done|]. by apply (fn_places st o' f' _ _ _ Hi Hin' K).
Qed.

Lemma iso_unalloc : iso st'.
Proof.
  assert (Hi' := Hi). destruct Hi' as [H1 H2 H3 H4 H5 H6 H7 H8 H9 H10]. destruct unalloc_fn as [K Hin0].
  assert (Ep : pending (ip st) = pending F) by (rewrite Hip; unfold pending; cbn; by rewrite Hty).
  assert (Hvw : views_le (il st) (il st')) by (rewrite Hl; apply views_le_refl).
  constructor; rewrite ?Hl, ?Hc, ?Hip', <- ?Ep; auto.
  - intros x t l [Hm _]%unalloc_holds. destruct (H3 x t l Hm) as [E1 E2]. split; [done|]. by apply (settled_le_all st).
  - intros x t l w y [Hm _]%unalloc_holds Hw Hg Hlat Hpk. by destruct (unalloc_behind w x t l y Hm Hw Hg Hlat Hpk) as (_ & ? & ?).
  - intros x t l [Hm Hx]%unalloc_holds Hact. destruct (H5 x t l Hm Hact) as (f' & Hin & E & Hf). rewrite Hip in Hin.
    apply elem_of_cons in Hin as [[= -> ->]|Hin]; [done|eauto].
  - intros p. apply unalloc_fns.
  - intros e q He. apply (entry_fine_mono st); [done| |by apply (H7 e q)]. intros x' t l Hh. apply unalloc_holds. split; [done|].
    by apply (working_not_owned st e q o f).
  - intros x Hx. destruct (H9 x Hx) as [J1 J2]. split; [|done]. rewrite Hfree. intros [|E]; [done|]. rewrite E in Hx.
    apply elem_of_app in Hx as [Hx|Hx].
    + apply list_elem_of_fmap in Hx as ([e q] & E2 & He). by apply (working_not_owned st e q o f).
    + apply list_elem_of_omap in Hx as ([o' f'] & Hin & E2). cbn in E2. assert (Ht : vf_type f' <> VE_FUNCTION_ALLOCATE_BLOCK) by (by destruct (vf_type f')).
      assert (E3 : vf_xptr f' = vf_lxptr f) by (destruct (vf_type f'); congruence). rewrite Hip in Hin. apply elem_of_cons in Hin as [E4|Hin]; [by injection E4 as -> ->; rewrite Hty in Ht|].
      assert (Hin' : (o', f') ∈ ip st) by (rewrite Hip; by right). destruct (decide (vf_lxptr f' = vf_lxptr f)) as [E5|Hne]; [|by apply (fn_places st o' f' _ _ _ Hi Hin' K)].
      assert (Hfn := H6 _ Hin'). unfold fn_ok in Hfn. destruct (vf_type f') eqn:Ht'; [done|destruct Hfn as (Hne & _); congruence..|].
      apply (Hlast o' f' Hin); [by rewrite Ht'|done].
  - rewrite Hip in H10. unfold working in *. cbn in H10. destruct (is_working f); [|done]. by apply NoDup_cons in H10 as [_ H10].
Qed.

Lemma reads_unalloc w x d : w ∈ viewers (il st) -> reads st' w x d <-> reads st w x d.
Proof.
  intros Hw. assert (Hlo : later w o) by (by apply (active_later (ic st) (il st)); [apply Hi|..]). destruct unalloc_fn as [K _].
  assert (Hsame : forall t l y, master st x t l -> ~ gone (il st) w x -> pick w ((x, t) :: l) = Some y -> ~ ifr st' y /\ ~ ifr st y /\ x <> vf_lxptr f).
  { intros t l y Hm Hg Hpk. cbn in Hpk. assert (Hx : x <> vf_lxptr f).
    { intros ->. destruct (holds_inj _ _ _ _ _ _ _ _ K Hm) as (_ & -> & ->). by rewrite decide_True in Hpk. }
    rewrite Hfree. destruct (decide (later w t)) as [Hlt|Hlt].
    - destruct (unalloc_behind w x t l y Hm Hw Hg Hlt Hpk) as (Hy & (u & q & [Hn _] & _) & _). rewrite Hfree in Hn. tauto.
    - injection Hpk as <-. destruct Hm as [? _]. tauto. }
  unfold reads, reads_at. rewrite Hl. split.
  - intros (y & (Hg & t & l & [Hm _]%unalloc_holds & Hpk & Hy) & Hd). destruct (Hsame t l y Hm Hg Hpk) as (J1 & J2 & _). exists y.
    split; [|by rewrite <- Hview]. split; [done|]. by exists t, l.
  - intros (y & (Hg & t & l & Hm & Hpk & Hy) & Hd). destruct (Hsame t l y Hm Hg Hpk) as (J1 & J2 & J3). exists y.
    split; [|by rewrite Hview]. split; [done|]. exists t, l. split; [by apply unalloc_holds|done].
Qed.
End Unallocate.
End Versions.
