(* ===== verification/WuFree.v ===== *)
(** * Snapshots over a callback that may fail

    The theorems on the snapshots (SnPurify.v, SnOps.v, SnReach.v) are about a
    callback that frees every block.  A call that succeeds has freed all blocks
    it wanted to: its run is a run with a callback that never fails. *)

From Stdlib Require Import ZArith List Lia Bool Sorted.
From stdpp Require Import base gmap list sets sorting.
From S2P Require Import Prelude WuBase Snapshots SnGc SnApi SnInv SnPurify SnOps SnEvolve SnSystem SnReach.
Local Open Scope sedna_scope.
Local Open Scope Z_scope.

Section Total.
Context {W : Type} (f : XPTR -> wu W unit).

(** The state is lost with the first failure. *)
Definition total (x : XPTR) : wu (option W) unit := fun o =>
  Done tt (match o with
           | None => None
           | Some w => match f x w with Done _ w => Some w | Failed _ _ => None end
           end).

Lemma total_total : free_total total.
Proof. intros x o. unfold total. eauto. Qed.

Lemma frees_total o l o' : frees total o l o' -> forall w', o' = Some w' -> exists w, o = Some w /\ frees f w l w'.
Proof.
  induction 1 as [o|o x o1 l o2 Hx H IH]; intros w' E; [exists w'; split; [done|constructor]|].
  destruct (IH w' E) as (w1 & -> & Hl). unfold total in Hx. destruct o as [w|]; [|by injection Hx].
  destruct (f x w) as [[] w2|e w2] eqn:Hf; [|by injection Hx]. injection Hx as ->. exists w. split; [done|]. by econstructor.
Qed.

Lemma frees_some w l w' : frees total (Some w) l (Some w') -> frees f w l w'.
Proof. intros H. by destruct (frees_total _ _ _ H w' eq_refl) as (w0 & [= <-] & Hl). Qed.

(** ** Runs *)

(** Every run of [c] that succeeds is one of [c']. *)
Definition lifts {A} (c : wu (SnSnapshotsList * W) A) (c' : wu (SnSnapshotsList * option W) A) : Prop :=
  forall L w r L' w', c (L, w) = Done r (L', w') -> c' (L, Some w) = Done r (L', Some w').

Lemma lifts_bind {A B} (c : wu (SnSnapshotsList * W) A) c' (k : A -> wu (SnSnapshotsList * W) B) k' :
  lifts c c' -> (forall a, lifts (k a) (k' a)) -> lifts (wu_bind c k) (wu_bind c' k').
Proof.
  intros Hc Hk L w r L' w' H. apply wu_bind_Done in H as (a & [L1 w1] & H1 & H2). apply wu_bind_Done. exists a, (L1, Some w1).
  split; [by apply Hc|by apply Hk].
Qed.

Lemma purge_loop_lifts l : forall w rest w', purge_loop f l w = (rest, Done tt w') -> purge_loop total l (Some w) = (rest, Done tt (Some w')).
Proof.
  induction l as [|e l IH]; intros w rest w' H; cbn in *; [by injection H as <- <-|].
  destruct (f (xptr e) w) as [[] w1|err w1]; [by apply IH|by injection H].
Qed.

Lemma discard_lifts ts : lifts (DiscardSnapshot f ts) (DiscardSnapshot total ts).
Proof.
  intros L w r L' w' H. unfold DiscardSnapshot, PurgeVersions in *. destruct (GetSnapshotByTimestamp L ts) as [[p v]|]; [|done].
  destruct (negb _); [done|]. destruct (0 <? occupancy v); [done|]. destruct (gcChain v) as [|n c]; [done|].
  destruct (purge_loop f (entries n) w) as [rest [[] w1|e w1]] eqn:Hp; [|done]. rewrite (purge_loop_lifts _ _ _ _ Hp).
  destruct (rotate_after 0 _) as [after|]; [|done]. destruct (RotateSnapshots _ p) as [l|]; [|done]. by injection H as <- <- <-.
Qed.

Lemma purify_loop_lifts l : lifts (purify_loop f l) (purify_loop total l).
Proof.
  induction l as [|ts l IH]; intros L w r L' w' H; cbn in *; [by injection H as <- <- <-|].
  destruct (GetSnapshotByTimestamp L ts) as [[p s]|]; [|done]. destruct (_ || _); [by apply IH|].
  revert H. apply lifts_bind; [apply discard_lifts|done].
Qed.

Lemma purify_lifts keep : lifts (PurifySnapshots f keep) (PurifySnapshots total keep).
Proof.
  intros L w r L' w'. unfold PurifySnapshots. apply lifts_bind; [apply purify_loop_lifts|].
  intros _ L1 w1 r1 L2 w2 H. unfold wu_modify in *. by injection H as <- <- <-.
Qed.

Lemma submit_lifts p r : lifts (SubmitRequestForGc f p r) (SubmitRequestForGc total p r).
Proof.
  assert (Hfree : forall x, lifts (free_version f x) (free_version total x)).
  { intros x L w a L' w' H. unfold free_version, total in *. destruct (f x w) as [[] w1|e w1]; [|done]. by injection H as <- <- <-. }
  intros L w a L' w'. unfold SubmitRequestForGc. destruct (negb _); [done|].
  destruct (rq_type r); [by intros [= <- <- <-]|..]; (destruct (find_dependent L p (anchorTs r)) as [[last level]|]; [|apply Hfree]).
  - apply Hfree.
  - destruct last; [|done]. destruct (push_version _ _ _ _ _); [|done]. by intros [= <- <- <-].
  - destruct last; [|done]. destruct (push_version _ _ _ _ _); [|done]. by intros [= <- <- <-].
Qed.

(** ** One collection and one request *)

Lemma purify_done clk L w keep L' w' : snapshots_ok clk L -> PurifySnapshots f keep (L, w) = Done tt (L', w') ->
  exists L1 l1 cand, L' = AutoDamageSnapshotsAndScanForGarbage L1 keep /\ from_current L = l1 ++ cand
    /\ l1 = (if keep then take 1 (from_current L) else []) /\ purified f clk L w l1 cand L1 w'.
Proof.
  intros Hok Hrun. apply purify_lifts in Hrun.
  destruct (purify_ok total total_total clk L (Some w) keep Hok) as (L1 & w1 & l1 & cand & H1 & H2 & H3 & fut & lv & freed & K1 & K2 & K3 & K4 & K5 & K6).
  rewrite Hrun in H1. injection H1 as -> <-. exists L1, l1, cand. split; [done|]. split; [done|]. split; [done|].
  exists fut, lv, freed. repeat (split; [done|]). by apply frees_some.
Qed.

Lemma submit_done clk L fut lv cur r w L' w' :
  split_ok clk L fut lv -> ValidateRequestForGc r = true ->
  SubmitRequestForGc f (find_entry L false cur) r (L, w) = Done tt (L', w') ->
  exists lv', split_ok clk L' fut lv' /\ map bare lv' = map bare lv
    /\ ts_active L' = ts_active L /\ nClientsMax L' = nClientsMax L
    /\ submitted f cur lv r (owned L) (owned L') w w'.
Proof.
  intros Hok Hr Hrun. apply submit_lifts in Hrun.
  destruct (submit_ok total total_total clk L fut lv cur r (Some w) Hok Hr) as (L1 & w1 & lv' & H1 & H2 & H3 & H4 & H5 & H6).
  rewrite Hrun in H1. injection H1 as <- <-. exists lv'. repeat (split; [done|]). unfold submitted in *.
  destruct (rq_type r).
  - destruct H6 as [E1 E2]. by injection E2 as ->.
  - destruct H6 as [E1 E2]. split; [done|]. by apply frees_some.
  - destruct (dependents (anchorTs r) cur lv); destruct H6 as [E1 E2]; (split; [done|]); [by apply frees_some|by injection E2 as ->].
  - destruct (dependents (anchorTs r) cur lv); destruct H6 as [E1 E2]; (split; [done|]); [by apply frees_some|by injection E2 as ->].
Qed.

(** ** Runs of the interface *)

Definition lift_state (st : sn_state W) : sn_state (option W) := mk_sn (snapshots st) (clock st) (block st) (Some (world st)).

Definition lifts_st {A} (c : wu (sn_state W) A) (c' : wu (sn_state (option W)) A) : Prop :=
  forall st r st', c st = Done r st' -> c' (lift_state st) = Done r (lift_state st').

Lemma lifts_st_bind {A B} (c : wu (sn_state W) A) c' (k : A -> wu (sn_state W) B) k' :
  lifts_st c c' -> (forall a, lifts_st (k a) (k' a)) -> lifts_st (wu_bind c k) (wu_bind c' k').
Proof.
  intros Hc Hk st r st' H. apply wu_bind_Done in H as (a & st1 & H1 & H2). apply wu_bind_Done. exists a, (lift_state st1).
  split; [by apply Hc|by apply Hk].
Qed.

Lemma on_snapshots_lifts {A} (c : wu (SnSnapshotsList * W) A) c' : lifts c c' -> lifts_st (on_snapshots c) (on_snapshots c').
Proof.
  intros Hc st r st' H. unfold on_snapshots, wu_lift in *. cbn.
  destruct (c (snapshots st, world st)) as [a [L w]|e [L w]] eqn:E; [|done]. injection H as <- <-. by rewrite (Hc _ _ _ _ _ E).
Qed.

Lemma lifts_get {B} (k : sn_state W -> wu (sn_state W) B) k' :
  (forall st r st', k st st = Done r st' -> k' (lift_state st) (lift_state st) = Done r (lift_state st')) ->
  lifts_st (wu_bind wu_get k) (wu_bind wu_get k').
Proof. intros Hk st r st' H. by apply Hk. Qed.

Lemma lifts_modify g g' : (forall st, lift_state (g st) = g' (lift_state st)) -> lifts_st (wu_modify g) (wu_modify g').
Proof. intros Hg st r st' H. unfold wu_modify in *. injection H as <- <-. by rewrite Hg. Qed.

Lemma lifts_fail {A} e : lifts_st (wu_fail (A := A) e) (wu_fail e).
Proof. by intros st r st' H. Qed.

Lemma lifts_ret {A} (a : A) : lifts_st (wu_ret a) (wu_ret a).
Proof. intros st r st' H. by injection H as <- <-. Qed.

Lemma purify_lifts_st keep : lifts_st (on_snapshots (PurifySnapshots f keep)) (on_snapshots (PurifySnapshots total keep)).
Proof. apply on_snapshots_lifts, purify_lifts. Qed.

Lemma end_reader_lifts ts : lifts_st (end_read_only f ts) (end_read_only total ts).
Proof.
  unfold end_read_only. apply lifts_get. intros st r st'. cbn [snapshots lift_state].
  destruct (GetSnapshotByTimestamp (snapshots st) ts) as [[p s]|]; [|done]. revert st st' r.
  assert (Hl : lifts_st (do! _ <- wu_modify (fun s => set_snapshots (add_occupancy (-1) p (snapshots s)) s); on_snapshots (PurifySnapshots f true))
    (do! _ <- wu_modify (fun s => set_snapshots (add_occupancy (-1) p (snapshots s)) s); on_snapshots (PurifySnapshots total true))).
  { apply lifts_st_bind; [by apply lifts_modify|intros _; apply purify_lifts_st]. }
  intros st st' r. apply Hl.
Qed.

Lemma end_lifts : lifts_st (SnOnTransactionEnd f) (SnOnTransactionEnd total).
Proof.
  unfold SnOnTransactionEnd. apply lifts_st_bind.
  { intros s b s' H. unfold ImpGetCurrentStateBlock in *. cbn. destruct (block s); [|done]. by injection H as <- <-. }
  intros b. apply lifts_st_bind.
  - destruct (_ =? _); [by apply lifts_modify|]. destruct (_ =? _); [apply end_reader_lifts|]. destruct (_ =? _); apply lifts_fail.
  - intros _. apply lifts_st_bind; [by apply lifts_modify|]. intros _. apply lifts_get. intros st r st' H. by injection H as <- <-.
Qed.

Lemma complete_lifts : lifts_st (SnOnCompleteCheckpoint f) (SnOnCompleteCheckpoint total).
Proof.
  unfold SnOnCompleteCheckpoint. apply lifts_get. intros st r st'. cbn [snapshots lift_state].
  destruct (GetSnapshotByType (snapshots st) SN_PERSISTENT_SNAPSHOT) as [[p s]|]; [|done]. apply lifts_st_bind; [by apply lifts_modify|].
  intros _. apply purify_lifts_st.
Qed.

Lemma advance_lifts : lifts_st (SnTryAdvanceSnapshots f) (SnTryAdvanceSnapshots total).
Proof.
  unfold SnTryAdvanceSnapshots. apply lifts_st_bind; [apply purify_lifts_st|]. intros _. apply lifts_get. intros st r st'. cbn [snapshots lift_state].
  destruct (EnsureCanAdvanceSnapshots (snapshots st)) as [[]|]; [|done..].
  apply lifts_st_bind.
  { intros s ts s' H. unfold WuGetTimestamp in *. cbn. destruct (negb _); [done|]. by injection H as <- <-. }
  intros ts. apply lifts_st_bind.
  { intros s a s' H. unfold on_list in *. cbn. destruct (CreateSnapshot _ _ _); [|done]. by injection H as <- <-. }
  intros _. apply lifts_st_bind; [by apply lifts_modify|]. intros _. apply lifts_ret.
Qed.
End Total.
