(* ===== verification/WuGood.v ===== *)
(** * The pages of the version manager

    The invariant of the pages and snapshots while clients run: that of Iso.v
    over the pages seen through the buffers, and what ties the file, the flushing
    dependencies and the exclusive access of clients to the functions that wait
    for the end of their transactions. *)

From Stdlib Require Import ZArith List Lia Bool Sorted.
From stdpp Require Import base gmap list sets sorting.
From S2P Require Import Prelude WuBase Snapshots SnGc SnApi SnInv SnPurify SnOps SnEvolve SnExpand Buffers Versions BufInv BufOps IsoHeader Iso IsoList SnSystem SnReach WuFree.
Local Open Scope sedna_scope.
Local Open Scope Z_scope.

(** A function that waits for the end of its transaction, with the number of
    its client. *)
Definition client_fn : Type := Z * pending_fn.

(** The snapshots that are persistent. *)
Definition pers_views (L : SnSnapshotsList) : list snap :=
  map snap_of (List.filter (fun s => type s =? SN_PERSISTENT_SNAPSHOT) (from_current L)).

Lemma pers_views_in L w : w ∈ pers_views L <-> exists s, s ∈ from_current L /\ type s = SN_PERSISTENT_SNAPSHOT /\ w = snap_of s.
Proof.
  unfold pers_views. rewrite list_elem_of_fmap. split.
  - intros (s & -> & Hs). apply list_elem_of_In, filter_In in Hs as [Hs%list_elem_of_In Ht%Z.eqb_eq]. eauto.
  - intros (s & Hs & Ht & ->). exists s. split; [done|]. apply list_elem_of_In, filter_In. split; [by apply list_elem_of_In|by apply Z.eqb_eq].
Qed.

(** What an active transaction writes is later than every snapshot. *)
Lemma active_later_live clk L s t : snapshots_ok clk L -> s ∈ from_current L -> t ∈ ts_active L -> later (snap_of s) t.
Proof.
  intros (fut & lv & Hok) Hs Ht. destruct (split_current _ _ _ _ Hok) as [_ E]. rewrite E in Hs. destruct Hok as (_ & [] & _).
  by apply (nested_all (ts_active L) lv).
Qed.

Section Good.
Context {D A : Type} `{AllocatorOk D A}.
Implicit Types (b : bm D A) (G : list client_fn).

Definition pages (L : SnSnapshotsList) (clk : TIMESTAMP) G b : iso_state D :=
  mk_is L clk (map snd G) (view b) (is_free b).

(** A persistent version that was moved is on the disk before the new one. *)
Definition deps_ok G b : Prop := forall s o x y a z,
  (s, (o, mk_function x y a VE_FUNCTION_CREATE_VERSION_PERS)) ∈ G -> deps b !! x = Some z ->
  z = y /\ disk_view b x = view b y.

(** The version a function moved is not the persistent one. *)
Definition fresh_ok L clk G b : Prop := forall s o x y a w t old,
  (s, (o, mk_function x y a VE_FUNCTION_CREATE_VERSION)) ∈ G -> w ∈ pers_views L ->
  holds (pages L clk G b) y x t old -> later w t.

(** Blocks of the persistent snapshot are on the disk. *)
Definition sync_ok L clk G b : Prop := forall x t0 old w,
  master (pages L clk G b) x t0 old -> w ∈ pers_views L -> ~ later w t0 -> disk_view b x = view b x.

(** The old versions that a persistent snapshot sees, damaged or not, are on the
    disk, or a new version waits for them, and their contents are still at its
    place. *)
Definition saved_ok L clk G b : Prop := forall x y t old w, w ∈ pers_views L ->
  holds (pages L clk G b) y x t old -> IS_DATA_BLOCK x = true -> x <> y -> ~ later w t ->
  disk_view b y = view b y
  \/ (deps b !! x = Some y /\ disk_view b x = view b y /\ forall t0 old0, master (pages L clk G b) x t0 old0 -> later w t0).

(** Exclusive access is that of a working version. *)
Definition access_ok G b : Prop := forall x, ~ is_free b x -> trid_of b x <> -1 ->
  exists o f, (trid_of b x, (o, f)) ∈ G /\ is_working f = true /\ vf_lxptr f = x.

Record good (synced : bool) L clk G b : Prop := {
  g_iso : iso (pages L clk G b);
  g_bm : bm_ok b;
  g_stake : buffer_on_stake b = -1;
  g_data : forall y x t old, holds (pages L clk G b) y x t old -> IS_DATA_BLOCK y = true;
  g_deps : deps_ok G b;
  g_fresh : fresh_ok L clk G b;
  g_sync : synced = true -> sync_ok L clk G b;
  g_saved : synced = true -> saved_ok L clk G b;
  g_access : access_ok G b;
  g_alloc : alloc_ok b
}.

(** The transactions of all functions are active. *)
Definition all_active L G : Prop := forall s o f, (s, (o, f)) ∈ G -> o ∈ ts_active L.

(** ** Changes of the buffers only *)

Lemma calm_pages L clk G b b' : calm b b' -> same_holds (pages L clk G b) (pages L clk G b').
Proof.
  intros Hc. apply same_holds_content; cbn; [intros y; by apply free_calm|]. intros y _. by rewrite (calm_view _ _ _ Hc).
Qed.

Lemma calm_reads L clk G b b' w x c : calm b b' -> reads (pages L clk G b') w x c <-> reads (pages L clk G b) w x c.
Proof.
  intros Hc. unfold reads. cbn. split; intros (y & Hy & Hv); exists y.
  - split; [by apply (reads_at_same _ _ w x y (calm_pages L clk G b b' Hc) eq_refl)|by rewrite <- (calm_view _ _ _ Hc)].
  - split; [by apply (reads_at_same _ _ w x y (calm_pages L clk G b b' Hc) eq_refl)|by rewrite (calm_view _ _ _ Hc)].
Qed.

(** Old versions that stay where they are stay safe; new ones are later than the
    persistent snapshot. *)
Lemma saved_off (P : XPTR -> Prop) L L' clk clk' G G' b b' : calm_off P b b' ->
  (forall y x t old, holds (pages L' clk' G' b') y x t old ->
    (holds (pages L clk G b) y x t old /\ ~ P y) \/ forall w, w ∈ pers_views L' -> later w t) ->
  pers_views L' ⊆ pers_views L -> saved_ok L clk G b -> saved_ok L' clk' G' b'.
Proof.
  intros Hc Hh Hp Hs x y t old w Hw Hy Hdt Hne Hl. destruct (Hh _ _ _ _ Hy) as [[Hy0 Py]|Hlat]; [|by destruct Hl; apply Hlat].
  rewrite (off_view _ _ _ Hc y Py). destruct (Hs x y t old w (Hp _ Hw) Hy0 Hdt Hne Hl) as [E|(Ed & E & Hm)].
  - left. by destruct (off_disk _ _ _ Hc y Py) as [-> | ->].
  - destruct (off_saved _ _ _ Hc x y Ed Py) as [Ed'|E']; [|by left]. right. split; [done|]. split; [rewrite <- E; by apply (off_deps _ _ _ Hc x y Ed')|].
    intros t0 old0 Hx. destruct (Hh _ _ _ _ Hx) as [[Hx0 _]|Hlat]; [by apply (Hm t0 old0)|by apply Hlat].
Qed.

Lemma good_calm sy L clk G b b' : good sy L clk G b -> bm_ok b' -> calm b b' -> good sy L clk G b'.
Proof.
  intros [H1 H2 H3 H5 H6 H7 H8 H10 H9 H11] Hok Hc. assert (Hs := calm_pages L clk G b b' Hc). assert (Hv := fun x => calm_view _ _ x Hc).
  assert (Hi' : iso (pages L clk G b')) by (by apply (iso_same (pages L clk G b))). constructor; auto.
  - destruct Hc as [Hc _]. by rewrite (off_stake _ _ _ Hc).
  - intros y x t old Hm. apply (H5 y x t old). by apply Hs.
  - intros s o x y a z Hin Hd. destruct (calm_deps _ _ _ _ Hc Hd) as [Hd' E]. rewrite E, Hv. by apply (H6 s o x y a z).
  - intros s o x y a w t old Hin Hw Hh. apply (H7 s o x y a w t old); [done|done|by apply Hs].
  - intros E x t0 old w Hm Hw Hl. apply (calm_synced _ _ _ Hc). apply (H8 E x t0 old w); [by apply Hs|done|done].
  - intros E. apply (saved_off (fun _ => False) L L clk clk G G b b' (proj1 Hc)); [|done|by apply H10]. intros y x t old Hy. left. split; [by apply Hs|tauto].
  - intros x Hx Ht. destruct Hc as [Hc Ha]. destruct (off_trid _ _ _ Hc x) as [E|E]; [tauto| |done]. rewrite E in *. apply H9; [|done].
    intros Hf. apply Hx. by apply (free_calm b b' (conj Hc Ha)).
  - by apply (alloc_calm b b').
Qed.

(** What happens to blocks that are in use keeps the rest of the invariant;
    new versions are later than the persistent snapshot. *)
Lemma rest_off (P : XPTR -> Prop) L L' clk G G' b b' : calm_off P b b' ->
  (forall y x t old, holds (pages L' clk G' b') y x t old ->
    (holds (pages L clk G b) y x t old /\ ~ P y) \/ forall w, w ∈ pers_views L' -> later w t) -> G' ⊆ G ->
  (forall s o x y a, (s, (o, mk_function x y a VE_FUNCTION_CREATE_VERSION_PERS)) ∈ G' -> ~ P x /\ ~ P y) ->
  pers_views L' ⊆ pers_views L -> deps_ok G b -> fresh_ok L clk G b ->
  deps_ok G' b' /\ fresh_ok L' clk G' b' /\ (sync_ok L clk G b -> sync_ok L' clk G' b') /\ (saved_ok L clk G b -> saved_ok L' clk G' b').
Proof.
  intros Hc Hh HG HP Hp Hd Hf. split; [|split; [|split; [|by apply (saved_off P)]]].
  - intros s o x y a z Hin Hz. destruct (HP s o x y a Hin) as [Px Py]. destruct (off_deps _ _ _ Hc x z Hz) as [Hz0 E].
    rewrite E, (off_view _ _ _ Hc y Py). by apply (Hd s o x y a z); [apply HG|].
  - intros s o x y a w t old Hin Hw Hy. destruct (Hh _ _ _ _ Hy) as [[Hy' _]|Hl]; [|by apply Hl].
    apply (Hf s o x y a w t old); [by apply HG|by apply Hp|done].
  - intros Hs x t0 old w Hm Hw Hl. destruct (Hh _ _ _ _ Hm) as [[Hm' Px]|Hl']; [|by destruct Hl; apply Hl'].
    assert (E := Hs x t0 old w Hm' (Hp _ Hw) Hl).
    rewrite (off_view _ _ _ Hc x Px). destruct (off_disk _ _ _ Hc x Px) as [-> | ->]; done.
Qed.

Lemma pers_later clk L w t : snapshots_ok clk L -> w ∈ pers_views L -> t ∈ ts_active L -> later w t.
Proof. intros Hok Hw Ht. apply pers_views_in in Hw as (s & Hs & _ & ->). by apply (active_later_live clk L). Qed.

Lemma deps_cons s o f G b : deps_ok G b ->
  (vf_type f = VE_FUNCTION_CREATE_VERSION_PERS -> forall z, deps b !! vf_lxptr f = Some z -> z = vf_xptr f /\ disk_view b (vf_lxptr f) = view b (vf_xptr f)) ->
  deps_ok ((s, (o, f)) :: G) b.
Proof. intros Hd Hf s' o' x y a z [[= _ _ <-]|Hin]%elem_of_cons Hz; [by apply Hf|by apply (Hd s' o' x y a z)]. Qed.

Lemma fresh_cons s o f L clk G b : fresh_ok L clk G b ->
  (vf_type f = VE_FUNCTION_CREATE_VERSION -> forall w t old, w ∈ pers_views L -> holds (pages L clk G b) (vf_xptr f) (vf_lxptr f) t old -> later w t) ->
  fresh_ok L clk ((s, (o, f)) :: G) b.
Proof. intros Hd Hf s' o' x y a w t old [[= _ _ <-]|Hin]%elem_of_cons Hw Hh; [by apply (Hf eq_refl w t old)|by apply (Hd s' o' x y a w t old)]. Qed.

Lemma access_cons p G b : access_ok G b -> access_ok (p :: G) b.
Proof. intros Ha x Hx Ht. destruct (Ha x Hx Ht) as (o & f & Hin & K). exists o, f. split; [by right|done]. Qed.

(** The blocks of a function are in use. *)
Lemma fn_in_use sy L clk G b s o f : good sy L clk G b -> (s, (o, f)) ∈ G ->
  ~ is_free b (vf_lxptr f) /\ (vf_type f <> VE_FUNCTION_ALLOCATE_BLOCK -> ~ is_free b (vf_xptr f)).
Proof.
  intros Hg Hin. assert (Hin' : (o, f) ∈ ip (pages L clk G b)) by (apply list_elem_of_fmap; by exists (s, (o, f))).
  assert (Hfn := i_fn _ (g_iso _ _ _ _ _ Hg) _ Hin'). unfold fn_ok in Hfn. destruct (vf_type f).
  - destruct Hfn as [? _]. by split.
  - destruct Hfn as (_ & t1 & es & old & [? _] & [? _] & _). by split.
  - destruct Hfn as (_ & t1 & es & old & [? _] & [? _] & _). by split.
  - destruct Hfn as (E & t0 & old & [? _] & _). rewrite E. by split.
Qed.

Lemma fn_data sy L clk G b s o f : good sy L clk G b -> (s, (o, f)) ∈ G -> vf_type f <> VE_FUNCTION_ALLOCATE_BLOCK -> IS_DATA_BLOCK (vf_xptr f) = true.
Proof.
  intros Hg Hin Hty. assert (Hin' : (o, f) ∈ ip (pages L clk G b)) by (apply list_elem_of_fmap; by exists (s, (o, f))).
  assert (Hfn := i_fn _ (g_iso _ _ _ _ _ Hg) _ Hin'). unfold fn_ok in Hfn. destruct (vf_type f); [done|..].
  - destruct Hfn as (_ & t1 & es & old & _ & Hh & _). by apply (g_data _ _ _ _ _ Hg _ _ _ _ Hh).
  - destruct Hfn as (_ & t1 & es & old & _ & Hh & _). by apply (g_data _ _ _ _ _ Hg _ _ _ _ Hh).
  - destruct Hfn as (E & t0 & old & Hh & _). rewrite E. by apply (g_data _ _ _ _ _ Hg _ _ _ _ Hh).
Qed.

(** Exclusive access stays with blocks that stay in use. *)
Lemma access_off (P : XPTR -> Prop) G b b' : calm_off P b b' -> (forall x, ~ is_free b' x -> ~ P x /\ ~ is_free b x) ->
  access_ok G b -> access_ok G b'.
Proof.
  intros Hc Hf Ha x Hx Ht. destruct (Hf x Hx) as [Px Fx]. destruct (off_trid _ _ _ Hc x Px) as [E|E]; [|done]. rewrite E in *. by apply Ha.
Qed.

(** ** Changes of the snapshots only *)

Lemma good_views sy L clk G b L' clk' : good sy L clk G b -> snapshots_ok clk' L' -> clk <= clk' <= TIMESTAMP_MAX + 1 ->
  views_change clk L L' -> pers_views L' ⊆ pers_views L ->
  (forall s', s' ∈ undamaged_live L' -> clk <= timestamp s' -> all_active L G) -> good sy L' clk' G b.
Proof.
  intros [H1 H2 H3 H5 H6 H7 H8 H10 H9 H11] Hok Hclk Hv Hp Hact.
  assert (Hi' : iso (pages L' clk' G b)).
  { apply (iso_views (pages L clk G b) L' clk'); auto. intros s' Hs' Hge o f Hin. apply list_elem_of_fmap in Hin as ([s [o' f']] & E & Hin).
    cbn in E. injection E as -> ->. by apply (Hact s' Hs' Hge s o' f'). }
  constructor; auto.
  - intros s o x y a w t old Hin Hw Hh. apply (H7 s o x y a w t old); [done|by apply Hp|done].
  - intros E x t0 old w Hm Hw Hl. by apply (H8 E x t0 old w); [done|apply Hp|done].
  - intros E. apply (saved_off (fun _ => False) L L' clk clk' G G b b (off_refl _ b)); [|done|by apply H10]. intros y x t old Hy. left. split; [exact Hy|tauto].
Qed.

Lemma views_reads L L' clk clk' G b w x c : owned L' ≡ₚ owned L ->
  reads (pages L' clk' G b) w x c <-> reads (pages L clk G b) w x c.
Proof.
  intros Ho. assert (Hr := fun y => reads_views (pages L clk G b) L' clk' w x y Ho).
  split; intros (y & Hy & Hc); exists y; (split; [by apply Hr|done]).
Qed.

(** The snapshots are the same but for the chains, the occupancies and the
    damage, or fewer. *)
Lemma pers_views_sub L L' : (forall s', s' ∈ from_current L' -> exists s, s ∈ from_current L /\ snap_of s' = snap_of s /\ type s' = type s) ->
  pers_views L' ⊆ pers_views L.
Proof.
  intros Hs w. rewrite !pers_views_in. intros (s' & Hs' & Ht & ->). destruct (Hs s' Hs') as (s & H1 & H2 & H3). exists s. split; [done|]. split; congruence.
Qed.

(** ** Blocks that are freed *)

Lemma frees_ok l : forall (w w' : ve_world D A), bm_ok (ve_bm w) -> alloc_ok (ve_bm w) -> buffer_on_stake (ve_bm w) = -1 -> NoDup l ->
  (forall x, x ∈ l -> ~ is_free (ve_bm w) x /\ x <> 0 /\ IS_DATA_BLOCK x = true /\ is_Some (disk (ve_bm w) !! x)) -> frees (VeFreeBlockLow true) w l w' ->
  exists b', w' = set_bm b' w /\ bm_ok b' /\ alloc_ok b' /\ (forall y, is_free b' y <-> is_free (ve_bm w) y \/ y ∈ l)
    /\ calm_off (fun y => is_free (ve_bm w) y \/ y ∈ l) (ve_bm w) b'.
Proof.
  induction l as [|x l IH]; intros w w' Hok Halk Hst Hnd Hl Hf.
  - inversion Hf; subst. exists (ve_bm w'). split; [by destruct w'|]. split; [done|]. split; [done|]. split; [intros y; rewrite elem_of_nil; tauto|apply off_refl].
  - inversion Hf as [|w0 x0 w1 l0 w2 Hx Hf']; subst. apply NoDup_cons in Hnd as [Hxl Hnd].
    destruct (Hl x) as (Hnf & Hx0 & Hdb & Hd); [left|]. unfold VeFreeBlockLow in Hx. cbn in Hx.
    destruct (FreeBlock x (ve_bm w)) as [[] b1|e b1] eqn:Hb; [|done]. injection Hx as <-.
    destruct (delete_ok x (ve_bm w) b1 (ok_but_ok _ _ Hok) Halk Hst Hnf Hx0 Hdb Hd Hb) as (Hok1 & Halk1 & Hfr1 & Hc1 & _).
    destruct (IH (set_bm b1 (set_hash (restrictionHash w) w)) w') as (b' & -> & Hok' & Halk' & Hfr' & Hc'); cbn; [done|done|by rewrite (off_stake _ _ _ Hc1)|done| |done|].
    { intros y Hy. destruct (Hl y) as (Hny & Hy0 & Hdby & Hdy); [by right|]. split; [|split; [done|split; [done|by apply (off_dom _ _ _ Hc1)]]].
      rewrite Hfr1. intros [| ->]; [done|by apply Hxl]. }
    exists b'. split; [done|]. split; [done|]. split; [done|]. cbn in Hfr', Hc'. split; [intros y; rewrite Hfr', Hfr1, elem_of_cons; tauto|].
    apply (off_trans _ _ b1); [eapply off_mono; [|exact Hc1]|eapply off_mono; [|exact Hc']].
    + cbn; intros y; rewrite elem_of_cons; tauto.
    + cbn; intros y; rewrite Hfr1, elem_of_cons; tauto.
Qed.

(** The collection of old versions. *)
Lemma good_purge sy L L' clk G b b' V X : good sy L clk G b -> all_active L G ->
  purge V X (pages L clk G b) (pages L' clk G b') -> bm_ok b' -> alloc_ok b' -> calm_off (fun y => is_free b y \/ y ∈ X) b b' ->
  pers_views L' ⊆ pers_views L -> good sy L' clk G b'.
Proof.
  intros Hg Hact Hp Hok Halk Hc Hpv. assert (Hi := g_iso _ _ _ _ _ Hg).
  assert (Hact' : forall o f, (o, f) ∈ ip (pages L clk G b) -> o ∈ ts_active (il (pages L clk G b))).
  { intros o f Hin. apply list_elem_of_fmap in Hin as ([s [o' f']] & E & Hin). cbn in E. injection E as -> ->. by apply (Hact s o' f'). }
  assert (Hh : forall y x t old, holds (pages L' clk G b') y x t old -> holds (pages L clk G b) y x t old /\ ~ (is_free b y \/ y ∈ X)).
  { intros y x t old. rewrite (purge_holds V X _ _ Hp). intros [[Hn Hy] HX]. split; [by split|]. cbn in Hn. tauto. }
  destruct (rest_off (fun y => is_free b y \/ y ∈ X) L L' clk G G b b' Hc) as (K1 & K2 & K3 & K4); [intros; left; by apply Hh|done| |done|apply Hg|apply Hg|].
  { intros s o x y a Hin. destruct (fn_in_use _ _ _ _ _ _ _ _ Hg Hin) as [F1 F2]. cbn in F1, F2.
    destruct (purge_pending V X _ _ Hi Hp Hact' o (mk_function x y a VE_FUNCTION_CREATE_VERSION_PERS)) as [X1 X2]; [apply list_elem_of_fmap; by exists (s, (o, mk_function x y a VE_FUNCTION_CREATE_VERSION_PERS))|].
    cbn in X1, X2. specialize (F2 ltac:(done)). specialize (X2 ltac:(done)). tauto. }
  assert (Hi' : iso (pages L' clk G b')) by (by apply (iso_purge V X (pages L clk G b))). constructor; auto.
  - rewrite (off_stake _ _ _ Hc). apply Hg.
  - intros y x t old Hm. apply Hh in Hm as [Hm _]. by apply (g_data _ _ _ _ _ Hg y x t old).
  - intros E. apply K3. by apply (g_sync _ _ _ _ _ Hg).
  - intros E. apply K4. by apply (g_saved _ _ _ _ _ Hg).
  - apply (access_off (fun y => is_free b y \/ y ∈ X) G b); [done| |apply Hg]. intros x Hx. assert (E := pg_free _ _ _ _ Hp x). cbn in E. tauto.
Qed.

(** No block that a function or a snapshot needs is freed: the blocks of old
    versions are in use, each of them once. *)
Lemma owned_blocks sy L clk G b X (f : owned_version -> bool) : good sy L clk G b -> X ≡ₚ map block_of (List.filter f (owned L)) ->
  NoDup X /\ forall x, x ∈ X -> ~ is_free b x /\ x <> 0 /\ IS_DATA_BLOCK x = true /\ is_Some (disk b !! x).
Proof.
  intros Hg HX. assert (Hi := g_iso _ _ _ _ _ Hg).
  assert (Hin : forall x, x ∈ X -> exists e o, (e, o) ∈ owned L /\ xptr e = x).
  { intros x. rewrite HX. intros Hx. apply list_elem_of_fmap in Hx as ([e o] & -> & He). apply list_elem_of_In, filter_In in He as [He%list_elem_of_In _]. by exists e, o. }
  split.
  - rewrite HX. assert (Hnd := i_addr _ Hi). apply NoDup_app in Hnd as (Hnd & _ & _). cbn in Hnd. clear -Hnd.
    induction (owned L) as [|v l IH]; [constructor|]. cbn in *. apply NoDup_cons in Hnd as [Hn Hnd]. destruct (f v); [|by apply IH]. cbn.
    constructor; [|by apply IH]. intros Hin. apply Hn. apply list_elem_of_fmap in Hin as (u & -> & Hu).
    apply list_elem_of_In, filter_In in Hu as [Hu%list_elem_of_In _]. apply list_elem_of_fmap. by exists u.
  - intros x Hx. destruct (Hin x Hx) as (e & o & He & <-). destruct (i_inuse _ Hi (xptr e)) as [F1 F2].
    { apply elem_of_app. left. apply list_elem_of_fmap. by exists (e, o). }
    split; [done|]. split; [done|]. assert (Hfine := i_owned _ Hi e o He). unfold entry_fine in Hfine.
    assert (Hv : exists y t old, holds (pages L clk G b) (xptr e) y t old) by (destruct (lxptr e =? 0); [destruct Hfine as (? & ? & ? & _)|destruct Hfine as (_ & ? & ? & ?)]; eauto).
    destruct Hv as (y & t & old & Hy). split; [by apply (g_data _ _ _ _ _ Hg _ y t old)|]. destruct Hy as (_ & c & Hc & _). by apply (view_disk b (xptr e) c); [apply Hg|].
Qed.
End Good.

(** * Snapshots that go

    The collection of old versions over the pages (WuGood.v), and the calls
    that change the list of snapshots: registration, the end of transactions,
    advances and checkpoints. *)
(** ** Snapshots that stay *)

(** Every snapshot of [L'] is one of [L], as far as views are concerned. *)
Definition fewer (L L' : SnSnapshotsList) : Prop := forall s', s' ∈ from_current L' ->
  exists s, s ∈ from_current L /\ snap_of s' = snap_of s /\ type s' = type s /\ (isDamaged s' = false -> isDamaged s = false).

Lemma fewer_pers L L' : fewer L L' -> pers_views L' ⊆ pers_views L.
Proof. intros Hf. apply pers_views_sub. intros s' Hs'. destruct (Hf s' Hs') as (s & ? & ? & ? & _). eauto. Qed.

Lemma fewer_live L L' s' : fewer L L' -> s' ∈ undamaged_live L' -> exists s, s ∈ undamaged_live L /\ snap_of s' = snap_of s.
Proof.
  intros Hf Hs'. destruct (undamaged_viewer L' s' Hs') as (Hin & Hd & _). destruct (Hf s' Hin) as (s & Hs & E & _ & Hds).
  exists s. split; [|done]. apply list_elem_of_In, filter_In. split; [by apply list_elem_of_In|]. by rewrite (Hds Hd).
Qed.

Lemma bare_snap s s' : bare s' = bare s -> snap_of s' = snap_of s /\ type s' = type s /\ isDamaged s' = isDamaged s.
Proof. intros E. destruct (bare_eq s s' E) as (E1 & E2 & E3 & _). unfold snap_of. rewrite E1, E2. split; [done|]. split; [done|]. by injection E. Qed.

Lemma map_elem {A B} (f : A -> B) l l' x' : map f l' = map f l -> x' ∈ l' -> exists x, x ∈ l /\ f x' = f x.
Proof. intros E Hx. assert (H : f x' ∈ map f l) by (rewrite <- E; apply list_elem_of_fmap; eauto). apply list_elem_of_fmap in H as (x & ? & ?). eauto. Qed.

Lemma damage_elem l l' s' : Forall2 damage_step l l' -> s' ∈ l' -> exists s, s ∈ l /\ damage_step s s'.
Proof.
  intros H Hs. apply list_elem_of_lookup in Hs as [i Hi]. destruct (Forall2_lookup_r _ _ _ _ _ H Hi) as (s & Hs & Hd). exists s. split; [|done].
  apply list_elem_of_lookup. eauto.
Qed.

(** The snapshots a collection leaves. *)
Lemma purified_fewer {W} (f : XPTR -> wu W unit) clk L w l1 cand L1 w' keep : snapshots_ok clk L -> from_current L = l1 ++ cand ->
  purified f clk L w l1 cand L1 w' ->
  let L' := AutoDamageSnapshotsAndScanForGarbage L1 keep in
  snapshots_ok clk L' /\ fewer L L' /\ ts_active L' = ts_active L /\ owned L' = owned L1
  /\ forall s', s' ∈ from_current L' -> mem (victims cand) (timestamp s') = false.
Proof.
  intros (fut & lv & Hsp) Hcur (fut' & lv' & freed & Hsp' & Hb & (Ea & _ & _) & _) L'.
  assert (E : lv = l1 ++ cand) by (destruct (split_current _ _ _ _ Hsp) as [_ E]; congruence). subst lv.
  destruct (auto_damage_ok _ _ _ _ keep Hsp') as (lv2 & Hsp2 & Hd & _ & Ea2 & _ & Ho2 & _).
  destruct (split_current _ _ _ _ Hsp2) as [_ E2].
  assert (Hel : forall s', s' ∈ from_current L' -> exists s, s ∈ l1 ++ kept cand /\ snap_of s' = snap_of s /\ type s' = type s /\ (isDamaged s' = false -> isDamaged s = false)).
  { intros s' Hs'. unfold L' in Hs'. rewrite E2 in Hs'. destruct (damage_elem _ _ _ Hd Hs') as (s1 & Hs1 & Hd1).
    destruct (map_elem bare _ _ s1 Hb Hs1) as (s & Hs & Eb). destruct (bare_snap _ _ Eb) as (B1 & B2 & B3).
    destruct (damage_step_fields _ _ Hd1) as (D1 & D2 & D3 & _ & _ & _ & D4). exists s. split; [done|].
    split; [unfold snap_of; rewrite D1, D2; exact B1|]. split; [congruence|]. intros Hf. rewrite <- B3. destruct (isDamaged s1); [by rewrite D4 in Hf|done]. }
  split; [by exists fut', lv2|]. split; [|split; [unfold L'; congruence|split; [done|]]].
  - intros s' Hs'. destruct (Hel s' Hs') as (s & Hs & K). exists s. split; [|done]. rewrite Hcur. rewrite elem_of_app in *. destruct Hs as [|Hs]; [by left|right].
    by apply list_elem_of_In, filter_In in Hs as [Hs%list_elem_of_In _].
  - intros s' Hs'. destruct (Hel s' Hs') as (s & Hs & K & _). unfold snap_of in K. injection K as -> _.
    apply (kept_no_victim l1 cand); [by apply (split_NoDup _ _ _ _ Hsp)|]. apply list_elem_of_fmap. eauto.
Qed.

Section Purify.
Context {D A : Type} `{AllocatorOk D A}.
Implicit Types (b : bm D A) (G : list client_fn).

Lemma purify_good sy L clk G (w : ve_world D A) keep L' w' : good sy L clk G (ve_bm w) -> all_active L G ->
  PurifySnapshots (VeFreeBlockLow true) keep (L, w) = Done tt (L', w') ->
  exists b', w' = set_bm b' w /\ good sy L' clk G b' /\ ts_active L' = ts_active L /\ fewer L L'
    /\ forall v x c, v ∈ viewers L' -> v ∈ viewers L /\ (reads (pages L' clk G b') v x c <-> reads (pages L clk G (ve_bm w)) v x c).
Proof.
  intros Hg Hact Hrun. assert (Hi := g_iso _ _ _ _ _ Hg). assert (Hsn := i_snap _ Hi). cbn in Hsn.
  destruct (purify_done _ _ _ _ _ _ _ Hsn Hrun) as (L1 & l1 & cand & -> & Hcur & _ & Hp).
  destruct (purified_fewer _ _ _ _ _ _ _ _ keep Hsn Hcur Hp) as (Hok & Hfew & Ea & Eo & Hvic).
  destruct Hp as (fut' & lv' & X & _ & _ & _ & Ho & HX & Hfr).
  destruct (owned_blocks _ _ _ _ _ X _ Hg HX) as [Hnd Huse].
  destruct (frees_ok X w w' (g_bm _ _ _ _ _ Hg) (g_alloc _ _ _ _ _ Hg) (g_stake _ _ _ _ _ Hg) Hnd Huse Hfr) as (b' & -> & Hok' & Halk' & Hfree & Hc).
  set (L' := AutoDamageSnapshotsAndScanForGarbage L1 keep) in *.
  assert (Hpg : purge (victims cand) X (pages L clk G (ve_bm w)) (pages L' clk G b')).
  { constructor; cbn; auto.
    - intros s' Hs'. destruct (undamaged_viewer _ _ Hs') as (Hin & _). split; [by apply Hvic|]. by apply (fewer_live L L').
    - by rewrite Eo.
    - intros y Hy. apply (off_view _ _ _ Hc). by rewrite <- Hfree. }
  assert (Hact' : forall o f, (o, f) ∈ ip (pages L clk G (ve_bm w)) -> o ∈ ts_active (il (pages L clk G (ve_bm w)))).
  { intros o f Hin. apply list_elem_of_fmap in Hin as ([s [o' f']] & E & Hin). cbn in E. injection E as -> ->. by apply (Hact s o' f'). }
  exists b'. split; [done|]. split; [by apply (good_purge sy L L' clk G (ve_bm w) b' (victims cand) X); [..|apply fewer_pers]|].
  split; [done|]. split; [done|]. intros v x c Hv. destruct (purge_viewer _ _ _ _ Hi Hpg v Hv) as [Hv0 _]. split; [done|].
  assert (Hr := fun y => purge_reads _ _ _ _ Hi Hpg Hact' v x y Hv). split; intros (y & Hy & Ec); exists y.
  - split; [by apply Hr|]. cbn in *. rewrite <- Ec. symmetry. apply (pg_view _ _ _ _ Hpg). by destruct Hy as (_ & ? & ? & _ & _ & ?).
  - apply Hr in Hy. split; [done|]. cbn in *. rewrite <- Ec. apply (pg_view _ _ _ _ Hpg). by destruct Hy as (_ & ? & ? & _ & _ & ?).
Qed.
End Purify.
