(* ===== verification/WuCalls.v ===== *)
(** * Calls that change the snapshots

    Registration, the end of transactions, advances and checkpoints (SnApi.v)
    over the pages (WuGood.v): what every snapshot in use reads stays the same,
    and the last committed state changes with the end of an updater only. *)

From Stdlib Require Import ZArith List Lia Bool Sorted.
From stdpp Require Import base gmap list sets sorting.
From S2P Require Import Prelude WuBase Snapshots SnGc SnApi SnInv SnPurify SnOps SnEvolve SnExpand SnSystem SnReach Buffers Versions BufInv BufOps IsoHeader Iso IsoList WuFree WuGood.
Local Open Scope sedna_scope.
Local Open Scope Z_scope.

(** ** Changes of one snapshot *)

Lemma change_fewer clk L L' : fewer L L' -> owned L' ≡ₚ owned L -> (forall t, t < clk -> t ∈ ts_active L' -> t ∈ ts_active L) ->
  views_change clk L L'.
Proof. intros Hf Ho Ha. constructor; [done|done|]. intros s' Hs'. left. by apply (fewer_live L L'). Qed.

Lemma fewer_leading clk clk' L L' fut fut' lv : split_ok clk L fut lv -> split_ok clk' L' fut' lv -> fewer L L'.
Proof.
  intros H1 H2 s'. destruct (split_current _ _ _ _ H1) as [_ E1]. destruct (split_current _ _ _ _ H2) as [_ E2]. rewrite E1, E2. intros Hs. by exists s'.
Qed.

(** A snapshot with another occupancy or type. *)
Lemma replaced_live clk L L' fut l1 s s' l2 : split_ok clk L fut (l1 ++ s :: l2) -> split_ok clk L' fut (l1 ++ s' :: l2) ->
  snap_of s' = snap_of s -> isDamaged s' = isDamaged s ->
  forall z', z' ∈ from_current L' -> exists z, z ∈ from_current L /\ snap_of z' = snap_of z /\ isDamaged z' = isDamaged z
    /\ (type z' = type z \/ z' = s').
Proof.
  intros H1 H2 Es Ed z'. destruct (split_current _ _ _ _ H1) as [_ E1]. destruct (split_current _ _ _ _ H2) as [_ E2]. rewrite E1, E2, !elem_of_app, !elem_of_cons.
  intros [Hz|[->|Hz]].
  - exists z'. rewrite elem_of_app. tauto.
  - exists s. rewrite elem_of_app, elem_of_cons. tauto.
  - exists z'. rewrite elem_of_app, elem_of_cons. tauto.
Qed.

Lemma replaced_fewer clk L L' fut l1 s s' l2 : split_ok clk L fut (l1 ++ s :: l2) -> split_ok clk L' fut (l1 ++ s' :: l2) ->
  snap_of s' = snap_of s -> isDamaged s' = isDamaged s -> type s' = type s -> fewer L L'.
Proof.
  intros H1 H2 Es Ed Et z' Hz. destruct (replaced_live _ _ _ _ _ _ _ _ H1 H2 Es Ed z' Hz) as (z & Hz0 & E & Ez & _).
  destruct (replaced_live _ _ _ _ _ _ _ _ H1 H2 Es Ed z' Hz) as (z2 & Hz2 & F & Fz & [Ft|Ft]).
  - exists z2. split; [done|]. split; [done|]. split; [done|]. congruence.
  - subst z'. exists s. destruct (split_current _ _ _ _ H1) as [_ E1]. rewrite E1. split; [rewrite elem_of_app, elem_of_cons; tauto|]. split; [done|]. split; [done|]. congruence.
Qed.

Section Calls.
Context {D A : Type} `{AllocatorOk D A}.
Abbreviation state := (sn_state (ve_world D A)).
Implicit Types (st : state) (G : list client_fn).

Definition pages_at G st : iso_state D := pages (snapshots st) (clock st) G (ve_bm (world st)).
Definition good_at sy G st : Prop := good sy (snapshots st) (clock st) G (ve_bm (world st)).

(** The views of the snapshots, and the last committed state. *)
Definition snapshot_views (L : SnSnapshotsList) : list snap := map snap_of (undamaged_live L).
Definition committed (P : iso_state D) (x : XPTR) (c : content D) : Prop := reads P (last_committed (il P)) x c.

(** Every snapshot reads what it read; a new one reads the committed state. *)
Definition keeps_reads (P P' : iso_state D) : Prop := forall v, v ∈ snapshot_views (il P') ->
  (v ∈ snapshot_views (il P) /\ forall x c, reads P' v x c <-> reads P v x c)
  \/ (ic P <= fst v /\ forall x c, reads P' v x c <-> committed P x c).

Definition same_committed (P P' : iso_state D) : Prop := forall x c, committed P' x c <-> committed P x c.

(** No snapshot is new. *)
Definition old_reads (P P' : iso_state D) : Prop := forall v, v ∈ snapshot_views (il P') ->
  v ∈ snapshot_views (il P) /\ forall x c, reads P' v x c <-> reads P v x c.

Lemma old_keeps P P' : old_reads P P' -> keeps_reads P P'.
Proof. intros Hr v Hv. left. by apply Hr. Qed.

Lemma old_trans P1 P2 P3 : old_reads P1 P2 -> old_reads P2 P3 -> old_reads P1 P3.
Proof.
  intros H1 H2 v Hv. destruct (H2 v Hv) as [Hv2 E2]. destruct (H1 v Hv2) as [Hv1 E1]. split; [done|]. intros x c. by rewrite E2.
Qed.

Lemma keeps_trans P1 P2 P3 : ic P1 <= ic P2 -> old_reads P1 P2 -> same_committed P1 P2 -> keeps_reads P2 P3 -> keeps_reads P1 P3.
Proof.
  intros Hc H1 Hs H2 v Hv. destruct (H2 v Hv) as [[Hv2 E2]|[Hge E2]].
  - left. destruct (H1 v Hv2) as [Hv1 E1]. split; [done|]. intros x c. by rewrite E2.
  - right. split; [lia|]. intros x c. rewrite E2. apply Hs.
Qed.

Lemma snapshot_viewer L v : v ∈ snapshot_views L -> v ∈ viewers L.
Proof. intros Hv. by right. Qed.

Lemma old_refl P : old_reads P P.
Proof. by intros v Hv. Qed.

Lemma viewers_same P P' : il P' = il P -> (forall w x c, w ∈ viewers (il P) -> reads P' w x c <-> reads P w x c) -> old_reads P P' /\ same_committed P P'.
Proof.
  intros E Hr. split.
  - intros v Hv. rewrite E in Hv. split; [done|]. intros x c. by apply Hr, snapshot_viewer.
  - intros x c. unfold committed. rewrite E. apply Hr. left.
Qed.

(** ** Changes of the list only *)

(** Views that agree on all versions there are read the same. *)
Lemma reads_agree (P : iso_state D) w w' x y : iso P -> fst w' = fst w -> (forall t, t < ic P -> later w' t <-> later w t) ->
  reads_at P w' x y <-> reads_at P w x y.
Proof.
  intros Hi Hf Hl. unfold reads_at, gone. rewrite Hf. apply and_iff_compat_l.
  assert (Hp : forall t0 old, master P x t0 old -> pick w' ((x, t0) :: old) = pick w ((x, t0) :: old)).
  { intros t0 old Hm. destruct (i_hist _ Hi _ _ _ Hm) as [E1 E2]. apply pick_agree. constructor; [by apply Hl|].
    apply (Forall_impl _ _ _ E2). intros e [E _]. by apply Hl. }
  split; intros (t0 & old & Hm & Hpick & Hfr); exists t0, old; (split; [done|]; split; [|done]); [by rewrite <- Hp|by rewrite Hp].
Qed.

Lemma list_old L L' clk clk' G b : fewer L L' -> owned L' ≡ₚ owned L -> old_reads (pages L clk G b) (pages L' clk' G b).
Proof.
  intros Hf Ho v Hv. unfold snapshot_views in Hv. apply list_elem_of_fmap in Hv as (s' & -> & Hs'). destruct (fewer_live L L' s' Hf Hs') as (s & Hs & E).
  split; [rewrite E; apply list_elem_of_fmap; eauto|]. intros x c. by apply views_reads.
Qed.

Lemma list_committed L L' clk clk' G b : iso (pages L clk G b) -> owned L' ≡ₚ owned L ->
  (forall t, t < clk -> t ∈ ts_active L' <-> t ∈ ts_active L) -> same_committed (pages L clk G b) (pages L' clk' G b).
Proof.
  intros Hi Ho Ha x c. unfold committed. rewrite (views_reads L L' clk clk' G b) by done. unfold reads. cbn [il pages].
  assert (Hr := fun y => reads_agree (pages L clk G b) (last_committed L) (last_committed L') x y Hi eq_refl).
  assert (Hl : forall t, t < clk -> later (last_committed L') t <-> later (last_committed L) t) by (intros t Ht; unfold later; cbn; by rewrite Ha).
  split; intros (y & Hy & Hc); exists y; (split; [by apply Hr|done]).
Qed.

Lemma good_fewer sy L L' clk clk' G b : good sy L clk G b -> snapshots_ok clk' L' -> clk <= clk' <= TIMESTAMP_MAX + 1 -> fewer L L' ->
  owned L' ≡ₚ owned L -> (forall t, t < clk -> t ∈ ts_active L' -> t ∈ ts_active L) -> good sy L' clk' G b.
Proof.
  intros Hg Hok Hclk Hf Ho Ha. apply (good_views sy L clk); [done|done|done|by apply change_fewer|by apply fewer_pers|].
  intros s' Hs' Hge. destruct (fewer_live L L' s' Hf Hs') as (s & Hs & E). destruct (undamaged_viewer _ _ Hs) as (Hin & _).
  destruct (live_timestamp clk L s (i_snap _ (g_iso _ _ _ _ _ Hg)) Hin). unfold snap_of in E. injection E as E _. lia.
Qed.

Lemma good_clock sy L clk G b : good sy L clk G b -> snapshots_ok clk L /\ TIMESTAMP_MIN <= clk <= TIMESTAMP_MAX + 1.
Proof. intros Hg. assert (Hi := g_iso _ _ _ _ _ Hg). split; [apply (i_snap _ Hi)|apply (i_clock _ Hi)]. Qed.

Lemma purified_reads L L' clk G b b' :
  (forall v x c, v ∈ viewers L' -> v ∈ viewers L /\ (reads (pages L' clk G b') v x c <-> reads (pages L clk G b) v x c)) ->
  ts_active L' = ts_active L -> fewer L L' ->
  old_reads (pages L clk G b) (pages L' clk G b') /\ same_committed (pages L clk G b) (pages L' clk G b').
Proof.
  intros Hr Ea Hf. split.
  - intros v Hv. split; [|intros x c; by apply Hr, snapshot_viewer]. apply list_elem_of_fmap in Hv as (s' & -> & Hs').
    destruct (fewer_live L L' s' Hf Hs') as (s & Hs & ->). apply list_elem_of_fmap. eauto.
  - intros x c. unfold committed. cbn [il pages]. assert (El : last_committed L' = last_committed L) by (unfold last_committed, InitFakeHeadSnapshot; by rewrite Ea).
    rewrite <- El. apply Hr. left.
Qed.

(** ** Registration *)

(** A reader gets the current snapshot. *)
Lemma register_reader_good sy G st st' r : good_at sy G st -> SnOnRegisterClient false true st = Done r st' ->
  good_at sy G st' /\ old_reads (pages_at G st) (pages_at G st') /\ same_committed (pages_at G st) (pages_at G st')
  /\ clock st' = clock st /\ world st' = world st /\ ts_active (snapshots st') = ts_active (snapshots st)
  /\ exists s, s ∈ undamaged_live (snapshots st') /\ block st' = Some (mk_client (timestamp s) SN_READ_ONLY_TRANSACTON).
Proof.
  intros Hg Hrun. unfold SnOnRegisterClient in Hrun. apply wu_bind_Done in Hrun as (b & s1 & Hb & Hrun).
  unfold ImpGetCurrentStateBlock in Hb. destruct (block st) as [b0|] eqn:Eb; [|done]. injection Hb as <- <-.
  apply wu_bind_Done in Hrun as (s2 & s3 & [= <- <-] & Hrun). destruct (good_clock _ _ _ _ _ Hg) as [(fut & lv & Hsp) Hclk].
  destruct (split_current _ _ _ _ Hsp) as [Ec Ef]. rewrite Ec in Hrun. destruct lv as [|s lv]; [done|].
  destruct (isDamaged s) eqn:Ed; [done|]. cbn in Hrun. injection Hrun as <- <-. unfold good_at, pages_at. cbn.
  assert (Hs : live_ok s). { destruct Hsp as (_ & Hok & _). by apply ls_live, Forall_cons in Hok as [Hs _]. }
  destruct (occupancy_step (clock st) (snapshots st) fut [] s lv 1 Hsp) as [Hsp1 Ho1];
    [assert (K := lv_occupancy _ Hs); lia|congruence|]. rewrite Nat.add_0_r in Hsp1, Ho1. cbn in Hsp1.
  assert (Hf := replaced_fewer _ _ _ _ [] s (set_occupancy (occupancy s + 1) s) lv Hsp Hsp1 eq_refl eq_refl eq_refl).
  split; [apply (good_fewer sy _ _ _ _ _ _ Hg); [by exists fut, (set_occupancy (occupancy s + 1) s :: lv)|lia|done|by rewrite Ho1|done]|].
  split; [apply list_old; [done|by rewrite Ho1]|]. split; [apply list_committed; [apply Hg|by rewrite Ho1|done]|].
  split; [done|]. split; [done|]. split; [done|]. exists (set_occupancy (occupancy s + 1) s). split; [|done].
  apply list_elem_of_In, filter_In. destruct (split_current _ _ _ _ Hsp1) as [_ ->]. split; [by left|]. cbn. by rewrite Ed.
Qed.

(** An updater gets the next timestamp. *)
Lemma register_updater_good sy G st st' r : good_at sy G st -> SnOnRegisterClient false false st = Done r st' ->
  (Z.of_nat (length (ts_active (snapshots st))) < nClientsMax (snapshots st)) ->
  good_at sy G st' /\ old_reads (pages_at G st) (pages_at G st') /\ same_committed (pages_at G st) (pages_at G st')
  /\ clock st' = clock st + 1 /\ world st' = world st /\ ts_active (snapshots st') = ts_active (snapshots st) ++ [clock st]
  /\ block st' = Some (mk_client (clock st) SN_UPDATER_TRANSACTION).
Proof.
  intros Hg Hrun Hroom. unfold SnOnRegisterClient in Hrun. apply wu_bind_Done in Hrun as (b & s1 & Hb & Hrun).
  unfold ImpGetCurrentStateBlock in Hb. destruct (block st) as [b0|] eqn:Eb; [|done]. injection Hb as <- <-.
  destruct (good_clock _ _ _ _ _ Hg) as [(fut & lv & Hsp) Hclk].
  apply wu_bind_Done in Hrun as (ts & s1 & Hts & Hrun). unfold get_client_timestamp, WuGetTimestamp in Hts.
  destruct (IsValidTimestamp (clock st)) eqn:Hv; [|done]. cbn in Hts. injection Hts as <- <-. destruct (clock_step _ Hclk Hv) as [Eu Hclk'].
  unfold wu_bind, wu_ignore, on_list in Hrun. cbn in Hrun. destruct (AddActiveTimestamp (snapshots st) (clock st)) as [L|e] eqn:Ha.
  2:{ unfold AddActiveTimestamp in Ha. rewrite Hv in Ha. cbn in Ha. destruct (Z.eqb_spec (Z.of_nat (length (ts_active (snapshots st)))) (nClientsMax (snapshots st))); [lia|done]. }
  destruct (add_active_ok _ _ _ _ _ Hsp Ha) as (Hsp' & Eact & El). cbn in Hrun. injection Hrun as <- <-. unfold good_at, pages_at. cbn. rewrite Eu.
  assert (Hf := fewer_leading _ _ _ _ _ _ _ Hsp Hsp').
  assert (Ho : owned L = owned (snapshots st)) by (unfold owned; by rewrite El).
  assert (Hact : forall t, t < clock st -> t ∈ ts_active L <-> t ∈ ts_active (snapshots st)).
  { intros t Ht. rewrite Eact, elem_of_app, list_elem_of_singleton. intuition lia. }
  split; [apply (good_fewer sy _ _ _ _ _ _ Hg); [by exists fut, lv|lia|done|by rewrite Ho|intros t Ht; by apply Hact]|].
  split; [apply list_old; [done|by rewrite Ho]|]. split; [apply list_committed; [apply Hg|by rewrite Ho|done]|]. done.
Qed.

(** ** The end of a transaction *)

(** An updater is not active any more. *)
Lemma end_updater_good sy G st t : good_at sy G st ->
  let L' := RemoveActiveTimestamp (snapshots st) t in
  good sy L' (clock st) G (ve_bm (world st)) /\ old_reads (pages_at G st) (pages L' (clock st) G (ve_bm (world st)))
  /\ ts_active L' = List.filter (fun x => negb (x =? t)) (ts_active (snapshots st)) /\ owned L' = owned (snapshots st).
Proof.
  intros Hg L'. destruct (good_clock _ _ _ _ _ Hg) as [(fut & lv & Hsp) Hclk]. destruct (remove_active_ok _ _ _ _ t Hsp) as (Hsp' & Ea & El).
  assert (Hf := fewer_leading _ _ _ _ _ _ _ Hsp Hsp'). assert (Ho : owned L' = owned (snapshots st)) by (unfold owned, L'; by rewrite El).
  split; [apply (good_fewer sy _ _ _ _ _ _ Hg); [by exists fut, lv|lia|done|by rewrite Ho|]|].
  { intros x _. unfold L'. rewrite Ea. intros Hx. by apply list_elem_of_In, filter_In in Hx as [Hx%list_elem_of_In _]. }
  split; [|done]. apply list_old; [done|by rewrite Ho].
Qed.

(** A snapshot loses a reader, and unused snapshots go. *)
Lemma end_reader_good sy G st st' r t : good_at sy G st -> all_active (snapshots st) G ->
  (exists s, s ∈ from_current (snapshots st) /\ timestamp s = t /\ 0 < occupancy s) -> end_read_only (VeFreeBlockLow true) t st = Done r st' ->
  good_at sy G st' /\ old_reads (pages_at G st) (pages_at G st') /\ same_committed (pages_at G st) (pages_at G st')
  /\ clock st' = clock st /\ block st' = block st /\ ts_active (snapshots st') = ts_active (snapshots st)
  /\ exists b', world st' = set_bm b' (world st).
Proof.
  intros Hg Hact (s0 & Hs0 & Et & Hocc0) Hrun. destruct (good_clock _ _ _ _ _ Hg) as [(fut & lv & Hsp) Hclk].
  destruct (split_current _ _ _ _ Hsp) as [_ Ef]. rewrite Ef in Hs0. assert (Hsp' := Hsp). destruct Hsp' as (Hl & Hok & _).
  assert (Ht : t ∈ map timestamp lv) by (rewrite <- Et; apply list_elem_of_fmap; eauto).
  destruct (find_live _ _ _ _ Hl (ls_future _ _ _ _ Hok) (ls_live _ _ _ _ Hok) Ht) as (l1 & s & l2 & -> & Es & _ & Hget).
  assert (s0 = s) as ->.
  { apply (timestamps_inj (l1 ++ s :: l2)); [by apply (split_NoDup _ _ _ _ Hsp)| |done|congruence]. rewrite elem_of_app, elem_of_cons. tauto. }
  assert (Hlive : live_ok s). { assert (K := ls_live _ _ _ _ Hok). rewrite Forall_app, Forall_cons in K. tauto. }
  destruct (occupancy_step (clock st) (snapshots st) fut l1 s l2 (-1) Hsp) as [Hsp2 Ho2]; [lia|intros Hd; assert (K := lv_damaged _ Hlive Hd); lia|].
  unfold end_read_only in Hrun. apply wu_bind_Done in Hrun as (s2 & s3 & [= <- <-] & Hrun). rewrite Hget in Hrun.
  apply wu_bind_Done in Hrun as ([] & s3 & [= <-] & Hrun). set (L2 := add_occupancy (-1) (length fut + length l1) (snapshots st)) in *.
  assert (Hf := replaced_fewer _ _ _ _ l1 s (set_occupancy (occupancy s + -1) s) l2 Hsp Hsp2 eq_refl eq_refl eq_refl).
  assert (Hg2 : good sy L2 (clock st) G (ve_bm (world st))).
  { apply (good_fewer sy _ _ _ _ _ _ Hg); [by exists fut, (l1 ++ set_occupancy (occupancy s + -1) s :: l2)|lia|done|by rewrite Ho2|done]. }
  assert (Ho2' : old_reads (pages_at G st) (pages L2 (clock st) G (ve_bm (world st)))) by (apply list_old; [done|by rewrite Ho2]).
  assert (Hc2 : same_committed (pages_at G st) (pages L2 (clock st) G (ve_bm (world st)))) by (apply list_committed; [apply Hg|by rewrite Ho2|done]).
  unfold on_snapshots, wu_lift in Hrun. cbn [snapshots world set_snapshots] in Hrun.
  destruct (PurifySnapshots (VeFreeBlockLow true) true (L2, world st)) as [[] [L3 w3]|e [L3 w3]] eqn:Hp; [|done]. injection Hrun as <- <-.
  destruct (purify_good sy L2 (clock st) G (world st) true L3 w3 Hg2) as (b' & -> & Hg3 & Ea & Hfw & Hr); [done|done|].
  unfold good_at, pages_at. cbn. split; [done|]. assert (Hr' := purified_reads L2 L3 (clock st) G (ve_bm (world st)) b' Hr Ea Hfw).
  split; [apply (old_trans _ _ _ Ho2'), Hr'|]. split; [intros x c; rewrite (proj2 Hr' x c); apply Hc2|]. split; [done|]. split; [done|]. split; [done|]. eauto.
Qed.
End Calls.
