(* ===== verification/WuCkpt.v ===== *)
(** * Advances and checkpoints

    A new snapshot reads the last committed state, a checkpoint brings the
    blocks of the new persistent snapshot to the disk, and neither changes what
    anybody reads (SnApi.v, WuApi.v over WuGood.v). *)

From Stdlib Require Import ZArith List Lia Bool Sorted.
From stdpp Require Import base gmap list sets sorting.
From S2P Require Import Prelude WuBase Snapshots SnGc SnApi SnInv SnPurify SnOps SnEvolve SnExpand SnSystem SnReach Buffers Versions BufInv BufOps IsoHeader Iso IsoList WuFree WuGood WuCalls.
Local Open Scope sedna_scope.
Local Open Scope Z_scope.

(** ** Types of snapshots *)

Definition core (s : SnSnapshot) : snap * bool := (snap_of s, isDamaged s).

Lemma type_core p t L : map core (leading (set_type_at p t L)) = map core (leading L).
Proof.
  unfold set_type_at, update_at. cbn. destruct (leading L !! p) as [s|] eqn:E; [|done]. rewrite list_fmap_insert. apply list_insert_id.
  by rewrite list_lookup_fmap, E.
Qed.

Lemma core_live clk clk' L L' fut lv lv' : split_ok clk L fut lv -> split_ok clk' L' fut lv' -> map core (leading L') = map core (leading L) ->
  map core lv' = map core lv.
Proof. intros (E & _) (E' & _). rewrite E, E', !map_app. intros K. by apply app_inv_head in K. Qed.

Definition fewer_views (L L' : SnSnapshotsList) : Prop :=
  forall s', s' ∈ undamaged_live L' -> exists s, s ∈ undamaged_live L /\ snap_of s' = snap_of s.

Lemma core_undamaged clk clk' L L' fut lv lv' : split_ok clk L fut lv -> split_ok clk' L' fut lv' -> map core lv' = map core lv ->
  fewer_views L L'.
Proof.
  intros H1 H2 E s' Hs'. destruct (undamaged_viewer _ _ Hs') as (Hin & Hd & _). destruct (split_current _ _ _ _ H1) as [_ E1]. destruct (split_current _ _ _ _ H2) as [_ E2].
  rewrite E2 in Hin. destruct (map_elem core _ _ s' E Hin) as (s & Hs & Ec). unfold core in Ec. injection Ec as Et Ea Edd. exists s.
  split; [|unfold snap_of; congruence]. apply list_elem_of_In, filter_In. rewrite E1. split; [by apply list_elem_of_In|]. by rewrite <- Edd, Hd.
Qed.

(** ** Advances of the list *)

Lemma advance_run {W} (f : XPTR -> wu W unit) (st s1 : sn_state W) fut lv :
  on_snapshots (PurifySnapshots f false) st = Done tt s1 -> split_ok (clock s1) (snapshots s1) fut lv ->
  TIMESTAMP_MIN <= clock s1 <= TIMESTAMP_MAX + 1 ->
  (exists e, SnTryAdvanceSnapshots f st = Failed e s1)
  \/ exists L' fut' c, SnTryAdvanceSnapshots f st = Done (clock s1) (mk_sn L' (clock s1 + 1) (block s1) (world s1))
       /\ split_ok (clock s1 + 1) L' fut' (mk_snapshot (clock s1) (ts_active (snapshots s1)) c SN_REGULAR_SNAPSHOT 0 false :: lv)
       /\ owned L' = owned (snapshots s1) /\ ts_active L' = ts_active (snapshots s1) /\ IsValidTimestamp (clock s1) = true
       /\ nClientsMax L' = nClientsMax (snapshots s1).
Proof.
  intros Hp Hsp Hclk. unfold SnTryAdvanceSnapshots. rewrite (bind_done _ _ _ tt _ Hp), (bind_done _ _ _ s1 s1) by done.
  unfold EnsureCanAdvanceSnapshots. destruct (split_current _ _ _ _ Hsp) as [_ ->].
  destruct (leading (snapshots s1)) as [|hd tl] eqn:El; [left; by eexists|]. destruct (_ && _) eqn:Eadv; [|left; by eexists].
  apply andb_true_iff in Eadv as [Hu%Z.ltb_lt Hf%Z.eqb_eq].
  assert (Hu' : (undamaged lv < 2)%nat) by (unfold undamaged; unfold SN_SNAPSHOTS_COUNT in Hu; lia).
  unfold wu_bind at 1. unfold wu_bind at 3. unfold WuGetTimestamp. destruct (IsValidTimestamp (clock s1)) eqn:Hv; cbn [negb]; [|left; by eexists].
  destruct (clock_step _ Hclk Hv) as [-> Hclk']. right.
  assert (Hcr := create_ok (clock s1) (snapshots s1) fut lv (clock s1) SN_REGULAR_SNAPSHOT (clock s1 + 1) Hsp). destruct fut as [|f0 fut].
  { exfalso. destruct Hsp as (Hl & Hok & _). rewrite El in Hl. cbn in Hl. subst lv. assert (Hlv := ls_live _ _ _ _ Hok).
    apply Forall_cons in Hlv as [[Ht _ _ _ _] _]. rewrite Hf in Ht. by destruct Ht as [K|[K|K]]. }
  destruct Hcr as (L' & fut' & c & HC & Hsp' & (Ea' & _ & En') & Ho');
    [by left|done|lia|rewrite Nat.add_0_r; apply (ls_pers _ _ _ _ (proj1 (proj2 Hsp)))|rewrite Nat.add_0_r; apply (ls_prev _ _ _ _ (proj1 (proj2 Hsp)))|done|].
  rewrite (bind_done _ _ _ tt (mk_sn L' (clock s1 + 1) (block s1) (world s1))) by (unfold on_list; cbn; by rewrite HC).
  exists (set_runawayCount 0 L'), fut', c. split; [done|]. split; [by apply set_runaway_ok|]. done.
Qed.

(** The number of clients does not change. *)
Lemma purify_max {W} (f : XPTR -> wu W unit) clk L w keep L' w' : snapshots_ok clk L -> PurifySnapshots f keep (L, w) = Done tt (L', w') -> nClientsMax L' = nClientsMax L.
Proof.
  intros Hok Hp. destruct (purify_done f clk L w keep L' w' Hok Hp) as (L1 & l1 & cand & -> & _ & _ & fut & lv & freed & Hsp & _ & (_ & _ & En) & _).
  destruct (auto_damage_ok _ _ _ _ keep Hsp) as (_ & _ & _ & _ & _ & En' & _). congruence.
Qed.

(** The snapshot in front is the last committed state. *)
Lemma new_snapshot_views clk L L' fut fut' lv c : split_ok clk L fut lv ->
  split_ok (clk + 1) L' fut' (mk_snapshot clk (ts_active L) c SN_REGULAR_SNAPSHOT 0 false :: lv) -> owned L' = owned L -> ts_active L' = ts_active L ->
  TIMESTAMP_MIN <= clk <= TIMESTAMP_MAX -> views_change clk L L' /\ pers_views L' ⊆ pers_views L.
Proof.
  intros H1 H2 Ho Ea Hclk. destruct (split_current _ _ _ _ H1) as [_ E1]. destruct (split_current _ _ _ _ H2) as [_ E2]. split.
  - constructor; [by rewrite Ho|intros t _; by rewrite Ea|]. intros s' Hs'. destruct (undamaged_viewer _ _ Hs') as (Hin & Hd & _). rewrite E2 in Hin.
    apply elem_of_cons in Hin as [->|Hin]; [right|left].
    + split; [cbn; lia|]. intros t Ht. unfold later. cbn. split; (intros [?|?]; [ts_lia|by right]).
    + exists s'. split; [|done]. apply list_elem_of_In, filter_In. rewrite E1. split; [by apply list_elem_of_In|]. by rewrite Hd.
  - intros w. rewrite !pers_views_in, E1, E2. intros (s' & [->|Hin]%elem_of_cons & Ht & ->); [done|]. eauto.
Qed.

Section Checkpoint.
Context {D A : Type} `{AllocatorOk D A}.
Abbreviation state := (sn_state (ve_world D A)).
Implicit Types (st : state) (G : list client_fn).

(** ** Advances *)

Lemma advance_good sy G st s1 : good_at sy G st -> all_active (snapshots st) G ->
  on_snapshots (PurifySnapshots (VeFreeBlockLow true) false) st = Done tt s1 ->
  exists st', good_at sy G st' /\ keeps_reads (pages_at G st) (pages_at G st') /\ same_committed (pages_at G st) (pages_at G st')
    /\ clock st <= clock st' /\ (exists b', world st' = set_bm b' (world st)) /\ ts_active (snapshots st') = ts_active (snapshots st)
    /\ nClientsMax (snapshots st') = nClientsMax (snapshots st)
    /\ ((SnTryAdvanceSnapshots (VeFreeBlockLow true) st = Done (clock st) st'
         /\ exists s rest, from_current (snapshots st') = s :: rest /\ timestamp s = clock st /\ isDamaged s = false)
        \/ exists e, SnTryAdvanceSnapshots (VeFreeBlockLow true) st = Failed e st').
Proof.
  intros Hg Hact Hp. assert (Hp' := Hp). unfold on_snapshots, wu_lift in Hp.
  destruct (PurifySnapshots (VeFreeBlockLow true) false (snapshots st, world st)) as [[] [L1 w1]|e [L1 w1]] eqn:Hpu; [|done]. injection Hp as <-.
  destruct (purify_good sy _ _ G (world st) false L1 w1 Hg Hact Hpu) as (b' & -> & Hg1 & Ea & Hfw & Hr).
  destruct (purified_reads _ _ _ _ _ _ Hr Ea Hfw) as [Ho Hc]. destruct (good_clock _ _ _ _ _ Hg1) as [(fut & lv & Hsp) Hclk].
  assert (En : nClientsMax L1 = nClientsMax (snapshots st)) by (apply (purify_max _ (clock st) _ _ _ _ _ (proj1 (good_clock _ _ _ _ _ Hg)) Hpu)).
  destruct (advance_run _ st _ fut lv Hp' Hsp Hclk) as [[e He]|(L' & fut' & c & Hrun & Hsp' & Ho' & Ea' & Hv & En')]; cbn in *.
  - exists (mk_sn L1 (clock st) (block st) (set_bm b' (world st))). split; [exact Hg1|]. split; [by apply old_keeps|]. split; [done|]. split; [cbn; lia|]. split; [by eexists|]. split; [done|]. split; [done|]. right. by eexists.
  - apply IsValidTimestamp_spec in Hv. destruct (new_snapshot_views _ _ _ _ _ _ _ Hsp Hsp' Ho' Ea') as [Hvc Hpv]; [ts_lia|].
    eexists (mk_sn L' (clock st + 1) (block st) (set_bm b' (world st))). unfold good_at, pages_at. cbn.
    split; [apply (good_views sy L1 (clock st)); [done|by eexists _, _|ts_lia|done|done|unfold all_active; by rewrite Ea]|].
    assert (Hcom : same_committed (pages L1 (clock st) G b') (pages L' (clock st + 1) G b')).
    { apply list_committed; [apply Hg1|by rewrite Ho'|]. intros t Ht. by rewrite Ea'. }
    split; [|split; [intros x d; rewrite (Hcom x d); apply Hc|split; [lia|split; [by eexists|split; [congruence|split; [congruence|left]]]]]].
    2:{ split; [done|]. eexists _, lv. split; [by apply (split_current _ _ _ _ Hsp')|done]. }
    apply (keeps_trans _ (pages L1 (clock st) G b')); [cbn; lia|done|done|]. intros v Hv'. cbn in Hv'. apply list_elem_of_fmap in Hv' as (s' & -> & Hs').
    destruct (vc_live _ _ _ Hvc s' Hs') as [(s & Hs & E)|[Hge Hl]].
    + left. split; [rewrite E; apply list_elem_of_fmap; eauto|]. intros x d. apply views_reads. by rewrite Ho'.
    + right. split; [done|]. intros x d. rewrite (views_reads L1 L' (clock st)) by (by rewrite Ho'). unfold committed, reads.
      assert (Hn := fun y => reads_new (pages L1 (clock st) G b') (snap_of s') x y (g_iso _ _ _ _ _ Hg1) Hge Hl).
      split; intros (y & Hy & Ey); exists y; (split; [by apply Hn|done]).
Qed.

(** ** The begin of a checkpoint *)

(** No updater runs, and nothing is promised of the disk until the flush. *)
Lemma begin_good sy st st' ts : good_at sy [] st -> SnOnBeginCheckpoint st = Done ts st' ->
  good_at false [] st' /\ old_reads (pages_at [] st) (pages_at [] st') /\ same_committed (pages_at [] st) (pages_at [] st')
  /\ clock st' = clock st /\ block st' = block st /\ world st' = world st /\ ts_active (snapshots st') = ts_active (snapshots st).
Proof.
  intros Hg Hrun. destruct (good_clock _ _ _ _ _ Hg) as [(fut & lv & Hsp) Hclk]. unfold SnOnBeginCheckpoint in Hrun.
  rewrite (bind_done _ _ _ st st) in Hrun by done. cbv zeta in Hrun.
  destruct (find_type _ _ _ _ SN_PREV_PERSISTENT_SNAPSHOT Hsp) as [[Hn Hprev]|(?&?&?&?&?& E)]; [by right| |by rewrite E in Hrun]. rewrite Hn in Hrun.
  destruct (split_current _ _ _ _ Hsp) as [Ec Ef]. rewrite Ec in Hrun. destruct lv as [|s lv]; [done|].
  destruct (Z.eqb_spec (type s) SN_REGULAR_SNAPSHOT) as [Hreg|]; cbn [negb] in Hrun; [|done].
  destruct (retire_persistent _ _ _ _ _ Hsp Hreg Hprev) as (lv' & Hsp1 & Ho1 & _ & Hc1 & Hc2 & Ea & _ & _).
  set (L1 := match GetSnapshotByType _ _ with Some _ => _ | None => _ end) in *.
  destruct (begins_type _ _ _ _ _ Hsp1 Hreg Hc1 Hc2) as [Hsp2 Ho2]. cbn [wu_bind wu_modify wu_ret] in Hrun. injection Hrun as <- <-.
  set (L2 := set_type_at (length fut) SN_PERSISTENT_SNAPSHOT L1) in *.
  assert (Hcore : map core (leading L2) = map core (leading (snapshots st))).
  { unfold L2. rewrite type_core. unfold L1. destruct (GetSnapshotByType _ _) as [[p x]|]; [apply type_core|done]. }
  assert (Hlive := core_undamaged _ _ _ _ _ _ _ Hsp Hsp2 (core_live _ _ _ _ _ _ _ Hsp Hsp2 Hcore)).
  assert (Ho : owned L2 = owned (snapshots st)) by congruence. assert (Ea2 : ts_active L2 = ts_active (snapshots st)) by exact Ea.
  destruct Hg as [G1 G2 G3 G5 G6 G7 G8 G10 G9 G11]. unfold good_at, pages_at. cbn. split; [|split; [|split; [|done]]].
  - constructor; auto; [|by intros ? ? ? ? ? ? ? ? ?%elem_of_nil|done|done].
    apply (iso_views (pages (snapshots st) (clock st) [] (ve_bm (world st))) L2 (clock st)); [done|by eexists _, _|cbn; ts_lia| |by intros ? _ _ ? ? ?%elem_of_nil].
    constructor; cbn [il ic pages]; [by rewrite Ho|intros t _; by rewrite Ea2|by left; apply Hlive].
  - intros v Hv. apply list_elem_of_fmap in Hv as (s' & -> & Hs'). destruct (Hlive s' Hs') as (s0 & Hs0 & E).
    split; [rewrite E; apply list_elem_of_fmap; eauto|]. intros x c. apply views_reads. by rewrite Ho.
  - apply list_committed; [done|by rewrite Ho|]. intros t _. by rewrite Ea2.
Qed.

(** ** The flush of a checkpoint *)

Lemma flush_list_ok (p : VersionsHeader -> option bool) ids : forall (b b' : bm D A), bm_ok b ->
  (forall id, id ∈ ids -> id ∈ used_mem b) -> flush_list p true ids b = Done tt b' ->
  flushed (used_mem b) b b' /\ forall id pg, id ∈ ids -> frames b' !! id = Some pg -> IS_DATA_BLOCK (pg_p pg) = true -> pg_changed pg = false.
Proof.
  induction ids as [|id ids IH]; intros b b' Hok Hin Hrun.
  { injection Hrun as <-. split; [by apply flushed_refl|]. by intros id pg ?%elem_of_nil. }
  cbn [flush_list] in Hrun. apply wu_bind_Done in Hrun as (blk & b0 & Hf & Hrun). unfold get_frame in Hf.
  destruct (frames b !! id) as [blk0|] eqn:Efr; [|done]. injection Hf as <- <-.
  apply wu_bind_Done in Hrun as (r & b1 & H1 & Hrun).
  assert (Hfl : flushed (used_mem b) b b1 /\ (IS_DATA_BLOCK (pg_p blk0) = true -> is_clean b1 id)).
  { cbn in H1. destruct (IS_DATA_BLOCK (pg_p blk0)) eqn:Ed.
    - destruct (flush_buffer_ok p _ _ _ _ _ _ Hok (Hin id (list_elem_of_here _ _)) H1) as [? ?]. done.
    - injection H1 as _ <-. split; [by apply flushed_refl|done]. }
  destruct Hfl as [Hfl Hcl]. assert (Eu : used_mem b1 = used_mem b) by apply (fl_same _ _ _ Hfl).
  destruct (IH b1 b') as [Hfl' Hcl']; [unfold bm_ok; rewrite Eu; apply (fl_ok _ _ _ Hfl)|intros i Hi; rewrite Eu; apply Hin; by right|done|].
  rewrite Eu in Hfl'. split; [by apply (flushed_trans _ _ b1)|]. intros i pg [->|Hi]%elem_of_cons Hpg Hd; [|by apply (Hcl' i)].
  assert (Hd0 : IS_DATA_BLOCK (pg_p blk0) = true).
  { destruct (fl_frames _ _ _ (flushed_trans _ _ _ _ Hfl Hfl') id) as [E|(pg0 & E0 & E1)]; [congruence|].
    rewrite Efr in E0. injection E0 as <-. rewrite E1 in Hpg. by injection Hpg as <-. }
  destruct (flushed_clean _ _ _ _ Hfl' (Hcl Hd0)) as (pg' & E & Hc). congruence.
Qed.

(** The requests to the system change nothing that is seen. *)
Lemma synced_on e (b b' : bm D A) :
  (bm_ok b' /\ calm b b' /\ forall x c, view b' x = Some c -> IS_DATA_BLOCK (ct_p c) = true -> disk_view b' x = view b' x) ->
  let c' := set_io e b' in
  bm_ok c' /\ calm b c' /\ forall x c, view c' x = Some c -> IS_DATA_BLOCK (ct_p c) = true -> disk_view c' x = view c' x.
Proof. intros ([H1 H2 H3 H4 H5 H6] & [[C1 C2 C3 C4 C5 C6 C7 C8] C9] & Hs). split; [by constructor|]. split; [split; [by constructor|done]|done]. Qed.

Lemma flush_data_ok (p : VersionsHeader -> option bool) (b b' : bm D A) : bm_ok b -> flush_data_buffers p b = Done tt b' ->
  bm_ok b' /\ calm b b' /\ forall x c, view b' x = Some c -> IS_DATA_BLOCK (ct_p c) = true -> disk_view b' x = view b' x.
Proof.
  intros Hok Hrun. assert (Hids : forall x id, buffer_table b !! x = Some id -> id ∈ buffered_ids b).
  { intros x id Hx. unfold buffered_ids. apply list_elem_of_fmap. exists (x, id). split; [done|]. by apply elem_of_map_to_list. }
  unfold flush_data_buffers in Hrun. apply wu_bind_Done in Hrun as ([] & b1 & Hrun & Hs). injection Hs as <-. apply (synced_on (io b1 ++ [IO_SYNC])).
  revert b1 Hrun. intros b' Hrun. destruct (flush_list_ok p (buffered_ids b) b b' Hok) as [Hfl Hcl]; [|done|].
  { intros id Hid. unfold buffered_ids in Hid. apply list_elem_of_fmap in Hid as ([x i] & -> & Hx). apply elem_of_map_to_list in Hx. by apply (ok_table _ _ Hok x i). }
  destruct (fl_same _ _ _ Hfl) as (Et & _ & _ & Eu & _). assert (Hok' : bm_ok b') by (unfold bm_ok; rewrite Eu; apply (fl_ok _ _ _ Hfl)).
  split; [done|]. split; [apply (fl_calm _ _ _ Hfl)|]. intros x c Hv Hd. destruct (buffer_table b' !! x) as [id|] eqn:Hx; [|by apply unbuffered_synced].
  destruct (ok_table _ _ Hok' x id Hx) as (_ & [pg Hpg] & _ & _). apply (clean_synced _ _ _ _ _ Hok' Hx Hpg). apply (Hcl id); [|done|].
  - apply (Hids x). by rewrite <- Et.
  - unfold view in Hv. rewrite Hx, Hpg in Hv. cbn in Hv. by injection Hv as <-.
Qed.

(** All blocks are on the disk, those of the persistent snapshot among them. *)
Lemma flush_good sy L clk G (p : VersionsHeader -> option bool) (b b' : bm D A) : good sy L clk G b -> flush_data_buffers p b = Done tt b' ->
  good true L clk G b' /\ calm b b'.
Proof.
  intros Hg Hrun. destruct (flush_data_ok p b b' (g_bm _ _ _ _ _ Hg) Hrun) as (Hok & Hc & Hs). split; [|done].
  assert (Hg' := good_calm _ _ _ _ _ _ Hg Hok Hc). destruct Hg' as [G1 G2 G3 G5 G6 G7 G8 G10 G9 G11].
  assert (Hall : forall y x t old, holds (pages L clk G b') y x t old -> IS_DATA_BLOCK x = true -> disk_view b' y = view b' y).
  { intros y x t old (_ & c & Hv & Hver) Hd. apply (Hs y c); [done|]. by rewrite (vo_p _ _ _ _ Hver). }
  constructor; auto.
  - intros _ x t0 old w Hm Hw Hl. apply (Hall x x t0 old Hm). by apply (G5 x x t0 old).
  - intros _ x y t old w _ Hy Hd _ _. left. by apply (Hall y x t old).
Qed.

(** ** The end of a checkpoint *)

Lemma complete_good sy G st st' r : good_at sy G st -> all_active (snapshots st) G -> SnOnCompleteCheckpoint (VeFreeBlockLow true) st = Done r st' ->
  good_at sy G st' /\ old_reads (pages_at G st) (pages_at G st') /\ same_committed (pages_at G st) (pages_at G st')
  /\ clock st' = clock st /\ block st' = block st /\ ts_active (snapshots st') = ts_active (snapshots st)
  /\ (exists b', world st' = set_bm b' (world st)) /\ nClientsMax (snapshots st') = nClientsMax (snapshots st).
Proof.
  intros Hg Hact Hrun. destruct (good_clock _ _ _ _ _ Hg) as [(fut & lv & Hsp) Hclk]. unfold SnOnCompleteCheckpoint in Hrun.
  rewrite (bind_done _ _ _ st st) in Hrun by done. cbv zeta in Hrun. destruct (GetSnapshotByType (snapshots st) SN_PERSISTENT_SNAPSHOT); [|done].
  apply wu_bind_Done in Hrun as ([] & s1 & [= <-] & Hrun). set (L1 := match GetSnapshotByType _ _ with Some _ => _ | None => _ end) in *.
  assert (H1 : good sy L1 (clock st) G (ve_bm (world st)) /\ fewer_views (snapshots st) L1 /\ owned L1 = owned (snapshots st) /\ ts_active L1 = ts_active (snapshots st)).
  { unfold L1. destruct (find_type _ _ _ _ SN_PREV_PERSISTENT_SNAPSHOT Hsp) as [[-> _]|(l1 & x & l2 & -> & Hx & ->)]; [by right| |].
    - split; [done|]. split; [|done]. intros s' Hs'. eauto.
    - assert (K1 := ls_pers _ _ _ _ (proj1 (proj2 Hsp))). assert (K2 := ls_prev _ _ _ _ (proj1 (proj2 Hsp))).
      rewrite count_app, count_cons, Hx in K1, K2. cbn in K1, K2.
      destruct (type_step _ _ _ l1 x l2 SN_REGULAR_SNAPSHOT Hsp) as [Hsp1 Ho]; [by left|rewrite count_app, count_cons; cbn; lia..|].
      assert (Hrep := replaced_live _ _ _ _ _ x (set_type SN_REGULAR_SNAPSHOT x) l2 Hsp Hsp1 eq_refl eq_refl).
      assert (Hfv : fewer_views (snapshots st) (set_type_at (length fut + length l1) SN_REGULAR_SNAPSHOT (snapshots st))).
      { apply (core_undamaged _ _ _ _ _ _ _ Hsp Hsp1). by rewrite !map_app. }
      split; [|split; [done|split; [done|done]]]. apply (good_views sy _ _ _ _ _ (clock st) Hg); [by eexists _, _|lia|constructor; [by rewrite Ho|done|by left; apply Hfv]| |by unfold all_active].
      intros w. rewrite !pers_views_in. intros (s' & Hs' & Ht & ->). destruct (Hrep s' Hs') as (z & Hz & E & _ & [Et| ->]); [|done].
      exists z. split; [done|]. split; [congruence|done]. }
  destruct H1 as (Hg1 & Hfv & Ho1 & Ea1). unfold on_snapshots, wu_lift in Hrun. cbn [snapshots world set_snapshots] in Hrun.
  destruct (PurifySnapshots (VeFreeBlockLow true) true (L1, world st)) as [[] [L3 w3]|e [L3 w3]] eqn:Hp; [|done]. injection Hrun as <- <-.
  destruct (purify_good sy L1 (clock st) G (world st) true L3 w3 Hg1) as (b' & -> & Hg3 & Ea & Hfw & Hr); [by unfold all_active; rewrite Ea1|done|].
  destruct (purified_reads L1 L3 (clock st) G (ve_bm (world st)) b' Hr Ea Hfw) as [R1 R2]. unfold good_at, pages_at. cbn.
  split; [done|]. split; [|split; [|split; [done|split; [done|split; [congruence|split; [eauto|]]]]]].
  - apply (old_trans _ (pages L1 (clock st) G (ve_bm (world st)))); [|done]. intros v Hv. apply list_elem_of_fmap in Hv as (s' & -> & Hs').
    destruct (Hfv s' Hs') as (s0 & Hs0 & E). split; [rewrite E; apply list_elem_of_fmap; eauto|]. intros x c. apply views_reads. by rewrite Ho1.
  - intros x c. rewrite (R2 x c). revert x c. apply list_committed; [apply Hg|by rewrite Ho1|]. intros t _. by rewrite Ea1.
  - rewrite (purify_max _ (clock st) _ _ _ _ _ (proj1 (good_clock _ _ _ _ _ Hg1)) Hp). unfold L1. by destruct (GetSnapshotByType (snapshots st) SN_PREV_PERSISTENT_SNAPSHOT) as [[? ?]|].
Qed.
End Checkpoint.
