(* ===== verification/WuApi.v ===== *)
(** * The interface of the version manager

    Model of the functions of src/kernel/sm/wu/wu.cpp the storage manager calls
    for its transactions, over the snapshots (SnApi.v), the versions of blocks
    (Versions.v) and the buffers (Buffers.v), of the checkpoint of trmgr.cpp and
    of the writes of a transaction to a page it has mapped (vmm.h).

    The mutex of wu.cpp makes a call one step.  The table of clients is a map
    with the two state blocks of a client (ClSpec.v); the number of rows is
    [nClientsMax].  Versions are enabled, and the debugging checks of the
    versions are off, as in release builds. *)

From Stdlib Require Import ZArith List Lia Bool.
From stdpp Require Import base gmap list.
From S2P Require Import Prelude WuBase Snapshots SnApi Buffers Versions.
Local Open Scope sedna_scope.
Local Open Scope Z_scope.

(** ** The state *)

(** The semaphores of trmgr.cpp: none is taken; all of them are, so that no
    updater runs; and the checkpoint has begun. *)
Inductive checkpoint_phase := CK_NONE | CK_QUIET | CK_BEGUN.

Record wsys (D A : Type) := mk_ws {
  ws_list : SnSnapshotsList;
  ws_clock : TIMESTAMP;
  ws_clients : gmap Z (SnClientState * VeClientState);
  ws_bm : bm D A;
  ws_hash : gmap XPTR VeRestriction;
  ws_phase : checkpoint_phase
}.
Arguments mk_ws {D A}.
Arguments ws_list {D A}.
Arguments ws_clock {D A}.
Arguments ws_clients {D A}.
Arguments ws_bm {D A}.
Arguments ws_hash {D A}.
Arguments ws_phase {D A}.

Section Calls.
Context {D A : Type} `{Allocator D A} (approve : Z -> XPTR -> bool).
Abbreviation state := (sn_state (ve_world D A)).
Abbreviation M := (wu state).
Abbreviation W := (wu (wsys D A)).
Implicit Types g : wsys D A.

Definition set_phase ph g : wsys D A := mk_ws (ws_list g) (ws_clock g) (ws_clients g) (ws_bm g) (ws_hash g) ph.
Definition set_ws_bm b g : wsys D A := mk_ws (ws_list g) (ws_clock g) (ws_clients g) b (ws_hash g) (ws_phase g).

(** The state the functions of a client see, and of the server itself. *)
Definition as_client (sid : Z) (c : SnClientState * VeClientState) g : state :=
  mk_sn (ws_list g) (ws_clock g) (Some (fst c)) (mk_ve (ws_bm g) (ws_hash g) (Some (snd c)) sid).
Definition as_server g : state :=
  mk_sn (ws_list g) (ws_clock g) None (mk_ve (ws_bm g) (ws_hash g) None (-1)).

Definition back (m : gmap Z (SnClientState * VeClientState)) g (st : state) : wsys D A :=
  mk_ws (snapshots st) (clock st) m (ve_bm (world st)) (restrictionHash (world st)) (ws_phase g).

(** The state blocks of the client go back to its row. *)
Definition back_client (sid : Z) g (st : state) : wsys D A :=
  back (match block st, ve_block (world st) with
        | Some sn, Some ve => <[sid := (sn, ve)]> (ws_clients g)
        | _, _ => ws_clients g
        end) g st.

(** Between [ClSetCurrentClientId(sid)] and [ClSetCurrentClientId(-1)]. *)
Definition for_client {R} (sid : Z) (f : M R) : W R := fun g =>
  match ws_clients g !! sid with
  | None => Failed WUERR_BAD_CLIENT_ID g
  | Some c =>
      match f (as_client sid c g) with
      | Done r st => Done r (back_client sid g st)
      | Failed e st => Failed e (back_client sid g st)
      end
  end.

Definition for_server {R} (f : M R) : W R := fun g =>
  match f (as_server g) with
  | Done r st => Done r (back (ws_clients g) g st)
  | Failed e st => Failed e (back (ws_clients g) g st)
  end.

(** [*swapped = WuExternaliseXptr(PopSwappedXptr())] at the end, in any case. *)
Definition with_swapped {R} (f : W R) : W (R * XPTR) := fun g =>
  let pop g := match PopSwappedXptr (ws_bm g) with
               | Done x b => (x, set_ws_bm b g)
               | Failed _ b => (0, set_ws_bm b g)
               end in
  match f g with
  | Done r g => let '(x, g) := pop g in Done (r, x) g
  | Failed e g => let '(_, g) := pop g in Failed e g
  end.

(** ** Blocks *)

Definition WuAllocateDataBlock (sid : Z) : W (LXPTR * Z * XPTR) :=
  with_swapped (for_client sid (VeAllocateBlock approve false true)).

Definition WuCreateBlockVersion (sid : Z) (p : XPTR) : W (Z * XPTR) :=
  with_swapped (for_client sid
    (if negb (IS_DATA_BLOCK p) then wu_fail WUERR_VERSIONS_UNSUPPORTED_FOR_THIS_BLOCK_TYPE
     else VeCreateBlockVersion approve false true p)).

Definition WuDeleteBlock (sid : Z) (p : XPTR) : W unit :=
  for_client sid
    (if negb (IS_DATA_BLOCK p) then on_bm (fun _ => delete_temp_block sid p) else VeFreeBlock false true p).

Definition WuGetBlock (sid : Z) (p : XPTR) : W (Z * XPTR) :=
  with_swapped (for_client sid
    (if IS_DATA_BLOCK p then VePutBlockToBuffer approve false true p
     else
       do! bufferId <- ImpPutBlockToBuffer approve false p;
       do! _ <- ImpGrantExclusiveAccessToBuffer bufferId;
       wu_ret bufferId)).

(** ** Transactions *)

(** [ClRegisterClient(&sid, 1)] gives a row with zeros. *)
Definition WuOnRegisterTransaction (sid : Z) (isUsingSnapshot : bool) : W TIMESTAMP := fun g =>
  if negb ((0 <=? sid) && (sid <? nClientsMax (ws_list g))) then Failed WUERR_BAD_CLIENT_ID g
  else
    match ws_clients g !! sid with
    | Some _ => Failed WUERR_CLIENT_ID_ALREADY_IN_USE g
    | None =>
        match (do! _ <- SnOnRegisterClient false isUsingSnapshot;
               do! snapshotTs <- SnGetTransactionSnapshotTs;
               do! _ <- VeOnRegisterClient false;
               wu_ret snapshotTs) (as_client sid (zero_client, zero_ve_client) g) with
        | Done ts st => Done ts (back_client sid g st)
        | Failed e st => Failed e (back (ws_clients g) g st)
        end
    end.

Definition WuOnCommitTransaction (sid : Z) : W unit :=
  for_client sid
    (do! currentSnapshotTs <- SnOnTransactionEnd (VeFreeBlockLow true);
     VeOnTransactionEnd approve false true VE_COMMIT_TRANSACTION currentSnapshotTs).

Definition WuOnRollbackTransaction (sid : Z) : W unit :=
  for_client sid (VeOnTransactionEnd approve false true VE_ROLLBACK_TRANSACTION INVALID_TIMESTAMP).

(** The result of the two calls is overwritten by that of [ClUnregisterClient]. *)
Definition WuOnUnregisterTransaction (sid : Z) : W unit := fun g =>
  match ws_clients g !! sid with
  | None => Failed WUERR_BAD_CLIENT_ID g
  | Some c =>
      Done tt (back (delete sid (ws_clients g)) g
        (out_state ((do! _ <- VeOnUnregisterClient true; SnOnUnregisterClient (VeFreeBlockLow true)) (as_client sid c g))))
  end.

(** ** Snapshots and checkpoints *)

(** [WuGetTimestamp], which the freed blocks call, too. *)
Definition WuTakeTimestamp : W TIMESTAMP := for_server WuGetTimestamp.

(** The result is [*bSuccess]. *)
Definition WuTryAdvanceSnapshots : W bool := fun g =>
  match for_server (SnTryAdvanceSnapshots (VeFreeBlockLow true)) g with
  | Done ts g => if ts =? INVALID_TIMESTAMP then Failed WUERR_GENERAL_ERROR g else Done true g
  | Failed e g => if decide (e = WUERR_MAX_NUMBER_OF_SNAPSHOTS_EXCEEDED) then Done false g else Failed e g
  end.

Definition WuOnBeginCheckpoint : W unit :=
  for_server (do! _ <- SnOnBeginCheckpoint; wu_ret tt).

Definition WuOnCompleteCheckpoint : W unit := for_server (SnOnCompleteCheckpoint (VeFreeBlockLow true)).

(** The semaphores of all transactions are taken: no updater runs. *)
Definition checkpoint_quiesce : W unit := fun g => Done tt (set_phase CK_QUIET g).

Definition checkpoint_begin : W unit :=
  do! _ <- WuOnBeginCheckpoint; wu_modify (set_phase CK_BEGUN).

(** Under the giant lock; the records of the log are left out. *)
Definition checkpoint_complete : W unit :=
  do! _ <- for_server (on_bm (fun s => flush_data_buffers (pers false s)));
  do! _ <- WuOnCompleteCheckpoint;
  wu_modify (set_phase CK_NONE).

(** ** Writes of a transaction *)

(** [VMM_SIGNAL_MODIFICATION] and the write behind it, to a page in a buffer to
    which the session has exclusive access. *)
Definition write_page (sid : Z) (x : XPTR) (d : D) : W unit := fun g =>
  match buffer_table (ws_bm g) !! x with
  | None => Failed WUERR_BLOCK_NOT_IN_BUFFERS g
  | Some id =>
      match frames (ws_bm g) !! id with
      | None => Failed UNDEFINED g
      | Some pg =>
          if pg_trid pg =? sid
          then Done tt (set_ws_bm (set_frames (<[id := set_changed true (set_data d pg)]> (frames (ws_bm g))) (ws_bm g)) g)
          else Failed WUERR_UNEXPECTED_TRID_WR_A g
      end
  end.
End Calls.
