(* ===== verification/VeAlloc.v ===== *)
(** * Allocation, writes and deletion of blocks

    [VeAllocateBlock] and [VeFreeBlock] (Versions.v) and the writes of a
    transaction over the pages (WuGood.v): no snapshot reads anything else, and
    the last committed state stays. *)

From Stdlib Require Import ZArith List Lia Bool Sorted.
From stdpp Require Import base gmap list sets sorting.
From S2P Require Import Prelude WuBase Snapshots SnGc SnApi SnInv SnPurify SnOps SnEvolve SnExpand Buffers Versions BufInv BufOps BufSwap IsoHeader Iso IsoList IsoCommit IsoUpdate WuGood WuCalls SnSystem SnReach.
Local Open Scope sedna_scope.
Local Open Scope Z_scope.

(** Takes a successful run apart, one call after the other. *)
Tactic Notation "run_step" hyp(H) simple_intropattern(r) simple_intropattern(s) ident(H1) :=
  apply wu_bind_Done in H as (r & s & H1 & H).

Lemma on_bm_done {D A R} (c : sn_state (ve_world D A) -> wu (bm D A) R) st r st' : on_bm c st = Done r st' ->
  exists b, c st (ve_bm (world st)) = Done r b /\ st' = set_world (set_bm b (world st)) st.
Proof. unfold on_bm. destruct (c st (ve_bm (world st))) as [a b|e b]; [|done]. intros [= -> <-]. eauto. Qed.

(** The same for a function of the buffers. *)
Ltac bm_step H b := unfold ImpPutBlockToBuffer, ImpFindBlockInBuffers, ImpLocateHeader, ImpAllocateBlock, ImpFreeBlock, ImpMarkBufferDirty, ImpFlushBuffer,
  ImpAllocateBlockAndCopyData, ImpGrantExclusiveAccessToBuffer, ImpRevokeExclusiveAccessToBuffer, ImpOnPersVersionRelocating in H;
  apply on_bm_done in H as (b & H & ->).

Section Runs.
Context {D A : Type} `{AllocatorOk D A}.
Abbreviation state := (sn_state (ve_world D A)).
Implicit Types st : state.

Lemma ve_block_done st c st' : GetCurrentVeBlock st = Done c st' -> st' = st /\ ve_block (world st) = Some c.
Proof. unfold GetCurrentVeBlock. destruct (ve_block (world st)) as [c0|] eqn:E; [|done]. by intros [= <- <-]. Qed.

Lemma status_done st n st' : SnGetTransactionStatusAndType st = Done n st' -> st' = st /\ exists b, block st = Some b /\ n = statusAndType b.
Proof.
  intros Hr. unfold SnGetTransactionStatusAndType in Hr. run_step Hr b s1 H1. unfold ImpGetCurrentStateBlock in H1.
  destruct (block st) as [b0|] eqn:E; [|done]. injection H1 as <- <-. injection Hr as <- <-. eauto.
Qed.

Lemma transaction_ts_done st t st' : SnGetTransactionTs st = Done t st' -> st' = st /\ exists b, block st = Some b
  /\ t = (if statusAndType b =? SN_UPDATER_TRANSACTION then cl_timestamp b else INVALID_TIMESTAMP).
Proof.
  intros Hr. unfold SnGetTransactionTs in Hr. run_step Hr b s1 H1. unfold ImpGetCurrentStateBlock in H1.
  destruct (block st) as [b0|] eqn:E; [|done]. injection H1 as <- <-. injection Hr as <- <-. eauto.
Qed.

(** A client with one more function. *)
Definition add_function (f : VeFunction) (c : VeClientState) : VeClientState :=
  mk_ve_client (isCompleted c) (isRolledBack c) (option_map (fun l => l ++ [f]) (functionList c)) (restrictionList c).

Lemma push_done f st r st' : push_function f st = Done r st' -> exists c l, ve_block (world st) = Some c /\ functionList c = Some l
  /\ st' = set_world (set_ve_block (add_function f c) (world st)) st.
Proof.
  intros Hr. unfold push_function in Hr. run_step Hr c s1 H1. apply ve_block_done in H1 as [-> Hc]. destruct (functionList c) as [l|] eqn:El; [|done].
  injection Hr as _ <-. exists c, l. split; [done|]. split; [done|]. unfold add_function. by rewrite El.
Qed.

(** Without the debugging checks nothing changes. *)
Lemma restriction_done r0 st r st' : update_restriction true r0 st = Done r st' -> st' = st.
Proof.
  intros Hr. unfold update_restriction in Hr. run_step Hr c s1 H1. apply ve_block_done in H1 as [-> Hc]. run_step Hr s s2 H2. injection H2 as <- <-.
  cbn in Hr. injection Hr as _ <-. destruct st as [L clk bl [b h v cur]]. cbn in *. subst v. by destruct c.
Qed.

Lemma locate_done id st h st' : ImpLocateHeader id st = Done h st' -> st' = st /\ exists pg, frames (ve_bm (world st)) !! id = Some pg /\ h = pg_vh pg.
Proof.
  intros Hr. bm_step Hr b. unfold LocateVersionsHeader in Hr. run_step Hr pg b1 H1. unfold LocateBlockHeader, get_frame in H1.
  destruct (id <? 0); [done|]. destruct (frames _ !! id) as [pg0|] eqn:E; [|done]. injection H1 as <- <-. injection Hr as <- <-.
  split; [by destruct st as [? ? ? []]|eauto].
Qed.

(** ** Allocation *)

Lemma alloc_run approve st x id st' : bm_ok (ve_bm (world st)) -> alloc_ok (ve_bm (world st)) -> VeAllocateBlock approve false true st = Done (x, id) st' ->
  exists t c b' d, block st = Some (mk_client t SN_UPDATER_TRANSACTION) /\ ve_block (world st) = Some c /\ isCompleted c = false
    /\ is_Some (functionList c)
    /\ st' = mk_sn (snapshots st) (clock st) (block st) (mk_ve b' (restrictionHash (world st))
               (Some (add_function (mk_function x x INVALID_TIMESTAMP VE_FUNCTION_ALLOCATE_BLOCK) c)) (ve_current (world st)))
    /\ bm_ok b' /\ alloc_ok b' /\ is_free (ve_bm (world st)) x /\ x <> 0 /\ IS_DATA_BLOCK x = true
    /\ (forall y, is_free b' y <-> is_free (ve_bm (world st)) y /\ y <> x) /\ calm_off (is_free (ve_bm (world st))) (ve_bm (world st)) b'
    /\ view b' x = Some d /\ ct_p d = x /\ ct_vh d = fill_entries [(x, t)] /\ trid_of b' x = ve_current (world st).
Proof.
  intros Hok Halk Hr. unfold VeAllocateBlock in Hr. run_step Hr c s1 H1. apply ve_block_done in H1 as [-> Hc].
  run_step Hr n s1 H1. apply status_done in H1 as [-> (b0 & Hb0 & ->)]. run_step Hr ts s1 H1. apply transaction_ts_done in H1 as [-> (b1 & Hb1 & ->)].
  rewrite Hb0 in Hb1. injection Hb1 as <-. destruct (_ || _) eqn:Ec; [done|]. apply orb_false_iff in Ec as [_ Ec].
  destruct (statusAndType b0 =? SN_READ_ONLY_TRANSACTON); [done|].
  run_step Hr [p i] s1 H1. bm_step H1 b1.
  destruct (allocate_block_ok approve _ _ _ _ _ _ Hok Halk H1) as (Hok1 & Halk1 & Hf & Hx0 & Hd & Hfr1 & Hc1 & Ht1 & pg & Hpg & Epg & Hch & Htr).
  run_step Hr h s2 H2. apply locate_done in H2 as [-> _]. destruct (Z.eqb_spec (statusAndType b0) SN_UPDATER_TRANSACTION) as [Eu|]; [|done]. cbn [negb] in Hr.
  run_step Hr [] s2 H2. bm_step H2 b2. cbn in H2. unfold upd_frame in H2. run_step H2 pg0 b1' H3. unfold get_frame in H3.
  rewrite Hpg in H3. injection H3 as <- <-. cbn in H2. injection H2 as <-.
  set (pg2 := set_vh (fill_entries [(p, cl_timestamp b0)]) pg) in *. change (set_frames _ b1) with (poke i pg2 b1) in Hr.
  destruct (poke_ok b1 p i pg pg2 Hok1 Ht1 Hpg) as (Hok2 & Hv2 & Htr2 & _); [cbn; by rewrite Hch|].
  assert (Hc2 := poke_off b1 p i pg pg2 Hok1 Ht1 Hpg ltac:(cbn; by rewrite Hch)).
  run_step Hr [] s3 H3. bm_step H3 b3. cbn in H3.
  destruct (grant_ok _ _ p _ _ Hok2 Ht1 H3) as (Hok3 & Hc3 & Hv3 & Htr3 & _ & Et3 & Ea3 & _).
  run_step Hr [] s4 H4. bm_step H4 b4. cbn in H4.
  destruct (dirty_ok b3 p i b4 Hok3) as (pg3 & Hpg3 & -> & Hok4 & Hc4); [by rewrite Et3|done|].
  run_step Hr [] s5 H5. injection Hr as -> -> <-. run_step H5 me s6 H6. injection H6 as <- <-. run_step H5 [] s6 H6.
  apply push_done in H6 as (c' & l & Hc' & Hl & ->). apply restriction_done in H5 as ->. cbn in Hc'. rewrite Hc in Hc'. injection Hc' as <-.
  set (b4 := poke id (set_changed true pg3) b3) in *. exists (cl_timestamp b0), c, b4, (content_of pg2).
  assert (Hxf : calm_off (is_free (ve_bm (world st))) b1 b4).
  { apply (off_trans _ _ b3); [apply (off_trans _ _ (poke id pg2 b1))|by apply calm_off_calm]; eapply off_mono; [|exact Hc2| |exact Hc3]; by intros y ->. }
  split; [rewrite Hb0; destruct b0; cbn in Eu; by subst|]. split; [done|]. split; [done|]. split; [by rewrite Hl|]. split; [done|]. split; [done|].
  assert (Hnx : forall z, z = x -> ~ is_free b1 z) by (intros z ->; rewrite Hfr1; tauto).
  split.
  { apply (alloc_calm b3 b4 Hc4), (alloc_off (fun z => z = x) (poke id pg2 b1) b3 Hc3 Ea3); [|by apply (alloc_off (fun z => z = x) b1 (poke id pg2 b1) Hc2 eq_refl)].
    intros z Hz. rewrite (free_off (fun z => z = x) b1 (poke id pg2 b1) Hc2 eq_refl); auto. }
  split; [done|]. split; [done|]. split; [done|]. split; [|split; [by apply (off_trans _ _ b1)|]].
  - intros y. rewrite <- Hfr1.
    rewrite (free_calm b3 b4 Hc4 y), (free_off (fun z => z = x) (poke id pg2 b1) b3 Hc3 Ea3); [by apply (free_off (fun z => z = x) b1 (poke id pg2 b1) Hc2 eq_refl)|].
    intros z Hz. rewrite (free_off (fun z => z = x) b1 (poke id pg2 b1) Hc2 eq_refl); auto.
  - split; [rewrite (calm_view _ _ _ Hc4), Hv3; exact Hv2|]. split; [done|]. split; [done|].
    unfold b4. destruct (poke_ok b3 x id pg3 (set_changed true pg3) Hok3) as (_ & _ & E & _); [by rewrite Et3|done|done|]. rewrite E. cbn. rewrite <- Htr3.
    unfold trid_of. rewrite Et3. cbn. by rewrite Ht1, Hpg3.
Qed.

Lemma good_alloc sy L clk G (b b' : bm D A) sid o x d : good sy L clk G b -> o ∈ ts_active L -> bm_ok b' -> alloc_ok b' -> is_free b x -> x <> 0 -> IS_DATA_BLOCK x = true ->
  (forall y, is_free b' y <-> is_free b y /\ y <> x) -> calm_off (is_free b) b b' ->
  view b' x = Some d -> ct_p d = x -> ct_vh d = fill_entries [(x, o)] -> trid_of b' x = sid ->
  let G' := (sid, (o, mk_function x x INVALID_TIMESTAMP VE_FUNCTION_ALLOCATE_BLOCK)) :: G in
  good sy L clk G' b' /\ old_reads (pages L clk G b) (pages L clk G' b') /\ same_committed (pages L clk G b) (pages L clk G' b').
Proof.
  intros Hg Ho Hok Halk Hx Hx0 Hd Hfr Hc Hv Hp Hvh Ht G'. assert (Hi := g_iso _ _ _ _ _ Hg).
  destruct (active_valid _ o Hi Ho) as [Hov _].
  assert (Hver : version_of x d o []) by (constructor; [done|done|cbn; lia|by repeat constructor]).
  assert (Hview : forall y, ~ is_free b y -> view b' y = view b y) by (intros y Hy; by apply (off_view _ _ _ Hc)).
  assert (Hh := alloc_holds (pages L clk G b) (pages L clk G' b') o x d Hfr Hview Hv Hver).
  assert (Hi' : iso (pages L clk G' b')) by (by apply (iso_alloc (pages L clk G b) (pages L clk G' b') o x INVALID_TIMESTAMP d)).
  destruct (rest_off (is_free b) L L clk G G b b' Hc) as (K1 & K2 & K3 & K4); [|done| |done|apply Hg|apply Hg|].
  { intros y z t old Hy. apply Hh in Hy as [Hy|(-> & -> & -> & ->)]; [left; split; [done|apply Hy]|right].
    intros w Hw. by apply (pers_later clk L); [apply (i_snap _ Hi)|..]. }
  { intros s o' x' y' a Hin. destruct (fn_in_use _ _ _ _ _ _ _ _ Hg Hin) as [F1 F2]. cbn in F1, F2. auto. }
  split; [constructor; auto|].
  - rewrite (off_stake _ _ _ Hc). apply Hg.
  - intros y z t0 old Hm. apply Hh in Hm as [Hm|(-> & _)]; [by apply (g_data _ _ _ _ _ Hg y z t0 old)|done].
  - by apply deps_cons.
  - by apply fresh_cons.
  - intros E. apply K3. by apply (g_sync _ _ _ _ _ Hg).
  - intros E. apply K4. by apply (g_saved _ _ _ _ _ Hg).
  - intros z Hz Hn. destruct (decide (z = x)) as [->|Hne].
    + rewrite Ht. eexists o, _. split; [left|]. done.
    + rewrite Hfr in Hz. assert (Hz' : ~ is_free b z) by tauto. destruct (off_trid _ _ _ Hc z Hz') as [E|E]; [|done]. rewrite E in *.
      destruct (g_access _ _ _ _ _ Hg z Hz' Hn) as (o' & f & Hin & K). exists o', f. split; [by right|done].
  - apply viewers_same; [done|]. intros w z c Hw. by apply (reads_alloc (pages L clk G b) (pages L clk G' b') o x d).
Qed.

(** ** Writes *)

Lemma good_write sy L clk G (b : bm D A) x id pg d : good sy L clk G b -> all_active L G -> buffer_table b !! x = Some id -> frames b !! id = Some pg ->
  pg_trid pg <> -1 -> ~ is_free b x -> let b' := poke id (set_changed true (set_data d pg)) b in
  good sy L clk G b' /\ old_reads (pages L clk G b) (pages L clk G b') /\ same_committed (pages L clk G b) (pages L clk G b').
Proof.
  intros Hg Hact Hx Hpg Ht Hfx b'. assert (Hi := g_iso _ _ _ _ _ Hg). assert (Hok := g_bm _ _ _ _ _ Hg).
  destruct (table_frame b x id Hok Hx) as (_ & pg0 & Hpg0 & Hv & Etr). rewrite Hpg in Hpg0. injection Hpg0 as <-.
  set (pg' := set_changed true (set_data d pg)) in *.
  destruct (poke_ok b x id pg pg' Hok Hx Hpg) as (Hok' & Hv' & Htr' & Hoth); [done|].
  assert (Hc := poke_off b x id pg pg' Hok Hx Hpg ltac:(done)).
  fold b' in Hok', Hv', Htr', Hoth, Hc.
  assert (Hfr : forall y, is_free b' y <-> is_free b y) by (apply (free_off (fun y => y = x) b b' Hc eq_refl); by intros y ->).
  assert (Hsame : same_holds (pages L clk G b) (pages L clk G b')).
  { apply same_holds_content; [done|]. intros y _. cbn. destruct (decide (y = x)) as [->|Hne]; [|by rewrite (proj1 (Hoth y Hne))].
    by rewrite Hv, Hv'. }
  destruct (g_access _ _ _ _ _ Hg x Hfx) as (o & f & Hin & Hw & Hlx); [by rewrite Etr|]. assert (Ho := Hact _ _ _ Hin).
  assert (Hin' : (o, f) ∈ ip (pages L clk G b)) by (apply list_elem_of_fmap; eexists; split; [|exact Hin]; done).
  destruct (fn_master _ _ _ Hi Hin') as (t0 & old & Hm & Et). rewrite Hlx in Hm. rewrite (Et Hw) in Hm.
  assert (Hi' : iso (pages L clk G b')) by (by apply (iso_same (pages L clk G b))).
  (* nobody reads the working version *)
  assert (Hnot : forall w z y, w ∈ viewers L -> reads_at (pages L clk G b) w z y -> y <> x).
  { intros w z y Hw' Hr ->. destruct Hr as (Hgone & t1 & old1 & Hm1 & Hpk & _). assert (Hlat := active_later clk L w o (i_snap _ Hi) Hw' Ho).
    cbn in Hpk. destruct (decide (later w t1)) as [Hl|Hl].
    - destruct (i_kept _ Hi z t1 old1 w x Hm1 Hw' Hgone Hl Hpk) as [(t2 & o2 & Hh & Hnl & _) _]. by destruct (holds_inj _ _ _ _ _ _ _ _ Hm Hh) as (_ & -> & _).
    - injection Hpk as ->. by destruct (holds_inj _ _ _ _ _ _ _ _ Hm Hm1) as (_ & -> & _). }
  split.
  - constructor; auto.
    + rewrite (off_stake _ _ _ Hc). apply Hg.
    + intros y z t1 old1 Hz. apply (g_data _ _ _ _ _ Hg y z t1 old1). by apply Hsame.
    + intros s o' z y a w Hin1 Hz. destruct (g_deps _ _ _ _ _ Hg s o' z y a w Hin1 Hz) as [-> E]. split; [done|].
      assert (Hy : y <> x).
      { intros ->. assert (Hin2 : (o', mk_function z x a VE_FUNCTION_CREATE_VERSION_PERS) ∈ ip (pages L clk G b)) by (apply list_elem_of_fmap; eexists; split; [|exact Hin1]; done).
        assert (Hfn := i_fn _ Hi _ Hin2). cbn in Hfn. destruct Hfn as (Hne & t1 & es & old1 & _ & Hh & _). by destruct (holds_inj _ _ _ _ _ _ _ _ Hm Hh) as (? & _). }
      rewrite (proj1 (Hoth y Hy)). exact E.
    + intros s o' z y a w t old1 Hin1 Hw1 Hh. apply (g_fresh _ _ _ _ _ Hg s o' z y a w t old1); [done|done|by apply Hsame].
    + intros E z t1 old1 w Hz Hw1 Hl. apply Hsame in Hz. destruct (decide (z = x)) as [->|Hne].
      * destruct (holds_inj _ _ _ _ _ _ _ _ Hm Hz) as (_ & -> & _). destruct Hl. by apply (pers_later clk L); [apply (i_snap _ Hi)|..].
      * rewrite (proj1 (Hoth z Hne)). by apply (g_sync _ _ _ _ _ Hg E z t1 old1 w).
    + intros E z y t1 old1 w Hw1 Hy Hd Hne Hn. apply Hsame in Hy. assert (Hyx : y <> x) by (intros ->; by destruct (holds_inj _ _ _ _ _ _ _ _ Hm Hy) as (? & _)).
      rewrite (proj1 (Hoth y Hyx)). destruct (g_saved _ _ _ _ _ Hg E z y t1 old1 w Hw1 Hy Hd Hne Hn) as [Es|(Ed & Es & Hl)]; [by left|right]. split; [done|]. split; [done|].
      intros t2 old2 Hz. apply (Hl t2 old2). by apply Hsame.
    + intros z Hz Hn. rewrite Hfr in Hz. destruct (decide (z = x)) as [->|Hne].
      * rewrite Htr'. cbn. rewrite <- Etr. apply (g_access _ _ _ _ _ Hg x Hz). by rewrite Etr.
      * rewrite (proj2 (Hoth z Hne)) in *. by apply (g_access _ _ _ _ _ Hg z Hz).
    + apply (alloc_off (fun y => y = x) b b' Hc eq_refl); [by intros y ->|apply Hg].
  - apply viewers_same; [done|]. intros w z c Hw'. unfold reads. assert (Hr := fun y => reads_at_same _ _ w z y Hsame eq_refl). split; intros (y & Hy & Ec); exists y.
    + apply Hr in Hy. split; [done|]. cbn in *. rewrite <- Ec. symmetry. apply (Hoth y). by apply (Hnot w z y).
    + split; [by apply Hr|]. cbn in *. rewrite <- Ec. apply (Hoth y). by apply (Hnot w z y).
Qed.

(** ** Deletion *)

(** The anchor of a deleted block: all snapshots, or what the header says. *)
Definition delete_anchor st x a : Prop := a = TIMESTAMP_MIN \/ exists c out, view (ve_bm (world st)) x = Some c
  /\ SnExpandDfvHeader false (snapshots st) (vh_creatorTs (ct_vh c)) OUT_SIZE true = Ok (out, a).

Lemma free_block_run st x st' : bm_ok (ve_bm (world st)) -> VeFreeBlock false true x st = Done tt st' ->
  exists t c a, block st = Some (mk_client t SN_UPDATER_TRANSACTION) /\ ve_block (world st) = Some c /\ isCompleted c = false /\ is_Some (functionList c)
    /\ delete_anchor st x a
    /\ st' = set_world (set_ve_block (add_function (mk_function x x a VE_FUNCTION_FREE_BLOCK) c) (world st)) st.
Proof.
  intros Hok Hr. unfold VeFreeBlock in Hr. run_step Hr c s1 H1. apply ve_block_done in H1 as [-> Hc].
  run_step Hr n s1 H1. apply status_done in H1 as [-> (b0 & Hb0 & ->)]. run_step Hr ts s1 H1. apply transaction_ts_done in H1 as [-> _].
  run_step Hr s0 s1 H1. injection H1 as <- <-. destruct (_ || _) eqn:Ec; [done|]. apply orb_false_iff in Ec as [_ Ec].
  destruct (statusAndType b0 =? SN_READ_ONLY_TRANSACTON); [done|]. destruct (Z.eqb_spec (statusAndType b0) SN_UPDATER_TRANSACTION) as [Eu|]; [|done]. cbn [negb] in Hr.
  run_step Hr me s1 H1. injection H1 as <- <-. cbn in Hr. run_step Hr a s1 H1. run_step Hr [] s2 H2. apply restriction_done in H2 as ->.
  apply push_done in Hr as (c' & l & Hc' & Hl & ->).
  assert (E : s1 = st /\ delete_anchor st x a).
  { unfold OnFreeBlock in H1. unfold ImpFindBlockInBuffers, on_bm, FindBlockInBuffers in H1. destruct (buffer_table (ve_bm (world st)) !! x) as [id|] eqn:Ex.
    - run_step H1 h s2 H2. apply locate_done in H2 as [-> (pg & Hpg & ->)]. run_step H1 [out a'] s3 H3. injection H1 as -> ->.
      unfold ImpExpandDfvHeader, of_res in H3. destruct (SnExpandDfvHeader _ _ _ _ _) as [[o1 a1]|e] eqn:Eexp; [|done]. injection H3 as -> -> <-.
      cbn in *. split; [by destruct st as [? ? ? []]|]. right. exists (content_of pg), out. split; [|exact Eexp]. unfold view. rewrite Ex. by rewrite Hpg.
    - cbn in H1. injection H1 as <- <-. split; [by destruct st as [? ? ? []]|by left]. }
  destruct E as [-> Ha]. rewrite Hc in Hc'. injection Hc' as <-. exists (cl_timestamp b0), c, a. rewrite Hl.
  split; [rewrite Hb0; destruct b0; cbn in Eu; by subst|]. split; [done|]. split; [done|]. split; [done|]. split; [done|]. done.
Qed.

(** A block a transaction may delete or replace: it is in use, not deleted, and
    no other transaction works on it. *)
Record deletable (P : iso_state D) (o : TIMESTAMP) (x : XPTR) : Prop := {
  dl_master : exists t0 old, master P x t0 old /\ (t0 ∈ ts_active (il P) -> t0 = o);
  dl_owned : forall l, (mk_entry 0 x, l) ∉ owned (il P);
  dl_pending : forall o' f, (o', f) ∈ ip P -> is_free_block (vf_type f) = true -> vf_lxptr f <> x
}.

Lemma deletable_fresh P o x : iso P -> deletable P o x -> x ∉ map block_of (owned (il P)) ++ pending (ip P).
Proof.
  intros Hi [(t0 & old & Hm & _) H2 H3] [Hin|Hin]%elem_of_app.
  - apply list_elem_of_fmap in Hin as ([e l] & E & He). cbn in E. unfold block_of in E. cbn in E. subst x. destruct (owned_master P e l t0 old Hi He Hm) as [Ee _].
    apply (H2 l). by rewrite <- Ee.
  - apply list_elem_of_omap in Hin as ([o' f] & Hin & E). cbn in E. assert (Ht : vf_type f <> VE_FUNCTION_ALLOCATE_BLOCK) by (by destruct (vf_type f)).
    assert (Ex : vf_xptr f = x) by (destruct (vf_type f); congruence). destruct (decide (vf_lxptr f = x)) as [El|Hne]; [|by apply (fn_places P o' f x t0 old)].
    destruct (is_free_block (vf_type f)) eqn:Ef; [by apply (H3 o' f)|]. assert (Hfn := i_fn _ Hi _ Hin). unfold fn_ok in Hfn.
    destruct (vf_type f); try done; destruct Hfn as (Hne & _); congruence.
Qed.

Lemma good_delete sy G st sid o x a : good_at sy G st -> deletable (pages_at G st) o x -> delete_anchor st x a ->
  let G' := (sid, (o, mk_function x x a VE_FUNCTION_FREE_BLOCK)) :: G in
  good_at sy G' st /\ old_reads (pages_at G st) (pages_at G' st) /\ same_committed (pages_at G st) (pages_at G' st).
Proof.
  intros Hg Hdel Ha G'. assert (Hi := g_iso _ _ _ _ _ Hg). destruct (good_clock _ _ _ _ _ Hg) as [(fut & lv & Hsp) Hclk].
  assert (Hfresh := deletable_fresh _ _ _ Hi Hdel). destruct Hdel as [(t0 & old & Hm & Ht) _ _]. assert (Hm' := Hm). destruct Hm' as (_ & c & Hv & Hver).
  destruct (i_hist _ Hi _ _ _ Hm) as [Ht0 Hold]. destruct (split_current _ _ _ _ Hsp) as [_ Ecur].
  assert (Hlive : forall s, s ∈ undamaged_live (snapshots st) -> s ∈ lv) by (intros s Hs; destruct (undamaged_viewer _ _ Hs) as (Hin & _); by rewrite <- Ecur).
  assert (Hi' : iso (pages_at G' st)).
  { apply (iso_delete (pages_at G st) o x a t0 old Hi Hm Ht); [| |done].
    - intros Hc. destruct Ha as [->|(c' & out & Hv' & Hrun)]; [cbn; ts_lia|]. cbn in Hv. rewrite Hv in Hv'. injection Hv' as <-.
      apply (total_anchor_past (clock st) (snapshots st) fut lv Hsp Hclk x c t0 old Hver out a Hrun). destruct Hc as [Hne|Hne]; [left; intros Hin; by apply Hne, Ht|right].
      destruct old as [|e old]; [done|]. constructor. apply Forall_cons in Hold as [[_ Hn] _]. done.
    - intros s Hs Hp. assert (Hs' := Hlive s Hs). destruct (live_bounds (clock st) (snapshots st) fut lv Hsp s Hs') as [Hb _].
      destruct Ha as [->|(c' & out & Hv' & Hrun)]; [lia|]. cbn in Hv. rewrite Hv in Hv'. injection Hv' as <-.
      by apply (total_anchor_readers (clock st) (snapshots st) fut lv Hsp x c t0 old Hver out a s Hrun). }
  destruct Hg as [G1 G2 G3 G5 G6 G7 G8 G10 G9 G11]. split; [|by apply viewers_same]. constructor; auto; [by apply deps_cons|by apply fresh_cons|by apply access_cons].
Qed.
End Runs.

(** * Which version a transaction gets

    [PutBlockVersionToBuffer] (Versions.v) over the pages (WuGood.v): a reader
    gets what its snapshot reads, an updater its own version or the last
    committed one. *)
Section Get.
Context {D A : Type} `{AllocatorOk D A} (approve : Z -> XPTR -> bool).
Abbreviation state := (sn_state (ve_world D A)).
Implicit Types st : state.

Definition with_bm (b : bm D A) st : state := set_world (set_bm b (world st)) st.

Lemma with_bm_with b b' st : with_bm b' (with_bm b st) = with_bm b' st.
Proof. done. Qed.

(** ** The block and its header *)

(** The buffer [id] has the page [pg] of the block [x]. *)
Definition loaded (x : XPTR) (id : Z) (pg : page D) (b b1 : bm D A) : Prop :=
  bm_ok b1 /\ calm b b1 /\ buffer_table b1 !! x = Some id /\ frames b1 !! id = Some pg.

Lemma put_run x st id st1 : bm_ok (ve_bm (world st)) -> ImpPutBlockToBuffer approve false x st = Done id st1 ->
  exists b1 pg, st1 = with_bm b1 st /\ loaded x id pg (ve_bm (world st)) b1 /\ view (ve_bm (world st)) x = Some (content_of pg).
Proof.
  intros Hok Hr. bm_step Hr b1. destruct (put_to_buffer_ok _ _ _ _ _ _ _ Hok Hr) as (Hok1 & Hc & Ht).
  destruct (table_frame b1 x id Hok1 Ht) as (_ & pg & Hpg & Hv & _). exists b1, pg. split; [done|]. split; [done|]. by rewrite <- (calm_view _ _ _ Hc).
Qed.

Lemma header_run x id pg b b1 st h st2 : loaded x id pg b b1 -> ImpLocateHeader id (with_bm b1 st) = Done h st2 -> st2 = with_bm b1 st /\ h = pg_vh pg.
Proof. intros (_ & _ & _ & Hpg) Hr. apply locate_done in Hr as [-> (pg' & Hpg' & ->)]. cbn in Hpg'. rewrite Hpg in Hpg'. by injection Hpg' as <-. Qed.

Lemma expand_run st h out a st' : ImpExpandDfvHeader false h false st = Done (out, a) st' -> st' = st /\ SnExpandDfvHeader false (snapshots st) h OUT_SIZE false = Ok (out, a).
Proof. unfold ImpExpandDfvHeader, of_res. destruct (SnExpandDfvHeader _ _ _ _ _) as [[o a']|e]; [|done]. by intros [= -> -> <-]. Qed.

Definition valid_header (x : XPTR) (h : VersionsHeader) : bool := ValidateHeader h && bool_decide (vh_xptr h !! 0%nat = Some x).

(** The first half of [PutBlockVersionToBuffer]. *)
Lemma version_run x st id out a st' : bm_ok (ve_bm (world st)) -> PutBlockVersionToBuffer approve false true x st = Done (id, out, a) st' ->
  exists c bl id1 pg b1, ve_block (world st) = Some c /\ block st = Some bl /\ (isCompleted c && negb (isRolledBack c) = false)
    /\ statusAndType bl <> SN_COMPLETED_TRANSACTION /\ loaded x id1 pg (ve_bm (world st)) b1 /\ valid_header x (pg_vh pg) = true
    /\ SnExpandDfvHeader false (snapshots st) (vh_creatorTs (pg_vh pg)) OUT_SIZE false = Ok (out, a)
    /\ (if statusAndType bl =? SN_UPDATER_TRANSACTION then updater_branch false (LookupRestriction true x (restrictionHash (world st))) (pg_vh pg) id1 out
        else if statusAndType bl =? SN_READ_ONLY_TRANSACTON then query_branch approve false x (pg_vh pg) out else wu_fail ASSERTION) (with_bm b1 st) = Done id st'.
Proof.
  intros Hok Hr. unfold PutBlockVersionToBuffer in Hr. run_step Hr c s1 H1. apply ve_block_done in H1 as [-> Hc].
  run_step Hr n s1 H1. apply status_done in H1 as [-> (bl & Hbl & ->)]. run_step Hr s0 s1 H1. injection H1 as <- <-.
  destruct (_ || _) eqn:Ec; [done|]. apply orb_false_iff in Ec as [Es%Z.eqb_neq Ec]. cbn [r_type LookupRestriction] in Hr.
  change (VE_RESTRICTION_NONE =? VE_RESTRICTION_OLD_VERSION) with false in Hr. cbn [negb] in Hr.
  run_step Hr id1 s1 H1. destruct (put_run _ _ _ _ Hok H1) as (b1 & pg & -> & Hl & _). run_step Hr h s2 H2. destruct (header_run _ _ _ _ _ _ _ _ Hl H2) as [-> ->].
  destruct (_ || _) eqn:Ev; [done|]. apply orb_false_iff in Ev as [Ev1%negb_false_iff Ev2%negb_false_iff].
  run_step Hr [o1 a1] s3 H3. cbn in H3. apply expand_run in H3 as [-> H3]. run_step Hr id2 s4 H4. injection Hr as -> -> -> ->.
  exists c, bl, id1, pg, b1. do 5 (split; [done|]). split; [unfold valid_header; by rewrite Ev1, Ev2|]. done.
Qed.

(** ** Updaters *)

Lemma updater_run x t st id out a st' : bm_ok (ve_bm (world st)) -> block st = Some (mk_client t SN_UPDATER_TRANSACTION) ->
  PutBlockVersionToBuffer approve false true x st = Done (id, out, a) st' ->
  exists pg b1, loaded x id pg (ve_bm (world st)) b1 /\ valid_header x (pg_vh pg) = true
    /\ SnExpandDfvHeader false (snapshots st) (vh_creatorTs (pg_vh pg)) OUT_SIZE false = Ok (out, a)
    /\ (if fst (first_record out) =? SN_WORKING_VERSION_TIMESTAMP
        then vh_creatorTs (pg_vh pg) !! 0%nat = Some t /\ exists b2, GrantExclusiveAccessToBuffer (ve_current (world st)) id b1 = Done tt b2 /\ st' = with_bm b2 st
        else st' = with_bm b1 st).
Proof.
  intros Hok Hb Hr. destruct (version_run _ _ _ _ _ _ Hok Hr) as (c & bl & id1 & pg & b1 & _ & Hbl & _ & _ & Hl & Hv & He & Hbr).
  rewrite Hb in Hbl. injection Hbl as <-. cbn in Hbr. exists pg, b1. unfold updater_branch in Hbr. run_step Hbr ts s1 H1.
  apply transaction_ts_done in H1 as [-> (bl & Hbl & ->)]. cbn in Hbl. rewrite Hb in Hbl. injection Hbl as <-.
  run_step Hbr me s1 H1. injection H1 as <- <-. run_step Hbr cr s1 H1. unfold ve_fetch in H1. destruct (vh_creatorTs (pg_vh pg) !! 0%nat) as [cr'|] eqn:Ecr; [|done].
  injection H1 as <- <-. destruct (first_record out) as [ts0 id0] eqn:Ef. cbn [r_type LookupRestriction statusAndType cl_timestamp] in Hbr.
  change (SN_UPDATER_TRANSACTION =? SN_UPDATER_TRANSACTION) with true in Hbr. change (0 <=? VE_RESTRICTION_NONE) with false in Hbr. cbn [andb orb] in Hbr.
  destruct (_ && _) eqn:Ea in Hbr; [done|].
  destruct (id0 =? -1); [done|]. rewrite orb_false_r in Hbr. run_step Hbr [] s2 H2. injection Hbr as <- <-. cbn.
  destruct (ts0 =? SN_WORKING_VERSION_TIMESTAMP).
  - cbn in Ea. apply negb_false_iff, Z.eqb_eq in Ea as ->. bm_step H2 b2. do 3 (split; [done|]). split; [done|]. eauto.
  - injection H2 as <-. done.
Qed.

(** ** Readers *)

Lemma reader_run x t st id out a st' : bm_ok (ve_bm (world st)) -> block st = Some (mk_client t SN_READ_ONLY_TRANSACTON) ->
  PutBlockVersionToBuffer approve false true x st = Done (id, out, a) st' ->
  exists id1 pg b1 i y pg2 b2, loaded x id1 pg (ve_bm (world st)) b1 /\ valid_header x (pg_vh pg) = true
    /\ SnExpandDfvHeader false (snapshots st) (vh_creatorTs (pg_vh pg)) OUT_SIZE false = Ok (out, a)
    /\ find_record t out = Some i /\ 0 <= i /\ vh_xptr (pg_vh pg) !! Z.to_nat i = Some y
    /\ loaded y id pg2 b1 b2 /\ view b1 y = Some (content_of pg2) /\ st' = with_bm b2 st.
Proof.
  intros Hok Hb Hr. destruct (version_run _ _ _ _ _ _ Hok Hr) as (c & bl & id1 & pg & b1 & _ & Hbl & _ & _ & Hl & Hv & He & Hbr).
  rewrite Hb in Hbl. injection Hbl as <-. cbn in Hbr. unfold query_branch in Hbr. run_step Hbr ts s1 H1.
  unfold SnGetTransactionSnapshotTs in H1. run_step H1 bl s2 H2. unfold ImpGetCurrentStateBlock in H2. cbn in H2. rewrite Hb in H2. injection H2 as <- <-. cbn in H1. injection H1 as <- <-.
  destruct (find_record t out) as [i|] eqn:Ei; [|done]. destruct (i =? -1); [done|]. run_step Hbr y s1 H1. unfold ve_fetch in H1.
  destruct (i <? 0) eqn:Ei0; [done|]. apply Z.ltb_ge in Ei0. destruct (vh_xptr (pg_vh pg) !! Z.to_nat i) as [y'|] eqn:Ey; [|done]. injection H1 as <- <-.
  run_step Hbr id2 s1 H1. destruct (put_run _ (with_bm b1 st) _ _ (proj1 Hl) H1) as (b2 & pg2 & -> & Hl2 & Hv2). run_step Hbr h2 s2 H2.
  destruct (header_run _ _ _ _ _ _ _ _ Hl2 H2) as [-> ->]. destruct (_ || _); [done|]. injection Hbr as <- <-.
  exists id1, pg, b1, i, y', pg2, b2. done.
Qed.

(** ** What they find *)

Lemma loaded_trans x y id id2 pg pg2 b b1 b2 : loaded x id pg b b1 -> loaded y id2 pg2 b1 b2 -> loaded y id2 pg2 b b2.
Proof. intros (_ & Hc & _) (H1 & H2 & H3). split; [done|]. split; [by apply (calm_trans _ b1)|done]. Qed.

Lemma loaded_view x id pg b b1 : loaded x id pg b b1 -> view b x = Some (content_of pg).
Proof. intros (_ & Hc & Ht & Hpg). rewrite <- (calm_view _ _ _ Hc). unfold view. by rewrite Ht, Hpg. Qed.

Lemma loaded_good sy G st x id pg b1 : good_at sy G st -> loaded x id pg (ve_bm (world st)) b1 ->
  good_at sy G (with_bm b1 st) /\ old_reads (pages_at G st) (pages_at G (with_bm b1 st)) /\ same_committed (pages_at G st) (pages_at G (with_bm b1 st)).
Proof.
  intros Hg (Hok & Hc & _). split; [by apply (good_calm _ _ _ _ _ _ Hg)|]. apply viewers_same; [done|]. intros w z c _. by apply calm_reads.
Qed.

(** The record of a snapshot. *)
Lemma find_record_elem t l id : find_record t l = Some id -> (t, id) ∈ l.
Proof. induction l as [|[u j] l IH]; [done|]. cbn. destruct (Z.eqb_spec u t) as [->|]; [intros [= ->]; left|]. intros Hf. right. by apply IH. Qed.

Lemma find_record_some t l id : (t, id) ∈ l -> is_Some (find_record t l).
Proof.
  induction l as [|[u j] l IH]; [by intros ?%elem_of_nil|]. cbn. destruct (Z.eqb_spec u t) as [->|Hne]; [by eexists|].
  intros [[= -> ->]|Hin]%elem_of_cons; [done|by apply IH].
Qed.

Lemma find_live_record clk L fut lv vs t id s : split_ok clk L fut lv -> s ∈ lv -> timestamp s = t -> header_ok vs -> find_record t (expand_reference L vs) = Some id ->
  visible s vs = Some id.
Proof.
  intros Hok Hs Et Hh Hf. destruct vs as [|t0 vs]; [done|]. unfold expand_reference in Hf. destruct (t0 =? INVALID_TIMESTAMP); [done|].
  destruct (split_current _ _ _ _ Hok) as [_ Ecur]. rewrite Ecur in Hf. destruct (live_bounds clk L fut lv Hok s Hs) as [Hb _].
  assert (Hin := find_record_elem _ _ _ Hf).
  apply elem_of_app in Hin as [Hin|Hin].
  - destruct (decide _); [|by apply elem_of_nil in Hin]. apply list_elem_of_singleton in Hin. injection Hin as E _. ts_lia.
  - destruct (seen_in _ _ _ _ Hin) as (z & Hz & Ez & Hv). cbn in Ez, Hv. apply elem_of_cons in Hz as [->|Hz]; [cbn in Ez; ts_lia|].
    assert (z = s) as -> by (apply (timestamps_inj lv); [by apply (split_NoDup _ _ _ _ Hok)|done|done|congruence]). exact Hv.
Qed.

(** A reader gets what its snapshot reads. *)
Lemma get_reader sy G st x t s id out a st' : good_at sy G st -> block st = Some (mk_client t SN_READ_ONLY_TRANSACTON) ->
  s ∈ from_current (snapshots st) -> timestamp s = t -> PutBlockVersionToBuffer approve false true x st = Done (id, out, a) st' ->
  exists b' pg y, st' = with_bm b' st /\ loaded y id pg (ve_bm (world st)) b'
    /\ forall c, reads (pages_at G st) (snap_of s) x c -> content_of pg = c.
Proof.
  intros Hg Hb Hs Et Hr. destruct (reader_run _ _ _ _ _ _ _ (g_bm _ _ _ _ _ Hg) Hb Hr) as (id1 & pg & b1 & i & y & pg2 & b2 & Hl & Hv & He & Hf & Hi0 & Hy & Hl2 & Hv2 & ->).
  exists b2, pg2, y. split; [done|]. split; [by apply (loaded_trans x y id1 id pg pg2 _ b1)|]. intros c (y' & (_ & t0 & old & Hm & Hp & _) & Hc).
  destruct Hm as (_ & c0 & Hc0 & Hver). cbn in Hc0, Hc. rewrite (loaded_view _ _ _ _ _ Hl) in Hc0. injection Hc0 as <-. cbn in Hver.
  destruct (good_clock _ _ _ _ _ Hg) as [(fut & lv & Hsp) Hclk]. destruct (split_current _ _ _ _ Hsp) as [_ Ecur]. rewrite Ecur in Hs.
  destruct (version_expand (clock st) (snapshots st) fut lv Hsp x (content_of pg) t0 old Hver) as (Hh & Href & Hvis). cbn [ct_vh content_of] in Hh, Href, Hvis.
  destruct (expand_ok (clock st) false (snapshots st) (vh_creatorTs (pg_vh pg)) false) as (a' & E & _); [by exists fut, lv|done|done|].
  unfold OUT_SIZE in He. rewrite He in E. injection E as -> _. assert (Hsee := find_live_record _ _ _ _ _ _ _ s Hsp Hs Et Hh Hf).
  specialize (Hvis s). rewrite Hsee in Hvis. destruct Hvis as (_ & y0 & Hp0 & Hfirst). rewrite Hp in Hp0. injection Hp0 as <-.
  destruct Hfirst as (u & Hu & _). assert (Evh := vo_vh _ _ _ _ Hver). cbn in Evh. assert (Hlen := vo_len _ _ _ _ Hver).
  rewrite Evh, fill_xptrs in Hy by (cbn; lia). rewrite lookup_app_l in Hy.
  2:{ rewrite length_map. apply lookup_lt_Some in Hu. done. }
  rewrite list_lookup_fmap, Hu in Hy. cbn in Hy. injection Hy as ->. rewrite (calm_view _ _ _ (proj1 (proj2 Hl))) in Hv2. congruence.
Qed.

(** ** Exclusive access *)

Lemma good_grant sy L clk G (b b' : bm D A) x id sid o f : good sy L clk G b -> ~ is_free b x -> buffer_table b !! x = Some id ->
  (sid, (o, f)) ∈ G -> is_working f = true -> vf_lxptr f = x -> GrantExclusiveAccessToBuffer sid id b = Done tt b' ->
  good sy L clk G b' /\ old_reads (pages L clk G b) (pages L clk G b') /\ same_committed (pages L clk G b) (pages L clk G b')
  /\ buffer_table b' = buffer_table b /\ (forall y, view b' y = view b y) /\ trid_of b' x = sid.
Proof.
  intros Hg Hfx Ht Hin Hw Hlx Hr. assert (Hok := g_bm _ _ _ _ _ Hg). destruct (grant_ok _ _ x _ _ Hok Ht Hr) as (Hok' & Hc & Hv & Htr & Hd & Et & Ea & Ed & _).
  assert (Hfr : forall y, is_free b' y <-> is_free b y) by (apply (free_off (fun y => y = x) b b' Hc Ea); by intros y ->).
  assert (Hsame : same_holds (pages L clk G b) (pages L clk G b')) by (apply same_holds_content; [done|]; intros y _; cbn; by rewrite Hv).
  split; [|split; [|split; [|done]]].
  - destruct Hg as [G1 G2 G3 G5 G6 G7 G8 G10 G9 G11]. constructor; auto.
    + by apply (iso_same (pages L clk G b)).
    + by rewrite (off_stake _ _ _ Hc).
    + intros y z t0 old Hm. apply (G5 y z t0 old). by apply Hsame.
    + intros s o' z y a w Hin1. rewrite Ed, Hd, Hv. apply (G6 s o' z y a w Hin1).
    + intros s o' z y a w t old Hin1 Hw1 Hh. apply (G7 s o' z y a w t old); [done|done|by apply Hsame].
    + intros E z t0 old w Hm. rewrite Hd, Hv. apply (G8 E z t0 old w). by apply Hsame.
    + intros E z y t old w Hw1 Hy%Hsame Hdt Hne Hn. rewrite Ed, !Hd, Hv. destruct (G10 E z y t old w Hw1 Hy Hdt Hne Hn) as [Es|(E1 & E2 & Hl)]; [by left|right].
      split; [done|]. split; [done|]. intros t0 old0 Hm. apply (Hl t0 old0). by apply Hsame.
    + intros z Hz Hn. rewrite Hfr in Hz. destruct (decide (z = x)) as [->|Hne]; [rewrite Htr; eauto|].
      destruct (off_trid _ _ _ Hc z Hne) as [E|E]; [|done]. rewrite E in *. by apply G9.
    + apply (alloc_off (fun y => y = x) b b' Hc Ea); [by intros y ->|done].
  - apply viewers_same; [done|]. intros w z c _. unfold reads. assert (Hr' := fun y => reads_at_same _ _ w z y Hsame eq_refl).
    split; intros (y & Hy & Ec); exists y; (split; [by apply Hr'|cbn in *; specialize (Hv y); congruence]).
  - intros z c. unfold committed, reads. cbn [il pages]. assert (Hr' := fun y => reads_at_same _ _ (last_committed L) z y Hsame eq_refl).
    split; intros (y & Hy & Ec); exists y; (split; [by apply Hr'|cbn in *; specialize (Hv y); congruence]).
Qed.
End Get.
