(* ===== verification/VeCreate.v ===== *)
(** * A new version of a block

    [VeCreateBlockVersion] (Versions.v) over the pages (WuGood.v): the last
    committed version moves to a new block, a working copy takes its place, and
    every snapshot and the last committed state read the same contents. *)

From Stdlib Require Import ZArith List Lia Bool Sorted.
From stdpp Require Import base gmap list sets sorting.
From S2P Require Import Prelude WuBase Snapshots SnGc SnApi SnInv SnPurify SnOps SnEvolve SnExpand SnSystem SnReach Buffers Versions BufInv BufOps BufSwap IsoHeader Iso IsoList IsoCommit IsoUpdate WuGood WuCalls VeAlloc.
Local Open Scope sedna_scope.
Local Open Scope Z_scope.

Section Create.
Context {D A : Type} `{AllocatorOk D A} (approve : Z -> XPTR -> bool).
Abbreviation state := (sn_state (ve_world D A)).
Implicit Types (st : state) (b : bm D A).

(** ** The version that is replaced *)

(** [VeIsVersionPersistent] tells whether the persistent snapshot reads the last
    committed version. *)
Lemma pers_record clk L fut lv x (c : content D) t0 old : split_ok clk L fut lv -> version_of x c t0 old -> t0 ∉ ts_active L ->
  let isPers := VeIsVersionPersistent (expand_reference L (vh_creatorTs (ct_vh c))) (SnGetSnapshotTimestamps_pers L) in
  (isPers = true -> exists w, w ∈ pers_views L /\ ~ later w t0) /\ (isPers = false -> forall w, w ∈ pers_views L -> later w t0).
Proof.
  intros Hok Hver Ht0 isPers. unfold isPers. destruct (version_expand clk L fut lv Hok x c t0 old Hver) as (Hh & Href & Hvis).
  set (vs := vh_creatorTs (ct_vh c)) in *. destruct (decide (t0 ∈ ts_active L)); [done|]. cbn [app] in Href. destruct (split_current _ _ _ _ Hok) as [_ Ecur].
  assert (Hzero : forall s, visible s vs = Some 0 <-> ~ later (snap_of s) t0).
  { intros s. specialize (Hvis s). split.
    - intros E. rewrite E in Hvis. destruct Hvis as (_ & y & _ & u & Hu & Hn & _). cbn in Hu. by injection Hu as <- <-.
    - intros Hn. cbn in Hvis. destruct (decide (later (snap_of s) t0)) as [|Hn']; [done|]. destruct (visible s vs) as [i|]; [|done]. destruct Hvis as (Hi & y & _ & Hf).
      assert (Z.to_nat i = 0%nat) by (apply (first_at_unique (snap_of s) ((x, t0) :: old) _ _ y x Hf); by apply first_at_here). f_equal. lia. }
  assert (Hv0 := vo_ok _ _ _ _ Hver). apply Forall_cons in Hv0 as [[_ Hv0] _]. assert (Hlc := proj2 (Hzero (InitFakeHeadSnapshot L)) (not_active_committed L t0 Hv0 Ht0)).
  assert (Hfirst : first_record (expand_reference L vs) = (SN_LAST_COMMITED_VERSION_TIMESTAMP, 0)).
  { rewrite Href. unfold seen. cbn [omap list_omap]. unfold visible in Hlc. by rewrite Hlc. }
  assert (Hrec : forall s, s ∈ lv -> find_record (timestamp s) (expand_reference L vs) = Some 0 <-> ~ later (snap_of s) t0).
  { intros s Hs. rewrite <- Hzero. split; intros E; [by apply (find_live_record clk L fut lv vs (timestamp s) 0 s)|].
    assert (Hin : (timestamp s, 0) ∈ expand_reference L vs).
    { rewrite Href. unfold seen. rewrite list_elem_of_omap. exists s. split; [by right|]. unfold visible in E. by rewrite E. }
    destruct (find_record_some _ _ _ Hin) as [i Hi]. assert (Hi' := find_live_record clk L fut lv vs _ i s Hok Hs eq_refl Hh Hi). congruence. }
  unfold VeIsVersionPersistent. rewrite Hfirst. cbn [snd]. unfold SnGetSnapshotTimestamps_pers. destruct (find_type clk L fut lv SN_PERSISTENT_SNAPSHOT Hok) as [[-> Hnone]|(l1 & s & l2 & Elv & Ty & ->)]; [by left|..].
  - split.
    + destruct (find_record _ _) as [i|] eqn:E; [|done]. exfalso. apply find_record_elem in E. rewrite Href in E. apply seen_in in E as (s & Hs & E & _). cbn in E.
      apply elem_of_cons in Hs as [->|Hs]; [cbn in E; ts_lia|]. destruct (live_bounds clk L fut lv Hok s Hs). ts_lia.
    + intros _ w (s & Hs & Ty & ->)%pers_views_in. rewrite Ecur in Hs. exfalso. unfold count_type in Hnone. apply length_zero_iff_nil in Hnone.
      assert (Hin : In s (List.filter (fun s => type s =? SN_PERSISTENT_SNAPSHOT) lv)) by (apply filter_In; rewrite <- list_elem_of_In, Ty; by rewrite Z.eqb_refl).
      by rewrite Hnone in Hin.
  - assert (Hs : s ∈ lv) by (rewrite Elv; apply elem_of_app; right; left). split.
    + destruct (find_record _ _) as [i|] eqn:E; [|done]. intros <-%Z.eqb_eq. exists (snap_of s). split; [|by apply Hrec]. apply pers_views_in. exists s. by rewrite Ecur.
    + intros Hf w (s' & Hs' & Ty' & ->)%pers_views_in. rewrite Ecur in Hs'. destruct Hok as (_ & Hlok & _). rewrite (one_of_type SN_PERSISTENT_SNAPSHOT lv s' s (ls_pers _ _ _ _ Hlok) Hs' Hs Ty' Ty).
      destruct (decide (later (snap_of s) t0)) as [|Hn]; [done|]. apply Hrec in Hn; [|done]. by rewrite Hn in Hf.
Qed.

(** There is one persistent snapshot. *)
Lemma pers_unique clk L fut lv w w' : split_ok clk L fut lv -> w ∈ pers_views L -> w' ∈ pers_views L -> w = w'.
Proof.
  intros Hsp (s & Hs & Ty & ->)%pers_views_in (s' & Hs' & Ty' & ->)%pers_views_in. destruct (split_current _ _ _ _ Hsp) as [_ Ecur]. rewrite Ecur in Hs, Hs'.
  destruct Hsp as (_ & Hlok & _). by rewrite (one_of_type SN_PERSISTENT_SNAPSHOT lv s s' (ls_pers _ _ _ _ Hlok) Hs Hs' Ty Ty').
Qed.

(** ** The buffers *)

(** The page of [x] is at [p], and a copy with the header [h] at [x]. *)
Record created (x p : XPTR) (sid : Z) (isPers : bool) (h : VersionsHeader) (b b' : bm D A) : Prop := {
  cr_ok : bm_ok b' /\ buffer_on_stake b' = -1 /\ alloc_ok b';
  cr_new : is_free b p /\ p <> 0 /\ IS_DATA_BLOCK p = true;
  cr_free : forall (y : XPTR), is_free b' y <-> is_free b y /\ y <> p;
  cr_page : exists c, view b x = Some c /\ view b' x = Some (mk_content (ct_p c) h (ct_data c));
  cr_old : view b' p = view b x;
  cr_view : forall (y : XPTR), ~ is_free b y -> y <> x -> view b' y = view b y;
  cr_trid : trid_of b' x = sid;
  cr_trid_old : trid_of b' p = trid_of b x \/ trid_of b' p = -1;
  cr_trids : forall (y : XPTR), ~ is_free b y -> y <> x -> trid_of b' y = trid_of b y \/ trid_of b' y = -1;
  cr_deps : forall (z y : XPTR), z <> x \/ isPers = false -> deps b' !! z = Some y -> deps b !! z = Some y /\ disk_view b' z = disk_view b z;
  cr_dep : isPers = true -> deps b' !! x = Some p;
  cr_saved : forall (z y : XPTR), z <> x \/ isPers = false -> deps b !! z = Some y -> ~ is_free b y -> deps b' !! z = Some y \/ disk_view b' y = view b y;
  cr_disk : forall (y : XPTR), ~ is_free b y -> disk_view b' y = disk_view b y \/ disk_view b' y = view b y
}.

(** [OnCreateVersion] and the access to the new page. *)
Lemma finish_create (x p : XPTR) sid id (isPers : bool) b b1 b2 : bm_ok b -> p <> 0 -> buffer_table b !! x = Some id ->
  (if isPers then exists b0, UpdateFlushingDependency x p b = Done tt b0 /\ OnPersVersionRelocating x p 1 b0 = Done tt b1 else b1 = b) ->
  GrantExclusiveAccessToBuffer sid id b1 = Done tt b2 ->
  bm_ok b2 /\ buffer_on_stake b2 = buffer_on_stake b /\ (forall y, view b2 y = view b y) /\ (forall y, disk_view b2 y = disk_view b y)
  /\ trid_of b2 x = sid /\ (forall y, y <> x -> trid_of b2 y = trid_of b y \/ trid_of b2 y = -1) /\ alloc b2 = alloc b
  /\ (forall z, z <> x \/ isPers = false -> deps b2 !! z = deps b !! z) /\ (isPers = true -> deps b2 !! x = Some p).
Proof.
  intros Hok Hp Ht Hpers Hg. assert (Hdx : is_Some (disk b !! x)) by apply (ok_table _ _ Hok _ _ Ht).
  assert (K : bm_ok b1 /\ buffer_on_stake b1 = buffer_on_stake b /\ (forall y, view b1 y = view b y) /\ (forall y, disk_view b1 y = disk_view b y)
    /\ (forall y, trid_of b1 y = trid_of b y) /\ alloc b1 = alloc b /\ buffer_table b1 = buffer_table b
    /\ (forall z, z <> x \/ isPers = false -> deps b1 !! z = deps b !! z) /\ (isPers = true -> deps b1 !! x = Some p)).
  { destruct isPers; [|by subst b1]. destruct Hpers as (b0 & H1 & H2). unfold UpdateFlushingDependency in H1. cbn in H1. destruct (Z.eqb_spec p 0); [done|]. injection H1 as <-.
    destruct (relocating_ok _ x p b1 (depend_ok b x p Hok Hp Hdx) H2) as (Hok1 & [Hc Ha] & Et & Ed & Ek & Htr).
    split; [done|]. split; [by rewrite (off_stake _ _ _ Hc)|]. split; [intros y; by rewrite (calm_view _ _ y (conj Hc Ha))|]. split; [intros y; unfold disk_view; by rewrite Ek|].
    split; [done|]. split; [done|]. split; [done|]. rewrite Ed. cbn. split; [intros z [Hz|]; [by rewrite lookup_insert_ne|done]|]. intros _. by rewrite lookup_insert_eq. }
  destruct K as (K1 & K2 & K3 & K4 & K5 & K6 & K7 & K8 & K9). rewrite <- K7 in Ht.
  destruct (grant_ok _ _ x _ _ K1 Ht Hg) as (J1 & J2 & J3 & J4 & J5 & J6 & J7 & J8 & _). split; [done|]. split; [by rewrite (off_stake _ _ _ J2)|].
  split; [intros y; by rewrite J3|]. split; [intros y; by rewrite J5|]. split; [done|]. split; [|split; [congruence|]].
  - intros y Hy. rewrite <- K5. by apply (off_trid _ _ _ J2).
  - rewrite J8. done.
Qed.

Lemma create_bm isp me (x : XPTR) src id p sid (isPers : bool) h pg b b1 b2 b3 b4 b5 b6 b7 : bm_ok b -> alloc_ok b -> buffer_on_stake b = -1 -> ~ is_free b x -> loaded x src pg b b1 ->
  AllocateDataBlockAndCopyData approve isp me src b1 = Done (p, id) b2 ->
  upd_frame id (set_vh h) b2 = Done tt b3 -> FixFlushXptrs src id p x b3 = Done tt b4 -> MarkBufferDirty src b4 = Done tt b5 ->
  (if isPers then exists b0, UpdateFlushingDependency x p b5 = Done tt b0 /\ OnPersVersionRelocating x p 1 b0 = Done tt b6 else b6 = b5) ->
  GrantExclusiveAccessToBuffer sid id b6 = Done tt b7 -> created x p sid isPers h b b7.
Proof.
  intros Hok Halk Hst Hfx Hl Hcp Hup Hfix Hdirty Hpers Hgr. assert (Hview := loaded_view _ _ _ _ _ Hl). destruct Hl as (Hok1 & Hc1 & Ht1 & Hpg).
  assert (Hfr1 : forall y, is_free b1 y <-> is_free b y) by (intros y; by apply free_calm).
  assert (Hv1 := fun y => calm_view b b1 y Hc1). assert (Hst1 : buffer_on_stake b1 = -1) by (destruct Hc1 as [Hc _]; by rewrite (off_stake _ _ _ Hc)).
  destruct (copy_ok approve isp me b1 x src p id b2 Hok1 (alloc_calm _ _ Hc1 Halk) Ht1 ltac:(by rewrite Hfr1) Hst1 Hcp) as (Hok2 & Halk2 & Hp & Hp0 & Hd & Hfr2 & Hc2 & Htp & Htx & pg2 & Hpg2 & Hch & Hv2 & Htr2).
  assert (Hxp : x <> p) by (intros ->; apply Hfx; by rewrite <- Hfr1). assert (Hst2 : buffer_on_stake b2 = -1) by (by rewrite (off_stake _ _ _ Hc2)).
  assert (Hfx1 : ~ is_free b1 x) by (by rewrite Hfr1).
  destruct (relocate_ok b2 x src p id pg2 h b3 b4 b5 Hok2 Hxp Hst2 Htx Htp Hpg2 Hch Hup Hfix Hdirty) as (Hok5 & Hvx & Hvp & Htrx & Htrp & Hc5 & Ht5 & _ & Ed5 & Ek5 & Ea5).
  assert (Hfr5 : forall y, is_free b5 y <-> is_free b2 y).
  { apply (free_off (fun z => z = x \/ z = p) b2 b5 Hc5 Ea5). intros z [-> | ->]; rewrite Hfr2; tauto. }
  assert (Halk5 : alloc_ok b5) by (apply (alloc_off (fun z => z = x \/ z = p) b2 b5 Hc5 Ea5); [|done]; intros z [-> | ->]; rewrite Hfr2; tauto).
  assert (Hvx2 : view b2 x = view b1 x) by (by apply (off_view _ _ _ Hc2)).
  destruct (finish_create x p sid id isPers b5 b6 b7 Hok5 Hp0 Ht5 Hpers Hgr) as (F1 & F2 & F3 & F4 & F5 & F6 & F7 & F8 & F9).
  assert (Hfr7 : forall y, is_free b7 y <-> is_free b5 y) by (apply is_free_ext; [done|auto]).
  constructor.
  - split; [done|]. split; [by rewrite F2, (off_stake _ _ _ Hc5)|]. apply (alloc_ok_ext b5); [done|auto| |done].
    intros z [pz Hz]. specialize (F4 z). unfold disk_view in F4. rewrite Hz in F4. destruct (disk b7 !! z); [by eexists|done].
  - split; [by rewrite <- Hfr1|done].
  - intros y. by rewrite Hfr7, Hfr5, Hfr2, Hfr1.
  - rewrite Hv1 in Hv2. exists (content_of pg2). split; [done|]. by rewrite F3, Hvx.
  - by rewrite F3, Hvp, Hvx2, Hv1.
  - intros y Hy Hyx. rewrite <- Hfr1 in Hy. rewrite F3, (off_view _ _ _ Hc5), (off_view _ _ _ Hc2), Hv1; [done|done|]. intros [-> | ->]; [done|by apply Hy].
  - done.
  - destruct (F6 p (not_eq_sym Hxp)) as [E|E]; [|by right]. rewrite E, Htrp. destruct (off_trid _ _ _ Hc2 x Hfx1) as [E2|E2]; rewrite E2; [|by right].
    destruct Hc1 as [Hc1 _]. apply (off_trid _ _ _ Hc1). tauto.
  - intros y Hy Hyx. destruct (F6 y Hyx) as [->|]; [|by right]. rewrite <- Hfr1 in Hy.
    destruct (off_trid _ _ _ Hc5 y) as [->|]; [intros [-> | ->]; [done|by apply Hy]| |by right]. destruct (off_trid _ _ _ Hc2 y Hy) as [->|]; [|by right].
    destruct Hc1 as [Hc1 _]. apply (off_trid _ _ _ Hc1). tauto.
  - intros z y Hz Hdz. rewrite (F8 z Hz), Ed5 in Hdz. destruct (off_deps _ _ _ Hc2 z y Hdz) as [Hd1 E1]. destruct (calm_deps _ _ _ _ Hc1 Hd1) as [Hd0 E0].
    split; [done|]. rewrite F4. unfold disk_view at 1. rewrite Ek5. fold (disk_view b2 z). by rewrite E1, E0.
  - done.
  - intros z y Hz Hdz Hy. assert (Hc12 : calm_off (is_free b) b b2) by (apply (off_trans _ _ b1); [by apply calm_off_calm|]; by apply (off_mono (is_free b1)); [intros u; rewrite Hfr1|]).
    rewrite (F8 z Hz), Ed5, F4. unfold disk_view. rewrite Ek5. by apply (off_saved _ _ _ Hc12).
  - intros y Hy. assert (Hy1 : ~ is_free b1 y) by (by rewrite Hfr1). rewrite F4. unfold disk_view at 1 3. rewrite Ek5. fold (disk_view b2 y).
    destruct (off_disk _ _ _ Hc2 y Hy1) as [-> | ->]; [by apply calm_disk|right; apply Hv1].
Qed.

(** ** The call *)

Lemma link_header x t p t0 es : (length es < 3)%nat -> link_old_version p (fill_entries ((x, t) :: (x, t0) :: es)) = fill_entries ((x, t) :: (p, t0) :: es).
Proof. destruct es as [|e1 [|e2 [|e3 es]]]; cbn; intros Hl; [done|done|done|lia]. Qed.

(** A working version is the first record, also without the damaged snapshots. *)
Lemma filter_working L id out out2 : SnFilterOutDamaged L ((SN_WORKING_VERSION_TIMESTAMP, id) :: out) = Ok out2 -> fst (first_record out2) = SN_WORKING_VERSION_TIMESTAMP.
Proof. cbn [SnFilterOutDamaged]. rewrite Z.eqb_refl. cbn [orb]. destruct (SnFilterOutDamaged L out); [|done]. cbn. by intros [= <-]. Qed.

(** What [VeCreateBlockVersion] does once the new header is known. *)
Definition create_tail (x : XPTR) (src : Z) (t t0 : TIMESTAMP) (es : list (XPTR * TIMESTAMP)) (a : TIMESTAMP) (isPers : bool) : wu state Z :=
  do! (newBlock, newBlockBufferId) <- ImpAllocateBlockAndCopyData approve false src;
  do! _ <- ImpLocateHeader newBlockBufferId;
  let header := link_old_version newBlock (fill_entries ((x, t) :: (x, t0) :: es)) in
  do! me <- ClGetCurrent;
  do! _ <- on_bm (fun _ => upd_frame newBlockBufferId (set_vh header));
  do! _ <- on_bm (fun _ => FixFlushXptrs src newBlockBufferId newBlock x);
  do! _ <- ImpMarkBufferDirty src;
  do! _ <- update_restriction true (mk_restriction x 0 me None);
  do! _ <- update_restriction true (mk_restriction newBlock 0 VE_RESTRICTION_OLD_VERSION None);
  do! _ <- OnCreateVersion x newBlock isPers;
  do! _ <- ImpGrantExclusiveAccessToBuffer newBlockBufferId;
  do! _ <- push_function (mk_function x newBlock a (if isPers then VE_FUNCTION_CREATE_VERSION_PERS else VE_FUNCTION_CREATE_VERSION));
  wu_ret newBlockBufferId.

(** The part of [VeCreateBlockVersion] before anything is changed. *)
Lemma create_head sy G st x t0 old id st' : good_at sy G st -> master (pages_at G st) x t0 old -> VeCreateBlockVersion approve false true x st = Done id st' ->
  exists t c pg src a es b1, block st = Some (mk_client t SN_UPDATER_TRANSACTION) /\ ve_block (world st) = Some c /\ isCompleted c = false
    /\ loaded x src pg (ve_bm (world st)) b1 /\ version_of x (content_of pg) t0 old /\ (t0 ∉ ts_active (snapshots st))
    /\ a = expand_anchor false (snapshots st) (expand_reference (snapshots st) (vh_creatorTs (pg_vh pg)))
    /\ (length es < 3)%nat /\ (forall e, e ∈ es -> e ∈ old) /\ (forall w, w ∈ viewers (snapshots st) -> later w t0 -> pick w es = pick w old)
    /\ create_tail x src t t0 es a (VeIsVersionPersistent (expand_reference (snapshots st) (vh_creatorTs (pg_vh pg))) (SnGetSnapshotTimestamps_pers (snapshots st)))
         (with_bm b1 st) = Done id st'.
Proof.
  intros Hg (_ & c0 & Hv0 & Hver) Hr. assert (Hok := g_bm _ _ _ _ _ Hg). unfold VeCreateBlockVersion in Hr. run_step Hr c s1 H1. apply ve_block_done in H1 as [-> Hc].
  run_step Hr n s1 H1. apply status_done in H1 as [-> (bl & Hbl & ->)].
  destruct (statusAndType bl =? SN_READ_ONLY_TRANSACTON) eqn:Ero; [done|]. destruct (_ || _) eqn:Ec; [done|]. apply orb_false_iff in Ec as [_ Ec].
  run_step Hr s0 s1 H1. injection H1 as <- <-. run_step Hr t s1 H1. apply transaction_ts_done in H1 as [-> (bl' & Hbl' & ->)]. rewrite Hbl in Hbl'. injection Hbl' as <-.
  run_step Hr [[src out] a] s1 H1. destruct (version_run _ _ _ _ _ _ _ Hok H1) as (c1 & bl' & i1 & p1 & b1 & _ & Hbl' & _ & _ & _ & _ & _ & Hbr). rewrite Hbl in Hbl'. injection Hbl' as <-.
  rewrite Ero in Hbr. destruct (Z.eqb_spec (statusAndType bl) SN_UPDATER_TRANSACTION) as [Eu|]; [|done]. clear c1 i1 p1 b1 Hbr.
  assert (Hb : block st = Some (mk_client (cl_timestamp bl) SN_UPDATER_TRANSACTION)) by (rewrite Hbl; destruct bl; cbn in Eu; by subst).
  destruct (updater_run _ _ _ _ _ _ _ _ Hok Hb H1) as (pg & b1 & Hl & _ & He & Hst1). cbn in Hv0. rewrite (loaded_view _ _ _ _ _ Hl) in Hv0. injection Hv0 as <-.
  destruct (good_clock _ _ _ _ _ Hg) as [(fut & lv & Hsp) Hclk]. destruct (version_expand (clock st) (snapshots st) fut lv Hsp x (content_of pg) t0 old Hver) as (Hh & Href & _). cbn [ct_vh content_of] in Hh, Href.
  destruct (expand_ok (clock st) false (snapshots st) (vh_creatorTs (pg_vh pg)) false) as (a' & E & Ha); [by exists fut, lv|done|done|].
  unfold OUT_SIZE in He. rewrite He in E. injection E as -> ->. rewrite (Ha eq_refl) in *.
  run_step Hr h s2 H2. apply locate_done in H2 as [-> (pg2 & Hpg2 & ->)]. run_step Hr s2 s3 H3. injection H3 as <- <-. run_step Hr out2 s3 H3.
  assert (Hsn : snapshots s1 = snapshots st) by (destruct (_ =? _) in Hst1; [destruct Hst1 as (_ & b2 & _ & ->)|subst s1]; done).
  rewrite Hsn in H3. unfold of_res in H3. destruct (SnFilterOutDamaged _ _) as [out3|] eqn:Hf; [|done]. injection H3 as <- <-.
  destruct (decide (t0 ∈ ts_active (snapshots st))) as [Hact|Hact].
  { exfalso. rewrite Href in Hf. apply filter_working in Hf. rewrite Hf, Z.eqb_refl in Hr. done. }
  assert (Hst : s1 = with_bm b1 st).
  { rewrite Href in Hst1. cbn [app] in Hst1. destruct (Z.eqb_spec (fst (first_record (seen (vh_creatorTs (pg_vh pg)) 0 (InitFakeHeadSnapshot (snapshots st) :: lv)))) SN_WORKING_VERSION_TIMESTAMP) as [Ew|]; [|done].
    exfalso. unfold first_record in Ew. destruct (seen _ _ _) as [|r rs] eqn:Es; [cbn in Ew; ts_lia|]. assert (Hin : r ∈ r :: rs) by left. rewrite <- Es in Hin. apply seen_in in Hin as (s & Hs & Ets & _). cbn in Ew.
    apply elem_of_cons in Hs as [->|Hs]; [cbn in Ets; ts_lia|]. destruct (live_bounds (clock st) (snapshots st) fut lv Hsp s Hs). ts_lia. }
  subst s1. cbn in Hpg2. assert (Hl' := Hl). destruct Hl' as (_ & _ & _ & Hpg). rewrite Hpg in Hpg2. injection Hpg2 as <-.
  destruct (_ =? _) in Hr; [done|]. run_step Hr entries s2 H2. unfold ComposeHeader in H2. run_step H2 [es rest] s3 H3. unfold of_res in H3.
  destruct (compose_entries _ _ _ _) as [[es0 rest0]|] eqn:Hcomp; [|done]. injection H3 as -> -> <-.
  destruct (compose_header (clock st) (snapshots st) x (content_of pg) t0 old out3 es rest) as (-> & es' & -> & Hlen & Hsub & Hpick); [by exists fut, lv|done|done|done|done|].
  run_step H2 [] s4 H4. injection H4 as <-. injection H2 as <- <-.
  exists (cl_timestamp bl), c, pg, src, (expand_anchor false (snapshots st) (expand_reference (snapshots st) (vh_creatorTs (pg_vh pg)))), es', b1. do 10 (split; [done|]). exact Hr.
Qed.

Lemma tail_run st b1 x src pg t t0 es a (isPers : bool) c id st' : let b := ve_bm (world st) in
  bm_ok b -> alloc_ok b -> buffer_on_stake b = -1 -> ~ is_free b x -> loaded x src pg b b1 -> (length es < 3)%nat -> ve_block (world st) = Some c ->
  create_tail x src t t0 es a isPers (with_bm b1 st) = Done id st' ->
  exists p b', created x p (ve_current (world st)) isPers (fill_entries ((x, t) :: (p, t0) :: es)) b b' /\ is_Some (functionList c)
    /\ st' = mk_sn (snapshots st) (clock st) (block st) (mk_ve b' (restrictionHash (world st))
         (Some (add_function (mk_function x p a (if isPers then VE_FUNCTION_CREATE_VERSION_PERS else VE_FUNCTION_CREATE_VERSION)) c)) (ve_current (world st))).
Proof.
  intros b Hok Halk Hst Hfx Hl Hlen Hc Hr. unfold create_tail in Hr. run_step Hr [p i] s1 H1. bm_step H1 b2. cbn in H1.
  run_step Hr h s1 H2. apply locate_done in H2 as [-> _]. rewrite link_header in Hr by done. run_step Hr me s1 H2. injection H2 as <- <-.
  run_step Hr [] s1 H2. bm_step H2 b3. cbn in H2. run_step Hr [] s1 H3. bm_step H3 b4. cbn in H3. run_step Hr [] s1 H4. bm_step H4 b5. cbn in H4.
  run_step Hr [] s1 H5. apply restriction_done in H5 as ->. run_step Hr [] s1 H5. apply restriction_done in H5 as ->. run_step Hr [] s1 H5.
  assert (K : exists b6, s1 = with_bm b6 st
    /\ (if isPers then exists b0, UpdateFlushingDependency x p b5 = Done tt b0 /\ OnPersVersionRelocating x p 1 b0 = Done tt b6 else b6 = b5)).
  { unfold OnCreateVersion in H5. destruct isPers; [|injection H5 as <-; by exists b5]. run_step H5 [] s2 H6. apply on_bm_done in H6 as (b0 & H6 & ->). bm_step H5 b6. exists b6. split; [done|]. by exists b0. }
  destruct K as (b6 & -> & Hpers). run_step Hr [] s1 H6. bm_step H6 b7. cbn in H6. run_step Hr [] s1 H7. injection Hr as <- <-.
  apply push_done in H7 as (c' & l & Hc' & Hl' & ->). cbn in Hc'. rewrite Hc in Hc'. injection Hc' as <-. exists p, b7. split; [|split; [by rewrite Hl'|done]].
  by apply (create_bm _ _ x src i p _ isPers _ pg b b1 b2 b3 b4 b5 b6 b7 Hok Halk Hst Hfx Hl H1 H2 H3 H4 Hpers H6).
Qed.
End Create.

(** ** The invariant *)

Section Keeps.
Context {D A : Type} `{AllocatorOk D A} (L : SnSnapshotsList) (clk : TIMESTAMP) (G : list client_fn) (b b' : bm D A) (sid : Z)
  (o : TIMESTAMP) (x p : XPTR) (a t0 : TIMESTAMP) (isPers : bool) (old es : list (XPTR * TIMESTAMP)) (c : content D).
Context (Hg : good true L clk G b) (Ho : o ∈ ts_active L) (Hall : all_active L G) (Hview : view b x = Some c) (Hver : version_of x c t0 old)
  (Ht0 : t0 ∉ ts_active L) (Hdel : deletable (pages L clk G b) o x)
  (Hcr : created x p sid isPers (fill_entries ((x, o) :: (p, t0) :: es)) b b')
  (Hlen : (length es < 3)%nat) (Hsub : forall e, e ∈ es -> e ∈ old) (Hes : forall w, w ∈ viewers L -> later w t0 -> pick w es = pick w old)
  (Ha : a = expand_anchor false L (expand_reference L (vh_creatorTs (ct_vh c))))
  (HP : isPers = VeIsVersionPersistent (expand_reference L (vh_creatorTs (ct_vh c))) (SnGetSnapshotTimestamps_pers L)).

Definition create_fn : VeFunction := mk_function x p a (if isPers then VE_FUNCTION_CREATE_VERSION_PERS else VE_FUNCTION_CREATE_VERSION).
Definition created_fns : list client_fn := (sid, (o, create_fn)) :: G.

Lemma create_master : master (pages L clk G b) x t0 old.
Proof. destruct (dl_master _ _ _ Hdel) as (t1 & old1 & Hm & _). split; [apply Hm|]. eauto. Qed.

(** No function is about the block. *)
Lemma create_free s o' f : (s, (o', f)) ∈ G -> vf_lxptr f <> x.
Proof.
  intros Hin Ef. assert (Hin' : (o', f) ∈ map snd G) by (apply list_elem_of_fmap; by exists (s, (o', f))).
  destruct (is_free_block (vf_type f)) eqn:Ety; [by apply (dl_pending _ _ _ Hdel o' f)|].
  destruct (fn_master _ o' f (g_iso _ _ _ _ _ Hg) Hin') as (t1 & old' & Hm' & Et). rewrite Et, Ef in Hm' by (unfold is_working; by rewrite Ety).
  destruct (holds_inj _ _ _ _ _ _ _ _ create_master Hm') as (_ & -> & _). apply Ht0. by apply (Hall s t0 f).
Qed.

Definition create_page : content D := mk_content (ct_p c) (fill_entries ((x, o) :: (p, t0) :: es)) (ct_data c).

Lemma create_new : view b' x = Some create_page.
Proof. destruct (cr_page _ _ _ _ _ _ _ Hcr) as (c' & E1 & E2). rewrite Hview in E1. by injection E1 as <-. Qed.

Lemma create_version : version_of x create_page o ((p, t0) :: es).
Proof.
  destruct (active_valid _ o (g_iso _ _ _ _ _ Hg) Ho) as [Hov _]. destruct Hver as [Vp Vh Vl Vo]. apply Forall_cons in Vo as [[Vx Vt] Vo]. constructor; [done|done|cbn; lia|].
  destruct (cr_new _ _ _ _ _ _ _ Hcr) as (_ & Hp0 & _). repeat constructor; [done|done|done|done|]. rewrite Forall_forall in Vo |- *. auto.
Qed.

Lemma create_pages y x' t l : holds (pages L clk created_fns b') y x' t l <->
  (y = x /\ x' = x /\ t = o /\ l = (p, t0) :: es) \/ (y = p /\ x' = x /\ t = t0 /\ l = old) \/ (y <> x /\ y <> p /\ holds (pages L clk G b) y x' t l).
Proof.
  assert (Hcr' := Hcr). destruct Hcr' as [K1 (K2 & _) K3 _ K5 K6 _ _ _ _ _ _ _].
  apply (create_holds (pages L clk G b) (pages L clk created_fns b') o x p create_page t0 old es create_master K2 K3 K6 K5 create_new create_version).
Qed.

Lemma create_iso : iso (pages L clk created_fns b').
Proof.
  destruct (good_clock _ _ _ _ _ Hg) as [(fut & lv & Hsp) Hclk]. destruct (split_current _ _ _ _ Hsp) as [_ Ecur].
  assert (Hfresh := deletable_fresh _ _ _ (g_iso _ _ _ _ _ Hg) Hdel). rewrite elem_of_app in Hfresh. assert (Hcr' := Hcr). destruct Hcr' as [K1 (K2 & K2' & _) K3 _ K5 K6 _ _ _ _ _ _ _].
  apply (iso_create (pages L clk G b) (pages L clk created_fns b') o x p a (vf_type create_fn) create_page t0 old es); try done; eauto using create_master, create_new, create_version.
  - apply Hg.
  - cbn. destruct isPers; done.
  - cbn. rewrite Ha. apply (anchor_past clk L fut lv Hsp Hclk x c t0 old Hver). by left.
  - intros s Hs Hn. rewrite Ha. apply (anchor_readers clk L fut lv Hsp x c t0 old Hver); [done| |done]. destruct (undamaged_viewer _ _ Hs) as (Hin & _). cbn in Hin. by rewrite <- Ecur.
  - intros o' f' Hin. apply list_elem_of_fmap in Hin as ([s p'] & E & Hin). cbn in E. subst p'. by apply (create_free s o' f').
Qed.

Lemma create_reads : old_reads (pages L clk G b) (pages L clk created_fns b') /\ same_committed (pages L clk G b) (pages L clk created_fns b').
Proof.
  assert (Hcr' := Hcr). destruct Hcr' as [K1 (K2 & _) K3 _ K5 K6 _ _ _ _ _ _ _].
  apply viewers_same; [done|]. intros w z d Hw.
  by apply (reads_create (pages L clk G b) (pages L clk created_fns b') o x p a (vf_type create_fn) create_page t0 old es (g_iso _ _ _ _ _ Hg) eq_refl Ho create_master K2 K3 K6 K5 create_new create_version Hes).
Qed.

(** The blocks of other functions. *)
Lemma create_others s o' f : (s, (o', f)) ∈ G -> vf_type f <> VE_FUNCTION_ALLOCATE_BLOCK -> vf_xptr f <> x /\ vf_xptr f <> p /\ ~ is_free b (vf_xptr f).
Proof.
  intros Hin Hty. destruct (fn_in_use _ _ _ _ _ _ _ _ Hg Hin) as [_ F2]. destruct (cr_new _ _ _ _ _ _ _ Hcr) as (K2 & _).
  split; [|split; [intros E; apply (F2 Hty); by rewrite E|by apply F2]].
  apply (fn_places (pages L clk G b) o' f x t0 old (g_iso _ _ _ _ _ Hg)); [apply list_elem_of_fmap; by exists (s, (o', f))|apply create_master|by apply (create_free s o')|done].
Qed.

(** The version that was replaced is on the disk at its old place; the others
    are where they were. *)
Lemma create_saved : saved_ok L clk created_fns b'.
Proof.
  intros z y t l w Hw Hy Hd Hne Hn. destruct (good_clock _ _ _ _ _ Hg) as [Hsn _]. assert (Hsp := Hsn). destruct Hsp as (fut & lv & Hsp).
  destruct (pers_record clk L fut lv x c t0 old Hsp Hver Ht0) as [P1 P2]. rewrite <- HP in P1, P2. assert (Hxf : ~ is_free b x) by (apply create_master).
  assert (Hlo : later w o) by (by apply (pers_later clk L)).
  apply create_pages in Hy as [(-> & -> & _)|[(-> & -> & -> & ->)|(N1 & N2 & Hy)]]; [done| |].
  - right. assert (Eis : isPers = true) by (destruct isPers eqn:Eis; [done|]; by destruct (Hn (P2 eq_refl w Hw))).
    rewrite (cr_dep _ _ _ _ _ _ _ Hcr Eis). split; [done|]. split.
    + rewrite (cr_old _ _ _ _ _ _ _ Hcr). destruct (cr_disk _ _ _ _ _ _ _ Hcr x Hxf) as [E|E]; [|done].
      rewrite E. by apply (g_sync _ _ _ _ _ Hg eq_refl x t0 old w create_master).
    + intros t2 l2 Hm. apply create_pages in Hm as [(_ & _ & -> & _)|[(E & _)|(N & _)]]; [done|by destruct Hne|done].
  - assert (Fy : ~ is_free b y) by apply Hy. rewrite (cr_view _ _ _ _ _ _ _ Hcr y Fy N1). destruct (g_saved _ _ _ _ _ Hg eq_refl z y t l w Hw Hy Hd Hne Hn) as [E|(Ed & E & Hl)].
    + left. by destruct (cr_disk _ _ _ _ _ _ _ Hcr y Fy) as [-> | ->].
    + assert (Hz : z <> x \/ isPers = false).
      { destruct (decide (z = x)) as [->|]; [right|by left]. destruct isPers; [|done]. destruct (P1 eq_refl) as (w' & Hw' & Hn'). exfalso. apply Hn'.
        rewrite (pers_unique clk L fut lv w' w Hsp Hw' Hw). apply (Hl t0 old create_master). }
      destruct (cr_saved _ _ _ _ _ _ _ Hcr z y Hz Ed Fy) as [Ed'|E']; [|by left]. right. split; [done|]. split; [rewrite <- E; by apply (cr_deps _ _ _ _ _ _ _ Hcr z y Hz Ed')|].
      intros t2 l2 Hm. apply create_pages in Hm as [(_ & _ & -> & _)|[(-> & E2 & _)|(_ & _ & Hm)]]; [done| |by apply (Hl t2 l2)].
      exfalso. apply Hxf. rewrite <- E2. apply Hcr.
Qed.

Lemma create_good : good true L clk created_fns b'.
Proof.
  destruct (good_clock _ _ _ _ _ Hg) as [Hsn _]. assert (Hsp := Hsn). destruct Hsp as (fut & lv & Hsp).
  destruct (pers_record clk L fut lv x c t0 old Hsp Hver Ht0) as [P1 P2]. rewrite <- HP in P1, P2. assert (Hxf : ~ is_free b x) by (apply create_master).
  constructor; [apply create_iso|apply Hcr|apply Hcr|..].
  - intros z x' t l Hm. apply create_pages in Hm as [(-> & _)|[(-> & E & _)|(_ & _ & Hm)]]; [apply (g_data _ _ _ _ _ Hg x x t0 old create_master)| |by apply (g_data _ _ _ _ _ Hg z x' t l)].
    apply Hcr.
  - apply deps_cons.
    + intros s o' y z a' q Hin Hq. assert (Hne := create_free _ _ _ Hin). cbn in Hne. destruct (create_others _ _ _ Hin) as (N1 & N2 & N3); [done|]. cbn in N1, N2, N3.
      destruct (cr_deps _ _ _ _ _ _ _ Hcr y q (or_introl Hne) Hq) as [Hq' Ed]. destruct (fn_in_use _ _ _ _ _ _ _ _ Hg Hin) as [F1 _]. destruct (g_deps _ _ _ _ _ Hg _ _ _ _ _ _ Hin Hq') as [-> E].
      split; [done|]. rewrite Ed, E. symmetry. by apply (cr_view _ _ _ _ _ _ _ Hcr).
    + cbn. intros Hty z Hz. assert (Eis : isPers = true) by (clear -Hty; by destruct isPers). rewrite (cr_dep _ _ _ _ _ _ _ Hcr Eis) in Hz. injection Hz as <-. split; [done|].
      rewrite (cr_old _ _ _ _ _ _ _ Hcr). destruct (P1 Eis) as (w & Hw & Hn). destruct (cr_disk _ _ _ _ _ _ _ Hcr x Hxf) as [E|E]; [|done].
      rewrite E. by apply (g_sync _ _ _ _ _ Hg eq_refl x t0 old w create_master).
  - apply fresh_cons.
    + intros s o' y z a' w t l Hin Hw Hh. destruct (create_others _ _ _ Hin) as (N1 & N2 & N3); [done|]. cbn in N1, N2, N3.
      assert (Hh' : holds (pages L clk created_fns b') z y t l) by exact Hh. apply create_pages in Hh' as [(-> & _)|[(-> & _)|(_ & _ & Hh')]]; [done|done|].
      by apply (g_fresh _ _ _ _ _ Hg s o' y z a' w t l).
    + cbn. intros Hty w t l Hw Hh. assert (Eis : isPers = false) by (clear -Hty; by destruct isPers). assert (Hh' : holds (pages L clk created_fns b') p x t l) by exact Hh.
      apply create_pages in Hh' as [(-> & _)|[(_ & _ & -> & _)|(_ & N & _)]]; [exfalso; apply Hxf, Hcr|by apply (P2 Eis)|done].
  - intros _ z t l w Hm Hw Hn. apply create_pages in Hm as [(-> & _ & -> & _)|[(-> & E & _)|(N1 & N2 & Hm)]]; [exfalso; apply Hn; by apply (pers_later clk L)| |].
    + exfalso. apply Hxf. rewrite <- E. apply Hcr.
    + rewrite (cr_view _ _ _ _ _ _ _ Hcr z (proj1 Hm) N1). destruct (cr_disk _ _ _ _ _ _ _ Hcr z (proj1 Hm)) as [->|]; [|done].
      by apply (g_sync _ _ _ _ _ Hg eq_refl z t l w).
  - intros _. apply create_saved.
  - intros z Hz Hn. rewrite (cr_free _ _ _ _ _ _ _ Hcr) in Hz. destruct (decide (z = x)) as [->|Nx].
    + rewrite (cr_trid _ _ _ _ _ _ _ Hcr). exists o, create_fn. split; [left|]. split; [|done]. clear. unfold create_fn. by destruct isPers.
    + assert (Hold : trid_of b x = -1).
      { destruct (decide (trid_of b x = -1)) as [|Hne]; [done|]. destruct (g_access _ _ _ _ _ Hg x Hxf Hne) as (o' & f & Hin & _ & Ef). by apply create_free in Hin. }
      destruct (decide (z = p)) as [->|Np]; [exfalso; apply Hn; destruct (cr_trid_old _ _ _ _ _ _ _ Hcr) as [E|E]; congruence|].
      assert (Hz' : ~ is_free b z) by tauto. destruct (cr_trids _ _ _ _ _ _ _ Hcr z Hz' Nx) as [E|E]; [|done]. rewrite E in *.
      destruct (g_access _ _ _ _ _ Hg z Hz' Hn) as (o' & f & Hin & K). exists o', f. split; [by right|done].
  - apply Hcr.
Qed.
End Keeps.
