(* ===== verification/VeCommit.v ===== *)
(** * The commit of a transaction

    [OnTransactionCommit] (Versions.v) over the pages (WuGood.v): the replaced
    versions and the deleted blocks go to the snapshots that need them, or are
    freed.  No snapshot reads anything else, and the deleted blocks leave the
    last committed state. *)

From Stdlib Require Import ZArith List Lia Bool Sorted.
From stdpp Require Import base gmap list sets sorting.
From S2P Require Import Prelude WuBase Snapshots SnGc SnApi SnInv SnPurify SnOps SnEvolve SnExpand SnSystem SnReach Buffers Versions BufInv BufOps BufSwap IsoHeader Iso IsoList IsoCommit IsoUpdate WuFree WuGood WuCalls VeAlloc.
Local Open Scope sedna_scope.
Local Open Scope Z_scope.

#[export] Instance ve_function_type_dec : EqDecision ve_function_type.
Proof. solve_decision. Defined.

(** The snapshots are the same but for the chains of old versions. *)
Definition same_bare (L L' : SnSnapshotsList) : Prop :=
  map bare (leading L') = map bare (leading L) /\ map bare (from_current L') = map bare (from_current L)
  /\ ts_active L' = ts_active L /\ nClientsMax L' = nClientsMax L.

Lemma same_bare_refl L : same_bare L L.
Proof. done. Qed.

Lemma same_bare_trans L1 L2 L3 : same_bare L1 L2 -> same_bare L2 L3 -> same_bare L1 L3.
Proof. intros (A1 & A2 & A3 & A4) (B1 & B2 & B3 & B4). repeat split; congruence. Qed.

Lemma bare_views l l' : map bare l' = map bare l ->
  map snap_of (List.filter (fun s => negb (isDamaged s)) l') = map snap_of (List.filter (fun s => negb (isDamaged s)) l).
Proof.
  revert l. induction l' as [|s' l' IH]; intros [|s l] E; try done. cbn [map] in E. assert (E1 : bare s' = bare s) by congruence. assert (E2 : map bare l' = map bare l) by congruence. destruct (bare_snap s s' E1) as (B1 & _ & B3).
  cbn. rewrite B3. destruct (isDamaged s); cbn; [by apply IH|]. rewrite B1. f_equal. by apply IH.
Qed.

Lemma same_bare_views L L' : same_bare L L' -> same_views L L'.
Proof. intros (_ & E & Ea & _). split; [done|]. by apply bare_views. Qed.

Lemma same_bare_fewer L L' : same_bare L L' -> fewer L L'.
Proof.
  intros (_ & E & _) s' Hs'. destruct (map_elem bare _ _ s' E Hs') as (s & Hs & Eb). destruct (bare_snap _ _ Eb) as (B1 & B2 & B3).
  exists s. split; [done|]. split; [done|]. split; [done|]. congruence.
Qed.

Section Commit.
Context {D A : Type} `{AllocatorOk D A}.
Abbreviation state := (sn_state (ve_world D A)).
Implicit Types (st : state) (b : bm D A) (G R : list client_fn).

Lemma good_perm sy L clk G G' b : G' ≡ₚ G -> good sy L clk G b -> good sy L clk G' b.
Proof.
  intros HG [K1 K2 K3 K4 K5 K6 K7 K9 K8 K10]. assert (HG' : forall p, p ∈ G' <-> p ∈ G) by (intros p; by rewrite HG). constructor; auto.
  - apply (iso_perm (pages L clk G b) (map snd G')); [|done]. cbn. by rewrite HG.
  - intros s o x y a z Hin. apply (K5 s o x y a z). by apply HG'.
  - intros s o x y a w t old Hin. apply (K6 s o x y a w t old). by apply HG'.
  - intros x Hx Hn. destruct (K8 x Hx Hn) as (o & f & Hin & K). exists o, f. by rewrite HG'.
Qed.

(** ** One function is done *)

Lemma good_less (P : XPTR -> Prop) sy L L' clk s o f G b b' : good sy L clk ((s, (o, f)) :: G) b -> iso (pages L' clk G b') -> bm_ok b' -> alloc_ok b' -> calm_off P b b' ->
  (forall y x t old, holds (pages L' clk G b') y x t old -> holds (pages L clk ((s, (o, f)) :: G) b) y x t old /\ ~ P y) ->
  (forall s' o' f', (s', (o', f')) ∈ G -> is_create (vf_type f') = true -> ~ P (vf_lxptr f') /\ ~ P (vf_xptr f')) ->
  pers_views L' ⊆ pers_views L -> (forall x, ~ is_free b' x -> ~ P x /\ ~ is_free b x) ->
  (forall w, w ∈ viewers L' -> w ∈ viewers L /\ forall x, gone L w x -> gone L' w x) ->
  (is_working f = true -> ~ is_free b' (vf_lxptr f) -> trid_of b (vf_lxptr f) = -1) -> good sy L' clk G b'.
Proof.
  intros Hg Hi Hok Halk Hc Hh HP Hpv Huse Hvw Htr. destruct (rest_off P L L' clk ((s, (o, f)) :: G) G b b' Hc) as (K1 & K2 & K3 & K4); [intros y x t old Hy; left; by apply Hh|by apply list_subseteq_cons| |done|apply Hg|apply Hg|].
  { intros s' o' x y a Hin. by apply (HP s' o' (mk_function x y a VE_FUNCTION_CREATE_VERSION_PERS)). }
  constructor; auto.
  - rewrite (off_stake _ _ _ Hc). apply Hg.
  - intros y x t0 old Hm. apply Hh in Hm as [Hm _]. by apply (g_data _ _ _ _ _ Hg y x t0 old).
  - intros E. apply K3. by apply (g_sync _ _ _ _ _ Hg).
  - intros E. apply K4. by apply (g_saved _ _ _ _ _ Hg).
  - intros x Hx Hn. destruct (Huse x Hx) as [HPx Hfx]. destruct (off_trid _ _ _ Hc x HPx) as [E|E]; [|done]. rewrite E in *.
    destruct (g_access _ _ _ _ _ Hg x Hfx Hn) as (o' & f' & Hin & Hw & Ef). apply elem_of_cons in Hin as [[= E1 -> ->]|Hin]; [|by exists o', f'].
    rewrite <- Ef in Hn, Hx. by rewrite Htr in Hn.
Qed.

(** What the request of [f] does to the committed state. *)
Definition hands_over (f : VeFunction) (P P' : iso_state D) : Prop := old_reads P P'
  /\ forall x c, committed P' x c <-> committed P x c /\ ~ (is_free_block (vf_type f) = true /\ x = vf_lxptr f).

Lemma hands_over_at f (P P' : iso_state D) : same_views (il P) (il P') ->
  (forall w x y, w ∈ viewers (il P) -> reads_at P' w x y <-> reads_at P w x y /\ ~ (w = last_committed (il P) /\ is_free_block (vf_type f) = true /\ x = vf_lxptr f)) ->
  (forall y, ~ ifr P' y -> iv P' y = iv P y) -> (forall s, s ∈ undamaged_live (il P) -> timestamp s < SN_LAST_COMMITED_VERSION_TIMESTAMP) -> hands_over f P P'.
Proof.
  intros Hv Hr Hview Hts.
  assert (Hrd : forall w x c, w ∈ viewers (il P) -> reads P' w x c <-> reads P w x c /\ ~ (w = last_committed (il P) /\ is_free_block (vf_type f) = true /\ x = vf_lxptr f)).
  { intros w x c Hw. assert (Hat := fun y => Hr w x y Hw). split.
    - intros (y & Hy & Ec). assert (Hy' := Hy). apply Hat in Hy' as [Hy' Hn]. split; [|done]. exists y. split; [done|]. rewrite <- Ec. symmetry. apply Hview. by destruct Hy as (_ & ? & ? & _ & _ & ?).
    - intros [(y & Hy & Ec) Hn]. assert (Hy' : reads_at P' w x y) by (by apply Hat). exists y. split; [done|]. rewrite Hview; [done|]. by destruct Hy' as (_ & ? & ? & _ & _ & ?). }
  split.
  - intros v Hv'. assert (Hv0 : v ∈ snapshot_views (il P)) by (destruct Hv as [_ E]; unfold snapshot_views in *; by rewrite <- E). split; [done|].
    intros x c. rewrite (Hrd v x c) by (by apply snapshot_viewer). split; [tauto|]. intros Hx. split; [done|]. intros (E & _).
    unfold snapshot_views in Hv0. apply list_elem_of_fmap in Hv0 as (s & -> & Hs). specialize (Hts s Hs). unfold snap_of, last_committed in E. injection E as E _. cbn in E. lia.
  - intros x c. unfold committed. assert (E : last_committed (il P') = last_committed (il P)) by (destruct Hv as [Ea _]; unfold last_committed, snap_of; cbn; by rewrite Ea).
    rewrite E, Hrd by (by left). tauto.
Qed.

(** The page of a version that was replaced, or of a deleted block. *)
Lemma fn_page (P : iso_state D) o f : iso P -> (o, f) ∈ ip P -> vf_type f <> VE_FUNCTION_ALLOCATE_BLOCK -> is_Some (iv P (vf_xptr f)).
Proof.
  intros Hi Hin Hty. assert (Hf := i_fn _ Hi _ Hin). unfold fn_ok in Hf. destruct (vf_type f); [done|..].
  1-2: destruct Hf as (_ & t1 & es & old & _ & (_ & c & Hc & _) & _); by exists c.
  destruct Hf as (-> & t0 & old & (_ & c & Hc & _) & _). by exists c.
Qed.

(** ** One request *)

Section Request.
Context (sy : bool) (L : SnSnapshotsList) (clk : TIMESTAMP) (fut lv : list SnSnapshot) (s : Z) (o : TIMESTAMP) (f : VeFunction) (G : list client_fn) (w : ve_world D A).
Context (Hg : good sy L clk ((s, (o, f)) :: G) (ve_bm w)) (Hsp : split_ok clk L fut lv) (Ho : o ∉ ts_active L)
  (Htr : is_working f = true -> trid_of (ve_bm w) (vf_lxptr f) = -1)
  (Hlast : is_free_block (vf_type f) = true -> forall s' o' f', (s', (o', f')) ∈ G -> is_working f' = true -> vf_lxptr f' <> vf_lxptr f).

Abbreviation before := (pages L clk ((s, (o, f)) :: G) (ve_bm w)).

Lemma request_last : is_free_block (vf_type f) = true -> forall o' f', (o', f') ∈ map snd G -> is_working f' = true -> vf_lxptr f' <> vf_lxptr f.
Proof. intros Hf o' f' Hin. apply list_elem_of_fmap in Hin as ([s' p] & E & Hin). cbn in E. subst p. by apply (Hlast Hf s' o'). Qed.

Lemma request_bounds z : z ∈ undamaged_live L -> z ∈ lv /\ timestamp z < SN_LAST_COMMITED_VERSION_TIMESTAMP.
Proof.
  intros Hz. destruct (undamaged_viewer _ _ Hz) as (Hin & _). destruct (split_current _ _ _ _ Hsp) as [_ E]. rewrite E in Hin. split; [done|].
  destruct (live_bounds clk L fut lv Hsp z Hin). ts_lia.
Qed.

(** The version goes to the snapshots. *)
Lemma request_kept L' ds : snapshots_ok clk L' -> same_bare L L' -> vf_type f <> VE_FUNCTION_ALLOCATE_BLOCK ->
  owned L' ≡ₚ (entry_of_fn f, ds) :: owned L -> (forall z, z ∈ undamaged_live L -> vf_anchorTs f <= timestamp z -> timestamp z ∈ ds) ->
  good sy L' clk G (ve_bm w) /\ hands_over f before (pages L' clk G (ve_bm w)).
Proof.
  intros Hok Hb Hty Hown Hds. assert (Hi := g_iso _ _ _ _ _ Hg). assert (Hv := same_bare_views _ _ Hb).
  assert (Hsame : same_holds before (pages L' clk G (ve_bm w))) by done.
  assert (Hi' : iso (pages L' clk G (ve_bm w))) by (by apply (iso_hand_over before o f (map snd G) Hi eq_refl Ho Hty _ ds)). split.
  - apply (good_less (fun _ => False) sy L L' clk s o f G (ve_bm w) (ve_bm w) Hg Hi'); [apply Hg|apply Hg|apply off_refl|tauto|tauto| |tauto| |auto].
    + apply fewer_pers. by apply same_bare_fewer.
    + intros v. rewrite (same_views_viewers _ _ Hv). intros Hvw. split; [done|]. intros x (ds' & Hin & Hn). exists ds'. split; [|done]. rewrite Hown. by right.
  - apply hands_over_at; [done| |done|intros z Hz; by apply request_bounds]. intros v x y Hvw. by apply (reads_hand_over before o f (map snd G) Hi eq_refl Ho Hty _ ds).
Qed.

(** The block is freed. *)
Lemma request_dropped L' b' : snapshots_ok clk L' -> same_bare L L' -> vf_type f <> VE_FUNCTION_ALLOCATE_BLOCK -> owned L' = owned L ->
  bm_ok b' -> alloc_ok b' -> (forall y, is_free b' y <-> is_free (ve_bm w) y \/ y = vf_xptr f) -> calm_off (fun y => is_free (ve_bm w) y \/ y = vf_xptr f) (ve_bm w) b' ->
  (forall z, z ∈ undamaged_live L -> ~ vf_anchorTs f <= timestamp z) ->
  good sy L' clk G b' /\ hands_over f before (pages L' clk G b').
Proof.
  intros Hok Hb Hty Hown Hbok Halk Hfr Hc Hno. assert (Hi := g_iso _ _ _ _ _ Hg). assert (Hv := same_bare_views _ _ Hb).
  assert (Hview : forall y, ~ is_free b' y -> view b' y = view (ve_bm w) y) by (intros y Hy; apply (off_view _ _ _ Hc); by rewrite <- Hfr).
  assert (Hown' : owned L' ≡ₚ owned L) by (by rewrite Hown).
  assert (Hi' : iso (pages L' clk G b')) by (by apply (iso_drop before o f (map snd G) Hi eq_refl Ho Hty); [..|apply request_last]).
  split.
  - apply (good_less (fun y => is_free (ve_bm w) y \/ y = vf_xptr f) sy L L' clk s o f G (ve_bm w) b' Hg Hi' Hbok Halk Hc).
    + intros y x t old. rewrite (dropped_holds before f (pages L' clk G b') Hfr Hview). intros [Hh Hne]. split; [done|]. intros [Hf|]; [by apply (proj1 Hh)|done].
    + intros s' o' f' Hin Hcr. destruct (dropped_other before o f (map snd G) Hi eq_refl Ho Hty request_last o' f') as [N1 N2]; [apply list_elem_of_fmap; by exists (s', (o', f'))|].
      assert (Hin' : (s', (o', f')) ∈ (s, (o, f)) :: G) by (by right). destruct (fn_in_use _ _ _ _ _ _ _ _ Hg Hin') as [F1 F2].
      assert (Hne : vf_type f' <> VE_FUNCTION_ALLOCATE_BLOCK) by (intros E; by rewrite E in Hcr). specialize (N2 Hne). specialize (F2 Hne). tauto.
    + apply fewer_pers. by apply same_bare_fewer.
    + intros x. rewrite Hfr. tauto.
    + intros v. rewrite (same_views_viewers _ _ Hv). intros Hvw. split; [done|]. intros x. unfold gone. by rewrite Hown.
    + auto.
  - apply hands_over_at; [done| |done|intros z Hz; by apply request_bounds]. intros v x y Hvw.
    by apply (reads_drop before o f (map snd G) Hi eq_refl Ho Hty (pages L' clk G b') eq_refl Hown' Hfr Hview Hno request_last).
Qed.

(** The working version needs no entry. *)
Lemma request_forgotten : vf_type f = VE_FUNCTION_ALLOCATE_BLOCK -> good sy L clk G (ve_bm w) /\ hands_over f before (pages L clk G (ve_bm w)).
Proof.
  intros Hty. split.
  - apply (good_less (fun _ => False) sy L L clk s o f G (ve_bm w) (ve_bm w) Hg); [|apply Hg|apply Hg|apply off_refl|tauto|tauto|done|tauto|auto|auto].
    by apply (forget_fn before o f (map snd G) (g_iso _ _ _ _ _ Hg) eq_refl Ho).
  - split; [intros v Hv; split; [exact Hv|done]|]. intros x c. rewrite Hty. change (is_free_block VE_FUNCTION_ALLOCATE_BLOCK) with false. split; [intros Hx; split; [exact Hx|by intros [? _]]|intros [Hx _]; exact Hx].
Qed.

(** The run of [SubmitRequestForGc]. *)
Lemma request_run cur L' w' : (forall z, z ∈ lv -> timestamp z <= cur) ->
  SubmitRequestForGc (VeFreeBlockLow true) (find_entry L false cur) (request_of f) (L, w) = Done tt (L', w') ->
  exists b', w' = set_bm b' w /\ good sy L' clk G b' /\ hands_over f before (pages L' clk G b') /\ same_bare L L'
    /\ (exists lv', split_ok clk L' fut lv' /\ map bare lv' = map bare lv)
    /\ (forall y, is_free (ve_bm w) y -> is_free b' y) /\ forall y, ~ is_free b' y -> trid_of b' y = trid_of (ve_bm w) y \/ trid_of b' y = -1.
Proof.
  intros Hcur Hrun. assert (Hval : ValidateRequestForGc (request_of f) = true) by (unfold SubmitRequestForGc in Hrun; by destruct (ValidateRequestForGc (request_of f))).
  destruct (decide (vf_type f = VE_FUNCTION_ALLOCATE_BLOCK)) as [Ety|Hty].
  { destruct (request_forgotten Ety) as [K1 K2]. unfold SubmitRequestForGc in Hrun. rewrite Hval in Hrun. unfold request_of in Hrun. rewrite Ety in Hrun. cbn in Hrun. injection Hrun as <- <-.
    exists (ve_bm w). split; [by destruct w|]. split; [done|]. split; [done|]. split; [done|]. split; [by exists lv|]. auto. }
  destruct (submit_done _ clk L fut lv cur (request_of f) w L' w' Hsp Hval Hrun) as (lv' & Hsp' & Hb & Ea & En & Hsub).
  assert (Hsb : same_bare L L').
  { destruct (split_current _ _ _ _ Hsp) as [_ E]. destruct (split_current _ _ _ _ Hsp') as [_ E']. destruct Hsp as (El & _). destruct Hsp' as (El' & _).
    split; [rewrite El, El', !map_app; congruence|]. split; [congruence|]. split; done. }
  assert (Hok' : snapshots_ok clk L') by (by exists fut, lv'). assert (Hdep : forall z, z ∈ undamaged_live L -> vf_anchorTs f <= timestamp z -> timestamp z ∈ dependents (anchorTs (request_of f)) cur lv).
  { intros z Hz Hle. apply request_bounds in Hz as [Hz _]. unfold dependents. apply list_elem_of_In. rewrite <- in_rev. apply filter_In. split; [apply in_map; by apply list_elem_of_In|].
    cbn. apply andb_true_iff. rewrite !Z.leb_le. auto. }
  assert (Hsub' : match dependents (anchorTs (request_of f)) cur lv with
                  | [] => owned L' = owned L /\ frees (VeFreeBlockLow true) w [vf_xptr f] w'
                  | ds => owned L' ≡ₚ (entry_of_fn f, ds) :: owned L /\ w' = w
                  end).
  { unfold submitted in Hsub. unfold entry_of_fn. destruct (vf_type f) eqn:Ef; [done|..]; unfold request_of in Hsub |- *; rewrite Ef in Hsub |- *; exact Hsub. }
  destruct (dependents (anchorTs (request_of f)) cur lv) as [|d ds].
  - destruct Hsub' as [Hown Hfr]. destruct (i_inuse _ (g_iso _ _ _ _ _ Hg) (vf_xptr f)) as [Huse Hx0]; [apply elem_of_app; right; by apply (pending_in _ o f); [left|]|]. cbn in Huse.
    destruct (frees_ok [vf_xptr f] w w' (g_bm _ _ _ _ _ Hg) (g_alloc _ _ _ _ _ Hg) (g_stake _ _ _ _ _ Hg)) as (b' & -> & Hbok & Halk & Hfree & Hc); [by apply NoDup_singleton| |done|].
    { intros x ->%list_elem_of_singleton. split; [done|]. split; [done|]. split; [by apply (fn_data _ _ _ _ _ _ _ _ Hg ltac:(left))|]. destruct (fn_page _ o f (g_iso _ _ _ _ _ Hg)) as [c Hc]; [by left|done|]. by apply (view_disk _ _ c (g_bm _ _ _ _ _ Hg)). }
    assert (Hfree' : forall y, is_free b' y <-> is_free (ve_bm w) y \/ y = vf_xptr f) by (intros y; by rewrite Hfree, list_elem_of_singleton).
    assert (Hc' : calm_off (fun y => is_free (ve_bm w) y \/ y = vf_xptr f) (ve_bm w) b') by (eapply off_mono; [|exact Hc]; cbn; intros y; by rewrite list_elem_of_singleton).
    destruct (request_dropped L' b' Hok' Hsb Hty Hown Hbok Halk Hfree' Hc') as [K1 K2]; [intros z Hz Hle; by apply Hdep, elem_of_nil in Hle|].
    exists b'. split; [done|]. split; [done|]. split; [done|]. split; [done|]. split; [by exists lv'|]. split; [intros y; rewrite Hfree'; tauto|].
    intros y Hy. apply (off_trid _ _ _ Hc'). by rewrite <- Hfree'.
  - destruct Hsub' as [Hown ->]. destruct (request_kept L' (d :: ds) Hok' Hsb Hty Hown Hdep) as [K1 K2].
    exists (ve_bm w). split; [by destruct w|]. split; [done|]. split; [done|]. split; [done|]. split; [by exists lv'|]. auto.
Qed.
End Request.

(** ** All requests *)

Definition tag (s : Z) (o : TIMESTAMP) (fs : list VeFunction) : list client_fn := map (fun f => (s, (o, f))) fs.

Lemma tag_in s o fs s' o' f : (s', (o', f)) ∈ tag s o fs <-> s' = s /\ o' = o /\ f ∈ fs.
Proof.
  unfold tag. rewrite list_elem_of_fmap. split; [intros (f' & [= -> -> ->] & Hf); done|]. intros (-> & -> & Hf). by exists f.
Qed.

(** A block that is deleted is not used any more. *)
Fixpoint free_last (fs : list VeFunction) : Prop :=
  match fs with
  | [] => True
  | f :: fs => (is_free_block (vf_type f) = true -> Forall (fun f' => vf_lxptr f' <> vf_lxptr f) fs) /\ free_last fs
  end.

Definition keeps_block (x : XPTR) (f : VeFunction) : Prop := is_free_block (vf_type f) = true -> vf_lxptr f <> x.

Definition commits (fs : list VeFunction) (P P' : iso_state D) : Prop := old_reads P P'
  /\ forall x c, committed P' x c <-> committed P x c /\ Forall (keeps_block x) fs.

Lemma commits_nil P P' : old_reads P P' -> same_committed P P' -> commits [] P P'.
Proof. intros Ho Hs. split; [done|]. intros x c. rewrite (Hs x c). split; [intros Hx; by split|tauto]. Qed.

Lemma commits_cons f fs P P1 P2 : hands_over f P P1 -> commits fs P1 P2 -> commits (f :: fs) P P2.
Proof.
  intros [O1 C1] [O2 C2]. split; [by apply (old_trans _ P1)|]. intros x c. rewrite C2, C1, Forall_cons. unfold keeps_block at 2. split; [|].
  - intros [[Hx Hn] Hf]. split; [done|]. split; [intros Ef E; apply Hn; by split|done].
  - intros (Hx & Hn & Hf). split; [split; [done|]|done]. intros [Ef ->]. by apply Hn.
Qed.

Lemma commits_app fs gs P P1 P2 : commits fs P P1 -> commits gs P1 P2 -> commits (fs ++ gs) P P2.
Proof. intros [O1 C1] [O2 C2]. split; [by apply (old_trans _ P1)|]. intros x c. rewrite C2, C1, Forall_app. tauto. Qed.

(** Nobody else works on a block that is deleted. *)
Lemma others_work sy L clk G b s o f s' o' f' : good sy L clk G b -> (s, (o, f)) ∈ G -> is_free_block (vf_type f) = true -> o ∉ ts_active L ->
  (s', (o', f')) ∈ G -> is_working f' = true -> o' ∈ ts_active L -> vf_lxptr f' <> vf_lxptr f.
Proof.
  intros Hg Hin Hf Ho Hin' Hw Ho' E. assert (Hi := g_iso _ _ _ _ _ Hg).
  assert (K := i_fn _ Hi (o, f) ltac:(apply list_elem_of_fmap; by exists (s, (o, f)))). unfold fn_ok in K. destruct (vf_type f); try done.
  destruct K as (_ & t0 & old & Hm & Ht & _). destruct (fn_master _ o' f' Hi) as (t1 & old1 & Hm1 & E1); [apply list_elem_of_fmap; by exists (s', (o', f'))|].
  rewrite (E1 Hw), E in Hm1. destruct (holds_inj _ _ _ _ _ _ _ _ Hm Hm1) as (_ & E2 & _). rewrite <- E2 in Ht. apply Ho. by rewrite <- Ht.
Qed.

Section Batch.
Context (sy : bool) (clk : TIMESTAMP) (fut : list SnSnapshot) (sid : Z) (o cur : TIMESTAMP) (R : list client_fn).

Lemma batch_run fs : forall gs L w lv L' w', good sy L clk (tag sid o (fs ++ gs) ++ R) (ve_bm w) -> split_ok clk L fut lv ->
  (o ∉ ts_active L) -> all_active L R -> free_last (fs ++ gs) -> (forall f, f ∈ fs -> is_working f = true -> trid_of (ve_bm w) (vf_lxptr f) = -1) ->
  (forall z, z ∈ lv -> timestamp z <= cur) -> submit_all (VeFreeBlockLow true) (find_entry L false cur) (map request_of fs) (L, w) = Done tt (L', w') ->
  exists b', w' = set_bm b' w /\ good sy L' clk (tag sid o gs ++ R) b'
    /\ commits fs (pages L clk (tag sid o (fs ++ gs) ++ R) (ve_bm w)) (pages L' clk (tag sid o gs ++ R) b') /\ same_bare L L'
    /\ (exists lv', split_ok clk L' fut lv' /\ map bare lv' = map bare lv)
    /\ (forall y, is_free (ve_bm w) y -> is_free b' y) /\ forall y, ~ is_free b' y -> trid_of b' y = trid_of (ve_bm w) y \/ trid_of b' y = -1.
Proof.
  induction fs as [|f fs IH]; intros gs L w lv L' w' Hg Hsp Ho HR Hfl Htr Hcur Hrun.
  - cbn in Hrun. injection Hrun as <- <-. exists (ve_bm w). split; [by destruct w|]. split; [done|]. split; [by apply commits_nil; [apply old_refl|]|]. split; [done|]. split; [by exists lv|]. auto.
  - cbn [map submit_all] in Hrun. apply wu_bind_Done in Hrun as ([] & [L1 w1] & H1 & Hrun). cbn [app free_last] in Hfl. destruct Hfl as [Hff Hfl].
    change (tag sid o ((f :: fs) ++ gs) ++ R) with ((sid, (o, f)) :: (tag sid o (fs ++ gs) ++ R)) in *.
    assert (Hlast : is_free_block (vf_type f) = true -> forall s' o' f', (s', (o', f')) ∈ tag sid o (fs ++ gs) ++ R -> is_working f' = true -> vf_lxptr f' <> vf_lxptr f).
    { intros Ef s' o' f' Hin Hw. assert (Hin' := Hin). apply elem_of_app in Hin' as [Hin'|Hin'].
      - apply tag_in in Hin' as (_ & _ & Hin'). specialize (Hff Ef). rewrite Forall_forall in Hff. by apply Hff.
      - apply (others_work sy L clk _ _ sid o f s' o' f' Hg); [left|done|done|by right|done|]. by apply (HR s' o' f'). }
    destruct (request_run sy L clk fut lv sid o f _ w Hg Hsp Ho (Htr f ltac:(left)) Hlast cur L1 w1 Hcur H1) as (b1 & -> & Hg1 & Hh & Hb & (lv1 & Hsp1 & Hb1) & Hfr & Htr1).
    rewrite <- (find_entry_bare L L1 fut lv lv1 cur clk Hsp Hsp1 Hb1) in Hrun. destruct Hb as (Hb & Hb' & Ea & En).
    destruct (IH gs L1 (set_bm b1 w) lv1 L' w') as (b' & -> & Hg' & Hc' & Hsb & (lv' & Hsp' & Hb2) & Hfr' & Htr'); [done|done|by rewrite Ea| |done| | |done|].
    + intros s' o' f' Hin. rewrite Ea. by apply (HR s' o' f').
    + intros f' Hf' Hw. destruct (fn_in_use _ _ _ _ _ sid o f' Hg1) as [Hu _]; [apply elem_of_app; left; apply tag_in; rewrite elem_of_app; auto|].
      cbn. destruct (Htr1 _ Hu) as [->|]; [|done]. apply Htr; [by right|done].
    + intros z Hz. destruct (map_elem bare _ _ z Hb1 Hz) as (z0 & Hz0 & E). destruct (bare_eq _ _ E) as (-> & _). auto.
    + exists b'. split; [done|]. split; [done|]. split; [by apply (commits_cons f fs _ (pages L1 clk (tag sid o (fs ++ gs) ++ R) b1))|].
      split; [by apply (same_bare_trans L L1)|]. split; [exists lv'; split; [done|congruence]|]. cbn in Hfr', Htr'. split; [auto|].
      intros y Hy. destruct (Htr' y Hy) as [->|]; [|by right]. auto.
Qed.
End Batch.

Lemma request_state cur fs st st' : ImpSubmitRequestForGc false true cur (map request_of fs) st = Done tt st' ->
  exists L' w', submit_all (VeFreeBlockLow true) (find_entry (snapshots st) false cur) (map request_of fs) (snapshots st, world st) = Done tt (L', w')
    /\ st' = mk_sn L' (clock st) (block st) w'.
Proof.
  unfold ImpSubmitRequestForGc, SnSubmitRequest, on_snapshots, wu_lift, SnSubmitRequestForGc. destruct (_ && _); [done|].
  destruct (submit_all _ _ _ _) as [[] [L' w']|e [L' w']]; [|done]. intros [= <-]. by exists L', w'.
Qed.

Lemma revoke_run x st st' : bm_ok (ve_bm (world st)) -> revoke_block x st = Done tt st' ->
  exists b', st' = with_bm b' st /\ bm_ok b' /\ calm (ve_bm (world st)) b' /\ trid_of b' x = -1.
Proof.
  intros Hok Hr. unfold revoke_block in Hr. destruct (ImpFindBlockInBuffers x st) as [id s1|e s1] eqn:Hf.
  - bm_step Hf b1. cbn in Hf. unfold FindBlockInBuffers in Hf. destruct (buffer_table (ve_bm (world st)) !! x) as [id'|] eqn:Ht; [|done]. injection Hf as -> <-.
    bm_step Hr b2. cbn in Hr. destruct (revoke_ok _ _ _ _ _ Hok Ht Hr) as (K1 & K2 & K3). by exists b2.
  - destruct (decide (e = WUERR_BLOCK_NOT_IN_BUFFERS)); [|done]. injection Hr as <-. unfold ImpFindBlockInBuffers, on_bm, FindBlockInBuffers in Hf.
    destruct (buffer_table (ve_bm (world st)) !! x) as [id'|] eqn:Ht; [done|]. injection Hf as _ <-. exists (ve_bm (world st)). split; [done|]. split; [done|]. split; [apply calm_refl|]. unfold trid_of. by rewrite Ht.
Qed.

(** ** The loop *)

Section Loop.
Context (sy : bool) (clk : TIMESTAMP) (sid : Z) (o cur : TIMESTAMP) (R : list client_fn).

Definition commit_ready (buf l : list VeFunction) st : Prop :=
  good sy (snapshots st) clk (tag sid o (buf ++ l) ++ R) (ve_bm (world st)) /\ clock st = clk /\ (o ∉ ts_active (snapshots st)) /\ all_active (snapshots st) R
  /\ free_last (buf ++ l) /\ (forall f, f ∈ buf -> is_working f = true -> trid_of (ve_bm (world st)) (vf_lxptr f) = -1)
  /\ forall z, z ∈ from_current (snapshots st) -> timestamp z <= cur.

Definition commit_pages fs st : iso_state D := pages_at (tag sid o fs ++ R) st.

(** One call of [SnSubmitRequestForGc]. *)
Lemma commit_batch buf l st st' : commit_ready buf l st -> ImpSubmitRequestForGc false true cur (map request_of buf) st = Done tt st' ->
  commit_ready [] l st' /\ commits buf (commit_pages (buf ++ l) st) (commit_pages l st') /\ same_bare (snapshots st) (snapshots st')
  /\ block st' = block st /\ exists b', world st' = set_bm b' (world st).
Proof.
  intros (Hg & Hclk & Ho & HR & Hfl & Htr & Hcur) Hrun. apply request_state in Hrun as (L' & w' & Hrun & ->). destruct (good_clock _ _ _ _ _ Hg) as [(fut & lv & Hsp) _].
  destruct (split_current _ _ _ _ Hsp) as [_ Ec]. rewrite Ec in Hcur.
  destruct (batch_run sy clk fut sid o cur R buf l (snapshots st) (world st) lv L' w' Hg Hsp Ho HR Hfl Htr Hcur Hrun) as (b' & -> & Hg' & Hc' & Hsb & (lv' & Hsp' & Hb) & _).
  split; [|split; [unfold commit_pages, pages_at; cbn; by rewrite Hclk|split; [done|split; [done|by exists b']]]]. assert (Hsb' := Hsb). destruct Hsb as (_ & E & Ea & _). split; [done|]. split; [done|].
  cbn. rewrite Ea. split; [done|]. split; [intros s' o' f' Hin; rewrite Ea; by apply (HR s' o' f')|]. split; [|split; [by intros f ?%elem_of_nil|]].
  - clear -Hfl. induction buf as [|f buf IH]; [done|]. apply IH. apply Hfl.
  - intros z Hz. destruct (map_elem bare _ _ z E Hz) as (z0 & Hz0 & Eb). destruct (bare_eq _ _ Eb) as (-> & _). apply Hcur. by rewrite <- Ec.
Qed.

Lemma commit_revoke buf f l st st' : commit_ready buf (f :: l) st ->
  (if is_free_block (vf_type f) then wu_ret tt else revoke_block (vf_lxptr f)) st = Done tt st' ->
  commit_ready (buf ++ [f]) l st' /\ commits [] (commit_pages (buf ++ f :: l) st) (commit_pages ((buf ++ [f]) ++ l) st') /\ snapshots st' = snapshots st
  /\ block st' = block st /\ exists b', world st' = set_bm b' (world st).
Proof.
  intros (Hg & Hclk & Ho & HR & Hfl & Htr & Hcur) Hrun. assert (Hok := g_bm _ _ _ _ _ Hg).
  assert (K : exists b', st' = with_bm b' st /\ bm_ok b' /\ calm (ve_bm (world st)) b' /\ (is_working f = true -> trid_of b' (vf_lxptr f) = -1)).
  { unfold is_working. destruct (is_free_block (vf_type f)); [|destruct (revoke_run _ _ _ Hok Hrun) as (b' & K1 & K2 & K3 & K4); by exists b']. injection Hrun as <-.
    exists (ve_bm (world st)). split; [by destruct st as [? ? ? []]|]. split; [done|]. split; [apply calm_refl|done]. }
  destruct K as (b' & -> & Hok' & Hc & Ht). unfold commit_ready, commit_pages. rewrite <- !app_assoc. cbn [app]. split; [|split; [|split; [done|split; [done|by exists b']]]].
  - split; [by apply (good_calm sy (snapshots st) clk _ (ve_bm (world st)) b')|]. do 4 (split; [done|]). split; [|done].
    intros f' Hf' Hw. apply elem_of_app in Hf' as [Hf'| ->%list_elem_of_singleton]; [|by apply Ht]. cbn. destruct Hc as [Hc _]. destruct (off_trid _ _ _ Hc (vf_lxptr f')) as [->|]; [tauto| |done]. by apply Htr.
  - apply commits_nil.
    + intros v Hv. split; [done|]. intros x c. by apply calm_reads.
    + intros x c. by apply calm_reads.
Qed.

Lemma commit_loop_run l : forall buf st st', commit_ready buf l st -> commit_loop false true cur l (map request_of buf) st = Done tt st' ->
  commit_ready [] [] st' /\ commits (buf ++ l) (commit_pages (buf ++ l) st) (commit_pages [] st') /\ same_bare (snapshots st) (snapshots st')
  /\ block st' = block st /\ exists b', world st' = set_bm b' (world st).
Proof.
  induction l as [|f l IH]; intros buf st st' Hr Hrun.
  - cbn [commit_loop] in Hrun. rewrite app_nil_r. destruct (commit_batch buf [] st st' Hr Hrun) as (K1 & K2 & K). rewrite app_nil_r in K2. done.
  - cbn [commit_loop] in Hrun. run_step Hrun buf1 s1 H1.
    assert (K : exists buf0, buf1 = map request_of buf0 /\ commit_ready buf0 (f :: l) s1 /\ same_bare (snapshots st) (snapshots s1) /\ block s1 = block st
      /\ (exists b1, world s1 = set_bm b1 (world st)) /\ exists buf2, buf = buf2 ++ buf0 /\ commits buf2 (commit_pages (buf ++ f :: l) st) (commit_pages (buf0 ++ f :: l) s1)).
    { destruct (Nat.eqb _ _); [|injection H1 as <- <-; exists buf; do 4 (split; [done|]); split; [by exists (ve_bm (world st)); destruct (world st)|exists []; split; [done|apply commits_nil; [apply old_refl|done]]]].
      run_step H1 [] s2 H2. injection H1 as <- <-. destruct (commit_batch buf (f :: l) st s2 Hr H2) as (K1 & K2 & K3 & K4 & K5).
      exists []. do 5 (split; [done|]). exists buf. by rewrite app_nil_r. }
    destruct K as (buf0 & -> & Hr1 & Hb1 & Eb1 & (b1 & Ew1) & buf2 & -> & Hc1). run_step Hrun [] s2 H2.
    destruct (commit_revoke buf0 f l s1 s2 Hr1 H2) as (Hr2 & Hc2 & Es2 & Eb2 & b2 & Ew2).
    assert (Hrun' : commit_loop false true cur l (map request_of (buf0 ++ [f])) s2 = Done tt st') by (by rewrite map_app).
    destruct (IH (buf0 ++ [f]) s2 st' Hr2 Hrun') as (K1 & K2 & K3 & K4 & b3 & K5). split; [done|].
    split; [|split; [rewrite Es2 in K3; by apply (same_bare_trans _ (snapshots s1))|split; [congruence|exists b3; by rewrite K5, Ew2, Ew1]]].
    rewrite <- (app_assoc buf0 [f] l) in K2, Hc2. rewrite <- app_assoc in *. apply (commits_app buf2 (buf0 ++ f :: l) _ _ _ Hc1). by apply (commits_app [] _ _ _ _ Hc2).
Qed.
End Loop.

(** ** The transaction is not active any more *)

Lemma end_later L L' o t : IsValidTimestamp o = true -> ts_active L' = List.filter (fun t => negb (t =? o)) (ts_active L) ->
  later (last_committed L') t <-> later (last_committed L) t /\ t <> o.
Proof.
  intros Hv Ea. apply IsValidTimestamp_spec in Hv. unfold last_committed, later, snap_of. cbn [fst snd].
  assert (E : forall z, z ∈ active (InitFakeHeadSnapshot L') <-> z ∈ active (InitFakeHeadSnapshot L) /\ z <> o).
  { intros z. cbn. rewrite Ea. rewrite !list_elem_of_In, filter_In, negb_true_iff, Z.eqb_neq. done. }
  rewrite E. cbn. split; [intros [Hlt|Ht]; [split; [by left|ts_lia]|tauto]|tauto].
Qed.

(** Its versions are the last committed ones. *)
Lemma end_committed sy G st o x c : good_at sy G st -> o ∈ ts_active (snapshots st) ->
  committed (pages (RemoveActiveTimestamp (snapshots st) o) (clock st) G (ve_bm (world st))) x c <->
  (exists s f, (s, (o, f)) ∈ G /\ is_working f = true /\ vf_lxptr f = x /\ view (ve_bm (world st)) x = Some c)
  \/ ((forall s f, (s, (o, f)) ∈ G -> is_working f = true -> vf_lxptr f <> x) /\ committed (pages_at G st) x c).
Proof.
  intros Hg Ho. assert (Hi := g_iso _ _ _ _ _ Hg). destruct (active_valid _ o Hi Ho) as [Hv _]. set (L' := RemoveActiveTimestamp (snapshots st) o). set (P := pages_at G st).
  set (P' := pages L' (clock st) G (ve_bm (world st))). destruct (end_updater_good sy G st o Hg) as (_ & _ & Ea & Eown). fold L' in Ea, Eown. assert (Hlt := fun t => end_later (snapshots st) L' o t Hv Ea).
  assert (Hgone : gone L' (last_committed L') x <-> gone (snapshots st) (last_committed (snapshots st)) x) by (unfold gone; by rewrite Eown).
  assert (Hfn : forall s f t0 old, (s, (o, f)) ∈ G -> is_working f = true -> vf_lxptr f = x -> master P x t0 old -> t0 = o).
  { intros s f t0 old Hin Hw <- Hm. destruct (fn_master _ o f Hi) as (t1 & old1 & Hm1 & E1); [apply list_elem_of_fmap; by exists (s, (o, f))|].
    destruct (holds_inj _ _ _ _ _ _ _ _ Hm1 Hm) as (_ & -> & _). by apply E1. }
  assert (Hpick : forall t0 old, master P x t0 old -> t0 <> o -> pick (last_committed L') ((x, t0) :: old) = pick (last_committed (snapshots st)) ((x, t0) :: old)).
  { intros t0 old Hm Hne. destruct (i_hist _ Hi _ _ _ Hm) as [_ Hold]. apply pick_agree. constructor; [cbn; rewrite Hlt; tauto|].
    eapply Forall_impl; [exact Hold|]. intros e [_ He]. cbn in He. rewrite Hlt. split; [tauto|]. intros Hl. split; [done|]. intros E. by rewrite E in He. }
  split.
  - intros (y & (Hng & t0 & old & Hm & Hp & Hf) & Ec). destruct (decide (t0 = o)) as [->|Hne].
    + left. destruct (i_work _ Hi _ _ _ Hm Ho) as (f & Hin & Ef & Hw). apply list_elem_of_fmap in Hin as ([s p] & E & Hin). cbn in E. subst p. exists s, f. do 3 (split; [done|]).
      cbn in Hp. destruct (decide (later (last_committed L') o)) as [Hl|]; [by apply Hlt in Hl as [_ Hl]|]. by injection Hp as <-.
    + right. split; [intros s f Hin Hw Ef; by apply Hne, (Hfn s f t0 old)|]. exists y. split; [|done]. split; [intros Hgn; by apply Hng, Hgone|]. exists t0, old. split; [exact Hm|]. split; [|done]. exact (eq_trans (eq_sym (Hpick t0 old Hm Hne)) Hp).
  - intros [(s & f & Hin & Hw & Ef & Ec)|[Hno (y & (Hng & t0 & old & Hm & Hp & Hf) & Ec)]].
    + assert (Hin' : (o, f) ∈ map snd G) by (apply list_elem_of_fmap; by exists (s, (o, f))). destruct (fn_master _ o f Hi Hin') as (t1 & old1 & Hm1 & E1). rewrite (E1 Hw), Ef in Hm1.
      exists x. split; [|done]. split.
      * intros Hgn. apply Hgone in Hgn as (l & Hl & _). by apply (working_not_owned _ _ _ o f Hi Hl Hin' Ho).
      * exists o, old1. split; [exact Hm1|]. split; [|apply Hm1]. cbn. destruct (decide (later (last_committed L') o)) as [Hl|]; [by apply Hlt in Hl as [_ Hl]|done].
    + assert (Hne : t0 <> o). { intros ->. destruct (i_work _ Hi _ _ _ Hm Ho) as (f & Hin & Ef & Hw). apply list_elem_of_fmap in Hin as ([s p] & E & Hin). cbn in E. subst p. by apply (Hno s f Hin Hw). }
      exists y. split; [|done]. split; [intros Hgn; by apply Hng, Hgone|]. exists t0, old. split; [exact Hm|]. split; [|done]. exact (eq_trans (Hpick t0 old Hm Hne) Hp).
Qed.

(** ** The call *)

(** The end of an updater. *)
Lemma end_run st o r st' : block st = Some (mk_client o SN_UPDATER_TRANSACTION) -> SnOnTransactionEnd (VeFreeBlockLow true) st = Done r st' ->
  let L' := RemoveActiveTimestamp (snapshots st) o in
  r = current_timestamp L' /\ st' = mk_sn L' (clock st) (Some (mk_client INVALID_TIMESTAMP SN_COMPLETED_TRANSACTION)) (world st).
Proof.
  intros Hb Hr. unfold SnOnTransactionEnd in Hr. run_step Hr bl s1 H1. unfold ImpGetCurrentStateBlock in H1. rewrite Hb in H1. injection H1 as <- <-.
  run_step Hr [] s1 H1. cbn in H1. injection H1 as <-. run_step Hr [] s1 H1. cbn in H1. injection H1 as <-. run_step Hr s2 s1 H1. injection H1 as <- <-. cbn in Hr. by injection Hr as <- <-.
Qed.

(** The rest of a call that ends a transaction, for the two ways it ends. *)
Lemma ve_end_run approve how ts st st' : VeOnTransactionEnd approve false true how ts st = Done tt st' ->
  exists c s2, ve_block (world st) = Some c /\ isCompleted c = false /\ (how = VE_COMMIT_TRANSACTION \/ how = VE_ROLLBACK_TRANSACTION)
    /\ (if how =? VE_COMMIT_TRANSACTION then OnTransactionCommit false true c ts else OnTransactionRollback approve false c)
         (set_world (set_ve_block (mk_ve_client (isCompleted c) (isRolledBack c) (functionList c) None) (world st)) st) = Done tt s2
    /\ (ve_block (world s2) = Some (mk_ve_client (isCompleted c) (isRolledBack c) (functionList c) None) ->
        st' = set_world (set_ve_block (mk_ve_client true (if how =? VE_ROLLBACK_TRANSACTION then true else isRolledBack c) (functionList c) None) (world s2)) s2).
Proof.
  intros Hr. unfold VeOnTransactionEnd in Hr. destruct (if how =? VE_COMMIT_TRANSACTION then negb (IsValidTimestamp ts) else negb (how =? VE_ROLLBACK_TRANSACTION)) eqn:Eh; [done|].
  run_step Hr c s1 H1. apply ve_block_done in H1 as [-> Hc]. destruct (isCompleted c) eqn:Ec; [done|]. cbn [andb] in Hr. run_step Hr [] s1 H1.
  unfold VeClearTransactionRestrictions in H1. destruct (_ && _); [done|]. run_step H1 c1 s2 H2. apply ve_block_done in H2 as [-> Hc1]. rewrite Hc in Hc1. injection Hc1 as <-.
  run_step H1 [] s2 H2.
  assert (Es : s2 = st) by (unfold on_hash in H2; cbn in H2; injection H2 as <-; by destruct st as [? ? ? []]). subst s2. clear H2. unfold put_client, wu_modify in H1. injection H1 as <-. run_step Hr [] s2 H2. run_step Hr c2 s3 H3. apply ve_block_done in H3 as [-> Hc2].
  cbn in Hr. injection Hr as <-. exists c, s2. split; [done|]. split; [done|]. split; [|split].
  - destruct (Z.eqb_spec how VE_COMMIT_TRANSACTION); [by left|]. right. by apply negb_false_iff, Z.eqb_eq in Eh.
  - exact H2.
  - intros E. rewrite E in Hc2. injection Hc2 as <-. done.
Qed.

(** No snapshot is newer than the current one. *)
Lemma current_newest clk L z : snapshots_ok clk L -> z ∈ from_current L -> timestamp z <= current_timestamp L.
Proof.
  intros (fut & lv & Hsp) Hz. destruct (split_current _ _ _ _ Hsp) as [Hg Ec]. rewrite Ec in Hz. unfold current_timestamp. rewrite Hg. destruct Hsp as (_ & Hok & _).
  destruct lv as [|s lv]; [by apply elem_of_nil in Hz|]. cbn. apply elem_of_cons in Hz as [->|Hz]; [lia|]. assert (Hs := ls_order _ _ _ _ Hok). cbn in Hs.
  apply StronglySorted_inv in Hs as [_ Hs]. rewrite Forall_forall in Hs. assert (K := Hs (timestamp z)). cbn in K. apply Z.lt_le_incl. apply K. apply list_elem_of_fmap. by exists z.
Qed.

(** What a transaction leaves behind: its own versions, without the blocks it
    deleted. *)
Definition commit_effect (P : iso_state D) (fs : list VeFunction) (x : XPTR) (c : content D) : Prop :=
  Forall (keeps_block x) fs
  /\ ((exists f, f ∈ fs /\ is_working f = true /\ vf_lxptr f = x /\ iv P x = Some c)
      \/ (Forall (fun f => is_working f = true -> vf_lxptr f <> x) fs /\ committed P x c)).

Lemma commit_run approve sy sid o c fs R st st' : block st = Some (mk_client o SN_UPDATER_TRANSACTION) -> ve_block (world st) = Some c -> functionList c = Some fs ->
  good_at sy (tag sid o fs ++ R) st -> o ∈ ts_active (snapshots st) -> all_active (snapshots st) R -> (forall s' o' f', (s', (o', f')) ∈ R -> o' <> o) -> free_last fs ->
  (do! ts <- SnOnTransactionEnd (VeFreeBlockLow true); VeOnTransactionEnd approve false true VE_COMMIT_TRANSACTION ts) st = Done tt st' ->
  let P := pages_at (tag sid o fs ++ R) st in let P' := pages_at R st' in let L1 := RemoveActiveTimestamp (snapshots st) o in
  good_at sy R st' /\ old_reads P P' /\ (forall x d, committed P' x d <-> commit_effect P fs x d) /\ same_bare L1 (snapshots st') /\ clock st' = clock st
  /\ block st' = Some (mk_client INVALID_TIMESTAMP SN_COMPLETED_TRANSACTION)
  /\ exists b', world st' = mk_ve b' (restrictionHash (world st)) (Some (mk_ve_client true (isRolledBack c) (Some fs) None)) (ve_current (world st)).
Proof.
  intros Hb Hc Hfs Hg Ho HR Hne Hfl Hrun P P' L1. run_step Hrun ts s1 H1. destruct (end_run _ _ _ _ Hb H1) as [-> ->]. apply ve_end_run in Hrun as (c' & s2 & Hc' & _ & _ & Hrun & Hfin).
  cbn in Hc'. rewrite Hc in Hc'. injection Hc' as <-. rewrite Z.eqb_refl in Hrun. unfold OnTransactionCommit in Hrun. rewrite Hfs in Hrun, Hfin.
  destruct (end_updater_good sy _ st o Hg) as (Hg1 & Ho1 & Ea & Eown). fold L1 in Hg1, Ho1, Ea, Eown. set (s1 := set_world _ _) in Hrun.
  assert (Hready : commit_ready sy (clock st) sid o (current_timestamp L1) R [] fs s1).
  { split; [exact Hg1|]. split; [done|]. split; [cbn; fold L1; rewrite Ea; intros Hin; by apply list_elem_of_In, filter_In in Hin as [_ Hin%negb_true_iff%Z.eqb_neq]|].
    split; [|split; [done|split; [by intros f ?%elem_of_nil|]]].
    - intros s' o' f' Hin. cbn. fold L1. rewrite Ea. apply list_elem_of_In, filter_In. split; [apply list_elem_of_In; by apply (HR s' o' f')|]. apply negb_true_iff, Z.eqb_neq. by apply (Hne s' o' f').
    - intros z Hz. destruct (good_clock _ _ _ _ _ Hg1) as [Hok _]. by apply (current_newest (clock st)). }
  destruct (commit_loop_run sy (clock st) sid o (current_timestamp L1) R fs [] s1 s2 Hready Hrun) as (Hr2 & Hc2 & Hsb & Eb2 & b2 & Ew2).
  destruct Hr2 as (Hg2 & Hclk2 & _). rewrite Ew2 in Hfin. cbn in Hfin. specialize (Hfin ltac:(first [reflexivity | by rewrite ?Hfs])). subst st'. cbn. cbn in Ew2.
  destruct Hc2 as [Ho2 Hcom]. assert (Ebm : ve_bm (world s2) = b2) by (by rewrite Ew2). rewrite Ebm in Hg2. split; [unfold good_at; cbn; by rewrite Hclk2|].
  assert (E1 : commit_pages sid o R ([] ++ fs) s1 = pages L1 (clock st) (tag sid o fs ++ R) (ve_bm (world st))) by done.
  assert (E2 : commit_pages sid o R [] s2 = P') by (unfold commit_pages, pages_at, P'; cbn; by rewrite Ebm). rewrite E1, E2 in Ho2, Hcom.
  split; [by apply (old_trans _ (pages L1 (clock st) (tag sid o fs ++ R) (ve_bm (world st))))|]. split; [|split; [done|split; [done|split; [done|by exists b2]]]].
  intros x d. rewrite Hcom. unfold L1. rewrite (end_committed sy _ st o x d Hg Ho). unfold commit_effect. rewrite (and_comm _ (Forall _ _)). apply and_iff_compat_l. clear -Hne.
  assert (Hin : forall s f, (s, (o, f)) ∈ tag sid o fs ++ R -> f ∈ fs).
  { intros s f Hin. apply elem_of_app in Hin as [Hin|Hin]; [by apply tag_in in Hin as (_ & _ & ?)|by destruct (Hne _ _ _ Hin)]. }
  assert (Hin' : forall f, f ∈ fs -> (sid, (o, f)) ∈ tag sid o fs ++ R) by (intros f Hf; apply elem_of_app; left; by apply tag_in).
  rewrite Forall_forall. split; (intros [K|[K1 K2]]; [left|right]).
  - destruct K as (s & f & Hf & K). exists f. split; [by apply (Hin s)|done].
  - split; [|done]. intros f Hf. apply (K1 sid). by apply Hin'.
  - destruct K as (f & Hf & K). exists sid, f. split; [by apply Hin'|done].
  - split; [|done]. intros s f Hf. apply K1. by apply (Hin s).
Qed.
End Commit.
