(* ===== verification/VeRollback.v ===== *)
(** * The rollback of a transaction

    [OnTransactionRollback] (Versions.v) over the pages (WuGood.v): the last
    function is undone first, the replaced versions return to their places and
    new blocks are freed.  No snapshot and not the last committed state reads
    anything else. *)

From Stdlib Require Import ZArith List Lia Bool Sorted.
From stdpp Require Import base gmap list sets sorting.
From S2P Require Import Prelude WuBase Snapshots SnGc SnApi SnInv SnPurify SnOps SnEvolve SnExpand SnSystem SnReach Buffers Versions BufInv BufOps BufSwap IsoHeader Iso IsoList IsoCommit IsoUpdate WuFree WuGood WuCalls VeAlloc VeCommit.
Local Open Scope sedna_scope.
Local Open Scope Z_scope.

Section Rollback.
Context {D A : Type} `{AllocatorOk D A} (approve : Z -> XPTR -> bool).
Abbreviation state := (sn_state (ve_world D A)).
Implicit Types (st : state) (b : bm D A) (G R : list client_fn).

(** ** Runs in which nothing fails *)

(** [rollback_one] with the failures it does not report. *)
Definition undo_one (f : VeFunction) : wu state unit :=
  match vf_type f with
  | VE_FUNCTION_ALLOCATE_BLOCK => ImpFreeBlock (vf_lxptr f)
  | VE_FUNCTION_CREATE_VERSION | VE_FUNCTION_CREATE_VERSION_PERS =>
      do! id <- put_old_version approve false (vf_xptr f);
      do! _ <- on_bm (fun _ => FixFlushXptr id (vf_xptr f) (vf_lxptr f));
      do! _ <- settle_old_version false f id;
      ImpFreeBlock (vf_xptr f)
  | VE_FUNCTION_FREE_BLOCK => revoke_block (vf_lxptr f)
  end.

Fixpoint undo_loop (l : list VeFunction) : wu state unit :=
  match l with
  | [] => wu_ret tt
  | f :: l => do! _ <- undo_one f; undo_loop l
  end.

Lemma ignore_done {S} (c : wu S unit) s s' : c s = Done tt s' -> wu_ignore c s = Done tt s'.
Proof. unfold wu_ignore. by intros ->. Qed.

Lemma undo_rollback_one f st st' : undo_one f st = Done tt st' -> rollback_one approve false f st = Done tt st'.
Proof.
  unfold undo_one, rollback_one. destruct (vf_type f); [apply ignore_done| | |done].
  all: intros Hr; repeat (apply wu_bind_Done in Hr as (? & ? & ?H & Hr)); repeat (apply wu_bind_Done; do 2 eexists; split; [eassumption|]); by apply ignore_done.
Qed.

Lemma undo_rollback l : forall st st', undo_loop l st = Done tt st' -> rollback_loop approve false l st = Done tt st'.
Proof.
  induction l as [|f l IH]; intros st st' Hr; cbn in Hr |- *; [done|]. run_step Hr [] s1 H1. rewrite (undo_rollback_one f st s1 H1). by apply IH.
Qed.

(** ** Functions of new versions *)

Lemma create_kinds f : is_create (vf_type f) = true -> vf_type f <> VE_FUNCTION_ALLOCATE_BLOCK /\ is_working f = true.
Proof. unfold is_working. by destruct (vf_type f). Qed.

Lemma working_cons o f F : is_working f = true -> working ((o, f) :: F) = vf_lxptr f :: working F.
Proof. intros Hw. unfold working. cbn -[is_working]. by rewrite Hw. Qed.

(** The working version and the version it replaced. *)
Lemma fn_created (P : iso_state D) o f : iso P -> (o, f) ∈ ip P -> is_create (vf_type f) = true ->
  vf_lxptr f <> vf_xptr f /\ exists t1 es old, master P (vf_lxptr f) o ((vf_xptr f, t1) :: es) /\ holds P (vf_xptr f) (vf_lxptr f) t1 old.
Proof.
  intros Hi Hin Hcr. assert (Hf := i_fn _ Hi _ Hin). unfold fn_ok in Hf. destruct (vf_type f); try done;
    destruct Hf as (Hne & t1 & es & old & Hm & Hh & _); (split; [done|]); by exists t1, es, old.
Qed.

(** ** A version that returns *)

(** The buffers after the old version at [y] returned to [x]. *)
Record back_at (pers : bool) (x y : XPTR) b b' : Prop := {
  ba_ok : bm_ok b' /\ alloc_ok b';
  ba_stake : buffer_on_stake b' = -1;
  ba_free : forall z, is_free b' z <-> is_free b z \/ z = y;
  ba_view : view b' x = view b y;
  ba_trid : trid_of b' x = trid_of b y \/ trid_of b' x = -1;
  ba_off : calm_off (fun z => is_free b z \/ z = x \/ z = y) b b';
  ba_synced : pers = true -> disk_view b' x = view b' x
}.

Lemma back_free pers x y b b3 b' : alloc_ok b -> x <> y -> y <> 0 -> IS_DATA_BLOCK y = true -> ~ is_free b x -> ~ is_free b y -> is_Some (view b y) -> returned pers x y b b3 -> FreeBlock y b3 = Done tt b' -> back_at pers x y b b'.
Proof.
  intros Halk Hxy Hy0 Hyd Hfx Hfy Hvy [R1 R2 R3 R4 R5 R6 R7 R8 R9] Hrun.
  assert (Hfr3 : forall z, is_free b3 z <-> is_free b z) by (apply (free_off (fun z => z = x \/ z = y)); [done|done|]; by intros z [-> | ->]).
  assert (Halk3 : alloc_ok b3) by (apply (alloc_off (fun z => z = x \/ z = y) b b3 R4 R5); [|done]; by intros z [-> | ->]).
  destruct (delete_ok y b3 b' R1 Halk3 R6) as (Hok & Halk' & Hfr & Hc & _); [by rewrite Hfr3|done|done|done|done|].
  assert (Hx : ~ (is_free b3 x \/ x = y)) by (rewrite Hfr3; tauto).
  assert (Hv : view b' x = view b3 x) by (by apply (off_view _ _ _ Hc)).
  constructor; [done|by rewrite (off_stake _ _ _ Hc)|intros z; by rewrite Hfr, Hfr3|by rewrite Hv| | |].
  - destruct (off_trid _ _ _ Hc x Hx) as [->|]; [done|by right].
  - apply (off_trans _ _ b3); (eapply off_mono; [|eassumption]); cbn; intros z; [tauto|]. rewrite Hfr3. tauto.
  - intros Hp. rewrite Hv. destruct (off_disk _ _ _ Hc x Hx) as [->|]; [|done]. by apply R8.
Qed.

Section Return.
Context (sy : bool) (L : SnSnapshotsList) (clk : TIMESTAMP) (sid : Z) (o : TIMESTAMP) (f : VeFunction) (G : list client_fn) (b b' : bm D A).
Context (Hg : good sy L clk ((sid, (o, f)) :: G) b) (Ho : o ∈ ts_active L) (Hcr : is_create (vf_type f) = true)
  (Hlast : forall s' o' f', (s', (o', f')) ∈ G -> is_free_block (vf_type f') = true -> vf_lxptr f' <> vf_lxptr f)
  (Hb : back_at (match vf_type f with VE_FUNCTION_CREATE_VERSION_PERS => true | _ => false end) (vf_lxptr f) (vf_xptr f) b b').

Abbreviation before := (pages L clk ((sid, (o, f)) :: G) b).
Abbreviation after := (pages L clk G b').

Lemma back_last o' f' : (o', f') ∈ map snd G -> is_free_block (vf_type f') = true -> vf_lxptr f' <> vf_lxptr f.
Proof. intros Hin. apply list_elem_of_fmap in Hin as ([s p] & E & Hin). cbn in E. subst p. by apply (Hlast s o'). Qed.

Lemma back_view y : ~ is_free b' y -> y <> vf_lxptr f -> view b' y = view b y.
Proof. intros Hy Hne. apply (off_view _ _ _ (ba_off _ _ _ _ _ Hb)). rewrite (ba_free _ _ _ _ _ Hb) in Hy. tauto. Qed.

Lemma back_holds y x t l : holds after y x t l <->
  (y = vf_lxptr f /\ holds before (vf_xptr f) x t l) \/ (y <> vf_lxptr f /\ y <> vf_xptr f /\ holds before y x t l).
Proof.
  apply (return_holds before after o f (map snd G) (g_iso _ _ _ _ _ Hg) eq_refl Hcr (ba_free _ _ _ _ _ Hb) back_view (ba_view _ _ _ _ _ Hb)).
Qed.

(** Other versions are at other places. *)
Lemma back_others s' o' f' : (s', (o', f')) ∈ G -> is_create (vf_type f') = true ->
  ~ (is_free b (vf_lxptr f') \/ vf_lxptr f' = vf_lxptr f \/ vf_lxptr f' = vf_xptr f) /\ ~ (is_free b (vf_xptr f') \/ vf_xptr f' = vf_lxptr f \/ vf_xptr f' = vf_xptr f).
Proof.
  intros Hin Hcr'. assert (Hi := g_iso _ _ _ _ _ Hg). destruct (fn_created _ o f Hi ltac:(left) Hcr) as (Hne & t1 & es & old & Hm & Hh).
  assert (Hin' : (s', (o', f')) ∈ (sid, (o, f)) :: G) by (by right). destruct (fn_in_use _ _ _ _ _ _ _ _ Hg Hin') as [F1 F2].
  destruct (create_kinds _ Hcr') as [Hty Hw]. specialize (F2 Hty). destruct (create_kinds _ Hcr) as [Hty0 Hw0].
  assert (Hpe : (o', f') ∈ map snd G) by (apply list_elem_of_fmap; by exists (s', (o', f'))).
  destruct (fn_created before o' f' Hi ltac:(by right) Hcr') as (Hne' & t1' & es' & old' & Hm' & Hh').
  assert (Hlx : vf_lxptr f' <> vf_lxptr f).
  { intros E. assert (K : NoDup (working ((o, f) :: map snd G))) by apply Hi. rewrite working_cons in K by done. apply NoDup_cons in K as [K _]. apply K. apply list_elem_of_omap.
    exists (o', f'). split; [done|]. cbn -[is_working]. by rewrite Hw, E. }
  split; intros [K|[K|K]]; [done|done| |done| |].
  - rewrite <- K in Hh. by destruct (holds_inj _ _ _ _ _ _ _ _ Hh Hm') as (E & _).
  - rewrite K in Hh'. by destruct (holds_inj _ _ _ _ _ _ _ _ Hh' Hm) as (E & _).
  - rewrite K in Hh'. by destruct (holds_inj _ _ _ _ _ _ _ _ Hh' Hh) as (E & _).
Qed.

Lemma back_iso : iso after.
Proof.
  apply (iso_return before after o f (map snd G) (g_iso _ _ _ _ _ Hg) eq_refl eq_refl Ho eq_refl Hcr eq_refl (ba_free _ _ _ _ _ Hb) back_view (ba_view _ _ _ _ _ Hb) back_last).
Qed.

Lemma back_reads : old_reads before after /\ same_committed before after.
Proof.
  apply viewers_same; [done|]. intros w z d Hw.
  by apply (reads_return before after o f (map snd G) (g_iso _ _ _ _ _ Hg) eq_refl Ho eq_refl Hcr eq_refl (ba_free _ _ _ _ _ Hb) back_view (ba_view _ _ _ _ _ Hb) back_last).
Qed.

(** The version that returned is the one that was saved, or later than the
    persistent snapshot. *)
Lemma back_saved : sy = true -> saved_ok L clk G b'.
Proof.
  intros Esy x y t l w Hw Hy Hd Hne Hn. assert (Hoff := ba_off _ _ _ _ _ Hb). assert (Hi := g_iso _ _ _ _ _ Hg).
  destruct (fn_created before o f Hi ltac:(left) Hcr) as (Hxy & t1 & es1 & old1 & Hm1 & Hh1).
  apply back_holds in Hy as [(-> & Hy)|(N1 & N2 & Hy)]; [destruct (holds_inj _ _ _ _ _ _ _ _ Hy Hh1) as (E & _); by destruct Hne|].
  assert (Hy' : ~ (is_free b y \/ y = vf_lxptr f \/ y = vf_xptr f)) by (destruct Hy as [F _]; cbn in F; tauto).
  rewrite (off_view _ _ _ Hoff y Hy'). destruct (g_saved _ _ _ _ _ Hg Esy x y t l w Hw Hy Hd Hne Hn) as [E|(Ed & E & Hl)].
  - left. by destruct (off_disk _ _ _ Hoff y Hy') as [-> | ->].
  - destruct (off_saved _ _ _ Hoff x y Ed Hy') as [Ed'|E']; [|by left]. right. split; [done|]. split; [rewrite <- E; by apply (off_deps _ _ _ Hoff x y Ed')|].
    intros t2 l2 Hm. apply back_holds in Hm as [(-> & Hm)|(_ & _ & Hm)]; [|by apply (Hl t2 l2)].
    destruct f as [x1 x2 a ty]. cbn in *. destruct ty; try done.
    + apply (g_fresh _ _ _ _ _ Hg sid o x1 x2 a w t2 l2); [left|done|exact Hm].
    + destruct (g_deps _ _ _ _ _ Hg sid o x1 x2 a y ltac:(left) Ed) as [-> _]. by destruct N2.
Qed.

Lemma back_good : good sy L clk G b'.
Proof.
  assert (Hi := g_iso _ _ _ _ _ Hg). destruct (fn_created _ o f Hi ltac:(left) Hcr) as (Hne & t1 & es & old & Hm & Hh). assert (Hoff := ba_off _ _ _ _ _ Hb).
  constructor; [apply back_iso|apply Hb|apply Hb|..].
  - intros z x t l Hz. apply back_holds in Hz as [(-> & _)|(_ & _ & Hz)]; [by apply (g_data _ _ _ _ _ Hg _ _ o _ Hm)|by apply (g_data _ _ _ _ _ Hg z x t l)].
  - intros s' o' x y a z Hin Hz. destruct (back_others _ _ _ Hin eq_refl) as [N1 N2]. cbn in N1, N2. destruct (off_deps _ _ _ Hoff x z Hz) as [Hz0 E].
    rewrite E, (off_view _ _ _ Hoff y N2). apply (g_deps _ _ _ _ _ Hg s' o' x y a z); [by right|done].
  - intros s' o' x y a w t l Hin Hw Hy. destruct (back_others _ _ _ Hin eq_refl) as [_ N2]. cbn in N2. apply back_holds in Hy as [(E & _)|(_ & _ & Hy)]; [tauto|].
    apply (g_fresh _ _ _ _ _ Hg s' o' x y a w t l); [by right|done|exact Hy].
  - intros Esy x t l w Hx Hw Hn. apply back_holds in Hx as [(-> & Hx)|(N1 & N2 & Hx)].
    + destruct (vf_type f) eqn:Ety; try done; [|by apply (ba_synced _ _ _ _ _ Hb)].
      exfalso. apply Hn. destruct f as [x1 x2 a ty]. cbn in *. subst ty. apply (g_fresh _ _ _ _ _ Hg sid o x1 x2 a w t l); [left|done|exact Hx].
    + assert (Hx' : ~ (is_free b x \/ x = vf_lxptr f \/ x = vf_xptr f)) by (destruct Hx as [Hx _]; cbn in Hx; tauto).
      rewrite (off_view _ _ _ Hoff x Hx'). destruct (off_disk _ _ _ Hoff x Hx') as [->|]; [|done]. by apply (g_sync _ _ _ _ _ Hg Esy x t l w).
  - apply back_saved.
  - intros x Hx Hn. rewrite (ba_free _ _ _ _ _ Hb) in Hx. destruct (decide (x = vf_lxptr f)) as [->|Nx].
    + exfalso. apply Hn. destruct (ba_trid _ _ _ _ _ Hb) as [E|]; [|done]. rewrite E in Hn |- *.
      assert (Hfx : ~ is_free b (vf_xptr f)) by apply Hh. destruct (decide (trid_of b (vf_xptr f) = -1)) as [|Ht]; [done|].
      destruct (g_access _ _ _ _ _ Hg _ Hfx Ht) as (o' & f' & Hin & Hw & Ef). exfalso.
      destruct (fn_master before o' f' Hi) as (t2 & old2 & Hm2 & _); [apply list_elem_of_fmap; eexists; by split; [|exact Hin]|]. rewrite Ef in Hm2. by destruct (holds_inj _ _ _ _ _ _ _ _ Hh Hm2) as (E2 & _).
    + assert (Hx' : ~ (is_free b x \/ x = vf_lxptr f \/ x = vf_xptr f)) by tauto. destruct (off_trid _ _ _ Hoff x Hx') as [E|]; [|done]. rewrite E in *.
      destruct (g_access _ _ _ _ _ Hg x) as (o' & f' & Hin & Hw & Ef); [tauto|done|]. apply elem_of_cons in Hin as [[= E1 -> ->]|Hin]; [by destruct Nx|by exists o', f'].
  - apply Hb.
Qed.
End Return.

Lemma unalloc_good sy L clk sid o f G b b' : good sy L clk ((sid, (o, f)) :: G) b -> vf_type f = VE_FUNCTION_ALLOCATE_BLOCK -> bm_ok b' -> alloc_ok b' ->
  calm_off (fun y => is_free b y \/ y = vf_lxptr f) b b' -> (forall y, is_free b' y <-> is_free b y \/ y = vf_lxptr f) ->
  (forall y, ~ is_free b' y -> view b' y = view b y) -> iso (pages L clk G b') -> good sy L clk G b'.
Proof.
  intros Hg Hty Hok Halk Hc Hfr Hview Hi'. assert (Hi := g_iso _ _ _ _ _ Hg). assert (Hu := unalloc_fn _ o f (map snd G) Hi eq_refl Hty). destruct Hu as [Hm _].
  assert (Hh : forall y x t l, holds (pages L clk G b') y x t l -> holds (pages L clk ((sid, (o, f)) :: G) b) y x t l /\ ~ (is_free b y \/ y = vf_lxptr f)).
  { intros y x t l Hy. assert (Hn : ~ is_free b' y) by apply Hy. apply (unalloc_holds (pages L clk ((sid, (o, f)) :: G) b) (pages L clk G b') f Hfr Hview) in Hy as [Hy _]. split; [done|]. by rewrite <- Hfr. }
  assert (HP : forall s' o' f', (s', (o', f')) ∈ G -> is_create (vf_type f') = true ->
    ~ (is_free b (vf_lxptr f') \/ vf_lxptr f' = vf_lxptr f) /\ ~ (is_free b (vf_xptr f') \/ vf_xptr f' = vf_lxptr f)).
  { intros s' o' f' Hin Hcr. assert (Hpe : (o', f') ∈ map snd G) by (apply list_elem_of_fmap; by exists (s', (o', f'))). destruct (create_kinds _ Hcr) as [Hty' Hw'].
    assert (Hin' : (s', (o', f')) ∈ (sid, (o, f)) :: G) by (by right). destruct (fn_in_use _ _ _ _ _ _ _ _ Hg Hin') as [F1 F2]. specialize (F2 Hty').
    destruct (fn_created _ o' f' Hi ltac:(by right) Hcr) as (Hne & t1 & es & old & Hm' & Hh'). assert (Hx : vf_lxptr f' <> vf_lxptr f).
    { intros E. rewrite E in Hm'. by destruct (holds_inj _ _ _ _ _ _ _ _ Hm Hm') as (_ & _ & ?). }
    split; intros [K|K]; try done. rewrite K in Hh'. by destruct (holds_inj _ _ _ _ _ _ _ _ Hm Hh') as (E & _). }
  apply (good_less (fun y => is_free b y \/ y = vf_lxptr f) sy L L clk sid o f G b b' Hg Hi' Hok Halk Hc Hh HP); [done| |auto|].
  - intros x. rewrite Hfr. tauto.
  - intros _ Hn. exfalso. apply Hn. rewrite Hfr. by right.
Qed.

(** ** One function *)

Definition is_pers (f : VeFunction) : bool := match vf_type f with VE_FUNCTION_CREATE_VERSION_PERS => true | _ => false end.

Lemma settle_run f id st st' : settle_old_version false f id st = Done tt st' -> is_create (vf_type f) = true ->
  exists b', st' = with_bm b' st /\ settle_buffer (pers false st) (is_pers f) (vf_lxptr f) id (ve_bm (world st)) = Done tt b'.
Proof.
  unfold settle_old_version, settle_buffer, is_pers. destruct (vf_type f); try done; intros Hr _.
  - bm_step Hr b'. by exists b'.
  - run_step Hr t s1 H1. apply on_bm_done in H1 as (b1 & H1 & ->). cbn in Hr.
    destruct (negb (t =? 0)) eqn:Et.
    + apply on_bm_done in Hr as (b2 & Hr & ->). exists b2. split; [done|]. apply wu_bind_Done. exists t, b1. by rewrite Et.
    + run_step Hr [] s1 H2. bm_step H2 b2. bm_step Hr b3. exists b3. split; [done|]. apply wu_bind_Done. exists t, b1. rewrite Et. split; [done|]. apply wu_bind_Done. by exists tt, b2.
Qed.

Lemma undo_create sy sid o f G st st' : good_at sy ((sid, (o, f)) :: G) st -> is_create (vf_type f) = true -> undo_one f st = Done tt st' ->
  exists b', st' = with_bm b' st /\ back_at (is_pers f) (vf_lxptr f) (vf_xptr f) (ve_bm (world st)) b'.
Proof.
  intros Hg Hcr Hr. assert (Hi := g_iso _ _ _ _ _ Hg). destruct (fn_created _ o f Hi ltac:(left) Hcr) as (Hne & t1 & es & old & Hm & Hh).
  assert (Hr' : (do! id <- put_old_version approve false (vf_xptr f); do! _ <- on_bm (fun _ => FixFlushXptr id (vf_xptr f) (vf_lxptr f));
    do! _ <- settle_old_version false f id; ImpFreeBlock (vf_xptr f)) st = Done tt st') by (unfold undo_one in Hr; by destruct (vf_type f)). clear Hr.
  run_step Hr' id s1 H1. unfold put_old_version in H1. run_step H1 [sw id'] s2 H2. injection H1 as -> ->. apply on_bm_done in H2 as (b1 & H2 & ->). cbn in H2.
  run_step Hr' [] s2 H3. apply on_bm_done in H3 as (b2 & H3 & ->). cbn in H3. run_step Hr' [] s2 H4. destruct (settle_run _ _ _ _ H4 Hcr) as (b3 & -> & H5). cbn in H5. bm_step Hr' b4. cbn in Hr'.
  exists b4. split; [done|]. assert (Hin : vf_xptr f ∈ pending (ip (pages_at ((sid, (o, f)) :: G) st))) by (apply (pending_in _ o f); [left|by apply create_kinds]).
  destruct (i_inuse _ Hi (vf_xptr f)) as [Hu Hx0]; [by apply elem_of_app; right|].
  destruct Hm as (Hfm & cm & Hvm & _). destruct Hh as (_ & ch & Hvh & _).
  apply (back_free (is_pers f) (vf_lxptr f) (vf_xptr f) _ b3); [apply Hg|done|done|by apply (fn_data _ _ _ _ _ _ _ _ Hg ltac:(left)), create_kinds|done|done|by exists ch| |done].
  apply (return_ok approve (pers false st) (is_pers f) _ _ _ sw id b1 b2 b3 (g_bm _ _ _ _ _ Hg) Hne (g_stake _ _ _ _ _ Hg)); [by exists cm| |done|done|exact H5].
  intros Hp z Hz. destruct f as [x1 x2 a ty]. unfold is_pers in Hp. cbn in *. destruct ty; try done. by apply (g_deps _ _ _ _ _ Hg sid o x1 x2 a z); [left|].
Qed.

(** A new block is freed. *)
Lemma undo_alloc sy sid o f G st st' : good_at sy ((sid, (o, f)) :: G) st -> vf_type f = VE_FUNCTION_ALLOCATE_BLOCK -> o ∈ ts_active (snapshots st) ->
  (forall s' o' f', (s', (o', f')) ∈ G -> is_free_block (vf_type f') = true -> vf_lxptr f' <> vf_lxptr f) -> undo_one f st = Done tt st' ->
  exists b', st' = with_bm b' st /\ good sy (snapshots st) (clock st) G b'
    /\ (forall w x c, w ∈ viewers (snapshots st) -> reads (pages (snapshots st) (clock st) G b') w x c <-> reads (pages_at ((sid, (o, f)) :: G) st) w x c).
Proof.
  intros Hg Hty Ho Hlast Hr. assert (Hi := g_iso _ _ _ _ _ Hg). unfold undo_one in Hr. rewrite Hty in Hr. bm_step Hr b'. cbn in Hr.
  set (P := pages_at ((sid, (o, f)) :: G) st) in *. set (b := ve_bm (world st)) in *.
  destruct (unalloc_fn P o f (map snd G) Hi eq_refl Hty) as [(Hfx & c & Hv & Hver) _]. cbn in Hfx, Hv.
  destruct (delete_ok (vf_lxptr f) b b' (ok_but_ok _ _ (g_bm _ _ _ _ _ Hg)) (g_alloc _ _ _ _ _ Hg) (g_stake _ _ _ _ _ Hg)) as (Hok & Halk & Hfr & Hc & _); [done|by apply (version_nonzero _ _ _ _ Hver)|by apply (g_data _ _ _ _ _ Hg _ _ _ _ (conj Hfx (ex_intro _ c (conj Hv Hver))))|by apply (view_disk _ _ c (g_bm _ _ _ _ _ Hg))|done|].
  assert (Hview : forall y, ~ is_free b' y -> view b' y = view b y) by (intros y Hy; apply (off_view _ _ _ Hc); by rewrite <- Hfr).
  assert (Hlast' : forall o' f', (o', f') ∈ map snd G -> is_free_block (vf_type f') = true -> vf_lxptr f' <> vf_lxptr f).
  { intros o' f' Hin. apply list_elem_of_fmap in Hin as ([s p] & E & Hin). cbn in E. subst p. by apply (Hlast s o'). }
  exists b'. split; [done|]. set (P' := pages (snapshots st) (clock st) G b'). split.
  - apply (unalloc_good sy (snapshots st) (clock st) sid o f G b b' Hg Hty Hok Halk Hc Hfr Hview).
    apply (iso_unalloc P P' o f (map snd G) Hi eq_refl eq_refl Ho eq_refl Hty eq_refl Hfr Hview Hlast').
  - intros w x d Hw. by apply (reads_unalloc P P' o f (map snd G) Hi eq_refl Ho eq_refl Hty eq_refl Hfr Hview Hlast').
Qed.

(** The buffers and the rest of the state, without the function. *)
Definition undone sid o f G st st' : Prop := exists b', st' = with_bm b' st
  /\ good_at true G st' /\ old_reads (pages_at ((sid, (o, f)) :: G) st) (pages_at G st') /\ same_committed (pages_at ((sid, (o, f)) :: G) st) (pages_at G st').

Lemma undo_run sid o f G st st' : good_at true ((sid, (o, f)) :: G) st -> o ∈ ts_active (snapshots st) ->
  (is_working f = true -> forall s' o' f', (s', (o', f')) ∈ G -> is_free_block (vf_type f') = true -> vf_lxptr f' <> vf_lxptr f) -> undo_one f st = Done tt st' -> undone sid o f G st st'.
Proof.
  intros Hg Ho Hlast Hr. destruct (is_create (vf_type f)) eqn:Hcr.
  - destruct (create_kinds _ Hcr) as [_ Hw]. specialize (Hlast Hw). destruct (undo_create _ _ _ _ _ _ _ Hg Hcr Hr) as (b' & -> & Hb). exists b'. split; [done|].
    split; [by apply (back_good true _ _ sid o f G _ b' Hg Ho Hcr Hlast)|]. by apply (back_reads true (snapshots st) (clock st) sid o f G (ve_bm (world st)) b' Hg Ho Hcr Hlast).
  - destruct (vf_type f) eqn:Hty; try done.
    + assert (Hw : is_working f = true) by (unfold is_working; by rewrite Hty). specialize (Hlast Hw). destruct (undo_alloc true sid o f G st st' Hg Hty Ho Hlast Hr) as (b' & -> & K1 & K2). exists b'. split; [done|]. split; [done|]. by apply viewers_same.
    + unfold undo_one in Hr. rewrite Hty in Hr. destruct (revoke_run _ _ _ (g_bm _ _ _ _ _ Hg) Hr) as (b' & -> & Hok & Hc & _). exists b'. split; [done|].
      assert (Hg' := good_calm _ _ _ _ _ _ Hg Hok Hc). assert (Hi' : iso (pages (snapshots st) (clock st) G b')).
      { apply (iso_undelete (pages (snapshots st) (clock st) ((sid, (o, f)) :: G) b') o f (map snd G) (g_iso _ _ _ _ _ Hg') eq_refl). by rewrite Hty. }
      split; [|apply viewers_same; [done|intros w x d _; by apply (calm_reads (snapshots st) (clock st) G)]].
      apply (good_less (fun _ => False) true (snapshots st) (snapshots st) (clock st) sid o f G b' b' Hg' Hi' Hok); [apply Hg'|apply off_refl|tauto|tauto|done|tauto|auto|].
      unfold is_working. by rewrite Hty.
Qed.

(** ** All functions *)

(** Every function comes before the deletion of its block. *)
Lemma free_last_snoc fs f : free_last (fs ++ [f]) -> free_last fs /\ forall f', f' ∈ fs -> is_free_block (vf_type f') = true -> vf_lxptr f' <> vf_lxptr f.
Proof.
  induction fs as [|g fs IH]; cbn; [intros _; split; [done|by intros f' ?%elem_of_nil]|]. intros [Hh Hfl]. destruct (IH Hfl) as [K1 K2]. split.
  - split; [|done]. intros E. specialize (Hh E). by apply Forall_app in Hh as [Hh _].
  - intros f' [->|Hf']%elem_of_cons E; [|by apply K2]. specialize (Hh E). apply Forall_app in Hh as [_ Hh]. apply Forall_cons in Hh as [Hh _]. intros E'. by apply Hh.
Qed.

(** Nobody else deletes a block with a working version. *)
Lemma others_delete sy L clk G b s o f s' o' f' : good sy L clk G b -> (s, (o, f)) ∈ G -> is_working f = true -> o ∈ ts_active L ->
  (s', (o', f')) ∈ G -> is_free_block (vf_type f') = true -> o' <> o -> vf_lxptr f' <> vf_lxptr f.
Proof.
  intros Hg Hin Hw Ho Hin' Hf Ho' E. assert (Hi := g_iso _ _ _ _ _ Hg).
  assert (K := i_fn _ Hi (o', f') ltac:(apply list_elem_of_fmap; by exists (s', (o', f')))). unfold fn_ok in K. destruct (vf_type f'); try done.
  destruct K as (_ & t0 & old & Hm & Ht & _). destruct (fn_master _ o f Hi) as (t1 & old1 & Hm1 & E1); [apply list_elem_of_fmap; by exists (s, (o, f))|].
  rewrite (E1 Hw), <- E in Hm1. destruct (holds_inj _ _ _ _ _ _ _ _ Hm Hm1) as (_ & E2 & _). rewrite <- E2 in Ht. apply Ho'. symmetry. by apply Ht.
Qed.

Lemma undo_loop_run sid o R : forall l fs st st', l = rev fs -> good_at true (tag sid o fs ++ R) st -> o ∈ ts_active (snapshots st) -> (forall s' o' f', (s', (o', f')) ∈ R -> o' <> o) -> free_last fs ->
  undo_loop l st = Done tt st' -> exists b', st' = with_bm b' st /\ good_at true R st'
    /\ old_reads (pages_at (tag sid o fs ++ R) st) (pages_at R st') /\ same_committed (pages_at (tag sid o fs ++ R) st) (pages_at R st').
Proof.
  induction l as [|f l IH]; intros fs st st' El Hg Ho HR Hfl Hr.
  - assert (fs = []) as -> by (rewrite <- (rev_involutive fs), <- El; done). cbn in Hr. injection Hr as <-. exists (ve_bm (world st)). split; [by destruct st as [? ? ? []]|]. split; [done|]. split; [apply old_refl|done].
  - assert (Efs : fs = rev l ++ [f]) by (rewrite <- (rev_involutive fs), <- El; done). rewrite Efs in Hfl. destruct (free_last_snoc _ _ Hfl) as [Hfl1 Hlast].
    assert (Hperm : (sid, (o, f)) :: (tag sid o (rev l) ++ R) ≡ₚ tag sid o fs ++ R) by (rewrite Efs; unfold tag; rewrite map_app; cbn; rewrite <- app_assoc; apply Permutation_middle).
    cbn in Hr. run_step Hr [] s1 H1. assert (Hg1 := good_perm _ _ _ _ _ _ Hperm Hg).
    destruct (undo_run sid o f (tag sid o (rev l) ++ R) st s1 Hg1 Ho) as (b1 & -> & Hg2 & Ho2 & Hs2); [|done|].
    { intros Hw s' o' f' Hin Ef. apply elem_of_app in Hin as [Hin|Hin]; [apply tag_in in Hin as (_ & _ & Hin); by apply Hlast|].
      apply (others_delete true (snapshots st) (clock st) _ _ sid o f s' o' f' Hg1); [left|done|done|right; by apply elem_of_app; right|done|by apply (HR s' o' f')]. }
    destruct (IH (rev l) (with_bm b1 st) st') as (b' & -> & Hg' & Ho' & Hs'); [by rewrite rev_involutive|done|done|done|done|done|].
    exists b'. rewrite with_bm_with in *. split; [done|]. split; [done|].
    assert (Hsame : forall w x c, reads (pages_at ((sid, (o, f)) :: tag sid o (rev l) ++ R) st) w x c <-> reads (pages_at (tag sid o fs ++ R) st) w x c) by done.
    split.
    + intros v Hv. destruct (Ho' v Hv) as [Hv1 K1]. destruct (Ho2 v Hv1) as [Hv2 K2]. split; [done|]. intros x c. by rewrite K1, K2.
    + intros x c. rewrite (Hs' x c), (Hs2 x c). apply Hsame.
Qed.

(** ** The call *)

(** The run in which every function is undone. *)
Definition undoes st : Prop := exists c fs s2, ve_block (world st) = Some c /\ functionList c = Some fs
  /\ undo_loop (rev fs) (set_world (set_ve_block (mk_ve_client (isCompleted c) (isRolledBack c) (functionList c) None) (world st)) st) = Done tt s2.

Lemma rollback_run sid o c fs R st st' : ve_block (world st) = Some c -> functionList c = Some fs ->
  good_at true (tag sid o fs ++ R) st -> o ∈ ts_active (snapshots st) -> (forall s' o' f', (s', (o', f')) ∈ R -> o' <> o) -> free_last fs -> undoes st ->
  VeOnTransactionEnd approve false true VE_ROLLBACK_TRANSACTION INVALID_TIMESTAMP st = Done tt st' ->
  good_at true R st' /\ old_reads (pages_at (tag sid o fs ++ R) st) (pages_at R st') /\ same_committed (pages_at (tag sid o fs ++ R) st) (pages_at R st')
  /\ snapshots st' = snapshots st /\ clock st' = clock st /\ block st' = block st
  /\ exists b', world st' = mk_ve b' (restrictionHash (world st)) (Some (mk_ve_client true true (Some fs) None)) (ve_current (world st)).
Proof.
  intros Hc Hfs Hg Ho HR Hfl (c0 & fs0 & s2 & Hc0 & Hfs0 & Hu) Hr. rewrite Hc in Hc0. injection Hc0 as <-. rewrite Hfs in Hfs0. injection Hfs0 as <-.
  apply ve_end_run in Hr as (c1 & s3 & Hc1 & _ & _ & Hr & Hfin). rewrite Hc in Hc1. injection Hc1 as <-. change (VE_ROLLBACK_TRANSACTION =? VE_COMMIT_TRANSACTION) with false in Hr.
  unfold OnTransactionRollback in Hr. rewrite Hfs in Hr, Hu, Hfin. set (s1 := set_world _ _) in *. rewrite (undo_rollback _ _ _ Hu) in Hr. injection Hr as <-.
  destruct (undo_loop_run sid o R (rev fs) fs s1 s2) as (b' & -> & K1 & K2 & K3); [done|exact Hg|done|done|done|done|].
  specialize (Hfin ltac:(done)). subst st'. split; [exact K1|]. split; [exact K2|]. split; [exact K3|]. do 3 (split; [done|]). by exists b'.
Qed.
End Rollback.
