(* ===== verification/WuSystem.v ===== *)
(** * The clients of the version manager

    The transition system of the calls of wu.cpp (WuApi.v), and its invariant:
    the pages are good (WuGood.v) for the functions all updaters have pending,
    and the snapshots fit the clients (SnSystem.v). *)

From Stdlib Require Import ZArith List Lia Bool Sorted.
From stdpp Require Import base gmap list sets sorting.
From S2P Require Import Prelude WuBase Snapshots SnGc SnApi SnInv SnPurify SnOps SnEvolve SnExpand SnSystem SnReach Buffers Versions BufInv BufOps BufSwap IsoHeader Iso IsoList IsoCommit IsoUpdate WuFree WuGood WuCalls WuCkpt VeAlloc VeCommit VeRollback WuApi VeCreate.
Local Open Scope sedna_scope.
Local Open Scope Z_scope.

(** ** Pending functions of all clients *)

Abbreviation client := (SnClientState * VeClientState)%type.
Abbreviation clients := (gmap Z (SnClientState * VeClientState)).

Definition fns_of (p : Z * client) : list client_fn :=
  let '(sid, (c, v)) := p in
  if (statusAndType c =? SN_UPDATER_TRANSACTION) && negb (isCompleted v)
  then tag sid (cl_timestamp c) (default [] (functionList v)) else [].

Definition pend (m : clients) : list client_fn := concat (map fns_of (map_to_list m)).

Lemma concat_perm {A} (l l' : list (list A)) : l ≡ₚ l' -> concat l ≡ₚ concat l'.
Proof. induction 1 as [|x l l' _ IH|x y l|l1 l2 l3 _ IH1 _ IH2]; cbn; [done|by rewrite IH|by rewrite !app_assoc, (Permutation_app_comm x y)|by rewrite IH1]. Qed.

Lemma pend_new m sid c : m !! sid = None -> pend (<[sid := c]> m) ≡ₚ fns_of (sid, c) ++ pend m.
Proof. intros Hn. unfold pend. rewrite (concat_perm _ (map fns_of ((sid, c) :: map_to_list m))); [done|]. apply Permutation_map. by apply map_to_list_insert. Qed.

Lemma pend_insert m sid c : pend (<[sid := c]> m) ≡ₚ fns_of (sid, c) ++ pend (delete sid m).
Proof. rewrite <- insert_delete_eq. apply pend_new. by rewrite lookup_delete_eq. Qed.

Lemma pend_lookup m sid c : m !! sid = Some c -> pend m ≡ₚ fns_of (sid, c) ++ pend (delete sid m).
Proof. intros Hm. rewrite <- (insert_id m sid c Hm) at 1. apply pend_insert. Qed.

(** Which functions these are. *)
Lemma pend_in m s o f : (s, (o, f)) ∈ pend m <-> exists c v fs, m !! s = Some (c, v) /\ statusAndType c = SN_UPDATER_TRANSACTION /\ isCompleted v = false
  /\ functionList v = Some fs /\ o = cl_timestamp c /\ f ∈ fs.
Proof.
  unfold pend. rewrite list_elem_of_In, in_concat. split.
  - intros (l & Hl & Hin). apply in_map_iff in Hl as ([sid [c v]] & <- & Hm). apply list_elem_of_In, elem_of_map_to_list in Hm. apply list_elem_of_In in Hin. cbn in Hin.
    destruct (Z.eqb_spec (statusAndType c) SN_UPDATER_TRANSACTION); [|by apply elem_of_nil in Hin]. destruct (isCompleted v) eqn:Ec; [by apply elem_of_nil in Hin|]. cbn in Hin.
    apply tag_in in Hin as (-> & -> & Hf). destruct (functionList v) as [fs|] eqn:Ef; [|by apply elem_of_nil in Hf]. by exists c, v, fs.
  - intros (c & v & fs & Hm & Hs & Hc & Hf & -> & Hin). exists (fns_of (s, (c, v))). split.
    + apply in_map. apply list_elem_of_In. by apply elem_of_map_to_list.
    + apply list_elem_of_In. cbn. rewrite Hs, Hc, Hf. cbn. by apply tag_in.
Qed.

Lemma pend_empty : pend ∅ = [].
Proof. done. Qed.

(** ** The snapshots and the clients *)

Section Fit.
Context {W W' : Type}.

Lemma sys_ok_world L clk m (w : W) (w' : W') : sys_ok (mk_sys L clk m w) -> sys_ok (mk_sys L clk m w').
Proof. by intros [H1 H2]. Qed.

(** The chains of old versions do not matter. *)
Lemma sys_ok_bare L L' clk m (w : W) : snapshots_ok clk L -> snapshots_ok clk L' -> same_bare L L' -> sys_ok (mk_sys L clk m w) -> sys_ok (mk_sys L' clk m w).
Proof.
  intros (fut & lv & Hsp) (fut' & lv' & Hsp') (_ & E & Ea & En) [(Hclk & fut0 & lv0 & Hsp0 & Hcl & Hlen) H2]. split; [|done]. split; [done|]. cbn in *.
  destruct (split_current _ _ _ _ Hsp0) as [_ E0]. destruct (split_current _ _ _ _ Hsp') as [_ E']. rewrite E0, E' in E.
  exists fut', lv'. split; [done|]. split; [|by rewrite En]. cbn. rewrite Ea. by rewrite (bare_occupancies _ _ E).
Qed.
End Fit.

(** ** The invariant *)

Section System.
Context {D A : Type} `{AllocatorOk D A} (approve : Z -> XPTR -> bool).
Abbreviation state := (sn_state (ve_world D A)).
Implicit Types g : wsys D A.

Definition sn_sys g : sys := mk_sys (ws_list g) (ws_clock g) (fst <$> ws_clients g) tt.

Definition synced g : bool := match ws_phase g with CK_BEGUN => false | _ => true end.

Definition wpages g : iso_state D := pages (ws_list g) (ws_clock g) (pend (ws_clients g)) (ws_bm g).

Record ws_ok g : Prop := {
  w_good : good (synced g) (ws_list g) (ws_clock g) (pend (ws_clients g)) (ws_bm g);
  w_sys : sys_ok (sn_sys g);
  w_ids : forall sid c, ws_clients g !! sid = Some c -> 0 <= sid < nClientsMax (ws_list g);
  w_updater : forall sid c v, ws_clients g !! sid = Some (c, v) -> statusAndType c = SN_UPDATER_TRANSACTION -> exists fs, functionList v = Some fs /\ free_last fs;
  w_reader : forall sid c v, ws_clients g !! sid = Some (c, v) -> statusAndType c = SN_READ_ONLY_TRANSACTON -> functionList v = None;
  w_ended : forall sid c v, ws_clients g !! sid = Some (c, v) -> statusAndType c = SN_COMPLETED_TRANSACTION -> isCompleted v = true;
  w_quiet : ws_phase g <> CK_NONE -> forall sid c v, ws_clients g !! sid = Some (c, v) -> statusAndType c <> SN_UPDATER_TRANSACTION
}.

(** The state blocks of the other clients. *)
Definition others g sid : list SnClientState := blocks (delete sid (fst <$> ws_clients g)).

Lemma client_state g sid c : ws_ok g -> ws_clients g !! sid = Some c -> state_ok (others g sid) (as_client sid c g).
Proof.
  intros Hok Hc. destruct (w_sys _ Hok) as [Hs _]. apply (proj1 (state_current (sn_sys g) sid (fst c) ltac:(cbn; by rewrite lookup_fmap, Hc))) in Hs. exact Hs.
Qed.

(** ** Timestamps of updaters *)

Lemma updater_active g sid c v : ws_ok g -> ws_clients g !! sid = Some (c, v) -> statusAndType c = SN_UPDATER_TRANSACTION -> cl_timestamp c ∈ ts_active (ws_list g).
Proof.
  intros Hok Hc Hs. destruct (client_state g sid _ Hok Hc) as (_ & fut & lv & _ & [_ _ Hu] & _). cbn in Hu. rewrite Hu. unfold is_updater at 1. rewrite Hs. cbn. left.
Qed.

Lemma updater_unique g sid c v sid' c' v' : ws_ok g -> ws_clients g !! sid = Some (c, v) -> ws_clients g !! sid' = Some (c', v') ->
  statusAndType c = SN_UPDATER_TRANSACTION -> statusAndType c' = SN_UPDATER_TRANSACTION -> cl_timestamp c = cl_timestamp c' -> sid = sid'.
Proof.
  intros Hok Hc Hc' Hs Hs' E. destruct (decide (sid = sid')) as [|Hne]; [done|]. exfalso. destruct (client_state g sid _ Hok Hc) as (_ & fut & lv & (_ & Hl & _) & [_ _ Hu] & _).
  assert (Hnd := older_NoDup _ (ls_acts _ _ _ _ Hl)). cbn in Hu, Hnd. rewrite Hu in Hnd. unfold is_updater at 1 in Hnd. rewrite Hs in Hnd. cbn in Hnd. apply NoDup_cons in Hnd as [Hn _]. apply Hn.
  rewrite E. apply list_elem_of_fmap. exists c'. split; [done|]. apply list_elem_of_In, filter_In. split; [|unfold is_updater; by rewrite Hs'].
  unfold blocks. apply in_map_iff. exists (sid', c'). split; [done|]. apply list_elem_of_In, elem_of_map_to_list. rewrite lookup_delete_ne by done. by rewrite lookup_fmap, Hc'.
Qed.

Lemma pend_active g : ws_ok g -> all_active (ws_list g) (pend (ws_clients g)).
Proof. intros Hok s o f Hin. apply pend_in in Hin as (c & v & fs & Hc & Hs & _ & _ & -> & _). by apply (updater_active g s c v). Qed.

(** The functions of the other clients. *)
Lemma pend_others g sid c v s' o' f' : ws_ok g -> ws_clients g !! sid = Some (c, v) -> statusAndType c = SN_UPDATER_TRANSACTION ->
  (s', (o', f')) ∈ pend (delete sid (ws_clients g)) -> o' <> cl_timestamp c /\ o' ∈ ts_active (ws_list g).
Proof.
  intros Hok Hc Hs Hin. apply pend_in in Hin as (c' & v' & fs & Hc' & Hs' & _ & _ & -> & _). apply lookup_delete_Some in Hc' as [Hne Hc']. split.
  - intros E. apply Hne. by apply (updater_unique g sid c v s' c' v').
  - by apply (updater_active g s' c' v').
Qed.

Lemma quiet_pend g : ws_ok g -> ws_phase g <> CK_NONE -> pend (ws_clients g) = [].
Proof.
  intros Hok Hp. destruct (pend (ws_clients g)) as [|[s [o f]] l] eqn:E; [done|]. exfalso. assert (Hin : (s, (o, f)) ∈ pend (ws_clients g)) by (rewrite E; left).
  apply pend_in in Hin as (c & v & fs & Hc & Hs & _). by apply (w_quiet _ Hok Hp s c v).
Qed.
End System.

(** * Calls of clients on blocks

    [WuAllocateDataBlock], [WuCreateBlockVersion], [WuDeleteBlock],
    [WuGetBlock] and the writes of a transaction (WuApi.v) keep the invariant of
    WuSystem.v, and nobody else notices them. *)
Section Steps.
Context {D A : Type} `{AllocatorOk D A} (approve : Z -> XPTR -> bool).
Abbreviation state := (sn_state (ve_world D A)).
Implicit Types g : wsys D A.

(** ** The state of a client and back *)

(** Nobody notices the step. *)
Definition unnoticed g g' : Prop := old_reads (wpages g) (wpages g') /\ same_committed (wpages g) (wpages g').

Lemma unnoticed_trans g1 g2 g3 : unnoticed g1 g2 -> unnoticed g2 g3 -> unnoticed g1 g3.
Proof. intros [H1 C1] [H2 C2]. split; [by apply (old_trans _ (wpages g2))|]. intros x c. by rewrite (C2 x c), (C1 x c). Qed.

Lemma for_client_run {R} sid (f : wu state R) g r g' : for_client sid f g = Done r g' ->
  exists c v st, ws_clients g !! sid = Some (c, v) /\ f (as_client sid (c, v) g) = Done r st /\ g' = back_client sid g st.
Proof.
  unfold for_client. destruct (ws_clients g !! sid) as [[c v]|]; [|done]. destruct (f (as_client sid (c, v) g)) as [r' st|e st] eqn:Hf; [|done]. intros [= <- <-]. by exists c, v, st.
Qed.

Lemma with_swapped_run {R} (f : wu (wsys D A) R) g r x g' : with_swapped f g = Done (r, x) g' ->
  exists g1 l, f g = Done r g1 /\ g' = set_ws_bm (set_swapped l (ws_bm g1)) g1.
Proof.
  unfold with_swapped. destruct (f g) as [r1 g1|e g1]; [|by destruct (PopSwappedXptr _)]. unfold PopSwappedXptr. destruct (swapped (ws_bm g1)) as [|y l] eqn:E; intros [= <- <- <-].
  - exists g1, []. split; [done|]. unfold set_ws_bm, set_swapped. rewrite <- E. by destruct (ws_bm g1).
  - by exists g1, l.
Qed.

Lemma ws_calm g b' : ws_ok g -> bm_ok b' -> calm (ws_bm g) b' -> ws_ok (set_ws_bm b' g) /\ unnoticed g (set_ws_bm b' g).
Proof.
  intros [K1 K2 K3 K4 K5 K6 K7] Hok Hc. split; [constructor; auto; by apply (good_calm _ _ _ _ (ws_bm g))|]. split.
  - intros v Hv. split; [done|]. intros x c. by apply calm_reads.
  - intros x c. by apply calm_reads.
Qed.

Lemma ws_swapped g l : ws_ok g -> let g' := set_ws_bm (set_swapped l (ws_bm g)) g in ws_ok g' /\ unnoticed g g'.
Proof. intros Hok. destruct (set_swapped_ok l (ws_bm g) (g_bm _ _ _ _ _ (w_good _ Hok))) as [H1 H2]. by apply ws_calm. Qed.

(** What a client is, besides its functions. *)
Record client_fits (ph : checkpoint_phase) (c : SnClientState) (v : VeClientState) : Prop := {
  cf_status : In (statusAndType c) [1; 2; 3];
  cf_updater : statusAndType c = SN_UPDATER_TRANSACTION -> exists fs, functionList v = Some fs /\ free_last fs;
  cf_reader : statusAndType c = SN_READ_ONLY_TRANSACTON -> functionList v = None;
  cf_ended : statusAndType c = SN_COMPLETED_TRANSACTION -> isCompleted v = true;
  cf_quiet : ph <> CK_NONE -> statusAndType c <> SN_UPDATER_TRANSACTION
}.

Lemma ws_client_fits g sid c v : ws_ok g -> ws_clients g !! sid = Some (c, v) -> client_fits (ws_phase g) c v.
Proof.
  intros Hok Hc. split; [|by apply (w_updater _ Hok sid c v)|by apply (w_reader _ Hok sid c v)|by apply (w_ended _ Hok sid c v)|by intros Hp; apply (w_quiet _ Hok Hp sid c v)].
  apply (sy_status _ (w_sys _ Hok) sid). cbn. by rewrite lookup_fmap, Hc.
Qed.

Lemma ws_back_client sid g st c' v' : ws_ok g -> block st = Some c' -> ve_block (world st) = Some v' -> 0 <= sid < nClientsMax (ws_list g) ->
  good (synced g) (snapshots st) (clock st) (fns_of (sid, (c', v')) ++ pend (delete sid (ws_clients g))) (ve_bm (world st)) ->
  state_ok (others g sid) st -> nClientsMax (snapshots st) = nClientsMax (ws_list g) -> client_fits (ws_phase g) c' v' -> ws_ok (back_client sid g st).
Proof.
  intros Hok Hb Hv Hsid Hg Hst Hn Hfit. unfold back_client, back. rewrite Hb, Hv. constructor; cbn.
  - apply (good_perm _ _ _ (fns_of (sid, (c', v')) ++ pend (delete sid (ws_clients g)))); [apply pend_insert|done].
  - split; cbn.
    + unfold sn_sys. cbn. rewrite fmap_insert. apply (state_back sid (fst <$> ws_clients g) st c' Hb). unfold others in Hst. exact Hst.
    + intros s b. rewrite fmap_insert. cbn. rewrite lookup_insert_Some. intros [[<- <-]|[Hne Hs]]; [by apply (cf_status _ _ _ Hfit)|]. by apply (sy_status _ (w_sys _ Hok) s).
  - intros s c. rewrite Hn, lookup_insert_Some. intros [[<- _]|[_ Hs]]; [done|by apply (w_ids _ Hok s c)].
  - intros s c v. rewrite lookup_insert_Some. intros [[<- [= <- <-]]|[_ Hs]]; [apply Hfit|by apply (w_updater _ Hok s c v)].
  - intros s c v. rewrite lookup_insert_Some. intros [[<- [= <- <-]]|[_ Hs]]; [apply Hfit|by apply (w_reader _ Hok s c v)].
  - intros s c v. rewrite lookup_insert_Some. intros [[<- [= <- <-]]|[_ Hs]]; [apply Hfit|by apply (w_ended _ Hok s c v)].
  - intros Hp s c v. rewrite lookup_insert_Some. intros [[<- [= <- <-]]|[_ Hs]]; [by apply Hfit|by apply (w_quiet _ Hok Hp s c v)].
Qed.

(** An updater at work. *)
Lemma ws_updater g sid c v : ws_ok g -> ws_clients g !! sid = Some (c, v) -> statusAndType c = SN_UPDATER_TRANSACTION -> isCompleted v = false ->
  exists fs, functionList v = Some fs /\ free_last fs /\ pend (ws_clients g) ≡ₚ tag sid (cl_timestamp c) fs ++ pend (delete sid (ws_clients g)).
Proof.
  intros Hok Hc Hs Hn. destruct (w_updater _ Hok sid c v Hc Hs) as (fs & Hf & Hl). exists fs. split; [done|]. split; [done|].
  rewrite (pend_lookup _ _ _ Hc) at 1. cbn. by rewrite Hs, Hn, Hf.
Qed.

(** A function more. *)
Lemma pend_add g sid c v f fs : ws_clients g !! sid = Some (c, v) -> statusAndType c = SN_UPDATER_TRANSACTION -> isCompleted v = false -> functionList v = Some fs ->
  fns_of (sid, (c, add_function f v)) ++ pend (delete sid (ws_clients g)) ≡ₚ (sid, (cl_timestamp c, f)) :: pend (ws_clients g).
Proof.
  intros Hc Hs Hn Hf. rewrite (pend_lookup _ _ _ Hc). cbn. rewrite Hs, Hn, Hf. cbn. unfold tag. rewrite map_app. cbn. rewrite <- app_assoc. symmetry. apply Permutation_middle.
Qed.

Lemma free_last_add fs f : free_last fs -> (forall f', f' ∈ fs -> is_free_block (vf_type f') = true -> vf_lxptr f <> vf_lxptr f') -> free_last (fs ++ [f]).
Proof.
  induction fs as [|h fs IH]; cbn; [intros _ _; split; [by intros _|done]|]. intros [H1 H2] Hf. split; [|apply IH; [done|]; intros f' Hf'; apply Hf; by right].
  intros E. apply Forall_app. split; [by apply H1|]. constructor; [|done]. apply Hf; [left|done].
Qed.

(** The function is new, and the rest as before. *)
Lemma ws_function sid g c v fs f st : ws_ok g -> ws_clients g !! sid = Some (c, v) -> statusAndType c = SN_UPDATER_TRANSACTION -> isCompleted v = false -> functionList v = Some fs ->
  snapshots st = ws_list g -> clock st = ws_clock g -> block st = Some c -> ve_block (world st) = Some (add_function f v) ->
  good (synced g) (ws_list g) (ws_clock g) ((sid, (cl_timestamp c, f)) :: pend (ws_clients g)) (ve_bm (world st)) ->
  (forall f', f' ∈ fs -> is_free_block (vf_type f') = true -> vf_lxptr f <> vf_lxptr f') -> ws_ok (back_client sid g st).
Proof.
  intros Hok Hc Hs Hn Hf El Ec Eb Ev Hg Hlast. destruct (w_updater _ Hok sid c v Hc Hs) as (fs' & Hf' & Hfl). rewrite Hf in Hf'. injection Hf' as <-.
  apply (ws_back_client sid g st c (add_function f v) Hok Eb Ev); [by apply (w_ids _ Hok sid (c, v))| | |by rewrite El|].
  - rewrite El, Ec. eapply good_perm; [by apply (pend_add g sid c v f fs)|done].
  - assert (K := client_state g sid _ Hok Hc). destruct st as [l ck bk w]. cbn in El, Ec, Eb. subst l ck bk. exact K.
  - destruct (ws_client_fits g sid c v Hok Hc) as [F1 F2 F3 F4 F5]. split; [done| | | |done].
    + intros _. exists (fs ++ [f]). cbn. rewrite Hf. split; [done|]. by apply free_last_add.
    + intros E. cbn. rewrite Hs in E. done.
    + intros E. rewrite Hs in E. done.
Qed.

(** ** What is asked of a transaction

    The locks of documents (Locks.v) keep a transaction off the blocks another
    one works on, and no transaction follows a pointer to a deleted block. *)
Definition in_use g (x : XPTR) : Prop := exists t0 old, master (wpages g) x t0 old.

Definition works_on g (sid : Z) (x : XPTR) : Prop := exists c v, ws_clients g !! sid = Some (c, v) /\ deletable (wpages g) (cl_timestamp c) x.

(** An updater that is not done, in its own view. *)
Lemma updater_state sid c v g t : ws_clients g !! sid = Some (c, v) -> block (as_client sid (c, v) g) = Some (mk_client t SN_UPDATER_TRANSACTION) ->
  c = mk_client t SN_UPDATER_TRANSACTION.
Proof. intros _ E. cbn in E. by injection E. Qed.

(** Its own deletions. *)
Lemma own_deletions g sid c v fs x o : ws_clients g !! sid = Some (c, v) -> statusAndType c = SN_UPDATER_TRANSACTION -> isCompleted v = false -> functionList v = Some fs ->
  deletable (wpages g) o x -> forall f, f ∈ fs -> is_free_block (vf_type f) = true -> x <> vf_lxptr f.
Proof.
  intros Hc Hs Hn Hf Hd f Hin Ef E. apply (dl_pending _ _ _ Hd (cl_timestamp c) f); [|done|done]. apply list_elem_of_fmap. exists (sid, (cl_timestamp c, f)). split; [done|].
  apply pend_in. by exists c, v, fs.
Qed.

(** ** Allocation *)

Lemma allocate_step sid g r g' : ws_ok g -> WuAllocateDataBlock approve sid g = Done r g' -> ws_ok g' /\ unnoticed g g'.
Proof.
  intros Hok Hr. destruct r as [[x id] sw]. apply with_swapped_run in Hr as (g1 & l & Hr & ->). apply for_client_run in Hr as (c & v & st & Hc & Hr & ->).
  assert (Hg := w_good _ Hok). destruct (alloc_run approve (as_client sid (c, v) g) x id st (g_bm _ _ _ _ _ Hg) (g_alloc _ _ _ _ _ Hg) Hr) as (t & v' & b' & d & Hb & Hv & Hn & [fs Hf] & -> & Hbok & Halk & Hfx & Hx0 & Hd & Hfr & Hc' & Hvd & Hpd & Hhd & Htr).
  cbn in Hb, Hv. injection Hb as ->. injection Hv as <-. cbn in Hbok, Hfx, Hfr, Hc', Htr.
  set (f := mk_function x x INVALID_TIMESTAMP VE_FUNCTION_ALLOCATE_BLOCK) in *.
  destruct (good_alloc (synced g) (ws_list g) (ws_clock g) (pend (ws_clients g)) (ws_bm g) b' sid t x d Hg) as (Hg' & Ho' & Hs'); try done; [by apply (updater_active g sid _ v Hok Hc)|].
  cbn [cl_timestamp] in *. fold f in Hg', Ho', Hs'.
  assert (Hok1 : ws_ok (back_client sid g (mk_sn (ws_list g) (ws_clock g) (Some (mk_client t SN_UPDATER_TRANSACTION)) (mk_ve b' (ws_hash g) (Some (add_function f v)) sid)))).
  { apply (ws_function sid g _ v fs f _ Hok Hc); try done. intros f' Hf' Ef' E. destruct (fn_in_use _ _ _ _ _ sid t f' Hg) as [Hu _]; [apply pend_in; by exists (mk_client t SN_UPDATER_TRANSACTION), v, fs|]. apply Hu. rewrite <- E. exact Hfx. }
  destruct (ws_swapped _ l Hok1) as [K1 K2]. split; [exact K1|]. eapply unnoticed_trans; [|exact K2]. split; [exact Ho'|exact Hs'].
Qed.

(** ** New versions *)

Lemma create_step sid x g r g' : ws_ok g -> works_on g sid x -> WuCreateBlockVersion approve sid x g = Done r g' -> ws_ok g' /\ unnoticed g g'.
Proof.
  intros Hok (c & v & Hc & Hdel) Hr. destruct r as [id sw]. apply with_swapped_run in Hr as (g1 & l & Hr & ->). apply for_client_run in Hr as (c' & v' & st & Hc' & Hr & ->).
  rewrite Hc in Hc'. injection Hc' as <- <-. destruct (negb (IS_DATA_BLOCK x)); [done|]. assert (Hg := w_good _ Hok). destruct (dl_master _ _ _ Hdel) as (t0 & old & Hm & _).
  destruct (create_head approve (synced g) (pend (ws_clients g)) (as_client sid (c, v) g) x t0 old id st Hg Hm Hr)
    as (t & v1 & pg & src & a & es & b1 & Hb & Hv & Hn & Hl & Hver & Ht0 & Ea & Hlen & Hsub & Hes & Htail).
  cbn in Hb, Hv. injection Hb as ->. injection Hv as <-. cbn [cl_timestamp] in Hdel.
  assert (Hsy : synced g = true). { destruct (ws_phase g) eqn:Eph; unfold synced; rewrite Eph; try done. exfalso. by apply (w_quiet _ Hok ltac:(by rewrite Eph) sid _ v Hc). } rewrite Hsy in Hg.
  destruct (tail_run approve (as_client sid (mk_client t SN_UPDATER_TRANSACTION, v) g) b1 x src pg t t0 es a _ v id st (g_bm _ _ _ _ _ Hg) (g_alloc _ _ _ _ _ Hg) (g_stake _ _ _ _ _ Hg) (proj1 Hm) Hl Hlen eq_refl Htail) as (p & b' & Hcr & [fs Hf] & ->). cbn in Hcr.
  assert (Hview := loaded_view _ _ _ _ _ Hl). cbn in Hview.
  assert (Hx := conj (create_good (ws_list g) (ws_clock g) (pend (ws_clients g)) (ws_bm g) b' sid t x p a t0 _ old es (content_of pg) Hg (updater_active g sid _ v Hok Hc eq_refl) (pend_active g Hok) Hview Hver Ht0 Hdel Hcr Hlen Hsub Hes Ea eq_refl)
    (create_reads (ws_list g) (ws_clock g) (pend (ws_clients g)) (ws_bm g) b' sid t x p a t0 _ old es (content_of pg) Hg (updater_active g sid _ v Hok Hc eq_refl) Hview Hver Hdel Hcr Hlen Hsub Hes)).
  destruct Hx as (Hg' & Ho' & Hs'). match goal with |- context [add_function ?f v] => set (f0 := f) in * end.
  assert (Hok1 : ws_ok (back_client sid g (mk_sn (ws_list g) (ws_clock g) (Some (mk_client t SN_UPDATER_TRANSACTION)) (mk_ve b' (ws_hash g) (Some (add_function f0 v)) sid)))).
  { apply (ws_function sid g _ v fs f0 _ Hok Hc); try done; [by rewrite Hsy|]. by apply (own_deletions g sid _ v fs x t Hc). }
  destruct (ws_swapped _ l Hok1) as [K1 K2]. split; [exact K1|]. eapply unnoticed_trans; [|exact K2]. split; [exact Ho'|exact Hs'].
Qed.

(** ** Deletion *)

Lemma delete_step sid x g g' : ws_ok g -> works_on g sid x -> WuDeleteBlock sid x g = Done tt g' -> ws_ok g' /\ unnoticed g g'.
Proof.
  intros Hok (c & v & Hc & Hdel) Hr. apply for_client_run in Hr as (c' & v' & st & Hc' & Hr & ->). rewrite Hc in Hc'. injection Hc' as <- <-. assert (Hg := w_good _ Hok).
  destruct (dl_master _ _ _ Hdel) as (t0 & old & Hm & _). rewrite (g_data _ _ _ _ _ Hg x x t0 old Hm) in Hr. cbn [negb] in Hr.
  destruct (free_block_run (as_client sid (c, v) g) x st (g_bm _ _ _ _ _ Hg) Hr) as (t & v1 & a & Hb & Hv & Hn & [fs Hf] & Ha & ->). cbn in Hb, Hv. injection Hb as ->. injection Hv as <-. cbn [cl_timestamp] in Hdel.
  destruct (good_delete (synced g) (pend (ws_clients g)) (as_client sid (mk_client t SN_UPDATER_TRANSACTION, v) g) sid t x a Hg Hdel Ha) as (Hg' & Ho' & Hs').
  split; [|split; [exact Ho'|exact Hs']]. apply (ws_function sid g _ v fs (mk_function x x a VE_FUNCTION_FREE_BLOCK) _ Hok Hc); try done. by apply (own_deletions g sid _ v fs x t Hc).
Qed.

(** ** Access to blocks *)

(** A call that changes the buffers only. *)
Lemma back_bm sid c v g b' : ws_clients g !! sid = Some (c, v) -> back_client sid g (with_bm b' (as_client sid (c, v) g)) = set_ws_bm b' g.
Proof. intros Hc. unfold back_client, back, set_ws_bm. cbn. by rewrite insert_id. Qed.

(** The working version of a block is that of the client with its timestamp. *)
Lemma own_version g sid c v x old : ws_ok g -> ws_clients g !! sid = Some (c, v) -> statusAndType c = SN_UPDATER_TRANSACTION -> master (wpages g) x (cl_timestamp c) old ->
  exists f, (sid, (cl_timestamp c, f)) ∈ pend (ws_clients g) /\ is_working f = true /\ vf_lxptr f = x.
Proof.
  intros Hok Hc Hs Hm. destruct (i_work _ (g_iso _ _ _ _ _ (w_good _ Hok)) _ _ _ Hm) as (f & Hin & Ef & Hw); [by apply (updater_active g sid c v)|].
  apply list_elem_of_fmap in Hin as ([s p] & E & Hin). cbn in E. subst p. exists f. split; [|done]. assert (Hin' := Hin). apply pend_in in Hin' as (c' & v' & fs & Hc' & Hs' & _ & _ & E & _).
  by rewrite (updater_unique g sid c v s c' v' Hok Hc Hc' Hs Hs' E).
Qed.

Lemma ws_good_bm g b' : ws_ok g -> good (synced g) (ws_list g) (ws_clock g) (pend (ws_clients g)) b' -> ws_ok (set_ws_bm b' g).
Proof. intros [K1 K2 K3 K4 K5 K6 K7] Hg. by constructor. Qed.

(** The buffers after an access. *)
Definition accessed g b' : Prop := good (synced g) (ws_list g) (ws_clock g) (pend (ws_clients g)) b'
  /\ old_reads (wpages g) (pages (ws_list g) (ws_clock g) (pend (ws_clients g)) b') /\ same_committed (wpages g) (pages (ws_list g) (ws_clock g) (pend (ws_clients g)) b').

(** A reader gets what its snapshot reads. *)
Lemma get_by_reader sid c v x g id out a st : ws_ok g -> statusAndType c = SN_READ_ONLY_TRANSACTON ->
  PutBlockVersionToBuffer approve false true x (as_client sid (c, v) g) = Done (id, out, a) st ->
  exists b' pg, st = with_bm b' (as_client sid (c, v) g) /\ frames b' !! id = Some pg /\ accessed g b'
    /\ forall s, s ∈ from_current (ws_list g) -> timestamp s = cl_timestamp c -> forall d, reads (wpages g) (snap_of s) x d -> content_of pg = d.
Proof.
  intros Hok E H1. assert (Hg := w_good _ Hok). set (st0 := as_client sid (c, v) g) in *. assert (Hbm : bm_ok (ve_bm (world st0))) by apply Hg.
  assert (Hb : block st0 = Some (mk_client (cl_timestamp c) SN_READ_ONLY_TRANSACTON)) by (cbn; destruct c; cbn in E; by rewrite <- E).
  destruct (reader_run _ _ _ _ _ _ _ _ Hbm Hb H1) as (i1 & p1 & b1 & i & y & pg2 & b2 & Hl1 & _ & _ & _ & _ & _ & Hl2 & _ & ->).
  assert (Hl := loaded_trans _ _ _ _ _ _ _ _ _ Hl1 Hl2). exists b2, pg2. split; [done|]. split; [apply Hl|]. split; [exact (loaded_good (synced g) (pend (ws_clients g)) st0 y id pg2 b2 Hg Hl)|].
  intros s Hs Ets d Hrd. destruct (get_reader approve (synced g) (pend (ws_clients g)) st0 x (cl_timestamp c) s id out a (with_bm b2 st0) Hg Hb Hs Ets H1) as (b3 & pg3 & y3 & E3 & Hl3 & Hrd3).
  assert (Eb : b2 = b3) by (assert (K := f_equal (fun s => ve_bm (world s)) E3); by cbn in K). subst b3. destruct Hl3 as (_ & _ & _ & Hp3). destruct Hl as (_ & _ & _ & Hp2). rewrite Hp2 in Hp3. injection Hp3 as ->. by apply Hrd3.
Qed.

(** An updater gets the block as it is. *)
Lemma get_by_updater sid c v x g id out a st : ws_ok g -> ws_clients g !! sid = Some (c, v) -> statusAndType c = SN_UPDATER_TRANSACTION -> in_use g x ->
  PutBlockVersionToBuffer approve false true x (as_client sid (c, v) g) = Done (id, out, a) st ->
  exists b' pg, st = with_bm b' (as_client sid (c, v) g) /\ frames b' !! id = Some pg /\ accessed g b' /\ view (ws_bm g) x = Some (content_of pg).
Proof.
  intros Hok Hc E (t0 & old & Hm) H1. assert (Hg := w_good _ Hok). set (st0 := as_client sid (c, v) g) in *. assert (Hbm : bm_ok (ve_bm (world st0))) by apply Hg.
  assert (Hb : block st0 = Some (mk_client (cl_timestamp c) SN_UPDATER_TRANSACTION)) by (cbn; destruct c; cbn in E; by rewrite <- E).
  destruct (updater_run _ _ _ _ _ _ _ _ Hbm Hb H1) as (pg & b1 & Hl & _ & _ & Hgr). assert (Hview := loaded_view _ _ _ _ _ Hl). cbn in Hview.
  destruct (loaded_good (synced g) (pend (ws_clients g)) st0 x id pg b1 Hg Hl) as (G1 & G2 & G3).
  destruct (_ =? _); [|exists b1, pg; split; [done|]; split; [apply Hl|]; by split].
  destruct Hgr as (Hcr & b2 & Hg2 & ->). destruct Hm as (Hfx & c0 & Hv0 & Hver). cbn in Hv0, Hfx. rewrite Hview in Hv0. injection Hv0 as <-.
  assert (t0 = cl_timestamp c) as ->. { destruct (version_creators _ _ _ _ Hver) as [Ecr _]. cbn in Ecr. rewrite Ecr in Hcr. cbn in Hcr. by injection Hcr. }
  destruct (own_version g sid c v x old Hok Hc E) as (f & Hin & Hw & Ef); [split; [exact Hfx|]; by exists (content_of pg)|].
  assert (Hl' := Hl). destruct Hl' as (_ & Hcalm & Ht & Hfr). cbn in Hcalm, Hg2.
  destruct (good_grant (synced g) (ws_list g) (ws_clock g) (pend (ws_clients g)) b1 b2 x id sid (cl_timestamp c) f G1) as (J1 & J2 & J3 & J4 & J5 & _); [by rewrite (free_calm _ _ Hcalm)|done|exact Hin|done|done|done|].
  destruct (table_frame b2 x id (g_bm _ _ _ _ _ J1)) as (_ & pg2 & Hpg2 & Hv2 & _); [by rewrite J4|].
  exists b2, pg2. split; [done|]. split; [done|]. split.
  - split; [done|]. split; [by apply (old_trans _ (pages (ws_list g) (ws_clock g) (pend (ws_clients g)) b1))|]. intros y d. exact (iff_trans (J3 y d) (G3 y d)).
  - rewrite J5 in Hv2. by rewrite <- (calm_view _ _ x Hcalm).
Qed.

Lemma get_step sid x g id sw g' : ws_ok g -> IS_DATA_BLOCK x = true -> in_use g x -> WuGetBlock approve sid x g = Done (id, sw) g' ->
  ws_ok g' /\ unnoticed g g' /\ exists c v pg, ws_clients g !! sid = Some (c, v) /\ frames (ws_bm g') !! id = Some pg
    /\ (statusAndType c = SN_UPDATER_TRANSACTION -> view (ws_bm g) x = Some (content_of pg))
    /\ (statusAndType c = SN_READ_ONLY_TRANSACTON -> forall s, s ∈ from_current (ws_list g) -> timestamp s = cl_timestamp c ->
        forall d, reads (wpages g) (snap_of s) x d -> content_of pg = d).
Proof.
  intros Hok Hd Hx Hr. apply with_swapped_run in Hr as (g1 & l & Hr & ->). rewrite Hd in Hr. apply for_client_run in Hr as (c & v & st & Hc & Hr & ->).
  unfold VePutBlockToBuffer in Hr. run_step Hr [[id' out] a] s1 H1. injection Hr as -> ->.
  assert (K : exists b' pg, st = with_bm b' (as_client sid (c, v) g) /\ frames b' !! id = Some pg /\ accessed g b'
    /\ (statusAndType c = SN_UPDATER_TRANSACTION -> view (ws_bm g) x = Some (content_of pg))
    /\ (statusAndType c = SN_READ_ONLY_TRANSACTON -> forall s, s ∈ from_current (ws_list g) -> timestamp s = cl_timestamp c -> forall d, reads (wpages g) (snap_of s) x d -> content_of pg = d)).
  { destruct (version_run approve x (as_client sid (c, v) g) id out a st (g_bm _ _ _ _ _ (w_good _ Hok)) H1) as (v1 & c1 & i1 & p1 & b1 & _ & Hc1 & _ & Hne & _). cbn in Hc1. injection Hc1 as <-. clear i1 p1 b1.
    destruct (cf_status _ _ _ (ws_client_fits g sid c v Hok Hc)) as [E|[E|[E|[]]]]; [| |by destruct Hne].
    - destruct (get_by_updater sid c v x g id out a st Hok Hc (eq_sym E) Hx H1) as (b' & pg & K1 & K2 & K3 & K4). exists b', pg. do 4 (split; [done|]). intros E'. by rewrite <- E in E'.
    - destruct (get_by_reader sid c v x g id out a st Hok (eq_sym E) H1) as (b' & pg & K1 & K2 & K3 & K4). exists b', pg. do 3 (split; [done|]). split; [|done]. intros E'. by rewrite <- E in E'. }
  destruct K as (b' & pg & -> & Hfr & (Hg' & Ho' & Hs') & Hu & Hrd). rewrite (back_bm sid c v g b' Hc). assert (Hok1 := ws_good_bm g b' Hok Hg').
  destruct (ws_swapped _ l Hok1) as [K1 K2]. split; [exact K1|]. split; [eapply unnoticed_trans; [|exact K2]; by split|]. by exists c, v, pg.
Qed.

(** ** Writes *)

Lemma write_step sid x d g g' : ws_ok g -> in_use g x -> 0 <= sid -> write_page sid x d g = Done tt g' -> ws_ok g' /\ unnoticed g g'.
Proof.
  intros Hok (t0 & old & Hm) Hsid Hr. unfold write_page in Hr. destruct (buffer_table (ws_bm g) !! x) as [id|] eqn:Ht; [|done]. destruct (frames (ws_bm g) !! id) as [pg|] eqn:Hpg; [|done].
  destruct (Z.eqb_spec (pg_trid pg) sid) as [E|]; [|done]. injection Hr as <-. assert (Hx : ~ is_free (ws_bm g) x) by apply Hm.
  destruct (good_write (synced g) (ws_list g) (ws_clock g) (pend (ws_clients g)) (ws_bm g) x id pg d (w_good _ Hok) (pend_active g Hok) Ht Hpg) as (G1 & G2 & G3); [lia|done|].
  split; [by apply ws_good_bm|by split].
Qed.
End Steps.
