(* ===== verification/WuTrans.v ===== *)
(** * Transactions, snapshots and checkpoints

    [WuOnRegisterTransaction], the ends of transactions,
    [WuTryAdvanceSnapshots] and the checkpoint (WuApi.v) keep the invariant of
    WuSystem.v.  A commit changes the last committed state to what the
    transaction did; nothing else does. *)

From Stdlib Require Import ZArith List Lia Bool Sorted.
From stdpp Require Import base gmap list sets sorting.
From S2P Require Import Prelude WuBase Snapshots SnGc SnApi SnInv SnPurify SnOps SnEvolve SnExpand SnSystem SnReach Buffers Versions BufInv BufOps BufSwap IsoHeader Iso IsoList IsoCommit IsoUpdate WuFree WuGood WuCalls WuCkpt VeAlloc VeCreate VeCommit VeRollback WuApi WuSystem.
Local Open Scope sedna_scope.
Local Open Scope Z_scope.

(** ** Rows of the table *)

Lemma keys_fit {B} (m : gmap Z B) n sid : (forall s c, m !! s = Some c -> 0 <= s < n) -> m !! sid = None -> 0 <= sid < n -> Z.of_nat (size m) < n.
Proof.
  intros Hids Hn Hsid. assert (Hl : (length (sid :: map fst (map_to_list m)) <= length (seqZ 0 n))%nat).
  { apply submseteq_length, NoDup_submseteq.
    - apply NoDup_cons. split; [|apply NoDup_fst_map_to_list]. intros Hin. apply list_elem_of_fmap in Hin as ([s c] & E & Hin). cbn in E. subst s. apply elem_of_map_to_list in Hin. congruence.
    - intros s Hs. apply elem_of_seqZ. apply elem_of_cons in Hs as [->|Hs]; [lia|]. apply list_elem_of_fmap in Hs as ([s' c] & E & Hin). cbn in E. subst s'. apply elem_of_map_to_list in Hin. apply Hids in Hin. lia. }
  rewrite length_seqZ in Hl. cbn in Hl. rewrite length_map, length_map_to_list in Hl. lia.
Qed.

Lemma register_max {W} u (st : sn_state W) r st' : SnOnRegisterClient false u st = Done r st' -> nClientsMax (snapshots st') = nClientsMax (snapshots st).
Proof.
  unfold SnOnRegisterClient. intros Hr. apply wu_bind_Done in Hr as (c & s1 & H1 & Hr). unfold ImpGetCurrentStateBlock in H1. destruct (block st); [|done]. injection H1 as <- <-.
  destruct u.
  - apply wu_bind_Done in Hr as (s2 & s1 & [= <- <-] & Hr). destruct (GetCurrentSnapshot (snapshots st)) as [[p cur]|]; [|done]. destruct (isDamaged cur); [done|]. cbn in Hr. by injection Hr as <- <-.
  - apply wu_bind_Done in Hr as (ts & s1 & H1 & Hr). assert (E1 : snapshots s1 = snapshots st) by (unfold get_client_timestamp, WuGetTimestamp in H1; destruct (negb _); [done|]; by injection H1 as _ <-).
    unfold wu_bind, wu_ignore, on_list in Hr. unfold AddActiveTimestamp in Hr. rewrite E1 in Hr. destruct (negb _); cbn in Hr; [by injection Hr as <- <-; rewrite <- E1|].
    destruct (_ =? _); cbn in Hr; injection Hr as <- <-; cbn; [by rewrite E1|done].
Qed.

(** A reader less. *)
Lemma occupied_less clk L fut lv s p s' : split_ok clk L fut lv -> s ∈ lv -> 0 < occupancy s -> GetSnapshotByTimestamp L (timestamp s) = Some (p, s') ->
  exists lv', split_ok clk (add_occupancy (-1) p L) fut lv'.
Proof.
  intros Hsp Hs Hocc Hget. assert (Hsp' := Hsp). destruct Hsp' as (Hl & Hok & _).
  assert (Ht : timestamp s ∈ map timestamp lv) by (apply list_elem_of_fmap; eauto).
  destruct (find_live _ _ _ _ Hl (ls_future _ _ _ _ Hok) (ls_live _ _ _ _ Hok) Ht) as (l1 & s0 & l2 & -> & Es & _ & Hget').
  rewrite Hget in Hget'. injection Hget' as -> ->. assert (s = s0) as ->.
  { apply (timestamps_inj (l1 ++ s0 :: l2)); [by apply (split_NoDup _ _ _ _ Hsp)| | |congruence]; first [done|rewrite elem_of_app, elem_of_cons; tauto]. }
  assert (Hlive : live_ok s0). { assert (K := ls_live _ _ _ _ Hok). rewrite Forall_app, Forall_cons in K. tauto. }
  destruct (occupancy_step clk L fut l1 s0 l2 (-1) Hsp) as [Hsp2 _]; [lia|intros Hd; assert (K := lv_damaged _ Hlive Hd); lia|]. eauto.
Qed.

Section Steps.
Context {D A : Type} `{AllocatorOk D A} (approve : Z -> XPTR -> bool).
Abbreviation state := (sn_state (ve_world D A)).
Implicit Types g : wsys D A.

(** ** Readers and their snapshots *)

Lemma reader_occupied g sid c v : ws_ok g -> ws_clients g !! sid = Some (c, v) -> statusAndType c = SN_READ_ONLY_TRANSACTON ->
  exists s, s ∈ undamaged_live (ws_list g) /\ s ∈ from_current (ws_list g) /\ timestamp s = cl_timestamp c /\ 0 < occupancy s.
Proof.
  intros Hok Hc Hs. destruct (client_state g sid _ Hok Hc) as (_ & fut & lv & Hsp & Hcl & _). destruct (split_current _ _ _ _ Hsp) as [_ Ecur]. cbn in Hcl, Ecur, Hsp.
  destruct (reader_snapshot _ _ fut lv _ c (proj1 (proj2 Hsp)) Hcl) as (s & Hin & Et & Hd); [left|done|]. exists s. rewrite <- Ecur in Hin. split; [|split; [done|split; [done|]]].
  - apply list_elem_of_In, filter_In. split; [by apply list_elem_of_In|]. by rewrite Hd.
  - rewrite Ecur in Hin. assert (Ho : (timestamp s, occupancy s) ∈ occupancies lv) by (apply list_elem_of_fmap; by exists s).
    apply (cl_readers _ _ _ Hcl) in Ho. rewrite Ho. cbn [List.filter]. unfold is_reader at 1. rewrite Hs, Et, !Z.eqb_refl. cbn. lia.
Qed.

(** ** Registration *)

Lemma fresh_state g sid : ws_ok g -> ws_clients g !! sid = None -> 0 <= sid < nClientsMax (ws_list g) ->
  state_ok (others g sid) (as_client sid (zero_client, zero_ve_client) g) /\ (Z.of_nat (length (ts_active (ws_list g))) < nClientsMax (ws_list g)).
Proof.
  intros Hok Hn Hsid. destruct (w_sys _ Hok) as [(Hclk & fut & lv & Hsp & Hcl & Hlen) _]. cbn in Hclk, Hsp, Hcl, Hlen.
  assert (Hsz := keys_fit _ _ sid (w_ids _ Hok) Hn Hsid). assert (Hn' : (fst <$> ws_clients g) !! sid = None) by (by rewrite lookup_fmap, Hn).
  assert (Hbl : length (blocks (fst <$> ws_clients g)) = size (ws_clients g)) by (rewrite blocks_length; apply map_size_fmap).
  split; [split; [done|]; exists fut, lv; split; [done|]; unfold others; rewrite delete_id by done; cbn; split; [by apply clients_ok_idle|]; rewrite Hbl; lia|].
  apply updaters_bound in Hcl. rewrite Hbl in Hcl. lia.
Qed.

Lemma delete_new g sid : ws_clients g !! sid = None -> delete sid (ws_clients g) = ws_clients g.
Proof. intros Hn. by apply delete_id. Qed.

Lemma register_step sid u g ts g' : ws_ok g -> (u = false -> ws_phase g = CK_NONE) -> WuOnRegisterTransaction sid u g = Done ts g' ->
  ws_ok g' /\ unnoticed g g' /\ exists c v, ws_clients g' !! sid = Some (c, v)
    /\ (if u then exists s, s ∈ undamaged_live (ws_list g') /\ c = mk_client (timestamp s) SN_READ_ONLY_TRANSACTON
        else c = mk_client (ws_clock g) SN_UPDATER_TRANSACTION /\ functionList v = Some []).
Proof.
  clear approve. intros Hok Hph Hr. unfold WuOnRegisterTransaction in Hr. destruct (_ && _) eqn:Erow; [|done]. cbn [negb] in Hr. apply andb_true_iff in Erow as [E1%Z.leb_le E2%Z.ltb_lt].
  destruct (ws_clients g !! sid) eqn:Hn; [done|]. set (st0 := as_client sid (zero_client, zero_ve_client) g) in *.
  destruct (wu_bind _ _ st0) as [ts' st|e st] eqn:Hrun; [|done]. injection Hr as -> <-. destruct (fresh_state g sid Hok Hn (conj E1 E2)) as [Hst0 Hroom]. fold st0 in Hst0.
  run_step Hrun [] s1 H1. run_step Hrun ts1 s2 H2. run_step Hrun [] s3 H3. injection Hrun as -> ->.
  assert (Hg0 : good_at (synced g) (pend (ws_clients g)) st0) by apply (w_good _ Hok).
  assert (Hblk : exists c, block s1 = Some c /\ (if u then exists s, s ∈ undamaged_live (snapshots s1) /\ c = mk_client (timestamp s) SN_READ_ONLY_TRANSACTON else c = mk_client (ws_clock g) SN_UPDATER_TRANSACTION)
    /\ good_at (synced g) (pend (ws_clients g)) s1 /\ old_reads (wpages g) (pages_at (pend (ws_clients g)) s1) /\ same_committed (wpages g) (pages_at (pend (ws_clients g)) s1)
    /\ world s1 = world st0 /\ state_ok (others g sid) s1).
  { assert (Hkeep : keeps stays (others g sid) st0 (SnOnRegisterClient false u st0)) by (destruct u; [eapply register_reader|eapply register_updater]; done). rewrite H1 in Hkeep. destruct Hkeep as [Hkeep _]. cbn in Hkeep.
    destruct u.
    - destruct (register_reader_good (synced g) (pend (ws_clients g)) st0 s1 tt Hg0 H1) as (G1 & G2 & G3 & _ & G5 & _ & s & Hs & Hb). exists (mk_client (timestamp s) SN_READ_ONLY_TRANSACTON). split; [done|]. split; [by exists s|]. done.
    - destruct (register_updater_good (synced g) (pend (ws_clients g)) st0 s1 tt Hg0 H1 Hroom) as (G1 & G2 & G3 & _ & G5 & _ & Hb). exists (mk_client (ws_clock g) SN_UPDATER_TRANSACTION). done. }
  destruct Hblk as (c & Hb & Hc & Hg1 & Ho1 & Hs1 & Ew1 & Hst1). unfold SnGetTransactionSnapshotTs in H2. run_step H2 c2 s4 H4. unfold ImpGetCurrentStateBlock in H4. rewrite Hb in H4. injection H4 as <- <-. injection H2 as _ <-.
  unfold VeOnRegisterClient in H3. run_step H3 v0 s4 H4. apply ve_block_done in H4 as [-> Hv0]. run_step H3 n s4 H4. apply status_done in H4 as [-> (c3 & Hc3 & ->)]. rewrite Hb in Hc3. injection Hc3 as <-.
  rewrite andb_false_r in H3. unfold put_client, wu_modify in H3. injection H3 as <-.
  set (v := mk_ve_client false false (if statusAndType c =? SN_UPDATER_TRANSACTION then Some [] else None) None) in *.
  assert (Hfit : client_fits (ws_phase g) c v).
  { unfold v. destruct u; [destruct Hc as (s & _ & ->)|rewrite Hc]; cbn; (split; [cbn; tauto|..]); cbn; try done.
    - intros _. by exists [].
    - intros Hne. by destruct (Hne (Hph eq_refl)). }
  assert (Hfns : fns_of (sid, (c, v)) = []) by (unfold v; cbn; by destruct (statusAndType c =? SN_UPDATER_TRANSACTION)).
  assert (Hmax : nClientsMax (snapshots s1) = nClientsMax (ws_list g)) by (apply (register_max u st0 tt s1 H1)).
  split; [|split].
  - apply (ws_back_client sid g _ c v Hok); [exact Hb|done|done| |exact Hst1|exact Hmax|done]. rewrite Hfns, (delete_new g sid Hn). cbn. unfold good_at in Hg1. exact Hg1.
  - unfold back_client, back. cbn. rewrite Hb. split; [exact Ho1|exact Hs1].
  - exists c, v. unfold back_client, back. cbn. rewrite Hb. cbn. rewrite lookup_insert_eq. split; [done|]. destruct u; [exact Hc|]. split; [done|]. by rewrite Hc.
Qed.

(** A reader gets the current snapshot. *)
Lemma register_current sid g ts g' : ws_ok g -> WuOnRegisterTransaction sid true g = Done ts g' ->
  exists s rest v, from_current (ws_list g) = s :: rest /\ isDamaged s = false /\ ts = timestamp s /\ ws_clients g' !! sid = Some (mk_client (timestamp s) SN_READ_ONLY_TRANSACTON, v).
Proof.
  clear approve. intros Hok Hr. unfold WuOnRegisterTransaction in Hr. destruct (_ && _); [|done]. cbn [negb] in Hr. destruct (ws_clients g !! sid) eqn:Hn; [done|].
  destruct (good_clock _ _ _ _ _ (w_good _ Hok)) as [(fut & lv & Hsp) _]. destruct (split_current _ _ _ _ Hsp) as [Ec Ef]. rewrite Ef.
  destruct (wu_bind _ _ _) as [ts' st|e st] eqn:Hrun; [|done]. injection Hr as -> <-. unfold SnOnRegisterClient, ImpGetCurrentStateBlock, wu_get, wu_bind in Hrun. cbn [block as_client negb snapshots] in Hrun. rewrite Ec in Hrun.
  destruct lv as [|s lv]; [done|]. destruct (isDamaged s) eqn:Ed; [done|]. injection Hrun as <- <-. exists s, lv, (mk_ve_client false false None None). split; [done|]. split; [done|]. split; [done|]. unfold back_client, back. cbn. by rewrite lookup_insert_eq.
Qed.

(** ** Commit *)

Lemma state_ok_bare {W W'} rest L L' clk b (w : W) (w' : W') : snapshots_ok clk L' -> same_bare L L' -> state_ok rest (mk_sn L clk b w) -> state_ok rest (mk_sn L' clk b w').
Proof.
  intros (fut' & lv' & Hsp') (_ & E & Ea & En) (Hclk & fut & lv & Hsp & Hcl & Hlen). split; [done|]. cbn in *.
  destruct (split_current _ _ _ _ Hsp) as [_ E0]. destruct (split_current _ _ _ _ Hsp') as [_ E']. rewrite E0, E' in E.
  exists fut', lv'. split; [done|]. split; [|by rewrite En]. cbn. rewrite Ea. by rewrite (bare_occupancies _ _ E).
Qed.

Lemma remove_max L t : nClientsMax (RemoveActiveTimestamp L t) = nClientsMax L.
Proof. unfold RemoveActiveTimestamp. by repeat case_match. Qed.

Lemma commit_updater sid c v g g' : ws_ok g -> ws_clients g !! sid = Some (c, v) -> statusAndType c = SN_UPDATER_TRANSACTION -> WuOnCommitTransaction approve sid g = Done tt g' ->
  exists fs, functionList v = Some fs /\ ws_ok g' /\ old_reads (wpages g) (wpages g') /\ forall x d, committed (wpages g') x d <-> commit_effect (wpages g) fs x d.
Proof.
  intros Hok Hc Hs Hr. apply for_client_run in Hr as (c' & v' & st & Hc' & Hr & ->). rewrite Hc in Hc'. injection Hc' as <- <-. set (st0 := as_client sid (c, v) g) in *.
  assert (Hb : block st0 = Some (mk_client (cl_timestamp c) SN_UPDATER_TRANSACTION)) by (cbn; destruct c; cbn in Hs; by rewrite Hs).
  assert (Hrun := Hr). run_step Hr ts s1 H1. destruct (end_run _ _ _ _ Hb H1) as [-> Es1]. apply ve_end_run in Hr as (v1 & s2 & Hv1 & Hn & _). rewrite Es1 in Hv1. cbn in Hv1. injection Hv1 as <-.
  destruct (ws_updater g sid c v Hok Hc Hs Hn) as (fs & Hf & Hfl & Hperm). exists fs. split; [done|]. set (R := pend (delete sid (ws_clients g))) in *.
  assert (Hg : good_at (synced g) (tag sid (cl_timestamp c) fs ++ R) st0) by (apply (good_perm _ _ _ (pend (ws_clients g))); [by rewrite Hperm|apply (w_good _ Hok)]).
  destruct (commit_run approve (synced g) sid (cl_timestamp c) v fs R st0 st Hb eq_refl Hf Hg (updater_active g sid c v Hok Hc Hs)) as (K1 & K2 & K3 & K4 & K5 & K6 & b' & K7); [|..|done|exact Hrun|].
  { intros s' o' f' Hin. by apply (pend_others g sid c v s' o' f' Hok Hc Hs). }
  { intros s' o' f' Hin. by apply (pend_others g sid c v s' o' f' Hok Hc Hs). }
  assert (Hst1 : state_ok (others g sid) s1).
  { assert (Hte := transaction_end (total (VeFreeBlockLow true)) (total_total _) (others g sid) (lift_state st0) c (client_state g sid _ Hok Hc) eq_refl). rewrite Hs in Hte. cbn [Z.eqb orb] in Hte.
    destruct Hte as (st' & E & Hst' & _). rewrite (end_lifts _ _ _ _ H1) in E. injection E as _ <-. exact Hst'. }
  assert (Eve : ve_block (world st) = Some (mk_ve_client true (isRolledBack v) (Some fs) None)) by (by rewrite K7).
  split; [|split].
  - apply (ws_back_client sid g st _ _ Hok K6 Eve); [by apply (w_ids _ Hok sid (c, v))|exact K1| | |split; cbn; try done; tauto].
    + rewrite Es1 in Hst1. destruct st as [L' clk' bl' w']. cbn in K4, K5, K6. subst clk' bl'. apply (state_ok_bare _ _ _ _ _ _ w' (proj1 (good_clock _ _ _ _ _ K1)) K4 Hst1).
    + destruct K4 as (_ & _ & _ & En). rewrite En. apply remove_max.
  - unfold back_client, back. rewrite K6, Eve. exact K2.
  - unfold back_client, back. rewrite K6, Eve. exact K3.
Qed.

(** The end of a reader. *)
Lemma end_reader_step sid c v v' g r st : ws_ok g -> ws_clients g !! sid = Some (c, v) -> statusAndType c = SN_READ_ONLY_TRANSACTON ->
  SnOnTransactionEnd (VeFreeBlockLow true) (as_client sid (c, v') g) = Done r st ->
  good_at (synced g) (pend (ws_clients g)) st /\ old_reads (wpages g) (pages_at (pend (ws_clients g)) st) /\ same_committed (wpages g) (pages_at (pend (ws_clients g)) st)
  /\ state_ok (others g sid) st /\ nClientsMax (snapshots st) = nClientsMax (ws_list g) /\ block st = Some completed_client
  /\ exists b', world st = mk_ve b' (ws_hash g) (Some v') sid.
Proof.
  intros Hok Hc Hs Hr. set (st0 := as_client sid (c, v') g) in *.
  assert (Hst1 : state_ok (others g sid) st).
  { assert (Hte := transaction_end (total (VeFreeBlockLow true)) (total_total _) (others g sid) (lift_state st0) c (client_state g sid _ Hok Hc) eq_refl). rewrite Hs in Hte. cbn [Z.eqb orb] in Hte.
    destruct Hte as (st' & E & Hst' & _). rewrite (end_lifts _ _ _ _ Hr) in E. injection E as _ <-. exact Hst'. }
  unfold SnOnTransactionEnd in Hr. run_step Hr c1 s1 H1. injection H1 as <- <-. run_step Hr [] s1 H1. rewrite Hs in H1. cbn [Z.eqb] in H1. change (SN_READ_ONLY_TRANSACTON =? SN_UPDATER_TRANSACTION) with false in H1.
  change (SN_READ_ONLY_TRANSACTON =? SN_READ_ONLY_TRANSACTON) with true in H1. destruct (reader_occupied g sid c v Hok Hc Hs) as (s & _ & Hin & Et & Hocc).
  destruct (end_reader_good (synced g) (pend (ws_clients g)) st0 s1 tt (cl_timestamp c) (w_good _ Hok) (pend_active g Hok)) as (G1 & G2 & G3 & G4 & G5 & G6 & b' & G7); [by exists s|done|].
  run_step Hr [] s2 H2. unfold put_state, wu_modify in H2. injection H2 as <-. run_step Hr s3 s4 H3. injection H3 as <- <-. injection Hr as _ <-.
  split; [exact G1|]. split; [exact G2|]. split; [exact G3|]. split; [exact Hst1|]. split; [|split; [done|exists b'; cbn; by rewrite G7]].
  cbn. unfold end_read_only in H1. run_step H1 s5 s6 H5. injection H5 as <- <-. destruct (GetSnapshotByTimestamp _ _) as [[p s6]|] eqn:Hget; [|done]. run_step H1 [] s7 H6. injection H6 as <-.
  unfold on_snapshots, wu_lift in H1. cbn [snapshots world set_snapshots] in H1. destruct (PurifySnapshots _ _ _) as [[] [L' w']|e [L' w']] eqn:Hp; [|done]. injection H1 as <-. cbn.
  assert (Hsn : snapshots_ok (ws_clock g) (add_occupancy (-1) p (ws_list g))).
  { assert (Hcs := client_state g sid _ Hok Hc). destruct (Hcs) as (_ & fut & lv & Hsp & _). destruct (occupied_less (ws_clock g) (ws_list g) fut lv s p s6 Hsp) as (lv' & Hsp'); [by destruct (split_current _ _ _ _ Hsp) as [_ <-]|done|by rewrite Et|]. by exists fut, lv'. }
  apply (purify_max _ (ws_clock g) _ _ _ _ _ Hsn Hp).
Qed.

(** Clients without pending functions. *)
Definition no_functions (c : SnClientState) (v : VeClientState) : Prop := statusAndType c <> SN_UPDATER_TRANSACTION \/ isCompleted v = true.

Lemma no_fns sid c v : no_functions c v -> fns_of (sid, (c, v)) = [].
Proof. intros [Hn|Hn]; cbn; [|by rewrite Hn, andb_false_r]. by destruct (Z.eqb_spec (statusAndType c) SN_UPDATER_TRANSACTION). Qed.

Lemma pend_rest g sid c v : ws_clients g !! sid = Some (c, v) -> no_functions c v -> pend (delete sid (ws_clients g)) ≡ₚ pend (ws_clients g).
Proof. intros Hc Hn. rewrite (pend_lookup _ _ _ Hc). by rewrite (no_fns sid c v Hn). Qed.

Lemma commit_reader sid c v g g' : ws_ok g -> ws_clients g !! sid = Some (c, v) -> statusAndType c = SN_READ_ONLY_TRANSACTON -> WuOnCommitTransaction approve sid g = Done tt g' ->
  ws_ok g' /\ unnoticed g g'.
Proof.
  intros Hok Hc Hs Hr. apply for_client_run in Hr as (c' & v' & st & Hc' & Hr & ->). rewrite Hc in Hc'. injection Hc' as <- <-. run_step Hr ts s1 H1.
  destruct (end_reader_step sid c v v g ts s1 Hok Hc Hs H1) as (G1 & G2 & G3 & G4 & G5 & G6 & b' & G7). apply ve_end_run in Hr as (v1 & s2 & Hv1 & _ & _ & Hr & Hfin).
  rewrite G7 in Hv1. cbn in Hv1. injection Hv1 as <-. rewrite Z.eqb_refl in Hr. unfold OnTransactionCommit in Hr. rewrite (w_reader _ Hok sid c v Hc Hs) in Hr, Hfin. injection Hr as <-.
  specialize (Hfin ltac:(done)). subst st. assert (Hno : no_functions c v) by (left; by rewrite Hs).
  split; [|unfold back_client, back; cbn; rewrite G6; split; [exact G2|exact G3]].
  apply (ws_back_client sid g _ completed_client (mk_ve_client true (isRolledBack v) None None) Hok); [exact G6|done|by apply (w_ids _ Hok sid (c, v))| |exact G4|exact G5|split; cbn; try done; tauto].
  rewrite no_fns by (by left). cbn. apply (good_perm _ _ _ (pend (ws_clients g))); [by apply (pend_rest g sid c v)|exact G1].
Qed.

(** ** Rollback *)

(** Nothing fails while the functions are undone. *)
Definition rollback_clean g sid : Prop := forall c v, ws_clients g !! sid = Some (c, v) -> functionList v <> None -> undoes approve (as_client sid (c, v) g).

Lemma rollback_step sid g g' : ws_ok g -> rollback_clean g sid -> WuOnRollbackTransaction approve sid g = Done tt g' -> ws_ok g' /\ unnoticed g g'.
Proof.
  intros Hok Hclean Hr. apply for_client_run in Hr as (c & v & st & Hc & Hr & ->). assert (Hr' := Hr). apply ve_end_run in Hr' as (v1 & s2 & Hv1 & Hn & _ & Hr' & Hfin). cbn in Hv1. injection Hv1 as <-.
  assert (Hfit := ws_client_fits g sid c v Hok Hc). destruct (cf_status _ _ _ Hfit) as [E|[E|[E|[]]]]; symmetry in E; [..|by rewrite (cf_ended _ _ _ Hfit E) in Hn].
  - destruct (ws_updater g sid c v Hok Hc E Hn) as (fs & Hf & Hfl & Hperm). set (R := pend (delete sid (ws_clients g))) in *. set (st0 := as_client sid (c, v) g) in *.
    assert (Hsy : synced g = true). { destruct (ws_phase g) eqn:Eph; unfold synced; rewrite Eph; try done. exfalso. by apply (w_quiet _ Hok ltac:(by rewrite Eph) sid _ v Hc). }
    assert (Hg : good_at true (tag sid (cl_timestamp c) fs ++ R) st0) by (apply (good_perm _ _ _ (pend (ws_clients g))); [by rewrite Hperm|rewrite <- Hsy; apply (w_good _ Hok)]).
    destruct (rollback_run approve sid (cl_timestamp c) v fs R st0 st eq_refl Hf Hg (updater_active g sid c v Hok Hc E)) as (K1 & K2 & K3 & K4 & K5 & K6 & b' & K7); [|done|by apply Hclean; [|rewrite Hf]|done|].
    { intros s' o' f' Hin. by apply (pend_others g sid c v s' o' f' Hok Hc E). }
    assert (Eve : ve_block (world st) = Some (mk_ve_client true true (Some fs) None)) by (by rewrite K7). assert (Ebl : block st = Some c) by done.
    split; [|unfold back_client, back; rewrite Ebl, Eve; split; [exact K2|exact K3]].
    apply (ws_back_client sid g st c _ Hok Ebl Eve); [by apply (w_ids _ Hok sid (c, v))| | |by rewrite K4|].
    + rewrite no_fns by (by right). rewrite Hsy. exact K1.
    + destruct st as [L' clk' bl' w']. cbn in K4, K5, K6. subst. exact (client_state g sid _ Hok Hc).
    + destruct Hfit as [F1 F2 F3 F4 F5]. split; [done|intros _; by exists fs| |done|done]. intros E'. by rewrite E in E'.
  - change (VE_ROLLBACK_TRANSACTION =? VE_COMMIT_TRANSACTION) with false in Hr'. unfold OnTransactionRollback in Hr'. rewrite (w_reader _ Hok sid c v Hc E) in Hr', Hfin. injection Hr' as <-.
    specialize (Hfin ltac:(done)). subst st. assert (Hno : no_functions c v) by (left; by rewrite E). split; [|split; [intros w Hw; split; [exact Hw|done]|by intros x d]].
    apply (ws_back_client sid g _ c (mk_ve_client true true None None) Hok); [done|done|by apply (w_ids _ Hok sid (c, v))| |exact (client_state g sid _ Hok Hc)|done|].
    + rewrite no_fns by (by right). apply (good_perm _ _ _ (pend (ws_clients g))); [by apply (pend_rest g sid c v)|apply (w_good _ Hok)].
    + destruct Hfit as [F1 F2 F3 F4 F5]. split; try done. intros E'. by rewrite E in E'.
Qed.

(** ** The end of a session *)

Lemma ws_back_delete sid g st c' : ws_ok g -> block st = Some c' -> idle_client c' ->
  good (synced g) (snapshots st) (clock st) (pend (delete sid (ws_clients g))) (ve_bm (world st)) ->
  state_ok (others g sid) st -> nClientsMax (snapshots st) = nClientsMax (ws_list g) -> ws_ok (back (delete sid (ws_clients g)) g st).
Proof.
  intros Hok Hb Hidle Hg Hst Hn. assert (Hdel : forall s c, delete sid (ws_clients g) !! s = Some c -> ws_clients g !! s = Some c) by (intros s c Hs; by apply lookup_delete_Some in Hs as [_ Hs]).
  unfold back. constructor; cbn.
  - exact Hg.
  - split; cbn.
    + unfold sn_sys. cbn. rewrite fmap_delete. exact (state_drop (others g sid) st c' Hb Hidle Hst).
    + intros s b. rewrite fmap_delete. intros Hs. apply lookup_delete_Some in Hs as [_ Hs]. by apply (sy_status _ (w_sys _ Hok) s).
  - intros s c Hs. rewrite Hn. by apply (w_ids _ Hok s c), Hdel.
  - intros s c v Hs. by apply (w_updater _ Hok s c v), Hdel.
  - intros s c v Hs. by apply (w_reader _ Hok s c v), Hdel.
  - intros s c v Hs. by apply (w_ended _ Hok s c v), Hdel.
  - intros Hp s c v Hs. by apply (w_quiet _ Hok Hp s c v), Hdel.
Qed.

(** An updater leaves after its commit or its rollback; nothing fails. *)
Definition may_leave g sid : Prop := forall c v, ws_clients g !! sid = Some (c, v) ->
  (statusAndType c = SN_UPDATER_TRANSACTION -> isCompleted v = true)
  /\ exists st, (do! _ <- VeOnUnregisterClient true; SnOnUnregisterClient (VeFreeBlockLow true)) (as_client sid (c, v) g) = Done tt st.

(** A rolled back updater is not active any more. *)
Lemma end_rolled_back sid c v v' g : ws_ok g -> ws_clients g !! sid = Some (c, v) -> statusAndType c = SN_UPDATER_TRANSACTION -> isCompleted v = true ->
  let st := mk_sn (RemoveActiveTimestamp (ws_list g) (cl_timestamp c)) (ws_clock g) (Some completed_client) (mk_ve (ws_bm g) (ws_hash g) (Some v') sid) in
  good_at (synced g) (pend (ws_clients g)) st /\ old_reads (wpages g) (pages_at (pend (ws_clients g)) st) /\ same_committed (wpages g) (pages_at (pend (ws_clients g)) st).
Proof.
  intros Hok Hc Hs Hn st. set (st0 := as_client sid (c, v) g). assert (Hg : good_at (synced g) (pend (ws_clients g)) st0) by apply (w_good _ Hok).
  destruct (end_updater_good (synced g) (pend (ws_clients g)) st0 (cl_timestamp c) Hg) as (G1 & G2 & _ & _). split; [exact G1|]. split; [exact G2|].
  intros x d. assert (Hec := end_committed (synced g) (pend (ws_clients g)) st0 (cl_timestamp c) x d Hg (updater_active g sid c v Hok Hc Hs)).
  assert (Hno : forall s f, (s, (cl_timestamp c, f)) ∈ pend (ws_clients g) -> False).
  { intros s f Hin. apply pend_in in Hin as (c' & v'' & fs & Hc' & Hs' & Hn' & _ & E & _). assert (sid = s) as <- by (by apply (updater_unique g sid c v s c' v'')). rewrite Hc in Hc'. injection Hc' as <- <-. congruence. }
  split.
  - intros Hx. apply Hec in Hx as [(s & f & Hin & _)|[_ Hx]]; [by destruct (Hno s f)|exact Hx].
  - intros Hx. apply Hec. right. split; [intros s f Hin; by destruct (Hno s f)|exact Hx].
Qed.

Lemma unregister_step sid g g' : ws_ok g -> may_leave g sid -> WuOnUnregisterTransaction sid g = Done tt g' -> ws_ok g' /\ unnoticed g g'.
Proof.
  intros Hok Hleave Hr. unfold WuOnUnregisterTransaction in Hr. destruct (ws_clients g !! sid) as [[c v]|] eqn:Hc; [|done].
  destruct (Hleave c v Hc) as [Hcomp (st & Hrun)]. rewrite Hrun in Hr. cbn [out_state] in Hr. injection Hr as <-. run_step Hrun [] s1 H1.
  unfold VeOnUnregisterClient in H1. run_step H1 v1 s2 H2. apply ve_block_done in H2 as [-> Hv1]. cbn in Hv1. injection Hv1 as <-. run_step H1 [] s2 H2.
  assert (s2 = as_client sid (c, v) g) as -> by (unfold on_hash in H2; cbn in H2; by injection H2 as <-). unfold put_client, wu_modify in H1. injection H1 as <-.
  set (v2 := mk_ve_client (isCompleted v) (isRolledBack v) None None) in *. change (set_world _ _) with (as_client sid (c, v2) g) in Hrun.
  assert (Hfit := ws_client_fits g sid c v Hok Hc). unfold SnOnUnregisterClient in Hrun. run_step Hrun c1 s1 H1. injection H1 as <- <-.
  assert (Hno : no_functions c v) by (destruct (decide (statusAndType c = SN_UPDATER_TRANSACTION)); [right; by apply Hcomp|by left]). assert (Hrest := pend_rest g sid c v Hc Hno).
  destruct (cf_status _ _ _ Hfit) as [E|[E|[E|[]]]]; symmetry in E; rewrite E in Hrun; cbn [Z.eqb Pos.eqb orb SN_COMPLETED_TRANSACTION] in Hrun.
  - run_step Hrun ts s1 H1. injection Hrun as ->. destruct (end_run (as_client sid (c, v2) g) (cl_timestamp c) ts st) as [_ Est]; [cbn; destruct c; cbn in E; by rewrite E|done|].
    assert (Hst : state_ok (others g sid) st).
    { assert (Hte := transaction_end (total (VeFreeBlockLow true)) (total_total _) (others g sid) (lift_state (as_client sid (c, v2) g)) c (client_state g sid _ Hok Hc) eq_refl). rewrite E in Hte. cbn [Z.eqb Pos.eqb orb SN_UPDATER_TRANSACTION] in Hte.
      destruct Hte as (st' & E' & Hst' & _). rewrite (end_lifts _ _ _ _ H1) in E'. injection E' as _ <-. exact Hst'. }
    destruct (end_rolled_back sid c v v2 g Hok Hc E (Hcomp E)) as (G1 & G2 & G3). rewrite Est in Hst |- *.
    split; [|by split; [exact G2|exact G3]]. apply (ws_back_delete sid g _ completed_client Hok); [done|apply completed_idle| |exact Hst|apply remove_max].
    eapply good_perm; [exact Hrest|exact G1].
  - run_step Hrun ts s1 H1. injection Hrun as ->. destruct (end_reader_step sid c v v2 g ts st Hok Hc E H1) as (G1 & G2 & G3 & G4 & G5 & G6 & b' & G7).
    split; [|by split; [exact G2|exact G3]]. apply (ws_back_delete sid g _ completed_client Hok); [done|apply completed_idle| |done|done]. eapply good_perm; [exact Hrest|exact G1].
  - injection Hrun as <-. split; [|split; [intros w Hw; split; [exact Hw|done]|by intros x d]].
    apply (ws_back_delete sid g _ c Hok); [done|split; by rewrite E| |exact (client_state g sid _ Hok Hc)|done]. eapply good_perm; [exact Hrest|apply (w_good _ Hok)].
Qed.

(** ** Snapshots and checkpoints *)

Lemma ws_server g st ph : ws_ok g -> good (match ph with CK_BEGUN => false | _ => true end) (snapshots st) (clock st) (pend (ws_clients g)) (ve_bm (world st)) ->
  state_ok (blocks (fst <$> ws_clients g)) st -> block st = None -> nClientsMax (snapshots st) = nClientsMax (ws_list g) -> (ph <> CK_NONE -> ws_phase g <> CK_NONE) ->
  ws_ok (set_phase ph (back (ws_clients g) g st)).
Proof.
  intros Hok Hg Hst Hb Hn Hph. constructor; cbn.
  - exact Hg.
  - split; [|apply (w_sys _ Hok)]. destruct st as [L clk bl w]. cbn in Hb. subst bl. exact Hst.
  - rewrite Hn. apply (w_ids _ Hok).
  - apply (w_updater _ Hok).
  - apply (w_reader _ Hok).
  - apply (w_ended _ Hok).
  - intros Hp. apply (w_quiet _ Hok). by apply Hph.
Qed.

(** The old versions can be collected. *)
Definition collects g : Prop := exists s1, on_snapshots (PurifySnapshots (VeFreeBlockLow true) false) (as_server g) = Done tt s1.

Lemma server_state g : ws_ok g -> state_ok (blocks (fst <$> ws_clients g)) (as_server g).
Proof. intros Hok. exact (sy_state _ (w_sys _ Hok)). Qed.

(** The state after an attempt. *)
Lemma advance_state_ok rest (st s1 : state) : state_ok rest st -> on_snapshots (PurifySnapshots (VeFreeBlockLow true) false) st = Done tt s1 ->
  state_ok rest (out_state (SnTryAdvanceSnapshots (VeFreeBlockLow true) st)) /\ block (out_state (SnTryAdvanceSnapshots (VeFreeBlockLow true) st)) = block st.
Proof.
  intros Hst Hp. assert (Hp' := purify_lifts_st _ _ _ _ _ Hp). destruct (advance_state (total (VeFreeBlockLow true)) (total_total _) rest (lift_state st) Hst) as [K _].
  assert (Hbl : block s1 = block st) by (unfold on_snapshots, wu_lift in Hp; destruct (PurifySnapshots _ _ _) as [[] [? ?]|? [? ?]]; [|done]; by injection Hp as <-).
  unfold SnTryAdvanceSnapshots in K |- *. rewrite (bind_done _ _ _ _ _ Hp') in K. rewrite (bind_done _ _ _ _ _ Hp). unfold wu_bind, wu_get in K |- *. cbn [snapshots lift_state] in K.
  destruct (EnsureCanAdvanceSnapshots (snapshots s1)) as [[]|]; [|split; [exact K|exact Hbl]..].
  unfold WuGetTimestamp in K |- *. cbn [clock lift_state] in K. destruct (negb _); [split; [exact K|exact Hbl]|]. unfold on_list in K |- *. cbn [snapshots] in K |- *.
  destruct (CreateSnapshot _ _ _); split; [exact K|exact Hbl|exact K|exact Hbl].
Qed.

Lemma advance_step g r g' : ws_ok g -> collects g -> WuTryAdvanceSnapshots g = Done r g' ->
  ws_ok g' /\ keeps_reads (wpages g) (wpages g') /\ same_committed (wpages g) (wpages g')
  /\ (r = true -> exists s rest, from_current (ws_list g') = s :: rest /\ isDamaged s = false /\ forall x d, reads (wpages g') (snap_of s) x d <-> committed (wpages g) x d).
Proof.
  intros Hok (s1 & Hp) Hr. assert (Hg := w_good _ Hok). destruct (advance_good (synced g) (pend (ws_clients g)) (as_server g) s1 Hg (pend_active g Hok) Hp) as (st & G1 & G2 & G3 & G4 & (b' & G5) & G6 & G7 & G8).
  destruct (advance_state_ok _ _ _ (server_state g Hok) Hp) as [Hst Hbl].
  assert (Hws : out_state (SnTryAdvanceSnapshots (VeFreeBlockLow true) (as_server g)) = st -> ws_ok (back (ws_clients g) g st)).
  { intros E. rewrite E in Hst, Hbl. assert (K := ws_server g st (ws_phase g) Hok G1 Hst Hbl G7 ltac:(done)). exact K. }
  unfold WuTryAdvanceSnapshots, for_server in Hr. destruct G8 as [[E Hnew]|[e E]]; rewrite E in Hr, Hws; specialize (Hws eq_refl); cbn [clock as_server] in *.
  - destruct (ws_clock g =? INVALID_TIMESTAMP); [done|]. injection Hr as <- <-. split; [done|]. split; [exact G2|]. split; [exact G3|]. intros _. destruct Hnew as (s & rest & Ec & Et & Hd).
    exists s, rest. split; [exact Ec|]. split; [done|]. intros x d.
    assert (Hv : snap_of s ∈ snapshot_views (snapshots st)).
    { unfold snapshot_views. apply list_elem_of_fmap. exists s. split; [done|]. unfold undamaged_live. rewrite Ec. cbn. rewrite Hd. left. }
    destruct (G2 _ Hv) as [[Hold _]|[_ Hn]]; [|exact (Hn x d)]. exfalso. unfold snapshot_views in Hold. apply list_elem_of_fmap in Hold as (s0 & Es & Hs0).
    destruct (undamaged_viewer _ _ Hs0) as (Hin & _). destruct (live_timestamp (ws_clock g) (ws_list g) s0 (proj1 (good_clock _ _ _ _ _ Hg)) Hin) as [_ Hlt]. unfold snap_of in Es. injection Es as Es _. lia.
  - destruct (decide _); [|done]. injection Hr as <- <-. split; [done|]. split; [exact G2|]. split; [exact G3|done].
Qed.

(** The clock goes on; blocks that are freed take timestamps, too. *)
Lemma timestamp_step g ts g' : ws_ok g -> WuTakeTimestamp g = Done ts g' -> ws_ok g' /\ unnoticed g g'.
Proof.
  intros Hok Hr. unfold WuTakeTimestamp, for_server, WuGetTimestamp in Hr. cbn [clock as_server] in Hr. destruct (IsValidTimestamp (ws_clock g)) eqn:Hv; [|done]. cbn [negb] in Hr. injection Hr as _ <-.
  assert (Hg := w_good _ Hok). destruct (server_state g Hok) as (Hclk & fut & lv & Hsp & Hcl & Hmax). cbn in Hclk, Hsp, Hcl, Hmax. destruct (clock_step _ Hclk Hv) as [Eu Hclk'].
  assert (Hsp' : split_ok (ws_clock g + 1) (ws_list g) fut lv).
  { destruct Hsp as (E1 & E2 & E3). split; [done|]. split; [|done]. apply (list_ok_acts (ws_clock g) _ (ts_active (ws_list g))); [lia|apply (ls_acts _ _ _ _ E2)|by left|done]. }
  rewrite Eu. assert (Hf := fewer_leading _ _ _ _ _ _ _ Hsp Hsp'). split.
  - apply (ws_server g (set_clock (ws_clock g + 1) (as_server g)) (ws_phase g) Hok); cbn; [|split; [exact Hclk'|by exists fut, lv]|done|done|done].
    apply (good_fewer _ _ _ _ _ _ _ Hg); [by exists fut, lv|lia|done|done|done].
  - split; [by apply list_old|]. by apply list_committed; [apply Hg|..].
Qed.

(** No updater runs. *)
Definition quiet g : Prop := ws_phase g = CK_NONE /\ forall sid c v, ws_clients g !! sid = Some (c, v) -> statusAndType c <> SN_UPDATER_TRANSACTION.

Lemma quiesce_step g : ws_ok g -> quiet g -> ws_ok (set_phase CK_QUIET g) /\ unnoticed g (set_phase CK_QUIET g).
Proof.
  intros Hok [Hp Hq]. split; [|split; [apply old_refl|done]]. destruct Hok as [K1 K2 K3 K4 K5 K6 K7]. constructor; try done. unfold synced in K1. by rewrite Hp in K1.
Qed.

Lemma begin_max {W} (st : sn_state W) ts st' : SnOnBeginCheckpoint st = Done ts st' -> nClientsMax (snapshots st') = nClientsMax (snapshots st) /\ block st' = block st.
Proof.
  unfold SnOnBeginCheckpoint, wu_bind, wu_get. cbv zeta. destruct (GetSnapshotByType _ SN_PREV_PERSISTENT_SNAPSHOT); [done|]. destruct (GetCurrentSnapshot _) as [[p s]|]; [|done].
  destruct (negb _); [done|]. cbn. intros [= <- <-]. cbn. split; [|done]. by destruct (GetSnapshotByType _ SN_PERSISTENT_SNAPSHOT) as [[q s']|].
Qed.

Lemma begin_step g g' : ws_ok g -> ws_phase g = CK_QUIET -> checkpoint_begin g = Done tt g' -> ws_ok g' /\ unnoticed g g'.
Proof.
  intros Hok Hph Hr. unfold checkpoint_begin in Hr. run_step Hr [] g1 H1. unfold wu_modify in Hr. injection Hr as <-. unfold WuOnBeginCheckpoint, for_server in H1.
  destruct (wu_bind _ _ (as_server g)) as [[] st|e st] eqn:Hrun; [|done]. injection H1 as <-. run_step Hrun ts s1 H2. injection Hrun as ->.
  assert (Hpe : pend (ws_clients g) = []) by (apply quiet_pend; [done|by rewrite Hph]). assert (Hg := w_good _ Hok). rewrite Hpe in Hg.
  destruct (begin_good (synced g) (as_server g) st ts Hg H2) as (G1 & G2 & G3 & G4 & G5 & G6 & G7). destruct (begin_max _ _ _ H2) as [Hmax _].
  assert (Hst := begin_checkpoint_state (blocks (fst <$> ws_clients g)) (as_server g) (server_state g Hok)). rewrite H2 in Hst. destruct Hst as [Hst _]. cbn in Hst.
  split; [|unfold unnoticed, wpages; cbn; rewrite Hpe; split; [exact G2|exact G3]].
  apply (ws_server g st CK_BEGUN Hok); [by rewrite Hpe|exact Hst|done|done|intros _; by rewrite Hph].
Qed.

Lemma complete_step g g' : ws_ok g -> ws_phase g = CK_BEGUN -> checkpoint_complete g = Done tt g' -> ws_ok g' /\ unnoticed g g'.
Proof.
  intros Hok Hph Hr. unfold checkpoint_complete in Hr. run_step Hr [] g1 H1. run_step Hr [] g2 H2. unfold wu_modify in Hr. injection Hr as <-.
  unfold for_server in H1. destruct (on_bm _ (as_server g)) as [[] st|e st] eqn:Hf; [|done]. injection H1 as <-. apply on_bm_done in Hf as (b1 & Hf & ->). cbn in Hf.
  assert (Hpe : pend (ws_clients g) = []) by (apply quiet_pend; [done|by rewrite Hph]). assert (Hg := w_good _ Hok).
  destruct (flush_good _ _ _ _ _ _ _ Hg Hf) as [Hg1 Hcalm]. set (st1 := mk_sn (ws_list g) (ws_clock g) None (mk_ve b1 (ws_hash g) None (-1)) : state).
  unfold WuOnCompleteCheckpoint, for_server in H2. change (as_server (back _ _ _)) with st1 in H2.
  destruct (SnOnCompleteCheckpoint (VeFreeBlockLow true) st1) as [[] st2|e st2] eqn:Hrun; [|done]. injection H2 as <-.
  destruct (complete_good true (pend (ws_clients g)) st1 st2 tt Hg1 (pend_active g Hok) Hrun) as (G1 & G2 & G3 & G4 & G5 & G6 & (b' & G7) & G8).
  destruct (complete_checkpoint_state (total (VeFreeBlockLow true)) (total_total _) (blocks (fst <$> ws_clients g)) (lift_state st1) (server_state g Hok)) as [Hst _]. rewrite (complete_lifts _ _ _ _ Hrun) in Hst. cbn in Hst.
  split.
  - apply (ws_server g st2 CK_NONE Hok G1 Hst G5 G8). done.
  - split; [|intros x c; exact (iff_trans (G3 x c) (calm_reads (ws_list g) (ws_clock g) (pend (ws_clients g)) (ws_bm g) b1 _ x c Hcalm))].
    apply (old_trans _ (pages_at (pend (ws_clients g)) st1)); [|exact G2]. intros v Hv. split; [done|]. intros x c. by apply (calm_reads (ws_list g) (ws_clock g) (pend (ws_clients g))).
Qed.
End Steps.
