(* ===== verification/WuReach.v ===== *)
(** * The version manager at work

    The transition system of the calls of clients and of the server (WuApi.v)
    from the start of the storage manager on.  Every call keeps the invariant
    of WuSystem.v; snapshots read what they read, and only commits change the
    last committed state. *)

From Stdlib Require Import ZArith List Lia Bool Sorted.
From stdpp Require Import base gmap list sets sorting.
From S2P Require Import Prelude WuBase Snapshots SnGc SnApi SnInv SnPurify SnOps SnEvolve SnExpand SnSystem SnReach Buffers Versions BufInv BufOps BufSwap IsoHeader Iso IsoList IsoCommit IsoUpdate WuFree WuGood WuCalls WuCkpt VeAlloc VeCreate VeCommit VeRollback WuApi WuSystem WuTrans.
Local Open Scope sedna_scope.
Local Open Scope Z_scope.

Inductive wcall (D : Type) :=
| RegisterTransaction (sid : Z) (isUsingSnapshot : bool)
| AllocateDataBlock (sid : Z)
| CreateBlockVersion (sid : Z) (x : XPTR)
| DeleteBlock (sid : Z) (x : XPTR)
| GetBlock (sid : Z) (x : XPTR)
| WritePage (sid : Z) (x : XPTR) (d : D)
| CommitTransaction (sid : Z)
| RollbackTransaction (sid : Z)
| UnregisterTransaction (sid : Z)
| TryAdvanceSnapshots
| QuiesceForCheckpoint
| BeginCheckpoint
| CompleteCheckpoint
| TakeTimestamp.
Arguments RegisterTransaction {D}.
Arguments AllocateDataBlock {D}.
Arguments CreateBlockVersion {D}.
Arguments DeleteBlock {D}.
Arguments GetBlock {D}.
Arguments WritePage {D}.
Arguments CommitTransaction {D}.
Arguments RollbackTransaction {D}.
Arguments UnregisterTransaction {D}.
Arguments TryAdvanceSnapshots {D}.
Arguments QuiesceForCheckpoint {D}.
Arguments BeginCheckpoint {D}.
Arguments CompleteCheckpoint {D}.
Arguments TakeTimestamp {D}.

Section Reach.
Context {D A : Type} `{AllocatorOk D A} (approve : Z -> XPTR -> bool).
Implicit Types g : wsys D A.

(** ** Calls *)

Definition done_state {S R} (o : outcome S R) : option S := match o with Done _ s => Some s | Failed _ _ => None end.

Lemma done_state_run {S R} (o : outcome S R) s : done_state o = Some s -> exists r, o = Done r s.
Proof. destruct o as [r s'|]; [|done]. intros [= ->]. by exists r. Qed.

(** The state after a call that succeeds. *)
Definition wu_call (c : wcall D) g : option (wsys D A) :=
  match c with
  | RegisterTransaction sid u => done_state (WuOnRegisterTransaction sid u g)
  | AllocateDataBlock sid => done_state (WuAllocateDataBlock approve sid g)
  | CreateBlockVersion sid x => done_state (WuCreateBlockVersion approve sid x g)
  | DeleteBlock sid x => done_state (WuDeleteBlock sid x g)
  | GetBlock sid x => done_state (WuGetBlock approve sid x g)
  | WritePage sid x d => done_state (write_page sid x d g)
  | CommitTransaction sid => done_state (WuOnCommitTransaction approve sid g)
  | RollbackTransaction sid => done_state (WuOnRollbackTransaction approve sid g)
  | UnregisterTransaction sid => done_state (WuOnUnregisterTransaction sid g)
  | TryAdvanceSnapshots => done_state (WuTryAdvanceSnapshots g)
  | QuiesceForCheckpoint => done_state (checkpoint_quiesce g)
  | BeginCheckpoint => done_state (checkpoint_begin g)
  | CompleteCheckpoint => done_state (checkpoint_complete g)
  | TakeTimestamp => done_state (WuTakeTimestamp g)
  end.

(** What the callers see to: the locks of documents, the semaphores of the
    checkpoint, and that a failure of a rollback, of a collection or of a
    checkpoint stops the storage manager.  A rollback reports success also when
    one of its functions could not be undone; [rollback_clean] leaves those
    out.  A call that fails is no step: its transaction is rolled back. *)
Definition wu_allowed (c : wcall D) g : Prop :=
  match c with
  | RegisterTransaction sid u => u = false -> ws_phase g = CK_NONE
  | CreateBlockVersion sid x | DeleteBlock sid x => works_on g sid x
  | GetBlock sid x => IS_DATA_BLOCK x = true /\ in_use g x
  | WritePage sid x _ => in_use g x /\ is_Some (ws_clients g !! sid)
  | RollbackTransaction sid => rollback_clean approve g sid
  | UnregisterTransaction sid => may_leave g sid
  | TryAdvanceSnapshots => collects g
  | QuiesceForCheckpoint => quiet g
  | BeginCheckpoint => ws_phase g = CK_QUIET
  | CompleteCheckpoint => ws_phase g = CK_BEGUN
  | AllocateDataBlock _ | CommitTransaction _ | TakeTimestamp => True
  end.

Definition wu_step (c : wcall D) g g' : Prop := wu_allowed c g /\ wu_call c g = Some g'.

(** The updater that commits. *)
Definition commits_by (c : wcall D) g : option (list VeFunction) :=
  match c with
  | CommitTransaction sid =>
      match ws_clients g !! sid with
      | Some (b, v) => if statusAndType b =? SN_UPDATER_TRANSACTION then functionList v else None
      | None => None
      end
  | _ => None
  end.

(** ** Every call keeps the invariant *)

Definition step_effect (c : wcall D) g g' : Prop := ws_ok g' /\ keeps_reads (wpages g) (wpages g')
  /\ forall x d, committed (wpages g') x d <->
       match commits_by c g with Some fs => commit_effect (wpages g) fs x d | None => committed (wpages g) x d end.

Lemma unnoticed_effect c g g' : commits_by c g = None -> ws_ok g' /\ unnoticed g g' -> step_effect c g g'.
Proof. intros E (Hok & Ho & Hs). split; [done|]. split; [by apply old_keeps|]. intros x d. rewrite E. apply Hs. Qed.

Theorem wu_step_ok c g g' : ws_ok g -> wu_step c g g' -> step_effect c g g'.
Proof.
  intros Hok [Hal Hrun]. destruct c as [sid u|sid|sid x|sid x|sid x|sid x d|sid|sid|sid| | | | | ]; cbn [wu_call wu_allowed] in Hal, Hrun; apply done_state_run in Hrun as [r Hrun].
  - apply unnoticed_effect; [done|]. destruct (register_step sid u g r g' Hok Hal Hrun) as (K1 & K2 & _). done.
  - apply unnoticed_effect; [done|]. by apply (allocate_step approve sid g r).
  - apply unnoticed_effect; [done|]. by apply (create_step approve sid x g r).
  - apply unnoticed_effect; [done|]. destruct r. by apply (delete_step sid x g).
  - apply unnoticed_effect; [done|]. destruct r as [id sw], Hal as [Hd Hx]. destruct (get_step approve sid x g id sw g' Hok Hd Hx Hrun) as (K1 & K2 & _). done.
  - apply unnoticed_effect; [done|]. destruct r, Hal as [Hx [c Hc]]. apply (write_step sid x d g g' Hok Hx); [|done]. by apply (w_ids _ Hok sid c).
  - destruct r. assert (Hc : exists b v, ws_clients g !! sid = Some (b, v)) by (apply for_client_run in Hrun as (b & v & st & Hc & _); by exists b, v). destruct Hc as (b & v & Hc).
    destruct (cf_status _ _ _ (ws_client_fits g sid b v Hok Hc)) as [E|[E|[E|[]]]]; symmetry in E.
    + destruct (commit_updater approve sid b v g g' Hok Hc E Hrun) as (fs & Hf & K1 & K2 & K3). split; [done|]. split; [by apply old_keeps|]. intros x d. cbn. rewrite Hc, E. cbn. by rewrite Hf.
    + apply unnoticed_effect; [cbn; by rewrite Hc, E|]. by apply (commit_reader approve sid b v g g').
    + exfalso. apply for_client_run in Hrun as (b' & v' & st & Hc' & Hrun & _). rewrite Hc in Hc'. injection Hc' as <- <-. run_step Hrun ts s1 H1. unfold SnOnTransactionEnd in H1. run_step H1 b1 s2 H2. injection H2 as <- <-. by rewrite E in H1.
  - apply unnoticed_effect; [done|]. destruct r. by apply (rollback_step approve sid g g').
  - apply unnoticed_effect; [done|]. destruct r. by apply (unregister_step sid g g').
  - destruct (advance_step g r g' Hok Hal Hrun) as (K1 & K2 & K3 & _). split; [done|]. split; [done|]. exact K3.
  - apply unnoticed_effect; [done|]. injection Hrun as _ <-. by apply quiesce_step.
  - apply unnoticed_effect; [done|]. destruct r. by apply begin_step.
  - apply unnoticed_effect; [done|]. destruct r. by apply complete_step.
  - apply unnoticed_effect; [done|]. by apply (timestamp_step g r).
Qed.

(** ** The start *)

(** The storage manager has started on a file whose blocks have a version the
    persistent snapshot reads. *)
Record wu_started g : Prop := {
  st_snapshots : started (sn_sys g);
  st_clients : ws_clients g = ∅;
  st_phase : ws_phase g = CK_NONE;
  st_bm : bm_ok (ws_bm g);
  st_buffers : buffer_on_stake (ws_bm g) = -1 /\ buffer_table (ws_bm g) = ∅;
  st_blocks : forall x t0 old, master (wpages g) x t0 old -> IS_DATA_BLOCK x = true /\ t0 < ws_clock g
    /\ Forall (fun e => snd e < ws_clock g) old /\ forall s, s ∈ from_current (ws_list g) -> ~ later (snap_of s) t0;
  st_data : forall y x t old, holds (wpages g) y x t old -> IS_DATA_BLOCK y = true;
  st_alloc : alloc_ok (ws_bm g)
}.

Lemma started_empty S : started (W := unit) S -> ts_active (sy_list S) = [] /\ owned (sy_list S) = [].
Proof.
  intros [n clk w st Hclk Hrun|pers n w st Hrun Hne]; revert Hrun; unfold SnStartup, wu_bind, on_list; cbn [snapshots];
    destruct (InitSnapshotsList n SN_SNAPSHOTS_COUNT) as [L|e] eqn:Hi; [|done| |done]; assert (Ho : ts_active L = [] /\ owned L = []) by (unfold InitSnapshotsList in Hi; destruct (_ || _); [done|]; by injection Hi as <-).
  - by intros [= <-].
  - intros Hrun. destruct (Z.eqb_spec pers INVALID_TIMESTAMP); [done|]. cbn [set_snapshots snapshots] in Hrun. destruct (init_split n L pers Hi) as (Hsp & Ha & Hm).
    destruct (IsValidTimestamp pers) eqn:Hv; [|unfold CreateSnapshot in Hrun; by rewrite Hv in Hrun].
    assert (Hcr := create_ok pers L (leading L) [] pers SN_PERSISTENT_SNAPSHOT (pers + 1) Hsp).
    destruct (leading L) as [|f fut] eqn:El; [by destruct Hsp as (_ & _ & _ & Hlen); rewrite El in Hlen|].
    destruct Hcr as (L' & fut' & c & HC & Hsp' & (Ea & _ & En) & Eo); [by right; left|done|lia|cbn; lia..|].
    rewrite HC in Hrun. injection Hrun as <-. cbn. split; [by rewrite Ea|]. rewrite Eo. apply Ho.
Qed.

Lemma wu_started_ok g : wu_started g -> ws_ok g.
Proof.
  intros [S1 S2 S3 S4 [S5 S6] S7 S8 S9]. destruct (started_empty _ S1) as [Ea Eo]. cbn in Ea, Eo. assert (Hsys := started_ok _ S1). assert (Hs := sy_state _ Hsys). destruct Hs as (Hclk & fut & lv & Hsp & _). cbn in Hclk, Hsp.
  assert (Hpe : pend (ws_clients g) = []) by (by rewrite S2). assert (Hnone : forall sid c, ws_clients g !! sid <> Some c) by (intros sid c; by rewrite S2).
  constructor; try (intros; exfalso; by eapply Hnone); [|done].
  rewrite Hpe. unfold wpages in S7, S8. rewrite Hpe in S7, S8. constructor.
  - constructor; cbn; rewrite ?Ea, ?Eo; try (intros; exfalso; match goal with Hn : _ ∈ [] |- _ => by apply elem_of_nil in Hn end); try by apply NoDup_nil.
    + by exists fut, lv.
    + done.
    + intros x t0 old Hm. destruct (S7 x t0 old Hm) as (_ & Ht & Hold & _). split; [done|]. eapply Forall_impl; [exact Hold|]. intros e He. split; [done|]. cbn. rewrite Ea. by apply not_elem_of_nil.
    + intros x t0 old w y Hm Hw _ Hl _. exfalso. destruct (S7 x t0 old Hm) as (_ & _ & _ & Hlv). apply viewer_cases in Hw as [->|(s & Hs & _ & ->)]; [|by apply (Hlv s Hs)].
      destruct Hm as (_ & c & _ & Hver). assert (Hv0 := vo_ok _ _ _ _ Hver). apply Forall_cons in Hv0 as [[_ Hv0] _]. revert Hl. apply not_active_committed; [done|]. rewrite Ea. by apply not_elem_of_nil.
    + intros x Hx. by apply elem_of_nil in Hx.
  - done.
  - done.
  - exact S8.
  - by intros s o x y a z ?%elem_of_nil.
  - by intros s o x y a w t old ?%elem_of_nil.
  - intros _ x t0 old w _ _ _. apply unbuffered_synced. by rewrite S6.
  - intros _ x y t old w _ _ _ _ _. left. apply unbuffered_synced. by rewrite S6.
  - intros x _ Hn. exfalso. apply Hn. unfold trid_of. by rewrite S6.
  - done.
Qed.

(** ** Reachable states *)

Definition wu_next g g' : Prop := exists c, wu_step c g g'.
Definition wu_reachable g : Prop := exists g0, wu_started g0 /\ rtc wu_next g0 g.

Lemma wu_next_ok g g' : ws_ok g -> rtc wu_next g g' -> ws_ok g'.
Proof. intros Hok Hr. revert Hok. induction Hr as [|g1 g2 g3 [c Hc] _ IH]; [done|]. intros Hok. apply IH. by destruct (wu_step_ok c g1 g2 Hok Hc). Qed.

Theorem wu_reachable_ok g : wu_reachable g -> ws_ok g.
Proof. intros (g0 & H0' & Hr). apply (wu_next_ok g0); [by apply wu_started_ok|done]. Qed.

(** ** Readers *)

(** The client [sid] reads the snapshot with the timestamp [t]. *)
Definition reader_of g sid t : Prop := exists v, ws_clients g !! sid = Some (mk_client t SN_READ_ONLY_TRANSACTON, v).

Lemma live_unique g s s' : ws_ok g -> s ∈ from_current (ws_list g) -> s' ∈ from_current (ws_list g) -> timestamp s = timestamp s' -> s = s'.
Proof.
  intros Hok Hs Hs' E. destruct (good_clock _ _ _ _ _ (w_good _ Hok)) as [(fut & lv & Hsp) _]. destruct (split_current _ _ _ _ Hsp) as [_ Ec]. rewrite Ec in Hs, Hs'.
  apply (timestamps_inj lv); [by apply (split_NoDup _ _ _ _ Hsp)|done|done|done].
Qed.

(** A step keeps what the snapshot of a reader reads. *)
Lemma reader_step c g g' sid t s s' : ws_ok g -> wu_step c g g' -> reader_of g sid t -> reader_of g' sid t ->
  s ∈ from_current (ws_list g) -> timestamp s = t -> s' ∈ from_current (ws_list g') -> timestamp s' = t ->
  snap_of s' = snap_of s /\ forall x d, reads (wpages g') (snap_of s') x d <-> reads (wpages g) (snap_of s) x d.
Proof.
  intros Hok Hstep [v Hc] [v' Hc'] Hs Et Hs' Et'. destruct (wu_step_ok c g g' Hok Hstep) as (Hok' & Hkeep & _).
  destruct (reader_occupied g' sid _ v' Hok' Hc' eq_refl) as (s1 & Hu & Hin & E1 & _). cbn in E1. rewrite <- (live_unique g' s1 s' Hok' Hin Hs') in * by congruence.
  assert (Hv : snap_of s1 ∈ snapshot_views (ws_list g')) by (unfold snapshot_views; apply list_elem_of_fmap; by exists s1).
  destruct (Hkeep _ Hv) as [[Hold Hr]|[Hge _]].
  - unfold snapshot_views in Hold. apply list_elem_of_fmap in Hold as (s0 & E0 & Hs0). destruct (undamaged_viewer _ _ Hs0) as (Hin0 & _).
    assert (Ets : timestamp s0 = timestamp s) by (unfold snap_of in E0; injection E0 as E0 _; congruence). rewrite (live_unique g s0 s Hok Hin0 Hs Ets) in E0. split; [done|]. intros x d. rewrite <- E0. apply Hr.
  - exfalso. cbn in Hge. destruct (live_timestamp (ws_clock g) (ws_list g) s (proj1 (good_clock _ _ _ _ _ (w_good _ Hok))) Hs) as [_ Hlt]. lia.
Qed.

(** Steps during which the client reads on. *)
Definition reads_on sid t g g' : Prop := reader_of g sid t /\ wu_next g g' /\ reader_of g' sid t.

Lemma reader_steps sid t g g' s s' : ws_ok g -> rtc (reads_on sid t) g g' -> s ∈ from_current (ws_list g) -> timestamp s = t -> s' ∈ from_current (ws_list g') -> timestamp s' = t ->
  ws_ok g' /\ snap_of s' = snap_of s /\ forall x d, reads (wpages g') (snap_of s') x d <-> reads (wpages g) (snap_of s) x d.
Proof.
  intros Hok Hr. revert s Hok. induction Hr as [g|g g1 g2 (R1 & [c Hstep] & R2) Hr IH]; intros s Hok Hs Et Hs' Et'.
  - rewrite (live_unique g s' s Hok Hs' Hs) by congruence. done.
  - assert (Hok1 := proj1 (wu_step_ok c g g1 Hok Hstep)). assert (R2' := R2). destruct R2' as [v1 Hc1]. destruct (reader_occupied g1 sid _ v1 Hok1 Hc1 eq_refl) as (s1 & _ & Hin1 & E1 & _). cbn in E1.
    destruct (IH s1 Hok1 Hin1 E1 Hs' Et') as (Hok2 & Es & Hrd). destruct (reader_step c g g1 sid t s s1 Hok Hstep R1 R2 Hs Et Hin1 E1) as [Es1 Hrd1].
    split; [done|]. split; [congruence|]. intros x d. by rewrite Hrd, Hrd1.
Qed.
End Reach.
