(* ===== verification/WuExample.v ===== *)
(** * A version manager that runs

    The calls of WuReach.v are executed over the stack of free blocks of
    FreeBlocks.v, with four buffers and a data file that grows by five blocks
    at a time; a node of the stack has room for two pointers.  The conditions
    on the callers are checked by evaluation. *)

From Stdlib Require Import ZArith List Lia Bool.
From stdpp Require Import base gmap list sets.
From S2P Require Import Prelude WuBase Snapshots SnGc SnApi SnInv SnSystem SnReach Buffers Versions BufInv BufOps FreeBlocks FreeStack IsoHeader Iso IsoCommit WuFree WuGood WuCalls VeAlloc VeCommit VeRollback WuApi WuSystem WuTrans WuReach.
Local Open Scope sedna_scope.
Local Open Scope Z_scope.

(** ** Pages and the allocator *)

(** The data of a page: its words by their offset. *)
Abbreviation words := (gmap Z Z).

(** The node of the stack in a page: three fields, and then the pointers. *)
Definition field_at (f : fb_field) : Z := match f with FB_nblk => 0 | FB_num => -1 | FB_ts => -2 | FB_slot k => k end.

#[export] Instance words_layout : Layout words := {
  fb_load := fun d f => default 0 (d !! field_at f);
  fb_store := fun f v d => <[field_at f := v]> d;
  fb_zero := ∅
}.

Lemma field_at_inj capacity f g : fits capacity f -> fits capacity g -> field_at f = field_at g -> f = g.
Proof. destruct f, g; cbn; intros; try lia; try done. by f_equal. Qed.

#[export] Instance words_layout_ok capacity : LayoutOk words capacity.
Proof.
  constructor; intros; cbn; [by rewrite lookup_insert_eq|]. rewrite lookup_insert_ne; [done|]. intros E. apply (field_at_inj capacity) in E; done.
Qed.

Definition layer_size : Z := 2 ^ 30.
Definition file_limit : Z := 2 ^ 40.
Definition approved (_ : Z) (_ : XPTR) : bool := true.

(** A page of the stack that is flushed is not a version of a block; the clock
    stands still while blocks are allocated. *)
Definition not_version (_ : bm words bm_masterblock) (_ : VersionsHeader) : option bool := Some false.
Definition still (_ : bm words bm_masterblock) : TIMESTAMP := 65537.

#[export] Instance stack_allocator : Allocator words bm_masterblock :=
  free_blocks_allocator layer_size 2 file_limit approved not_version still still (fun _ _ b => Failed UNDEFINED b).

#[export] Instance stack_allocator_ok : AllocatorOk words bm_masterblock.
Proof. apply free_blocks_allocator_ok; [apply words_layout_ok|by vm_compute|by vm_compute|by vm_compute|by vm_compute]. Defined.

(** Whether a block is in use. *)
Definition occupiedb (b : bm words bm_masterblock) (x : XPTR) : bool :=
  (PAGE_SIZE <=? data_file_cur_size (mb b)) && occupied layer_size 2 100 b x.

Lemma occupiedb_ok b x : occupiedb b x = true -> ~ is_free b x.
Proof. intros [H1%Z.leb_le H2]%andb_true_iff. apply (occupied_ok layer_size 2 file_limit) in H2; done. Qed.

(** ** Conditions on the callers, evaluated *)

Section Checks.
Context (approve : Z -> XPTR -> bool).
Implicit Types g : wsys words bm_masterblock.

(** The versions in the header of a page. *)
Definition used_entries (h : VersionsHeader) : list (XPTR * TIMESTAMP) :=
  List.filter (fun e => negb (snd e =? INVALID_TIMESTAMP)) (header_entries h).

(** The version of [x] the block [y] holds. *)
Definition holds_of g (y x : XPTR) : option (TIMESTAMP * list (XPTR * TIMESTAMP)) :=
  match view (ws_bm g) y with
  | None => None
  | Some c =>
      match used_entries (ct_vh c) with
      | (z, t0) :: old =>
          if bool_decide (z = x) && bool_decide (ct_p c = x) && bool_decide (vh_xptr (ct_vh c) = vh_xptr (fill_entries ((x, t0) :: old)))
             && bool_decide (vh_creatorTs (ct_vh c) = vh_creatorTs (fill_entries ((x, t0) :: old)))
             && bool_decide ((length old < 4)%nat) && forallb (fun e => negb (fst e =? 0) && IsValidTimestamp (snd e)) ((x, t0) :: old)
             && occupiedb (ws_bm g) y
          then Some (t0, old) else None
      | [] => None
      end
  end.

Lemma holds_of_ok g y x t0 old : holds_of g y x = Some (t0, old) -> holds (wpages g) y x t0 old.
Proof.
  unfold holds_of. destruct (view (ws_bm g) y) as [c|] eqn:Hv; [|done]. destruct (used_entries (ct_vh c)) as [|[z u] l]; [done|]. destruct (_ && _) eqn:E; [|done]. intros [= -> ->].
  apply andb_true_iff in E as [[[[[[E1%bool_decide_eq_true E2%bool_decide_eq_true]%andb_true_iff E3%bool_decide_eq_true]%andb_true_iff E4%bool_decide_eq_true]%andb_true_iff E5%bool_decide_eq_true]%andb_true_iff E6]%andb_true_iff E7%occupiedb_ok].
  split; [exact E7|]. exists c. split; [exact Hv|]. constructor; [done| |done|].
  - destruct (ct_vh c), (fill_entries ((x, t0) :: old)). cbn in E3, E4. by subst.
  - rewrite Forall_forall. intros e He. rewrite forallb_forall in E6. specialize (E6 e). rewrite <- list_elem_of_In in E6. specialize (E6 He). apply andb_true_iff in E6 as [K1%negb_true_iff%Z.eqb_neq K2]. by split.
Qed.

Definition master_of g (x : XPTR) := holds_of g x x.

Lemma master_of_ok g x t0 old : master_of g x = Some (t0, old) -> master (wpages g) x t0 old.
Proof. apply holds_of_ok. Qed.

Definition works_onb g (sid : Z) (x : XPTR) : bool :=
  match ws_clients g !! sid, master_of g x with
  | Some (c, v), Some (t0, old) =>
      (negb (bool_decide (t0 ∈ ts_active (ws_list g))) || (t0 =? cl_timestamp c))
      && forallb (fun '(e, _) => negb ((lxptr e =? 0) && (xptr e =? x))) (owned (ws_list g))
      && forallb (fun p => negb (is_free_block (vf_type (snd (snd p))) && (vf_lxptr (snd (snd p)) =? x))) (pend (ws_clients g))
  | _, _ => false
  end.

Lemma works_onb_ok g sid x : works_onb g sid x = true -> works_on g sid x.
Proof.
  unfold works_onb. destruct (ws_clients g !! sid) as [[c v]|] eqn:Hc; [|done]. destruct (master_of g x) as [[t0 old]|] eqn:Hm; [|done]. intros E.
  apply andb_true_iff in E as [[E1%orb_true_iff E2]%andb_true_iff E3]. exists c, v. split; [done|]. apply master_of_ok in Hm. constructor.
  - exists t0, old. split; [done|]. intros Ht. destruct E1 as [E1|E1]; [|by apply Z.eqb_eq in E1]. apply negb_true_iff, bool_decide_eq_false in E1. done.
  - intros l Hl. rewrite forallb_forall in E2. specialize (E2 (mk_entry 0 x, l)). rewrite <- list_elem_of_In in E2. specialize (E2 Hl). cbn in E2. by rewrite Z.eqb_refl in E2.
  - intros o' f Hin Hf Ex. cbn in Hin. apply list_elem_of_fmap in Hin as ([s p] & Ep & Hin). cbn in Ep. subst p. rewrite forallb_forall in E3. specialize (E3 (s, (o', f))). rewrite <- list_elem_of_In in E3. specialize (E3 Hin). cbn in E3. by rewrite Hf, Ex, Z.eqb_refl in E3.
Qed.

Definition is_none_phase (ph : checkpoint_phase) : bool := match ph with CK_NONE => true | _ => false end.
Definition is_done {S R} (o : outcome S R) : bool := match o with Done _ _ => true | Failed _ _ => false end.

Definition undoesb g sid (c : SnClientState) (v : VeClientState) : bool :=
  match functionList v with
  | Some fs => is_done (undo_loop approve (rev fs) (set_world (set_ve_block (mk_ve_client (isCompleted v) (isRolledBack v) (functionList v) None) (world (as_client sid (c, v) g))) (as_client sid (c, v) g)))
  | None => true
  end.

Definition allowedb (c : wcall words) g : bool :=
  match c with
  | RegisterTransaction sid u => u || is_none_phase (ws_phase g)
  | CreateBlockVersion sid x | DeleteBlock sid x => works_onb g sid x
  | GetBlock sid x => IS_DATA_BLOCK x && bool_decide (is_Some (master_of g x))
  | WritePage sid x _ => bool_decide (is_Some (master_of g x)) && bool_decide (is_Some (ws_clients g !! sid))
  | RollbackTransaction sid => match ws_clients g !! sid with Some (b, v) => undoesb g sid b v | None => true end
  | UnregisterTransaction sid =>
      match ws_clients g !! sid with
      | Some (b, v) => (negb (statusAndType b =? SN_UPDATER_TRANSACTION) || isCompleted v)
          && is_done ((do! _ <- VeOnUnregisterClient true; SnOnUnregisterClient (VeFreeBlockLow true)) (as_client sid (b, v) g))
      | None => true
      end
  | TryAdvanceSnapshots => is_done (on_snapshots (PurifySnapshots (VeFreeBlockLow true) false) (as_server g))
  | QuiesceForCheckpoint => is_none_phase (ws_phase g) && forallb (fun p => negb (statusAndType (fst (snd p)) =? SN_UPDATER_TRANSACTION)) (map_to_list (ws_clients g))
  | BeginCheckpoint => match ws_phase g with CK_QUIET => true | _ => false end
  | CompleteCheckpoint => match ws_phase g with CK_BEGUN => true | _ => false end
  | AllocateDataBlock _ | CommitTransaction _ | TakeTimestamp => true
  end.

Lemma is_done_unit {S} (o : outcome S unit) : is_done o = true -> exists s, o = Done tt s.
Proof. destruct o as [[] s|]; [by exists s|done]. Qed.

Lemma in_useb_ok g x : is_Some (master_of g x) -> in_use g x.
Proof. intros [[t0 old] Hm]. exists t0, old. by apply master_of_ok. Qed.

Lemma allowedb_ok c g : allowedb c g = true -> wu_allowed approve c g.
Proof.
  destruct c as [sid u|sid|sid x|sid x|sid x|sid x d|sid|sid|sid| | | | | ]; cbn [allowedb wu_allowed]; intros E; try done.
  - destruct u; [done|]. intros _. by destruct (ws_phase g).
  - by apply works_onb_ok.
  - by apply works_onb_ok.
  - apply andb_true_iff in E as [E1 E2%bool_decide_eq_true]. split; [done|]. by apply in_useb_ok.
  - apply andb_true_iff in E as [E1%bool_decide_eq_true E2%bool_decide_eq_true]. split; [by apply in_useb_ok|done].
  - intros c v Hc Hf. rewrite Hc in E. unfold undoesb in E. destruct (functionList v) as [fs|] eqn:Efs; [|done]. apply is_done_unit in E as [s E]. exists v, fs, s. split; [done|]. split; [done|]. by rewrite Efs.
  - intros c v Hc. rewrite Hc in E. apply andb_true_iff in E as [E1%orb_true_iff E2]. split; [|by apply is_done_unit in E2]. intros Hs. destruct E1 as [E1|]; [|done]. by rewrite Hs in E1.
  - by apply is_done_unit in E.
  - apply andb_true_iff in E as [E1 E2]. split; [by destruct (ws_phase g)|]. intros sid c v Hc Hs. rewrite forallb_forall in E2. specialize (E2 (sid, (c, v))).
    rewrite <- list_elem_of_In, elem_of_map_to_list in E2. specialize (E2 Hc). cbn in E2. by rewrite Hs in E2.
  - by destruct (ws_phase g).
  - by destruct (ws_phase g).
Qed.

(** A sequence of calls, each of them allowed and successful. *)
Fixpoint wu_run (l : list (wcall words)) g : option (wsys words bm_masterblock) :=
  match l with
  | [] => Some g
  | c :: l => if allowedb c g then match wu_call approve c g with Some g => wu_run l g | None => None end else None
  end.

Lemma wu_run_steps l : forall g g', wu_run l g = Some g' -> rtc (wu_next approve) g g'.
Proof.
  induction l as [|c l IH]; intros g g' Hr; cbn in Hr; [by injection Hr as ->|]. destruct (allowedb c g) eqn:Ea; [|done]. destruct (wu_call approve c g) as [g1|] eqn:Ec; [|done].
  eapply rtc_l; [|by apply IH]. exists c. split; [by apply allowedb_ok|done].
Qed.

(** The same while the client [sid] reads on. *)
Definition reader_ofb g sid t : bool :=
  match ws_clients g !! sid with Some (c, _) => (statusAndType c =? SN_READ_ONLY_TRANSACTON) && (cl_timestamp c =? t) | None => false end.

Lemma reader_ofb_ok g sid t : reader_ofb g sid t = true -> reader_of g sid t.
Proof.
  unfold reader_ofb. destruct (ws_clients g !! sid) as [[[u n] v]|] eqn:Hc; [|done]. intros [E1%Z.eqb_eq E2%Z.eqb_eq]%andb_true_iff. cbn in E1, E2. subst u n. by exists v.
Qed.

Fixpoint run_reading sid t (l : list (wcall words)) g : option (wsys words bm_masterblock) :=
  if reader_ofb g sid t then
    match l with
    | [] => Some g
    | c :: l => if allowedb c g then match wu_call approve c g with Some g => run_reading sid t l g | None => None end else None
    end
  else None.

Lemma run_reading_steps sid t l : forall g g', run_reading sid t l g = Some g' -> reader_of g sid t /\ rtc (reads_on approve sid t) g g'.
Proof.
  induction l as [|c l IH]; intros g g' Hr; cbn in Hr; destruct (reader_ofb g sid t) eqn:Er; try done; apply reader_ofb_ok in Er; [by injection Hr as ->|].
  destruct (allowedb c g) eqn:Ea; [|done]. destruct (wu_call approve c g) as [g1|] eqn:Ec; [|done]. destruct (IH _ _ Hr) as [R1 R2]. split; [done|].
  eapply rtc_l; [|exact R2]. split; [done|]. split; [|done]. exists c. split; [by apply allowedb_ok|done].
Qed.

(** What a view reads. *)
Definition goneb g (w : snap) (x : XPTR) : bool :=
  existsb (fun '(e, o) => (lxptr e =? 0) && (xptr e =? x) && negb (bool_decide (fst w ∈ o))) (owned (ws_list g)).

Definition reads_of g (w : snap) (x : XPTR) : option (content words) :=
  match master_of g x with
  | Some (t0, old) =>
      if goneb g w x then None
      else match pick w ((x, t0) :: old) with
           | Some y => if occupiedb (ws_bm g) y then view (ws_bm g) y else None
           | None => None
           end
  | None => None
  end.

Lemma reads_of_ok g w x d : reads_of g w x = Some d -> reads (wpages g) w x d.
Proof.
  unfold reads_of. destruct (master_of g x) as [[t0 old]|] eqn:Hm; [|done]. destruct (goneb g w x) eqn:Eg; [done|]. destruct (pick w ((x, t0) :: old)) as [y|] eqn:Hp; [|done].
  destruct (occupiedb (ws_bm g) y) eqn:Hf; [|done]. apply occupiedb_ok in Hf. intros Hv. exists y. split; [|exact Hv]. split; [|exists t0, old; by split; [apply master_of_ok|]]. intros (o & Hin & Hn).
  assert (K : goneb g w x = true); [|congruence]. apply existsb_exists. exists (mk_entry 0 x, o). split; [by apply list_elem_of_In|]. cbn. rewrite Z.eqb_refl. cbn. by rewrite bool_decide_false.
Qed.
End Checks.

(** ** A start on an empty file *)

Definition blank : page words := mk_page 0 0 ResetHeader 0 false (-1) ∅.
Definition empty_file : bm_masterblock := mk_mb 0 0 PAGE_SIZE 0 0 0 5 0.
Definition four_buffers : bm words bm_masterblock :=
  mk_bm (list_to_map (map (fun i => (i, blank)) [0; 1; 2; 3])) ∅ ∅ [0; 1; 2; 3] [] (-1) [] ∅ ∅ [] [] 0 empty_file.
Definition first_snapshots : sn_state unit := out_state (SnStartup 65536 8 (mk_sn DestroySnapshotsList 65537 None tt)).
Definition first_state : wsys words bm_masterblock := mk_ws (snapshots first_snapshots) (clock first_snapshots) ∅ four_buffers ∅ CK_NONE.

Lemma four_buffers_ok : bm_ok four_buffers.
Proof.
  constructor; cbn; try (intros; exfalso; match goal with Hn : _ ∈ [] |- _ => by apply elem_of_nil in Hn end); try done.
  - intros id Hid. repeat (apply elem_of_cons in Hid as [->|Hid]); [..|by apply elem_of_nil in Hid]; (split; [lia|split; [by eexists; vm_compute|by apply not_elem_of_nil]]).
  - split; [by apply NoDup_nil|]. by apply (bool_decide_unpack _).
Qed.

Lemma nothing_seen x : view four_buffers x = None.
Proof. unfold view, disk_view. cbn. by rewrite !lookup_empty. Qed.

Lemma empty_file_ok : master_ok layer_size 2 file_limit four_buffers.
Proof.
  constructor; cbn; [by vm_compute|done|intros x _; apply nothing_seen|]. exists 0, []. split; [constructor|]. split; [by apply NoDup_nil|]. intros x Hx. by apply elem_of_nil in Hx.
Qed.

Lemma first_started : wu_started first_state.
Proof.
  constructor; [|done|done|apply four_buffers_ok|done| | |apply empty_file_ok].
  - apply (started_persistent 65536 8 tt first_snapshots); [by vm_compute|done].
  - intros x t0 old [Hf (c & Hv & _)]. exfalso. cbn in Hv. by rewrite nothing_seen in Hv.
  - intros y x t old [Hf (c & Hv & _)]. exfalso. cbn in Hv. by rewrite nothing_seen in Hv.
Qed.

(** The block that is allocated first, and pages with one word. *)
Definition BLK : XPTR := 2 ^ 32 + 2 * PAGE_SIZE.
Definition word (n : Z) : words := {[1 := n]}.

Lemma first_reachable l g : wu_run approved l first_state = Some g -> wu_reachable approved g.
Proof. intros Hr. exists first_state. split; [apply first_started|by apply wu_run_steps in Hr]. Qed.

(** The state after calls that all succeed. *)
Definition run_from (g : wsys words bm_masterblock) (l : list (wcall words)) : wsys words bm_masterblock := default g (wu_run approved l g).

(** A block is allocated, written and committed; the snapshots advance, and a
    reader comes. *)
Definition one_reader : wsys words bm_masterblock := run_from first_state
  [RegisterTransaction 0 false; AllocateDataBlock 0; WritePage 0 BLK (word 7); CommitTransaction 0; UnregisterTransaction 0; TryAdvanceSnapshots; RegisterTransaction 1 true].

(** The block gets a new version, which is committed. *)
Definition new_version : list (wcall words) :=
  [RegisterTransaction 2 false; GetBlock 2 BLK; CreateBlockVersion 2 BLK; WritePage 2 BLK (word 8); CommitTransaction 2].
Definition two_versions : wsys words bm_masterblock := default one_reader (run_reading approved 1 65538 new_version one_reader).

(** A block that is committed, but not yet read. *)
Definition first_block : list (wcall words) := [RegisterTransaction 0 false; AllocateDataBlock 0; WritePage 0 BLK (word 7); CommitTransaction 0; UnregisterTransaction 0].
Definition one_block : wsys words bm_masterblock := run_from first_state first_block.

(** A checkpoint makes it persistent, and an updater writes a new version. *)
Definition checkpointed : list (wcall words) := first_block ++ [TryAdvanceSnapshots; QuiesceForCheckpoint; BeginCheckpoint; CompleteCheckpoint].
Definition moved : wsys words bm_masterblock := run_from first_state (checkpointed ++ take 4 new_version).

(** The new version is committed, and the next snapshot leaves the persistent one
    without readers, and damaged. *)
Definition left_behind : wsys words bm_masterblock := run_from first_state (checkpointed ++ new_version ++ [UnregisterTransaction 2; TryAdvanceSnapshots]).

(** The blocks that are written, 0 for a barrier. *)
Definition written_block (e : io_event words) : XPTR := match e with IO_WRITE x _ => x | IO_SYNC => 0 end.

(** The same without a checkpoint, before and after the new version is made. *)
Definition version_made : wsys words bm_masterblock := run_from one_reader (take 3 new_version).
Definition version_written : wsys words bm_masterblock := run_from one_reader (take 4 new_version).

(** The snapshot in front, and what it reads. *)
Definition front (g : wsys words bm_masterblock) : SnSnapshot := hd (init_snapshot 0) (from_current (ws_list g)).
Definition read_by (g : wsys words bm_masterblock) (w : snap) (x : XPTR) : content words := default (mk_content 0 ResetHeader ∅) (reads_of g w x).

Lemma front_live g : length (from_current (ws_list g)) <> 0%nat -> front g ∈ from_current (ws_list g).
Proof. unfold front. destruct (from_current (ws_list g)); [done|]. intros _. left. Qed.

Lemma read_by_ok g w x : is_Some (reads_of g w x) -> reads (wpages g) w x (read_by g w x).
Proof. intros [d Hd]. apply reads_of_ok. unfold read_by. by rewrite Hd. Qed.

(** The headers of all pages in buffers. *)
Definition headers_filledb (isPers : VersionsHeader -> option bool) (b : bm words bm_masterblock) : bool :=
  forallb (fun p => match view b (fst p) with
                    | Some c => negb (bool_decide (vh_xptr (ct_vh c) = [])) && bool_decide (is_Some (isPers (ct_vh c)))
                    | None => true
                    end) (map_to_list (buffer_table b)).

Lemma headers_filledb_ok isPers b : headers_filledb isPers b = true -> headers_filled isPers b.
Proof.
  intros Hf x c [id Hx] Hv. unfold headers_filledb in Hf. rewrite forallb_forall in Hf. specialize (Hf (x, id)). rewrite <- list_elem_of_In, elem_of_map_to_list in Hf.
  specialize (Hf Hx). cbn in Hf. rewrite Hv in Hf. apply andb_true_iff in Hf as [K1%negb_true_iff%bool_decide_eq_false K2%bool_decide_eq_true]. split; [done|]. by apply not_eq_None_Some.
Qed.

Lemma run_from_reachable g l : wu_reachable approved g -> is_Some (wu_run approved l g) -> wu_reachable approved (run_from g l).
Proof.
  intros (g0 & H0 & Hr) [g' Hl]. unfold run_from. rewrite Hl. exists g0. split; [done|]. apply wu_run_steps in Hl. by transitivity g.
Qed.

Lemma first_state_reachable : wu_reachable approved first_state.
Proof. by apply (first_reachable []). Qed.
