(* ===== verification/WuClaims.v ===== *)
(** * Claims about the version manager

    What src/kernel/sm/wu/ promises to the storage manager over the buffers of
    src/kernel/sm/bufmgr/: snapshot isolation of readers, atomic commits,
    exclusive access of updaters, a persistent snapshot that is on the disk
    between calls, flushes in the order of the dependencies, and headers with
    room for what undamaged snapshots need.  [approve] is the answer of the transactions to
    callbacks of the buffer manager; the allocator of blocks is a class
    (BufOps.v). *)

From Stdlib Require Import ZArith List Lia Bool.
From stdpp Require Import base gmap list sets.
From S2P Require Import Prelude WuBase Snapshots SnGc SnApi SnInv SnOps SnExpand SnSystem SnReach Buffers Versions BufInv BufOps FreeBlocks FreeStack IsoHeader Iso IsoList IsoCommit WuGood WuCalls VeAlloc VeCommit WuApi WuSystem WuTrans WuReach WuExample.
Local Open Scope sedna_scope.
Local Open Scope Z_scope.

Section Claims.
Context {D A : Type} `{AllocatorOk D A} (approve : Z -> XPTR -> bool).
Implicit Types g : wsys D A.

(** What a reader gets of a block its snapshot reads. *)
Lemma reader_gets g sid t s x d id sw g' : ws_ok g -> reader_of g sid t -> s ∈ from_current (ws_list g) -> timestamp s = t -> reads (wpages g) (snap_of s) x d ->
  WuGetBlock approve sid x g = Done (id, sw) g' -> exists pg, frames (ws_bm g') !! id = Some pg /\ content_of pg = d.
Proof.
  intros Hok [v Hc] Hs Et Hr Hrun. assert (Hr' := Hr). destruct Hr' as (y & (_ & t0 & old & Hm & _) & _).
  destruct (get_step approve sid x g id sw g' Hok (g_data _ _ _ _ _ (w_good _ Hok) x x t0 old Hm) (ex_intro _ t0 (ex_intro _ old Hm)) Hrun) as (_ & _ & c' & v' & pg & Hc' & Hpg & _ & Hread).
  rewrite Hc in Hc'. injection Hc' as <- <-. exists pg. split; [done|]. by apply (Hread eq_refl s).
Qed.

(** A block has one working version at most. *)
Lemma working_unique (G : list client_fn) s o f s' o' f' : NoDup (working (map snd G)) -> (s, (o, f)) ∈ G -> (s', (o', f')) ∈ G ->
  is_working f = true -> is_working f' = true -> vf_lxptr f = vf_lxptr f' -> s = s'.
Proof.
  clear approve. intros Hnd. assert (Hmem : forall (G : list client_fn) s o f, (s, (o, f)) ∈ G -> is_working f = true -> vf_lxptr f ∈ working (map snd G)).
  { clear. intros G s o f Hin Hw. unfold working. apply list_elem_of_omap. exists (o, f). split; [apply list_elem_of_fmap; by exists (s, (o, f))|]. cbn -[is_working]. by rewrite Hw. }
  induction G as [|[s1 [o1 f1]] G IH]; intros Hin Hin' Hw Hw' E; [by apply elem_of_nil in Hin|].
  assert (Hnd' : NoDup (working (map snd G)) /\ (is_working f1 = true -> vf_lxptr f1 ∉ working (map snd G))).
  { revert Hnd. unfold working. cbn -[is_working]. destruct (is_working f1); [rewrite NoDup_cons; tauto|done]. }
  destruct Hnd' as [Hnd' Hn]. rewrite elem_of_cons in Hin, Hin'. destruct Hin as [Hin|Hin], Hin' as [Hin'|Hin']; [congruence| | |by apply IH].
  - injection Hin as -> -> ->. exfalso. apply (Hn Hw). rewrite E. by apply (Hmem G s' o').
  - injection Hin' as -> -> ->. exfalso. apply (Hn Hw'). rewrite <- E. by apply (Hmem G s o).
Qed.

(** C6. Snapshot isolation: a query that runs while other transactions allocate,
    write, delete, commit and roll back, snapshots advance and checkpoints are
    made, reads of a block of its snapshot the same contents each time, wherever
    the version manager keeps them. *)
Theorem snapshot_isolation sid t s x d g1 g2 id1 sw1 g1' id2 sw2 g2' : wu_reachable approve g1 ->
  reader_of g1 sid t -> rtc (reads_on approve sid t) g1 g2 ->
  s ∈ from_current (ws_list g1) -> timestamp s = t -> reads (wpages g1) (snap_of s) x d ->
  WuGetBlock approve sid x g1 = Done (id1, sw1) g1' -> WuGetBlock approve sid x g2 = Done (id2, sw2) g2' ->
  exists pg1 pg2, frames (ws_bm g1') !! id1 = Some pg1 /\ frames (ws_bm g2') !! id2 = Some pg2
    /\ content_of pg1 = d /\ content_of pg2 = d.
Proof.
  intros Hr Hrd Hst Hs Et Hx H1 H2. assert (Hok := wu_reachable_ok approve g1 Hr).
  assert (Hrd2 : reader_of g2 sid t) by (apply rtc_inv_r in Hst as [<-|(g & _ & _ & _ & ?)]; done).
  assert (Hok2 : ws_ok g2) by (apply (wu_next_ok approve g1 g2 Hok); eapply rtc_subrel; [|exact Hst]; by intros ? ? (_ & ? & _)).
  assert (Hrd2' := Hrd2). destruct Hrd2' as [v2 Hc2]. destruct (reader_occupied g2 sid _ v2 Hok2 Hc2 eq_refl) as (s2 & _ & Hs2 & Et2 & _). cbn in Et2.
  destruct (reader_steps approve sid t g1 g2 s s2 Hok Hst Hs Et Hs2 Et2) as (_ & _ & Hsame).
  destruct (reader_gets g1 sid t s x d id1 sw1 g1' Hok Hrd Hs Et Hx H1) as (pg1 & P1 & P2).
  destruct (reader_gets g2 sid t s2 x d id2 sw2 g2' Hok2 Hrd2 Hs2 Et2) as (pg2 & P3 & P4); [by apply Hsame|done|]. by exists pg1, pg2.
Qed.

(** C9. The version manager is a store with a committed state and snapshots of
    it: a call leaves what every snapshot reads, a new snapshot reads the
    committed state, and the committed state changes when an updater commits,
    in one step, to the blocks it wrote and without the blocks it deleted, and
    at no other time. *)
Theorem calls_refine_store c g g' : wu_reachable approve g -> wu_step approve c g g' ->
  wu_reachable approve g' /\ keeps_reads (wpages g) (wpages g')
  /\ forall x d, committed (wpages g') x d <->
       match commits_by c g with Some fs => commit_effect (wpages g) fs x d | None => committed (wpages g) x d end.
Proof.
  intros Hr Hstep. destruct (wu_step_ok approve c g g' (wu_reachable_ok approve g Hr) Hstep) as (_ & K1 & K2).
  split; [|by split]. destruct Hr as (g0 & H0' & Hr). exists g0. split; [done|]. eapply rtc_r; [exact Hr|by exists c].
Qed.

(** C14. A query that starts after the snapshots have advanced reads the state
    that was committed then. *)
Theorem query_reads_committed sid g g1 g2 ts x d id sw g3 : wu_reachable approve g -> collects g ->
  WuTryAdvanceSnapshots g = Done true g1 -> WuOnRegisterTransaction sid true g1 = Done ts g2 ->
  committed (wpages g) x d -> WuGetBlock approve sid x g2 = Done (id, sw) g3 ->
  reader_of g2 sid ts /\ exists pg, frames (ws_bm g3) !! id = Some pg /\ content_of pg = d.
Proof.
  intros Hr Hcol H1 H2 Hx H3. assert (Hok := wu_reachable_ok approve g Hr). destruct (advance_step g true g1 Hok Hcol H1) as (Hok1 & _ & _ & Hnew).
  destruct (Hnew eq_refl) as (s & rest & Ef & Hd & Hrd). destruct (register_step sid true g1 ts g2 Hok1 ltac:(done) H2) as (Hok2 & [Hold _] & _).
  destruct (register_current sid g1 ts g2 Hok1 H2) as (s' & rest' & v & Ef' & _ & -> & Hc). rewrite Ef in Ef'. injection Ef' as <- <-.
  assert (Hrd2 : reader_of g2 sid (timestamp s)) by (by exists v). split; [done|]. destruct (reader_occupied g2 sid _ v Hok2 Hc eq_refl) as (s2 & Hu2 & Hs2 & Et2 & _). cbn in Et2.
  apply (reader_gets g2 sid (timestamp s) s2 x d id sw g3 Hok2 Hrd2 Hs2 Et2); [|done].
  assert (Hv : snap_of s2 ∈ snapshot_views (ws_list g2)) by (unfold snapshot_views; apply list_elem_of_fmap; by exists s2).
  destruct (Hold _ Hv) as [Hv1 Hsame]. apply Hsame. unfold snapshot_views in Hv1. apply list_elem_of_fmap in Hv1 as (s1 & E1 & Hs1). destruct (undamaged_viewer _ _ Hs1) as (Hin1 & _).
  assert (E : s1 = s). { apply (live_unique g1 s1 s Hok1 Hin1); [rewrite Ef; left|]. unfold snap_of in E1. injection E1 as E1 _. congruence. }
  rewrite E1, E. by apply Hrd.
Qed.

(** C15. A transaction can write to the page of a block in use only if it is an
    updater at work that has allocated the block or made a new version of it,
    and no other client has; the write is noticed by no snapshot and does not
    change the committed state. *)
Theorem exclusive_access sid x d g g' : wu_reachable approve g -> in_use g x -> is_Some (ws_clients g !! sid) -> write_page sid x d g = Done tt g' ->
  unnoticed g g' /\ exists c v fs f, ws_clients g !! sid = Some (c, v) /\ statusAndType c = SN_UPDATER_TRANSACTION /\ isCompleted v = false
    /\ functionList v = Some fs /\ f ∈ fs /\ is_working f = true /\ vf_lxptr f = x
    /\ forall sid' o' f', (sid', (o', f')) ∈ pend (ws_clients g) -> is_working f' = true -> vf_lxptr f' = x -> sid' = sid.
Proof.
  intros Hr Hx [c0 Hc0] Hw. assert (Hok := wu_reachable_ok approve g Hr). assert (Hg := w_good _ Hok). assert (Hid := w_ids _ Hok sid c0 Hc0).
  split; [by apply (write_step sid x d g g' Hok Hx ltac:(lia))|]. destruct Hx as (t0 & old & Hm). unfold write_page in Hw.
  destruct (buffer_table (ws_bm g) !! x) as [id|] eqn:Ht; [|done]. destruct (frames (ws_bm g) !! id) as [pg|] eqn:Hpg; [|done]. destruct (Z.eqb_spec (pg_trid pg) sid) as [E|]; [|done].
  assert (Htr : trid_of (ws_bm g) x = sid) by (unfold trid_of; by rewrite Ht, Hpg).
  destruct (g_access _ _ _ _ _ Hg x (proj1 Hm)) as (o & f & Hin & Hwk & Hlx); [lia|]. rewrite Htr in Hin.
  assert (Hin' := Hin). apply pend_in in Hin' as (c & v & fs & Hc & Hs & Hv & Hf & -> & Hfs). exists c, v, fs, f. do 7 (split; [done|]).
  intros sid' o' f' Hin' Hwk' Hlx'. by apply (working_unique _ _ _ _ _ _ _ (i_single _ (g_iso _ _ _ _ _ Hg)) Hin' Hin Hwk' Hwk); rewrite Hlx.
Qed.

(** C16. What the persistent snapshot needs is on the disk between any two calls,
    but while a checkpoint replaces it, whether or not the snapshot is damaged:
    every version of a data block that it sees, at the block itself or at the
    place it was moved to, is in the file as it is seen, or the block is not
    written before it and still has its contents.  So is what an undamaged
    persistent snapshot reads. *)
Theorem persistent_on_disk g s : wu_reachable approve g -> ws_phase g <> CK_BEGUN ->
  s ∈ from_current (ws_list g) -> type s = SN_PERSISTENT_SNAPSHOT ->
  (forall y x t old, holds (wpages g) y x t old -> IS_DATA_BLOCK x = true -> ~ later (snap_of s) t ->
    disk_view (ws_bm g) y = view (ws_bm g) y \/ (y <> x /\ deps (ws_bm g) !! x = Some y /\ disk_view (ws_bm g) x = view (ws_bm g) y))
  /\ forall x d, isDamaged s = false -> reads (wpages g) (snap_of s) x d ->
    exists y, reads_at (wpages g) (snap_of s) x y
      /\ (disk_view (ws_bm g) y = Some d \/ (deps (ws_bm g) !! x = Some y /\ disk_view (ws_bm g) x = Some d)).
Proof.
  intros Hr Hph Hs Ty. assert (Hg := w_good _ (wu_reachable_ok approve g Hr)).
  assert (Esy : synced g = true) by (unfold synced; by destruct (ws_phase g)). assert (Hp : snap_of s ∈ pers_views (ws_list g)) by (apply pers_views_in; by exists s).
  assert (K : forall y x t old, holds (wpages g) y x t old -> IS_DATA_BLOCK x = true -> ~ later (snap_of s) t ->
    disk_view (ws_bm g) y = view (ws_bm g) y \/ (y <> x /\ deps (ws_bm g) !! x = Some y /\ disk_view (ws_bm g) x = view (ws_bm g) y)).
  { intros y x t old Hy Hdt Hn. destruct (decide (x = y)) as [<-|Hne]; [left; by apply (g_sync _ _ _ _ _ Hg Esy x t old (snap_of s) Hy Hp)|].
    destruct (g_saved _ _ _ _ _ Hg Esy x y t old (snap_of s) Hp Hy Hdt Hne Hn) as [|(E1 & E2 & _)]; [by left|right]. split; [congruence|done]. }
  split; [exact K|]. intros x d Hd (y & Hy & Ev). exists y. split; [done|]. cbn in Ev. rewrite <- Ev.
  assert (Hh : exists t old, holds (wpages g) y x t old /\ ~ later (snap_of s) t).
  { assert (Hy' := Hy). apply reads_at_cases in Hy' as (t0 & old & Hm & [[Hn ->]|[Hl Hpk]]); [by exists t0, old|]. destruct Hy as [Hgn _].
    destruct (i_kept _ (g_iso _ _ _ _ _ Hg) x t0 old (snap_of s) y Hm (viewer_live _ _ Hs Hd) Hgn Hl Hpk) as [(t1 & l1 & Hh & Hn & _) _]. by exists t1, l1. }
  destruct Hh as (t & old & Hh & Hn). assert (Hdt : IS_DATA_BLOCK x = true) by (destruct Hy as (_ & t0 & old0 & Hm & _); by apply (g_data _ _ _ _ _ Hg x x t0 old0)).
  destruct (K y x t old Hh Hdt Hn) as [|(_ & E1 & E2)]; [by left|by right].
Qed.

(** C40. The header of a new version has room: for a block without a working
    version the records of its header are found, the filter of damaged
    snapshots leaves at most three of them, [ComposeHeader] succeeds without
    damaging a snapshot, and from the header it makes every undamaged snapshot
    and the last committed state pick the version they picked before.  A version
    that only damaged snapshots need leaves the header. *)
Theorem version_header_fits g x c t0 old ts : wu_reachable approve g -> master (wpages g) x t0 old -> view (ws_bm g) x = Some c -> t0 ∉ ts_active (ws_list g) ->
  exists recs anchor out es, SnExpandDfvHeader false (ws_list g) (vh_creatorTs (ct_vh c)) OUT_SIZE false = Ok (recs, anchor)
    /\ SnFilterOutDamaged (ws_list g) recs = Ok out /\ (length out <= 3)%nat
    /\ (forall st : sn_state (ve_world D A), snapshots st = ws_list g -> ComposeHeader false (ct_vh c) x ts out st = Done ((x, ts) :: es) st)
    /\ (length es <= 3)%nat /\ forall w, w ∈ viewers (ws_list g) -> pick w es = pick w ((x, t0) :: old).
Proof.
  intros Hr Hm Hv Ht0. assert (Hg := w_good _ (wu_reachable_ok approve g Hr)). destruct (good_clock _ _ _ _ _ Hg) as [Hsn _]. destruct Hm as (_ & c' & Hv' & Hver). cbn in Hv'. rewrite Hv in Hv'. injection Hv' as <-.
  assert (Hsp := Hsn). destruct Hsp as (fut & lv & Hsp). destruct (version_creators _ _ _ _ Hver) as [Ecr Hh].
  destruct (expand_ok (ws_clock g) false (ws_list g) (vh_creatorTs (ct_vh c)) false Hsn Hh) as (a & He & _); [done|]. destruct (filter_reference _ _ _ _ (vh_creatorTs (ct_vh c)) Hsp) as (out & Hf & Hlen).
  destruct (compose_total (ct_vh c) out 3 (-1) (record_bound _ _ _ _ _ _ _ Hsn Hver Ht0 Hf)) as [[es rest] Hcomp].
  destruct (compose_header _ _ _ _ _ _ _ _ _ Hsn Hver Ht0 Hf Hcomp) as (-> & es' & -> & Hl & _ & Hpick).
  exists (expand_reference (ws_list g) (vh_creatorTs (ct_vh c))), a, out, ((x, t0) :: es'). split; [done|]. split; [done|]. split.
  { assert (Hw : working_count (ws_list g) (vh_creatorTs (ct_vh c)) = 0%nat) by (rewrite Ecr; cbn; by rewrite decide_False). lia. }
  split; [intros st _; unfold ComposeHeader, wu_bind, of_res; cbn [VE_VERSIONS_COUNT Nat.sub]; by rewrite Hcomp|]. split; [cbn; lia|].
  intros w Hw. cbn. destruct (decide (later w t0)); [by apply Hpick|done].
Qed.
End Claims.

(** C27. A flush of a buffer ends, for any chain of dependencies, and issues its
    writes in their order: it makes the requests [evs] of the system, which
    write only pages as they are seen, of the block [p] and of blocks it
    depends on, and which give the file its new contents.  Every write of a
    block comes behind a barrier that follows the write of the block it depends
    on ([dep_order]), unless this one was in the file before or the dependencies
    lead back.  A flush with [sync] ends in a barrier.  In the end the buffer is
    clean, no page seen through the buffers has changed, and a block whose
    dependency is left has not been written. *)
Theorem flush_ordered {D A} (isPersSnapshotVersion : VersionsHeader -> option bool) (b : bm D A) id p sync :
  bm_ok b -> headers_filled isPersSnapshotVersion b -> buffer_table b !! p = Some id ->
  exists r b' evs, flush_buffer isPersSnapshotVersion id sync b = Done r b'
    /\ io b' = io b ++ evs /\ disk b' = replay evs (disk b)
    /\ (forall x pg, IO_WRITE x pg ∈ evs -> leads b p x /\ view b x = Some (content_of pg))
    /\ dep_order b evs
    /\ (r = true -> exists l pg, evs = l ++ IO_WRITE p pg :: (if sync then [IO_SYNC] else []))
    /\ bm_ok b' /\ is_clean b' id
    /\ (forall x, view b' x = view b x)
    /\ (forall x, disk_view b' x = disk_view b x \/ disk_view b' x = view b x)
    /\ forall x y, deps b !! x = Some y -> (deps b' !! x = Some y /\ disk_view b' x = disk_view b x) \/ disk_view b' y = view b y.
Proof.
  intros Hok Hf Hp. assert (Hid : id ∈ used_mem b) by apply (ok_table _ _ Hok _ _ Hp).
  destruct (flush_total _ (used_mem b) id sync b Hok Hf Hid) as (r & b' & Hrun). destruct (flush_buffer_ok _ _ _ _ _ _ _ Hok Hid Hrun) as [Hfl Hcl].
  destruct (flush_traced _ _ _ _ _ _ _ _ Hok Hp Hrun) as (evs & [T1 T2 T3 T4 T5 _]). exists r, b', evs. do 6 (split; [done|]).
  assert (Hc := fl_calm _ _ _ Hfl). destruct (fl_same _ _ _ Hfl) as (_ & _ & _ & Eu & _). split; [unfold bm_ok; rewrite Eu; apply (fl_ok _ _ _ Hfl)|]. split; [done|].
  split; [intros x; by apply calm_view|]. split; [intros x; by apply calm_disk|]. intros x y Hd. destruct (off_saved _ _ _ (proj1 Hc) x y Hd) as [Hd'|]; [tauto| |by right]. left. split; [done|]. by apply (calm_deps _ _ _ _ Hc Hd').
Qed.

(** ** Free blocks *)

Section FreeBlocks.
Context {D : Type} (LAYER capacity max_file : Z) `{LayoutOk D capacity} (approve : Z -> XPTR -> bool)
  (isPersSnapshotVersion : bm D bm_masterblock -> VersionsHeader -> option bool) (stamp persTs : bm D bm_masterblock -> TIMESTAMP)
  (Hcap : 0 < capacity) (HL : 0 < LAYER) (HLmax : LAYER < 2 ^ 32) (Hmax : max_file <= (TMP_LAYER_STARTS_WITH - 1) * LAYER + PAGE_SIZE)
  (Hpers : forall b h, isPersSnapshotVersion b h <> None).
Abbreviation new_block := (new_data_block_impl LAYER capacity max_file approve isPersSnapshotVersion stamp persTs).
Abbreviation push_block := (push_data_block capacity approve isPersSnapshotVersion stamp persTs).
Abbreviation list_of := (free_list LAYER capacity max_file).

(** C19. The stack of free blocks, kept in the free blocks themselves and reached
    through the buffers, is a list: allocation fetches its first block, a freed
    block comes in front, and neither fails, nor changes a page that is in use.
    This needs that some buffer may be taken (it is not on stake and it is free,
    or no transaction refuses to unmap its page), that no transaction refuses
    to unmap a free block or the one that is freed, that the buffer on stake, if
    any, is not one of a free block, and that every page has a header the
    versions can read ([ready]).
    When the list is empty the file grows by its extending portion, its blocks
    for pointers are fetched in the order of the file, and the blocks set aside
    for nodes are enough; when the file may not grow an exception is the only
    effect, but for the log. *)
Theorem free_blocks_refine_list (b : bm D bm_masterblock) l : ready approve (free_block LAYER max_file b) b -> list_of b l ->
  match l with
  | x :: rest => exists b', new_block b = Done x b' /\ list_of b' rest /\ forall y, y ∉ l -> view b' y = view b y
  | [] =>
      let lo := data_file_cur_size (mb b) in let n := data_file_extending_portion (mb b) in
      (may_grow max_file b n -> exists x rest k b', new_block b = Done x b' /\ list_of b' rest /\ data_file_cur_size (mb b') = lo + n * PAGE_SIZE
        /\ interleave (blocks_from LAYER (lo + Z.of_nat k * PAGE_SIZE) (Z.to_nat n - k)) (rev (blocks_from LAYER lo k)) (x :: rest)
        /\ forall y, ~ beyond LAYER max_file b y -> view b' y = view b y)
      /\ (~ may_grow max_file b n -> exists b', new_block b = Failed WUERR_SEDNA_EXCEPTION b' /\ b' = set_log (log b') (durable b') b)
  end
  /\ forall x, ~ free_block LAYER max_file b x -> x <> 0 -> IS_DATA_BLOCK x = true -> buffer_table b !! x = None -> is_Some (disk b !! x) -> approve (-1) x = true ->
    exists b', push_block x b = Done tt b' /\ list_of b' (x :: l) /\ forall y, y ∉ x :: l -> view b' y = view b y.
Proof.
  intros Hr Hl. assert (HQ : forall y, beyond LAYER max_file b y \/ y ∈ l -> free_block LAYER max_file b y).
  { intros y Hy. destruct Hl as (_ & _ & room & Hch). by apply (free_chain LAYER capacity max_file b room l y Hch). }
  split.
  - destruct l as [|x rest].
    + destruct (new_data_nil LAYER capacity max_file approve isPersSnapshotVersion stamp persTs Hcap HL HLmax Hmax _ Hpers b Hr Hl ltac:(auto)) as [K1 K2]. split; [|exact K2].
      intros (x & rest & k & b' & E & [_ Hi] & Hl' & Hs & Hc)%K1. exists x, rest, k, b'. do 4 (split; [done|]). apply (off_view _ _ _ Hc).
    + destruct (new_data_cons LAYER capacity max_file approve isPersSnapshotVersion stamp persTs _ Hpers b x rest Hr Hl ltac:(auto)) as (b' & E & Hl' & Hc). exists b'. do 2 (split; [done|]). apply (off_view _ _ _ Hc).
  - intros x Hf Hx0 Hdx Ht Hd Hax. assert (Hr' : ready approve (fun y => free_block LAYER max_file b y \/ y = x) b).
    { destruct Hr as [Hok (R1 & R2 & R3 & R4)]. split; [done|]. split; [done|]. split; [done|]. split; [intros y [Hy| ->]; [by apply R3|done]|].
      destruct R4 as [|(z & Hz & Htz)]; [by left|right]. exists z. split; [|done]. intros [?| ->]; [done|congruence]. }
    destruct (push_data_total LAYER capacity max_file approve isPersSnapshotVersion stamp persTs _ Hpers b x l Hr' Hl) as [b' E]; [|done|done|done|].
    { intros y [->|Hy]%elem_of_cons; [by right|left; auto]. }
    destruct (push_data_list LAYER capacity max_file approve isPersSnapshotVersion stamp persTs Hcap b x b' l (proj1 Hr) Hl Hf Hx0 Hdx Ht Hd E) as (_ & Hl' & _ & Hc & _). exists b'. do 2 (split; [done|]). apply (off_view _ _ _ Hc).
Qed.
End FreeBlocks.

(** ** Witnesses *)

(** The values [reads_of] finds are those the theorems speak about. *)
Ltac evaluate := vm_compute; reflexivity.
Ltac evaluate_ne := vm_compute; discriminate.

Ltac from_start := apply run_from_reachable; [|eexists; evaluate].

Lemma one_reader_reachable : wu_reachable approved one_reader.
Proof. from_start. apply first_state_reachable. Qed.

Lemma snapshot_isolation_witness :
  exists pg1 pg2 id1 sw1 g1' id2 sw2 g2', WuGetBlock approved 1 BLK one_reader = Done (id1, sw1) g1' /\ WuGetBlock approved 1 BLK two_versions = Done (id2, sw2) g2'
    /\ frames (ws_bm g1') !! id1 = Some pg1 /\ frames (ws_bm g2') !! id2 = Some pg2 /\ pg_data pg1 = word 7 /\ pg_data pg2 = word 7
    /\ (ct_data <$> view (ws_bm two_versions) BLK) = Some (word 8).
Proof.
  destruct (WuGetBlock approved 1 BLK one_reader) as [[id1 sw1] g1'|e1 g1'] eqn:E1; [|vm_compute in E1; discriminate].
  destruct (WuGetBlock approved 1 BLK two_versions) as [[id2 sw2] g2'|e2 g2'] eqn:E2; [|vm_compute in E2; discriminate].
  destruct (run_reading_steps approved 1 65538 new_version one_reader two_versions) as [R1 R2]; [evaluate|].
  destruct (snapshot_isolation approved 1 65538 (front one_reader) BLK (read_by one_reader (snap_of (front one_reader)) BLK) one_reader two_versions id1 sw1 g1' id2 sw2 g2')
    as (pg1 & pg2 & P1 & P2 & P3 & P4);
    [apply one_reader_reachable|exact R1|exact R2|apply front_live; evaluate_ne|evaluate|apply read_by_ok; eexists; evaluate|exact E1|exact E2|].
  exists pg1, pg2, id1, sw1, g1', id2, sw2, g2'. split; [done|]. split; [done|]. split; [done|]. split; [done|].
  apply (f_equal ct_data) in P3, P4. split; [exact (eq_trans P3 ltac:(evaluate))|]. split; [exact (eq_trans P4 ltac:(evaluate))|]. evaluate.
Defined.

Lemma calls_refine_store_witness : exists g' fs, wu_call approved (CommitTransaction 2) version_written = Some g' /\ map vf_lxptr fs = [BLK] /\ wu_reachable approved g'
  /\ forall d, committed (wpages g') BLK d <-> commit_effect (wpages version_written) fs BLK d.
Proof.
  destruct (wu_call approved (CommitTransaction 2) version_written) as [g'|] eqn:E; [|vm_compute in E; discriminate].
  destruct (commits_by (CommitTransaction 2) version_written) as [fs|] eqn:Ef; [|vm_compute in Ef; discriminate].
  destruct (calls_refine_store approved (CommitTransaction 2) version_written g') as (K1 & K2 & K3); [from_start; apply one_reader_reachable|split; [exact I|exact E]|]. rewrite Ef in K3.
  exists g', fs. split; [done|]. split; [|split; [exact K1|intros d; apply K3]]. vm_compute in Ef. injection Ef as <-. reflexivity.
Defined.

Lemma query_reads_committed_witness : exists ts id sw g1 g2 g3 pg, WuTryAdvanceSnapshots one_block = Done true g1 /\ WuOnRegisterTransaction 1 true g1 = Done ts g2
  /\ WuGetBlock approved 1 BLK g2 = Done (id, sw) g3 /\ frames (ws_bm g3) !! id = Some pg /\ pg_data pg = word 7.
Proof.
  destruct (WuTryAdvanceSnapshots one_block) as [[] g1|e1 g1] eqn:E1; [|vm_compute in E1; discriminate..].
  destruct (WuOnRegisterTransaction 1 true g1) as [ts g2|e2 g2] eqn:E2; [|vm_compute in E1; injection E1 as <-; vm_compute in E2; discriminate].
  destruct (WuGetBlock approved 1 BLK g2) as [[id sw] g3|e3 g3] eqn:E3; [|vm_compute in E1; injection E1 as <-; vm_compute in E2; injection E2 as <- <-; vm_compute in E3; discriminate].
  destruct (query_reads_committed approved 1 one_block g1 g2 ts BLK (read_by one_block (last_committed (ws_list one_block)) BLK) id sw g3) as (_ & pg & P1 & P2);
    [from_start; apply first_state_reachable|eexists; evaluate|exact E1|exact E2|apply read_by_ok; eexists; evaluate|exact E3|].
  exists ts, id, sw, g1, g2, g3, pg. do 4 (split; [done|]). apply (f_equal ct_data) in P2. exact (eq_trans P2 ltac:(evaluate)).
Defined.

Lemma exclusive_access_witness : exists g', write_page 2 BLK (word 8) version_made = Done tt g' /\ unnoticed version_made g'.
Proof.
  destruct (write_page 2 BLK (word 8) version_made) as [[] g'|e g'] eqn:E; [|vm_compute in E; discriminate].
  destruct (exclusive_access approved 2 BLK (word 8) version_made g') as [K _]; [from_start; apply one_reader_reachable|apply in_useb_ok; eexists; evaluate|eexists; evaluate|exact E|]. exists g'. split; [reflexivity|exact K].
Defined.

(** The new version is in the buffers only, and waits for the old one, the one
    of a persistent snapshot that an advance has damaged. *)
Lemma persistent_on_disk_witness : let s := List.last (from_current (ws_list left_behind)) (init_snapshot 0) in
  isDamaged s = true /\ (disk_view (ws_bm left_behind) (BLK - PAGE_SIZE) = view (ws_bm left_behind) (BLK - PAGE_SIZE)
    \/ (BLK - PAGE_SIZE <> BLK /\ deps (ws_bm left_behind) !! BLK = Some (BLK - PAGE_SIZE) /\ disk_view (ws_bm left_behind) BLK = view (ws_bm left_behind) (BLK - PAGE_SIZE))).
Proof.
  intros s. split; [evaluate|]. destruct (persistent_on_disk approved left_behind s) as [K _]; [from_start; apply first_state_reachable|evaluate_ne| |evaluate|].
  - apply list_elem_of_In. apply (nth_error_In _ 1). evaluate.
  - apply (K (BLK - PAGE_SIZE) BLK 65537 []); [|evaluate|].
    + apply holds_of_ok. evaluate.
    + apply (bool_decide_unpack _). vm_compute. exact I.
Defined.

Lemma version_header_fits_witness : exists out, (length out <= 3)%nat /\ exists es, (length es <= 3)%nat
  /\ forall st : sn_state (ve_world words bm_masterblock), snapshots st = ws_list one_reader -> ComposeHeader false (fill_entries [(BLK, 65537)]) BLK 65539 out st = Done ((BLK, 65539) :: es) st.
Proof.
  destruct (version_header_fits approved one_reader BLK (default (mk_content 0 ResetHeader ∅) (view (ws_bm one_reader) BLK)) 65537 [] 65539) as (recs & a & out & es & _ & _ & L1 & K & L2 & _);
    [apply one_reader_reachable|apply master_of_ok; evaluate|evaluate|apply (bool_decide_unpack _); vm_compute; exact I|].
  exists out. split; [exact L1|]. exists es. split; [exact L2|]. intros st Hst. exact (K st Hst).
Defined.

(** The block of a version that moved depends on the block it moved to, which
    is written first, between barriers. *)
Lemma flush_ordered_witness : exists r b' evs, flush_buffer (IsPersSnapshotVersion false (ws_list moved)) 2 true (ws_bm moved) = Done r b'
  /\ io b' = io (ws_bm moved) ++ evs /\ map written_block evs = [0; BLK - PAGE_SIZE; 0; 0; BLK; 0] /\ dep_order (ws_bm moved) evs.
Proof.
  assert (Hok : bm_ok (ws_bm moved)) by (apply g_bm with (1 := w_good _ (wu_reachable_ok approved moved ltac:(from_start; apply first_state_reachable)))).
  destruct (flush_ordered (IsPersSnapshotVersion false (ws_list moved)) (ws_bm moved) 2 BLK true Hok) as (r & b' & evs & K1 & K2 & _ & _ & K3 & _);
    [apply headers_filledb_ok; evaluate|evaluate|]. exists r, b', evs. split; [exact K1|]. split; [exact K2|]. split; [|exact K3].
  apply (f_equal (map written_block)) in K2. rewrite map_app in K2. apply (f_equal (fun o => map written_block (io (out_state o)))) in K1. cbn [out_state] in K1. rewrite <- K1 in K2.
  symmetry. apply (app_inv_head (map written_block (io (ws_bm moved)))). rewrite <- K2. evaluate.
Defined.

(** The first block of an empty file, and the five it gets. *)
Lemma free_blocks_refine_list_witness : exists rest b', new_data_block_impl layer_size 2 file_limit approved not_version still still four_buffers = Done BLK b'
  /\ free_list layer_size 2 file_limit b' rest /\ rest = [BLK - PAGE_SIZE; BLK + PAGE_SIZE; BLK + 2 * PAGE_SIZE; BLK - 2 * PAGE_SIZE].
Proof.
  destruct (free_blocks_refine_list layer_size 2 file_limit approved not_version still still ltac:(evaluate) ltac:(evaluate) ltac:(evaluate) ltac:(evaluate_ne) ltac:(done) four_buffers []) as [[K _] _].
  - split; [apply four_buffers_ok|]. split; [exists 0; split; [done|left; left]|]. split; [intros x c Hv; by rewrite nothing_seen in Hv|]. split; [done|by left].
  - split; [apply empty_file_ok|]. split; [split; [by apply NoDup_nil|]; intros x Hx; by apply elem_of_nil in Hx|exists 0; constructor].
  - destruct K as (x & rest & k & b' & E & Hl & _); [split; [left; evaluate_ne|evaluate_ne]|]. assert (E' := E). vm_compute in E'. injection E' as <- Eb. exists rest, b'. split; [exact E|]. split; [exact Hl|].
    destruct Hl as (_ & _ & room & Hch). symmetry. destruct (chain_list_ok 2 100 b' (free_data_blocks (mb b')) [BLK - PAGE_SIZE; BLK + PAGE_SIZE; BLK + 2 * PAGE_SIZE; BLK - 2 * PAGE_SIZE]) as [room' Hch']; [rewrite <- Eb; evaluate|]. exact (chain_unique _ _ _ _ _ Hch' _ _ Hch).
Defined.
